(* ===== verification/_CoqProject ===== *)
-Q . S2P
Prelude.v
Double.v
ModArith.v
SplittableMrg.v
MrgTransitions.v
MrgTable.v
Scramble.v
GraphGen.v
Bfs.v
Verify.v
SeqCsr.v
SeqList.v
Graph500.v
QueuePair.v
IntSort.v
IntRank.v
Rbt.v
RbtTree.v
Groups.v
RbtHeap.v
RbtInsert.v
RbtGroup.v
RbtWrite.v
DataCube.v
DataRuns.v
DataBuffer.v
DataMerge.v
DataView.v
DataRollup.v
JobPool.v
JobBits.v
Prefixed.v
JobParent.v
CubeLoop.v
JobSplit.v
JobSort.v
JobDeal.v
ViewSizes.v
AdcFactor.v
AdcSizes.v
AdcLcm.v
AdcOrder.v
AdcRows.v
AdcText.v
AdcPredict.v
CubeCheck.v
Dc.v
DcSetup.v
DcViews.v
DcRun.v
DcMain.v
DcClassS.v
Uts.v
UtsDfs.v
Deque.v
Alfg.v
Sha1.v
StealStack.v
StealSearch.v
StealLiveness.v
