(* ===== verification/Prelude.v ===== *)
(** * C programs of a course on computer architecture, verified

    The repository collects the material of a course.  Its programs in C are
    benchmarks that come with the Grappa runtime (src/grappa/applications) and
    the user-level library of soNUMA (src/Projects/final-project/sonuma-vm).
    This library models, of those, the sequential Graph500 benchmark, the
    multi-threaded Unbalanced Tree Search (UTS), the integer sort and the data
    cube of the NAS Parallel Benchmarks (NPB), and the queue pair of soNUMA,
    and proves what makes them correct.

    ** Style

    A C function is a function in the monad [res] of this file: it returns
    [Ok] of a result, or stops with a fault.  An access outside an object, a
    signed overflow and the other kinds of undefined behaviour are faults, so
    a theorem that says that a function returns [Ok] says that it is free of
    them.  An integer is the number that it represents: arithmetic on
    unsigned integers wraps around explicitly ([u32], [u64]), arithmetic on
    signed ones is checked ([chk]), and the size of an array that is asked of
    an allocator wraps around as size_t does ([size_of]).  Arrays are lists
    with checked accesses ([l.[i]], [l.[i <- x]]); static variables and structures are records that
    are passed on.  Loops over a range are [for_range], other loops [while]
    with fuel.  Programs with several processes are step relations.

    ** Parts

    - This file: outcomes, machine integers, arrays, loops, and lemmas on
      them.  [Double.v]: C's [double], by the Standard Library's [SpecFloat].

    - Graph500, src/grappa/applications/graph500.  [ModArith.v] is
      generator/mod_arith*.h, [SplittableMrg.v] generator/splittable_mrg.c,
      [MrgTransitions.v] and [MrgTable.v] generator/mrg_transitions.c,
      [Scramble.v] and [GraphGen.v] generator/graph_generator.c and
      make_graph.c, [Verify.v] verify.c, [SeqCsr.v] seq-csr/seq-csr.c,
      [SeqList.v] seq-list/seq-list.c, [Graph500.v] graph500.c, prng.c and
      xalloc.c.  The arithmetic headers are behind the interface [ModOps] with
      the laws [ModLaws], the search kernels behind the class [Kernel], whose
      laws are stated with the breadth-first trees of [Bfs.v].

    - soNUMA: [QueuePair.v] is libsonuma/sonuma.h and the loop of
      softrmc_daemon/rmcd.cpp for a queue pair: two processes that share a
      work queue and a completion queue.

    - NPB, integer sort: [IntSort.v] is SERIAL/IS/is.c; [IntRank.v] is about
      its ranking.

    - NPB, data cube, SERIAL/DC.  [Rbt.v] is rbt.c: a red-black tree, linked
      by pointers in a pool of memory, that groups records by their attributes
      and adds up their measures.  [DataCube.v] is extbuild.c: a view is
      computed by the tree or, when the pool is too small, by sorted chunks on
      a file and their merge.  [JobPool.v] is jobcntl.c: the bit tuples that
      stand for views, and the pool of computed views in which the parent of a
      view is found; [JobBits.v] and [JobParent.v] are about them.
      [CubeLoop.v] is the loop of extbuild.c over all views.  [JobSplit.v] is
      the rest of jobcntl.c, heap sort and dealing the views to the tasks
      ([JobSort.v], [JobDeal.v]); [ViewSizes.v] is the text of view sizes and
      the two functions that read it, PartitionCube and
      ViewSizesVerification.
      [Groups.v] says what the groups of a list of records are, [RbtTree.v]
      has red-black trees as values.  [RbtHeap.v], [RbtInsert.v],
      [RbtGroup.v], [RbtWrite.v] relate the memory to them; [DataRuns.v],
      [DataBuffer.v], [DataMerge.v], [DataView.v] are about the steps of a
      view, [DataRollup.v] about views that are computed from views.
      [Prefixed.v] is the aggregation of rows that come in the order of the
      view, an option of extbuild.c.
      [AdcFactor.v] and [AdcSizes.v] are adc.c, the rows of the input and the
      text of view sizes, with the tables of primes and factorizations behind
      it; [AdcLcm.v], [AdcOrder.v], [AdcRows.v], [AdcText.v], [AdcPredict.v]
      are about the least common multiples, the orders of elements that they
      are, the rows, the text, and that the sizes are right; [CubeCheck.v] is
      about their verification.  [Dc.v] is dc.c with NewAdcViewCntl, the
      whole program: what the allocator and the files give is an
      [environment].  [DcSetup.v] and [DcRun.v] are about the control block
      and a run, [DcViews.v] has the views as a function of the rows,
      [DcMain.v] and [DcClassS.v] are about the classes.

    - UTS, src/grappa/applications/uts.  [Uts.v] is uts.c: the trees, a node's
      children computed from its random state.  [Sha1.v] is rng/brg_sha1.c,
      the generator behind the class [Rng] of [Uts.v].  [StealStack.v] is
      uts_shm.c with threads: the stacks, stealing and the barrier, as a step
      relation in which sections under a lock are one step and unlocked
      accesses to the data of other threads a step each; [StealSearch.v] has
      the invariant and its consequences, [StealLiveness.v] termination.
      [UtsDfs.v] is uts_dfs.c, the sequential search by recursion, [Deque.v]
      dlist.c and dequeue.c, queues of cells in memory, [Alfg.v] rng/alfg.c, the
      other generator: a lagged Fibonacci generator that splits by moving from
      node to node of a binary tree of sequences; as a spawn changes the parent it
      is no instance of [Rng].

    ** Theorems

    The benchmarks as a whole: main of Graph500 reports increasing roots with
    the edges of their components ([Graph500.benchmark_correct]), whichever
    kernel is linked ([Graph500.kernels_agree]); a parallel tree search prints
    the statistics of the tree ([StealSearch.search_counts_tree]) and ends
    under a fair scheduler ([StealLiveness.fair_search_terminates]); the
    integer sort leaves its keys in order ([IntRank.is_main_sorts]); the data
    cube reports the views of its rows ([DcMain.benchmark_reports]), and those
    of class S have the checksum that dc.c expects
    ([DcClassS.class_S_verified]).

    Components: the verifier accepts exactly the breadth-first search trees; the
    kernels find shortest paths; the generator is total and the same on any
    number of processes; scrambling permutes the vertices; skipping is stepping;
    the table in the source is the generated one; SHA-1 agrees with its
    standard; the lagged Fibonacci generator gives different nodes different
    sequences; the recursive search counts the tree as the parallel one does; a
    double-ended queue behaves as a list; insertion into the tree of the data
    cube keeps the balance and the groups; a view is the groups of its rows, in
    memory or by chunks; a view of a view is a view of the rows, and so is the
    one-pass aggregation of a prefix; the loop over the views computes each of
    them whatever parents it finds; the tasks get every view once; the sizes of
    views that are predicted in advance are exact; the queue pair is a FIFO
    queue whose operations are done exactly once.

    Error behaviour: which limits stop a search ([StealSearch.only_limits_stop]);
    the overflow of the integer sort with 2^31 keys
    ([IntSort.create_seq_overflow]); the size of a graph that wraps around
    ([SeqCsr.size_wraps]); failing writes of the data cube, the unchecked ones
    of the sizes of views included ([CubeLoop.kept]); the number of spawns after which the lagged Fibonacci generator stops
    ([Alfg.alfg_sequences_distinct]).  In two
    places signed arithmetic is a parameter: the sums of that generator
    ([Alfg.int_ops]), which overflow by the rules of ISO C, so that its theorems
    are about sums that wrap around; and the shift of a negative number by which
    packed edges are read ([GraphGen.Packed.shl_i64]), undefined by these rules
    and a shift of bits with GCC: the theorem on packed edges is about both.

    ** Bounds and fuel

    Fuel is never a hypothesis: every theorem is about the fuel that the model
    fixes, and enough fuel is part of what is proved.  The rejection loop of
    the edge generator has fuel ten, since ten draws in a row can not be
    rejected.  The walk through the tree of the data cube has one more than
    MAX_TREE_HEIGHT, a red-black tree in a pool of less than 2^32 bytes being
    less high than that; the merge has one more than the number of records in
    the chunks, as every turn takes one.  Searches have the number of
    vertices, as every vertex is queued once.  Sizes are bounded where the
    code needs it: fewer than 2^31 edges for the int counter of the verifier,
    fewer than 2^59 edges and vertices for the sizes of arrays ([SeqCsr.fits]),
    measures whose sums fit in 64 bits, chunks fewer than MAX_NUM_OF_CHUNKS;
    for moderate parameters of the data cube, those of the classes among
    them, the memory that view_parameters sets by default is enough
    ([DcMain.default_memory_enough]).

    ** Not modelled

    Clocks, printing and the parsing of options and of text files; what only
    allocates or frees. Of Graph500: R-MAT and Kronecker generators of earlier
    versions, the kernels for OpenMP, the XMT and MPI. Of UTS: the variants on
    MPI and UPC and the review of the depth-first search. Of NPB: the
    shared-sort aggregation of the data cube (compiled only with OPTIMIZATION),
    the variants on MPI, OpenMP and Grappa, the benchmarks in Fortran. Of soNUMA:
    the kernel driver, and the sockets and shared memory of the daemon. The
    Grappa runtime and its applications are C++.
    src/Projects/final-project/grappa is a second copy of src/grappa. *)

From Stdlib Require Export ZArith Lia Znumtheory.
From stdpp Require Export base tactics option list numbers.

#[global] Open Scope Z_scope.

(** ** Outcomes of C code

    A C function either returns a value, or stops: a failed [assert], an
    access outside an object (undefined behaviour in C), a call of [abort] or
    [exit], a signed overflow or a shift by the width or more (undefined
    behaviour again), or a loop that the chosen fuel does not cover. *)

Inductive fault : Set :=
| AssertFailed
| OutOfBounds
| Aborted
| Overflow
| OutOfFuel.

Inductive res (A : Type) : Type :=
| Ok (a : A)
| Err (f : fault).
Arguments Ok {A} _.
Arguments Err {A} _.

#[export] Instance fault_eq_dec : EqDecision fault.
Proof. solve_decision. Defined.
#[export] Instance res_eq_dec `{EqDecision A} : EqDecision (res A).
Proof. solve_decision. Defined.

#[export] Instance res_ret : MRet res := fun A a => Ok a.
#[export] Instance res_bind : MBind res := fun A B k m =>
  match m with Ok a => k a | Err f => Err f end.

(** [assert (b)] *)
Definition c_assert (b : bool) : res unit := if b then Ok tt else Err AssertFailed.

Lemma bind_Ok {A B} (a : A) (k : A -> res B) : mbind (M := res) k (Ok a) = k a.
Proof. reflexivity. Qed.

Lemma bind_Ok_inv {A B} (m : res A) (k : A -> res B) b :
  mbind (M := res) k m = Ok b -> exists a, m = Ok a /\ k a = Ok b.
Proof. destruct m; simpl; [eauto | discriminate]. Qed.

Lemma bind_assoc {A B C} (m : res A) (k : A -> res B) (l : B -> res C) :
  mbind (M := res) l (mbind (M := res) k m) = mbind (M := res) (fun a => mbind (M := res) l (k a)) m.
Proof. by destruct m. Qed.

Lemma c_assert_true b : b = true -> c_assert b = Ok tt.
Proof. by intros ->. Qed.

(** Takes a hypothesis [m = Ok _] about a chain of binds apart. *)
Ltac inv_ok :=
  repeat match goal with
  | H : mbind (M := res) _ _ = Ok _ |- _ =>
      let a := fresh "a" in let Ha := fresh "Ha" in
      apply bind_Ok_inv in H as (a & Ha & H)
  | H : c_assert ?b = Ok _ |- _ =>
      let E := fresh "E" in
      destruct b eqn:E; simpl in H; [clear H | discriminate H]
  | H : Ok _ = Ok _ |- _ => injection H as H; try subst
  | H : Err _ = Ok _ |- _ => discriminate H
  end.

(** Takes [Forall P] of an explicit list apart. *)
Ltac inv_forall :=
  repeat match goal with H : Forall _ (_ :: _) |- _ => apply Forall_cons_1 in H as [? H] end.

(** ** Machine integers

    A value of a [w]-bit unsigned type is its representative in [0, 2^w); a
    value of a [w]-bit signed type its representative in [-2^(w-1), 2^(w-1)). *)

Definition unsigned (w x : Z) : Z := x mod 2 ^ w.
Definition signed (w x : Z) : Z := (x + 2 ^ (w - 1)) mod 2 ^ w - 2 ^ (w - 1).

Abbreviation u8 := (unsigned 8).
Abbreviation u16 := (unsigned 16).
Abbreviation u32 := (unsigned 32).
Abbreviation u64 := (unsigned 64).
Abbreviation i16 := (signed 16).
Abbreviation i32 := (signed 32).
Abbreviation i64 := (signed 64).

Lemma unsigned_small w x : 0 <= x < 2 ^ w -> unsigned w x = x.
Proof. apply Z.mod_small. Qed.

Lemma unsigned_range w x : 0 <= w -> 0 <= unsigned w x < 2 ^ w.
Proof. intros. apply Z.mod_pos_bound. lia. Qed.

Lemma signed_small w x : 0 < w -> - 2 ^ (w - 1) <= x < 2 ^ (w - 1) -> signed w x = x.
Proof.
  intros Hw Hx. unfold signed.
  assert (2 ^ w = 2 * 2 ^ (w - 1)) by (rewrite <- Z.pow_succ_r by lia; f_equal; lia).
  rewrite Z.mod_small; lia.
Qed.

Lemma signed_range w x : 0 < w -> - 2 ^ (w - 1) <= signed w x < 2 ^ (w - 1).
Proof.
  intros Hw. unfold signed.
  assert (2 ^ w = 2 * 2 ^ (w - 1)) by (rewrite <- Z.pow_succ_r by lia; f_equal; lia).
  pose proof (Z.mod_pos_bound (x + 2 ^ (w - 1)) (2 ^ w) ltac:(lia)). lia.
Qed.

(** Conversion to unsigned forgets a conversion to signed of the same width. *)
Lemma unsigned_signed w x : 0 < w -> unsigned w (signed w x) = unsigned w x.
Proof.
  intros Hw. unfold unsigned, signed.
  rewrite Zminus_mod_idemp_l. f_equal. lia.
Qed.

(** Signed arithmetic that must not overflow: the result when it fits. *)
Definition chk (w x : Z) : res Z :=
  if ((- 2 ^ (w - 1) <=? x) && (x <? 2 ^ (w - 1)))%bool then Ok x else Err Overflow.

Lemma chk_ok w x : - 2 ^ (w - 1) <= x < 2 ^ (w - 1) -> chk w x = Ok x.
Proof.
  intros H. unfold chk.
  destruct (Z.leb_spec (- 2 ^ (w - 1)) x), (Z.ltb_spec x (2 ^ (w - 1))); simpl; lia || done.
Qed.

Lemma chk_Ok_inv w x y : chk w x = Ok y -> y = x /\ - 2 ^ (w - 1) <= x < 2 ^ (w - 1).
Proof.
  unfold chk. destruct (Z.leb_spec (- 2 ^ (w - 1)) x), (Z.ltb_spec x (2 ^ (w - 1))); simpl; try done.
  intros [= <-]. lia.
Qed.

(** A shift of a [w]-bit unsigned operand: the shift count must be below the
    width, otherwise the behaviour is undefined. *)
Definition shr (w x n : Z) : res Z :=
  if ((0 <=? n) && (n <? w))%bool then Ok (Z.shiftr x n) else Err Overflow.
Definition shl (w x n : Z) : res Z :=
  if ((0 <=? n) && (n <? w))%bool then Ok (unsigned w (Z.shiftl x n)) else Err Overflow.

(** A left shift of a signed operand, whose result must be representable. *)
Definition sshl (w x n : Z) : res Z :=
  if ((0 <=? n) && (n <? w))%bool then chk w (Z.shiftl x n) else Err Overflow.

Lemma shr_ok w x n : 0 <= n < w -> shr w x n = Ok (Z.shiftr x n).
Proof. intros. unfold shr. destruct (Z.leb_spec 0 n), (Z.ltb_spec n w); simpl; lia || done. Qed.

Lemma shl_ok w x n : 0 <= n < w -> shl w x n = Ok (unsigned w (Z.shiftl x n)).
Proof. intros. unfold shl. destruct (Z.leb_spec 0 n), (Z.ltb_spec n w); simpl; lia || done. Qed.

Lemma sshl_ok w x n : 0 <= n < w -> - 2 ^ (w - 1) <= x * 2 ^ n < 2 ^ (w - 1) ->
  sshl w x n = Ok (x * 2 ^ n).
Proof.
  intros Hn Hx. unfold sshl. rewrite Z.shiftl_mul_pow2 by lia.
  destruct (Z.leb_spec 0 n), (Z.ltb_spec n w); simpl; try lia. by apply chk_ok.
Qed.

(** *** Bits *)

Lemma unsigned_testbit w x i : 0 <= w ->
  Z.testbit (unsigned w x) i = ((i <? w) && Z.testbit x i)%bool.
Proof.
  intros Hw. unfold unsigned. destruct (Z.ltb_spec i w); simpl.
  - by apply Z.mod_pow2_bits_low.
  - by apply Z.mod_pow2_bits_high.
Qed.

Lemma testbit_above w x i : 0 <= x < 2 ^ w -> 0 <= w <= i -> Z.testbit x i = false.
Proof.
  intros Hx Hi. rewrite <- (Z.mod_small x (2 ^ w)) by done. apply Z.mod_pow2_bits_high. lia.
Qed.

(** A nonnegative number all of whose bits from [w] on are 0 is below 2^w. *)
Lemma bits_bound w x : 0 <= w -> 0 <= x -> (forall i, w <= i -> Z.testbit x i = false) -> x < 2 ^ w.
Proof.
  intros Hw Hx H. replace x with (x mod 2 ^ w); [apply Z.mod_pos_bound; lia|].
  apply Z.bits_inj'. intros i Hi. destruct (Z.lt_ge_cases i w).
  - apply Z.mod_pow2_bits_low. lia.
  - rewrite Z.mod_pow2_bits_high by lia. symmetry. by apply H.
Qed.

(** Equality of the low [w] bits. *)
Lemma mod_pow2_bits_inj w x y : 0 <= w ->
  (forall i, 0 <= i < w -> Z.testbit x i = Z.testbit y i) -> x mod 2 ^ w = y mod 2 ^ w.
Proof.
  intros Hw H. apply Z.bits_inj'. intros i Hi. destruct (Z.lt_ge_cases i w).
  - rewrite !Z.mod_pow2_bits_low by lia. apply H. lia.
  - by rewrite !Z.mod_pow2_bits_high by lia.
Qed.

(** A disjunction whose operands occupy different bits is a sum. *)
Lemma lor_shift n a b : 0 <= a < 2 ^ n -> 0 <= n -> Z.lor a (b * 2 ^ n) = a + b * 2 ^ n.
Proof.
  intros Ha Hn. symmetry. apply Z.add_nocarry_lor. apply Z.bits_inj'. intros i Hi.
  rewrite Z.land_spec, Z.bits_0. destruct (Z.lt_ge_cases i n).
  - by rewrite Z.mul_pow2_bits_low, andb_false_r by lia.
  - by rewrite (testbit_above n a) by lia.
Qed.

Lemma signed_unsigned w x : 0 < w -> signed w (x mod 2 ^ w) = signed w x.
Proof. intros. unfold signed. by rewrite Zplus_mod_idemp_l. Qed.

(** A property of the indices in [0, n) checked by evaluation. *)
Definition all_below (n : nat) (f : Z -> bool) : bool :=
  forallb (fun k => f (Z.of_nat k)) (seq 0 n).

Lemma all_below_spec n f i : all_below n f = true -> 0 <= i < Z.of_nat n -> f i = true.
Proof.
  unfold all_below. rewrite forallb_forall. intros H Hi.
  specialize (H (Z.to_nat i)). rewrite Z2Nat.id in H by lia. apply H, in_seq. lia.
Qed.

(** ** Arrays

    An array of [n] elements is a list of length [n]; an index outside it is
    undefined behaviour in C. *)

Definition aget {A} (l : list A) (i : Z) : res A :=
  if 0 <=? i then
    match l !! Z.to_nat i with Some v => Ok v | None => Err OutOfBounds end
  else Err OutOfBounds.

Definition aset {A} (l : list A) (i : Z) (v : A) : res (list A) :=
  if ((0 <=? i) && (i <? Z.of_nat (length l)))%bool
  then Ok (<[Z.to_nat i := v]> l) else Err OutOfBounds.

(** The element at an index known to be inside (the default elsewhere). *)
Definition zth {A} (d : A) (l : list A) (i : Z) : A := nth (Z.to_nat i) l d.

Abbreviation zlen l := (Z.of_nat (length l)).

(** Reads as C does: [a.[i]]. *)
Declare Scope c_scope.
Delimit Scope c_scope with C.
Notation "a .[ i ]" := (aget a i) (at level 1, left associativity, format "a .[ i ]") : c_scope.
Notation "a .[ i <- v ]" := (aset a i v) (at level 1, left associativity) : c_scope.
#[global] Open Scope c_scope.

Section Arrays.
Context {A : Type} (d : A).
Implicit Types (l : list A) (i j : Z).

Lemma aget_ok l i : 0 <= i < zlen l -> aget l i = Ok (zth d l i).
Proof.
  intros Hi. unfold aget, zth. destruct (Z.leb_spec 0 i); [|lia].
  destruct (l !! Z.to_nat i) eqn:E.
  - by rewrite (nth_lookup_Some _ _ _ _ E).
  - apply lookup_ge_None in E. lia.
Qed.

Lemma aget_Ok_inv l i v : aget l i = Ok v -> 0 <= i < zlen l /\ v = zth d l i.
Proof.
  unfold aget, zth. destruct (Z.leb_spec 0 i); [|done].
  destruct (l !! Z.to_nat i) eqn:E; [|done]. intros [= ->].
  rewrite (nth_lookup_Some _ _ _ _ E).
  apply lookup_lt_Some in E. split; [lia | done].
Qed.

Lemma aset_ok l i v : 0 <= i < zlen l -> aset l i v = Ok (<[Z.to_nat i := v]> l).
Proof.
  intros Hi. unfold aset.
  destruct (Z.leb_spec 0 i), (Z.ltb_spec i (zlen l)); simpl; lia || done.
Qed.

Lemma aset_Ok_inv l i v l' :
  aset l i v = Ok l' -> 0 <= i < zlen l /\ l' = <[Z.to_nat i := v]> l.
Proof.
  unfold aset.
  destruct (Z.leb_spec 0 i), (Z.ltb_spec i (zlen l)); simpl; try done.
  by intros [= <-].
Qed.

Lemma aget_app_l l1 l2 i : i < zlen l1 -> aget (l1 ++ l2) i = aget l1 i.
Proof.
  intros. unfold aget. destruct (Z.leb_spec 0 i); [|done].
  by rewrite lookup_app_l by lia.
Qed.

Lemma aget_snoc l x i : i = zlen l -> aget (l ++ [x]) i = Ok x.
Proof.
  intros ->. unfold aget. rewrite Nat2Z.id. destruct (Z.leb_spec 0 (zlen l)); [|lia].
  by rewrite list_lookup_middle.
Qed.

Lemma zth_insert_eq l i v : 0 <= i < zlen l -> zth d (<[Z.to_nat i := v]> l) i = v.
Proof.
  intros. unfold zth. apply nth_lookup_Some, list_lookup_insert_eq. lia.
Qed.

Lemma zth_insert_ne l i j v :
  0 <= i -> 0 <= j -> i <> j -> zth d (<[Z.to_nat i := v]> l) j = zth d l j.
Proof.
  intros. unfold zth. rewrite !nth_lookup, list_lookup_insert_ne by lia. done.
Qed.

Lemma zth_insert l i j v : 0 <= i < zlen l -> 0 <= j ->
  zth d (<[Z.to_nat i := v]> l) j = if j =? i then v else zth d l j.
Proof.
  intros Hi Hj. destruct (Z.eqb_spec j i) as [->|Hne].
  - by apply zth_insert_eq.
  - apply zth_insert_ne; lia.
Qed.

Lemma zlen_insert l (n : nat) v : zlen (<[n := v]> l) = zlen l.
Proof. by rewrite length_insert. Qed.

Lemma zth_replicate (n : nat) v i : 0 <= i < Z.of_nat n -> zth d (replicate n v) i = v.
Proof. intros. apply nth_lookup_Some, lookup_replicate_2. lia. Qed.

Lemma zth_In l i : 0 <= i < zlen l -> zth d l i ∈ l.
Proof.
  intros Hi. apply list_elem_of_In. apply nth_In. lia.
Qed.

Lemma In_zth l x : x ∈ l -> exists i, 0 <= i < zlen l /\ zth d l i = x.
Proof.
  intros Hx. apply list_elem_of_lookup in Hx as [n Hn].
  exists (Z.of_nat n). unfold zth. rewrite Nat2Z.id.
  split; [apply lookup_lt_Some in Hn; lia | by apply nth_lookup_Some].
Qed.

Lemma zth_ext l l' : length l = length l' ->
  (forall i, 0 <= i < zlen l -> zth d l i = zth d l' i) -> l = l'.
Proof.
  intros Hlen H. apply (nth_ext _ _ d d Hlen).
  intros n Hn. specialize (H (Z.of_nat n) ltac:(lia)).
  unfold zth in H. by rewrite Nat2Z.id in H.
Qed.

Lemma zth_app_l l1 l2 i : 0 <= i < zlen l1 -> zth d (l1 ++ l2) i = zth d l1 i.
Proof. intros. unfold zth. apply app_nth1. lia. Qed.

Lemma zth_app_r l1 l2 i : zlen l1 <= i -> zth d (l1 ++ l2) i = zth d l2 (i - zlen l1).
Proof. intros. unfold zth. rewrite app_nth2 by lia. f_equal. lia. Qed.
End Arrays.

(** Filling an array from the left *)
Lemma fill_next {A} (l sel : list A) v : (length l < length sel)%nat ->
  (l ++ drop (length l) sel).[zlen l <- v] = Ok ((l ++ [v]) ++ drop (length (l ++ [v])) sel).
Proof.
  intros Hl. rewrite aset_ok by (rewrite length_app, length_drop; lia).
  rewrite Nat2Z.id, insert_app_r_alt, Nat.sub_diag, length_app by lia. cbn [length].
  destruct (drop (length l) sel) as [|x d] eqn:E.
  - apply (f_equal length) in E. rewrite length_drop in E. cbn in E. lia.
  - cbn [insert list_insert]. rewrite Nat.add_1_r, <- (app_assoc l [v]). cbn [app]. do 3 f_equal.
    rewrite <- Nat.add_1_r, <- drop_drop, E. done.
Qed.

(** Memory for arrays of 8-byte integers: [malloc] takes a size in bytes and
    returns a fresh array, whose contents are arbitrary, or nothing. *)
Abbreviation alloc64 := (Z -> option (list Z)).

Definition alloc_ok (w : Z) (malloc : alloc64) : Prop :=
  forall n, 0 <= n -> exists l, malloc n = Some l /\ zlen l = n / w.
Definition alloc64_ok : alloc64 -> Prop := alloc_ok 8.

(** An allocator that always succeeds; its arrays are zero. *)
Definition calloc (w : Z) : alloc64 := fun n => Some (replicate (Z.to_nat (n / w)) 0).
Definition calloc64 : alloc64 := calloc 8.

Lemma calloc_ok w : 0 < w -> alloc_ok w (calloc w).
Proof.
  intros Hw n Hn. eexists; split; [done|]. rewrite length_replicate.
  assert (0 <= n / w) by (apply Z.div_pos; lia). lia.
Qed.

Lemma calloc64_ok : alloc64_ok calloc64.
Proof. by apply calloc_ok. Qed.

Lemma alloc64_items malloc n : alloc64_ok malloc -> 0 <= n ->
  exists l, malloc (n * 8) = Some l /\ zlen l = n.
Proof.
  intros Hm Hn. destruct (Hm (n * 8)) as (l & E & Hl); [lia|].
  exists l. by rewrite Hl, Z.div_mul by lia.
Qed.

(** [n * sizeof (T)] for an [n] of type int64_t and a type of [w] bytes: the
    product is a size_t, and wraps around. *)
Definition size_of (w n : Z) : Z := u64 (u64 n * w).

Lemma size_of_small w n : 0 < w -> 0 <= n -> n * w < 2 ^ 64 -> size_of w n = n * w.
Proof. intros Hw Hn Hb. unfold size_of. rewrite (unsigned_small 64 n), unsigned_small by nia. done. Qed.

Lemma alloc64_size malloc n : alloc64_ok malloc -> 0 <= n < 2 ^ 61 ->
  exists l, malloc (size_of 8 n) = Some l /\ zlen l = n.
Proof. intros Hm Hn. rewrite size_of_small by lia. apply alloc64_items; [done | lia]. Qed.

(** [xmalloc_large]: memory or no return. *)
Definition xmalloc_large (malloc : alloc64) (n : Z) : res (list Z) :=
  match malloc n with Some l => Ok l | None => Err Aborted end.

Lemma xmalloc_items w malloc n : 0 < w -> alloc_ok w malloc -> 0 <= n ->
  exists l, xmalloc_large malloc (n * w) = Ok l /\ zlen l = n.
Proof.
  intros Hw Hm Hn. destruct (Hm (n * w)) as (l & E & Hl); [nia|].
  exists l. unfold xmalloc_large. by rewrite E, Hl, Z.div_mul by lia.
Qed.

Lemma xmalloc_large_ok malloc n : alloc64_ok malloc -> 0 <= n ->
  exists l, xmalloc_large malloc (n * 8) = Ok l /\ zlen l = n.
Proof. by apply xmalloc_items. Qed.

Lemma xmalloc_size w malloc n : 0 < w -> alloc_ok w malloc -> 0 <= n -> n * w < 2 ^ 64 ->
  exists l, xmalloc_large malloc (size_of w n) = Ok l /\ zlen l = n.
Proof. intros Hw Hm Hn Hb. rewrite size_of_small by done. by apply xmalloc_items. Qed.

(** Closes [I b s] from [H : I a s] when [a = b] is linear arithmetic. *)
Ltac at_index H :=
  match goal with
  | |- ?I ?b ?s => match type of H with
                   | I ?a s => replace b with a by lia; exact H
                   end
  end.

(** ** Loops

    [for_range lo hi f s] is [for (k = lo; k < hi; ++k) f], with the state
    the body changes threaded through; [while fuel c b s] is [while (c) b]. *)

Section Loops.
Context {S : Type}.

Fixpoint for_from (n : nat) (k : Z) (f : Z -> S -> res S) (s : S) : res S :=
  match n with
  | O => Ok s
  | Datatypes.S n => s ← f k s; for_from n (k + 1) f s
  end.

Definition for_range (lo hi : Z) (f : Z -> S -> res S) (s : S) : res S :=
  for_from (Z.to_nat (hi - lo)) lo f s.

Fixpoint while (fuel : nat) (c : S -> res bool) (b : S -> res S) (s : S) : res S :=
  match fuel with
  | O => Err OutOfFuel
  | Datatypes.S fuel =>
      t ← c s;
      if (t : bool) then s ← b s; while fuel c b s else Ok s
  end.

(** Total correctness of a counting loop: the body keeps the invariant and
    does not stop. *)
Lemma for_from_inv (I : Z -> S -> Prop) (f : Z -> S -> res S) :
  forall n lo s,
  I lo s ->
  (forall k s, lo <= k < lo + Z.of_nat n -> I k s ->
     exists s', f k s = Ok s' /\ I (k + 1) s') ->
  exists s', for_from n lo f s = Ok s' /\ I (lo + Z.of_nat n) s'.
Proof.
  induction n as [|n IH]; intros lo s HI Hf; cbn [for_from].
  - exists s. split; [done|]. at_index HI.
  - destruct (Hf lo s ltac:(lia) HI) as (s1 & -> & HI1).
    destruct (IH (lo + 1) s1 HI1) as (s2 & E & HI2).
    { intros k s0 Hk. apply Hf. lia. }
    exists s2. split; [done|]. at_index HI2.
Qed.

Lemma for_range_inv (I : Z -> S -> Prop) (f : Z -> S -> res S) lo hi s :
  lo <= hi ->
  I lo s ->
  (forall k s, lo <= k < hi -> I k s -> exists s', f k s = Ok s' /\ I (k + 1) s') ->
  exists s', for_range lo hi f s = Ok s' /\ I hi s'.
Proof.
  intros Hle HI Hf. unfold for_range.
  destruct (for_from_inv I f (Z.to_nat (hi - lo)) lo s HI) as (s' & E & HI').
  { intros k s0 Hk. apply Hf. lia. }
  exists s'. split; [done|]. at_index HI'.
Qed.

Lemma for_range_empty lo hi (f : Z -> S -> res S) s : hi <= lo -> for_range lo hi f s = Ok s.
Proof. intros. unfold for_range. by replace (Z.to_nat (hi - lo)) with O by lia. Qed.

Lemma for_range_step lo hi (f : Z -> S -> res S) s : lo < hi ->
  for_range lo hi f s = (s ← f lo s; for_range (lo + 1) hi f s).
Proof.
  intros. unfold for_range.
  replace (Z.to_nat (hi - lo)) with (Datatypes.S (Z.to_nat (hi - (lo + 1)))) by lia. done.
Qed.

Lemma for_from_app n m k (f : Z -> S -> res S) s :
  for_from (n + m) k f s = (s ← for_from n k f s; for_from m (k + Z.of_nat n) f s).
Proof.
  revert k s. induction n as [|n IH]; intros k s; cbn [for_from Nat.add].
  - cbn. f_equal. lia.
  - destruct (f k s) as [s1|]; simpl; [|done]. rewrite IH.
    destruct (for_from n (k + 1) f s1); simpl; [|done]. f_equal. lia.
Qed.

Lemma for_range_app lo mid hi (f : Z -> S -> res S) s : lo <= mid <= hi ->
  for_range lo hi f s = (s ← for_range lo mid f s; for_range mid hi f s).
Proof.
  intros. unfold for_range.
  replace (Z.to_nat (hi - lo)) with (Z.to_nat (mid - lo) + Z.to_nat (hi - mid))%nat by lia.
  rewrite for_from_app. by replace (lo + Z.of_nat (Z.to_nat (mid - lo))) with mid by lia.
Qed.

(** The body of a loop may be replaced by one that agrees in range. *)
Lemma for_range_ext lo hi (f g : Z -> S -> res S) s :
  (forall k s, lo <= k < hi -> f k s = g k s) -> for_range lo hi f s = for_range lo hi g s.
Proof.
  unfold for_range. remember (Z.to_nat (hi - lo)) as n eqn:En.
  assert (Hn : Z.of_nat n <= Z.max 0 (hi - lo)) by lia. clear En.
  revert lo s Hn. induction n as [|n IH]; intros lo s Hn H; simpl; [done|].
  rewrite H by lia. destruct (g lo s); simpl; [|done].
  apply IH; [lia|]. intros. apply H. lia.
Qed.

(** Total correctness of [while]: an invariant and a natural measure that
    the body decreases; fuel above the measure is enough. *)
Lemma while_inv (I : S -> Prop) (m : S -> nat) (c : S -> res bool) (b : S -> res S) :
  (forall s, I s -> exists t, c s = Ok t) ->
  (forall s, I s -> c s = Ok true -> exists s', b s = Ok s' /\ I s' /\ (m s' < m s)%nat) ->
  forall fuel s, (m s < fuel)%nat -> I s ->
  exists s', while fuel c b s = Ok s' /\ I s' /\ c s' = Ok false.
Proof.
  intros Hc Hb fuel. induction fuel as [|fuel IH]; intros s Hm HI; [lia|]. simpl.
  destruct (Hc s HI) as [[] Ec]; rewrite Ec; simpl; [|eauto].
  destruct (Hb s HI Ec) as (s1 & -> & HI1 & Hm1). simpl. apply IH; [lia|done].
Qed.

(** The same with the bound on the remaining turns as a ghost index of the
    invariant, for loops whose state does not determine it. *)
Lemma while_ghost (I : nat -> S -> Prop) (c : S -> res bool) (b : S -> res S) :
  (forall n s, I n s -> c s = Ok false \/
     (c s = Ok true /\ exists s' n', b s = Ok s' /\ I n' s' /\ (n' < n)%nat)) ->
  forall fuel n s, (n < fuel)%nat -> I n s ->
  exists n' s', while fuel c b s = Ok s' /\ I n' s' /\ c s' = Ok false.
Proof.
  intros H fuel. induction fuel as [|fuel IH]; intros n s Hn HI; [lia|]. simpl.
  destruct (H n s HI) as [Ec | [Ec (s' & n' & Eb & HI' & Hlt)]]; rewrite Ec; simpl.
  - eauto.
  - rewrite Eb. simpl. apply (IH n'); [lia | done].
Qed.

(** More fuel does not change a result. *)
Lemma while_fuel_mono c b : forall fuel fuel' s s',
  (fuel <= fuel')%nat -> while fuel c b s = Ok s' -> while fuel' c b s = Ok s'.
Proof.
  induction fuel as [|fuel IH]; intros fuel' s s' Hle H; simpl in H; [done|].
  destruct fuel' as [|fuel']; [lia|]. simpl.
  destruct (c s) as [[]|]; simpl in *; [|done|done].
  destruct (b s) as [s1|]; simpl in *; [|done]. apply (IH fuel'); [lia | done].
Qed.
End Loops.

(** A loop that computes the entries of an array one after the other. *)
Lemma for_range_map {A} (d : A) (g : Z -> A) (f : Z -> list A -> res (list A)) n s :
  0 <= n <= zlen s ->
  (forall i s', 0 <= i < n -> zlen s' = zlen s -> zth d s' i = zth d s i -> f i s' = aset s' i (g i)) ->
  exists s', for_range 0 n f s = Ok s' /\ zlen s' = zlen s /\
    forall j, 0 <= j < zlen s -> zth d s' j = if j <? n then g j else zth d s j.
Proof.
  intros Hn Hf.
  destruct (for_range_inv (fun i s' => zlen s' = zlen s /\
      forall j, 0 <= j < zlen s -> zth d s' j = if j <? i then g j else zth d s j) f 0 n s) as (s' & E & I).
  - lia.
  - split; [done|]. intros j Hj. by destruct (Z.ltb_spec j 0); [lia|].
  - intros i s' Hi [Hl Hs]. rewrite Hf; [| done | done |].
    2: { rewrite Hs by lia. by destruct (Z.ltb_spec i i); [lia|]. }
    rewrite aset_ok by lia. eexists. split; [done|]. rewrite zlen_insert. split; [done|]. intros j Hj.
    rewrite (zth_insert d), Hs by lia. destruct (Z.eqb_spec j i) as [->|].
    + by destruct (Z.ltb_spec i (i + 1)); [|lia].
    + destruct (Z.ltb_spec j i), (Z.ltb_spec j (i + 1)); (lia || done).
  - by exists s'.
Qed.

(** ** Sums in a commutative monoid

    [msum lo hi f] is [f lo + ... + f (hi - 1)]. *)

Class Monoid (M : Type) := {
  munit : M;
  madd : M -> M -> M;
  madd_comm x y : madd x y = madd y x;
  madd_assoc x y z : madd x (madd y z) = madd (madd x y) z;
  madd_unit x : madd munit x = x
}.
Infix "⊕" := madd (at level 50, left associativity).

#[export] Instance Z_monoid : Monoid Z :=
  {| munit := 0; madd := Z.add; madd_comm := Z.add_comm; madd_assoc := Z.add_assoc;
     madd_unit := Z.add_0_l |}.

Section Sums.
Context `{Monoid M}.
Implicit Types (f g : Z -> M) (lo hi i j : Z).

Fixpoint msum_from (n : nat) (lo : Z) f : M :=
  match n with O => munit | Datatypes.S n => f lo ⊕ msum_from n (lo + 1) f end.
Definition msum lo hi f : M := msum_from (Z.to_nat (hi - lo)) lo f.

Lemma madd_unit_r x : x ⊕ munit = x.
Proof. by rewrite madd_comm, madd_unit. Qed.

Lemma madd_swap x y z : x ⊕ (y ⊕ z) = y ⊕ (x ⊕ z).
Proof. by rewrite !madd_assoc, (madd_comm x). Qed.

Lemma msum_empty lo hi f : hi <= lo -> msum lo hi f = munit.
Proof. intros. unfold msum. by replace (Z.to_nat (hi - lo)) with O by lia. Qed.

Lemma msum_left lo hi f : lo < hi -> msum lo hi f = f lo ⊕ msum (lo + 1) hi f.
Proof.
  intros. unfold msum.
  by replace (Z.to_nat (hi - lo)) with (Datatypes.S (Z.to_nat (hi - (lo + 1)))) by lia.
Qed.

(** Induction on the number of terms. *)
Lemma range_ind (P : Z -> Z -> Prop) :
  (forall lo hi, hi <= lo -> P lo hi) ->
  (forall lo hi, lo < hi -> P (lo + 1) hi -> P lo hi) ->
  forall lo hi, P lo hi.
Proof.
  intros H0 H1 lo hi. remember (Z.to_nat (hi - lo)) as n eqn:En. revert lo En.
  induction n as [|n IH]; intros lo En; [apply H0; lia|].
  apply H1; [lia|]. apply IH. lia.
Qed.

Lemma msum_ext lo hi f g : (forall i, lo <= i < hi -> f i = g i) -> msum lo hi f = msum lo hi g.
Proof.
  revert lo hi. apply (range_ind (fun lo hi => _ -> msum lo hi f = msum lo hi g)).
  - intros. by rewrite !msum_empty.
  - intros lo hi Hlt IH E. rewrite (msum_left _ _ f), (msum_left _ _ g) by done.
    rewrite E by lia. f_equal. apply IH. intros. apply E. lia.
Qed.

Lemma msum_app lo mid hi f : lo <= mid <= hi -> msum lo hi f = msum lo mid f ⊕ msum mid hi f.
Proof.
  revert lo mid. apply (range_ind (fun lo mid => _ -> msum lo hi f = msum lo mid f ⊕ msum mid hi f)).
  - intros lo mid H1 H2. replace mid with lo by lia. by rewrite (msum_empty lo lo), madd_unit.
  - intros lo mid Hlt IH Hle. rewrite (msum_left lo hi), (msum_left lo mid), IH by lia.
    by rewrite madd_assoc.
Qed.

Lemma msum_single i f : msum i (i + 1) f = f i.
Proof. by rewrite msum_left, msum_empty, madd_unit_r by lia. Qed.

Lemma msum_right lo hi f : lo <= hi -> msum lo (hi + 1) f = msum lo hi f ⊕ f hi.
Proof. intros. by rewrite (msum_app lo hi), msum_single by lia. Qed.

Lemma msum_shift lo hi k f : msum (lo + k) (hi + k) f = msum lo hi (fun i => f (i + k)).
Proof.
  unfold msum. replace (hi + k - (lo + k)) with (hi - lo) by lia.
  remember (Z.to_nat (hi - lo)) as n eqn:En. clear En hi. revert lo.
  induction n as [|n IH]; intros lo; [done|]. simpl. f_equal.
  rewrite <- IH. f_equal. lia.
Qed.

(** One term changes. *)
Lemma msum_split lo hi i f : lo <= i < hi ->
  msum lo hi f = f i ⊕ (msum lo i f ⊕ msum (i + 1) hi f).
Proof.
  intros. rewrite (msum_app lo i hi), (msum_left i hi) by lia. apply madd_swap.
Qed.

Lemma msum_change lo hi i f g : lo <= i < hi ->
  (forall j, lo <= j < hi -> j <> i -> f j = g j) -> msum lo hi f ⊕ g i = msum lo hi g ⊕ f i.
Proof.
  intros Hi E. rewrite !(msum_split lo hi i) by done.
  rewrite (msum_ext lo i f g), (msum_ext (i + 1) hi f g) by (intros; apply E; lia).
  rewrite madd_comm, (madd_comm (g i ⊕ _)). apply madd_swap.
Qed.

(** Two terms change and their sum does not. *)
Lemma msum_exchange lo hi i j f g : lo <= i < hi -> lo <= j < hi -> i <> j ->
  (forall x, lo <= x < hi -> x <> i -> x <> j -> f x = g x) -> f i ⊕ f j = g i ⊕ g j ->
  msum lo hi f = msum lo hi g.
Proof.
  assert (W : forall i j, lo <= i < hi -> lo <= j < hi -> i < j ->
    (forall x, lo <= x < hi -> x <> i -> x <> j -> f x = g x) -> f i ⊕ f j = g i ⊕ g j ->
    msum lo hi f = msum lo hi g).
  { clear i j. intros i j Hi Hj Hlt E Eij. rewrite !(msum_split lo hi i) by done.
    rewrite !(msum_split (i + 1) hi j) by lia.
    rewrite !(madd_swap (msum lo i _) _ _), (madd_assoc (f i)), (madd_assoc (g i)), Eij.
    do 2 f_equal; [|f_equal]; apply msum_ext; intros; apply E; lia. }
  intros Hi Hj Hne E Eij. destruct (Z.lt_ge_cases i j); [by apply (W i j)|].
  apply (W j i); [done | done | lia | auto |]. by rewrite madd_comm, Eij, madd_comm.
Qed.

Lemma msum_unit lo hi f : (forall i, lo <= i < hi -> f i = munit) -> msum lo hi f = munit.
Proof.
  revert lo hi. apply (range_ind (fun lo hi => _ -> msum lo hi f = munit)).
  - intros. by apply msum_empty.
  - intros lo hi Hlt IH E. rewrite msum_left, E, madd_unit by lia. apply IH.
    intros. apply E. lia.
Qed.

(** A loop that adds up is a sum. *)
Lemma for_range_sum lo hi (c : Z -> res M) f a :
  (forall i, lo <= i < hi -> c i = Ok (f i)) ->
  for_range lo hi (fun i acc => v ← c i; Ok (acc ⊕ v)) a = Ok (a ⊕ msum lo hi f).
Proof.
  revert lo hi a. apply (range_ind (fun lo hi => forall a, _ ->
    for_range lo hi (fun i acc => v ← c i; Ok (acc ⊕ v)) a = Ok (a ⊕ msum lo hi f))).
  - intros lo hi Hle a _. by rewrite for_range_empty, msum_empty, madd_unit_r.
  - intros lo hi Hlt IH a E. rewrite for_range_step by done. rewrite E by lia.
    cbn [mbind res_bind]. rewrite IH by (intros; apply E; lia).
    by rewrite (msum_left lo hi), madd_assoc by done.
Qed.

Lemma for_range_sum_inv lo hi (c : Z -> res M) a r :
  for_range lo hi (fun i acc => v ← c i; Ok (acc ⊕ v)) a = Ok r ->
  forall i, lo <= i < hi -> exists v, c i = Ok v.
Proof.
  revert lo hi a. apply (range_ind (fun lo hi => forall a, _ -> forall i, lo <= i < hi -> _)).
  - intros; lia.
  - intros lo hi Hlt IH a E i Hi. rewrite for_range_step in E by done.
    destruct (c lo) as [v|] eqn:Ec; [|done]. cbn [mbind res_bind] in E.
    destruct (Z.eq_dec i lo) as [->|]; [eauto|]. apply (IH _ E). lia.
Qed.
End Sums.

Lemma msum_Z_le lo hi (f g : Z -> Z) : (forall i, lo <= i < hi -> f i <= g i) ->
  msum lo hi f <= msum lo hi g.
Proof.
  revert lo hi. apply (range_ind (fun lo hi => _ -> msum lo hi f <= msum lo hi g)).
  - intros. rewrite !msum_empty by done. done.
  - intros lo hi Hlt IH E. rewrite (msum_left _ _ f), (msum_left _ _ g) by done.
    pose proof (E lo ltac:(lia)). pose proof (IH ltac:(intros; apply E; lia)). simpl. lia.
Qed.

Lemma msum_Z_term lo hi i (f : Z -> Z) : (forall j, lo <= j < hi -> 0 <= f j) -> lo <= i < hi ->
  f i <= msum lo hi f.
Proof.
  intros Hf Hi. rewrite (msum_split lo hi i) by done. simpl.
  pose proof (msum_Z_le lo i (fun _ => 0) f ltac:(intros; apply Hf; lia)).
  pose proof (msum_Z_le (i + 1) hi (fun _ => 0) f ltac:(intros; apply Hf; lia)).
  rewrite !(msum_unit _ _ (fun _ => 0)) in * by done. simpl in *. lia.
Qed.

Lemma msum_Z_add lo hi (f g : Z -> Z) : msum lo hi (fun i => f i + g i) = msum lo hi f + msum lo hi g.
Proof.
  revert lo hi. apply (range_ind (fun lo hi => msum lo hi (fun i => f i + g i) = msum lo hi f + msum lo hi g)).
  - intros. by rewrite !msum_empty.
  - intros lo hi Hlt IH. rewrite (msum_left _ _ f), (msum_left _ _ g), (msum_left _ _ (fun i => _)), IH by done.
    simpl. lia.
Qed.

Lemma msum_Z_opp lo hi (f : Z -> Z) : msum lo hi (fun i => - f i) = - msum lo hi f.
Proof.
  revert lo hi. apply (range_ind (fun lo hi => msum lo hi (fun i => - f i) = - msum lo hi f)).
  - intros. by rewrite !msum_empty.
  - intros lo hi Hlt IH. rewrite (msum_left _ _ f), (msum_left _ _ (fun i => _)), IH by done.
    simpl. lia.
Qed.

Lemma msum_Z_scale lo hi k (f : Z -> Z) : msum lo hi (fun i => k * f i) = k * msum lo hi f.
Proof.
  revert lo hi. apply (range_ind (fun lo hi => msum lo hi (fun i => k * f i) = k * msum lo hi f)).
  - intros. rewrite !msum_empty by done. simpl. lia.
  - intros lo hi Hlt IH. rewrite (msum_left _ _ f), (msum_left _ _ (fun i => _)), IH by done.
    simpl. lia.
Qed.

Lemma msum_Z_nonneg lo hi (f : Z -> Z) : (forall i, lo <= i < hi -> 0 <= f i) -> 0 <= msum lo hi f.
Proof.
  intros Hf. etransitivity; [|apply (msum_Z_le _ _ (fun _ => 0)); exact Hf]. by rewrite msum_unit.
Qed.

Lemma msum_Z_prefix lo mid hi (f : Z -> Z) : lo <= mid <= hi -> (forall i, lo <= i < hi -> 0 <= f i) ->
  msum lo mid f <= msum lo hi f.
Proof.
  intros Hm Hf. rewrite (msum_app lo mid hi) by done. simpl madd.
  pose proof (msum_Z_nonneg mid hi f ltac:(intros; apply Hf; lia)). lia.
Qed.

Lemma msum_Z_ones lo hi : lo <= hi -> msum lo hi (fun _ => 1) = hi - lo.
Proof.
  revert lo hi. apply (range_ind (fun lo hi => _ -> msum lo hi (fun _ => 1) = hi - lo)).
  - intros. rewrite msum_empty by done. simpl. lia.
  - intros lo hi Hlt IH _. rewrite msum_left by done. simpl madd. rewrite IH; lia.
Qed.

Lemma msum_Z_lt lo hi i (f g : Z -> Z) : lo <= i < hi ->
  (forall j, lo <= j < hi -> f j <= g j) -> f i < g i -> msum lo hi f < msum lo hi g.
Proof.
  intros Hi Hle Hlt. rewrite !(msum_split lo hi i) by done. simpl madd.
  pose proof (msum_Z_le lo i f g ltac:(intros; apply Hle; lia)).
  pose proof (msum_Z_le (i + 1) hi f g ltac:(intros; apply Hle; lia)). lia.
Qed.
