(* ===== verification/Double.v ===== *)
(** * Doubles

    Floating-point numbers in the 64-bit format of IEEE 754 (C's [double]):
    53 bits of precision, rounded to nearest, ties to even, as
    [SpecFloat] of the Standard Library defines the operations; and the
    conversions between [double] and [int]. *)

From S2P Require Export Prelude.
From Stdlib Require Export SpecFloat.

(** [(double) z] of an integer. *)
Definition double (z : Z) : spec_float := binary_normalize 53 1024 z 0 false.

Abbreviation dmul := (SFmul 53 1024).
Abbreviation dadd := (SFadd 53 1024).
Abbreviation dsub := (SFsub 53 1024).
Abbreviation ddiv := (SFdiv 53 1024).
Abbreviation dlt := SFltb.

(** The value of a finite double is [m * 2^e]; the largest integer that is
    not above it, the smallest that is not below it, and the integer part.
    Infinities and not-a-number have none. *)
Definition with_value (f : Z -> Z -> Z) (x : spec_float) : option Z :=
  match x with
  | S754_zero _ => Some 0
  | S754_finite s m e => Some (f (if s then Z.neg m else Z.pos m) e)
  | _ => None
  end.

Definition floor_Z : spec_float -> option Z := with_value Z.shiftl.
Definition ceil_Z : spec_float -> option Z := with_value (fun m e => - Z.shiftl (- m) e).
Definition trunc_Z : spec_float -> option Z :=
  with_value (fun m e => Z.sgn m * Z.shiftl (Z.abs m) e).

(** Conversion to [int]: the behaviour is undefined when the integer part is
    not an [int]. *)
Definition to_int (z : option Z) : res Z :=
  match z with Some z => chk 32 z | None => Err Overflow end.

Lemma to_int_range z n : to_int z = Ok n -> - 2 ^ 31 <= n < 2 ^ 31.
Proof.
  destruct z as [z|]; [|done]. simpl. unfold chk.
  destruct (Z.leb_spec (- 2 ^ (32 - 1)) z), (Z.ltb_spec z (2 ^ (32 - 1))); simpl; try done.
  intros [= <-]. lia.
Qed.

Example floor_of_half : floor_Z (ddiv (double (-3)) (double 2)) = Some (-2).
Proof. reflexivity. Qed.
Example ceil_of_half : ceil_Z (ddiv (double (-3)) (double 2)) = Some (-1).
Proof. reflexivity. Qed.
Example trunc_of_half : trunc_Z (ddiv (double 7) (double 2)) = Some 3.
Proof. reflexivity. Qed.

(** ** Exact results

    [fl n e] is the double [n * 2^e], for [n] of 53 bits at most.  When the
    exact result of an operation is such a number, rounding does not change
    it. *)

Definition fl (n e : Z) : spec_float :=
  match n with
  | Zpos _ =>
      let k := 52 - Z.log2 n in
      S754_finite false (Z.to_pos (n * 2 ^ k)) (e - k)
  | _ => S754_zero false
  end.

Lemma digits2_log2 p : Zpos (digits2_pos p) = Z.log2 (Zpos p) + 1.
Proof.
  induction p as [p IH|p IH|]; cbn [digits2_pos]; [| |done];
    rewrite Pos2Z.inj_succ, IH.
  - change (Zpos p~1) with (2 * Zpos p + 1). rewrite Z.log2_succ_double; lia.
  - change (Zpos p~0) with (2 * Zpos p). rewrite Z.log2_double; lia.
Qed.

Lemma shift_left_value m d : Zpos (Pos.iter xO m d) = Zpos m * 2 ^ Zpos d.
Proof.
  revert d. refine (Pos.peano_ind _ _ _).
  - simpl Pos.iter. change (2 ^ 1) with 2. lia.
  - intros d IH. rewrite Pos.iter_succ, Pos2Z.inj_xO, IH, Pos2Z.inj_succ, Z.pow_succ_r by lia. lia.
Qed.

Lemma iter_pos_nat {A} (f : A -> A) n x : iter_pos f n x = Nat.iter (Pos.to_nat n) f x.
Proof.
  revert x. induction n as [n IH|n IH|]; intros x; cbn [iter_pos]; [| |done]; rewrite !IH, <- Nat.iter_add.
  - rewrite Pos2Nat.inj_xI. replace (S (2 * Pos.to_nat n)) with (Pos.to_nat n + Pos.to_nat n + 1)%nat by lia.
    by rewrite (Nat.iter_add _ 1).
  - by rewrite Pos2Nat.inj_xO; replace (2 * Pos.to_nat n)%nat with (Pos.to_nat n + Pos.to_nat n)%nat by lia.
Qed.

(** Zeros are shifted out without a trace. *)
Lemma shift_right_exact c n : 0 < c ->
  Nat.iter n shr_1 (Build_shr_record (c * 2 ^ Z.of_nat n) false false) = Build_shr_record c false false.
Proof.
  intros Hc. induction n as [|n IH].
  - rewrite Z.mul_1_r. done.
  - rewrite <- IH, Nat.iter_succ_r. f_equal.
    replace (c * 2 ^ Z.of_nat (S n)) with (2 * (c * 2 ^ Z.of_nat n))
      by (rewrite Nat2Z.inj_succ, Z.pow_succ_r by lia; lia).
    assert (0 < c * 2 ^ Z.of_nat n) by (apply Z.mul_pos_pos; [done|apply Z.pow_pos_nonneg; lia]).
    by destruct (c * 2 ^ Z.of_nat n).
Qed.

(** A mantissa of 53 bits with zeros behind. *)
Lemma round_aux_exact m s e : Z.log2 m = 52 -> 0 < m -> 0 <= s -> -1000 <= e -> e + s <= 900 ->
  binary_round_aux 53 1024 false (m * 2 ^ s) e loc_Exact = S754_finite false (Z.to_pos m) (e + s).
Proof.
  intros Hl Hm Hs He1 He2. unfold binary_round_aux, shr_fexp.
  assert (Hd : forall k, 0 <= k -> Zdigits2 (m * 2 ^ k) = 53 + k).
  { intros k Hk. assert (0 < m * 2 ^ k) by (apply Z.mul_pos_pos; [done|apply Z.pow_pos_nonneg; lia]).
    destruct (m * 2 ^ k) eqn:E; try lia. cbn [Zdigits2]. rewrite digits2_log2, <- E, Z.log2_mul_pow2 by lia. lia. }
  rewrite Hd by done. unfold fexp, SpecFloat.emin.
  replace (Z.max (53 + s + e - 53) (3 - 1024 - 53) - e) with s by lia.
  assert (Esh : shr (shr_record_of_loc (m * 2 ^ s) loc_Exact) e s = (Build_shr_record m false false, e + s)).
  { destruct s as [|s|]; [| |lia].
    - by rewrite Z.mul_1_r, Z.add_0_r.
    - cbn [shr shr_record_of_loc]. rewrite iter_pos_nat. f_equal.
      rewrite <- (positive_nat_Z s). by apply shift_right_exact. }
  rewrite Esh. cbn [shr_m loc_of_shr_record round_nearest_even].
  pose proof (Hd 0 ltac:(lia)) as Hd0. rewrite Z.mul_1_r in Hd0. rewrite Hd0.
  replace (Z.max (53 + 0 + (e + s) - 53) (3 - 1024 - 53) - (e + s)) with 0 by lia.
  cbn [shr shr_record_of_loc shr_m]. destruct m; try lia.
  destruct (Z.leb_spec (e + s) (1024 - 53)); [done|lia].
Qed.

Lemma log2_lt_pow2' n w : 0 < n -> 0 < w -> n < 2 ^ w -> Z.log2 n < w.
Proof. intros. by apply Z.log2_lt_pow2. Qed.

(** The mantissa of [fl]: exactly 53 bits. *)
Lemma fl_mantissa n : 0 < n < 2 ^ 53 ->
  0 <= 52 - Z.log2 n /\ 0 <= Z.log2 n /\ 0 < n * 2 ^ (52 - Z.log2 n) /\ Z.log2 (n * 2 ^ (52 - Z.log2 n)) = 52.
Proof.
  intros Hn. pose proof (log2_lt_pow2' n 53 ltac:(lia) ltac:(lia) ltac:(lia)). pose proof (Z.log2_nonneg n).
  split; [lia|]. split; [lia|]. split.
  - apply Z.mul_pos_pos; [lia|apply Z.pow_pos_nonneg; lia].
  - rewrite Z.log2_mul_pow2 by lia. lia.
Qed.

Lemma fl_pos n e : 0 < n ->
  fl n e = S754_finite false (Z.to_pos (n * 2 ^ (52 - Z.log2 n))) (e - (52 - Z.log2 n)).
Proof. intros. by destruct n. Qed.

(** The mantissa of the exact result, with [j] zeros behind. *)
Lemma round_exact c j e : 0 < c < 2 ^ 53 -> 0 <= j -> 52 <= Z.log2 c + j -> -1000 <= e -> e + j <= 900 ->
  binary_round_aux 53 1024 false (c * 2 ^ j) e loc_Exact = fl c (e + j).
Proof.
  intros Hc Hj Hd He1 He2. destruct (fl_mantissa c Hc) as (Hk & Hl & Hm & Hlm).
  rewrite fl_pos by lia. set (k := 52 - Z.log2 c) in *.
  replace (c * 2 ^ j) with (c * 2 ^ k * 2 ^ (j - k))
    by (rewrite <- Z.mul_assoc, <- Z.pow_add_r by lia; do 2 f_equal; lia).
  rewrite round_aux_exact by lia. f_equal. lia.
Qed.

Lemma normalize_exact c j e : 0 <= c < 2 ^ 53 -> 0 <= j -> -900 <= e -> e + j <= 900 ->
  binary_normalize 53 1024 (c * 2 ^ j) e false = fl c (e + j).
Proof.
  intros Hc Hj He1 He2. destruct (Z.eq_dec c 0) as [->|Hc0]; [done|].
  pose proof (log2_lt_pow2' c 53 ltac:(lia) ltac:(lia) ltac:(lia)). pose proof (Z.log2_nonneg c).
  assert (Hp : 0 < c * 2 ^ j) by (apply Z.mul_pos_pos; [lia|apply Z.pow_pos_nonneg; lia]).
  assert (Hlog : Z.log2 (c * 2 ^ j) = Z.log2 c + j) by (rewrite Z.log2_mul_pow2 by lia; lia).
  destruct (c * 2 ^ j) as [|m|m] eqn:E; try lia. cbn [binary_normalize].
  unfold binary_round, shl_align. rewrite digits2_log2, Hlog. unfold fexp, SpecFloat.emin.
  replace (Z.max (Z.log2 c + j + 1 + e - 53) (3 - 1024 - 53) - e) with (Z.log2 c + j - 52) by lia.
  destruct (Z.log2 c + j - 52) as [|d|d] eqn:Ed.
  - rewrite <- E. apply round_exact; lia.
  - rewrite <- E. apply round_exact; lia.
  - replace (Z.max (Z.log2 c + j + 1 + e - 53) (3 - 1024 - 53)) with (e - Zpos d) by lia.
    rewrite shift_left_value, <- E, <- Z.mul_assoc, <- Z.pow_add_r by lia.
    rewrite round_exact by lia. f_equal. lia.
Qed.

Lemma fl_scale n k e : 0 <= n -> 0 <= k -> n * 2 ^ k < 2 ^ 53 -> fl (n * 2 ^ k) e = fl n (e + k).
Proof.
  intros Hn Hk Hlt. destruct (Z.eq_dec n 0) as [->|]; [done|].
  assert (0 < n * 2 ^ k) by (apply Z.mul_pos_pos; [lia|apply Z.pow_pos_nonneg; lia]).
  pose proof (log2_lt_pow2' (n * 2 ^ k) 53 ltac:(lia) ltac:(lia) Hlt) as Hlog.
  rewrite !fl_pos by lia. rewrite Z.log2_mul_pow2 in * by lia. f_equal; [|lia]. f_equal.
  rewrite <- Z.mul_assoc, <- Z.pow_add_r by lia. do 2 f_equal. lia.
Qed.

Lemma double_fl n : 0 <= n < 2 ^ 53 -> double n = fl n 0.
Proof.
  intros. unfold double. rewrite <- (Z.mul_1_r n) at 1. change 1 with (2 ^ 0). by rewrite normalize_exact by lia.
Qed.

(** Alignment of the mantissas of a sum. *)
Lemma align_value m e e' : e' <= e -> Zpos (fst (shl_align m e e')) = Zpos m * 2 ^ (e - e').
Proof.
  intros He. unfold shl_align. destruct (e' - e) as [|d|d] eqn:E; try lia.
  - replace (e - e') with 0 by lia. cbn [fst]. lia.
  - cbn [fst]. rewrite shift_left_value. do 2 f_equal. lia.
Qed.

Lemma fl_align n e ez : 0 < n < 2 ^ 53 -> ez <= e - (52 - Z.log2 n) ->
  Zpos (fst (shl_align (Z.to_pos (n * 2 ^ (52 - Z.log2 n))) (e - (52 - Z.log2 n)) ez)) = n * 2 ^ (e - ez).
Proof.
  intros Hn Hez. destruct (fl_mantissa n Hn) as (? & ? & ? & ?). rewrite align_value, Z2Pos.id by lia.
  rewrite <- Z.mul_assoc, <- Z.pow_add_r by lia. do 2 f_equal. lia.
Qed.

Section Exact.
Context (a b e : Z).
Hypotheses (Ha : 0 <= a < 2 ^ 53) (Hb : 0 <= b < 2 ^ 53) (He : -800 <= e <= 800).

Lemma dadd_exact : a + b < 2 ^ 53 -> dadd (fl a e) (fl b e) = fl (a + b) e.
Proof.
  intros Hab. destruct (Z.eq_dec a 0) as [->|]; [by destruct b|].
  destruct (Z.eq_dec b 0) as [->|]; [rewrite Z.add_0_r; by destruct a|].
  destruct (fl_mantissa a) as (? & ? & ? & ?), (fl_mantissa b) as (? & ? & ? & ?); try lia.
  rewrite !fl_pos by lia. cbn [SFadd cond_Zopp]. rewrite <- fl_pos by lia.
  set (ez := Z.min _ _). rewrite !fl_align by (unfold ez; lia). rewrite <- Z.mul_add_distr_r.
  rewrite normalize_exact by (unfold ez; lia). f_equal. lia.
Qed.

Lemma dsub_exact : b <= a -> dsub (fl a e) (fl b e) = fl (a - b) e.
Proof.
  intros Hab. destruct (Z.eq_dec b 0) as [->|]; [rewrite Z.sub_0_r; by destruct a|].
  destruct (fl_mantissa a) as (? & ? & ? & ?), (fl_mantissa b) as (? & ? & ? & ?); try lia.
  rewrite (fl_pos a), (fl_pos b) by lia. cbn [SFsub cond_Zopp].
  set (ez := Z.min _ _). rewrite !fl_align by (unfold ez; lia). rewrite <- Z.mul_sub_distr_r.
  rewrite normalize_exact by (unfold ez; lia). f_equal. lia.
Qed.

Lemma dmul_exact f : -800 <= e + f <= 800 -> a * b < 2 ^ 53 -> dmul (fl a e) (fl b f) = fl (a * b) (e + f).
Proof.
  intros Hf Hab. destruct (Z.eq_dec a 0) as [->|]; [by destruct b|].
  destruct (Z.eq_dec b 0) as [->|]; [rewrite Z.mul_0_r; by destruct a|].
  destruct (fl_mantissa a) as (? & ? & ? & ?), (fl_mantissa b) as (? & ? & ? & ?); try lia.
  assert (Hp : 0 < a * b) by nia. destruct (fl_mantissa (a * b)) as (? & ? & ? & ?); [lia|].
  rewrite (fl_pos a), (fl_pos b) by lia. cbn [SFmul xorb]. rewrite Pos2Z.inj_mul, !Z2Pos.id by lia.
  set (k := 52 - Z.log2 a). set (l := 52 - Z.log2 b).
  replace (a * 2 ^ k * (b * 2 ^ l)) with (a * b * 2 ^ (k + l)) by (rewrite Z.pow_add_r by lia; lia).
  pose proof (Z.log2_mul_below a b ltac:(lia) ltac:(lia)).
  rewrite round_exact by lia. f_equal. lia.
Qed.

Lemma trunc_exact : trunc_Z (fl a e) = Some (Z.shiftl a e).
Proof.
  destruct (Z.eq_dec a 0) as [->|]; [by rewrite Z.shiftl_0_l|].
  destruct (fl_mantissa a) as (? & ? & ? & ?); [lia|]. rewrite fl_pos by lia.
  cbn [trunc_Z with_value]. unfold trunc_Z, with_value. rewrite Z2Pos.id by lia.
  rewrite Z.abs_eq, Z.sgn_pos, Z.mul_1_l by lia. f_equal.
  rewrite <- Z.shiftl_mul_pow2, Z.shiftl_shiftl by lia. f_equal. lia.
Qed.
End Exact.
