(* ===== verification/ModArith.v ===== *)
(** * Arithmetic modulo 2^31 - 1

    The headers [generator/mod_arith*.h] of Graph500's edge generator: the
    32-bit version (module [Mod32]), the 64-bit version (module [Mod64]), and
    the interface [ModOps] both implement, which stands for the dispatcher
    [mod_arith.h]; [ModLaws] is what the generator relies on. *)

From S2P Require Import Prelude.

(** The modulus 0x7FFFFFFF, and what the headers' assertions ask of operands. *)
Definition M : Z := 0x7FFFFFFF.
Definition residue (a : Z) : Prop := 0 <= a < M.
Definition is_residue (a : Z) : bool := a <=? 0x7FFFFFFE.

(** [uint_fast32_t] and [int_fast32_t] are 64 bits wide on x86-64 Linux. *)
Abbreviation ufast := (unsigned 64).
Abbreviation ifast := (signed 64).

(** mod_arith.h: the operations, whichever header provides them. *)
Class ModOps : Type := {
  mod_add : Z -> Z -> res Z;
  mod_mul : Z -> Z -> res Z;
  mod_mac : Z -> Z -> Z -> res Z;
  mod_mac2 : Z -> Z -> Z -> Z -> Z -> res Z;
  mod_mac3 : Z -> Z -> Z -> Z -> Z -> Z -> Z -> res Z;
  mod_mac4 : Z -> Z -> Z -> Z -> Z -> Z -> Z -> Z -> Z -> res Z;
  mod_mul_x : Z -> res Z;
  mod_mul_y : Z -> res Z;
  mod_mac_y : Z -> Z -> res Z
}.

(** The multipliers of the generator's recurrence. *)
Definition mrg_x : Z := 107374182.
Definition mrg_y : Z := 104480.

(** What a header promises: on residues no assertion fails, and the result is
    the residue of the exact value. *)
Class ModLaws (ops : ModOps) : Prop := {
  mod_add_law a b : residue a -> residue b -> mod_add a b = Ok ((a + b) mod M);
  mod_mul_law a b : residue a -> residue b -> mod_mul a b = Ok ((a * b) mod M);
  mod_mac_law s a b : residue s -> residue a -> residue b ->
    mod_mac s a b = Ok ((a * b + s) mod M);
  mod_mac2_law s a b c d : residue s -> residue a -> residue b -> residue c -> residue d ->
    mod_mac2 s a b c d = Ok ((a * b + c * d + s) mod M);
  mod_mac3_law s a b c d e f : residue s -> residue a -> residue b -> residue c ->
    residue d -> residue e -> residue f ->
    mod_mac3 s a b c d e f = Ok ((a * b + c * d + e * f + s) mod M);
  mod_mac4_law s a b c d e f g h : residue s -> residue a -> residue b -> residue c ->
    residue d -> residue e -> residue f -> residue g -> residue h ->
    mod_mac4 s a b c d e f g h = Ok ((a * b + c * d + e * f + g * h + s) mod M);
  mod_mul_x_law a : residue a -> mod_mul_x a = Ok ((mrg_x * a) mod M);
  mod_mul_y_law a : residue a -> mod_mul_y a = Ok ((mrg_y * a) mod M);
  mod_mac_y_law s a : residue s -> residue a -> mod_mac_y s a = Ok ((mrg_y * a + s) mod M)
}.

(** ** mod_arith_32bit.h *)
Module Mod32.

(** The last line shared by the reductions: one conditional subtraction. *)
Definition fold_once (x : Z) : Z := if 0x7FFFFFFF <=? x then ufast (x - 0x7FFFFFFF) else x.

Definition mod_add (a b : Z) : res Z :=
  c_assert (is_residue a);; c_assert (is_residue b);;
  let x := ufast (a + b) in
  Ok (fold_once x).

Definition mod_mul (a b : Z) : res Z :=
  c_assert (is_residue a);; c_assert (is_residue b);;
  let temp := u64 (a * b) in
  let temp2 := ufast (ufast (Z.land temp 0x7FFFFFFF) + ufast (Z.shiftr temp 31)) in
  Ok (fold_once temp2).

Definition mod_mac (sum a b : Z) : res Z :=
  c_assert (is_residue sum);; c_assert (is_residue a);; c_assert (is_residue b);;
  let temp := u64 (a * b + sum) in
  let temp2 := ufast (ufast (Z.land temp 0x7FFFFFFF) + ufast (Z.shiftr temp 31)) in
  Ok (fold_once temp2).

Definition mod_mac2 (sum a b c d : Z) : res Z :=
  c_assert (is_residue sum);; c_assert (is_residue a);; c_assert (is_residue b);;
  c_assert (is_residue c);; c_assert (is_residue d);;
  t ← mod_mac sum a b; mod_mac t c d.

Definition mod_mac3 (sum a b c d e f : Z) : res Z :=
  c_assert (is_residue sum);; c_assert (is_residue a);; c_assert (is_residue b);;
  c_assert (is_residue c);; c_assert (is_residue d);;
  c_assert (is_residue e);; c_assert (is_residue f);;
  t ← mod_mac sum a b; mod_mac2 t c d e f.

Definition mod_mac4 (sum a b c d e f g h : Z) : res Z :=
  c_assert (is_residue sum);; c_assert (is_residue a);; c_assert (is_residue b);;
  c_assert (is_residue c);; c_assert (is_residue d);;
  c_assert (is_residue e);; c_assert (is_residue f);;
  c_assert (is_residue g);; c_assert (is_residue h);;
  t ← mod_mac2 sum a b c d; mod_mac2 t e f g h.

(** Schrage's method: [k * a mod M] from the quotient [q] and remainder [r]
    of [M] by [k], in signed arithmetic that must not overflow, with the
    closing assertion against [mod_mul]. *)
Definition schrage (k q r a : Z) : res Z :=
  let result := Z.quot (ifast a) q in
  t1 ← chk 64 (result * q);
  t2 ← chk 64 (ifast a - t1);
  t3 ← chk 64 (k * t2);
  t4 ← chk 64 (result * r);
  result ← chk 64 (t3 - t4);
  result ← chk 64 (result + (if result <? 0 then 0x7FFFFFFF else 0));
  m ← mod_mul a k;
  c_assert (ufast result =? m);;
  Ok (ufast result).

Definition mod_mul_x (a : Z) : res Z := schrage 107374182 20 7 a.
Definition mod_mul_y (a : Z) : res Z := schrage 104480 20554 1727 a.

Definition mod_mac_y (sum a : Z) : res Z :=
  y ← mod_mul_y a;
  result ← mod_add sum y;
  m ← mod_mac sum a 104480;
  c_assert (result =? m);;
  Ok result.
End Mod32.

(** ** mod_arith_64bit.h *)
Module Mod64.
Definition mod_add (a b : Z) : res Z :=
  c_assert (is_residue a);; c_assert (is_residue b);;
  Ok (ufast (a + b) mod 0x7FFFFFFF).

Definition mod_mul (a b : Z) : res Z :=
  c_assert (is_residue a);; c_assert (is_residue b);;
  Ok (ufast (u64 (a * b) mod 0x7FFFFFFF)).

Definition mod_mac (sum a b : Z) : res Z :=
  c_assert (is_residue sum);; c_assert (is_residue a);; c_assert (is_residue b);;
  Ok (ufast (u64 (u64 (a * b) + sum) mod 0x7FFFFFFF)).

Definition mod_mac2 (sum a b c d : Z) : res Z :=
  c_assert (is_residue sum);; c_assert (is_residue a);; c_assert (is_residue b);;
  c_assert (is_residue c);; c_assert (is_residue d);;
  Ok (ufast (u64 (u64 (u64 (a * b) + u64 (c * d)) + sum) mod 0x7FFFFFFF)).

Definition mod_mac3 (sum a b c d e f : Z) : res Z :=
  c_assert (is_residue sum);; c_assert (is_residue a);; c_assert (is_residue b);;
  c_assert (is_residue c);; c_assert (is_residue d);;
  c_assert (is_residue e);; c_assert (is_residue f);;
  Ok (ufast (u64 (u64 (u64 (u64 (a * b) + u64 (c * d)) + u64 (e * f)) + sum) mod 0x7FFFFFFF)).

Definition mod_mac4 (sum a b c d e f g h : Z) : res Z :=
  c_assert (is_residue sum);; c_assert (is_residue a);; c_assert (is_residue b);;
  c_assert (is_residue c);; c_assert (is_residue d);;
  c_assert (is_residue e);; c_assert (is_residue f);;
  c_assert (is_residue g);; c_assert (is_residue h);;
  Ok (ufast (u64 (u64 (u64 (u64 (u64 (a * b) + u64 (c * d)) + u64 (e * f)) + u64 (g * h)) + sum)
             mod 0x7FFFFFFF)).

Definition mod_mul_x (a : Z) : res Z := mod_mul a 107374182.
Definition mod_mul_y (a : Z) : res Z := mod_mul a 104480.
Definition mod_mac_y (sum a : Z) : res Z := mod_mac sum a 104480.
End Mod64.

(** The two instances of the dispatcher; [user_settings.h] defines
    FAST_64BIT_ARITHMETIC, so the second is the default. *)
Definition ops32 : ModOps := {|
  mod_add := Mod32.mod_add; mod_mul := Mod32.mod_mul; mod_mac := Mod32.mod_mac;
  mod_mac2 := Mod32.mod_mac2; mod_mac3 := Mod32.mod_mac3; mod_mac4 := Mod32.mod_mac4;
  mod_mul_x := Mod32.mod_mul_x; mod_mul_y := Mod32.mod_mul_y; mod_mac_y := Mod32.mod_mac_y |}.

Definition ops64 : ModOps := {|
  mod_add := Mod64.mod_add; mod_mul := Mod64.mod_mul; mod_mac := Mod64.mod_mac;
  mod_mac2 := Mod64.mod_mac2; mod_mac3 := Mod64.mod_mac3; mod_mac4 := Mod64.mod_mac4;
  mod_mul_x := Mod64.mod_mul_x; mod_mul_y := Mod64.mod_mul_y; mod_mac_y := Mod64.mod_mac_y |}.

(** ** Residues *)

Lemma residue_mod a : residue (a mod M).
Proof. apply Z.mod_pos_bound. unfold M. lia. Qed.

Lemma residue_mod_small a : residue a -> a mod M = a.
Proof. apply Z.mod_small. Qed.

Lemma is_residue_true a : residue a -> is_residue a = true.
Proof. unfold residue, is_residue, M. lia. Qed.

Lemma residue_const a : (0 <=? a) && (a <? M) = true -> residue a.
Proof. unfold residue. lia. Qed.

Create HintDb residue.
#[export] Hint Resolve residue_mod : residue.
#[export] Hint Extern 4 (residue _) => assumption : residue.
#[export] Hint Extern 5 (residue _) => apply residue_const; reflexivity : residue.

(** Discharges the assertions on operands. *)
Ltac pass_asserts :=
  repeat match goal with
  | |- context [is_residue ?a] =>
      rewrite (is_residue_true a) by eauto with residue
  end; simpl c_assert; rewrite ?bind_Ok; cbn [mbind res_bind].

(** A product of residues is below 2^62 - 2^33 + 4. *)
Lemma residue_mul a b : residue a -> residue b -> 0 <= a * b <= 0x7FFFFFFE * 0x7FFFFFFE.
Proof. unfold residue, M. nia. Qed.

(** ** The 32-bit header meets the laws *)
Module Mod32Facts.
Import Mod32.

Lemma fold_once_mod x : 0 <= x < 2 * M -> fold_once x = x mod M.
Proof.
  unfold fold_once, M. intros Hx. destruct (Z.leb_spec 0x7FFFFFFF x).
  - rewrite unsigned_small by lia.
    rewrite <- (Z.mod_small (x - 0x7FFFFFFF) 0x7FFFFFFF) by lia.
    rewrite <- (Z_mod_plus_full (x - 0x7FFFFFFF) 1 0x7FFFFFFF). f_equal. lia.
  - rewrite Z.mod_small; lia.
Qed.

(** Splitting a product at bit 31 and adding the halves keeps its residue. *)
Lemma split31 t : 0 <= t <= 0x3FFFFFFE80000002 ->
  let t2 := ufast (ufast (Z.land t 0x7FFFFFFF) + ufast (Z.shiftr t 31)) in
  0 <= t2 < 2 * M /\ t2 < 2 ^ 32 /\ t2 mod M = t mod M.
Proof.
  intros Ht. cbv zeta.
  change 0x7FFFFFFF with (Z.ones 31). rewrite Z.land_ones, Z.shiftr_div_pow2 by lia.
  pose proof (Z.div_mod t (2 ^ 31) ltac:(lia)) as E.
  pose proof (Z.mod_pos_bound t (2 ^ 31) ltac:(lia)) as Hr.
  assert (0 <= t / 2 ^ 31 <= 0x3FFFFFFE80000002 / 2 ^ 31) as Hq
    by (split; [apply Z.div_pos; lia | apply Z.div_le_mono; lia]).
  change (0x3FFFFFFE80000002 / 2 ^ 31) with 0x7FFFFFFD in Hq.
  change (2 ^ 31) with (M + 1) in *.
  set (q := t / (M + 1)) in *. set (r := t mod (M + 1)) in *. clearbody q r.
  unfold M in *. rewrite !unsigned_small by (rewrite ?unsigned_small; lia).
  split; [lia|]. split; [lia|].
  replace (r + q) with (t + (- q) * 0x7FFFFFFF) by lia. apply Z_mod_plus_full.
Qed.

Lemma mod_add_ok32 a b : residue a -> residue b -> mod_add a b = Ok ((a + b) mod M).
Proof.
  intros Ha Hb. unfold mod_add. pass_asserts.
  unfold residue, M in *. rewrite unsigned_small by lia.
  f_equal. apply fold_once_mod. unfold M. lia.
Qed.

Lemma mod_mac_ok32 s a b : residue s -> residue a -> residue b ->
  mod_mac s a b = Ok ((a * b + s) mod M).
Proof.
  intros Hs Ha Hb. unfold mod_mac. pass_asserts. f_equal.
  pose proof (residue_mul a b Ha Hb). unfold residue, M in Hs.
  rewrite (unsigned_small 64 (a * b + s)) by lia.
  destruct (split31 (a * b + s)) as (H1 & _ & H2); [lia|].
  rewrite fold_once_mod by done. exact H2.
Qed.

Lemma mod_mul_ok32 a b : residue a -> residue b -> mod_mul a b = Ok ((a * b) mod M).
Proof.
  intros Ha Hb. rewrite <- (Z.add_0_r (a * b)), <- mod_mac_ok32 by auto with residue.
  unfold mod_mul, mod_mac. pass_asserts. by rewrite Z.add_0_r.
Qed.

Lemma mod_mac2_ok32 s a b c d :
  residue s -> residue a -> residue b -> residue c -> residue d ->
  mod_mac2 s a b c d = Ok ((a * b + c * d + s) mod M).
Proof.
  intros. unfold mod_mac2. pass_asserts.
  rewrite mod_mac_ok32 by done. cbn [mbind res_bind].
  rewrite mod_mac_ok32 by auto with residue. f_equal.
  rewrite Zplus_mod_idemp_r. f_equal. lia.
Qed.

Lemma mod_mac3_ok32 s a b c d e f : residue s -> residue a -> residue b -> residue c ->
  residue d -> residue e -> residue f ->
  mod_mac3 s a b c d e f = Ok ((a * b + c * d + e * f + s) mod M).
Proof.
  intros. unfold mod_mac3. pass_asserts.
  rewrite mod_mac_ok32 by done. cbn [mbind res_bind].
  rewrite mod_mac2_ok32 by auto with residue. f_equal.
  rewrite Zplus_mod_idemp_r. f_equal. lia.
Qed.

Lemma mod_mac4_ok32 s a b c d e f g h : residue s -> residue a -> residue b -> residue c ->
  residue d -> residue e -> residue f -> residue g -> residue h ->
  mod_mac4 s a b c d e f g h = Ok ((a * b + c * d + e * f + g * h + s) mod M).
Proof.
  intros. unfold mod_mac4. pass_asserts.
  rewrite mod_mac2_ok32 by done. cbn [mbind res_bind].
  rewrite mod_mac2_ok32 by auto with residue. f_equal.
  rewrite Zplus_mod_idemp_r. f_equal. lia.
Qed.

(** Schrage's decomposition is exact when [M = k * q + r], [0 <= r < q]. *)
Lemma schrage_ok k q r a : M = k * q + r -> 0 <= r < q -> 0 < k < M -> residue a ->
  schrage k q r a = Ok ((k * a) mod M).
Proof.
  intros HM Hr Hk Ha. unfold schrage. unfold residue, M in *.
  rewrite (signed_small 64 a) by lia.
  rewrite Z.quot_div_nonneg by lia.
  pose proof (Z.div_mod a q ltac:(lia)) as E.
  pose proof (Z.mod_pos_bound a q ltac:(lia)) as Hm.
  assert (0 <= a / q) as Hq0 by (apply Z.div_pos; lia).
  set (d := a / q) in *. set (m := a mod q) in *. clearbody d m.
  assert (d * q <= a) by nia. assert (0 <= k * m <= k * q) by nia.
  assert (d * r <= d * q) by nia. assert (d * r < 0x7FFFFFFF) by nia.
  assert (0 <= d * r) by nia.
  rewrite (chk_ok 64 (d * q)) by nia. cbn [mbind res_bind].
  replace (a - d * q) with m by nia.
  rewrite (chk_ok 64 m) by nia. cbn [mbind res_bind].
  rewrite (chk_ok 64 (k * m)) by nia. cbn [mbind res_bind].
  rewrite (chk_ok 64 (d * r)) by nia. cbn [mbind res_bind].
  rewrite (chk_ok 64 (k * m - d * r)) by nia. cbn [mbind res_bind].
  assert (Heq : k * a = (k * m - d * r) + d * 0x7FFFFFFF) by (rewrite HM; nia).
  assert (Hb : - 0x7FFFFFFF < k * m - d * r < 0x7FFFFFFF) by nia.
  remember (k * m - d * r) as v eqn:Hdef. clear Hdef.
  assert (Hv : v + (if v <? 0 then 0x7FFFFFFF else 0) = (k * a) mod 0x7FFFFFFF).
  { rewrite Heq, Z_mod_plus_full. destruct (Z.ltb_spec v 0).
    - rewrite <- (Z_mod_plus_full v 1). rewrite Z.mod_small; lia.
    - rewrite Z.mod_small; lia. }
  rewrite Hv.
  pose proof (Z.mod_pos_bound (k * a) 0x7FFFFFFF ltac:(lia)).
  rewrite chk_ok by lia. cbn [mbind res_bind].
  rewrite mod_mul_ok32 by (unfold residue, M; lia). cbn [mbind res_bind].
  rewrite unsigned_small by lia.
  rewrite (Z.mul_comm a k). unfold M. rewrite Z.eqb_refl. done.
Qed.

Lemma mod_mul_x_ok32 a : residue a -> mod_mul_x a = Ok ((mrg_x * a) mod M).
Proof. intros Ha. apply schrage_ok; [unfold M, mrg_x, mrg_y; lia.. | exact Ha]. Qed.

Lemma mod_mul_y_ok32 a : residue a -> mod_mul_y a = Ok ((mrg_y * a) mod M).
Proof. intros Ha. apply schrage_ok; [unfold M, mrg_x, mrg_y; lia.. | exact Ha]. Qed.

Lemma mod_mac_y_ok32 s a : residue s -> residue a ->
  mod_mac_y s a = Ok ((mrg_y * a + s) mod M).
Proof.
  intros. unfold mod_mac_y. rewrite mod_mul_y_ok32 by done. cbn [mbind res_bind].
  rewrite mod_add_ok32 by auto with residue. cbn [mbind res_bind].
  rewrite mod_mac_ok32 by auto with residue. cbn [mbind res_bind].
  rewrite Zplus_mod_idemp_r, (Z.mul_comm a 104480), (Z.add_comm s).
  unfold mrg_y. rewrite Z.eqb_refl. done.
Qed.
End Mod32Facts.

(** ** The 64-bit header meets the laws: no intermediate value overflows *)
Module Mod64Facts.
Import Mod64.

Lemma reduce64 t : 0 <= t < 2 ^ 64 -> ufast (u64 t mod 0x7FFFFFFF) = t mod M.
Proof.
  intros Ht. rewrite (unsigned_small 64 t) by done.
  apply unsigned_small. pose proof (residue_mod t). unfold residue, M in *. lia.
Qed.

Lemma mod_add_ok64 a b : residue a -> residue b -> mod_add a b = Ok ((a + b) mod M).
Proof.
  intros Ha Hb. unfold mod_add. pass_asserts. unfold residue, M in *.
  by rewrite unsigned_small by lia.
Qed.

Lemma mod_mul_ok64 a b : residue a -> residue b -> mod_mul a b = Ok ((a * b) mod M).
Proof.
  intros Ha Hb. unfold mod_mul. pass_asserts.
  pose proof (residue_mul a b Ha Hb). rewrite reduce64 by lia. done.
Qed.

(** Removes the inner wraps of a sum of products, each below 2^62. *)
Ltac no_wrap :=
  repeat match goal with
  | |- context [unsigned 64 ?t] =>
      lazymatch t with
      | context [unsigned _ _] => fail
      | context [_ mod _] => fail
      | _ => rewrite (unsigned_small 64 t) by lia
      end
  end.

Ltac prods :=
  repeat match goal with
  | H1 : residue ?a, H2 : residue ?b |- context [?a * ?b] =>
      lazymatch goal with
      | _ : 0 <= a * b <= _ |- _ => fail
      | _ => pose proof (residue_mul a b H1 H2)
      end
  end.

Ltac mac64 :=
  intros; pass_asserts; prods;
  repeat match goal with H : residue _ |- _ => unfold residue, M in H end;
  no_wrap; f_equal; unfold M; apply unsigned_small;
  match goal with |- 0 <= ?t mod _ < _ =>
    pose proof (Z.mod_pos_bound t 0x7FFFFFFF ltac:(lia)) end; lia.

Lemma mod_mac_ok64 s a b : residue s -> residue a -> residue b ->
  mod_mac s a b = Ok ((a * b + s) mod M).
Proof. unfold mod_mac. mac64. Qed.

Lemma mod_mac2_ok64 s a b c d :
  residue s -> residue a -> residue b -> residue c -> residue d ->
  mod_mac2 s a b c d = Ok ((a * b + c * d + s) mod M).
Proof. unfold mod_mac2. mac64. Qed.

Lemma mod_mac3_ok64 s a b c d e f : residue s -> residue a -> residue b -> residue c ->
  residue d -> residue e -> residue f ->
  mod_mac3 s a b c d e f = Ok ((a * b + c * d + e * f + s) mod M).
Proof. unfold mod_mac3. mac64. Qed.

Lemma mod_mac4_ok64 s a b c d e f g h : residue s -> residue a -> residue b -> residue c ->
  residue d -> residue e -> residue f -> residue g -> residue h ->
  mod_mac4 s a b c d e f g h = Ok ((a * b + c * d + e * f + g * h + s) mod M).
Proof. unfold mod_mac4. mac64. Qed.

Lemma mod_mul_k_ok64 k a : residue k -> residue a -> mod_mul a k = Ok ((k * a) mod M).
Proof. intros. rewrite mod_mul_ok64 by done. by rewrite Z.mul_comm. Qed.

Lemma mod_mac_y_ok64 s a : residue s -> residue a ->
  mod_mac_y s a = Ok ((mrg_y * a + s) mod M).
Proof.
  intros. unfold mod_mac_y. rewrite mod_mac_ok64 by auto with residue.
  by rewrite (Z.mul_comm a).
Qed.
End Mod64Facts.

#[export] Instance laws32 : ModLaws ops32.
Proof.
  constructor; intros; simpl.
  - by apply Mod32Facts.mod_add_ok32.
  - by apply Mod32Facts.mod_mul_ok32.
  - by apply Mod32Facts.mod_mac_ok32.
  - by apply Mod32Facts.mod_mac2_ok32.
  - by apply Mod32Facts.mod_mac3_ok32.
  - by apply Mod32Facts.mod_mac4_ok32.
  - by apply Mod32Facts.mod_mul_x_ok32.
  - by apply Mod32Facts.mod_mul_y_ok32.
  - by apply Mod32Facts.mod_mac_y_ok32.
Qed.

#[export] Instance laws64 : ModLaws ops64.
Proof.
  constructor; intros; simpl.
  - by apply Mod64Facts.mod_add_ok64.
  - by apply Mod64Facts.mod_mul_ok64.
  - by apply Mod64Facts.mod_mac_ok64.
  - by apply Mod64Facts.mod_mac2_ok64.
  - by apply Mod64Facts.mod_mac3_ok64.
  - by apply Mod64Facts.mod_mac4_ok64.
  - by apply Mod64Facts.mod_mul_k_ok64; [auto with residue|].
  - by apply Mod64Facts.mod_mul_k_ok64; [auto with residue|].
  - by apply Mod64Facts.mod_mac_y_ok64.
Qed.

(** ** Congruence modulo M as a setoid *)

Definition cong (a b : Z) : Prop := a mod M = b mod M.
Infix "≅" := cong (at level 70) : c_scope.

#[export] Instance cong_equiv : Equivalence cong.
Proof. split; unfold cong; red; congruence. Qed.

#[export] Instance cong_add : Proper (cong ==> cong ==> cong) Z.add.
Proof.
  intros a a' Ha b b' Hb. unfold cong in *.
  by rewrite Zplus_mod, Ha, Hb, <- Zplus_mod.
Qed.

#[export] Instance cong_mul : Proper (cong ==> cong ==> cong) Z.mul.
Proof.
  intros a a' Ha b b' Hb. unfold cong in *.
  by rewrite Zmult_mod, Ha, Hb, <- Zmult_mod.
Qed.

Lemma cong_mod a : a mod M ≅ a.
Proof. apply Zmod_mod. Qed.

(** Names the innermost reductions of the goal, each with its congruence. *)
Ltac name_mods :=
  repeat match goal with
  | |- context [?e mod M] =>
      lazymatch e with context [_ mod M] => fail | _ => idtac end;
      let v := fresh "v" in let H := fresh "Hv" in
      pose proof (cong_mod e) as H; set (v := e mod M) in *; clearbody v
  end.

(** Two terms with inner reductions, equal as polynomials once these go. *)
Ltac mod_ring :=
  match goal with |- ?a mod M = ?b mod M => change (a ≅ b) end;
  name_mods;
  repeat match goal with H : ?v ≅ _ |- _ => is_var v; rewrite H; clear H end;
  apply f_equal2; [ring | reflexivity].

(** On residues modulo 2^31 - 1, no assertion of either header fails, no
    intermediate value wraps or overflows, and the 32-bit and the 64-bit
    header compute the same residue for every operation of the interface;
    Schrage's division-based [mod_mul_x] and [mod_mul_y] included. *)
Theorem mod_arith_headers_agree s a b c d e f g h :
  Forall residue [s; a; b; c; d; e; f; g; h] ->
  Mod32.mod_add a b = Ok ((a + b) mod M) /\ Mod64.mod_add a b = Ok ((a + b) mod M) /\
  Mod32.mod_mul a b = Ok ((a * b) mod M) /\ Mod64.mod_mul a b = Ok ((a * b) mod M) /\
  Mod32.mod_mul_x a = Ok ((mrg_x * a) mod M) /\ Mod64.mod_mul_x a = Ok ((mrg_x * a) mod M) /\
  Mod32.mod_mul_y a = Ok ((mrg_y * a) mod M) /\ Mod64.mod_mul_y a = Ok ((mrg_y * a) mod M) /\
  Mod32.mod_mac_y s a = Ok ((mrg_y * a + s) mod M) /\
  Mod64.mod_mac_y s a = Ok ((mrg_y * a + s) mod M) /\
  Mod32.mod_mac s a b = Ok ((a * b + s) mod M) /\ Mod64.mod_mac s a b = Ok ((a * b + s) mod M) /\
  Mod32.mod_mac2 s a b c d = Ok ((a * b + c * d + s) mod M) /\
  Mod64.mod_mac2 s a b c d = Ok ((a * b + c * d + s) mod M) /\
  Mod32.mod_mac3 s a b c d e f = Ok ((a * b + c * d + e * f + s) mod M) /\
  Mod64.mod_mac3 s a b c d e f = Ok ((a * b + c * d + e * f + s) mod M) /\
  Mod32.mod_mac4 s a b c d e f g h = Ok ((a * b + c * d + e * f + g * h + s) mod M) /\
  Mod64.mod_mac4 s a b c d e f g h = Ok ((a * b + c * d + e * f + g * h + s) mod M).
Proof.
  intros H. inv_forall.
  split_and!.
  - by apply Mod32Facts.mod_add_ok32.
  - by apply Mod64Facts.mod_add_ok64.
  - by apply Mod32Facts.mod_mul_ok32.
  - by apply Mod64Facts.mod_mul_ok64.
  - by apply Mod32Facts.mod_mul_x_ok32.
  - apply Mod64Facts.mod_mul_k_ok64; auto with residue.
  - by apply Mod32Facts.mod_mul_y_ok32.
  - apply Mod64Facts.mod_mul_k_ok64; auto with residue.
  - by apply Mod32Facts.mod_mac_y_ok32.
  - by apply Mod64Facts.mod_mac_y_ok64.
  - by apply Mod32Facts.mod_mac_ok32.
  - by apply Mod64Facts.mod_mac_ok64.
  - by apply Mod32Facts.mod_mac2_ok32.
  - by apply Mod64Facts.mod_mac2_ok64.
  - by apply Mod32Facts.mod_mac3_ok32.
  - by apply Mod64Facts.mod_mac3_ok64.
  - by apply Mod32Facts.mod_mac4_ok32.
  - by apply Mod64Facts.mod_mac4_ok64.
Qed.

Lemma mod_arith_headers_agree_witness :
  Mod32.mod_mul_x 0x7FFFFFFE = Mod64.mod_mul_x 0x7FFFFFFE /\
  Mod32.mod_mul_x 0x7FFFFFFE = Ok 2040109465.
Proof.
  assert (H : Forall residue [1; 0x7FFFFFFE; 3; 4; 5; 6; 7; 8; 9])
    by (repeat constructor; reflexivity || discriminate).
  pose proof (mod_arith_headers_agree 1 0x7FFFFFFE 3 4 5 6 7 8 9 H) as HH.
  destruct HH as (_ & _ & _ & _ & E1 & E2 & _).
  rewrite E1, E2. split; vm_compute; reflexivity.
Defined.
