(* ===== verification/SplittableMrg.v ===== *)
(** * The splittable pseudorandom generator

    [generator/splittable_mrg.c]: a multiple recursive generator of order 5
    modulo 2^31 - 1.  A state is five residues; one step multiplies it by the
    companion matrix A; [mrg_skip] jumps ahead by up to 2^192 steps with a
    table of powers of A, one row per byte of the exponent.  The definitions
    are over the interface [ModOps] of the arithmetic headers. *)

From S2P Require Import Prelude ModArith.

(** [struct mrg_state] *)
Record mrg_state := mk_state { z1 : Z; z2 : Z; z3 : Z; z4 : Z; z5 : Z }.

(** [struct mrg_transition_matrix]: the bottom row s..w of a power of A and
    the cached entries a..d that the other rows are made of. *)
Record mrg_transition_matrix := mk_matrix {
  ts : Z; tt : Z; tu : Z; tv : Z; tw : Z; ta : Z; tb : Z; tc : Z; td : Z }.

#[export] Instance mrg_state_eq_dec : EqDecision mrg_state.
Proof. solve_decision. Defined.
#[export] Instance mrg_matrix_eq_dec : EqDecision mrg_transition_matrix.
Proof. solve_decision. Defined.

Section Code.
Context {ops : ModOps}.

Definition mrg_update_cache (s t u v w : Z) : res mrg_transition_matrix :=
  xs ← mod_mul_x s; a ← mod_add xs t;
  xa ← mod_mul_x a; b ← mod_add xa u;
  xb ← mod_mul_x b; c ← mod_add xb v;
  xc ← mod_mul_x c; d ← mod_add xc w;
  Ok (mk_matrix s t u v w a b c d).

Definition mrg_make_identity : res mrg_transition_matrix := mrg_update_cache 0 0 0 0 1.
Definition mrg_make_A : res mrg_transition_matrix := mrg_update_cache 0 0 0 1 0.

Definition mrg_multiply (m n : mrg_transition_matrix) : res mrg_transition_matrix :=
  r ← mod_mul (ts m) (td n); r ← mod_mac r (tt m) (tc n); r ← mod_mac r (tu m) (tb n);
  r ← mod_mac r (tv m) (ta n); rs ← mod_mac r (tw m) (ts n);
  r ← mod_mul (ts m) (ts n); r ← mod_mul_y r; r ← mod_mac r (tt m) (tw n);
  r ← mod_mac r (tu m) (tv n); r ← mod_mac r (tv m) (tu n); rt ← mod_mac r (tw m) (tt n);
  r ← mod_mul (ts m) (ta n); r ← mod_mac r (tt m) (ts n); r ← mod_mul_y r;
  r ← mod_mac r (tu m) (tw n); r ← mod_mac r (tv m) (tv n); ru ← mod_mac r (tw m) (tu n);
  r ← mod_mul (ts m) (tb n); r ← mod_mac r (tt m) (ta n); r ← mod_mac r (tu m) (ts n);
  r ← mod_mul_y r; r ← mod_mac r (tv m) (tw n); rv ← mod_mac r (tw m) (tv n);
  r ← mod_mul (ts m) (tc n); r ← mod_mac r (tt m) (tb n); r ← mod_mac r (tu m) (ta n);
  r ← mod_mac r (tv m) (ts n); r ← mod_mul_y r; rw ← mod_mac r (tw m) (tw n);
  mrg_update_cache rs rt ru rv rw.

(** The square-and-multiply loop; [exponent] is an unsigned int, so 33
    iterations of the condition cover it. *)
Definition mrg_power (m : mrg_transition_matrix) (exponent : Z) : res mrg_transition_matrix :=
  identity ← mrg_make_identity;
  r ← while 33
    (fun '(exponent, current_power_of_2, result) => Ok (0 <? exponent))
    (fun '(exponent, current_power_of_2, result) =>
       result ← (if exponent mod 2 =? 1 then mrg_multiply result current_power_of_2
                 else Ok result);
       current_power_of_2 ← mrg_multiply current_power_of_2 current_power_of_2;
       Ok (exponent / 2, current_power_of_2, result))
    (exponent, m, identity);
  Ok (snd r).

Definition mrg_apply_transition (mat : mrg_transition_matrix) (st : mrg_state) : res mrg_state :=
  p ← mod_mul (td mat) (z1 st);
  q ← mod_mac4 0 (ts mat) (z2 st) (ta mat) (z3 st) (tb mat) (z4 st) (tc mat) (z5 st);
  o1 ← mod_mac_y p q;
  p ← mod_mac2 0 (tc mat) (z1 st) (tw mat) (z2 st);
  q ← mod_mac3 0 (ts mat) (z3 st) (ta mat) (z4 st) (tb mat) (z5 st);
  o2 ← mod_mac_y p q;
  p ← mod_mac3 0 (tb mat) (z1 st) (tv mat) (z2 st) (tw mat) (z3 st);
  q ← mod_mac2 0 (ts mat) (z4 st) (ta mat) (z5 st);
  o3 ← mod_mac_y p q;
  p ← mod_mac4 0 (ta mat) (z1 st) (tu mat) (z2 st) (tv mat) (z3 st) (tw mat) (z4 st);
  q ← mod_mul (ts mat) (z5 st);
  o4 ← mod_mac_y p q;
  p ← mod_mac3 0 (ts mat) (z1 st) (tt mat) (z2 st) (tu mat) (z3 st);
  o5 ← mod_mac2 p (tv mat) (z4 st) (tw mat) (z5 st);
  Ok (mk_state o1 o2 o3 o4 o5).

Definition mrg_step (mat : mrg_transition_matrix) (state : mrg_state) : res mrg_state :=
  mrg_apply_transition mat state.

Definition mrg_orig_step (state : mrg_state) : res mrg_state :=
  p ← mod_mul_x (z1 state);
  new_elt ← mod_mac_y p (z5 state);
  Ok (mk_state new_elt (z1 state) (z2 state) (z3 state) (z4 state)).

(** One of the three loops of [mrg_skip]: the bytes of a 64-bit exponent,
    from table row [byte_index] on. *)
Definition mrg_skip_word (matrices : list (list mrg_transition_matrix))
    (state : mrg_state) (byte_index exponent : Z) : res mrg_state :=
  r ← while 9
    (fun '(byte_index, exponent, state) => Ok (negb (exponent =? 0)))
    (fun '(byte_index, exponent, state) =>
       let val := u8 (Z.land exponent 0xFF) in
       state ← (if negb (val =? 0)
                then row ← matrices.[byte_index]; mat ← row.[val]; mrg_step mat state
                else Ok state);
       Ok (byte_index + 1, Z.shiftr exponent 8, state))
    (byte_index, exponent, state);
  Ok (snd r).

Definition mrg_skip (matrices : list (list mrg_transition_matrix)) (state : mrg_state)
    (exponent_high exponent_middle exponent_low : Z) : res mrg_state :=
  state ← mrg_skip_word matrices state 0 exponent_low;
  state ← mrg_skip_word matrices state 8 exponent_middle;
  mrg_skip_word matrices state 16 exponent_high.

(** The generator of the table (built with DUMP_TRANSITION_TABLE): row [i]
    holds the powers 0..255 of A^(256^i). *)
Definition dump_row (transition : mrg_transition_matrix) : res (list mrg_transition_matrix) :=
  m ← mrg_make_identity;
  r ← for_range 2 256 (fun j out => m ← mrg_power transition j; Ok (out ++ [m]))
    [m; transition];
  Ok r.

Definition dump_mrg_powers : res (list (list mrg_transition_matrix)) :=
  r ← for_range 0 24
    (fun i '(transitions, out) =>
       transition ← (if i =? 0 then mrg_make_A
                     else p ← transitions.[i - 1]; mrg_power p 256);
       row ← dump_row transition;
       Ok (transitions ++ [transition], out ++ [row]))
    ([], []);
  Ok (snd r).

(** The draws; each returns its value and the new state. *)
Definition mrg_get_uint_orig (state : mrg_state) : res (Z * mrg_state) :=
  state ← mrg_orig_step state;
  Ok (z1 state, state).

Definition mrg_seed (seed : list Z) : res mrg_state :=
  s0 ← seed.[0]; s1 ← seed.[1]; s2 ← seed.[2]; s3 ← seed.[3]; s4 ← seed.[4];
  Ok (mk_state s0 s1 s2 s3 s4).
End Code.

(** ** Specification *)

Definition wf_state (st : mrg_state) : Prop :=
  residue (z1 st) /\ residue (z2 st) /\ residue (z3 st) /\ residue (z4 st) /\ residue (z5 st).

(** The recurrence x_n = x * x_(n-1) + y * x_(n-5) mod M. *)
Definition next (st : mrg_state) : mrg_state :=
  mk_state ((mrg_x * z1 st + mrg_y * z5 st) mod M) (z1 st) (z2 st) (z3 st) (z4 st).

Definition steps (n : Z) (st : mrg_state) : mrg_state := Nat.iter (Z.to_nat n) next st.

(** The product of the matrix of the source's comment with a state. *)
Definition apply (m : mrg_transition_matrix) (st : mrg_state) : mrg_state :=
  let '(mk_matrix s t u v w a b c d) := m in
  let '(mk_state z1 z2 z3 z4 z5) := st in
  let y := mrg_y in
  mk_state
    ((d * z1 + s * y * z2 + a * y * z3 + b * y * z4 + c * y * z5) mod M)
    ((c * z1 + w * z2 + s * y * z3 + a * y * z4 + b * y * z5) mod M)
    ((b * z1 + v * z2 + w * z3 + s * y * z4 + a * y * z5) mod M)
    ((a * z1 + u * z2 + v * z3 + w * z4 + s * y * z5) mod M)
    ((s * z1 + t * z2 + u * z3 + v * z4 + w * z5) mod M).

(** The matrix with a given bottom row. *)
Definition of_row (s t u v w : Z) : mrg_transition_matrix :=
  let a := (mrg_x * s + t) mod M in
  let b := (mrg_x * a + u) mod M in
  let c := (mrg_x * b + v) mod M in
  let d := (mrg_x * c + w) mod M in
  mk_matrix s t u v w a b c d.

Definition wf_matrix (m : mrg_transition_matrix) : Prop :=
  residue (ts m) /\ residue (tt m) /\ residue (tu m) /\ residue (tv m) /\ residue (tw m) /\
  m = of_row (ts m) (tt m) (tu m) (tv m) (tw m).

Definition times (m n : mrg_transition_matrix) : mrg_transition_matrix :=
  let '(mk_matrix s1 t1 u1 v1 w1 a1 b1 c1 d1) := m in
  let '(mk_matrix s2 t2 u2 v2 w2 a2 b2 c2 d2) := n in
  let y := mrg_y in
  of_row
    ((s1 * d2 + t1 * c2 + u1 * b2 + v1 * a2 + w1 * s2) mod M)
    ((s1 * s2 * y + t1 * w2 + u1 * v2 + v1 * u2 + w1 * t2) mod M)
    ((s1 * a2 * y + t1 * s2 * y + u1 * w2 + v1 * v2 + w1 * u2) mod M)
    ((s1 * b2 * y + t1 * a2 * y + u1 * s2 * y + v1 * w2 + w1 * v2) mod M)
    ((s1 * c2 * y + t1 * b2 * y + u1 * a2 * y + v1 * s2 * y + w1 * w2) mod M).

(** [m] is the [n]-th power of A: it makes [n] steps of the recurrence. *)
Definition represents (m : mrg_transition_matrix) (n : Z) : Prop :=
  wf_matrix m /\ forall st, wf_state st -> apply m st = steps n st.

(** ** The code computes the specification *)

(** The byte of an exponent that a turn of the skip loop consumes. *)
Lemma skip_byte e k : 0 <= e -> 0 <= k ->
  let val := Z.land (e / 256 ^ k) 0xFF in
  0 <= val < 256 /\
  e mod 256 ^ (k + 1) = val * 256 ^ k + e mod 256 ^ k /\
  e / 256 ^ k / 2 ^ 8 = e / 256 ^ (k + 1).
Proof.
  intros He Hk. cbv zeta. change 0xFF with (Z.ones 8). rewrite Z.land_ones by lia.
  change (2 ^ 8) with 256. split_and!.
  - pose proof (Z.mod_pos_bound (e / 256 ^ k) 256). lia.
  - pose proof (Z.mod_pos_bound (e / 256 ^ k) 256). lia.
  - rewrite Z.pow_add_r, Z.pow_1_r, Z.rem_mul_r by lia. lia.
  - by rewrite Z.div_div, (Z.pow_add_r 256 k 1), Z.pow_1_r by lia.
Qed.

Section Facts.
Context {ops : ModOps} `{!ModLaws ops}.

(** Rewrites the leading operation with its law. *)
Ltac mod_step :=
  first [ rewrite mod_add_law by eauto with residue
        | rewrite mod_mul_law by eauto with residue
        | rewrite mod_mac_law by eauto with residue
        | rewrite mod_mac2_law by eauto with residue
        | rewrite mod_mac3_law by eauto with residue
        | rewrite mod_mac4_law by eauto with residue
        | rewrite mod_mul_x_law by eauto with residue
        | rewrite mod_mul_y_law by eauto with residue
        | rewrite mod_mac_y_law by eauto with residue ];
  cbn [mbind res_bind].

Lemma of_row_residues s t u v w :
  residue (ta (of_row s t u v w)) /\ residue (tb (of_row s t u v w)) /\
  residue (tc (of_row s t u v w)) /\ residue (td (of_row s t u v w)).
Proof. unfold of_row; simpl; auto with residue. Qed.

Lemma mrg_update_cache_ok s t u v w :
  residue s -> residue t -> residue u -> residue v -> residue w ->
  mrg_update_cache s t u v w = Ok (of_row s t u v w).
Proof.
  intros. unfold mrg_update_cache, of_row. repeat mod_step.
  by rewrite !Zplus_mod_idemp_l.
Qed.

Lemma wf_of_row s t u v w :
  residue s -> residue t -> residue u -> residue v -> residue w -> wf_matrix (of_row s t u v w).
Proof. unfold wf_matrix. simpl. auto 10. Qed.

Lemma wf_matrix_fields m : wf_matrix m ->
  residue (ts m) /\ residue (tt m) /\ residue (tu m) /\ residue (tv m) /\ residue (tw m) /\
  residue (ta m) /\ residue (tb m) /\ residue (tc m) /\ residue (td m).
Proof.
  intros (Hs & Ht & Hu & Hv & Hw & ->).
  pose proof (of_row_residues (ts m) (tt m) (tu m) (tv m) (tw m)). simpl in *. tauto.
Qed.

Lemma mrg_multiply_ok m n : wf_matrix m -> wf_matrix n -> mrg_multiply m n = Ok (times m n).
Proof.
  intros Hm%wf_matrix_fields Hn%wf_matrix_fields.
  destruct m as [s1 t1 u1 v1 w1 a1 b1 c1 d1], n as [s2 t2 u2 v2 w2 a2 b2 c2 d2].
  simpl in *. destruct_and!. unfold mrg_multiply. simpl. repeat mod_step.
  rewrite mrg_update_cache_ok by auto with residue.
  f_equal. unfold times, cong. f_equal; mod_ring.
Qed.

Lemma wf_times m n : wf_matrix (times m n).
Proof. destruct m, n. apply wf_of_row; auto with residue. Qed.

Lemma mrg_apply_transition_ok m st : wf_matrix m -> wf_state st ->
  mrg_apply_transition m st = Ok (apply m st).
Proof.
  intros Hm%wf_matrix_fields Hst. unfold wf_state in Hst.
  destruct m as [s t u v w a b c d], st as [y1 y2 y3 y4 y5].
  simpl in *. destruct_and!. unfold mrg_apply_transition. simpl. repeat mod_step.
  f_equal. f_equal; mod_ring.
Qed.

Lemma mrg_orig_step_ok st : wf_state st -> mrg_orig_step st = Ok (next st).
Proof.
  unfold wf_state. intros. destruct_and!. unfold mrg_orig_step. repeat mod_step.
  unfold next. do 2 f_equal. mod_ring.
Qed.

(** *** Powers of A *)

Lemma wf_next st : wf_state st -> wf_state (next st).
Proof. unfold wf_state, next. simpl. intros. destruct_and!. auto with residue. Qed.

Lemma steps_0 st : steps 0 st = st.
Proof. reflexivity. Qed.

Lemma steps_succ n st : 0 <= n -> steps (n + 1) st = next (steps n st).
Proof. intros. unfold steps. replace (Z.to_nat (n + 1)) with (S (Z.to_nat n)) by lia. done. Qed.

Lemma steps_add n m st : 0 <= n -> 0 <= m -> steps (n + m) st = steps n (steps m st).
Proof.
  intros. unfold steps. rewrite Z2Nat.inj_add by lia.
  generalize (Z.to_nat n) as k. induction k; simpl; congruence.
Qed.

Lemma wf_steps n st : wf_state st -> wf_state (steps n st).
Proof.
  intros. unfold steps. generalize (Z.to_nat n) as k.
  induction k; simpl; auto using wf_next.
Qed.

(** The matrices of the code compose as linear maps. *)
Lemma apply_times m n st : wf_matrix m -> wf_matrix n ->
  apply (times m n) st = apply m (apply n st).
Proof.
  intros (_ & _ & _ & _ & _ & ->) (_ & _ & _ & _ & _ & ->).
  destruct m as [s1 t1 u1 v1 w1 a1 b1 c1 d1], n as [s2 t2 u2 v2 w2 a2 b2 c2 d2],
    st as [y1 y2 y3 y4 y5]. unfold times, of_row, apply. simpl.
  generalize mrg_x mrg_y. intros x y. f_equal; mod_ring.
Qed.

Lemma represents_times m n i j : 0 <= i -> 0 <= j ->
  represents m i -> represents n j -> represents (times m n) (i + j).
Proof.
  intros Hi Hj [Hm Am] [Hn An]. split; [apply wf_times|]. intros st Hst.
  rewrite apply_times, An, Am, steps_add by auto using wf_steps. done.
Qed.

Lemma represents_identity : represents (of_row 0 0 0 0 1) 0.
Proof.
  split; [apply wf_of_row; auto with residue|].
  intros [y1 y2 y3 y4 y5] Hst. unfold wf_state in Hst. simpl in Hst. destruct_and!.
  unfold apply, of_row. rewrite steps_0. simpl.
  f_equal; rewrite <- residue_mod_small by done; mod_ring.
Qed.

Lemma represents_A : represents (of_row 0 0 0 1 0) 1.
Proof.
  split; [apply wf_of_row; auto with residue|].
  intros [y1 y2 y3 y4 y5] Hst. unfold wf_state in Hst. simpl in Hst. destruct_and!.
  unfold apply, of_row, steps, next. simpl.
  f_equal; try mod_ring; rewrite <- residue_mod_small by done; mod_ring.
Qed.

Lemma mrg_make_identity_ok : mrg_make_identity = Ok (of_row 0 0 0 0 1).
Proof. apply mrg_update_cache_ok; auto with residue. Qed.

Lemma mrg_make_A_ok : mrg_make_A = Ok (of_row 0 0 0 1 0).
Proof. apply mrg_update_cache_ok; auto with residue. Qed.

Lemma represents_multiply m n i j : 0 <= i -> 0 <= j -> represents m i -> represents n j ->
  exists r, mrg_multiply m n = Ok r /\ represents r (i + j).
Proof.
  intros Hi Hj Hm Hn. exists (times m n).
  split; [apply mrg_multiply_ok; [apply Hm | apply Hn] | by apply represents_times].
Qed.

Lemma represents_power m i e : 0 <= i -> 0 <= e < 2 ^ 32 -> represents m i ->
  exists r, mrg_power m e = Ok r /\ represents r (i * e).
Proof.
  intros Hi He Hm. unfold mrg_power. rewrite mrg_make_identity_ok. cbn [mbind res_bind].
  destruct (while_inv
    (fun '(x, p, r) => 0 <= x < 2 ^ 32 /\ exists k j,
       0 <= k /\ 0 <= j /\ represents p k /\ represents r j /\ j + k * x = i * e)
    (fun '(x, p, r) => if x =? 0 then 0%nat else S (Z.to_nat (Z.log2 x)))
    (fun '(x, p, r) => Ok (0 <? x))
    (fun '(x, p, r) =>
       r ← (if x mod 2 =? 1 then mrg_multiply r p else Ok r);
       p ← mrg_multiply p p; Ok (x / 2, p, r))) with (fuel := 33%nat)
    (s := (e, m, of_row 0 0 0 0 1)) as ([[x p] r] & E & [Hx (k & j & Hk & Hj & Hp & Hr & Hinv)] & Hc).
  - intros [[x p] r] _. eauto.
  - intros [[x p] r] (Hx & k & j & Hk & Hj & Hp & Hr & Hinv) [= Hpos%Z.ltb_lt].
    pose proof (Z.div_mod x 2 ltac:(lia)) as Edm.
    pose proof (Z.mod_pos_bound x 2 ltac:(lia)) as Hmod.
    assert (exists r' j', (if x mod 2 =? 1 then mrg_multiply r p else Ok r) = Ok r' /\
              0 <= j' /\ represents r' j' /\ j' = j + k * (x mod 2)) as (r' & j' & Er & Hj' & Hr' & Ej).
    { destruct (Z.eqb_spec (x mod 2) 1) as [E1|E1].
      - destruct (represents_multiply r p j k) as (r' & ? & ?); [done..|].
        exists r', (j + k). rewrite E1. split_and!; (done || lia).
      - exists r, j. replace (x mod 2) with 0 by lia. split_and!; (done || lia). }
    destruct (represents_multiply p p k k) as (p' & Ep & Hp'); [done..|].
    rewrite Er. cbn [mbind res_bind]. rewrite Ep. cbn [mbind res_bind].
    eexists; split; [done|]. split.
    + split; [split; [apply Z.div_pos | apply Z.div_lt_upper_bound]; lia|].
      exists (k + k), j'. split_and!; [lia | lia | done | done |]. subst j'. nia.
    + destruct (Z.eqb_spec x 0); [lia|]. destruct (Z.eqb_spec (x / 2) 0); [lia|].
      assert (2 <= x) by (destruct (Z.eq_dec x 1); [subst; done | lia]).
      replace (x / 2) with (Z.shiftr x 1) by (by rewrite Z.shiftr_div_pow2 by lia).
      rewrite Z.log2_shiftr by lia. pose proof (Z.log2_pos x ltac:(lia)). lia.
  - destruct (Z.eqb_spec e 0); [lia|].
    assert (Z.log2 e < 32) by (apply Z.log2_lt_pow2; lia).
    pose proof (Z.log2_nonneg e). lia.
  - split; [lia|]. exists i, 0. split_and!; auto using represents_identity; lia.
  - rewrite E. cbn [mbind res_bind]. exists r. split; [done|].
    injection Hc as Hc%Z.ltb_ge. assert (x = 0) by lia. subst x.
    replace (i * e) with j by lia. done.
Qed.

(** Calls of [mrg_orig_step] in a row. *)
Lemma orig_steps_ok n st : wf_state st -> 0 <= n ->
  for_range 0 n (fun _ st => mrg_orig_step st) st = Ok (steps n st).
Proof.
  intros Hst Hn.
  destruct (for_range_inv (fun k s => s = steps k st) (fun _ st => mrg_orig_step st) 0 n st)
    as (s & -> & ->); [lia | done | | done].
  intros k s Hk ->. rewrite mrg_orig_step_ok by auto using wf_steps.
  eexists. split; [done|]. by rewrite steps_succ by lia.
Qed.

(** *** The table *)

(** The matrix found at (i, j) makes j * 256^i steps. *)
Definition row_ok (n : Z) (row : list mrg_transition_matrix) : Prop :=
  zlen row = 256 /\ forall j, 0 <= j < 256 -> exists m, row.[j] = Ok m /\ represents m (n * j).

Definition table_ok (t : list (list mrg_transition_matrix)) : Prop :=
  zlen t = 24 /\ forall i, 0 <= i < 24 -> exists row, t.[i] = Ok row /\ row_ok (256 ^ i) row.

Lemma dump_row_ok tr n : 0 <= n -> represents tr n ->
  exists row, dump_row tr = Ok row /\ row_ok n row.
Proof.
  intros Hn Htr. unfold dump_row. rewrite mrg_make_identity_ok. cbn [mbind res_bind].
  destruct (for_range_inv
    (fun k row => zlen row = k /\
       forall j, 0 <= j < k -> exists m, row.[j] = Ok m /\ represents m (n * j))
    (fun j out => m ← mrg_power tr j; Ok (out ++ [m])) 2 256
    [of_row 0 0 0 0 1; tr]) as (row & -> & Hrow); [lia | | |].
  - split; [done|]. intros j Hj. assert (j = 0 \/ j = 1) as [-> | ->] by lia.
    + eexists; split; [done|]. rewrite Z.mul_0_r. apply represents_identity.
    + eexists; split; [done|]. by rewrite Z.mul_1_r.
  - intros k row Hk [Hlen Hrow].
    destruct (represents_power tr n k) as (m & -> & Hm); [lia.. | done |].
    cbn [mbind res_bind]. eexists; split; [done|]. split; [rewrite length_app; simpl; lia|].
    intros j Hj. destruct (decide (j < k)) as [Hjk|].
    + destruct (Hrow j ltac:(lia)) as (m' & Hm' & ?). exists m'. split; [|done].
      by rewrite aget_app_l by lia.
    + assert (j = k) as -> by lia. exists m. split; [|done].
      by rewrite aget_snoc by lia.
  - cbn [mbind res_bind]. eauto.
Qed.

Lemma dump_mrg_powers_ok : exists t, dump_mrg_powers = Ok t /\ table_ok t.
Proof.
  unfold dump_mrg_powers.
  match goal with |- context [for_range 0 24 ?f ?s] =>
    destruct (for_range_inv
      (fun i '(trs, out) => zlen trs = i /\ zlen out = i /\
         forall j, 0 <= j < i ->
           (exists m, trs.[j] = Ok m /\ represents m (256 ^ j)) /\
           exists row, out.[j] = Ok row /\ row_ok (256 ^ j) row) f 0 24 s)
      as ([trs out] & -> & Hlt & Hlo & Hinv); [lia | | |]
  end.
  - split_and!; [done.. | lia].
  - intros i [trs out] Hi (Hlt & Hlo & Hinv).
    assert (exists m, (if i =? 0 then mrg_make_A else p ← trs.[i - 1]; mrg_power p 256) = Ok m
              /\ represents m (256 ^ i)) as (m & -> & Hm).
    { destruct (Z.eqb_spec i 0) as [->|].
      - rewrite mrg_make_A_ok. eauto using represents_A.
      - destruct (Hinv (i - 1) ltac:(lia)) as [(p & -> & Hp) _]. cbn [mbind res_bind].
        replace (256 ^ i) with (256 ^ (i - 1) * 256)
          by (rewrite Z.mul_comm, <- Z.pow_succ_r by lia; f_equal; lia).
        apply represents_power; [lia.. | done]. }
    cbn [mbind res_bind].
    destruct (dump_row_ok m (256 ^ i)) as (row & -> & Hrow); [lia | done |].
    cbn [mbind res_bind]. eexists; split; [done|].
    split_and!; [rewrite length_app; simpl; lia..|].
    intros j Hj. destruct (decide (j < i)) as [Hji|].
    + rewrite !aget_app_l by lia. apply Hinv. lia.
    + assert (j = i) as -> by lia. rewrite !aget_snoc by lia. split; eexists; eauto.
  - cbn [mbind res_bind snd]. exists out. split; [done|]. split; [done|].
    intros i Hi. destruct (Hinv i Hi) as [_ ?]. done.
Qed.

Lemma dump_table_ok t : dump_mrg_powers = Ok t -> table_ok t.
Proof. intros E. destruct dump_mrg_powers_ok as (t' & E' & Ht). congruence. Qed.

(** *** Skipping *)

Lemma mrg_skip_word_ok t st b e : table_ok t -> wf_state st ->
  0 <= b <= 16 -> 0 <= e < 2 ^ 64 ->
  mrg_skip_word t st b e = Ok (steps (e * 256 ^ b) st).
Proof.
  intros Ht Hst Hb He. unfold mrg_skip_word.
  match goal with |- context [while 9 ?c ?f ?s0] =>
    destruct (while_inv
      (fun '(bi, x, s) => exists k, bi = b + k /\ 0 <= k <= 8 /\ x = e / 256 ^ k /\
         s = steps ((e mod 256 ^ k) * 256 ^ b) st)
      (fun '(bi, x, s) => Z.to_nat (8 - (bi - b))) c f)
      with (fuel := 9%nat) (s := s0) as ([[bi x] s'] & -> & (k & -> & Hk & -> & ->) & Hc)
  end.
  - intros [[bi x] s] _. eauto.
  - intros [[bi x] s] (k & -> & Hk & -> & ->) [= Hx%negb_true_iff%Z.eqb_neq].
    pose proof (skip_byte e k ltac:(lia) ltac:(lia)) as (Hval & Hr & Hdiv).
    assert (k <> 8) by (intros ->; apply Hx, Z.div_small; exact He).
    change 0xFF with (Z.ones 8) in *. rewrite Z.land_ones in * by lia.
    set (val := (e / 256 ^ k) mod 2 ^ 8) in *.
    rewrite (unsigned_small 8 val) by lia.
    destruct Ht as [_ Ht]. destruct (Ht (b + k) ltac:(lia)) as (row & Erow & _ & Hrow).
    destruct (Hrow val ltac:(lia)) as (m & Em & [Hm Am]).
    assert (Hstep : (if negb (val =? 0) then row ← t.[b + k]; mat ← row.[val];
               mrg_step mat (steps (e mod 256 ^ k * 256 ^ b) st)
             else Ok (steps (e mod 256 ^ k * 256 ^ b) st)) =
            Ok (steps (e mod 256 ^ (k + 1) * 256 ^ b) st)).
    { rewrite Hr. destruct (Z.eqb_spec val 0) as [->|]; simpl.
      - by rewrite Z.mul_0_l, Z.add_0_l.
      - rewrite Erow. cbn [mbind res_bind]. rewrite Em. cbn [mbind res_bind].
        unfold mrg_step. rewrite mrg_apply_transition_ok by auto using wf_steps.
        rewrite Am by auto using wf_steps. rewrite <- steps_add
          by (repeat apply Z.mul_nonneg_nonneg; lia || (apply Z.mod_pos_bound; lia)).
        do 2 f_equal. rewrite (Z.pow_add_r 256 b k) by lia. ring. }
    rewrite Hstep. cbn [mbind res_bind]. eexists; split; [done|]. split; [|lia].
    exists (k + 1). split_and!; [lia | lia | lia | | done].
    by rewrite Z.shiftr_div_pow2, Hdiv by lia.
  - lia.
  - exists 0. rewrite Z.mod_1_r, Z.div_1_r, Z.mul_0_l. split_and!; (lia || done).
  - cbn [mbind res_bind snd]. injection Hc as Hc%negb_false_iff%Z.eqb_eq.
    do 3 f_equal. apply Z.mod_small. split; [lia|].
    apply Z.div_small_iff in Hc; lia.
Qed.

Lemma mrg_skip_ok t st hi mid lo : table_ok t -> wf_state st ->
  0 <= hi < 2 ^ 64 -> 0 <= mid < 2 ^ 64 -> 0 <= lo < 2 ^ 64 ->
  mrg_skip t st hi mid lo = Ok (steps (hi * 2 ^ 128 + mid * 2 ^ 64 + lo) st).
Proof.
  intros. unfold mrg_skip.
  rewrite mrg_skip_word_ok by (done || lia). cbn [mbind res_bind].
  rewrite mrg_skip_word_ok by (auto using wf_steps || lia). cbn [mbind res_bind].
  rewrite mrg_skip_word_ok by (auto using wf_steps || lia).
  rewrite <- !steps_add by lia. do 2 f_equal.
  change (256 ^ 16) with (2 ^ 128). change (256 ^ 8) with (2 ^ 64). lia.
Qed.

(** C24: with the table [dump_mrg_powers] generates, [mrg_skip] on a 192-bit
    exponent never fails an assertion or leaves the table, and gives the
    state that as many calls of [mrg_orig_step] give one after the other. *)
Theorem mrg_skip_jumps : exists t, dump_mrg_powers = Ok t /\
  forall st hi mid lo, wf_state st ->
    0 <= hi < 2 ^ 64 -> 0 <= mid < 2 ^ 64 -> 0 <= lo < 2 ^ 64 ->
    mrg_skip t st hi mid lo =
    for_range 0 (hi * 2 ^ 128 + mid * 2 ^ 64 + lo) (fun _ st => mrg_orig_step st) st.
Proof.
  destruct dump_mrg_powers_ok as (t & E & Ht). exists t. split; [done|].
  intros. rewrite mrg_skip_ok, orig_steps_ok by (done || lia). done.
Qed.

(** A power of A computed by square-and-multiply, applied to a state, is
    that many calls of [mrg_orig_step]; the product of two such matrices by
    [mrg_multiply] is the matrix of the sum of the exponents. *)
Theorem mrg_power_jumps e1 e2 st :
  0 <= e1 < 2 ^ 32 -> 0 <= e2 < 2 ^ 32 -> wf_state st ->
  (a ← mrg_make_A; p ← mrg_power a e1; q ← mrg_power a e2;
   r ← mrg_multiply p q; mrg_step r st) =
  for_range 0 (e1 + e2) (fun _ st => mrg_orig_step st) st.
Proof.
  intros H1 H2 Hst. rewrite mrg_make_A_ok. cbn [mbind res_bind].
  destruct (represents_power _ 1 e1 ltac:(lia) H1 represents_A) as (p & -> & Hp).
  destruct (represents_power _ 1 e2 ltac:(lia) H2 represents_A) as (q & -> & Hq).
  cbn [mbind res_bind].
  destruct (represents_multiply p q (1 * e1) (1 * e2)) as (r & -> & Hr & Ar); [lia.. | done | done |].
  cbn [mbind res_bind]. unfold mrg_step.
  rewrite mrg_apply_transition_ok, Ar, orig_steps_ok by (done || lia). do 2 f_equal. lia.
Qed.
End Facts.

Lemma mrg_skip_jumps_witness : exists t, dump_mrg_powers (ops := ops64) = Ok t /\
  forall st hi mid lo, wf_state st ->
    0 <= hi < 2 ^ 64 -> 0 <= mid < 2 ^ 64 -> 0 <= lo < 2 ^ 64 ->
    mrg_skip (ops := ops64) t st hi mid lo =
    for_range 0 (hi * 2 ^ 128 + mid * 2 ^ 64 + lo) (fun _ st => mrg_orig_step (ops := ops64) st) st.
Proof. exact (mrg_skip_jumps (ops := ops64)). Defined.

Lemma mrg_power_jumps_witness :
  (a ← mrg_make_A (ops := ops32); p ← mrg_power (ops := ops32) a 3; q ← mrg_power (ops := ops32) a 4;
   r ← mrg_multiply (ops := ops32) p q; mrg_step (ops := ops32) r (mk_state 1 2 3 4 5)) =
  for_range 0 7 (fun _ st => mrg_orig_step (ops := ops32) st) (mk_state 1 2 3 4 5).
Proof.
  apply (mrg_power_jumps 3 4); [lia..|].
  unfold wf_state; simpl; auto 10 with residue.
Defined.
