(* ===== verification/MrgTable.v ===== *)
(** * The checked-in table is the generated one

    [mrg_skip_matrices] is the array of [mrg_transitions.c], read from the
    initialisers in [MrgTransitions.v]; it is the table that
    [dump_mrg_powers] computes, so the theorems about that table hold for the
    array the program is compiled with. *)

From Stdlib Require Import Uint63.
From S2P Require Import Prelude ModArith SplittableMrg MrgTransitions.

Definition matrix_of (r : row9) : mrg_transition_matrix :=
  mk_matrix (to_Z (r_s r)) (to_Z (r_t r)) (to_Z (r_u r)) (to_Z (r_v r)) (to_Z (r_w r))
    (to_Z (r_a r)) (to_Z (r_b r)) (to_Z (r_c r)) (to_Z (r_d r)).

Definition mrg_skip_matrices : list (list mrg_transition_matrix) := map (map matrix_of) initialisers.

(** ** Matrices of machine integers *)

Definition p31 : int := 2147483647.
Definition imul (x y : int) : int := ((x * y) mod p31)%uint63.
Definition iadd (x y : int) : int := ((x + y) mod p31)%uint63.
Definition ix : int := 107374182.
Definition iy : int := 104480.

Definition idot (s1 t1 u1 v1 w1 s2 t2 u2 v2 w2 : int) : int :=
  iadd (iadd (iadd (iadd (imul s1 s2) (imul t1 t2)) (imul u1 u2)) (imul v1 v2)) (imul w1 w2).

Definition irow (s t u v w : int) : row9 :=
  let a := iadd (imul ix s) t in
  let b := iadd (imul ix a) u in
  let c := iadd (imul ix b) v in
  let d := iadd (imul ix c) w in
  R s t u v w a b c d.

(** [times] on machine integers; the entries of [n] above the bottom row carry
    the factor y. *)
Definition itimes (m n : row9) : row9 :=
  let '(R s1 t1 u1 v1 w1 _ _ _ _) := m in
  let '(R s2 t2 u2 v2 w2 a2 b2 c2 d2) := n in
  let ys := imul iy s2 in let ya := imul iy a2 in let yb := imul iy b2 in let yc := imul iy c2 in
  irow (idot s1 t1 u1 v1 w1 d2 c2 b2 a2 s2) (idot s1 t1 u1 v1 w1 ys w2 v2 u2 t2)
    (idot s1 t1 u1 v1 w1 ya ys w2 v2 u2) (idot s1 t1 u1 v1 w1 yb ya ys w2 v2)
    (idot s1 t1 u1 v1 w1 yc yb ya ys w2).

Definition row9_eqb (m n : row9) : bool :=
  let '(R s1 t1 u1 v1 w1 a1 b1 c1 d1) := m in
  let '(R s2 t2 u2 v2 w2 a2 b2 c2 d2) := n in
  ((s1 =? s2) && (t1 =? t2) && (u1 =? u2) && (v1 =? v2) && (w1 =? w2) &&
   (a1 =? a2) && (b1 =? b2) && (c1 =? c2) && (d1 =? d2))%uint63.

Lemma row9_eqb_true m n : row9_eqb m n = true -> m = n.
Proof.
  destruct m, n. simpl. rewrite !andb_true_iff, !Uint63.eqb_spec. intros H. destruct_and!. by subst.
Qed.

Abbreviation small x := (residue (to_Z x)).

Lemma imul_ok x y : small x -> small y -> to_Z (imul x y) = (to_Z x * to_Z y) mod M.
Proof.
  unfold residue, M. intros Hx Hy. unfold imul. rewrite mod_spec, mul_spec.
  rewrite (Z.mod_small _ wB); [done|]. change wB with (2 ^ 63). nia.
Qed.

Lemma iadd_ok x y : small x -> small y -> to_Z (iadd x y) = (to_Z x + to_Z y) mod M.
Proof.
  unfold residue, M. intros Hx Hy. unfold iadd. rewrite mod_spec, add_spec.
  rewrite (Z.mod_small _ wB); [done|]. change wB with (2 ^ 63). lia.
Qed.

Lemma imul_small x y : small x -> small y -> small (imul x y).
Proof. intros. rewrite imul_ok by done. auto with residue. Qed.
Lemma iadd_small x y : small x -> small y -> small (iadd x y).
Proof. intros. rewrite iadd_ok by done. auto with residue. Qed.
Lemma ix_small : small ix. Proof. unfold residue, M. vm_compute. split; congruence. Qed.
Lemma iy_small : small iy. Proof. unfold residue, M. vm_compute. split; congruence. Qed.

Create HintDb small.
#[local] Hint Resolve imul_small iadd_small ix_small iy_small : small.

Lemma idot_ok s1 t1 u1 v1 w1 s2 t2 u2 v2 w2 :
  small s1 -> small t1 -> small u1 -> small v1 -> small w1 ->
  small s2 -> small t2 -> small u2 -> small v2 -> small w2 ->
  to_Z (idot s1 t1 u1 v1 w1 s2 t2 u2 v2 w2) =
  (to_Z s1 * to_Z s2 + to_Z t1 * to_Z t2 + to_Z u1 * to_Z u2 + to_Z v1 * to_Z v2 + to_Z w1 * to_Z w2) mod M.
Proof.
  intros. unfold idot. rewrite !iadd_ok, !imul_ok by auto 10 with small. mod_ring.
Qed.

Lemma idot_small s1 t1 u1 v1 w1 s2 t2 u2 v2 w2 :
  small s1 -> small t1 -> small u1 -> small v1 -> small w1 ->
  small s2 -> small t2 -> small u2 -> small v2 -> small w2 ->
  small (idot s1 t1 u1 v1 w1 s2 t2 u2 v2 w2).
Proof. intros. rewrite idot_ok by done. auto with residue. Qed.

Lemma irow_ok s t u v w : small s -> small t -> small u -> small v -> small w ->
  matrix_of (irow s t u v w) = of_row (to_Z s) (to_Z t) (to_Z u) (to_Z v) (to_Z w).
Proof.
  intros. unfold matrix_of, irow, of_row. simpl.
  repeat first [rewrite iadd_ok by auto 20 with small | rewrite imul_ok by auto 20 with small].
  change (to_Z ix) with mrg_x. f_equal; mod_ring.
Qed.

Lemma itimes_ok m n : wf_matrix (matrix_of m) -> wf_matrix (matrix_of n) ->
  matrix_of (itimes m n) = times (matrix_of m) (matrix_of n).
Proof.
  intros Hm%wf_matrix_fields Hn%wf_matrix_fields.
  destruct m as [s1 t1 u1 v1 w1 a1 b1 c1 d1], n as [s2 t2 u2 v2 w2 a2 b2 c2 d2].
  unfold matrix_of in Hm, Hn. cbn [r_s r_t r_u r_v r_w r_a r_b r_c r_d ts tt tu tv tw ta tb tc td] in Hm, Hn.
  destruct_and!. cbv zeta beta delta [itimes] iota. rewrite irow_ok by (apply idot_small; auto with small).
  rewrite !idot_ok by auto with small. rewrite !imul_ok by auto with small.
  change (to_Z iy) with mrg_y.
  unfold times, matrix_of, cong. cbn [r_s r_t r_u r_v r_w r_a r_b r_c r_d]. f_equal; mod_ring.
Qed.

(** ** The check *)

(** [m], [m g], [m g g], ... *)
Fixpoint powers_from (g m : row9) (l : list row9) : bool :=
  match l with
  | [] => true
  | n :: l => row9_eqb n m && powers_from g (itimes m g) l
  end.

Definition zero9 : row9 := R 0 0 0 0 0 0 0 0 0.
Definition id9 : row9 := irow 0 0 0 0 1.
Definition A9 : row9 := irow 0 0 0 1 0.

Fixpoint rows_check (g : row9) (rows : list (list row9)) : bool :=
  match rows with
  | [] => true
  | row :: rows => (length row =? 256)%nat && powers_from g id9 row &&
      rows_check (itimes (nth 255 row zero9) g) rows
  end.

Lemma initialisers_check : rows_check A9 initialisers = true.
Proof. vm_compute. reflexivity. Qed.

Lemma powers_represent g k l : 0 <= k -> represents (matrix_of g) k -> forall m j, 0 <= j ->
  represents (matrix_of m) j -> powers_from g m l = true ->
  forall i, (i < length l)%nat -> represents (matrix_of (nth i l zero9)) (j + k * Z.of_nat i).
Proof.
  intros Hk Hg. induction l as [|n l IH]; intros m j Hj Hm H i Hi; simpl in *; [lia|].
  apply andb_true_iff in H as [->%row9_eqb_true H]. destruct i as [|i].
  - by replace (j + k * Z.of_nat 0) with j by lia.
  - replace (j + k * Z.of_nat (S i)) with (j + k + k * Z.of_nat i) by lia.
    apply (IH (itimes m g)); [lia | | done | lia].
    rewrite itimes_ok by (apply Hm || apply Hg). by apply represents_times.
Qed.

Lemma id9_represents : represents (matrix_of id9) 0.
Proof. apply represents_identity. Qed.

Lemma rows_check_ok rows : forall g n, 0 <= n -> represents (matrix_of g) (256 ^ n) ->
  rows_check g rows = true -> forall i, (i < length rows)%nat ->
  row_ok (256 ^ (n + Z.of_nat i)) (map matrix_of (nth i rows [])).
Proof.
  induction rows as [|row rows IH]; intros g n Hn Hg H i Hi; simpl in *; [lia|].
  rewrite !andb_true_iff, Nat.eqb_eq in H. destruct H as [[Hlen Hp] H].
  pose proof (powers_represent g (256 ^ n) row ltac:(lia) Hg id9 0 ltac:(lia) id9_represents Hp) as Hrow.
  destruct i as [|i].
  - rewrite Z.add_0_r. split; [rewrite length_map; lia|]. intros j Hj.
    specialize (Hrow (Z.to_nat j) ltac:(lia)). rewrite Z2Nat.id, Z.add_0_l in Hrow by lia.
    eexists. split; [|exact Hrow]. rewrite (aget_ok (matrix_of zero9)) by (rewrite length_map; lia).
    unfold zth. by rewrite map_nth.
  - replace (n + Z.of_nat (S i)) with (n + 1 + Z.of_nat i) by lia.
    apply (IH (itimes (nth 255 row zero9) g)); [lia | | done | lia].
    specialize (Hrow 255%nat ltac:(lia)). rewrite itimes_ok by (apply Hrow || apply Hg).
    replace (256 ^ (n + 1)) with (0 + 256 ^ n * Z.of_nat 255 + 256 ^ n)
      by (rewrite Z.pow_add_r by lia; lia).
    apply represents_times; (lia || done).
Qed.

Lemma table_represents : table_ok mrg_skip_matrices.
Proof.
  split; [done|]. intros i Hi. exists (map matrix_of (nth (Z.to_nat i) initialisers [])). split.
  - unfold mrg_skip_matrices. rewrite (aget_ok (map matrix_of [])) by (rewrite length_map; exact Hi).
    unfold zth. by rewrite map_nth.
  - replace i with (0 + Z.of_nat (Z.to_nat i)) at 1 by lia.
    apply (rows_check_ok initialisers A9); [lia | exact represents_A | exact initialisers_check |].
    change (length initialisers) with 24%nat. lia.
Qed.

(** ** The table is determined by what it represents *)

Definition basis (i : Z) : mrg_state :=
  mk_state (Z.b2z (i =? 1)) (Z.b2z (i =? 2)) (Z.b2z (i =? 3)) (Z.b2z (i =? 4)) (Z.b2z (i =? 5)).

Lemma basis_wf i : wf_state (basis i).
Proof.
  assert (H : forall b, residue (Z.b2z b)) by (intros []; unfold residue, M; simpl; lia).
  unfold wf_state, basis. cbn [z1 z2 z3 z4 z5]. auto.
Qed.

Lemma represents_unique m m' n : represents m n -> represents m' n -> m = m'.
Proof.
  intros [Hm Am] [Hm' Am'].
  assert (H : forall i, z5 (apply m (basis i)) = z5 (apply m' (basis i)))
    by (intros i; by rewrite Am, Am' by apply basis_wf).
  pose proof (H 1) as H1. pose proof (H 2) as H2. pose proof (H 3) as H3.
  pose proof (H 4) as H4. pose proof (H 5) as H5. clear H Am Am'.
  destruct m as [s t u v w a b c d], m' as [s' t' u' v' w' a' b' c' d'].
  destruct Hm as (R1 & R2 & R3 & R4 & R5 & ->), Hm' as (S1 & S2 & S3 & S4 & S5 & ->).
  cbn -[Z.mul Z.add Z.modulo M mrg_x mrg_y residue] in *.
  rewrite ?Z.mul_0_r, ?Z.mul_1_r, ?Z.add_0_r, ?Z.add_0_l in *.
  rewrite !Z.mod_small in H1, H2, H3, H4, H5 by done. by subst.
Qed.

Lemma row_unique n r r' : row_ok n r -> row_ok n r' -> r = r'.
Proof.
  intros [Hl Hr] [Hl' Hr']. apply (zth_ext (mk_matrix 0 0 0 0 0 0 0 0 0)); [lia|]. intros i Hi.
  destruct (Hr i ltac:(lia)) as (m & E & Hm), (Hr' i ltac:(lia)) as (m' & E' & Hm').
  apply (aget_Ok_inv (mk_matrix 0 0 0 0 0 0 0 0 0)) in E as [_ <-], E' as [_ <-].
  by eapply represents_unique.
Qed.

Lemma table_unique t t' : table_ok t -> table_ok t' -> t = t'.
Proof.
  intros [Hl Ht] [Hl' Ht']. apply (zth_ext []); [lia|]. intros i Hi.
  destruct (Ht i ltac:(lia)) as (r & E & Hr), (Ht' i ltac:(lia)) as (r' & E' & Hr').
  apply (aget_Ok_inv []) in E as [_ <-], E' as [_ <-]. by eapply row_unique.
Qed.

(** C33: the table of [mrg_transitions.c] is, entry by entry, what
    [dump_mrg_powers] computes, with either of the modular arithmetics; so
    [mrg_skip] with the table of the repository jumps as many steps as its
    192-bit exponent says. *)
Theorem checked_in_table_is_generated {ops : ModOps} `{!ModLaws ops} :
  dump_mrg_powers = Ok mrg_skip_matrices /\
  forall st hi mid lo, wf_state st -> 0 <= hi < 2 ^ 64 -> 0 <= mid < 2 ^ 64 -> 0 <= lo < 2 ^ 64 ->
    mrg_skip mrg_skip_matrices st hi mid lo =
    for_range 0 (hi * 2 ^ 128 + mid * 2 ^ 64 + lo) (fun _ st => mrg_orig_step st) st.
Proof.
  split.
  - destruct dump_mrg_powers_ok as (t & -> & Ht). f_equal. apply (table_unique _ _ Ht table_represents).
  - intros. rewrite mrg_skip_ok, orig_steps_ok by (done || lia || apply table_represents). done.
Qed.

Lemma checked_in_table_is_generated_witness :
  dump_mrg_powers (ops := ops64) = Ok mrg_skip_matrices /\
  mrg_skip (ops := ops64) mrg_skip_matrices (mk_state 1 1 1 1 1) 0 0 3 =
  for_range 0 3 (fun _ st => mrg_orig_step (ops := ops64) st) (mk_state 1 1 1 1 1).
Proof.
  destruct (checked_in_table_is_generated (ops := ops64)) as [E H]. split; [exact E|].
  apply (H (mk_state 1 1 1 1 1) 0 0 3); [| lia | lia | lia].
  unfold wf_state, residue, M. cbn [z1 z2 z3 z4 z5]. lia.
Defined.
