(* ===== verification/Scramble.v ===== *)
(** * Bit reversal and the scrambling of vertex numbers

    [bitreverse] and [scramble] of [generator/graph_generator.c]; the three
    versions of [bitreverse] that the preprocessor chooses from are
    [bitreverse_bswap] (GCC 4.3 or later), [bitreverse_portable] and
    [bitreverse_32] (no FAST_64BIT_ARITHMETIC). *)

From S2P Require Import Prelude.

(** [__builtin_bswap64]: the bytes in the opposite order. *)
Definition bswap64 (x : Z) : Z :=
  Z.lor (Z.lor (Z.lor (Z.shiftl (Z.land (Z.shiftr x 0) 0xFF) 56)
                      (Z.shiftl (Z.land (Z.shiftr x 8) 0xFF) 48))
               (Z.lor (Z.shiftl (Z.land (Z.shiftr x 16) 0xFF) 40)
                      (Z.shiftl (Z.land (Z.shiftr x 24) 0xFF) 32)))
        (Z.lor (Z.lor (Z.shiftl (Z.land (Z.shiftr x 32) 0xFF) 24)
                      (Z.shiftl (Z.land (Z.shiftr x 40) 0xFF) 16))
               (Z.lor (Z.shiftl (Z.land (Z.shiftr x 48) 0xFF) 8)
                      (Z.shiftl (Z.land (Z.shiftr x 56) 0xFF) 0))).

(** [((x >> k) & m) | ((x & m) << k)] at width [w]. *)
Definition swap_step (w k m x : Z) : Z :=
  Z.lor (Z.land (Z.shiftr x k) m) (unsigned w (Z.shiftl (Z.land x m) k)).

Definition bitreverse_bswap (x : Z) : Z :=
  let x := bswap64 x in
  let x := swap_step 64 4 0x0F0F0F0F0F0F0F0F x in
  let x := swap_step 64 2 0x3333333333333333 x in
  swap_step 64 1 0x5555555555555555 x.

Definition bitreverse_portable (x : Z) : Z :=
  let x := Z.lor (Z.shiftr x 32) (u64 (Z.shiftl x 32)) in
  let x := swap_step 64 16 0x0000FFFF0000FFFF x in
  let x := swap_step 64 8 0x00FF00FF00FF00FF x in
  let x := swap_step 64 4 0x0F0F0F0F0F0F0F0F x in
  let x := swap_step 64 2 0x3333333333333333 x in
  swap_step 64 1 0x5555555555555555 x.

(** The 32-bit code without byte swaps: the halves [h] and [l] apart. *)
Definition bitreverse_half (h : Z) : Z :=
  let h := Z.lor (Z.shiftr h 16) (u32 (Z.shiftl h 16)) in
  let h := swap_step 32 8 0x00FF00FF h in
  let h := swap_step 32 4 0x0F0F0F0F h in
  let h := swap_step 32 2 0x33333333 h in
  swap_step 32 1 0x55555555 h.

Definition bitreverse_32 (x : Z) : Z :=
  let h := u32 (Z.shiftr x 32) in
  let l := u32 (Z.land x 0xFFFFFFFF) in
  Z.lor (u64 (Z.shiftl (bitreverse_half l) 32)) (bitreverse_half h).

(** The version a current GCC compiles. *)
Definition bitreverse : Z -> Z := bitreverse_bswap.

Definition scramble (v0 lgN val0 val1 : Z) : res Z :=
  let v := u64 v0 in
  let v := u64 (v + u64 (val0 + val1)) in
  let v := u64 (v * Z.lor val0 0x4519840211493211) in
  v ← shr 64 (bitreverse v) (64 - lgN);
  t ← shr 64 v lgN; c_assert (t =? 0);;
  let v := u64 (v * Z.lor val1 0x3050852102C843A5) in
  v ← shr 64 (bitreverse v) (64 - lgN);
  t ← shr 64 v lgN; c_assert (t =? 0);;
  Ok (i64 v).

(** ** The three versions reverse the bits *)

(** [y] is the [w]-bit number whose bit [i] is bit [g i] of [x]. *)
Definition permutes (w : Z) (g : Z -> Z) (x y : Z) : Prop :=
  0 <= y < 2 ^ w /\ forall i, 0 <= i < w -> Z.testbit y i = Z.testbit x (g i).

Lemma permutes_trans w g h x y z :
  (forall i, 0 <= i < w -> 0 <= h i < w) ->
  permutes w g x y -> permutes w h y z -> permutes w (fun i => g (h i)) x z.
Proof.
  intros Hh [_ Hy] [Hz Hyz]. split; [done|]. intros i Hi. rewrite Hyz, Hy by auto. done.
Qed.

Lemma permutes_ext (n : nat) g h x y :
  permutes (Z.of_nat n) g x y -> all_below n (fun i => g i =? h i) = true ->
  permutes (Z.of_nat n) h x y.
Proof.
  intros [Hy H] Hgh. split; [done|]. intros i Hi.
  rewrite H by done. f_equal. apply Z.eqb_eq. exact (all_below_spec _ _ i Hgh Hi).
Qed.

Lemma permutes_unique w g x y z : 0 <= w -> permutes w g x y -> permutes w g x z -> y = z.
Proof.
  intros Hw [Hy Hxy] [Hz Hxz]. rewrite <- (Z.mod_small y (2 ^ w)), <- (Z.mod_small z (2 ^ w)) by done.
  apply mod_pow2_bits_inj; [done|]. intros i Hi. by rewrite Hxy, Hxz.
Qed.

(** A disjunction of [w]-bit numbers is one. *)
Lemma lor_bound w a b : 0 <= w -> 0 <= a < 2 ^ w -> 0 <= b < 2 ^ w -> 0 <= Z.lor a b < 2 ^ w.
Proof.
  intros Hw Ha Hb. assert (0 <= Z.lor a b) by (apply Z.lor_nonneg; lia).
  split; [done|]. apply bits_bound; [done..|]. intros i Hi.
  by rewrite Z.lor_spec, !(testbit_above w) by lia.
Qed.

(** Exchanging neighbouring blocks of [k] bits. *)
Definition exchange (k i : Z) : Z := if Z.even (i / k) then i + k else i - k.

Definition mask_ok (n : nat) (k m : Z) : bool :=
  (0 <=? m) && (m <? 2 ^ Z.of_nat n) &&
  all_below n (fun i => eqb (Z.testbit m i) (Z.even (i / k))).

Lemma swap_step_permutes (n : nat) k m x : 0 < k -> mask_ok n k m = true ->
  0 <= x < 2 ^ Z.of_nat n ->
  permutes (Z.of_nat n) (exchange k) x (swap_step (Z.of_nat n) k m x).
Proof.
  intros Hk Hm Hx. unfold mask_ok in Hm. rewrite !andb_true_iff in Hm.
  destruct Hm as [[Hm0%Z.leb_le Hm1%Z.ltb_lt] Hm].
  assert (Hbit : forall i, 0 <= i < Z.of_nat n -> Z.testbit m i = Z.even (i / k))
    by (intros i Hi; apply eqb_prop; exact (all_below_spec _ _ i Hm Hi)).
  unfold swap_step. split.
  - apply lor_bound; [lia | | apply unsigned_range; lia].
    assert (0 <= Z.land (Z.shiftr x k) m) by (apply Z.land_nonneg; lia).
    split; [done|]. apply bits_bound; [lia | done |]. intros i Hi.
    rewrite Z.land_spec, (testbit_above (Z.of_nat n) m) by lia. apply andb_false_r.
  - intros i Hi. rewrite Z.lor_spec, Z.land_spec, unsigned_testbit, Z.shiftr_spec, Z.shiftl_spec,
      Z.land_spec by lia.
    destruct (Z.ltb_spec i (Z.of_nat n)); [|lia]. rewrite andb_true_l, Hbit by done.
    unfold exchange. pose proof (Z.div_mod i k ltac:(lia)).
    destruct (Z.even (i / k)) eqn:E.
    + rewrite andb_true_r. destruct (Z.lt_ge_cases i k).
      * rewrite (Z.testbit_neg_r x (i - k)), andb_false_l, orb_false_r by lia. done.
      * rewrite Hbit by lia. replace ((i - k) / k) with (i / k - 1)
          by (replace (i - k) with (i + (-1) * k) by lia; rewrite Z_div_plus_full by lia; lia).
        rewrite Z.even_sub, E. simpl. by rewrite andb_false_r, orb_false_r.
    + rewrite andb_false_r, orb_false_l.
      assert (k <= i) by (destruct (Z.lt_ge_cases i k); [rewrite Z.div_small in E by lia; done | done]).
      rewrite Hbit by lia. replace ((i - k) / k) with (i / k - 1)
        by (replace (i - k) with (i + (-1) * k) by lia; rewrite Z_div_plus_full by lia; lia).
      rewrite Z.even_sub, E. simpl. by rewrite andb_true_r.
Qed.

(** The rotation by half the width, which needs no masks. *)
Lemma halves_permutes (n : nat) k x : 0 < k -> Z.of_nat n = 2 * k -> 0 <= x < 2 ^ Z.of_nat n ->
  permutes (Z.of_nat n) (exchange k) x
    (Z.lor (Z.shiftr x k) (unsigned (Z.of_nat n) (Z.shiftl x k))).
Proof.
  intros Hk Hn Hx. split.
  - apply lor_bound; [lia | | apply unsigned_range; lia].
    rewrite Z.shiftr_div_pow2 by lia. split; [apply Z.div_pos; lia|].
    apply Z.div_lt_upper_bound; [lia|]. nia.
  - intros i Hi. rewrite Z.lor_spec, unsigned_testbit, Z.shiftr_spec, Z.shiftl_spec by lia.
    destruct (Z.ltb_spec i (Z.of_nat n)); [|lia]. rewrite andb_true_l. unfold exchange.
    destruct (Z.lt_ge_cases i k).
    + rewrite Z.div_small by lia. simpl.
      by rewrite (Z.testbit_neg_r x (i - k)), orb_false_r by lia.
    + replace (i / k) with 1 by (apply Z.div_unique with (i - k); lia). simpl.
      by rewrite (testbit_above (Z.of_nat n) x (i + k)), orb_false_l by lia.
Qed.

(** The bytes in the opposite order. *)
Definition swap_bytes (i : Z) : Z := 8 * (7 - i / 8) + i mod 8.

Lemma byte_testbit x a b i : 0 <= a -> 0 <= b -> 0 <= i ->
  Z.testbit (Z.shiftl (Z.land (Z.shiftr x a) 0xFF) b) i =
  ((b <=? i) && (i <? b + 8) && Z.testbit x (i - b + a))%bool.
Proof.
  intros Ha Hb Hi. rewrite Z.shiftl_spec by done.
  destruct (Z.leb_spec b i); [|by rewrite Z.testbit_neg_r by lia].
  rewrite Z.land_spec, Z.shiftr_spec by lia. change 0xFF with (Z.ones 8).
  destruct (Z.ltb_spec i (b + 8)); simpl.
  - by rewrite Z.ones_spec_low, andb_true_r by lia.
  - by rewrite Z.ones_spec_high, andb_false_r by lia.
Qed.

Lemma bswap64_permutes x : 0 <= x < 2 ^ 64 -> permutes 64 swap_bytes x (bswap64 x).
Proof.
  intros Hx. assert (Hbit : forall i, 0 <= i -> Z.testbit (bswap64 x) i =
    ((i <? 64) && Z.testbit x (swap_bytes i))%bool).
  { intros i Hi. unfold bswap64, swap_bytes. rewrite !Z.lor_spec, !byte_testbit by lia.
    pose proof (Z.div_mod i 8 ltac:(lia)). pose proof (Z.mod_pos_bound i 8 ltac:(lia)).
    remember (i / 8) as q. remember (i mod 8) as r.
    assert (q = 0 \/ q = 1 \/ q = 2 \/ q = 3 \/ q = 4 \/ q = 5 \/ q = 6 \/ q = 7 \/ 8 <= q)
      as Hq by lia.
    destruct (Z.ltb_spec i 64) as [Hlt|Hge].
    - rewrite andb_true_l.
      repeat match goal with |- context [(?a <=? i) && (i <? ?b)] =>
        destruct (Z.leb_spec a i), (Z.ltb_spec i b); try lia
      end; simpl; rewrite ?orb_false_r, ?orb_false_l; f_equal; lia.
    - rewrite andb_false_l.
      repeat match goal with |- context [i <? ?b] => destruct (Z.ltb_spec i b); [lia|] end.
      by rewrite !andb_false_r. }
  assert (Hpos : 0 <= bswap64 x).
  { unfold bswap64.
    repeat match goal with
    | |- 0 <= Z.lor _ _ => apply Z.lor_nonneg; split
    | |- 0 <= Z.shiftl _ _ => apply Z.shiftl_nonneg
    | |- 0 <= Z.land _ _ => apply Z.land_nonneg; right; lia
    end. }
  split.
  - split; [done|]. apply bits_bound; [lia | done |]. intros i Hi. rewrite Hbit by lia.
    by destruct (Z.ltb_spec i 64); [lia|].
  - intros i Hi. rewrite Hbit by lia. by destruct (Z.ltb_spec i 64); [|lia].
Qed.

(** The contract of the three versions. *)
Definition reverses (w x y : Z) : Prop := permutes w (fun i => w - 1 - i) x y.

Lemma exchange_range (n : nat) k : all_below n (fun i => (0 <=? exchange k i) && (exchange k i <? Z.of_nat n)) = true ->
  forall i, 0 <= i < Z.of_nat n -> 0 <= exchange k i < Z.of_nat n.
Proof. intros H i Hi. pose proof (all_below_spec _ _ i H Hi). simpl in *. lia. Qed.

Lemma bitreverse_half_ok h : 0 <= h < 2 ^ 32 -> reverses 32 h (bitreverse_half h).
Proof.
  intros Hh. unfold bitreverse_half, reverses. cbv zeta.
  pose proof (halves_permutes 32 16 h ltac:(lia) eq_refl Hh) as H0.
  match goal with |- context [Z.lor (Z.shiftr h 16) ?t] => set (x0 := Z.lor (Z.shiftr h 16) t) in * end.
  pose proof (swap_step_permutes 32 8 0x00FF00FF x0 ltac:(lia) eq_refl (proj1 H0)) as H1.
  pose proof (swap_step_permutes 32 4 0x0F0F0F0F _ ltac:(lia) eq_refl (proj1 H1)) as H2.
  pose proof (swap_step_permutes 32 2 0x33333333 _ ltac:(lia) eq_refl (proj1 H2)) as H3.
  pose proof (swap_step_permutes 32 1 0x55555555 _ ltac:(lia) eq_refl (proj1 H3)) as H4.
  pose proof (permutes_trans _ _ _ _ _ _ (exchange_range 32 8 eq_refl) H0 H1) as T1.
  pose proof (permutes_trans _ _ _ _ _ _ (exchange_range 32 4 eq_refl) T1 H2) as T2.
  pose proof (permutes_trans _ _ _ _ _ _ (exchange_range 32 2 eq_refl) T2 H3) as T3.
  pose proof (permutes_trans _ _ _ _ _ _ (exchange_range 32 1 eq_refl) T3 H4) as T4.
  apply (permutes_ext 32 _ _ _ _ T4). vm_compute. reflexivity.
Qed.

(** The last three steps, shared by the two 64-bit versions. *)
Lemma nibbles_ok (g : Z -> Z) x y : permutes 64 g x y ->
  permutes 64 (fun i => g (exchange 4 (exchange 2 (exchange 1 i)))) x
    (swap_step 64 1 0x5555555555555555 (swap_step 64 2 0x3333333333333333
       (swap_step 64 4 0x0F0F0F0F0F0F0F0F y))).
Proof.
  intros H1.
  pose proof (swap_step_permutes 64 4 0x0F0F0F0F0F0F0F0F _ ltac:(lia) eq_refl (proj1 H1)) as H2.
  pose proof (swap_step_permutes 64 2 0x3333333333333333 _ ltac:(lia) eq_refl (proj1 H2)) as H3.
  pose proof (swap_step_permutes 64 1 0x5555555555555555 _ ltac:(lia) eq_refl (proj1 H3)) as H4.
  pose proof (permutes_trans _ _ _ _ _ _ (exchange_range 64 4 eq_refl) H1 H2) as T2.
  pose proof (permutes_trans _ _ _ _ _ _ (exchange_range 64 2 eq_refl) T2 H3) as T3.
  exact (permutes_trans _ _ _ _ _ _ (exchange_range 64 1 eq_refl) T3 H4).
Qed.

Lemma bitreverse_bswap_ok x : 0 <= x < 2 ^ 64 -> reverses 64 x (bitreverse_bswap x).
Proof.
  intros Hx. pose proof (nibbles_ok _ _ _ (bswap64_permutes x Hx)) as T.
  apply (permutes_ext 64 _ _ _ _ T). vm_compute. reflexivity.
Qed.

Lemma bitreverse_portable_ok x : 0 <= x < 2 ^ 64 -> reverses 64 x (bitreverse_portable x).
Proof.
  intros Hx. unfold bitreverse_portable. cbv zeta.
  pose proof (halves_permutes 64 32 x ltac:(lia) eq_refl Hx) as H0.
  match goal with |- context [Z.lor (Z.shiftr x 32) ?t] => set (x0 := Z.lor (Z.shiftr x 32) t) in * end.
  pose proof (swap_step_permutes 64 16 0x0000FFFF0000FFFF x0 ltac:(lia) eq_refl (proj1 H0)) as H1.
  pose proof (swap_step_permutes 64 8 0x00FF00FF00FF00FF _ ltac:(lia) eq_refl (proj1 H1)) as H2.
  pose proof (permutes_trans _ _ _ _ _ _ (exchange_range 64 16 eq_refl) H0 H1) as T1.
  pose proof (permutes_trans _ _ _ _ _ _ (exchange_range 64 8 eq_refl) T1 H2) as T2.
  apply (permutes_ext 64 _ _ _ _ (nibbles_ok _ _ _ T2)). vm_compute. reflexivity.
Qed.

Lemma bitreverse_32_ok x : 0 <= x < 2 ^ 64 -> reverses 64 x (bitreverse_32 x).
Proof.
  intros Hx. unfold bitreverse_32. cbv zeta.
  assert (Hh : 0 <= u32 (Z.shiftr x 32) < 2 ^ 32) by (apply unsigned_range; lia).
  assert (Hl : 0 <= u32 (Z.land x 0xFFFFFFFF) < 2 ^ 32) by (apply unsigned_range; lia).
  destruct (bitreverse_half_ok _ Hh) as [Rh Bh], (bitreverse_half_ok _ Hl) as [Rl Bl].
  split.
  - apply lor_bound; [lia | apply unsigned_range; lia | lia].
  - intros i Hi. rewrite Z.lor_spec, unsigned_testbit, Z.shiftl_spec by lia.
    destruct (Z.ltb_spec i 64); [|lia]. rewrite andb_true_l.
    destruct (Z.lt_ge_cases i 32).
    + rewrite (Z.testbit_neg_r _ (i - 32)), orb_false_l, Bh, unsigned_testbit, Z.shiftr_spec by lia.
      destruct (Z.ltb_spec (32 - 1 - i) 32); [|lia]. simpl. f_equal. lia.
    + rewrite (testbit_above 32 (bitreverse_half (u32 (Z.shiftr x 32)))), orb_false_r by lia.
      rewrite Bl, unsigned_testbit, Z.land_spec by lia. change 0xFFFFFFFF with (Z.ones 32).
      rewrite Z.ones_spec_low, andb_true_r by lia.
      destruct (Z.ltb_spec (32 - 1 - (i - 32)) 32); [|lia]. simpl. f_equal. lia.
Qed.

(** Whichever of its three versions the preprocessor selects, [bitreverse]
    is the reversal of the 64 bits of its argument. *)
Theorem bitreverse_versions_agree x : 0 <= x < 2 ^ 64 ->
  bitreverse_portable x = bitreverse_bswap x /\ bitreverse_32 x = bitreverse_bswap x /\
  0 <= bitreverse_bswap x < 2 ^ 64 /\
  forall i, 0 <= i < 64 -> Z.testbit (bitreverse_bswap x) i = Z.testbit x (63 - i).
Proof.
  intros Hx. pose proof (bitreverse_bswap_ok x Hx) as B. split_and!.
  - exact (permutes_unique 64 _ _ _ _ ltac:(lia) (bitreverse_portable_ok x Hx) B).
  - exact (permutes_unique 64 _ _ _ _ ltac:(lia) (bitreverse_32_ok x Hx) B).
  - apply B.
  - apply B.
  - apply B.
Qed.

Lemma bitreverse_versions_agree_witness :
  bitreverse_32 0x0123456789ABCDEF = bitreverse_bswap 0x0123456789ABCDEF /\
  bitreverse_bswap 0x0123456789ABCDEF = 0xF7B3D591E6A2C480.
Proof.
  split; [|vm_compute; reflexivity].
  assert (H : 0 <= 0x0123456789ABCDEF < 2 ^ 64) by lia.
  destruct (bitreverse_versions_agree _ H) as (_ & E & _). exact E.
Defined.

(** ** Scrambling permutes the vertices *)

(** The upper [n] bits of a reversal: the lower [n] bits reversed. *)
Definition rev_low (n v : Z) : Z := Z.shiftr (bitreverse v) (64 - n).

Lemma rev_low_testbit n v i : 0 < n < 64 -> 0 <= v < 2 ^ 64 -> 0 <= i < n ->
  Z.testbit (rev_low n v) i = Z.testbit v (n - 1 - i).
Proof.
  intros Hn Hv Hi. destruct (bitreverse_bswap_ok v Hv) as [_ B].
  unfold rev_low, bitreverse. rewrite Z.shiftr_spec, B by lia. f_equal. lia.
Qed.

Lemma rev_low_range n v : 0 < n < 64 -> 0 <= v < 2 ^ 64 -> 0 <= rev_low n v < 2 ^ n.
Proof.
  intros Hn Hv. destruct (bitreverse_bswap_ok v Hv) as [R _].
  unfold rev_low, bitreverse. rewrite Z.shiftr_div_pow2 by lia.
  split; [apply Z.div_pos; lia|]. apply Z.div_lt_upper_bound; [lia|].
  rewrite <- Z.pow_add_r by lia. replace (64 - n + n) with 64 by lia. lia.
Qed.

Lemma rev_low_inj n v w : 0 < n < 64 -> 0 <= v < 2 ^ 64 -> 0 <= w < 2 ^ 64 ->
  rev_low n v = rev_low n w -> v mod 2 ^ n = w mod 2 ^ n.
Proof.
  intros Hn Hv Hw E. apply mod_pow2_bits_inj; [lia|]. intros i Hi.
  assert (Hb : forall x, 0 <= x < 2 ^ 64 -> Z.testbit x i = Z.testbit (rev_low n x) (n - 1 - i))
    by (intros x Hx; rewrite rev_low_testbit by lia; f_equal; lia).
  by rewrite !Hb, E by done.
Qed.

Lemma odd_divide n o d : 0 <= n -> Z.odd o = true -> (2 ^ n | o * d) -> (2 ^ n | d).
Proof.
  intros Hn Ho. revert d. pattern n. apply natlike_ind; [| | exact Hn].
  - intros d _. apply Z.divide_1_l.
  - clear n Hn. intros n Hn IH d [q Hq]. rewrite Z.pow_succ_r in * by done.
    assert (Hd : Z.odd d = false).
    { apply (f_equal Z.odd) in Hq. rewrite !Z.odd_mul, Ho in Hq. simpl in Hq.
      by rewrite Hq, andb_false_r. }
    assert (exists e, d = 2 * e) as [e ->].
    { apply Z.even_spec. by rewrite <- Z.negb_odd, Hd. }
    apply Z.mul_divide_mono_l. apply IH. exists q. lia.
Qed.

(** Multiplication by an odd number is injective modulo a power of 2. *)
Lemma odd_mul_inj n a b o : 0 <= n -> Z.odd o = true ->
  (a * o) mod 2 ^ n = (b * o) mod 2 ^ n -> a mod 2 ^ n = b mod 2 ^ n.
Proof.
  intros Hn Ho E. apply Z.cong_iff_0 in E. apply Z.cong_iff_0.
  rewrite <- Z.mul_sub_distr_r, Z.mul_comm in E.
  apply Z.mod_divide in E; [|lia]. apply Z.mod_divide; [lia|].
  by apply (odd_divide n o).
Qed.

Lemma unsigned_mod n x : 0 <= n <= 64 -> (u64 x) mod 2 ^ n = x mod 2 ^ n.
Proof.
  intros Hn. unfold unsigned. apply Z.mod_mod_divide.
  exists (2 ^ (64 - n)). rewrite <- Z.pow_add_r by lia. f_equal. lia.
Qed.

Lemma odd_lor a b : Z.odd b = true -> Z.odd (Z.lor a b) = true.
Proof. rewrite <- !Z.bit0_odd. intros H. by rewrite Z.lor_spec, H, orb_true_r. Qed.

Section ScrambleFacts.
Context (lgN val0 val1 : Z).
Hypothesis (HN : 0 < lgN < 64).

Definition scrambled (v0 : Z) : Z :=
  rev_low lgN (u64 (rev_low lgN (u64 (u64 (u64 v0 + u64 (val0 + val1))
                                    * Z.lor val0 0x4519840211493211))
              * Z.lor val1 0x3050852102C843A5)).

Lemma scrambled_range v0 : 0 <= scrambled v0 < 2 ^ lgN.
Proof. apply rev_low_range; [done|]. apply unsigned_range. lia. Qed.

(** Neither assertion fails. *)
Lemma scramble_ok v0 : scramble v0 lgN val0 val1 = Ok (scrambled v0).
Proof.
  unfold scramble. cbv zeta.
  match goal with |- context [u64 (u64 (?a + ?b) * ?o)] => set (w := u64 (u64 (a + b) * o)) end.
  assert (Hw : 0 <= w < 2 ^ 64) by (apply unsigned_range; lia).
  assert (Hshift : forall v, 0 <= v < 2 ^ 64 ->
    shr 64 (bitreverse v) (64 - lgN) = Ok (rev_low lgN v) /\
    shr 64 (rev_low lgN v) lgN = Ok 0).
  { intros v Hv. split; [by apply shr_ok; lia|]. rewrite shr_ok by lia. f_equal.
    rewrite Z.shiftr_div_pow2 by lia. apply Z.div_small. by apply rev_low_range. }
  destruct (Hshift w Hw) as [-> E]. cbn [mbind res_bind]. rewrite E. simpl.
  match goal with |- context [bitreverse ?t] => set (w' := t) end.
  destruct (Hshift w') as [-> E']; [apply unsigned_range; lia|].
  cbn [mbind res_bind]. rewrite E'. simpl. f_equal.
  pose proof (scrambled_range v0). assert (2 ^ lgN <= 2 ^ 63) by (apply Z.pow_le_mono_r; lia).
  apply signed_small; [lia|]. fold (scrambled v0). lia.
Qed.

Lemma scrambled_inj v w : 0 <= v < 2 ^ lgN -> 0 <= w < 2 ^ lgN ->
  scrambled v = scrambled w -> v = w.
Proof.
  intros Hv Hw E. assert (2 ^ lgN <= 2 ^ 63) by (apply Z.pow_le_mono_r; lia).
  unfold scrambled in E.
  apply rev_low_inj in E; [| done | apply unsigned_range; lia..].
  rewrite !unsigned_mod in E by lia. apply odd_mul_inj in E; [|lia | by apply odd_lor].
  rewrite !(Z.mod_small _ (2 ^ lgN)) in E
    by (apply rev_low_range; [done | apply unsigned_range; lia]).
  apply rev_low_inj in E; [| done | apply unsigned_range; lia..].
  rewrite !unsigned_mod in E by lia. apply odd_mul_inj in E; [|lia | by apply odd_lor].
  rewrite !unsigned_mod in E by lia. rewrite !(unsigned_small 64 v), !(unsigned_small 64 w) in E by lia.
  apply Z.cong_iff_0 in E.
  replace (v + u64 (val0 + val1) - (w + u64 (val0 + val1))) with (v - w) in E by lia.
  apply Z.cong_iff_0 in E. by rewrite !Z.mod_small in E by done.
Qed.

(** C31: for 2^lgN vertices, whatever the two scrambling values, [scramble]
    succeeds on every vertex and permutes the vertices: no two vertices get
    the same number, and every number in [0, 2^lgN) is given. *)
Theorem scramble_permutes_vertices : exists f,
  (forall v, scramble v lgN val0 val1 = Ok (f v)) /\
  map f (seqZ 0 (2 ^ lgN)) ≡ₚ seqZ 0 (2 ^ lgN).
Proof.
  exists scrambled. split; [exact scramble_ok|].
  apply submseteq_length_Permutation; [|by rewrite length_map].
  apply NoDup_submseteq.
  - change (map scrambled) with (fmap (M := list) scrambled).
    apply NoDup_fmap_2_strong; [|apply NoDup_seqZ].
    intros v w Hv%elem_of_seqZ Hw%elem_of_seqZ. apply scrambled_inj; lia.
  - intros x (v & -> & _)%list_elem_of_fmap. apply elem_of_seqZ.
    pose proof (scrambled_range v). lia.
Qed.
End ScrambleFacts.

Lemma scramble_permutes_vertices_witness : exists f,
  (forall v, scramble v 3 12345 67890 = Ok (f v)) /\ map f (seqZ 0 8) ≡ₚ seqZ 0 8.
Proof. apply (scramble_permutes_vertices 3 12345 67890). lia. Defined.
