(* ===== verification/GraphGen.v ===== *)
(** * The Kronecker edge generator

    [generator/graph_generator.{c,h}], [generator/make_graph.c] and
    [make_mrg_seed] of [generator/utils.c]: edge [ei] of the graph is a
    function of the seed and of [ei] alone, drawn from the generator state
    skipped ahead to that edge, so that any split of the edges over loops,
    threads or MPI ranks produces the same graph. *)

From S2P Require Import Prelude ModArith SplittableMrg Scramble.

(** ** Edges *)

(** [struct packed_edge], without GENERATOR_USE_PACKED_EDGE_TYPE. *)
Record packed_edge := mk_edge { v0 : Z; v1 : Z }.

Definition get_v0_from_edge (p : packed_edge) : Z := v0 p.
Definition get_v1_from_edge (p : packed_edge) : Z := v1 p.
Definition write_edge (v0 v1 : Z) : packed_edge := mk_edge v0 v1.

(** With GENERATOR_USE_PACKED_EDGE_TYPE: 48 bits per vertex. *)
Module Packed.
Record packed_edge := mk_edge { v0_low : Z; v1_low : Z; high : Z }.

(** What [x << n] is for a negative [x] of 64 bits.  ISO C leaves it
    undefined; GNU C shifts the bits. *)
Definition negative_shl : Type := Z -> Z -> res Z.
Definition iso_shl : negative_shl := fun _ _ => Err Overflow.
Definition gnu_shl : negative_shl := fun x n => Ok (i64 (Z.shiftl x n)).

Section Readers.
Context (neg_shl : negative_shl).

Definition shl_i64 (x n : Z) : res Z := if x <? 0 then neg_shl x n else sshl 64 x n.

Definition get_v0_from_edge (p : packed_edge) : res Z :=
  h ← shl_i64 (i16 (Z.land (high p) 0xFFFF)) 32; Ok (Z.lor (v0_low p) h).
Definition get_v1_from_edge (p : packed_edge) : res Z :=
  h ← shl_i64 (i16 (Z.shiftr (high p) 16)) 32; Ok (Z.lor (v1_low p) h).
End Readers.

Definition write_edge (v0 v1 : Z) : packed_edge :=
  mk_edge (u32 v0) (u32 v1)
    (u32 (Z.lor (Z.land (Z.shiftr v0 32) 0xFFFF)
                (Z.shiftl (Z.land (Z.shiftr v1 32) 0xFFFF) 16))).
End Packed.

(** ** The seed (utils.c) *)

Definition make_mrg_seed (userseed1 userseed2 : Z) : list Z :=
  [ u64 (Z.land userseed1 0x3FFFFFFF + 1);
    u64 (Z.land (Z.shiftr userseed1 30) 0x3FFFFFFF + 1);
    u64 (Z.land userseed2 0x3FFFFFFF + 1);
    u64 (Z.land (Z.shiftr userseed2 30) 0x3FFFFFFF + 1);
    u64 (u64 (u64 (Z.shiftl (Z.shiftr userseed2 60) 4) + Z.shiftr userseed1 60) + 1) ].

(** ** One edge *)

Definition INITIATOR_A_NUMERATOR : Z := 5700.
Definition INITIATOR_BC_NUMERATOR : Z := 1900.
Definition INITIATOR_DENOMINATOR : Z := 10000.
Definition limit : Z := u32 (0xFFFFFFFF mod INITIATOR_DENOMINATOR).

(** The rejection loop ends within ten draws on every state but zero (see
    [draws_end] below). *)
Definition draw_fuel : nat := 10.

Section Code.
Context {ops : ModOps} (mrg_skip_matrices : list (list mrg_transition_matrix)).

Definition draw (st : mrg_state) : res (Z * mrg_state) :=
  '(val, st) ← mrg_get_uint_orig st; Ok (u32 val, st).

(** SPK_NOISE_LEVEL is 0, so [level] and [nlevels] are not used. *)
Definition generate_4way_bernoulli (st : mrg_state) (level nlevels : Z) : res (Z * mrg_state) :=
  '(val, st) ← draw st;
  '(val, st) ← (if val <? limit
                then s ← draw st;
                     while draw_fuel (fun '(val, st) => Ok (val <? limit))
                       (fun '(val, st) => draw st) s
                else Ok (val, st));
  let spk_noise_factor := 0 in
  adjusted_bc_numerator ← chk 32 (INITIATOR_BC_NUMERATOR + spk_noise_factor);
  let val := val mod INITIATOR_DENOMINATOR in
  if val <? u32 adjusted_bc_numerator then Ok (1, st) else
  let val := u32 (val - u32 adjusted_bc_numerator) in
  if val <? u32 adjusted_bc_numerator then Ok (2, st) else
  let val := u32 (val - u32 adjusted_bc_numerator) in
  if val <? INITIATOR_A_NUMERATOR then Ok (0, st) else Ok (3, st).

(** The loop of [make_one_edge]: [nverts] is an int64_t, so it is halved
    less than 64 times. *)
Definition edge_level (lgN : Z) : Z * Z * mrg_state * Z * Z -> res (Z * Z * mrg_state * Z * Z) :=
  fun '(nverts, level, st, base_src, base_tgt) =>
    '(square, st) ← generate_4way_bernoulli st level lgN;
    let src_offset := Z.quot square 2 in
    let tgt_offset := Z.rem square 2 in
    c_assert (base_src <=? base_tgt);;
    let '(src_offset, tgt_offset) :=
      if base_src =? base_tgt then
        if tgt_offset <? src_offset then (tgt_offset, src_offset) else (src_offset, tgt_offset)
      else (src_offset, tgt_offset) in
    let nverts := Z.quot nverts 2 in
    level ← chk 32 (level + 1);
    d ← chk 64 (nverts * src_offset); base_src ← chk 64 (base_src + d);
    d ← chk 64 (nverts * tgt_offset); base_tgt ← chk 64 (base_tgt + d);
    Ok (nverts, level, st, base_src, base_tgt).

Definition make_one_edge (nverts level lgN : Z) (st : mrg_state) (val0 val1 : Z)
    : res packed_edge :=
  '(_, _, _, base_src, base_tgt) ←
    while 64 (fun '(nverts, level, st, base_src, base_tgt) => Ok (1 <? nverts))
      (edge_level lgN) (nverts, level, st, 0, 0);
  src ← scramble base_src lgN val0 val1;
  tgt ← scramble base_tgt lgN val0 val1;
  Ok (write_edge src tgt).

(** ** Ranges of edges *)

(** The two scrambling values, four draws from a distant state. *)
Definition scramble_values (state : mrg_state) : res (Z * Z) :=
  new_state ← mrg_skip mrg_skip_matrices state 50 7 0;
  '(val0, new_state) ← mrg_get_uint_orig new_state;
  let val0 := u64 (u64 val0 * 0xFFFFFFFF) in
  '(d, new_state) ← mrg_get_uint_orig new_state;
  let val0 := u64 (val0 + d) in
  '(val1, new_state) ← mrg_get_uint_orig new_state;
  let val1 := u64 (u64 val1 * 0xFFFFFFFF) in
  '(d, new_state) ← mrg_get_uint_orig new_state;
  let val1 := u64 (val1 + d) in
  Ok (val0, val1).

(** [generate_kronecker_range] without _GRAPPA; [edges] is the caller's
    array, of which it writes the first [end_edge - start_edge] elements. *)
Definition generate_kronecker_range (seed : list Z) (logN start_edge end_edge : Z)
    (edges : list packed_edge) : res (list packed_edge) :=
  nverts ← sshl 64 1 logN;
  state ← mrg_seed seed;
  '(val0, val1) ← scramble_values state;
  for_range start_edge end_edge
    (fun ei edges =>
       new_state ← mrg_skip mrg_skip_matrices state 0 (u64 ei) 0;
       e ← make_one_edge nverts 0 logN new_state val0 val1;
       edges.[ei - start_edge <- e])
    edges.

(** ** make_graph.c *)

Definition compute_edge_range (rank size M : Z) : res (Z * Z) :=
  let rankc := rank in
  let sizec := size in
  if sizec =? 0 then Err Overflow else
  let q := Z.quot M sizec in
  let r := Z.rem M sizec in
  t ← chk 64 (rankc * q); start_idx ← chk 64 (t + (if rankc <? r then rankc else r));
  rankc1 ← chk 64 (rankc + 1);
  t ← chk 64 (rankc1 * q); end_idx ← chk 64 (t + (if rankc1 <? r then rankc1 else r));
  Ok (start_idx, end_idx).

(** [xmalloc (n)]: the memory that [malloc] returns, or an exit.  [malloc]
    takes a size in bytes; its result is a fresh (uninitialised) array of
    [n / sizeof(packed_edge)] edges. *)
Definition xmalloc (malloc : Z -> option (list packed_edge)) (n : Z) : res (list packed_edge) :=
  match malloc n with Some l => Ok l | None => Err Aborted end.

Definition sizeof_packed_edge : Z := 16.

(** The sequential and OpenMP version; it returns the number of edges and
    the edges. *)
Definition make_graph (malloc : Z -> option (list packed_edge))
    (log_numverts M userseed1 userseed2 : Z) : res (Z * list packed_edge) :=
  let seed := make_mrg_seed userseed1 userseed2 in
  edges ← xmalloc malloc (u64 (M * sizeof_packed_edge));
  edges ← generate_kronecker_range seed log_numverts 0 M edges;
  Ok (M, edges).

(** The MPI version, run by rank [rank] of [size]. *)
Definition make_graph_mpi (malloc : Z -> option (list packed_edge)) (rank size : Z)
    (log_numverts M userseed1 userseed2 : Z) : res (Z * list packed_edge) :=
  let seed := make_mrg_seed userseed1 userseed2 in
  '(start_idx, end_idx) ← compute_edge_range rank size M;
  nedges ← chk 64 (end_idx - start_idx);
  local_edges ← xmalloc malloc (u64 (nedges * sizeof_packed_edge));
  local_edges ← generate_kronecker_range seed log_numverts start_idx end_idx local_edges;
  Ok (nedges, local_edges).
End Code.

(** ** The generator's states *)

Definition zero_state : mrg_state := mk_state 0 0 0 0 0.

(** The states a seed may name: five residues, not all zero. *)
Definition good (st : mrg_state) : Prop := wf_state st /\ st <> zero_state.

(** The inverse of 104480 modulo M. *)
Definition mrg_y_inverse : Z := 1840344978.

Section StateFacts.
Context {ops : ModOps} `{!ModLaws ops}.

Lemma good_next st : good st -> good (next st).
Proof.
  intros [Hw Hz]. split; [by apply wf_next|]. intros E. apply Hz.
  destruct st as [y1 y2 y3 y4 y5]. unfold next in E. simpl in E.
  injection E as E -> -> -> ->. unfold zero_state. f_equal.
  destruct Hw as (_ & _ & _ & _ & H5). simpl in H5.
  rewrite Z.mul_0_r, Z.add_0_l in E.
  assert (E' : (mrg_y_inverse * (mrg_y * y5)) mod M = 0)
    by (rewrite <- Zmult_mod_idemp_r, E; done).
  rewrite Z.mul_assoc, <- Zmult_mod_idemp_l in E'.
  change ((mrg_y_inverse * mrg_y) mod M) with 1 in E'.
  rewrite Z.mul_1_l in E'. by rewrite residue_mod_small in E'.
Qed.

Lemma good_steps n st : good st -> good (steps n st).
Proof.
  intros. unfold steps. generalize (Z.to_nat n) as k. induction k; simpl; auto using good_next.
Qed.

(** A draw below [limit] five draws after another one, and right after a
    third: the recurrence leaves two possibilities. *)
Lemma small_draw a e : 0 <= a < limit -> 0 <= e < limit ->
  let n := (mrg_x * a + mrg_y * e) mod M in n < limit ->
  (e = 0 /\ n = 0 /\ a = 0) \/ (e = 7194 /\ 20 * n + 7 * a = 196871).
Proof.
  change limit with 7295. intros Ha He n Hn.
  pose proof (Z.mod_pos_bound (mrg_x * a + mrg_y * e) M ltac:(done)) as Hn0. fold n in Hn0.
  pose proof (Z.div_mod (mrg_x * a + mrg_y * e) M ltac:(done)) as E. fold n in E.
  set (k := (mrg_x * a + mrg_y * e) / M) in *. clearbody k n.
  unfold mrg_x, mrg_y, M in *.
  remember (a - 20 * k) as j eqn:Ej.
  assert (E' : 20 * n + 7 * a = 2089600 * e + j * 0x7FFFFFFF) by lia.
  assert (j = 0 \/ j = -1 \/ j = -2 \/ j = -3 \/ j = -4 \/ j = -5 \/ j = -6 \/ j = -7)
    as Hj by lia.
  clear E Ej. destruct Hj as [->|[->|[->|[->|[->|[->|[->| -> ]]]]]]]; lia.
Qed.

(** The recurrence, on the draws. *)
Lemma draw_recurrence st j : 0 <= j ->
  z1 (steps (j + 5) st) = (mrg_x * z1 (steps (j + 4) st) + mrg_y * z1 (steps j st)) mod M.
Proof.
  intros Hj. rewrite (Z.add_comm j 5), (Z.add_comm j 4), !steps_add by lia. reflexivity.
Qed.

(** A state is its last five draws. *)
Lemma state_window st j : 0 <= j ->
  steps (j + 4) st = mk_state (z1 (steps (j + 4) st)) (z1 (steps (j + 3) st))
    (z1 (steps (j + 2) st)) (z1 (steps (j + 1) st)) (z1 (steps j st)).
Proof.
  intros Hj. rewrite !(Z.add_comm j), !steps_add by lia. reflexivity.
Qed.

(** Ten draws in a row cannot all be rejected. *)
Lemma draws_end st : good st ->
  (forall j, 1 <= j <= 10 -> z1 (steps j st) < limit) -> False.
Proof.
  intros Hst Hsmall.
  assert (Hrec : forall j, 1 <= j <= 5 ->
    (z1 (steps j st) = 0 /\ z1 (steps (j + 5) st) = 0 /\ z1 (steps (j + 4) st) = 0) \/
    (z1 (steps j st) = 7194 /\ 20 * z1 (steps (j + 5) st) + 7 * z1 (steps (j + 4) st) = 196871)).
  { intros j Hj. assert (Hr := draw_recurrence st j ltac:(lia)). rewrite Hr.
    assert (Hpos : forall j, 0 <= z1 (steps j st))
      by (intros i; apply (wf_steps i st (proj1 Hst))).
    apply small_draw; [auto with lia.. |]. rewrite <- Hr. apply Hsmall. lia. }
  pose proof (Hrec 1 ltac:(lia)) as H1. pose proof (Hrec 2 ltac:(lia)) as H2.
  pose proof (Hrec 3 ltac:(lia)) as H3. pose proof (Hrec 4 ltac:(lia)) as H4.
  pose proof (Hrec 5 ltac:(lia)) as H5.
  pose proof (Hsmall 6 ltac:(lia)) as S6. pose proof (Hsmall 10 ltac:(lia)) as S10.
  pose proof (state_window st 1 ltac:(lia)) as E5.
  change limit with 7295 in *. clear Hrec Hsmall.
  repeat match goal with H : context [steps (?a + ?b) st] |- _ =>
    let c := eval compute in (a + b) in change (a + b) with c in H end.
  destruct (good_steps 5 st Hst) as [_ Hz]. apply Hz. rewrite E5. unfold zero_state. clear Hz Hst E5.
  generalize dependent (z1 (steps 1 st)). generalize dependent (z1 (steps 2 st)).
  generalize dependent (z1 (steps 3 st)). generalize dependent (z1 (steps 4 st)).
  generalize dependent (z1 (steps 5 st)). intros. f_equal; lia.
Qed.

(** *** The rejection loop *)

Lemma draw_ok st : wf_state st -> draw st = Ok (z1 (next st), next st).
Proof.
  intros Hst. unfold draw, mrg_get_uint_orig. rewrite mrg_orig_step_ok by done.
  cbn [mbind res_bind]. rewrite unsigned_small; [done|].
  destruct (wf_next st Hst) as [H _]. unfold residue, M in H. lia.
Qed.

Lemma draw_steps st k : wf_state st -> 0 <= k ->
  draw (steps k st) = Ok (z1 (steps (k + 1) st), steps (k + 1) st).
Proof. intros. rewrite draw_ok, steps_succ by auto using wf_steps. done. Qed.

(** The quadrant chosen by an accepted draw. *)
Definition quadrant (val : Z) : Z :=
  let r := val mod 10000 in
  if r <? 1900 then 1 else if r <? 3800 then 2 else if r <? 9500 then 0 else 3.

Lemma quadrant_range val : 0 <= quadrant val < 4.
Proof. unfold quadrant. repeat case_match; lia. Qed.

(** [k] is the index of the first draw that is not rejected. *)
Definition first_accepted (st : mrg_state) (k : Z) : Prop :=
  1 <= k <= 10 /\ limit <= z1 (steps k st) /\ forall j, 1 <= j < k -> z1 (steps j st) < limit.

Lemma rejection_loop st : good st -> exists k, first_accepted st k /\
  ('(val, st) ← draw st;
   if val <? limit
   then s ← draw st;
        while draw_fuel (fun '(val, st) => Ok (val <? limit)) (fun '(val, st) => draw st) s
   else Ok (val, st)) = Ok (z1 (steps k st), steps k st).
Proof.
  intros Hst. destruct (Hst) as [Hw _]. rewrite draw_ok by done. cbn [mbind res_bind].
  change (next st) with (steps 1 st).
  destruct (Z.ltb_spec (z1 (steps 1 st)) limit) as [Hrej|Hacc].
  - rewrite draw_steps by (done || lia). cbn [mbind res_bind]. change (1 + 1) with 2.
    destruct (while_ghost (fun n '(val, s) => exists k, 2 <= k <= 10 /\ n = Z.to_nat (10 - k) /\
        val = z1 (steps k st) /\ s = steps k st /\ forall j, 1 <= j < k -> z1 (steps j st) < limit)
      (fun '(val, st) => Ok (val <? limit)) (fun '(val, st) => draw st)) with
      (fuel := draw_fuel) (n := 8%nat) (s := (z1 (steps 2 st), steps 2 st))
      as (n & [val s] & -> & (k & Hk & -> & -> & -> & Hsmall) & [= Hc%Z.ltb_ge]).
    + intros n [val s] (k & Hk & -> & -> & -> & Hsmall).
      destruct (Z.ltb_spec (z1 (steps k st)) limit) as [Hr|]; [right; split; [done|] | by left].
      assert (Hsmall' : forall j, 1 <= j < k + 1 -> z1 (steps j st) < limit).
      { intros j Hj. destruct (decide (j = k)) as [->|]; [done | apply Hsmall; lia]. }
      assert (k <> 10) by (intros ->; apply (draws_end st Hst); intros; apply Hsmall'; lia).
      exists (z1 (steps (k + 1) st), steps (k + 1) st), (Z.to_nat (10 - (k + 1))).
      rewrite draw_steps by (done || lia). split_and!; [done | | lia].
      exists (k + 1). split_and!; (done || lia).
    + unfold draw_fuel. lia.
    + exists 2. split_and!; try (done || lia). intros j Hj. by replace j with 1 by lia.
    + exists k. split; [split_and!; (done || lia) | done].
  - exists 1. split; [split_and!; (done || lia) | done].
Qed.

Lemma bernoulli_ok st level nlevels : good st -> exists k, first_accepted st k /\
  generate_4way_bernoulli st level nlevels = Ok (quadrant (z1 (steps k st)), steps k st).
Proof.
  intros Hst. destruct (rejection_loop st Hst) as (k & Hk & E). exists k. split; [done|].
  destruct (Hst) as [Hw _]. unfold generate_4way_bernoulli.
  rewrite draw_ok in * by done. cbn [mbind res_bind] in *. rewrite E. cbn [mbind res_bind].
  rewrite chk_ok by done. cbn [mbind res_bind]. unfold quadrant.
  change INITIATOR_DENOMINATOR with 10000. change INITIATOR_A_NUMERATOR with 5700.
  change (u32 (INITIATOR_BC_NUMERATOR + 0)) with 1900.
  pose proof (Z.mod_pos_bound (z1 (steps k st)) 10000 ltac:(lia)) as Hr.
  remember (z1 (steps k st) mod 10000) as r eqn:Er. clear Er.
  destruct (Z.ltb_spec r 1900); [done|].
  rewrite (unsigned_small 32 (r - 1900)) by lia.
  destruct (Z.ltb_spec (r - 1900) 1900), (Z.ltb_spec r 3800); try lia; [done|].
  rewrite (unsigned_small 32 (r - 1900 - 1900)) by lia.
  by destruct (Z.ltb_spec (r - 1900 - 1900) 5700), (Z.ltb_spec r 9500); try lia.
Qed.

(** *** One edge *)

(** After [lgN - n] levels: the corner of a square of side 2^n above or on
    the diagonal. *)
Definition level_inv (lgN : Z) (n : nat) : Z * Z * mrg_state * Z * Z -> Prop :=
  fun '(nverts, level, st, base_src, base_tgt) =>
    Z.of_nat n <= lgN /\ nverts = 2 ^ Z.of_nat n /\ level = lgN - Z.of_nat n /\ good st /\
    exists a b, base_src = a * 2 ^ Z.of_nat n /\ base_tgt = b * 2 ^ Z.of_nat n /\
      0 <= a <= b /\ b < 2 ^ (lgN - Z.of_nat n).

(** The offsets in a square: on the diagonal they are in order. *)
Lemma offsets_ok square (eq : bool) : 0 <= square < 4 ->
  exists s t, (let src_offset := Z.quot square 2 in let tgt_offset := Z.rem square 2 in
    if eq then if tgt_offset <? src_offset then (tgt_offset, src_offset) else (src_offset, tgt_offset)
    else (src_offset, tgt_offset)) = (s, t) /\
  0 <= s <= 1 /\ 0 <= t <= 1 /\ (eq = true -> s <= t).
Proof.
  intros H. assert (square = 0 \/ square = 1 \/ square = 2 \/ square = 3) as Hs by lia.
  destruct Hs as [->|[->|[->| ->]]], eq; vm_compute; eexists _, _; split_and!; try done; lia.
Qed.

Lemma edge_level_ok lgN n x : 1 <= lgN <= 62 -> level_inv lgN (S n) x ->
  exists x', edge_level lgN x = Ok x' /\ level_inv lgN n x'.
Proof.
  intros HN. destruct x as [[[[nverts level] st] bs] bt].
  intros (Hn & -> & -> & Hst & a & b & -> & -> & Hab & Hb).
  destruct (bernoulli_ok st (lgN - Z.of_nat (S n)) lgN Hst) as (k & _ & E).
  unfold edge_level. rewrite E. cbn [mbind res_bind].
  replace (Z.of_nat (S n)) with (Z.of_nat n + 1) in * by lia.
  rewrite Z.pow_add_r, Z.pow_1_r by lia.
  assert (Hp : 2 ^ (lgN - Z.of_nat n) = 2 * 2 ^ (lgN - (Z.of_nat n + 1)))
    by (rewrite <- Z.pow_succ_r by lia; f_equal; lia).
  assert (HN2 : 2 ^ lgN = 2 ^ (lgN - Z.of_nat n) * 2 ^ Z.of_nat n)
    by (rewrite <- Z.pow_add_r by lia; f_equal; lia).
  assert (Hmax : 2 ^ lgN <= 2 ^ 62) by (apply Z.pow_le_mono_r; lia).
  rewrite Z.quot_mul by lia.
  remember (2 ^ Z.of_nat n) as q eqn:Hq. assert (0 < q) by lia.
  remember (2 ^ (lgN - (Z.of_nat n + 1))) as p eqn:Hpp.
  rewrite c_assert_true by (apply Z.leb_le; nia). cbn [mbind res_bind].
  destruct (offsets_ok (quadrant (z1 (steps k st))) (a * (q * 2) =? b * (q * 2))) as
    (s & t & Eo & Hs & Ht & Hst'); [apply quadrant_range|].
  cbv zeta in Eo. rewrite Eo. clear Eo.
  assert (Hord : a = b -> s <= t) by (intros ->; apply Hst', Z.eqb_refl).
  assert (H2b : 0 <= 2 * a + s <= 2 * b + t /\ 2 * b + t < 2 ^ (lgN - Z.of_nat n)) by lia.
  assert (Hbig : (2 * b + t) * q < 2 ^ 62) by (rewrite Hp in *; nia).
  rewrite (chk_ok 32) by lia. cbn [mbind res_bind].
  rewrite (chk_ok 64 (q * s)) by nia. cbn [mbind res_bind].
  rewrite (chk_ok 64 (a * (q * 2) + q * s)) by nia. cbn [mbind res_bind].
  rewrite (chk_ok 64 (q * t)) by nia. cbn [mbind res_bind].
  rewrite (chk_ok 64 (b * (q * 2) + q * t)) by nia. cbn [mbind res_bind].
  eexists; split; [done|]. unfold level_inv. split_and!; [lia | done | lia | by apply good_steps |].
  exists (2 * a + s), (2 * b + t). rewrite <- Hq. split_and!; lia.
Qed.

Lemma make_one_edge_ok lgN st val0 val1 : 1 <= lgN <= 62 -> good st ->
  exists src tgt, 0 <= src <= tgt /\ tgt < 2 ^ lgN /\
    make_one_edge (2 ^ lgN) 0 lgN st val0 val1 =
    Ok (write_edge (scrambled lgN val0 val1 src) (scrambled lgN val0 val1 tgt)).
Proof.
  intros HN Hst. unfold make_one_edge.
  destruct (while_ghost (level_inv lgN)
    (fun '(nverts, level, st, base_src, base_tgt) => Ok (1 <? nverts)) (edge_level lgN)) with
    (fuel := 64%nat) (n := Z.to_nat lgN) (s := (2 ^ lgN, 0, st, 0, 0))
    as (n & [[[[nv lv] st'] bs] bt] & -> & Hinv & [= Hc%Z.ltb_ge]).
  - intros n x Hx. destruct n as [|n].
    + left. destruct x as [[[[nv lv] s] bs] bt]. by destruct Hx as (_ & -> & _).
    + right. split.
      * destruct x as [[[[nv lv] s] bs] bt]. destruct Hx as (_ & -> & _).
        f_equal. apply Z.ltb_lt. apply Z.pow_gt_1; lia.
      * destruct (edge_level_ok lgN n x HN Hx) as (x' & ? & ?). exists x', n. auto with lia.
  - lia.
  - unfold level_inv. rewrite Z2Nat.id by lia. split_and!; try (done || lia).
    exists 0, 0. rewrite Z.sub_diag. split_and!; (done || lia).
  - destruct Hinv as (Hn & -> & _ & _ & a & b & -> & -> & Hab & Hb).
    assert (Z.of_nat n = 0) as E0.
    { destruct n; [done|]. pose proof (Z.pow_gt_1 2 (Z.of_nat (S n))). lia. }
    rewrite E0 in *. rewrite Z.pow_0_r, !Z.mul_1_r. cbn [mbind res_bind].
    rewrite !scramble_ok by lia. cbn [mbind res_bind].
    exists a, b. rewrite Z.sub_0_r in Hb. split_and!; (done || lia).
Qed.

(** *** Ranges of edges *)

Definition default_edge : packed_edge := mk_edge 0 0.

(** The value a computation that succeeds returns. *)
Definition the_edge (r : res packed_edge) : packed_edge :=
  match r with Ok e => e | Err _ => default_edge end.

(** A loop that stores [f ei] at [ei - s] fills the front of the array. *)
Lemma fill_loop (f : Z -> res packed_edge) s e arr :
  (forall ei, s <= ei < e -> exists x, f ei = Ok x) -> s <= e -> e - s <= zlen arr ->
  for_range s e (fun ei arr => x ← f ei; arr.[ei - s <- x]) arr =
  Ok (map (fun ei => the_edge (f ei)) (seqZ s (e - s)) ++ drop (Z.to_nat (e - s)) arr).
Proof.
  intros Hf Hse Hlen.
  destruct (for_range_inv (fun k a => s <= k <= e /\
      a = map (fun ei => the_edge (f ei)) (seqZ s (k - s)) ++ drop (Z.to_nat (k - s)) arr)
    (fun ei arr => x ← f ei; arr.[ei - s <- x]) s e arr) as (a & -> & _ & ->); [done | | | done].
  - split; [lia|]. by rewrite Z.sub_diag.
  - intros k a Hk [_ ->]. destruct (Hf k Hk) as [x Ex]. rewrite Ex. cbn [mbind res_bind].
    rewrite aset_ok by (rewrite length_app, length_map, length_seqZ, length_drop; lia).
    eexists; split; [done|]. split; [lia|].
    replace (k + 1 - s) with (k - s + 1) by lia. rewrite seqZ_app, map_app by lia.
    replace (s + (k - s)) with k by lia. change (seqZ k 1) with [k]. simpl. rewrite Ex.
    rewrite (insert_app_r_alt _ _ (Z.to_nat (k - s))) by (rewrite length_map, length_seqZ; lia).
    rewrite length_map, length_seqZ. replace (Z.to_nat (k - s) - Z.to_nat (k - s))%nat with 0%nat by lia.
    rewrite <- app_assoc. f_equal.
    destruct (lookup_lt_is_Some_2 arr (Z.to_nat (k - s)) ltac:(lia)) as [y Hy].
    rewrite (drop_S _ _ _ Hy). simpl. by replace (Z.to_nat (k - s + 1)) with (S (Z.to_nat (k - s))) by lia.
Qed.

(** Edge [ei] of the graph. *)
Definition edge_of (t : list (list mrg_transition_matrix)) (state : mrg_state)
    (nverts logN val0 val1 ei : Z) : res packed_edge :=
  new_state ← mrg_skip t state 0 (u64 ei) 0; make_one_edge nverts 0 logN new_state val0 val1.

(** Vertices below 2^logN, the scrambled images of a pair on or above the
    diagonal. *)
Definition valid_edge (logN val0 val1 : Z) (e : packed_edge) : Prop :=
  0 <= v0 e < 2 ^ logN /\ 0 <= v1 e < 2 ^ logN /\
  exists src tgt, 0 <= src <= tgt /\ tgt < 2 ^ logN /\
    scramble src logN val0 val1 = Ok (v0 e) /\ scramble tgt logN val0 val1 = Ok (v1 e).

Lemma edge_of_ok t state logN val0 val1 ei : table_ok t -> good state -> 1 <= logN <= 62 ->
  exists e, edge_of t state (2 ^ logN) logN val0 val1 ei = Ok e /\
    valid_edge logN val0 val1 e.
Proof.
  intros Ht Hst HN. unfold edge_of.
  pose proof (unsigned_range 64 ei ltac:(lia)).
  rewrite mrg_skip_ok by (apply Hst || done || lia). cbn [mbind res_bind].
  match goal with |- context [make_one_edge _ _ _ ?s _ _] =>
    destruct (make_one_edge_ok logN s val0 val1 HN) as (src & tgt & Hle & Hlt & ->);
      [by apply good_steps|] end.
  eexists; split; [done|]. unfold valid_edge, write_edge; simpl.
  split_and!; try apply scrambled_range; [lia..|].
  exists src, tgt. rewrite !scramble_ok by lia. done.
Qed.

Lemma scramble_values_ok t state : table_ok t -> good state ->
  exists val0 val1, scramble_values t state = Ok (val0, val1).
Proof.
  intros Ht [Hst _]. unfold scramble_values, mrg_get_uint_orig.
  rewrite mrg_skip_ok by (done || lia). cbn [mbind res_bind].
  match goal with |- context [mrg_orig_step (steps ?n ?s)] =>
    pose proof (wf_steps n s Hst) as Hw; revert Hw; generalize (steps n s) end.
  intros s0 Hw.
  repeat (rewrite mrg_orig_step_ok by auto using wf_next; cbn [mbind res_bind]).
  eauto.
Qed.

Lemma mrg_seed_inv seed st : mrg_seed seed = Ok st -> 5 <= zlen seed.
Proof.
  unfold mrg_seed. intros H. inv_ok.
  repeat match goal with H : aget _ _ = Ok _ |- _ => apply (aget_Ok_inv 0) in H as [? _] end. lia.
Qed.

Lemma kronecker_range_ok t seed state logN s e edges : table_ok t ->
  mrg_seed seed = Ok state -> good state -> 1 <= logN <= 62 -> s <= e -> e - s <= zlen edges ->
  exists val0 val1, scramble_values t state = Ok (val0, val1) /\
  generate_kronecker_range t seed logN s e edges =
  Ok (map (fun ei => the_edge (edge_of t state (2 ^ logN) logN val0 val1 ei)) (seqZ s (e - s))
      ++ drop (Z.to_nat (e - s)) edges).
Proof.
  intros Ht Hseed Hst HN Hse Hlen. destruct (scramble_values_ok t state Ht Hst) as (x & y & E).
  exists x, y. split; [done|]. unfold generate_kronecker_range.
  assert (2 ^ logN <= 2 ^ 62) by (apply Z.pow_le_mono_r; lia).
  rewrite sshl_ok by lia. cbn [mbind res_bind]. rewrite Hseed. cbn [mbind res_bind].
  rewrite E, Z.mul_1_l. cbn [mbind res_bind].
  rewrite <- fill_loop; [| | done..].
  - apply for_range_ext. intros k a _. unfold edge_of. by rewrite bind_assoc.
  - intros ei _. destruct (edge_of_ok t state logN x y ei) as (e0 & -> & _); eauto.
Qed.

(** *** Seeds *)

Lemma land_mask x : 0 <= x -> Z.land x 0x3FFFFFFF = x mod 2 ^ 30.
Proof. intros. change 0x3FFFFFFF with (Z.ones 30). by apply Z.land_ones. Qed.

(** The five words of the seed as arithmetic. *)
Lemma make_mrg_seed_eq u1 u2 : 0 <= u1 < 2 ^ 64 -> 0 <= u2 < 2 ^ 64 ->
  make_mrg_seed u1 u2 =
  [u1 mod 2 ^ 30 + 1; (u1 / 2 ^ 30) mod 2 ^ 30 + 1; u2 mod 2 ^ 30 + 1;
   (u2 / 2 ^ 30) mod 2 ^ 30 + 1; u2 / 2 ^ 60 * 16 + u1 / 2 ^ 60 + 1].
Proof.
  intros H1 H2. unfold make_mrg_seed.
  rewrite !Z.shiftr_div_pow2, !Z.shiftl_mul_pow2 by lia.
  rewrite !land_mask by (try apply Z.div_pos; lia).
  pose proof (Z.mod_pos_bound u1 (2 ^ 30) ltac:(lia)).
  pose proof (Z.mod_pos_bound u2 (2 ^ 30) ltac:(lia)).
  pose proof (Z.mod_pos_bound (u1 / 2 ^ 30) (2 ^ 30) ltac:(lia)).
  pose proof (Z.mod_pos_bound (u2 / 2 ^ 30) (2 ^ 30) ltac:(lia)).
  assert (0 <= u1 / 2 ^ 60 < 16) by (split; [apply Z.div_pos | apply Z.div_lt_upper_bound]; lia).
  assert (0 <= u2 / 2 ^ 60 < 16) by (split; [apply Z.div_pos | apply Z.div_lt_upper_bound]; lia).
  change (2 ^ 4) with 16.
  rewrite (unsigned_small 64 (u2 / 2 ^ 60 * 16)) by lia.
  rewrite (unsigned_small 64 (u2 / 2 ^ 60 * 16 + u1 / 2 ^ 60)) by lia.
  by rewrite !unsigned_small by lia.
Qed.

(** The seed names a good state, and determines the two user seeds. *)
Lemma make_mrg_seed_good u1 u2 : 0 <= u1 < 2 ^ 64 -> 0 <= u2 < 2 ^ 64 ->
  exists st, mrg_seed (make_mrg_seed u1 u2) = Ok st /\ good st.
Proof.
  intros H1 H2. rewrite make_mrg_seed_eq by done. eexists; split; [done|].
  pose proof (Z.mod_pos_bound u1 (2 ^ 30) ltac:(lia)).
  pose proof (Z.mod_pos_bound u2 (2 ^ 30) ltac:(lia)).
  pose proof (Z.mod_pos_bound (u1 / 2 ^ 30) (2 ^ 30) ltac:(lia)).
  pose proof (Z.mod_pos_bound (u2 / 2 ^ 30) (2 ^ 30) ltac:(lia)).
  assert (0 <= u1 / 2 ^ 60 < 16) by (split; [apply Z.div_pos | apply Z.div_lt_upper_bound]; lia).
  assert (0 <= u2 / 2 ^ 60 < 16) by (split; [apply Z.div_pos | apply Z.div_lt_upper_bound]; lia).
  split.
  - unfold wf_state, residue, M. simpl. lia.
  - unfold zero_state. intros [=]. lia.
Qed.

Lemma seed_word_inj u w : 0 <= u -> 0 <= w -> u mod 2 ^ 30 = w mod 2 ^ 30 ->
  (u / 2 ^ 30) mod 2 ^ 30 = (w / 2 ^ 30) mod 2 ^ 30 -> u / 2 ^ 60 = w / 2 ^ 60 -> u = w.
Proof.
  intros Hu Hw E0 E1 E2. change (2 ^ 60) with (2 ^ 30 * 2 ^ 30) in E2.
  rewrite <- !Z.div_div in E2 by lia.
  pose proof (Z.div_mod u (2 ^ 30) ltac:(lia)). pose proof (Z.div_mod w (2 ^ 30) ltac:(lia)).
  pose proof (Z.div_mod (u / 2 ^ 30) (2 ^ 30) ltac:(lia)).
  pose proof (Z.div_mod (w / 2 ^ 30) (2 ^ 30) ltac:(lia)). lia.
Qed.

Lemma make_mrg_seed_inj u1 u2 w1 w2 :
  0 <= u1 < 2 ^ 64 -> 0 <= u2 < 2 ^ 64 -> 0 <= w1 < 2 ^ 64 -> 0 <= w2 < 2 ^ 64 ->
  make_mrg_seed u1 u2 = make_mrg_seed w1 w2 -> u1 = w1 /\ u2 = w2.
Proof.
  intros H1 H2 H3 H4. rewrite !make_mrg_seed_eq by done. intros E.
  injection E as E0 E1 E2 E3 E4.
  assert (Hb : forall u, 0 <= u < 2 ^ 64 -> 0 <= u / 2 ^ 60 < 16)
    by (intros; split; [apply Z.div_pos | apply Z.div_lt_upper_bound]; lia).
  pose proof (Hb u1 H1). pose proof (Hb u2 H2). pose proof (Hb w1 H3). pose proof (Hb w2 H4).
  split; apply seed_word_inj; lia.
Qed.

(** *** MPI ranks *)

(** The first edge of rank [r]. *)
Definition rank_start (size m r : Z) : Z := r * (m / size) + Z.min r (m mod size).

Lemma compute_edge_range_ok rank size m : 0 <= rank < size -> size < 2 ^ 31 -> 0 <= m < 2 ^ 63 ->
  compute_edge_range rank size m = Ok (rank_start size m rank, rank_start size m (rank + 1)).
Proof.
  intros Hr Hs Hm. unfold compute_edge_range, rank_start.
  destruct (Z.eqb_spec size 0); [lia|].
  rewrite Z.quot_div_nonneg, Z.rem_mod_nonneg by lia.
  pose proof (Z.div_mod m size ltac:(lia)). pose proof (Z.mod_pos_bound m size ltac:(lia)).
  assert (0 <= m / size) by (apply Z.div_pos; lia).
  remember (m / size) as q. remember (m mod size) as r.
  assert (0 <= rank * q /\ (rank + 1) * q <= m - r) by nia.
  rewrite (chk_ok 64 (rank * q)) by nia. cbn [mbind res_bind].
  rewrite (chk_ok 64 (rank * q + _)) by (case_match; nia). cbn [mbind res_bind].
  rewrite (chk_ok 64 (rank + 1)) by lia. cbn [mbind res_bind].
  rewrite (chk_ok 64 ((rank + 1) * q)) by nia. cbn [mbind res_bind].
  assert ((rank + 1) * q + Z.min (rank + 1) r <= m) by nia.
  rewrite (chk_ok 64 ((rank + 1) * q + _)) by (case_match; nia). cbn [mbind res_bind].
  repeat f_equal; case_match; lia.
Qed.

Lemma rank_start_bounds size m r : 0 <= r <= size -> 0 < size -> 0 <= m ->
  0 <= rank_start size m r <= m.
Proof.
  intros. unfold rank_start.
  pose proof (Z.div_mod m size ltac:(lia)). pose proof (Z.mod_pos_bound m size ltac:(lia)).
  assert (0 <= m / size) by (apply Z.div_pos; lia). nia.
Qed.

(** Rank [r] has the quotient, or one more. *)
Lemma rank_start_succ size m r : 0 < size -> 0 <= r < size -> 0 <= m ->
  rank_start size m (r + 1) - rank_start size m r = m / size + (if r <? m mod size then 1 else 0).
Proof. intros. unfold rank_start. case_match; lia. Qed.

Lemma rank_start_0 size m : 0 < size -> 0 <= m -> rank_start size m 0 = 0.
Proof. intros. unfold rank_start. pose proof (Z.mod_pos_bound m size). lia. Qed.

Lemma rank_start_size size m : 0 < size -> 0 <= m -> rank_start size m size = m.
Proof.
  intros. unfold rank_start. pose proof (Z.mod_pos_bound m size).
  pose proof (Z.div_mod m size). lia.
Qed.

(** Consecutive segments of the ranks, laid end to end. *)
Lemma segments_concat (g : Z -> packed_edge) size m k : 0 < size -> 0 <= m -> 0 <= k <= size ->
  concat (map (fun r => map g (seqZ (rank_start size m r)
                                 (rank_start size m (r + 1) - rank_start size m r))) (seqZ 0 k))
  = map g (seqZ 0 (rank_start size m k)).
Proof.
  intros Hs Hm [Hk Hle]. revert Hle. pattern k. apply natlike_ind; [| | exact Hk].
  - intros _. by rewrite rank_start_0.
  - clear k Hk. intros k Hk IH Hle. unfold Z.succ in *.
    rewrite seqZ_app, map_app, concat_app, IH by lia. change (seqZ (0 + k) 1) with [k]. simpl.
    rewrite app_nil_r. rewrite <- map_app. f_equal.
    pose proof (rank_start_succ size m k Hs ltac:(lia) Hm) as E.
    assert (0 <= m / size) by (apply Z.div_pos; lia).
    pose proof (rank_start_bounds size m k ltac:(lia) Hs Hm).
    replace (rank_start size m (k + 1))
      with (rank_start size m k + (rank_start size m (k + 1) - rank_start size m k)) at 2 by lia.
    rewrite seqZ_app by (case_match; lia). f_equal.
Qed.

(** C30: on every state but the zero state, [generate_4way_bernoulli] returns:
    it takes the first draw not below [limit], which is one of the first ten,
    and its residue modulo 10000 selects the quadrant (1 and 2 with 1900
    residues each, 0 with 5700, 3 with 500).  The state is the one reached by
    these draws. *)
Theorem generate_4way_bernoulli_terminates st level nlevels : good st ->
  exists k val, 1 <= k <= 10 /\
    for_range 0 k (fun _ st => mrg_orig_step st) st = Ok (steps k st) /\
    val = z1 (steps k st) /\ limit <= val /\
    (forall j, 1 <= j < k -> z1 (steps j st) < limit) /\
    generate_4way_bernoulli st level nlevels =
    Ok (if val mod 10000 <? 1900 then 1 else if val mod 10000 <? 3800 then 2
        else if val mod 10000 <? 9500 then 0 else 3, steps k st).
Proof.
  intros Hst. destruct (bernoulli_ok st level nlevels Hst) as (k & (Hk & Hl & Hj) & E).
  exists k, (z1 (steps k st)). rewrite orig_steps_ok by (apply Hst || lia). split_and!; done || lia.
Qed.

(** C26: for any seed of five residues that are not all zero, 1 <= logN <= 62,
    and an array long enough, [generate_kronecker_range] runs without a
    failed assertion, an overflow, an access outside an array or an endless
    loop.  Element [i] of its result is edge [start_edge + i], which depends
    on the seed and on that number only; its vertices are in [0, 2^logN),
    images under [scramble] of a pair [src <= tgt]; the rest of the array is
    unchanged. *)
Theorem generate_kronecker_range_total t seed state logN start_edge end_edge edges :
  dump_mrg_powers = Ok t -> mrg_seed seed = Ok state -> good state -> 1 <= logN <= 62 ->
  0 <= start_edge <= end_edge -> end_edge < 2 ^ 63 -> end_edge - start_edge <= zlen edges ->
  exists val0 val1 out, scramble_values t state = Ok (val0, val1) /\
    generate_kronecker_range t seed logN start_edge end_edge edges = Ok out /\
    zlen out = zlen edges /\
    (forall i, 0 <= i < end_edge - start_edge -> exists e,
       edge_of t state (2 ^ logN) logN val0 val1 (start_edge + i) = Ok e /\
       out.[i] = Ok e /\ valid_edge logN val0 val1 e) /\
    (forall i, end_edge - start_edge <= i < zlen edges -> out.[i] = edges.[i]).
Proof.
  intros Et Hseed Hst HN Hse Hmax Hlen.
  pose proof (dump_table_ok t Et) as Ht.
  destruct (kronecker_range_ok t seed state logN start_edge end_edge edges) as (x & y & Ev & Eg);
    [done.. | lia | done |].
  exists x, y. eexists. split; [done|]. split; [exact Eg|]. split_and!.
  - rewrite length_app, length_map, length_seqZ, length_drop. lia.
  - intros i Hi. destruct (edge_of_ok t state logN x y (start_edge + i)) as (e & Ee & He); [done..|].
    exists e. split; [done|]. split; [|done].
    rewrite aget_app_l by (rewrite length_map, length_seqZ; lia).
    rewrite (aget_ok default_edge) by (rewrite length_map, length_seqZ; lia).
    unfold zth. rewrite (nth_lookup_Some _ _ _ e); [done|].
    change (map ?f) with (fmap (M := list) f). rewrite list_lookup_fmap, lookup_seqZ_lt by lia.
    simpl. rewrite Z2Nat.id by lia. by rewrite Ee.
  - intros i Hi. unfold aget. destruct (Z.leb_spec 0 i); [|lia].
    rewrite lookup_app_r by (rewrite length_map, length_seqZ; lia).
    rewrite length_map, length_seqZ, lookup_drop. by replace (_ + (_ - _))%nat with (Z.to_nat i) by lia.
Qed.

(** C23: the distributed generation is the sequential one.  When [malloc]
    returns arrays of the size asked for, every MPI rank succeeds and
    reports the number of its edges, and the edges of the ranks, one after
    the other, are those of the sequential [make_graph]. *)
Theorem mpi_graph_is_sequential_graph t malloc logN nedges u1 u2 size :
  dump_mrg_powers = Ok t ->
  (forall n, 0 <= n -> exists l, malloc n = Some l /\ zlen l = n / sizeof_packed_edge) ->
  1 <= logN <= 62 -> 0 <= nedges < 2 ^ 60 -> 0 <= u1 < 2 ^ 64 -> 0 <= u2 < 2 ^ 64 -> 0 < size < 2 ^ 31 ->
  exists part : Z -> list packed_edge,
    (forall rank, 0 <= rank < size ->
       make_graph_mpi t malloc rank size logN nedges u1 u2 = Ok (zlen (part rank), part rank)) /\
    make_graph t malloc logN nedges u1 u2 = Ok (nedges, concat (map part (seqZ 0 size))).
Proof.
  intros Et Hmalloc HN Hm H1 H2 Hs.
  pose proof (dump_table_ok t Et) as Ht.
  destruct (make_mrg_seed_good u1 u2 H1 H2) as (state & Hseed & Hst).
  destruct (scramble_values_ok t state Ht Hst) as (x & y & Ev).
  set (g := fun ei => the_edge (edge_of t state (2 ^ logN) logN x y ei)).
  assert (Hrange : forall s e, 0 <= s <= e -> e < 2 ^ 60 -> exists l,
    malloc (u64 ((e - s) * sizeof_packed_edge)) = Some l /\
    generate_kronecker_range t (make_mrg_seed u1 u2) logN s e l = Ok (map g (seqZ s (e - s)))).
  { intros s e Hse He. unfold sizeof_packed_edge.
    rewrite unsigned_small by lia.
    destruct (Hmalloc ((e - s) * 16)) as (l & -> & Hl); [lia|].
    unfold sizeof_packed_edge in Hl. rewrite Z.div_mul in Hl by lia.
    exists l. split; [done|].
    destruct (kronecker_range_ok t (make_mrg_seed u1 u2) state logN s e l)
      as (x' & y' & Ev' & ->); [done.. | lia | lia |].
    rewrite Ev in Ev'. injection Ev' as <- <-.
    rewrite drop_ge, app_nil_r by lia. done. }
  exists (fun r => map g (seqZ (rank_start size nedges r) (rank_start size nedges (r + 1) - rank_start size nedges r))).
  split.
  - intros rank Hr. unfold make_graph_mpi. rewrite compute_edge_range_ok by lia.
    cbn [mbind res_bind].
    pose proof (rank_start_bounds size nedges rank ltac:(lia) ltac:(lia) ltac:(lia)).
    pose proof (rank_start_bounds size nedges (rank + 1) ltac:(lia) ltac:(lia) ltac:(lia)).
    pose proof (rank_start_succ size nedges rank ltac:(lia) ltac:(lia) ltac:(lia)) as E.
    assert (0 <= nedges / size) by (apply Z.div_pos; lia).
    assert (rank_start size nedges rank <= rank_start size nedges (rank + 1)) by (case_match; lia).
    rewrite chk_ok by lia. cbn [mbind res_bind].
    destruct (Hrange (rank_start size nedges rank) (rank_start size nedges (rank + 1))) as (l & El & Eg); [lia..|].
    unfold xmalloc. rewrite El. cbn [mbind res_bind]. rewrite Eg. cbn [mbind res_bind].
    do 2 f_equal. rewrite length_map, length_seqZ. lia.
  - unfold make_graph. destruct (Hrange 0 nedges) as (l & El & Eg); [lia..|].
    rewrite Z.sub_0_r in El, Eg. unfold xmalloc. rewrite El. cbn [mbind res_bind].
    rewrite Eg. cbn [mbind res_bind]. do 2 f_equal.
    by rewrite segments_concat, rank_start_size by lia.
Qed.
End StateFacts.

(** ** Packed edges *)

(** The high halves: 16 bits of each vertex, sign bit included. *)
Lemma packed_high a b : - 2 ^ 47 <= a < 2 ^ 47 -> - 2 ^ 47 <= b < 2 ^ 47 ->
  let h := u32 (Z.lor (Z.land (Z.shiftr a 32) 0xFFFF)
                  (Z.shiftl (Z.land (Z.shiftr b 32) 0xFFFF) 16)) in
  0 <= h < 2 ^ 32 /\ i16 (Z.land h 0xFFFF) = a / 2 ^ 32 /\ i16 (Z.shiftr h 16) = b / 2 ^ 32.
Proof.
  intros Ha Hb h. assert (Hh : 0 <= h < 2 ^ 32) by (apply unsigned_range; lia).
  assert (Hq : forall x, - 2 ^ 47 <= x < 2 ^ 47 -> - 2 ^ 15 <= x / 2 ^ 32 < 2 ^ 15).
  { intros x Hx. split; [apply Z.div_le_lower_bound | apply Z.div_lt_upper_bound]; lia. }
  assert (E : h = (a / 2 ^ 32) mod 2 ^ 16 + (b / 2 ^ 32) mod 2 ^ 16 * 2 ^ 16).
  { unfold h. change 0xFFFF with (Z.ones 16).
    rewrite !Z.land_ones, !Z.shiftr_div_pow2, Z.shiftl_mul_pow2 by lia.
    pose proof (Z.mod_pos_bound (a / 2 ^ 32) (2 ^ 16)).
    pose proof (Z.mod_pos_bound (b / 2 ^ 32) (2 ^ 16)).
    rewrite lor_shift by lia. apply unsigned_small. lia. }
  split; [done|]. pose proof (Hq a Ha). pose proof (Hq b Hb).
  pose proof (Z.mod_pos_bound (a / 2 ^ 32) (2 ^ 16)).
  split.
  - change 0xFFFF with (Z.ones 16). rewrite Z.land_ones, E, Z_mod_plus_full, Z.mod_mod by lia.
    rewrite signed_unsigned by lia. apply signed_small; lia.
  - rewrite Z.shiftr_div_pow2, E, Z.div_add, (Z.div_small _ (2 ^ 16)), Z.add_0_l by lia.
    rewrite signed_unsigned by lia. apply signed_small; lia.
Qed.

Lemma packed_low neg_shl x low : - 2 ^ 47 <= x < 2 ^ 47 -> low = u32 x ->
  (h ← Packed.shl_i64 neg_shl (x / 2 ^ 32) 32; Ok (Z.lor low h)) =
  if x <? 0 then (h ← neg_shl (x / 2 ^ 32) 32; Ok (Z.lor low h)) else Ok x.
Proof.
  intros Hx ->. unfold Packed.shl_i64. pose proof (Z.div_mod x (2 ^ 32) ltac:(lia)) as E.
  pose proof (Z.mod_pos_bound x (2 ^ 32) ltac:(lia)).
  destruct (Z.ltb_spec (x / 2 ^ 32) 0), (Z.ltb_spec x 0); try lia; [done|].
  rewrite sshl_ok by lia. cbn [mbind res_bind]. rewrite lor_shift by (try apply unsigned_range; lia).
  unfold unsigned. f_equal. lia.
Qed.

Lemma packed_low_gnu x : - 2 ^ 47 <= x < 2 ^ 47 ->
  (h ← Packed.gnu_shl (x / 2 ^ 32) 32; Ok (Z.lor (u32 x) h)) = Ok x.
Proof.
  intros Hx. unfold Packed.gnu_shl. cbn [mbind res_bind]. pose proof (Z.div_mod x (2 ^ 32) ltac:(lia)) as E.
  pose proof (Z.mod_pos_bound x (2 ^ 32) ltac:(lia)).
  rewrite Z.shiftl_mul_pow2, signed_small, lor_shift by (try apply unsigned_range; lia). unfold unsigned. f_equal. lia.
Qed.

(** C40: the 48-bit packed representation reads back every pair of vertices in
    [-2^47, 2^47), negative ones where a negative number is shifted as its
    bits are (by ISO C alone the behaviour is undefined for exactly these), and
    its fields fit their 32-bit types; the unpacked one reads back every
    pair. *)
Theorem packed_edge_round_trip a b : - 2 ^ 47 <= a < 2 ^ 47 -> - 2 ^ 47 <= b < 2 ^ 47 ->
  let p := Packed.write_edge a b in
  Packed.get_v0_from_edge Packed.gnu_shl p = Ok a /\ Packed.get_v1_from_edge Packed.gnu_shl p = Ok b /\
  Packed.get_v0_from_edge Packed.iso_shl p = (if a <? 0 then Err Overflow else Ok a) /\
  Packed.get_v1_from_edge Packed.iso_shl p = (if b <? 0 then Err Overflow else Ok b) /\
  0 <= Packed.v0_low p < 2 ^ 32 /\ 0 <= Packed.v1_low p < 2 ^ 32 /\ 0 <= Packed.high p < 2 ^ 32 /\
  get_v0_from_edge (write_edge a b) = a /\ get_v1_from_edge (write_edge a b) = b.
Proof.
  intros Ha Hb. cbv zeta. unfold Packed.get_v0_from_edge, Packed.get_v1_from_edge, Packed.write_edge.
  simpl Packed.v0_low. simpl Packed.v1_low. simpl Packed.high.
  destruct (packed_high a b Ha Hb) as (Hh & -> & ->).
  rewrite !(packed_low _ a (u32 a)), !(packed_low _ b (u32 b)), packed_low_gnu, (packed_low_gnu b) by done.
  split_and!; try done; try apply unsigned_range; try lia; by case_match.
Qed.

Lemma packed_edge_round_trip_witness :
  Packed.get_v0_from_edge Packed.gnu_shl (Packed.write_edge (-5) 0x7FFFFFFFFFFF) = Ok (-5) /\
  Packed.get_v0_from_edge Packed.iso_shl (Packed.write_edge (-5) 0x7FFFFFFFFFFF) = Err Overflow.
Proof.
  destruct (packed_edge_round_trip (-5) 0x7FFFFFFFFFFF) as (H1 & _ & H2 & _); [lia | lia |].
  split; [exact H1 | exact H2].
Defined.

(** The seed of any pair of user seeds is five residues that are not all
    zero, and different pairs have different seeds. *)
Theorem make_mrg_seed_spreads u1 u2 w1 w2 :
  0 <= u1 < 2 ^ 64 -> 0 <= u2 < 2 ^ 64 -> 0 <= w1 < 2 ^ 64 -> 0 <= w2 < 2 ^ 64 ->
  (exists st, mrg_seed (make_mrg_seed u1 u2) = Ok st /\ good st) /\
  (make_mrg_seed u1 u2 = make_mrg_seed w1 w2 -> u1 = w1 /\ u2 = w2).
Proof.
  intros. split; [by apply make_mrg_seed_good | by apply make_mrg_seed_inj].
Qed.

Lemma make_mrg_seed_spreads_witness :
  exists st, mrg_seed (make_mrg_seed 0 (2 ^ 64 - 1)) = Ok st /\ good st.
Proof. apply (make_mrg_seed_spreads 0 (2 ^ 64 - 1) 0 0); lia. Defined.

(** ** Witnesses *)

Definition ones_state : mrg_state := mk_state 1 1 1 1 1.

Lemma ones_good : good ones_state.
Proof. split; [unfold wf_state; simpl; auto 10 with residue | discriminate]. Qed.

(** An allocator that always succeeds. *)
Definition zeroed (n : Z) : option (list packed_edge) :=
  Some (replicate (Z.to_nat (n / sizeof_packed_edge)) default_edge).

Lemma generate_4way_bernoulli_terminates_witness :
  good ones_state /\ exists k val, 1 <= k <= 10 /\
  generate_4way_bernoulli (ops := ops64) ones_state 0 5 =
      Ok (if val mod 10000 <? 1900 then 1 else if val mod 10000 <? 3800 then 2
          else if val mod 10000 <? 9500 then 0 else 3, steps k ones_state).
Proof.
  split; [exact ones_good|].
  destruct (generate_4way_bernoulli_terminates (ops := ops64) ones_state 0 5 ones_good)
    as (k & val & Hk & _ & _ & _ & _ & E).
  exists k, val. split; [exact Hk | exact E].
Defined.

Lemma generate_kronecker_range_total_witness : exists t val0 val1 out,
  dump_mrg_powers (ops := ops64) = Ok t /\
  scramble_values (ops := ops64) t ones_state = Ok (val0, val1) /\
  generate_kronecker_range (ops := ops64) t [1; 1; 1; 1; 1] 4 3 5 [default_edge; default_edge] = Ok out.
Proof.
  destruct (dump_mrg_powers_ok (ops := ops64)) as (t & Et & _).
  destruct (generate_kronecker_range_total (ops := ops64) t [1; 1; 1; 1; 1] ones_state 4 3 5
    [default_edge; default_edge] Et eq_refl ones_good) as (val0 & val1 & out & E1 & E2 & _);
    [lia | lia | lia | simpl; lia |].
  exists t, val0, val1, out. split; [exact Et | split; [exact E1 | exact E2]].
Defined.

Lemma zeroed_ok n : 0 <= n -> exists l, zeroed n = Some l /\ zlen l = n / sizeof_packed_edge.
Proof.
  intros. eexists; split; [done|]. rewrite length_replicate.
  assert (0 <= n / sizeof_packed_edge) by (apply Z.div_pos; done). lia.
Qed.

Lemma mpi_graph_is_sequential_graph_witness : exists t part,
  dump_mrg_powers (ops := ops64) = Ok t /\
  make_graph (ops := ops64) t zeroed 4 10 1 2 = Ok (10, concat (map part (seqZ 0 3))).
Proof.
  destruct (dump_mrg_powers_ok (ops := ops64)) as (t & Et & _).
  destruct (mpi_graph_is_sequential_graph (ops := ops64) t zeroed 4 10 1 2 3 Et zeroed_ok)
    as (part & _ & E); [lia..|].
  exists t, part. split; [exact Et | exact E].
Defined.
