(* ===== verification/Bfs.v ===== *)
(** * Breadth-first search trees

    What the search kernels of Graph500 promise to [verify_bfs_tree] and to
    the benchmark: a tree of the vertices that the root reaches, one hop per
    level.  No code is modelled here; the kernels ([SeqCsr.v], [SeqList.v])
    and the verifier ([Verify.v]) are related to this specification. *)

From S2P Require Import Prelude.

Section Spec.
Context (adj : Z -> Z -> Prop) (nv root : Z) (tree : Z -> Z) (level : Z -> Z).

Definition in_tree (v : Z) : Prop := 0 <= v < nv /\ 0 <= tree v.

(** The parent array [tree] with the levels [level]: the root is its own
    parent; any other vertex of the tree hangs by an edge of the graph one
    level below its parent; an edge with an end in the tree lies in the tree
    and joins levels that differ by at most 1. *)
Record bfs_tree_ok : Prop := {
  ok_root : 0 <= root < nv /\ tree root = root;
  ok_level_root : level root = 0;
  ok_level : forall v, in_tree v -> 0 <= level v;
  ok_parent : forall v, in_tree v -> v <> root ->
    in_tree (tree v) /\ adj v (tree v) /\ level v = level (tree v) + 1;
  ok_edge : forall u v, adj u v -> in_tree u -> in_tree v /\ Z.abs (level u - level v) <= 1
}.

(** A walk of [n] edges. *)
Inductive walk : Z -> Z -> Z -> Prop :=
| walk_refl u : walk u 0 u
| walk_step u n v w : walk u n v -> adj v w -> walk u (n + 1) w.

(** [n] is the length of a shortest walk from the root to [v]. *)
Definition distance (v n : Z) : Prop :=
  walk root n v /\ forall m, walk root m v -> n <= m.

Lemma walk_nonneg u n v : walk u n v -> 0 <= n.
Proof. induction 1; lia. Qed.

Hypothesis Hsym : forall u v, adj u v -> adj v u.
Hypothesis Hok : bfs_tree_ok.

Lemma in_tree_root : in_tree root.
Proof. destruct (ok_root Hok) as [H E]. split; [done|]. rewrite E. lia. Qed.

(** The path to the root has as many edges as the level says. *)
Lemma tree_walk v : in_tree v -> walk root (level v) v.
Proof.
  intros Hv. remember (Z.to_nat (level v)) as n eqn:En. revert v Hv En.
  induction n as [|n IH]; intros v Hv En; destruct (decide (v = root)) as [->|Hne];
    try (rewrite (ok_level_root Hok); constructor);
    destruct (ok_parent Hok v Hv Hne) as (Hp & Ha & El);
    pose proof (ok_level Hok _ Hp); pose proof (ok_level Hok _ Hv); [lia|].
  rewrite El. apply walk_step with (tree v); [apply IH; [done | lia] | by apply Hsym].
Qed.

Lemma walk_in_tree n v : walk root n v -> in_tree v /\ level v <= n.
Proof.
  intros Hw. remember root as r eqn:Er. induction Hw as [u | u n v w Hw IH Ha]; subst.
  - split; [apply in_tree_root | rewrite (ok_level_root Hok); lia].
  - destruct (IH eq_refl) as [Hv Hl]. destruct (ok_edge Hok v w Ha Hv) as [Hin Hd].
    split; [done | lia].
Qed.

(** The tree spans what the root reaches, and levels are distances. *)
Lemma bfs_levels_are_distances v : in_tree v <-> exists n, walk root n v.
Proof.
  split; [intros; eauto using tree_walk | intros [n Hw]; by apply (walk_in_tree n)].
Qed.

Lemma level_is_distance v : in_tree v -> distance v (level v).
Proof.
  intros Hv. split; [by apply tree_walk|]. intros m Hm. by destruct (walk_in_tree m v Hm).
Qed.

(** Below a vertex of level [l] hang at least [l] others, so levels are less
    than the number of vertices. *)
Fixpoint up (n : nat) (v : Z) : Z :=
  match n with O => v | S n => tree (up n v) end.

Lemma up_level n v : in_tree v -> Z.of_nat n <= level v ->
  in_tree (up n v) /\ level (up n v) = level v - Z.of_nat n.
Proof.
  intros Hv. induction n as [|n IH]; intros Hn; simpl; [split; [done | lia]|].
  destruct IH as [Hu El]; [lia|].
  assert (up n v <> root) by (intros E; rewrite E, (ok_level_root Hok) in El; lia).
  destruct (ok_parent Hok (up n v)) as (? & _ & ?); [done..|]. split; [done | lia].
Qed.

Lemma up_root v : in_tree v -> up (Z.to_nat (level v)) v = root.
Proof.
  intros Hv. pose proof (ok_level Hok v Hv).
  destruct (up_level (Z.to_nat (level v)) v Hv) as [Hu El]; [lia|].
  destruct (decide (up (Z.to_nat (level v)) v = root)) as [|Hne]; [done|].
  destruct (ok_parent Hok _ Hu Hne) as (Hp & _ & ?). pose proof (ok_level Hok _ Hp). lia.
Qed.

Lemma level_bound v : in_tree v -> level v < nv.
Proof.
  intros Hv. pose proof (ok_level Hok v Hv) as Hl.
  set (l := map (fun n => up n v) (seq 0 (S (Z.to_nat (level v))))).
  assert (Hnd : NoDup l).
  { apply (NoDup_fmap_1 level). unfold l. rewrite <- list_fmap_compose.
    apply NoDup_fmap_2_strong; [|apply NoDup_seq].
    intros i j Hi%elem_of_seq Hj%elem_of_seq E. simpl in E.
    destruct (up_level i v Hv) as [_ Ei]; [lia|].
    destruct (up_level j v Hv) as [_ Ej]; [lia|]. lia. }
  assert (Hsub : l ⊆ seqZ 0 nv).
  { intros x (n & -> & Hn%elem_of_seq)%list_elem_of_fmap.
    destruct (up_level n v Hv) as [[Hr _] _]; [lia|]. apply elem_of_seqZ. lia. }
  pose proof (submseteq_length _ _ (NoDup_submseteq _ _ Hnd Hsub)) as Hlen.
  unfold l in Hlen. rewrite length_map, length_seq, length_seqZ in Hlen. lia.
Qed.

(** What the tree says about a vertex, when unreached ones have the entry -1. *)
Lemma bfs_tree_reach v : 0 <= v < nv -> -1 <= tree v ->
  (tree v = -1 /\ (forall n, ~ walk root n v)) \/
  (0 <= tree v /\ exists n : nat, distance v (Z.of_nat n) /\ up n v = root).
Proof.
  intros Hv Ht. pose proof (bfs_levels_are_distances v) as Hd. unfold in_tree in Hd.
  destruct (Z.leb_spec 0 (tree v)) as [H0|H0]; [right | left].
  - split; [done|]. assert (Hin : in_tree v) by done. exists (Z.to_nat (level v)).
    rewrite Z2Nat.id by by apply (ok_level Hok). split; [by apply level_is_distance | by apply up_root].
  - split; [lia|]. intros n Hw. assert (0 <= tree v); [|lia]. apply Hd. eauto.
Qed.
End Spec.

(** * Search with a queue

    The state of a search: the parent array and the queue of the vertices
    found so far.  The kernels differ in how they enumerate the neighbours of
    a vertex and in how they group the queue into levels, not in the order of
    their visits; both keep [search_inv] and so end with a search tree. *)

Section Search.
Context (adj : Z -> Z -> Prop) (nv root : Z) (nbrs : Z -> list Z).

(** Vertex [j] is met among the neighbours of [v]. *)
Definition visit (v j : Z) (s : list Z * list Z) : list Z * list Z :=
  let '(tree, queue) := s in
  if zth 0 tree j =? -1 then (<[Z.to_nat j := v]> tree, queue ++ [j]) else s.

(** The first [k] vertices of the queue are finished; [seen] are the neighbours
    of the next one that have been visited; [level] is a ghost. *)
Record search_inv (k : nat) (seen : list Z) (tree queue : list Z) (level : Z -> Z) : Prop := {
  si_nodup : NoDup queue;
  si_range : forall v, v ∈ queue -> 0 <= v < nv;
  si_length : nv <= zlen tree;
  si_tree : forall v, 0 <= v < nv -> zth 0 tree v <> -1 <-> v ∈ queue;
  si_nonneg : forall v, v ∈ queue -> 0 <= zth 0 tree v < nv;
  si_root : queue !! 0%nat = Some root /\ zth 0 tree root = root /\ level root = 0;
  si_level : forall v, v ∈ queue -> 0 <= level v;
  si_parent : forall v, v ∈ queue -> v <> root ->
    zth 0 tree v ∈ queue /\ adj v (zth 0 tree v) /\ level v = level (zth 0 tree v) + 1;
  si_mono : forall i j x y, (i < j)%nat -> queue !! i = Some x -> queue !! j = Some y ->
    level x <= level y;
  si_near : forall v y, queue !! k = Some v -> y ∈ queue -> level y <= level v + 1;
  si_closed : forall i u j, (i < k)%nat -> queue !! i = Some u -> j ∈ nbrs u ->
    j ∈ queue /\ level j <= level u + 1;
  si_seen : forall v j, queue !! k = Some v -> j ∈ seen -> j ∈ queue /\ level j <= level v + 1 }.

(** The neighbours are those of the graph. *)
Hypothesis Hadj : forall u v, 0 <= u < nv -> v ∈ nbrs u <-> adj u v.
Hypothesis Hrange : forall u v, adj u v -> 0 <= v < nv.
Hypothesis Hsym : forall u v, adj u v -> adj v u.
Hypothesis Hroot : 0 <= root < nv.

Lemma search_start tree : nv <= zlen tree ->
  (forall v, 0 <= v < nv -> zth 0 tree v = if v =? root then root else -1) ->
  search_inv 0 [] tree [root] (fun _ => 0).
Proof.
  intros Hlen Ht. assert (Hr : zth 0 tree root = root) by (rewrite Ht, Z.eqb_refl; done).
  constructor.
  - apply NoDup_singleton.
  - intros v ->%list_elem_of_singleton. done.
  - done.
  - intros v Hv. rewrite Ht, list_elem_of_singleton by done. destruct (Z.eqb_spec v root); lia.
  - intros v ->%list_elem_of_singleton. rewrite Hr. done.
  - done.
  - intros. lia.
  - intros v ->%list_elem_of_singleton. done.
  - intros i j x y Hij Hx Hy. apply lookup_lt_Some in Hy. simpl in Hy. lia.
  - intros. lia.
  - intros. lia.
  - intros v j _ Hj. by apply elem_of_nil in Hj.
Qed.

(** There is room in a queue of [nv] elements for a vertex not in it. *)
Lemma search_room k seen tree queue level j : search_inv k seen tree queue level ->
  0 <= j < nv -> zth 0 tree j = -1 -> zlen queue < nv.
Proof.
  intros Hi Hj Ht.
  assert (Hnot : j ∉ queue) by (rewrite <- (si_tree _ _ _ _ _ Hi) by done; lia).
  assert (Hnd : NoDup (j :: queue)) by (apply NoDup_cons_2; [done | apply Hi]).
  assert (Hsub : j :: queue ⊆ seqZ 0 nv).
  { intros x [->|Hx]%elem_of_cons; apply elem_of_seqZ; [lia|].
    pose proof (si_range _ _ _ _ _ Hi x Hx). lia. }
  pose proof (submseteq_length _ _ (NoDup_submseteq _ _ Hnd Hsub)) as Hlen.
  rewrite length_seqZ in Hlen. simpl in Hlen. lia.
Qed.

Lemma search_visit k seen tree queue level v j :
  search_inv k seen tree queue level -> queue !! k = Some v -> j ∈ nbrs v ->
  exists level', search_inv k (seen ++ [j]) (visit v j (tree, queue)).1 (visit v j (tree, queue)).2 level'.
Proof.
  intros Hi Hv Hj. pose proof (list_elem_of_lookup_2 _ _ _ Hv) as Hvq.
  pose proof (si_range _ _ _ _ _ Hi v Hvq) as Hvr.
  assert (Ha : adj v j) by (by apply Hadj). pose proof (Hrange v j Ha) as Hjr.
  pose proof (si_length _ _ _ _ _ Hi) as Hlen.
  unfold visit. destruct (Z.eqb_spec (zth 0 tree j) (-1)) as [E|E]; cbn [fst snd].
  2: { assert (Hjq : j ∈ queue) by (by apply (si_tree _ _ _ _ _ Hi)).
       exists level. destruct Hi. constructor; try done.
       intros v' j' Hv' [Hj'|Hj']%elem_of_app; [by apply (si_seen0 v' j')|].
       apply list_elem_of_singleton in Hj' as ->. split; [done|].
       assert (v' = v) as -> by congruence. by apply (si_near0 v). }
  assert (Hnot : j ∉ queue) by (rewrite <- (si_tree _ _ _ _ _ Hi) by done; lia).
  set (lv := fun x => if x =? j then level v + 1 else level x).
  assert (Hlv : forall x, x ∈ queue -> lv x = level x).
  { intros x Hx. unfold lv. destruct (Z.eqb_spec x j) as [->|]; done. }
  assert (Hlj : lv j = level v + 1) by (unfold lv; by rewrite Z.eqb_refl).
  assert (Ht : forall x, 0 <= x -> zth 0 (<[Z.to_nat j:=v]> tree) x = if x =? j then v else zth 0 tree x)
    by (intros; apply zth_insert; lia).
  assert (Hne : forall x, x ∈ queue -> (x =? j) = false)
    by (intros x Hx; apply Z.eqb_neq; intros ->; done).
  assert (Hlk : forall i x, (queue ++ [j]) !! i = Some x ->
    queue !! i = Some x \/ (i = length queue /\ x = j)).
  { intros i x [?|[Hlt Hx]]%lookup_app_Some; [by left|].
    apply list_lookup_singleton_Some in Hx as [? ->]. right. split; [lia | done]. }
  assert (Hk : (queue ++ [j]) !! k = Some v) by (by apply lookup_app_l_Some).
  assert (Hrootq : root ∈ queue) by (apply (list_elem_of_lookup_2 _ 0); apply Hi).
  exists lv. destruct Hi as [Hnd Hr _ Htr Hnn (Hr0 & Hrt & Hrl) Hl0 Hpar Hmono Hnear Hclosed Hseen].
  constructor.
  - apply list.NoDup_app. split; [done|]. split; [|apply NoDup_singleton].
    intros x Hx ->%list_elem_of_singleton. done.
  - intros x [Hx|Hx]%elem_of_app; [by apply Hr | apply list_elem_of_singleton in Hx as ->; done].
  - by rewrite length_insert.
  - intros x Hx. rewrite Ht, elem_of_app, list_elem_of_singleton by lia.
    destruct (Z.eqb_spec x j) as [->|Hxj]; [split; [auto | lia]|].
    rewrite Htr by done. tauto.
  - intros x [Hx|Hx]%elem_of_app.
    + pose proof (Hr x Hx). rewrite Ht, Hne by (done || lia). by apply Hnn.
    + apply list_elem_of_singleton in Hx as ->. rewrite Ht, Z.eqb_refl by lia. done.
  - split_and!; [by apply lookup_app_l_Some | | by rewrite Hlv].
    rewrite Ht, Hne by (done || lia). done.
  - intros x [Hx|Hx]%elem_of_app; [rewrite Hlv by done; by apply Hl0|].
    apply list_elem_of_singleton in Hx as ->. rewrite Hlj. pose proof (Hl0 v Hvq). lia.
  - intros x [Hx|Hx]%elem_of_app Hxr.
    + pose proof (Hr x Hx). rewrite Ht, Hne by (done || lia).
      destruct (Hpar x Hx Hxr) as (Hp & Hpa & Hpl).
      split_and!; [apply elem_of_app; by left | done | by rewrite !Hlv].
    + apply list_elem_of_singleton in Hx as ->. rewrite Ht, Z.eqb_refl by lia.
      split_and!; [apply elem_of_app; by left | by apply Hsym | by rewrite Hlj, Hlv].
  - intros a b x y Hab Hx Hy. destruct (Hlk _ _ Hx) as [Hx'|[-> ->]], (Hlk _ _ Hy) as [Hy'|[-> ->]].
    + rewrite !Hlv by (by eapply list_elem_of_lookup_2). by apply (Hmono a b).
    + rewrite Hlj, Hlv by (by eapply list_elem_of_lookup_2).
      apply (Hnear v); [done | by eapply list_elem_of_lookup_2].
    + apply lookup_lt_Some in Hy'. lia.
    + lia.
  - intros v' y Hv' Hy. assert (v' = v) as -> by congruence. rewrite (Hlv v) by done.
    apply elem_of_app in Hy as [Hy|Hy]; [rewrite Hlv by done; by apply (Hnear v)|].
    apply list_elem_of_singleton in Hy as ->. lia.
  - intros i u y Hik Hu Hy. destruct (Hlk _ _ Hu) as [Hu'|[-> ->]].
    + destruct (Hclosed i u y Hik Hu' Hy) as [Hyq Hyl].
      split; [apply elem_of_app; by left|].
      rewrite !Hlv by (done || by eapply list_elem_of_lookup_2). done.
    + apply lookup_lt_Some in Hv. lia.
  - intros v' y Hv' Hy. assert (v' = v) as -> by congruence. rewrite (Hlv v) by done.
    apply elem_of_app in Hy as [Hy|Hy].
    + destruct (Hseen v y Hv Hy) as [Hyq Hyl]. split; [apply elem_of_app; by left|].
      by rewrite Hlv.
    + apply list_elem_of_singleton in Hy as ->. split; [apply elem_of_app; right; by left | lia].
Qed.

(** The next vertex of the queue is finished. *)
Lemma search_next k seen tree queue level v :
  search_inv k seen tree queue level -> queue !! k = Some v ->
  (forall j, j ∈ nbrs v -> j ∈ seen) -> search_inv (S k) [] tree queue level.
Proof.
  intros [Hnd Hr Hlen Htr Hnn Hr0 Hl0 Hpar Hmono Hnear Hclosed Hseen] Hv Hall.
  constructor; try done.
  - intros v' y Hv' Hy. pose proof (Hnear v y Hv Hy).
    pose proof (Hmono k (S k) v v' ltac:(lia) Hv Hv'). lia.
  - intros i u j Hi Hu Hj. destruct (decide (i = k)) as [->|].
    + assert (u = v) as -> by congruence. apply (Hseen v); auto.
    + apply (Hclosed i u j); [lia | done | done].
  - intros v' j _ Hj. by apply elem_of_nil in Hj.
Qed.

(** When the queue is exhausted the parents form a search tree. *)
Lemma search_done seen tree queue level :
  search_inv (length queue) seen tree queue level ->
  bfs_tree_ok adj nv root (zth 0 tree) level /\
  (forall v, 0 <= v < nv -> -1 <= zth 0 tree v < nv) /\
  (forall v, 0 <= v < nv -> v <> root -> zth 0 tree v <> v).
Proof.
  intros [Hnd Hr Hlen Htr Hnn (Hr0 & Hrt & Hrl) Hl0 Hpar Hmono _ Hclosed _].
  assert (Hin : forall v, in_tree nv (zth 0 tree) v <-> v ∈ queue).
  { intros v. unfold in_tree. split.
    - intros [Hv Hp]. apply Htr; [done | lia].
    - intros Hv. split; [by apply Hr | by apply Hnn]. }
  assert (Hcl : forall u v, adj u v -> u ∈ queue -> v ∈ queue /\ level v <= level u + 1).
  { intros u v Ha Hu. apply list_elem_of_lookup in Hu as [i Hi].
    apply (Hclosed i u v); [by eapply lookup_lt_Some | done |].
    apply Hadj; [|done]. apply Hr. by eapply list_elem_of_lookup_2. }
  split_and!.
  - constructor.
    + done.
    + done.
    + intros v Hv%Hin. by apply Hl0.
    + intros v Hv%Hin Hne. rewrite Hin. by apply Hpar.
    + intros u v Ha Hu%Hin. rewrite Hin. destruct (Hcl u v Ha Hu) as [Hv Hl].
      split; [done|]. destruct (Hcl v u (Hsym _ _ Ha) Hv). lia.
  - intros v Hv. destruct (decide (zth 0 tree v = -1)) as [->|Hne]; [lia|].
    apply Htr in Hne; [|done]. pose proof (Hnn v Hne). lia.
  - intros v Hv Hne E. assert (Hq : v ∈ queue) by (apply Htr; [done | lia]).
    destruct (Hpar v Hq Hne) as (_ & _ & El). rewrite E in El. lia.
Qed.
(** The array [vlist] holds the queue in its first [k2] elements. *)
Definition holds (vlist : list Z) (k2 : Z) (queue : list Z) : Prop :=
  zlen vlist = nv /\ k2 = zlen queue /\ take (length queue) vlist = queue.

Lemma holds_get vlist k2 queue k : holds vlist k2 queue -> 0 <= k < k2 ->
  exists v, vlist.[k] = Ok v /\ queue !! Z.to_nat k = Some v.
Proof.
  intros (Hlen & -> & Ht) Hk.
  destruct (lookup_lt_is_Some_2 queue (Z.to_nat k)) as [v Hv]; [lia|]. exists v. split; [|done].
  unfold aget. destruct (Z.leb_spec 0 k); [|lia].
  rewrite <- Ht, lookup_take_lt in Hv by lia. by rewrite Hv.
Qed.

Lemma holds_push vlist k2 queue j : holds vlist k2 queue -> zlen queue < nv ->
  exists vlist', vlist.[k2 <- j] = Ok vlist' /\ holds vlist' (k2 + 1) (queue ++ [j]).
Proof.
  intros (Hlen & -> & Ht) Hlt. rewrite aset_ok by lia. eexists; split; [done|]. unfold holds.
  rewrite length_insert, length_app, Nat2Z.id. simpl. split_and!; [done | lia |].
  rewrite Nat.add_1_r. rewrite (take_S_r _ _ j) by (apply list_lookup_insert_eq; lia).
  rewrite take_insert_ge by lia. by rewrite Ht.
Qed.

Lemma holds_bound vlist k2 k seen tree queue level :
  holds vlist k2 queue -> search_inv k seen tree queue level -> 1 <= k2 <= nv.
Proof.
  intros (_ & -> & _) Hi.
  pose proof (submseteq_length _ _ (NoDup_submseteq queue (seqZ 0 nv) (si_nodup _ _ _ _ _ Hi)
    ltac:(intros x Hx; apply elem_of_seqZ; pose proof (si_range _ _ _ _ _ Hi x Hx); lia))) as Hlen.
  rewrite length_seqZ in Hlen.
  destruct (si_root _ _ _ _ _ Hi) as [Hr _]. apply lookup_lt_Some in Hr. lia.
Qed.

End Search.
