(* ===== verification/Verify.v ===== *)
(** * The verifier of search trees

    [verify.c]: [compute_levels] climbs from every vertex to one whose level
    is known and assigns the levels on the way; [verify_bfs_tree] then checks
    every edge of the input and counts the ones in the tree.  The functions
    are compiled without OpenMP and with assertions. *)

From S2P Require Import Prelude Bfs.

(** ** compute_levels *)

(** The climb: [parent] and the number of hops. *)
Definition climb (nv : Z) (level bfs_tree : list Z) (k : Z) : res (Z * Z) :=
  while (S (Z.to_nat nv))
    (fun '(parent, nhop) =>
       if 0 <=? parent then l ← level.[parent]; Ok ((l <? 0) && (nhop <? nv))%bool else Ok false)
    (fun '(parent, nhop) =>
       b ← bfs_tree.[parent]; c_assert (negb (parent =? b));; Ok (b, nhop + 1))
    (k, 0).

(** The second climb, which assigns [nhop], [nhop - 1], ... *)
Definition assign_levels (nv : Z) (bfs_tree level : list Z) (k nhop : Z) : res (list Z * Z * Z) :=
  while (S (Z.to_nat nv))
    (fun '(level, parent, nhop) => l ← level.[parent]; Ok (l <? 0))
    (fun '(level, parent, nhop) =>
       c_assert (0 <? nhop);;
       level ← level.[parent <- nhop];
       parent ← bfs_tree.[parent];
       Ok (level, parent, nhop - 1))
    (level, k, nhop).

(** The internal check, compiled unless NDEBUG; the levels it visits
    decrease, so [lastlvl] turns are enough. *)
Definition check_levels (bfs_tree level : list Z) (k : Z) : res unit :=
  l ← level.[k];
  let lastlvl := l + 1 in
  while (S (Z.to_nat lastlvl))
    (fun '(parent, lastlvl, nhop) => l ← level.[parent]; Ok (0 <? l))
    (fun '(parent, lastlvl, nhop) =>
       l ← level.[parent];
       c_assert (lastlvl =? 1 + l);;
       let lastlvl := l in
       parent ← bfs_tree.[parent];
       Ok (parent, lastlvl, nhop + 1))
    (k, lastlvl, 0);;
  Ok tt.

(** One turn of the main loop; the state is [err] and the level array. *)
Definition level_turn (nv root : Z) (bfs_tree : list Z) (k : Z) : Z * list Z -> res (Z * list Z) :=
  fun '(err, level) =>
    l ← level.[k];
    if 0 <=? l then Ok (err, level) else
    let terr := err in
    b ← bfs_tree.[k];
    if (terr =? 0) && (0 <=? b) && negb (k =? root) then
      '(parent, nhop) ← climb nv level bfs_tree k;
      let terr := if nv <=? nhop then -1 else terr in
      let terr := if parent <? 0 then -2 else terr in
      if terr =? 0 then
        l ← level.[parent];
        let nhop := nhop + l in
        '(level, parent, nhop) ← assign_levels nv bfs_tree level k nhop;
        l ← level.[parent];
        c_assert (nhop =? l);;
        check_levels bfs_tree level k;;
        Ok (err, level)
      else Ok (terr, level)
    else Ok (err, level).

Definition compute_levels (level : list Z) (nv : Z) (bfs_tree : list Z) (root : Z)
    : res (Z * list Z) :=
  level ← for_range 0 nv (fun k level => level.[k <- if k =? root then 0 else -1]) level;
  for_range 0 nv (level_turn nv root bfs_tree) (0, level).

(** ** verify_bfs_tree *)

Record vstate := mk_vstate {
  err : Z; terr : Z; nedge_traversed : Z; seen_edge : list Z }.

(** One turn of the loop over the edges. *)
Definition edge_turn (bfs_tree level : list Z) (max_bfsvtx : Z) (IJ : list Z) (k : Z)
    (s : vstate) : res vstate :=
  i ← IJ.[k];
  j ← IJ.[k + 1];
  let terr := err s in
  if (i <? 0) || (j <? 0) then Ok (mk_vstate (err s) terr (nedge_traversed s) (seen_edge s)) else
  let terr := if (max_bfsvtx <? i) && (j <=? max_bfsvtx) then -10 else terr in
  let terr := if (max_bfsvtx <? j) && (i <=? max_bfsvtx) then -11 else terr in
  let err1 := if negb (terr =? 0) then terr else err s in
  if negb (terr =? 0) || (max_bfsvtx <? i)
  then Ok (mk_vstate err1 terr (nedge_traversed s) (seen_edge s)) else
  ti ← bfs_tree.[i];
  tj ← bfs_tree.[j];
  let terr := if (0 <=? ti) && (tj <? 0) then -12 else terr in
  let terr := if (0 <=? tj) && (ti <? 0) then -13 else terr in
  let err2 := if negb (terr =? 0) then terr else err1 in
  if negb (terr =? 0) || (ti <? 0)
  then Ok (mk_vstate err2 terr (nedge_traversed s) (seen_edge s)) else
  nedge_traversed ← chk 32 (nedge_traversed s + 1);
  seen_edge ← (if negb (i =? j) then
                 seen_edge ← (if ti =? j then (seen_edge s).[i <- 1] else Ok (seen_edge s));
                 if tj =? i then seen_edge.[j <- 1] else Ok seen_edge
               else Ok (seen_edge s));
  li ← level.[i];
  lj ← level.[j];
  let lvldiff := li - lj in
  let terr := if (1 <? lvldiff) || (lvldiff <? -1) then -14 else terr in
  let err3 := if negb (terr =? 0) then terr else err2 in
  Ok (mk_vstate err3 terr nedge_traversed seen_edge).

(** One turn of the last loop, over the vertices. *)
Definition vertex_turn (bfs_tree : list Z) (root k : Z) (s : vstate) : res vstate :=
  let terr := err s in
  if (terr =? 0) && negb (k =? root) then
    t ← bfs_tree.[k];
    seen ← (seen_edge s).[k];
    let terr := if (0 <=? t) && (seen =? 0) then -15 else terr in
    let terr := if t =? k then -16 else terr in
    Ok (mk_vstate (if negb (terr =? 0) then terr else err s) terr (nedge_traversed s) (seen_edge s))
  else Ok (mk_vstate (err s) terr (nedge_traversed s) (seen_edge s)).

(** One block holds [seen_edge] and [level].  Its size does not wrap around:
    the array [bfs_tree] has [nv] entries of eight bytes in an object of less
    than 2^63 bytes, so twice as many bytes are less than 2^64.

    [load] is the count that [load_nedge] reads from a checkpoint file (-1
    without one), [save] whether [save_nedge] can write one (it exits
    otherwise). *)
Definition verify_bfs_tree (verify : bool) (load : Z) (save : bool) (malloc : alloc64)
    (bfs_tree : list Z) (max_bfsvtx root : Z) (IJ : list Z) (nedge : Z) : res Z :=
  let nv := max_bfsvtx + 1 in
  if negb verify && negb (i32 load =? -1) then Ok (i32 load) else
  t ← (if max_bfsvtx <? root then Ok (-1) else bfs_tree.[root]);
  if (max_bfsvtx <? root) || negb (t =? root) then Ok (-999) else
  block ← xmalloc_large malloc (2 * nv * 8);
  let seen0 := take (Z.to_nat nv) block in
  let level0 := drop (Z.to_nat nv) block in
  '(err0, level) ← compute_levels level0 nv bfs_tree root;
  if negb (err0 =? 0) then Ok err0 else
  seen ← for_range 0 nv (fun k seen => seen.[k <- 0]) seen0;
  s ← for_range 0 nedge (fun h s => edge_turn bfs_tree level max_bfsvtx IJ (2 * h) s)
        (mk_vstate err0 0 0 seen);
  s ← (if terr s =? 0 then for_range 0 nv (vertex_turn bfs_tree root) s else Ok s);
  if negb (err s =? 0) then Ok (err s)
  else if save then Ok (nedge_traversed s) else Err Aborted.

(** ** The levels *)

Section Levels.
Context (nv root : Z) (bfs_tree : list Z).

(** What the verifier needs not to leave its arrays or stop at an assertion:
    parents below [nv], and no vertex but the root its own parent. *)
Record in_bounds : Prop := {
  ib_length : nv <= zlen bfs_tree;
  ib_root : 0 <= root < nv /\ zth 0 bfs_tree root = root;
  ib_parent : forall v, 0 <= v < nv -> zth 0 bfs_tree v < nv;
  ib_self : forall v, 0 <= v < nv -> v <> root -> zth 0 bfs_tree v <> v }.

Abbreviation parent_of := (zth 0 bfs_tree).
Abbreviation ancestor := (up parent_of).

(** The levels assigned so far. *)
Record levels_ok (level : list Z) : Prop := {
  lv_length : zlen level = nv;
  lv_value : forall v, 0 <= v < nv -> zth 0 level v = -1 \/ 0 <= zth 0 level v;
  lv_root : zth 0 level root = 0;
  lv_parent : forall v, 0 <= v < nv -> v <> root -> 0 <= zth 0 level v ->
    0 <= parent_of v /\ 0 <= zth 0 level (parent_of v) /\
    zth 0 level v = zth 0 level (parent_of v) + 1 }.

(** [n] hops up from [k] through vertices without a level. *)
Definition unleveled (level : list Z) (k : Z) (n : nat) : Prop :=
  forall i, (i < n)%nat -> 0 <= ancestor i k < nv /\ zth 0 level (ancestor i k) < 0.

Hypothesis Hib : in_bounds.

Lemma climb_ok level k : levels_ok level -> 0 <= k < nv ->
  exists n, climb nv level bfs_tree k = Ok (ancestor n k, Z.of_nat n) /\
    Z.of_nat n <= nv /\ unleveled level k n /\
    (ancestor n k < 0 \/ (0 <= ancestor n k < nv /\ (0 <= zth 0 level (ancestor n k) \/ Z.of_nat n = nv))).
Proof.
  intros Hl Hk. unfold climb.
  match goal with |- context [while ?f ?c ?b ?s0] =>
    destruct (while_ghost (fun g '(parent, nhop) => exists n, g = (Z.to_nat nv - n)%nat /\
        Z.of_nat n <= nv /\ parent = ancestor n k /\ nhop = Z.of_nat n /\ parent < nv /\
        unleveled level k n) c b) with (fuel := f) (n := Z.to_nat nv) (s := s0)
      as (g & [p h] & -> & (n & _ & Hn & -> & -> & Hlt & Hun) & Hc) end.
  - intros g [p h] (n & -> & Hn & -> & -> & Hlt & Hun).
    destruct (Z.leb_spec 0 (ancestor n k)) as [H0|]; [|by left].
    rewrite (aget_ok 0) by (rewrite (lv_length _ Hl); lia). cbn [mbind res_bind].
    destruct (Z.ltb_spec (zth 0 level (ancestor n k)) 0), (Z.ltb_spec (Z.of_nat n) nv);
      [right | by left | by left | by left].
    split; [done|]. pose proof (ib_length Hib).
    rewrite (aget_ok 0) by lia. cbn [mbind res_bind].
    assert (Hne : ancestor n k <> root) by (intros E; rewrite E, (lv_root _ Hl) in *; lia).
    pose proof (ib_self Hib (ancestor n k) ltac:(lia) Hne).
    rewrite c_assert_true by (rewrite negb_true_iff; lia). cbn [mbind res_bind].
    eexists _, _. split; [done|]. split; [exists (S n); split_and!; try reflexivity; try lia|lia].
    + apply (ib_parent Hib). lia.
    + intros i Hi. destruct (decide (i = n)) as [->|]; [split; lia | apply Hun; lia].
  - lia.
  - exists 0%nat. split_and!; try reflexivity; try lia. intros i Hi. lia.
  - exists n. split; [done|]. split; [done|]. split; [done|].
    destruct (Z.leb_spec 0 (ancestor n k)) as [H0|]; [right | left; lia].
    split; [lia|]. rewrite (aget_ok 0) in Hc by (rewrite (lv_length _ Hl); lia).
    cbn [mbind res_bind] in Hc. injection Hc as Hc. lia.
Qed.

(** A climb that ends at a level passes no vertex twice. *)
Lemma ancestor_shift i j k : ancestor (i + j) k = ancestor i (ancestor j k).
Proof. induction i; simpl; congruence. Qed.

Lemma climb_distinct level k n : unleveled level k n -> 0 <= zth 0 level (ancestor n k) ->
  forall i j, (i < j)%nat -> (j <= n)%nat -> ancestor i k <> ancestor j k.
Proof.
  intros Hun Hn i j Hij Hj E.
  destruct (Hun (n - j + i)%nat) as [_ Hlt]; [lia|].
  rewrite ancestor_shift, E, <- ancestor_shift in Hlt.
  replace (n - j + j)%nat with n in Hlt by lia. lia.
Qed.

Lemma assign_ok level k n l : levels_ok level -> unleveled level k n -> Z.of_nat n <= nv ->
  0 <= ancestor n k < nv -> l = zth 0 level (ancestor n k) -> 0 <= l ->
  exists level', assign_levels nv bfs_tree level k (Z.of_nat n + l) = Ok (level', ancestor n k, l) /\
    zlen level' = nv /\
    (forall i, (i < n)%nat -> zth 0 level' (ancestor i k) = Z.of_nat n + l - Z.of_nat i) /\
    (forall v, 0 <= v -> (forall i, (i < n)%nat -> v <> ancestor i k) -> zth 0 level' v = zth 0 level v).
Proof.
  intros Hl Hun Hn Hp -> Hl0. set (l := zth 0 level (ancestor n k)).
  pose proof (climb_distinct level k n Hun Hl0) as Hdis.
  unfold assign_levels.
  match goal with |- context [while ?f ?c ?b ?s0] =>
    destruct (while_ghost (fun g '(lev, parent, nhop) => exists i, g = (n - i)%nat /\ (i <= n)%nat /\
        parent = ancestor i k /\ nhop = Z.of_nat n + l - Z.of_nat i /\ zlen lev = nv /\
        (forall j, (j < i)%nat -> zth 0 lev (ancestor j k) = Z.of_nat n + l - Z.of_nat j) /\
        (forall v, 0 <= v -> (forall j, (j < i)%nat -> v <> ancestor j k) -> zth 0 lev v = zth 0 level v))
      c b) with (fuel := f) (n := n) (s := s0)
      as (g & [[lev p] h] & -> & (i & _ & Hi & -> & -> & Hlen & Hset & Hrest) & Hc) end.
  - intros g [[lev p] h] (i & -> & Hi & -> & -> & Hlen & Hset & Hrest).
    assert (Hsame : 0 <= ancestor i k < nv /\ zth 0 lev (ancestor i k) = zth 0 level (ancestor i k)).
    { assert (0 <= ancestor i k < nv)
        by (destruct (decide (i = n)) as [->|]; [done | apply Hun; lia]).
      split; [done|]. apply Hrest; [lia|]. intros j Hj E. apply (Hdis j i); [lia | lia | done]. }
    destruct Hsame as [Hr Hsame].
    rewrite (aget_ok 0) by lia. cbn [mbind res_bind]. rewrite Hsame.
    destruct (decide (i = n)) as [->|Hne].
    + left. f_equal. fold l. lia.
    + right. destruct (Hun i ltac:(lia)) as [_ Hneg].
      split; [f_equal; lia|].
      rewrite c_assert_true by lia. cbn [mbind res_bind].
      rewrite aset_ok by lia. cbn [mbind res_bind]. pose proof (ib_length Hib).
      rewrite (aget_ok 0) by lia. cbn [mbind res_bind].
      eexists _, (n - S i)%nat. split; [done|]. split; [|lia].
      exists (S i). split_and!; try reflexivity; try lia.
      * rewrite length_insert. lia.
      * intros j Hj. destruct (decide (j = i)) as [->|].
        -- apply zth_insert_eq. lia.
        -- rewrite zth_insert_ne; [apply Hset; lia | lia | apply Hun; lia |].
           intros E. apply (Hdis j i); [lia | lia | done].
      * intros v Hv Hj. rewrite zth_insert_ne; [apply Hrest; auto with lia | lia | lia |].
        intros E. apply (Hj i); [lia | done].
  - lia.
  - exists 0%nat. split_and!; try reflexivity; try lia. apply (lv_length _ Hl).
  - assert (i = n) as ->.
    { destruct (decide (i = n)) as [|Hne]; [done|]. exfalso.
      destruct (Hun i ltac:(lia)) as [Hr Hneg].
      rewrite (aget_ok 0) in Hc by lia. cbn [mbind res_bind] in Hc. injection Hc as Hc.
      rewrite Hrest in Hc; [lia | lia |]. intros j Hj E. apply (Hdis j i); [lia | lia | done]. }
    exists lev. split; [repeat f_equal; fold l; lia|]. split_and!; done.
Qed.

(** The new levels are again consistent. *)
Lemma assign_levels_ok level level' k n : levels_ok level -> unleveled level k n ->
  0 <= ancestor n k < nv -> 0 <= zth 0 level (ancestor n k) ->
  zlen level' = nv ->
  (forall i, (i < n)%nat ->
     zth 0 level' (ancestor i k) = Z.of_nat n + zth 0 level (ancestor n k) - Z.of_nat i) ->
  (forall v, 0 <= v -> (forall i, (i < n)%nat -> v <> ancestor i k) -> zth 0 level' v = zth 0 level v) ->
  levels_ok level' /\ (forall v, 0 <= v < nv -> 0 <= zth 0 level v -> zth 0 level' v = zth 0 level v).
Proof.
  intros Hl Hun Hp Hl0 Hlen Hset Hrest.
  assert (Hkeep : forall v, 0 <= v < nv -> 0 <= zth 0 level v -> zth 0 level' v = zth 0 level v).
  { intros v Hv Hlv. apply Hrest; [lia|]. intros i Hi ->. destruct (Hun i Hi). lia. }
  assert (Hcase : forall v, 0 <= v < nv ->
    (exists i, (i < n)%nat /\ v = ancestor i k) \/ zth 0 level' v = zth 0 level v).
  { intros v Hv.
    destruct (decide (v ∈ map (fun i => ancestor i k) (seq 0 n))) as [Hin|Hno].
    { left. apply list_elem_of_fmap in Hin as (i & -> & Hi%elem_of_seq). exists i. auto with lia. }
    right. apply Hrest; [lia|]. intros i Hi E. apply Hno. apply list_elem_of_fmap.
    exists i. split; [done|]. apply elem_of_seq. lia. }
  split; [constructor|done].
  - done.
  - intros v Hv. destruct (Hcase v Hv) as [(i & Hi & ->)| ->]; [rewrite Hset by done; lia|].
    by apply (lv_value _ Hl).
  - rewrite Hkeep; [apply (lv_root _ Hl) | apply (ib_root Hib) | rewrite (lv_root _ Hl); lia].
  - intros v Hv Hne Hlv. destruct (Hcase v Hv) as [(i & Hi & ->)|E].
    + rewrite Hset by done.
      change (parent_of (ancestor i k)) with (ancestor (S i) k).
      destruct (decide (S i = n)) as [<-|].
      * rewrite Hkeep by done. lia.
      * destruct (Hun (S i) ltac:(lia)). rewrite Hset by lia. lia.
    + rewrite E in *. destruct (lv_parent _ Hl v Hv Hne Hlv) as (H1 & H2 & H3).
      rewrite Hkeep; [done | | done]. split; [done | by apply (ib_parent Hib)].
Qed.

Lemma check_levels_ok level k : levels_ok level -> 0 <= k < nv -> 0 <= zth 0 level k ->
  check_levels bfs_tree level k = Ok tt.
Proof.
  intros Hl Hk Hlk. unfold check_levels. pose proof (lv_length _ Hl). pose proof (ib_length Hib).
  rewrite (aget_ok 0) by lia. cbn [mbind res_bind].
  match goal with |- context [while ?f ?c ?b ?s0] =>
    destruct (while_ghost (fun g '(parent, lastlvl, nhop) => g = Z.to_nat (zth 0 level parent) /\
        0 <= parent < nv /\ 0 <= zth 0 level parent /\ lastlvl = zth 0 level parent + 1) c b)
      with (fuel := f) (n := Z.to_nat (zth 0 level k)) (s := s0)
      as (g & s & -> & _) end.
  - intros g [[p last] h] (-> & Hp & Hlp & ->). rewrite (aget_ok 0) by lia. cbn [mbind res_bind].
    destruct (Z.ltb_spec 0 (zth 0 level p)); [right; split; [done|] | by left].
    assert (Hne : p <> root) by (intros ->; rewrite (lv_root _ Hl) in *; lia).
    destruct (lv_parent _ Hl p Hp Hne ltac:(lia)) as (Hp1 & Hp2 & Hp3).
    rewrite c_assert_true by lia. cbn [mbind res_bind].
    rewrite (aget_ok 0) by lia. cbn [mbind res_bind].
    pose proof (ib_parent Hib p Hp).
    eexists _, _. split; [done|]. split; [split_and!; try reflexivity; lia | lia].
  - lia.
  - split_and!; try reflexivity; lia.
  - done.
Qed.

(** Every vertex of the tree is below the root: the trees without an error. *)
Definition rooted (level : Z -> Z) : Prop :=
  level root = 0 /\
  forall v, 0 <= v < nv -> 0 <= parent_of v -> 0 <= level v /\
    (v <> root -> 0 <= parent_of (parent_of v) /\ level v = level (parent_of v) + 1).

(** In a rooted tree a climb from a vertex of the tree meets the root in less
    than [nv] hops. *)
Lemma rooted_climb f n k : rooted f -> 0 <= k < nv -> 0 <= parent_of k ->
  (forall i, (i < n)%nat -> ancestor i k <> root) -> Z.of_nat n <= nv ->
  0 <= parent_of (ancestor n k) /\ 0 <= ancestor n k < nv /\ f (ancestor n k) = f k - Z.of_nat n.
Proof.
  intros [Hf0 Hf] Hk Hkt Hn Hle. revert Hle. induction n as [|n IH]; intros Hle; simpl; [split_and!; lia|].
  destruct IH as (Ht & Hr & E); [intros i Hi; apply Hn; lia | lia |].
  destruct (Hf _ Hr Ht) as [H0 Hp]. destruct Hp as [Hp El]; [apply Hn; lia|].
  split; [done|]. split; [|lia]. split; [done|]. by apply (ib_parent Hib).
Qed.

Lemma rooted_hops f n k : rooted f -> 0 <= k < nv -> 0 <= parent_of k ->
  (forall i, (i < n)%nat -> ancestor i k <> root) -> Z.of_nat n <= nv -> Z.of_nat n < nv.
Proof.
  intros Hf Hk Hkt Hn Hle.
  assert (Hnd : NoDup (map (fun i => ancestor i k) (seq 0 (S n)))).
  { apply (NoDup_fmap_1 f). rewrite <- list_fmap_compose.
    apply NoDup_fmap_2_strong; [|apply NoDup_seq].
    intros i j Hi%elem_of_seq Hj%elem_of_seq E. simpl in E.
    destruct (rooted_climb f i k) as (_ & _ & Ei); [done..| intros; apply Hn; lia | lia |].
    destruct (rooted_climb f j k) as (_ & _ & Ej); [done..| intros; apply Hn; lia | lia |]. lia. }
  assert (Hsub : map (fun i => ancestor i k) (seq 0 (S n)) ⊆ seqZ 0 nv).
  { intros x (i & -> & Hi%elem_of_seq)%list_elem_of_fmap. apply elem_of_seqZ.
    destruct (rooted_climb f i k) as (_ & ? & _); [done..| intros; apply Hn; lia | lia | lia]. }
  pose proof (submseteq_length _ _ (NoDup_submseteq _ _ Hnd Hsub)) as Hlen.
  rewrite length_map, length_seq, length_seqZ in Hlen. lia.
Qed.

Lemma unleveled_not_root level k n : levels_ok level -> unleveled level k n ->
  forall i, (i < n)%nat -> ancestor i k <> root.
Proof. intros Hl Hun i Hi E. destruct (Hun i Hi). rewrite E, (lv_root _ Hl) in *. lia. Qed.

(** One turn: with no error so far, either the vertex, when it is in the tree,
    has a level afterwards, or the tree is not rooted and there is an error. *)
Lemma level_turn_ok level k : levels_ok level -> 0 <= k < nv ->
  exists e level', level_turn nv root bfs_tree k (0, level) = Ok (e, level') /\
    levels_ok level' /\ (e = 0 \/ e = -1 \/ e = -2) /\
    (forall v, 0 <= v < nv -> 0 <= zth 0 level v -> 0 <= zth 0 level' v) /\
    (e = 0 -> 0 <= parent_of k -> 0 <= zth 0 level' k) /\
    (e <> 0 -> forall f, ~ rooted f).
Proof.
  intros Hl Hk. pose proof (lv_length _ Hl). pose proof (ib_length Hib).
  unfold level_turn. rewrite !(aget_ok 0) by lia. cbn [mbind res_bind].
  destruct (Z.leb_spec 0 (zth 0 level k)) as [Hlk|Hlk].
  { exists 0, level. split_and!; auto with lia; try done. }
  assert (Hne : k <> root) by (intros ->; rewrite (lv_root _ Hl) in *; lia).
  cbn [Z.eqb andb].
  destruct (Z.leb_spec 0 (parent_of k)) as [Hb|Hb]; cbn [andb].
  2: { exists 0, level. split_and!; auto with lia; try (done || lia). }
  destruct (Z.eqb_spec k root) as [|_]; [done|]. cbn [negb].
  destruct (climb_ok level k Hl Hk) as (n & -> & Hn & Hun & Hcase). cbn [mbind res_bind].
  pose proof (unleveled_not_root level k n Hl Hun) as Hnr.
  destruct (Z.ltb_spec (ancestor n k) 0) as [Hp|Hp].
  { cbn [Z.eqb]. exists (-2), level. split_and!; auto with lia; try done.
    intros _ f Hf. destruct (rooted_climb f n k) as (_ & ? & _); (done || lia). }
  destruct (Z.leb_spec nv (Z.of_nat n)) as [Hnv|Hnv].
  { cbn [Z.eqb]. exists (-1), level. split_and!; auto with lia; try done.
    intros _ f Hf. pose proof (rooted_hops f n k Hf Hk Hb Hnr Hn). lia. }
  destruct Hcase as [|[Hr [Hlp|]]]; [lia | | lia].
  cbn [Z.eqb]. rewrite (aget_ok 0) by lia. cbn [mbind res_bind].
  destruct (assign_ok level k n _ Hl Hun Hn Hr eq_refl Hlp) as (level' & -> & Hlen & Hset & Hrest).
  cbn [mbind res_bind].
  destruct (assign_levels_ok level level' k n Hl Hun Hr Hlp Hlen Hset Hrest) as [Hl' Hkeep].
  rewrite (aget_ok 0) by lia. cbn [mbind res_bind]. rewrite Hkeep by done.
  rewrite c_assert_true by lia. cbn [mbind res_bind].
  assert (Hk' : 0 <= zth 0 level' k).
  { destruct n as [|n]; simpl in *; [lia|]. pose proof (Hset 0%nat ltac:(lia)) as H00; simpl in H00; lia. }
  rewrite check_levels_ok by done. cbn [mbind res_bind].
  exists 0, level'. split_and!; auto with lia; try done.
  intros v Hv Hlv. by rewrite Hkeep.
Qed.

Lemma level_turn_err e level k : e <> 0 -> levels_ok level -> 0 <= k < nv ->
  level_turn nv root bfs_tree k (e, level) = Ok (e, level).
Proof.
  intros He Hl Hk. pose proof (lv_length _ Hl). pose proof (ib_length Hib).
  unfold level_turn. rewrite !(aget_ok 0) by lia. cbn [mbind res_bind].
  destruct (Z.leb_spec 0 (zth 0 level k)); [done|].
  destruct (Z.eqb_spec e 0); [done|]. cbn [andb]. done.
Qed.

(** [compute_levels] succeeds; without an error the levels it returns make the
    tree rooted, and with one no levels do. *)
Lemma compute_levels_ok level0 : zlen level0 = nv ->
  exists e level, compute_levels level0 nv bfs_tree root = Ok (e, level) /\ levels_ok level /\
    (e = 0 \/ e = -1 \/ e = -2) /\
    (e = 0 -> rooted (zth 0 level)) /\ (e <> 0 -> forall f, ~ rooted f).
Proof.
  intros Hlen. unfold compute_levels.
  destruct (for_range_inv (fun k level => zlen level = nv /\
      forall v, 0 <= v < k -> zth 0 level v = if v =? root then 0 else -1)
    (fun k level => level.[k <- if k =? root then 0 else -1]) 0 nv level0)
    as (level1 & -> & Hlen1 & Hinit).
  { pose proof (ib_root Hib). lia. }
  { split; [done | lia]. }
  { intros k l Hk [Hl Hv]. rewrite aset_ok by lia. eexists; split; [done|].
    split; [by rewrite length_insert|]. intros v Hr.
    rewrite zth_insert by lia. destruct (Z.eqb_spec v k) as [->|]; [done | apply Hv; lia]. }
  cbn [mbind res_bind].
  pose proof (ib_root Hib) as [Hroot Hrt].
  assert (Hl1 : levels_ok level1).
  { constructor; [done | | |].
    - intros v Hv. rewrite Hinit by done. case_match; lia.
    - rewrite Hinit, Z.eqb_refl by done. done.
    - intros v Hv Hne Hlv. rewrite Hinit in Hlv by done.
      destruct (Z.eqb_spec v root); [done | lia]. }
  destruct (for_range_inv (fun k '(e, level) => levels_ok level /\ (e = 0 \/ e = -1 \/ e = -2) /\
      (e = 0 -> forall v, 0 <= v < k -> 0 <= parent_of v -> 0 <= zth 0 level v) /\
      (e <> 0 -> forall f, ~ rooted f)) (level_turn nv root bfs_tree) 0 nv (0, level1))
    as ([e level] & -> & Hl & He & Hall & Hno).
  - lia.
  - split_and!; auto with lia; try (done || lia).
  - intros k [e level] Hk (Hl & He & Hall & Hno). destruct (decide (e = 0)) as [->|Hne].
    + destruct (level_turn_ok level k Hl Hk) as (e' & level' & -> & Hl' & He' & Hkeep & Hk' & Hno').
      eexists; split; [done|]. split_and!; auto.
      intros E v Hv Hp. destruct (decide (v = k)) as [->|]; [by apply Hk'|].
      apply Hkeep; [lia|]. apply Hall; (done || lia).
    + rewrite level_turn_err by done. eexists; split; [done|]. split_and!; auto with lia; try done.
  - exists e, level. split_and!; auto. intros E. split; [apply (lv_root _ Hl)|].
    intros v Hv Hp. split; [by apply Hall|]. intros Hne.
    destruct (lv_parent _ Hl v Hv Hne) as (H1 & H2 & H3); [by apply Hall|].
    split; [|done]. destruct (decide (parent_of v = root)) as [->|Hpr]; [lia|].
    apply (lv_parent _ Hl (parent_of v)); [|done|done]. split; [done | by apply (ib_parent Hib)].
Qed.
End Levels.

(** ** The edges *)

Section Edges.
Context (IJ : list Z) (nedge : Z).

Abbreviation tail := (fun h => zth 0 IJ (2 * h)).
Abbreviation head := (fun h => zth 0 IJ (2 * h + 1)).

(** The input edges: both ends of a usable edge are nonnegative; [adj] leaves
    out self-loops. *)
Definition joins (h u v : Z) : Prop :=
  0 <= u /\ 0 <= v /\ ((tail h = u /\ head h = v) \/ (tail h = v /\ head h = u)).

Definition adj (u v : Z) : Prop := u <> v /\ exists h, 0 <= h < nedge /\ joins h u v.

Lemma adj_sym u v : adj u v -> adj v u.
Proof.
  unfold adj, joins. intros [Hne (h & Hh & Hj)]. split; [congruence|]. exists h. tauto.
Qed.

Context (max_bfsvtx root : Z) (bfs_tree level : list Z).
Abbreviation nv := (max_bfsvtx + 1).
Abbreviation parent_of := (zth 0 bfs_tree).
Abbreviation level_of := (zth 0 level).

(** Edge [h] joins two vertices of the tree: it is counted. *)
Definition counted (h : Z) : bool :=
  (0 <=? tail h) && (0 <=? head h) && (tail h <=? max_bfsvtx) && (head h <=? max_bfsvtx) &&
  (0 <=? parent_of (tail h)) && (0 <=? parent_of (head h)).

Definition traversed (n : Z) : Z := zlen (filter (fun h => counted h = true) (seqZ 0 n)).

(** Edge [h] is on one side of [max_bfsvtx], both ends or none are in the
    tree, and the levels of its ends differ by at most 1. *)
Definition edge_good (h : Z) : Prop :=
  0 <= tail h -> 0 <= head h ->
  (max_bfsvtx < tail h /\ max_bfsvtx < head h) \/
  (tail h <= max_bfsvtx /\ head h <= max_bfsvtx /\
   ((parent_of (tail h) < 0 /\ parent_of (head h) < 0) \/
    (0 <= parent_of (tail h) /\ 0 <= parent_of (head h) /\
     Z.abs (level_of (tail h) - level_of (head h)) <= 1))).

(** The parent of [v] is reached by an edge before [n]. *)
Definition tree_edge_seen (n v : Z) : Prop :=
  exists h, 0 <= h < n /\ joins h v (parent_of v) /\ v <> parent_of v.

Definition edges_inv (n : Z) (s : vstate) : Prop :=
  zlen (seen_edge s) = nv /\ terr s = err s /\ -16 < err s <= 0 /\
  (err s = 0 -> nedge_traversed s = traversed n /\
     (forall h, 0 <= h < n -> edge_good h) /\
     (forall v, 0 <= v < nv -> 0 <= parent_of v -> zth 0 (seen_edge s) v <> 0 <-> tree_edge_seen n v)) /\
  (err s <> 0 -> exists h, 0 <= h < n /\ ~ edge_good h).

Hypothesis Hib : in_bounds nv root bfs_tree.
Hypothesis Hlev : zlen level = nv.
Hypothesis HIJ : 2 * nedge <= zlen IJ.
Hypothesis Hnedge : nedge < 2 ^ 31.

Lemma traversed_succ n : 0 <= n -> traversed (n + 1) = traversed n + (if counted n then 1 else 0).
Proof.
  intros Hn. unfold traversed. rewrite seqZ_app by lia. change (seqZ (0 + n) 1) with [0 + n].
  rewrite list.filter_app, length_app, filter_cons, Z.add_0_l.
  destruct (counted n); simpl; lia.
Qed.

Lemma traversed_bound n : 0 <= n -> 0 <= traversed n <= n.
Proof.
  intros Hn. unfold traversed. pose proof (length_filter (fun h => counted h = true) (seqZ 0 n)) as H.
  rewrite length_seqZ in H. lia.
Qed.

(** The marks that an edge leaves. *)
Lemma marks_ok seen i j n : zlen seen = nv -> 0 <= i < nv -> 0 <= j < nv ->
  tail n = i -> head n = j -> 0 <= n ->
  0 <= parent_of i -> 0 <= parent_of j ->
  (forall v, 0 <= v < nv -> 0 <= parent_of v -> zth 0 seen v <> 0 <-> tree_edge_seen n v) ->
  exists seen', (if negb (i =? j) then
     seen_edge ← (if parent_of i =? j then seen.[i <- 1] else Ok seen);
     if parent_of j =? i then seen_edge.[j <- 1] else Ok seen_edge
   else Ok seen) = Ok seen' /\ zlen seen' = nv /\
  (forall v, 0 <= v < nv -> 0 <= parent_of v -> zth 0 seen' v <> 0 <-> tree_edge_seen (n + 1) v).
Proof.
  intros Hlen Hi Hj Ei Ej Hn Hpi Hpj Hseen.
  assert (Hstep : forall v, tree_edge_seen (n + 1) v <->
    tree_edge_seen n v \/ (0 <= v /\ 0 <= parent_of v /\ i <> j /\
      ((v = i /\ parent_of i = j) \/ (v = j /\ parent_of j = i)))).
  { intros v. split.
    - intros (h & Hh & (Hv & Hp & Hj') & Hne). destruct (decide (h = n)) as [->|].
      + right. rewrite Ei, Ej in Hj'. split; [done|]. split; [done|].
        destruct Hj' as [[-> ->]|[-> ->]]; split; auto.
      + left. exists h. split; [lia|]. by split.
    - intros [(h & Hh & Hr)|(Hv & Hp & Hne & Hc)].
      + exists h. split; [lia | done].
      + exists n. split; [lia|]. unfold joins. rewrite Ei, Ej.
        destruct Hc as [[-> ->]|[-> ->]]; split_and!; auto; lia. }
  destruct (Z.eqb_spec i j) as [->|Hij]; cbn [negb].
  { exists seen. split; [done|]. split; [done|]. intros v Hv Hp. rewrite Hstep, Hseen by done.
    split; [auto|]. intros [|(_ & _ & Hne & _)]; done. }
  rewrite aset_ok by lia.
  assert (exists s1, s1 = if parent_of i =? j then <[Z.to_nat i:=1]> seen else seen)
    as [s1 Es1] by eauto.
  assert (E1 : (if parent_of i =? j then Ok (<[Z.to_nat i:=1]> seen) else Ok seen) = Ok s1)
    by (rewrite Es1; case_match; done).
  rewrite E1. cbn [mbind res_bind].
  assert (Hl1 : zlen s1 = nv) by (rewrite Es1; case_match; rewrite ?length_insert; done).
  exists (if parent_of j =? i then <[Z.to_nat j:=1]> s1 else s1).
  split_and!.
  - destruct (parent_of j =? i); [rewrite aset_ok by lia|]; done.
  - destruct (parent_of j =? i); [rewrite length_insert|]; exact Hl1.
  - intros v Hv Hp. rewrite Hstep, <- Hseen by done.
    assert (Hmark : zth 0 (if parent_of j =? i then <[Z.to_nat j:=1]> s1 else s1) v =
      if (v =? j) && (parent_of j =? i) || (v =? i) && (parent_of i =? j) then 1 else zth 0 seen v).
    { rewrite Es1. destruct (Z.eqb_spec (parent_of j) i), (Z.eqb_spec (parent_of i) j);
        rewrite ?zth_insert by (rewrite ?length_insert; lia);
        destruct (Z.eqb_spec v i), (Z.eqb_spec v j); subst; done || lia. }
    rewrite Hmark.
    destruct (Z.eqb_spec v j), (Z.eqb_spec (parent_of j) i), (Z.eqb_spec v i),
      (Z.eqb_spec (parent_of i) j); cbn [andb orb]; split; intros HH; try lia;
      try (right; split_and!; auto; lia); try (by left);
      destruct HH as [HH|(_ & _ & _ & [[? ?]|[? ?]])]; (done || congruence).
Qed.

Hypothesis Hrooted : rooted nv root bfs_tree level_of.

Lemma parent_in_tree v : 0 <= v < nv -> 0 <= parent_of v ->
  parent_of v < nv /\ 0 <= parent_of (parent_of v).
Proof.
  intros Hv Hp. split; [by apply (ib_parent _ _ _ Hib)|].
  destruct (decide (v = root)) as [->|Hne].
  - destruct (ib_root _ _ _ Hib) as [_ E]. by rewrite !E in *.
  - by apply Hrooted.
Qed.

Lemma counted_spec h : counted h = true <->
  0 <= tail h <= max_bfsvtx /\ 0 <= head h <= max_bfsvtx /\
  0 <= parent_of (tail h) /\ 0 <= parent_of (head h).
Proof. unfold counted. rewrite !andb_true_iff, !Z.leb_le. tauto. Qed.

(** An edge that is not counted joins no vertex of the tree to its parent. *)
Lemma tree_edge_counted n v : 0 <= v < nv -> 0 <= parent_of v -> joins n v (parent_of v) ->
  counted n = true.
Proof.
  intros Hv Hp (_ & _ & Hj). destruct (parent_in_tree v Hv Hp) as [Hlt Hpp].
  apply counted_spec. destruct Hj as [[-> ->]|[-> ->]]; lia.
Qed.

(** The invariant after an edge that is good but not counted, after a bad
    one, and after any edge once there is an error. *)
Lemma edges_inv_skip n s : 0 <= n -> err s = 0 -> edges_inv n s -> edge_good n -> counted n = false ->
  edges_inv (n + 1) (mk_vstate (err s) (err s) (nedge_traversed s) (seen_edge s)).
Proof.
  intros Hn E (Hlen & Ht & Hr & H0 & _) Hg Hc. destruct (H0 E) as (Hcnt & Hgood & Hseen).
  unfold edges_inv. cbn [err terr nedge_traversed seen_edge].
  split_and!; try done; [lia.. |]. intros _. split_and!.
  - rewrite traversed_succ, Hc by done. lia.
  - intros h Hh. destruct (decide (h = n)) as [->|]; [done | apply Hgood; lia].
  - intros v Hv Hp. rewrite Hseen by done. split.
    + intros (h & Hh & Hj). exists h. split; [lia | done].
    + intros (h & Hh & Hj & Hne). exists h. split; [|done].
      destruct (decide (h = n)) as [->|]; [|lia].
      rewrite (tree_edge_counted n v) in Hc by done. done.
Qed.

Lemma edges_inv_bad n s e : 0 <= n -> zlen (seen_edge s) = nv -> -16 < e < 0 -> ~ edge_good n ->
  edges_inv (n + 1) (mk_vstate e e (nedge_traversed s) (seen_edge s)).
Proof.
  intros Hn Hlen He Hb. unfold edges_inv. cbn [err terr nedge_traversed seen_edge].
  split_and!; try done; try lia. intros _. exists n. split; [lia | done].
Qed.

Lemma edges_inv_err n s e : 0 <= n -> edges_inv n s -> err s <> 0 -> -16 < e < 0 ->
  edges_inv (n + 1) (mk_vstate e e (nedge_traversed s) (seen_edge s)).
Proof.
  intros Hn (Hlen & _ & _ & _ & H1) Hne He. unfold edges_inv. cbn [err terr nedge_traversed seen_edge].
  split_and!; try done; try lia. intros _. destruct (H1 Hne) as (h & Hh & Hb). exists h. split; [lia | done].
Qed.

(** An edge in the tree. *)
Lemma edge_turn_counted n s i j : 0 <= n < nedge -> edges_inv n s -> err s = 0 ->
  i = tail n -> j = head n -> 0 <= i <= max_bfsvtx -> 0 <= j <= max_bfsvtx ->
  0 <= parent_of i -> 0 <= parent_of j ->
  (edge_good n <-> (parent_of i < 0 /\ parent_of j < 0) \/
      (0 <= parent_of i /\ 0 <= parent_of j /\ Z.abs (level_of i - level_of j) <= 1)) ->
  exists s', (nedge_traversed ← chk 32 (nedge_traversed s + 1);
    seen_edge ← (if negb (i =? j) then
                 seen_edge ← (if parent_of i =? j then (seen_edge s).[i <- 1] else Ok (seen_edge s));
                 if parent_of j =? i then seen_edge.[j <- 1] else Ok seen_edge
               else Ok (seen_edge s));
    li ← level.[i];
    lj ← level.[j];
    let e := if (1 <? li - lj) || (li - lj <? -1) then -14 else 0 in
    Ok (mk_vstate (if negb (e =? 0) then e else 0) e nedge_traversed seen_edge)) = Ok s' /\
  edges_inv (n + 1) s'.
Proof.
  intros Hn Hs E Ei Ej Hi Hj Hpi Hpj Hg. pose proof Hs as (Hlen & _ & _ & H0 & _).
  destruct (H0 E) as (Hcnt & Hgood & Hseen).
  assert (Hc : counted n = true) by (apply counted_spec; rewrite <- Ei, <- Ej; lia).
  pose proof (traversed_bound n ltac:(lia)).
  rewrite chk_ok by lia. cbn [mbind res_bind].
  destruct (marks_ok (seen_edge s) i j n) as (seen' & -> & Hlen' & Hseen'); try done; try lia.
  cbn [mbind res_bind]. rewrite (aget_ok 0 level i), (aget_ok 0 level j) by lia. cbn [mbind res_bind].
  set (d := zth 0 level i - zth 0 level j) in *.
  destruct ((1 <? d) || (d <? -1)) eqn:Ed; cbn [Z.eqb negb].
  - eexists; split; [done|].
    apply (edges_inv_bad n (mk_vstate 0 0 (nedge_traversed s + 1) seen') (-14)); try done; try lia. rewrite Hg. lia.
  - eexists; split; [done|]. unfold edges_inv. cbn [err terr nedge_traversed seen_edge].
    split_and!; try done; [lia.. |]. intros _. split_and!; [| | done].
    + rewrite traversed_succ, Hc by lia. lia.
    + intros h Hh. destruct (decide (h = n)) as [->|]; [apply Hg; right; lia | apply Hgood; lia].
Qed.

Lemma edge_turn_ok n s : 0 <= n < nedge -> edges_inv n s ->
  exists s', edge_turn bfs_tree level max_bfsvtx IJ (2 * n) s = Ok s' /\ edges_inv (n + 1) s'.
Proof.
  intros Hn Hs. pose proof Hs as (Hlen & Ht & Hr & H0 & H1). pose proof (ib_length _ _ _ Hib).
  unfold edge_turn. rewrite (aget_ok 0 IJ (2 * n)), (aget_ok 0 IJ (2 * n + 1)) by lia.
  cbn [mbind res_bind].
  remember (zth 0 IJ (2 * n)) as i eqn:Ei. remember (zth 0 IJ (2 * n + 1)) as j eqn:Ej.
  destruct (decide (err s = 0)) as [E|E].
  2: { (* an error already *)
    destruct ((i <? 0) || (j <? 0)).
    { eexists; split; [done|]. apply edges_inv_err; (done || lia). }
    match goal with |- context [if negb (?t =? 0) || _ then _ else _] => remember t as e eqn:Ee end.
    assert (He : -16 < e < 0) by (rewrite Ee; repeat case_match; lia).
    destruct (Z.eqb_spec e 0); [lia|]. cbn [negb orb].
    eexists; split; [done|]. apply edges_inv_err; (done || lia). }
  rewrite E. destruct (Z.ltb_spec i 0) as [Hi|Hi]; cbn [orb].
  { eexists; split; [done|]. rewrite <- E. apply edges_inv_skip; try done; try lia.
    - intros Hx. lia.
    - apply not_true_iff_false. rewrite counted_spec. lia. }
  destruct (Z.ltb_spec j 0) as [Hj|Hj].
  { eexists; split; [done|]. rewrite <- E. apply edges_inv_skip; try done; try lia.
    - intros _ Hx. lia.
    - apply not_true_iff_false. rewrite counted_spec. lia. }
  destruct (Z.ltb_spec max_bfsvtx i) as [Hmi|Hmi], (Z.leb_spec j max_bfsvtx) as [Hmj|Hmj],
    (Z.ltb_spec max_bfsvtx j), (Z.leb_spec i max_bfsvtx); try lia; cbn [andb negb orb Z.eqb].
  - (* only j is in range *)
    eexists; split; [done|]. apply edges_inv_bad; try done; try lia.
    intros Hg. unfold edge_good in Hg. lia.
  - (* both are out of range *)
    eexists; split; [done|]. rewrite <- E. apply edges_inv_skip; try done; try lia.
    + intros _ _. left. lia.
    + apply not_true_iff_false. rewrite counted_spec. lia.
  - (* both are in range *)
    rewrite (aget_ok 0 bfs_tree i), (aget_ok 0 bfs_tree j) by lia. cbn [mbind res_bind].
    assert (Hg : edge_good n <-> (parent_of i < 0 /\ parent_of j < 0) \/
      (0 <= parent_of i /\ 0 <= parent_of j /\ Z.abs (level_of i - level_of j) <= 1)).
    { unfold edge_good. rewrite <- Ei, <- Ej. intuition lia. }
    destruct (Z.leb_spec 0 (parent_of i)), (Z.ltb_spec (parent_of j) 0),
      (Z.leb_spec 0 (parent_of j)), (Z.ltb_spec (parent_of i) 0); try lia;
      cbn [andb orb negb Z.eqb].
    + eexists; split; [done|]. apply edges_inv_bad; try done; try lia. rewrite Hg. lia.
    + by apply edge_turn_counted.
    + eexists; split; [done|]. rewrite <- E. apply edges_inv_skip; try done; try lia;
        [apply Hg; lia|].
      apply not_true_iff_false. rewrite counted_spec, <- Ei, <- Ej. lia.
    + eexists; split; [done|]. apply edges_inv_bad; try done; try lia. rewrite Hg. lia.
  - eexists; split; [done|]. apply edges_inv_bad; try done; try lia.
    intros Hg. unfold edge_good in Hg. lia.
Qed.

Lemma edges_ok seen : zlen seen = nv -> (forall v, 0 <= v < nv -> zth 0 seen v = 0) -> 0 <= nedge ->
  exists s, for_range 0 nedge (fun h s => edge_turn bfs_tree level max_bfsvtx IJ (2 * h) s)
    (mk_vstate 0 0 0 seen) = Ok s /\ edges_inv nedge s.
Proof.
  intros Hlen Hz Hn. apply for_range_inv; [done | |].
  - unfold edges_inv. cbn [err terr nedge_traversed seen_edge]. split_and!; try done; try lia.
    intros _. split_and!; [done | lia |]. intros v Hv Hp. rewrite Hz by done.
    split; [done|]. intros (h & Hh & _). lia.
  - intros k s Hk Hs. by apply edge_turn_ok.
Qed.

(** The last loop: an error exactly when a vertex of the tree was reached by
    no edge from its parent. *)
Definition unseen (seen : list Z) (v : Z) : Prop := v <> root /\ 0 <= parent_of v /\ zth 0 seen v = 0.

Lemma vertices_ok s : zlen (seen_edge s) = nv -> err s = 0 ->
  exists s', for_range 0 nv (vertex_turn bfs_tree root) s = Ok s' /\
    nedge_traversed s' = nedge_traversed s /\
    (err s' = 0 /\ (forall v, 0 <= v < nv -> ~ unseen (seen_edge s) v) \/
     err s' = -15 /\ (exists v, 0 <= v < nv /\ unseen (seen_edge s) v)).
Proof.
  intros Hlen He. pose proof (ib_root _ _ _ Hib) as [Hroot _]. pose proof (ib_length _ _ _ Hib).
  destruct (for_range_inv (fun k s' => seen_edge s' = seen_edge s /\
      nedge_traversed s' = nedge_traversed s /\
      (err s' = 0 /\ (forall v, 0 <= v < k -> ~ unseen (seen_edge s) v) \/
       err s' = -15 /\ (exists v, 0 <= v < k /\ unseen (seen_edge s) v)))
    (vertex_turn bfs_tree root) 0 nv s) as (s' & -> & _ & Hcnt & Hr).
  - lia.
  - split_and!; [done..|]. left. split; [done | lia].
  - intros k s' Hk (Hs & Hc & Hr). unfold vertex_turn. rewrite Hs.
    rewrite (aget_ok 0 bfs_tree), (aget_ok 0 (seen_edge s)) by lia. cbn [mbind res_bind].
    destruct Hr as [[E Hall]|[E (v & Hv & Hu)]]; rewrite E; cbn [Z.eqb andb].
    + destruct (Z.eqb_spec k root) as [->|Hne]; cbn [negb].
      { eexists; split; [done|]. split_and!; [done..|]. left. split; [done|].
        intros v Hv [Hvr Hu]. apply (Hall v); [lia | done]. }
      destruct (Z.eqb_spec (parent_of k) k) as [Hself|_];
        [by destruct (ib_self _ _ _ Hib k Hk Hne)|].
      destruct (Z.leb_spec 0 (parent_of k)), (Z.eqb_spec (zth 0 (seen_edge s) k) 0);
        cbn [andb negb Z.eqb]; eexists; (split; [done|]); (split_and!; [done..|]).
      1: { right. split; [done|]. exists k. split; [lia|]. done. }
      all: left; split; [done|]; intros v Hv Hu; destruct (decide (v = k)) as [->|];
        [destruct Hu as (_ & ? & ?); lia | apply (Hall v); [lia | done]].
    + eexists; split; [done|]. split_and!; [done..|]. right. split; [done|]. exists v. split; [lia | done].
  - exists s'. auto.
Qed.
End Edges.

(** ** The verdict *)

(** No usable edge leaves the range of the tree array. *)
Definition no_straddle (IJ : list Z) (nedge max_bfsvtx : Z) : Prop :=
  forall h, 0 <= h < nedge -> 0 <= zth 0 IJ (2 * h) -> 0 <= zth 0 IJ (2 * h + 1) ->
    zth 0 IJ (2 * h) <= max_bfsvtx <-> zth 0 IJ (2 * h + 1) <= max_bfsvtx.

Section Verdict.
Context (IJ : list Z) (nedge max_bfsvtx root : Z) (bfs_tree : list Z).
Abbreviation nv := (max_bfsvtx + 1).
Abbreviation parent_of := (zth 0 bfs_tree).

Definition valid_tree (level : Z -> Z) : Prop :=
  bfs_tree_ok (adj IJ nedge) nv root parent_of level /\ no_straddle IJ nedge max_bfsvtx.

Hypothesis Hib : in_bounds nv root bfs_tree.

Lemma valid_rooted f : valid_tree f -> rooted nv root bfs_tree f.
Proof.
  intros [Hok _]. split; [apply (ok_level_root _ _ _ _ _ Hok)|]. intros v Hv Hp.
  split; [by apply (ok_level _ _ _ _ _ Hok)|]. intros Hne.
  by destruct (ok_parent _ _ _ _ _ Hok v) as ([_ ?] & _ & ?).
Qed.

(** The levels of a rooted tree are unique. *)
Lemma rooted_unique f g v : rooted nv root bfs_tree f -> rooted nv root bfs_tree g ->
  0 <= v < nv -> 0 <= parent_of v -> f v = g v.
Proof.
  intros [Hf0 Hf] [Hg0 Hg] Hv Hp. remember (Z.to_nat (f v)) as n eqn:En.
  revert v Hv Hp En. induction n as [|n IH]; intros v Hv Hp En;
    (destruct (decide (v = root)) as [->|Hne]; [lia|]);
    destruct (Hf v Hv Hp) as [H0 Hfv]; destruct (Hg v Hv Hp) as [_ Hgv];
    destruct (Hfv Hne) as [Hpp Ef]; destruct (Hgv Hne) as [_ Eg];
    pose proof (ib_parent _ _ _ Hib v Hv);
    destruct (Hf (parent_of v) ltac:(lia) Hpp) as [H1 _]; [lia|].
  rewrite Ef, Eg, (IH (parent_of v)); [done | lia | done | lia].
Qed.

(** Every edge is good and every parent seen: the tree is valid. *)
Lemma all_good_valid level seen : rooted nv root bfs_tree (zth 0 level) ->
  (forall h, 0 <= h < nedge -> edge_good IJ max_bfsvtx bfs_tree level h) ->
  (forall v, 0 <= v < nv -> 0 <= parent_of v -> zth 0 seen v <> 0 <-> tree_edge_seen IJ bfs_tree nedge v) ->
  (forall v, 0 <= v < nv -> ~ unseen root bfs_tree seen v) ->
  valid_tree (zth 0 level).
Proof.
  intros Hr Hg Hs Hu. pose proof (ib_root _ _ _ Hib) as [Hroot Hrt]. split; [constructor|].
  - done.
  - apply Hr.
  - intros v [Hv Hp]. by apply Hr.
  - intros v [Hv Hp] Hne. destruct (proj2 Hr v Hv Hp) as [_ Hp2]. destruct (Hp2 Hne) as [Hpp El].
    pose proof (ib_parent _ _ _ Hib v Hv). split; [split; [lia | done]|]. split; [|done].
    destruct (proj1 (Hs v Hv Hp)) as (h & Hh & Hj & Hvp).
    { intros E. by apply (Hu v Hv). }
    split; [done|]. eauto.
  - intros u v (Hne & h & Hh & Hu0 & Hv0 & Hj) [Hun Hup]. specialize (Hg h Hh). unfold edge_good in Hg.
    destruct Hj as [[Eu Ev]|[Eu Ev]]; rewrite Eu, Ev in Hg; unfold in_tree; lia.
  - intros h Hh H1 H2. specialize (Hg h Hh H1 H2). lia.
Qed.

Lemma valid_all_good f level : valid_tree f -> rooted nv root bfs_tree (zth 0 level) ->
  forall h, 0 <= h < nedge -> edge_good IJ max_bfsvtx bfs_tree level h.
Proof.
  intros Hf Hr h Hh H1 H2. pose proof (valid_rooted f Hf) as Hfr. destruct Hf as [Hok Hns].
  pose proof (Hns h Hh H1 H2) as Hside.
  destruct (Z.le_gt_cases (zth 0 IJ (2 * h)) max_bfsvtx) as [Hle|]; [right | left; lia].
  assert (Hle2 : zth 0 IJ (2 * h + 1) <= max_bfsvtx) by tauto.
  split; [done|]. split; [done|].
  destruct (decide (zth 0 IJ (2 * h) = zth 0 IJ (2 * h + 1))) as [E|Hne].
  { rewrite E. lia. }
  assert (Ha : adj IJ nedge (zth 0 IJ (2 * h)) (zth 0 IJ (2 * h + 1))).
  { split; [done|]. exists h. split; [done|]. unfold joins. auto. }
  pose proof (ok_edge _ _ _ _ _ Hok _ _ Ha) as Huv.
  pose proof (ok_edge _ _ _ _ _ Hok _ _ (adj_sym _ _ _ _ Ha)) as Hvu. unfold in_tree in *.
  destruct (Z.le_gt_cases 0 (parent_of (zth 0 IJ (2 * h)))) as [Hu|Hu].
  - right. destruct Huv as [[Hv1 Hv2] Hd]; [split; [lia | done]|].
    rewrite !(rooted_unique (zth 0 level) f) by (done || lia). done.
  - left. destruct (Z.le_gt_cases 0 (parent_of (zth 0 IJ (2 * h + 1)))); [|lia].
    destruct Hvu as [[? ?] _]; [split; [lia | done] | lia].
Qed.

Lemma valid_all_seen f seen : valid_tree f ->
  (forall v, 0 <= v < nv -> 0 <= parent_of v -> zth 0 seen v <> 0 <-> tree_edge_seen IJ bfs_tree nedge v) ->
  forall v, 0 <= v < nv -> ~ unseen root bfs_tree seen v.
Proof.
  intros [Hok _] Hs v Hv (Hne & Hp & E). 
  destruct (ok_parent _ _ _ _ _ Hok v) as (_ & (Hn & h & Hh & Hj) & _); [done..|].
  apply (proj2 (Hs v Hv Hp)) in E; [done|]. exists h. auto.
Qed.

Lemma verify_verdict load malloc : alloc64_ok malloc ->
  0 <= nedge < 2 ^ 31 -> 2 * nedge <= zlen IJ ->
  exists r, verify_bfs_tree true load true malloc bfs_tree max_bfsvtx root IJ nedge = Ok r /\
    (0 <= r /\ r = traversed IJ max_bfsvtx bfs_tree nedge /\ (exists level, valid_tree level) \/
     -16 < r < 0 /\ forall level, ~ valid_tree level).
Proof.
  intros Hal Hn HIJ. pose proof (ib_root _ _ _ Hib) as [Hroot Hrt].
  pose proof (ib_length _ _ _ Hib).
  unfold verify_bfs_tree. cbn [negb andb].
  destruct (Z.ltb_spec max_bfsvtx root) as [|_]; [lia|].
  rewrite (aget_ok 0) by lia. cbn [mbind res_bind]. rewrite Hrt, Z.eqb_refl. cbn [negb orb].
  destruct (xmalloc_large_ok malloc (2 * nv) Hal) as (block & -> & Hblk); [lia|]. cbn [mbind res_bind].
  assert (Hs0 : zlen (take (Z.to_nat nv) block) = nv) by (rewrite length_take; lia).
  assert (Hl0 : zlen (drop (Z.to_nat nv) block) = nv) by (rewrite length_drop; lia).
  revert Hs0 Hl0. generalize (take (Z.to_nat nv) block), (drop (Z.to_nat nv) block).
  intros seen0 level0 Hs0 Hl0.
  destruct (compute_levels_ok nv root bfs_tree Hib level0 Hl0)
    as (e & level & -> & Hl & He & Hrooted & Hno). cbn [mbind res_bind].
  destruct (Z.eqb_spec e 0) as [->|Hne]; cbn [negb].
  2: { exists e. split; [done|]. right. split; [lia|]. intros f Hf.
       by apply (Hno Hne f), valid_rooted. }
  specialize (Hrooted eq_refl).
  destruct (for_range_inv (fun k seen => zlen seen = nv /\ forall v, 0 <= v < k -> zth 0 seen v = 0)
    (fun k seen => seen.[k <- 0]) 0 nv seen0) as (seen & -> & Hseen & Hz).
  { lia. }
  { split; [done | lia]. }
  { intros k seen Hk [Hlen Hz]. rewrite aset_ok by lia. eexists; split; [done|].
    split; [by rewrite length_insert|]. intros v Hv. rewrite zth_insert by lia.
    destruct (Z.eqb_spec v k); [done | apply Hz; lia]. }
  cbn [mbind res_bind].
  destruct (edges_ok IJ nedge max_bfsvtx root bfs_tree level Hib (lv_length _ _ _ _ Hl) HIJ
    ltac:(lia) Hrooted seen Hseen Hz ltac:(lia)) as (s & -> & Hlen & Ht & Hr & Hnoerr & Herr).
  cbn [mbind res_bind]. rewrite Ht.
  destruct (Z.eqb_spec (err s) 0) as [E|E]; cbn [mbind res_bind].
  - destruct (Hnoerr E) as (Hcnt & Hgood & Hmarks).
    destruct (vertices_ok IJ max_bfsvtx root bfs_tree level Hib s Hlen E) as (s' & -> & Hcnt' & Hcase).
    cbn [mbind res_bind]. destruct Hcase as [[-> Hu]|[-> (v & Hv & Hu)]]; cbn [Z.eqb negb].
    + eexists; split; [done|]. left. rewrite Hcnt', Hcnt.
      pose proof (traversed_bound IJ max_bfsvtx bfs_tree level nedge ltac:(lia)).
      split; [lia|]. split; [done|]. exists (zth 0 level). by apply (all_good_valid level (seen_edge s)).
    + eexists; split; [done|]. right. split; [lia|]. intros f Hf.
      by apply (valid_all_seen f (seen_edge s) Hf Hmarks v Hv).
  - destruct (Z.eqb_spec (err s) 0); [done|]. cbn [negb]. eexists; split; [done|]. right.
    split; [lia|]. intros f Hf. destruct (Herr E) as (h & Hh & Hb).
    by apply Hb, (valid_all_good f level).
Qed.
End Verdict.

(** C1: on memory-safe input (parents below the number of vertices, no vertex
    but the root its own parent) [verify_bfs_tree] always returns, without a
    failed assertion: the number of input edges in the tree when the array is
    a breadth-first search tree of the edge list, a negative code between -15
    and -1 when it is not. *)
Theorem verify_accepts_exactly_bfs_trees load malloc IJ nedge max_bfsvtx root bfs_tree :
  in_bounds (max_bfsvtx + 1) root bfs_tree ->
  alloc64_ok malloc ->
  0 <= nedge < 2 ^ 31 -> 2 * nedge <= zlen IJ ->
  exists r, verify_bfs_tree true load true malloc bfs_tree max_bfsvtx root IJ nedge = Ok r /\
    (0 <= r <-> exists level, bfs_tree_ok (adj IJ nedge) (max_bfsvtx + 1) root (zth 0 bfs_tree) level /\
                              no_straddle IJ nedge max_bfsvtx) /\
    (0 <= r -> r = traversed IJ max_bfsvtx bfs_tree nedge) /\
    (r < 0 -> -15 <= r <= -1).
Proof.
  intros Hib Hal Hn HIJ.
  destruct (verify_verdict IJ nedge max_bfsvtx root bfs_tree Hib load malloc Hal Hn HIJ)
    as (r & -> & [(Hr & Ht & Hv)|[Hr Hv]]); exists r; (split; [done|]).
  - split; [done|]. split; [done | lia].
  - split; [|lia]. split; [lia|]. intros [level Hl']. by destruct (Hv level).
Qed.

Lemma verify_accepts_exactly_bfs_trees_witness :
  in_bounds 3 0 [0; 0; 1] /\ exists r,
  verify_bfs_tree true 0 true calloc64 [0; 0; 1] 2 0 [0; 1; 1; 2; 2; 2] 3 = Ok r /\
  (0 <= r -> r = traversed [0; 1; 1; 2; 2; 2] 2 [0; 0; 1] 3) /\ r = 3.
Proof.
  assert (H : in_bounds 3 0 [0; 0; 1]).
  { constructor; [simpl; lia | done | |]; intros v Hv;
      assert (v = 0 \/ v = 1 \/ v = 2) as [->|[->| ->]] by lia; vm_compute; congruence. }
  split; [exact H|].
  destruct (verify_accepts_exactly_bfs_trees 0 calloc64 [0; 1; 1; 2; 2; 2] 3 2 0 [0; 0; 1]
    H calloc64_ok) as (r & E & _ & Ht & _); [lia | simpl; lia |].
  exists r. split; [exact E|]. split; [exact Ht|].
  vm_compute in E. injection E as <-. reflexivity.
Defined.

(** C3: a tree that [verify_bfs_tree] accepts contains exactly the vertices
    that the root reaches by edges of the input, and its paths to the root are
    shortest: following the parents from [v] takes as many hops as the
    distance of [v] from the root. *)
Theorem verified_tree_shortest_paths load malloc IJ nedge max_bfsvtx root bfs_tree r :
  in_bounds (max_bfsvtx + 1) root bfs_tree ->
  alloc64_ok malloc ->
  0 <= nedge < 2 ^ 31 -> 2 * nedge <= zlen IJ ->
  verify_bfs_tree true load true malloc bfs_tree max_bfsvtx root IJ nedge = Ok r -> 0 <= r ->
  forall v, 0 <= v <= max_bfsvtx ->
    (0 <= zth 0 bfs_tree v <-> exists n, walk (adj IJ nedge) root n v) /\
    (0 <= zth 0 bfs_tree v -> exists n : nat,
       distance (adj IJ nedge) root v (Z.of_nat n) /\ up (zth 0 bfs_tree) n v = root).
Proof.
  intros Hib Hal Hn HIJ E Hr v Hv.
  destruct (verify_verdict IJ nedge max_bfsvtx root bfs_tree Hib load malloc Hal Hn HIJ)
    as (r' & E' & [(_ & _ & level & Hok & _)|[Hr' _]]); rewrite E in E'; injection E' as ->; [|lia].
  pose proof (adj_sym IJ nedge) as Hsym.
  pose proof (bfs_levels_are_distances _ _ _ _ _ Hsym Hok v) as Hin. unfold in_tree in Hin. split.
  - rewrite <- Hin. intuition lia.
  - intros Hp. assert (Hvt : in_tree (max_bfsvtx + 1) (zth 0 bfs_tree) v) by (split; [lia | done]).
    exists (Z.to_nat (level v)). pose proof (ok_level _ _ _ _ _ Hok v Hvt).
    rewrite Z2Nat.id by done. split; [by apply (level_is_distance _ (max_bfsvtx + 1) _ (zth 0 bfs_tree))|].
    by apply (up_root _ _ _ _ _ Hok).
Qed.

Lemma verified_tree_shortest_paths_witness :
  0 <= zth 0 [0; 0; 1] 2 <-> exists n, walk (adj [0; 1; 1; 2; 2; 2] 3) 0 n 2.
Proof.
  assert (H : in_bounds 3 0 [0; 0; 1]).
  { constructor; [simpl; lia | done | |]; intros v Hv;
      assert (v = 0 \/ v = 1 \/ v = 2) as [->|[->| ->]] by lia; vm_compute; congruence. }
  assert (E : verify_bfs_tree true 0 true calloc64 [0; 0; 1] 2 0 [0; 1; 1; 2; 2; 2] 3 = Ok 3)
    by (vm_compute; reflexivity).
  apply (verified_tree_shortest_paths 0 calloc64 [0; 1; 1; 2; 2; 2] 3 2 0 [0; 0; 1] 3
    H calloc64_ok ltac:(lia) ltac:(simpl; lia) E ltac:(lia) 2). lia.
Defined.
