(* ===== verification/SeqCsr.v ===== *)
(** * The sequential search kernel on compressed rows

    [seq-csr/seq-csr.c]: [create_graph_from_edgelist] counts degrees, lays the
    neighbour lists out one after the other, scatters the edges into them and
    sorts each without duplicates; [make_bfs_tree] searches the result.  The
    static variables of the file are the fields of the record [csr].

    The numbers are of type int64_t: sums that are stored or from which a size
    is computed are checked, and sizes in bytes wrap around in size_t.  The
    indices of arrays need no check of their own, an index outside the array
    being a fault. *)

From stdpp Require Import sorting.
From S2P Require Import Prelude GraphGen Bfs.

Definition MINVECT_SIZE : Z := 2.

Record csr := mk_csr {
  maxvtx : Z; nv : Z; sz : Z;
  xoff : list Z;       (** length 2*nv+2 *)
  xadjstore : list Z   (** [xadj] is [&xadjstore[MINVECT_SIZE]] *)
}.

Definition get_xadj (g : csr) (k : Z) : res Z := (xadjstore g).[MINVECT_SIZE + k].
Definition set_xadj (g : csr) (k v : Z) : res csr :=
  s ← (xadjstore g).[MINVECT_SIZE + k <- v]; Ok (mk_csr (maxvtx g) (nv g) (sz g) (xoff g) s).

(** XOFF(k) and XENDOFF(k) *)
Definition XOFF (g : csr) (k : Z) : res Z := (xoff g).[2 * k].
Definition XENDOFF (g : csr) (k : Z) : res Z := (xoff g).[1 + 2 * k].
Definition set_xoff (g : csr) (k v : Z) : res csr :=
  x ← (xoff g).[k <- v]; Ok (mk_csr (maxvtx g) (nv g) (sz g) x (xadjstore g)).

(** ** Building the graph *)

Definition find_nv (IJ : list packed_edge) (nedge : Z) : res (Z * Z) :=
  maxvtx ← for_range 0 nedge (fun k maxvtx =>
    e ← IJ.[k];
    let maxvtx := if maxvtx <? get_v0_from_edge e then get_v0_from_edge e else maxvtx in
    let maxvtx := if maxvtx <? get_v1_from_edge e then get_v1_from_edge e else maxvtx in
    Ok maxvtx) (-1);
  nv ← chk 64 (1 + maxvtx);
  Ok (maxvtx, nv).

(** The error code with the state: [None] stands for a null pointer. *)
Definition alloc_graph (malloc : alloc64) (maxvtx nv : Z) : res (option csr) :=
  n ← chk 64 (2 * nv);
  n ← chk 64 (n + 2);
  let sz := i64 (size_of 8 n) in
  Ok (match malloc (u64 sz) with
      | None => None
      | Some xoff => Some (mk_csr maxvtx nv sz xoff [])
      end).

Definition count_degrees (IJ : list packed_edge) (k : Z) (g : csr) : res csr :=
  e ← IJ.[k];
  let i := get_v0_from_edge e in
  let j := get_v1_from_edge e in
  if negb (i =? j) then
    g ← (if 0 <=? i then x ← XOFF g i; x ← chk 64 (x + 1); set_xoff g (2 * i) x else Ok g);
    if 0 <=? j then x ← XOFF g j; x ← chk 64 (x + 1); set_xoff g (2 * j) x else Ok g
  else Ok g.

Definition setup_deg_off (malloc : alloc64) (IJ : list packed_edge) (nedge : Z) (g : csr)
    : res (option csr) :=
  g ← for_range 0 (2 * nv g + 2) (fun k g => set_xoff g k 0) g;
  g ← for_range 0 nedge (count_degrees IJ) g;
  '(g, accum) ← for_range 0 (nv g) (fun k '(g, accum) =>
    tmp ← XOFF g k;
    let tmp := if tmp <? MINVECT_SIZE then MINVECT_SIZE else tmp in
    g ← set_xoff g (2 * k) accum;
    accum ← chk 64 (accum + tmp);
    Ok (g, accum)) (g, 0);
  g ← set_xoff g (2 * nv g) accum;
  g ← for_range 0 (nv g) (fun k g => x ← XOFF g k; set_xoff g (1 + 2 * k) x) g;
  n ← chk 64 (accum + MINVECT_SIZE);
  match malloc (size_of 8 n) with
  | None => Ok None
  | Some store =>
      store ← for_range 0 n (fun k store => store.[k <- -1]) store;
      Ok (Some (mk_csr (maxvtx g) (nv g) (sz g) (xoff g) store))
  end.

Definition scatter_edge (i j : Z) (g : csr) : res csr :=
  where_ ← XENDOFF g i;
  next ← chk 64 (where_ + 1);
  g ← set_xoff g (1 + 2 * i) next;
  set_xadj g where_ j.

Definition i64cmp (ia ib : Z) : Z := if ia <? ib then -1 else if ib <? ia then 1 else 0.

Definition i64_le (a b : Z) : Prop := i64cmp a b <= 0.
#[export] Instance i64_le_dec : RelDecision i64_le.
Proof. intros a b. unfold i64_le. apply _. Defined.

(** [qsort (&xadj[lo], n, sizeof( *xadj), i64cmp)]: the segment in the order
    of [i64cmp]; elements that compare equal are equal, so the order is unique. *)
Definition qsort_xadj (g : csr) (lo n : Z) : res csr :=
  let lo := MINVECT_SIZE + lo in
  if (0 <=? lo) && (0 <=? n) && (lo + n <=? zlen (xadjstore g)) then
    let s := xadjstore g in
    let seg := take (Z.to_nat n) (drop (Z.to_nat lo) s) in
    Ok (mk_csr (maxvtx g) (nv g) (sz g) (xoff g)
      (take (Z.to_nat lo) s ++ merge_sort i64_le seg ++
       drop (Z.to_nat (lo + n)) s))
  else Err OutOfBounds.

Definition pack_vtx_edges (i : Z) (g : csr) : res csr :=
  lo ← XOFF g i;
  hi ← XENDOFF g i;
  if hi <=? lo + 1 then Ok g else
  g ← qsort_xadj g lo (hi - lo);
  '(g, kcur) ← for_range (lo + 1) hi (fun k '(g, kcur) =>
    a ← get_xadj g k;
    b ← get_xadj g kcur;
    if negb (a =? b) then g ← set_xadj g (kcur + 1) a; Ok (g, kcur + 1) else Ok (g, kcur)) (g, lo);
  let kcur := kcur + 1 in
  g ← for_range kcur hi (fun k g => set_xadj g k (-1)) g;
  set_xoff g (1 + 2 * i) kcur.

Definition pack_edges (g : csr) : res csr := for_range 0 (nv g) pack_vtx_edges g.

Definition gather_edge (IJ : list packed_edge) (k : Z) (g : csr) : res csr :=
  e ← IJ.[k];
  let i := get_v0_from_edge e in
  let j := get_v1_from_edge e in
  if (0 <=? i) && (0 <=? j) && negb (i =? j) then
    g ← scatter_edge i j g; scatter_edge j i g
  else Ok g.

Definition gather_edges (IJ : list packed_edge) (nedge : Z) (g : csr) : res csr :=
  g ← for_range 0 nedge (gather_edge IJ) g;
  pack_edges g.

(** The result is the return code with the graph, which exists when it is 0. *)
Definition create_graph_from_edgelist (malloc : alloc64) (IJ : list packed_edge) (nedge : Z)
    : res (Z * option csr) :=
  '(maxvtx, nv) ← find_nv IJ nedge;
  g ← alloc_graph malloc maxvtx nv;
  match g with
  | None => Ok (-1, None)
  | Some g =>
      r ← setup_deg_off malloc IJ nedge g;
      match r with
      | None => Ok (-1, None)
      | Some g => g ← gather_edges IJ nedge g; Ok (0, Some g)
      end
  end.

(** ** Searching it *)

(** The neighbours of [v]; the state is the tree, the list and [k2]. *)
Definition scan_vertex (g : csr) (v : Z) : list Z * list Z * Z -> res (list Z * list Z * Z) :=
  fun s =>
    veo ← XENDOFF g v;
    vo ← XOFF g v;
    for_range vo veo (fun vo '(bfs_tree, vlist, k2) =>
      j ← get_xadj g vo;
      t ← bfs_tree.[j];
      if t =? -1 then
        bfs_tree ← bfs_tree.[j <- v];
        vlist ← vlist.[k2 <- j];
        Ok (bfs_tree, vlist, k2 + 1)
      else Ok (bfs_tree, vlist, k2)) s.

(** The search; every level but the last adds a vertex, so [nv + 1] levels
    are enough.  [xmalloc_large] does not return without memory, so the test
    of its result never fails. *)
Definition make_bfs_tree (malloc : alloc64) (g : csr) (bfs_tree_out : list Z) (srcvtx : Z)
    : res (Z * list Z * Z) :=
  let max_vtx_out := maxvtx g in
  vlist ← xmalloc_large malloc (size_of 8 (nv g));
  bfs_tree ← for_range 0 (nv g) (fun k1 t => t.[k1 <- -1]) bfs_tree_out;
  vlist ← vlist.[0 <- srcvtx];
  bfs_tree ← bfs_tree.[srcvtx <- srcvtx];
  '(bfs_tree, _, _, _) ← while (S (Z.to_nat (nv g)))
    (fun '(bfs_tree, vlist, k1, k2) => Ok (negb (k1 =? k2)))
    (fun '(bfs_tree, vlist, k1, k2) =>
       let oldk2 := k2 in
       '(bfs_tree, vlist, k2) ← for_range k1 oldk2 (fun k '(bfs_tree, vlist, k2) =>
         v ← vlist.[k]; scan_vertex g v (bfs_tree, vlist, k2)) (bfs_tree, vlist, k2);
       Ok (bfs_tree, vlist, oldk2, k2))
    (bfs_tree, vlist, 0, 1);
  Ok (0, bfs_tree, max_vtx_out).

(** ** What a graph is *)

(** Fewer edges and smaller vertices than with which the arrays of the graph,
    of 2*nv+2 and of at most 2*nv+2*nedge+2 numbers, reach 2^64 bytes.  The
    bound on the number of edges holds of every edge list in memory. *)
Definition fits (IJ : list packed_edge) (nedge : Z) : Prop :=
  nedge < 2 ^ 59 /\ forall h e, 0 <= h < nedge -> IJ.[h] = Ok e -> v0 e < 2 ^ 59 - 1 /\ v1 e < 2 ^ 59 - 1.

Lemma fits_forall IJ nedge : nedge < 2 ^ 59 -> Forall (fun e => v0 e < 2 ^ 59 - 1 /\ v1 e < 2 ^ 59 - 1) IJ ->
  fits IJ nedge.
Proof.
  intros Hn He. split; [done|]. intros h e Hh E. rewrite list.Forall_forall in He. apply He.
  apply (aget_Ok_inv default_edge) in E as [Hr ->]. by apply zth_In.
Qed.

(** The graph of an edge list: self-loops and negative ends are left out. *)
Definition edge_adj (IJ : list packed_edge) (nedge u v : Z) : Prop :=
  u <> v /\ 0 <= u /\ 0 <= v /\ exists h e, 0 <= h < nedge /\ IJ.[h] = Ok e /\
    ((v0 e = u /\ v1 e = v) \/ (v0 e = v /\ v1 e = u)).

Lemma edge_adj_sym IJ nedge u v : edge_adj IJ nedge u v -> edge_adj IJ nedge v u.
Proof.
  intros (Hne & Hu & Hv & h & e & Hh & He & Hc). split_and!; [done..|]. exists h, e. tauto.
Qed.

Abbreviation off g v := (zth 0 (xoff g) (2 * v)).
Abbreviation endoff g v := (zth 0 (xoff g) (1 + 2 * v)).
Abbreviation xadj g k := (zth 0 (xadjstore g) (MINVECT_SIZE + k)).

(** The rows of [g] are the sorted neighbour lists of a graph: segments inside
    the store, in which each neighbour occurs once. *)
Record csr_ok (adj : Z -> Z -> Prop) (g : csr) : Prop := {
  csr_nv : nv g = 1 + maxvtx g /\ 0 <= nv g < 2 ^ 59;
  csr_length : zlen (xoff g) = 2 * nv g + 2;
  csr_segment : forall v, 0 <= v < nv g ->
    0 <= off g v <= endoff g v /\ MINVECT_SIZE + endoff g v <= zlen (xadjstore g);
  csr_nbrs : forall v w, 0 <= v < nv g ->
    (exists k, off g v <= k < endoff g v /\ xadj g k = w) <-> adj v w;
  csr_sorted : forall v a b, 0 <= v < nv g -> off g v <= a -> a < b < endoff g v ->
    xadj g a < xadj g b;
  csr_range : forall v w, adj v w -> 0 <= w < nv g }.

(** ** The search *)

Section SearchFacts.
Context (adj : Z -> Z -> Prop) (g : csr) (root : Z).
Hypothesis Hg : csr_ok adj g.
Hypothesis Hsym : forall u v, adj u v -> adj v u.
Hypothesis Hroot : 0 <= root < nv g.

(** Row [v]. *)
Definition row (v : Z) : list Z := map (fun k => xadj g k) (seqZ (off g v) (endoff g v - off g v)).

Lemma row_adj v w : 0 <= v < nv g -> w ∈ row v <-> adj v w.
Proof.
  intros Hv. rewrite <- (csr_nbrs _ _ Hg) by done. unfold row. rewrite list_elem_of_fmap.
  split.
  - intros (k & -> & Hk%elem_of_seqZ). exists k. split; [lia | done].
  - intros (k & Hk & <-). exists k. split; [done|]. apply elem_of_seqZ. lia.
Qed.

Abbreviation inv := (search_inv adj (nv g) root row).
Abbreviation holds := (holds (nv g)).

Lemma scan_vertex_ok k v tree vlist queue k2 level :
  holds vlist k2 queue -> inv k [] tree queue level -> queue !! k = Some v ->
  exists tree' vlist' k2' queue' level', scan_vertex g v (tree, vlist, k2) = Ok (tree', vlist', k2') /\
    zlen tree' = zlen tree /\ queue `prefix_of` queue' /\
    holds vlist' k2' queue' /\ inv (S k) [] tree' queue' level'.
Proof.
  intros Hh Hi Hv. assert (Hvq : v ∈ queue) by (by eapply list_elem_of_lookup_2).
  pose proof (si_range _ _ _ _ _ _ _ _ _ Hi v Hvq) as Hvr.
  destruct (csr_segment _ _ Hg v Hvr) as [Hseg Hstore].
  pose proof (csr_length _ _ Hg). unfold scan_vertex, XOFF, XENDOFF.
  rewrite !(aget_ok 0) by lia. cbn [mbind res_bind].
  match goal with |- context [for_range ?lo ?hi ?f ?s0] =>
    destruct (for_range_inv (fun vo '(t, vl, k2') => exists queue' level',
        zlen t = zlen tree /\ queue `prefix_of` queue' /\ holds vl k2' queue' /\
        inv k (map (fun k => xadj g k) (seqZ lo (vo - lo))) t queue' level') f lo hi s0)
      as ([[t vl] k2'] & -> & queue' & level' & Hlt & Hpre & Hh' & Hi') end.
  - lia.
  - exists queue, level. rewrite Z.sub_diag. split_and!; done.
  - intros vo [[t vl] k2'] Hvo (queue' & level' & Hlt & Hpre & Hh' & Hi').
    assert (Hv' : queue' !! k = Some v) by (by eapply prefix_lookup_Some).
    assert (Hj : xadj g vo ∈ row v).
    { unfold row. apply list_elem_of_fmap. exists vo. split; [done|]. apply elem_of_seqZ. lia. }
    pose proof (csr_range _ _ Hg v (xadj g vo) ltac:(by apply row_adj)) as Hjr.
    destruct (search_visit adj (nv g) root row row_adj (csr_range _ _ Hg) Hsym Hroot _ _ _ _ _ _ _ Hi' Hv' Hj)
      as [level'' Hi''].
    pose proof (si_length _ _ _ _ _ _ _ _ _ Hi') as Htl.
    unfold get_xadj. rewrite (aget_ok 0 (xadjstore g)) by (unfold MINVECT_SIZE in *; lia).
    cbn [mbind res_bind]. rewrite (aget_ok 0 t) by lia. cbn [mbind res_bind].
    replace (vo + 1 - off g v) with (vo - off g v + 1) by lia.
    rewrite seqZ_app, map_app by lia. replace (off g v + (vo - off g v)) with vo by lia.
    change (map (fun k => xadj g k) (seqZ vo 1)) with [xadj g vo].
    unfold visit in Hi''. destruct (Z.eqb_spec (zth 0 t (xadj g vo)) (-1)) as [E|E]; cbn [fst snd] in Hi''.
    + rewrite (aset_ok t) by lia. cbn [mbind res_bind].
      destruct (holds_push (nv g) vl k2' queue' (xadj g vo) Hh') as (vl' & -> & Hh'').
      { eapply search_room; [exact Hroot | exact Hi' | exact Hjr | exact E]. }
      cbn [mbind res_bind]. eexists; split; [done|]. exists (queue' ++ [xadj g vo]), level''.
      split_and!; [by rewrite length_insert | by apply prefix_app_r | done | done].
    + eexists; split; [done|]. exists queue', level''. split_and!; done.
  - exists t, vl, k2', queue', level'. split_and!; [done..|].
    eapply search_next; [exact Hi' | by eapply prefix_lookup_Some |]. unfold row. done.
Qed.

(** One level: the vertices from [k1] up to the old [k2]. *)
Lemma search_level_ok tree vlist k1 k2 queue level : 0 <= k1 <= k2 ->
  holds vlist k2 queue -> inv (Z.to_nat k1) [] tree queue level ->
  exists tree' vlist' k2' queue' level',
    for_range k1 k2 (fun k '(t, vl, k2) => v ← vl.[k]; scan_vertex g v (t, vl, k2)) (tree, vlist, k2)
      = Ok (tree', vlist', k2') /\
    zlen tree' = zlen tree /\ holds vlist' k2' queue' /\ k2 <= k2' /\
    inv (Z.to_nat k2) [] tree' queue' level'.
Proof.
  intros Hk Hh Hi.
  match goal with |- context [for_range ?lo ?hi ?f ?s0] =>
    destruct (for_range_inv (fun k '(t, vl, k2') => exists queue' level',
        zlen t = zlen tree /\ holds vl k2' queue' /\ k2 <= k2' /\
        inv (Z.to_nat k) [] t queue' level') f lo hi s0)
      as ([[t vl] k2'] & -> & queue' & level' & ? & ? & ? & ?) end.
  - lia.
  - exists queue, level. split_and!; (done || lia).
  - intros k [[t vl] k2'] Hkr (queue' & level' & Hlt & Hh' & Hle & Hi').
    destruct (holds_get (nv g) vl k2' queue' k Hh') as (v & -> & Hv); [lia|]. cbn [mbind res_bind].
    destruct (scan_vertex_ok _ v t vl queue' k2' level' Hh' Hi' Hv)
      as (t' & vl' & k2'' & queue'' & level'' & -> & Hlt' & Hpre & Hh'' & Hi'').
    eexists; split; [done|]. exists queue'', level''. split_and!; [lia | done | |].
    + destruct Hh' as (_ & -> & _), Hh'' as (_ & -> & _). apply prefix_length in Hpre. lia.
    + by replace (Z.to_nat (k + 1)) with (S (Z.to_nat k)) by lia.
  - exists t, vl, k2', queue', level'. done.
Qed.

Lemma make_bfs_tree_ok malloc bfs_tree_out : alloc64_ok malloc -> nv g <= zlen bfs_tree_out ->
  exists tree level, make_bfs_tree malloc g bfs_tree_out root = Ok (0, tree, maxvtx g) /\
    zlen tree = zlen bfs_tree_out /\
    bfs_tree_ok adj (nv g) root (zth 0 tree) level /\
    (forall v, 0 <= v < nv g -> -1 <= zth 0 tree v < nv g) /\
    (forall v, 0 <= v < nv g -> v <> root -> zth 0 tree v <> v).
Proof.
  intros Hm Hout. unfold make_bfs_tree.
  destruct (xmalloc_size 8 malloc (nv g)) as (vlist & -> & Hvl); [lia | done | lia | |].
  { pose proof (csr_nv _ _ Hg). lia. }
  cbn [mbind res_bind].
  destruct (for_range_inv (fun k t => zlen t = zlen bfs_tree_out /\ forall v, 0 <= v < k -> zth 0 t v = -1)
    (fun k1 t => t.[k1 <- -1]) 0 (nv g) bfs_tree_out) as (tree0 & -> & Hl0 & Ht0).
  { lia. }
  { split; [done | lia]. }
  { intros k t Hk [Hl Ht]. rewrite aset_ok by lia. eexists; split; [done|].
    split; [by rewrite length_insert|]. intros v Hv. rewrite zth_insert by lia.
    destruct (Z.eqb_spec v k); [done | apply Ht; lia]. }
  cbn [mbind res_bind]. rewrite (aset_ok vlist) by lia. cbn [mbind res_bind].
  rewrite aset_ok by lia. cbn [mbind res_bind].
  match goal with |- context [while ?f ?c ?b ?s0] =>
    destruct (while_ghost (fun n '(t, vl, k1, k2) => exists queue level,
        n = Z.to_nat (nv g - k2 + (if k1 =? k2 then 0 else 1)) /\ 0 <= k1 <= k2 /\
        zlen t = zlen bfs_tree_out /\ holds vl k2 queue /\ inv (Z.to_nat k1) [] t queue level) c b)
      with (fuel := f) (n := Z.to_nat (nv g)) (s := s0)
      as (n & [[[t vl] k1] k2] & -> & (queue & level & _ & Hk & Hlt & Hh & Hi) & Hc) end.
  - intros n [[[t vl] k1] k2] (queue & level & -> & Hk & Hlt & Hh & Hi).
    destruct (Z.eqb_spec k1 k2) as [->|Hne]; [by left | right; split; [done|]].
    destruct (search_level_ok t vl k1 k2 queue level Hk Hh Hi)
      as (t' & vl' & k2' & queue' & level' & -> & Hlt' & Hh' & Hle & Hi').
    cbn [mbind res_bind]. eexists _, _. split; [done|].
    pose proof (holds_bound _ _ _ _ Hroot _ _ _ _ _ _ _ Hh Hi). pose proof (holds_bound _ _ _ _ Hroot _ _ _ _ _ _ _ Hh' Hi').
    split; [exists queue', level'; split_and!; try reflexivity; try done; lia|].
    destruct (Z.eqb_spec k2 k2'); lia.
  - lia.
  - exists [root], (fun _ => 0). split_and!; try done; try lia.
    + cbn [Z.eqb]. lia.
    + by rewrite length_insert.
    + unfold holds. rewrite length_insert. split_and!; [done..|].
      destruct vlist; [simpl in *; lia | done].
    + apply search_start; [done | rewrite length_insert; lia |]. intros v Hv.
      rewrite zth_insert by lia. destruct (Z.eqb_spec v root); [done | by apply Ht0].
  - exists t, level. cbn [mbind res_bind]. split; [done|]. split; [done|].
    injection Hc as Hc%negb_false_iff%Z.eqb_eq. subst k2. destruct Hh as (_ & Ek & _).
    rewrite Ek, Nat2Z.id in Hi.
    exact (search_done adj (nv g) root row row_adj Hsym Hroot _ _ _ _ Hi).
Qed.
End SearchFacts.

(** ** The layout of the rows *)

Section Build.
Context (IJ : list packed_edge) (nedge : Z).
Hypothesis Hnedge : 0 <= nedge <= zlen IJ.
Hypothesis Hfits : fits IJ nedge.

Abbreviation edge h := (zth default_edge IJ h).

(** What edge [h] adds to the degree of [v], and to its row. *)
Definition incident (h v : Z) : Z :=
  if v0 (edge h) =? v1 (edge h) then 0
  else (if v0 (edge h) =? v then 1 else 0) + (if v1 (edge h) =? v then 1 else 0).

Definition half (h v : Z) : list Z :=
  if (0 <=? v0 (edge h)) && (0 <=? v1 (edge h)) && negb (v0 (edge h) =? v1 (edge h)) then
    if v0 (edge h) =? v then [v1 (edge h)] else if v1 (edge h) =? v then [v0 (edge h)] else []
  else [].

Fixpoint deg (n : nat) (v : Z) : Z :=
  match n with O => 0 | S n => deg n v + incident (Z.of_nat n) v end.
Fixpoint nb (n : nat) (v : Z) : list Z :=
  match n with O => [] | S n => nb n v ++ half (Z.of_nat n) v end.

(** The room for row [v], and where it starts. *)
Definition cap (v : Z) : Z := Z.max MINVECT_SIZE (deg (Z.to_nat nedge) v).
Fixpoint start_nat (n : nat) : Z :=
  match n with O => 0 | S n => start_nat n + cap (Z.of_nat n) end.
Definition start (v : Z) : Z := start_nat (Z.to_nat v).

Lemma incident_nonneg h v : 0 <= incident h v.
Proof. unfold incident. repeat case_match; lia. Qed.

Lemma deg_mono n m v : (n <= m)%nat -> 0 <= deg n v <= deg m v.
Proof.
  intros H. induction H as [|m H IH].
  - induction n as [|n IHn]; simpl; [lia|]. pose proof (incident_nonneg (Z.of_nat n) v). lia.
  - simpl. pose proof (incident_nonneg (Z.of_nat m) v). lia.
Qed.

Lemma nb_deg n v : zlen (nb n v) <= deg n v.
Proof.
  induction n as [|n IH]; simpl; [lia|]. rewrite length_app.
  assert (zlen (half (Z.of_nat n) v) <= incident (Z.of_nat n) v); [|lia].
  unfold half, incident. destruct (_ && _) eqn:E.
  - apply andb_true_iff in E as [_ E]. apply negb_true_iff in E. rewrite E.
    repeat case_match; simpl; lia.
  - repeat case_match; simpl; lia.
Qed.

Lemma nb_mono n m v : (n <= m)%nat -> zlen (nb n v) <= zlen (nb m v).
Proof. intros H. induction H as [|m H IH]; [lia|]. simpl. rewrite length_app. lia. Qed.

Lemma nb_cap n v : (n <= Z.to_nat nedge)%nat -> zlen (nb n v) <= cap v.
Proof.
  intros Hn. pose proof (nb_deg n v). pose proof (deg_mono n (Z.to_nat nedge) v Hn). unfold cap. lia.
Qed.

Lemma cap_pos v : 2 <= cap v.
Proof. unfold cap, MINVECT_SIZE. lia. Qed.

Lemma start_succ v : 0 <= v -> start (v + 1) = start v + cap v.
Proof.
  intros Hv. unfold start. replace (Z.to_nat (v + 1)) with (S (Z.to_nat v)) by lia. simpl.
  by rewrite Z2Nat.id.
Qed.

(** Rows do not overlap. *)
Lemma start_mono u v : 0 <= u < v -> 0 <= start u /\ start u + cap u <= start v.
Proof.
  intros H. assert (Hs : 0 <= start u).
  { unfold start. generalize (Z.to_nat u) as n. induction n as [|n IH]; simpl; [lia|].
    pose proof (cap_pos (Z.of_nat n)). lia. }
  split; [done|]. rewrite <- start_succ by lia.
  replace v with (u + 1 + Z.of_nat (Z.to_nat (v - (u + 1)))) by lia.
  generalize (Z.to_nat (v - (u + 1))) as n. induction n as [|n IH]; [replace (u + 1 + Z.of_nat 0) with (u + 1) by lia; lia|].
  replace (u + 1 + Z.of_nat (S n)) with (u + 1 + Z.of_nat n + 1) by lia.
  rewrite (start_succ (u + 1 + Z.of_nat n)) by lia. pose proof (cap_pos (u + 1 + Z.of_nat n)). lia.
Qed.

Lemma start_nonneg v : 0 <= start v.
Proof.
  destruct (Z.leb_spec 0 v).
  - apply (start_mono v (v + 1)). lia.
  - unfold start. by rewrite Z2Nat.nonpos by lia.
Qed.

(** *** The room for all rows *)

Fixpoint total (f : Z -> Z) (n : nat) : Z :=
  match n with O => 0 | S n => total f n + f (Z.of_nat n) end.

Lemma total_mono f g n : (forall v, f v <= g v) -> total f n <= total g n.
Proof. intros H. induction n as [|n IH]; cbn; [lia|]. specialize (H (Z.of_nat n)). lia. Qed.

Lemma total_add f g n : total (fun v => f v + g v) n = total f n + total g n.
Proof. induction n as [|n IH]; cbn; lia. Qed.

Lemma total_const c n : total (fun _ => c) n = c * Z.of_nat n.
Proof. induction n as [|n IH]; cbn; lia. Qed.

Lemma total_point a n : total (fun v => if a =? v then 1 else 0) n = if (0 <=? a) && (a <? Z.of_nat n) then 1 else 0.
Proof.
  induction n as [|n IH]; cbn [total]; [by destruct a|]. rewrite IH.
  destruct (Z.leb_spec 0 a), (Z.ltb_spec a (Z.of_nat n)), (Z.ltb_spec a (Z.of_nat (S n))), (Z.eqb_spec a (Z.of_nat n)); cbn [andb]; lia.
Qed.

(** An edge adds to two degrees, and once to each. *)
Lemma total_incident h n : total (incident h) n <= 2.
Proof.
  etransitivity; [apply (total_mono _ (fun v => (if v0 (edge h) =? v then 1 else 0) + (if v1 (edge h) =? v then 1 else 0)))|].
  - intros v. unfold incident. repeat case_match; lia.
  - rewrite total_add, !total_point. repeat case_match; lia.
Qed.

Lemma total_deg k n : total (deg k) n <= 2 * Z.of_nat k.
Proof.
  induction k as [|k IH]; [change (deg 0) with (fun _ : Z => 0); rewrite total_const; lia|].
  change (deg (S k)) with (fun v => deg k v + incident (Z.of_nat k) v).
  rewrite total_add. pose proof (total_incident (Z.of_nat k) n). lia.
Qed.

Lemma deg_bound k v : deg k v <= Z.of_nat k.
Proof.
  induction k as [|k IH]; cbn [deg]; [lia|]. assert (incident (Z.of_nat k) v <= 1); [|lia].
  unfold incident. destruct (Z.eqb_spec (v0 (edge (Z.of_nat k))) (v1 (edge (Z.of_nat k)))); repeat case_match; lia.
Qed.

Lemma start_bound v : 0 <= v -> start v <= 2 * v + 2 * nedge.
Proof.
  intros Hv. assert (E : forall n, start_nat n = total cap n) by (induction n as [|n IH]; cbn; congruence).
  unfold start. rewrite E. etransitivity; [apply (total_mono _ (fun v => 2 + deg (Z.to_nat nedge) v))|].
  - intros u. unfold cap, MINVECT_SIZE. pose proof (deg_mono 0 (Z.to_nat nedge) u ltac:(lia)). cbn in *. lia.
  - rewrite total_add, total_const. pose proof (total_deg (Z.to_nat nedge) (Z.to_nat v)). lia.
Qed.

(** Membership in a row of the whole list is adjacency. *)
Lemma in_half h v w : w ∈ half h v <->
  v <> w /\ 0 <= v /\ 0 <= w /\
  ((v0 (edge h) = v /\ v1 (edge h) = w) \/ (v0 (edge h) = w /\ v1 (edge h) = v)).
Proof.
  unfold half.
  destruct (Z.leb_spec 0 (v0 (edge h))), (Z.leb_spec 0 (v1 (edge h))),
    (Z.eqb_spec (v0 (edge h)) (v1 (edge h))); cbn [andb negb];
    try (rewrite elem_of_nil; lia).
  destruct (Z.eqb_spec (v0 (edge h)) v), (Z.eqb_spec (v1 (edge h)) v);
    rewrite ?list_elem_of_singleton, ?elem_of_nil; lia.
Qed.

Lemma in_nb n v w : w ∈ nb n v <-> exists h, (h < n)%nat /\ w ∈ half (Z.of_nat h) v.
Proof.
  induction n as [|n IH]; simpl.
  - rewrite elem_of_nil. split; [done|]. intros (h & Hh & _). lia.
  - rewrite elem_of_app, IH. split.
    + intros [(h & Hh & Hw)|Hw]; [exists h; split; [lia | done] | exists n; split; [lia | done]].
    + intros (h & Hh & Hw). destruct (decide (h = n)) as [->|]; [by right | left; exists h; split; [lia | done]].
Qed.

Lemma nb_adj v w : w ∈ nb (Z.to_nat nedge) v <-> edge_adj IJ nedge v w.
Proof.
  rewrite in_nb. unfold edge_adj. split.
  - intros (h & Hh & (Hne & Hv & Hw & Hc)%in_half). split_and!; [done..|].
    exists (Z.of_nat h), (edge (Z.of_nat h)). split; [lia|]. split; [apply aget_ok; lia | done].
  - intros (Hne & Hv & Hw & h & e & Hh & He & Hc).
    apply (aget_Ok_inv default_edge) in He as [_ ->].
    exists (Z.to_nat h). split; [lia|]. rewrite Z2Nat.id by lia. apply in_half. tauto.
Qed.

(** ** Offsets *)

(** The offset array of [g] holds [f] and [e]. *)
Record offsets (m : Z) (g : csr) (f e : Z -> Z) : Prop := {
  of_nv : nv g = m /\ nv g = 1 + maxvtx g /\ 0 <= nv g;
  of_length : zlen (xoff g) = 2 * m + 2;
  of_start : forall v, 0 <= v <= m -> off g v = f v;
  of_end : forall v, 0 <= v <= m -> endoff g v = e v }.

Definition upd {A} (f : Z -> A) (i : Z) (x : A) (v : Z) : A := if v =? i then x else f v.

Lemma offsets_ext m g f e f' e' : offsets m g f e ->
  (forall v, 0 <= v <= m -> f v = f' v) -> (forall v, 0 <= v <= m -> e v = e' v) -> offsets m g f' e'.
Proof.
  intros [Hnv Hlen Hs He] Hf He'. constructor; [done | done | |]; intros v Hv.
  - rewrite Hs by done. auto.
  - rewrite He by done. auto.
Qed.

Lemma get_off m g f e i : offsets m g f e -> 0 <= i <= m -> XOFF g i = Ok (f i).
Proof.
  intros H Hi. unfold XOFF. rewrite (aget_ok 0) by (rewrite (of_length _ _ _ _ H); lia).
  by rewrite (of_start _ _ _ _ H).
Qed.

Lemma get_endoff m g f e i : offsets m g f e -> 0 <= i <= m -> XENDOFF g i = Ok (e i).
Proof.
  intros H Hi. unfold XENDOFF. rewrite (aget_ok 0) by (rewrite (of_length _ _ _ _ H); lia).
  by rewrite (of_end _ _ _ _ H).
Qed.

Lemma set_off m g f e i x : offsets m g f e -> 0 <= i <= m ->
  exists g', set_xoff g (2 * i) x = Ok g' /\ offsets m g' (upd f i x) e /\ xadjstore g' = xadjstore g.
Proof.
  intros [Hnv Hlen Hs He] Hi. unfold set_xoff. rewrite aset_ok by lia. cbn [mbind res_bind].
  eexists; split; [done|]. split; [|done]. constructor; cbn [nv maxvtx xoff]; [done | | |].
  - by rewrite length_insert.
  - intros v Hv. rewrite zth_insert by lia. unfold upd.
    destruct (Z.eqb_spec v i), (Z.eqb_spec (2 * v) (2 * i)); (lia || auto).
  - intros v Hv. rewrite zth_insert by lia.
    destruct (Z.eqb_spec (1 + 2 * v) (2 * i)); (lia || auto).
Qed.

Lemma set_endoff m g f e i x : offsets m g f e -> 0 <= i <= m ->
  exists g', set_xoff g (1 + 2 * i) x = Ok g' /\ offsets m g' f (upd e i x) /\ xadjstore g' = xadjstore g.
Proof.
  intros [Hnv Hlen Hs He] Hi. unfold set_xoff. rewrite aset_ok by lia. cbn [mbind res_bind].
  eexists; split; [done|]. split; [|done]. constructor; cbn [nv maxvtx xoff]; [done | | |].
  - by rewrite length_insert.
  - intros v Hv. rewrite zth_insert by lia.
    destruct (Z.eqb_spec (2 * v) (1 + 2 * i)); (lia || auto).
  - intros v Hv. rewrite zth_insert by lia. unfold upd.
    destruct (Z.eqb_spec v i), (Z.eqb_spec (1 + 2 * v) (1 + 2 * i)); (lia || auto).
Qed.

(** *** find_nv *)

(** The largest end, or -1. *)
Definition max_end (m : Z) : Prop :=
  -1 <= m /\ (forall h, 0 <= h < nedge -> v0 (edge h) <= m /\ v1 (edge h) <= m) /\
  forall b, -1 <= b -> (forall h, 0 <= h < nedge -> v0 (edge h) <= b /\ v1 (edge h) <= b) -> m <= b.

Lemma fits_end m : max_end m -> 0 <= 1 + m < 2 ^ 59.
Proof.
  intros (H1 & _ & H2). destruct Hfits as [_ Hv]. enough (m <= 2 ^ 59 - 2) by lia. apply H2; [lia|].
  intros h Hh. destruct (Hv h (edge h) Hh); [by apply aget_ok; lia | lia].
Qed.

Lemma find_nv_ok : exists m, find_nv IJ nedge = Ok (m, 1 + m) /\ max_end m.
Proof.
  unfold find_nv.
  match goal with |- context [for_range 0 nedge ?f ?s0] =>
    destruct (for_range_inv (fun k m => -1 <= m /\
      (forall h, 0 <= h < k -> v0 (edge h) <= m /\ v1 (edge h) <= m) /\
      forall b, -1 <= b -> (forall h, 0 <= h < k -> v0 (edge h) <= b /\ v1 (edge h) <= b) -> m <= b)
      f 0 nedge s0) as (m & -> & Hm & Hall & Hmin) end.
  - lia.
  - split_and!; lia.
  - intros k m Hk (Hm & Hall & Hmin). rewrite (aget_ok default_edge) by lia. cbn [mbind res_bind].
    unfold get_v0_from_edge, get_v1_from_edge. eexists; split; [done|].
    split; [repeat case_match; lia|]. split.
    + intros h Hh. destruct (decide (h = k)) as [->|].
      * repeat case_match; lia.
      * specialize (Hall h ltac:(lia)). repeat case_match; lia.
    + intros b Hb Hends. destruct (Hends k ltac:(lia)).
      assert (m <= b) by (apply Hmin; [done|]; intros h Hh; apply Hends; lia).
      repeat case_match; lia.
  - cbn [mbind res_bind]. assert (Hm' : max_end m) by done. pose proof (fits_end m Hm').
    rewrite chk_ok by lia. exists m. done.
Qed.

Section Phases.
Context (m : Z) (Hm : 0 <= m < 2 ^ 59).
Hypothesis Hends : forall h, 0 <= h < nedge -> v0 (edge h) < m /\ v1 (edge h) < m.

Lemma zero_phase g : nv g = m -> nv g = 1 + maxvtx g -> zlen (xoff g) = 2 * m + 2 ->
  exists g', for_range 0 (2 * nv g + 2) (fun k g => set_xoff g k 0) g = Ok g' /\
    offsets m g' (fun _ => 0) (fun _ => 0).
Proof.
  intros Hnv Hmax Hlen. rewrite Hnv.
  destruct (for_range_inv (fun k g' => nv g' = m /\ nv g' = 1 + maxvtx g' /\ zlen (xoff g') = 2 * m + 2 /\
      forall i, 0 <= i < k -> zth 0 (xoff g') i = 0)
    (fun k g => set_xoff g k 0) 0 (2 * m + 2) g) as (g' & -> & Hnv' & Hmax' & Hlen' & Hz).
  - lia.
  - split_and!; (done || lia).
  - intros k g' Hk (Hnv' & Hmax' & Hlen' & Hz). unfold set_xoff. rewrite aset_ok by lia.
    cbn [mbind res_bind]. eexists; split; [done|]. cbn [nv maxvtx xoff]. rewrite length_insert.
    split_and!; [done..|]. intros i Hi. rewrite zth_insert by lia.
    destruct (Z.eqb_spec i k); [done | apply Hz; lia].
  - exists g'. split; [done|]. constructor; [split_and!; (done || lia) | done | |];
      intros v Hv; apply Hz; lia.
Qed.

Lemma count_phase g : offsets m g (fun _ => 0) (fun _ => 0) ->
  exists g', for_range 0 nedge (count_degrees IJ) g = Ok g' /\
    offsets m g' (deg (Z.to_nat nedge)) (fun _ => 0).
Proof.
  intros Hg.
  destruct (for_range_inv (fun k g' => offsets m g' (deg (Z.to_nat k)) (fun _ => 0))
    (count_degrees IJ) 0 nedge g) as (g' & -> & Hg'); [lia | done | | eauto].
  intros k g' Hk Hg'. unfold count_degrees. rewrite (aget_ok default_edge) by lia.
  cbn [mbind res_bind]. unfold get_v0_from_edge, get_v1_from_edge.
  destruct (Hends k Hk) as [H0 H1]. replace (Z.to_nat (k + 1)) with (S (Z.to_nat k)) by lia.
  destruct (Z.eqb_spec (v0 (edge k)) (v1 (edge k))) as [E|E]; cbn [negb].
  { eexists; split; [done|]. eapply offsets_ext; [done | | done]. intros v Hv. simpl.
    unfold incident. rewrite Z2Nat.id, E, Z.eqb_refl by lia. lia. }
  assert (Hdeg : forall v, 0 <= deg (Z.to_nat k) v < 2 ^ 59).
  { intros v. pose proof (deg_mono 0 (Z.to_nat k) v ltac:(lia)). pose proof (deg_bound (Z.to_nat k) v).
    destruct Hfits as [Hf _]. cbn in *. lia. }
  assert (Hstep1 : exists g1, (if 0 <=? v0 (edge k) then x ← XOFF g' (v0 (edge k)); x ← chk 64 (x + 1);
      set_xoff g' (2 * v0 (edge k)) x else Ok g') = Ok g1 /\
    offsets m g1 (fun v => deg (Z.to_nat k) v + (if v0 (edge k) =? v then 1 else 0)) (fun _ => 0)).
  { destruct (Z.leb_spec 0 (v0 (edge k))).
    - rewrite (get_off _ _ _ _ _ Hg') by lia. cbn [mbind res_bind].
      rewrite chk_ok by (specialize (Hdeg (v0 (edge k))); lia). cbn [mbind res_bind].
      destruct (set_off _ _ _ _ (v0 (edge k)) (deg (Z.to_nat k) (v0 (edge k)) + 1) Hg')
        as (g1 & -> & Hg1 & _); [lia|]. eexists; split; [done|].
      eapply offsets_ext; [exact Hg1 | | done]. intros v Hv. unfold upd.
      destruct (Z.eqb_spec v (v0 (edge k))), (Z.eqb_spec (v0 (edge k)) v); subst; lia.
    - eexists; split; [done|]. eapply offsets_ext; [exact Hg' | | done]. intros v Hv. simpl.
      destruct (Z.eqb_spec (v0 (edge k)) v); lia. }
  destruct Hstep1 as (g1 & -> & Hg1). cbn [mbind res_bind].
  destruct (Z.leb_spec 0 (v1 (edge k))).
  - rewrite (get_off _ _ _ _ _ Hg1) by lia. cbn [mbind res_bind].
    rewrite chk_ok by (specialize (Hdeg (v1 (edge k))); case_match; lia). cbn [mbind res_bind].
    match goal with |- context [set_xoff g1 _ ?x] =>
      destruct (set_off _ _ _ _ (v1 (edge k)) x Hg1) as (g2 & -> & Hg2 & _); [lia|] end.
    eexists; split; [done|]. eapply offsets_ext; [exact Hg2 | | done]. intros v Hv. simpl.
    unfold upd, incident. rewrite Z2Nat.id by lia.
    destruct (Z.eqb_spec (v0 (edge k)) (v1 (edge k))); [done|].
    destruct (Z.eqb_spec v (v1 (edge k))), (Z.eqb_spec (v1 (edge k)) v); subst; repeat case_match; lia.
  - eexists; split; [done|]. eapply offsets_ext; [exact Hg1 | | done]. intros v Hv. simpl.
    unfold incident. rewrite Z2Nat.id by lia.
    destruct (Z.eqb_spec (v0 (edge k)) (v1 (edge k))); [done|].
    destruct (Z.eqb_spec (v1 (edge k)) v); lia.
Qed.

Lemma accum_phase g : offsets m g (deg (Z.to_nat nedge)) (fun _ => 0) ->
  exists g', for_range 0 (nv g) (fun k '(g, accum) =>
      tmp ← XOFF g k;
      g ← set_xoff g (2 * k) accum;
      accum ← chk 64 (accum + (if tmp <? MINVECT_SIZE then MINVECT_SIZE else tmp));
      Ok (g, accum)) (g, 0) = Ok (g', start m) /\
    offsets m g' (fun v => if v <? m then start v else deg (Z.to_nat nedge) v) (fun _ => 0).
Proof.
  intros Hg. destruct (of_nv _ _ _ _ Hg) as (-> & _ & _).
  match goal with |- context [for_range 0 m ?f ?s0] =>
    destruct (for_range_inv (fun k '(g', accum) => accum = start k /\
      offsets m g' (fun v => if v <? k then start v else deg (Z.to_nat nedge) v) (fun _ => 0)) f 0 m s0)
      as ([g' accum] & -> & -> & Hg') end; [lia | | | eauto].
  - split; [done|]. eapply offsets_ext; [exact Hg | | done]. intros v Hv.
    destruct (Z.ltb_spec v 0); [lia | done].
  - intros k [g' accum] Hk [-> Hg'].
    rewrite (get_off _ _ _ _ _ Hg') by lia. cbn [mbind res_bind].
    destruct (set_off _ _ _ _ k (start k) Hg') as (g1 & -> & Hg1 & _); [lia|].
    cbn [mbind res_bind].
    match goal with |- context [chk 64 ?x] => assert (Ex : x = start (k + 1)) end.
    { rewrite start_succ by lia. unfold cap. destruct (Z.ltb_spec k k); [lia|]. case_match; lia. }
    rewrite Ex. pose proof (start_bound (k + 1) ltac:(lia)). pose proof (start_nonneg (k + 1)).
    destruct Hfits as [Hf _]. rewrite chk_ok by lia. cbn [mbind res_bind]. eexists; split; [done|]. split.
    + done.
    + eapply offsets_ext; [exact Hg1 | | done]. intros v Hv. unfold upd.
      destruct (Z.eqb_spec v k), (Z.ltb_spec v k), (Z.ltb_spec v (k + 1)); subst; lia.
Qed.

Lemma endoff_phase g : offsets m g start (fun _ => 0) ->
  exists g', for_range 0 (nv g) (fun k g => x ← XOFF g k; set_xoff g (1 + 2 * k) x) g = Ok g' /\
    offsets m g' start (fun v => if v <? m then start v else 0).
Proof.
  intros Hg. destruct (of_nv _ _ _ _ Hg) as (-> & _ & _).
  match goal with |- context [for_range 0 m ?f ?s0] =>
    destruct (for_range_inv (fun k g' => offsets m g' start (fun v => if v <? k then start v else 0)) f 0 m s0)
      as (g' & -> & Hg') end; [lia | | | eauto].
  - eapply offsets_ext; [exact Hg | done |]. intros v Hv. destruct (Z.ltb_spec v 0); [lia | done].
  - intros k g' Hk Hg'. rewrite (get_off _ _ _ _ _ Hg') by lia. cbn [mbind res_bind].
    destruct (set_endoff _ _ _ _ k (start k) Hg') as (g1 & -> & Hg1 & _); [lia|].
    eexists; split; [done|]. eapply offsets_ext; [exact Hg1 | done |]. intros v Hv. unfold upd.
    destruct (Z.eqb_spec v k), (Z.ltb_spec v k), (Z.ltb_spec v (k + 1)); subst; lia.
Qed.

(** *** Rows in the store *)

(** Row [v] of [g] is the list [L v], in its place. *)
Record rows (L : Z -> list Z) (g : csr) : Prop := {
  rw_offsets : exists e, offsets m g start e /\ forall v, 0 <= v < m -> e v = start v + zlen (L v);
  rw_cap : forall v, 0 <= v < m -> zlen (L v) <= cap v;
  rw_store : zlen (xadjstore g) = MINVECT_SIZE + start m;
  rw_elem : forall v t, 0 <= v < m -> 0 <= t < zlen (L v) -> xadj g (start v + t) = zth 0 (L v) t }.

(** Positions of different rows differ. *)
Lemma row_position u v s t : 0 <= u -> 0 <= v -> u <> v -> 0 <= s < cap u -> 0 <= t < cap v ->
  start u + s <> start v + t.
Proof.
  intros Hu Hv Hne Hs Ht. destruct (Z.lt_total u v) as [H|[H|H]]; [| done |].
  - pose proof (start_mono u v). lia.
  - pose proof (start_mono v u). lia.
Qed.

Lemma row_in_store v : 0 <= v < m -> 0 <= start v /\ start v + cap v <= start m.
Proof. intros Hv. apply start_mono. lia. Qed.

Lemma rows_ext L L' g : rows L g -> (forall v, 0 <= v < m -> L v = L' v) -> rows L' g.
Proof.
  intros [(e & He & Hev) Hc Hs Hel] HL. constructor.
  - exists e. split; [done|]. intros v Hv. by rewrite <- HL, Hev.
  - intros v Hv. rewrite <- HL by done. by apply Hc.
  - done.
  - intros v t Hv Ht. rewrite <- HL in * by done. by apply Hel.
Qed.

Lemma set_xadj_ok g k x : 0 <= k -> MINVECT_SIZE + k < zlen (xadjstore g) ->
  exists g', set_xadj g k x = Ok g' /\ nv g' = nv g /\ maxvtx g' = maxvtx g /\ xoff g' = xoff g /\
    zlen (xadjstore g') = zlen (xadjstore g) /\
    forall k', 0 <= k' -> xadj g' k' = if k' =? k then x else xadj g k'.
Proof.
  intros Hk Hlt. unfold set_xadj, MINVECT_SIZE in *. rewrite aset_ok by lia. cbn [mbind res_bind].
  eexists; split; [done|]. cbn [nv maxvtx xoff xadjstore]. rewrite length_insert.
  split_and!; [done..|]. intros k' Hk'. rewrite zth_insert by lia.
  destruct (Z.eqb_spec (2 + k') (2 + k)), (Z.eqb_spec k' k); lia || done.
Qed.

(** Offsets depend on the offset array only. *)
Lemma offsets_xoff g g' f e : offsets m g f e -> nv g' = nv g -> maxvtx g' = maxvtx g ->
  xoff g' = xoff g -> offsets m g' f e.
Proof.
  intros [Hnv Hlen Hs He] E1 E2 E3. constructor; rewrite ?E1, ?E2, ?E3; done.
Qed.

Lemma scatter_edge_ok L g i j : rows L g -> 0 <= i < m -> zlen (L i) < cap i ->
  exists g', scatter_edge i j g = Ok g' /\ rows (upd L i (L i ++ [j])) g'.
Proof.
  intros [(e & He & Hev) Hc Hs Hel] Hi Hlt. unfold scatter_edge.
  rewrite (get_endoff _ _ _ _ _ He) by lia. cbn [mbind res_bind]. rewrite Hev by done.
  destruct (row_in_store i Hi) as [Hi0 Him]. pose proof (start_bound m ltac:(lia)). destruct Hfits as [Hf _].
  rewrite chk_ok by lia. cbn [mbind res_bind].
  destruct (set_endoff _ _ _ _ i (start i + zlen (L i) + 1) He) as (g1 & -> & Hg1 & Est); [lia|].
  cbn [mbind res_bind].
  destruct (set_xadj_ok g1 (start i + zlen (L i)) j) as (g2 & -> & E1 & E2 & E3 & Hl2 & Hx);
    [lia | rewrite Est; lia |].
  eexists; split; [done|]. constructor.
  - eexists. split; [by apply (offsets_xoff g1)|]. intros v Hv. unfold upd.
    destruct (Z.eqb_spec v i) as [->|]; [rewrite length_app; simpl; lia | by apply Hev].
  - intros v Hv. unfold upd. destruct (Z.eqb_spec v i) as [->|]; [rewrite length_app; simpl; lia | by apply Hc].
  - by rewrite Hl2, Est.
  - intros v t Hv Ht. destruct (row_in_store v Hv) as [Hv0 _]. rewrite Hx by lia. rewrite Est. unfold upd in *.
    destruct (Z.eqb_spec v i) as [->|Hne].
    + rewrite length_app in Ht. simpl in Ht.
      destruct (Z.eqb_spec (start i + t) (start i + zlen (L i))).
      * rewrite zth_app_r by lia. by replace (t - zlen (L i)) with 0 by lia.
      * rewrite zth_app_l by lia. apply Hel; (done || lia).
    + pose proof (Hc v Hv).
      pose proof (row_position v i t (zlen (L i)) ltac:(lia) ltac:(lia) Hne ltac:(lia) ltac:(lia)).
      destruct (Z.eqb_spec (start v + t) (start i + zlen (L i))); [lia|]. by apply Hel.
Qed.

Lemma half_other h v : v <> v0 (edge h) -> v <> v1 (edge h) -> half h v = [].
Proof.
  intros H0 H1. unfold half. destruct (_ && _); [|done].
  destruct (Z.eqb_spec (v0 (edge h)) v); [lia|]. by destruct (Z.eqb_spec (v1 (edge h)) v); [lia|].
Qed.

Lemma gather_phase g : rows (fun _ => []) g ->
  exists g', for_range 0 nedge (gather_edge IJ) g = Ok g' /\ rows (nb (Z.to_nat nedge)) g'.
Proof.
  intros Hg.
  destruct (for_range_inv (fun k g' => rows (nb (Z.to_nat k)) g') (gather_edge IJ) 0 nedge g)
    as (g' & -> & Hg'); [lia | done | | eauto].
  intros k g' Hk Hg'. unfold gather_edge. rewrite (aget_ok default_edge) by lia.
  cbn [mbind res_bind]. unfold get_v0_from_edge, get_v1_from_edge.
  destruct (Hends k Hk) as [H0 H1]. replace (Z.to_nat (k + 1)) with (S (Z.to_nat k)) by lia.
  destruct ((0 <=? v0 (edge k)) && (0 <=? v1 (edge k)) && negb (v0 (edge k) =? v1 (edge k))) eqn:E.
  2: { eexists; split; [done|]. eapply rows_ext; [done|]. intros v Hv. simpl.
       unfold half. rewrite Z2Nat.id, E by lia. by rewrite app_nil_r. }
  rewrite !andb_true_iff, !Z.leb_le, negb_true_iff, Z.eqb_neq in E. destruct E as [[Ha Hb] Hne].
  assert (Hroom : forall v w, half k v = [w] -> zlen (nb (Z.to_nat k) v) < cap v).
  { intros v w Hh. pose proof (nb_cap (S (Z.to_nat k)) v ltac:(lia)) as Hc. simpl in Hc.
    rewrite Z2Nat.id, Hh, length_app in Hc by lia. simpl in Hc. lia. }
  assert (Hha : half k (v0 (edge k)) = [v1 (edge k)]).
  { unfold half. rewrite Z.eqb_refl. destruct (Z.leb_spec 0 (v0 (edge k))), (Z.leb_spec 0 (v1 (edge k))),
      (Z.eqb_spec (v0 (edge k)) (v1 (edge k))); (lia || done). }
  assert (Hhb : half k (v1 (edge k)) = [v0 (edge k)]).
  { unfold half. rewrite Z.eqb_refl. destruct (Z.leb_spec 0 (v0 (edge k))), (Z.leb_spec 0 (v1 (edge k))),
      (Z.eqb_spec (v0 (edge k)) (v1 (edge k))); (lia || done). }
  destruct (scatter_edge_ok _ g' (v0 (edge k)) (v1 (edge k)) Hg') as (g1 & -> & Hg1);
    [lia | by eapply Hroom |]. cbn [mbind res_bind].
  destruct (scatter_edge_ok _ g1 (v1 (edge k)) (v0 (edge k)) Hg1) as (g2 & -> & Hg2); [lia | |].
  { unfold upd. destruct (Z.eqb_spec (v1 (edge k)) (v0 (edge k))); [lia|]. by eapply Hroom. }
  eexists; split; [done|]. eapply rows_ext; [exact Hg2|]. intros v Hv. unfold upd. simpl.
  rewrite Z2Nat.id by lia.
  destruct (Z.eqb_spec v (v1 (edge k))) as [->|Hv1].
  - destruct (Z.eqb_spec (v1 (edge k)) (v0 (edge k))); [lia|]. by rewrite Hhb.
  - destruct (Z.eqb_spec v (v0 (edge k))) as [->|Hv0]; [by rewrite Hha|].
    by rewrite half_other, app_nil_r by done.
Qed.

(** *** Sorting a row *)

Definition ascending (l : list Z) : Prop :=
  forall a b, 0 <= a -> a < b < zlen l -> zth 0 l a < zth 0 l b.

Lemma i64_le_iff a b : i64_le a b <-> a <= b.
Proof. unfold i64_le, i64cmp. destruct (Z.ltb_spec a b), (Z.ltb_spec b a); lia. Qed.

#[local] Instance i64_le_trans : Transitive i64_le.
Proof. intros a b c. rewrite !i64_le_iff. lia. Qed.
#[local] Instance i64_le_total : Total i64_le.
Proof. intros a b. rewrite !i64_le_iff. lia. Qed.

Lemma sorted_zth l a b : StronglySorted i64_le l -> 0 <= a -> a < b < zlen l -> zth 0 l a <= zth 0 l b.
Proof.
  intros Hl. revert a b. induction Hl as [|x l Hl IH Hx]; intros a b Ha Hb; [simpl in Hb; lia|].
  destruct (Z.eq_dec a 0) as [->|].
  - replace (zth 0 (x :: l) b) with (zth 0 l (b - 1)).
    + apply i64_le_iff. rewrite Forall_forall in Hx. apply Hx, list_elem_of_In, zth_In. simpl in Hb. lia.
    + unfold zth. by replace (Z.to_nat b) with (S (Z.to_nat (b - 1))) by lia.
  - unfold zth. replace (Z.to_nat a) with (S (Z.to_nat (a - 1))) by lia.
    replace (Z.to_nat b) with (S (Z.to_nat (b - 1))) by lia. simpl. apply IH; simpl in Hb; lia.
Qed.

(** A segment replaced by a list of the same length. *)
Lemma zth_splice (s seg : list Z) lo k : 0 <= lo -> lo + zlen seg <= zlen s -> 0 <= k ->
  zth 0 (take (Z.to_nat lo) s ++ seg ++ drop (Z.to_nat (lo + zlen seg)) s) k =
  if (lo <=? k) && (k <? lo + zlen seg) then zth 0 seg (k - lo) else zth 0 s k.
Proof.
  intros Hlo Hlen Hk.
  assert (Htk : zlen (take (Z.to_nat lo) s) = lo) by (rewrite length_take; lia).
  destruct (Z.leb_spec lo k); cbn [andb].
  - rewrite zth_app_r by lia. rewrite Htk. destruct (Z.ltb_spec k (lo + zlen seg)).
    + by rewrite zth_app_l by lia.
    + rewrite zth_app_r by lia. unfold zth. rewrite nth_lookup, lookup_drop, <- nth_lookup. f_equal. lia.
  - rewrite zth_app_l by lia. unfold zth. rewrite nth_lookup, lookup_take_lt, <- nth_lookup by lia. done.
Qed.

(** The state of the store while row [lo, lo + n) is packed: everything else
    is as in [g0]. *)
Record packing (g0 g : csr) (lo n : Z) (front rest : list Z) (k : Z) : Prop := {
  pk_same : nv g = nv g0 /\ maxvtx g = maxvtx g0 /\ xoff g = xoff g0 /\
    zlen (xadjstore g) = zlen (xadjstore g0);
  pk_other : forall i, 0 <= i -> i < lo \/ lo + n <= i -> xadj g i = xadj g0 i;
  pk_front : forall t, 0 <= t < zlen front -> xadj g (lo + t) = zth 0 front t;
  pk_rest : forall t, k - lo <= t < n -> xadj g (lo + t) = zth 0 rest t }.

Lemma qsort_ok L g i : rows L g -> 0 <= i < m -> exists g' s,
  qsort_xadj g (start i) (zlen (L i)) = Ok g' /\ s ≡ₚ L i /\
  (forall a b, 0 <= a -> a < b < zlen s -> zth 0 s a <= zth 0 s b) /\
  packing g g' (start i) (zlen (L i)) [] s (start i).
Proof.
  intros Hg Hi. pose proof (rw_store _ _ Hg) as Hs. destruct (row_in_store i Hi) as [H0 H1].
  pose proof (rw_cap _ _ Hg i Hi) as Hc. unfold qsort_xadj, MINVECT_SIZE in *.
  destruct (Z.leb_spec 0 (2 + start i)), (Z.leb_spec 0 (zlen (L i))),
    (Z.leb_spec (2 + start i + zlen (L i)) (zlen (xadjstore g))); try lia. cbn [andb].
  set (seg := take (Z.to_nat (zlen (L i))) (drop (Z.to_nat (2 + start i)) (xadjstore g))).
  assert (Eseg : seg = L i).
  { apply (zth_ext 0).
    - unfold seg. rewrite length_take, length_drop. lia.
    - intros t Ht. unfold seg in *. rewrite length_take, length_drop in Ht.
      rewrite <- (rw_elem _ _ Hg i t Hi) by lia. unfold zth, MINVECT_SIZE.
      rewrite nth_lookup, lookup_take_lt, lookup_drop, <- nth_lookup by lia. f_equal. lia. }
  rewrite Eseg. set (s := merge_sort i64_le (L i)).
  assert (Hp : s ≡ₚ L i) by apply merge_sort_Permutation.
  assert (Hlen : zlen s = zlen (L i)) by (by rewrite Hp).
  eexists _, s. split; [done|]. split; [done|]. split.
  - intros a b. apply sorted_zth. apply StronglySorted_merge_sort; apply _.
  - rewrite <- Hlen. constructor; cbn [nv maxvtx xoff xadjstore].
    + split_and!; [done..|]. rewrite !length_app, length_take, length_drop. lia.
    + intros j Hj Hout. unfold MINVECT_SIZE. rewrite zth_splice by lia.
      destruct (Z.leb_spec (2 + start i) (2 + j)), (Z.ltb_spec (2 + j) (2 + start i + zlen s)); (lia || done).
    + simpl. lia.
    + intros t Ht. unfold MINVECT_SIZE. rewrite zth_splice by lia.
      destruct (Z.leb_spec (2 + start i) (2 + (start i + t))),
        (Z.ltb_spec (2 + (start i + t)) (2 + start i + zlen s)); try lia. cbn [andb]. f_equal. lia.
Qed.

(** The list without its repetitions, so far. *)
Record deduped (s p : list Z) (t : Z) : Prop := {
  dd_length : 1 <= zlen p <= t;
  dd_ascending : ascending p;
  dd_last : zth 0 p (zlen p - 1) = zth 0 s (t - 1);
  dd_elem : forall x, x ∈ p <-> exists u, 0 <= u < t /\ zth 0 s u = x }.

Lemma deduped_skip s p t : deduped s p t -> zth 0 s t = zth 0 p (zlen p - 1) -> deduped s p (t + 1).
Proof.
  intros [Hl Ha Hlast He] E. constructor; [lia | done | |].
  - by replace (t + 1 - 1) with t by lia.
  - intros x. rewrite He. split; intros (u & Hu & Ex).
    + exists u. split; [lia | done].
    + destruct (Z.eq_dec u t) as [->|]; [|exists u; split; [lia | done]].
      exists (t - 1). split; [lia|]. congruence.
Qed.

Lemma deduped_push s p t : deduped s p t -> zth 0 p (zlen p - 1) < zth 0 s t ->
  deduped s (p ++ [zth 0 s t]) (t + 1).
Proof.
  intros [Hl Ha Hlast He] Hlt.
  assert (Hlen : zlen (p ++ [zth 0 s t]) = zlen p + 1) by (rewrite length_app; simpl; lia).
  assert (Hnew : zth 0 (p ++ [zth 0 s t]) (zlen p) = zth 0 s t)
    by (rewrite zth_app_r, Z.sub_diag by lia; done).
  constructor; rewrite ?Hlen.
  - lia.
  - intros a b Ha0 Hb. rewrite Hlen in Hb. rewrite (zth_app_l _ _ _ a) by lia.
    destruct (Z.eq_dec b (zlen p)) as [->|].
    + rewrite Hnew. destruct (Z.eq_dec a (zlen p - 1)) as [->|]; [done|].
      pose proof (Ha a (zlen p - 1) ltac:(lia) ltac:(lia)). lia.
    + rewrite zth_app_l by lia. apply Ha; lia.
  - replace (zlen p + 1 - 1) with (zlen p) by lia. rewrite Hnew. by replace (t + 1 - 1) with t by lia.
  - intros x. rewrite elem_of_app, He, list_elem_of_singleton. split.
    + intros [(u & Hu & Ex)| ->]; [exists u | exists t]; (split; [lia | done]).
    + intros (u & Hu & Ex). destruct (Z.eq_dec u t) as [->|]; [by right | left].
      exists u. split; [lia | done].
Qed.

Lemma dedup_loop_ok g0 g1 lo n s : 0 <= lo -> MINVECT_SIZE + lo + n <= zlen (xadjstore g0) -> 2 <= n ->
  zlen s = n -> (forall a b, 0 <= a -> a < b < zlen s -> zth 0 s a <= zth 0 s b) ->
  packing g0 g1 lo n [] s lo ->
  exists g2 p, for_range (lo + 1) (lo + n) (fun k '(g, kcur) =>
      a ← get_xadj g k;
      b ← get_xadj g kcur;
      if negb (a =? b) then g ← set_xadj g (kcur + 1) a; Ok (g, kcur + 1) else Ok (g, kcur)) (g1, lo)
    = Ok (g2, lo + zlen p - 1) /\ deduped s p n /\ packing g0 g2 lo n p s (lo + n).
Proof.
  intros Hlo Hstore Hn Hs Hsort Hpk.
  match goal with |- context [for_range ?a ?b ?f ?s0] =>
    destruct (for_range_inv (fun k '(g, kcur) => exists p, kcur = lo + zlen p - 1 /\
        deduped s p (k - lo) /\ packing g0 g lo n p s k) f a b s0)
      as ([g2 kcur] & -> & p & -> & Hd & Hpk') end.
  - lia.
  - exists [zth 0 s 0]. cbn [length]. split; [lia|]. replace (lo + 1 - lo) with 1 by lia. split.
    + constructor; cbn [length]; [lia | intros a b; simpl; lia | done |].
      intros x. rewrite list_elem_of_singleton. split.
      * intros ->. exists 0. split; [lia | done].
      * intros (u & Hu & <-). by replace u with 0 by lia.
    + destruct Hpk as [Hsame Hother _ Hrest]. constructor; [done | done | | intros; apply Hrest; lia].
      intros t Ht. cbn [length] in Ht. replace t with 0 by lia. rewrite Hrest by lia. done.
  - intros k [g kcur] Hk (p & -> & Hd & Hpk').
    destruct (pk_same _ _ _ _ _ _ _ Hpk') as (E1 & E2 & E3 & E4).
    pose proof (dd_length _ _ _ Hd) as Hl. unfold get_xadj, MINVECT_SIZE in *.
    rewrite !(aget_ok 0) by lia. cbn [mbind res_bind].
    assert (Ea : zth 0 (xadjstore g) (2 + k) = zth 0 s (k - lo)).
    { rewrite <- (pk_rest _ _ _ _ _ _ _ Hpk' (k - lo)) by lia. unfold MINVECT_SIZE. f_equal. lia. }
    assert (Eb : zth 0 (xadjstore g) (2 + (lo + zlen p - 1)) = zth 0 p (zlen p - 1)).
    { rewrite <- (pk_front _ _ _ _ _ _ _ Hpk' (zlen p - 1)) by lia. unfold MINVECT_SIZE. f_equal. lia. }
    rewrite Ea, Eb. destruct (Z.eqb_spec (zth 0 s (k - lo)) (zth 0 p (zlen p - 1))) as [E|E]; cbn [negb].
    + eexists; split; [done|]. exists p. split; [done|]. replace (k + 1 - lo) with (k - lo + 1) by lia.
      split; [by apply deduped_skip|]. destruct Hpk' as [Hsame Hother Hfront Hrest].
      constructor; [done..|]. intros t Ht. apply Hrest. lia.
    + assert (Hlt : zth 0 p (zlen p - 1) < zth 0 s (k - lo)).
      { rewrite (dd_last _ _ _ Hd) in *. pose proof (Hsort (k - lo - 1) (k - lo) ltac:(lia) ltac:(lia)). lia. }
      destruct (set_xadj_ok g (lo + zlen p - 1 + 1) (zth 0 s (k - lo)))
        as (g' & -> & F1 & F2 & F3 & F4 & Fx); [lia | unfold MINVECT_SIZE; lia |].
      cbn [mbind res_bind]. eexists; split; [done|]. exists (p ++ [zth 0 s (k - lo)]).
      rewrite length_app. cbn [length]. split; [lia|].
      replace (k + 1 - lo) with (k - lo + 1) by lia.
      split; [by apply deduped_push|]. destruct Hpk' as [_ Hother Hfront Hrest]. constructor.
      * split_and!; congruence.
      * intros i Hi Hout. rewrite Fx by lia. destruct (Z.eqb_spec i (lo + zlen p - 1 + 1)); [lia|].
        by apply Hother.
      * intros t Ht. rewrite length_app in Ht. cbn [length] in Ht. rewrite Fx by lia.
        destruct (Z.eqb_spec (lo + t) (lo + zlen p - 1 + 1)).
        -- rewrite zth_app_r by lia. by replace (t - zlen p) with 0 by lia.
        -- rewrite zth_app_l by lia. apply Hfront. lia.
      * intros t Ht. rewrite Fx by lia. destruct (Z.eqb_spec (lo + t) (lo + zlen p - 1 + 1)); [lia|].
        apply Hrest. lia.
  - exists g2, p. split; [done|]. split; [|done]. by replace (lo + n - lo) with n in Hd by lia.
Qed.

(** A packed row: ascending, with the elements of [l]. *)
Definition packed_row (l p : list Z) : Prop := ascending p /\ (forall x, x ∈ p <-> x ∈ l) /\ zlen p <= zlen l.

Lemma short_row_packed l : zlen l <= 1 -> packed_row l l.
Proof. intros Hl. split; [|done]. intros a b Ha Hb. lia. Qed.

Lemma deduped_packed l s p : s ≡ₚ l -> deduped s p (zlen l) -> packed_row l p.
Proof.
  intros Hp [Hl Ha _ He]. split; [done|]. split; [|lia]. intros x. rewrite <- Hp, He. split.
  - intros (u & Hu & <-). apply zth_In. rewrite Hp. lia.
  - intros (u & Hu & Ex)%(In_zth 0). exists u. rewrite Hp in Hu. done.
Qed.

(** Clearing the tail of the row touches nothing in front of it. *)
Lemma clear_tail_ok g0 g lo n front kcur : 0 <= lo -> MINVECT_SIZE + lo + n <= zlen (xadjstore g0) ->
  zlen front <= n -> kcur = lo + zlen front -> packing g0 g lo n front [] (lo + n) ->
  exists g', for_range kcur (lo + n) (fun k g => set_xadj g k (-1)) g = Ok g' /\
    packing g0 g' lo n front [] (lo + n).
Proof.
  intros Hlo Hstore Hf -> Hpk. apply (for_range_inv (fun _ g => packing g0 g lo n front [] (lo + n)));
    [lia | done |].
  intros k g1 Hk [(E1 & E2 & E3 & E4) Hother Hfront _].
  destruct (set_xadj_ok g1 k (-1)) as (g' & -> & F1 & F2 & F3 & F4 & Fx); [lia | lia |].
  eexists; split; [done|]. constructor.
  - split_and!; congruence.
  - intros i Hi Hout. rewrite Fx by lia. destruct (Z.eqb_spec i k); [lia|]. by apply Hother.
  - intros t Ht. rewrite Fx by lia. destruct (Z.eqb_spec (lo + t) k); [lia|]. by apply Hfront.
  - intros t Ht. lia.
Qed.

Lemma pack_vtx_ok L g i : rows L g -> 0 <= i < m ->
  exists g' p, pack_vtx_edges i g = Ok g' /\ packed_row (L i) p /\ rows (upd L i p) g'.
Proof.
  intros Hg Hi. destruct (rw_offsets _ _ Hg) as (e & He & Hev).
  destruct (row_in_store i Hi) as [Hi0 Him]. pose proof (rw_cap _ _ Hg i Hi) as Hc.
  pose proof (rw_store _ _ Hg) as Hst. unfold pack_vtx_edges.
  rewrite (get_off _ _ _ _ _ He), (get_endoff _ _ _ _ _ He), Hev by lia. cbn [mbind res_bind].
  destruct (Z.leb_spec (start i + zlen (L i)) (start i + 1)) as [Hshort|Hlong].
  { exists g, (L i). split; [done|]. split; [apply short_row_packed; lia|].
    eapply rows_ext; [done|]. intros v Hv. unfold upd. by destruct (Z.eqb_spec v i) as [->|]. }
  replace (start i + zlen (L i) - start i) with (zlen (L i)) by lia.
  destruct (qsort_ok L g i Hg Hi) as (g1 & s & -> & Hp & Hsort & Hpk1). cbn [mbind res_bind].
  assert (Hls : zlen s = zlen (L i)) by (by rewrite Hp).
  destruct (dedup_loop_ok g g1 (start i) (zlen (L i)) s Hi0 ltac:(lia) ltac:(lia) Hls Hsort Hpk1)
    as (g2 & p & -> & Hd & Hpk2). cbn [mbind res_bind].
  pose proof (dd_length _ _ _ Hd) as Hlp.
  destruct (clear_tail_ok g g2 (start i) (zlen (L i)) p (start i + zlen p - 1 + 1))
    as (g3 & -> & Hpk3); [lia | lia | lia | lia | |].
  { destruct Hpk2 as [H1 H2 H3 _]. constructor; [done..|]. intros; lia. }
  cbn [mbind res_bind]. destruct Hpk3 as [(E1 & E2 & E3 & E4) Hother Hfront _].
  destruct (set_endoff _ _ _ _ i (start i + zlen p - 1 + 1) (offsets_xoff _ _ _ _ He E1 E2 E3))
    as (g4 & -> & Hg4 & Est); [lia|].
  exists g4, p. split; [done|]. split; [by eapply deduped_packed|]. constructor.
  - eexists. split; [exact Hg4|]. intros v Hv. unfold upd.
    destruct (Z.eqb_spec v i); [subst; lia | by apply Hev].
  - intros v Hv. unfold upd. destruct (Z.eqb_spec v i) as [->|]; [lia | by apply (rw_cap _ _ Hg)].
  - by rewrite Est, E4.
  - intros v t Hv Ht. rewrite Est. unfold upd in *. destruct (Z.eqb_spec v i) as [->|Hne].
    + by apply Hfront.
    + destruct (row_in_store v Hv). pose proof (rw_cap _ _ Hg v Hv).
      rewrite Hother; [by apply (rw_elem _ _ Hg) | lia |].
      destruct (Z.lt_total v i) as [Hlt|[Heq|Hlt]]; [| done |].
      * pose proof (start_mono v i). lia.
      * pose proof (start_mono i v). lia.
Qed.

Lemma pack_edges_ok L g : rows L g -> exists g' L', pack_edges g = Ok g' /\ rows L' g' /\
  forall v, 0 <= v < m -> packed_row (L v) (L' v).
Proof.
  intros Hg. unfold pack_edges. destruct (rw_offsets _ _ Hg) as (e & He & _).
  destruct (of_nv _ _ _ _ He) as (-> & _ & _).
  destruct (for_range_inv (fun k g' => exists L', rows L' g' /\
      (forall v, 0 <= v < k -> packed_row (L v) (L' v)) /\ (forall v, k <= v < m -> L' v = L v))
    pack_vtx_edges 0 m g) as (g' & -> & L' & Hg' & Hpk & _).
  - lia.
  - exists L. split_and!; [done | lia | done].
  - intros k g1 Hk (L1 & Hg1 & Hpk & Hrest).
    destruct (pack_vtx_ok L1 g1 k Hg1 Hk) as (g2 & p & -> & Hp & Hg2).
    eexists; split; [done|]. exists (upd L1 k p). split; [done|]. unfold upd. split.
    + intros v Hv. destruct (Z.eqb_spec v k) as [->|]; [|apply Hpk; lia].
      by rewrite Hrest in Hp by lia.
    + intros v Hv. destruct (Z.eqb_spec v k); [lia|]. apply Hrest. lia.
  - exists g', L'. split; [done|]. split; [done|]. intros v Hv. apply Hpk. lia.
Qed.

(** Packed rows are the graph. *)
Lemma rows_csr_ok g L : rows L g -> (forall v, 0 <= v < m -> packed_row (nb (Z.to_nat nedge) v) (L v)) ->
  csr_ok (edge_adj IJ nedge) g /\ nv g = m.
Proof.
  intros Hg Hpk. destruct (rw_offsets _ _ Hg) as (e & He & Hev).
  destruct (of_nv _ _ _ _ He) as (Hnv & Hmax & Hnv0).
  assert (Hseg : forall v, 0 <= v < m -> off g v = start v /\ endoff g v = start v + zlen (L v)).
  { intros v Hv. rewrite (of_start _ _ _ _ He), (of_end _ _ _ _ He), Hev by lia. done. }
  split; [constructor | done]; rewrite ?Hnv in *.
  - done.
  - apply (of_length _ _ _ _ He).
  - intros v Hv. destruct (Hseg v Hv) as [-> ->]. destruct (row_in_store v Hv).
    pose proof (rw_cap _ _ Hg v Hv). pose proof (rw_store _ _ Hg). lia.
  - intros v w Hv. destruct (Hseg v Hv) as [-> ->]. destruct (Hpk v Hv) as (_ & Hin & _).
    rewrite <- nb_adj, <- Hin. split.
    + intros (k & Hk & <-). replace k with (start v + (k - start v)) by lia.
      rewrite (rw_elem _ _ Hg) by lia. apply zth_In. lia.
    + intros (t & Ht & <-)%(In_zth 0). exists (start v + t). split; [lia|]. by apply (rw_elem _ _ Hg).
  - intros v a b Hv. destruct (Hseg v Hv) as [-> ->]. intros Ha Hb. destruct (Hpk v Hv) as (Hasc & _ & _).
    replace a with (start v + (a - start v)) by lia. replace b with (start v + (b - start v)) by lia.
    rewrite !(rw_elem _ _ Hg) by lia. apply Hasc; lia.
  - intros v w (Hne & Hv & Hw & h & ed & Hh & Hed & Hc).
    apply (aget_Ok_inv default_edge) in Hed as [_ ->]. destruct (Hends h Hh). lia.
Qed.

Lemma setup_ok malloc g : alloc64_ok malloc -> nv g = m -> nv g = 1 + maxvtx g ->
  zlen (xoff g) = 2 * m + 2 ->
  exists g', setup_deg_off malloc IJ nedge g = Ok (Some g') /\ rows (fun _ => []) g'.
Proof.
  intros Hal Hnv Hmax Hlen. unfold setup_deg_off.
  destruct (zero_phase g Hnv Hmax Hlen) as (g1 & -> & Hg1). cbn [mbind res_bind].
  destruct (count_phase g1 Hg1) as (g2 & -> & Hg2). cbn [mbind res_bind].
  destruct (accum_phase g2 Hg2) as (g3 & -> & Hg3). cbn [mbind res_bind].
  destruct (of_nv _ _ _ _ Hg3) as (E3 & _ & _).
  destruct (set_off _ _ _ _ m (start m) Hg3) as (g4 & Es & Hg4 & _); [lia|].
  rewrite E3, Es. cbn [mbind res_bind].
  destruct (endoff_phase g4) as (g5 & -> & Hg5).
  { eapply offsets_ext; [exact Hg4 | | done]. intros v Hv. unfold upd.
    destruct (Z.eqb_spec v m) as [->|]; [done|]. destruct (Z.ltb_spec v m); [done | lia]. }
  cbn [mbind res_bind]. pose proof (start_nonneg m).
  pose proof (start_bound m ltac:(lia)). destruct Hfits as [Hf _].
  rewrite chk_ok by (unfold MINVECT_SIZE; lia). cbn [mbind res_bind].
  destruct (alloc64_size malloc (start m + MINVECT_SIZE) Hal) as (store & -> & Hst);
    [unfold MINVECT_SIZE; lia|].
  destruct (for_range_inv (fun _ st => zlen st = start m + MINVECT_SIZE)
    (fun k st => st.[k <- -1]) 0 (start m + MINVECT_SIZE) store) as (st' & -> & Hst').
  { unfold MINVECT_SIZE. lia. }
  { done. }
  { intros k st Hk Hs. rewrite aset_ok by lia. eexists; split; [done|]. by rewrite length_insert. }
  cbn [mbind res_bind]. eexists; split; [done|]. constructor; cbn [xadjstore].
  - eexists. split; [by apply (offsets_xoff g5)|]. intros v Hv. simpl.
    destruct (Z.ltb_spec v m); lia.
  - intros v Hv. simpl. pose proof (cap_pos v). lia.
  - lia.
  - intros v t Hv Ht. simpl in Ht. lia.
Qed.
End Phases.

Lemma create_graph_ok malloc : alloc64_ok malloc ->
  exists g, create_graph_from_edgelist malloc IJ nedge = Ok (0, Some g) /\
    csr_ok (edge_adj IJ nedge) g /\ max_end (maxvtx g).
Proof.
  intros Hal. unfold create_graph_from_edgelist.
  destruct find_nv_ok as (mx & -> & Hmax). pose proof Hmax as (Hmx & Hends & _). cbn [mbind res_bind].
  pose proof (fits_end mx Hmax) as Hmx59.
  unfold alloc_graph. rewrite !chk_ok by lia. cbn [mbind res_bind]. rewrite chk_ok by lia. cbn [mbind res_bind].
  rewrite unsigned_signed, (unsigned_small 64) by (lia || apply unsigned_range; lia).
  destruct (alloc64_size malloc (2 * (1 + mx) + 2) Hal) as (xo & -> & Hxo); [lia|]. cbn [mbind res_bind].
  assert (Hends' : forall h, 0 <= h < nedge -> v0 (edge h) < 1 + mx /\ v1 (edge h) < 1 + mx)
    by (intros h Hh; specialize (Hends h Hh); lia).
  match goal with |- context [setup_deg_off malloc IJ nedge ?g0] =>
    destruct (setup_ok (1 + mx) ltac:(lia) Hends' malloc g0 Hal eq_refl eq_refl Hxo) as (g1 & -> & Hg1) end.
  cbn [mbind res_bind]. unfold gather_edges.
  destruct (gather_phase (1 + mx) ltac:(lia) Hends' g1 Hg1) as (g2 & -> & Hg2). cbn [mbind res_bind].
  destruct (pack_edges_ok (1 + mx) ltac:(lia) _ g2 Hg2) as (g3 & L & -> & Hg3 & Hpk). cbn [mbind res_bind].
  destruct (rows_csr_ok (1 + mx) ltac:(lia) Hends' g3 L Hg3 Hpk) as [Hok Hnv].
  exists g3. split; [done|]. split; [done|]. destruct (csr_nv _ _ Hok) as [E _].
  by replace (maxvtx g3) with mx by lia.
Qed.
End Build.

(** ** The kernel *)

(** With memory, [create_graph_from_edgelist] succeeds on any edge list whose
    arrays fit (negative ends, self-loops and repeated edges included), and the row
    [XOFF(v), XENDOFF(v)) of every vertex holds exactly the neighbours of
    [v], each once, in increasing order. *)
Theorem create_graph_sorted_rows IJ nedge malloc : 0 <= nedge <= zlen IJ -> fits IJ nedge -> alloc64_ok malloc ->
  exists g, create_graph_from_edgelist malloc IJ nedge = Ok (0, Some g) /\
    (forall u v, edge_adj IJ nedge u v -> 0 <= u <= maxvtx g) /\
    forall v, 0 <= v <= maxvtx g -> exists lo hi, XOFF g v = Ok lo /\ XENDOFF g v = Ok hi /\
      (forall k, lo <= k < hi -> exists w, get_xadj g k = Ok w /\ edge_adj IJ nedge v w) /\
      (forall w, edge_adj IJ nedge v w -> exists k, lo <= k < hi /\ get_xadj g k = Ok w) /\
      (forall a b x y, lo <= a < b -> b < hi -> get_xadj g a = Ok x -> get_xadj g b = Ok y -> x < y).
Proof.
  intros Hn Hf Hal. destruct (create_graph_ok IJ nedge Hn Hf malloc Hal) as (g & -> & Hg & _).
  exists g. split; [done|]. destruct (csr_nv _ _ Hg) as [Env _]. split.
  { intros u v Hu. pose proof (csr_range _ _ Hg _ _ (edge_adj_sym _ _ _ _ Hu)). lia. }
  intros v Hv. destruct (csr_segment _ _ Hg v ltac:(lia)) as [Hseg Hst]. pose proof (csr_length _ _ Hg).
  unfold XOFF, XENDOFF. rewrite !(aget_ok 0) by lia. eexists _, _. split; [done|]. split; [done|].
  assert (Hx : forall k, off g v <= k < endoff g v -> get_xadj g k = Ok (xadj g k))
    by (intros k Hk; apply aget_ok; unfold MINVECT_SIZE in *; lia).
  split; [|split].
  - intros k Hk. exists (xadj g k). split; [by apply Hx|]. apply (csr_nbrs _ _ Hg); [lia | eauto].
  - intros w Hw. apply (csr_nbrs _ _ Hg) in Hw as (k & Hk & <-); [|lia]. eauto.
  - intros a b x y Ha Hb. rewrite !Hx by lia. intros [= <-] [= <-].
    apply (csr_sorted _ _ Hg v); lia.
Qed.

(** C10: [make_bfs_tree] on the graph of an edge list with fewer than 2^59
    edges and vertices below 2^59 - 1, for which no size computation overflows
    or wraps around, succeeds from every vertex up to the largest; its array has a nonnegative entry exactly at the
    vertices that [srcvtx] reaches, and -1 at the others; following the entries from a reached vertex
    takes as many hops to [srcvtx] as a shortest walk. *)
Theorem csr_search_shortest_paths IJ nedge malloc out srcvtx : 0 <= nedge <= zlen IJ -> fits IJ nedge ->
  alloc64_ok malloc ->
  exists g, create_graph_from_edgelist malloc IJ nedge = Ok (0, Some g) /\
    (0 <= srcvtx <= maxvtx g -> maxvtx g < zlen out ->
     exists tree, make_bfs_tree malloc g out srcvtx = Ok (0, tree, maxvtx g) /\
       forall v, 0 <= v <= maxvtx g ->
         (zth 0 tree v = -1 /\ (forall n, ~ walk (edge_adj IJ nedge) srcvtx n v)) \/
         (0 <= zth 0 tree v /\ exists n : nat, distance (edge_adj IJ nedge) srcvtx v (Z.of_nat n) /\
            up (zth 0 tree) n v = srcvtx)).
Proof.
  intros Hn Hf Hal. destruct (create_graph_ok IJ nedge Hn Hf malloc Hal) as (g & -> & Hg & _).
  exists g. split; [done|]. intros Hs Hout. destruct (csr_nv _ _ Hg) as [Env _].
  pose proof (edge_adj_sym IJ nedge) as Hsym.
  destruct (make_bfs_tree_ok (edge_adj IJ nedge) g srcvtx Hg Hsym ltac:(lia) malloc out Hal ltac:(lia))
    as (tree & level & -> & _ & Hok & Hb & _).
  exists tree. split; [done|]. intros v Hv.
  apply (bfs_tree_reach _ _ _ _ _ Hsym Hok); [lia|]. apply Hb. lia.
Qed.

Lemma create_graph_sorted_rows_witness : exists g lo hi,
  create_graph_from_edgelist calloc64 [mk_edge 1 0; mk_edge 2 1; mk_edge 1 0; mk_edge 2 2] 4 = Ok (0, Some g) /\
  XOFF g 1 = Ok lo /\ XENDOFF g 1 = Ok hi /\ hi - lo = 2.
Proof.
  destruct (create_graph_sorted_rows [mk_edge 1 0; mk_edge 2 1; mk_edge 1 0; mk_edge 2 2] 4 calloc64)
    as (g & E & _ & Hrows); [simpl; lia | apply fits_forall; [lia | repeat constructor; simpl; lia] | exact calloc64_ok |].
  exists g. assert (Hmax : maxvtx g = 2) by (vm_compute in E; injection E as <-; reflexivity).
  destruct (Hrows 1) as (lo & hi & Elo & Ehi & _); [lia|]. exists lo, hi.
  split; [exact E|]. split; [exact Elo|]. split; [exact Ehi|].
  vm_compute in E. injection E as <-. vm_compute in Elo, Ehi. injection Elo as <-. injection Ehi as <-.
  reflexivity.
Defined.

Lemma csr_search_shortest_paths_witness : exists g tree,
  create_graph_from_edgelist calloc64 [mk_edge 0 1; mk_edge 1 2; mk_edge 2 2] 3 = Ok (0, Some g) /\
  make_bfs_tree calloc64 g [7; 7; 7] 0 = Ok (0, tree, maxvtx g) /\ tree = [0; 0; 1].
Proof.
  destruct (csr_search_shortest_paths [mk_edge 0 1; mk_edge 1 2; mk_edge 2 2] 3 calloc64 [7; 7; 7] 0)
    as (g & E & H); [simpl; lia | apply fits_forall; [lia | repeat constructor; simpl; lia] | exact calloc64_ok |].
  assert (Hmax : maxvtx g = 2) by (vm_compute in E; injection E as <-; reflexivity).
  destruct H as (tree & Et & _); [lia | simpl; lia |].
  exists g, tree. split; [exact E|]. split; [exact Et|].
  vm_compute in E. injection E as <-. vm_compute in Et. injection Et as <-. reflexivity.
Defined.

(** Without a bound on the vertices the sizes wrap around: here [xoff] gets
    2^64 bytes, of which none are left, and the first access is outside. *)
Example size_wraps : create_graph_from_edgelist calloc64 [mk_edge 0 (2 ^ 60 - 2)] 1 = Err OutOfBounds.
Proof.
  unfold create_graph_from_edgelist.
  assert (E : find_nv [mk_edge 0 (2 ^ 60 - 2)] 1 = Ok (2 ^ 60 - 2, 2 ^ 60 - 1)) by (vm_compute; reflexivity).
  rewrite E, bind_Ok.
  assert (Ea : alloc_graph calloc64 (2 ^ 60 - 2) (2 ^ 60 - 1) = Ok (Some (mk_csr (2 ^ 60 - 2) (2 ^ 60 - 1) 0 [] [])))
    by (vm_compute; reflexivity).
  rewrite Ea, bind_Ok. unfold setup_deg_off. rewrite for_range_step by (cbn [nv]; lia). reflexivity.
Qed.
