(* ===== verification/SeqList.v ===== *)
(** * The sequential search kernel on linked edge lists

    [seq-list/seq-list.c]: the two ends of edge [k] are the list cells [2k]
    (towards [v0]) and [2k+1] (towards [v1]); [head] and [next] link the cells
    of each vertex.  The static variables are the fields of [elist].  Numbers
    are checked and sizes wrap around as in [SeqCsr.v]. *)

From S2P Require Import Prelude GraphGen Bfs SeqCsr.

Record elist := mk_elist {
  l_maxvtx : Z; l_maxdeg : Z; nIJ : Z; l_IJ : list packed_edge;
  l_head : list Z; l_deg : list Z; l_next : list Z }.

(** ** Building the lists *)

Definition max_vertex (IJ : list packed_edge) (nedge : Z) : res Z :=
  for_range 0 nedge (fun k maxvtx =>
    e ← IJ.[k];
    let maxvtx := if maxvtx <? get_v0_from_edge e then get_v0_from_edge e else maxvtx in
    let maxvtx := if maxvtx <? get_v1_from_edge e then get_v1_from_edge e else maxvtx in
    Ok maxvtx) (-1).

(** One end: cell [t] in front of the list of vertex [i]. *)
Definition link_end (nIJ t i : Z) : list Z * list Z * list Z -> res (list Z * list Z * list Z) :=
  fun '(head, deg, next) =>
    t_head ← head.[i];
    head ← head.[i <- t];
    c_assert (t_head <? 2 * nIJ);;
    next ← next.[t <- t_head];
    d ← deg.[i];
    d ← chk 64 (d + 1);
    deg ← deg.[i <- d];
    Ok (head, deg, next).

Definition link_edge (IJ : list packed_edge) (nIJ k : Z)
    : list Z * list Z * list Z -> res (list Z * list Z * list Z) :=
  fun '(head, deg, next) =>
    e ← IJ.[k];
    let i := get_v0_from_edge e in
    let j := get_v1_from_edge e in
    if (0 <=? i) && (0 <=? j) && negb (i =? j) then
      next ← next.[2 * k <- -1];
      next ← next.[1 + 2 * k <- -1];
      let t := 2 * k + 1 in
      s ← link_end nIJ t i (head, deg, next);
      let t := t - 1 in
      link_end nIJ t j s
    else Ok (head, deg, next).

(** One block holds [head], [deg] and [next]. *)
Definition create_graph_from_edgelist (malloc : alloc64) (IJ_in : list packed_edge) (nedge : Z)
    : res (Z * option elist) :=
  let nIJ := nedge in
  maxvtx ← max_vertex IJ_in nedge;
  nv ← chk 64 (maxvtx + 1);
  a ← chk 64 (2 * nv);
  b ← chk 64 (2 * nIJ);
  items ← chk 64 (a + b);
  match malloc (size_of 8 items) with
  | None => Ok (-1, None)
  | Some block =>
      let n := Z.to_nat nv in
      let head := take n block in
      let deg := take n (drop n block) in
      let next := drop n (drop n block) in
      '(head, deg) ← for_range 0 nv (fun k '(head, deg) =>
        head ← head.[k <- -1]; deg ← deg.[k <- 0]; Ok (head, deg)) (head, deg);
      '(head, deg, next) ← for_range 0 nedge (link_edge IJ_in nIJ) (head, deg, next);
      maxdeg ← for_range 0 nv (fun kg maxdeg =>
        d ← deg.[kg]; Ok (if maxdeg <? d then d else maxdeg)) (-1);
      Ok (0, Some (mk_elist maxvtx maxdeg nIJ IJ_in head deg next))
  end.

(** ** Searching them *)

(** The walk along the list of [parent]; cells decrease along a list, so
    [2 * nIJ + 1] turns are enough. *)
Definition scan_list (g : elist) (parent : Z) : list Z * list Z * Z -> res (list Z * list Z * Z) :=
  fun '(bfs_tree, vlist, newk2) =>
    p ← (l_head g).[parent];
    '(bfs_tree, vlist, newk2, _) ← while (S (Z.to_nat (2 * nIJ g)))
      (fun '(bfs_tree, vlist, newk2, p) => Ok (0 <=? p))
      (fun '(bfs_tree, vlist, newk2, p) =>
         e ← (l_IJ g).[Z.quot p 2];
         let newv := if negb (Z.rem p 2 =? 0) then get_v1_from_edge e else get_v0_from_edge e in
         t ← bfs_tree.[newv];
         '(bfs_tree, vlist, newk2) ← (if t <? 0 then
             bfs_tree ← bfs_tree.[newv <- parent];
             vlist ← vlist.[newk2 <- newv];
             Ok (bfs_tree, vlist, newk2 + 1)
           else Ok (bfs_tree, vlist, newk2));
         p ← (l_next g).[p];
         Ok (bfs_tree, vlist, newk2, p))
      (bfs_tree, vlist, newk2, p);
    Ok (bfs_tree, vlist, newk2).

(** [k1] and [k2] move inside the inner loop, which therefore runs to the end
    of the queue: at most [nv] turns of it, and one of the outer loop. *)
Definition make_bfs_tree (malloc : alloc64) (g : elist) (bfs_tree_out : list Z) (srcvtx : Z)
    : res (Z * list Z * Z) :=
  nv ← chk 64 (l_maxvtx g + 1);
  let max_vtx_out := l_maxvtx g in
  bfs_tree ← bfs_tree_out.[srcvtx <- srcvtx];
  match malloc (size_of 8 nv) with
  | None => Ok (-1, bfs_tree, max_vtx_out)
  | Some vlist =>
      bfs_tree ← bfs_tree.[srcvtx <- srcvtx];
      vlist ← vlist.[0 <- srcvtx];
      bfs_tree ← for_range 0 srcvtx (fun k t => t.[k <- -1]) bfs_tree;
      bfs_tree ← for_range (srcvtx + 1) nv (fun k t => t.[k <- -1]) bfs_tree;
      '(bfs_tree, _, _, _) ← while (S (Z.to_nat nv))
        (fun '(bfs_tree, vlist, k1, k2) => Ok (negb (k1 =? k2)))
        (fun '(bfs_tree, vlist, k1, k2) =>
           '(bfs_tree, vlist, _, k1, k2, _) ← while (S (Z.to_nat nv))
             (fun '(bfs_tree, vlist, k, k1, k2, newk2) => Ok (k <? k2))
             (fun '(bfs_tree, vlist, k, k1, k2, newk2) =>
                parent ← vlist.[k];
                '(bfs_tree, vlist, newk2) ← scan_list g parent (bfs_tree, vlist, newk2);
                Ok (bfs_tree, vlist, k + 1, k2, newk2, newk2))
             (bfs_tree, vlist, k1, k1, k2, k2);
           Ok (bfs_tree, vlist, k1, k2))
        (bfs_tree, vlist, 0, 1);
      Ok (0, bfs_tree, max_vtx_out)
  end.

(** ** The lists *)

(** The cells from [p] on are [l]. *)
Fixpoint linked (next : list Z) (p : Z) (l : list Z) : Prop :=
  match l with
  | [] => p = -1
  | c :: l => p = c /\ 0 <= c < zlen next /\ linked next (zth 0 next c) l
  end.

Lemma linked_head next p l : linked next p l -> p = -1 \/ p ∈ l.
Proof. destruct l; simpl; [by left|]. intros [-> _]. right. by left. Qed.

(** Writing a cell outside the list does not change it. *)
Lemma linked_insert next p l t x : linked next p l -> 0 <= t -> t ∉ l ->
  linked (<[Z.to_nat t := x]> next) p l.
Proof.
  revert p. induction l as [|c l IH]; simpl; intros p; [done|].
  intros (-> & Hc & Hl) Ht [Hne Hnot]%not_elem_of_cons. rewrite length_insert.
  split; [done|]. split; [done|]. rewrite zth_insert_ne by (done || lia). by apply IH.
Qed.

(** The lists of all vertices below [n]. *)
Record lists (n : Z) (head next : list Z) (P : Z -> list Z) : Prop := {
  ls_head : zlen head = n;
  ls_linked : forall v, 0 <= v < n -> linked next (zth 0 head v) (P v) }.

Section Build.
Context (IJ : list packed_edge) (nedge : Z).
Hypothesis Hnedge : 0 <= nedge <= zlen IJ.
Hypothesis Hfits : fits IJ nedge.

Abbreviation edge h := (zth default_edge IJ h).

(** The vertex that cell [p] points to. *)
Definition target (p : Z) : Z := if Z.rem p 2 =? 0 then v0 (edge (p / 2)) else v1 (edge (p / 2)).

Lemma target_even h : 0 <= h -> target (2 * h) = v0 (edge h).
Proof.
  intros. unfold target. rewrite Z.rem_mod_nonneg, (Z.mul_comm 2), Z.mod_mul, Z.div_mul by lia. done.
Qed.

Lemma target_odd h : 0 <= h -> target (2 * h + 1) = v1 (edge h).
Proof.
  intros. unfold target. rewrite Z.rem_mod_nonneg by lia.
  replace (2 * h + 1) with (1 + h * 2) by lia. rewrite Z_mod_plus_full, Z.div_add by lia. done.
Qed.

(** Every degree is at most [b]. *)
Definition degrees_upto (n b : Z) (deg : list Z) : Prop :=
  zlen deg = n /\ forall v, 0 <= v < n -> 0 <= zth 0 deg v <= b.

Lemma link_end_ok n head deg next P t i b : lists n head next P -> degrees_upto n b deg -> b < 2 ^ 62 -> 0 <= i < n ->
  0 <= t < 2 * nedge -> 2 * nedge <= zlen next ->
  (forall v c, 0 <= v < n -> c ∈ P v -> c < 2 * nedge /\ c <> t) ->
  exists head' deg' next', link_end nedge t i (head, deg, next) = Ok (head', deg', next') /\
    lists n head' next' (upd P i (t :: P i)) /\ degrees_upto n (b + 1) deg' /\ zlen next' = zlen next.
Proof.
  intros [Hh Hl] [Hd Hdeg] Hb Hi Ht Hn Hc. unfold link_end.
  rewrite (aget_ok 0 head) by lia. cbn [mbind res_bind]. rewrite (aset_ok head) by lia. cbn [mbind res_bind].
  pose proof (Hl i Hi) as Hli. rewrite c_assert_true.
  2: { destruct (linked_head _ _ _ Hli) as [-> |Hin]; [lia|]. destruct (Hc _ _ Hi Hin). lia. }
  cbn [mbind res_bind]. rewrite (aset_ok next) by lia. cbn [mbind res_bind].
  rewrite (aget_ok 0 deg) by lia. cbn [mbind res_bind].
  rewrite chk_ok by (specialize (Hdeg i Hi); lia). cbn [mbind res_bind].
  rewrite (aset_ok deg) by lia. cbn [mbind res_bind].
  eexists _, _, _. split; [done|]. split; [|split; [split|]; rewrite ?length_insert; [| |done]].
  2: done.
  2: { intros v Hv. rewrite zth_insert by lia. pose proof (Hdeg v Hv). destruct (Z.eqb_spec v i) as [->|]; lia. }
  constructor; [by rewrite length_insert|]. intros v Hv. unfold upd.
  rewrite zth_insert by lia. destruct (Z.eqb_spec v i) as [->|].
  - simpl. rewrite length_insert, zth_insert_eq by lia. split; [done|]. split; [lia|].
    apply linked_insert; [done | lia |]. intros Hin. by destruct (Hc _ _ Hi Hin).
  - apply linked_insert; [by apply Hl | lia |]. intros Hin. by destruct (Hc _ _ Hv Hin).
Qed.

(** After [k] edges: the lists hold the rows of the graph, the latest edge
    first. *)
Definition lists_inv (n k : Z) : list Z * list Z * list Z -> Prop :=
  fun '(head, deg, next) => degrees_upto n (2 * k) deg /\ 2 * nedge <= zlen next /\ exists P,
    lists n head next P /\
    forall v, 0 <= v < n -> (forall c, c ∈ P v -> 0 <= c < 2 * k) /\
      map target (P v) = reverse (nb IJ (Z.to_nat k) v).

Lemma degrees_upto_le n b b' deg : b <= b' -> degrees_upto n b deg -> degrees_upto n b' deg.
Proof. intros Hb [H1 H2]. split; [done|]. intros v Hv. specialize (H2 v Hv). lia. Qed.

Lemma link_edge_ok n k s : 0 <= k < nedge -> v0 (edge k) < n -> v1 (edge k) < n -> lists_inv n k s ->
  exists s', link_edge IJ nedge k s = Ok s' /\ lists_inv n (k + 1) s'.
Proof.
  intros Hk Hn0 Hn1. destruct s as [[head deg] next]. intros (Hd & Hnx & P & HP & Hcells).
  unfold link_edge. rewrite (aget_ok default_edge) by lia. cbn [mbind res_bind].
  unfold get_v0_from_edge, get_v1_from_edge. unfold lists_inv.
  replace (Z.to_nat (k + 1)) with (S (Z.to_nat k)) by lia.
  assert (Hhalf : forall v, nb IJ (S (Z.to_nat k)) v = nb IJ (Z.to_nat k) v ++ half IJ k v)
    by (intros v; simpl; by rewrite Z2Nat.id by lia).
  destruct ((0 <=? v0 (edge k)) && (0 <=? v1 (edge k)) && negb (v0 (edge k) =? v1 (edge k))) eqn:E.
  2: { eexists; split; [done|]. simpl. split; [by eapply degrees_upto_le; [|exact Hd]; lia|]. split; [done|]. exists P. split; [done|].
       intros v Hv. destruct (Hcells v Hv) as [Hc Ht]. split; [intros c Hin; specialize (Hc c Hin); lia|].
       change (nb IJ (Z.to_nat k) v ++ half IJ (Z.of_nat (Z.to_nat k)) v) with (nb IJ (S (Z.to_nat k)) v).
       rewrite Hhalf. unfold half. by rewrite E, app_nil_r. }
  rewrite !andb_true_iff, !Z.leb_le, negb_true_iff, Z.eqb_neq in E. destruct E as [[Ha Hb] Hne].
  rewrite (aset_ok next (2 * k)) by lia. cbn [mbind res_bind].
  rewrite aset_ok by (rewrite length_insert; lia). cbn [mbind res_bind].
  set (next2 := <[Z.to_nat (1 + 2 * k):=-1]> (<[Z.to_nat (2 * k):=-1]> next)).
  assert (Hl2 : zlen next2 = zlen next) by (unfold next2; by rewrite !length_insert).
  assert (HP2 : lists n head next2 P).
  { destruct HP as [Hh Hl]. constructor; [done|]. intros v Hv. unfold next2.
    destruct (Hcells v Hv) as [Hc _].
    apply linked_insert; [apply linked_insert; [by apply Hl | lia |] | lia |];
      intros Hin; specialize (Hc _ Hin); lia. }
  pose proof (proj1 Hfits) as Hf.
  destruct (link_end_ok n head deg next2 P (2 * k + 1) (v0 (edge k)) _ HP2 Hd)
    as (h1 & d1 & n1 & -> & HP3 & Hd1 & Hl3); [lia..| |].
  { intros v c Hv Hin. destruct (Hcells v Hv) as [Hc _]. specialize (Hc c Hin). lia. }
  cbn [mbind res_bind]. replace (2 * k + 1 - 1) with (2 * k) by lia.
  destruct (link_end_ok n h1 d1 n1 _ (2 * k) (v1 (edge k)) _ HP3 Hd1)
    as (h4 & d4 & n4 & -> & HP4 & Hd4 & Hl4); [lia..| |].
  { intros v c Hv. unfold upd. destruct (Z.eqb_spec v (v0 (edge k))) as [->|].
    - intros [->|Hin]%elem_of_cons; [lia|]. destruct (Hcells (v0 (edge k)) ltac:(lia)) as [Hc _].
      specialize (Hc c Hin). lia.
    - intros Hin. destruct (Hcells v Hv) as [Hc _]. specialize (Hc c Hin). lia. }
  eexists; split; [done|]. cbn beta iota. split; [by eapply degrees_upto_le; [|exact Hd4]; lia|].
  split; [lia|]. eexists. split; [exact HP4|].
  intros v Hv. destruct (Hcells v Hv) as [Hc Ht]. rewrite Hhalf. unfold upd, half.
  destruct (Z.leb_spec 0 (v0 (edge k))), (Z.leb_spec 0 (v1 (edge k))),
    (Z.eqb_spec (v0 (edge k)) (v1 (edge k))); try lia. cbn [andb negb].
  destruct (Z.eqb_spec v (v1 (edge k))) as [->|Hv1], (Z.eqb_spec (v0 (edge k)) (v1 (edge k))); try lia.
  - destruct (Z.eqb_spec (v1 (edge k)) (v0 (edge k))); [lia|]. rewrite Z.eqb_refl.
    split; [intros c [->|Hin]%elem_of_cons; [lia | specialize (Hc c Hin); lia]|].
    rewrite reverse_snoc, <- Ht. simpl. by rewrite target_even by lia.
  - destruct (Z.eqb_spec v (v0 (edge k))) as [->|Hv0].
    + rewrite Z.eqb_refl.
      split; [intros c [->|Hin]%elem_of_cons; [lia | specialize (Hc c Hin); lia]|].
      rewrite reverse_snoc, <- Ht. simpl. by rewrite target_odd by lia.
    + destruct (Z.eqb_spec (v0 (edge k)) v); [lia|]. destruct (Z.eqb_spec (v1 (edge k)) v); [lia|].
      rewrite app_nil_r. split; [intros c Hin; specialize (Hc c Hin); lia | done].
Qed.

(** What [create_graph_from_edgelist] builds. *)
Record elist_ok (g : elist) : Prop := {
  el_edges : l_IJ g = IJ /\ nIJ g = nedge;
  el_nv : max_end IJ nedge (l_maxvtx g);
  el_lists : exists P, lists (l_maxvtx g + 1) (l_head g) (l_next g) P /\
    forall v, 0 <= v < l_maxvtx g + 1 -> (forall c, c ∈ P v -> 0 <= c < 2 * nedge) /\
      map target (P v) = reverse (nb IJ (Z.to_nat nedge) v) }.

Lemma max_vertex_ok : exists mx, max_vertex IJ nedge = Ok mx /\ max_end IJ nedge mx.
Proof.
  destruct (find_nv_ok IJ nedge Hnedge Hfits) as (mx & E & H). unfold find_nv in E.
  apply bind_Ok_inv in E as (mx' & E & En). apply bind_Ok_inv in En as (nv & _ & [= -> _]). exists mx. split; [exact E | exact H].
Qed.

Lemma create_list_ok malloc : alloc64_ok malloc ->
  exists g, create_graph_from_edgelist malloc IJ nedge = Ok (0, Some g) /\ elist_ok g.
Proof.
  intros Hal. unfold create_graph_from_edgelist.
  destruct max_vertex_ok as (mx & -> & Hmax). pose proof Hmax as (Hmx & Hends & _). cbn [mbind res_bind].
  pose proof (fits_end IJ nedge Hnedge Hfits mx Hmax) as Hmx59. pose proof (proj1 Hfits) as Hf.
  rewrite !chk_ok by lia. cbn [mbind res_bind]. rewrite !chk_ok by lia. cbn [mbind res_bind].
  rewrite !chk_ok by lia. cbn [mbind res_bind].
  destruct (alloc64_size malloc (2 * (mx + 1) + 2 * nedge) Hal) as (block & -> & Hb); [lia|].
  set (n := Z.to_nat (mx + 1)).
  set (head0 := take n block). set (deg0 := take n (drop n block)). set (next0 := drop n (drop n block)).
  assert (Hh0 : zlen head0 = mx + 1) by (unfold head0, n; rewrite length_take; lia).
  assert (Hd0 : zlen deg0 = mx + 1) by (unfold deg0, n; rewrite length_take, length_drop; lia).
  assert (Hn0 : zlen next0 = 2 * nedge) by (unfold next0, n; rewrite !length_drop; lia).
  clearbody head0 deg0 next0.
  match goal with |- context [for_range 0 (mx + 1) ?f ?s0] =>
    destruct (for_range_inv (fun k '(h, d) => zlen h = mx + 1 /\ zlen d = mx + 1 /\
      forall v, 0 <= v < k -> zth 0 h v = -1 /\ zth 0 d v = 0) f 0 (mx + 1) s0) as ([h d] & -> & Hh & Hd & Hz) end.
  { lia. }
  { split_and!; (done || lia). }
  { intros k [h d] Hk (Hh & Hd & Hz). rewrite (aset_ok h) by lia. cbn [mbind res_bind].
    rewrite (aset_ok d) by lia. cbn [mbind res_bind]. eexists; split; [done|].
    split_and!; [by rewrite length_insert..|]. intros v Hv. rewrite !zth_insert by lia.
    destruct (Z.eqb_spec v k); [done | apply Hz; lia]. }
  cbn [mbind res_bind].
  destruct (for_range_inv (lists_inv (mx + 1)) (link_edge IJ nedge) 0 nedge (h, d, next0))
    as ([[h1 d1] n1] & -> & [Hd1 _] & Hn1 & P & HP & Hcells).
  { lia. }
  { split; [split; [done|]; intros v Hv; destruct (Hz v Hv); lia|]. split; [lia|]. exists (fun _ => []). split.
    - constructor; [done|]. intros v Hv. simpl. by apply Hz.
    - intros v Hv. split; [|done]. intros c Hc. by apply elem_of_nil in Hc. }
  { intros k s Hk. destruct (Hends k Hk). by apply link_edge_ok; try lia. }
  cbn [mbind res_bind].
  destruct (for_range_inv (fun _ _ => True) (fun kg maxdeg =>
    d ← d1.[kg]; Ok (if maxdeg <? d then d else maxdeg)) 0 (mx + 1) (-1)) as (md & -> & _).
  { lia. }
  { done. }
  { intros k x Hk _. rewrite (aget_ok 0) by lia. cbn [mbind res_bind]. eauto. }
  cbn [mbind res_bind]. eexists; split; [done|]. constructor; cbn; [done | done |].
  exists P. done.
Qed.

(** ** The search *)

Lemma half_length h v : zlen (half IJ h v) <= 1.
Proof. unfold half. repeat case_match; simpl; lia. Qed.

Lemma nb_length k v : zlen (nb IJ k v) <= Z.of_nat k.
Proof.
  induction k as [|k IH]; simpl; [lia|]. rewrite length_app.
  pose proof (half_length (Z.of_nat k) v). lia.
Qed.

Section SearchFacts.
Context (g : elist) (root : Z).
Hypothesis Hg : elist_ok g.
Abbreviation nv := (l_maxvtx g + 1).
Hypothesis Hroot : 0 <= root < nv.

Definition list_row (v : Z) : list Z := reverse (nb IJ (Z.to_nat nedge) v).

Lemma list_row_adj v w : 0 <= v < nv -> w ∈ list_row v <-> edge_adj IJ nedge v w.
Proof. intros _. unfold list_row. rewrite elem_of_reverse. by apply nb_adj. Qed.

Lemma list_adj_range v w : edge_adj IJ nedge v w -> 0 <= w < nv.
Proof.
  intros (_ & _ & Hw & h & e & Hh & He & Hc). apply (aget_Ok_inv default_edge) in He as [_ ->].
  destruct (el_nv _ Hg) as (_ & Hends & _). destruct (Hends h Hh). lia.
Qed.

Abbreviation inv := (search_inv (edge_adj IJ nedge) nv root list_row).

Lemma scan_list_ok k v tree vlist queue k2 level :
  holds nv vlist k2 queue -> inv k [] tree queue level -> queue !! k = Some v ->
  exists tree' vlist' k2' queue' level', scan_list g v (tree, vlist, k2) = Ok (tree', vlist', k2') /\
    zlen tree' = zlen tree /\ queue `prefix_of` queue' /\
    holds nv vlist' k2' queue' /\ inv (S k) [] tree' queue' level'.
Proof.
  intros Hh Hi Hv. assert (Hvq : v ∈ queue) by (by eapply list_elem_of_lookup_2).
  pose proof (si_range _ _ _ _ _ _ _ _ _ Hi v Hvq) as Hvr.
  destruct (el_lists _ Hg) as (P & HP & Hcells). destruct (Hcells v Hvr) as [Hc Ht].
  destruct (el_edges _ Hg) as [EIJ EnIJ].
  unfold scan_list. rewrite (aget_ok 0) by (rewrite (ls_head _ _ _ _ HP); lia). cbn [mbind res_bind].
  assert (Hlen : zlen (P v) <= nedge).
  { rewrite <- (length_map target), Ht, length_reverse.
    pose proof (nb_length (Z.to_nat nedge) v). lia. }
  match goal with |- context [while ?f ?c ?b ?s0] =>
    destruct (while_ghost (fun n '(t, vl, k2', p) => exists done rest queue' level',
        n = length rest /\ P v = done ++ rest /\ linked (l_next g) p rest /\
        zlen t = zlen tree /\ queue `prefix_of` queue' /\ holds nv vl k2' queue' /\
        inv k (map target done) t queue' level') c b) with (fuel := f) (n := length (P v)) (s := s0)
      as (n & [[[t vl] k2'] p] & -> & (done & rest & queue' & level' & _ & HPv & Hl & Hlt & Hpre & Hh' & Hi') & Hend)
  end.
  - intros n [[[t vl] k2'] p] (done & rest & queue' & level' & -> & HPv & Hl & Hlt & Hpre & Hh' & Hi').
    destruct rest as [|c rest]; simpl in Hl.
    { left. by subst p. }
    destruct Hl as (-> & Hcr & Hl). right.
    assert (Hcin : c ∈ P v) by (rewrite HPv; apply elem_of_app; right; by left).
    pose proof (Hc c Hcin) as Hc2. destruct (Z.leb_spec 0 c); [|lia]. split; [done|].
    assert (Hv' : queue' !! k = Some v) by (by eapply prefix_lookup_Some).
    assert (Hj : target c ∈ list_row v).
    { unfold list_row. rewrite <- Ht. apply list_elem_of_fmap. eauto. }
    pose proof (list_adj_range v (target c) ltac:(by apply list_row_adj)) as Hjr.
    destruct (search_visit _ _ _ _ list_row_adj list_adj_range (edge_adj_sym IJ nedge) Hroot _ _ _ _ _ _ _ Hi' Hv' Hj)
      as [level'' Hi''].
    pose proof (si_length _ _ _ _ _ _ _ _ _ Hi') as Htl.
    assert (0 <= c / 2 < nedge) by (split; [apply Z.div_pos | apply Z.div_lt_upper_bound]; lia).
    rewrite EIJ, Z.quot_div_nonneg, (aget_ok default_edge) by lia. cbn [mbind res_bind].
    assert (Etg : (if negb (Z.rem c 2 =? 0) then get_v1_from_edge (edge (c / 2))
                   else get_v0_from_edge (edge (c / 2))) = target c)
      by (unfold target; by destruct (Z.rem c 2 =? 0)).
    rewrite Etg. rewrite (aget_ok 0 t) by lia. cbn [mbind res_bind].
    assert (Hneg : zth 0 t (target c) < 0 -> zth 0 t (target c) = -1).
    { intros Hn. destruct (decide (zth 0 t (target c) = -1)) as [|Hne]; [done|].
      apply (si_tree _ _ _ _ _ _ _ _ _ Hi') in Hne; [|lia].
      pose proof (si_nonneg _ _ _ _ _ _ _ _ _ Hi' _ Hne). lia. }
    unfold visit in Hi''. destruct (Z.ltb_spec (zth 0 t (target c)) 0) as [E|E].
    + rewrite (Hneg E) in Hi''. cbn [Z.eqb fst snd] in Hi''. rewrite Pos.eqb_refl in Hi''. cbn [fst snd] in Hi''.
      rewrite (aset_ok t) by lia. cbn [mbind res_bind].
      destruct (holds_push nv vl k2' queue' (target c) Hh') as (vl' & -> & Hh'').
      { eapply search_room; [exact Hroot | exact Hi' | exact Hjr | by apply Hneg]. }
      cbn [mbind res_bind]. rewrite (aget_ok 0) by lia. cbn [mbind res_bind].
      eexists _, (length rest). split; [done|]. split; [|simpl; lia].
      exists (done ++ [c]), rest, (queue' ++ [target c]), level''. rewrite map_app.
      split_and!; [done | by rewrite <- app_assoc | done | by rewrite length_insert
        | by apply prefix_app_r | done | done].
    + destruct (Z.eqb_spec (zth 0 t (target c)) (-1)); [lia|]. cbn [fst snd] in Hi''.
      cbn [mbind res_bind]. rewrite (aget_ok 0) by lia. cbn [mbind res_bind].
      eexists _, (length rest). split; [done|]. split; [|simpl; lia].
      exists (done ++ [c]), rest, queue', level''. rewrite map_app.
      split_and!; [done | by rewrite <- app_assoc | done..].
  - lia.
  - exists [], (P v), queue, level. split_and!; try done. by apply (ls_linked _ _ _ _ HP).
  - cbn [mbind res_bind]. exists t, vl, k2', queue', level'. split_and!; [done..|].
    injection Hend as Hend%Z.leb_gt.
    assert (rest = []) as ->.
    { destruct rest as [|c rest]; [done|]. simpl in Hl. destruct Hl as (-> & ? & _). lia. }
    rewrite app_nil_r in HPv. subst done.
    eapply search_next; [exact Hi' | by eapply prefix_lookup_Some |]. by rewrite Ht.
Qed.

(** The inner loop runs through the whole queue. *)
Lemma search_queue_ok tree vlist k1 k2 queue level : 0 <= k1 <= k2 ->
  holds nv vlist k2 queue -> inv (Z.to_nat k1) [] tree queue level ->
  exists tree' vlist' k k2' newk2 queue' level',
    while (S (Z.to_nat nv))
      (fun '(bfs_tree, vlist, k, k1, k2, newk2) => Ok (k <? k2))
      (fun '(bfs_tree, vlist, k, k1, k2, newk2) =>
         parent ← vlist.[k];
         '(bfs_tree, vlist, newk2) ← scan_list g parent (bfs_tree, vlist, newk2);
         Ok (bfs_tree, vlist, k + 1, k2, newk2, newk2))
      (tree, vlist, k1, k1, k2, k2) = Ok (tree', vlist', k, k2', k2', newk2) /\
    zlen tree' = zlen tree /\ holds nv vlist' k2' queue' /\ 0 <= k2' /\
    inv (Z.to_nat k2') [] tree' queue' level'.
Proof.
  intros Hk Hh Hi.
  match goal with |- context [while ?f ?c ?b ?s0] =>
    destruct (while_ghost (fun n '(t, vl, k, k1, k2, newk2) => exists queue level,
        n = Z.to_nat (nv - k) /\ newk2 = k2 /\ 0 <= k <= k1 /\ k1 <= k2 /\ zlen t = zlen tree /\
        holds nv vl k2 queue /\ inv (Z.to_nat k) [] t queue level) c b)
      with (fuel := f) (n := Z.to_nat (nv - k1)) (s := s0)
      as (n & [[[[[t vl] k] k1'] k2'] nk] & -> & (q & l & _ & -> & Hk' & Hk2 & Hlt & Hh' & Hi') & Hend) end.
  - intros n [[[[[t vl] k] k1'] k2'] nk] (q & l & -> & -> & Hk' & Hk2 & Hlt & Hh' & Hi').
    destruct (Z.ltb_spec k k2') as [Hlt2|]; [right; split; [done|] | by left].
    destruct (holds_get nv vl k2' q k Hh') as (v & -> & Hv); [lia|]. cbn [mbind res_bind].
    destruct (scan_list_ok _ v t vl q k2' l Hh' Hi' Hv)
      as (t' & vl' & k3 & q' & l' & -> & Hlt' & Hpre & Hh'' & Hi'').
    cbn [mbind res_bind]. pose proof (holds_bound _ _ _ _ Hroot _ _ _ _ _ _ _ Hh' Hi').
    assert (k2' <= k3).
    { destruct Hh' as (_ & -> & _), Hh'' as (_ & -> & _). apply prefix_length in Hpre. lia. }
    eexists _, (Z.to_nat (nv - (k + 1))). split; [done|]. split; [|lia].
    exists q', l'. split_and!; try done; try lia.
    by replace (Z.to_nat (k + 1)) with (S (Z.to_nat k)) by lia.
  - lia.
  - exists queue, level. split_and!; (done || lia).
  - injection Hend as Hend%Z.ltb_ge. assert (k1' = k2') as -> by lia. assert (k = k2') as -> by lia.
    exists t, vl, k2', k2', k2', q, l. split_and!; (done || lia).
Qed.

Lemma make_list_tree_ok malloc bfs_tree_out : alloc64_ok malloc -> nv <= zlen bfs_tree_out ->
  exists tree level, make_bfs_tree malloc g bfs_tree_out root = Ok (0, tree, l_maxvtx g) /\
    zlen tree = zlen bfs_tree_out /\
    bfs_tree_ok (edge_adj IJ nedge) nv root (zth 0 tree) level /\
    (forall v, 0 <= v < nv -> -1 <= zth 0 tree v < nv) /\
    (forall v, 0 <= v < nv -> v <> root -> zth 0 tree v <> v).
Proof.
  intros Hm Hout. pose proof (fits_end IJ nedge Hnedge Hfits _ (el_nv _ Hg)).
  unfold make_bfs_tree. rewrite chk_ok by lia. cbn [mbind res_bind]. rewrite aset_ok by lia. cbn [mbind res_bind].
  destruct (alloc64_size malloc nv Hm) as (vlist & -> & Hvl); [lia|].
  rewrite (aset_ok (<[Z.to_nat root:=root]> bfs_tree_out)) by (rewrite length_insert; lia).
  cbn [mbind res_bind].
  rewrite (aset_ok vlist) by lia. cbn [mbind res_bind].
  set (t0 := <[Z.to_nat root:=root]> (<[Z.to_nat root:=root]> bfs_tree_out)).
  assert (Hl0 : zlen t0 = zlen bfs_tree_out) by (unfold t0; by rewrite !length_insert).
  assert (Hr0 : zth 0 t0 root = root) by (apply zth_insert_eq; rewrite length_insert; lia).
  clearbody t0.
  destruct (for_range_inv (fun k t => zlen t = zlen bfs_tree_out /\ zth 0 t root = root /\
      forall v, 0 <= v < k -> zth 0 t v = -1) (fun k t => t.[k <- -1]) 0 root t0)
    as (t1 & -> & Hl1 & Hr1 & Hz1).
  { lia. }
  { split_and!; (done || lia). }
  { intros k t Hk (Hl & Hr & Hz). rewrite aset_ok by lia. eexists; split; [done|].
    split_and!; [by rewrite length_insert | rewrite zth_insert_ne by lia; done |].
    intros v Hv. rewrite zth_insert by lia. destruct (Z.eqb_spec v k); [done | apply Hz; lia]. }
  cbn [mbind res_bind].
  destruct (for_range_inv (fun k t => zlen t = zlen bfs_tree_out /\ zth 0 t root = root /\
      forall v, 0 <= v < k -> v <> root -> zth 0 t v = -1) (fun k t => t.[k <- -1]) (root + 1) nv t1)
    as (t2 & -> & Hl2 & Hr2 & Hz2).
  { lia. }
  { split_and!; [done..|]. intros v Hv Hne. apply Hz1. lia. }
  { intros k t Hk (Hl & Hr & Hz). rewrite aset_ok by lia. eexists; split; [done|].
    split_and!; [by rewrite length_insert | rewrite zth_insert_ne by lia; done |].
    intros v Hv Hne. rewrite zth_insert by lia. destruct (Z.eqb_spec v k); [done | apply Hz; lia]. }
  cbn [mbind res_bind].
  match goal with |- context [while ?f ?c ?b ?s0] =>
    destruct (while_ghost (fun n '(t, vl, k1, k2) => exists queue level,
        n = (if k1 =? k2 then 0%nat else 1%nat) /\ 0 <= k1 <= k2 /\
        zlen t = zlen bfs_tree_out /\ holds nv vl k2 queue /\ inv (Z.to_nat k1) [] t queue level) c b)
      with (fuel := f) (n := 1%nat) (s := s0)
      as (n & [[[t vl] k1] k2] & -> & (queue & level & _ & Hk & Hlt & Hh & Hi) & Hc) end.
  - intros n [[[t vl] k1] k2] (queue & level & -> & Hk & Hlt & Hh & Hi).
    destruct (Z.eqb_spec k1 k2) as [->|Hne]; [by left | right; split; [done|]].
    destruct (search_queue_ok t vl k1 k2 queue level Hk Hh Hi)
      as (t' & vl' & k & k2' & nk & queue' & level' & -> & Hlt' & Hh' & Hle & Hi').
    cbn [mbind res_bind]. eexists _, 0%nat. split; [done|].
    split; [exists queue', level'; rewrite Z.eqb_refl; split_and!; (done || lia) | lia].
  - lia.
  - exists [root], (fun _ => 0). split_and!; try done; try lia.
    + unfold holds. rewrite length_insert. split_and!; [done..|].
      destruct vlist; [simpl in *; lia | done].
    + apply search_start; [done | lia |]. intros v Hv.
      destruct (Z.eqb_spec v root) as [->|]; [done | by apply Hz2].
  - exists t, level. cbn [mbind res_bind]. split; [done|]. split; [done|].
    injection Hc as Hc%negb_false_iff%Z.eqb_eq. subst k2. destruct Hh as (_ & Ek & _).
    rewrite Ek, Nat2Z.id in Hi.
    exact (search_done _ nv root list_row list_row_adj (edge_adj_sym IJ nedge) Hroot _ _ _ _ Hi).
Qed.
End SearchFacts.
End Build.

(** C14: the kernel on linked lists succeeds on any edge list with fewer than
    2^59 edges and vertices below 2^59 - 1, for which the size computations do
    not overflow or wrap around, and from every vertex up to the largest, and its tree has the same meaning: nonnegative
    entries exactly at the vertices that [srcvtx] reaches, -1 elsewhere, and
    as many hops to [srcvtx] as a shortest walk. *)
Theorem list_search_shortest_paths IJ nedge malloc out srcvtx : 0 <= nedge <= zlen IJ -> fits IJ nedge ->
  alloc64_ok malloc ->
  exists g, create_graph_from_edgelist malloc IJ nedge = Ok (0, Some g) /\
    (0 <= srcvtx <= l_maxvtx g -> l_maxvtx g < zlen out ->
     exists tree, make_bfs_tree malloc g out srcvtx = Ok (0, tree, l_maxvtx g) /\
       forall v, 0 <= v <= l_maxvtx g ->
         (zth 0 tree v = -1 /\ (forall n, ~ walk (edge_adj IJ nedge) srcvtx n v)) \/
         (0 <= zth 0 tree v /\ exists n : nat, distance (edge_adj IJ nedge) srcvtx v (Z.of_nat n) /\
            up (zth 0 tree) n v = srcvtx)).
Proof.
  intros Hn Hf Hal. destruct (create_list_ok IJ nedge Hn Hf malloc Hal) as (g & -> & Hg).
  exists g. split; [done|]. intros Hs Hout.
  destruct (make_list_tree_ok IJ nedge Hn Hf g srcvtx Hg ltac:(lia) malloc out Hal ltac:(lia))
    as (tree & level & -> & _ & Hok & Hb & _).
  exists tree. split; [done|]. intros v Hv.
  apply (bfs_tree_reach _ _ _ _ _ (edge_adj_sym IJ nedge) Hok); [lia|]. apply Hb. lia.
Qed.

Lemma list_search_shortest_paths_witness : exists tree,
  make_bfs_tree calloc64 (mk_elist 2 2 3 [mk_edge 0 1; mk_edge 1 2; mk_edge 2 2] [1; 3; 2] [1; 2; 1]
    [-1; -1; -1; 0; 0; 0]) [0; 0; 0] 0 = Ok (0, tree, 2) /\ zth 0 tree 2 = 1.
Proof.
  destruct (list_search_shortest_paths [mk_edge 0 1; mk_edge 1 2; mk_edge 2 2] 3 calloc64 [0; 0; 0] 0)
    as (g & E & H); [simpl; lia | apply fits_forall; [lia | repeat constructor; simpl; lia] | exact calloc64_ok |].
  vm_compute in E. injection E as <-.
  destruct H as (tree & E & _); [simpl; lia | simpl; lia |].
  exists tree. split; [exact E|]. vm_compute in E. injection E as <-. reflexivity.
Defined.
