(* ===== verification/Graph500.v ===== *)
(** * The Graph500 benchmark

    [graph500.c] on one machine, with the random numbers of [prng.c]:
    [main] generates the edges, [run_bfs] builds the graph, samples the roots,
    searches from each and verifies the trees.  The search kernel behind
    [create_graph_from_edgelist] and [make_bfs_tree] is chosen when the
    benchmark is linked: the class [Kernel], with an instance for [seq-csr.c]
    and one for [seq-list.c]. *)

From stdpp Require Import sorting.
From S2P Require Import Prelude Double ModArith SplittableMrg MrgTable Scramble GraphGen Bfs Verify.
From S2P Require SeqCsr SeqList.
Import SeqCsr (edge_adj, max_end, fits).

(** ** The kernel *)

(** [create] and [search] return the code 0 or -1 with their results; the
    second also the largest vertex ([max_vtx_out]). *)
Class Kernel (graph : Type) := {
  create_graph_from_edgelist : alloc64 -> list packed_edge -> Z -> res (Z * option graph);
  make_bfs_tree : alloc64 -> graph -> list Z -> Z -> res (Z * list Z * Z)
}.

#[export] Instance seq_csr : Kernel SeqCsr.csr := {|
  create_graph_from_edgelist := SeqCsr.create_graph_from_edgelist;
  make_bfs_tree := SeqCsr.make_bfs_tree |}.

#[export] Instance seq_list : Kernel SeqList.elist := {|
  create_graph_from_edgelist := SeqList.create_graph_from_edgelist;
  make_bfs_tree := SeqList.make_bfs_tree |}.

(** What a kernel promises: with memory, both functions succeed; the tree is a
    breadth-first search tree of the edge list, on the vertices up to the
    largest end [mx], whose entries the verifier can follow.  The sizes of its
    arrays must fit in 64 bits. *)
Class KernelLaws (graph : Type) `{Kernel graph} := {
  represents_edges : list packed_edge -> Z -> Z -> graph -> Prop;
  create_law malloc IJ nedge : alloc64_ok malloc -> 0 <= nedge <= zlen IJ -> fits IJ nedge ->
    exists g mx, create_graph_from_edgelist malloc IJ nedge = Ok (0, Some g) /\
      max_end IJ nedge mx /\ represents_edges IJ nedge mx g;
  search_law malloc IJ nedge mx g root out : represents_edges IJ nedge mx g ->
    alloc64_ok malloc -> 0 <= nedge <= zlen IJ -> fits IJ nedge -> 0 <= root <= mx -> mx + 1 <= zlen out ->
    exists tree level, make_bfs_tree malloc g out root = Ok (0, tree, mx) /\
      zlen tree = zlen out /\
      bfs_tree_ok (edge_adj IJ nedge) (mx + 1) root (zth 0 tree) level /\
      (forall v, 0 <= v < mx + 1 -> -1 <= zth 0 tree v < mx + 1) /\
      (forall v, 0 <= v < mx + 1 -> v <> root -> zth 0 tree v <> v)
}.

#[export] Program Instance seq_csr_laws : KernelLaws SeqCsr.csr := {|
  represents_edges IJ nedge mx g := SeqCsr.csr_ok (edge_adj IJ nedge) g /\ SeqCsr.maxvtx g = mx |}.
Next Obligation.
  intros malloc IJ nedge Hm Hn Hf. cbn. destruct (SeqCsr.create_graph_ok IJ nedge Hn Hf malloc Hm) as (g & E & Hg & Hmx).
  eauto 10.
Qed.
Next Obligation.
  intros malloc IJ nedge mx g root out [Hg <-] Hm Hn Hf Hr Hout.
  destruct (SeqCsr.csr_nv _ _ Hg) as [Env _]. cbn.
  destruct (SeqCsr.make_bfs_tree_ok (edge_adj IJ nedge) g root Hg) with (malloc := malloc) (bfs_tree_out := out)
    as (tree & level & H); [exact (SeqCsr.edge_adj_sym IJ nedge) | lia | done | lia |].
  rewrite Env, (Z.add_comm 1) in H. eauto.
Qed.

#[export] Program Instance seq_list_laws : KernelLaws SeqList.elist := {|
  represents_edges IJ nedge mx g := SeqList.elist_ok IJ nedge g /\ SeqList.l_maxvtx g = mx |}.
Next Obligation.
  intros malloc IJ nedge Hm Hn Hf. cbn. destruct (SeqList.create_list_ok IJ nedge Hn Hf malloc Hm) as (g & E & Hg).
  exists g, (SeqList.l_maxvtx g). split; [done|]. split; [apply (SeqList.el_nv _ _ _ Hg) | done].
Qed.
Next Obligation.
  intros malloc IJ nedge mx g root out [Hg <-] Hm Hn Hf Hr Hout. cbn.
  apply (SeqList.make_list_tree_ok IJ nedge Hn Hf g root Hg); (done || lia).
Qed.

(** ** prng.c *)

Module Prng.

End Prng.

(** Close to (2^31 - 1)^(-1) and (2^31 - 1)^(-2). *)
Definition mrg_scale1 : spec_float := S754_finite false 4503599629467648 (-83).
Definition mrg_scale2 : spec_float := S754_finite false 4503599631564800 (-114).

(** ** The benchmark *)

Section Benchmark.
Context {ops : ModOps} `{Kernel graph} (malloc malloc32 : alloc64).

(** The operands of the sum from left to right. *)
Definition mrg_get_double_orig (state : mrg_state) : res (spec_float * mrg_state) :=
  '(a, state) ← mrg_get_uint_orig state;
  '(b, state) ← mrg_get_uint_orig state;
  Ok (dadd (dmul (double a) mrg_scale1) (dmul (double b) mrg_scale2), state).

(** The vertices with an edge to another vertex. *)
Definition mark_adj (IJ : list packed_edge) (k : Z) (has_adj : list Z) : res (list Z) :=
  e ← IJ.[k];
  let i := get_v0_from_edge e in
  let j := get_v1_from_edge e in
  if negb (i =? j) then has_adj ← has_adj.[j <- 1]; has_adj.[i <- 1] else Ok has_adj.

Definition mark_vertices (nvtx_scale : Z) (IJ : list packed_edge) (nedge : Z) : res (list Z) :=
  has_adj ← xmalloc_large malloc32 (size_of 4 nvtx_scale);
  has_adj ← for_range 0 nvtx_scale (fun k has_adj => has_adj.[k <- 0]) has_adj;
  for_range 0 nedge (mark_adj IJ) has_adj.

(** [(nvtx_scale - t)*R > NBFS - m] *)
Definition unlucky (nvtx_scale NBFS m t : Z) (R : spec_float) : bool :=
  SFltb (double (NBFS - m)) (dmul (double (nvtx_scale - t)) R).

(** Sampling without replacement; the state is [m], [t], the generator's and
    the roots.  Every turn increments [t]. *)
Definition sample_roots (nvtx_scale NBFS : Z) (has_adj : list Z)
    : Z * Z * mrg_state * list Z -> res (Z * Z * mrg_state * list Z) :=
  while (S (Z.to_nat nvtx_scale))
    (fun '(m, t, prng_state, bfs_root) => Ok ((m <? NBFS) && (t <? nvtx_scale)))
    (fun '(m, t, prng_state, bfs_root) =>
       '(R, prng_state) ← mrg_get_double_orig prng_state;
       a ← has_adj.[t];
       if (a =? 0) || unlucky nvtx_scale NBFS m t R then Ok (m, t + 1, prng_state, bfs_root)
       else bfs_root ← bfs_root.[m <- t]; Ok (m + 1, t + 1, prng_state, bfs_root)).

(** The roots and [NBFS]; [rootfile] is [None] without [rootname], otherwise
    what reading [NBFS] roots from that file gives. *)
Definition choose_roots (rootfile : option (option (list Z))) (nvtx_scale : Z)
    (IJ : list packed_edge) (nedge NBFS : Z) (prng_state : mrg_state) (bfs_root : list Z)
    : res (Z * list Z) :=
  match rootfile with
  | None =>
      has_adj ← mark_vertices nvtx_scale IJ nedge;
      '(m, t, prng_state, bfs_root) ←
        sample_roots nvtx_scale NBFS has_adj (0, 0, prng_state, bfs_root);
      if (nvtx_scale <=? t) && (m <? NBFS) then
        if 0 <? m then Ok (m, bfs_root) else Err Aborted
      else Ok (NBFS, bfs_root)
  | Some None => Err Aborted
  | Some (Some roots) => Ok (NBFS, roots ++ drop (Z.to_nat NBFS) bfs_root)
  end.

(** The edge list as the verifier reads it. *)
Definition flat (IJ : list packed_edge) : list Z := concat (map (fun e => [v0 e; v1 e]) IJ).

(** Options of the verifier, see [verify_bfs_tree]. *)
Context (verify : bool) (load : Z -> Z) (save : Z -> bool).

(** One search with its verification; the state is [bfs_nedge]. *)
Definition run_search (g : graph) (nvtx_scale : Z) (IJ : list packed_edge) (nedge : Z)
    (bfs_root : list Z) (m : Z) (bfs_nedge : list Z) : res (list Z) :=
  bfs_tree ← xmalloc_large malloc (size_of 8 nvtx_scale);
  root ← bfs_root.[m];
  c_assert (root <? nvtx_scale);;
  '(err, bfs_tree, max_bfsvtx) ← make_bfs_tree malloc g bfs_tree root;
  if negb (err =? 0) then Err Aborted else
  n ← verify_bfs_tree verify (load root) (save root) malloc bfs_tree max_bfsvtx root (flat IJ) nedge;
  bfs_nedge ← bfs_nedge.[m <- n];
  if n <? 0 then Err Aborted else Ok bfs_nedge.

(** The results: [NBFS], the roots and the numbers of edges. *)
Definition run_bfs (rootfile : option (option (list Z))) (nvtx_scale : Z) (IJ : list packed_edge)
    (nedge NBFS : Z) (prng_state : mrg_state) (bfs_root bfs_nedge : list Z)
    : res (Z * list Z * list Z) :=
  '(err, g) ← create_graph_from_edgelist malloc IJ nedge;
  match g with
  | Some g =>
      if negb (err =? 0) then Err Aborted else
      '(NBFS, bfs_root) ← choose_roots rootfile nvtx_scale IJ nedge NBFS prng_state bfs_root;
      bfs_nedge ← for_range 0 NBFS (run_search g nvtx_scale IJ nedge bfs_root) bfs_nedge;
      Ok (NBFS, bfs_root, bfs_nedge)
  | None => Err Aborted
  end.


End Benchmark.

(** ** The edge list of the verifier *)

Abbreviation edge IJ h := (zth default_edge IJ h).

Lemma flat_length IJ : zlen (flat IJ) = 2 * zlen IJ.
Proof. induction IJ as [|e IJ IH]; [done|]. unfold flat in *. simpl. lia. Qed.

Lemma flat_edge IJ h : 0 <= h < zlen IJ ->
  zth 0 (flat IJ) (2 * h) = v0 (edge IJ h) /\ zth 0 (flat IJ) (2 * h + 1) = v1 (edge IJ h).
Proof.
  intros Hh. rewrite <- (Z2Nat.id h) in * by lia. revert Hh. generalize (Z.to_nat h) as n. clear h.
  intros n. revert IJ. induction n as [|n IH]; intros [|e IJ] Hn; simpl in Hn; [lia | | lia |].
  - done.
  - unfold zth. rewrite Nat2Z.id.
    replace (Z.to_nat (2 * Z.of_nat (S n) + 1)) with (S (S (Z.to_nat (2 * Z.of_nat n + 1)))) by lia.
    replace (Z.to_nat (2 * Z.of_nat (S n))) with (S (S (Z.to_nat (2 * Z.of_nat n)))) by lia.
    destruct (IH IJ ltac:(lia)) as [E0 E1]. unfold zth in E0, E1. rewrite Nat2Z.id in E0, E1.
    simpl. done.
Qed.

Section EdgeList.
Context (IJ : list packed_edge) (nedge : Z).
Hypothesis Hnedge : 0 <= nedge <= zlen IJ.

Lemma flat_adj u v : adj (flat IJ) nedge u v <-> edge_adj IJ nedge u v.
Proof.
  unfold adj, edge_adj, joins. split.
  - intros (Hne & h & Hh & Hu & Hv & Hc). destruct (flat_edge IJ h) as [E0 E1]; [lia|].
    rewrite E0, E1 in Hc. split_and!; [done..|]. exists h, (edge IJ h).
    rewrite (aget_ok default_edge) by lia. done.
  - intros (Hne & Hu & Hv & h & e & Hh & He & Hc).
    apply (aget_Ok_inv default_edge) in He as [? ->]. destruct (flat_edge IJ h) as [E0 E1]; [lia|].
    split; [done|]. exists h. rewrite E0, E1. done.
Qed.

Lemma bfs_tree_ok_ext (a b : Z -> Z -> Prop) nv root tree level :
  (forall u v, a u v <-> b u v) -> bfs_tree_ok a nv root tree level -> bfs_tree_ok b nv root tree level.
Proof.
  intros Hab [H1 H2 H3 H4 H5]. constructor; [done..| |].
  - intros v Hv Hne. rewrite <- Hab. auto.
  - intros u v. rewrite <- Hab. auto.
Qed.

(** [n] edges have an end that [root] reaches: the edges of its component. *)
Definition component_edges (root n : Z) : Prop :=
  exists l : list Z, NoDup l /\ n = zlen l /\
    forall h, h ∈ l <-> 0 <= h < nedge /\ exists k, walk (edge_adj IJ nedge) root k (v0 (edge IJ h)).

Lemma component_edges_unique root n n' : component_edges root n -> component_edges root n' -> n = n'.
Proof.
  intros (l & Hl & -> & H) (l' & Hl' & -> & H'). f_equal. apply Permutation_length, NoDup_Permutation; [done..|].
  intros h. by rewrite H, H'.
Qed.

(** The vertices of all edges are in [0, n). *)
Definition ends_below (n : Z) : Prop :=
  forall h, 0 <= h < nedge -> 0 <= v0 (edge IJ h) < n /\ 0 <= v1 (edge IJ h) < n.

Lemma traversed_component mx root tree level : ends_below (mx + 1) ->
  bfs_tree_ok (edge_adj IJ nedge) (mx + 1) root (zth 0 tree) level ->
  component_edges root (traversed (flat IJ) mx tree nedge).
Proof.
  intros Hends Hok. unfold traversed. eexists. split; [|split; [reflexivity|]].
  { apply list.NoDup_filter, NoDup_seqZ. }
  intros h. rewrite list_elem_of_filter, elem_of_seqZ, counted_spec.
  pose proof (bfs_levels_are_distances _ _ _ _ _ (SeqCsr.edge_adj_sym IJ nedge) Hok (v0 (edge IJ h))) as Hd.
  unfold in_tree in Hd. split.
  - intros [(H1 & H2 & H3 & H4) Hh]. split; [lia|]. destruct (flat_edge IJ h) as [E0 E1]; [lia|].
    rewrite E0 in *. apply Hd. lia.
  - intros [Hh Hw]. destruct (flat_edge IJ h) as [E0 E1]; [lia|]. rewrite E0, E1.
    destruct (Hends h Hh) as [H0 H1]. apply Hd in Hw as Hin. split; [|lia]. split_and!; try lia.
    destruct (decide (v0 (edge IJ h) = v1 (edge IJ h))) as [<-|Hne]; [lia|].
    assert (Ha : edge_adj IJ nedge (v0 (edge IJ h)) (v1 (edge IJ h))).
    { split_and!; [done | lia | lia |]. exists h, (edge IJ h). rewrite (aget_ok default_edge) by lia. auto. }
    destruct (ok_edge _ _ _ _ _ Hok _ _ Ha) as [[_ ?] _]; [done | lia].
Qed.
End EdgeList.

(** ** The roots *)

Section Roots.
Context {ops : ModOps} `{!ModLaws ops} (IJ : list packed_edge) (nedge nvtx_scale : Z).
Hypothesis Hnedge : 0 <= nedge <= zlen IJ.
Hypothesis Hends : ends_below IJ nedge nvtx_scale.
Hypothesis Hscale : 0 <= nvtx_scale < 2 ^ 59.

Definition has_neighbour (u : Z) : Prop := exists w, edge_adj IJ nedge u w.

(** [has_adj] marks the vertices with a neighbour. *)
Lemma mark_vertices_ok malloc32 : alloc_ok 4 malloc32 ->
  exists has_adj, mark_vertices malloc32 nvtx_scale IJ nedge = Ok has_adj /\ zlen has_adj = nvtx_scale /\
    forall u, 0 <= u < nvtx_scale -> zth 0 has_adj u <> 0 <-> has_neighbour u.
Proof.
  intros Hm. unfold mark_vertices.
  destruct (xmalloc_size 4 malloc32 nvtx_scale) as (a0 & -> & Ha0); [done | done | lia | lia |]. cbn [mbind res_bind].
  destruct (for_range_inv (fun k a => zlen a = nvtx_scale /\ forall v, 0 <= v < k -> zth 0 a v = 0)
    (fun k a => a.[k <- 0]) 0 nvtx_scale a0) as (a1 & -> & Ha1 & Hz).
  { lia. }
  { split; [done | lia]. }
  { intros k t Hk [Hl Ht]. rewrite aset_ok by lia. eexists; split; [done|].
    split; [by rewrite length_insert|]. intros v Hv. rewrite zth_insert by lia.
    destruct (Z.eqb_spec v k); [done | apply Ht; lia]. }
  cbn [mbind res_bind].
  destruct (for_range_inv (fun k a => zlen a = nvtx_scale /\
      forall u, 0 <= u < nvtx_scale -> zth 0 a u <> 0 <-> exists w, edge_adj IJ k u w)
    (mark_adj IJ) 0 nedge a1) as (a2 & -> & Ha2 & Hmark); [lia | | | by exists a2].
  { split; [done|]. intros u Hu. rewrite Hz by done. split; [done|].
    intros (w & _ & _ & _ & h & e & Hh & _). lia. }
  intros k a Hk [Ha Hmark]. unfold mark_adj. rewrite (aget_ok default_edge) by lia.
  cbn [mbind res_bind]. unfold get_v0_from_edge, get_v1_from_edge. destruct (Hends k Hk) as [H0 H1].
  assert (Hstep : forall u, (exists w, edge_adj IJ (k + 1) u w) <-> (exists w, edge_adj IJ k u w) \/
    v0 (edge IJ k) <> v1 (edge IJ k) /\ (u = v0 (edge IJ k) \/ u = v1 (edge IJ k))).
  { intros u. split.
    - intros (w & Hne & Hu & Hw & h & e & Hh & He & Hc). destruct (decide (h = k)) as [->|].
      + apply (aget_Ok_inv default_edge) in He as [_ ->]. right. lia.
      + left. exists w. split_and!; [done..|]. exists h, e. split; [lia | done].
    - intros [(w & Hne & Hu & Hw & h & e & Hh & He & Hc)|[Hne Hu]].
      + exists w. split_and!; [done..|]. exists h, e. split; [lia | done].
      + exists (if decide (u = v0 (edge IJ k)) then v1 (edge IJ k) else v0 (edge IJ k)).
        case_decide; (split_and!; [lia..|]); exists k, (edge IJ k); rewrite (aget_ok default_edge) by lia;
          (split; [lia|]); (split; [done|]); lia. }
  destruct (Z.eqb_spec (v0 (edge IJ k)) (v1 (edge IJ k))) as [Heq|Hne]; cbn [negb].
  - eexists; split; [done|]. split; [done|]. intros u Hu. rewrite Hstep, Hmark by done. tauto.
  - rewrite (aset_ok a) by lia. cbn [mbind res_bind]. rewrite aset_ok by (rewrite length_insert; lia).
    eexists; split; [done|]. split; [by rewrite !length_insert|]. intros u Hu.
    rewrite !zth_insert by (rewrite ?length_insert; lia). rewrite Hstep, <- Hmark by done.
    destruct (Z.eqb_spec u (v0 (edge IJ k))), (Z.eqb_spec u (v1 (edge IJ k))); lia.
Qed.

Lemma draw_double_ok st : wf_state st -> exists R, mrg_get_double_orig st = Ok (R, steps 2 st).
Proof.
  intros Hst. unfold mrg_get_double_orig, mrg_get_uint_orig.
  rewrite mrg_orig_step_ok by done. cbn [mbind res_bind].
  rewrite mrg_orig_step_ok by auto using wf_next. cbn [mbind res_bind]. eauto.
Qed.

(** The first [m] roots: vertices below [t] with a neighbour, in order. *)
Definition roots_ok (t m : Z) (roots : list Z) : Prop :=
  (forall i, 0 <= i < m -> 0 <= zth 0 roots i < t /\ has_neighbour (zth 0 roots i)) /\
  forall i j, 0 <= i < j -> j < m -> zth 0 roots i < zth 0 roots j.

Lemma roots_push t m roots : roots_ok t m roots -> 0 <= m < zlen roots -> 0 <= t -> has_neighbour t ->
  roots_ok (t + 1) (m + 1) (<[Z.to_nat m := t]> roots).
Proof.
  intros [Hr Hinc] Hm Ht Hn. split.
  - intros i Hi. rewrite zth_insert by lia. destruct (Z.eqb_spec i m); [split; [lia | done]|].
    destruct (Hr i ltac:(lia)). split; [lia | done].
  - intros i j Hij Hj. rewrite !zth_insert by lia.
    destruct (Z.eqb_spec i m), (Z.eqb_spec j m); try lia; [destruct (Hr i); lia | apply Hinc; lia].
Qed.

Lemma sample_roots_ok NBFS has_adj st roots : 0 <= NBFS <= zlen roots -> wf_state st ->
  zlen has_adj = nvtx_scale ->
  (forall u, 0 <= u < nvtx_scale -> zth 0 has_adj u <> 0 <-> has_neighbour u) ->
  exists m t st' roots', sample_roots nvtx_scale NBFS has_adj (0, 0, st, roots) = Ok (m, t, st', roots') /\
    0 <= m <= NBFS /\ 0 <= t <= nvtx_scale /\ (m = NBFS \/ t = nvtx_scale) /\
    zlen roots' = zlen roots /\ roots_ok t m roots'.
Proof.
  intros HN Hst Hl Hadj. unfold sample_roots.
  match goal with |- context [while ?f ?c ?b ?s0] =>
    destruct (while_ghost (fun n '(m, t, st, r) => n = Z.to_nat (nvtx_scale - t) /\ 0 <= m <= NBFS /\
        0 <= t <= nvtx_scale /\ wf_state st /\ zlen r = zlen roots /\ roots_ok t m r) c b)
      with (fuel := f) (n := Z.to_nat nvtx_scale) (s := s0)
      as (n & [[[m t] st'] r] & -> & (_ & Hm & Ht & Hst' & Hlr & Hr) & Hc) end.
  - intros n [[[m t] st'] r] (-> & Hm & Ht & Hst' & Hlr & Hr).
    destruct (Z.ltb_spec m NBFS), (Z.ltb_spec t nvtx_scale); [|by left..]. right. split; [done|].
    destruct (draw_double_ok st' Hst') as [R ->]. cbn [mbind res_bind].
    rewrite (aget_ok 0 has_adj) by lia. cbn [mbind res_bind].
    destruct ((zth 0 has_adj t =? 0) || unlucky nvtx_scale NBFS m t R) eqn:E.
    + eexists _, _. split; [done|]. split; [split_and!; try reflexivity; try lia|lia].
      * by apply wf_steps.
      * destruct Hr as [Hr Hinc]. split; [|done]. intros i Hi. destruct (Hr i Hi). split; [lia | done].
    + apply orb_false_iff in E as [E _]. rewrite (aset_ok r) by lia. cbn [mbind res_bind].
      eexists _, _. split; [done|]. split; [split_and!; try reflexivity; try lia|lia].
      * by apply wf_steps.
      * by rewrite length_insert.
      * apply roots_push; [done | lia | lia |]. apply Hadj; lia.
  - lia.
  - split_and!; try done; try lia. split; lia.
  - exists m, t, st', r. split; [done|]. split; [done|]. split; [done|]. split; [|done].
    injection Hc as Hc. lia.
Qed.

(** Roots or, when no vertex was sampled, an exit. *)
Lemma choose_roots_ok malloc32 NBFS st roots : alloc_ok 4 malloc32 -> 0 < NBFS <= zlen roots -> wf_state st ->
  choose_roots malloc32 None nvtx_scale IJ nedge NBFS st roots = Err Aborted \/
  exists n roots', choose_roots malloc32 None nvtx_scale IJ nedge NBFS st roots = Ok (n, roots') /\
    0 < n <= NBFS /\ zlen roots' = zlen roots /\ roots_ok nvtx_scale n roots'.
Proof.
  intros Hm HN Hst. unfold choose_roots.
  destruct (mark_vertices_ok malloc32 Hm) as (a & -> & Ha & Hadj). cbn [mbind res_bind].
  destruct (sample_roots_ok NBFS a st roots) as (m & t & st' & r & -> & Hmr & Ht & Hend & Hl & Hr); [lia | done..|].
  cbn [mbind res_bind].
  assert (Hr' : roots_ok nvtx_scale m r).
  { destruct Hr as [Hr Hinc]. split; [|done]. intros i Hi. destruct (Hr i Hi). split; [lia | done]. }
  destruct ((nvtx_scale <=? t) && (m <? NBFS)) eqn:E.
  - destruct (Z.ltb_spec 0 m); [right | by left]. exists m, r. split; [done|]. split; [lia | done].
  - right. assert (m = NBFS) as -> by lia. exists NBFS, r. split; [done|]. split; [lia | done].
Qed.
End Roots.

(** ** The run *)

Section Run.
Context `{KernelLaws graph} (IJ : list packed_edge) (nedge nvtx_scale : Z).
Hypothesis Hnedge : 0 <= nedge <= zlen IJ.
Hypothesis Hcount : nedge < 2 ^ 31.
Hypothesis Hends : ends_below IJ nedge nvtx_scale.
Hypothesis Hscale59 : nvtx_scale < 2 ^ 59.
Context (malloc : alloc64) (load : Z -> Z) (save : Z -> bool).
Hypothesis Hmalloc : alloc64_ok malloc.
Hypothesis Hsave : forall root, save root = true.

(** The sizes of the kernel's arrays do not wrap around. *)
Lemma run_fits : fits IJ nedge.
Proof.
  split; [lia|]. intros h e Hh E. apply (aget_Ok_inv default_edge) in E as [_ ->]. destruct (Hends h Hh). lia.
Qed.

Lemma max_end_ends mx : max_end IJ nedge mx -> ends_below IJ nedge (mx + 1).
Proof. intros (_ & Hall & _) h Hh. destruct (Hall h Hh), (Hends h Hh). lia. Qed.

Lemma neighbour_bound mx u : max_end IJ nedge mx -> has_neighbour IJ nedge u -> 0 <= u <= mx.
Proof.
  intros (_ & Hall & _) (w & _ & Hu & _ & h & e & Hh & He & Hc).
  apply (aget_Ok_inv default_edge) in He as [_ ->]. destruct (Hall h Hh). lia.
Qed.

(** One search is accepted, with the number of edges of the component. *)
Lemma run_search_ok g mx roots m counts : max_end IJ nedge mx -> mx < nvtx_scale ->
  represents_edges IJ nedge mx g -> 0 <= m < zlen roots -> m < zlen counts ->
  has_neighbour IJ nedge (zth 0 roots m) ->
  exists n, run_search malloc true load save g nvtx_scale IJ nedge roots m counts
      = Ok (<[Z.to_nat m := n]> counts) /\ component_edges IJ nedge (zth 0 roots m) n.
Proof.
  intros Hmx Hscale Hg Hm Hc Hn. unfold run_search.
  pose proof (neighbour_bound mx _ Hmx Hn) as Hr. pose proof Hmx as (Hmx0 & _).
  destruct (xmalloc_size 8 malloc nvtx_scale) as (out & -> & Hout); [lia | done | lia | lia |].
  cbn [mbind res_bind]. rewrite (aget_ok 0 roots) by lia. cbn [mbind res_bind].
  rewrite c_assert_true by (apply Z.ltb_lt; lia). cbn [mbind res_bind].
  destruct (search_law malloc IJ nedge mx g (zth 0 roots m) out) as (tree & level & -> & Hlen & Hok & Hb & Hself);
    [done | done | done | exact run_fits | lia | lia |]. cbn [mbind res_bind Z.eqb negb].
  assert (Hib : in_bounds (mx + 1) (zth 0 roots m) tree).
  { destruct (ok_root _ _ _ _ _ Hok). constructor; [lia | done | | done]. intros v Hv. by apply Hb. }
  assert (HIJ : 2 * nedge <= zlen (flat IJ)) by (rewrite flat_length; lia). rewrite Hsave.
  destruct (verify_verdict (flat IJ) nedge mx _ tree Hib (load (zth 0 roots m)) malloc Hmalloc)
    as (n & -> & [(Hn0 & -> & _)|[_ Hno]]); [lia | done | |].
  - cbn [mbind res_bind]. rewrite (aset_ok counts) by lia. cbn [mbind res_bind].
    destruct (Z.ltb_spec (traversed (flat IJ) mx tree nedge) 0); [lia|].
    eexists. split; [done|]. eapply traversed_component; [done | by apply max_end_ends | done].
  - destruct (Hno level). split.
    + eapply bfs_tree_ok_ext; [intros u v; symmetry; by apply flat_adj | done].
    + intros h Hh _ _. destruct (flat_edge IJ h) as [-> ->]; [lia|].
      destruct Hmx as (_ & Hall & _). destruct (Hall h Hh). lia.
Qed.

(** All searches. *)
Lemma run_searches_ok g mx roots n counts : max_end IJ nedge mx -> mx < nvtx_scale ->
  represents_edges IJ nedge mx g -> 0 <= n <= zlen roots -> n <= zlen counts ->
  (forall i, 0 <= i < n -> has_neighbour IJ nedge (zth 0 roots i)) ->
  exists counts', for_range 0 n (run_search malloc true load save g nvtx_scale IJ nedge roots) counts = Ok counts' /\
    zlen counts' = zlen counts /\
    (forall i, 0 <= i < n -> component_edges IJ nedge (zth 0 roots i) (zth 0 counts' i)) /\
    (forall i, n <= i -> zth 0 counts' i = zth 0 counts i).
Proof.
  intros Hmx Hscale Hg Hn Hc Hnb.
  destruct (for_range_inv (fun k c => zlen c = zlen counts /\
      (forall i, 0 <= i < k -> component_edges IJ nedge (zth 0 roots i) (zth 0 c i)) /\
      (forall i, k <= i -> zth 0 c i = zth 0 counts i))
    (run_search malloc true load save g nvtx_scale IJ nedge roots) 0 n counts)
    as (c & E & Hl & Hi & Hrest); [lia | split_and!; (done || lia) | | by eauto].
  intros k c Hk (Hl & Hi & Hrest).
  destruct (run_search_ok g mx roots k c Hmx Hscale Hg) as (x & -> & Hx); [lia | lia | by apply Hnb|].
  eexists; split; [done|]. split; [by rewrite length_insert|]. split.
  - intros i Hik. rewrite zth_insert by lia. destruct (Z.eqb_spec i k) as [->|]; [done | apply Hi; lia].
  - intros i Hik. rewrite zth_insert_ne by lia. apply Hrest. lia.
Qed.
End Run.

(** ** The whole benchmark *)

(** A failing root choice fails the run. *)
Section Benchmarks.
Context {ops : ModOps} `{!ModLaws ops}.
Context (malloc malloc32 : alloc64) (load : Z -> Z) (save : Z -> bool).
Hypothesis Hmalloc : alloc64_ok malloc.
Hypothesis Hmalloc32 : alloc_ok 4 malloc32.
Hypothesis Hsave : forall root, save root = true.

Lemma max_end_scale IJ nedge nvtx_scale mx : 0 <= nvtx_scale -> ends_below IJ nedge nvtx_scale ->
  max_end IJ nedge mx -> mx < nvtx_scale.
Proof.
  intros Hs Hends (_ & _ & Hmin). enough (mx <= nvtx_scale - 1) by lia.
  apply Hmin; [lia|]. intros h Hh. destruct (Hends h Hh). lia.
Qed.

Lemma run_bfs_ok `{KernelLaws graph} IJ nedge nvtx_scale NBFS st roots0 counts0 :
  0 <= nedge <= zlen IJ -> nedge < 2 ^ 31 -> 0 <= nvtx_scale < 2 ^ 59 -> ends_below IJ nedge nvtx_scale ->
  0 < NBFS <= zlen roots0 -> NBFS <= zlen counts0 -> wf_state st ->
  match choose_roots malloc32 None nvtx_scale IJ nedge NBFS st roots0 with
  | Err f => f = Aborted /\
      run_bfs malloc malloc32 true load save None nvtx_scale IJ nedge NBFS st roots0 counts0 = Err Aborted
  | Ok (n, roots) => 0 < n <= NBFS /\ roots_ok IJ nedge nvtx_scale n roots /\
      exists counts,
        run_bfs malloc malloc32 true load save None nvtx_scale IJ nedge NBFS st roots0 counts0
          = Ok (n, roots, counts) /\ zlen counts = zlen counts0 /\
        (forall i, 0 <= i < n -> component_edges IJ nedge (zth 0 roots i) (zth 0 counts i)) /\
        (forall i, n <= i -> zth 0 counts i = zth 0 counts0 i)
  end.
Proof.
  intros Hn Hcount Hs Hends HN HN' Hst. unfold run_bfs.
  destruct (create_law malloc IJ nedge Hmalloc Hn) as (g & mx & -> & Hmx & Hg);
    [apply (run_fits IJ nedge nvtx_scale); (done || lia)|].
  cbn [mbind res_bind Z.eqb negb].
  destruct (choose_roots_ok IJ nedge nvtx_scale Hn Hends Hs malloc32 NBFS st roots0 Hmalloc32 HN Hst)
    as [-> | (n & roots & -> & Hnr & Hlr & Hr)]; [done|]. cbn [mbind res_bind].
  split; [done|]. split; [done|].
  destruct (run_searches_ok IJ nedge nvtx_scale Hn Hcount Hends ltac:(lia) malloc load save Hmalloc Hsave
    g mx roots n counts0) as (c & -> & Hc); [done | eapply max_end_scale; (done || lia) | done | lia | lia | |].
  { intros i Hi. by apply Hr. }
  cbn [mbind res_bind]. eauto.
Qed.

(** C5: whatever kernel is linked (any instance of the interface), on an edge
    list with vertices below [nvtx_scale] (less than 2^59, so that the sizes of
    the arrays do not wrap around) [run_bfs] ends: it exits when no
    root was sampled; otherwise it verifies every search.  The [n] roots are
    strictly increasing vertices with a neighbour, and the number of edges
    reported for a root is that of the input edges in its component. *)
Theorem run_bfs_verified `{KernelLaws graph} IJ nedge nvtx_scale NBFS st roots0 counts0 :
  0 <= nedge <= zlen IJ -> nedge < 2 ^ 31 -> 0 <= nvtx_scale < 2 ^ 59 -> ends_below IJ nedge nvtx_scale ->
  0 < NBFS <= zlen roots0 -> NBFS <= zlen counts0 -> wf_state st ->
  match run_bfs malloc malloc32 true load save None nvtx_scale IJ nedge NBFS st roots0 counts0 with
  | Err f => f = Aborted /\ choose_roots malloc32 None nvtx_scale IJ nedge NBFS st roots0 = Err Aborted
  | Ok (n, roots, counts) => 0 < n <= NBFS /\
      (forall i, 0 <= i < n -> 0 <= zth 0 roots i < nvtx_scale /\
         (exists w, edge_adj IJ nedge (zth 0 roots i) w) /\
         component_edges IJ nedge (zth 0 roots i) (zth 0 counts i)) /\
      (forall i j, 0 <= i < j -> j < n -> zth 0 roots i < zth 0 roots j)
  end.
Proof.
  intros Hn Hcount Hs Hends HN HN' Hst.
  pose proof (run_bfs_ok IJ nedge nvtx_scale NBFS st roots0 counts0 Hn Hcount Hs Hends HN HN' Hst) as Hrun.
  destruct (choose_roots _ _ _ _ _ _ _ _) as [[n roots]|f].
  - destruct Hrun as (Hnr & [Hr Hinc] & counts & -> & _ & Hc & _). split; [done|]. split; [|done].
    intros i Hi. destruct (Hr i Hi). auto.
  - destruct Hrun as [-> ->]. done.
Qed.

(** C7: the two kernels cannot be told apart by the benchmark, on vertices
    whose arrays have sizes that do not wrap around: with the same generator
    state both give the same roots and the same counts, or both
    exit. *)
Theorem kernels_agree IJ nedge nvtx_scale NBFS st roots0 counts0 :
  0 <= nedge <= zlen IJ -> nedge < 2 ^ 31 -> 0 <= nvtx_scale < 2 ^ 59 -> ends_below IJ nedge nvtx_scale ->
  0 < NBFS <= zlen roots0 -> NBFS <= zlen counts0 -> wf_state st ->
  run_bfs (H := seq_csr) malloc malloc32 true load save None nvtx_scale IJ nedge NBFS st roots0 counts0 =
  run_bfs (H := seq_list) malloc malloc32 true load save None nvtx_scale IJ nedge NBFS st roots0 counts0.
Proof.
  intros Hn Hcount Hs Hends HN HN' Hst.
  pose proof (run_bfs_ok (graph := SeqCsr.csr) IJ nedge nvtx_scale NBFS st roots0 counts0 Hn Hcount Hs Hends HN HN' Hst) as H1.
  pose proof (run_bfs_ok (graph := SeqList.elist) IJ nedge nvtx_scale NBFS st roots0 counts0 Hn Hcount Hs Hends HN HN' Hst) as H2.
  destruct (choose_roots _ _ _ _ _ _ _ _) as [[n roots]|f].
  - destruct H1 as (_ & _ & c1 & -> & Hl1 & Hc1 & Hr1), H2 as (_ & _ & c2 & -> & Hl2 & Hc2 & Hr2).
    do 2 f_equal. apply (zth_ext 0); [lia|]. intros i Hi. destruct (Z.lt_ge_cases i n).
    + eapply component_edges_unique; [apply Hc1; lia | apply Hc2; lia].
    + by rewrite Hr1, Hr2.
  - destruct H1 as [_ ->], H2 as [_ ->]. done.
Qed.

(** *** main *)



End Benchmarks.

(** ** Witnesses *)

Definition sample_edges : list packed_edge :=
  [mk_edge 0 1; mk_edge 1 2; mk_edge 3 3; mk_edge 5 4; mk_edge 1 0].

Lemma sample_ends : ends_below sample_edges 5 8.
Proof.
  intros h Hh. assert (h = 0 \/ h = 1 \/ h = 2 \/ h = 3 \/ h = 4) as [->|[->|[->|[->| ->]]]] by lia;
    vm_compute; intuition congruence.
Qed.

Abbreviation sample_run k :=
  (run_bfs (ops := ops64) (H := k) calloc64 (calloc 4) true (fun _ => 0) (fun _ => true) None 8 sample_edges 5
     2 ones_state [0; 0] [7; 7]).

Lemma run_bfs_verified_witness : sample_run seq_csr = Ok (2, [0; 5], [3; 1]) /\
  component_edges sample_edges 5 0 3 /\ component_edges sample_edges 5 5 1.
Proof.
  pose proof (run_bfs_verified (ops := ops64) (graph := SeqCsr.csr) calloc64 (calloc 4) (fun _ => 0) (fun _ => true) calloc64_ok
    (calloc_ok 4 ltac:(lia)) (fun _ => eq_refl) sample_edges 5 8 2 ones_state [0; 0] [7; 7]
    ltac:(simpl; lia) ltac:(lia) ltac:(lia) sample_ends ltac:(simpl; lia) ltac:(simpl; lia)
    (proj1 ones_good)) as H.
  assert (E : sample_run seq_csr = Ok (2, [0; 5], [3; 1])) by (vm_compute; reflexivity).
  rewrite E in H. destruct H as (_ & Hc & _). split; [exact E|]. split; [apply (Hc 0) | apply (Hc 1)]; lia.
Defined.

Lemma kernels_agree_witness : sample_run seq_csr = sample_run seq_list /\ sample_run seq_list = Ok (2, [0; 5], [3; 1]).
Proof.
  pose proof (kernels_agree (ops := ops64) calloc64 (calloc 4) (fun _ => 0) (fun _ => true) calloc64_ok
    (calloc_ok 4 ltac:(lia)) (fun _ => eq_refl) sample_edges 5 8 2 ones_state [0; 0] [7; 7]
    ltac:(simpl; lia) ltac:(lia) ltac:(lia) sample_ends ltac:(simpl; lia) ltac:(simpl; lia)
    (proj1 ones_good)) as H.
  split; [exact H|]. rewrite <- H. vm_compute. reflexivity.
Defined.


(** The sampling can pass over vertices with a neighbour and end short of the
    [NBFS] roots there are: five vertices here have a neighbour, and 3 roots
    are asked for. *)
Example sampling_misses_roots :
  run_bfs (ops := ops64) (H := seq_csr) calloc64 (calloc 4) true (fun _ => 0) (fun _ => true) None 8 sample_edges 5
    3 ones_state [0; 0; 0] [7; 7; 7] = Ok (2, [0; 5; 0], [3; 1; 7]).
Proof. vm_compute. reflexivity. Qed.
