(* ===== verification/QueuePair.v ===== *)
(** * The queue pair of soNUMA

    [sonuma.h] and [RMCdefines.h] with the one-sided part of the daemon's loop
    ([rmcd.cpp]): an application posts remote reads and writes to a work queue
    (WQ), the remote memory controller (RMC) carries them out and writes
    completions to a completion queue (CQ).  Both queues are rings of 64
    entries in memory that the two processes share; an entry is recognised by
    its sense bit [SR], which flips on every round.

    The processes are interleaved step by step ([step]): the application fills
    the entry at the head and then publishes it; the RMC executes an
    operation, then writes the completion's [tid] and then its [SR].  Stores
    are seen in program order.  Both queues are connected, and the queue pair
    carries one-sided operations only. *)

From S2P Require Import Prelude.

Definition MAX_NUM_WQ : Z := 64.

(** ** The shared queues (RMCdefines.h) *)

(** The fields that one-sided operations use. *)
Record wq_entry := mk_wqe {
  op : Z; wSR : Z; valid : Z; buf_addr : Z; buf_offset : Z; cid : Z; nid : Z; offset : Z; len : Z }.
Record cq_entry := mk_cqe { cSR : Z; tid : Z }.
Record rmc_wq := mk_wq { wq_q : list wq_entry; head : Z; wq_SR : Z }.
Record rmc_cq := mk_cq { cq_q : list cq_entry; tail : Z; cq_SR : Z }.

(** alloc_wq and alloc_cq after [shmget] *)
Definition zero_wqe : wq_entry := mk_wqe 0 0 0 0 0 0 0 0 0.
Definition zero_cqe : cq_entry := mk_cqe 0 0.
Definition alloc_wq : rmc_wq := mk_wq (replicate 64 zero_wqe) 0 1.
Definition alloc_cq : rmc_cq := mk_cq (replicate 64 zero_cqe) 0 1.

(** [i = i + 1; if (i >= MAX_NUM_WQ) { i = 0; SR ^= 1; }] on an index of 8 bits *)
Definition advance (i SR : Z) : Z * Z :=
  let i := u8 (i + 1) in
  if MAX_NUM_WQ <=? i then (0, Z.lxor SR 1) else (i, SR).

(** ** The application (sonuma.h) *)

Definition op_read : Z := 114.  (* 'r' *)
Definition op_write : Z := 119. (* 'w' *)

(** A request as it is stored. *)
Record request := mk_request {
  r_op : Z; r_buf_addr : Z; r_buf_offset : Z; r_cid : Z; r_nid : Z; r_offset : Z; r_length : Z }.

(** The assignments to the entry at the head up to [valid = 1], from the
    arguments of [rmc_rread_async] and the others. *)
Definition fill_entry (op lbuff_base lbuff_offset snid ctx_id ctx_offset length : Z) (wq : rmc_wq)
    : res rmc_wq :=
  let wq_head := head wq in
  e ← (wq_q wq).[wq_head];
  let length := if length <? 64 then 64 else length in
  q ← (wq_q wq).[wq_head <-
        mk_wqe op (wSR e) 1 (u64 lbuff_base) lbuff_offset (u16 ctx_id) (u16 snid) ctx_offset length];
  Ok (mk_wq q (head wq) (wq_SR wq)).

(** [SR] of the entry, which the RMC polls, and the head. *)
Definition publish_entry (wq : rmc_wq) : res rmc_wq :=
  let wq_head := head wq in
  e ← (wq_q wq).[wq_head];
  q ← (wq_q wq).[wq_head <-
        mk_wqe (op e) (wq_SR wq) (valid e) (buf_addr e) (buf_offset e) (cid e) (nid e) (offset e) (len e)];
  let '(h, SR) := advance (head wq) (wq_SR wq) in
  Ok (mk_wq q h SR).

Definition rmc_rread_async (wq : rmc_wq) (lbuff_base lbuff_offset snid ctx_id ctx_offset length : Z) : res rmc_wq :=
  wq ← fill_entry op_read lbuff_base lbuff_offset snid ctx_id ctx_offset length wq; publish_entry wq.
Definition rmc_rwrite_async (wq : rmc_wq) (lbuff_base lbuff_offset snid ctx_id ctx_offset length : Z) : res rmc_wq :=
  wq ← fill_entry op_write lbuff_base lbuff_offset snid ctx_id ctx_offset length wq; publish_entry wq.

(** [cq->q[cq->tail].SR == cq->SR] *)
Definition cq_ready (cq : rmc_cq) : res bool :=
  e ← (cq_q cq).[tail cq]; Ok (cSR e =? cq_SR cq).

(** One turn of the loop over completed entries, the same in [rmc_check_cq],
    [rmc_drain_cq] and after the wait of the synchronous calls; the result is
    the transaction, with the entry that the handler gets. *)
Definition reap_entry (wq : rmc_wq) (cq : rmc_cq) : res (Z * wq_entry * rmc_wq * rmc_cq) :=
  c ← (cq_q cq).[tail cq];
  let tid := tid c in
  e ← (wq_q wq).[tid];
  let e := mk_wqe (op e) (wSR e) 0 (buf_addr e) (buf_offset e) (cid e) (nid e) (offset e) (len e) in
  q ← (wq_q wq).[tid <- e];
  let '(t, SR) := advance (tail cq) (cq_SR cq) in
  Ok (tid, e, mk_wq q (head wq) (wq_SR wq), mk_cq (cq_q cq) t SR).

(** [wq->q[wq_head].valid] *)
Definition wq_busy (wq : rmc_wq) : res bool :=
  e ← (wq_q wq).[head wq]; Ok (negb (valid e =? 0)).

(** ** The RMC (rmcd.cpp) *)

(** Its private indices of one queue pair. *)
Record rmc := mk_rmc { local_wq_tail : Z; local_wq_SR : Z; local_cq_head : Z; local_cq_SR : Z }.
Definition init_rmc : rmc := mk_rmc 0 1 0 1.

(** The application's buffer and the regions of the nodes. *)
Record memory := mk_memory { local_buffer : list Z; ctx : list (list Z) }.

Definition memcpy (dst : list Z) (doff : Z) (src : list Z) (soff n : Z) : res (list Z) :=
  if (0 <=? doff) && (0 <=? soff) && (0 <=? n) && (doff + n <=? zlen dst) && (soff + n <=? zlen src) then
    Ok (take (Z.to_nat doff) dst ++ take (Z.to_nat n) (drop (Z.to_nat soff) src) ++ drop (Z.to_nat (doff + n)) dst)
  else Err OutOfBounds.

Definition one_sided (o : Z) : bool := (o =? op_read) || (o =? op_write).

(** The operations 'r' and 'w'.  An operation that is not implemented is
    dropped; so are here the sends and receives 's' and 'g', which a queue pair
    with one-sided operations does not carry. *)
Definition execute (curr : wq_entry) (m : memory) : res memory :=
  if op curr =? op_read then
    region ← (ctx m).[nid curr];
    b ← memcpy (local_buffer m) (buf_offset curr) region (offset curr) (len curr);
    Ok (mk_memory b (ctx m))
  else if op curr =? op_write then
    region ← (ctx m).[nid curr];
    region ← memcpy region (offset curr) (local_buffer m) (buf_offset curr) (len curr);
    ctx ← (ctx m).[nid curr <- region];
    Ok (mk_memory (local_buffer m) ctx)
  else Ok m.

Definition wq_ready (wq : rmc_wq) (r : rmc) : res bool :=
  e ← (wq_q wq).[local_wq_tail r]; Ok (wSR e =? local_wq_SR r).

(** The turn of the polling loop in three steps: the operation, with the
    advance of the private tail; the transaction of the completion; its [SR],
    with the advance of the private head.  For an operation that is dropped
    there is no completion, and the tail does not move: the loop meets the
    entry again. *)
Definition rmc_execute (wq : rmc_wq) (r : rmc) (m : memory) : res (wq_entry * option Z * rmc * memory) :=
  curr ← (wq_q wq).[local_wq_tail r];
  m ← execute curr m;
  if one_sided (op curr) then
    let compl_idx := local_wq_tail r in
    let '(t, SR) := advance (local_wq_tail r) (local_wq_SR r) in
    Ok (curr, Some compl_idx, mk_rmc t SR (local_cq_head r) (local_cq_SR r), m)
  else Ok (curr, None, r, m).

Definition rmc_write_tid (cq : rmc_cq) (r : rmc) (compl_idx : Z) : res rmc_cq :=
  c ← (cq_q cq).[local_cq_head r];
  q ← (cq_q cq).[local_cq_head r <- mk_cqe (cSR c) compl_idx];
  Ok (mk_cq q (tail cq) (cq_SR cq)).

Definition rmc_write_SR (cq : rmc_cq) (r : rmc) : res (rmc_cq * rmc) :=
  c ← (cq_q cq).[local_cq_head r];
  q ← (cq_q cq).[local_cq_head r <- mk_cqe (local_cq_SR r) (tid c)];
  let '(h, SR) := advance (local_cq_head r) (local_cq_SR r) in
  Ok (mk_cq q (tail cq) (cq_SR cq), mk_rmc (local_wq_tail r) (local_wq_SR r) h SR).

Definition rmc_turn (wq : rmc_wq) (cq : rmc_cq) (r : rmc) (m : memory) : res (rmc_cq * rmc * memory) :=
  '(_, compl, r, m) ← rmc_execute wq r m;
  match compl with
  | Some compl_idx =>
      cq ← rmc_write_tid cq r compl_idx;
      '(cq, r) ← rmc_write_SR cq r;
      Ok (cq, r, m)
  | None => Ok (cq, r, m)
  end.

(** ** Both processes *)

(** Where the RMC is in its turn. *)
Inductive rmc_pc := Polling | Executed (compl_idx : Z) | TidWritten.

(** [filled]: the application has filled the entry at the head. *)
Record system := mk_system {
  wq : rmc_wq; cq : rmc_cq; ctl : rmc; pc : rmc_pc; filled : bool; mem : memory }.

Definition start (m : memory) : system := mk_system alloc_wq alloc_cq init_rmc Polling false m.

(** [rmc_rread_sync] and [rmc_rwrite_sync] while the RMC polls.  The first
    wait never ends when the head entry is taken: only this process clears
    [valid].  In the second the RMC runs until a completion shows, which takes
    one turn when nothing else is in flight. *)
Definition wait_completion (wq1 : rmc_wq) (x : rmc_cq * rmc * memory) : res (rmc_cq * rmc * memory) :=
  while 65
    (fun '(cq, _, _) => b ← cq_ready cq; Ok (negb b))
    (fun '(cq, r, m) =>
       b ← wq_ready wq1 r; (if b : bool then rmc_turn wq1 cq r m else Err OutOfFuel)) x.

Definition rmc_sync (op lbuff_base lbuff_offset snid ctx_id ctx_offset length : Z) (s : system) : res system :=
  busy ← wq_busy (wq s);
  if busy : bool then Err OutOfFuel else
  wq1 ← fill_entry op lbuff_base lbuff_offset snid ctx_id ctx_offset length (wq s);
  wq1 ← publish_entry wq1;
  '(cq1, r, m) ← wait_completion wq1 (cq s, ctl s, mem s);
  '(_, _, wq1, cq1) ← reap_entry wq1 cq1;
  Ok (mk_system wq1 cq1 r (pc s) (filled s) m).

Definition rmc_rread_sync := rmc_sync op_read.
Definition rmc_rwrite_sync := rmc_sync op_write.

(** The request in an entry. *)
Definition request_of (e : wq_entry) : request :=
  mk_request (op e) (buf_addr e) (buf_offset e) (cid e) (nid e) (offset e) (len e).

(** What an observer sees. *)
Inductive event :=
| Post (r : request)            (** the application publishes [r] *)
| Exec (r : request)            (** the RMC carries [r] out *)
| Reap (tid : Z) (r : request)  (** the handler is called for transaction [tid] with entry [r] *)
| Silent.

Inductive step : system -> event -> system -> Prop :=
| step_fill s o base off snid ctx_id coff n wq' :
    filled s = false -> wq_busy (wq s) = Ok false -> (o = op_read \/ o = op_write) ->
    fill_entry o base off snid ctx_id coff n (wq s) = Ok wq' ->
    step s Silent (mk_system wq' (cq s) (ctl s) (pc s) true (mem s))
| step_publish s e wq' :
    filled s = true -> (wq_q (wq s)).[head (wq s)] = Ok e -> publish_entry (wq s) = Ok wq' ->
    step s (Post (request_of e)) (mk_system wq' (cq s) (ctl s) (pc s) false (mem s))
| step_reap s tid e wq' cq' :
    filled s = false -> cq_ready (cq s) = Ok true -> reap_entry (wq s) (cq s) = Ok (tid, e, wq', cq') ->
    step s (Reap tid (request_of e)) (mk_system wq' cq' (ctl s) (pc s) false (mem s))
| step_execute s e i ctl' mem' :
    pc s = Polling -> wq_ready (wq s) (ctl s) = Ok true ->
    rmc_execute (wq s) (ctl s) (mem s) = Ok (e, Some i, ctl', mem') ->
    step s (Exec (request_of e)) (mk_system (wq s) (cq s) ctl' (Executed i) (filled s) mem')
| step_drop s e ctl' mem' :
    pc s = Polling -> wq_ready (wq s) (ctl s) = Ok true ->
    rmc_execute (wq s) (ctl s) (mem s) = Ok (e, None, ctl', mem') ->
    step s Silent (mk_system (wq s) (cq s) ctl' Polling (filled s) mem')
| step_tid s i cq' :
    pc s = Executed i -> rmc_write_tid (cq s) (ctl s) i = Ok cq' ->
    step s Silent (mk_system (wq s) cq' (ctl s) TidWritten (filled s) (mem s))
| step_SR s cq' ctl' :
    pc s = TidWritten -> rmc_write_SR (cq s) (ctl s) = Ok (cq', ctl') ->
    step s Silent (mk_system (wq s) cq' ctl' Polling (filled s) (mem s)).

(** The events of an execution, oldest first, [Silent] left out. *)
Inductive run : system -> list event -> system -> Prop :=
| run_nil s : run s [] s
| run_silent s tr s' s'' : run s tr s' -> step s' Silent s'' -> run s tr s''
| run_event s tr s' e s'' : run s tr s' -> step s' e s'' -> e <> Silent -> run s (tr ++ [e]) s''.

(** ** The abstract queue

    What the queue pair implements: a queue of at most 64 requests, carried
    out in the order they were posted, and reported in that order. *)

Record fifo := mk_fifo {
  outstanding : list request; completed : list request; reaped : Z; fmem : memory }.

Definition execute_request (r : request) (m : memory) : res memory :=
  execute (mk_wqe (r_op r) 0 0 (r_buf_addr r) (r_buf_offset r) (r_cid r) (r_nid r) (r_offset r) (r_length r)) m.

Inductive fifo_step : fifo -> event -> fifo -> Prop :=
| fifo_post out dn n m r : zlen dn + zlen out < MAX_NUM_WQ ->
    fifo_step (mk_fifo out dn n m) (Post r) (mk_fifo (out ++ [r]) dn n m)
| fifo_exec out dn n m r m' : execute_request r m = Ok m' ->
    fifo_step (mk_fifo (r :: out) dn n m) (Exec r) (mk_fifo out (dn ++ [r]) n m')
| fifo_reap out dn n m r :
    fifo_step (mk_fifo out (r :: dn) n m) (Reap (n mod MAX_NUM_WQ) r) (mk_fifo out dn (n + 1) m).

Inductive fifo_run : fifo -> list event -> fifo -> Prop :=
| fifo_nil a : fifo_run a [] a
| fifo_snoc a tr a' e a'' : fifo_run a tr a' -> fifo_step a' e a'' -> fifo_run a (tr ++ [e]) a''.

(** ** Positions and slots

    Operations are numbered from 0; number [n] uses slot [n mod 64], and its
    sense is 1 in even rounds. *)

Abbreviation slot n := (n mod 64).
Definition sense (n : Z) : Z := if Z.even (n / 64) then 1 else 0.

Lemma slot_range n : 0 <= slot n < 64.
Proof. apply Z.mod_pos_bound. lia. Qed.

Lemma slot_inj n k : slot n = slot k -> -64 < n - k < 64 -> n = k.
Proof.
  intros E H. pose proof (Z.div_mod n 64 ltac:(lia)). pose proof (Z.div_mod k 64 ltac:(lia)). lia.
Qed.

Lemma slot_back n : slot (n - 64) = slot n.
Proof. replace (n - 64) with (n + (-1) * 64) by lia. apply Z_mod_plus_full. Qed.

Lemma sense_back n : sense (n - 64) <> sense n.
Proof.
  unfold sense. replace (n - 64) with (n + (-1) * 64) by lia. rewrite Z_div_plus_full by lia.
  rewrite Z.even_add. by destruct (Z.even (n / 64)).
Qed.

Lemma advance_ok n : advance (slot n) (sense n) = (slot (n + 1), sense (n + 1)).
Proof.
  unfold advance, MAX_NUM_WQ. pose proof (slot_range n). rewrite unsigned_small by lia.
  pose proof (Z.div_mod n 64 ltac:(lia)) as E. unfold sense.
  destruct (Z.leb_spec 64 (slot n + 1)).
  - assert (E1 : n + 1 = (n / 64 + 1) * 64 + 0) by lia.
    assert (Es : slot (n + 1) = 0) by (symmetry; apply (Z.mod_unique _ _ (n / 64 + 1)); lia).
    assert (Ed : (n + 1) / 64 = n / 64 + 1) by (symmetry; apply (Z.div_unique _ _ _ 0); lia).
    rewrite Es, Ed, Z.even_add. by destruct (Z.even (n / 64)).
  - assert (Es : slot (n + 1) = slot n + 1) by (symmetry; apply (Z.mod_unique _ _ (n / 64)); lia).
    assert (Ed : (n + 1) / 64 = n / 64) by (symmetry; apply (Z.div_unique _ _ _ (slot n + 1)); lia).
    by rewrite Es, Ed.
Qed.

(** ** The simulation *)

Abbreviation wqe s n := (zth zero_wqe (wq_q (wq s)) (slot n)).
Abbreviation cqe s n := (zth zero_cqe (cq_q (cq s)) (slot n)).

Section Relation.
Context (a : fifo) (s : system).
Abbreviation C := (reaped a).                      (* operations reaped *)
Abbreviation R := (C + zlen (completed a)).        (* carried out *)
Abbreviation P := (R + zlen (outstanding a)).      (* posted *)
Abbreviation busy := (completed a ++ outstanding a).

(** Completions written. *)
Definition written : Z := match pc s with Polling => R | _ => R - 1 end.
Abbreviation D := written.

Record sim : Prop := {
  sim_mem : mem s = fmem a;
  sim_room : zlen busy + Z.b2z (filled s) <= 64;
  sim_pc : match pc s with
           | Polling => True
           | Executed i => i = slot D /\ C <= D
           | TidWritten => tid (cqe s D) = slot D /\ C <= D
           end;
  sim_lengths : length (wq_q (wq s)) = 64%nat /\ length (cq_q (cq s)) = 64%nat;
  sim_wq : head (wq s) = slot P /\ wq_SR (wq s) = sense P;
  sim_cq : tail (cq s) = slot C /\ cq_SR (cq s) = sense C;
  sim_ctl : ctl s = mk_rmc (slot R) (sense R) (slot D) (sense D);
  sim_wsense : forall n, P - 64 <= n < P -> wSR (wqe s n) = sense n;
  sim_csense : forall n, D - 64 <= n < D -> cSR (cqe s n) = sense n;
  sim_tid : forall n, C <= n < D -> tid (cqe s n) = slot n;
  sim_valid : forall n, C <= n < P -> valid (wqe s n) = 1;
  sim_free : forall n, P - 64 <= n < C -> valid (wqe s n) = if filled s && (n =? P - 64) then 1 else 0;
  sim_request : forall n r, busy !! n = Some r -> request_of (wqe s (C + Z.of_nat n)) = r;
  sim_ops : forall r, r ∈ busy -> one_sided (r_op r) = true;
  sim_filled : filled s = true -> one_sided (op (wqe s P)) = true
}.
End Relation.

Lemma sim_start m : sim (mk_fifo [] [] 0 m) (start m).
Proof.
  assert (Hw : forall n, zth zero_wqe (replicate 64 zero_wqe) (slot n) = zero_wqe)
    by (intros n; pose proof (slot_range n); apply zth_replicate; lia).
  assert (Hc : forall n, zth zero_cqe (replicate 64 zero_cqe) (slot n) = zero_cqe)
    by (intros n; pose proof (slot_range n); apply zth_replicate; lia).
  assert (Hs : forall n, -64 <= n < 0 -> sense n = 0).
  { intros n Hn. unfold sense. by rewrite <- (Z.div_unique n 64 (-1) (n + 64)) by lia. }
  constructor; cbn [start mem fmem filled completed outstanding reaped pc wq cq ctl alloc_wq alloc_cq wq_q cq_q
    head tail wq_SR cq_SR written app length Z.of_nat].
  all: try done; try (intros n; rewrite ?Hw, ?Hc); unfold written; cbn; try lia.
  - intros Hn. symmetry. apply Hs. lia.
  - intros Hn. symmetry. apply Hs. lia.
  - intros Hin. by apply elem_of_nil in Hin.
Qed.

Lemma room a s : sim a s -> zlen (completed a) + zlen (outstanding a) + Z.b2z (filled s) <= 64 /\
  0 <= Z.b2z (filled s) <= 1.
Proof. intros H. pose proof (sim_room _ _ H) as Hr. rewrite length_app in Hr. destruct (filled s); simpl in *; lia. Qed.

(** The RMC sees the next entry exactly when one is outstanding; the
    application sees a completion exactly when one is written. *)
Lemma wq_ready_ok a s : sim a s -> pc s = Polling ->
  wq_ready (wq s) (ctl s) = Ok (match outstanding a with [] => false | _ => true end).
Proof.
  intros H Hpc. unfold wq_ready. rewrite (sim_ctl _ _ H). cbn [local_wq_tail local_wq_SR].
  destruct (sim_lengths _ _ H) as [Hl _]. pose proof (slot_range (reaped a + zlen (completed a))).
  rewrite (aget_ok zero_wqe) by lia. cbn [mbind res_bind]. f_equal.
  destruct (room _ _ H) as [Hroom ?].
  destruct (outstanding a) as [|r out] eqn:E.
  - rewrite <- slot_back. rewrite (sim_wsense _ _ H) by (rewrite E; simpl; lia).
    apply Z.eqb_neq, sense_back.
  - rewrite (sim_wsense _ _ H); [apply Z.eqb_refl|]. rewrite E. simpl length in *. lia.
Qed.

Lemma cq_ready_ok a s : sim a s ->
  cq_ready (cq s) = Ok (reaped a <? written a s).
Proof.
  intros H. unfold cq_ready. destruct (sim_cq _ _ H) as [-> ->].
  destruct (sim_lengths _ _ H) as [_ Hl]. pose proof (slot_range (reaped a)).
  rewrite (aget_ok zero_cqe) by lia. cbn [mbind res_bind]. f_equal.
  destruct (room _ _ H) as [Hroom ?].
  assert (HD : reaped a <= written a s <= reaped a + 64).
  { pose proof (sim_pc _ _ H) as Hpc. unfold written in *. destruct (pc s); lia. }
  destruct (Z.ltb_spec (reaped a) (written a s)).
  - rewrite (sim_csense _ _ H); [apply Z.eqb_refl | lia].
  - rewrite <- slot_back, (sim_csense _ _ H) by lia. apply Z.eqb_neq, sense_back.
Qed.

(** The entry at the head is free exactly when there is room. *)
Lemma wq_busy_ok a s : sim a s -> filled s = false ->
  wq_busy (wq s) = Ok (zlen (completed a) + zlen (outstanding a) =? 64).
Proof.
  intros H Hf. unfold wq_busy. destruct (sim_wq _ _ H) as [-> _].
  destruct (sim_lengths _ _ H) as [Hl _].
  pose proof (slot_range (reaped a + zlen (completed a) + zlen (outstanding a))).
  rewrite (aget_ok zero_wqe) by lia. cbn [mbind res_bind]. f_equal.
  destruct (room _ _ H) as [Hroom ?].
  rewrite <- slot_back. destruct (Z.eqb_spec (zlen (completed a) + zlen (outstanding a)) 64).
  - by rewrite (sim_valid _ _ H) by lia.
  - rewrite (sim_free _ _ H) by lia. by rewrite Hf.
Qed.

(** ** Every step keeps the relation *)

Lemma slot_insert {A} (d : A) l k x n : length l = 64%nat ->
  zth d (<[Z.to_nat (slot k) := x]> l) (slot n) = if slot n =? slot k then x else zth d l (slot n).
Proof. intros Hl. pose proof (slot_range k). pose proof (slot_range n). apply zth_insert; lia. Qed.

Lemma slot_insert_ne {A} (d : A) l k x n : length l = 64%nat -> n <> k -> -64 < n - k < 64 ->
  zth d (<[Z.to_nat (slot k) := x]> l) (slot n) = zth d l (slot n).
Proof.
  intros Hl Hne Hd. rewrite slot_insert by done. destruct (Z.eqb_spec (slot n) (slot k)) as [E|]; [|done].
  by apply slot_inj in E.
Qed.

Lemma slot_insert_eq {A} (d : A) l k x : length l = 64%nat ->
  zth d (<[Z.to_nat (slot k) := x]> l) (slot k) = x.
Proof. intros Hl. rewrite slot_insert by done. by rewrite Z.eqb_refl. Qed.

(** A field that the new entry keeps. *)
Lemma slot_insert_field {A B} (d : A) (f : A -> B) l k x n : length l = 64%nat ->
  f x = f (zth d l (slot k)) -> f (zth d (<[Z.to_nat (slot k) := x]> l) (slot n)) = f (zth d l (slot n)).
Proof.
  intros Hl Hf. rewrite slot_insert by done. destruct (Z.eqb_spec (slot n) (slot k)) as [->|]; done.
Qed.

Lemma fill_step a s o base off snid ctx_id coff n wq' : sim a s -> filled s = false ->
  wq_busy (wq s) = Ok false -> o = op_read \/ o = op_write ->
  fill_entry o base off snid ctx_id coff n (wq s) = Ok wq' ->
  sim a (mk_system wq' (cq s) (ctl s) (pc s) true (mem s)).
Proof.
  intros H Hf Hb Ho E. rewrite (wq_busy_ok a s H Hf) in Hb. injection Hb as Hb%Z.eqb_neq.
  destruct (room _ _ H) as [Hroom _]. rewrite Hf in Hroom. simpl in Hroom.
  unfold fill_entry in E. destruct (sim_wq _ _ H) as [Eh ES], (sim_lengths _ _ H) as [Hl Hlc].
  rewrite Eh in E. set (P := reaped a + zlen (completed a) + zlen (outstanding a)) in *.
  pose proof (slot_range P). rewrite (aget_ok zero_wqe) in E by lia. cbn [mbind res_bind] in E.
  rewrite aset_ok in E by lia. cbn [mbind res_bind] in E. injection E as <-.
  destruct H. constructor; cbn [wq cq ctl pc filled mem wq_q head wq_SR]; try done.
  - rewrite length_app. simpl. lia.
  - by rewrite length_insert.
  - intros k Hk. rewrite (slot_insert_field zero_wqe wSR) by done. by apply sim_wsense0.
  - intros k Hk. fold P in Hk. rewrite slot_insert_ne by (done || lia). by apply sim_valid0.
  - intros k Hk. fold P in Hk |- *. rewrite Hf in sim_free0. cbn [andb] in *.
    destruct (Z.eqb_spec k (P - 64)) as [->|]; [by rewrite slot_back, slot_insert_eq by done|].
    rewrite slot_insert_ne by (done || lia). by apply sim_free0.
  - intros k r Hk. pose proof (lookup_lt_Some _ _ _ Hk) as Hlt. rewrite length_app in Hlt.
    rewrite slot_insert_ne by (done || lia). by apply sim_request0.
  - intros _. fold P. rewrite slot_insert_eq by done. by destruct Ho as [-> | ->].
Qed.

Lemma publish_step a s e wq' : sim a s -> filled s = true ->
  (wq_q (wq s)).[head (wq s)] = Ok e -> publish_entry (wq s) = Ok wq' ->
  exists a', fifo_step a (Post (request_of e)) a' /\
    sim a' (mk_system wq' (cq s) (ctl s) (pc s) false (mem s)).
Proof.
  intros H Hf Ee E. destruct (room _ _ H) as [Hroom _]. rewrite Hf in Hroom. simpl in Hroom.
  destruct a as [out done c m]. cbn [completed outstanding] in Hroom.
  eexists. split; [apply fifo_post; unfold MAX_NUM_WQ; lia|].
  unfold publish_entry in E. destruct (sim_wq _ _ H) as [Eh ES], (sim_lengths _ _ H) as [Hl Hlc].
  cbn [completed outstanding reaped] in *. set (P := c + zlen done + zlen out) in *.
  pose proof (slot_range P). rewrite Eh in Ee, E. rewrite Ee in E.
  apply (aget_Ok_inv zero_wqe) in Ee as [_ Ee]. cbn [mbind res_bind] in E.
  rewrite aset_ok in E by lia. cbn [mbind res_bind] in E. rewrite ES, advance_ok in E. injection E as <-.
  assert (EP : c + zlen done + zlen (out ++ [request_of e]) = P + 1) by (rewrite length_app; simpl; lia).
  destruct H. cbn [completed outstanding reaped fmem] in *.
  constructor; cbn [wq cq ctl pc filled mem wq_q head wq_SR completed outstanding reaped fmem];
    unfold written in *; cbn [pc completed outstanding reaped] in *; rewrite ?EP; try done.
  - rewrite !length_app. simpl. lia.
  - by rewrite length_insert.
  - intros k Hk. destruct (decide (k = P)) as [->|]; [by rewrite slot_insert_eq by done|].
    rewrite slot_insert_ne by (done || lia). apply sim_wsense0. lia.
  - intros k Hk. rewrite (slot_insert_field zero_wqe valid) by (by rewrite <- ?Ee).
    destruct (decide (k = P)) as [->|]; [|apply sim_valid0; lia].
    rewrite <- slot_back, sim_free0, Hf, Z.eqb_refl by lia. done.
  - intros k Hk. rewrite (slot_insert_field zero_wqe valid) by (by rewrite <- ?Ee).
    rewrite sim_free0 by lia. fold P. destruct (Z.eqb_spec k (P - 64)); [lia|]. by rewrite andb_false_r.
  - intros k r Hk. rewrite (slot_insert_field zero_wqe request_of) by (by rewrite <- ?Ee).
    rewrite app_assoc in Hk. apply lookup_app_Some in Hk as [Hk|[Hle Hk]]; [by apply sim_request0|].
    rewrite length_app in *. apply list_lookup_singleton_Some in Hk as [Hk <-].
    replace (c + Z.of_nat k) with P by lia. by rewrite Ee.
  - intros r. rewrite app_assoc, elem_of_app, list_elem_of_singleton. intros [Hin | ->]; [by apply sim_ops0|].
    cbn [r_op request_of]. rewrite Ee. by apply sim_filled0.
Qed.

Lemma reap_step a s i e wq' cq' : sim a s -> filled s = false ->
  cq_ready (cq s) = Ok true -> reap_entry (wq s) (cq s) = Ok (i, e, wq', cq') ->
  exists a', fifo_step a (Reap i (request_of e)) a' /\
    sim a' (mk_system wq' cq' (ctl s) (pc s) false (mem s)).
Proof.
  intros H Hf Hr E. rewrite (cq_ready_ok a s H) in Hr. injection Hr as Hr%Z.ltb_lt.
  destruct (room _ _ H) as [Hroom _]. rewrite Hf in Hroom. cbn [Z.b2z] in Hroom.
  destruct a as [out [|r done] c m]; cbn [reaped completed outstanding] in *.
  { unfold written in Hr. simpl in Hr. destruct (pc s); lia. }
  unfold reap_entry in E. destruct (sim_cq _ _ H) as [Et EcS], (sim_lengths _ _ H) as [Hl Hlc].
  cbn [reaped completed outstanding] in *. pose proof (slot_range c).
  rewrite Et in E. rewrite (aget_ok zero_cqe) in E by lia. cbn [mbind res_bind] in E.
  rewrite (sim_tid _ _ H) in E by (simpl; lia). rewrite (aget_ok zero_wqe) in E by lia. cbn [mbind res_bind] in E.
  rewrite aset_ok in E by lia. cbn [mbind res_bind] in E. rewrite EcS, advance_ok in E. injection E as <- <- <- <-.
  assert (Er : request_of (wqe s c) = r).
  { replace c with (c + Z.of_nat 0) at 1 by lia. by apply (sim_request _ _ H). }
  exists (mk_fifo out done (c + 1) m). split; [rewrite <- Er; apply fifo_reap|].
  assert (ER : c + 1 + zlen done = c + zlen (r :: done)) by (simpl length; lia).
  destruct H. cbn [completed outstanding reaped fmem] in *. unfold written in *.
  cbn [completed outstanding reaped fmem] in *. simpl length in Hroom.
  constructor; cbn [wq cq ctl pc filled mem wq_q cq_q head wq_SR tail cq_SR completed outstanding reaped fmem];
    unfold written in *; cbn [pc completed outstanding reaped] in *; rewrite ?ER; try done.
  - rewrite length_app. simpl. lia.
  - destruct (pc s); [done | |]; (split; [tauto | lia]).
  - by rewrite length_insert.
  - intros k Hk. rewrite (slot_insert_field zero_wqe wSR) by done. by apply sim_wsense0.
  - intros k Hk. apply sim_tid0. lia.
  - intros k Hk. simpl length in Hk. rewrite slot_insert_ne by (done || lia). apply sim_valid0. simpl length. lia.
  - intros k Hk. simpl length in Hk. destruct (decide (k = c)) as [->|]; [by rewrite slot_insert_eq by done|].
    rewrite slot_insert_ne by (done || lia). rewrite sim_free0 by (simpl length; lia). by rewrite Hf.
  - intros k r' Hk. rewrite (slot_insert_field zero_wqe request_of) by done.
    replace (c + 1 + Z.of_nat k) with (c + Z.of_nat (S k)) by lia. by apply sim_request0.
  - intros r' Hin. apply sim_ops0. by right.
Qed.

Lemma execute_step a s e compl ctl' mem' : sim a s -> pc s = Polling ->
  wq_ready (wq s) (ctl s) = Ok true -> rmc_execute (wq s) (ctl s) (mem s) = Ok (e, compl, ctl', mem') ->
  exists i a', compl = Some i /\ fifo_step a (Exec (request_of e)) a' /\
    sim a' (mk_system (wq s) (cq s) ctl' (Executed i) (filled s) mem').
Proof.
  intros H Hpc Hr E. rewrite (wq_ready_ok a s H Hpc) in Hr.
  destruct a as [[|r out] dn c m]; cbn [outstanding] in Hr; [done|]. clear Hr.
  unfold rmc_execute in E. destruct (sim_lengths _ _ H) as [Hl Hlc].
  rewrite (sim_ctl _ _ H) in E. cbn [local_wq_tail local_wq_SR local_cq_head local_cq_SR completed reaped] in E.
  set (R := c + zlen dn) in *. pose proof (slot_range R).
  rewrite (aget_ok zero_wqe) in E by lia. cbn [mbind res_bind] in E.
  assert (Er : request_of (wqe s R) = r).
  { apply (sim_request _ _ H). cbn [completed outstanding]. by rewrite list_lookup_middle. }
  destruct (execute (wqe s R) (mem s)) as [m'|] eqn:Em; [|done]. cbn [mbind res_bind] in E.
  assert (Eo : one_sided (op (wqe s R)) = true).
  { change (op (wqe s R)) with (r_op (request_of (wqe s R))). rewrite Er. apply (sim_ops _ _ H).
    cbn [completed outstanding]. apply elem_of_app. right. by left. }
  rewrite Eo, advance_ok in E. injection E as <- <- <- <-.
  exists (slot R), (mk_fifo out (dn ++ [r]) c m'). split; [done|]. split.
  { rewrite Er. apply fifo_exec. rewrite <- Er, <- (sim_mem _ _ H : mem s = m), <- Em. by destruct (wqe s R). }
  assert (ER : c + zlen (dn ++ [r]) = R + 1) by (rewrite length_app; simpl; lia).
  assert (EP : R + 1 + zlen out = R + zlen (r :: out)) by (simpl length; lia).
  destruct H. cbn [completed outstanding reaped fmem] in *. unfold written in *.
  rewrite Hpc in *. cbn [completed outstanding reaped fmem] in *.
  constructor; cbn [wq cq ctl pc filled mem completed outstanding reaped fmem];
    unfold written; cbn [pc completed outstanding reaped]; rewrite ?ER, ?EP; rewrite ?Z.add_simpl_r; try done.
  - rewrite <- app_assoc. done.
  - split; [done | lia].
  - rewrite <- app_assoc. done.
  - rewrite <- app_assoc. done.
Qed.

Lemma tid_step a s i cq' : sim a s -> pc s = Executed i -> rmc_write_tid (cq s) (ctl s) i = Ok cq' ->
  sim a (mk_system (wq s) cq' (ctl s) TidWritten (filled s) (mem s)).
Proof.
  intros H Hpc E. destruct (room _ _ H) as [Hroom ?]. unfold rmc_write_tid in E.
  rewrite (sim_ctl _ _ H) in E. cbn [local_cq_head] in E. destruct (sim_lengths _ _ H) as [Hl Hlc].
  set (D := written a s) in *. pose proof (slot_range D).
  rewrite (aget_ok zero_cqe) in E by lia. cbn [mbind res_bind] in E.
  rewrite aset_ok in E by lia. cbn [mbind res_bind] in E. injection E as <-.
  assert (ED : D = reaped a + zlen (completed a) - 1) by (unfold D, written; by rewrite Hpc).
  assert (Hpc' : i = slot D /\ reaped a <= D) by (pose proof (sim_pc _ _ H) as Hp; rewrite Hpc in Hp; exact Hp).
  destruct H. constructor; cbn [wq cq ctl pc filled mem cq_q tail cq_SR]; unfold written; cbn [pc];
    rewrite <- ?ED; try done.
  - rewrite slot_insert_eq by done. split; [apply Hpc' | lia].
  - by rewrite length_insert.
  - intros k Hk. rewrite (slot_insert_field zero_cqe cSR) by done. by apply sim_csense0.
  - intros k Hk. rewrite slot_insert_ne by (done || lia). by apply sim_tid0.
Qed.

Lemma SR_step a s cq' ctl' : sim a s -> pc s = TidWritten -> rmc_write_SR (cq s) (ctl s) = Ok (cq', ctl') ->
  sim a (mk_system (wq s) cq' ctl' Polling (filled s) (mem s)).
Proof.
  intros H Hpc E. destruct (room _ _ H) as [Hroom ?]. unfold rmc_write_SR in E.
  rewrite (sim_ctl _ _ H) in E. cbn [local_wq_tail local_wq_SR local_cq_head local_cq_SR] in E.
  destruct (sim_lengths _ _ H) as [Hl Hlc].
  set (D := written a s) in *. pose proof (slot_range D).
  rewrite (aget_ok zero_cqe) in E by lia. cbn [mbind res_bind] in E.
  rewrite aset_ok in E by lia. cbn [mbind res_bind] in E. rewrite advance_ok in E. injection E as <- <-.
  assert (ED : D + 1 = reaped a + zlen (completed a)) by (unfold D, written; rewrite Hpc; lia).
  assert (Hpc' : tid (cqe s D) = slot D /\ reaped a <= D)
    by (pose proof (sim_pc _ _ H) as Hp; rewrite Hpc in Hp; exact Hp).
  destruct H. constructor; cbn [wq cq ctl pc filled mem cq_q tail cq_SR]; unfold written; cbn [pc];
    try done; rewrite <- ?ED; try done.
  - by rewrite length_insert.
  - intros k Hk. destruct (decide (k = D)) as [->|]; [by rewrite slot_insert_eq by done|].
    rewrite slot_insert_ne by (done || lia). apply sim_csense0. lia.
  - intros k Hk. rewrite (slot_insert_field zero_cqe tid) by done.
    destruct (decide (k = D)) as [->|]; [apply Hpc' | apply sim_tid0; lia].
Qed.

Lemma step_sim a s e s' : sim a s -> step s e s' ->
  (e = Silent /\ sim a s') \/ (exists a', fifo_step a e a' /\ sim a' s').
Proof.
  intros H Hs. inversion Hs; subst.
  - left. split; [done|]. by eapply fill_step.
  - right. by apply publish_step.
  - right. by apply reap_step.
  - right. match goal with E : rmc_execute _ _ _ = _ |- _ =>
      destruct (execute_step a s _ _ _ _ H ltac:(assumption) ltac:(assumption) E) as (i' & a' & [= <-] & Ha') end. by exists a'.
  - match goal with E : rmc_execute _ _ _ = _ |- _ =>
      by destruct (execute_step a s _ _ _ _ H ltac:(assumption) ltac:(assumption) E) as (i' & a' & [=] & _) end.
  - left. split; [done|]. by eapply tid_step.
  - left. split; [done|]. by eapply SR_step.
Qed.

Lemma run_sim m tr s : run (start m) tr s -> exists a, fifo_run (mk_fifo [] [] 0 m) tr a /\ sim a s.
Proof.
  intros Hr. remember (start m) as s0 eqn:E. induction Hr as [|s0 tr s s' Hr IH Hs|s0 tr s e s' Hr IH Hs Hne]; subst.
  - eexists. split; [constructor | apply sim_start].
  - destruct (IH eq_refl) as (a & Ha & H). destruct (step_sim a s _ _ H Hs) as [[_ H']|(a' & Ha' & H')].
    + eauto.
    + inversion Ha'.
  - destruct (IH eq_refl) as (a & Ha & H). destruct (step_sim a s _ _ H Hs) as [[-> _]|(a' & Ha' & H')]; [done|].
    exists a'. split; [by econstructor | done].
Qed.

(** ** Traces *)

Definition posted (tr : list event) : list request :=
  omap (fun e => match e with Post r => Some r | _ => None end) tr.
Definition executed (tr : list event) : list request :=
  omap (fun e => match e with Exec r => Some r | _ => None end) tr.
Definition handled (tr : list event) : list (Z * request) :=
  omap (fun e => match e with Reap i r => Some (i, r) | _ => None end) tr.

(** [tids n l]: the transactions of [l] count up from [n], modulo 64. *)
Fixpoint tids_from (n : Z) (l : list (Z * request)) : Prop :=
  match l with [] => True | (i, _) :: l => i = n mod MAX_NUM_WQ /\ tids_from (n + 1) l end.

Lemma tids_snoc l n i r : tids_from n l -> i = (n + zlen l) mod MAX_NUM_WQ -> tids_from n (l ++ [(i, r)]).
Proof.
  revert n. induction l as [|[j r'] l IH]; intros n H Hi; simpl in *.
  - split; [|done]. by rewrite Z.add_0_r in Hi.
  - destruct H as [-> H]. split; [done|]. apply IH; [done|]. rewrite Hi. f_equal. lia.
Qed.

Lemma fifo_run_trace m tr a : fifo_run (mk_fifo [] [] 0 m) tr a ->
  posted tr = map snd (handled tr) ++ completed a ++ outstanding a /\
  executed tr = map snd (handled tr) ++ completed a /\
  tids_from 0 (handled tr) /\ reaped a = zlen (handled tr) /\
  zlen (completed a) + zlen (outstanding a) <= MAX_NUM_WQ.
Proof.
  intros H. remember (mk_fifo [] [] 0 m) as a0 eqn:E. induction H as [|a0 tr a e a' Hr IH Hs]; subst; [done|].
  destruct (IH eq_refl) as (Hp & He & Ht & Hn & Hl). unfold posted, executed, handled in *.
  rewrite !omap_app. destruct Hs as [out dn n m' r Hroom | out dn n m' r m'' Hx | out dn n m' r];
    cbn [omap list_omap completed outstanding reaped] in *; rewrite ?app_nil_r, ?length_app.
  - split_and!; try done; [|simpl; lia]. by rewrite Hp, !app_assoc.
  - rewrite <- app_assoc. split_and!; try done; [|simpl in *; lia]. by rewrite He, app_assoc.
  - rewrite map_app, <- !app_assoc. simpl. split_and!; try done.
    + apply tids_snoc; [done|]. by rewrite Hn.
    + simpl. lia.
    + simpl in Hl. lia.
Qed.

(** ** Draining *)

(** The sizes of the memory, which no operation changes. *)
Definition shape (m : memory) : Z * list Z := (zlen (local_buffer m), map (fun r => zlen r) (ctx m)).

Definition fits (sh : Z * list Z) (r : request) : Prop :=
  exists region, (snd sh).[r_nid r] = Ok region /\ 0 <= r_buf_offset r /\ 0 <= r_offset r /\ 0 <= r_length r /\
    r_buf_offset r + r_length r <= fst sh /\ r_offset r + r_length r <= region.

Lemma memcpy_ok dst doff src soff n : 0 <= doff -> 0 <= soff -> 0 <= n ->
  doff + n <= zlen dst -> soff + n <= zlen src ->
  exists l, memcpy dst doff src soff n = Ok l /\ zlen l = zlen dst.
Proof.
  intros. unfold memcpy. destruct (Z.leb_spec 0 doff), (Z.leb_spec 0 soff), (Z.leb_spec 0 n),
    (Z.leb_spec (doff + n) (zlen dst)), (Z.leb_spec (soff + n) (zlen src)); try lia. cbn [andb].
  eexists. split; [done|]. rewrite !length_app, !length_take, !length_drop. lia.
Qed.

Lemma execute_fits m r : fits (shape m) r -> exists m', execute_request r m = Ok m' /\ shape m' = shape m.
Proof.
  intros (n & Hn & Hb & Ho & Hl & Hfb & Hfr). unfold shape in *. cbn [fst snd] in *.
  apply (aget_Ok_inv 0) in Hn as [Hi Hn]. rewrite length_map in Hi.
  assert (En : n = zlen (zth [] (ctx m) (r_nid r))).
  { rewrite Hn. unfold zth. rewrite <- (map_nth (fun r => zlen r)). apply nth_indep. rewrite length_map. lia. }
  unfold execute_request, execute. cbn [op nid buf_offset offset len].
  destruct (r_op r =? op_read); [|destruct (r_op r =? op_write)].
  - rewrite (aget_ok []) by lia. cbn [mbind res_bind].
    destruct (memcpy_ok (local_buffer m) (r_buf_offset r) (zth [] (ctx m) (r_nid r)) (r_offset r) (r_length r))
      as (b & -> & Hb'); [lia..|]. cbn [mbind res_bind]. eexists. split; [done|]. cbn. by rewrite Hb'.
  - rewrite (aget_ok []) by lia. cbn [mbind res_bind].
    destruct (memcpy_ok (zth [] (ctx m) (r_nid r)) (r_offset r) (local_buffer m) (r_buf_offset r) (r_length r))
      as (b & -> & Hb'); [lia..|]. cbn [mbind res_bind]. rewrite (aset_ok (ctx m)) by lia. cbn [mbind res_bind].
    eexists. split; [done|]. cbn. f_equal. apply (zth_ext 0); [by rewrite !length_map, length_insert|].
    intros i Hi'. rewrite length_map, length_insert in Hi'.
    assert (Hm : forall (l : list (list Z)) i, 0 <= i < zlen l -> zth 0 (map (fun r => zlen r) l) i = zlen (zth [] l i)).
    { intros l j Hj. unfold zth. rewrite <- (map_nth (fun r => zlen r)). apply nth_indep. rewrite length_map. lia. }
    rewrite !Hm, zth_insert by (rewrite ?length_insert; lia).
    destruct (Z.eqb_spec i (r_nid r)) as [->|]; lia.
  - eauto.
Qed.

Definition pc_left (p : rmc_pc) : nat :=
  match p with Polling => 0 | Executed _ => 2 | TidWritten => 1 end.
Definition work_left (a : fifo) (s : system) : nat :=
  4 * length (outstanding a) + length (completed a) + pc_left (pc s).

(** The steps that complete an operation succeed when they are due. *)
Lemma execute_due a s r out : sim a s -> outstanding a = r :: out -> fits (shape (mem s)) r ->
  exists e i ctl' m', rmc_execute (wq s) (ctl s) (mem s) = Ok (e, Some i, ctl', m') /\
    request_of e = r /\ execute_request r (mem s) = Ok m' /\ shape m' = shape (mem s).
Proof.
  intros H Eo Hfit. destruct (execute_fits (mem s) r Hfit) as (m' & Em & Hsh).
  destruct (sim_lengths _ _ H) as [Hl _]. pose proof (slot_range (reaped a + zlen (completed a))).
  unfold rmc_execute. rewrite (sim_ctl _ _ H). cbn [local_wq_tail local_wq_SR local_cq_head local_cq_SR].
  rewrite (aget_ok zero_wqe) by lia. cbn [mbind res_bind].
  assert (Er : request_of (wqe s (reaped a + zlen (completed a))) = r).
  { apply (sim_request _ _ H). by rewrite Eo, list_lookup_middle. }
  assert (Ex : execute (wqe s (reaped a + zlen (completed a))) (mem s) = Ok m')
    by (rewrite <- Em, <- Er; by destruct (wqe s (reaped a + zlen (completed a)))).
  rewrite Ex. cbn [mbind res_bind].
  change (op (wqe s (reaped a + zlen (completed a)))) with (r_op (request_of (wqe s (reaped a + zlen (completed a))))).
  rewrite Er, (sim_ops _ _ H) by (rewrite Eo; apply elem_of_app; right; by left).
  destruct (advance _ _). eauto 10.
Qed.

Lemma tid_due a s i : sim a s -> exists cq', rmc_write_tid (cq s) (ctl s) i = Ok cq'.
Proof.
  intros H. destruct (sim_lengths _ _ H) as [_ Hlc]. pose proof (slot_range (written a s)).
  unfold rmc_write_tid. rewrite (sim_ctl _ _ H). cbn [local_cq_head]. rewrite (aget_ok zero_cqe) by lia.
  cbn [mbind res_bind]. rewrite aset_ok by lia. cbn [mbind res_bind]. eauto.
Qed.

Lemma SR_due a s : sim a s -> exists cq' ctl', rmc_write_SR (cq s) (ctl s) = Ok (cq', ctl').
Proof.
  intros H. destruct (sim_lengths _ _ H) as [_ Hlc]. pose proof (slot_range (written a s)).
  unfold rmc_write_SR. rewrite (sim_ctl _ _ H). cbn [local_cq_head]. rewrite (aget_ok zero_cqe) by lia.
  cbn [mbind res_bind]. rewrite aset_ok by lia. cbn [mbind res_bind]. destruct (advance _ _). eauto.
Qed.

Lemma reap_due a s : sim a s -> reaped a < written a s ->
  cq_ready (cq s) = Ok true /\ exists i e wq' cq', reap_entry (wq s) (cq s) = Ok (i, e, wq', cq').
Proof.
  intros H Hlt. split.
  { rewrite (cq_ready_ok a s H). f_equal. by apply Z.ltb_lt. }
  destruct (sim_lengths _ _ H) as [Hl Hlc]. unfold reap_entry. destruct (sim_cq _ _ H) as [-> _].
  pose proof (slot_range (reaped a)). rewrite (aget_ok zero_cqe) by lia. cbn [mbind res_bind].
  rewrite (sim_tid _ _ H) by lia. rewrite (aget_ok zero_wqe) by lia. cbn [mbind res_bind].
  rewrite aset_ok by lia. cbn [mbind res_bind]. destruct (advance _ _). eauto 10.
Qed.

(** One step of the RMC or of the handler loop is possible until all is done,
    and takes the work down by one. *)
Lemma drain_step a s : sim a s -> filled s = false ->
  (forall r, r ∈ outstanding a -> fits (shape (mem s)) r) -> work_left a s <> 0%nat ->
  exists e s' a', step s e s' /\ sim a' s' /\ filled s' = false /\
    S (work_left a' s') = work_left a s /\ shape (mem s') = shape (mem s) /\
    (forall r, r ∈ outstanding a' -> r ∈ outstanding a) /\
    (e = Silent /\ a' = a \/ fifo_step a e a' /\ e <> Silent /\ posted [e] = []).
Proof.
  intros H Hf Hfit Hw. destruct (pc s) as [|i|] eqn:Hpc.
  - destruct (outstanding a) as [|r out] eqn:Eo.
    + assert (Hne : completed a <> []) by (intros E; apply Hw; unfold work_left; by rewrite Eo, E, Hpc).
      destruct (reap_due a s H) as (Hrd & i & e & wq' & cq' & E).
      { unfold written. rewrite Hpc. destruct (completed a); [done | simpl; lia]. }
      destruct (reap_step a s i e wq' cq' H Hf Hrd E) as (a' & Ha' & H').
      eexists _, _, a'. split; [by apply step_reap|]. split; [exact H'|]. split; [done|].
      inversion Ha'; subst; cbn [outstanding completed] in *; subst.
      split_and!; [unfold work_left; cbn; rewrite Hpc; cbn; lia | done | done | right; done].
    + pose proof (wq_ready_ok a s H Hpc) as Hrd. rewrite Eo in Hrd.
      destruct (execute_due a s r out H Eo) as (e & i & ctl' & m' & E & Er & Em & Hsh); [apply Hfit; by left|].
      destruct (execute_step a s e (Some i) ctl' m' H Hpc Hrd E) as (j & a' & [= <-] & Ha' & H').
      eexists _, _, a'. split; [by eapply step_execute|]. split; [exact H'|]. split; [done|].
      inversion Ha'; subst; cbn [outstanding completed] in *.
      injection Eo; intros; subst.
      split_and!; [unfold work_left; cbn; rewrite Hpc, length_app; cbn; lia | exact Hsh | intros; by right |].
      right. split_and!; [exact Ha' | discriminate | reflexivity].
  - destruct (tid_due a s i H) as (cq' & E).
    eexists _, _, a. split; [by eapply step_tid|]. split; [by eapply tid_step|].
    split_and!; [done | unfold work_left; cbn; rewrite Hpc; cbn; lia | done | done | by left].
  - destruct (SR_due a s H) as (cq' & ctl' & E).
    eexists _, _, a. split; [by eapply step_SR|]. split; [by eapply SR_step|].
    split_and!; [done | unfold work_left; cbn; rewrite Hpc; cbn; lia | done | done | by left].
Qed.

Lemma memcpy_length dst doff src soff n l : memcpy dst doff src soff n = Ok l -> zlen l = zlen dst.
Proof.
  unfold memcpy. destruct (_ && _) eqn:E; [|done]. intros [= <-].
  rewrite !andb_true_iff, !Z.leb_le in E. rewrite !length_app, !length_take, !length_drop. lia.
Qed.

Lemma execute_shape e m m' : execute e m = Ok m' -> shape m' = shape m.
Proof.
  unfold execute, shape. destruct (op e =? op_read); [|destruct (op e =? op_write); [|by intros [= ->]]]; intros E; inv_ok.
  - cbn. f_equal. by eapply memcpy_length.
  - cbn. f_equal.
    match goal with H : aget _ _ = Ok _ |- _ => apply (aget_Ok_inv []) in H as [Hi ->] end.
    match goal with H : memcpy _ _ _ _ _ = Ok _ |- _ => apply memcpy_length in H as Hlen end.
    match goal with H : aset _ _ _ = Ok _ |- _ => apply aset_Ok_inv in H as [_ ->] end.
    change (map ?f) with (fmap (M := list) f). rewrite list_fmap_insert, list_insert_id; [done|].
    rewrite list_lookup_fmap. unfold zth in Hlen.
    destruct (lookup_lt_is_Some_2 (ctx m) (Z.to_nat (nid e)) ltac:(lia)) as [x Ex].
    rewrite (nth_lookup_Some _ _ _ _ Ex) in Hlen. rewrite Ex. simpl. by rewrite Hlen.
Qed.

Lemma fifo_run_shape m tr a : fifo_run (mk_fifo [] [] 0 m) tr a -> shape (fmem a) = shape m.
Proof.
  intros H. remember (mk_fifo [] [] 0 m) as a0 eqn:E. induction H as [|a0 tr a e a' Hr IH Hs]; subst; [done|].
  rewrite <- IH by done. destruct Hs as [| ? ? ? ? ? ? Hx |]; [done | | done]. by eapply execute_shape.
Qed.

Lemma posted_app tr tr' : posted (tr ++ tr') = posted tr ++ posted tr'.
Proof. apply omap_app. Qed.

Lemma drain s0 tr n : forall a s, work_left a s = n -> sim a s -> filled s = false -> run s0 tr s ->
  (forall r, r ∈ outstanding a -> fits (shape (mem s)) r) ->
  exists tr' s' a', run s0 (tr ++ tr') s' /\ posted tr' = [] /\ sim a' s' /\ filled s' = false /\
    work_left a' s' = 0%nat.
Proof.
  revert tr. induction n as [|n IH]; intros tr a s Hw H Hf Hr Hfit.
  { exists [], s, a. rewrite app_nil_r. done. }
  destruct (drain_step a s H Hf Hfit ltac:(lia)) as (e & s' & a' & Hs & H' & Hf' & Hw' & Hsh & Hsub & He).
  assert (Hfit' : forall r, r ∈ outstanding a' -> fits (shape (mem s')) r) by (intros; rewrite Hsh; auto).
  destruct He as [[-> _]|(_ & Hne & Hp)].
  - apply (IH tr a' s'); try done; [lia|]. by eapply run_silent.
  - destruct (IH (tr ++ [e]) a' s') as (tr' & s'' & a'' & Hr'' & Hp' & Hrest); try done; [lia | by eapply run_event |].
    exists (e :: tr'), s'', a''. split; [by rewrite <- app_assoc in Hr''|]. split; [|done].
    change (e :: tr') with ([e] ++ tr'). by rewrite posted_app, Hp.
Qed.

(** ** What the queue pair guarantees *)

(** C37: whatever the interleaving of the application and the RMC, the queue
    pair behaves like the abstract queue: what is posted, executed and handled
    is a run of a first-in first-out queue of at most 64 requests, with the
    same memory. *)
Theorem queue_pair_implements_fifo m tr s : run (start m) tr s ->
  exists a, fifo_run (mk_fifo [] [] 0 m) tr a /\ fmem a = mem s.
Proof.
  intros Hr. destruct (run_sim m tr s Hr) as (a & Ha & H). exists a. split; [done|]. by rewrite (sim_mem _ _ H).
Qed.

(** Every operation is executed exactly once and handled exactly once,
    in the order of posting; the handler gets the entry as it was posted, with
    transactions counting modulo 64; at most 64 operations are in flight. *)
Theorem operations_exactly_once m tr s : run (start m) tr s -> exists dn out,
  posted tr = map snd (handled tr) ++ dn ++ out /\ executed tr = map snd (handled tr) ++ dn /\
  tids_from 0 (handled tr) /\ zlen dn + zlen out <= MAX_NUM_WQ.
Proof.
  intros Hr. destruct (run_sim m tr s Hr) as (a & Ha & _).
  destruct (fifo_run_trace m tr a Ha) as (Hp & He & Ht & _ & Hl). eauto 10.
Qed.

(** C38: the loops that wait for completions end: from every reachable state
    (outside a post), if the requests lie inside the memory, the RMC and the
    handler loop can complete everything posted without the application
    posting more, and then the head entry is free and no completion is left. *)
Theorem queue_pair_drains m tr s : run (start m) tr s -> filled s = false ->
  Forall (fits (shape m)) (posted tr) ->
  exists tr' s', run (start m) (tr ++ tr') s' /\ posted tr' = [] /\
    executed (tr ++ tr') = posted tr /\ map snd (handled (tr ++ tr')) = posted tr /\
    wq_busy (wq s') = Ok false /\ cq_ready (cq s') = Ok false.
Proof.
  intros Hr Hf Hfit. destruct (run_sim m tr s Hr) as (a & Ha & H).
  destruct (fifo_run_trace m tr a Ha) as (Hp & _).
  destruct (drain (start m) tr (work_left a s) a s) as (tr' & s' & a' & Hr' & Hp' & H' & Hf' & Hw'); try done.
  { intros r Hin. rewrite (sim_mem _ _ H), (fifo_run_shape m tr a Ha).
    rewrite list.Forall_forall in Hfit. apply Hfit. rewrite Hp, !elem_of_app. auto. }
  exists tr', s'. split; [done|]. split; [done|].
  assert (Ho : outstanding a' = [] /\ completed a' = [] /\ pc s' = Polling).
  { unfold work_left in Hw'. destruct (outstanding a'), (completed a'), (pc s'); simpl in Hw'; (done || lia). }
  destruct Ho as (Ho & Hc & Hpc). destruct (run_sim m _ s' Hr') as (b & Hb & Hb').
  destruct (fifo_run_trace m _ b Hb) as (Hpb & Heb & _).
  assert (Hbusy : wq_busy (wq s') = Ok false) by (by rewrite (wq_busy_ok a' s' H' Hf'), Ho, Hc).
  assert (Hrd : cq_ready (cq s') = Ok false).
  { rewrite (cq_ready_ok a' s' H'). unfold written. rewrite Hpc, Hc. f_equal. apply Z.ltb_ge. simpl. lia. }
  rewrite posted_app, Hp', app_nil_r in Hpb.
  assert (outstanding b = [] /\ completed b = []) as [Hob Hcb].
  { pose proof (cq_ready_ok b s' Hb') as Hrb. rewrite Hrd in Hrb. unfold written in Hrb. rewrite Hpc in Hrb.
    injection Hrb as Hrb%eq_sym%Z.ltb_ge.
    pose proof (wq_ready_ok b s' Hb' Hpc) as Hwb. rewrite (wq_ready_ok a' s' H' Hpc), Ho in Hwb.
    destruct (outstanding b); [|done]. destruct (completed b); [done | simpl length in Hrb; lia]. }
  rewrite Hob, Hcb, !app_nil_r in *. by rewrite Heb, Hpb.
Qed.

Lemma handled_app tr tr' : handled (tr ++ tr') = handled tr ++ handled tr'.
Proof. apply omap_app. Qed.

(** The request that a call describes. *)
Definition call (op lbuff_base lbuff_offset snid ctx_id ctx_offset length : Z) : request :=
  mk_request op (u64 lbuff_base) lbuff_offset (u16 ctx_id) (u16 snid) ctx_offset
    (if length <? 64 then 64 else length).

Lemma fill_due a s o base off snid ctx_id coff n : sim a s ->
  exists wq', fill_entry o base off snid ctx_id coff n (wq s) = Ok wq' /\
    exists e, (wq_q wq').[head wq'] = Ok e /\ request_of e = call o base off snid ctx_id coff n /\
    exists wq'', publish_entry wq' = Ok wq''.
Proof.
  intros H. unfold fill_entry. destruct (sim_wq _ _ H) as [Eh _], (sim_lengths _ _ H) as [Hl _].
  rewrite Eh. pose proof (slot_range (reaped a + zlen (completed a) + zlen (outstanding a))).
  rewrite (aget_ok zero_wqe) by lia. cbn [mbind res_bind]. rewrite aset_ok by lia. cbn [mbind res_bind].
  eexists. split; [done|]. unfold publish_entry. cbn [wq_q head wq_SR].
  rewrite (aget_ok zero_wqe) by (rewrite length_insert; lia). rewrite zth_insert_eq by lia.
  eexists. split; [done|]. split; [done|]. cbn [mbind res_bind].
  rewrite aset_ok by (rewrite length_insert; lia). cbn [mbind res_bind]. destruct (advance _ _). eauto.
Qed.

(** The one request in flight is carried out by one turn of the RMC and
    handled by the next turn of the handler loop. *)
Lemma complete_one s r c m0 : sim (mk_fifo [r] [] c m0) s -> filled s = false -> pc s = Polling ->
  fits (shape (mem s)) r ->
  exists cq1 ctl1 m1 i e wq2 cq2,
    rmc_turn (wq s) (cq s) (ctl s) (mem s) = Ok (cq1, ctl1, m1) /\ cq_ready cq1 = Ok true /\
    reap_entry (wq s) cq1 = Ok (i, e, wq2, cq2) /\ execute_request r (mem s) = Ok m1 /\
    forall s0 tr, run s0 tr s -> run s0 (tr ++ [Exec r; Reap i r]) (mk_system wq2 cq2 ctl1 Polling false m1).
Proof.
  intros H Hf Hpc Hfit. unfold rmc_turn.
  pose proof (wq_ready_ok _ _ H Hpc) as Hw. cbn [outstanding] in Hw.
  destruct (execute_due _ _ r [] H eq_refl Hfit) as (e & i & ctl1 & m1 & E1 & Er & Em & _).
  destruct (execute_step _ _ e (Some i) ctl1 m1 H Hpc Hw E1) as (j & a1 & [= <-] & Ha1 & H1).
  rewrite Er in Ha1. pose proof (step_execute s e i ctl1 m1 Hpc Hw E1) as S1. rewrite Er in S1.
  assert (a1 = mk_fifo [] [r] c m1) as ->.
  { pose proof (sim_mem _ _ H1) as Hm. inversion Ha1; subst. cbn [mem fmem] in Hm. by subst. }
  destruct (tid_due _ _ i H1) as (cq2 & E2). cbn [cq ctl] in E2.
  pose proof (tid_step _ _ i cq2 H1 eq_refl E2) as H2. pose proof (step_tid
    (mk_system (wq s) (cq s) ctl1 (Executed i) (filled s) m1) i cq2 eq_refl E2) as S2. cbn [wq cq ctl filled mem] in *.
  destruct (SR_due _ _ H2) as (cq3 & ctl3 & E3). cbn [cq ctl] in E3.
  pose proof (SR_step _ _ cq3 ctl3 H2 eq_refl E3) as H3. pose proof (step_SR
    (mk_system (wq s) cq2 ctl1 TidWritten (filled s) m1) cq3 ctl3 eq_refl E3) as S3. cbn [wq cq ctl filled mem] in *.
  destruct (reap_due _ _ H3) as (Hrd & i' & e' & wq4 & cq4 & E4).
  { unfold written. simpl. lia. }
  cbn [wq cq] in *. rewrite Hf in *.
  destruct (reap_step _ _ i' e' wq4 cq4 H3 eq_refl Hrd E4) as (a4 & Ha4 & H4).
  pose proof (step_reap (mk_system (wq s) cq3 ctl3 Polling false m1) i' e' wq4 cq4 eq_refl Hrd E4) as S4.
  assert (Er' : request_of e' = r) by (by inversion Ha4). rewrite Er' in S4.
  exists cq3, ctl3, m1, i', e', wq4, cq4. rewrite E1. cbn [mbind res_bind]. rewrite E2. cbn [mbind res_bind].
  rewrite E3. cbn [mbind res_bind]. split_and!; try done. intros s0 tr Hr.
  change [Exec r; Reap i' r] with ([Exec r] ++ [Reap i' r]). rewrite app_assoc.
  eapply run_event; [|exact S4 | done]. eapply run_silent; [|exact S3]. eapply run_silent; [|exact S2].
  by eapply run_event.
Qed.

(** A synchronous call made when nothing is in flight returns after its
    own operation: it is posted, executed and handled, and the memory is what
    the operation makes of it. *)
Theorem sync_call_completes m tr s o base off snid ctx_id coff n :
  run (start m) tr s -> filled s = false -> pc s = Polling -> map snd (handled tr) = posted tr ->
  o = op_read \/ o = op_write -> fits (shape m) (call o base off snid ctx_id coff n) ->
  exists s', rmc_sync o base off snid ctx_id coff n s = Ok s' /\
    execute_request (call o base off snid ctx_id coff n) (mem s) = Ok (mem s') /\
    exists i, run (start m) (tr ++ [Post (call o base off snid ctx_id coff n);
      Exec (call o base off snid ctx_id coff n); Reap i (call o base off snid ctx_id coff n)]) s'.
Proof.
  intros Hr Hf Hpc Hq Ho Hfit. destruct (run_sim m tr s Hr) as (a & Ha & H).
  destruct (fifo_run_trace m tr a Ha) as (Hp & _). rewrite Hq in Hp.
  assert (E0 : completed a ++ outstanding a = []).
  { apply (f_equal length) in Hp. rewrite length_app in Hp.
    destruct (completed a ++ outstanding a); [done | simpl in Hp; lia]. }
  apply app_eq_nil in E0 as [Ec Eo]. destruct a as [out dn c m0]. cbn [completed outstanding] in *. subst out dn.
  assert (Hb : wq_busy (wq s) = Ok false) by apply (wq_busy_ok _ s H Hf).
  destruct (fill_due _ s o base off snid ctx_id coff n H) as (wq1 & E1 & e & Ee & Er & wq2 & E2).
  pose proof (step_fill s o base off snid ctx_id coff n wq1 Hf Hb Ho E1) as S1.
  pose proof (fill_step _ s _ _ _ _ _ _ _ wq1 H Hf Hb Ho E1) as H1.
  unfold rmc_sync. rewrite Hb. cbn [mbind res_bind]. rewrite E1. cbn [mbind res_bind]. rewrite E2. cbn [mbind res_bind].
  generalize dependent (call o base off snid ctx_id coff n). intros r Hfit Er. clear E1.
  destruct (publish_step _ _ e wq2 H1 eq_refl Ee E2) as (a2 & Ha2 & H2).
  pose proof (step_publish (mk_system wq1 (cq s) (ctl s) (pc s) true (mem s)) e wq2 eq_refl Ee E2) as S2.
  cbn [wq cq ctl pc mem] in H2, S2. rewrite Er in Ha2, S2.
  assert (a2 = mk_fifo [r] [] c m0) as -> by (by inversion Ha2).
  pose proof (cq_ready_ok _ _ H2) as Hc2. unfold written in Hc2. cbn [pc cq reaped completed length] in Hc2.
  rewrite Hpc, Z.add_0_r, Z.ltb_irrefl in Hc2.
  pose proof (wq_ready_ok _ _ H2 Hpc) as Hw2. cbn [wq ctl outstanding] in Hw2.
  destruct (complete_one _ r c m0 H2 eq_refl Hpc) as (cq1 & ctl1 & m1 & i & e' & wq3 & cq3 & E3 & Hrd & E4 & Em & Hrun).
  { cbn [mem]. rewrite (sim_mem _ _ H). by rewrite (fifo_run_shape m tr _ Ha). }
  cbn [wq cq ctl mem] in *. unfold wait_completion. cbn [while]. rewrite Hc2. cbn [mbind res_bind negb].
  rewrite Hw2. cbn [mbind res_bind]. rewrite E3. cbn [mbind res_bind while]. rewrite Hrd. cbn [mbind res_bind negb].
  rewrite E4. cbn [mbind res_bind]. rewrite Hpc, Hf. eexists. split; [done|]. split; [exact Em|]. exists i.
  change ([Post r; Exec r; Reap i r]) with ([Post r] ++ [Exec r; Reap i r]). rewrite app_assoc.
  apply Hrun. eapply run_event; [|exact S2 | done]. by eapply run_silent.
Qed.

(** ** Witnesses *)

Definition sample_memory : memory := mk_memory (replicate 64 0) [replicate 128 7].
Definition sample_request : request := call op_read 0 0 0 0 0 64.

Lemma sample_fits : fits (shape sample_memory) sample_request.
Proof. exists 128. vm_compute. intuition congruence. Qed.

Lemma sample_run : exists s, run (start sample_memory)
  [Post sample_request; Exec sample_request; Reap 0 sample_request] s /\ filled s = false /\ pc s = Polling.
Proof.
  eexists. split.
  { change [Post sample_request; Exec sample_request; Reap 0 sample_request] with
      ((([] ++ [Post sample_request]) ++ [Exec sample_request]) ++ [Reap 0 sample_request]).
    eapply run_event; [eapply run_silent; [eapply run_silent; [eapply run_event;
      [eapply run_event; [eapply run_silent; [apply run_nil|] | |] | |] |] |] | |].
    - eapply (step_fill _ op_read 0 0 0 0 0 64); vm_compute; auto.
    - eapply (step_publish _ (mk_wqe 114 0 1 0 0 0 0 0 64)); vm_compute; reflexivity.
    - discriminate.
    - eapply (step_execute _ (mk_wqe 114 1 1 0 0 0 0 0 64)); vm_compute; reflexivity.
    - discriminate.
    - eapply step_tid; vm_compute; reflexivity.
    - eapply step_SR; vm_compute; reflexivity.
    - eapply (step_reap _ 0 (mk_wqe 114 1 0 0 0 0 0 0 64)); vm_compute; reflexivity.
    - discriminate. }
  split; reflexivity.
Qed.

Lemma queue_pair_implements_fifo_witness : exists a,
  fifo_run (mk_fifo [] [] 0 sample_memory) [Post sample_request; Exec sample_request; Reap 0 sample_request] a.
Proof.
  destruct sample_run as (s & Hr & _).
  destruct (queue_pair_implements_fifo _ _ s Hr) as (a & Ha & _). exists a. exact Ha.
Defined.

Lemma operations_exactly_once_witness : exists s,
  run (start sample_memory) [Post sample_request; Exec sample_request; Reap 0 sample_request] s /\
  exists dn out, [sample_request] = [sample_request] ++ dn ++ out.
Proof.
  destruct sample_run as (s & Hr & _). exists s. split; [exact Hr|].
  destruct (operations_exactly_once _ _ s Hr) as (dn & out & H & _). exists dn, out. exact H.
Defined.

Lemma queue_pair_drains_witness : exists tr' s',
  run (start sample_memory) ([Post sample_request; Exec sample_request; Reap 0 sample_request] ++ tr') s' /\
  cq_ready (cq s') = Ok false.
Proof.
  destruct sample_run as (s & Hr & Hf & _).
  assert (Hfit : Forall (fits (shape sample_memory))
    (posted [Post sample_request; Exec sample_request; Reap 0 sample_request]))
    by (repeat constructor; exact sample_fits).
  destruct (queue_pair_drains _ _ s Hr Hf Hfit) as (tr' & s' & Hr' & _ & _ & _ & _ & Hc).
  exists tr', s'. split; [exact Hr' | exact Hc].
Defined.

Lemma sync_call_completes_witness : exists s s',
  rmc_rread_sync 0 0 0 0 0 64 s = Ok s' /\
  execute_request sample_request (mem s) = Ok (mem s').
Proof.
  destruct sample_run as (s & Hr & Hf & Hpc). exists s.
  destruct (sync_call_completes _ _ s op_read 0 0 0 0 0 64 Hr Hf Hpc eq_refl (or_introl eq_refl) sample_fits)
    as (s' & E & Em & _).
  exists s'. split; [exact E | exact Em].
Defined.

(** *** Synchronous calls next to asynchronous ones

    With an asynchronous operation in flight the synchronous call takes the
    first completion for its own: here it returns although the RMC has only
    executed the write posted before (the buffer is still 0, where the
    synchronous read would have stored 7). *)
Definition write_in_flight : res system :=
  wq1 ← rmc_rwrite_async alloc_wq 0 0 0 0 64 64;
  '(cq1, r, m) ← rmc_turn wq1 alloc_cq init_rmc sample_memory;
  Ok (mk_system wq1 cq1 r Polling false m).

Example sync_overtaken : exists s s', write_in_flight = Ok s /\
  rmc_rread_sync 0 0 0 0 0 64 s = Ok s' /\ local_buffer (mem s') = replicate 64 0 /\
  exists m, execute_request sample_request (mem s) = Ok m /\ local_buffer m = replicate 64 7.
Proof.
  eexists _, _. split; [vm_compute; reflexivity|]. split; [vm_compute; reflexivity|].
  split; [vm_compute; reflexivity|]. eexists. split; vm_compute; reflexivity.
Qed.

(** With 64 completed operations that nobody has handled it spins forever. *)
Definition ring_full : res system :=
  '(wq1, cq1, r, m) ← for_range 0 64 (fun _ '(wq, cq, r, m) =>
    wq ← rmc_rwrite_async wq 0 0 0 0 64 64;
    '(cq, r, m) ← rmc_turn wq cq r m;
    Ok (wq, cq, r, m)) (alloc_wq, alloc_cq, init_rmc, sample_memory);
  Ok (mk_system wq1 cq1 r Polling false m).

Example sync_spins : exists s, ring_full = Ok s /\ rmc_rread_sync 0 0 0 0 0 64 s = Err OutOfFuel.
Proof. eexists. split; [vm_compute; reflexivity | vm_compute; reflexivity]. Qed.
