(* ===== verification/IntSort.v ===== *)
(** * The integer sort of the NAS Parallel Benchmarks

    [NPB/SERIAL/IS/is.c]: the pseudorandom numbers ([randlc]), the keys made
    of them ([create_seq]), the ranking of the keys with its partial
    verification ([rank]), the sort and its check ([full_verify]) and the
    benchmark ([main]).  The classes of the benchmark differ in the sizes of
    the arrays and in the partial verification; the theorems hold for every
    choice of sizes, and so for the six classes. *)


From S2P Require Import Prelude Double.

(** ** Classes *)

Inductive CLASS := S | W | A | B | C | D.

(** What [#if CLASS == ...] fixes. *)
Record sizes := Sizes {
  class : CLASS;
  TOTAL_KEYS_LOG_2 : Z;
  MAX_KEY_LOG_2 : Z;
  NUM_BUCKETS_LOG_2 : Z;
  USE_BUCKETS : bool
}.

Definition sizes_of (b : bool) (c : CLASS) : sizes :=
  match c with
  | S => Sizes S 16 11 9 b
  | W => Sizes W 20 16 10 b
  | A => Sizes A 23 19 10 b
  | B => Sizes B 25 21 10 b
  | C => Sizes C 27 23 10 b
  | D => Sizes D 31 27 10 b
  end.

Definition MAX_ITERATIONS := 10.
Definition TEST_ARRAY_SIZE := 5.

Definition test_index_array_of (c : CLASS) : list Z :=
  match c with
  | S => [48427; 17148; 23627; 62548; 4431]
  | W => [357773; 934767; 875723; 898999; 404505]
  | A => [2112377; 662041; 5336171; 3642833; 4250760]
  | B => [41869; 812306; 5102857; 18232239; 26860214]
  | C => [44172927; 72999161; 74326391; 129606274; 21736814]
  | D => [1317351170; 995930646; 1157283250; 1503301535; 1453734525]
  end.

Definition test_rank_array_of (c : CLASS) : list Z :=
  match c with
  | S => [0; 18; 346; 64917; 65463]
  | W => [1249; 11698; 1039987; 1043896; 1048018]
  | A => [104; 17523; 123928; 8288932; 8388264]
  | B => [33422937; 10244; 59149; 33135281; 99]
  | C => [61147; 882988; 266290; 133997595; 133525895]
  | D => [1; 36538729; 1978098519; 2145192618; 2147425337]
  end.

(** ** Random numbers *)

(** The constants, multiplied up in loops on the first call. *)
Definition R23 := Nat.iter 23 (fun r => dmul (ddiv (double 1) (double 2)) r) (double 1).
Definition T23 := Nat.iter 23 (fun t => dmul (double 2) t) (double 1).
Definition R46 := Nat.iter 46 (fun r => dmul (ddiv (double 1) (double 2)) r) (double 1).
Definition T46 := Nat.iter 46 (fun t => dmul (double 2) t) (double 1).

(** The value returned and the new [*X]. *)
Definition randlc (X A : spec_float) : res (spec_float * spec_float) :=
  let T1 := dmul R23 A in
  j ← to_int (trunc_Z T1);
  let A1 := double j in
  let A2 := dsub A (dmul T23 A1) in
  let T1 := dmul R23 X in
  j ← to_int (trunc_Z T1);
  let X1 := double j in
  let X2 := dsub X (dmul T23 X1) in
  let T1 := dadd (dmul A1 X2) (dmul A2 X1) in
  j ← to_int (trunc_Z (dmul R23 T1));
  let T2 := double j in
  let Z := dsub T1 (dmul T23 T2) in
  let T3 := dadd (dmul T23 Z) (dmul A2 X2) in
  j ← to_int (trunc_Z (dmul R46 T3));
  let T4 := double j in
  let X := dsub T3 (dmul T46 T4) in
  Ok (dmul R46 X, X).

(** ** The program's state *)

(** The global pointer to ranks. *)
Inductive ptr := Null | ToKeyBuff1.

(** What is printed besides the reports. *)
Inductive message :=
| FailedPartialVerification (iteration i : Z)
| OutOfSort (j : Z).

Record state := State {
  key_array : list Z;
  key_buff1 : list Z;
  key_buff2 : list Z;
  partial_verify_vals : list Z;
  bucket_size : list Z;
  bucket_ptrs : list Z;
  test_index_array : list Z;
  test_rank_array : list Z;
  key_buff_ptr_global : ptr;
  passed_verification : Z;
  output : list message
}.

Definition set_key_array st v := State v (key_buff1 st) (key_buff2 st) (partial_verify_vals st)
  (bucket_size st) (bucket_ptrs st) (test_index_array st) (test_rank_array st) (key_buff_ptr_global st)
  (passed_verification st) (output st).
Definition set_passed st v := State (key_array st) (key_buff1 st) (key_buff2 st) (partial_verify_vals st)
  (bucket_size st) (bucket_ptrs st) (test_index_array st) (test_rank_array st) (key_buff_ptr_global st)
  v (output st).

Section Program.
Context (P : sizes).

Definition TOTAL_KEYS := 2 ^ TOTAL_KEYS_LOG_2 P.
Definition MAX_KEY := 2 ^ MAX_KEY_LOG_2 P.
Definition NUM_BUCKETS := 2 ^ NUM_BUCKETS_LOG_2 P.
Definition NUM_KEYS := TOTAL_KEYS.

(** The width of [INT_TYPE]. *)
Definition INT_TYPE : Z := match class P with D => 64 | _ => 32 end.

(** ** Keys *)

(** One turn of the loop; the loop's counter is an [int] for every class. *)
Definition make_key (a : spec_float) (i : Z) : spec_float * list Z -> res (spec_float * list Z) :=
  fun '(seed, keys) =>
    let k := MAX_KEY / 4 in
    '(x, seed) ← randlc seed a;
    '(r, seed) ← randlc seed a; let x := dadd x r in
    '(r, seed) ← randlc seed a; let x := dadd x r in
    '(r, seed) ← randlc seed a; let x := dadd x r in
    key ← match trunc_Z (dmul (double k) x) with Some z => chk INT_TYPE z | None => Err Overflow end;
    keys ← keys.[i <- key];
    _ ← chk 32 (i + 1);
    Ok (seed, keys).

Definition create_seq (seed a : spec_float) (keys : list Z) : res (list Z) :=
  '(_, keys) ← for_range 0 NUM_KEYS (make_key a) (seed, keys);
  Ok keys.

(** ** Ranks *)

(** [bucket_size[f(key)]++] and [key_buff_ptr[key]++], for all keys *)
Definition count_keys (f : Z -> Z) (keys a : list Z) : res (list Z) :=
  for_range 0 NUM_KEYS
    (fun i a =>
       key ← keys.[i];
       x ← a.[f key];
       x ← chk INT_TYPE (x + 1);
       a.[f key <- x]) a.

Definition clear (n : Z) (a : list Z) : res (list Z) := for_range 0 n (fun i a => a.[i <- 0]) a.

Definition shift : Z := MAX_KEY_LOG_2 P - NUM_BUCKETS_LOG_2 P.

(** The bucket pointers, then each key into its bucket. *)
Definition accumulate_buckets (bucket_size bucket_ptrs : list Z) : res (list Z) :=
  ptrs ← bucket_ptrs.[0 <- 0];
  for_range 1 NUM_BUCKETS
    (fun i ptrs =>
       p ← ptrs.[i - 1]; s ← bucket_size.[i - 1]; x ← chk INT_TYPE (p + s); ptrs.[i <- x]) ptrs.

Definition sort_into_buckets (keys ptrs buff2 : list Z) : res (list Z * list Z) :=
  for_range 0 NUM_KEYS
    (fun i '(ptrs, buff2) =>
       key ← keys.[i];
       p ← ptrs.[Z.shiftr key shift];
       x ← chk INT_TYPE (p + 1);
       ptrs ← ptrs.[Z.shiftr key shift <- x];
       buff2 ← buff2.[p <- key];
       Ok (ptrs, buff2)) (ptrs, buff2).

(** [key_buff_ptr[i+1] += key_buff_ptr[i]] *)
Definition accumulate_ranks (a : list Z) : res (list Z) :=
  for_range 0 (MAX_KEY - 1)
    (fun i a => x ← a.[i + 1]; y ← a.[i]; z ← chk INT_TYPE (x + y); a.[i + 1 <- z]) a.

(** The rank that the partial verification expects. *)
Definition expected (iteration i test_rank : Z) : Z :=
  match class P with
  | S => if i <=? 2 then test_rank + iteration else test_rank - iteration
  | W => if i <? 2 then test_rank + (iteration - 2) else test_rank - iteration
  | A => if i <=? 2 then test_rank + (iteration - 1) else test_rank - (iteration - 1)
  | B => if (i =? 1) || (i =? 2) || (i =? 4) then test_rank + iteration else test_rank - iteration
  | C => if i <=? 2 then test_rank + iteration else test_rank - iteration
  | D => if i <? 2 then test_rank + iteration else test_rank - iteration
  end.

(** [passed_verification] and what is printed. *)
Definition partial_verify (iteration : Z) (vals ranks test_ranks : list Z) :
    Z * list message -> res (Z * list message) :=
  for_range 0 TEST_ARRAY_SIZE
    (fun i '(passed, out) =>
       k ← vals.[i];
       if (0 <? k) && (k <=? NUM_KEYS - 1) then
         key_rank ← ranks.[k - 1];
         test_rank ← test_ranks.[i];
         e ← chk INT_TYPE (expected iteration i test_rank);
         if negb (key_rank =? e) then Ok (passed, out ++ [FailedPartialVerification iteration i])
         else passed ← chk 32 (passed + 1); Ok (passed, out)
       else Ok (passed, out)).

Definition rank (iteration : Z) (st : state) : res state :=
  keys ← (key_array st).[iteration <- iteration];
  keys ← keys.[iteration + MAX_ITERATIONS <- MAX_KEY - iteration];
  vals ← for_range 0 TEST_ARRAY_SIZE
    (fun i vals => t ← (test_index_array st).[i]; v ← keys.[t]; vals.[i <- v]) (partial_verify_vals st);
  '(bsize, bptrs, buff2) ←
    (if USE_BUCKETS P then
       bsize ← clear NUM_BUCKETS (bucket_size st);
       bsize ← count_keys (fun key => Z.shiftr key shift) keys bsize;
       bptrs ← accumulate_buckets bsize (bucket_ptrs st);
       '(bptrs, buff2) ← sort_into_buckets keys bptrs (key_buff2 st);
       Ok (bsize, bptrs, buff2)
     else Ok (bucket_size st, bucket_ptrs st, key_buff2 st));
  let key_buff_ptr2 := if USE_BUCKETS P then buff2 else keys in
  buff1 ← clear MAX_KEY (key_buff1 st);
  buff1 ← count_keys (fun key => key) key_buff_ptr2 buff1;
  buff1 ← accumulate_ranks buff1;
  '(passed, out) ← partial_verify iteration vals buff1 (test_rank_array st) (passed_verification st, output st);
  Ok (State keys buff1 buff2 vals bsize bptrs (test_index_array st) (test_rank_array st)
        (if iteration =? MAX_ITERATIONS then ToKeyBuff1 else key_buff_ptr_global st) passed out).

(** ** The sort and its check *)

Definition full_verify (st : state) : res state :=
  buff2 ←
    (if USE_BUCKETS P then Ok (key_buff2 st)
     else for_range 0 NUM_KEYS (fun i buff2 => x ← (key_array st).[i]; buff2.[i <- x]) (key_buff2 st));
  match key_buff_ptr_global st with
  | Null => Err OutOfBounds
  | ToKeyBuff1 =>
      '(keys, buff1) ← for_range 0 NUM_KEYS
        (fun i '(keys, buff1) =>
           key ← buff2.[i];
           p ← buff1.[key];
           p ← chk INT_TYPE (p - 1);
           buff1 ← buff1.[key <- p];
           keys ← keys.[p <- key];
           Ok (keys, buff1)) (key_array st, key_buff1 st);
      j ← for_range 1 NUM_KEYS
        (fun i j => x ← keys.[i - 1]; y ← keys.[i]; if y <? x then chk INT_TYPE (j + 1) else Ok j) 0;
      '(passed, out) ←
        (if negb (j =? 0) then Ok (passed_verification st, output st ++ [OutOfSort j])
         else passed ← chk 32 (passed_verification st + 1); Ok (passed, output st));
      Ok (State keys buff1 buff2 (partial_verify_vals st) (bucket_size st) (bucket_ptrs st)
            (test_index_array st) (test_rank_array st) (key_buff_ptr_global st) passed out)
  end.

(** ** The benchmark *)

(** The static arrays, zero at first, and the arrays of the class. *)
Definition initial_state : state :=
  let zeros n := replicate (Z.to_nat n) 0 in
  State (zeros NUM_KEYS) (zeros MAX_KEY) (zeros NUM_KEYS) (zeros TEST_ARRAY_SIZE)
    (zeros NUM_BUCKETS) (zeros NUM_BUCKETS) (zeros TEST_ARRAY_SIZE) (zeros TEST_ARRAY_SIZE) Null 0 [].

Definition init_tests (index ranks : list Z) (st : state) : res state :=
  '(ti, tr) ← for_range 0 TEST_ARRAY_SIZE
    (fun i '(ti, tr) => x ← index.[i]; y ← ranks.[i]; ti ← ti.[i <- x]; tr ← tr.[i <- y]; Ok (ti, tr))
    (test_index_array st, test_rank_array st);
  Ok (State (key_array st) (key_buff1 st) (key_buff2 st) (partial_verify_vals st) (bucket_size st)
        (bucket_ptrs st) ti tr (key_buff_ptr_global st) (passed_verification st) (output st)).

Definition iterations (st : state) : res state := for_range 1 (MAX_ITERATIONS + 1) rank st.

(** [index] and [ranks] are the verification arrays of the class. *)
Definition is_main (index ranks : list Z) : res state :=
  st ← init_tests index ranks initial_state;
  keys ← create_seq (double 314159265) (double 1220703125) (key_array st);
  st ← rank 1 (set_key_array st keys);
  st ← iterations (set_passed st 0);
  st ← full_verify st;
  Ok (if negb (passed_verification st =? 5 * MAX_ITERATIONS + 1) then set_passed st 0 else st).
End Program.

(** Small sizes. *)
Definition small (b : bool) : sizes := Sizes S 5 5 3 b.

(** ** [randlc] is exact *)

(** The recurrence. *)
Definition lcg (a x : Z) : Z := a * x mod 2 ^ 46.

Lemma lcg_range a x : 0 <= lcg a x < 2 ^ 46.
Proof. apply Z.mod_pos_bound. lia. Qed.

Lemma constants_ok : R23 = fl 1 (-23) /\ T23 = fl 1 23 /\ R46 = fl 1 (-46) /\ T46 = fl 1 46.
Proof. vm_compute. auto. Qed.

Lemma to_int_small z : 0 <= z < 2 ^ 31 -> to_int (Some z) = Ok z.
Proof. intros. cbn. apply chk_ok. lia. Qed.

(** Multiplication by a power of two. *)
Lemma scale_up k n e : -400 <= k <= 400 -> -400 <= e <= 400 -> 0 <= n < 2 ^ 53 ->
  dmul (fl 1 k) (fl n e) = fl n (e + k).
Proof. intros. rewrite dmul_exact by lia. rewrite Z.mul_1_l. f_equal. lia. Qed.

(** A number below 2^46 as a pair of halves. *)
Lemma halves x : 0 <= x < 2 ^ 46 ->
  0 <= x / 2 ^ 23 < 2 ^ 23 /\ 0 <= x mod 2 ^ 23 < 2 ^ 23 /\ x = x / 2 ^ 23 * 2 ^ 23 + x mod 2 ^ 23.
Proof.
  intros Hx. pose proof (Z.div_mod x (2 ^ 23) ltac:(lia)). pose proof (Z.mod_pos_bound x (2 ^ 23) ltac:(lia)).
  split; [|lia]. split; [apply Z.div_pos | apply Z.div_lt_upper_bound]; lia.
Qed.

(** The integer part of a scaled number, and the rest. *)
Lemma split_ok n k : 0 <= n < 2 ^ 53 -> 0 <= k <= 53 -> n / 2 ^ k < 2 ^ 31 ->
  to_int (trunc_Z (dmul (fl 1 (- k)) (fl n 0))) = Ok (n / 2 ^ k) /\
  dsub (fl n 0) (dmul (fl 1 k) (double (n / 2 ^ k))) = fl (n mod 2 ^ k) 0.
Proof.
  intros Hn Hk Hq. pose proof (Z.div_mod n (2 ^ k) ltac:(lia)) as Ed.
  pose proof (Z.mod_pos_bound n (2 ^ k) ltac:(lia)) as Hm.
  assert (H0 : 0 <= n / 2 ^ k) by (apply Z.div_pos; lia).
  rewrite scale_up, Z.add_0_l, trunc_exact by lia.
  replace (Z.shiftl n (- k)) with (n / 2 ^ k) by (rewrite Z.shiftl_opp_r, Z.shiftr_div_pow2 by lia; done).
  rewrite to_int_small by lia. split; [done|].
  rewrite double_fl, scale_up, Z.add_0_l by lia.
  replace (fl (n / 2 ^ k) k) with (fl (n / 2 ^ k * 2 ^ k) 0) by (rewrite fl_scale by lia; done).
  rewrite dsub_exact by lia. f_equal. lia.
Qed.

Ltac halve lem :=
  let E1 := fresh in let E2 := fresh in
  edestruct lem as [E1 E2]; cycle -1;
  [rewrite E1; cbn [mbind res_bind]; rewrite E2; clear E1 E2 | lia..].

Lemma randlc_ok x a : 0 <= x < 2 ^ 46 -> 0 <= a < 2 ^ 46 ->
  randlc (double x) (double a) = Ok (fl (lcg a x) (-46), double (lcg a x)).
Proof.
  intros Hx Ha. destruct (halves a Ha) as (Ha1 & Ha2 & Ea), (halves x Hx) as (Hx1 & Hx2 & Ex).
  destruct constants_ok as (E1 & E2 & E3 & E4). unfold randlc. rewrite E1, E2, E3, E4.
  rewrite !double_fl by lia. change (-23) with (- (23)). change (-46) with (- (46)).
  halve (split_ok a 23).
  halve (split_ok x 23).
  set (a1 := a / 2 ^ 23) in *. set (a2 := a mod 2 ^ 23) in *. set (x1 := x / 2 ^ 23) in *. set (x2 := x mod 2 ^ 23) in *.
  assert (B12 : 0 <= a1 * x2 <= (2 ^ 23 - 1) * (2 ^ 23 - 1)) by nia.
  assert (B21 : 0 <= a2 * x1 <= (2 ^ 23 - 1) * (2 ^ 23 - 1)) by nia.
  assert (B22 : 0 <= a2 * x2 <= (2 ^ 23 - 1) * (2 ^ 23 - 1)) by nia.
  rewrite !(double_fl a1), !(double_fl x1) by lia. rewrite !dmul_exact, !Z.add_0_l by lia. rewrite dadd_exact by lia.
  set (t := a1 * x2 + a2 * x1).
  assert (Ht : 0 <= t / 2 ^ 23 < 2 ^ 24)
    by (split; [apply Z.div_pos | apply Z.div_lt_upper_bound]; unfold t; lia).
  assert (0 <= t < 2 ^ 53) by (unfold t; lia). halve (split_ok t 23).
  pose proof (Z.mod_pos_bound t (2 ^ 23) ltac:(lia)) as Hz. set (z := t mod 2 ^ 23) in *.
  rewrite scale_up, Z.add_0_l by lia.
  replace (fl z 23) with (fl (z * 2 ^ 23) 0) by (rewrite fl_scale by lia; done).
  rewrite dadd_exact by lia. set (u := z * 2 ^ 23 + a2 * x2).
  assert (Hu : 0 <= u / 2 ^ 46 < 2)
    by (split; [apply Z.div_pos | apply Z.div_lt_upper_bound]; unfold u; lia).
  assert (0 <= u < 2 ^ 53) by (unfold u; lia). halve (split_ok u 46).
  assert (Eu : u mod 2 ^ 46 = lcg a x).
  { unfold lcg. rewrite Ea, Ex. fold a1 a2 x1 x2.
    pose proof (Z.div_mod t (2 ^ 23) ltac:(lia)) as Et. fold z in Et.
    replace ((a1 * 2 ^ 23 + a2) * (x1 * 2 ^ 23 + x2)) with (u + (a1 * x1 + t / 2 ^ 23) * 2 ^ 46)
      by (unfold u; replace (a1 * x2) with (t - a2 * x1) in * by (unfold t; lia); nia).
    by rewrite Z.mod_add by lia. }
  rewrite Eu. pose proof (lcg_range a x). rewrite scale_up, Z.add_0_l, double_fl by lia. done.
Qed.

(** ** The keys *)

Section Keys.
Context (P : sizes).

(** The [n]-th number of the sequence, and the key made of four of them. *)
Definition draw (seed a n : Z) : Z := Nat.iter (Z.to_nat n) (lcg a) seed.
Definition key_of (seed a i : Z) : Z :=
  MAX_KEY P / 4 *
  (draw seed a (4 * i + 1) + draw seed a (4 * i + 2) + draw seed a (4 * i + 3) + draw seed a (4 * i + 4)) / 2 ^ 46.

Lemma draw_succ seed a n : 0 <= n -> draw seed a (n + 1) = lcg a (draw seed a n).
Proof. intros. unfold draw. by replace (Z.to_nat (n + 1)) with (Datatypes.S (Z.to_nat n)) by lia. Qed.

Lemma draw_range seed a n : 0 <= seed < 2 ^ 46 -> 0 <= draw seed a n < 2 ^ 46.
Proof. intros. unfold draw. destruct (Z.to_nat n); [done|]. apply lcg_range. Qed.

Hypothesis Hmax : 2 <= MAX_KEY_LOG_2 P <= 30.

Lemma max_key_quarter : MAX_KEY P / 4 = 2 ^ (MAX_KEY_LOG_2 P - 2) /\ MAX_KEY P = 4 * 2 ^ (MAX_KEY_LOG_2 P - 2).
Proof.
  unfold MAX_KEY. assert (E : 2 ^ MAX_KEY_LOG_2 P = 4 * 2 ^ (MAX_KEY_LOG_2 P - 2)).
  { change 4 with (2 ^ 2). rewrite <- Z.pow_add_r by lia. f_equal. lia. }
  rewrite E. split; [|done]. rewrite Z.mul_comm, Z.div_mul by lia. done.
Qed.

Lemma key_of_range seed a i : 0 <= seed < 2 ^ 46 -> 0 <= key_of seed a i < MAX_KEY P.
Proof.
  intros Hs. unfold key_of. destruct max_key_quarter as [-> E].
  pose proof (draw_range seed a (4 * i + 1) Hs). pose proof (draw_range seed a (4 * i + 2) Hs).
  pose proof (draw_range seed a (4 * i + 3) Hs). pose proof (draw_range seed a (4 * i + 4) Hs).
  assert (0 < 2 ^ (MAX_KEY_LOG_2 P - 2)) by (apply Z.pow_pos_nonneg; lia).
  split; [apply Z.div_pos; nia | apply Z.div_lt_upper_bound; nia].
Qed.

(** One turn of the loop of [create_seq]. *)
Lemma draw_key_ok s a : 0 <= s < 2 ^ 46 -> 0 <= a < 2 ^ 46 -> INT_TYPE P = 32 \/ INT_TYPE P = 64 ->
  forall A (k : spec_float -> Z -> res A),
  ('(x, seed) ← randlc (double s) (double a);
   '(r, seed) ← randlc seed (double a); let x := dadd x r in
   '(r, seed) ← randlc seed (double a); let x := dadd x r in
   '(r, seed) ← randlc seed (double a); let x := dadd x r in
   key ← match trunc_Z (dmul (double (MAX_KEY P / 4)) x) with Some z => chk (INT_TYPE P) z | None => Err Overflow end;
   k seed key) =
  k (double (lcg a (lcg a (lcg a (lcg a s)))))
    (MAX_KEY P / 4 * (lcg a s + lcg a (lcg a s) + lcg a (lcg a (lcg a s)) + lcg a (lcg a (lcg a (lcg a s)))) / 2 ^ 46).
Proof.
  intros Hs Ha Hw A k. set (s1 := lcg a s). set (s2 := lcg a s1). set (s3 := lcg a s2). set (s4 := lcg a s3).
  assert (R1 : 0 <= s1 < 2 ^ 46) by apply lcg_range. assert (R2 : 0 <= s2 < 2 ^ 46) by apply lcg_range.
  assert (R3 : 0 <= s3 < 2 ^ 46) by apply lcg_range. assert (R4 : 0 <= s4 < 2 ^ 46) by apply lcg_range.
  rewrite randlc_ok by done. cbn [mbind res_bind]. fold s1.
  rewrite randlc_ok by done. cbn [mbind res_bind]. fold s2.
  rewrite randlc_ok by done. cbn [mbind res_bind]. fold s3.
  rewrite randlc_ok by done. cbn [mbind res_bind]. fold s4.
  rewrite !dadd_exact by lia. destruct max_key_quarter as [Eq E]. set (q := MAX_KEY_LOG_2 P - 2) in *.
  assert (Hq : 0 <= 2 ^ q < 2 ^ 29).
  { split; [apply Z.pow_nonneg; lia | apply Z.pow_lt_mono_r; unfold q; lia]. }
  set (t := s1 + s2 + s3 + s4). rewrite Eq, (double_fl (2 ^ q)) by lia.
  replace (fl (2 ^ q) 0) with (fl 1 q)
    by (rewrite <- (Z.mul_1_l (2 ^ q)), fl_scale by (unfold q in *; lia); f_equal; lia).
  rewrite scale_up, trunc_exact by (unfold q, t; lia).
  assert (Ekey : Z.shiftl t (-46 + q) = 2 ^ q * t / 2 ^ 46).
  { rewrite (Z.add_comm (-46)), <- Z.shiftl_shiftl, (Z.shiftl_mul_pow2 t) by (unfold q; lia).
    change (-46) with (- (46)). by rewrite Z.shiftl_opp_r, Z.shiftr_div_pow2, Z.mul_comm by lia. }
  rewrite Ekey. rewrite chk_ok; [done|].
  assert (0 <= 2 ^ q * t / 2 ^ 46 < 2 ^ 31).
  { split; [apply Z.div_pos; unfold t; nia | apply Z.div_lt_upper_bound; unfold t; nia]. }
  destruct Hw as [-> | ->]; lia.
Qed.

Lemma int_type_cases : INT_TYPE P = 32 \/ INT_TYPE P = 64.
Proof. unfold INT_TYPE. destruct (class P); auto. Qed.

(** After [i] keys. *)
Definition keys_made (seed a i : Z) (s : spec_float * list Z) : Prop :=
  s.1 = double (draw seed a (4 * i)) /\ zlen s.2 = NUM_KEYS P /\
  forall j, 0 <= j < i -> zth 0 s.2 j = key_of seed a j.

Lemma make_key_ok seed a i s : 0 <= seed < 2 ^ 46 -> 0 <= a < 2 ^ 46 -> 0 <= i < NUM_KEYS P ->
  keys_made seed a i s ->
  exists s', keys_made seed a (i + 1) s' /\
    make_key P (double a) i s = (_ ← chk 32 (i + 1); Ok s').
Proof.
  intros Hs Ha Hi. destruct s as [f keys]. intros (Ef & Hl & Hk). cbn [fst snd] in *. subst f.
  unfold make_key. rewrite draw_key_ok by (done || by apply draw_range || apply int_type_cases).
  rewrite aset_ok by lia. cbn [mbind res_bind].
  eexists (_, _). split; [|reflexivity]. split; [|split]; cbn [fst snd].
  - replace (4 * (i + 1)) with (4 * i + 1 + 1 + 1 + 1) by lia. by rewrite !draw_succ by lia.
  - by rewrite zlen_insert.
  - intros j Hj. rewrite zth_insert by lia. destruct (Z.eqb_spec j i) as [->|]; [|apply Hk; lia].
    unfold key_of. replace (4 * i + 4) with (4 * i + 3 + 1) by lia.
    replace (4 * i + 3) with (4 * i + 2 + 1) by lia. replace (4 * i + 2) with (4 * i + 1 + 1) by lia.
    by rewrite !draw_succ by lia.
Qed.

Lemma make_keys_ok seed a n s : 0 <= seed < 2 ^ 46 -> 0 <= a < 2 ^ 46 -> 0 <= n < 2 ^ 31 -> n <= NUM_KEYS P ->
  keys_made seed a 0 s ->
  exists s', for_range 0 n (make_key P (double a)) s = Ok s' /\ keys_made seed a n s'.
Proof.
  intros Hs Ha Hn Hle I. apply (for_range_inv (keys_made seed a)); [lia | done |].
  intros i s1 Hi I1. destruct (make_key_ok seed a i s1) as (s2 & I2 & ->); [done | done | lia | done |].
  rewrite chk_ok by lia. eauto.
Qed.
End Keys.

(** The keys of a class whose number of keys is an [int]: key [i] is
    [MAX_KEY/4] times the sum of four successive numbers of the sequence,
    rounded down, and lies in the range of keys. *)
Lemma create_seq_keys P seed a keys :
  2 <= MAX_KEY_LOG_2 P <= 30 -> NUM_KEYS P < 2 ^ 31 ->
  0 <= seed < 2 ^ 46 -> 0 <= a < 2 ^ 46 -> zlen keys = NUM_KEYS P ->
  exists keys', create_seq P (double seed) (double a) keys = Ok keys' /\ zlen keys' = NUM_KEYS P /\
    forall i, 0 <= i < NUM_KEYS P -> zth 0 keys' i = key_of P seed a i /\ 0 <= zth 0 keys' i < MAX_KEY P.
Proof.
  intros Hm Hn Hs Ha Hl. unfold create_seq.
  destruct (make_keys_ok P Hm seed a (NUM_KEYS P) (double seed, keys)) as ([f keys'] & -> & _ & Hl' & Hk);
    [done | done | lia | lia | repeat split; done || lia |].
  cbn [mbind res_bind fst snd] in *. exists keys'. split; [done|]. split; [done|]. intros i Hi.
  rewrite Hk by done. split; [done|]. by apply key_of_range.
Qed.

(** For 2^31 keys - class D - the counter of the loop, an [int], overflows
    after the last key: the behaviour is undefined. *)
Theorem create_seq_overflow P seed a keys :
  2 <= MAX_KEY_LOG_2 P <= 30 -> TOTAL_KEYS_LOG_2 P = 31 ->
  0 <= seed < 2 ^ 46 -> 0 <= a < 2 ^ 46 -> zlen keys = NUM_KEYS P ->
  create_seq P (double seed) (double a) keys = Err Overflow.
Proof.
  intros Hm Hn Hs Ha Hl. assert (EN : NUM_KEYS P = 2 ^ 31) by (unfold NUM_KEYS, TOTAL_KEYS; by rewrite Hn).
  unfold create_seq. rewrite EN, (for_range_app 0 (2 ^ 31 - 1)) by lia.
  destruct (make_keys_ok P Hm seed a (2 ^ 31 - 1) (double seed, keys)) as (s' & -> & I);
    [done | done | lia | lia | repeat split; done || lia |].
  cbn [mbind res_bind]. rewrite for_range_step by lia.
  destruct (make_key_ok P Hm seed a (2 ^ 31 - 1) s') as (s2 & _ & ->); [done | done | lia | done |]. done.
Qed.

(** C35: the pseudorandom numbers are exact: with seed and multiplier below
    2^46, every operation of [randlc] on doubles is exact and every
    conversion to [int] defined; the new seed is [a * x mod 2^46] and the
    value returned is the new seed divided by 2^46. *)
Theorem randlc_exact x a : 0 <= x < 2 ^ 46 -> 0 <= a < 2 ^ 46 ->
  randlc (double x) (double a) = Ok (fl (lcg a x) (-46), double (lcg a x)).
Proof. apply randlc_ok. Qed.

(** ** Witnesses *)

Lemma randlc_exact_witness :
  randlc (double 314159265) (double 1220703125) =
  Ok (fl (lcg 1220703125 314159265) (-46), double (lcg 1220703125 314159265)).
Proof. apply (randlc_exact 314159265 1220703125); lia. Defined.

Lemma create_seq_overflow_witness :
  create_seq (sizes_of true D) (double 314159265) (double 1220703125)
    (replicate (Z.to_nat (NUM_KEYS (sizes_of true D))) 0) = Err Overflow.
Proof.
  apply (create_seq_overflow (sizes_of true D) 314159265 1220703125);
    [cbn; lia | exact eq_refl | lia | lia |].
  rewrite length_replicate. apply Z2Nat.id. apply Z.pow_nonneg. lia.
Defined.
