(* ===== verification/IntRank.v ===== *)
(** * The integer sort: ranks and the sorted keys

    What [rank] computes - for every value the number of keys that are not
    above it, and the keys grouped by bucket - and what [full_verify] makes of
    it: the keys in order.  The reference is the number of keys with a
    property, [ct]. *)

From Stdlib Require Import Permutation Sorted.
From stdpp Require Import sets.
From S2P Require Import Prelude Double IntSort.

(** ** Counting keys *)

Fixpoint ct (p : Z -> bool) (l : list Z) : Z :=
  match l with
  | [] => 0
  | x :: l => (if p x then 1 else 0) + ct p l
  end.

Implicit Types (l : list Z).

Lemma ct_app p l1 l2 : ct p (l1 ++ l2) = ct p l1 + ct p l2.
Proof. induction l1 as [|x l1 IH]; cbn [app ct]; [lia|]. rewrite IH. lia. Qed.

Lemma ct_bounds p l : 0 <= ct p l <= zlen l.
Proof. induction l as [|x l IH]; cbn [ct length]; [lia|]. destruct (p x); lia. Qed.

Lemma ct_ext p q l : (forall x, x ∈ l -> p x = q x) -> ct p l = ct q l.
Proof.
  induction l as [|x l IH]; intros H; cbn [ct]; [done|].
  rewrite (H x), IH by (intros; try apply H; set_solver). done.
Qed.

Lemma ct_perm p l l' : Permutation l l' -> ct p l = ct p l'.
Proof. induction 1; cbn [ct]; lia. Qed.

Lemma ct_or p q l : (forall x, x ∈ l -> p x && q x = false) ->
  ct (fun x => p x || q x) l = ct p l + ct q l.
Proof.
  induction l as [|x l IH]; intros H; cbn [ct]; [done|].
  rewrite IH by (intros; apply H; set_solver). pose proof (H x ltac:(set_solver)).
  destruct (p x), (q x); simpl in *; try done; lia.
Qed.

(** A prefix, one key longer. *)
Lemma take_succ l i : 0 <= i < zlen l -> take (Z.to_nat (i + 1)) l = take (Z.to_nat i) l ++ [zth 0 l i].
Proof.
  intros Hi. replace (Z.to_nat (i + 1)) with (Datatypes.S (Z.to_nat i)) by lia.
  destruct (lookup_lt_is_Some_2 l (Z.to_nat i)) as [x Hx]; [lia|].
  rewrite (take_S_r l _ x Hx). unfold zth. by rewrite (nth_lookup_Some _ _ _ _ Hx).
Qed.

Definition ct_to p l (i : Z) : Z := ct p (take (Z.to_nat i) l).

Lemma ct_to_0 p l : ct_to p l 0 = 0.
Proof. done. Qed.

Lemma ct_to_succ p l i : 0 <= i < zlen l ->
  ct_to p l (i + 1) = ct_to p l i + (if p (zth 0 l i) then 1 else 0).
Proof. intros. unfold ct_to. rewrite take_succ, ct_app by done. cbn [ct]. lia. Qed.

Lemma ct_to_all p l i : zlen l <= i -> ct_to p l i = ct p l.
Proof. intros. unfold ct_to. by rewrite take_ge by lia. Qed.

Lemma ct_to_bounds p l i : 0 <= ct_to p l i <= ct p l.
Proof.
  unfold ct_to. pose proof (ct_bounds p (take (Z.to_nat i) l)).
  rewrite <- (take_drop (Z.to_nat i) l) at 3. rewrite ct_app.
  pose proof (ct_bounds p (drop (Z.to_nat i) l)). lia.
Qed.

Lemma ct_to_lt p l i : 0 <= i < zlen l -> p (zth 0 l i) = true -> ct_to p l i < ct p l.
Proof.
  intros Hi Hp. pose proof (ct_to_bounds p l (i + 1)). rewrite ct_to_succ, Hp in * by done. lia.
Qed.

(** Equal counts of every value make a permutation. *)
Lemma ct_occ l v : ct (fun x => x =? v) l = Z.of_nat (count_occ Z.eq_dec l v).
Proof.
  induction l as [|x l IH]; [done|]. cbn [ct count_occ]. rewrite IH.
  destruct (Z.eq_dec x v), (Z.eqb_spec x v); lia.
Qed.

Lemma perm_of_ct l l' : (forall v, ct (fun x => x =? v) l = ct (fun x => x =? v) l') -> Permutation l l'.
Proof.
  intros H. apply (Permutation_count_occ Z.eq_dec). intros v. specialize (H v). rewrite !ct_occ in H. lia.
Qed.

(** The number of keys below a bound is the sum over the values below it. *)
Lemma ct_cumulative (f : Z -> Z) l b : 0 <= b -> (forall x, x ∈ l -> 0 <= f x) ->
  msum 0 b (fun v => ct (fun x => f x =? v) l) = ct (fun x => f x <? b) l.
Proof.
  intros Hb Hf. pattern b. apply Zlt_0_ind; [|done]. clear b Hb. intros b IH Hb.
  destruct (Z.eq_dec b 0) as [->|].
  - rewrite msum_empty by lia. symmetry. rewrite <- (ct_to_0 (fun x => f x <? 0) l).
    rewrite (ct_ext _ (fun _ => false)).
    + clear. unfold ct_to. induction l as [|x l IH]; [done|]. exact IH.
    + intros x Hx. apply Z.ltb_ge. by apply Hf.
  - replace b with (b - 1 + 1) at 1 by lia. rewrite msum_right, IH by lia. simpl madd.
    rewrite <- ct_or.
    + apply ct_ext. intros x Hx. destruct (Z.ltb_spec (f x) (b - 1)), (Z.eqb_spec (f x) (b - 1)), (Z.ltb_spec (f x) b);
        simpl; try done; lia.
    + intros x Hx. destruct (Z.ltb_spec (f x) (b - 1)), (Z.eqb_spec (f x) (b - 1)); simpl; try done; lia.
Qed.

Lemma ct_true l : ct (fun _ => true) l = zlen l.
Proof. induction l as [|x l IH]; cbn [ct length]; lia. Qed.

Lemma ct_all p l : (forall x, x ∈ l -> p x = true) -> ct p l = zlen l.
Proof. intros H. rewrite (ct_ext p (fun _ => true)) by done. apply ct_true. Qed.

Lemma ct_mono p q l : (forall x, x ∈ l -> p x = true -> q x = true) -> ct p l <= ct q l.
Proof.
  induction l as [|x l IH]; intros H; cbn [ct]; [lia|].
  pose proof (IH ltac:(intros; apply H; set_solver)). pose proof (H x ltac:(set_solver)).
  destruct (p x), (q x); lia.
Qed.

(** The count as a sum over the positions. *)
Definition is_at l v i : Z := if zth 0 l i =? v then 1 else 0.

Lemma ct_positions l v : msum 0 (zlen l) (is_at l v) = ct (fun x => x =? v) l.
Proof.
  rewrite <- (ct_to_all _ l (zlen l)) by lia.
  assert (H : forall n, (n <= length l)%nat -> msum 0 (Z.of_nat n) (is_at l v) = ct_to (fun x => x =? v) l (Z.of_nat n)).
  { induction n as [|n IH]; intros Hn; [done|]. replace (Z.of_nat (Datatypes.S n)) with (Z.of_nat n + 1) by lia.
    rewrite msum_right, ct_to_succ, IH by lia. done. }
  by apply H.
Qed.

(** Adjacent ranges. *)
Lemma msum_ranges (s : Z -> Z) (g : Z -> Z) m : 0 <= m -> (forall b, 0 <= b < m -> s b <= s (b + 1)) ->
  msum 0 m (fun b => msum (s b) (s (b + 1)) g) = msum (s 0) (s m) g /\ s 0 <= s m.
Proof.
  intros Hm Hs. revert Hs. pattern m. apply Zlt_0_ind; [|done]. clear m Hm. intros m IH Hm Hs.
  destruct (Z.eq_dec m 0) as [->|]; [by rewrite !msum_empty by lia|].
  destruct (IH (m - 1)) as [E Hle]; [lia | intros; apply Hs; lia |].
  pose proof (Hs (m - 1) ltac:(lia)) as Hlast. replace (m - 1 + 1) with m in Hlast by lia. split; [|lia].
  replace m with (m - 1 + 1) at 1 by lia. rewrite msum_right, E by lia.
  replace (m - 1 + 1) with m by lia. by rewrite <- msum_app by lia.
Qed.

(** ** The loops of [rank] *)

Section Rank.
Context (P : sizes).
Let w := INT_TYPE P.
Let N := NUM_KEYS P.

(** What the sizes of every class satisfy. *)
Record sizes_ok : Prop := {
  max_key_log : 5 <= MAX_KEY_LOG_2 P <= 30;
  total_keys_log : 5 <= TOTAL_KEYS_LOG_2 P <= 31;
  buckets_log : 0 <= NUM_BUCKETS_LOG_2 P <= MAX_KEY_LOG_2 P;
  counts_fit : TOTAL_KEYS_LOG_2 P < w - 1
}.
Hypothesis OK : sizes_ok.

Lemma N_range : 32 <= N /\ N < 2 ^ (w - 1).
Proof.
  destruct OK as [_ H _ Hw]. unfold N, NUM_KEYS, TOTAL_KEYS. split.
  - change 32 with (2 ^ 5). apply Z.pow_le_mono_r; lia.
  - apply Z.pow_lt_mono_r; lia.
Qed.

Lemma max_key_range : 32 <= MAX_KEY P.
Proof. destruct OK as [H _ _ _]. unfold MAX_KEY. change 32 with (2 ^ 5). apply Z.pow_le_mono_r; lia. Qed.

Lemma w_large : 32 <= w.
Proof. unfold w, INT_TYPE. destruct (class P); lia. Qed.

Lemma count_fits x : 0 <= x <= N -> chk w x = Ok x.
Proof. intros. pose proof N_range. apply chk_ok. lia. Qed.

Lemma clear_ok n a : 0 <= n -> zlen a = n -> clear n a = Ok (replicate (Z.to_nat n) 0).
Proof.
  intros Hn Ha. unfold clear.
  destruct (for_range_inv (fun i a => zlen a = n /\ forall j, 0 <= j < i -> zth 0 a j = 0)
    (fun i a => a.[i <- 0]) 0 n a) as (a' & -> & Hl & Hz); [lia | split; [done | lia] | |].
  - intros i a1 Hi [Hl Hz]. rewrite aset_ok by lia. eexists. split; [done|].
    rewrite zlen_insert. split; [done|]. intros j Hj. rewrite zth_insert by lia.
    destruct (Z.eqb_spec j i); [done|]. apply Hz. lia.
  - f_equal. apply (zth_ext 0); [rewrite length_replicate; lia|]. intros i Hi.
    rewrite Hz by lia. by rewrite zth_replicate by lia.
Qed.

(** The keys as a function of their index in an array of counts. *)
Definition keys_in (f : Z -> Z) (m : Z) l : Prop := zlen l = N /\ forall x, x ∈ l -> 0 <= f x < m.

Lemma keys_in_at f m l i : keys_in f m l -> 0 <= i < N -> 0 <= f (zth 0 l i) < m.
Proof. intros [Hl H] Hi. apply H, zth_In. lia. Qed.

(** An array of the values of a function. *)
Definition table (m : Z) (g : Z -> Z) (a : list Z) : Prop := zlen a = m /\ forall v, 0 <= v < m -> zth 0 a v = g v.

Lemma table_get m g a v : table m g a -> 0 <= v < m -> a.[v] = Ok (g v).
Proof. intros [Hl H] Hv. rewrite (aget_ok 0) by lia. by rewrite H. Qed.

Lemma table_set m g a v x h : table m g a -> 0 <= v < m ->
  (forall u, 0 <= u < m -> h u = if u =? v then x else g u) ->
  exists a', a.[v <- x] = Ok a' /\ table m h a'.
Proof.
  intros [Hl H] Hv Hh. rewrite aset_ok by lia. eexists. split; [done|]. split; [by rewrite zlen_insert|].
  intros u Hu. rewrite zth_insert, Hh by lia. by rewrite H.
Qed.

Lemma table_zero m : 0 <= m -> table m (fun _ => 0) (replicate (Z.to_nat m) 0).
Proof. intros. split; [rewrite length_replicate; lia|]. intros. by rewrite zth_replicate by lia. Qed.

Lemma table_ext m g h a : (forall v, 0 <= v < m -> g v = h v) -> table m g a -> table m h a.
Proof. intros E [Hl H]. split; [done|]. intros. by rewrite H, E. Qed.

Lemma count_keys_ok f m l a : keys_in f m l -> table m (fun _ => 0) a ->
  exists a', count_keys P f l a = Ok a' /\ table m (fun v => ct (fun x => f x =? v) l) a'.
Proof.
  intros Hk Ha. unfold count_keys. pose proof N_range. fold w N.
  destruct (for_range_inv (fun i => table m (fun v => ct_to (fun x => f x =? v) l i))
    (fun i a => key ← l.[i]; x ← a.[f key]; x ← chk w (x + 1); a.[f key <- x]) 0 N a)
    as (a' & E & I); [lia | done | |].
  - intros i a1 Hi I. pose proof (keys_in_at f m l i Hk Hi) as Hf. destruct Hk as [Hl _].
    rewrite (aget_ok 0) by lia. cbn [mbind res_bind]. rewrite (table_get _ _ _ _ I) by done. cbn [mbind res_bind].
    pose proof (ct_to_lt (fun x => f x =? f (zth 0 l i)) l i ltac:(lia) (Z.eqb_refl _)).
    pose proof (ct_bounds (fun x => f x =? f (zth 0 l i)) l).
    pose proof (ct_to_bounds (fun x => f x =? f (zth 0 l i)) l i).
    rewrite count_fits by lia. cbn [mbind res_bind].
    apply (table_set _ _ _ _ _ _ I); [done|]. intros u Hu. rewrite ct_to_succ by lia.
    rewrite (Z.eqb_sym (f _) u). destruct (Z.eqb_spec u (f (zth 0 l i))) as [->|]; lia.
  - exists a'. split; [done|]. revert I. apply table_ext. intros. apply ct_to_all. destruct Hk. lia.
Qed.

(** The counts of all smaller buckets. *)
Lemma accumulate_buckets_ok c bsize bptrs :
  table (NUM_BUCKETS P) c bsize -> zlen bptrs = NUM_BUCKETS P ->
  (forall b, 0 <= b -> 0 <= msum 0 b c <= N) -> 0 < NUM_BUCKETS P ->
  exists ptrs, accumulate_buckets P bsize bptrs = Ok ptrs /\ table (NUM_BUCKETS P) (fun b => msum 0 b c) ptrs.
Proof.
  intros Hs Hp Hc Hn. unfold accumulate_buckets. fold w. rewrite aset_ok by lia. cbn [mbind res_bind].
  destruct (for_range_inv (fun i ptrs => zlen ptrs = NUM_BUCKETS P /\ forall b, 0 <= b < i -> zth 0 ptrs b = msum 0 b c)
    (fun i ptrs => p ← ptrs.[i - 1]; s ← bsize.[i - 1]; x ← chk w (p + s); ptrs.[i <- x]) 1 (NUM_BUCKETS P)
    (<[Z.to_nat 0 := 0]> bptrs)) as (ptrs & -> & Hl & Hz); [lia | | |].
  - rewrite zlen_insert. split; [done|]. intros b Hb. replace b with 0 by lia.
    by rewrite zth_insert_eq, msum_empty by lia.
  - intros i ptrs Hi [Hl Hz]. rewrite (aget_ok 0 ptrs) by lia. cbn [mbind res_bind].
    rewrite (table_get _ _ _ _ Hs) by lia. cbn [mbind res_bind]. rewrite Hz by lia.
    assert (E : msum 0 (i - 1) c + c (i - 1) = msum 0 i c).
    { replace i with (i - 1 + 1) at 3 by lia. by rewrite msum_right by lia. }
    rewrite E, count_fits by (apply Hc; lia). cbn [mbind res_bind]. rewrite aset_ok by lia. eexists. split; [done|].
    rewrite zlen_insert. split; [done|]. intros b Hb. rewrite zth_insert by lia.
    destruct (Z.eqb_spec b i) as [->|]; [done|]. apply Hz. lia.
  - exists ptrs. split; [done|]. by split.
Qed.

Lemma accumulate_ranks_ok c a :
  table (MAX_KEY P) c a -> (forall v, 0 <= v -> 0 <= msum 0 v c <= N) ->
  exists a', accumulate_ranks P a = Ok a' /\ table (MAX_KEY P) (fun v => msum 0 (v + 1) c) a'.
Proof.
  intros Ha Hc. unfold accumulate_ranks. fold w. pose proof max_key_range.
  destruct (for_range_inv (fun i => table (MAX_KEY P) (fun v => if v <=? i then msum 0 (v + 1) c else c v))
    (fun i a => x ← a.[i + 1]; y ← a.[i]; z ← chk w (x + y); a.[i + 1 <- z]) 0 (MAX_KEY P - 1) a)
    as (a' & -> & I); [lia | | |].
  - revert Ha. apply table_ext. intros v Hv. destruct (Z.leb_spec v 0); [|done]. replace v with 0 by lia.
    symmetry. apply (msum_single 0 c).
  - intros i a1 Hi I. rewrite !(table_get _ _ _ _ I) by lia. cbn [mbind res_bind].
    destruct (Z.leb_spec (i + 1) i), (Z.leb_spec i i); try lia.
    replace (c (i + 1) + msum 0 (i + 1) c) with (msum 0 (i + 1 + 1) c) by (rewrite msum_right by lia; simpl; lia).
    rewrite count_fits by (apply Hc; lia). cbn [mbind res_bind].
    apply (table_set _ _ _ _ _ _ I); [lia|]. intros u Hu.
    destruct (Z.eqb_spec u (i + 1)) as [->|].
    + by destruct (Z.leb_spec (i + 1) (i + 1)); [|lia].
    + destruct (Z.leb_spec u (i + 1)), (Z.leb_spec u i); done || lia.
  - exists a'. split; [done|]. revert I. apply table_ext. intros v Hv. by destruct (Z.leb_spec v (MAX_KEY P - 1)); [|lia].
Qed.

(** *** The buckets *)

Section Buckets.
Context (f : Z -> Z) (m : Z) (l : list Z).
Hypotheses (Hm : 0 <= m) (Hk : keys_in f m l).

(** Where a bucket starts, and how far it is filled after [i] keys. *)
Definition start (b : Z) : Z := ct (fun x => f x <? b) l.
Definition filled (i b : Z) : Z := start b + ct_to (fun x => f x =? b) l i.

Lemma bucket_start_succ b : start (b + 1) = start b + ct (fun x => f x =? b) l.
Proof.
  unfold start. rewrite <- ct_or.
  - apply ct_ext. intros x _. destruct (Z.ltb_spec (f x) (b + 1)), (Z.ltb_spec (f x) b), (Z.eqb_spec (f x) b);
      simpl; try done; lia.
  - intros x _. destruct (Z.ltb_spec (f x) b), (Z.eqb_spec (f x) b); simpl; try done; lia.
Qed.

Lemma filled_bounds i b : start b <= filled i b <= start (b + 1).
Proof. unfold filled. rewrite bucket_start_succ. pose proof (ct_to_bounds (fun x => f x =? b) l i). lia. Qed.

Lemma bucket_start_mono b c : b <= c -> start b <= start c.
Proof.
  intros Hle. apply ct_mono. intros x _ H%Z.ltb_lt. apply Z.ltb_lt. lia.
Qed.

Lemma start_0 : start 0 = 0.
Proof.
  unfold start. rewrite <- (ct_cumulative f l 0); [by rewrite msum_empty by lia | lia |]. intros. by apply Hk.
Qed.

Lemma start_m : start m = N.
Proof.
  destruct Hk as [Hl Hf]. unfold start. rewrite ct_all; [done|]. intros x Hx. apply Z.ltb_lt. by apply Hf.
Qed.

(** How often a value is in the filled parts. *)
Definition in_buckets (out : list Z) (v i : Z) : Z :=
  msum 0 m (fun b => msum (start b) (filled i b) (is_at out v)).

(** The place of the next key is in no filled part. *)
Lemma bucket_write out v i : 0 <= i < N -> zlen out = N ->
  let key := zth 0 l i in
  0 <= filled i (f key) < N /\
  in_buckets (<[Z.to_nat (filled i (f key)) := key]> out) v (i + 1) =
  in_buckets out v i + (if key =? v then 1 else 0).
Proof.
  intros Hi Hout key. set (b := f key). set (out' := <[Z.to_nat (filled i b) := key]> out).
  assert (Hb : 0 <= b < m) by (by apply keys_in_at).
  assert (Hl : zlen l = N) by apply Hk.
  assert (Hlt : filled i b < start (b + 1)).
  { unfold filled. rewrite bucket_start_succ.
    pose proof (ct_to_lt (fun x => f x =? b) l i ltac:(lia) (Z.eqb_refl _)). lia. }
  assert (Hpos : 0 <= filled i b < N).
  { pose proof (filled_bounds i b). pose proof (bucket_start_mono 0 b ltac:(lia)). pose proof (bucket_start_mono (b + 1) m ltac:(lia)).
    rewrite start_0, start_m in *. lia. }
  split; [done|].
  assert (Hsame : forall c j, 0 <= c < m -> start c <= j < filled i c -> is_at out' v j = is_at out v j).
  { intros c j Hc Hj. unfold is_at, out'. pose proof (filled_bounds i c). pose proof (bucket_start_mono 0 c ltac:(lia)).
    rewrite start_0 in *. rewrite zth_insert_ne; [done | lia | lia |]. intros <-.
    pose proof (filled_bounds i b). destruct (Z.lt_trichotomy b c) as [|[->|]].
    - pose proof (bucket_start_mono (b + 1) c ltac:(lia)). lia.
    - lia.
    - pose proof (bucket_start_mono (c + 1) b ltac:(lia)). lia. }
  assert (Hfill : forall c, filled (i + 1) c = filled i c + (if b =? c then 1 else 0)).
  { intros c. unfold filled. rewrite ct_to_succ by lia. unfold b, key. lia. }
  unfold in_buckets.
  pose proof (msum_change 0 m b (fun c => msum (start c) (filled (i + 1) c) (is_at out' v))
    (fun c => msum (start c) (filled i c) (is_at out v)) Hb) as E.
  assert (Eb : msum (start b) (filled (i + 1) b) (is_at out' v) =
               msum (start b) (filled i b) (is_at out v) + (if key =? v then 1 else 0)).
  { rewrite Hfill, Z.eqb_refl, msum_right by apply filled_bounds. simpl madd. f_equal.
    - apply msum_ext. intros j Hj. by apply (Hsame b).
    - unfold is_at, out'. by rewrite zth_insert_eq by lia. }
  cbn [madd Z_monoid] in E. rewrite Eb in E. lapply E; [lia|].
  intros c Hc Hne. rewrite Hfill. destruct (Z.eqb_spec b c); [congruence|]. rewrite Z.add_0_r.
  apply msum_ext. intros j Hj. by apply (Hsame c).
Qed.

Lemma buckets_full out v : zlen out = N -> in_buckets out v N = ct (fun x => x =? v) out.
Proof.
  intros Hout. assert (Hl : zlen l = N) by apply Hk. unfold in_buckets.
  destruct (msum_ranges start (is_at out v) m Hm) as [E _]; [intros; apply bucket_start_mono; lia|].
  rewrite start_0, start_m in E. rewrite <- ct_positions, Hout, <- E.
  apply msum_ext. intros b Hb. f_equal. unfold filled. rewrite ct_to_all by lia. by rewrite bucket_start_succ.
Qed.
End Buckets.

Lemma sort_into_buckets_ok l ptrs out m :
  let f := fun key => Z.shiftr key (shift P) in
  0 <= m -> keys_in f m l -> table m (start f l) ptrs -> zlen out = N ->
  exists ptrs' out', sort_into_buckets P l ptrs out = Ok (ptrs', out') /\ zlen ptrs' = m /\
    zlen out' = N /\ Permutation out' l.
Proof.
  intros f Hm Hk Hp Hout. unfold sort_into_buckets. fold w N. pose proof N_range.
  assert (Hl : zlen l = N) by apply Hk.
  destruct (for_range_inv (fun i '(ptrs, out) => table m (filled f l i) ptrs /\ zlen out = N /\
      forall v, in_buckets f m l out v i = ct_to (fun x => x =? v) l i)
    (fun i '(ptrs, buff2) => key ← l.[i]; p ← ptrs.[Z.shiftr key (shift P)]; x ← chk w (p + 1);
       ptrs ← ptrs.[Z.shiftr key (shift P) <- x]; buff2 ← buff2.[p <- key]; Ok (ptrs, buff2)) 0 N (ptrs, out))
    as ([ptrs' out'] & -> & Hp' & Ho' & Hv); [lia | | |].
  - split; [|split; [done|]].
    + revert Hp. apply table_ext. intros. unfold filled. rewrite ct_to_0. lia.
    + intros v. unfold in_buckets. rewrite ct_to_0. etransitivity; [apply msum_unit | done]. intros b Hb. apply msum_empty.
      unfold filled. rewrite ct_to_0. lia.
  - intros i [ptrs1 out1] Hi (Hp1 & Ho1 & Hv1). pose proof (keys_in_at f m l i Hk Hi) as Hf.
    rewrite (aget_ok 0) by lia. cbn [mbind res_bind]. fold (f (zth 0 l i)).
    rewrite (table_get _ _ _ _ Hp1) by done. cbn [mbind res_bind].
    destruct (bucket_write f m l Hk out1 0 i Hi Ho1) as [Hpos _].
    rewrite count_fits by lia. cbn [mbind res_bind].
    destruct (table_set m _ ptrs1 (f (zth 0 l i)) (filled f l i (f (zth 0 l i)) + 1) (filled f l (i + 1)) Hp1 Hf)
      as (ptrs2 & -> & Hp2).
    { intros u Hu. unfold filled. rewrite ct_to_succ, (Z.eqb_sym _ u) by lia.
      destruct (Z.eqb_spec u (f (zth 0 l i))) as [->|]; lia. }
    cbn [mbind res_bind]. rewrite aset_ok by lia. cbn [mbind res_bind]. eexists (_, _). split; [done|].
    split; [done|]. split; [by rewrite zlen_insert|]. intros v.
    destruct (bucket_write f m l Hk out1 v i Hi Ho1) as [_ ->]. by rewrite Hv1, ct_to_succ by lia.
  - exists ptrs', out'. split; [done|]. split; [apply Hp'|]. split; [done|]. apply perm_of_ct. intros v.
    rewrite <- (buckets_full f m l Hm Hk out' v Ho'), Hv. by apply ct_to_all; lia.
Qed.

(** *** The partial verification *)

Section PartialVerify.
Context (iteration : Z) (keys ti tr : list Z).

(** Test key [i] has the rank that is expected. *)
Definition tested (i : Z) : bool :=
  let k := zth 0 keys (zth 0 ti i) in (0 <? k) && (k <=? N - 1).
Definition test_passes (i : Z) : bool :=
  tested i &&
  (ct (fun x => x <? zth 0 keys (zth 0 ti i)) keys =? expected P iteration i (zth 0 tr i)).
Definition passes (n : Z) : Z := msum 0 n (fun i => if test_passes i then 1 else 0).
Definition failures (n : Z) : list message :=
  flat_map (fun i => if tested i && negb (test_passes i) then [FailedPartialVerification iteration i] else [])
    (map Z.of_nat (seq 0 (Z.to_nat n))).

Lemma passes_range n : 0 <= n -> 0 <= passes n <= n.
Proof.
  intros Hn. unfold passes. split.
  - apply msum_Z_nonneg. intros. destruct (test_passes i); lia.
  - etransitivity; [apply (msum_Z_le _ _ _ (fun _ => 1))|rewrite msum_Z_ones; lia].
    intros. destruct (test_passes i); lia.
Qed.

Lemma passes_succ n : 0 <= n -> passes (n + 1) = passes n + (if test_passes n then 1 else 0).
Proof. intros. unfold passes. by rewrite msum_right by lia. Qed.

Lemma failures_succ n : 0 <= n -> failures (n + 1) =
  failures n ++ (if tested n && negb (test_passes n) then [FailedPartialVerification iteration n] else []).
Proof.
  intros Hn. unfold failures. replace (Z.to_nat (n + 1)) with (Datatypes.S (Z.to_nat n)) by lia.
  rewrite seq_S, map_app, flat_map_app. cbn [map flat_map]. rewrite app_nil_r, Nat.add_0_l, Z2Nat.id by lia. done.
Qed.

Hypotheses (Hkeys : keys_in (fun x => x) (MAX_KEY P) keys) (Hti : zlen ti = TEST_ARRAY_SIZE)
  (Htr : zlen tr = TEST_ARRAY_SIZE) (Hin : forall i, 0 <= i < TEST_ARRAY_SIZE -> 0 <= zth 0 ti i < N)
  (Hrange : forall i, 0 <= i < TEST_ARRAY_SIZE -> - 2 ^ (w - 1) <= expected P iteration i (zth 0 tr i) < 2 ^ (w - 1)).

Lemma partial_verify_ok vals ranks passed out :
  table TEST_ARRAY_SIZE (fun i => zth 0 keys (zth 0 ti i)) vals ->
  table (MAX_KEY P) (fun v => ct (fun x => x <? v + 1) keys) ranks ->
  0 <= passed < 2 ^ 31 - TEST_ARRAY_SIZE ->
  partial_verify P iteration vals ranks tr (passed, out) =
  Ok (passed + passes TEST_ARRAY_SIZE, out ++ failures TEST_ARRAY_SIZE).
Proof.
  intros Hv Hr Hp. unfold partial_verify. fold w N. unfold TEST_ARRAY_SIZE in *.
  destruct (for_range_inv (fun i s => s = (passed + passes i, out ++ failures i))
    (fun i '(passed, out) =>
       k ← vals.[i];
       if (0 <? k) && (k <=? N - 1) then
         key_rank ← ranks.[k - 1];
         test_rank ← tr.[i];
         e ← chk w (expected P iteration i test_rank);
         if negb (key_rank =? e) then Ok (passed, out ++ [FailedPartialVerification iteration i])
         else passed ← chk 32 (passed + 1); Ok (passed, out)
       else Ok (passed, out)) 0 5 (passed, out)) as (s & -> & ->); [lia | | | done].
  - unfold passes, failures. rewrite msum_empty by lia. cbn. rewrite app_nil_r. f_equal. lia.
  - intros i s Hi ->. rewrite (table_get _ _ _ _ Hv) by done. cbn [mbind res_bind].
    rewrite failures_succ, passes_succ by lia.
    unfold test_passes. unfold tested. set (k := zth 0 keys (zth 0 ti i)).
    assert (Hk : k < MAX_KEY P) by (apply (keys_in_at _ _ _ _ Hkeys), Hin; lia).
    destruct (Z.ltb_spec 0 k); cbn [andb]; [|rewrite app_nil_r, Z.add_0_r; eauto].
    destruct (Z.leb_spec k (N - 1)); cbn [andb]; [|rewrite app_nil_r, Z.add_0_r; eauto].
    rewrite (table_get _ _ _ _ Hr), (aget_ok 0) by lia. cbn [mbind res_bind].
    rewrite (chk_ok w) by (apply Hrange; lia). cbn [mbind res_bind]. rewrite Z.sub_add.
    destruct (_ =? _); cbn [negb].
    + pose proof (passes_range i ltac:(lia)). rewrite chk_ok by lia. cbn [mbind res_bind].
      eexists. split; [done|]. rewrite app_nil_r. f_equal. lia.
    + eexists. split; [done|]. rewrite <- app_assoc, Z.add_0_r. done.
Qed.
End PartialVerify.

(** ** [rank] *)

(** The keys that an iteration sets. *)
Definition marked (iteration : Z) keys : list Z :=
  <[Z.to_nat (iteration + MAX_ITERATIONS) := MAX_KEY P - iteration]> (<[Z.to_nat iteration := iteration]> keys).

Record state_ok (st : state) : Prop := {
  ok_keys : keys_in (fun x => x) (MAX_KEY P) (key_array st);
  ok_buff1 : zlen (key_buff1 st) = MAX_KEY P;
  ok_buff2 : zlen (key_buff2 st) = N;
  ok_vals : zlen (partial_verify_vals st) = TEST_ARRAY_SIZE;
  ok_bsize : zlen (bucket_size st) = NUM_BUCKETS P;
  ok_bptrs : zlen (bucket_ptrs st) = NUM_BUCKETS P
}.

(** The test arrays of a class. *)
Record tests_ok (ti tr : list Z) : Prop := {
  tests_index : zlen ti = TEST_ARRAY_SIZE;
  tests_rank : zlen tr = TEST_ARRAY_SIZE;
  tests_index_range : Forall (fun i => 0 <= i < N) ti;
  tests_rank_range : Forall (fun r => 0 <= r < 2 ^ (w - 1) - 20) tr
}.

Lemma forall_zth (Q : Z -> Prop) l i : Forall Q l -> 0 <= i < zlen l -> Q (zth 0 l i).
Proof. intros H Hi. rewrite list.Forall_forall in H. by apply H, zth_In. Qed.

Lemma expected_range iteration i r : 0 <= iteration <= MAX_ITERATIONS -> 0 <= r < 2 ^ (w - 1) - 20 ->
  - 2 ^ (w - 1) <= expected P iteration i r < 2 ^ (w - 1).
Proof.
  intros Hit Hr. pose proof w_large. assert (2 ^ (32 - 1) <= 2 ^ (w - 1)) by (apply Z.pow_le_mono_r; lia).
  unfold expected, MAX_ITERATIONS in *. destruct (class P); case_match; lia.
Qed.

Lemma marked_keys iteration keys : keys_in (fun x => x) (MAX_KEY P) keys -> 0 <= iteration <= MAX_ITERATIONS ->
  1 <= iteration -> keys_in (fun x => x) (MAX_KEY P) (marked iteration keys).
Proof.
  intros [Hl Hk] Hit H1. unfold marked, MAX_ITERATIONS in *. pose proof max_key_range.
  split; [by rewrite !zlen_insert|]. intros x Hx.
  apply (In_zth 0) in Hx as (i & Hi & <-). rewrite !zlen_insert in Hi.
  rewrite !zth_insert by (rewrite ?zlen_insert; pose proof N_range; lia).
  destruct (i =? iteration + 10); [lia|]. destruct (i =? iteration); [lia|]. apply Hk, zth_In. lia.
Qed.

Lemma bucket_shift : 0 <= shift P /\ MAX_KEY P = NUM_BUCKETS P * 2 ^ shift P /\ 0 < NUM_BUCKETS P.
Proof.
  destruct OK as [H1 _ H2 _]. unfold shift, MAX_KEY, NUM_BUCKETS. split; [lia|]. split.
  - rewrite <- Z.pow_add_r by lia. f_equal. lia.
  - apply Z.pow_pos_nonneg; lia.
Qed.

Lemma in_bucket_range l : keys_in (fun x => x) (MAX_KEY P) l ->
  keys_in (fun key => Z.shiftr key (shift P)) (NUM_BUCKETS P) l.
Proof.
  intros [Hl Hk]. destruct bucket_shift as (Hs & E & Hb). split; [done|]. intros x Hx. specialize (Hk x Hx).
  rewrite Z.shiftr_div_pow2 by done. assert (0 < 2 ^ shift P) by (apply Z.pow_pos_nonneg; lia).
  split; [apply Z.div_pos | apply Z.div_lt_upper_bound]; lia.
Qed.

Lemma cumulative_range f m l b : keys_in f m l -> 0 <= b ->
  msum 0 b (fun v => ct (fun x => f x =? v) l) = ct (fun x => f x <? b) l /\
  0 <= msum 0 b (fun v => ct (fun x => f x =? v) l) <= N.
Proof.
  intros [Hl Hk] Hb. rewrite ct_cumulative by (done || intros; by apply Hk).
  pose proof (ct_bounds (fun x => f x <? b) l). split; [done | lia].
Qed.

(** The keys grouped by buckets. *)
Lemma group_ok keys bsize bptrs buff2 : keys_in (fun x => x) (MAX_KEY P) keys ->
  zlen bsize = NUM_BUCKETS P -> zlen bptrs = NUM_BUCKETS P -> zlen buff2 = N ->
  exists bsize' bptrs' buff2',
  (bsize ← clear (NUM_BUCKETS P) bsize;
   bsize ← count_keys P (fun key => Z.shiftr key (shift P)) keys bsize;
   bptrs ← accumulate_buckets P bsize bptrs;
   '(bptrs, buff2) ← sort_into_buckets P keys bptrs buff2;
   Ok (bsize, bptrs, buff2)) = Ok (bsize', bptrs', buff2') /\
  zlen bsize' = NUM_BUCKETS P /\ zlen bptrs' = NUM_BUCKETS P /\ zlen buff2' = N /\ Permutation buff2' keys.
Proof.
  intros Hk Hs Hp H2. destruct bucket_shift as (Hsh & E & Hb). pose proof (in_bucket_range keys Hk) as Hkb.
  rewrite clear_ok by lia. cbn [mbind res_bind].
  destruct (count_keys_ok _ _ keys _ Hkb (table_zero (NUM_BUCKETS P) ltac:(lia))) as (bsize' & -> & Hs').
  cbn [mbind res_bind].
  destruct (accumulate_buckets_ok _ bsize' bptrs Hs' Hp) as (ptrs & -> & Hptrs); [|done|].
  { intros b Hb0. by apply (cumulative_range _ _ _ _ Hkb). }
  cbn [mbind res_bind].
  destruct (sort_into_buckets_ok keys ptrs buff2 (NUM_BUCKETS P)) as (ptrs' & out & -> & Hp' & Ho & Hperm);
    [lia | done | | done |].
  { revert Hptrs. apply table_ext. intros v Hv. apply (cumulative_range _ _ _ _ Hkb). lia. }
  cbn [mbind res_bind]. exists bsize', ptrs', out. split; [done|]. split; [apply Hs'|]. by split.
Qed.

(** The ranks. *)
Lemma ranks_ok l buff1 : keys_in (fun x => x) (MAX_KEY P) l -> zlen buff1 = MAX_KEY P ->
  exists buff1', (buff1 ← clear (MAX_KEY P) buff1; buff1 ← count_keys P (fun key => key) l buff1;
    accumulate_ranks P buff1) = Ok buff1' /\ table (MAX_KEY P) (fun v => ct (fun x => x <? v + 1) l) buff1'.
Proof.
  intros Hk H1. pose proof max_key_range. rewrite clear_ok by lia. cbn [mbind res_bind].
  destruct (count_keys_ok _ _ l _ Hk (table_zero (MAX_KEY P) ltac:(lia))) as (b & -> & Hb). cbn [mbind res_bind].
  destruct (accumulate_ranks_ok _ b Hb) as (b' & -> & Hb').
  { intros v Hv. by apply (cumulative_range _ _ _ _ Hk). }
  exists b'. split; [done|]. revert Hb'. apply table_ext. intros v Hv. apply (cumulative_range _ _ _ _ Hk). lia.
Qed.

Lemma keys_in_perm f m l l' : Permutation l l' -> keys_in f m l' -> keys_in f m l.
Proof.
  intros Hp [Hl Hk]. split; [by rewrite (Permutation_length Hp)|]. intros x Hx. apply Hk.
  apply list_elem_of_In. apply list_elem_of_In in Hx. by apply (Permutation_in x Hp).
Qed.

(** What [rank] leaves behind. *)
Record ranked (iteration : Z) (st st' : state) : Prop := {
  rk_ok : state_ok st';
  rk_keys : key_array st' = marked iteration (key_array st);
  rk_ranks : table (MAX_KEY P) (fun v => ct (fun x => x <? v + 1) (key_array st')) (key_buff1 st');
  rk_buckets : USE_BUCKETS P = true -> Permutation (key_buff2 st') (key_array st');
  rk_tests : test_index_array st' = test_index_array st /\ test_rank_array st' = test_rank_array st;
  rk_ptr : key_buff_ptr_global st' = if iteration =? MAX_ITERATIONS then ToKeyBuff1 else key_buff_ptr_global st;
  rk_passed : passed_verification st' = passed_verification st +
    passes iteration (key_array st') (test_index_array st) (test_rank_array st) TEST_ARRAY_SIZE;
  rk_output : output st' = output st ++
    failures iteration (key_array st') (test_index_array st) (test_rank_array st) TEST_ARRAY_SIZE
}.

Lemma test_values_ok ti keys vals : zlen ti = TEST_ARRAY_SIZE -> Forall (fun i => 0 <= i < N) ti ->
  zlen keys = N -> zlen vals = TEST_ARRAY_SIZE ->
  exists vals', for_range 0 TEST_ARRAY_SIZE (fun i vals => t ← ti.[i]; v ← keys.[t]; vals.[i <- v]) vals = Ok vals' /\
    table TEST_ARRAY_SIZE (fun i => zth 0 keys (zth 0 ti i)) vals'.
Proof.
  intros Hti Hin Hk Hv. unfold TEST_ARRAY_SIZE in *.
  destruct (for_range_inv (fun i vals => zlen vals = 5 /\ forall j, 0 <= j < i -> zth 0 vals j = zth 0 keys (zth 0 ti j))
    (fun i vals => t ← ti.[i]; v ← keys.[t]; vals.[i <- v]) 0 5 vals) as (vals' & -> & I);
    [lia | split; [done | lia] | | eauto].
  intros i vals1 Hi [Hl Hz]. rewrite (aget_ok 0 ti) by lia. cbn [mbind res_bind].
  assert (0 <= zth 0 ti i < N) by (apply (forall_zth _ ti i Hin); lia). rewrite (aget_ok 0 keys) by lia. cbn [mbind res_bind].
  rewrite aset_ok by lia. eexists. split; [done|]. rewrite zlen_insert. split; [done|].
  intros j Hj. rewrite zth_insert by lia. destruct (Z.eqb_spec j i) as [->|]; [done|]. apply Hz. lia.
Qed.

Lemma rank_ok iteration st : state_ok st -> tests_ok (test_index_array st) (test_rank_array st) ->
  1 <= iteration <= MAX_ITERATIONS -> 0 <= passed_verification st < 2 ^ 31 - TEST_ARRAY_SIZE ->
  exists st', rank P iteration st = Ok st' /\ ranked iteration st st'.
Proof.
  intros [Hk H1 H2 Hv Hbs Hbp] [Hti Htr Hin Hrr] Hit Hp. pose proof N_range.
  assert (Hm : keys_in (fun x => x) (MAX_KEY P) (marked iteration (key_array st))) by (apply marked_keys; auto; lia).
  pose proof (proj1 Hk) as HlK. unfold rank. change MAX_ITERATIONS with 10 in Hit.
  rewrite aset_ok by lia. cbn [mbind res_bind].
  rewrite aset_ok by (rewrite zlen_insert; change MAX_ITERATIONS with 10; lia). cbn [mbind res_bind].
  fold (marked iteration (key_array st)). set (keys := marked iteration (key_array st)) in *.
  destruct (test_values_ok (test_index_array st) keys (partial_verify_vals st)) as (vals & -> & Hvals);
    [done | done | apply Hm | done |]. cbn [mbind res_bind].
  assert (G : exists bsize bptrs buff2, (if USE_BUCKETS P then
       bsize ← clear (NUM_BUCKETS P) (bucket_size st);
       bsize ← count_keys P (fun key => Z.shiftr key (shift P)) keys bsize;
       bptrs ← accumulate_buckets P bsize (bucket_ptrs st);
       '(bptrs, buff2) ← sort_into_buckets P keys bptrs (key_buff2 st);
       Ok (bsize, bptrs, buff2)
     else Ok (bucket_size st, bucket_ptrs st, key_buff2 st)) = Ok (bsize, bptrs, buff2) /\
     zlen bsize = NUM_BUCKETS P /\ zlen bptrs = NUM_BUCKETS P /\ zlen buff2 = N /\
     (USE_BUCKETS P = true -> Permutation buff2 keys)).
  { destruct (USE_BUCKETS P); [|eexists _, _, _; by repeat split].
    destruct (group_ok keys (bucket_size st) (bucket_ptrs st) (key_buff2 st)) as (? & ? & ? & ? & ? & ? & ? & ?);
      [done..|]. eauto 10. }
  destruct G as (bsize & bptrs & buff2 & -> & Hbs' & Hbp' & H2' & Hperm). cbn [mbind res_bind].
  set (src := if USE_BUCKETS P then buff2 else keys).
  assert (Hsrc : Permutation src keys) by (unfold src; destruct (USE_BUCKETS P); auto).
  destruct (ranks_ok src (key_buff1 st)) as (buff1 & E1 & Hr); [by apply (keys_in_perm _ _ _ keys) | done |].
  apply bind_Ok_inv in E1 as (c1 & -> & E1). apply bind_Ok_inv in E1 as (c2 & Ec2 & E1). cbn [mbind res_bind].
  rewrite Ec2. cbn [mbind res_bind]. rewrite E1. cbn [mbind res_bind].
  assert (Hr' : table (MAX_KEY P) (fun v => ct (fun x => x <? v + 1) keys) buff1).
  { revert Hr. apply table_ext. intros. by apply ct_perm. }
  rewrite (partial_verify_ok iteration keys (test_index_array st) (test_rank_array st)); try done.
  - cbn [mbind res_bind]. eexists. split; [done|]. split; try done. split; try done; [apply Hr' | apply Hvals].
  - intros i Hi. apply (forall_zth _ _ i Hin). lia.
  - intros i Hi. apply expected_range; [unfold MAX_ITERATIONS; lia|]. apply (forall_zth _ _ i Hrr). lia.
Qed.

(** ** [full_verify] *)

Section FullVerify.
Context (src : list Z).
Hypothesis Hk : keys_in (fun x => x) (MAX_KEY P) src.

(** Where the copies of a value start, in order, and how far they are placed,
    from the end, after [i] keys. *)
Definition first (v : Z) : Z := start (fun x => x) src v.
Definition placed (i v : Z) : Z := first (v + 1) - ct_to (fun x => x =? v) src i.

Lemma first_succ v : first (v + 1) = first v + ct (fun x => x =? v) src.
Proof. apply (bucket_start_succ (fun x => x) src). Qed.

Lemma first_mono u v : u <= v -> first u <= first v.
Proof. by apply (bucket_start_mono (fun x => x) src). Qed.

Lemma placed_bounds i v : first v <= placed i v <= first (v + 1).
Proof. unfold placed. rewrite first_succ. pose proof (ct_to_bounds (fun x => x =? v) src i). lia. Qed.

Lemma first_range v : 0 <= v <= MAX_KEY P -> 0 <= first v <= N.
Proof.
  intros Hv. pose proof (first_mono 0 v ltac:(lia)). pose proof (first_mono v (MAX_KEY P) ltac:(lia)).
  unfold first in *. rewrite (start_0 _ _ _ Hk) in *. rewrite (start_m _ _ _ Hk) in *. lia.
Qed.

(** Values do not share places. *)
Lemma first_disjoint u v p : first u <= p < first (u + 1) -> first v <= p < first (v + 1) -> u = v.
Proof.
  intros Hu Hv. destruct (Z.lt_trichotomy u v) as [|[|]]; [|done|].
  - pose proof (first_mono (u + 1) v ltac:(lia)). lia.
  - pose proof (first_mono (v + 1) u ltac:(lia)). lia.
Qed.

Lemma first_cover p : 0 <= p < N -> exists v, 0 <= v < MAX_KEY P /\ first v <= p < first (v + 1).
Proof.
  intros Hp. assert (G : forall n, 0 <= n -> n <= MAX_KEY P -> p < first n ->
    exists v, 0 <= v < n /\ first v <= p < first (v + 1)).
  { intros n Hn. pattern n. apply Zlt_0_ind; [|done]. clear n Hn. intros n IH Hn Hle Hlt.
    destruct (Z.eq_dec n 0) as [->|].
    { unfold first in Hlt. rewrite (start_0 _ _ _ Hk) in Hlt. lia. }
    destruct (Z.lt_ge_cases p (first (n - 1))).
    - destruct (IH (n - 1)) as (v & Hv & Hv'); [lia..|]. exists v. split; [lia | done].
    - exists (n - 1). rewrite Z.sub_add. split; [lia | done]. }
  pose proof max_key_range. apply G; [lia | lia |]. unfold first. rewrite (start_m _ _ _ Hk). lia.
Qed.

(** Every value is where it belongs in order. *)
Definition in_order l : Prop :=
  zlen l = N /\ forall v p, 0 <= v < MAX_KEY P -> first v <= p < first (v + 1) -> zth 0 l p = v.

Lemma place_keys_ok keys buff1 : zlen keys = N ->
  table (MAX_KEY P) (fun v => ct (fun x => x <? v + 1) src) buff1 ->
  exists keys' buff1', for_range 0 N
    (fun i '(keys, buff1) =>
       key ← src.[i]; p ← buff1.[key]; p ← chk w (p - 1); buff1 ← buff1.[key <- p];
       keys ← keys.[p <- key]; Ok (keys, buff1)) (keys, buff1) = Ok (keys', buff1') /\
    in_order keys' /\ zlen buff1' = MAX_KEY P.
Proof.
  intros Hl Hb. pose proof N_range. pose proof (proj1 Hk) as Hsrc.
  destruct (for_range_inv (fun i '(keys, buff1) => zlen keys = N /\ table (MAX_KEY P) (placed i) buff1 /\
      forall v p, 0 <= v < MAX_KEY P -> placed i v <= p < first (v + 1) -> zth 0 keys p = v)
    (fun i '(keys, buff1) =>
       key ← src.[i]; p ← buff1.[key]; p ← chk w (p - 1); buff1 ← buff1.[key <- p];
       keys ← keys.[p <- key]; Ok (keys, buff1)) 0 N (keys, buff1)) as ([keys' buff1'] & -> & Hl' & Hb' & Hz);
    [lia | | |].
  - split; [done|]. split; [|intros v p Hv; unfold placed; rewrite ct_to_0; lia].
    revert Hb. apply table_ext. intros v Hv. unfold placed. rewrite ct_to_0. unfold first, start. lia.
  - intros i [keys1 b1] Hi (Hl1 & Hb1 & Hz1). pose proof (keys_in_at _ _ _ i Hk Hi) as Hkey.
    rewrite (aget_ok 0) by lia. cbn [mbind res_bind]. set (key := zth 0 src i) in *.
    rewrite (table_get _ _ _ _ Hb1) by done. cbn [mbind res_bind].
    assert (Hlt : first key <= placed i key - 1 < first (key + 1)).
    { unfold placed. rewrite first_succ. pose proof (ct_to_bounds (fun x => x =? key) src i).
      pose proof (ct_to_lt (fun x => x =? key) src i ltac:(lia) (Z.eqb_refl _)). lia. }
    pose proof (first_range key ltac:(lia)). pose proof (first_range (key + 1) ltac:(lia)).
    rewrite count_fits by lia. cbn [mbind res_bind].
    assert (Hsucc : forall u, placed (i + 1) u = if u =? key then placed i key - 1 else placed i u).
    { intros u. unfold placed. rewrite ct_to_succ by lia. fold key. rewrite (Z.eqb_sym key).
      destruct (Z.eqb_spec u key) as [->|]; lia. }
    destruct (table_set _ _ b1 key (placed i key - 1) (placed (i + 1)) Hb1 Hkey) as (b2 & -> & Hb2); [auto|].
    cbn [mbind res_bind]. rewrite aset_ok by lia. cbn [mbind res_bind]. eexists (_, _). split; [done|].
    split; [by rewrite zlen_insert|]. split; [done|]. intros v p Hv Hp. pose proof (placed_bounds (i + 1) v).
    pose proof (first_range v ltac:(lia)). rewrite zth_insert by lia.
    destruct (Z.eqb_spec p (placed i key - 1)) as [->|Hne]; [by apply (first_disjoint _ _ (placed i key - 1)); [|lia]|].
    apply Hz1; [done|]. rewrite Hsucc in Hp. destruct (Z.eqb_spec v key) as [->|]; lia.
  - exists keys', buff1'. split; [done|]. split; [|apply Hb']. split; [done|]. intros v p Hv Hp. apply Hz; [done|].
    unfold placed. rewrite ct_to_all, first_succ by lia. rewrite first_succ in Hp. lia.
Qed.

Lemma in_order_le l p : in_order l -> 1 <= p < N -> zth 0 l (p - 1) <= zth 0 l p.
Proof.
  intros [Hl Ho] Hp. destruct (first_cover p) as (v & Hv & Hpv); [lia|].
  destruct (first_cover (p - 1)) as (u & Hu & Hpu); [lia|]. rewrite (Ho v p), (Ho u (p - 1)) by done.
  destruct (Z.le_gt_cases u v); [done|]. pose proof (first_mono (v + 1) u ltac:(lia)). lia.
Qed.

Lemma msum_delta m c v : msum 0 m (fun b => if b =? v then c else 0) = if (0 <=? v) && (v <? m) then c else 0.
Proof.
  destruct (Z.leb_spec 0 v), (Z.ltb_spec v m); cbn [andb].
  - rewrite (msum_split 0 m v) by lia. rewrite Z.eqb_refl.
    rewrite !(msum_unit _ _ (fun b => if b =? v then c else 0)); [simpl; lia | |];
      intros i Hi; destruct (Z.eqb_spec i v); done || lia.
  - etransitivity; [apply msum_unit | done]. intros i Hi. destruct (Z.eqb_spec i v); done || lia.
  - etransitivity; [apply msum_unit | done]. intros i Hi. destruct (Z.eqb_spec i v); done || lia.
  - etransitivity; [apply msum_unit | done]. intros i Hi. destruct (Z.eqb_spec i v); done || lia.
Qed.

Lemma in_order_perm l : in_order l -> Permutation l src.
Proof.
  intros [Hl Ho]. apply perm_of_ct. intros v. pose proof max_key_range.
  rewrite <- (buckets_full (fun x => x) (MAX_KEY P) src ltac:(lia) Hk l v Hl). unfold in_buckets.
  transitivity (msum 0 (MAX_KEY P) (fun b => if b =? v then ct (fun x => x =? v) src else 0)).
  - apply msum_ext. intros b Hb. fold (first b).
    replace (filled (fun x => x) src N b) with (first (b + 1)).
    2: { unfold filled. rewrite ct_to_all by (destruct Hk; lia). apply first_succ. }
    pose proof (first_mono b (b + 1) ltac:(lia)).
    rewrite (msum_ext _ _ _ (fun _ => (if b =? v then 1 else 0) * 1)).
    + rewrite msum_Z_scale, msum_Z_ones, first_succ by done.
      destruct (Z.eqb_spec b v) as [->|]; lia.
    + intros p Hp. unfold is_at. rewrite (Ho b p) by done. lia.
  - rewrite msum_delta. destruct (Z.leb_spec 0 v), (Z.ltb_spec v (MAX_KEY P)); cbn [andb]; try done; symmetry;
      rewrite <- (ct_to_all _ _ N) by (destruct Hk; lia); unfold ct_to.
    all: rewrite (ct_ext _ (fun _ => false)); [by induction (take _ src)|];
      intros x Hx; apply Z.eqb_neq; intros ->; destruct Hk as [_ Hr];
      apply elem_of_take in Hx as (j & Hx & _); apply list_elem_of_lookup_2 in Hx;
      specialize (Hr v Hx); simpl in Hr; lia.
Qed.

(** Nothing is out of order. *)
Lemma count_disorder_ok l : in_order l ->
  for_range 1 N (fun i j => x ← l.[i - 1]; y ← l.[i]; if y <? x then chk w (j + 1) else Ok j) 0 = Ok 0.
Proof.
  intros Ho. pose proof N_range. pose proof (proj1 Ho) as Hl.
  destruct (for_range_inv (fun _ j => j = 0)
    (fun i j => x ← l.[i - 1]; y ← l.[i]; if y <? x then chk w (j + 1) else Ok j) 1 N 0) as (j & -> & ->);
    [lia | done | | done].
  intros i j Hi ->. rewrite (aget_ok 0) by lia. cbn [mbind res_bind]. rewrite (aget_ok 0) by lia. cbn [mbind res_bind].
  pose proof (in_order_le l i Ho ltac:(lia)). destruct (Z.ltb_spec (zth 0 l i) (zth 0 l (i - 1))); [lia|]. eauto.
Qed.

Lemma in_order_sorted l : in_order l -> StronglySorted Z.le l.
Proof.
  intros Ho. apply Sorted_StronglySorted; [intros x y z; lia|].
  assert (G : forall n, (n <= length l)%nat -> Sorted Z.le (drop (length l - n) l)).
  { induction n as [|n IH]; intros Hn.
    - rewrite Nat.sub_0_r, drop_all. constructor.
    - set (i := (length l - Datatypes.S n)%nat). destruct (lookup_lt_is_Some_2 l i) as [x Hx]; [unfold i; lia|].
      rewrite (drop_S l x i Hx). replace (Datatypes.S i) with (length l - n)%nat by (unfold i; lia).
      constructor; [apply IH; lia|]. destruct n as [|n]; [rewrite Nat.sub_0_r, drop_all; constructor|].
      destruct (lookup_lt_is_Some_2 l (length l - Datatypes.S n)) as [y Hy]; [lia|].
      rewrite (drop_S l y _ Hy). constructor.
      pose proof (in_order_le l (Z.of_nat (length l - Datatypes.S n)) Ho) as Hle. destruct Ho as [Hl _].
      unfold zth in Hle. rewrite Nat2Z.id, (nth_lookup_Some _ _ _ _ Hy) in Hle.
      replace (Z.to_nat _) with i in Hle by (unfold i; lia). rewrite (nth_lookup_Some _ _ _ _ Hx) in Hle.
      apply Hle. lia. }
  specialize (G (length l) ltac:(lia)). by rewrite Nat.sub_diag in G.
Qed.
End FullVerify.

Lemma full_verify_ok st : state_ok st ->
  table (MAX_KEY P) (fun v => ct (fun x => x <? v + 1) (key_array st)) (key_buff1 st) ->
  (USE_BUCKETS P = true -> Permutation (key_buff2 st) (key_array st)) ->
  key_buff_ptr_global st = ToKeyBuff1 -> 0 <= passed_verification st < 2 ^ 31 - 1 ->
  exists st', full_verify P st = Ok st' /\ Permutation (key_array st') (key_array st) /\
    StronglySorted Z.le (key_array st') /\ passed_verification st' = passed_verification st + 1 /\
    output st' = output st.
Proof.
  intros [Hk H1 H2 _ _ _] Hr Hb Hptr Hp. pose proof N_range. pose proof (proj1 Hk) as Hl.
  assert (G : exists src, (if USE_BUCKETS P then Ok (key_buff2 st)
     else for_range 0 N (fun i buff2 => x ← (key_array st).[i]; buff2.[i <- x]) (key_buff2 st)) = Ok src /\
     Permutation src (key_array st)).
  { destruct (USE_BUCKETS P); [by eauto|].
    destruct (for_range_inv (fun i b => zlen b = N /\ forall j, 0 <= j < i -> zth 0 b j = zth 0 (key_array st) j)
      (fun i buff2 => x ← (key_array st).[i]; buff2.[i <- x]) 0 N (key_buff2 st)) as (src & -> & Hls & Hz);
      [lia | split; [done | lia] | |].
    - intros i b Hi [Hlb Hz]. rewrite (aget_ok 0) by lia. cbn [mbind res_bind]. rewrite aset_ok by lia.
      eexists. split; [done|]. rewrite zlen_insert. split; [done|]. intros j Hj. rewrite zth_insert by lia.
      destruct (Z.eqb_spec j i) as [->|]; [done|]. apply Hz. lia.
    - exists src. split; [done|]. replace src with (key_array st); [done|]. symmetry. apply (zth_ext 0); [lia|].
      intros i Hi. apply Hz. lia. }
  destruct G as (src & Esrc & Hperm). unfold full_verify. fold N. rewrite Esrc. cbn [mbind res_bind]. rewrite Hptr.
  pose proof (keys_in_perm _ _ _ _ Hperm Hk) as Hks.
  destruct (place_keys_ok src Hks (key_array st) (key_buff1 st)) as (keys' & buff1' & E & Ho & Hb1); [done| |].
  { revert Hr. apply table_ext. intros. by apply ct_perm. }
  fold w. rewrite E. cbn [mbind res_bind]. rewrite (count_disorder_ok src Hks keys' Ho). cbn [mbind res_bind Z.eqb negb].
  rewrite chk_ok by lia. cbn [mbind res_bind]. eexists. split; [done|]. cbn [key_array passed_verification output].
  split; [etransitivity; [by apply (in_order_perm src Hks)|done]|].
  split; [by apply (in_order_sorted src Hks)|]. done.
Qed.

(** ** The benchmark *)

(** The keys in the course of the iterations. *)
Fixpoint after (n : nat) keys : list Z :=
  match n with
  | O => keys
  | Datatypes.S n => marked (Z.of_nat n + 1) (after n keys)
  end.

(** Successful tests of the iterations before [k]. *)
Definition total_passes (ti tr keys : list Z) (k : Z) : Z :=
  msum 1 k (fun it => passes it (after (Z.to_nat it) keys) ti tr TEST_ARRAY_SIZE).

Lemma total_passes_range ti tr keys k : 1 <= k -> 0 <= total_passes ti tr keys k <= 5 * (k - 1).
Proof.
  intros Hk. unfold total_passes. split.
  - apply msum_Z_nonneg. intros. by apply passes_range.
  - etransitivity; [apply (msum_Z_le _ _ _ (fun _ => 5 * 1))|rewrite msum_Z_scale, msum_Z_ones; lia].
    intros i Hi. apply passes_range. done.
Qed.

(** All tests succeed just when all are counted. *)
Lemma total_passes_all ti tr keys :
  total_passes ti tr keys (MAX_ITERATIONS + 1) = 5 * MAX_ITERATIONS <->
  forall it i, 1 <= it <= MAX_ITERATIONS -> 0 <= i < TEST_ARRAY_SIZE ->
    test_passes it (after (Z.to_nat it) keys) ti tr i = true.
Proof.
  unfold total_passes. change (5 * MAX_ITERATIONS) with (msum 1 (MAX_ITERATIONS + 1) (fun _ => TEST_ARRAY_SIZE)).
  assert (Hone : forall it keys, passes it keys ti tr TEST_ARRAY_SIZE <= msum 0 TEST_ARRAY_SIZE (fun _ => 1)).
  { intros. rewrite msum_Z_ones by done. apply passes_range. done. }
  split.
  - intros E it i Hit Hi. destruct (test_passes it (after (Z.to_nat it) keys) ti tr i) eqn:Et; [done|]. exfalso.
    enough (msum 1 (MAX_ITERATIONS + 1) (fun it => passes it (after (Z.to_nat it) keys) ti tr TEST_ARRAY_SIZE) <
      msum 1 (MAX_ITERATIONS + 1) (fun _ => TEST_ARRAY_SIZE)) by lia.
    apply (msum_Z_lt _ _ it); [lia | intros; apply Hone|].
    change TEST_ARRAY_SIZE with (msum 0 TEST_ARRAY_SIZE (fun _ => 1)) at 2.
    apply (msum_Z_lt _ _ i); [done | intros j Hj; by destruct (test_passes it (after (Z.to_nat it) keys) ti tr j) | by rewrite Et].
  - intros H. apply msum_ext. intros it Hit. unfold passes.
    rewrite (msum_ext _ _ _ (fun _ => 1)); [done|]. intros i Hi. by rewrite H by lia.
Qed.

Lemma iterations_ok st keys : state_ok st -> tests_ok (test_index_array st) (test_rank_array st) ->
  passed_verification st = 0 -> key_array st = keys ->
  exists st', iterations P st = Ok st' /\ state_ok st' /\
    key_array st' = after (Z.to_nat MAX_ITERATIONS) keys /\
    table (MAX_KEY P) (fun v => ct (fun x => x <? v + 1) (key_array st')) (key_buff1 st') /\
    (USE_BUCKETS P = true -> Permutation (key_buff2 st') (key_array st')) /\
    key_buff_ptr_global st' = ToKeyBuff1 /\
    passed_verification st' = total_passes (test_index_array st) (test_rank_array st) keys (MAX_ITERATIONS + 1).
Proof.
  intros Hst Ht Hp Hkeys. unfold iterations.
  destruct (for_range_inv (fun k st1 => state_ok st1 /\ key_array st1 = after (Z.to_nat (k - 1)) keys /\
      (test_index_array st1 = test_index_array st /\ test_rank_array st1 = test_rank_array st) /\
      passed_verification st1 = total_passes (test_index_array st) (test_rank_array st) keys k /\
      (1 < k -> table (MAX_KEY P) (fun v => ct (fun x => x <? v + 1) (key_array st1)) (key_buff1 st1) /\
         (USE_BUCKETS P = true -> Permutation (key_buff2 st1) (key_array st1)) /\
         (k = MAX_ITERATIONS + 1 -> key_buff_ptr_global st1 = ToKeyBuff1)))
    (rank P) 1 (MAX_ITERATIONS + 1) st) as (st' & -> & H1 & H2 & H3 & H4 & H5); [done | | |].
  - split; [done|]. split; [done|]. split; [done|]. split; [|lia]. rewrite Hp. done.
  - intros k st1 Hk (I1 & I2 & [I3 I4] & I5 & _). unfold MAX_ITERATIONS in *.
    pose proof (total_passes_range (test_index_array st) (test_rank_array st) keys k ltac:(lia)).
    destruct (rank_ok k st1) as (st2 & -> & [R1 R2 R3 R4 [R5 R6] R7 R8 _]);
      [done | by rewrite I3, I4 | unfold MAX_ITERATIONS; lia | unfold TEST_ARRAY_SIZE; lia |].
    eexists. split; [done|]. split; [done|].
    assert (E : key_array st2 = after (Z.to_nat (k + 1 - 1)) keys).
    { rewrite R2, I2. replace (Z.to_nat (k + 1 - 1)) with (Datatypes.S (Z.to_nat (k - 1))) by lia. cbn [after].
      f_equal. lia. }
    split; [done|]. split; [split; congruence|]. split; [|intros _; split; [done|split; [done|]]].
    + rewrite R8, I5, I3, I4. unfold total_passes at 2. rewrite msum_right by lia. simpl madd. f_equal. f_equal.
      rewrite E. do 2 f_equal. lia.
    + intros Ek. rewrite R7. unfold MAX_ITERATIONS. by destruct (Z.eqb_spec k 10); [|lia].
  - exists st'. split; [done|]. destruct (H5 ltac:(done)) as (? & ? & ?). split; [done|]. split; [exact H2|]. auto.
Qed.

Lemma init_tests_ok index ranks st : zlen index = TEST_ARRAY_SIZE -> zlen ranks = TEST_ARRAY_SIZE ->
  zlen (test_index_array st) = TEST_ARRAY_SIZE -> zlen (test_rank_array st) = TEST_ARRAY_SIZE ->
  init_tests index ranks st = Ok (State (key_array st) (key_buff1 st) (key_buff2 st) (partial_verify_vals st)
    (bucket_size st) (bucket_ptrs st) index ranks (key_buff_ptr_global st) (passed_verification st) (output st)).
Proof.
  unfold init_tests, TEST_ARRAY_SIZE. generalize (test_index_array st), (test_rank_array st).
  intros ti tr Hi Hr Hti Htr.
  destruct index as [|? [|? [|? [|? [|? [|]]]]]]; cbn [length] in Hi; try lia.
  destruct ranks as [|? [|? [|? [|? [|? [|]]]]]]; cbn [length] in Hr; try lia.
  destruct ti as [|? [|? [|? [|? [|? [|]]]]]]; cbn [length] in Hti; try lia.
  destruct tr as [|? [|? [|? [|? [|? [|]]]]]]; cbn [length] in Htr; try lia. reflexivity.
Qed.
End Rank.

(** The six classes, with and without buckets. *)
Lemma classes_ok b c : sizes_ok (sizes_of b c).
Proof. by destruct c; split; cbn. Qed.

Lemma class_tests_ok b c : tests_ok (sizes_of b c) (test_index_array_of c) (test_rank_array_of c).
Proof. by destruct c; split; cbn; repeat constructor. Qed.

(** One iteration of the ranking: every access is in bounds and no count
    overflows; afterwards [key_buff1] holds for every value the number of
    keys that are not above it, the buckets hold the keys, and the counter
    of the verification has grown by the number of test keys that have
    exactly the expected number of smaller keys. *)
Theorem rank_counts_keys P iteration st :
  sizes_ok P -> state_ok P st -> tests_ok P (test_index_array st) (test_rank_array st) ->
  1 <= iteration <= MAX_ITERATIONS -> 0 <= passed_verification st < 2 ^ 31 - TEST_ARRAY_SIZE ->
  exists st', rank P iteration st = Ok st' /\ ranked P iteration st st'.
Proof. intros OK. by apply rank_ok. Qed.

(** C18: the benchmark runs to its end for every class whose number of keys is
    an [int], with and without buckets: the keys at the end are those of
    [create_seq] with the changes of the iterations, in order, and the
    verification succeeds (51) exactly when all test keys had the expected
    ranks in all iterations; otherwise the counter is reset. *)
Theorem is_main_sorts P index ranks :
  sizes_ok P -> TOTAL_KEYS_LOG_2 P <= 30 -> tests_ok P index ranks ->
  exists keys0 st,
    create_seq P (double 314159265) (double 1220703125) (replicate (Z.to_nat (NUM_KEYS P)) 0) = Ok keys0 /\
    is_main P index ranks = Ok st /\
    let keys := marked P 1 keys0 in
    let all_pass := forall it i, 1 <= it <= MAX_ITERATIONS -> 0 <= i < TEST_ARRAY_SIZE ->
      test_passes P it (after P (Z.to_nat it) keys) index ranks i = true in
    Permutation (key_array st) (after P (Z.to_nat MAX_ITERATIONS) keys) /\
    StronglySorted Z.le (key_array st) /\
    (passed_verification st = 51 <-> all_pass) /\ (passed_verification st = 0 <-> ~ all_pass).
Proof.
  intros OK Hn Ht. pose proof (N_range P OK) as HN. pose proof (max_key_range P OK) as HM.
  pose proof (bucket_shift P OK) as (_ & _ & HB). pose proof OK as [Om Ot Ob Oc].
  destruct (create_seq_keys P 314159265 1220703125 (replicate (Z.to_nat (NUM_KEYS P)) 0)) as (keys0 & E0 & Hl0 & Hk0);
    [lia | unfold NUM_KEYS, TOTAL_KEYS; apply Z.pow_lt_mono_r; lia | lia | lia | rewrite length_replicate; lia |].
  assert (Hkeys0 : keys_in P (fun x => x) (MAX_KEY P) keys0).
  { split; [done|]. intros x (i & Hi & <-)%(In_zth 0). apply Hk0. lia. }
  exists keys0. unfold is_main. rewrite init_tests_ok by (destruct Ht; done). cbn [mbind res_bind key_array initial_state].
  rewrite E0. cbn [mbind res_bind]. destruct (rank_ok P OK 1 (set_key_array (State (replicate (Z.to_nat (NUM_KEYS P)) 0)
    (key_buff1 (initial_state P)) (key_buff2 (initial_state P)) (partial_verify_vals (initial_state P))
    (bucket_size (initial_state P)) (bucket_ptrs (initial_state P)) index ranks Null 0 []) keys0))
    as (st1 & E1 & [R1 R2 R3 R4 [R5 R6] R7 R8 _]); [| done | done | done |].
  { split; cbn; rewrite ?length_replicate; try lia; done. }
  change (rank P 1 _) with (rank P 1 (set_key_array (State (replicate (Z.to_nat (NUM_KEYS P)) 0)
    (key_buff1 (initial_state P)) (key_buff2 (initial_state P)) (partial_verify_vals (initial_state P))
    (bucket_size (initial_state P)) (bucket_ptrs (initial_state P)) index ranks Null 0 []) keys0)).
  rewrite E1. cbn [mbind res_bind]. cbn [key_array set_key_array test_index_array test_rank_array] in *.
  set (keys := marked P 1 keys0) in *.
  destruct (iterations_ok P OK (set_passed st1 0) keys) as (st2 & -> & J1 & J2 & J3 & J4 & J5 & J6);
    [by destruct R1; split | cbn; by rewrite R5, R6 | done | done |]. cbn [mbind res_bind].
  cbn [set_passed test_index_array test_rank_array] in J6. rewrite R5, R6 in J6.
  pose proof (total_passes_range P index ranks keys (MAX_ITERATIONS + 1) ltac:(done)) as Hrange.
  destruct (full_verify_ok P OK st2) as (st3 & -> & V1 & V2 & V3 & _); [done..| |].
  { rewrite J6. unfold MAX_ITERATIONS in *. lia. }
  cbn [mbind res_bind]. eexists. split; [done|]. split; [done|]. cbv zeta.
  pose proof (total_passes_all P index ranks keys) as Hall. rewrite <- J6 in *.
  unfold MAX_ITERATIONS in *. rewrite <- Hall, <- J2.
  destruct (Z.eqb_spec (passed_verification st3) (5 * 10 + 1)); cbn [negb];
    (split; [done|]; split; [done|]); cbn [set_passed passed_verification]; lia.
Qed.

(** ** Witnesses *)

Lemma is_main_sorts_witness : exists st, is_main (sizes_of true S) (test_index_array_of S) (test_rank_array_of S) = Ok st /\
  StronglySorted Z.le (key_array st).
Proof.
  destruct (is_main_sorts (sizes_of true S) (test_index_array_of S) (test_rank_array_of S))
    as (keys0 & st & _ & E & _ & Hs & _);
    [exact (classes_ok true S) | cbn; lia | exact (class_tests_ok true S) |].
  exists st. split; [exact E | exact Hs].
Defined.

(** Thirty-two keys of five bits, all equal at first. *)
Definition small_start : state :=
  let st := initial_state (small true) in
  State (key_array st) (key_buff1 st) (key_buff2 st) (partial_verify_vals st) (bucket_size st) (bucket_ptrs st)
    [1; 2; 3; 4; 5] [1; 1; 1; 1; 1] Null 0 [].

Lemma rank_counts_keys_witness : exists st', rank (small true) 1 small_start = Ok st' /\
  ranked (small true) 1 small_start st'.
Proof.
  apply (rank_counts_keys (small true) 1 small_start).
  - by split.
  - split; try done. split; [done|]. intros x Hx. change (x ∈ replicate 32 0) in Hx. by apply elem_of_replicate in Hx as [-> _].
  - split; try done; cbn; repeat constructor; lia.
  - done.
  - done.
Defined.
