(* ===== verification/Rbt.v ===== *)
(** * The aggregation tree of the data cube benchmark

    [NPB/SERIAL/DC/rbt.c]: the red-black tree in which the records of a view
    are grouped by their dimension attributes and their measures added up,
    its traversals and its set-up.  The nodes are in a pool of memory and are
    linked by pointers; the parents on the way to a node are kept in arrays
    of fixed size.

    A record - the data of a node, or the buffer [attrs] - is a list of
    64-bit measures followed by a list of 32-bit dimensions.  A pointer is
    null, the header's [root], or the offset of a node in the pool; a node
    lies inside the pool if [treeNodeSize] bytes from its offset do. *)

From stdpp Require Import gmap.
From S2P Require Import Prelude.

(** ** Data *)

Definition DIM_FSZ := 4.
Definition MSR_FSZ := 8.
Definition MAX_TREE_HEIGHT := 64.
Definition BLACK := 0.
Definition RED := 1.

Record data := Data { measures : list Z; dims : list Z }.

Inductive ptr := NULL | Root | At (a : Z).

#[export] Instance ptr_eq_dec : EqDecision ptr.
Proof. solve_decision. Defined.

Record treeNode := TreeNode { left : ptr; right : ptr; clr : Z; nodeMemPool : data }.

Definition with_left n v := TreeNode v (right n) (clr n) (nodeMemPool n).
Definition with_right n v := TreeNode (left n) v (clr n) (nodeMemPool n).
Definition with_clr n v := TreeNode (left n) (right n) v (nodeMemPool n).
Definition with_data n v := TreeNode (left n) (right n) (clr n) v.

(** [struct RBTree] *)
Record RBTree := Tree {
  root : treeNode;
  mp : ptr;
  count : Z;
  treeNodeSize : Z;
  nodeDataSize : Z;
  memoryLimit : Z;
  memaddr : Z;
  memoryIsFull : Z;
  freeNodeCounter : Z;
  nNodesLimit : Z;
  nd : Z;
  nm : Z;
  drcts : list Z;
  nodes : list ptr;
  memPool : gmap Z treeNode
}.

Definition with_root t v := Tree v (mp t) (count t) (treeNodeSize t) (nodeDataSize t) (memoryLimit t) (memaddr t)
  (memoryIsFull t) (freeNodeCounter t) (nNodesLimit t) (nd t) (nm t) (drcts t) (nodes t) (memPool t).
Definition with_count t v := Tree (root t) (mp t) v (treeNodeSize t) (nodeDataSize t) (memoryLimit t) (memaddr t)
  (memoryIsFull t) (freeNodeCounter t) (nNodesLimit t) (nd t) (nm t) (drcts t) (nodes t) (memPool t).
Definition with_path t d n := Tree (root t) (mp t) (count t) (treeNodeSize t) (nodeDataSize t) (memoryLimit t)
  (memaddr t) (memoryIsFull t) (freeNodeCounter t) (nNodesLimit t) (nd t) (nm t) d n (memPool t).
Definition with_pool t v := Tree (root t) (mp t) (count t) (treeNodeSize t) (nodeDataSize t) (memoryLimit t)
  (memaddr t) (memoryIsFull t) (freeNodeCounter t) (nNodesLimit t) (nd t) (nm t) (drcts t) (nodes t) v.

(** ** Memory *)

Definition in_pool (t : RBTree) (a : Z) : bool := (0 <=? a) && (a + treeNodeSize t <=? memoryLimit t).

Definition get (t : RBTree) (p : ptr) : res treeNode :=
  match p with
  | NULL => Err OutOfBounds
  | Root => Ok (root t)
  | At a => match memPool t !! a with Some n => Ok n | None => Err OutOfBounds end
  end.

Definition put (t : RBTree) (p : ptr) (n : treeNode) : res RBTree :=
  match p with
  | NULL => Err OutOfBounds
  | Root => Ok (with_root t n)
  | At a => if in_pool t a then Ok (with_pool t (<[a := n]> (memPool t))) else Err OutOfBounds
  end.

(** [p->f = v] *)
Definition update (t : RBTree) (p : ptr) (f : treeNode -> treeNode) : res RBTree :=
  n ← get t p; put t p (f n).

(** A side of a node: 0 is left, as in [drcts]. *)
Definition child (d : Z) (n : treeNode) : ptr := if d =? 0 then left n else right n.
Definition with_child (d : Z) (n : treeNode) (v : ptr) : treeNode := if d =? 0 then with_left n v else with_right n v.

(** [NEW_TREE_NODE] *)
Definition new_tree_node (t : RBTree) : RBTree :=
  let free := u32 (freeNodeCounter t - 1) in
  Tree (root t) (At (memaddr t)) (count t) (treeNodeSize t) (nodeDataSize t) (memoryLimit t)
    (u32 (memaddr t + treeNodeSize t)) (if free =? 0 then 1 else memoryIsFull t) free (nNodesLimit t)
    (nd t) (nm t) (drcts t) (nodes t) (memPool t).

(** ** Comparison *)

Definition KeyComp (a b : list Z) (n : Z) : res Z :=
  for_range 0 n
    (fun i r => if r =? 0 then x ← a.[i]; y ← b.[i]; Ok (if x <? y then -1 else if y <? x then 1 else 0) else Ok r) 0.

(** ** Insertion *)

(** [xNd->nodeMemPool[ii] += mx[ii]] *)
Definition add_measures (n : Z) (mx x : list Z) : res (list Z) :=
  for_range 0 n (fun ii x => a ← x.[ii]; b ← mx.[ii]; s ← chk 64 (a + b); x.[ii <- s]) x.

(** [tree->nodes[sl] = xNd; tree->drcts[sl] = d] *)
Definition set_path (t : RBTree) (sl : Z) (p : ptr) (d : Z) : res RBTree :=
  n ← (nodes t).[sl <- p]; ds ← (drcts t).[sl <- d]; Ok (with_path t ds n).

(** The way down: the record was added to a node, or a new node [p] is linked
    below the path of length [sl]. *)
Inductive descent := Added (t : RBTree) | Linked (t : RBTree) (sl : Z) (p : ptr).

Fixpoint descend (fuel : nat) (t : RBTree) (sl : Z) (xNd : ptr) (attrs : data) : res descent :=
  match fuel with
  | O => Err OutOfFuel
  | S fuel =>
      n ← get t xNd;
      cmpres ← KeyComp (dims attrs) (dims (nodeMemPool n)) (nd t);
      if cmpres =? 0 then
        m ← add_measures (nm t) (measures attrs) (measures (nodeMemPool n));
        t ← put t xNd (with_data n (Data m (dims (nodeMemPool n))));
        Ok (Added t)
      else
        let d := if cmpres <? 0 then 0 else 1 in
        t ← set_path t sl xNd d;
        match child d n with
        | NULL =>
            let t := new_tree_node t in
            t ← update t xNd (fun n => with_child d n (mp t));
            Ok (Linked t (sl + 1) (mp t))
        | yNd => descend fuel t (sl + 1) yNd attrs
        end
  end.

(** [memcpy] of the record, and the other fields of a new node *)
Definition init_node (t : RBTree) (p : ptr) (attrs : data) (c : Z) : res RBTree :=
  put t p (TreeNode NULL NULL c attrs).

(** A turn of the loop that restores the colours; [true] when it goes on.
    The branches for [drcts[sl-2] == 0] and [1] mirror each other: [d] is the
    side of the parent below the grandparent. *)
Definition fix_turn (t : RBTree) (sl : Z) : res (RBTree * Z * bool) :=
  parent ← (nodes t).[sl - 1];
  pn ← get t parent;
  if negb (clr pn =? RED) || (sl <? 3) then Ok (t, sl, false)
  else
    d ← (drcts t).[sl - 2];
    let e := 1 - d in
    grand ← (nodes t).[sl - 2];
    gn ← get t grand;
    let yNd := child e gn in
    red ← (match yNd with NULL => Ok false | _ => yn ← get t yNd; Ok (clr yn =? RED) end);
    if (red : bool) then
      t ← update t parent (fun n => with_clr n BLACK);
      t ← update t yNd (fun n => with_clr n BLACK);
      t ← update t grand (fun n => with_clr n RED);
      Ok (t, sl - 2, true)
    else
      d1 ← (drcts t).[sl - 1];
      '(t, yNd) ←
        (if d1 =? e then
           xn ← get t parent;
           let yNd := child e xn in
           yn ← get t yNd;
           t ← update t parent (fun n => with_child e n (child d yn));
           t ← update t yNd (fun n => with_child d n parent);
           t ← update t grand (fun n => with_child d n yNd);
           Ok (t, yNd)
         else Ok (t, parent));
      t ← update t grand (fun n => with_clr n RED);
      t ← update t yNd (fun n => with_clr n BLACK);
      yn ← get t yNd;
      t ← update t grand (fun n => with_child d n (child e yn));
      t ← update t yNd (fun n => with_child e n grand);
      d3 ← (drcts t).[sl - 3];
      top ← (nodes t).[sl - 3];
      t ← update t top (fun n => with_child (if d3 =? 0 then 0 else 1) n yNd);
      Ok (t, sl, false).

(** The loop; the path gets two shorter on every turn but the last. *)
Definition fix_colours (t : RBTree) (sl : Z) : res RBTree :=
  '(t, _, _) ← while (S (Z.to_nat MAX_TREE_HEIGHT)) (fun '(_, _, go) => Ok go)
    (fun '(t, sl, _) => fix_turn t sl) (t, sl, true);
  Ok t.

Definition TreeInsert (t : RBTree) (attrs : data) : res RBTree :=
  match left (root t) with
  | NULL =>
      let t := with_count t (u32 (count t + 1)) in
      let t := new_tree_node t in
      t ← update t Root (fun n => with_left n (mp t));
      init_node t (mp t) attrs BLACK
  | xNd =>
      t ← set_path t 0 Root 0;
      o ← descend (S (Z.to_nat MAX_TREE_HEIGHT)) t 1 xNd attrs;
      match o with
      | Added t => Ok t
      | Linked t sl xNd =>
          let t := with_count t (u32 (count t + 1)) in
          t ← init_node t xNd attrs RED;
          t ← fix_colours t sl;
          update t (left (root t)) (fun n => with_clr n BLACK)
      end
  end.

(** ** Traversals *)

Definition ADC_OK := 0.
Definition ADC_WRITE_FAILED := 1.
Definition measbound := 31415.

(** What a traversal uses of [ADC_VIEW_CNTL]; the file is the list of the
    records written, and the [i]-th [fwrite] to it succeeds if [can_write i]. *)
Record view := View { vnm : Z; mSums : list Z; checksums : list Z; file : list data }.

Section Traversals.
Context (can_write : nat -> bool).

Definition write (v : view) (x : data) : view * Z :=
  if can_write (length (file v)) then (View (vnm v) (mSums v) (checksums v) (file v ++ [x]), ADC_OK)
  else (v, ADC_WRITE_FAILED).

Definition add_sums (v : view) (x : data) : res view :=
  s ← for_range 0 (vnm v)
    (fun i s => a ← s.[i]; b ← (measures x).[i]; r ← chk 64 (a + b); s.[i <- r]) (mSums v);
  Ok (View (vnm v) s (checksums v) (file v)).

(** [avp->checksums[i] += (++( *ordern))*t->nodeMemPool[i]%measbound], in
    64-bit unsigned arithmetic *)
Definition add_checksums (v : view) (ordern : Z) (x : data) : res (view * Z) :=
  '(c, ordern) ← for_range 0 (vnm v)
    (fun i '(c, ordern) =>
       let ordern := u64 (ordern + 1) in
       a ← c.[i]; b ← (measures x).[i];
       c ← c.[i <- i64 (a + u64 (ordern * b) mod measbound)];
       Ok (c, ordern)) (checksums v, ordern);
  Ok (View (vnm v) (mSums v) c (file v), ordern).

Fixpoint WriteViewToDisk (fuel : nat) (t : RBTree) (v : view) (p : ptr) : res (view * Z) :=
  match fuel with
  | O => Err OutOfFuel
  | S fuel =>
      match p with
      | NULL => Ok (v, ADC_OK)
      | _ =>
          n ← get t p;
          '(v, e) ← WriteViewToDisk fuel t v (left n);
          if negb (e =? 0) then Ok (v, ADC_WRITE_FAILED)
          else
            v ← add_sums v (nodeMemPool n);
            let '(v, e) := write v (nodeMemPool n) in
            if negb (e =? 0) then Ok (v, ADC_WRITE_FAILED)
            else
              '(v, e) ← WriteViewToDisk fuel t v (right n);
              if negb (e =? 0) then Ok (v, ADC_WRITE_FAILED) else Ok (v, ADC_OK)
      end
  end.

Fixpoint WriteViewToDiskCS (fuel : nat) (t : RBTree) (v : view) (p : ptr) (ordern : Z) : res (view * Z * Z) :=
  match fuel with
  | O => Err OutOfFuel
  | S fuel =>
      match p with
      | NULL => Ok (v, ordern, ADC_OK)
      | _ =>
          n ← get t p;
          '(v, ordern, e) ← WriteViewToDiskCS fuel t v (left n) ordern;
          if negb (e =? 0) then Ok (v, ordern, ADC_WRITE_FAILED)
          else
            v ← add_sums v (nodeMemPool n);
            '(v, ordern) ← add_checksums v ordern (nodeMemPool n);
            let '(v, e) := write v (nodeMemPool n) in
            if negb (e =? 0) then Ok (v, ordern, ADC_WRITE_FAILED)
            else
              '(v, ordern, e) ← WriteViewToDiskCS fuel t v (right n) ordern;
              if negb (e =? 0) then Ok (v, ordern, ADC_WRITE_FAILED) else Ok (v, ordern, ADC_OK)
      end
  end.

Fixpoint computeChecksum (fuel : nat) (t : RBTree) (v : view) (p : ptr) (ordern : Z) : res (view * Z * Z) :=
  match fuel with
  | O => Err OutOfFuel
  | S fuel =>
      match p with
      | NULL => Ok (v, ordern, ADC_OK)
      | _ =>
          n ← get t p;
          '(v, ordern, e) ← computeChecksum fuel t v (left n) ordern;
          if negb (e =? 0) then Ok (v, ordern, ADC_WRITE_FAILED)
          else
            '(v, ordern) ← add_checksums v ordern (nodeMemPool n);
            '(v, ordern, e) ← computeChecksum fuel t v (right n) ordern;
            if negb (e =? 0) then Ok (v, ordern, ADC_WRITE_FAILED) else Ok (v, ordern, ADC_OK)
      end
  end.

Fixpoint WriteChunkToDisk (fuel : nat) (t : RBTree) (v : view) (p : ptr) : res (view * Z) :=
  match fuel with
  | O => Err OutOfFuel
  | S fuel =>
      match p with
      | NULL => Ok (v, ADC_OK)
      | _ =>
          n ← get t p;
          '(v, e) ← WriteChunkToDisk fuel t v (left n);
          if negb (e =? 0) then Ok (v, ADC_WRITE_FAILED)
          else
            let '(v, e) := write v (nodeMemPool n) in
            if negb (e =? 0) then Ok (v, ADC_WRITE_FAILED)
            else
              '(v, e) ← WriteChunkToDisk fuel t v (right n);
              if negb (e =? 0) then Ok (v, ADC_WRITE_FAILED) else Ok (v, ADC_OK)
      end
  end.
End Traversals.

(** ** Set-up *)

Definition node_size (nd nm : Z) : Z :=
  let s := u32 (32 + u32 (DIM_FSZ * u32 (nd - 1)) + u32 (MSR_FSZ * nm)) in
  if negb (s mod 8 =? 0) then u32 (s + 4) else s.

(** Division by a node size of zero is undefined. *)
Definition InitializeTree (t : RBTree) (nd nm : Z) : res RBTree :=
  let size := node_size nd nm in
  if size =? 0 then Err Aborted
  else
    let limit := memoryLimit t / size in
    Ok (Tree (with_right (with_left (root t) NULL) NULL) NULL 0 size (u32 (DIM_FSZ * nd + MSR_FSZ * nm))
          (memoryLimit t) 0 0 limit limit nd nm (drcts t) (nodes t) (memPool t)).

(** [tree], [nodes] and [drcts] are what [malloc] returned. *)
Definition CreateEmptyTree (tree : option RBTree) (nodes : option (list ptr)) (drcts : option (list Z))
    (nd nm memoryLimit : Z) (memPool : gmap Z treeNode) : res (option RBTree) :=
  match tree with
  | None => Ok None
  | Some t =>
      let size := node_size nd nm in
      if size =? 0 then Err Aborted
      else
        let limit := memoryLimit / size in
        match nodes, drcts with
        | Some nodes, Some drcts =>
            Ok (Some (Tree (with_right (with_left (root t) NULL) NULL) NULL 0 size
              (u32 (DIM_FSZ * nd + MSR_FSZ * nm)) memoryLimit 0 0 limit limit nd nm drcts nodes memPool))
        | _, _ => Ok None
        end
  end.
