(* ===== verification/RbtTree.v ===== *)
(** * Red-black trees as values

    The trees that the memory of [rbt.c] represents: their order, the
    insertion of a record into a sorted list, which is what an insertion into
    the tree means, paths from a node to the root, one turn of the loop that
    restores the colours, and the balance of red-black trees with the bound
    on the height that it gives. *)

From Stdlib Require Import Sorted Permutation.
From S2P Require Import Prelude Rbt.

(** ** Keys *)

Fixpoint key_cmp (a b : list Z) : comparison :=
  match a, b with
  | x :: a, y :: b => if x <? y then Lt else if y <? x then Gt else key_cmp a b
  | _, _ => Eq
  end.

Definition cmp_int (c : comparison) : Z := match c with Lt => -1 | Eq => 0 | Gt => 1 end.

Lemma key_cmp_opp a b : key_cmp b a = CompOpp (key_cmp a b).
Proof.
  revert b. induction a as [|x a IH]; intros [|y b]; cbn [key_cmp]; [done..|].
  destruct (Z.ltb_spec x y), (Z.ltb_spec y x); try lia; done.
Qed.

Lemma key_cmp_refl a : key_cmp a a = Eq.
Proof. induction a as [|x a IH]; cbn [key_cmp]; [done|]. by rewrite Z.ltb_irrefl. Qed.

Lemma key_cmp_eq a b : length a = length b -> key_cmp a b = Eq -> a = b.
Proof.
  revert b. induction a as [|x a IH]; intros [|y b] Hl; cbn [key_cmp length] in *; try done.
  destruct (Z.ltb_spec x y), (Z.ltb_spec y x); try done. intros E. f_equal; [lia | auto].
Qed.

Lemma key_cmp_trans a b c : length a = length b -> length b = length c ->
  key_cmp a b = Lt -> key_cmp b c = Lt -> key_cmp a c = Lt.
Proof.
  revert b c. induction a as [|x a IH]; intros [|y b] [|z c] H1 H2; cbn [key_cmp length] in *; try done.
  destruct (Z.ltb_spec x y), (Z.ltb_spec y x), (Z.ltb_spec y z), (Z.ltb_spec z y),
    (Z.ltb_spec x z), (Z.ltb_spec z x); try done; try lia. apply IH; lia.
Qed.

(** [KeyComp] compares lexicographically. *)
Lemma KeyComp_ok a b n : zlen a = n -> zlen b = n -> KeyComp a b n = Ok (cmp_int (key_cmp a b)).
Proof.
  intros Ha Hb. unfold KeyComp.
  destruct (for_range_inv (fun i r => r = cmp_int (key_cmp (take (Z.to_nat i) a) (take (Z.to_nat i) b)))
    (fun i r => if r =? 0 then x ← a.[i]; y ← b.[i]; Ok (if x <? y then -1 else if y <? x then 1 else 0) else Ok r)
    0 n 0) as (r & -> & ->); [lia | done | |].
  - intros i r Hi ->. replace (Z.to_nat (i + 1)) with (Datatypes.S (Z.to_nat i)) by lia.
    destruct (lookup_lt_is_Some_2 a (Z.to_nat i)) as [x Hx]; [lia|].
    destruct (lookup_lt_is_Some_2 b (Z.to_nat i)) as [y Hy]; [lia|].
    rewrite (take_S_r a _ x Hx), (take_S_r b _ y Hy).
    rewrite (aget_ok 0 a), (aget_ok 0 b) by lia. unfold zth.
    rewrite (nth_lookup_Some _ _ _ _ Hx), (nth_lookup_Some _ _ _ _ Hy).
    assert (Hl : length (take (Z.to_nat i) a) = length (take (Z.to_nat i) b)) by (rewrite !length_take; lia).
    revert Hl. generalize (take (Z.to_nat i) a), (take (Z.to_nat i) b). clear.
    induction l as [|u l IH]; intros [|v l'] Hl; cbn [key_cmp app length] in *; try done.
    + cbn. eexists. split; [done|]. by destruct (x <? y), (y <? x).
    + destruct (Z.ltb_spec u v), (Z.ltb_spec v u); cbn; first [by eauto | lia | apply IH; lia].
  - f_equal. f_equal. by rewrite !take_ge by lia.
Qed.

Definition key_lt (x y : data) : Prop := key_cmp (dims x) (dims y) = Lt.

(** ** Sorted lists of records *)

Definition merge (y x : data) : data := Data (zip_with Z.add (measures y) (measures x)) (dims y).

Fixpoint upsert (x : data) (l : list data) : list data :=
  match l with
  | [] => [x]
  | y :: l =>
      match key_cmp (dims x) (dims y) with
      | Lt => x :: y :: l
      | Eq => merge y x :: l
      | Gt => y :: upsert x l
      end
  end.

Lemma upsert_left x B L : Forall (fun y => key_lt y x) B -> upsert x (B ++ L) = B ++ upsert x L.
Proof.
  induction 1 as [|y B Hy HB IH]; [done|]. cbn [app upsert].
  unfold key_lt in Hy. by rewrite key_cmp_opp, Hy, IH.
Qed.

Lemma upsert_right x L A : Forall (fun y => key_lt x y) A -> upsert x (L ++ A) = upsert x L ++ A.
Proof.
  intros HA. induction L as [|y L IH]; cbn [app upsert].
  - destruct HA as [|y A Hy HA]; [done|]. cbn [upsert]. by rewrite Hy.
  - destruct (key_cmp (dims x) (dims y)); [done..|]. by rewrite IH.
Qed.

(** Records of the same shape. *)
Definition shaped (nm nd : Z) (x : data) : Prop := zlen (measures x) = nm /\ zlen (dims x) = nd.

Definition sorted (l : list data) : Prop := StronglySorted key_lt l.

Section Shapes.
Context (nm nd : Z).

Lemma key_lt_trans x y z : shaped nm nd x -> shaped nm nd y -> shaped nm nd z ->
  key_lt x y -> key_lt y z -> key_lt x z.
Proof. intros [_ ?] [_ ?] [_ ?]. unfold key_lt. apply key_cmp_trans; lia. Qed.

Lemma merge_shaped x y : shaped nm nd x -> shaped nm nd y -> shaped nm nd (merge y x).
Proof. intros [] []. split; [|done]. cbn. rewrite length_zip_with. lia. Qed.

Lemma upsert_shaped x l : shaped nm nd x -> Forall (shaped nm nd) l -> Forall (shaped nm nd) (upsert x l).
Proof.
  intros Hx. induction 1 as [|y l Hy Hl IH]; cbn [upsert]; [auto|].
  destruct (key_cmp _ _); auto using merge_shaped.
Qed.

Lemma upsert_keys x l (Q : list Z -> Prop) : Q (dims x) -> Forall (fun y => Q (dims y)) l ->
  Forall (fun y => Q (dims y)) (upsert x l).
Proof. intros Hx. induction 1; cbn [upsert]; [auto|]. destruct (key_cmp _ _); auto. Qed.

Lemma upsert_sorted x l : shaped nm nd x -> Forall (shaped nm nd) l -> sorted l -> sorted (upsert x l).
Proof.
  intros Hx Hs. induction 1 as [|y l Hl IH Hy]; cbn [upsert]; [repeat constructor|].
  apply Forall_cons_1 in Hs as [Hsy Hsl]. destruct (key_cmp (dims x) (dims y)) eqn:E.
  - by constructor.
  - constructor; [by constructor|]. constructor; [done|].
    rewrite list.Forall_forall in *. intros z Hz. apply (key_lt_trans x y z); auto.
  - constructor; [by apply IH|].
    apply (upsert_keys x l (fun k => key_cmp (dims y) k = Lt)); [|exact Hy].
    by rewrite key_cmp_opp, E.
Qed.
End Shapes.

(** ** Trees *)

Inductive tree := Leaf | Bin (a c : Z) (l : tree) (x : data) (r : tree).

Fixpoint addrs (t : tree) : list Z :=
  match t with Leaf => [] | Bin a _ l _ r => a :: addrs l ++ addrs r end.
Fixpoint inorder (t : tree) : list data :=
  match t with Leaf => [] | Bin _ _ l x r => inorder l ++ x :: inorder r end.
Definition colour (t : tree) : Z := match t with Leaf => BLACK | Bin _ c _ _ _ => c end.
Definition blacken (t : tree) : tree := match t with Leaf => Leaf | Bin a _ l x r => Bin a BLACK l x r end.
Fixpoint size (t : tree) : Z := match t with Leaf => 0 | Bin _ _ l _ r => 1 + size l + size r end.

(** A node with [t] on side [d] and [s] on the other. *)
Definition bin (d a c : Z) (t : tree) (x : data) (s : tree) : tree :=
  if d =? 0 then Bin a c t x s else Bin a c s x t.

Definition is_side (d : Z) : Prop := d = 0 \/ d = 1.

Lemma bin_cases a c l x r d : is_side d -> exists t s, Bin a c l x r = bin d a c t x s.
Proof. intros [-> | ->]; [by exists l, r | by exists r, l]. Qed.

Lemma bin_other d a c t x s : is_side d -> bin (1 - d) a c t x s = bin d a c s x t.
Proof. by intros [-> | ->]. Qed.

Lemma bin_perm d a c t x s : Permutation (addrs (bin d a c t x s)) (a :: addrs t ++ addrs s).
Proof. unfold bin. destruct (d =? 0); cbn [addrs]; [done|]. by rewrite Permutation_app_comm. Qed.

Lemma inorder_bin d a c t x s :
  inorder (bin d a c t x s) = if d =? 0 then inorder t ++ x :: inorder s else inorder s ++ x :: inorder t.
Proof. unfold bin. by destruct (d =? 0). Qed.

(** Permutations of lists of addresses, by counting. *)
Lemma count_occ_first (a v : Z) l :
  count_occ Z.eq_dec (a :: l) v = ((if Z.eq_dec a v then 1 else 0) + count_occ Z.eq_dec l v)%nat.
Proof. cbn [count_occ]. by destruct (Z.eq_dec a v). Qed.

Ltac permute :=
  apply (Permutation_count_occ Z.eq_dec); let v := fresh "v" in intros v;
  repeat first [rewrite count_occ_app | rewrite count_occ_first]; lia.

(** *** Paths, the innermost node first *)

Record frame := Frame { f_side : Z; f_addr : Z; f_clr : Z; f_data : data; f_sib : tree }.

Definition plug1 (f : frame) (t : tree) : tree := bin (f_side f) (f_addr f) (f_clr f) t (f_data f) (f_sib f).
Definition plug (fs : list frame) (t : tree) : tree := fold_left (fun t f => plug1 f t) fs t.

Definition before1 f := if f_side f =? 0 then [] else inorder (f_sib f) ++ [f_data f].
Definition after1 f := if f_side f =? 0 then f_data f :: inorder (f_sib f) else [].

Fixpoint before (fs : list frame) : list data :=
  match fs with [] => [] | f :: fs => before fs ++ before1 f end.
Fixpoint after (fs : list frame) : list data :=
  match fs with [] => [] | f :: fs => after1 f ++ after fs end.

Lemma inorder_plug1 f t : inorder (plug1 f t) = before1 f ++ inorder t ++ after1 f.
Proof.
  unfold plug1, bin, before1, after1. destruct (f_side f =? 0); cbn [inorder].
  - done.
  - by rewrite app_nil_r, <- app_assoc.
Qed.

Lemma inorder_plug fs t : inorder (plug fs t) = before fs ++ inorder t ++ after fs.
Proof.
  revert t. induction fs as [|f fs IH]; intros t; cbn [plug fold_left before after]; [by rewrite app_nil_r|].
  fold (plug fs (plug1 f t)). by rewrite IH, inorder_plug1, <- !app_assoc.
Qed.

(** ** Restoring the colours *)

(** The red subtree [s], its parent and its grandparent, rotated. *)
Definition rotate (p g : frame) (s : tree) : tree :=
  let d := f_side g in
  if f_side p =? d then
    bin d (f_addr p) BLACK s (f_data p) (bin d (f_addr g) RED (f_sib p) (f_data g) (f_sib g))
  else
    match s with
    | Leaf => Leaf
    | Bin a _ l x r =>
        let '(sd, se) := if d =? 0 then (l, r) else (r, l) in
        bin d a BLACK (bin d (f_addr p) RED (f_sib p) (f_data p) sd) x
          (bin d (f_addr g) RED se (f_data g) (f_sib g))
    end.

(** The red subtree, its parent and its uncle, with new colours. *)
Definition recolour (p g : frame) (s : tree) : tree :=
  bin (f_side g) (f_addr g) RED (bin (f_side p) (f_addr p) BLACK s (f_data p) (f_sib p)) (f_data g)
    (blacken (f_sib g)).

(** What a turn of the loop makes of a path and a red subtree, and whether it
    goes on. *)
Definition turn (fs : list frame) (s : tree) : list frame * tree * bool :=
  match fs with
  | p :: g :: fs' =>
      if f_clr p =? RED then
        if colour (f_sib g) =? RED then (fs', recolour p g s, true) else (fs', rotate p g s, false)
      else (fs, s, false)
  | _ => (fs, s, false)
  end.

Lemma inorder_blacken t : inorder (blacken t) = inorder t.
Proof. by destruct t. Qed.

Lemma inorder_recolour p g s : inorder (recolour p g s) = inorder (plug1 g (plug1 p s)).
Proof.
  unfold recolour, plug1, bin. destruct (f_side g =? 0), (f_side p =? 0); cbn [inorder]; by rewrite inorder_blacken.
Qed.

Lemma inorder_rotate p g s : is_side (f_side p) -> is_side (f_side g) -> s <> Leaf ->
  inorder (rotate p g s) = inorder (plug1 g (plug1 p s)).
Proof.
  intros Hp Hg Hs. unfold rotate, plug1.
  destruct Hp as [-> | ->], Hg as [-> | ->], s as [|a c l x r]; try done;
    unfold bin; cbn [Z.eqb Pos.eqb inorder]; do 3 (rewrite <- ?app_assoc; cbn [app]); done.
Qed.

Lemma turn_inorder fs s fs' s' go : Forall (fun f => is_side (f_side f)) fs -> s <> Leaf ->
  turn fs s = (fs', s', go) -> inorder (plug fs' s') = inorder (plug fs s).
Proof.
  intros Hd Hs E. destruct fs as [|p [|g fs2]]; cbn [turn] in E; [by injection E as <- <- <-..|].
  destruct (f_clr p =? RED); [|by injection E as <- <- <-].
  apply Forall_cons_1 in Hd as [Hp Hd]. apply Forall_cons_1 in Hd as [Hg _].
  destruct (colour (f_sib g) =? RED); injection E as <- <- <-; cbn [plug fold_left];
    fold (plug fs2 (plug1 g (plug1 p s))); rewrite !inorder_plug.
  - by rewrite inorder_recolour.
  - by rewrite inorder_rotate.
Qed.

(** ** Balance *)

(** Red-black trees with [n] black nodes on every way down and a root of
    colour [c]. *)
Inductive rbt : nat -> Z -> tree -> Prop :=
| rbt_leaf : rbt 0 BLACK Leaf
| rbt_red n a l x r : rbt n BLACK l -> rbt n BLACK r -> rbt n RED (Bin a RED l x r)
| rbt_black n a cl cr l x r : rbt n cl l -> rbt n cr r -> rbt (Datatypes.S n) BLACK (Bin a BLACK l x r).

(** A path to a place for a tree with [n] black nodes on every way down; the
    last node, the root, is black. *)
Inductive rb_path : nat -> list frame -> Prop :=
| rb_top n : rb_path n []
| rb_red n d a x s g fs : rbt n BLACK s -> f_clr g = BLACK -> rb_path n (g :: fs) ->
    rb_path n (Frame d a RED x s :: g :: fs)
| rb_black n d a x c s fs : rbt n c s -> rb_path (Datatypes.S n) fs -> rb_path n (Frame d a BLACK x s :: fs).

Lemma rbt_colour n c t : rbt n c t -> colour t = c.
Proof. by destruct 1. Qed.

Lemma rbt_colours n c t : rbt n c t -> c = BLACK \/ c = RED.
Proof. destruct 1; auto. Qed.

Lemma rbt_bin_red d n a t x s : rbt n BLACK t -> rbt n BLACK s -> rbt n RED (bin d a RED t x s).
Proof. intros. unfold bin. destruct (d =? 0); by constructor. Qed.

Lemma rbt_bin_black d n a ct cs t x s : rbt n ct t -> rbt n cs s -> rbt (Datatypes.S n) BLACK (bin d a BLACK t x s).
Proof. intros. unfold bin. destruct (d =? 0); econstructor; eauto. Qed.

Lemma rbt_blacken n c t : rbt n c t -> t <> Leaf -> exists n', rbt n' BLACK (blacken t).
Proof. destruct 1; intros; [done | |]; eexists; econstructor; eauto. Qed.

(** Where a tree of colour [c] fits. *)
Definition fits (c : Z) (fs : list frame) : Prop :=
  c = BLACK \/ match fs with [] => True | f :: _ => f_clr f = BLACK end.

Lemma plug_rbt n fs : rb_path n fs -> forall c t, rbt n c t -> fits c fs -> exists n' c', rbt n' c' (plug fs t).
Proof.
  induction 1 as [n|n d a x s g fs Hs Hg Hp IH|n d a x c s fs Hs Hp IH]; intros c' t Ht Hf.
  - by exists n, c'.
  - cbn [plug fold_left]. destruct Hf as [-> | Hf]; [|done].
    apply (IH RED (plug1 (Frame d a RED x s) t)); [by apply rbt_bin_red | by right].
  - cbn [plug fold_left]. apply (IH BLACK (plug1 (Frame d a BLACK x s) t)); [|by left].
    by eapply rbt_bin_black.
Qed.

(** A turn keeps the balance; when the loop ends, the tree is balanced but
    for the colour of its root. *)
Lemma turn_rbt n fs s fs' s' go : rb_path n fs -> rbt n RED s -> Forall (fun f => is_side (f_side f)) fs ->
  turn fs s = (fs', s', go) ->
  if go then (exists n', rb_path n' fs' /\ rbt n' RED s') /\ (length fs' + 2 = length fs)%nat
  else exists n' c', rbt n' c' (plug fs' s').
Proof.
  intros Hp Hs Hd E. destruct Hp as [n|n d a x sp g fs Hsp Hg Hp|n d a x c sp fs Hsp Hp]; cbn [turn] in E.
  - injection E as <- <- <-. eauto.
  - apply Forall_cons_1 in Hd as [Hdp Hd]. apply Forall_cons_1 in Hd as [Hdg Hd]. cbn [f_side f_clr] in *.
    inversion Hp as [|?|n' d' a' x' c' s2 fs2 Hu Hp2]; subst; [done|]. cbn [f_clr f_sib] in *.
    destruct (Z.eqb_spec (colour s2) RED) as [Ec|Ec]; injection E as <- <- <-.
    + split; [|cbn; lia]. exists (Datatypes.S n). split; [done|]. unfold recolour. cbn [f_side f_addr f_sib f_data].
      apply rbt_bin_red.
      * by eapply rbt_bin_black.
      * destruct Hu; cbn [colour] in Ec; try done. econstructor; eauto.
    + rewrite (rbt_colour _ _ _ Hu) in Ec. destruct (rbt_colours _ _ _ Hu) as [-> | ->]; [|done].
      apply (plug_rbt _ _ Hp2 BLACK); [|by left]. unfold rotate. cbn [f_side f_addr f_sib f_data].
      destruct (d =? d').
      * eapply rbt_bin_black; [exact Hs|]. by apply rbt_bin_red.
      * inversion Hs; subst. destruct (d' =? 0); (eapply rbt_bin_black; [by apply rbt_bin_red | by apply rbt_bin_red]).
  - assert (E' : (Frame d a BLACK x sp :: fs, s, false) = (fs', s', go)) by (destruct fs; exact E).
    injection E' as <- <- <-. cbn [plug fold_left]. apply (plug_rbt _ _ Hp BLACK); [|by left].
    by eapply rbt_bin_black.
Qed.

(** The number of nodes bounds the height. *)
Lemma rbt_size n c t : rbt n c t -> 2 ^ Z.of_nat n <= size t + 1.
Proof.
  induction 1; cbn [size].
  - done.
  - assert (0 <= 2 ^ Z.of_nat n) by (apply Z.pow_nonneg; lia). lia.
  - rewrite Nat2Z.inj_succ, Z.pow_succ_r by lia. lia.
Qed.

Fixpoint height (t : tree) : nat :=
  match t with Leaf => 0 | Bin _ _ l _ r => Datatypes.S (Nat.max (height l) (height r)) end.

Lemma rbt_height n c t : rbt n c t -> (height t <= 2 * n + if (c =? RED)%Z then 1 else 0)%nat.
Proof.
  induction 1 as [|n a l x r Hl IHl Hr IHr|n a cl cr l x r Hl IHl Hr IHr]; cbn [height].
  - lia.
  - cbn in *. lia.
  - cbn in *. destruct (cl =? RED), (cr =? RED); lia.
Qed.

Lemma height_plug fs t : (length fs + height t <= height (plug fs t))%nat.
Proof.
  revert t. induction fs as [|f fs IH]; intros t; cbn [plug fold_left length]; [lia|].
  fold (plug fs (plug1 f t)). specialize (IH (plug1 f t)).
  assert (Datatypes.S (height t) <= height (plug1 f t))%nat; [|lia].
  unfold plug1, bin. destruct (f_side f =? 0); cbn [height]; lia.
Qed.

(** A balanced tree that is small enough fits into the arrays of the path. *)
Lemma height_small t n : rbt n BLACK t -> size t < 2 ^ 28 -> (height t <= 56)%nat.
Proof.
  intros Ht Hs. pose proof (rbt_size _ _ _ Ht). pose proof (rbt_height _ _ _ Ht) as Hh. cbn in Hh.
  assert (Z.of_nat n <= 28); [|lia].
  destruct (Z.le_gt_cases (Z.of_nat n) 28); [done|].
  assert (2 ^ 29 <= 2 ^ Z.of_nat n) by (apply Z.pow_le_mono_r; lia). lia.
Qed.

(** The way to a leaf of a balanced tree. *)
Lemma rb_path_plug n fs : forall s, rbt n BLACK (plug fs s) ->
  exists n' c', rb_path n' fs /\ rbt n' c' s /\ (c' = RED -> exists g fs', fs = g :: fs' /\ f_clr g = BLACK).
Proof.
  induction fs as [|f fs IH]; intros s H.
  - exists n, BLACK. split; [constructor|]. done.
  - destruct (IH (plug1 f s) H) as (n' & c' & Hp & Hr & Hc). destruct f as [d a c y sib].
    unfold plug1, bin in Hr. cbn [f_side f_addr f_clr f_data f_sib] in Hr.
    destruct (d =? 0); inversion Hr as [|n1 a1 l1 x1 r1 H1 H2|n1 a1 cl cr l1 x1 r1 H1 H2]; subst.
    1, 3: destruct Hc as (g & fs' & -> & Hg); [done|]; exists n', BLACK; split; [by constructor|]; done.
    + exists n1, cl. split; [econstructor; eauto|]. split; [done|]. intros ->. eauto.
    + exists n1, cr. split; [econstructor; eauto|]. split; [done|]. intros ->. eauto.
Qed.

Lemma size_addrs t : size t = zlen (addrs t).
Proof. induction t as [|a c l IHl x r IHr]; cbn [size addrs length]; [done|]. rewrite length_app. lia. Qed.

Lemma size_inorder t : size t = zlen (inorder t).
Proof. induction t as [|a c l IHl x r IHr]; cbn [size inorder length]; [done|]. rewrite length_app. cbn [length]. lia. Qed.
