(* ===== verification/Groups.v ===== *)
(** * Groups of records

    What the views of a data cube are: the records of a table grouped by
    their dimensions, with the measures of a group added up.  The groups are
    a finite map; a sorted list of records represents it uniquely, and
    [upsert] adds a record to it. *)

From Stdlib Require Import Sorted Permutation.
From stdpp Require Import gmap sorting.
From S2P Require Import Prelude Rbt RbtTree.

(** ** Measures *)

Abbreviation vadd := (zip_with Z.add).

Lemma vadd_comm a b : vadd a b = vadd b a.
Proof. revert b. induction a as [|x a IH]; intros [|y b]; cbn [zip_with]; try done. f_equal; [lia | apply IH]. Qed.

Lemma vadd_assoc a b c : vadd a (vadd b c) = vadd (vadd a b) c.
Proof.
  revert b c. induction a as [|x a IH]; intros [|y b] [|z c]; cbn [zip_with]; try done.
  f_equal; [lia | apply IH].
Qed.

Lemma zth_vadd a b i : 0 <= i < zlen a -> 0 <= i < zlen b -> zth 0 (vadd a b) i = zth 0 a i + zth 0 b i.
Proof.
  intros Ha Hb. destruct (lookup_lt_is_Some_2 a (Z.to_nat i)) as [x Hx]; [lia|].
  destruct (lookup_lt_is_Some_2 b (Z.to_nat i)) as [y Hy]; [lia|]. unfold zth.
  rewrite (nth_lookup_Some _ _ _ _ Hx), (nth_lookup_Some _ _ _ _ Hy). apply nth_lookup_Some.
  apply lookup_zip_with_Some. eauto.
Qed.

(** Measure [i] of a record, its sum over a list, and the sum of its absolute
    values, which bounds the sum over every part of the list. *)
Definition meas (i : Z) (x : data) : Z := zth 0 (measures x) i.
Definition total (i : Z) (l : list data) : Z := foldr (fun x s => meas i x + s) 0 l.
Definition mag (i : Z) (l : list data) : Z := foldr (fun x s => Z.abs (meas i x) + s) 0 l.

Definition fits (nm : Z) (l : list data) : Prop := forall i, 0 <= i < nm -> mag i l < 2 ^ 63.

Lemma mag_app i l1 l2 : mag i (l1 ++ l2) = mag i l1 + mag i l2.
Proof. induction l1; cbn [mag foldr app] in *; [done|]. unfold mag in *. lia. Qed.

Lemma total_app i l1 l2 : total i (l1 ++ l2) = total i l1 + total i l2.
Proof. induction l1; cbn [total foldr app] in *; [done|]. unfold total in *. lia. Qed.

Lemma mag_nonneg i l : 0 <= mag i l.
Proof. induction l; cbn [mag foldr] in *; [done|]. unfold mag in *. lia. Qed.

Lemma total_mag i l : Z.abs (total i l) <= mag i l.
Proof. induction l; cbn [mag total foldr] in *; [done|]. unfold mag, total in *. lia. Qed.

#[export] Instance mag_perm i : Proper (Permutation ==> eq) (mag i).
Proof. induction 1; cbn [mag foldr] in *; unfold mag in *; lia. Qed.
#[export] Instance total_perm i : Proper (Permutation ==> eq) (total i).
Proof. induction 1; cbn [total foldr] in *; unfold total in *; lia. Qed.

Lemma fits_incl nm l1 l2 : fits nm (l1 ++ l2) -> fits nm l1 /\ fits nm l2.
Proof.
  intros H. split; intros i Hi; specialize (H i Hi); rewrite mag_app in H; pose proof (mag_nonneg i l1);
    pose proof (mag_nonneg i l2); lia.
Qed.

Lemma mag_elem i l x : x ∈ l -> Z.abs (meas i x) <= mag i l.
Proof.
  induction 1 as [x l|x y l _ IH]; cbn [mag foldr]; fold (mag i l); [pose proof (mag_nonneg i l) |]; lia.
Qed.

(** ** Finite maps of groups *)

Definition add_group (x : data) (m : gmap (list Z) (list Z)) : gmap (list Z) (list Z) :=
  <[dims x := match m !! dims x with Some y => vadd y (measures x) | None => measures x end]> m.

Definition groups (l : list data) : gmap (list Z) (list Z) := foldr add_group ∅ l.

Lemma add_group_comm x y m : add_group x (add_group y m) = add_group y (add_group x m).
Proof.
  unfold add_group. destruct (decide (dims x = dims y)) as [E|N].
  - rewrite E, !lookup_insert_eq, !insert_insert_eq. f_equal. destruct (m !! dims y).
    + by rewrite <- !vadd_assoc, (vadd_comm (measures y)).
    + apply vadd_comm.
  - rewrite !lookup_insert_ne by done. by rewrite insert_insert_ne.
Qed.

#[export] Instance groups_perm : Proper (Permutation ==> eq) groups.
Proof.
  induction 1 as [|x l l' _ IH|x y l|l1 l2 l3 _ IH1 _ IH2]; cbn [groups foldr] in *; [done | | apply add_group_comm |].
  - unfold groups in IH. by rewrite IH.
  - by rewrite IH1.
Qed.

(** Groups of groups *)
Lemma groups_app_l l l1 l2 : groups l1 = groups l2 -> groups (l ++ l1) = groups (l ++ l2).
Proof. intros E. unfold groups in *. by rewrite !foldr_app, E. Qed.

Lemma groups_app_r l l1 l2 : groups l1 = groups l2 -> groups (l1 ++ l) = groups (l2 ++ l).
Proof. intros E. rewrite (Permutation_app_comm l1), (Permutation_app_comm l2). by apply groups_app_l. Qed.

Lemma add_group_merge y x m : dims x = dims y -> add_group (merge y x) m = add_group x (add_group y m).
Proof.
  intros E. unfold add_group, merge. cbn [dims measures]. rewrite E, lookup_insert_eq, insert_insert_eq. f_equal.
  destruct (m !! dims y); [apply vadd_assoc | done].
Qed.

Section Shapes.
Context (nm nd : Z).

Lemma key_eq x y : shaped nm nd x -> shaped nm nd y -> key_cmp (dims x) (dims y) = Eq -> dims x = dims y.
Proof. intros [_ Hx] [_ Hy]. apply key_cmp_eq. lia. Qed.

Lemma groups_upsert x l : shaped nm nd x -> Forall (shaped nm nd) l -> groups (upsert x l) = groups (x :: l).
Proof.
  intros Hx. induction 1 as [|y l Hy Hl IH]; cbn [upsert]; [done|].
  destruct (key_cmp (dims x) (dims y)) eqn:E; [| done |].
  - cbn [groups foldr]. apply add_group_merge. by apply key_eq.
  - cbn [groups foldr] in *. fold (groups (upsert x l)). rewrite IH. apply add_group_comm.
Qed.

Lemma meas_merge i y x : shaped nm nd x -> shaped nm nd y -> 0 <= i < nm -> meas i (merge y x) = meas i y + meas i x.
Proof. intros [Hx _] [Hy _] Hi. apply zth_vadd; lia. Qed.

Lemma total_upsert i x l : shaped nm nd x -> Forall (shaped nm nd) l -> 0 <= i < nm ->
  total i (upsert x l) = total i (x :: l).
Proof.
  intros Hx Hl Hi. induction Hl as [|y l Hy Hl IH]; cbn [upsert]; [done|].
  destruct (key_cmp (dims x) (dims y)); cbn [total foldr] in *; unfold total in *; [|done|lia].
  rewrite meas_merge by done. lia.
Qed.

Lemma mag_upsert i x l : shaped nm nd x -> Forall (shaped nm nd) l -> 0 <= i < nm ->
  mag i (upsert x l) <= mag i (x :: l).
Proof.
  intros Hx Hl Hi. induction Hl as [|y l Hy Hl IH]; cbn [upsert]; [done|].
  destruct (key_cmp (dims x) (dims y)); cbn [mag foldr] in *; unfold mag in *; [|done|lia].
  rewrite meas_merge by done. lia.
Qed.

(** The sums that the record would give fit. *)
Definition sums_fit (x : data) (l : list data) : Prop :=
  forall y, y ∈ l -> dims y = dims x -> Forall (fun s => - 2 ^ 63 <= s < 2 ^ 63) (vadd (measures y) (measures x)).

Lemma fits_sums x l : shaped nm nd x -> Forall (shaped nm nd) l -> fits nm (x :: l) -> sums_fit x l.
Proof.
  intros Hx Hl Hf y Hy _. assert (Hsy : shaped nm nd y) by (rewrite list.Forall_forall in Hl; by apply Hl).
  destruct (Hx) as [Lx _], (Hsy) as [Ly _]. rewrite list.Forall_forall. intros s Hs.
  apply (In_zth 0) in Hs as (i & Hi & <-). rewrite length_zip_with in Hi.
  rewrite zth_vadd by lia. specialize (Hf i ltac:(lia)). cbn [mag foldr] in Hf. fold (mag i l) in Hf.
  pose proof (mag_elem i l y Hy). unfold meas in *. lia.
Qed.

Lemma fits_upsert x l l' : shaped nm nd x -> Forall (shaped nm nd) l -> fits nm (l ++ x :: l') -> fits nm (upsert x l ++ l').
Proof.
  intros Hx Hl Hf i Hi. specialize (Hf i Hi). pose proof (mag_upsert i x l Hx Hl Hi) as H.
  rewrite mag_app in *. cbn [mag foldr] in *. unfold mag in *. lia.
Qed.

Lemma upsert_length x l : zlen (upsert x l) <= zlen l + 1.
Proof. induction l as [|y l IH]; cbn [upsert length]; [done|]. destruct (key_cmp _ _); cbn [length]; lia. Qed.

(** The elements of a sorted list are its groups. *)
Lemma sorted_keys y l x : Forall (key_lt y) l -> x ∈ l -> dims x <> dims y.
Proof.
  intros Hy Hx E. rewrite list.Forall_forall in Hy. specialize (Hy x Hx). unfold key_lt in Hy.
  by rewrite E, key_cmp_refl in Hy.
Qed.

Lemma groups_lookup l : sorted l -> forall k m,
  groups l !! k = Some m <-> exists x, x ∈ l /\ dims x = k /\ measures x = m.
Proof.
  induction 1 as [|y l Hs IH Hy]; intros k m; cbn [groups foldr].
  - split; [done|]. intros (x & Hx & _). inversion Hx.
  - fold (groups l). unfold add_group.
    assert (Hn : groups l !! dims y = None).
    { destruct (groups l !! dims y) as [m'|] eqn:E; [|done]. apply IH in E as (x & Hx & E & _).
      by destruct (sorted_keys y l x Hy Hx). }
    rewrite Hn. destruct (decide (dims y = k)) as [<-|Hne].
    + rewrite lookup_insert_eq. split.
      * intros [= <-]. exists y. split; [apply list.elem_of_cons; by left | done].
      * intros (x & Hx & E & <-). apply list.elem_of_cons in Hx as [-> | Hx]; [done|].
        by destruct (sorted_keys y l x Hy Hx).
    + rewrite lookup_insert_ne, IH by done. split; intros (x & Hx & E); exists x; (split; [|done]).
      * apply list.elem_of_cons. by right.
      * apply list.elem_of_cons in Hx as [-> | Hx]; [|done]. by destruct E.
Qed.

Lemma sorted_NoDup l : sorted l -> NoDup l.
Proof.
  induction 1 as [|y l Hs IH Hy]; constructor; [|done]. intros Hin. by destruct (sorted_keys y l y Hy Hin).
Qed.

(** A sorted list is determined by its groups. *)
Lemma sorted_unique l1 l2 : sorted l1 -> sorted l2 -> groups l1 = groups l2 -> l1 = l2.
Proof.
  intros H1 H2 E. apply (StronglySorted_unique_strong key_lt); [|done..|].
  - intros x y _ _ Hx Hy. unfold key_lt in *. by rewrite key_cmp_opp, Hx in Hy.
  - apply NoDup_Permutation; [by apply sorted_NoDup..|]. intros [m k].
    assert (forall l, sorted l -> Data m k ∈ l <-> groups l !! k = Some m) as Hl.
    { intros l Hs. rewrite (groups_lookup l Hs). split; [by exists (Data m k)|].
      by intros ([m' k'] & Hx & <- & <-). }
    by rewrite !Hl, E.
Qed.
End Shapes.
