(* ===== verification/RbtHeap.v ===== *)
(** * The tree in memory

    When the memory of an [RBTree] represents a tree, what a turn of the loop
    that restores the colours does to it, and the insertion of a record. *)

From Stdlib Require Import Permutation.
From stdpp Require Import gmap sets.
From S2P Require Import Prelude Rbt RbtTree.

Definition ptr_of (t : tree) : ptr := match t with Leaf => NULL | Bin a _ _ _ _ => At a end.

Fixpoint rep (m : gmap Z treeNode) (t : tree) : Prop :=
  match t with
  | Leaf => True
  | Bin a c l x r => m !! a = Some (TreeNode (ptr_of l) (ptr_of r) c x) /\ rep m l /\ rep m r
  end.

(** A node with child [p] on side [d] and [q] on the other. *)
Definition mkn (d c : Z) (p q : ptr) (x : data) : treeNode :=
  if d =? 0 then TreeNode p q c x else TreeNode q p c x.

Section Sides.
Context (d c : Z) (p q v : ptr) (x : data) (Hd : is_side d).

Lemma child_mkn : child d (mkn d c p q x) = p.
Proof. unfold child, mkn. destruct Hd as [-> | ->]; done. Qed.
Lemma child_mkn_other : child (1 - d) (mkn d c p q x) = q.
Proof. unfold child, mkn. destruct Hd as [-> | ->]; done. Qed.
Lemma with_child_mkn : with_child d (mkn d c p q x) v = mkn d c v q x.
Proof. unfold with_child, mkn. destruct Hd as [-> | ->]; done. Qed.
Lemma with_child_mkn_other : with_child (1 - d) (mkn d c p q x) v = mkn d c p v x.
Proof. unfold with_child, mkn. destruct Hd as [-> | ->]; done. Qed.
Lemma with_clr_mkn c' : with_clr (mkn d c p q x) c' = mkn d c' p q x.
Proof. unfold mkn. by destruct (d =? 0). Qed.
Lemma clr_mkn : clr (mkn d c p q x) = c.
Proof. unfold mkn. by destruct (d =? 0). Qed.
Lemma mkn_swap : mkn (1 - d) c p q x = mkn d c q p x.
Proof. unfold mkn. destruct Hd as [-> | ->]; done. Qed.
Lemma with_data_mkn x' : with_data (mkn d c p q x) x' = mkn d c p q x'.
Proof. unfold mkn. by destruct (d =? 0). Qed.
Lemma data_mkn : nodeMemPool (mkn d c p q x) = x.
Proof. unfold mkn. by destruct (d =? 0). Qed.
End Sides.

Lemma rep_bin m d a c t x s : rep m (bin d a c t x s) <->
  m !! a = Some (mkn d c (ptr_of t) (ptr_of s) x) /\ rep m t /\ rep m s.
Proof. unfold bin, mkn. destruct (d =? 0); cbn [rep]; tauto. Qed.

Lemma ptr_of_bin d a c t x s : ptr_of (bin d a c t x s) = At a.
Proof. unfold bin. by destruct (d =? 0). Qed.

(** Only the nodes of a tree matter. *)
Lemma rep_ext m m' t : (forall a, a ∈ addrs t -> m' !! a = m !! a) -> rep m t -> rep m' t.
Proof.
  induction t as [|a c l IHl x r IHr]; cbn [rep addrs]; intros H; [done|]. intros (Ha & Hl & Hr).
  split; [rewrite H; set_solver|]. split; [apply IHl | apply IHr]; try done; intros; apply H; set_solver.
Qed.

(** *** Paths *)

Fixpoint path_rep (m : gmap Z treeNode) (fs : list frame) (p : ptr) : Prop :=
  match fs with
  | [] => True
  | f :: fs =>
      m !! f_addr f = Some (mkn (f_side f) (f_clr f) p (ptr_of (f_sib f)) (f_data f)) /\
      rep m (f_sib f) /\ path_rep m fs (At (f_addr f))
  end.

Fixpoint path_addrs (fs : list frame) : list Z :=
  match fs with [] => [] | f :: fs => f_addr f :: addrs (f_sib f) ++ path_addrs fs end.

Fixpoint top (fs : list frame) (p : ptr) : ptr :=
  match fs with [] => p | f :: fs => top fs (At (f_addr f)) end.

Definition head_ptr (fs : list frame) : ptr := match fs with [] => Root | f :: _ => At (f_addr f) end.
Definition head_side (fs : list frame) : Z := match fs with [] => 0 | f :: _ => f_side f end.

Definition sides (fs : list frame) : Prop := Forall (fun f => is_side (f_side f)) fs.

Lemma rep_plug m fs t : rep m (plug fs t) <-> path_rep m fs (ptr_of t) /\ rep m t.
Proof.
  revert t. induction fs as [|f fs IH]; intros t; cbn [plug fold_left path_rep]; [tauto|].
  fold (plug fs (plug1 f t)). rewrite IH. unfold plug1. rewrite rep_bin, ptr_of_bin. tauto.
Qed.

Lemma top_plug fs t : top fs (ptr_of t) = ptr_of (plug fs t).
Proof.
  revert t. induction fs as [|f fs IH]; intros t; cbn [plug fold_left top]; [done|].
  fold (plug fs (plug1 f t)). rewrite <- IH. unfold plug1. by rewrite ptr_of_bin.
Qed.

Lemma addrs_plug fs t : Permutation (addrs (plug fs t)) (addrs t ++ path_addrs fs).
Proof.
  revert t. induction fs as [|f fs IH]; intros t; cbn [plug fold_left path_addrs]; [by rewrite app_nil_r|].
  fold (plug fs (plug1 f t)). rewrite IH. unfold plug1. rewrite bin_perm.
  cbn [app]. rewrite <- app_assoc. by rewrite Permutation_middle.
Qed.

Lemma path_rep_ext m m' fs p : (forall a, a ∈ path_addrs fs -> m' !! a = m !! a) -> path_rep m fs p -> path_rep m' fs p.
Proof.
  revert p. induction fs as [|f fs IH]; intros p; cbn [path_rep path_addrs]; intros H; [done|]. intros (Ha & Hs & Hp).
  split; [rewrite H; set_solver|]. split; [apply (rep_ext m) | apply IH]; try done; intros; apply H; set_solver.
Qed.

(** The arrays of the path. *)
Fixpoint path_arrays (ns : list ptr) (ds : list Z) (fs : list frame) : Prop :=
  zth NULL ns (zlen fs) = head_ptr fs /\ zth 0 ds (zlen fs) = head_side fs /\
  match fs with [] => True | _ :: fs => path_arrays ns ds fs end.

(** ** States *)

(** The state [t] with another root and memory. *)
Definition st (t : RBTree) (r : treeNode) (m : gmap Z treeNode) : RBTree := with_root (with_pool t m) r.

Section States.
Context (t : RBTree) (r : treeNode) (m : gmap Z treeNode).

Lemma get_st a n : m !! a = Some n -> get (st t r m) (At a) = Ok n.
Proof. intros E. cbn [get]. cbn [memPool st with_root with_pool]. by rewrite E. Qed.

Lemma update_st a n f : m !! a = Some n -> in_pool t a = true ->
  update (st t r m) (At a) f = Ok (st t r (<[a := f n]> m)).
Proof.
  intros E Hin. unfold update. rewrite (get_st _ _ E). cbn [mbind res_bind put].
  change (in_pool (st t r m) a) with (in_pool t a). by rewrite Hin.
Qed.

Lemma st_same : st t (root t) (memPool t) = t.
Proof. by destruct t. Qed.
End States.

(** The link above a subtree is replaced. *)
Lemma link_st t r m fs p p' : path_rep m fs p -> left r = top fs p -> sides fs ->
  Forall (fun a => in_pool t a = true) (path_addrs fs) -> NoDup (path_addrs fs) ->
  exists r' m', update (st t r m) (head_ptr fs) (fun n => with_child (if head_side fs =? 0 then 0 else 1) n p') =
      Ok (st t r' m') /\
    path_rep m' fs p' /\ left r' = top fs p' /\ (forall a, a ∉ path_addrs fs -> m' !! a = m !! a).
Proof.
  intros Hp Hr Hs Hin Hnd. destruct fs as [|f fs]; cbn [head_ptr head_side path_rep path_addrs top] in *.
  - exists (with_left r p'), m. by repeat split.
  - apply Forall_cons_1 in Hs as [Hf Hs]. apply Forall_cons_1 in Hin as [Hin _]. apply list.NoDup_cons in Hnd as [Hn Hnd].
    destruct Hp as (Ha & Hsib & Hp). rewrite (update_st t r m _ _ _ Ha Hin).
    replace (if f_side f =? 0 then 0 else 1) with (f_side f) by (destruct Hf as [-> | ->]; done).
    rewrite with_child_mkn by done. eexists _, _. split; [reflexivity|].
    split; [|split; [done | intros a Hna; apply lookup_insert_ne; set_solver]].
    split; [apply lookup_insert_eq|].
    split; [apply (rep_ext m) | apply (path_rep_ext m)]; try done;
      intros a Hin'; apply lookup_insert_ne; intros <-; apply Hn; set_solver.
Qed.

(** The memory represents [T]. *)
Record holds (t : RBTree) (T : tree) : Prop := {
  h_rep : rep (memPool t) T;
  h_root : left (root t) = ptr_of T;
  h_nodup : NoDup (addrs T);
  h_pool : Forall (fun a => in_pool t a = true) (addrs T)
}.

Lemma holds_plug t r m fs s : holds (st t r m) (plug fs s) <->
  (path_rep m fs (ptr_of s) /\ rep m s) /\ left r = top fs (ptr_of s) /\
  NoDup (addrs s ++ path_addrs fs) /\ Forall (fun a => in_pool t a = true) (addrs s ++ path_addrs fs).
Proof.
  split.
  - intros [H1 H2 H3 H4]. rewrite <- rep_plug, top_plug. cbn in H1, H2. rewrite addrs_plug in H3.
    split; [done|]. split; [done|]. split; [done|].
    rewrite <- addrs_plug. exact H4.
  - intros (H1 & H2 & H3 & H4). rewrite <- rep_plug in H1. rewrite top_plug in H2. rewrite <- addrs_plug in H3, H4.
    by split.
Qed.

(** *** Updates in a row *)

Ltac map_lookup :=
  repeat first
  [ rewrite lookup_insert_eq
  | rewrite lookup_insert_ne by (assumption || (apply not_eq_sym; assumption)) ];
  eassumption || reflexivity.

Ltac node_simpl :=
  rewrite ?child_mkn, ?child_mkn_other, ?with_child_mkn, ?with_child_mkn_other, ?with_clr_mkn, ?clr_mkn by done.

(** The next [update] or [get] of the code. *)
Ltac run_update := erewrite update_st by (map_lookup || assumption); cbn [mbind res_bind]; node_simpl.
Ltac run_get := erewrite get_st by map_lookup; cbn [mbind res_bind]; node_simpl.

(** Takes membership in lists apart, in the hypotheses about addresses. *)
Ltac apart :=
  repeat first [ rewrite !not_elem_of_cons in * | rewrite !list.not_elem_of_app in * ]; destruct_and?.

(** A part of the tree that the updates did not touch. *)
Ltac untouched :=
  match goal with
  | |- rep _ _ => eapply rep_ext; [|eassumption]
  | |- path_rep _ _ _ => eapply path_rep_ext; [|eassumption]
  end;
  let b := fresh "b" in let Hb := fresh "Hb" in intros b Hb;
  repeat (rewrite lookup_insert_ne by (intros <-; contradiction)); done.

(** The second half of a rotation: [y] takes the place of its parent [ag]. *)
Lemma raise_ok t r m fs d ay cy A B xy ag cg u xg k : is_side d -> sides fs ->
  m !! ay = Some (mkn d cy (ptr_of A) (ptr_of B) xy) ->
  m !! ag = Some (mkn d cg (At ay) (ptr_of u) xg) ->
  rep m A -> rep m B -> rep m u -> path_rep m fs (At ag) -> left r = top fs (At ag) ->
  NoDup (ay :: ag :: addrs A ++ addrs B ++ addrs u ++ path_addrs fs) ->
  Forall (fun a => in_pool t a = true) (ay :: ag :: addrs A ++ addrs B ++ addrs u ++ path_addrs fs) ->
  (drcts t).[k] = Ok (head_side fs) -> (nodes t).[k] = Ok (head_ptr fs) ->
  exists r' m',
  (t ← update (st t r m) (At ag) (fun n => with_clr n RED);
   t ← update t (At ay) (fun n => with_clr n BLACK);
   yn ← get t (At ay);
   t ← update t (At ag) (fun n => with_child d n (child (1 - d) yn));
   t ← update t (At ay) (fun n => with_child (1 - d) n (At ag));
   d3 ← (drcts t).[k];
   top ← (nodes t).[k];
   update t top (fun n => with_child (if d3 =? 0 then 0 else 1) n (At ay))) = Ok (st t r' m') /\
  holds (st t r' m') (plug fs (bin d ay BLACK A xy (bin d ag RED B xg u))).
Proof.
  intros Hd Hs Hy Hg RA RB Ru Rf Hl Hnd Hin Ed En.
  pose proof Hnd as D. rewrite !list.NoDup_cons in D. pose proof Hin as I. rewrite !list.Forall_cons in I.
  destruct_and?. apart.
  do 2 run_update. run_get. do 2 run_update.
  match goal with |- context [st t r ?m1] => set (m' := m1) end.
  change (drcts (st t r m')) with (drcts t). change (nodes (st t r m')) with (nodes t). rewrite Ed, En.
  cbn [mbind res_bind].
  assert (Df : NoDup (path_addrs fs)).
  { rewrite !list.NoDup_cons, !list.NoDup_app in Hnd. tauto. }
  assert (If : Forall (fun a => in_pool t a = true) (path_addrs fs)).
  { rewrite !list.Forall_cons, !list.Forall_app in Hin. tauto. }
  assert (Rf' : path_rep m' fs (At ag)) by (unfold m'; untouched).
  destruct (link_st t r m' fs (At ag) (At ay) Rf' Hl Hs If Df) as (r' & m2 & E & Rf2 & Hl2 & Hm2).
  rewrite E. exists r', m2. split; [done|]. apply holds_plug. rewrite ptr_of_bin, !rep_bin, ptr_of_bin.
  assert (Hother : forall a, a ∉ path_addrs fs -> m2 !! a = m' !! a) by done.
  assert (Hpart : forall T, rep m' T -> (forall a, a ∈ addrs T -> a ∉ path_addrs fs) -> rep m2 T).
  { intros T RT HT. apply (rep_ext m'); [|done]. intros a Ha. by apply Hother, HT. }
  assert (DT : forall T, T = A \/ T = B \/ T = u -> forall a, a ∈ addrs T -> a ∉ path_addrs fs).
  { rewrite !list.NoDup_cons, !list.NoDup_app in Hnd. intros T HT a Ha Ha'. destruct_and?.
    destruct HT as [-> |[-> | ->]]; match goal with
    | H : forall x, x ∈ addrs ?T -> _, H' : _ ∈ addrs ?T |- _ => apply (H _ H'); rewrite ?list.elem_of_app; tauto
    end. }
  split; [split; [done|]|split; [done|]].
  - rewrite !Hother by done. unfold m'. split; [map_lookup|].
    split; [apply Hpart; [unfold m'; untouched | apply DT; auto]|]. split; [map_lookup|].
    split; apply Hpart; first [apply DT; auto | unfold m'; untouched].
  - assert (E2 : Permutation (addrs (bin d ay BLACK A xy (bin d ag RED B xg u)) ++ path_addrs fs)
      (ay :: ag :: addrs A ++ addrs B ++ addrs u ++ path_addrs fs)).
    { rewrite !bin_perm. cbn [app]. constructor. rewrite <- Permutation_middle. cbn [app].
      by rewrite <- !app_assoc. }
    by rewrite E2.
Qed.

Section Turn.
Context (t : RBTree) (r : treeNode) (m : gmap Z treeNode) (p g : frame) (fs : list frame) (s : tree).
Hypotheses (H : holds (st t r m) (plug (p :: g :: fs) s)) (Hs : sides (p :: g :: fs)) (Hred : s <> Leaf).

(** The parts of the memory that a turn is about. *)
Lemma turn_parts :
  (m !! f_addr p = Some (mkn (f_side p) (f_clr p) (ptr_of s) (ptr_of (f_sib p)) (f_data p)) /\
   m !! f_addr g = Some (mkn (f_side g) (f_clr g) (At (f_addr p)) (ptr_of (f_sib g)) (f_data g)) /\
   rep m s /\ rep m (f_sib p) /\ rep m (f_sib g) /\ path_rep m fs (At (f_addr g))) /\
  left r = top fs (At (f_addr g)) /\
  NoDup (f_addr p :: f_addr g :: addrs s ++ addrs (f_sib p) ++ addrs (f_sib g) ++ path_addrs fs) /\
  Forall (fun a => in_pool t a = true)
    (f_addr p :: f_addr g :: addrs s ++ addrs (f_sib p) ++ addrs (f_sib g) ++ path_addrs fs).
Proof.
  apply holds_plug in H as (Hrep & Hl & Hnd & Hin). cbn [path_rep path_addrs top] in *.
  assert (E : Permutation (addrs s ++ f_addr p :: addrs (f_sib p) ++ f_addr g :: addrs (f_sib g) ++ path_addrs fs)
    (f_addr p :: f_addr g :: addrs s ++ addrs (f_sib p) ++ addrs (f_sib g) ++ path_addrs fs)).
  { rewrite <- Permutation_middle. constructor. rewrite app_assoc, <- Permutation_middle, <- app_assoc. done. }
  rewrite E in Hnd. rewrite E in Hin. tauto.
Qed.

Lemma recolour_ok au ul xu ur : f_sib g = Bin au RED ul xu ur ->
  exists m', (t ← update (st t r m) (At (f_addr p)) (fun n => with_clr n BLACK);
     t ← update t (At au) (fun n => with_clr n BLACK);
     update t (At (f_addr g)) (fun n => with_clr n RED)) = Ok (st t r m') /\
    holds (st t r m') (plug fs (recolour p g s)).
Proof.
  intros Eu. destruct turn_parts as ((Hp & Hg & Rs & Rp & Ru & Rf) & Hl & Hnd & Hin).
  rewrite Eu in *. cbn [rep addrs ptr_of] in *. destruct Ru as (Hu & Rul & Rur).
  assert (E : Permutation
    (f_addr p :: f_addr g :: addrs s ++ addrs (f_sib p) ++ (au :: addrs ul ++ addrs ur) ++ path_addrs fs)
    (f_addr p :: f_addr g :: au :: addrs s ++ addrs (f_sib p) ++ addrs ul ++ addrs ur ++ path_addrs fs)).
  { do 2 constructor. cbn [app]. rewrite app_assoc, <- Permutation_middle, <- !app_assoc. done. }
  rewrite E in Hnd. rewrite E in Hin. pose proof Hnd as D. rewrite !list.NoDup_cons in D.
  rewrite !list.Forall_cons in Hin. destruct_and?. apart.
  do 3 run_update. eexists. split; [reflexivity|]. apply holds_plug.
  unfold recolour. rewrite Eu. rewrite ptr_of_bin. cbn [blacken].
  rewrite !rep_bin, ptr_of_bin. cbn [ptr_of rep].
  split; [split; [|repeat split]|split; [done|]].
  all: try untouched. all: try map_lookup.
  assert (E2 : Permutation (addrs (bin (f_side g) (f_addr g) RED
     (bin (f_side p) (f_addr p) BLACK s (f_data p) (f_sib p)) (f_data g) (Bin au BLACK ul xu ur)) ++ path_addrs fs)
    (f_addr p :: f_addr g :: au :: addrs s ++ addrs (f_sib p) ++ addrs ul ++ addrs ur ++ path_addrs fs)).
  { rewrite !bin_perm. cbn [addrs app]. rewrite (perm_swap (f_addr g)), <- !app_assoc. cbn [app]. rewrite <- !app_assoc.
    do 2 constructor. rewrite app_assoc, <- Permutation_middle, <- !app_assoc. done. }
  rewrite E2. by rewrite !list.Forall_cons.
Qed.

Let d := f_side g.

Lemma rotate_perm (a1 a2 a3 : Z) (A B C T : list Z) :
  Permutation (a1 :: a2 :: a3 :: A ++ B ++ C ++ T) (a1 :: a2 :: a3 :: C ++ A ++ B ++ T).
Proof.
  do 3 constructor. rewrite (app_assoc A B), (app_assoc A B T). apply Permutation_app_swap_app.
Qed.

Lemma rotate_outer : f_side p = d ->
  rotate p g s = bin d (f_addr p) BLACK s (f_data p) (bin d (f_addr g) RED (f_sib p) (f_data g) (f_sib g)).
Proof. intros E. unfold rotate. fold d. by rewrite E, Z.eqb_refl. Qed.

Lemma rotate_inner a c sd x se : is_side d -> f_side p = 1 - d -> s = bin d a c sd x se ->
  rotate p g s = bin d a BLACK (bin d (f_addr p) RED (f_sib p) (f_data p) sd) x
    (bin d (f_addr g) RED se (f_data g) (f_sib g)).
Proof. intros Hd Ep ->. unfold rotate. fold d. rewrite Ep. by destruct Hd as [-> | ->]. Qed.

Lemma rotate_ok k : f_clr p = RED ->
  (drcts t).[k] = Ok (head_side fs) -> (nodes t).[k] = Ok (head_ptr fs) ->
  exists r' m',
  ('(t, yNd) ←
     (if f_side p =? 1 - d then
        xn ← get (st t r m) (At (f_addr p));
        let yNd := child (1 - d) xn in
        yn ← get (st t r m) yNd;
        t ← update (st t r m) (At (f_addr p)) (fun n => with_child (1 - d) n (child d yn));
        t ← update t yNd (fun n => with_child d n (At (f_addr p)));
        t ← update t (At (f_addr g)) (fun n => with_child d n yNd);
        Ok (t, yNd)
      else Ok (st t r m, At (f_addr p)));
   t ← update t (At (f_addr g)) (fun n => with_clr n RED);
   t ← update t yNd (fun n => with_clr n BLACK);
   yn ← get t yNd;
   t ← update t (At (f_addr g)) (fun n => with_child d n (child (1 - d) yn));
   t ← update t yNd (fun n => with_child (1 - d) n (At (f_addr g)));
   d3 ← (drcts t).[k];
   top ← (nodes t).[k];
   update t top (fun n => with_child (if d3 =? 0 then 0 else 1) n yNd)) = Ok (st t r' m') /\
  holds (st t r' m') (plug fs (rotate p g s)).
Proof.
  intros Ered Ed En. destruct turn_parts as ((Hp & Hg & Rs & Rp & Ru & Rf) & Hl & Hnd & Hin).
  rewrite Ered in Hp. apply Forall_cons_1 in Hs as [Hsp Hs']. apply Forall_cons_1 in Hs' as [Hd Hsf]. fold d in Hd, Hg.
  destruct (Z.eqb_spec (f_side p) (1 - d)) as [Ep|Ep].
  - assert (Eb : exists a c sd x se, s = bin d a c sd x se).
    { destruct s as [|a c l x rr]; [done|]. destruct (bin_cases a c l x rr d Hd) as (sd & se & ->). eauto 10. }
    destruct Eb as (a & c & sd & x & se & Eb). rewrite (rotate_inner a c sd x se Hd Ep Eb).
    rewrite Eb in Rs, Hp, Hnd, Hin. rewrite Ep, mkn_swap, ptr_of_bin in Hp by done.
    apply rep_bin in Rs as (Ha & Rsd & Rse).
    rewrite bin_perm in Hnd, Hin. cbn [app] in Hnd, Hin. rewrite <- app_assoc, rotate_perm in Hnd, Hin.
    pose proof Hnd as D. rewrite !list.NoDup_cons in D. pose proof Hin as I. rewrite !list.Forall_cons in I.
    destruct_and?. apart.
    run_get. run_get. do 3 run_update.
    match goal with |- context [st t r ?m1] => set (m' := m1) end.
    assert (E2 : Permutation (f_addr p :: f_addr g :: a :: addrs (f_sib p) ++ addrs sd ++ addrs se ++ addrs (f_sib g) ++ path_addrs fs)
      (a :: f_addr g :: addrs (bin d (f_addr p) RED (f_sib p) (f_data p) sd) ++ addrs se ++ addrs (f_sib g) ++ path_addrs fs)).
    { rewrite bin_perm. cbn [app]. rewrite <- app_assoc. symmetry.
      etransitivity; [apply perm_swap|]. etransitivity; [apply perm_skip, perm_swap | apply perm_swap]. }
    rewrite E2 in Hnd, Hin.
    apply (raise_ok t r m' fs d a c (bin d (f_addr p) RED (f_sib p) (f_data p) sd) se x (f_addr g) (f_clr g));
      try done; unfold m'; try untouched; try (rewrite ptr_of_bin; map_lookup); try map_lookup.
    rewrite rep_bin. split; [map_lookup|]. split; untouched.
  - assert (Ep' : f_side p = d) by (destruct Hsp, Hd; lia).
    rewrite (rotate_outer Ep'). cbn [mbind res_bind]. rewrite Ep' in Hp.
    by apply (raise_ok t r m fs d (f_addr p) RED s (f_sib p) (f_data p) (f_addr g) (f_clr g)).
Qed.
End Turn.

(** One turn of the loop. *)
Lemma fix_turn_ok t r m fs s fs' s' go : holds (st t r m) (plug fs s) -> sides fs -> s <> Leaf ->
  path_arrays (nodes t) (drcts t) fs -> (length fs < length (nodes t))%nat -> (length fs < length (drcts t))%nat ->
  turn fs s = (fs', s', go) ->
  exists r' m', fix_turn (st t r m) (zlen fs + 1) =
      Ok (st t r' m', if go then zlen fs' + 1 else zlen fs + 1, go) /\
    holds (st t r' m') (plug fs' s').
Proof.
  intros H Hs Hred Harr Hn Hd E. unfold fix_turn.
  change (nodes (st t r m)) with (nodes t). change (drcts (st t r m)) with (drcts t).
  rewrite Z.add_simpl_r, (aget_ok NULL (nodes t) (zlen fs)) by lia. cbn [mbind res_bind].
  destruct fs as [|p [|g fs2]]; cbn [path_arrays] in Harr.
  - destruct Harr as (-> & _). cbn [head_ptr get mbind res_bind turn] in *. injection E as <- <- <-.
    rewrite orb_true_r. exists r, m. done.
  - destruct Harr as (-> & _). apply holds_plug in H as H'. destruct H' as ((Hp & _) & _). cbn [path_rep] in Hp.
    cbn [head_ptr turn] in *. rewrite (get_st t r m _ _ (proj1 Hp)). cbn [mbind res_bind length].
    injection E as <- <- <-. rewrite orb_true_r. exists r, m. done.
  - destruct Harr as (-> & Esp & E2 & Esg & Harr). apply holds_plug in H as H'. destruct H' as ((Hp & _) & _).
    cbn [path_rep] in Hp. cbn [head_ptr head_side] in *. rewrite (get_st t r m _ _ (proj1 Hp)). cbn [mbind res_bind].
    rewrite clr_mkn. cbn [turn] in E. destruct (Z.eqb_spec (f_clr p) RED) as [Ered|]; cbn [negb orb];
      [|injection E as <- <- <-; by exists r, m].
    cbn [length] in *. destruct (Z.ltb_spec (Z.of_nat (Datatypes.S (Datatypes.S (length fs2))) + 1) 3); [lia|].
    set (k := zlen fs2). assert (Ek : zlen fs2 = k) by done.
    replace (Z.of_nat (Datatypes.S (Datatypes.S (length fs2))) + 1) with (k + 3) in * by lia.
    replace (Z.of_nat (Datatypes.S (Datatypes.S (length fs2)))) with (k + 2) in * by lia.
    replace (Z.of_nat (Datatypes.S (length fs2))) with (k + 1) in * by lia.
    replace (k + 3 - 2) with (k + 1) by lia. replace (k + 3 - 1) with (k + 2) by lia.
    replace (k + 3 - 3) with k by lia.
    rewrite (aget_ok 0 (drcts t) (k + 1)), (aget_ok NULL (nodes t) (k + 1)) by lia. rewrite Esg, E2.
    cbn [mbind res_bind]. destruct Hp as (Hp1 & _ & Hg & _).
    rewrite (get_st t r m _ _ Hg). cbn [mbind res_bind].
    apply Forall_cons_1 in Hs as Hs'. destruct Hs' as [_ Hs']. apply Forall_cons_1 in Hs' as [Hdg _].
    rewrite child_mkn_other by done.
    destruct (turn_parts t r m p g fs2 s H) as ((_ & _ & _ & _ & Ru & _) & _).
    destruct (Z.eqb_spec (colour (f_sib g)) RED) as [Ec|Ec]; injection E as <- <- <-.
    + destruct (f_sib g) as [|au cu ul xu ur] eqn:Eu; [done|]. cbn [colour] in Ec. subst cu. cbn [ptr_of].
      cbn [rep] in Ru. rewrite (get_st t r m _ _ (proj1 Ru)). cbn [mbind res_bind clr].
      change (RED =? RED) with true. cbv iota.
      destruct (recolour_ok t r m p g fs2 s H au ul xu ur Eu) as (m' & E & Hh).
      exists r, m'. split; [|done]. apply bind_Ok_inv in E as (t1 & -> & E). cbn [mbind res_bind].
      apply bind_Ok_inv in E as (t2 & -> & E). cbn [mbind res_bind]. rewrite E. cbn [mbind res_bind].
      done.
    + assert (Er : match ptr_of (f_sib g) with NULL => Ok false
        | _ => yn ← get (st t r m) (ptr_of (f_sib g)); Ok (clr yn =? RED) end = Ok false).
      { destruct (f_sib g) as [|au cu ul xu ur]; [done|]. cbn [ptr_of rep colour] in *.
        rewrite (get_st t r m _ _ (proj1 Ru)). cbn [mbind res_bind clr]. by destruct (Z.eqb_spec cu RED). }
      rewrite Er. cbn [mbind res_bind]. rewrite (aget_ok 0 (drcts t) (k + 2)) by lia. rewrite Esp. cbn [mbind res_bind].
      assert (A1 : (drcts t).[k] = Ok (head_side fs2) /\ (nodes t).[k] = Ok (head_ptr fs2)).
      { rewrite (aget_ok 0), (aget_ok NULL) by lia. unfold k.
        destruct fs2; cbn [path_arrays] in Harr; destruct Harr as (E3 & E4 & _); by rewrite E3, E4. }
      destruct (rotate_ok t r m p g fs2 s H Hs Hred k Ered) as (r' & m' & E & Hh); [apply A1..|].
      exists r', m'. split; [|done]. rewrite (get_st t r m _ _ Hp1) in E. cbn [mbind res_bind] in E.
      apply bind_Ok_inv in E as ([t1 yNd] & E1 & E). rewrite E1. cbn [mbind res_bind].
      repeat (apply bind_Ok_inv in E as (? & E1' & E); rewrite E1'; clear E1'; cbn [mbind res_bind]).
      rewrite E. cbn [mbind res_bind]. done.
Qed.
