(* ===== verification/RbtInsert.v ===== *)
(** * Insertion into the tree

    [TreeInsert] on a tree in memory is the insertion of a record into the
    sorted list of the tree's records: the way down, the loop that restores
    the colours, and the invariant of the tree with its memory. *)

From Stdlib Require Import Sorted Permutation.
From stdpp Require Import gmap sets.
From S2P Require Import Prelude Rbt RbtTree Groups RbtHeap.

(** ** The loop *)

Lemma turn_addrs fs s fs' s' go : s <> Leaf -> sides fs -> turn fs s = (fs', s', go) ->
  Permutation (addrs (plug fs' s')) (addrs (plug fs s)).
Proof.
  intros Hs Hd E. destruct fs as [|p [|g fs2]]; cbn [turn] in E; [by injection E as <- <- <-..|].
  destruct (f_clr p =? RED); [|by injection E as <- <- <-].
  apply Forall_cons_1 in Hd as [Hp Hd]. apply Forall_cons_1 in Hd as [Hg _].
  destruct (colour (f_sib g) =? RED) eqn:Ec; injection E as <- <- <-; cbn [plug fold_left];
    fold (plug fs2 (plug1 g (plug1 p s))); rewrite !addrs_plug; f_equiv; unfold plug1.
  - unfold recolour. rewrite !bin_perm. destruct (f_sib g); reflexivity.
  - unfold rotate. destruct (Z.eqb_spec (f_side p) (f_side g)).
    + rewrite !bin_perm. permute.
    + destruct s as [|a c l x r]; [done|]. cbn [addrs]. destruct (f_side g =? 0); rewrite !bin_perm; cbn [addrs]; permute.
Qed.

Lemma sides_suffix fs s fs' s' go : sides fs -> turn fs s = (fs', s', go) -> sides fs'.
Proof.
  intros Hd E. destruct fs as [|p [|g fs2]]; cbn [turn] in E; [by injection E as <- <- <-..|].
  destruct (f_clr p =? RED); [|by injection E as <- <- <-].
  apply Forall_cons_1 in Hd as [_ Hd]. apply Forall_cons_1 in Hd as [_ Hd].
  by destruct (colour (f_sib g) =? RED); injection E as <- <- <-.
Qed.

Lemma arrays_suffix ns ds fs s fs' s' go : path_arrays ns ds fs -> turn fs s = (fs', s', go) -> path_arrays ns ds fs'.
Proof.
  intros Ha E. destruct fs as [|p [|g fs2]]; cbn [turn] in E; [by injection E as <- <- <-..|].
  destruct (f_clr p =? RED); [|by injection E as <- <- <-].
  cbn [path_arrays] in Ha. destruct (colour (f_sib g) =? RED); injection E as <- <- <-; tauto.
Qed.

(** What a state of the loop has become, up to balance. *)
Lemma fix_loop_ok t fuel : forall fs s r m n, holds (st t r m) (plug fs s) -> sides fs ->
  path_arrays (nodes t) (drcts t) fs -> (length fs < length (nodes t))%nat -> (length fs < length (drcts t))%nat ->
  rb_path n fs -> rbt n RED s -> (length fs + 1 < fuel)%nat ->
  exists r' m' sl T n' c',
    while fuel (fun '(_, _, go) => Ok go) (fun '(t, sl, _) => fix_turn t sl) (st t r m, zlen fs + 1, true) =
      Ok (st t r' m', sl, false) /\
    holds (st t r' m') T /\ inorder T = inorder (plug fs s) /\ Permutation (addrs T) (addrs (plug fs s)) /\
    rbt n' c' T.
Proof.
  induction fuel as [|fuel IH]; intros fs s r m n H Hs Ha Hn Hd Hp Hr Hf; [lia|].
  assert (Hne : s <> Leaf) by by inversion Hr.
  cbn [while mbind res_bind]. destruct (turn fs s) as [[fs' s'] go] eqn:E.
  destruct (fix_turn_ok t r m fs s fs' s' go H Hs Hne Ha Hn Hd E) as (r1 & m1 & -> & H1). cbn [mbind res_bind].
  pose proof (turn_rbt n fs s fs' s' go Hp Hr Hs E) as Hb.
  pose proof (turn_inorder fs s fs' s' go Hs Hne E) as Ei. pose proof (turn_addrs fs s fs' s' go Hne Hs E) as Ea.
  destruct go.
  - destruct Hb as [(n1 & Hp1 & Hr1) Hl].
    destruct (IH fs' s' r1 m1 n1) as (r' & m' & sl & T & n' & c' & -> & HT & EiT & EaT & Hb'); try done; try lia.
    { by apply (sides_suffix fs s fs' s' true). }
    { by apply (arrays_suffix _ _ fs s fs' s' true). }
    exists r', m', sl, T, n', c'. split; [done|]. split; [done|]. rewrite EiT, EaT. done.
  - destruct Hb as (n' & c' & Hb). destruct fuel as [|fuel]; [lia|]. cbn [while mbind res_bind].
    exists r1, m1, (zlen fs + 1), (plug fs' s'), n', c'. done.
Qed.

(** The root is made black. *)
Lemma blacken_ok t r m T : holds (st t r m) T -> T <> Leaf ->
  exists m', update (st t r m) (left (root (st t r m))) (fun n => with_clr n BLACK) = Ok (st t r m') /\
    holds (st t r m') (blacken T).
Proof.
  intros [H1 H2 H3 H4] Hne. destruct T as [|a c l x rr]; [done|]. rewrite H2. cbn [ptr_of].
  cbn [memPool st with_root with_pool rep addrs] in *. destruct H1 as (Ha & Hl & Hr).
  apply list.NoDup_cons in H3 as H3'. destruct H3' as [Hn _]. apply list.not_elem_of_app in Hn as [Hn1 Hn2].
  apply Forall_cons_1 in H4 as H4'. destruct H4' as [Hin _].
  rewrite (update_st t r m a _ _ Ha Hin). eexists. split; [reflexivity|]. split; try done.
  cbn [blacken rep memPool st with_root with_pool]. split; [apply lookup_insert_eq|]. split; untouched.
Qed.

(** ** The way down *)

(** The path with one more node. *)
Lemma path_arrays_insert ns ds fs i p d : path_arrays ns ds fs -> zlen fs < i ->
  path_arrays (<[Z.to_nat i := p]> ns) (<[Z.to_nat i := d]> ds) fs.
Proof.
  induction fs as [|f fs IH]; cbn [path_arrays length]; intros Ha Hi.
  - rewrite !zth_insert_ne by lia. done.
  - destruct Ha as (E1 & E2 & Ha). rewrite !zth_insert_ne by lia. split; [done|]. split; [done|]. apply IH; [done | lia].
Qed.

Lemma set_path_ok t fs f : path_arrays (nodes t) (drcts t) fs -> zlen fs + 1 < zlen (nodes t) -> zlen fs + 1 < zlen (drcts t) ->
  exists ns ds, set_path t (zlen fs + 1) (At (f_addr f)) (f_side f) = Ok (with_path t ds ns) /\
    path_arrays ns ds (f :: fs) /\ length ns = length (nodes t) /\ length ds = length (drcts t).
Proof.
  intros Ha Hn Hd. unfold set_path. rewrite !aset_ok by lia. cbn [mbind res_bind]. eexists _, _. split; [reflexivity|].
  split; [|by rewrite !length_insert].
  cbn [path_arrays length head_ptr head_side].
  replace (Z.of_nat (Datatypes.S (length fs))) with (zlen fs + 1) by lia.
  rewrite !zth_insert_eq by lia. split; [done|]. split; [done|]. apply path_arrays_insert; [done | lia].
Qed.

(** The fields that the way down does not change. *)
Definition same_sizes (t t' : RBTree) : Prop :=
  treeNodeSize t' = treeNodeSize t /\ memoryLimit t' = memoryLimit t /\ nNodesLimit t' = nNodesLimit t /\
  count t' = count t /\ nd t' = nd t /\ nm t' = nm t /\
  length (nodes t') = length (nodes t) /\ length (drcts t') = length (drcts t).

Definition same_alloc (t t' : RBTree) : Prop :=
  memaddr t' = memaddr t /\ freeNodeCounter t' = freeNodeCounter t /\ memoryIsFull t' = memoryIsFull t.

Lemma add_measures_ok n mx x : zlen x = n -> zlen mx = n ->
  Forall (fun s => - 2 ^ 63 <= s < 2 ^ 63) (zip_with Z.add x mx) ->
  add_measures n mx x = Ok (zip_with Z.add x mx).
Proof.
  intros Hx Hm Hf. unfold add_measures.
  assert (Hl : length (zip_with Z.add x mx) = length x) by (rewrite length_zip_with; lia).
  assert (Hz : forall i, 0 <= i < n -> zth 0 (zip_with Z.add x mx) i = zth 0 x i + zth 0 mx i).
  { intros i Hi. apply zth_vadd; lia. }
  destruct (for_range_map 0 (fun i => zth 0 x i + zth 0 mx i)
    (fun ii x => a ← x.[ii]; b ← mx.[ii]; s ← chk 64 (a + b); x.[ii <- s]) n x) as (y & -> & Hly & Hy); [lia | |].
  - intros i y Hi Hly Hy. rewrite (aget_ok 0 y), (aget_ok 0 mx), Hy by lia. cbn [mbind res_bind].
    assert (- 2 ^ 63 <= zth 0 x i + zth 0 mx i < 2 ^ 63).
    { rewrite <- Hz by lia. rewrite list.Forall_forall in Hf. apply Hf, zth_In. lia. }
    by rewrite chk_ok by lia.
  - f_equal. apply (zth_ext 0); [lia|]. intros i Hi. rewrite Hy, Hz by lia.
    by destruct (Z.ltb_spec i n); [|lia].
Qed.

(** Trees that differ in their records only. *)
Inductive alike : tree -> tree -> Prop :=
| alike_leaf : alike Leaf Leaf
| alike_bin a c l l' x x' r r' : alike l l' -> alike r r' -> alike (Bin a c l x r) (Bin a c l' x' r').

Lemma alike_refl T : alike T T.
Proof. induction T; by constructor. Qed.

Lemma alike_plug fs s s' : alike s s' -> alike (plug fs s) (plug fs s').
Proof.
  revert s s'. induction fs as [|f fs IH]; intros s s' H; [done|]. cbn [plug fold_left]. apply IH.
  unfold plug1, bin. destruct (f_side f =? 0); constructor; auto using alike_refl.
Qed.

Lemma alike_rbt T T' : alike T T' -> forall n c, rbt n c T -> rbt n c T'.
Proof. induction 1; intros n c0 Hr; [done|]. inversion Hr; subst; econstructor; eauto. Qed.

Lemma alike_addrs T T' : alike T T' -> addrs T = addrs T'.
Proof. induction 1 as [|a c l l' x x' r r' _ IHl _ IHr]; cbn [addrs]; [done|]. by rewrite IHl, IHr. Qed.

(** The records around a path are on the right sides of a key. *)
Definition ctx_ok (x : data) (fs : list frame) : Prop :=
  Forall (fun y => key_lt y x) (before fs) /\ Forall (fun y => key_lt x y) (after fs).

Lemma sorted_parts B L A : sorted (B ++ L ++ A) -> sorted L.
Proof.
  intros Hs. induction B as [|y B IH]; cbn [app] in Hs; [|by inversion Hs; subst; apply IH].
  induction L as [|y L IH]; [constructor|]. cbn [app] in Hs. inversion Hs as [|? ? H1 H2]; subst.
  constructor; [by apply IH|]. by apply Forall_app in H2 as [H2 _].
Qed.

Lemma sorted_node B y A : sorted (B ++ y :: A) -> Forall (fun z => key_lt z y) B /\ Forall (key_lt y) A.
Proof.
  intros Hs. induction B as [|z B IH]; cbn [app] in Hs; inversion Hs as [|? ? H1 H2]; subst.
  - by split.
  - destruct (IH H1) as [HB HA]. split; [|done]. constructor; [|done].
    apply Forall_app in H2 as [_ H2]. by apply Forall_cons_1 in H2 as [H2 _].
Qed.

Section Descend.
Context (nm nd : Z) (x : data).
Hypothesis Hx : shaped nm nd x.

Lemma ctx_step fs d a c t1 y sib : is_side d -> ctx_ok x fs -> sorted (inorder (bin d a c t1 y sib)) ->
  Forall (shaped nm nd) (inorder (bin d a c t1 y sib)) ->
  key_cmp (dims x) (dims y) = (if d =? 0 then Lt else Gt) -> ctx_ok x (Frame d a c y sib :: fs).
Proof.
  intros Hd [Hb Ha] Hs Hsh Hc. unfold ctx_ok. cbn [before after]. unfold before1, after1. cbn [f_side f_sib f_data].
  rewrite inorder_bin in Hs, Hsh. destruct Hd as [-> | ->]; cbn [Z.eqb] in *.
  - apply sorted_node in Hs as [_ Hs]. rewrite app_nil_r. split; [done|]. apply Forall_app. split; [|done].
    apply Forall_app in Hsh as [_ Hsh]. apply Forall_cons_1 in Hsh as [Hy Hsh].
    constructor; [done|]. rewrite list.Forall_forall in *. intros z Hz. apply (key_lt_trans nm nd x y z); auto.
  - apply sorted_node in Hs as [Hs _]. split; [|done]. apply Forall_app. split; [done|].
    apply Forall_app in Hsh as [Hsh Hy]. apply Forall_cons_1 in Hy as [Hy _].
    assert (Hyx : key_lt y x) by (unfold key_lt; by rewrite key_cmp_opp, Hc).
    apply Forall_app. split; [|by constructor]. rewrite list.Forall_forall in *. intros z Hz.
    apply (key_lt_trans nm nd z y x); auto.
Qed.

(** The key is at this node. *)
Lemma upsert_here fs a c l y r : ctx_ok x fs -> sorted (inorder (plug fs (Bin a c l y r))) ->
  Forall (shaped nm nd) (inorder (plug fs (Bin a c l y r))) -> key_cmp (dims x) (dims y) = Eq ->
  inorder (plug fs (Bin a c l (merge y x) r)) = upsert x (inorder (plug fs (Bin a c l y r))).
Proof.
  intros [Hb Ha] Hs Hsh Hc. rewrite !inorder_plug in *.
  assert (Hl : Forall (fun z => key_lt z x) (inorder l)).
  { apply sorted_parts in Hs. cbn [inorder] in Hs. apply sorted_node in Hs as [Hs _].
    unfold key_lt in *. replace (dims x) with (dims y); [done|]. symmetry. apply key_cmp_eq; [|done].
    apply Forall_app in Hsh as [_ Hsh]. apply Forall_app in Hsh as [Hsh _]. cbn [inorder] in Hsh.
    apply Forall_app in Hsh as [_ Hsh]. apply Forall_cons_1 in Hsh as [[_ Hy] _]. destruct Hx. lia. }
  rewrite upsert_left by done. f_equal. cbn [inorder]. rewrite <- !app_assoc, upsert_left by done.
  cbn [app upsert]. by rewrite Hc.
Qed.

(** The key belongs below the path. *)
Lemma upsert_below fs : ctx_ok x fs -> upsert x (inorder (plug fs Leaf)) = before fs ++ x :: after fs.
Proof. intros [Hb Ha]. rewrite inorder_plug. cbn [inorder]. by rewrite upsert_left, upsert_right by done. Qed.
End Descend.

Lemma holds_split t fs s : holds t (plug fs s) <->
  (path_rep (memPool t) fs (ptr_of s) /\ rep (memPool t) s) /\ left (root t) = top fs (ptr_of s) /\
  NoDup (addrs s ++ path_addrs fs) /\ Forall (fun a => in_pool t a = true) (addrs s ++ path_addrs fs).
Proof. rewrite <- (st_same t) at 1. apply holds_plug. Qed.

(** What the way down leaves behind. *)
Definition added (t t' : RBTree) (x : data) (T : tree) : Prop :=
  same_sizes t t' /\ same_alloc t t' /\
  exists T', holds t' T' /\ inorder T' = upsert x (inorder T) /\ alike T T'.

Definition linked (t t' : RBTree) (sl : Z) (p : ptr) (x : data) (T : tree) : Prop :=
  exists fs, p = At (memaddr t) /\ sl = zlen fs + 1 /\ fs <> [] /\ plug fs Leaf = T /\ sides fs /\ ctx_ok x fs /\
    path_arrays (nodes t') (drcts t') fs /\ same_sizes t t' /\ same_alloc (new_tree_node t) t' /\
    path_rep (memPool t') fs p /\ left (root t') = top fs p.

(** A new node is linked below the path. *)
Lemma link_new_ok t f fs T : plug (f :: fs) Leaf = T -> holds t T -> sides (f :: fs) ->
  exists r' m',
    update (new_tree_node t) (At (f_addr f)) (fun n => with_child (f_side f) n (At (memaddr t))) =
      Ok (st (new_tree_node t) r' m') /\
    path_rep m' (f :: fs) (At (memaddr t)) /\ left r' = top (f :: fs) (At (memaddr t)).
Proof.
  intros <- H Hsd. apply holds_split in H as ((Hp & _) & Hl & Hnd & Hin). cbn [addrs app ptr_of] in *.
  destruct (link_st (new_tree_node t) (root t) (memPool t) (f :: fs) NULL (At (memaddr t)))
    as (r' & m' & E & Hp' & Hl' & _); try done.
  exists r', m'. split; [|done]. cbn [head_ptr head_side] in E. apply Forall_cons_1 in Hsd as [Hf _].
  assert (Hf' : (if f_side f =? 0 then 0 else 1) = f_side f) by by destruct Hf as [-> | ->].
  rewrite Hf' in E. exact E.
Qed.

(** The side on which the way goes on. *)
Lemma cmp_side c : c <> Eq -> exists d, is_side d /\ (cmp_int c =? 0) = false /\
  (if cmp_int c <? 0 then 0 else 1) = d /\ c = if d =? 0 then Lt else Gt.
Proof. intros H. destruct c; [done | exists 0 | exists 1]; (split; [by constructor | done]). Qed.

Lemma descend_ok x : forall fuel s fs t, holds t (plug fs s) -> s <> Leaf -> sides fs ->
  path_arrays (nodes t) (drcts t) fs ->
  shaped (nm t) (nd t) x -> Forall (shaped (nm t) (nd t)) (inorder (plug fs s)) -> sorted (inorder (plug fs s)) ->
  ctx_ok x fs -> sums_fit x (inorder (plug fs s)) ->
  (length fs + height s < length (nodes t))%nat -> (length fs + height s < length (drcts t))%nat ->
  (height s <= fuel)%nat ->
  exists o, descend fuel t (zlen fs + 1) (ptr_of s) x = Ok o /\
    match o with
    | Added t' => added t t' x (plug fs s)
    | Linked t' sl p => linked t t' sl p x (plug fs s)
    end.
Proof.
  induction fuel as [|fuel IH]; intros s fs t H Hne Hsd Ha Hx Hsh Hso Hc Hf Hn Hd Hfu;
    destruct s as [|a c l y r]; try done; cbn [height] in *; [lia|].
  cbn [descend ptr_of]. apply holds_split in H as H'. destruct H' as ((Hp & Hrep) & Hl & Hnd & Hin).
  cbn [rep addrs] in Hrep, Hnd, Hin. destruct Hrep as (Hnode & Hrl & Hrr). cbn [get]. rewrite Hnode. cbn [mbind res_bind].
  cbn [nodeMemPool]. assert (Hmem : y ∈ inorder (plug fs (Bin a c l y r))).
  { rewrite inorder_plug. cbn [inorder]. rewrite !list.elem_of_app, list.elem_of_cons. tauto. }
  assert (Hy : shaped (nm t) (nd t) y) by (rewrite list.Forall_forall in Hsh; by apply Hsh).
  destruct (Hx) as [Hxm Hxd]. destruct (Hy) as [Hym Hyd].
  rewrite (KeyComp_ok (dims x) (dims y)) by lia. cbn [mbind res_bind].
  destruct (decide (key_cmp (dims x) (dims y) = Eq)) as [Ec|Ec].
  - (* the same key *)
    rewrite Ec. cbn [cmp_int Z.eqb].
    assert (Ed : dims y = dims x) by (symmetry; apply key_cmp_eq; [lia | done]).
    rewrite (add_measures_ok (nm t)) by (done || by apply Hf). cbn [mbind res_bind put].
    apply Forall_app in Hin as [Hin1 Hin2]. apply Forall_cons_1 in Hin1 as [Hina Hin1]. rewrite Hina. cbn [mbind res_bind].
    eexists. split; [reflexivity|]. split; [by repeat split|]. split; [by repeat split|].
    exists (plug fs (Bin a c l (merge y x) r)). split; [|split].
    + apply holds_split. cbn [memPool with_pool root addrs ptr_of rep]. cbn [app] in Hnd.
      apply list.NoDup_cons in Hnd as Hnd'. destruct Hnd' as [D _]. rewrite !list.not_elem_of_app in D. destruct_and?.
      split; [split; [untouched|]|].
      { split; [apply lookup_insert_eq|]. split; untouched. }
      split; [done|]. split; [done|]. apply Forall_app. split; [by constructor | done].
    + by apply (upsert_here (nm t) (nd t) x).
    + apply alike_plug. constructor; apply alike_refl.
  - (* another key *)
    destruct (cmp_side _ Ec) as (d & Hds & -> & -> & Ecd).
    destruct (bin_cases a c l y r d Hds) as (t1 & s1 & E1).
    assert (Hch : child d (TreeNode (ptr_of l) (ptr_of r) c y) = ptr_of t1 /\
      (height t1 <= Nat.max (height l) (height r))%nat).
    { destruct Hds as [-> | ->]; injection E1 as <- <-; cbn; split; (done || lia). }
    destruct Hch as [-> Hh]. rewrite E1 in *. set (f := Frame d a c y s1).
    change (plug fs (bin d a c t1 y s1)) with (plug (f :: fs) t1) in *.
    assert (Hsd' : sides (f :: fs)) by by constructor.
    destruct (set_path_ok t fs f) as (ns & ds & Esp & Ha' & Ln & Ld); [done | lia | lia |].
    unfold f in Esp. cbn [f_addr f_side] in Esp. rewrite Esp. cbn [mbind res_bind].
    assert (Hc' : ctx_ok x (f :: fs)).
    { apply (ctx_step (nm t) (nd t) x Hx _ _ _ _ t1); try done.
      - change (plug (f :: fs) t1) with (plug fs (plug1 f t1)) in Hso. rewrite inorder_plug in Hso. by apply sorted_parts in Hso.
      - change (plug (f :: fs) t1) with (plug fs (plug1 f t1)) in Hsh. rewrite inorder_plug in Hsh.
        apply Forall_app in Hsh as [_ Hsh]. by apply Forall_app in Hsh as [Hsh _]. }
    replace (zlen fs + 1 + 1) with (zlen (f :: fs) + 1) by (subst f; cbn [length]; lia).
    assert (Ht1 : t1 = Leaf \/ t1 <> Leaf) by (destruct t1; by auto). destruct Ht1 as [-> | Hne1].
    + cbn [ptr_of].
      assert (H1 : holds (with_path t ds ns) (plug (f :: fs) Leaf)) by (destruct H; by split).
      destruct (link_new_ok (with_path t ds ns) f fs _ eq_refl H1 Hsd') as (r' & m' & E & Hp' & Hl').
      cbn [mp new_tree_node]. change (memaddr (with_path t ds ns)) with (memaddr t) in *.
      change a with (f_addr f). change d with (f_side f). rewrite E. cbn [mbind res_bind]. eexists. split; [reflexivity|].
      exists (f :: fs). do 7 (split; [done|]). split; [by repeat split|]. split; [by repeat split|]. done.
    + destruct (IH t1 (f :: fs) (with_path t ds ns)) as (o & E & Ho); try done; cbn [nodes drcts with_path length];
        [destruct H; by split | lia..|].
      exists o. split.
      * destruct t1; [done|]. exact E.
      * destruct o as [t' | t' sl p].
        -- destruct Ho as (Hs1 & Hs2 & Ho). split; [|by split]. unfold same_sizes in *.
           cbn [nodes drcts with_path treeNodeSize memoryLimit nNodesLimit count nd nm] in *. by rewrite Ln, Ld in Hs1.
        -- destruct Ho as (fs' & ? & ? & ? & ? & ? & ? & ? & Hs1 & Hs2 & ?). exists fs'.
           unfold same_sizes in *. cbn [nodes drcts with_path treeNodeSize memoryLimit nNodesLimit count nd nm] in *.
           rewrite Ln, Ld in Hs1. done.
Qed.
