(* ===== verification/RbtGroup.v ===== *)
(** * Grouping records with the tree

    The invariant of the tree and its pool of nodes, which every insertion
    keeps as long as the pool is not full; an insertion as the insertion of
    the record into the sorted list of groups; the traversals that write the
    groups; and their composition: the records of a chunk are grouped, in
    order, and their measures added up. *)

From Stdlib Require Import Sorted Permutation.
From stdpp Require Import gmap.
From S2P Require Import Prelude Rbt RbtTree Groups RbtHeap RbtInsert.

(** ** The pool of nodes *)

(** [k] nodes have been taken from the pool. *)
Record pool_ok (t : RBTree) (k : Z) : Prop := {
  p_size : 32 <= treeNodeSize t;
  p_limit : memoryLimit t < 2 ^ 32;
  p_nodes : nNodesLimit t = memoryLimit t / treeNodeSize t;
  p_some : 1 <= nNodesLimit t;
  p_path : length (nodes t) = 64%nat;
  p_drcts : length (drcts t) = 64%nat;
  p_used : 0 <= k <= nNodesLimit t;
  p_count : count t = k;
  p_next : memaddr t = k * treeNodeSize t;
  p_free : freeNodeCounter t = nNodesLimit t - k;
  p_full : memoryIsFull t = if k =? nNodesLimit t then 1 else 0
}.

Section Pool.
Context (t : RBTree) (k : Z) (P : pool_ok t k).

Lemma pool_fits : nNodesLimit t * treeNodeSize t <= memoryLimit t.
Proof.
  destruct P. rewrite p_nodes0, Z.mul_comm. apply Z.mul_div_le. lia.
Qed.

Lemma pool_small : nNodesLimit t < 2 ^ 28.
Proof. pose proof pool_fits. destruct P. nia. Qed.

Lemma pool_room : memoryIsFull t = 0 -> k < nNodesLimit t.
Proof. destruct P. rewrite p_full0. destruct (Z.eqb_spec k (nNodesLimit t)); lia. Qed.

Lemma pool_next : k < nNodesLimit t -> in_pool t (memaddr t) = true.
Proof.
  intros Hk. pose proof pool_fits. destruct P. unfold in_pool. rewrite p_next0.
  apply andb_true_intro. rewrite !Z.leb_le. nia.
Qed.

(** A node is taken. *)
Lemma pool_take t' : k < nNodesLimit t -> same_sizes t t' -> same_alloc (new_tree_node t) t' ->
  pool_ok (with_count t' (u32 (count t' + 1))) (k + 1).
Proof.
  intros Hk (E1 & E2 & E3 & E4 & E5 & E6 & E7 & E8) (F1 & F2 & F3). pose proof pool_fits. pose proof pool_small.
  destruct P. cbn [memaddr freeNodeCounter memoryIsFull new_tree_node] in *.
  assert (Ef : u32 (freeNodeCounter t - 1) = nNodesLimit t - (k + 1)) by (rewrite p_free0; rewrite unsigned_small; lia).
  split; cbn [with_count treeNodeSize memoryLimit nNodesLimit nodes drcts count memaddr freeNodeCounter memoryIsFull];
    rewrite ?E1, ?E2, ?E3, ?E4, ?E7, ?E8, ?F1, ?F2, ?F3; try done; try lia.
  - rewrite p_count0. rewrite unsigned_small; lia.
  - rewrite p_next0. rewrite unsigned_small; nia.
  - rewrite Ef, p_full0. destruct (Z.eqb_spec (nNodesLimit t - (k + 1)) 0), (Z.eqb_spec (k + 1) (nNodesLimit t)),
      (Z.eqb_spec k (nNodesLimit t)); lia.
Qed.

(** No node is taken. *)
Lemma pool_keep t' : same_sizes t t' -> same_alloc t t' -> pool_ok t' k.
Proof.
  intros (E1 & E2 & E3 & E4 & E5 & E6 & E7 & E8) (F1 & F2 & F3). destruct P.
  split; rewrite ?E1, ?E2, ?E3, ?E4, ?E7, ?E8, ?F1, ?F2, ?F3; done.
Qed.
End Pool.

(** ** The invariant *)

Definition taken (t : RBTree) (k : Z) (a : Z) : Prop := exists j, 0 <= j < k /\ a = j * treeNodeSize t.

Record wf (t : RBTree) (T : tree) : Prop := {
  wf_holds : holds t T;
  wf_pool : pool_ok t (size T);
  wf_taken : Forall (taken t (size T)) (addrs T);
  wf_shaped : Forall (shaped (nm t) (nd t)) (inorder T);
  wf_sorted : sorted (inorder T);
  wf_rbt : exists n, rbt n BLACK T
}.

Lemma taken_fresh t k l : pool_ok t k -> Forall (taken t k) l -> memaddr t ∉ l.
Proof.
  intros P H Hin. rewrite list.Forall_forall in H. destruct (H _ Hin) as (j & Hj & E). destruct P. nia.
Qed.

Lemma wf_height t T : wf t T -> (height T <= 56)%nat.
Proof.
  intros [_ P _ _ _ [n Hn]]. apply (height_small T n Hn). pose proof (pool_small _ _ P). destruct P. lia.
Qed.

Lemma in_pool_ext t t' a : same_sizes t t' -> in_pool t' a = in_pool t a.
Proof. intros (E1 & E2 & _). unfold in_pool. by rewrite E1, E2. Qed.

Lemma taken_step t t' k l : treeNodeSize t' = treeNodeSize t -> 0 <= k -> Forall (taken t k) l -> Forall (taken t' (k + 1)) (k * treeNodeSize t :: l).
Proof.
  intros E1 Hk H. constructor.
  - exists k. rewrite E1. split; [lia | done].
  - eapply list.Forall_impl; [exact H|]. intros a (j & Hj & Ea). exists j. rewrite E1. split; [lia | done].
Qed.

(** The new node is filled in. *)
Lemma init_node_ok t t' fs x : path_rep (memPool t') fs (At (memaddr t)) ->
  left (root t') = top fs (At (memaddr t)) -> (forall a, in_pool t' a = in_pool t a) -> in_pool t (memaddr t) = true ->
  holds t (plug fs Leaf) -> memaddr t ∉ addrs (plug fs Leaf) -> forall c,
  exists m', init_node t' (At (memaddr t)) x c = Ok (with_pool t' m') /\
    holds (with_pool t' m') (plug fs (Bin (memaddr t) c Leaf x Leaf)).
Proof.
  intros Hp Hl Hs Hin H Hf c. unfold init_node. cbn [put]. rewrite Hs, Hin.
  eexists. split; [reflexivity|]. apply holds_split in H as (_ & _ & Hnd & Hpool). cbn [addrs app] in *.
  rewrite addrs_plug in Hf. cbn [addrs app] in Hf.
  apply holds_split. cbn [addrs app memPool with_pool root ptr_of rep].
  split; [split; [untouched|]|].
  { by rewrite lookup_insert_eq. }
  split; [done|]. split; [by constructor|]. constructor.
  - by rewrite <- Hin, <- Hs.
  - eapply list.Forall_impl; [exact Hpool|]. intros a Ha. by rewrite <- Ha, <- Hs.
Qed.

(** What the insertion of a new node leaves is again a tree. *)
Lemma wf_grown t t' t1 r m x T T' : t1 = st (with_count t' (u32 (count t' + 1))) r m -> wf t T -> memoryIsFull t = 0 -> same_sizes t t' -> same_alloc (new_tree_node t) t' ->
  shaped (nm t) (nd t) x -> holds t1 T' -> Permutation (addrs T') (memaddr t :: addrs T) -> inorder T' = upsert x (inorder T) ->
  (exists n, rbt n BLACK T') -> wf t1 T'.
Proof.
  intros -> [_ P Ht Hsh Hso _] Hm Hs Ha Hx H Hperm Hi Hr.
  pose proof (pool_room _ _ P Hm) as Hk. pose proof (pool_take _ _ P t' Hk Hs Ha) as P'.
  assert (Es : size T' = size T + 1) by (rewrite !size_addrs, Hperm; cbn [length]; lia).
  split; [done | | | | | done].
  - rewrite Es. destruct P'. by split.
  - rewrite Es, Hperm. rewrite (p_next _ _ P). apply (taken_step t); [apply Hs | apply P | done].
  - rewrite Hi. destruct Hs as (_ & _ & _ & _ & E1 & E2 & _).
    cbn [nm nd st with_root with_pool with_count]. rewrite E1, E2. by apply upsert_shaped.
  - rewrite Hi. by apply (upsert_sorted (nm t) (nd t)).
Qed.

(** What no insertion changes *)
Definition kept (t t' : RBTree) : Prop :=
  nm t' = nm t /\ nd t' = nd t /\ nNodesLimit t' = nNodesLimit t /\ memoryLimit t' = memoryLimit t.

Lemma same_kept t t' : same_sizes t t' -> kept t t'.
Proof. intros (_ & E2 & E3 & _ & E5 & E6 & _). by repeat split. Qed.

(** The first record *)
Lemma insert_first t x : wf t Leaf -> memoryIsFull t = 0 -> shaped (nm t) (nd t) x ->
  exists t' T', TreeInsert t x = Ok t' /\ wf t' T' /\ inorder T' = upsert x [] /\ kept t t'.
Proof.
  intros W Hm Hx. pose proof (wf_holds _ _ W) as H. pose proof (wf_pool _ _ W) as P. unfold TreeInsert.
  rewrite (h_root _ _ H). cbn [ptr_of update get root mp new_tree_node with_count mbind res_bind put].
  change (memaddr (with_count t (u32 (count t + 1)))) with (memaddr t).
  pose proof (pool_room _ _ P Hm) as Hk. pose proof (pool_next _ _ P Hk) as Hin.
  set (t1 := with_root (new_tree_node (with_count t (u32 (count t + 1)))) (with_left (root t) (At (memaddr t)))).
  assert (Hs : same_sizes t (with_count t1 (count t))) by by repeat split.
  change (mp t1) with (At (memaddr t)). unfold init_node. cbn [put]. change (in_pool t1 (memaddr t)) with (in_pool t (memaddr t)). rewrite Hin.
  eexists _, (Bin (memaddr t) BLACK Leaf x Leaf). split; [reflexivity|]. split; [|by repeat split].
  apply (wf_grown t (with_count t1 (count t)) _ (root t1) (<[memaddr t:=TreeNode NULL NULL BLACK x]> (memPool t)) x Leaf);
    try done; [|by exists 1%nat; repeat econstructor].
  split; cbn [addrs app]; [| done | repeat constructor; set_solver | by constructor].
  cbn [rep]. split; [apply lookup_insert_eq | done].
Qed.

(** The colours are restored after a new red node was linked. *)
Lemma fix_colours_ok t r m a x fs : holds (st t r m) (plug fs (Bin a RED Leaf x Leaf)) -> sides fs ->
  path_arrays (nodes t) (drcts t) fs -> (length fs <= 56)%nat ->
  length (nodes t) = 64%nat -> length (drcts t) = 64%nat -> rb_path 0 fs ->
  exists r' m' T,
    (t ← fix_colours (st t r m) (zlen fs + 1); update t (left (root t)) (fun n => with_clr n BLACK)) = Ok (st t r' m') /\
    holds (st t r' m') T /\ inorder T = inorder (plug fs (Bin a RED Leaf x Leaf)) /\
    Permutation (addrs T) (addrs (plug fs (Bin a RED Leaf x Leaf))) /\ exists n, rbt n BLACK T.
Proof.
  intros H Hs Ha Hl Hn Hd Hp. unfold fix_colours.
  destruct (fix_loop_ok t (S (Z.to_nat MAX_TREE_HEIGHT)) fs (Bin a RED Leaf x Leaf) r m 0)
    as (r1 & m1 & sl & T & n & c & -> & HT & Ei & Ea & Hr); try done; try lia.
  { by repeat constructor. }
  { change (S (Z.to_nat MAX_TREE_HEIGHT)) with 65%nat. lia. }
  cbn [mbind res_bind].
  assert (Hne : T <> Leaf).
  { intros ->. rewrite addrs_plug in Ea. by apply Permutation_nil_l in Ea. }
  destruct (blacken_ok t r1 m1 T HT Hne) as (m2 & -> & HT2). exists r1, m2, (blacken T).
  split; [done|]. split; [done|]. rewrite inorder_blacken. split; [done|].
  split; [by destruct T|]. by eapply rbt_blacken.
Qed.

(** No node was added. *)
Lemma wf_kept t t' T T' : wf t T -> same_sizes t t' -> same_alloc t t' -> holds t' T' -> alike T T' ->
  Forall (shaped (nm t) (nd t)) (inorder T') -> sorted (inorder T') -> wf t' T'.
Proof.
  intros [_ P Ht _ _ [n Hr]] Hs Ha H Hal Hsh Hso.
  assert (Es : size T' = size T) by by rewrite !size_addrs, (alike_addrs _ _ Hal).
  split; [done | | | | done |].
  - rewrite Es. by apply (pool_keep t).
  - rewrite Es, <- (alike_addrs _ _ Hal). eapply list.Forall_impl; [exact Ht|]. intros a (j & Hj & ->). exists j.
    destruct Hs as (-> & _). done.
  - destruct Hs as (_ & _ & _ & _ & -> & -> & _). done.
  - exists n. by eapply alike_rbt.
Qed.

(** Insertion into a tree that is not empty. *)
Lemma insert_below t T x : wf t T -> T <> Leaf -> memoryIsFull t = 0 -> shaped (nm t) (nd t) x ->
  path_arrays (nodes t) (drcts t) [] -> sums_fit x (inorder T) ->
  exists t' T',
    (o ← descend (S (Z.to_nat MAX_TREE_HEIGHT)) t 1 (ptr_of T) x;
     match o with
     | Added t => Ok t
     | Linked t sl xNd =>
         let t := with_count t (u32 (count t + 1)) in
         t ← init_node t xNd x RED;
         t ← fix_colours t sl;
         update t (left (root t)) (fun n => with_clr n BLACK)
     end) = Ok t' /\ wf t' T' /\ inorder T' = upsert x (inorder T) /\ kept t t'.
Proof.
  intros W Hne Hm Hx Ha Hf. pose proof (wf_height _ _ W) as Hh. pose proof W as [H P Ht Hsh Hso [n Hr]].
  pose proof (p_path _ _ P) as Ln. pose proof (p_drcts _ _ P) as Ld.
  assert (Hfuel : (height T <= S (Z.to_nat MAX_TREE_HEIGHT))%nat) by (change (S (Z.to_nat MAX_TREE_HEIGHT)) with 65%nat; lia).
  destruct (descend_ok x (S (Z.to_nat MAX_TREE_HEIGHT)) T [] t) as (o & E & Ho); try done; cbn [length];
    [by constructor | lia | lia |].
  change (zlen [] + 1) with 1 in E. rewrite E. cbn [mbind res_bind plug fold_left] in Ho |- *. destruct o as [t' | t' sl p].
  - destruct Ho as (Hs & Hal & T' & H' & Hi & Hl). exists t', T'. split; [done|].
    split; [|split; [done | by apply same_kept]].
    apply (wf_kept t _ T); try done; rewrite Hi; [by apply upsert_shaped | by apply (upsert_sorted (nm t) (nd t))].
  - destruct Ho as (fs & -> & -> & Hfs & <- & Hsd & Hc & Ha' & Hs & Hal & Hp & Hl).
    pose proof (pool_room _ _ P Hm) as Hk. pose proof (pool_next _ _ P Hk) as Hin.
    pose proof (taken_fresh _ _ _ P Ht) as Hfresh. pose proof (height_plug fs Leaf).
    destruct (rb_path_plug n fs Leaf Hr) as (n' & c' & Hrp & Hrl & _). inversion Hrl; subst n' c'.
    set (t1 := with_count t' (u32 (count t' + 1))).
    destruct (init_node_ok t t1 fs x Hp Hl (fun a => in_pool_ext t t' a Hs) Hin H Hfresh RED) as (m1 & E1 & H1).
    rewrite E1. cbn [mbind res_bind].
    destruct (fix_colours_ok t1 (root t1) m1 (memaddr t) x fs) as (r2 & m2 & T' & E2 & H2 & Hi2 & Ha2 & Hr2); try done.
    { cbn in Hh, Hl |- *. lia. }
    { destruct Hs as (_ & _ & _ & _ & _ & _ & S7 & _). by rewrite <- Ln, <- S7. }
    { destruct Hs as (_ & _ & _ & _ & _ & _ & _ & S8). by rewrite <- Ld, <- S8. }
    exists (st t1 r2 m2), T'. split; [exact E2|].
    split; [|split; [|exact (same_kept t t' Hs)]].
    + apply (wf_grown t t' _ r2 m2 x (plug fs Leaf)); try done.
      * rewrite Ha2, !addrs_plug. done.
      * rewrite Hi2, inorder_plug, (upsert_below x fs) by done. done.
    + rewrite Hi2, inorder_plug, (upsert_below x fs) by done. done.
Qed.

(** Insertion of a record. *)
Lemma TreeInsert_ok t T x : wf t T -> memoryIsFull t = 0 -> shaped (nm t) (nd t) x -> sums_fit x (inorder T) ->
  exists t' T', TreeInsert t x = Ok t' /\ wf t' T' /\ inorder T' = upsert x (inorder T) /\
    kept t t'.
Proof.
  intros W Hm Hx Hf. assert (HT : T = Leaf \/ T <> Leaf) by (destruct T; by auto). destruct HT as [-> | Hne].
  { destruct (insert_first t x W Hm Hx) as (t' & T' & E & R). by exists t', T'. }
  pose proof (wf_pool _ _ W) as P. pose proof (p_path _ _ P) as Ln. pose proof (p_drcts _ _ P) as Ld.
  pose proof W as [H _ _ Hsh Hso _].
  destruct (insert_below (with_path t (<[0%nat := 0]> (drcts t)) (<[0%nat := Root]> (nodes t))) T x)
    as (t' & T' & E & R); try done.
  - apply (wf_kept t _ T T W); try done; [unfold same_sizes; cbn; by rewrite !length_insert | by destruct H | apply alike_refl].
  - cbn [path_arrays with_path nodes drcts length]. change (Z.of_nat 0) with 0.
    by rewrite (zth_insert_eq NULL (nodes t) 0), (zth_insert_eq 0 (drcts t) 0) by lia.
  - exists t', T'. split; [|done]. unfold TreeInsert. rewrite (h_root _ _ H). unfold set_path.
    rewrite !aset_ok by lia. cbn [mbind res_bind]. destruct T; [done|]. exact E.
Qed.

(** ** Set-up *)

Lemma node_size_ok d m : 1 <= d <= 20 -> 0 <= m <= 4 -> 32 <= node_size d m <= 144 /\ DIM_FSZ * d + MSR_FSZ * m <= node_size d m.
Proof.
  intros Hd Hm. unfold node_size, DIM_FSZ, MSR_FSZ. rewrite (unsigned_small 32 (d - 1)), (unsigned_small 32 (8 * m)) by lia.
  rewrite (unsigned_small 32 (4 * (d - 1))), unsigned_small by lia.
  destruct (_ =? 0); cbn [negb]; [lia|]. rewrite unsigned_small by lia. lia.
Qed.

(** What the tree keeps from one view to the next. *)
Definition tree_memory (t : RBTree) : Prop :=
  memoryLimit t < 2 ^ 32 /\ length (nodes t) = 64%nat /\ length (drcts t) = 64%nat.

Lemma InitializeTree_ok t d m : 1 <= d <= 20 -> 0 <= m <= 4 -> tree_memory t -> node_size d m <= memoryLimit t ->
  exists t', InitializeTree t d m = Ok t' /\ wf t' Leaf /\ nd t' = d /\ nm t' = m /\ count t' = 0 /\
    memoryIsFull t' = 0 /\ memoryLimit t' = memoryLimit t /\ tree_memory t' /\ nNodesLimit t' = memoryLimit t / node_size d m.
Proof.
  intros Hd Hm (Hl & Ln & Ld) Hs. destruct (node_size_ok d m Hd Hm) as [Hns _]. unfold InitializeTree.
  destruct (Z.eqb_spec (node_size d m) 0); [lia|]. eexists. split; [reflexivity|].
  split; [|by repeat split].
  assert (1 <= memoryLimit t / node_size d m) by (apply Z.div_le_lower_bound; lia).
  split; [by repeat constructor | | by constructor | by constructor | by constructor | by exists 0%nat; constructor].
  split; cbn [treeNodeSize memoryLimit nNodesLimit nodes drcts count memaddr freeNodeCounter memoryIsFull size];
    try done; try lia.
  destruct (Z.eqb_spec 0 (memoryLimit t / node_size d m)); lia.
Qed.

(** ** The property *)

(** C15: On a tree in memory that satisfies the invariant - linked as a
    red-black tree that is sorted by the dimensions, its nodes apart and
    inside the pool, the counters and the arrays of the path right - and whose
    pool is not full, [TreeInsert] returns, without an access out of bounds,
    a tree that satisfies the invariant again; in order, its records are
    those of the old tree with the new one inserted at its place, or added to
    the one with the same dimensions. *)
Theorem tree_insert t T x : wf t T -> memoryIsFull t = 0 -> shaped (nm t) (nd t) x -> sums_fit x (inorder T) ->
  exists t' T', TreeInsert t x = Ok t' /\ wf t' T' /\ inorder T' = upsert x (inorder T) /\
    kept t t'.
Proof. apply TreeInsert_ok. Qed.

(** *** A tree with room for five records of one measure and one dimension *)

Definition ex_empty : RBTree :=
  Tree (TreeNode NULL NULL BLACK (Data [] [])) NULL 0 0 0 200 0 0 0 0 0 0 (replicate 64 0) (replicate 64 NULL) ∅.

Ltac small_sums := apply (fits_sums 1 1);
  [done | cbn; repeat constructor | intros i ?; replace i with 0 by lia; reflexivity].

(** The same after the insertion of three records *)
Definition ex_tree : res RBTree :=
  t ← InitializeTree ex_empty 1 1; t ← TreeInsert t (Data [10] [3]); t ← TreeInsert t (Data [20] [1]);
  TreeInsert t (Data [30] [2]).

Lemma insert_room t T x : wf t T -> size T + 1 < nNodesLimit t -> shaped (nm t) (nd t) x -> sums_fit x (inorder T) ->
  exists t' T', TreeInsert t x = Ok t' /\ wf t' T' /\ inorder T' = upsert x (inorder T) /\
    kept t t' /\ size T' <= size T + 1.
Proof.
  intros W Hs Hx Hf. pose proof (wf_pool _ _ W) as P. assert (Hm : memoryIsFull t = 0).
  { rewrite (p_full _ _ P). destruct (Z.eqb_spec (size T) (nNodesLimit t)); lia. }
  destruct (TreeInsert_ok t T x W Hm Hx Hf) as (t' & T' & E & W' & Hi & Hk). exists t', T'.
  repeat (split; [done|]). rewrite !size_inorder, Hi. apply upsert_length.
Qed.

Lemma ex_tree_wf : exists t T, ex_tree = Ok t /\ wf t T /\ memoryIsFull t = 0 /\ nm t = 1 /\ nd t = 1 /\
  inorder T = [Data [20] [1]; Data [30] [2]; Data [10] [3]].
Proof.
  unfold ex_tree. destruct (InitializeTree_ok ex_empty 1 1) as (t0 & -> & W0 & D0 & M0 & _ & _ & _ & _ & N0); try done.
  cbn [mbind res_bind]. change (_ / _) with 5 in N0.
  destruct (insert_room t0 Leaf (Data [10] [3]) W0) as (t1 & T1 & -> & W1 & I1 & (M1 & D1 & N1 & _) & S1);
    [by rewrite N0 | by rewrite M0, D0 | by intros y Hy; inversion Hy |]. cbn [mbind res_bind].
  destruct (insert_room t1 T1 (Data [20] [1]) W1) as (t2 & T2 & -> & W2 & I2 & (M2 & D2 & N2 & _) & S2);
    [cbn in S1; lia | by rewrite M1, D1, M0, D0 | rewrite I1; small_sums |]. cbn [mbind res_bind].
  destruct (insert_room t2 T2 (Data [30] [2]) W2) as (t3 & T3 & -> & W3 & I3 & (M3 & D3 & N3 & _) & S3);
    [cbn in S1; lia | by rewrite M2, D2, M1, D1, M0, D0 | |].
  { rewrite I2, I1. small_sums. }
  exists t3, T3. split; [done|]. split; [done|]. rewrite I3, I2, I1. split; [|by rewrite M3, M2, M1, D3, D2, D1, M0, D0].
  rewrite (p_full _ _ (wf_pool _ _ W3)). cbn in S1. destruct (Z.eqb_spec (size T3) (nNodesLimit t3)); [lia | done].
Qed.

Example tree_insert_witness : exists t T t' T', ex_tree = Ok t /\ wf t T /\
  TreeInsert t (Data [5] [2]) = Ok t' /\ wf t' T' /\
  inorder T' = [Data [20] [1]; Data [35] [2]; Data [10] [3]].
Proof.
  destruct ex_tree_wf as (t & T & E & W & F & M & D & I). exists t, T.
  destruct (tree_insert t T (Data [5] [2]) W F) as (t' & T' & E' & W' & I' & _).
  - clear E. by rewrite M, D.
  - clear E. rewrite I. small_sums.
  - exists t', T'. rewrite I in I'. exact (conj E (conj W (conj E' (conj W' I')))).
Defined.
