(* ===== verification/RbtWrite.v ===== *)
(** * The traversals of the tree

    Each traversal visits the records of the tree in order and stops at the
    first one that cannot be written; what it leaves behind is the result of
    the same steps on the list of records. *)

From Stdlib Require Import Permutation.
From stdpp Require Import gmap.
From S2P Require Import Prelude Rbt RbtTree Groups RbtHeap.

(** ** Visits of a list *)

Section Visit.
Context {A : Type} (step : A -> data -> res (A * Z)).

(** A step on every record, up to the first that fails. *)
Fixpoint visit (s : A) (l : list data) : res (A * Z) :=
  match l with
  | [] => Ok (s, ADC_OK)
  | x :: l => '(s, e) ← step s x; if negb (e =? 0) then Ok (s, ADC_WRITE_FAILED) else visit s l
  end.

Lemma visit_app s l1 l2 :
  visit s (l1 ++ l2) = '(s, e) ← visit s l1; if negb (e =? 0) then Ok (s, ADC_WRITE_FAILED) else visit s l2.
Proof.
  revert s. induction l1 as [|x l1 IH]; intros s; cbn [app visit mbind res_bind]; [done|].
  destruct (step s x) as [[s' e]|]; cbn [mbind res_bind]; [|done]. destruct (negb (e =? 0)); [done|]. apply IH.
Qed.

(** The result of a visit is a success or a failure. *)
Lemma visit_result s l s' e : visit s l = Ok (s', e) -> e = ADC_OK \/ e = ADC_WRITE_FAILED.
Proof.
  revert s. induction l as [|x l IH]; intros s; cbn [visit]; [intros [= <- <-]; by left|].
  destruct (step s x) as [[s1 e1]|]; cbn [mbind res_bind]; [|done].
  destruct (negb (e1 =? 0)); [intros [= <- <-]; by right | apply IH].
Qed.

(** A visit of a tree in memory: left, the node, right. *)
Lemma visit_node s l x r : visit s (l ++ x :: r) =
  '(s, e) ← visit s l;
  if negb (e =? 0) then Ok (s, ADC_WRITE_FAILED)
  else
    '(s, e) ← step s x;
    if negb (e =? 0) then Ok (s, ADC_WRITE_FAILED)
    else '(s, e) ← visit s r; if negb (e =? 0) then Ok (s, ADC_WRITE_FAILED) else Ok (s, ADC_OK).
Proof.
  rewrite visit_app. destruct (visit s l) as [[s1 e1]|]; cbn [mbind res_bind]; [|done].
  destruct (negb (e1 =? 0)); [done|]. cbn [visit]. destruct (step s1 x) as [[s2 e2]|]; cbn [mbind res_bind]; [|done].
  destruct (negb (e2 =? 0)); [done|]. destruct (visit s2 r) as [[s3 e3]|] eqn:E; cbn [mbind res_bind]; [|done].
  by destruct (visit_result _ _ _ _ E) as [-> | ->].
Qed.
End Visit.

(** ** The traversals are visits *)

Section Walks.
Context (can_write : nat -> bool).

Definition chunk_step (v : view) (x : data) : res (view * Z) := Ok (write can_write v x).
Definition view_step (v : view) (x : data) : res (view * Z) := v ← add_sums v x; Ok (write can_write v x).
Definition checksum_step (s : view * Z) (x : data) : res (view * Z * Z) :=
  s ← add_checksums (fst s) (snd s) x; Ok (s, ADC_OK).
Definition viewcs_step (s : view * Z) (x : data) : res (view * Z * Z) :=
  v ← add_sums (fst s) x;
  '(v, ordern) ← add_checksums v (snd s) x;
  let '(v, e) := write can_write v x in Ok (v, ordern, e).

(** The node is read, and the subtree on the left is visited. *)
Tactic Notation "walk" reference(F) hyp(IHl) hyp(Hn) hyp(Hf) :=
  cbn [ptr_of inorder]; rewrite visit_node; cbn [F get]; rewrite Hn; cbn [mbind res_bind left right nodeMemPool];
  cbn [height] in Hf; rewrite IHl by (done || lia);
  match goal with |- mbind _ ?w = _ => destruct w as [p|] end; cbn [mbind res_bind]; [|done].

Lemma WriteChunkToDisk_visit t T : forall fuel v, rep (memPool t) T -> (height T < fuel)%nat ->
  WriteChunkToDisk can_write fuel t v (ptr_of T) = visit chunk_step v (inorder T).
Proof.
  induction T as [|a c l IHl x r IHr]; intros [|fuel] v H Hf; cbn [height] in *; try lia; [done|].
  destruct H as (Hn & Hl & Hr). walk WriteChunkToDisk IHl Hn Hf. destruct p as [v1 e1]. destruct (negb (e1 =? 0)); [done|].
  unfold chunk_step at 2. cbn [mbind res_bind]. destruct (write can_write v1 x) as [v2 e2].
  destruct (negb (e2 =? 0)); [done|]. by rewrite IHr by (done || lia).
Qed.

Lemma WriteViewToDisk_visit t T : forall fuel v, rep (memPool t) T -> (height T < fuel)%nat ->
  WriteViewToDisk can_write fuel t v (ptr_of T) = visit view_step v (inorder T).
Proof.
  induction T as [|a c l IHl x r IHr]; intros [|fuel] v H Hf; cbn [height] in *; try lia; [done|].
  destruct H as (Hn & Hl & Hr). walk WriteViewToDisk IHl Hn Hf. destruct p as [v1 e1]. destruct (negb (e1 =? 0)); [done|].
  unfold view_step at 2. destruct (add_sums v1 x) as [v2|]; cbn [mbind res_bind]; [|done].
  destruct (write can_write v2 x) as [v3 e3]. destruct (negb (e3 =? 0)); [done|]. by rewrite IHr by (done || lia).
Qed.

Lemma WriteViewToDiskCS_visit t T : forall fuel v ordern, rep (memPool t) T -> (height T < fuel)%nat ->
  WriteViewToDiskCS can_write fuel t v (ptr_of T) ordern = visit viewcs_step (v, ordern) (inorder T).
Proof.
  induction T as [|a c l IHl x r IHr]; intros [|fuel] v ordern H Hf; cbn [height] in *; try lia; [done|].
  destruct H as (Hn & Hl & Hr). walk WriteViewToDiskCS IHl Hn Hf. destruct p as [[v1 o1] e1].
  destruct (negb (e1 =? 0)); [done|]. unfold viewcs_step at 2. cbn [fst snd].
  destruct (add_sums v1 x) as [v2|]; cbn [mbind res_bind]; [|done].
  destruct (add_checksums v2 o1 x) as [[v3 o3]|]; cbn [mbind res_bind]; [|done].
  destruct (write can_write v3 x) as [v4 e4]. cbn [mbind res_bind]. destruct (negb (e4 =? 0)); [done|]. rewrite IHr by (done || lia).
  by destruct (visit _ _ _) as [[[]]|].
Qed.

Lemma computeChecksum_visit t T : forall fuel v ordern, rep (memPool t) T -> (height T < fuel)%nat ->
  computeChecksum fuel t v (ptr_of T) ordern = visit checksum_step (v, ordern) (inorder T).
Proof.
  induction T as [|a c l IHl x r IHr]; intros [|fuel] v ordern H Hf; cbn [height] in *; try lia; [done|].
  destruct H as (Hn & Hl & Hr). walk computeChecksum IHl Hn Hf. destruct p as [[v1 o1] e1].
  destruct (negb (e1 =? 0)); [done|]. unfold checksum_step at 2. cbn [fst snd].
  destruct (add_checksums v1 o1 x) as [[v3 o3]|]; cbn [mbind res_bind]; [|done]. cbn [Z.eqb negb ADC_OK].
  rewrite IHr by (done || lia). by destruct (visit _ _ _) as [[[]]|].
Qed.

(** ** What the visits do *)

(** Either every record was written, or [fwrite] failed. *)
Definition outcome (e : Z) (complete : Prop) : Prop :=
  (e = ADC_OK /\ complete) \/ (e = ADC_WRITE_FAILED /\ exists k, can_write k = false).

Lemma write_cases v x : exists v' e, write can_write v x = (v', e) /\
  vnm v' = vnm v /\ mSums v' = mSums v /\ checksums v' = checksums v /\ outcome e (file v' = file v ++ [x]).
Proof.
  unfold write. destruct (can_write _) eqn:E; eexists _, _; (split; [reflexivity|]); do 3 (split; [done|]).
  - by left.
  - right. eauto.
Qed.

Lemma visit_chunk l : forall v, exists v' e, visit chunk_step v l = Ok (v', e) /\ outcome e (file v' = file v ++ l).
Proof.
  induction l as [|x l IH]; intros v; cbn [visit].
  - exists v, ADC_OK. split; [done|]. left. by rewrite app_nil_r.
  - change (chunk_step v x) with (Ok (write can_write v x)). destruct (write_cases v x) as (v1 & e1 & -> & _ & _ & _ & Ho). cbn [mbind res_bind].
    destruct Ho as [(-> & Hf) | (-> & Hw)]; cbn [Z.eqb negb ADC_OK ADC_WRITE_FAILED].
    + destruct (IH v1) as (v2 & e2 & -> & Ho). exists v2, e2. split; [done|]. by rewrite Hf, <- app_assoc in Ho.
    + exists v1, ADC_WRITE_FAILED. split; [done|]. right. done.
Qed.

(** The sum over a list of a function of the position and of measure [i] *)
Fixpoint weighted (f : Z -> Z -> Z) (i k : Z) (l : list data) : Z :=
  match l with [] => 0 | x :: l => f k (meas i x) + weighted f i (k + 1) l end.

(** The term of record [k] in the checksum of measure [i] *)
Definition cs_term (nm i k m : Z) : Z := u64 (u64 (k * nm + i + 1) * m) mod measbound.

Lemma cs_term_range nm i k m : 0 <= cs_term nm i k m < measbound.
Proof. apply Z.mod_pos_bound. done. Qed.

Section Sums.
Context (nm nd : Z).

(** The arrays of a view's sums have room. *)
Definition room (v : view) : Prop := vnm v = nm /\ 0 <= nm /\ nm <= zlen (mSums v) /\ nm <= zlen (checksums v).

Definition sums_in (v : view) (l : list data) : Prop :=
  forall i, 0 <= i < nm -> Z.abs (zth 0 (mSums v) i) + mag i l < 2 ^ 63.

Lemma add_sums_ok v x : room v -> shaped nm nd x -> sums_in v [x] ->
  exists s, add_sums v x = Ok (View nm s (checksums v) (file v)) /\ zlen s = zlen (mSums v) /\
    forall i, 0 <= i < nm -> zth 0 s i = zth 0 (mSums v) i + meas i x.
Proof.
  intros (En & Hn & Hs & _) [Hx _] Hf. unfold add_sums. rewrite En.
  destruct (for_range_map 0 (fun i => zth 0 (mSums v) i + meas i x)
    (fun i s => a ← s.[i]; b ← (measures x).[i]; r ← chk 64 (a + b); s.[i <- r]) nm (mSums v)) as (s & -> & Hl & Hz);
    [lia | |].
  - intros i s Hi Hl Hz. rewrite (aget_ok 0 s), (aget_ok 0 (measures x)), Hz by lia. cbn [mbind res_bind].
    specialize (Hf i Hi). cbn [mag foldr] in Hf. unfold meas in *. by rewrite chk_ok by lia.
  - exists s. split; [done|]. split; [done|]. intros i Hi. rewrite Hz by lia. by destruct (Z.ltb_spec i nm); [|lia].
Qed.

(** Checksums stay small: less than [measbound] per record. *)
Definition checks_in (v : view) (n : Z) : Prop :=
  forall i, 0 <= i < nm -> 0 <= zth 0 (checksums v) i /\ zth 0 (checksums v) i + n * measbound < 2 ^ 63.

Lemma add_checksums_ok v k x : room v -> shaped nm nd x -> checks_in v 1 -> 0 <= k -> (k + 1) * nm < 2 ^ 63 ->
  exists c, add_checksums v (k * nm) x = Ok (View nm (mSums v) c (file v), (k + 1) * nm) /\
    zlen c = zlen (checksums v) /\
    forall i, 0 <= i < nm -> zth 0 c i = zth 0 (checksums v) i + cs_term nm i k (meas i x).
Proof.
  intros (En & Hn & _ & Hc) [Hx _] Hf Hk Hb. unfold add_checksums. rewrite En.
  destruct (for_range_inv (fun i '(c, o) => o = k * nm + i /\ zlen c = zlen (checksums v) /\
      forall j, 0 <= j < zlen c -> zth 0 c j = zth 0 (checksums v) j + if j <? i then cs_term nm j k (meas j x) else 0)
    (fun i '(c, ordern) =>
       a ← c.[i]; b ← (measures x).[i];
       c ← c.[i <- i64 (a + u64 (u64 (ordern + 1) * b) mod measbound)];
       Ok (c, u64 (ordern + 1))) 0 nm (checksums v, k * nm)) as ([c o] & -> & -> & Hl & Hz); [lia | | |].
  - split; [lia|]. split; [done|]. intros j Hj. destruct (Z.ltb_spec j 0); lia.
  - intros i [c o] Hi (-> & Hl & Hz). rewrite (aget_ok 0 c), (aget_ok 0 (measures x)) by lia. cbn [mbind res_bind].
    rewrite Hz by lia. destruct (Z.ltb_spec i i) as [|_]; [lia|]. rewrite Z.add_0_r.
    fold (meas i x).
    fold (cs_term nm i k (meas i x)). pose proof (cs_term_range nm i k (meas i x)). specialize (Hf i Hi).
    rewrite signed_small by lia. rewrite aset_ok by lia. cbn [mbind res_bind]. eexists. split; [reflexivity|].
    split; [by rewrite unsigned_small by nia; lia|]. rewrite zlen_insert. split; [done|]. intros j Hj.
    rewrite (zth_insert 0), Hz by lia. destruct (Z.eqb_spec j i) as [->|].
    + by destruct (Z.ltb_spec i (i + 1)); [|lia].
    + destruct (Z.ltb_spec j i), (Z.ltb_spec j (i + 1)); lia.
  - cbn [mbind res_bind]. exists c. replace ((k + 1) * nm) with (k * nm + nm) by lia. split; [done|]. split; [done|].
    intros i Hi. rewrite Hz by lia. by destruct (Z.ltb_spec i nm); [|lia].
Qed.

(** [v'] has the sums and checksums of [v] and of [l], whose first record has
    position [k]. *)
Definition summed (v v' : view) (l : list data) : Prop :=
  zlen (mSums v') = zlen (mSums v) /\ forall i, 0 <= i < nm -> zth 0 (mSums v') i = zth 0 (mSums v) i + total i l.
Definition checked (f : Z -> Z -> Z -> Z) (v v' : view) (k : Z) (l : list data) : Prop :=
  zlen (checksums v') = zlen (checksums v) /\
  forall i, 0 <= i < nm -> zth 0 (checksums v') i = zth 0 (checksums v) i + weighted (f i) i k l.

Lemma summed_cons v v1 v2 x l : zlen (mSums v1) = zlen (mSums v) ->
  (forall i, 0 <= i < nm -> zth 0 (mSums v1) i = zth 0 (mSums v) i + meas i x) -> summed v1 v2 l -> summed v v2 (x :: l).
Proof.
  intros H1 Hz [H2 Hs]. split; [by rewrite H2|]. intros i Hi. rewrite Hs, Hz by done. cbn [total foldr]. unfold total. lia.
Qed.

Lemma checked_cons f v v1 v2 k x l : zlen (checksums v1) = zlen (checksums v) ->
  (forall i, 0 <= i < nm -> zth 0 (checksums v1) i = zth 0 (checksums v) i + f i k (meas i x)) ->
  checked f v1 v2 (k + 1) l -> checked f v v2 k (x :: l).
Proof.
  intros H1 Hz [H2 Hs]. split; [by rewrite H2|]. intros i Hi. rewrite Hs, Hz by done. cbn [weighted]. lia.
Qed.

Lemma sums_in_cons v v1 x l : sums_in v (x :: l) ->
  (forall i, 0 <= i < nm -> zth 0 (mSums v1) i = zth 0 (mSums v) i + meas i x) -> sums_in v1 l.
Proof. intros Hf Hz i Hi. specialize (Hf i Hi). cbn [mag foldr] in Hf. rewrite Hz by done. unfold mag. lia. Qed.

Lemma visit_viewcs l : forall v k, room v -> Forall (shaped nm nd) l -> sums_in v l -> checks_in v (zlen l) ->
  0 <= k -> (k + zlen l) * nm < 2 ^ 63 ->
  exists v' o e, visit viewcs_step (v, k * nm) l = Ok (v', o, e) /\
    outcome e (file v' = file v ++ l /\ vnm v' = nm /\ summed v v' l /\ checked (cs_term nm) v v' k l).
Proof.
  induction l as [|x l IH]; intros v k Hr Hl Hf Hc Hk Hb; cbn [visit].
  - exists v, (k * nm), ADC_OK. split; [done|]. left. rewrite app_nil_r. split; [done|]. split; [done|].
    split; [apply Hr|]. unfold summed, checked. cbn [total foldr weighted]. repeat split; intros; lia.
  - apply Forall_cons_1 in Hl as [Hx Hl]. unfold viewcs_step at 2. cbn [fst snd].
    destruct (add_sums_ok v x Hr Hx) as (s & -> & Ls & Hs).
    { intros i Hi. specialize (Hf i Hi). cbn [mag foldr] in *. pose proof (mag_nonneg i l). unfold mag in *. lia. }
    cbn [mbind res_bind]. destruct Hr as (En & Hn & Rs & Rc).
    assert (Hr1 : room (View nm s (checksums v) (file v))) by (repeat split; cbn [mSums checksums]; lia).
    destruct (add_checksums_ok _ k x Hr1 Hx) as (c & -> & Lc & Hcs); [|done | cbn [length] in Hb; nia |].
    { intros i Hi. specialize (Hc i Hi). cbn [checksums length] in *. unfold measbound in *. lia. }
    cbn [mbind res_bind]. cbn [mSums file checksums] in *.
    destruct (write_cases (View nm s c (file v)) x) as (v1 & e1 & -> & En1 & Es1 & Ec1 & Ho). cbn [mbind res_bind].
    cbn [vnm mSums checksums file] in *. destruct Ho as [(-> & Hfile) | (-> & Hw)].
    + cbn [Z.eqb negb ADC_OK].
      destruct (IH v1 (k + 1)) as (v2 & o & e & -> & Ho); try done.
      * repeat split; rewrite ?Es1, ?Ec1; lia.
      * apply (sums_in_cons v _ x l Hf). by rewrite Es1.
      * intros i Hi. rewrite Ec1, Hcs by done. specialize (Hc i Hi). cbn [length] in Hc.
        pose proof (cs_term_range nm i k (meas i x)). lia.
      * lia.
      * cbn [length] in Hb. nia.
      * exists v2, o, e. split; [done|]. destruct Ho as [(-> & F & V & S & C) | Ho]; [left | by right].
        split; [done|]. split; [by rewrite F, Hfile, <- app_assoc|]. split; [done|]. split.
        -- apply (summed_cons v v1); [by rewrite Es1 | by rewrite Es1 | done].
        -- apply (checked_cons _ v v1); [by rewrite Ec1 | by rewrite Ec1 | done].
    + exists v1, ((k + 1) * nm), ADC_WRITE_FAILED. split; [done|]. by right.
Qed.

Lemma visit_checksum l : forall v k, room v -> Forall (shaped nm nd) l -> checks_in v (zlen l) ->
  0 <= k -> (k + zlen l) * nm < 2 ^ 63 ->
  exists v' o, visit checksum_step (v, k * nm) l = Ok (v', o, ADC_OK) /\
    file v' = file v /\ vnm v' = nm /\ mSums v' = mSums v /\ checked (cs_term nm) v v' k l.
Proof.
  induction l as [|x l IH]; intros v k Hr Hl Hc Hk Hb; cbn [visit].
  - exists v, (k * nm). do 2 (split; [done|]). split; [apply Hr|]. split; [done|].
    unfold checked. cbn [weighted]. repeat split; intros; lia.
  - apply Forall_cons_1 in Hl as [Hx Hl]. unfold checksum_step at 2. cbn [fst snd].
    destruct (add_checksums_ok v k x Hr Hx) as (c & -> & Lc & Hcs); [|done | cbn [length] in Hb; nia |].
    { intros i Hi. specialize (Hc i Hi). cbn [length] in *. unfold measbound in *. lia. }
    cbn [mbind res_bind Z.eqb negb ADC_OK]. destruct Hr as (En & Hn & Rs & Rc).
    destruct (IH (View nm (mSums v) c (file v)) (k + 1)) as (v2 & o & -> & F & V & S & C); try done.
    + repeat split; cbn [mSums checksums]; lia.
    + intros i Hi. cbn [checksums]. rewrite Hcs by done. specialize (Hc i Hi). cbn [length] in Hc.
      pose proof (cs_term_range nm i k (meas i x)). lia.
    + lia.
    + cbn [length] in Hb. nia.
    + exists v2, o. do 4 (split; [done|]). by apply (checked_cons _ v (View nm (mSums v) c (file v))).
Qed.
End Sums.
End Walks.
