(* ===== verification/DataCube.v ===== *)
(** * Views of the data cube

    [NPB/SERIAL/DC/extbuild.c]: a view of the cube is computed by grouping
    the records of a file in the tree of [rbt.c].  When the pool of the tree
    is full, the groups found so far go to a file as a sorted chunk, and the
    chunks are merged at the end.

    Files are lists of records, of the size that the code uses for them; an
    offset into a file is in bytes and an index into the merge buffer in units
    of four bytes, as in the code, and both must be multiples of a record.
    [fwrite] may fail, as for the traversals; the file of chunks and the file
    of views each have their own list of outcomes. *)

From stdpp Require Import gmap.
From S2P Require Import Prelude Rbt.

Definition ADC_INTERNAL_ERROR := 2.
Definition MAX_NUM_OF_CHUNKS := 1024.
Definition MAX_NUM_OF_DIMS := 20.
Definition MAX_NUM_OF_MEAS := 4.

Definition GetRecSize (nd nm : Z) : Z := u32 (DIM_FSZ * nd + MSR_FSZ * nm).

Record CHUNKS := Chunk { curChunkNum : Z; chunkOffset : Z; posSubChunk : Z; curSubChunk : Z }.

(** The part of [ADC_VIEW_CNTL] that computing a view uses; [avp_view] holds
    [nm], [mSums], [checksums] and [viewFile]. *)
Record cntl := Cntl {
  avp_view : view;
  avp_nd : Z;
  nv : Z;
  nTopDims : Z;
  nInputRecs : Z;
  nParentViewRows : Z;
  smallestParentLevel : Z;
  nRowsToRead : Z;
  nViewRows : Z;
  totalOfViewRows : Z;
  inpRecSize : Z;
  outRecSize : Z;
  avp_memoryLimit : Z;
  avp_tree : RBTree;
  selection : list Z;
  numberOfChunks : Z;
  chunksParams : list CHUNKS;
  fileOfChunks : list data
}.

Definition avp_nm (a : cntl) : Z := vnm (avp_view a).

Definition with_view a v := Cntl v (avp_nd a) (nv a) (nTopDims a) (nInputRecs a) (nParentViewRows a)
  (smallestParentLevel a) (nRowsToRead a) (nViewRows a) (totalOfViewRows a) (inpRecSize a) (outRecSize a)
  (avp_memoryLimit a) (avp_tree a) (selection a) (numberOfChunks a) (chunksParams a) (fileOfChunks a).
Definition with_rows a n t := Cntl (avp_view a) (avp_nd a) (nv a) (nTopDims a) (nInputRecs a) (nParentViewRows a)
  (smallestParentLevel a) (nRowsToRead a) n t (inpRecSize a) (outRecSize a)
  (avp_memoryLimit a) (avp_tree a) (selection a) (numberOfChunks a) (chunksParams a) (fileOfChunks a).
Definition with_tree a t := Cntl (avp_view a) (avp_nd a) (nv a) (nTopDims a) (nInputRecs a) (nParentViewRows a)
  (smallestParentLevel a) (nRowsToRead a) (nViewRows a) (totalOfViewRows a) (inpRecSize a) (outRecSize a)
  (avp_memoryLimit a) t (selection a) (numberOfChunks a) (chunksParams a) (fileOfChunks a).
Definition with_chunks a n c := Cntl (avp_view a) (avp_nd a) (nv a) (nTopDims a) (nInputRecs a) (nParentViewRows a)
  (smallestParentLevel a) (nRowsToRead a) (nViewRows a) (totalOfViewRows a) (inpRecSize a) (outRecSize a)
  (avp_memoryLimit a) (avp_tree a) (selection a) n c (fileOfChunks a).
Definition with_fileOfChunks a f := Cntl (avp_view a) (avp_nd a) (nv a) (nTopDims a) (nInputRecs a)
  (nParentViewRows a) (smallestParentLevel a) (nRowsToRead a) (nViewRows a) (totalOfViewRows a) (inpRecSize a)
  (outRecSize a) (avp_memoryLimit a) (avp_tree a) (selection a) (numberOfChunks a) (chunksParams a) f.

(** ** Projection *)

(** [SelectToView]; the attributes of [selection] count from 1. *)
Definition SelectToView (ib : data) (ix : list Z) (nm nv : Z) : res data :=
  d ← for_range 0 nv (fun i l => x ← ix.[i]; v ← (dims ib).[x - 1]; Ok (l ++ [v])) [];
  if zlen (measures ib) <? nm then Err OutOfBounds else Ok (Data (take (Z.to_nat nm) (measures ib)) d).

(** [fread] of a record: at the end of the file the buffer keeps its content. *)
Definition fread_record (attrs : data) (inpf : list data) : data * list data :=
  match inpf with [] => (attrs, []) | x :: inpf => (x, inpf) end.

(** ** A view *)

(** The loops over the measures clear and copy arrays of the structure. *)
Definition InitAdcViewCntl (a : cntl) (nSelectedDims : Z) (sel : list Z) (fromParent : bool) : res cntl :=
  s ← for_range 0 (avp_nm a) (fun i s => s.[i <- 0]) (mSums (avp_view a));
  ix ← for_range 0 nSelectedDims (fun i ix => x ← sel.[i]; ix.[i <- x]) (selection a);
  let nd := if fromParent then smallestParentLevel a else nTopDims a in
  let rows := if fromParent then nParentViewRows a else nInputRecs a in
  Ok (Cntl (View (avp_nm a) s (checksums (avp_view a)) (file (avp_view a))) nd nSelectedDims (nTopDims a) (nInputRecs a)
    (nParentViewRows a) (smallestParentLevel a) rows 0 (totalOfViewRows a) (GetRecSize nd (avp_nm a))
    (GetRecSize nSelectedDims (avp_nm a)) (avp_memoryLimit a) (avp_tree a) ix 0 (chunksParams a) (fileOfChunks a)).

Definition walk_fuel : nat := S (Z.to_nat MAX_TREE_HEIGHT).

Section Views.
Context (write_chunks write_views : nat -> bool).

(** *** Runs *)

(** [chunksParams[numberOfChunks]] gets the tree's count and the offset. *)
Definition save_chunk (a : cntl) (offset : Z) : res cntl :=
  c ← (chunksParams a).[numberOfChunks a];
  cs ← (chunksParams a).[numberOfChunks a <- Chunk (count (avp_tree a)) offset (posSubChunk c) (curSubChunk c)];
  Ok (with_chunks a (u32 (numberOfChunks a + 1)) cs).

Definition write_chunk (a : cntl) : res (cntl * Z) :=
  let t := avp_tree a in
  '(w, e) ← WriteChunkToDisk write_chunks walk_fuel t (View 0 [] [] (fileOfChunks a)) (left (root t));
  Ok (with_fileOfChunks a (file w), e).

(** The loop over the rows *)
Fixpoint run_rows (n : nat) (a : cntl) (inpf : list data) (attrs : data) (offset : Z) : res (cntl * Z * Z) :=
  match n with
  | O => Ok (a, offset, ADC_OK)
  | S n =>
      let '(attrs, inpf) := fread_record attrs inpf in
      viewBuf ← SelectToView attrs (selection a) (avp_nm a) (nv a);
      t ← TreeInsert (avp_tree a) viewBuf;
      let a := with_tree a t in
      if negb (memoryIsFull t =? 0) then
        a ← save_chunk a offset;
        if MAX_NUM_OF_CHUNKS <=? numberOfChunks a then Ok (a, offset, ADC_INTERNAL_ERROR)
        else
          let offset := i64 (offset + u32 (count t * outRecSize a)) in
          '(a, e) ← write_chunk a;
          if negb (e =? 0) then Ok (a, offset, ADC_WRITE_FAILED)
          else
            t ← InitializeTree (avp_tree a) (nv a) (avp_nm a);
            run_rows n (with_tree a t) inpf attrs offset
      else run_rows n a inpf attrs offset
  end.

Definition RunFormation (a : cntl) (inpf : list data) : res (cntl * Z) :=
  t ← InitializeTree (avp_tree a) (nv a) (avp_nm a);
  '(a, offset, e) ← run_rows (Z.to_nat (nRowsToRead a)) (with_tree a t) inpf (Data [] []) 0;
  if negb (e =? 0) then Ok (a, e)
  else if negb (numberOfChunks a =? 0) && negb (count (avp_tree a) =? 0) then
    a ← save_chunk a offset;
    '(a, e) ← write_chunk a;
    if negb (e =? 0) then Ok (a, ADC_WRITE_FAILED) else Ok (a, ADC_OK)
  else Ok (a, ADC_OK).

(** *** Merge *)

(** The number of the record at [k], in the unit of which [w] make a record. *)
Definition slot (k w : Z) : res Z :=
  if (w =? 0) || negb (k mod w =? 0) then Err OutOfBounds else Ok (k / w).

(** [buffer] has records of [w] units of four bytes. *)
Definition SeekAndReadNextSubChunk (buffer : list data) (w k : Z) (inFile : list data)
    (chunkRecSize inFileOffs subChunkNum : Z) : res (list data) :=
  if inFileOffs <? 0 then Err Aborted
  else
    k ← slot k w;
    first ← slot inFileOffs chunkRecSize;
    let records := take (Z.to_nat subChunkNum) (drop (Z.to_nat first) inFile) in
    for_range 0 (zlen records) (fun j b => x ← records.[j]; b.[k + j <- x]) buffer.

Definition ReadSubChunk (chunkRecSize : Z) (buffer : list data) (w iChunk reg : Z) (chunks : list CHUNKS)
    (inFile : list data) : res (list data * list CHUNKS) :=
  c ← chunks.[iChunk];
  let cur := curChunkNum c in
  if 0 <? cur then
    if cur <? reg then
      b ← SeekAndReadNextSubChunk buffer w (u32 (u32 (iChunk * reg + (reg - cur)) * w)) inFile chunkRecSize
        (chunkOffset c) cur;
      cs ← chunks.[iChunk <- Chunk 0 (-1) (reg - cur) cur];
      Ok (b, cs)
    else
      b ← SeekAndReadNextSubChunk buffer w (u32 (u32 (iChunk * reg) * w)) inFile chunkRecSize (chunkOffset c) reg;
      offset ← chk 64 (chunkOffset c + u32 (reg * chunkRecSize));
      cs ← chunks.[iChunk <- Chunk (cur - reg) offset 0 reg];
      Ok (b, cs)
  else Ok (buffer, chunks).

(** The record at [posSubChunk] of a chunk *)
Definition chunk_record (buffer : list data) (w reg iChunk : Z) (c : CHUNKS) : res data :=
  k ← slot (u32 (w * u32 (iChunk * reg + posSubChunk c))) w;
  buffer.[k].

(** The first chunk with a record in the buffer; [min_r_buf] and
    [min_r_chunk] are kept when there is none. *)
Definition first_record (buffer : list data) (w reg n : Z) (chunks : list CHUNKS) (old : option (data * Z)) :
    res (option (data * Z) * bool) :=
  for_range 0 n (fun iChunk '(r, found) =>
    if (found : bool) then Ok (r, found)
    else
      c ← chunks.[iChunk];
      if 0 <? curSubChunk c then x ← chunk_record buffer w reg iChunk c; Ok (Some (x, iChunk), true)
      else Ok (r, found)) (old, false).

(** The least record, from there on *)
Definition least_record (buffer : list data) (w reg n nv : Z) (chunks : list CHUNKS) (r : data) (i : Z) :
    res (data * Z) :=
  for_range i n (fun iChunk '(m, k) =>
    c ← chunks.[iChunk];
    if 0 <? curSubChunk c then
      x ← chunk_record buffer w reg iChunk c;
      cmp ← KeyComp (dims x) (dims m) nv;
      Ok (if cmp <? 0 then (x, iChunk) else (m, k))
    else Ok (m, k)) (r, i).

(** The measures of record [n] of the output are added to the sums and, times
    [n], to the checksums. *)
Definition add_row (nm n : Z) (out : data) (sc : list Z * list Z) : res (list Z * list Z) :=
  for_range 0 nm (fun i '(s, c) =>
    x ← (measures out).[i]; y ← s.[i]; r ← chk 64 (y + x); s ← s.[i <- r];
    z ← c.[i]; p ← chk 64 (n * x); q ← chk 64 (z + Z.rem p measbound); c ← c.[i <- q];
    Ok (s, c)) sc.

(** The output buffer is written, and its measures are added up. *)
Definition emit (a : cntl) (out : data) : res (cntl * Z) :=
  let '(v, e) := write write_views (avp_view a) out in
  if negb (e =? 0) then Ok (a, e)
  else
    let n := u32 (nViewRows a + 1) in
    '(s, c) ← add_row (avp_nm a) n out (mSums v, checksums v);
    Ok (with_rows (with_view a (View (vnm v) s c (file v))) n (totalOfViewRows a), ADC_OK).

(** The state of the loop: the output buffer is empty while [first_one]. *)
Record merge_state := Merge {
  m_avp : cntl;
  m_buffer : list data;
  m_min : option (data * Z);
  m_out : option data
}.

Inductive progress := Running | Finished | Failed.

Definition running (s : merge_state * progress) : res bool :=
  Ok match snd s with Running => true | _ => false end.

Definition count_chunks (p : CHUNKS -> bool) (n : Z) (chunks : list CHUNKS) : res Z :=
  for_range 0 n (fun i k => c ← chunks.[i]; Ok (if p c then k + 1 else k)) 0.

(** A turn of the loop *)
Definition merge_turn (w reg : Z) (s : merge_state) : res (merge_state * progress) :=
  let a := m_avp s in
  let n := numberOfChunks a in
  '(r, _) ← first_record (m_buffer s) w reg n (chunksParams a) (m_min s);
  '(x, i) ← (match r with Some p => Ok p | None => Err OutOfBounds end);
  '(x, i) ← least_record (m_buffer s) w reg n (nv a) (chunksParams a) x i;
  c ← (chunksParams a).[i];
  cs ← (if curSubChunk c =? 0 then Ok (chunksParams a)
        else (chunksParams a).[i <- Chunk (curChunkNum c) (chunkOffset c) (posSubChunk c + 1) (curSubChunk c - 1)]);
  let a := with_chunks a n cs in
  '(a, out, e) ←
    (match m_out s with
     | None => Ok (a, x, ADC_OK)
     | Some out =>
         cmp ← KeyComp (dims out) (dims x) (nv a);
         if cmp =? 0 then m ← add_measures (avp_nm a) (measures x) (measures out); Ok (a, Data m (dims out), ADC_OK)
         else '(a, e) ← emit a out; Ok (a, if e =? 0 then x else out, e)
     end);
  if negb (e =? 0) then Ok (Merge a (m_buffer s) (Some (x, i)) (Some out), Failed)
  else
    numEmptyBufs ← count_chunks (fun c => curSubChunk c =? 0) n cs;
    numEmptyRuns ← count_chunks (fun c => curChunkNum c =? 0) n cs;
    if (numEmptyBufs =? n) && (numEmptyRuns =? n) then Ok (Merge a (m_buffer s) (Some (x, i)) (Some out), Finished)
    else
      c ← cs.[i];
      if curSubChunk c =? 0 then
        '(b, cs) ← ReadSubChunk (outRecSize a) (m_buffer s) w i reg cs (fileOfChunks a);
        Ok (Merge (with_chunks a n cs) b (Some (x, i)) (Some out), Running)
      else Ok (Merge a (m_buffer s) (Some (x, i)) (Some out), Running).

(** A turn takes one record: the number of records in the chunks bounds the
    number of turns. *)
Definition merge_fuel (a : cntl) : nat :=
  S (foldr (fun c k => Z.to_nat (curChunkNum c) + k)%nat O (take (Z.to_nat (numberOfChunks a)) (chunksParams a))).

(** [buffer] is [memPool] as an array of records; the tree, which has its
    nodes there, is not used again before [InitializeTree] clears it. *)
Definition MultiWayMerge (a : cntl) (buffer : list data) : res (cntl * Z) :=
  let a := with_rows a 0 (totalOfViewRows a) in
  let n := numberOfChunks a in
  let w := outRecSize a / 4 in
  if (n =? 0) || (outRecSize a =? 0) then Err Aborted
  else
    let reg := avp_memoryLimit a / n / outRecSize a in
    if reg =? 0 then Ok (a, ADC_INTERNAL_ERROR)
    else
      '(b, cs) ← for_range 0 n
        (fun i '(b, cs) => ReadSubChunk (outRecSize a) b w i reg cs (fileOfChunks a)) (buffer, chunksParams a);
      '(s, p) ← while (merge_fuel a) running (fun '(s, _) => merge_turn w reg s)
        (Merge (with_chunks a n cs) b None None, Running);
      match p with
      | Failed => Ok (m_avp s, ADC_WRITE_FAILED)
      | _ =>
          out ← (match m_out s with Some out => Ok out | None => Err OutOfBounds end);
          '(a, e) ← emit (m_avp s) out;
          if negb (e =? 0) then Ok (a, ADC_WRITE_FAILED)
          else Ok (with_rows a (nViewRows a) (u32 (totalOfViewRows a + nViewRows a)), ADC_OK)
      end.

(** *** The two together: the part of [ComputeGivenGroupbys] that computes a
    view from the rows of [inpf] *)

Definition compute_view (a : cntl) (inpf : list data) (buffer : list data) : res (cntl * Z) :=
  '(a, e) ← RunFormation a inpf;
  if negb (e =? 0) then Ok (a, e)
  else if numberOfChunks a =? 0 then
    let t := avp_tree a in
    let a := with_rows a (count t) (u32 (totalOfViewRows a + count t)) in
    '(v, _, e) ← WriteViewToDiskCS write_views walk_fuel t (avp_view a) (left (root t)) 0;
    if negb (e =? 0) then Ok (with_view a v, ADC_WRITE_FAILED) else Ok (with_view a v, ADC_OK)
  else
    '(a, e) ← MultiWayMerge a buffer;
    if negb (e =? 0) then Ok (a, e) else Ok (a, ADC_OK).

(** A view of the loop of [ComputeGivenGroupbys], whose attributes [sel] and
    parent are given: the checksums are cleared, the view is computed, and
    the file of chunks is rewound. *)
Definition compute_groupby (a : cntl) (nSelectedDims : Z) (sel : list Z) (fromParent : bool) (inpf : list data)
    (buffer : list data) : res (cntl * Z) :=
  c ← for_range 0 (avp_nm a) (fun i c => c.[i <- 0]) (checksums (avp_view a));
  a ← InitAdcViewCntl (with_view a (View (avp_nm a) (mSums (avp_view a)) c (file (avp_view a)))) nSelectedDims sel
    fromParent;
  '(a, e) ← compute_view a inpf buffer;
  if negb (e =? 0) then Ok (a, e) else Ok (with_fileOfChunks a [], ADC_OK).
End Views.

(** ** In core *)

(** [inpDataBuffer] is the array of the input's records. *)
Fixpoint fitted_rows (n : nat) (a : cntl) (inpDataBuffer : list data) (ib : Z) : res (cntl * Z) :=
  match n with
  | O => Ok (a, ADC_OK)
  | S n =>
      x ← inpDataBuffer.[ib];
      viewBuf ← SelectToView x (selection a) (avp_nm a) (nv a);
      t ← TreeInsert (avp_tree a) viewBuf;
      if negb (memoryIsFull t =? 0) then Ok (with_tree a t, 1)
      else fitted_rows n (with_tree a t) inpDataBuffer (ib + 1)
  end.

Definition ComputeMemoryFittedView (a : cntl) (inpDataBuffer : list data) : res (cntl * Z) :=
  t ← InitializeTree (avp_tree a) (nv a) (avp_nm a);
  '(a, e) ← fitted_rows (Z.to_nat (nRowsToRead a)) (with_tree a t) inpDataBuffer 0;
  if negb (e =? 0) then Ok (a, e)
  else
    let t := avp_tree a in
    '(v, _, _) ← computeChecksum walk_fuel t (avp_view a) (left (root t)) 0;
    let a := with_rows (with_view a v) (count t) (u32 (totalOfViewRows a + count t)) in
    t ← InitializeTree t (nv a) (avp_nm a);
    Ok (with_tree a t, ADC_OK).
