(* ===== verification/DataRuns.v ===== *)
(** * Runs

    What [RunFormation] leaves behind: the groups of the rows that were read,
    in sorted chunks on the file of chunks and, when the tree never was full,
    in the tree. *)

From Stdlib Require Import Sorted Permutation.
From stdpp Require Import gmap.
From S2P Require Import Prelude Rbt RbtTree Groups RbtHeap RbtInsert RbtGroup RbtWrite DataCube.

(** ** Projection *)

Definition project (ix : list Z) (nm nv : Z) (x : data) : data :=
  Data (take (Z.to_nat nm) (measures x)) (map (fun i => zth 0 (dims x) (i - 1)) (take (Z.to_nat nv) ix)).

(** The selected attributes are attributes of the input. *)
Definition selects (ix : list Z) (nd nv : Z) : Prop :=
  0 <= nv <= zlen ix /\ Forall (fun i => 1 <= i <= nd) (take (Z.to_nat nv) ix).

Lemma SelectToView_ok ib ix nm nd nv : 0 <= nm -> shaped nm nd ib -> selects ix nd nv ->
  SelectToView ib ix nm nv = Ok (project ix nm nv ib) /\ shaped nm nv (project ix nm nv ib).
Proof.
  intros Hn [Hm Hd] [Hnv Hix]. unfold SelectToView.
  destruct (for_range_inv (fun i l => l = map (fun i => zth 0 (dims ib) (i - 1)) (take (Z.to_nat i) ix))
    (fun i l => x ← ix.[i]; v ← (dims ib).[x - 1]; Ok (l ++ [v])) 0 nv []) as (l & -> & ->); [lia | done | |].
  - intros i l Hi ->. rewrite (aget_ok 0 ix) by lia. cbn [mbind res_bind].
    destruct (lookup_lt_is_Some_2 ix (Z.to_nat i)) as [y Hy]; [lia|].
    assert (zth 0 ix i = y) as -> by (unfold zth; by apply nth_lookup_Some).
    assert (Hx : 1 <= y <= nd).
    { apply (Forall_lookup_1 _ _ (Z.to_nat i) y Hix). by rewrite lookup_take_lt by lia. }
    rewrite (aget_ok 0) by lia. cbn [mbind res_bind]. eexists. split; [done|].
    replace (Z.to_nat (i + 1)) with (S (Z.to_nat i)) by lia.
    by rewrite (take_S_r ix _ y Hy), map_app.
  - cbn [mbind res_bind]. destruct (Z.ltb_spec (zlen (measures ib)) nm); [lia|]. split; [done|].
    split; cbn [measures dims project]; rewrite ?length_map, ?length_take; lia.
Qed.

Lemma meas_project ix nm nv i x : 0 <= i < nm -> meas i (project ix nm nv x) = meas i x.
Proof.
  intros Hi. unfold meas, project, zth. cbn [measures].
  destruct (decide (Z.to_nat i < length (measures x))%nat) as [Hl|].
  - destruct (lookup_lt_is_Some_2 _ _ Hl) as [y Hy]. rewrite (nth_lookup_Some _ _ _ _ Hy).
    apply nth_lookup_Some. rewrite lookup_take_lt by lia. done.
  - rewrite !nth_overflow; [done | lia | rewrite length_take; lia].
Qed.

Lemma mag_project ix nm nv i l : 0 <= i < nm -> mag i (map (project ix nm nv) l) = mag i l.
Proof.
  intros Hi. induction l as [|x l IH]; cbn [map mag foldr]; [done|]. fold (mag i (map (project ix nm nv) l)).
  rewrite IH. by rewrite meas_project.
Qed.

Lemma wf_walk t T : wf t T -> (height T < walk_fuel)%nat.
Proof. intros W. pose proof (wf_height t T W). change walk_fuel with 65%nat. lia. Qed.

(** ** Chunks *)

(** The chunks [Cs] are on the file, and their parameters are right. *)
Record chunked (a : cntl) (Cs : list (list data)) : Prop := {
  ck_number : numberOfChunks a = zlen Cs;
  ck_params : zlen (chunksParams a) = MAX_NUM_OF_CHUNKS;
  ck_file : fileOfChunks a = concat Cs;
  ck_at : forall i C, Cs !! i = Some C -> exists p s,
    chunksParams a !! i = Some (Chunk (zlen C) (outRecSize a * zlen (concat (take i Cs))) p s);
  ck_sorted : Forall sorted Cs;
  ck_shaped : Forall (Forall (shaped (avp_nm a) (nv a))) Cs;
  ck_some : Forall (fun C => C <> []) Cs
}.

(** The sizes that a view has. *)
Record sizes_ok (a : cntl) : Prop := {
  sz_nv : 1 <= nv a <= MAX_NUM_OF_DIMS;
  sz_nm : 0 <= avp_nm a <= MAX_NUM_OF_MEAS;
  sz_out : outRecSize a = DIM_FSZ * nv a + MSR_FSZ * avp_nm a;
  sz_node : node_size (nv a) (avp_nm a) <= memoryLimit (avp_tree a);
  sz_tree : tree_memory (avp_tree a)
}.

(** A tree that was initialised for a view, and the chunks before it *)
Record forming (a : cntl) (Cs : list (list data)) (T : tree) : Prop := {
  fm_sizes : sizes_ok a;
  fm_chunks : chunked a Cs;
  fm_wf : wf (avp_tree a) T;
  fm_nd : nd (avp_tree a) = nv a;
  fm_nm : nm (avp_tree a) = avp_nm a;
  fm_limit : nNodesLimit (avp_tree a) = memoryLimit (avp_tree a) / node_size (nv a) (avp_nm a)
}.

(** What never changes *)
Definition settings (a : cntl) : Z * Z * Z * Z := (nTopDims a, nInputRecs a, nParentViewRows a, smallestParentLevel a).
Definition constants (a : cntl) : Z * Z * (Z * Z * Z * Z) := (nv a, outRecSize a, settings a).

(** What the loop does not change. *)
Definition same_view (a a' : cntl) : Prop :=
  avp_view a' = avp_view a /\ avp_nd a' = avp_nd a /\ nv a' = nv a /\ selection a' = selection a /\
  outRecSize a' = outRecSize a /\ nRowsToRead a' = nRowsToRead a /\ avp_memoryLimit a' = avp_memoryLimit a /\
  nViewRows a' = nViewRows a /\ totalOfViewRows a' = totalOfViewRows a /\
  memoryLimit (avp_tree a') = memoryLimit (avp_tree a) /\ constants a' = constants a.

Lemma same_view_trans a b c : same_view a b -> same_view b c -> same_view a c.
Proof. unfold same_view. intros H1 H2. destruct_and?. repeat split; congruence. Qed.

Section Runs.
Context (write_chunks : nat -> bool).

(** The groups of the chunks and of the tree are those of the rows so far;
    every chunk but the last took a full tree. *)
Definition formed (a : cntl) (Cs : list (list data)) (T : tree) (rows : list data) : Prop :=
  groups (concat Cs ++ inorder T) = groups rows /\
  (forall i, 0 <= i < avp_nm a -> mag i (concat Cs ++ inorder T) <= mag i rows /\
                                  total i (concat Cs ++ inorder T) = total i rows) /\
  zlen Cs * nNodesLimit (avp_tree a) + size T <= zlen rows /\ zlen (concat Cs) + size T <= zlen rows.

Lemma chunk_bytes a Cs T : forming a Cs T -> u32 (count (avp_tree a) * outRecSize a) = outRecSize a * size T.
Proof.
  intros [S _ W _ _ Hl]. pose proof (wf_pool _ _ W) as P. destruct S as [S1 S2 S3 S4 (S5 & _)].
  unfold MAX_NUM_OF_DIMS, MAX_NUM_OF_MEAS in *. destruct (node_size_ok (nv a) (avp_nm a)) as [Hn Hm]; [lia..|].
  assert (nNodesLimit (avp_tree a) * node_size (nv a) (avp_nm a) <= memoryLimit (avp_tree a)).
  { rewrite Hl, Z.mul_comm. apply Z.mul_div_le. lia. }
  rewrite (p_count _ _ P), S3. pose proof (p_used _ _ P). unfold DIM_FSZ, MSR_FSZ in *.
  rewrite unsigned_small by nia. lia.
Qed.

(** A chunk is added. *)
Lemma add_chunk_ok a Cs T : forming a Cs T -> T <> Leaf -> zlen Cs < MAX_NUM_OF_CHUNKS ->
  exists a1 a2 e, save_chunk a (outRecSize a * zlen (concat Cs)) = Ok a1 /\ numberOfChunks a1 = zlen Cs + 1 /\
    avp_tree a1 = avp_tree a /\ write_chunk write_chunks a1 = Ok (a2, e) /\ avp_tree a2 = avp_tree a /\
    same_view a a1 /\ same_view a a2 /\ outcome write_chunks e (chunked a2 (Cs ++ [inorder T])).
Proof.
  intros [S C W Hd Hm Hl] Hne HC. pose proof (wf_pool _ _ W) as P. unfold save_chunk.
  destruct C as [C1 C2 C3 C4 C5 C6 C7]. unfold MAX_NUM_OF_CHUNKS in *.
  rewrite (aget_ok (Chunk 0 0 0 0) (chunksParams a)) by lia. cbn [mbind res_bind]. rewrite aset_ok by lia.
  cbn [mbind res_bind]. set (c := Chunk _ _ _ _). rewrite C1, unsigned_small by lia.
  exists (with_chunks a (zlen Cs + 1) (<[Z.to_nat (zlen Cs) := c]> (chunksParams a))).
  unfold write_chunk. cbn [avp_tree with_chunks fileOfChunks]. rewrite (h_root _ _ (wf_holds _ _ W)).
  rewrite (WriteChunkToDisk_visit _ _ T) by (apply (wf_holds _ _ W) || by apply (wf_walk _ _ W)).
  destruct (visit_chunk write_chunks (inorder T) (View 0 [] [] (fileOfChunks a))) as (w & e & -> & Ho).
  cbn [mbind res_bind]. eexists _, e. split; [reflexivity|]. do 2 (split; [done|]). split; [reflexivity|].
  split; [done|]. split; [by repeat split|]. split; [by repeat split|].
  destruct Ho as [[-> Hf] | Ho]; [left | by right]. split; [done|]. cbn [file] in Hf.
  split; cbn [with_fileOfChunks with_chunks numberOfChunks chunksParams fileOfChunks avp_nm nv outRecSize avp_view].
  - rewrite length_app. cbn [length]. lia.
  - by rewrite zlen_insert.
  - rewrite Hf, C3, concat_app. cbn [concat]. by rewrite app_nil_r.
  - intros i D HD. apply lookup_app_Some in HD as [HD | [Hi HD]].
    + destruct (C4 i D HD) as (p & s & E). apply lookup_lt_Some in HD. exists p, s.
      rewrite list_lookup_insert_ne by lia. by rewrite take_app_le by lia.
    + apply list_lookup_singleton_Some in HD as [Ei <-]. assert (i = length Cs) as -> by lia.
      eexists _, _. rewrite Nat2Z.id, list_lookup_insert_eq by lia. unfold c. rewrite (p_count _ _ P), size_inorder.
      by rewrite take_app_length.
  - apply Forall_app. split; [done|]. constructor; [apply W | done].
  - apply Forall_app. split; [done|]. constructor; [|done]. pose proof (wf_shaped _ _ W) as Hs.
    rewrite Hm, Hd in Hs. exact Hs.
  - apply Forall_app. split; [done|]. constructor; [|done]. destruct T; [done|]. cbn [inorder].
    by destruct (inorder T1).
Qed.

(** A row is inserted. *)
Lemma formed_step a Cs T T' x rows t' : forming a Cs T -> formed a Cs T rows -> shaped (avp_nm a) (nv a) x ->
  kept (avp_tree a) t' -> inorder T' = upsert x (inorder T) -> formed (with_tree a t') Cs T' (rows ++ [x]).
Proof.
  intros [_ _ W Hd Hm _] (Hg & Hs & Hl) Hx (K1 & K2 & K3 & _) E. unfold formed. rewrite E.
  pose proof (wf_shaped _ _ W) as Hsh. rewrite Hd, Hm in Hsh. split; [|split].
  - rewrite (groups_app_l (concat Cs) _ _ (groups_upsert _ _ x _ Hx Hsh)), <- Permutation_middle, (Permutation_app_comm rows [x]).
    cbn [groups foldr app]. unfold groups in Hg. by rewrite Hg.
  - intros i Hi. change (avp_nm (with_tree a t')) with (avp_nm a) in Hi. specialize (Hs i Hi).
    rewrite !mag_app, !total_app in *. rewrite (total_upsert _ _ i x _ Hx Hsh Hi).
    pose proof (mag_upsert _ _ i x _ Hx Hsh Hi). cbn [mag total foldr] in *. unfold mag, total in *. lia.
  - cbn [avp_tree with_tree]. rewrite K3, length_app, !size_inorder, E in *. pose proof (upsert_length x (inorder T)).
    cbn [length]. lia.
Qed.

(** The tree becomes a chunk. *)
Lemma formed_chunk a a' Cs T rows : avp_nm a' = avp_nm a -> nNodesLimit (avp_tree a') = nNodesLimit (avp_tree a) ->
  formed a Cs T rows -> nNodesLimit (avp_tree a) <= size T -> formed a' (Cs ++ [inorder T]) Leaf rows.
Proof.
  intros En El (Hg & Hs & Hl) Hf. unfold formed. rewrite concat_app, En, El. cbn [concat inorder size]. rewrite !app_nil_r.
  split; [done|]. split; [done|]. rewrite !length_app, size_inorder in *. cbn [length]. lia.
Qed.

Section Rows.
Context (a0 : cntl) (rows : list data).
Hypothesis Hsel : selects (selection a0) (avp_nd a0) (nv a0).
Hypothesis Hrows : Forall (shaped (avp_nm a0) (avp_nd a0)) rows.
Hypothesis Hfits : fits (avp_nm a0) rows.

Let proj := project (selection a0) (avp_nm a0) (nv a0).
Let limit := memoryLimit (avp_tree a0) / node_size (nv a0) (avp_nm a0).

(** Enough chunks for all rows *)
Hypothesis Hchunks : zlen rows < (MAX_NUM_OF_CHUNKS - 1) * limit.

Lemma forming_limit a Cs T : same_view a0 a -> forming a Cs T -> nNodesLimit (avp_tree a) = limit.
Proof.
  intros (V1 & _ & V3 & _ & _ & _ & _ & _ & _ & V4 & _) [_ _ _ _ _ E]. unfold limit. rewrite E. unfold avp_nm.
  by rewrite V1, V3, V4.
Qed.

Lemma row_inserted a Cs T x seen : same_view a0 a -> forming a Cs T -> formed a Cs T (map proj seen) ->
  memoryIsFull (avp_tree a) = 0 -> x ∈ rows -> (exists l, rows = seen ++ x :: l) ->
  SelectToView x (selection a) (avp_nm a) (nv a) = Ok (proj x) /\
  exists t T', TreeInsert (avp_tree a) (proj x) = Ok t /\ forming (with_tree a t) Cs T' /\
    formed (with_tree a t) Cs T' (map proj (seen ++ [x])) /\ T' <> Leaf /\
    same_view a0 (with_tree a t).
Proof.
  intros Hv HF Hfm Hfull Hx (l & El). pose proof Hv as (V1 & V2 & V3 & V4 & _).
  assert (Em : avp_nm a = avp_nm a0) by (unfold avp_nm; by rewrite V1).
  assert (Hxs : shaped (avp_nm a0) (avp_nd a0) x) by (rewrite list.Forall_forall in Hrows; by apply Hrows).
  pose proof HF as [S C W Hd Hm Hl].
  destruct (SelectToView_ok x (selection a0) (avp_nm a0) (avp_nd a0) (nv a0)) as [E Hsx]; try done.
  { rewrite <- Em. apply S. }
  rewrite V3, V4, Em. split; [exact E|]. fold (proj x) in Hsx.
  assert (Hsx' : shaped (nm (avp_tree a)) (nd (avp_tree a)) (proj x)) by by rewrite Hm, Hd, V3, Em.
  destruct (TreeInsert_ok (avp_tree a) T (proj x) W Hfull Hsx') as (t & T' & Ei & W' & Hi & K).
  { apply (fits_sums (nm (avp_tree a)) (nd (avp_tree a))); [done | apply W |]. intros i Hi.
    rewrite Hm in Hi. cbn [mag foldr]. fold (mag i (inorder T)). destruct Hfm as (_ & Hs & _).
    specialize (Hs i Hi). rewrite Em in Hi. specialize (Hfits i Hi). rewrite El, mag_app in Hfits.
    unfold proj in *. rewrite mag_app, mag_project in Hs by done. cbn [mag foldr] in Hfits. fold (mag i l) in Hfits.
    rewrite meas_project by done. pose proof (mag_nonneg i (concat Cs)). pose proof (mag_nonneg i l). lia. }
  exists t, T'. split; [done|]. destruct K as (K1 & K2 & K3 & K4). split; [|split; [|split]].
  - destruct S as [S1 S2 S3 S4 S5]. split; cbn [avp_tree with_tree]; try done.
    + split; cbn [avp_tree with_tree]; try done; rewrite ?K4; try done.
      unfold tree_memory. rewrite K4. split; [apply S5|]. split; apply (wf_pool _ _ W').
    + by destruct C.
    + by rewrite K2.
    + by rewrite K1.
    + rewrite K3, K4. done.
  - rewrite map_app. by apply (formed_step _ _ T); try done; rewrite Em, V3.
  - intros ->. cbn [inorder] in Hi. destruct (inorder T) as [|y ys]; [done|]. cbn [upsert] in Hi.
    by destruct (key_cmp _ _).
  - by apply (same_view_trans _ a).
Qed.

(** The tree starts again. *)
Lemma forming_init a Cs : sizes_ok a -> chunked a Cs ->
  exists t, InitializeTree (avp_tree a) (nv a) (avp_nm a) = Ok t /\ forming (with_tree a t) Cs Leaf /\
    memoryIsFull t = 0 /\ memoryLimit t = memoryLimit (avp_tree a).
Proof.
  intros [S1 S2 S3 S4 S5] C. destruct (InitializeTree_ok (avp_tree a) (nv a) (avp_nm a))
    as (t & -> & W & Ed & Em & Ec & Ef & El & Et & En); try done.
  exists t. split; [done|]. split; [|done]. split; cbn [avp_tree with_tree]; try done.
  - split; cbn [avp_tree with_tree]; try done. by rewrite El.
  - by destruct C.
  - by rewrite En, El.
Qed.

Lemma forming_chunked a a' Cs T Cs' : same_view a a' -> avp_tree a' = avp_tree a -> forming a Cs T -> chunked a' Cs' ->
  sizes_ok a'.
Proof.
  intros (V1 & V2 & V3 & _ & V5 & _) E [[S1 S2 S3 S4 S5] _ _ _ _ _] _. unfold avp_nm in *.
  split; unfold avp_nm; rewrite ?V1, ?V3, ?V5, ?E; done.
Qed.

Lemma run_rows_ok todo : forall a Cs T seen attrs rest, same_view a0 a -> forming a Cs T ->
  formed a Cs T (map proj seen) -> memoryIsFull (avp_tree a) = 0 -> rows = seen ++ todo ->
  exists a' offset e,
    run_rows write_chunks (length todo) a (todo ++ rest) attrs (outRecSize a * zlen (concat Cs)) = Ok (a', offset, e) /\
    outcome write_chunks e (same_view a0 a' /\ exists Cs' T', forming a' Cs' T' /\ formed a' Cs' T' (map proj rows) /\
      offset = outRecSize a' * zlen (concat Cs')).
Proof.
  induction todo as [|x todo IH]; intros a Cs T seen attrs rest Hv HF Hfm Hfull Er.
  - rewrite app_nil_r in Er. subst seen. exists a, (outRecSize a * zlen (concat Cs)), ADC_OK. split; [done|]. left.
    split; [done|]. split; [done|]. by exists Cs, T.
  - assert (Hx : x ∈ rows) by (rewrite Er; apply list.elem_of_app; right; apply list.elem_of_cons; by left).
    destruct (row_inserted a Cs T x seen Hv HF Hfm Hfull Hx) as (Es & t & T' & Et & HF' & Hfm' & Hne & Hv'); [by exists todo|].
    cbn [length run_rows app fread_record]. rewrite Es. cbn [mbind res_bind]. rewrite Et. cbn [mbind res_bind].
    assert (Er' : rows = (seen ++ [x]) ++ todo) by by rewrite Er, <- app_assoc.
    destruct (Z.eqb_spec (memoryIsFull t) 0) as [E0|E0]; cbn [negb].
    + by apply (IH (with_tree a t) Cs T' (seen ++ [x])).
    + set (a1 := with_tree a t) in *. pose proof (wf_pool _ _ (fm_wf _ _ _ HF')) as P.
      pose proof (forming_limit a1 Cs T' Hv' HF') as El.
      assert (Hsz : size T' = limit).
      { change (memoryIsFull t) with (memoryIsFull (avp_tree a1)) in E0. rewrite (p_full _ _ P) in E0.
        destruct (Z.eqb_spec (size T') (nNodesLimit (avp_tree a1))); [lia | done]. }
      pose proof Hfm' as (_ & _ & Hc & Hb). rewrite El, length_map, length_app in Hc. rewrite length_map, length_app in Hb.
      pose proof (p_some _ _ P). pose proof (pool_small _ _ P).
      assert (Hr : zlen seen + 1 <= zlen rows) by (rewrite Er, length_app; cbn [length]; lia). cbn [length] in Hc, Hb.
      assert (Hn : zlen Cs + 1 < MAX_NUM_OF_CHUNKS - 1) by (unfold MAX_NUM_OF_CHUNKS in *; nia).
      destruct (add_chunk_ok a1 Cs T' HF' Hne) as (a2 & a3 & e & E2 & N2 & T2 & E3 & T3 & V2 & V3 & Ho); [lia|].
      change (outRecSize a1) with (outRecSize a) in E2. rewrite E2. cbn [mbind res_bind]. rewrite N2.
      destruct (Z.leb_spec MAX_NUM_OF_CHUNKS (zlen Cs + 1)); [lia|].
      pose proof (chunk_bytes a1 Cs T' HF') as Eb. destruct V2 as (_ & _ & _ & _ & V25 & _).
      rewrite V25. change (count t) with (count (avp_tree a1)). rewrite Eb. change (outRecSize a) with (outRecSize a1).
      rewrite E3. cbn [mbind res_bind]. set (Cs' := Cs ++ [inorder T']) in *.
      assert (Hout : 0 <= outRecSize a1 <= 112).
      { destruct (fm_sizes _ _ _ HF') as [S1 S2 S3 _ _]. rewrite S3.
        unfold DIM_FSZ, MSR_FSZ, MAX_NUM_OF_DIMS, MAX_NUM_OF_MEAS in *. lia. }
      assert (Eo : i64 (outRecSize a1 * zlen (concat Cs) + outRecSize a1 * size T') = outRecSize a1 * zlen (concat Cs')).
      { unfold Cs'. rewrite concat_app, length_app, size_inorder. cbn [concat]. rewrite app_nil_r, size_inorder in *.
        unfold MAX_NUM_OF_CHUNKS in *. rewrite signed_small by nia. lia. }
      rewrite Eo. clear Eo. destruct Ho as [(-> & C3) | (-> & Hw)]; cbn [Z.eqb negb ADC_OK ADC_WRITE_FAILED].
      * destruct (forming_init a3 Cs') as (t' & -> & HF3 & Hf3 & Hl3); [by apply (forming_chunked a1 a3 Cs T' Cs') | done |].
        cbn [mbind res_bind]. destruct (V3) as (_ & _ & _ & _ & V35 & _). rewrite <- V35.
        change (outRecSize a3) with (outRecSize (with_tree a3 t')).
        assert (Hv3 : same_view a0 (with_tree a3 t')).
        { apply (same_view_trans _ a1); [done|]. apply (same_view_trans _ a3); [done|]. by repeat split. }
        apply (IH _ Cs' Leaf (seen ++ [x])); try done. apply (formed_chunk a1); [by unfold avp_nm; cbn [avp_view with_tree]; rewrite (proj1 V3) | | done | lia].
        rewrite El. by apply (forming_limit _ Cs' Leaf).
      * exists a3, (outRecSize a1 * zlen (concat Cs')), ADC_WRITE_FAILED. split; [done|]. by right.
Qed.

(** The records of [l] are the groups of the rows, up to groups that occur
    more than once. *)
Definition regroups (nm : Z) (l rows : list data) : Prop :=
  groups l = groups rows /\
  (forall i, 0 <= i < nm -> mag i l <= mag i rows /\ total i l = total i rows) /\ zlen l <= zlen rows.

Lemma formed_regroups a Cs T l : formed a Cs T l -> regroups (avp_nm a) (concat Cs ++ inorder T) l.
Proof. intros (Hg & Hs & _ & Hl). split; [done|]. split; [done|]. rewrite length_app, size_inorder in *. lia. Qed.

(** All rows are in the tree, or all rows are in chunks. *)
Definition runs (a : cntl) (l : list data) : Prop :=
  (exists T, forming a [] T /\ regroups (avp_nm a) (inorder T) l) \/
  (exists Cs, Cs <> [] /\ sizes_ok a /\ chunked a Cs /\ zlen Cs <= MAX_NUM_OF_CHUNKS /\ regroups (avp_nm a) (concat Cs) l).

Lemma formed_number a Cs T : same_view a0 a -> forming a Cs T -> formed a Cs T (map proj rows) ->
  zlen Cs < MAX_NUM_OF_CHUNKS - 1.
Proof.
  intros Hv HF (_ & _ & Hc & _). rewrite (forming_limit a Cs T Hv HF), length_map in Hc.
  pose proof (p_used _ _ (wf_pool _ _ (fm_wf _ _ _ HF))). pose proof (p_some _ _ (wf_pool _ _ (fm_wf _ _ _ HF))) as H1.
  rewrite (forming_limit a Cs T Hv HF) in *. unfold MAX_NUM_OF_CHUNKS in *. nia.
Qed.

(** The last tree becomes a chunk. *)
Lemma last_chunk_ok a Cs T l : Cs <> [] -> same_view a0 a -> forming a Cs T -> formed a Cs T l -> T <> Leaf ->
  zlen Cs < MAX_NUM_OF_CHUNKS - 1 ->
  exists a' e,
    (a ← save_chunk a (outRecSize a * zlen (concat Cs));
     '(a, e) ← write_chunk write_chunks a;
     if negb (e =? 0) then Ok (a, ADC_WRITE_FAILED) else Ok (a, ADC_OK)) = Ok (a', e) /\
    outcome write_chunks e (same_view a0 a' /\ runs a' l).
Proof.
  intros Hne Hv HF Hfm HT Hn. destruct (add_chunk_ok a Cs T HF HT) as (a2 & a3 & e & -> & _ & _ & E3 & T3 & _ & V3 & Ho); [lia|].
  cbn [mbind res_bind]. rewrite E3. cbn [mbind res_bind]. destruct Ho as [(-> & C3) | (-> & Hw)]; cbn [Z.eqb negb ADC_OK ADC_WRITE_FAILED].
  - exists a3, ADC_OK. split; [done|]. left. split; [done|]. split; [by apply (same_view_trans _ a)|]. right.
    exists (Cs ++ [inorder T]). split; [by destruct Cs|]. split; [by apply (forming_chunked a a3 Cs T (Cs ++ [inorder T]))|].
    split; [done|]. split; [rewrite length_app; cbn [length]; lia|].
    rewrite concat_app. cbn [concat]. rewrite app_nil_r. unfold avp_nm. rewrite (proj1 V3). by apply formed_regroups.
  - exists a3, ADC_WRITE_FAILED. split; [done|]. by right.
Qed.

Lemma RunFormation_ok rest : sizes_ok a0 -> chunked a0 [] -> nRowsToRead a0 = zlen rows ->
  exists a' e, RunFormation write_chunks a0 (rows ++ rest) = Ok (a', e) /\
    outcome write_chunks e (same_view a0 a' /\ runs a' (map proj rows)).
Proof.
  intros S0 C0 En. destruct (forming_init a0 [] S0 C0) as (t & Et & HF0 & Hf0 & Hl0). unfold RunFormation.
  rewrite Et. cbn [mbind res_bind]. rewrite En, Nat2Z.id.
  assert (Hv0 : same_view a0 (with_tree a0 t)) by by repeat split.
  destruct (run_rows_ok rows (with_tree a0 t) [] Leaf [] (Data [] []) rest Hv0 HF0) as (a1 & o & e & E1 & Ho); try done.
  change (zlen (concat [])) with 0 in E1. rewrite Z.mul_0_r in E1. rewrite E1. cbn [mbind res_bind].
  destruct Ho as [(-> & Hv & Cs & T & HF & Hfm & ->) | (-> & Hw)].
  2: { exists a1, ADC_WRITE_FAILED. split; [done|]. by right. }
  cbn [Z.eqb negb ADC_OK]. pose proof HF as [S1 C1 W1 _ _ _]. pose proof (formed_regroups _ _ _ _ Hfm) as Hre.
  pose proof (formed_number a1 Cs T Hv HF Hfm) as Hnum.
  rewrite (ck_number _ _ C1). destruct Cs as [|C Cs].
  - cbn [length Z.of_nat Z.eqb negb andb]. exists a1, ADC_OK. split; [done|]. left. split; [done|]. split; [done|].
    left. by exists T.
  - destruct (Z.eqb_spec (zlen (C :: Cs)) 0); [cbn [length] in *; lia|]. cbn [negb andb].
    rewrite (p_count _ _ (wf_pool _ _ W1)). destruct (Z.eqb_spec (size T) 0) as [E|E]; cbn [negb].
    + exists a1, ADC_OK. split; [done|]. left. split; [done|]. split; [done|]. right. exists (C :: Cs).
      assert (T = Leaf) as -> by (destruct T; [done|]; rewrite size_inorder in E; cbn [inorder] in E;
        rewrite length_app in E; cbn [length] in E; lia).
      cbn [inorder] in Hre. rewrite app_nil_r in Hre. repeat (split; [done|]). split; [lia | done].
    + apply (last_chunk_ok a1 (C :: Cs) T); try done. by intros ->.
Qed.
End Rows.
End Runs.
