(* ===== verification/DataBuffer.v ===== *)
(** * The merge buffer

    Each chunk has a part of the buffer with the next records of it; the rest
    of the chunk is on the file.  Refilling the buffer and choosing the least
    record, by what they do to the records that remain of each chunk. *)

From stdpp Require Import gmap.
From S2P Require Import Prelude Rbt RbtTree Groups RbtGroup DataCube.

Definition no_record : data := Data [] [].
Definition no_chunk : CHUNKS := Chunk 0 0 0 0.

(** [xs] is in [l] from [k] on. *)
Definition found_at (l : list data) (k : Z) (xs : list data) : Prop :=
  0 <= k /\ k + zlen xs <= zlen l /\ forall j, 0 <= j < zlen xs -> zth no_record l (k + j) = zth no_record xs j.

Lemma zth_cons {A} (d : A) x l j : 0 <= j -> zth d (x :: l) (j + 1) = zth d l j.
Proof. intros Hj. unfold zth. by replace (Z.to_nat (j + 1)) with (S (Z.to_nat j)) by lia. Qed.

Section Found.
Context (l : list data).

Lemma found_head k x xs : found_at l k (x :: xs) -> l.[k] = Ok x.
Proof.
  intros (Hk & Hl & H). cbn [length] in *. rewrite (aget_ok no_record) by lia. f_equal.
  specialize (H 0 ltac:(lia)). by rewrite Z.add_0_r in H.
Qed.

Lemma found_tail k x xs : found_at l k (x :: xs) -> found_at l (k + 1) xs.
Proof.
  intros (Hk & Hl & H). cbn [length] in *. split; [lia|]. split; [lia|]. intros j Hj.
  specialize (H (j + 1) ltac:(lia)). rewrite zth_cons in H by lia. rewrite <- H. f_equal. lia.
Qed.

Lemma found_app k xs ys : found_at l k (xs ++ ys) -> found_at l k xs /\ found_at l (k + zlen xs) ys.
Proof.
  intros (Hk & Hl & H). rewrite length_app in *. split; (split; [lia|]; split; [lia|]); intros j Hj.
  - rewrite H, zth_app_l by lia. done.
  - rewrite <- Z.add_assoc, H, zth_app_r by lia. f_equal. lia.
Qed.

Lemma found_same l' k xs : zlen l' = zlen l ->
  (forall j, k <= j < k + zlen xs -> zth no_record l' j = zth no_record l j) -> found_at l k xs -> found_at l' k xs.
Proof.
  intros El Hs (Hk & Hl & H). split; [done|]. split; [lia|]. intros j Hj. rewrite Hs by lia. by apply H.
Qed.
End Found.

Lemma found_concat Cs i C : Cs !! i = Some C -> found_at (concat Cs) (zlen (concat (take i Cs))) C.
Proof.
  revert i. induction Cs as [|D Cs IH]; intros [|i] H; try done.
  - injection H as ->. cbn [take concat length]. split; [lia|]. rewrite length_app. split; [lia|]. intros j Hj.
    by rewrite Z.add_0_l, zth_app_l by lia.
  - destruct (IH i H) as (Hk & Hl & Hz). cbn [take concat]. rewrite !length_app. split; [lia|]. split; [rewrite length_app; lia|].
    intros j Hj. rewrite zth_app_r by lia. rewrite <- Hz by lia. f_equal. lia.
Qed.

Lemma slot_ok k w : 0 < w -> slot (k * w) w = Ok k.
Proof.
  intros Hw. unfold slot. destruct (Z.eqb_spec w 0); [lia|]. rewrite Z.mod_mul, Z.div_mul by lia. done.
Qed.

(** ** Reading *)

Lemma seek_ok buffer w k inFile size first xs : 0 < w -> 0 < size -> found_at inFile first xs ->
  0 <= k -> k + zlen xs <= zlen buffer ->
  exists b, SeekAndReadNextSubChunk buffer w (k * w) inFile size (size * first) (zlen xs) = Ok b /\
    zlen b = zlen buffer /\ found_at b k xs /\
    forall j, 0 <= j < k \/ k + zlen xs <= j < zlen buffer -> zth no_record b j = zth no_record buffer j.
Proof.
  intros Hw Hs (Hf & Hl & Hx) Hk Hb. unfold SeekAndReadNextSubChunk. destruct (Z.ltb_spec (size * first) 0); [nia|].
  rewrite slot_ok, (Z.mul_comm size first), slot_ok by done. cbn [mbind res_bind].
  assert (Er : take (Z.to_nat (zlen xs)) (drop (Z.to_nat first) inFile) = xs).
  { apply (zth_ext no_record); [rewrite length_take, length_drop; lia|]. rewrite length_take, length_drop. intros i Hi.
    rewrite <- Hx by lia. unfold zth. rewrite !nth_lookup. f_equal. rewrite lookup_take_lt, lookup_drop by lia.
    f_equal. lia. }
  rewrite Er.
  destruct (for_range_inv (fun i b => zlen b = zlen buffer /\
      forall j, 0 <= j < zlen buffer ->
        zth no_record b j = if (k <=? j) && (j <? k + i) then zth no_record xs (j - k) else zth no_record buffer j)
    (fun j b => x ← xs.[j]; b.[k + j <- x]) 0 (zlen xs) buffer) as (b & -> & El & Hz); [lia | | |].
  - split; [done|]. intros j Hj. by destruct (Z.leb_spec k j), (Z.ltb_spec j (k + 0)); try lia.
  - intros i b Hi [El Hz]. rewrite (aget_ok no_record) by lia. cbn [mbind res_bind]. rewrite aset_ok by lia.
    eexists. split; [done|]. rewrite zlen_insert. split; [done|]. intros j Hj.
    rewrite (zth_insert no_record), Hz by lia. destruct (Z.eqb_spec j (k + i)) as [->|].
    + destruct (Z.leb_spec k (k + i)), (Z.ltb_spec (k + i) (k + (i + 1))); try lia. cbn. f_equal. lia.
    + destruct (Z.leb_spec k j), (Z.ltb_spec j (k + i)), (Z.ltb_spec j (k + (i + 1))); try lia; done.
  - exists b. split; [done|]. split; [done|]. split.
    + split; [done|]. split; [lia|]. intros j Hj. rewrite Hz by lia.
      destruct (Z.leb_spec k (k + j)), (Z.ltb_spec (k + j) (k + zlen xs)); try lia. cbn. f_equal. lia.
    + intros j Hj. rewrite Hz by lia. destruct (Z.leb_spec k j), (Z.ltb_spec j (k + zlen xs)); try lia; done.
Qed.

(** ** What remains of the chunks, in the buffer and on file *)

Abbreviation none := (@nil data, @nil data).

Definition remaining (R : list data * list data) : list data := fst R ++ snd R.

(** The records of chunk [i] in the buffer *)
Definition front (Rs : list (list data * list data)) (i : Z) : list data := fst (zth none Rs i).

Definition rest (Rs : list (list data * list data)) : list data := concat (map remaining Rs).

Section Remaining.
Context (n : Z).

(** A chunk with no record in the buffer is exhausted. *)
Definition settled (Rs : list (list data * list data)) : Prop :=
  forall i, 0 <= i < n -> fst (zth none Rs i) = [] -> snd (zth none Rs i) = [].

Lemma rest_insert Rs i R : 0 <= i < zlen Rs ->
  exists l, Permutation (rest Rs) (remaining (zth none Rs i) ++ l) /\
    Permutation (rest (<[Z.to_nat i := R]> Rs)) (remaining R ++ l).
Proof.
  intros Hi. destruct (lookup_lt_is_Some_2 Rs (Z.to_nat i)) as [R0 HR]; [lia|].
  assert (zth none Rs i = R0) as -> by (unfold zth; by apply nth_lookup_Some).
  exists (rest (take (Z.to_nat i) Rs) ++ rest (drop (S (Z.to_nat i)) Rs)). unfold rest. split.
  - rewrite <- (take_drop_middle Rs (Z.to_nat i) R0 HR) at 1. rewrite map_app, concat_app. cbn [map concat].
    by rewrite Permutation_app_swap_app.
  - rewrite insert_take_drop by lia. rewrite map_app, concat_app. cbn [map concat].
    by rewrite Permutation_app_swap_app.
Qed.

Lemma rest_elem Rs y : y ∈ rest Rs <-> exists i, 0 <= i < zlen Rs /\ y ∈ remaining (zth none Rs i).
Proof.
  induction Rs as [|R Rs IH]; unfold rest in *; cbn [map concat length].
  - split; [intros Hy; inversion Hy | intros (i & Hi & _); lia].
  - rewrite list.elem_of_app, IH. split.
    + intros [Hy | (i & Hi & Hy)]; [exists 0; split; [lia | done]|]. exists (i + 1). rewrite zth_cons by lia. split; [lia | done].
    + intros (i & Hi & Hy). destruct (decide (i = 0)) as [->|]; [by left|]. right. exists (i - 1). split; [lia|].
      by rewrite <- (zth_cons none R) by lia; rewrite Z.sub_add.
Qed.

Lemma rest_front Rs : zlen Rs = n -> settled Rs -> rest Rs <> [] -> exists i, 0 <= i < n /\ fst (zth none Rs i) <> [].
Proof.
  intros HR Hs Hne. destruct (rest Rs) as [|y l] eqn:E; [done|].
  assert (y ∈ rest Rs) as Hy by (rewrite E; apply list.elem_of_cons; by left).
  apply rest_elem in Hy as (i & Hi & Hy). exists i. split; [lia|]. intros E1. unfold remaining in Hy.
  rewrite E1, Hs in Hy by (lia || done). inversion Hy.
Qed.

Lemma rest_nil Rs : zlen Rs = n -> rest Rs = [] <->
  forall i, 0 <= i < n -> fst (zth none Rs i) = [] /\ snd (zth none Rs i) = [].
Proof.
  intros HR. split.
  - intros E i Hi. assert (Hr : remaining (zth none Rs i) = []); [|by apply app_eq_nil in Hr].
    destruct (remaining (zth none Rs i)) as [|y l] eqn:Er; [done|]. exfalso.
    assert (y ∈ rest Rs) as Hy; [|rewrite E in Hy; inversion Hy]. apply rest_elem. exists i. split; [lia|].
    rewrite Er. apply list.elem_of_cons. by left.
  - intros Hall. destruct (rest Rs) as [|y l] eqn:E; [done|]. exfalso.
    assert (y ∈ rest Rs) as Hy by (rewrite E; apply list.elem_of_cons; by left).
    apply rest_elem in Hy as (i & Hi & Hy). destruct (Hall i ltac:(lia)) as [E1 E2]. unfold remaining in Hy.
    rewrite E1, E2 in Hy. inversion Hy.
Qed.
End Remaining.

(** ** Chunks in the buffer *)

Section Buffer.
Context (inFile : list data) (size w reg n : Z).
Hypothesis Hw : 0 < w.
Hypothesis Hsize : 0 < size.
Hypothesis Hreg : 1 <= reg.
Hypothesis Hfits : n * reg * w < 2 ^ 32.
Hypothesis Hbytes : reg * size < 2 ^ 32.
Hypothesis Hfile : size * zlen inFile + reg * size < 2 ^ 63.

(** The records [F] of a chunk are still to be read. *)
Definition on_file (c : CHUNKS) (F : list data) : Prop :=
  curChunkNum c = zlen F /\ (F <> [] -> exists k, chunkOffset c = size * k /\ found_at inFile k F).

(** The records [B] of chunk [i] are in the buffer, and [F] still on file. *)
Definition buffered (buffer : list data) (i : Z) (c : CHUNKS) (B F : list data) : Prop :=
  curSubChunk c = zlen B /\ 0 <= posSubChunk c /\ posSubChunk c + zlen B <= reg /\
  found_at buffer (i * reg + posSubChunk c) B /\ on_file c F.

(** Its part of the buffer *)
Definition part (i j : Z) : Prop := i * reg <= j < (i + 1) * reg.

Lemma buffered_same b b' i c B F : zlen b' = zlen b -> (forall j, part i j -> zth no_record b' j = zth no_record b j) ->
  buffered b i c B F -> buffered b' i c B F.
Proof.
  intros El Hs (H1 & H2 & H3 & H4 & H5). repeat split; try done; try (apply H5); try (apply H4).
  - rewrite El. apply H4.
  - intros j Hj. rewrite Hs by (unfold part; lia). by apply H4.
Qed.

Lemma index_ok i k : 0 <= i < n -> 0 <= k < reg -> u32 (u32 (i * reg + k) * w) = (i * reg + k) * w.
Proof.
  intros Hi Hk. assert (i * reg + k < n * reg) by nia. rewrite (unsigned_small 32 (i * reg + k)) by nia.
  apply unsigned_small. nia.
Qed.

(** The part of a chunk is filled again. *)
Lemma ReadSubChunk_ok buffer chunks i F : 0 <= i < n -> i < zlen chunks -> n * reg <= zlen buffer ->
  on_file (zth no_chunk chunks i) F ->
  (F = [] /\ ReadSubChunk size buffer w i reg chunks inFile = Ok (buffer, chunks)) \/
  exists b c B F', F = B ++ F' /\ B <> [] /\
    ReadSubChunk size buffer w i reg chunks inFile = Ok (b, <[Z.to_nat i := c]> chunks) /\
    zlen b = zlen buffer /\ buffered b i c B F' /\
    forall j, 0 <= j < zlen buffer -> ~ part i j -> zth no_record b j = zth no_record buffer j.
Proof.
  intros Hi Hc Hb [Hn HF]. unfold ReadSubChunk. rewrite (aget_ok no_chunk) by lia. cbn [mbind res_bind].
  rewrite Hn. set (c0 := zth no_chunk chunks i) in *. destruct F as [|x F]; [by left|]. right.
  destruct HF as (k & Eo & Hk); [done|]. set (Fx := x :: F) in *.
  assert (HFx : 0 < zlen Fx) by (unfold Fx; cbn [length]; lia). destruct (Z.ltb_spec 0 (zlen Fx)); [|lia].
  assert (Hir : i * reg + reg <= zlen buffer) by nia.
  destruct (Z.ltb_spec (zlen Fx) reg).
  - rewrite index_ok by lia. rewrite Eo.
    destruct (seek_ok buffer w (i * reg + (reg - zlen Fx)) inFile size k Fx) as (b & -> & El & Hf & Hs);
      [done | done | done | nia | lia |].
    cbn [mbind res_bind]. rewrite aset_ok by lia. cbn [mbind res_bind].
    exists b, (Chunk 0 (-1) (reg - zlen Fx) (zlen Fx)), Fx, []. rewrite app_nil_r. repeat split; cbn [posSubChunk]; try done; try lia; try apply Hf.
    intros j Hj Hp. unfold part in Hp. apply Hs. lia.
  - rewrite <- (Z.add_0_r (i * reg)), index_ok by lia. rewrite Eo.
    assert (Et : zlen (take (Z.to_nat reg) Fx) = reg) by (rewrite length_take; lia).
    rewrite <- (take_drop (Z.to_nat reg) Fx) in Hk. apply found_app in Hk as [Hk1 Hk2]. rewrite Et in Hk2.
    destruct (seek_ok buffer w (i * reg + 0) inFile size k (take (Z.to_nat reg) Fx)) as (b & E & El & Hf & Hs);
      [done | done | done | nia | lia |].
    rewrite Et in E. rewrite E. cbn [mbind res_bind].
    assert (k + reg <= zlen inFile) by (destruct Hk1 as (_ & Hl & _); lia).
    assert (0 <= k) by apply Hk1.
    rewrite (unsigned_small 32 (reg * size)) by nia. rewrite chk_ok by nia. cbn [mbind res_bind].
    rewrite aset_ok by lia. cbn [mbind res_bind].
    exists b, (Chunk (zlen Fx - reg) (size * k + reg * size) 0 reg), (take (Z.to_nat reg) Fx), (drop (Z.to_nat reg) Fx).
    split; [by rewrite take_drop|]. split; [intros E0; rewrite E0 in Et; cbn in Et; lia|]. split; [done|].
    split; [done|]. split.
    + repeat split; cbn [posSubChunk curSubChunk curChunkNum chunkOffset]; try lia; try apply Hf.
      * rewrite length_drop. lia.
      * intros _. exists (k + reg). split; [lia | done].
    + intros j Hj Hp. unfold part in Hp. apply Hs. lia.
Qed.

Lemma part_disjoint i k j : part i j -> part k j -> i = k.
Proof. unfold part. intros. destruct (Z.lt_total i k) as [|[|]]; nia. Qed.

(** [Rs] are what remains of the chunks, in the buffer and on file. *)
Record buffers (b : list data) (cs : list CHUNKS) (Rs : list (list data * list data)) : Prop := {
  bf_room : n * reg <= zlen b;
  bf_chunks : n <= zlen cs;
  bf_number : zlen Rs = n;
  bf_at : forall i, 0 <= i < n -> buffered b i (zth no_chunk cs i) (fst (zth none Rs i)) (snd (zth none Rs i))
}.

(** All chunks are read for the first time. *)
Lemma fill_ok buffer chunks Cs : 0 <= n <= zlen chunks -> n * reg <= zlen buffer -> zlen Cs = n ->
  (forall i, 0 <= i < n -> on_file (zth no_chunk chunks i) (zth [] Cs i) /\ zth [] Cs i <> []) ->
  exists b cs Rs,
    for_range 0 n (fun i '(b, cs) => ReadSubChunk size b w i reg cs inFile) (buffer, chunks) = Ok (b, cs) /\
    zlen cs = zlen chunks /\ buffers b cs Rs /\ settled n Rs /\ map remaining Rs = Cs.
Proof.
  intros Hn Hb HC Hf.
  destruct (for_range_inv (fun i '(b, cs) => zlen b = zlen buffer /\ zlen cs = zlen chunks /\
      (forall j, i <= j < n -> zth no_chunk cs j = zth no_chunk chunks j) /\
      exists Rs, zlen Rs = i /\ forall j, 0 <= j < i ->
        buffered b j (zth no_chunk cs j) (fst (zth none Rs j)) (snd (zth none Rs j)) /\
        remaining (zth none Rs j) = zth [] Cs j /\ fst (zth none Rs j) <> [])
    (fun i '(b, cs) => ReadSubChunk size b w i reg cs inFile) 0 n (buffer, chunks))
    as ([b cs] & -> & Lb & Lc & _ & Rs & LR & HR); [lia | | |].
  - do 3 (split; [done|]). exists []. split; [done|]. intros; lia.
  - intros i [b cs] Hi (Lb & Lc & Hcs & Rs & LR & HR). destruct (Hf i Hi) as [Hon Hne].
    destruct (ReadSubChunk_ok b cs i (zth [] Cs i)) as [[E _] | (b' & c & B & F' & EF & HB & E & Lb' & Hbuf & Hsame)];
      [lia | lia | lia | by rewrite Hcs by lia | done |].
    exists (b', <[Z.to_nat i := c]> cs). split; [done|]. split; [lia|]. split; [by rewrite zlen_insert|].
    split; [intros j Hj; rewrite zth_insert_ne by lia; apply Hcs; lia|].
    exists (Rs ++ [(B, F')]). split; [rewrite length_app; cbn [length]; lia|]. intros j Hj.
    destruct (decide (j = i)) as [->|].
    + rewrite zth_app_r, LR, Z.sub_diag by lia. change (zth none [(B, F')] 0) with (B, F').
      rewrite zth_insert_eq by lia. done.
    + rewrite zth_app_l, zth_insert_ne by lia. destruct (HR j ltac:(lia)) as (H1 & H2 & H3). split; [|done].
      apply (buffered_same b); try done. intros k Hk. apply Hsame; [unfold part in Hk; nia|].
      intros Hk'. by apply (part_disjoint i j k) in Hk'; [|].
  - exists b, cs, Rs. split; [done|]. split; [done|]. split.
    + split; try lia. by intros i Hi; apply HR.
    + split; [intros i Hi E; by destruct (HR i Hi) as (_ & _ & ?)|].
      apply (zth_ext []); [by rewrite length_map; lia|]. rewrite length_map. intros i Hi.
      destruct (HR i ltac:(lia)) as (_ & <- & _). unfold zth. rewrite !nth_lookup, list_lookup_fmap.
      destruct (lookup_lt_is_Some_2 Rs (Z.to_nat i)) as [R ->]; [lia|]. done.
Qed.

Section Chosen.
Context (b : list data) (cs : list CHUNKS) (Rs : list (list data * list data)).
Hypothesis H : buffers b cs Rs.

Lemma cur_ok i : 0 <= i < n -> cs.[i] = Ok (zth no_chunk cs i) /\ curSubChunk (zth no_chunk cs i) = zlen (front Rs i).
Proof.
  intros Hi. split; [apply aget_ok; pose proof (bf_chunks _ _ _ H); lia | apply (bf_at _ _ _ H i Hi)].
Qed.

Lemma record_ok i x B : 0 <= i < n -> front Rs i = x :: B -> chunk_record b w reg i (zth no_chunk cs i) = Ok x.
Proof.
  intros Hi E. destruct (bf_at _ _ _ H i Hi) as (_ & Hp & Hr & Hf & _). fold (front Rs i) in *. rewrite E in *.
  cbn [length] in Hr. unfold chunk_record. rewrite (Z.mul_comm w), index_ok, slot_ok by lia. cbn [mbind res_bind].
  by apply (found_head _ _ x B).
Qed.

(** The first chunk with a record *)
Lemma first_record_ok old i0 : 0 <= i0 < n -> front Rs i0 <> [] ->
  exists i x B, first_record b w reg n cs old = Ok (Some (x, i), true) /\ 0 <= i < n /\ front Rs i = x :: B /\
    forall j, 0 <= j < i -> front Rs j = [].
Proof.
  intros Hi0 Hne. unfold first_record.
  destruct (for_range_inv (fun k '(r, found) =>
      if (found : bool) then exists i x B, r = Some (x, i) /\ 0 <= i < n /\ front Rs i = x :: B /\
        forall j, 0 <= j < i -> front Rs j = []
      else forall j, 0 <= j < k -> front Rs j = [])
    (fun iChunk '(r, found) =>
      if (found : bool) then Ok (r, found)
      else c ← cs.[iChunk];
        if 0 <? curSubChunk c then x ← chunk_record b w reg iChunk c; Ok (Some (x, iChunk), true)
        else Ok (r, found)) 0 n (old, false)) as ([r found] & -> & I); [lia | intros; lia | |].
  - intros k [r found] Hk I. destruct found; [by eauto|].
    destruct (cur_ok k Hk) as [-> Ec]. cbn [mbind res_bind]. rewrite Ec. destruct (front Rs k) as [|x B] eqn:E.
    + cbn. eexists. split; [done|]. intros j Hj. destruct (decide (j = k)) as [->|]; [done | apply I; lia].
    + cbn [length]. destruct (Z.ltb_spec 0 (Z.of_nat (S (length B)))); [|lia]. rewrite (record_ok k x B) by done.
      cbn [mbind res_bind]. eexists. split; [done|]. by exists k, x, B.
  - destruct found; [|by destruct (Hne (I i0 Hi0))]. destruct I as (i & x & B & -> & Hi & E & Hl).
    by exists i, x, B.
Qed.

Context (nv nm : Z).
Hypothesis Hshaped : forall i, 0 <= i < n -> Forall (shaped nm nv) (front Rs i).

(** [x] is not after [y]. *)
Definition key_le (x y : data) : Prop := key_cmp (dims x) (dims y) <> Gt.

Lemma key_le_refl x : key_le x x.
Proof. unfold key_le. by rewrite key_cmp_refl. Qed.

(** The least record, of the first chunk that has it *)
Lemma least_record_ok i x B : 0 <= i < n -> front Rs i = x :: B -> (forall j, 0 <= j < i -> front Rs j = []) ->
  exists k y B', least_record b w reg n nv cs x i = Ok (y, k) /\ 0 <= k < n /\ front Rs k = y :: B' /\
    forall j z B'', 0 <= j < n -> front Rs j = z :: B'' -> key_le y z.
Proof.
  intros Hi E Hl. unfold least_record.
  destruct (for_range_inv (fun m '(y, k) => 0 <= k < n /\ (exists B', front Rs k = y :: B') /\
      forall j z B'', 0 <= j < m -> front Rs j = z :: B'' -> key_le y z)
    (fun iChunk '(m, k) =>
      c ← cs.[iChunk];
      if 0 <? curSubChunk c then
        x ← chunk_record b w reg iChunk c;
        cmp ← KeyComp (dims x) (dims m) nv;
        Ok (if cmp <? 0 then (x, iChunk) else (m, k))
      else Ok (m, k)) i n (x, i)) as ([y k] & -> & Hk & (B' & Ek) & Hle).
  - lia.
  - split; [done|]. split; [by exists B|]. intros j z B'' Hj Ej. by rewrite Hl in Ej by lia.
  - intros m [y k] Hm (Hk & (B' & Ek) & Hle). destruct (cur_ok m ltac:(lia)) as [-> Ec]. cbn [mbind res_bind].
    rewrite Ec. destruct (front Rs m) as [|z Bz] eqn:Em.
    + cbn. eexists. split; [done|]. split; [done|]. split; [by exists B'|]. intros j z B'' Hj Ej.
      destruct (decide (j = m)) as [->|]; [by rewrite Em in Ej | by apply (Hle j z B''); [lia|]].
    + cbn [length]. destruct (Z.ltb_spec 0 (Z.of_nat (S (length Bz)))); [|lia].
      rewrite (record_ok m z Bz) by (done || lia). cbn [mbind res_bind].
      assert (Hz : shaped nm nv z) by (pose proof (Hshaped m ltac:(lia)) as F; rewrite Em in F; by apply Forall_cons_1 in F as [? _]).
      assert (Hy : shaped nm nv y) by (pose proof (Hshaped k ltac:(lia)) as F; rewrite Ek in F; by apply Forall_cons_1 in F as [? _]).
      rewrite (KeyComp_ok (dims z) (dims y)) by (apply Hz || apply Hy). cbn [mbind res_bind].
      eexists. split; [done|]. destruct (key_cmp (dims z) (dims y)) eqn:Ek2; cbn [cmp_int Z.ltb Z.compare].
      1, 3: split; [done|]; split; [by exists B'|]; intros j u B'' Hj Ej;
        destruct (decide (j = m)) as [->|]; [|by apply (Hle j u B''); [lia|]];
        rewrite Em in Ej; injection Ej as <- <-; unfold key_le; by rewrite key_cmp_opp, Ek2.
      split; [lia|]. split; [by exists Bz|]. intros j u B'' Hj Ej. destruct (decide (j = m)) as [->|].
      * rewrite Em in Ej. injection Ej as <- <-. apply key_le_refl.
      * pose proof (Hle j u B'' ltac:(lia) Ej) as Hyu. unfold key_le in *.
        assert (Hu : shaped nm nv u) by (pose proof (Hshaped j ltac:(lia)) as F; rewrite Ej in F; by apply Forall_cons_1 in F as [? _]).
        destruct Hz as [_ Lz], Hy as [_ Ly], Hu as [_ Lu].
        destruct (key_cmp (dims y) (dims u)) eqn:Eyu; [| |done].
        -- apply key_cmp_eq in Eyu; [|lia]. by rewrite <- Eyu, Ek2.
        -- by rewrite (key_cmp_trans _ (dims y)) by (lia || done).
  - by exists k, y, B'.
Qed.

Lemma count_chunks_ok p : exists k, count_chunks p n cs = Ok k /\
  (k = n <-> forall i, 0 <= i < n -> p (zth no_chunk cs i) = true).
Proof.
  unfold count_chunks. pose proof (bf_number _ _ _ H).
  destruct (for_range_inv (fun m k => k <= m /\ (k = m <-> forall i, 0 <= i < m -> p (zth no_chunk cs i) = true))
    (fun i k => c ← cs.[i]; Ok (if p c then k + 1 else k)) 0 n 0) as (k & -> & _ & Hk); [lia | | |].
  - split; [done|]. split; [intros; lia | done].
  - intros m k Hm (Hle & Hk). destruct (cur_ok m Hm) as [-> _]. cbn [mbind res_bind]. eexists. split; [done|].
    destruct (p (zth no_chunk cs m)) eqn:E.
    + split; [lia|]. split.
      * intros E1 i Hi. destruct (decide (i = m)) as [->|]; [done|]. apply Hk; lia.
      * intros Hp. assert (k = m); [|lia]. apply Hk. intros i Hi. apply Hp. lia.
    + split; [lia|]. split; [lia|]. intros Hp. rewrite Hp in E by lia. done.
  - by exists k.
Qed.
End Chosen.

(** *** Changes *)

(** The first record of a chunk is taken. *)
Lemma take_ok b cs Rs i x B F : buffers b cs Rs -> 0 <= i < n -> zth none Rs i = (x :: B, F) ->
  let c := zth no_chunk cs i in
  curSubChunk c <> 0 /\
  buffers b (<[Z.to_nat i := Chunk (curChunkNum c) (chunkOffset c) (posSubChunk c + 1) (curSubChunk c - 1)]> cs)
    (<[Z.to_nat i := (B, F)]> Rs).
Proof.
  intros [H1 H2 H3 H4] Hi E c. pose proof (H4 i Hi) as (Hc & Hp & Hr & Hf & Ho). rewrite E in *. cbn [fst snd length] in *.
  fold c in Hc, Hp, Hr, Hf, Ho. split; [lia|]. split; [done | by rewrite zlen_insert; lia | by rewrite zlen_insert|].
  intros j Hj. destruct (decide (j = i)) as [->|].
  - rewrite !zth_insert_eq by lia. unfold buffered. cbn [curSubChunk posSubChunk fst snd]. rewrite Z.add_assoc.
    repeat (split; [lia|]). split; [by apply found_tail in Hf | exact Ho].
  - rewrite !zth_insert_ne by lia. by apply H4.
Qed.

(** An empty part is filled again. *)
Lemma refill_ok b cs Rs i F : buffers b cs Rs -> 0 <= i < n -> zth none Rs i = ([], F) ->
  (forall j, 0 <= j < n -> j <> i -> fst (zth none Rs j) = [] -> snd (zth none Rs j) = []) ->
  exists b' cs' B F', F = B ++ F' /\ ReadSubChunk size b w i reg cs inFile = Ok (b', cs') /\ zlen cs' = zlen cs /\
    buffers b' cs' (<[Z.to_nat i := (B, F')]> Rs) /\ settled n (<[Z.to_nat i := (B, F')]> Rs).
Proof.
  intros [H1 H2 H3 H4] Hi E Hs. pose proof (H4 i Hi) as (_ & _ & _ & _ & Ho). rewrite E in Ho. cbn [snd] in Ho.
  destruct (ReadSubChunk_ok b cs i F) as [[-> ER] | (b' & c & B & F' & EF & HB & ER & Lb & Hbuf & Hsame)];
    [lia | lia | lia | done | |].
  - assert (EI : <[Z.to_nat i := ([], [])]> Rs = Rs).
    { apply list_insert_id. destruct (lookup_lt_is_Some_2 Rs (Z.to_nat i)) as [R HR]; [lia|]. rewrite HR. f_equal.
      rewrite <- E. unfold zth. symmetry. by apply nth_lookup_Some. }
    exists b, cs, [], []. rewrite EI. do 3 (split; [done|]). split; [by split|]. intros j Hj.
    destruct (decide (j = i)) as [->|]; [by rewrite E | by apply Hs].
  - exists b', (<[Z.to_nat i := c]> cs), B, F'. split; [done|]. split; [done|]. split; [by rewrite zlen_insert|]. split.
    + split; [lia | by rewrite zlen_insert | by rewrite zlen_insert|]. intros j Hj. destruct (decide (j = i)) as [->|].
      * by rewrite !zth_insert_eq by lia.
      * rewrite !zth_insert_ne by lia. apply (buffered_same b); [lia | | by apply H4]. intros k Hk.
        apply Hsame; [unfold part in Hk; nia|]. intros Hk'. by apply (part_disjoint i j k) in Hk'.
    + intros j Hj. destruct (decide (j = i)) as [->|]; [by rewrite zth_insert_eq by lia|].
      rewrite zth_insert_ne by lia. by apply Hs.
Qed.
End Buffer.
