(* ===== verification/DataMerge.v ===== *)
(** * The merge

    A turn of the loop of [MultiWayMerge] takes the least record that remains
    of the chunks; records with the same dimensions come one after the other
    and are added up in the output buffer, which is written when the
    dimensions change.  What is written in the end are the groups of all
    chunks, in order. *)

From Stdlib Require Import Sorted Permutation.
From stdpp Require Import gmap.
From S2P Require Import Prelude Rbt RbtTree Groups RbtHeap RbtInsert RbtGroup RbtWrite DataCube DataRuns DataBuffer.

(** The term of record [k] in the checksum of measure [i], after a merge *)
Definition ms_term (i k m : Z) : Z := Z.rem ((k + 1) * m) measbound.

Lemma ms_term_range i k m : Z.abs (ms_term i k m) < measbound.
Proof. apply Z.rem_bound_abs. done. Qed.

(** A sum of terms that are at most [measbound] *)
Lemma weighted_bound f i k l : (forall k m, Z.abs (f k m) <= measbound) -> Z.abs (weighted f i k l) <= zlen l * measbound.
Proof.
  intros Hf. revert k. induction l as [|x l IH]; intros k; cbn [weighted length]; [done|].
  specialize (Hf k (meas i x)). specialize (IH (k + 1)). unfold measbound in *. lia.
Qed.


(** The sums and the checksums after record [n] *)
Lemma add_row_ok nm nd n out s c : 0 <= nm -> nm <= zlen s -> nm <= zlen c -> shaped nm nd out ->
  (forall i, 0 <= i < nm -> Z.abs (zth 0 s i) + Z.abs (meas i out) < 2 ^ 63) ->
  (forall i, 0 <= i < nm -> Z.abs (zth 0 c i) + measbound < 2 ^ 63) ->
  (forall i, 0 <= i < nm -> (n + 1) * Z.abs (meas i out) < 2 ^ 63) -> 0 <= n ->
  exists s' c', add_row nm (n + 1) out (s, c) = Ok (s', c') /\ zlen s' = zlen s /\ zlen c' = zlen c /\
    (forall i, 0 <= i < nm -> zth 0 s' i = zth 0 s i + meas i out) /\
    (forall i, 0 <= i < nm -> zth 0 c' i = zth 0 c i + ms_term i n (meas i out)).
Proof.
  intros Hn Rs Rc [Hm _] Hs Hc Hp Hv0. unfold add_row.
  destruct (for_range_inv (fun i '((s', c') : list Z * list Z) => zlen s' = zlen s /\ zlen c' = zlen c /\
      (forall j, 0 <= j < nm -> zth 0 s' j = zth 0 s j + if j <? i then meas j out else 0) /\
      (forall j, 0 <= j < nm -> zth 0 c' j = zth 0 c j + if j <? i then ms_term j n (meas j out) else 0))
    (fun i '(s, c) =>
      x ← (measures out).[i]; y ← s.[i]; r ← chk 64 (y + x); s ← s.[i <- r];
      z ← c.[i]; p ← chk 64 ((n + 1) * x); q ← chk 64 (z + Z.rem p measbound); c ← c.[i <- q];
      Ok (s, c)) 0 nm (s, c)) as ([s' c'] & -> & Ls & Lc & Hsz & Hcz); [lia | | |].
  - do 2 (split; [done|]). split; intros j Hj; destruct (Z.ltb_spec j 0); lia.
  - intros i [s' c'] Hi (Ls & Lc & Hsz & Hcz). rewrite (aget_ok 0 (measures out)), (aget_ok 0 s') by lia.
    cbn [mbind res_bind]. rewrite Hsz by lia. destruct (Z.ltb_spec i i) as [|_]; [lia|]. rewrite Z.add_0_r.
    fold (meas i out). specialize (Hs i Hi).
    rewrite (chk_ok 64 (zth 0 s i + meas i out)) by lia. cbn [mbind res_bind].
    rewrite aset_ok, (aget_ok 0 c') by lia. cbn [mbind res_bind]. rewrite Hcz by lia.
    destruct (Z.ltb_spec i i) as [|_]; [lia|]. rewrite Z.add_0_r. specialize (Hp i Hi). rewrite (chk_ok 64 ((n + 1) * _)) by lia.
    cbn [mbind res_bind]. fold (ms_term i n (meas i out)).
    pose proof (ms_term_range i n (meas i out)) as Hr. specialize (Hc i Hi).
    rewrite (chk_ok 64) by lia. cbn [mbind res_bind]. rewrite aset_ok by lia.
    cbn [mbind res_bind]. eexists. split; [reflexivity|]. cbn iota beta. rewrite !zlen_insert. do 2 (split; [done|]).
    split; intros j Hj.
    + rewrite (zth_insert 0), Hsz by lia. destruct (Z.eqb_spec j i) as [->|].
      * by destruct (Z.ltb_spec i (i + 1)); [|lia].
      * destruct (Z.ltb_spec j i), (Z.ltb_spec j (i + 1)); lia.
    + rewrite (zth_insert 0), Hcz by lia. destruct (Z.eqb_spec j i) as [->|].
      * by destruct (Z.ltb_spec i (i + 1)); [|lia].
      * destruct (Z.ltb_spec j i), (Z.ltb_spec j (i + 1)); lia.
  - exists s', c'. split; [done|]. do 2 (split; [done|]). split; intros i Hi.
    + rewrite Hsz by lia. destruct (Z.ltb_spec i nm); lia.
    + rewrite Hcz by lia. destruct (Z.ltb_spec i nm); lia.
Qed.

Section Emit.
Context (write_views : nat -> bool) (nm nd : Z).

(** The checksums are within [bound] of zero. *)
Definition checks_abs (v : view) (bound : Z) : Prop := forall i, 0 <= i < nm -> Z.abs (zth 0 (checksums v) i) <= bound.

Lemma emit_ok a out : room nm (avp_view a) -> shaped nm nd out -> sums_in nm (avp_view a) [out] ->
  checks_abs (avp_view a) (nViewRows a * measbound) -> 0 <= nViewRows a -> nViewRows a + 1 < 2 ^ 32 ->
  (forall i, 0 <= i < nm -> (nViewRows a + 1) * Z.abs (meas i out) < 2 ^ 63) ->
  exists a' e, emit write_views a out = Ok (a', e) /\ outcome write_views e (exists v,
    a' = with_rows (with_view a v) (nViewRows a + 1) (totalOfViewRows a) /\
    room nm v /\ file v = file (avp_view a) ++ [out] /\
    summed nm (avp_view a) v [out] /\ checked nm ms_term (avp_view a) v (nViewRows a) [out]).
Proof.
  intros (En & Hn & Rs & Rc) Hx Hs Hc Hv0 Hv Hp. unfold emit.
  destruct (write_cases write_views (avp_view a) out) as (v & e & -> & Ev & Es & Ec & Ho).
  destruct Ho as [(-> & Hf) | (-> & Hw)]; cbn [Z.eqb negb ADC_OK ADC_WRITE_FAILED].
  2: { exists a, ADC_WRITE_FAILED. split; [done|]. by right. }
  rewrite (unsigned_small 32) by lia. change (avp_nm a) with (vnm (avp_view a)). rewrite Es, Ec, En, Ev, En.
  destruct (add_row_ok nm nd (nViewRows a) out (mSums (avp_view a)) (checksums (avp_view a)))
    as (s & c & -> & Ls & Lc & Hsz & Hcz); try done.
  - intros i Hi. specialize (Hs i Hi). cbn [mag foldr] in Hs. lia.
  - intros i Hi. specialize (Hc i Hi). unfold measbound in *. lia.
  - cbn [mbind res_bind]. eexists _, ADC_OK. split; [reflexivity|]. left. split; [done|]. eexists. split; [reflexivity|].
    split; [repeat split; cbn [mSums checksums]; lia|]. split; [done|].
    split; (split; [done|]); intros i Hi; cbn [mSums checksums total weighted foldr].
    + rewrite Hsz by lia. lia.
    + rewrite Hcz by lia. lia.
Qed.
End Emit.

(** ** Lists of groups *)

Lemma sorted_replace E r r' : sorted (E ++ [r]) -> dims r' = dims r -> sorted (E ++ [r']).
Proof.
  intros Hs Ed. induction E as [|y E IH]; cbn [app] in *; [repeat constructor|]. inversion Hs as [|? ? H1 H2]; subst.
  constructor; [by apply IH|]. apply Forall_app in H2 as [H2 H3]. apply Forall_app. split; [done|].
  apply Forall_cons_1 in H3 as [H3 _]. constructor; [|done]. unfold key_lt in *. by rewrite Ed.
Qed.

Section Groups.
Context (nm nd : Z).

Lemma sorted_snoc E r x : Forall (shaped nm nd) (E ++ [r; x]) -> sorted (E ++ [r]) -> key_lt r x ->
  sorted ((E ++ [r]) ++ [x]).
Proof.
  intros Hsh Hs Hx. induction E as [|y E IH]; cbn [app] in *; [by repeat constructor|].
  apply Forall_cons_1 in Hsh as [Hy Hsh]. inversion Hs as [|? ? H1 H2]; subst. constructor; [by apply IH|].
  apply Forall_app. split; [done|]. apply Forall_app in H2 as [_ H3]. apply Forall_cons_1 in H3 as [H3 _].
  apply Forall_app in Hsh as [_ Hsh]. apply Forall_cons_1 in Hsh as [Hr Hsh]. apply Forall_cons_1 in Hsh as [Hsx _].
  constructor; [|done]. by apply (key_lt_trans nm nd y r x).
Qed.

Lemma key_le_trans x y z : shaped nm nd x -> shaped nm nd y -> shaped nm nd z -> key_le x y -> key_le y z -> key_le x z.
Proof.
  intros [_ Lx] [_ Ly] [_ Lz] Hxy Hyz. unfold key_le in *. destruct (key_cmp (dims x) (dims y)) eqn:E1; [| |done].
  - apply key_cmp_eq in E1; [|lia]. by rewrite E1.
  - destruct (key_cmp (dims y) (dims z)) eqn:E2; [| |done].
    + apply key_cmp_eq in E2; [|lia]. by rewrite <- E2, E1.
    + by rewrite (key_cmp_trans _ (dims y)) by (lia || done).
Qed.

(** The least of the first records is the least of all. *)
Lemma least_of_all x y l z : shaped nm nd x -> Forall (shaped nm nd) (y :: l) -> key_le x y -> sorted (y :: l) ->
  z ∈ y :: l -> key_le x z.
Proof.
  intros Hx Hl Hxy Hs Hz. apply list.elem_of_cons in Hz as [-> | Hz]; [done|].
  inversion Hs as [|? ? _ H2]; subst. rewrite list.Forall_forall in H2. specialize (H2 z Hz).
  apply Forall_cons_1 in Hl as [Hy Hl]. rewrite list.Forall_forall in Hl.
  apply (key_le_trans x y z); auto. unfold key_le, key_lt in *. by rewrite H2.
Qed.

(** Two records with the same dimensions become one. *)
Lemma regroups_merge r x l l' src : shaped nm nd r -> shaped nm nd x -> dims x = dims r ->
  regroups nm (l ++ r :: x :: l') src -> regroups nm (l ++ merge r x :: l') src.
Proof.
  intros Hr Hx Ed (Hg & Hs & Hl). split; [|split].
  - rewrite <- Hg, <- !Permutation_middle. cbn [groups foldr]. rewrite add_group_merge by done. apply add_group_comm.
  - intros i Hi. specialize (Hs i Hi). rewrite <- !Permutation_middle in *. cbn [mag total foldr] in *.
    rewrite (meas_merge nm nd) by done. unfold mag, total in *. lia.
  - rewrite length_app in *. cbn [length] in *. lia.
Qed.

Lemma regroups_perm l l' src : Permutation l l' -> regroups nm l src -> regroups nm l' src.
Proof. intros HP (Hg & Hs & Hl). unfold regroups. setoid_rewrite <- HP. done. Qed.
End Groups.

(** *** Sums *)

Section Summed.
Context (nm : Z).

Lemma summed_app v v1 v2 l1 l2 : summed nm v v1 l1 -> summed nm v1 v2 l2 -> summed nm v v2 (l1 ++ l2).
Proof.
  intros [L1 H1] [L2 H2]. split; [by rewrite L2|]. intros i Hi. rewrite H2, H1, total_app by done. lia.
Qed.

Lemma weighted_app f i k l1 l2 : weighted f i k (l1 ++ l2) = weighted f i k l1 + weighted f i (k + zlen l1) l2.
Proof.
  revert k. induction l1 as [|x l1 IH]; intros k; cbn [app weighted length]; [by rewrite Z.add_0_r|].
  rewrite IH. replace (k + Z.of_nat (S (length l1))) with (k + 1 + zlen l1) by lia. lia.
Qed.

Lemma checked_app f v v1 v2 k l1 l2 : checked nm f v v1 k l1 -> checked nm f v1 v2 (k + zlen l1) l2 ->
  checked nm f v v2 k (l1 ++ l2).
Proof.
  intros [L1 H1] [L2 H2]. split; [by rewrite L2|]. intros i Hi. rewrite H2, H1, weighted_app by done. lia.
Qed.

Lemma weighted_abs i k l : Z.abs (weighted (ms_term i) i k l) <= zlen l * measbound.
Proof. apply weighted_bound. intros k' m. pose proof (ms_term_range i k' m). lia. Qed.
End Summed.

(** ** The invariant *)

(** What the merge leaves alone *)
Definition after_merge (a a' : cntl) : Prop :=
  numberOfChunks a' = numberOfChunks a /\ nv a' = nv a /\ outRecSize a' = outRecSize a /\ avp_tree a' = avp_tree a /\
  selection a' = selection a /\ avp_memoryLimit a' = avp_memoryLimit a /\
  zlen (chunksParams a') = zlen (chunksParams a) /\ constants a' = constants a.

(** The records that are not exhausted: those written, the output buffer, and
    what remains of the chunks *)
Definition in_output (o : option data) : list data := match o with Some r => [r] | None => [] end.

Section Merge.
Context (write_views : nat -> bool) (inFile : list data) (size w reg n nm nd : Z) (a0 : cntl) (src : list data).
Hypothesis Hw : 0 < w.
Hypothesis Hsize : 0 < size.
Hypothesis Hreg : 1 <= reg.
Hypothesis Hfits : n * reg * w < 2 ^ 32.
Hypothesis Hbytes : reg * size < 2 ^ 32.
Hypothesis Hfile : size * zlen inFile + reg * size < 2 ^ 63.
Hypothesis Hn : numberOfChunks a0 = n.
Hypothesis Hnv : nv a0 = nd.
Hypothesis Hout : outRecSize a0 = size.
Hypothesis Hchunks : fileOfChunks a0 = inFile.

(** The sums and checksums that the source allows *)
Hypothesis Hrows : zlen src < 2 ^ 32.
Hypothesis Hmag : forall i, 0 <= i < nm -> zlen src * mag i src < 2 ^ 63 /\ Z.abs (zth 0 (mSums (avp_view a0)) i) + mag i src < 2 ^ 63.
Hypothesis Hzero : forall i, 0 <= i < nm -> zth 0 (checksums (avp_view a0)) i = 0.

(** The state [a] differs from [a0] in the view, the rows and the chunks. *)
Definition same_merge (a : cntl) : Prop :=
  numberOfChunks a = n /\ nv a = nd /\ outRecSize a = size /\ fileOfChunks a = inFile /\
  totalOfViewRows a = totalOfViewRows a0 /\ after_merge a0 a.

Record merged (a : cntl) (E : list data) (o : option data) (l : list data) : Prop := {
  mg_same : same_merge a;
  mg_room : room nm (avp_view a);
  mg_file : file (avp_view a) = file (avp_view a0) ++ E;
  mg_rows : nViewRows a = zlen E;
  mg_sums : summed nm (avp_view a0) (avp_view a) E;
  mg_checks : checked nm ms_term (avp_view a0) (avp_view a) 0 E;
  mg_groups : regroups nm (E ++ in_output o ++ l) src;
  mg_shaped : Forall (shaped nm nd) (E ++ in_output o ++ l);
  mg_sorted : sorted (E ++ in_output o);
  mg_first : o = None -> E = [];
  mg_le : forall r y, o = Some r -> y ∈ l -> key_le r y
}.

(** The output buffer is written. *)
Lemma merged_emit a E r l : merged a E (Some r) l ->
  exists a' e, emit write_views a r = Ok (a', e) /\ outcome write_views e (exists v,
    a' = with_rows (with_view a v) (nViewRows a + 1) (totalOfViewRows a) /\
    room nm v /\ file v = file (avp_view a0) ++ E ++ [r] /\
    summed nm (avp_view a0) v (E ++ [r]) /\ checked nm ms_term (avp_view a0) v 0 (E ++ [r])).
Proof.
  intros [M1 M2 M3 M4 M5 M6 (_ & M7 & M8) M9 _ _ _]. cbn [in_output app] in *.
  assert (Hr : shaped nm nd r) by (apply Forall_app in M9 as [_ M9]; by apply Forall_cons_1 in M9 as [? _]).
  rewrite length_app in M8. cbn [length] in M8.
  assert (Hm : forall i, 0 <= i < nm -> mag i E + Z.abs (meas i r) <= mag i src).
  { intros i Hi. destruct (M7 i Hi) as [H _]. rewrite mag_app in H. cbn [mag foldr] in H. fold (mag i l) in H.
    pose proof (mag_nonneg i l). lia. }
  destruct (emit_ok write_views nm nd a r M2 Hr) as (a' & e & -> & Ho); rewrite ?M4; try lia.
  - intros i Hi. destruct (Hmag i Hi) as [_ H]. specialize (Hm i Hi). destruct M5 as [_ M5]. rewrite M5 by done.
    cbn [mag foldr]. pose proof (total_mag i E). lia.
  - intros i Hi. destruct M6 as [_ M6]. rewrite M6, Hzero by done. cbn. apply weighted_abs.
  - intros i Hi. destruct (Hmag i Hi) as [H _]. specialize (Hm i Hi). pose proof (mag_nonneg i E).
    assert ((zlen E + 1) * Z.abs (meas i r) <= zlen src * mag i src); [apply Z.mul_le_mono_nonneg|]; lia.
  - exists a', e. split; [done|]. destruct Ho as [(-> & v & Ea & Hro & Hf & Hs & Hc) | Ho]; [left | by right].
    split; [done|]. exists v. rewrite <- M4. split; [done|]. split; [done|]. split; [by rewrite Hf, M3, <- app_assoc|].
    split; [by apply (summed_app nm _ (avp_view a))|]. apply (checked_app nm _ _ (avp_view a)); [done|].
    by rewrite Z.add_0_l, <- M4.
Qed.

Lemma merge_fits E r x l : regroups nm (E ++ r :: x :: l) src -> shaped nm nd r -> shaped nm nd x -> dims x = dims r ->
  Forall (fun s => - 2 ^ 63 <= s < 2 ^ 63) (zip_with Z.add (measures r) (measures x)).
Proof.
  intros (_ & Hs & _) Hr Hx Ed. apply (fits_sums nm nd x [r]); [done | by constructor | | by constructor | done].
  intros i Hi. destruct (Hs i Hi) as [H _]. destruct (Hmag i Hi) as [_ H2]. rewrite mag_app in H. cbn [mag foldr] in *.
  fold (mag i l) in H. pose proof (mag_nonneg i E). pose proof (mag_nonneg i l). lia.
Qed.

(** The record [x] that was taken goes to the output buffer. *)
Lemma merged_take a E o x l : merged a E o (x :: l) -> (forall y, y ∈ l -> key_le x y) ->
  exists a' o' e,
    match o with
    | None => Ok (a, x, ADC_OK)
    | Some out =>
        cmp ← KeyComp (dims out) (dims x) (nv a);
        if cmp =? 0 then m ← add_measures (avp_nm a) (measures x) (measures out); Ok (a, Data m (dims out), ADC_OK)
        else '(a, e) ← emit write_views a out; Ok (a, if e =? 0 then x else out, e)
    end = Ok (a', o', e) /\
    outcome write_views e (chunksParams a' = chunksParams a /\ exists E', merged a' E' (Some o') l).
Proof.
  intros M Hle. pose proof M as [M1 M2 M3 M4 M5 M6 M7 M8 M9 M10 M11]. destruct o as [r|]; cbn [in_output app] in *.
  - assert (Hsh : shaped nm nd r /\ shaped nm nd x).
    { apply Forall_app in M8 as [_ M8]. apply Forall_cons_1 in M8 as [? M8]. by apply Forall_cons_1 in M8 as [? _]. }
    destruct Hsh as [Hr Hx]. assert (Hrx : key_le r x) by (apply (M11 r x eq_refl), list.elem_of_cons; by left).
    rewrite (proj1 (proj2 M1)), (KeyComp_ok (dims r) (dims x)) by (apply Hr || apply Hx). cbn [mbind res_bind].
    destruct (key_cmp (dims r) (dims x)) eqn:Ec; [| |done]; cbn [cmp_int Z.eqb].
    + assert (Ed : dims x = dims r) by (apply key_cmp_eq in Ec; [done | destruct Hr, Hx; lia]).
      change (avp_nm a) with (vnm (avp_view a)). rewrite (proj1 M2).
      rewrite (add_measures_ok nm) by (apply Hr || apply Hx || by apply (merge_fits E r x l)). cbn [mbind res_bind].
      exists a, (merge r x), ADC_OK. split; [done|]. left. split; [done|]. split; [done|]. exists E.
      split; try done; cbn [in_output app].
      * by apply (regroups_merge nm nd).
      * apply Forall_app in M8 as [M8 M8']. apply Forall_app. split; [done|].
        apply Forall_cons_1 in M8' as [_ M8']. apply Forall_cons_1 in M8' as [_ M8']. constructor; [|done].
        by apply merge_shaped.
      * by apply (sorted_replace _ r).
      * intros r' y [= <-] Hy. apply (M11 r y eq_refl), list.elem_of_cons. by right.
    + destruct (merged_emit a E r (x :: l) M) as (a' & e & -> & Ho). cbn [mbind res_bind].
      eexists a', _, e. split; [reflexivity|]. destruct Ho as [(-> & v & -> & Hro & Hf & Hs & Hc) | Ho]; [left | by right].
      split; [done|]. split; [done|]. exists (E ++ [r]). cbn [Z.eqb ADC_OK].
      split; try done; cbn [in_output nViewRows with_rows]; rewrite <- ?app_assoc; cbn [app]; try done.
      * rewrite M4, length_app. cbn [length]. lia.
      * replace (E ++ [r; x]) with ((E ++ [r]) ++ [x]) by by rewrite <- app_assoc. apply (sorted_snoc nm nd); try done.
        replace (E ++ r :: x :: l) with ((E ++ [r; x]) ++ l) in M8 by by rewrite <- app_assoc.
        by apply Forall_app in M8 as [M8 _].
      * intros r' y [= <-] Hy. by apply Hle.
  - rewrite (M10 eq_refl) in *. exists a, x, ADC_OK. split; [done|]. left. split; [done|]. split; [done|].
    exists []. split; try done; cbn [in_output app] in *. + repeat constructor. + by intros r y [= <-] Hy; apply Hle.
Qed.

Lemma merged_perm a E o l l' : Permutation l l' -> merged a E o l -> merged a E o l'.
Proof.
  intros HP [M1 M2 M3 M4 M5 M6 M7 M8 M9 M10 M11]. split; try done.
  - apply (regroups_perm nm (E ++ in_output o ++ l)); [by rewrite HP | done].
  - by rewrite <- HP.
  - intros r y Er Hy. apply (M11 r y Er). by rewrite HP.
Qed.

Lemma merged_chunks a E o l cs : zlen cs = zlen (chunksParams a) -> merged a E o l -> merged (with_chunks a n cs) E o l.
Proof.
  intros Hl [M1 M2 M3 M4 M5 M6 M7 M8 M9 M10 M11]. split; try done. unfold same_merge, after_merge in *.
  cbn [chunksParams with_chunks]. rewrite Hl. destruct_and?. by repeat split.
Qed.

(** The least record that remains *)
Lemma chosen_ok b cs Rs old : buffers inFile size reg n b cs Rs -> settled n Rs -> rest Rs <> [] ->
  Forall (shaped nm nd) (rest Rs) -> Forall (fun R => sorted (remaining R)) Rs ->
  exists x0 i0 x i B F, first_record b w reg n cs old = Ok (Some (x0, i0), true) /\
    least_record b w reg n nd cs x0 i0 = Ok (x, i) /\ 0 <= i < n /\ zth ([], []) Rs i = (x :: B, F) /\
    forall y, y ∈ rest Rs -> key_le x y.
Proof.
  intros Hb Hs Hne Hsh Hso. pose proof (bf_number _ _ _ _ _ _ _ Hb) as LR.
  assert (Hrem : forall j, 0 <= j < n -> Forall (shaped nm nd) (remaining (zth ([], []) Rs j))).
  { intros j Hj. rewrite list.Forall_forall in *. intros y Hy. apply Hsh, (rest_elem Rs y). exists j. split; [lia | done]. }
  assert (Hfr : forall j, 0 <= j < n -> Forall (shaped nm nd) (front Rs j)).
  { intros j Hj. specialize (Hrem j Hj). by apply Forall_app in Hrem as [? _]. }
  destruct (rest_front n Rs LR Hs Hne) as (j & Hj & Hjne).
  destruct (first_record_ok inFile size w reg n Hw Hreg Hfits b cs Rs Hb old j Hj Hjne) as (i0 & x0 & B0 & E0 & Hi0 & Ef0 & Hl0).
  destruct (least_record_ok inFile size w reg n Hw Hreg Hfits b cs Rs Hb nd nm Hfr i0 x0 B0 Hi0 Ef0 Hl0)
    as (i & x & B & E1 & Hi & Ef & Hle).
  exists x0, i0, x, i, B, (snd (zth ([], []) Rs i)). split; [done|]. split; [done|]. split; [done|].
  split; [rewrite <- Ef; apply surjective_pairing|].
  intros y Hy. apply rest_elem in Hy as (k & Hk & Hy). pose proof (Hrem k ltac:(lia)) as Hks.
  assert (Hkso : sorted (remaining (zth ([], []) Rs k))).
  { rewrite list.Forall_forall in Hso. apply Hso, zth_In. lia. }
  unfold remaining in *. destruct (fst (zth ([], []) Rs k)) as [|z Bz] eqn:Ek.
  - rewrite (Hs k) in Hy by (lia || done). inversion Hy.
  - assert (Hx : shaped nm nd x) by (pose proof (Hfr i Hi) as F; rewrite Ef in F; by apply Forall_cons_1 in F as [? _]).
    apply (least_of_all nm nd x z (Bz ++ snd (zth ([], []) Rs k))); try done. by apply (Hle k z Bz); [lia|].
Qed.

(** What a turn leaves behind, unless it failed; there were [l0] records. *)
Definition turned (s' : merge_state) (p : progress) (l0 : nat) : Prop :=
  exists Rs' E' o', m_out s' = Some o' /\ merged (m_avp s') E' (Some o') (rest Rs') /\
    S (length (rest Rs')) = l0 /\
    ((p = Finished /\ rest Rs' = []) \/
     (p = Running /\ rest Rs' <> [] /\ buffers inFile size reg n (m_buffer s') (chunksParams (m_avp s')) Rs' /\
      settled n Rs' /\ Forall (fun R => sorted (remaining R)) Rs')).

(** The end of a turn: the loop stops when no chunk has a record left, and
    the chunk that lost its last record in the buffer is read again. *)
Lemma turn_end a b Rs E o i F x (l0 : nat) : merged a E (Some o) (rest Rs) ->
  buffers inFile size reg n b (chunksParams a) Rs -> Forall (fun R => sorted (remaining R)) Rs -> 0 <= i < n ->
  snd (zth ([], []) Rs i) = F -> (forall j, 0 <= j < n -> j <> i -> fst (zth ([], []) Rs j) = [] -> snd (zth ([], []) Rs j) = []) ->
  l0 = S (length (rest Rs)) ->
  exists s' p,
    (numEmptyBufs ← count_chunks (fun c => curSubChunk c =? 0) n (chunksParams a);
     numEmptyRuns ← count_chunks (fun c => curChunkNum c =? 0) n (chunksParams a);
     if (numEmptyBufs =? n) && (numEmptyRuns =? n) then Ok (Merge a b (Some (x, i)) (Some o), Finished)
     else
       c ← (chunksParams a).[i];
       if curSubChunk c =? 0 then
         '(b, cs) ← ReadSubChunk (outRecSize a) b w i reg (chunksParams a) (fileOfChunks a);
         Ok (Merge (with_chunks a n cs) b (Some (x, i)) (Some o), Running)
       else Ok (Merge a b (Some (x, i)) (Some o), Running)) = Ok (s', p) /\
    turned s' p l0.
Proof.
  intros M Hb Hso Hi HF Hset ->. pose proof (bf_number _ _ _ _ _ _ _ Hb) as LR.
  destruct (count_chunks_ok _ _ w _ _ Hw Hreg _ _ _ Hb (fun c => curSubChunk c =? 0)) as (k1 & -> & Hk1).
  destruct (count_chunks_ok _ _ w _ _ Hw Hreg _ _ _ Hb (fun c => curChunkNum c =? 0)) as (k2 & -> & Hk2).
  cbn [mbind res_bind].
  assert (Hend : (k1 =? n) && (k2 =? n) = true <-> rest Rs = []).
  { rewrite andb_true_iff, !Z.eqb_eq, Hk1, Hk2, (rest_nil n Rs LR). split.
    - intros [H1 H2] j Hj. specialize (H1 j Hj). specialize (H2 j Hj). apply Z.eqb_eq in H1, H2.
      destruct (bf_at _ _ _ _ _ _ _ Hb j Hj) as (Ec & _ & _ & _ & (Ef & _)). rewrite Ec in H1. rewrite Ef in H2.
      split; apply nil_length_inv; lia.
    - intros Hall. split; intros j Hj; destruct (Hall j Hj) as [H1 H2]; apply Z.eqb_eq;
        destruct (bf_at _ _ _ _ _ _ _ Hb j Hj) as (Ec & _ & _ & _ & (Ef & _)); [by rewrite Ec, H1 | by rewrite Ef, H2]. }
  destruct ((k1 =? n) && (k2 =? n)).
  { eexists _, Finished. split; [reflexivity|]. exists Rs, E, o. split; [done|]. split; [done|]. split; [done|]. left.
    split; [done|]. by apply Hend. }
  assert (Hne : rest Rs <> []) by (intros E0; by apply Hend in E0).
  destruct (cur_ok _ _ _ _ _ _ _ Hb i Hi) as [-> Ec]. cbn [mbind res_bind]. rewrite Ec. unfold front.
  destruct (fst (zth ([], []) Rs i)) as [|y B] eqn:Ef.
  - cbn [length Z.of_nat Z.eqb]. destruct (mg_same _ _ _ _ M) as (_ & _ & -> & -> & _).
    destruct (refill_ok _ _ _ _ _ Hw Hsize Hreg Hfits Hbytes Hfile b (chunksParams a) Rs i F Hb Hi)
      as (b' & cs' & B & F' & EF & -> & Lc & Hb' & Hs'); [|done|].
    { clear -Ef HF. destruct (zth ([], []) Rs i). cbn in *. congruence. }
    cbn [mbind res_bind]. eexists _, Running. split; [reflexivity|].
    destruct (rest_insert Rs i (B, F')) as (l & HP1 & HP2); [lia|].
    assert (HP : Permutation (rest Rs) (rest (<[Z.to_nat i := (B, F')]> Rs))).
    { rewrite HP1, HP2. unfold remaining. cbn [fst snd]. by rewrite Ef, HF, EF. }
    exists (<[Z.to_nat i := (B, F')]> Rs), E, o. split; [done|]. cbn [m_avp m_buffer chunksParams with_chunks].
    split; [by apply merged_chunks, (merged_perm _ _ _ (rest Rs))|]. split; [by rewrite <- HP|]. right.
    split; [done|]. split; [intros E0; rewrite E0 in HP; by apply Permutation_sym, Permutation_nil in HP|].
    split; [done|]. split; [done|]. apply list.Forall_insert; [done|]. unfold remaining. cbn [fst snd]. rewrite <- EF.
    rewrite list.Forall_forall in Hso. specialize (Hso (zth ([], []) Rs i) ltac:(apply zth_In; lia)).
    unfold remaining in Hso. by rewrite Ef, HF in Hso.
  - cbn [length]. destruct (Z.eqb_spec (Z.of_nat (S (length B))) 0); [lia|].
    eexists _, Running. split; [reflexivity|]. exists Rs, E, o. do 3 (split; [done|]). right. do 3 (split; [done|]).
    split; [|done]. intros j Hj. destruct (decide (j = i)) as [->|]; [by rewrite Ef | by apply Hset].
Qed.

(** A turn of the loop *)
Lemma merge_turn_ok s Rs E : buffers inFile size reg n (m_buffer s) (chunksParams (m_avp s)) Rs -> settled n Rs ->
  merged (m_avp s) E (m_out s) (rest Rs) -> Forall (fun R => sorted (remaining R)) Rs -> rest Rs <> [] ->
  exists s' p, merge_turn write_views w reg s = Ok (s', p) /\
    ((p = Failed /\ exists k, write_views k = false) \/ turned s' p (length (rest Rs))).
Proof.
  intros Hb Hs M Hso Hne. pose proof (mg_same _ _ _ _ M) as (En & Env & _). unfold merge_turn. rewrite En, Env.
  assert (Hsh : Forall (shaped nm nd) (rest Rs)).
  { pose proof (mg_shaped _ _ _ _ M) as F. apply Forall_app in F as [_ F]. by apply Forall_app in F as [_ F]. }
  destruct (chosen_ok _ _ _ (m_min s) Hb Hs Hne Hsh Hso) as (x0 & i0 & x & i & B & F & -> & E1 & Hi & ER & Hle).
  cbn [mbind res_bind]. rewrite E1. cbn [mbind res_bind].
  pose proof (bf_chunks _ _ _ _ _ _ _ Hb). pose proof (bf_number _ _ _ _ _ _ _ Hb).
  rewrite (aget_ok no_chunk (chunksParams (m_avp s)) i) by lia. cbn [mbind res_bind].
  destruct (take_ok _ _ _ _ _ _ _ i x B F Hb Hi ER) as [Hc Hb1]. apply Z.eqb_neq in Hc. rewrite Hc.
  rewrite aset_ok by lia. cbn [mbind res_bind].
  set (cs1 := <[Z.to_nat i := _]> (chunksParams (m_avp s))) in *. set (Rs1 := <[Z.to_nat i := (B, F)]> Rs) in *.
  destruct (rest_insert Rs i (B, F)) as (l & HP1 & HP2); [lia|]. fold Rs1 in HP2. rewrite ER in HP1.
  assert (HP : Permutation (rest Rs) (x :: rest Rs1)) by by rewrite HP1, HP2.
  assert (Hle1 : forall y, y ∈ rest Rs1 -> key_le x y).
  { intros y Hy. apply Hle. rewrite HP. apply list.elem_of_cons. by right. }
  destruct (merged_take (with_chunks (m_avp s) n cs1) E (m_out s) x (rest Rs1)) as (a' & o' & e & Et & Ho);
    [apply merged_chunks; [apply zlen_insert | by apply (merged_perm _ _ _ (rest Rs))] | done |].
  rewrite Et. cbn [mbind res_bind]. destruct Ho as [(-> & Ecs & E' & M') | (-> & Hw')]; cbn [Z.eqb negb ADC_OK ADC_WRITE_FAILED].
  2: { eexists _, Failed. split; [reflexivity|]. by left. }
  cbn [chunksParams with_chunks] in Ecs. rewrite <- Ecs in *.
  destruct (turn_end a' (m_buffer s) Rs1 E' o' i F x (length (rest Rs)) M' Hb1) as (s' & p & -> & Ht); try done.
  - unfold Rs1. apply list.Forall_insert; [done|]. rewrite list.Forall_forall in Hso.
    specialize (Hso (zth ([], []) Rs i) ltac:(apply zth_In; lia)). rewrite ER in Hso. unfold remaining in *. cbn [fst snd app] in *.
    by inversion Hso.
  - unfold Rs1. by rewrite zth_insert_eq by lia.
  - intros j Hj Hji. unfold Rs1. rewrite zth_insert_ne by lia. by apply Hs.
  - by rewrite HP.
  - exists s', p. split; [done|]. by right.
Qed.

(** The loop *)
Lemma merge_loop_ok fuel : forall s Rs E, buffers inFile size reg n (m_buffer s) (chunksParams (m_avp s)) Rs ->
  settled n Rs -> merged (m_avp s) E (m_out s) (rest Rs) -> Forall (fun R => sorted (remaining R)) Rs ->
  rest Rs <> [] -> (length (rest Rs) < fuel)%nat ->
  exists s' p, while fuel running (fun '(s, _) => merge_turn write_views w reg s) (s, Running) = Ok (s', p) /\
    ((p = Failed /\ exists k, write_views k = false) \/
     (p = Finished /\ exists E' o', m_out s' = Some o' /\ merged (m_avp s') E' (Some o') [])).
Proof.
  induction fuel as [|fuel IH]; intros s Rs E Hb Hs M Hso Hne Hf; [lia|]. cbn [while running snd mbind res_bind].
  destruct (merge_turn_ok s Rs E Hb Hs M Hso Hne) as (s1 & p & -> & Hp). cbn [mbind res_bind].
  destruct Hp as [[-> Hw'] | (Rs1 & E1 & o1 & Eo & M1 & Hl & [[-> Hr] | (-> & Hne1 & Hb1 & Hs1 & Hso1)])].
  - destruct fuel as [|fuel]; [destruct (rest Rs); [done | cbn in Hf; lia]|].
    exists s1, Failed. split; [done|]. by left.
  - destruct fuel as [|fuel]; [destruct (rest Rs); [done | cbn in Hf; lia]|].
    exists s1, Finished. split; [done|]. right. split; [done|]. rewrite Hr in M1. by exists E1, o1.
  - apply (IH s1 Rs1 E1); try done; [by rewrite Eo | lia].
Qed.
End Merge.

(** ** The merge as a whole *)

Lemma merge_fuel_ok a Cs : chunked a Cs -> merge_fuel a = S (length (concat Cs)).
Proof.
  intros C. unfold merge_fuel. f_equal. rewrite (ck_number _ _ C), Nat2Z.id.
  assert (HF : Forall2 (fun c D => curChunkNum c = zlen D) (take (length Cs) (chunksParams a)) Cs).
  { apply Forall2_same_length_lookup_2.
    - rewrite length_take. assert (Hl : (length Cs <= length (chunksParams a))%nat); [|lia].
      destruct (decide (length Cs <= length (chunksParams a))%nat) as [|Hgt]; [done|].
      destruct (lookup_lt_is_Some_2 Cs (length (chunksParams a))) as [D HD]; [lia|].
      destruct (ck_at _ _ C _ _ HD) as (p & s & E). apply lookup_lt_Some in E. lia.
    - intros i c D Hc HD. apply lookup_lt_Some in HD as Hi. rewrite lookup_take_lt in Hc by lia.
      destruct (ck_at _ _ C _ _ HD) as (p & s & E). rewrite Hc in E. by injection E as ->. }
  clear C. induction HF as [|c D l Ds E _ IH]; cbn [foldr concat]; [done|]. rewrite IH, E, length_app. lia.
Qed.

Section Whole.
Context (write_views : nat -> bool) (a : cntl) (Cs : list (list data)) (buffer : list data).
Hypothesis Hsz : sizes_ok a.
Hypothesis Hck : chunked a Cs.
Hypothesis Hsome : Cs <> [].
Hypothesis Hmax : zlen Cs <= MAX_NUM_OF_CHUNKS.
Hypothesis Hmem : MAX_NUM_OF_CHUNKS * outRecSize a <= avp_memoryLimit a < 2 ^ 32.
Hypothesis Hbuf : zlen buffer = avp_memoryLimit a / outRecSize a.
Hypothesis Hroom : room (avp_nm a) (avp_view a).
Hypothesis Hrows : zlen (concat Cs) < 2 ^ 32.
Hypothesis Hmag : forall i, 0 <= i < avp_nm a -> zlen (concat Cs) * mag i (concat Cs) < 2 ^ 63 /\
  Z.abs (zth 0 (mSums (avp_view a)) i) + mag i (concat Cs) < 2 ^ 63.
Hypothesis Hzero : forall i, 0 <= i < avp_nm a -> zth 0 (checksums (avp_view a)) i = 0.

Let n := zlen Cs.
Let size := outRecSize a.
Let w := size / 4.
Let reg := avp_memoryLimit a / n / size.

Lemma merge_sizes : 1 <= n <= MAX_NUM_OF_CHUNKS /\ 4 <= size <= 112 /\ size = 4 * w /\ 1 <= reg /\
  n * reg * size <= avp_memoryLimit a /\ n * reg <= zlen buffer.
Proof.
  destruct Hsz as [S1 S2 S3 _ _]. unfold MAX_NUM_OF_DIMS, MAX_NUM_OF_MEAS, DIM_FSZ, MSR_FSZ in *.
  assert (Hn : 1 <= n) by (unfold n; destruct Cs; [done | cbn [length]; lia]).
  assert (Hw : size = 4 * w).
  { unfold w, size. rewrite S3. replace (4 * nv a + 8 * avp_nm a) with ((nv a + 2 * avp_nm a) * 4) by lia.
    rewrite Z.div_mul by lia. lia. }
  assert (Hr : n * reg * size <= avp_memoryLimit a).
  { unfold reg. pose proof (Z.mul_div_le (avp_memoryLimit a) n ltac:(lia)).
    pose proof (Z.mul_div_le (avp_memoryLimit a / n) size ltac:(unfold size; lia)). nia. }
  fold n in Hmax. fold size in Hmem, Hbuf. unfold MAX_NUM_OF_CHUNKS in *.
  split; [lia|]. split; [unfold size; lia|]. split; [done|]. split; [|split; [done|]].
  - unfold reg. apply Z.div_le_lower_bound; [unfold size; lia|]. apply Z.div_le_lower_bound; [lia|]. nia.
  - rewrite Hbuf. apply Z.div_le_lower_bound; [unfold size; lia|]. lia.
Qed.

Lemma MultiWayMerge_ok : exists a' e, MultiWayMerge write_views a buffer = Ok (a', e) /\
  outcome write_views e (exists l,
    sorted l /\ regroups (avp_nm a) l (concat Cs) /\ file (avp_view a') = file (avp_view a) ++ l /\
    nViewRows a' = zlen l /\ totalOfViewRows a' = u32 (totalOfViewRows a + zlen l) /\
    summed (avp_nm a) (avp_view a) (avp_view a') l /\ checked (avp_nm a) ms_term (avp_view a) (avp_view a') 0 l /\
    room (avp_nm a) (avp_view a') /\ after_merge a a').
Proof.
  destruct merge_sizes as (Hn & Hs & Hw & Hreg & Hfit & Hb). unfold MultiWayMerge.
  set (a1 := with_rows a 0 (totalOfViewRows a)).
  change (numberOfChunks a1) with (numberOfChunks a). change (outRecSize a1) with size.
  change (avp_memoryLimit a1) with (avp_memoryLimit a). rewrite (ck_number _ _ Hck). fold n. fold w. fold reg.
  destruct (Z.eqb_spec n 0); [lia|]. destruct (Z.eqb_spec size 0); [lia|]. cbn [orb].
  destruct (Z.eqb_spec reg 0); [lia|]. change (fileOfChunks a1) with (fileOfChunks a). rewrite (ck_file _ _ Hck).
  unfold MAX_NUM_OF_CHUNKS in *.
  destruct (fill_ok (concat Cs) size w reg n ltac:(lia) ltac:(lia) Hreg ltac:(nia) ltac:(nia) ltac:(nia) buffer
    (chunksParams a1) Cs) as (b & cs & Rs & E1 & Lc & Hbf & Hst & ER); [| done | done | |].
  - change (chunksParams a1) with (chunksParams a). rewrite (ck_params _ _ Hck). unfold MAX_NUM_OF_CHUNKS. lia.
  - intros i Hi. destruct (lookup_lt_is_Some_2 Cs (Z.to_nat i)) as [C HC]; [unfold n in Hi; lia|].
    assert (zth [] Cs i = C) as -> by (unfold zth; by apply nth_lookup_Some).
    destruct (ck_at _ _ Hck _ _ HC) as (p & s & Ep).
    assert (zth no_chunk (chunksParams a1) i = Chunk (zlen C) (outRecSize a * zlen (concat (take (Z.to_nat i) Cs))) p s) as ->
      by (unfold zth; by apply nth_lookup_Some).
    split; [|pose proof (ck_some _ _ Hck) as HS; rewrite list.Forall_forall in HS; apply HS; by apply list_elem_of_lookup_2 in HC].
    split; [done|]. intros _. eexists. split; [reflexivity|]. by apply found_concat.
  - rewrite E1. cbn [mbind res_bind]. set (a2 := with_chunks a1 n cs) in *.
    assert (Erest : rest Rs = concat Cs) by (unfold rest; by rewrite ER).
    assert (Hne : concat Cs <> []).
    { pose proof (ck_some _ _ Hck) as HS. destruct Cs as [|[|x C] Cs']; [done | by apply Forall_cons_1 in HS as [? _] | done]. }
    assert (Hsh : Forall (shaped (avp_nm a) (nv a)) (concat Cs)) by (apply Forall_concat, Hck).
    assert (M0 : merged (concat Cs) size n (avp_nm a) (nv a) a (concat Cs) a2 [] None (rest Rs)).
    { rewrite Erest. split; try done.
      - repeat split; first [exact Lc | apply Hck | symmetry; apply Hck].
      - by rewrite app_nil_r.
      - split; [done|]. intros i Hi. cbn. lia.
      - split; [done|]. intros i Hi. cbn. lia.
      - constructor. }
    assert (Hso : Forall (fun R => sorted (remaining R)) Rs).
    { pose proof (ck_sorted _ _ Hck) as HS. rewrite <- ER, Forall_map in HS. exact HS. }
    destruct (merge_loop_ok write_views (concat Cs) size w reg n (avp_nm a) (nv a) a (concat Cs) ltac:(lia) ltac:(lia) Hreg
      ltac:(nia) ltac:(nia) ltac:(nia) (ck_number _ _ Hck) Hrows Hmag Hzero (merge_fuel a1) (Merge a2 b None None) Rs [])
      as (s & p & -> & Hp); try done.
    { by rewrite Erest. }
    { change (merge_fuel a1) with (merge_fuel a). rewrite (merge_fuel_ok a Cs Hck), Erest. lia. }
    cbn [mbind res_bind]. destruct Hp as [[-> Hw'] | (-> & E & o & Eo & M)].
    { eexists _, ADC_WRITE_FAILED. split; [reflexivity|]. by right. }
    rewrite Eo. cbn [mbind res_bind].
    destruct (merged_emit write_views _ _ _ _ _ _ _ Hrows Hmag Hzero _ _ _ _ M) as (a3 & e & -> & Ho).
    cbn [mbind res_bind]. destruct Ho as [(-> & v & -> & Hro & Hf & Hsu & Hcs) | (-> & Hw')]; cbn [Z.eqb negb ADC_OK ADC_WRITE_FAILED].
    2: { eexists _, ADC_WRITE_FAILED. split; [reflexivity|]. by right. }
    eexists _, ADC_OK. split; [reflexivity|]. left. split; [done|]. exists (E ++ [o]).
    destruct M as [(_ & _ & _ & _ & M1 & Ma) _ _ M4 _ _ M7 _ M9 _ _]. cbn [in_output] in *. rewrite app_nil_r in M7.
    cbn [avp_view nViewRows totalOfViewRows with_rows with_view]. rewrite M1, M4, length_app. cbn [length].
    replace (Z.of_nat (length E + 1)) with (zlen E + 1) by lia. done.
Qed.
End Whole.
