(* ===== verification/DataView.v ===== *)
(** * Computing a view

    [RunFormation] and the merge together: whatever the memory and however
    many chunks the rows take, the view that is written is the sorted list of
    the groups of the rows. *)

From Stdlib Require Import Sorted Permutation.
From stdpp Require Import gmap.
From S2P Require Import Prelude Rbt RbtTree Groups RbtHeap RbtGroup RbtWrite DataCube DataRuns DataBuffer DataMerge.

(** ** The control block between views *)

Record ready (a : cntl) : Prop := {
  rd_nm : 0 <= avp_nm a <= MAX_NUM_OF_MEAS;
  rd_sums : avp_nm a <= zlen (mSums (avp_view a));
  rd_checks : avp_nm a <= zlen (checksums (avp_view a));
  rd_chunks : zlen (chunksParams a) = MAX_NUM_OF_CHUNKS;
  rd_file : fileOfChunks a = [];
  rd_tree : tree_memory (avp_tree a);
  rd_memory : avp_memoryLimit a < 2 ^ 32
}.

(** The view of [n] attributes [sel] of rows with [d] attributes, and the
    memory for it: a node of the tree, and a record of each chunk. *)
Record view_ok (a : cntl) (d n : Z) (sel : list Z) (buffer : list data) : Prop := {
  vo_n : 1 <= n <= MAX_NUM_OF_DIMS;
  vo_room : n <= zlen (selection a);
  vo_sel : selects sel d n;
  vo_node : node_size n (avp_nm a) <= memoryLimit (avp_tree a);
  vo_merge : MAX_NUM_OF_CHUNKS * GetRecSize n (avp_nm a) <= avp_memoryLimit a;
  vo_buffer : zlen buffer = avp_memoryLimit a / GetRecSize n (avp_nm a)
}.

(** The rows of the file: their sums fit, and so do their chunks. *)
Record rows_ok (a : cntl) (d n : Z) (rows : list data) : Prop := {
  ro_shaped : Forall (shaped (avp_nm a) d) rows;
  ro_number : zlen rows < 2 ^ 32;
  ro_sums : forall i, 0 <= i < avp_nm a -> zlen rows * mag i rows < 2 ^ 63;
  ro_chunks : zlen rows < (MAX_NUM_OF_CHUNKS - 1) * (memoryLimit (avp_tree a) / node_size n (avp_nm a))
}.

Definition parent_nd (a : cntl) (fromParent : bool) : Z := if fromParent then smallestParentLevel a else nTopDims a.
Definition parent_rows (a : cntl) (fromParent : bool) : Z := if fromParent then nParentViewRows a else nInputRecs a.

Lemma fill_zero n s : 0 <= n <= zlen s ->
  exists s', for_range 0 n (fun i s => s.[i <- 0]) s = Ok s' /\ zlen s' = zlen s /\ forall i, 0 <= i < n -> zth 0 s' i = 0.
Proof.
  intros Hn. destruct (for_range_map 0 (fun _ => 0) (fun i s => s.[i <- 0]) n s Hn) as (s' & E & L & H); [done|].
  exists s'. split; [done|]. split; [done|]. intros i Hi. rewrite H by lia. by destruct (Z.ltb_spec i n); [|lia].
Qed.

(** The selection is copied. *)
Lemma copy_ok n (sel ix : list Z) : 0 <= n <= zlen ix -> n <= zlen sel ->
  exists ix', for_range 0 n (fun i ix => x ← sel.[i]; ix.[i <- x]) ix = Ok ix' /\ zlen ix' = zlen ix /\
    take (Z.to_nat n) ix' = take (Z.to_nat n) sel.
Proof.
  intros Hn Hs. destruct (for_range_map 0 (fun i => zth 0 sel i) (fun i ix => x ← sel.[i]; ix.[i <- x]) n ix Hn)
    as (ix' & E & L & H); [by intros i s Hi _ _; rewrite (aget_ok 0) by lia|].
  exists ix'. split; [done|]. split; [done|]. apply (zth_ext 0); [rewrite !length_take; lia|]. rewrite length_take.
  intros i Hi. assert (Ht : forall l : list Z, zth 0 (take (Z.to_nat n) l) i = zth 0 l i).
  { intros l. unfold zth. rewrite !nth_lookup, lookup_take_lt by lia. done. }
  rewrite !Ht, H by lia. by destruct (Z.ltb_spec i n); [|lia].
Qed.

Section View.
Context (write_chunks write_views : nat -> bool).

(** *** From a view that was set up *)

Section Compute.
Context (a : cntl) (rows buffer : list data).
Hypothesis Hsz : sizes_ok a.
Hypothesis Hck : chunked a [].
Hypothesis Hsel : selects (selection a) (avp_nd a) (nv a).
Hypothesis Hroom : room (avp_nm a) (avp_view a).
Hypothesis Hsums : forall i, 0 <= i < avp_nm a -> zth 0 (mSums (avp_view a)) i = 0.
Hypothesis Hchecks : forall i, 0 <= i < avp_nm a -> zth 0 (checksums (avp_view a)) i = 0.
Hypothesis Hmem : MAX_NUM_OF_CHUNKS * outRecSize a <= avp_memoryLimit a < 2 ^ 32.
Hypothesis Hbuf : zlen buffer = avp_memoryLimit a / outRecSize a.
Hypothesis Hread : nRowsToRead a = zlen rows.
Hypothesis Hrows : rows_ok a (avp_nd a) (nv a) rows.

Let nm := avp_nm a.
Let proj := project (selection a) nm (nv a).

(** The view [l] was added to the file, and its sums are right; the terms of
    the checksums depend on whether there were chunks. *)
Definition computed (a' : cntl) (l : list data) : Prop :=
  sorted l /\ groups l = groups (map proj rows) /\
  (zlen l <= zlen rows /\ forall i, 0 <= i < nm -> mag i l <= mag i rows) /\
  file (avp_view a') = file (avp_view a) ++ l /\
  nViewRows a' = zlen l /\ totalOfViewRows a' = u32 (totalOfViewRows a + zlen l) /\
  (forall i, 0 <= i < nm -> zth 0 (mSums (avp_view a')) i = total i rows) /\
  (forall i, 0 <= i < nm -> zth 0 (checksums (avp_view a')) i =
    weighted (if numberOfChunks a' =? 0 then cs_term nm i else ms_term i) i 0 l).

(** What is as before, for the next view *)
Definition restored (a' : cntl) : Prop :=
  room nm (avp_view a') /\ tree_memory (avp_tree a') /\ memoryLimit (avp_tree a') = memoryLimit (avp_tree a) /\
  zlen (chunksParams a') = zlen (chunksParams a) /\ avp_memoryLimit a' = avp_memoryLimit a /\
  selection a' = selection a /\ constants a' = constants a.

(** The groups of the rows are no more than the rows, and their sums fit. *)
Lemma regroups_bounds l : regroups nm l (map proj rows) ->
  zlen l <= zlen rows /\ forall i, 0 <= i < nm ->
    total i l = total i rows /\ zlen l * mag i l < 2 ^ 63 /\ mag i l < 2 ^ 63 /\ mag i l <= mag i rows.
Proof.
  intros (_ & Hs & Hl). rewrite length_map in Hl. split; [done|]. intros i Hi. destruct (Hs i Hi) as [Hm Ht].
  unfold proj in Hm, Ht. rewrite mag_project in Hm by done. pose proof (ro_sums _ _ _ _ Hrows i Hi) as Hb.
  pose proof (mag_nonneg i l). pose proof (mag_nonneg i rows).
  assert (Htp : total i (map (project (selection a) nm (nv a)) rows) = total i rows).
  { clear -Hi. induction rows as [|x l IH]; cbn [map total foldr]; [done|]. unfold total in *.
    by rewrite IH, meas_project. }
  split; [by rewrite Ht|]. split; [nia|]. split; [|done]. destruct rows as [|x l']; [cbn in Hm; lia|]. cbn [length] in Hb. nia.
Qed.

(** Without chunks *)
Lemma direct_ok a1 T : same_view a a1 -> forming a1 [] T -> regroups nm (inorder T) (map proj rows) ->
  exists a' e,
    (let t := avp_tree a1 in
     let a2 := with_rows a1 (count t) (u32 (totalOfViewRows a1 + count t)) in
     '(v, _, e) ← WriteViewToDiskCS write_views walk_fuel t (avp_view a2) (left (root t)) 0;
     if negb (e =? 0) then Ok (with_view a2 v, ADC_WRITE_FAILED) else Ok (with_view a2 v, ADC_OK)) = Ok (a', e) /\
    outcome write_views e (restored a' /\ exists l, computed a' l).
Proof.
  intros Hv HF Hre. pose proof HF as [S1 C1 W1 E1 E2 _]. pose proof (wf_holds _ _ W1) as HT.
  pose proof Hv as (V1 & _ & V3 & V4 & _ & _ & V7 & _ & V9 & V10 & V11). destruct (regroups_bounds _ Hre) as [Hl Hb].
  cbn zeta. change (avp_view (with_rows a1 _ _)) with (avp_view a1). rewrite V1, (h_root _ _ HT).
  rewrite (WriteViewToDiskCS_visit _ _ T) by (apply HT || by apply (wf_walk _ _ W1)).
  pose proof (wf_shaped _ _ W1) as Hsh. rewrite E1, E2 in Hsh. unfold avp_nm in Hsh. rewrite V1 in Hsh. fold (avp_nm a) in Hsh.
  destruct (visit_viewcs write_views nm (nv a1) (inorder T) (avp_view a) 0) as (v & o & e & E & Ho);
    [done | done | | | done | |].
  - intros i Hi. rewrite Hsums by done. destruct (Hb i Hi). lia.
  - intros i Hi. rewrite Hchecks by done. pose proof (ro_number _ _ _ _ Hrows). unfold measbound. lia.
  - pose proof (ro_number _ _ _ _ Hrows). destruct Hsz as [_ S2 _ _ _]. fold nm in S2. unfold MAX_NUM_OF_MEAS in S2. nia.
  - rewrite Z.mul_0_l in E. rewrite E. cbn [mbind res_bind]. rewrite (p_count _ _ (wf_pool _ _ W1)), size_inorder.
    destruct Ho as [(-> & Hf & Ev & [L1 Hs] & [L2 Hc]) | (-> & Hw)]; cbn [Z.eqb negb ADC_OK ADC_WRITE_FAILED].
    2: { eexists _, ADC_WRITE_FAILED. split; [reflexivity|]. by right. }
    eexists _, ADC_OK. split; [reflexivity|]. left. split; [done|]. split.
    + unfold restored. cbn [avp_view avp_tree chunksParams avp_memoryLimit selection with_view with_rows].
      destruct Hroom as (R1 & R2 & R3 & R4). split; [by repeat split; rewrite ?L1, ?L2|].
      split; [apply S1|]. split; [done|]. split; [rewrite (ck_params _ _ C1), (ck_params _ _ Hck); done|]. by repeat split.
    + exists (inorder T). unfold computed. cbn [avp_view nViewRows totalOfViewRows numberOfChunks with_view with_rows].
      split; [apply W1|]. split; [apply Hre|]. split; [split; [done | apply Hb]|]. split; [done|]. split; [done|]. split; [by rewrite V9|].
      rewrite (ck_number _ _ C1). cbn [length Z.of_nat Z.eqb]. split; intros i Hi.
      * rewrite Hs, Hsums by done. by destruct (Hb i Hi) as [-> _].
      * rewrite Hc, Hchecks by done. done.
Qed.

(** With chunks *)
Lemma merge_ok a1 Cs : same_view a a1 -> Cs <> [] -> sizes_ok a1 -> chunked a1 Cs -> zlen Cs <= MAX_NUM_OF_CHUNKS ->
  regroups nm (concat Cs) (map proj rows) ->
  exists a' e, MultiWayMerge write_views a1 buffer = Ok (a', e) /\
    outcome write_views e (restored a' /\ exists l, computed a' l).
Proof.
  intros Hv Hne S1 C1 Hmax Hre. destruct (regroups_bounds _ Hre) as [Hl Hb].
  pose proof Hv as (V1 & _ & V3 & V4 & V5 & _ & V7 & _ & V9 & V10 & V11).
  assert (Em : avp_nm a1 = nm) by (unfold avp_nm; by rewrite V1).
  destruct (MultiWayMerge_ok write_views a1 Cs buffer) as (a' & e & E & Ho); rewrite ?Em, ?V1, ?V5, ?V7; try done.
  - pose proof (ro_number _ _ _ _ Hrows). lia.
  - intros i Hi. destruct (Hb i Hi) as (_ & H1 & H2 & _). rewrite Hsums by done. split; [done | lia].
  - exists a', e. split; [done|]. rewrite Em, V1 in Ho.
    destruct Ho as [(-> & l & Hso & Hg & Hf & Hn & Ht & [L1 Hs] & [L2 Hc] & Hr & (A1 & A2 & A3 & A4 & A5 & A6 & A7 & A8)) | Ho];
      [left | by right].
    split; [done|]. split.
    + unfold restored. split; [done|]. rewrite A4, A5, A6, A7, A8. split; [apply S1|]. split; [done|].
      split; [by rewrite (ck_params _ _ C1), (ck_params _ _ Hck)|]. by repeat split.
    + exists l. unfold computed. split; [done|]. split; [rewrite (proj1 Hg); apply Hre|].
      split; [split; [destruct Hg as (_ & _ & Hg); lia | intros i Hi; destruct Hg as (_ & Hg & _), (Hb i Hi) as (_ & _ & _ & H);
        destruct (Hg i Hi); lia]|]. split; [done|]. split; [done|].
      split; [by rewrite Ht, V9|]. rewrite A1, (ck_number _ _ C1).
      destruct (Z.eqb_spec (zlen Cs) 0); [destruct Cs; [done | cbn [length] in *; lia]|].
      split; intros i Hi; [|by rewrite Hc, Hchecks by done].
      rewrite Hs, Hsums by done. destruct (Hb i Hi) as [<- _]. apply (proj2 (proj1 (proj2 Hg) i Hi)).
Qed.

(** From the rows to the view *)
Lemma compute_view_ok rest :
  exists a' e, compute_view write_chunks write_views a (rows ++ rest) buffer = Ok (a', e) /\
    ((e = ADC_OK /\ restored a' /\ exists l, computed a' l) \/
     (e = ADC_WRITE_FAILED /\ exists k, write_chunks k = false \/ write_views k = false)).
Proof.
  destruct Hrows as [R1 R2 R3 R4].
  assert (Hf : fits nm rows).
  { intros i Hi. specialize (R3 i Hi). pose proof (mag_nonneg i rows). destruct rows as [|x l]; [done|]. cbn [length] in R3. nia. }
  unfold compute_view.
  destruct (RunFormation_ok write_chunks a rows Hsel R1 Hf R4 rest Hsz Hck Hread) as (a1 & e & -> & Ho).
  cbn [mbind res_bind]. destruct Ho as [(-> & Hv & Hr) | (-> & k & Hw)]; cbn [Z.eqb negb ADC_OK ADC_WRITE_FAILED].
  2: { exists a1, ADC_WRITE_FAILED. split; [done|]. right. eauto. }
  destruct Hr as [(T & HF & Hre) | (Cs & Hne & S1 & C1 & Hmax & Hre)].
  - rewrite (ck_number _ _ (fm_chunks _ _ _ HF)). cbn [length Z.of_nat Z.eqb].
    destruct (direct_ok a1 T Hv HF) as (a' & e & E & Ho).
    { unfold avp_nm in Hre. by rewrite (proj1 Hv) in Hre. }
    exists a', e. split; [exact E|]. destruct Ho as [(-> & H) | (-> & k & Hw)]; [by left | right; eauto].
  - rewrite (ck_number _ _ C1). destruct (Z.eqb_spec (zlen Cs) 0); [destruct Cs; [done | cbn [length] in *; lia]|].
    destruct (merge_ok a1 Cs Hv Hne S1 C1 Hmax) as (a' & e & -> & Ho).
    { unfold avp_nm in Hre. by rewrite (proj1 Hv) in Hre. }
    cbn [mbind res_bind]. destruct Ho as [(-> & H) | (-> & k & Hw)]; cbn [Z.eqb negb ADC_OK ADC_WRITE_FAILED].
    + exists a', ADC_OK. split; [done|]. by left.
    + exists a', ADC_WRITE_FAILED. split; [done|]. right. eauto.
Qed.
End Compute.
End View.

(** ** A view of the loop *)

(** The records that a view adds to the file, and its sums: those of the rows
    projected to the attributes, grouped. *)
Record is_view (a a' : cntl) (n : Z) (sel : list Z) (rows l : list data) : Prop := {
  iv_sorted : sorted l;
  iv_groups : groups l = groups (map (project sel (avp_nm a) n) rows);
  iv_size : zlen l <= zlen rows;
  iv_mag : forall i, 0 <= i < avp_nm a -> mag i l <= mag i rows;
  iv_file : file (avp_view a') = file (avp_view a) ++ l;
  iv_rows : nViewRows a' = zlen l;
  iv_nm : avp_nm a' = avp_nm a;
  iv_nv : nv a' = n;
  iv_record : outRecSize a' = GetRecSize n (avp_nm a);
  iv_total : totalOfViewRows a' = u32 (totalOfViewRows a + zlen l);
  iv_sums : forall i, 0 <= i < avp_nm a -> zth 0 (mSums (avp_view a')) i = total i rows;
  iv_checks : forall i, 0 <= i < avp_nm a -> zth 0 (checksums (avp_view a')) i =
    weighted (if numberOfChunks a' =? 0 then cs_term (avp_nm a) i else ms_term i) i 0 l
}.

Lemma GetRecSize_ok n m : 1 <= n <= MAX_NUM_OF_DIMS -> 0 <= m <= MAX_NUM_OF_MEAS ->
  GetRecSize n m = DIM_FSZ * n + MSR_FSZ * m.
Proof.
  unfold GetRecSize, DIM_FSZ, MSR_FSZ, MAX_NUM_OF_DIMS, MAX_NUM_OF_MEAS. intros. by rewrite unsigned_small by lia.
Qed.

(** The view that [InitAdcViewCntl] sets up *)
Lemma InitAdcViewCntl_ok a n sel fromParent buffer : ready a -> view_ok a (parent_nd a fromParent) n sel buffer ->
  (forall i, 0 <= i < avp_nm a -> zth 0 (checksums (avp_view a)) i = 0) ->
  exists a1, InitAdcViewCntl a n sel fromParent = Ok a1 /\ sizes_ok a1 /\ chunked a1 [] /\
    selects (selection a1) (avp_nd a1) (nv a1) /\ room (avp_nm a1) (avp_view a1) /\
    (forall i, 0 <= i < avp_nm a1 -> zth 0 (mSums (avp_view a1)) i = 0) /\
    checksums (avp_view a1) = checksums (avp_view a) /\ file (avp_view a1) = file (avp_view a) /\
    avp_nm a1 = avp_nm a /\ avp_nd a1 = parent_nd a fromParent /\ nv a1 = n /\ nRowsToRead a1 = parent_rows a fromParent /\
    outRecSize a1 = GetRecSize n (avp_nm a) /\ avp_memoryLimit a1 = avp_memoryLimit a /\ avp_tree a1 = avp_tree a /\
    totalOfViewRows a1 = totalOfViewRows a /\ settings a1 = settings a /\ zlen (selection a1) = zlen (selection a) /\
    (forall x, project (selection a1) (avp_nm a) n x = project sel (avp_nm a) n x).
Proof.
  intros [R1 R2 R3 R4 R5 R6 R7] [V1 V2 [V3 V3'] V4 V5 V6] Hz. unfold InitAdcViewCntl.
  destruct (fill_zero (avp_nm a) (mSums (avp_view a))) as (s & -> & Ls & Hs); [lia|]. cbn [mbind res_bind].
  destruct (copy_ok n sel (selection a)) as (ix & -> & Lx & Hx); [lia | lia |]. cbn [mbind res_bind].
  eexists. split; [reflexivity|]. pose proof (GetRecSize_ok n (avp_nm a) V1 R1) as Er.
  split; [|split; [|split; [|split; [|by repeat split; try done; intros x; unfold project; cbn [selection]; rewrite Hx]]]].
  - split; cbn [nv outRecSize avp_tree]; try done.
  - split; cbn [numberOfChunks chunksParams fileOfChunks]; try done.
  - unfold selects. cbn [selection nv avp_nd]. rewrite Hx. split; [lia | exact V3'].
  - split; [done|]. split; [apply R1|]. split; [cbn [avp_view mSums]; rewrite Ls; exact R2 | exact R3].
Qed.

Section Groupby.
Context (write_chunks write_views : nat -> bool).

Lemma compute_groupby_ok a n sel fromParent rows rest buffer : ready a ->
  view_ok a (parent_nd a fromParent) n sel buffer -> rows_ok a (parent_nd a fromParent) n rows ->
  zlen rows = parent_rows a fromParent ->
  exists a' e, compute_groupby write_chunks write_views a n sel fromParent (rows ++ rest) buffer = Ok (a', e) /\
    ((e = ADC_OK /\ ready a' /\ settings a' = settings a /\ avp_memoryLimit a' = avp_memoryLimit a /\
      memoryLimit (avp_tree a') = memoryLimit (avp_tree a) /\ zlen (selection a') = zlen (selection a) /\
      exists l, is_view a a' n sel rows l) \/
     (e = ADC_WRITE_FAILED /\ exists k, write_chunks k = false \/ write_views k = false)).
Proof.
  intros R V Hr Hl. unfold compute_groupby. pose proof R as [R1 R2 R3 R4 R5 R6 R7].
  destruct (fill_zero (avp_nm a) (checksums (avp_view a))) as (c & -> & Lc & Hc); [lia|]. cbn [mbind res_bind].
  set (a0 := with_view a _).
  assert (Ra : ready a0) by (split; try done; cbn [avp_view checksums with_view a0]; rewrite ?Lc; done).
  assert (Va : view_ok a0 (parent_nd a0 fromParent) n sel buffer) by (destruct V; by split).
  destruct (InitAdcViewCntl_ok a0 n sel fromParent buffer Ra Va Hc)
    as (a1 & -> & S1 & C1 & H1 & H2 & H3 & H4 & H5 & H6 & H7 & H8 & H9 & H10 & H11 & H12 & H13 & H14 & H15 & H16).
  cbn [mbind res_bind]. change (avp_nm a0) with (avp_nm a) in *. change (avp_memoryLimit a0) with (avp_memoryLimit a) in *.
  change (avp_tree a0) with (avp_tree a) in *.
  change (parent_nd a0 fromParent) with (parent_nd a fromParent) in *.
  change (parent_rows a0 fromParent) with (parent_rows a fromParent) in *.
  destruct (compute_view_ok write_chunks write_views a1 rows buffer) with (rest := rest) as (a' & e & -> & Ho); try done.
  - rewrite H4, H6. exact Hc.
  - rewrite H10, H11. split; [apply V | done].
  - rewrite H10, H11. apply V.
  - by rewrite H9.
  - rewrite H7, H8. destruct Hr as [Q1 Q2 Q3 Q4]. split; rewrite ?H6, ?H12; done.
  - cbn [mbind res_bind]. destruct Ho as [(-> & (T1 & T2 & T3 & T4 & T5 & T6 & T7) & l & L1 & L2 & (L8 & L9) & L3 & L4 & L5 & L6 & L7) | (-> & Hw)];
      cbn [Z.eqb negb ADC_OK ADC_WRITE_FAILED].
    2: { exists a', ADC_WRITE_FAILED. split; [done|]. by right. }
    eexists _, ADC_OK. split; [reflexivity|]. left. split; [done|].
    assert (Em : avp_nm (with_fileOfChunks a' []) = avp_nm a) by (rewrite <- H6; apply T1).
    rewrite H6 in *. destruct T1 as (T1 & _ & T1a & T1b).
    pose proof T7 as [= T7v T7r _ _ _ _]. assert (T7s : settings a' = settings a1) by (injection T7; unfold settings; congruence). split; [|split; [|split; [|split; [|split]]]].
    + split; rewrite ?Em; try done; cbn [chunksParams avp_tree avp_memoryLimit with_fileOfChunks]; try done.
      * by rewrite T4, (ck_params _ _ C1).
      * by rewrite T5, H11.
    + change (settings (with_fileOfChunks a' [])) with (settings a'). by rewrite T7s, H14.
    + cbn. by rewrite T5, H11.
    + cbn. by rewrite T3, H12.
    + cbn. by rewrite T6, H15.
    + exists l. split; cbn [avp_view nViewRows totalOfViewRows numberOfChunks with_fileOfChunks]; try done.
      * rewrite L2, H8. f_equal. apply map_ext. exact H16.
      * by rewrite L3, H5.
      * change (nv a' = n). by rewrite T7v.
      * change (outRecSize a' = GetRecSize n (avp_nm a)). by rewrite T7r.
      * by rewrite L5, H13.
Qed.
End Groupby.

(** ** The property *)

(** C21: A turn of the loop of [ComputeGivenGroupbys] always returns, without
    undefined behaviour, whatever the outcomes of [fwrite].  If it returns
    [ADC_OK], the records added to the file of views are the groups of the
    rows of the parent, projected to the selected attributes: sorted, each
    combination of attributes once, with the measures added up - whether the
    tree had room for them or they went through sorted chunks and the merge;
    the counts of rows, the sums and the checksums are right, and the control
    block is ready for the next view.  Otherwise it returns
    [ADC_WRITE_FAILED], and a write failed. *)
Theorem groupby_computes_view write_chunks write_views a n sel fromParent rows rest buffer : ready a ->
  view_ok a (parent_nd a fromParent) n sel buffer -> rows_ok a (parent_nd a fromParent) n rows ->
  zlen rows = parent_rows a fromParent ->
  exists a' e, compute_groupby write_chunks write_views a n sel fromParent (rows ++ rest) buffer = Ok (a', e) /\
    ((e = ADC_OK /\ ready a' /\ settings a' = settings a /\ avp_memoryLimit a' = avp_memoryLimit a /\
      memoryLimit (avp_tree a') = memoryLimit (avp_tree a) /\ zlen (selection a') = zlen (selection a) /\
      exists l, is_view a a' n sel rows l) \/
     (e = ADC_WRITE_FAILED /\ exists k, write_chunks k = false \/ write_views k = false)).
Proof. apply compute_groupby_ok. Qed.

(** *** Six rows of three attributes and one measure, with a tree of three
    nodes *)

Definition ex_rows : list data :=
  [Data [5] [1; 7; 2]; Data [6] [1; 8; 1]; Data [7] [2; 7; 2]; Data [8] [1; 9; 2]; Data [9] [3; 7; 1]; Data [10] [3; 7; 2]].

Definition ex_control (parentRows parentLevel : Z) : cntl :=
  Cntl (View 1 [0] [0] []) 0 0 3 6 parentRows parentLevel 0 0 0 0 0 16384
    (Tree (TreeNode NULL NULL BLACK no_record) NULL 0 0 0 144 0 0 0 0 0 0 (replicate 64 0) (replicate 64 NULL) ∅)
    (replicate 20 0) 0 (replicate 1024 no_chunk) [].

Lemma ex_ready r l : ready (ex_control r l).
Proof. by repeat split. Qed.

Lemma ex_view r l d n sel : 1 <= n <= 2 -> n <= zlen sel -> Forall (fun i => 1 <= i <= d) sel ->
  view_ok (ex_control r l) d n sel (replicate (Z.to_nat (16384 / GetRecSize n 1)) no_record).
Proof.
  intros Hn Hs Hf. assert (n = 1 \/ n = 2) as Hn12 by lia.
  split.
  - unfold MAX_NUM_OF_DIMS. lia.
  - change (zlen (selection (ex_control r l))) with 20. lia.
  - split; [lia|]. by apply Forall_take.
  - by destruct Hn12 as [-> | ->].
  - by destruct Hn12 as [-> | ->].
  - rewrite length_replicate. by destruct Hn12 as [-> | ->].
Qed.

Lemma ex_rows_ok r l d n rows : 1 <= n <= 2 -> Forall (shaped 1 d) rows -> zlen rows <= 6 -> mag 0 rows <= 100 ->
  rows_ok (ex_control r l) d n rows.
Proof.
  intros Hn Hs Hl Hm. assert (n = 1 \/ n = 2) as Hn12 by lia. split; [done | lia | |].
  - intros i Hi. cbn in Hi. replace i with 0 by lia. pose proof (mag_nonneg 0 rows). nia.
  - cbn [avp_tree ex_control memoryLimit avp_nm avp_view vnm]. destruct Hn12 as [-> | ->].
    + change (144 / node_size 1 1) with 3. unfold MAX_NUM_OF_CHUNKS. lia.
    + change (144 / node_size 2 1) with 3. unfold MAX_NUM_OF_CHUNKS. lia.
Qed.

Lemma ex_rows_shaped : Forall (shaped 1 3) ex_rows.
Proof. by repeat constructor. Qed.

(** The view of the first attribute *)
Example groupby_computes_view_witness : exists a',
  compute_groupby (fun _ => true) (fun _ => true) (ex_control 0 0) 1 [1] false ex_rows
    (replicate (Z.to_nat (16384 / GetRecSize 1 1)) no_record) = Ok (a', ADC_OK) /\
  file (avp_view a') = [Data [19] [1]; Data [7] [2]; Data [19] [3]].
Proof.
  destruct (groupby_computes_view (fun _ => true) (fun _ => true) (ex_control 0 0) 1 [1] false ex_rows []
    (replicate (Z.to_nat (16384 / GetRecSize 1 1)) no_record))
    as (a' & e & E & [(-> & _ & _ & _ & _ & _ & l & V) | (_ & k & [H | H])]).
  - apply ex_ready.
  - apply ex_view; [lia | cbn [length]; lia | repeat constructor; cbn; lia].
  - apply ex_rows_ok; [lia | exact ex_rows_shaped | cbn [ex_rows length]; lia | by apply Z.leb_le].
  - reflexivity.
  - exists a'. split; [exact E|]. rewrite (iv_file _ _ _ _ _ _ V).
    assert (l = [Data [19] [1]; Data [7] [2]; Data [19] [3]]) as ->; [|reflexivity].
    apply sorted_unique; [apply V | by repeat constructor |]. rewrite (iv_groups _ _ _ _ _ _ V). by vm_compute.
  - discriminate H.
  - discriminate H.
Defined.
