(* ===== verification/DataRollup.v ===== *)
(** * Views from views

    A view may be computed from a view that was computed before and has more
    attributes, instead of from the input: the groups of the groups are the
    groups of the rows. *)

From Stdlib Require Import Sorted Permutation.
From stdpp Require Import gmap.
From S2P Require Import Prelude Rbt RbtTree Groups RbtHeap RbtGroup RbtWrite DataCube DataRuns DataBuffer DataMerge DataView.

(** ** Groups and projections *)

(** The groups of the projected records, from the groups of the records *)
Definition roll (f : list Z -> list Z) (m : gmap (list Z) (list Z)) : gmap (list Z) (list Z) :=
  map_fold (fun k v g => add_group (Data v (f k)) g) ∅ m.

Lemma roll_insert f k v m : m !! k = None -> roll f (<[k := v]> m) = add_group (Data v (f k)) (roll f m).
Proof.
  intros Hk. unfold roll. apply (map_fold_insert_L (fun k v g => add_group (Data v (f k)) g)); [|done].
  intros j1 j2 z1 z2 y _ _ _. apply add_group_comm.
Qed.

Lemma roll_add f x m : roll f (add_group x m) = add_group (Data (measures x) (f (dims x))) (roll f m).
Proof.
  unfold add_group at 1. destruct (m !! dims x) as [y|] eqn:E; [|by apply roll_insert].
  rewrite <- (insert_delete_id m (dims x) y E) at 2. rewrite <- (insert_delete_eq m (dims x)).
  rewrite !roll_insert by apply lookup_delete_eq.
  change (Data (vadd y (measures x)) (f (dims x)))
    with (merge (Data y (f (dims x))) (Data (measures x) (f (dims x)))).
  by rewrite add_group_merge by done.
Qed.

Lemma groups_map f l : groups (map (fun x => Data (measures x) (f (dims x))) l) = roll f (groups l).
Proof.
  induction l as [|x l IH]; cbn [map groups foldr]; [done|]. fold (groups l). rewrite roll_add, <- IH. done.
Qed.

(** ** Shapes *)

Lemma groups_shaped nm nd l k m : Forall (shaped nm nd) l -> groups l !! k = Some m -> zlen m = nm /\ zlen k = nd.
Proof.
  intros Hl. revert k m. induction Hl as [|x l [Hm Hd] Hl IH]; intros k m; cbn [groups foldr]; [done|].
  fold (groups l). unfold add_group. destruct (decide (dims x = k)) as [<-|Hne].
  - rewrite lookup_insert_eq. destruct (groups l !! dims x) as [y|] eqn:E; intros [= <-]; [|done].
    destruct (IH _ _ E) as [Hy _]. rewrite length_zip_with. split; [lia | done].
  - rewrite lookup_insert_ne by done. apply IH.
Qed.

Lemma sorted_shaped nm nd l rows : sorted l -> groups l = groups rows -> Forall (shaped nm nd) rows ->
  Forall (shaped nm nd) l.
Proof.
  intros Hs Hg Hr. rewrite list.Forall_forall. intros x Hx. apply (groups_shaped nm nd rows (dims x)); [done|].
  rewrite <- Hg. apply groups_lookup; [done|]. by exists x.
Qed.

(** ** Compositions of selections *)

Definition select (ix : list Z) (n : Z) (k : list Z) : list Z := map (fun i => zth 0 k (i - 1)) (take (Z.to_nat n) ix).

Lemma project_select ix nm n x : zlen (measures x) = nm -> project ix nm n x = Data (measures x) (select ix n (dims x)).
Proof. intros Hm. unfold project. by rewrite take_ge by lia. Qed.

(** [sel2] counts the attributes that [sel1] selects. *)
Definition compose (sel1 sel2 : list Z) : list Z := map (fun i => zth 0 sel1 (i - 1)) sel2.

Lemma select_compose sel1 sel2 n1 n2 k : 0 <= n1 <= zlen sel1 -> Forall (fun i => 1 <= i <= n1) (take (Z.to_nat n2) sel2) ->
  select (compose sel1 sel2) n2 k = select sel2 n2 (select sel1 n1 k).
Proof.
  intros Hn Hs. unfold select at 1 2, compose. rewrite firstn_map, map_map. apply map_ext_in. intros i Hi.
  rewrite List.Forall_forall in Hs. specialize (Hs i Hi). unfold select.
  destruct (lookup_lt_is_Some_2 sel1 (Z.to_nat (i - 1))) as [j Hj]; [lia|].
  assert (zth 0 sel1 (i - 1) = j) as -> by (unfold zth; by apply nth_lookup_Some).
  symmetry. apply nth_lookup_Some.
  rewrite list_lookup_fmap, lookup_take_lt by lia. by rewrite Hj.
Qed.

(** ** Runs that succeed *)

(** The records that were added to the file of views *)
Definition added_records (a a' : cntl) : list data := drop (length (file (avp_view a))) (file (avp_view a')).

(** The view of the attributes [sel] is computed from [rows]. *)
Record computes (a : cntl) (n : Z) (sel : list Z) (fromParent : bool) (rows : list data) (a' : cntl) : Prop := {
  cp_ready : ready a;
  cp_rows : rows_ok a (parent_nd a fromParent) n rows;
  cp_number : zlen rows = parent_rows a fromParent;
  cp_run : exists write_chunks write_views rest buffer, view_ok a (parent_nd a fromParent) n sel buffer /\
    compute_groupby write_chunks write_views a n sel fromParent (rows ++ rest) buffer = Ok (a', ADC_OK)
}.

Lemma computes_view a n sel fromParent rows a' : computes a n sel fromParent rows a' ->
  is_view a a' n sel rows (added_records a a').
Proof.
  intros [R Hr Hl (wc & wv & rest & buffer & V & E)].
  destruct (compute_groupby_ok wc wv a n sel fromParent rows rest buffer R V Hr Hl) as (a1 & e & E1 & Ho).
  rewrite E in E1. injection E1 as <- <-. destruct Ho as [(_ & _ & _ & _ & _ & _ & l & Hv) | (He & _)]; [|done].
  assert (added_records a a' = l) as ->; [|done]. unfold added_records. rewrite (iv_file _ _ _ _ _ _ Hv).
  apply drop_app_length.
Qed.

(** The run exists when no write fails. *)
Lemma computes_exists a n sel fromParent rows buffer : ready a -> view_ok a (parent_nd a fromParent) n sel buffer ->
  rows_ok a (parent_nd a fromParent) n rows -> zlen rows = parent_rows a fromParent ->
  exists a', computes a n sel fromParent rows a'.
Proof.
  intros R V Hr Hl.
  destruct (compute_groupby_ok (fun _ => true) (fun _ => true) a n sel fromParent rows [] buffer R V Hr Hl)
    as (a' & e & E & [(-> & _) | (_ & k & [Hk | Hk])]); [|done..].
  exists a'. split; try done. by exists (fun _ => true), (fun _ => true), [], buffer.
Qed.

Lemma view_shaped a a' n sel fromParent rows l : 0 <= avp_nm a -> selects sel (parent_nd a fromParent) n ->
  rows_ok a (parent_nd a fromParent) n rows -> is_view a a' n sel rows l -> Forall (shaped (avp_nm a) n) l.
Proof.
  intros Hm Hs Hr Hv. apply (sorted_shaped _ _ l (map (project sel (avp_nm a) n) rows)); [apply Hv | apply Hv |].
  apply Forall_map. eapply list.Forall_impl; [exact (ro_shaped _ _ _ _ Hr)|]. intros x Hx.
  by apply (SelectToView_ok x sel (avp_nm a) (parent_nd a fromParent) n).
Qed.

Lemma map_project nm n sel d l : Forall (shaped nm d) l ->
  map (project sel nm n) l = map (fun x => Data (measures x) (select sel n (dims x))) l.
Proof.
  induction 1 as [|x l [Hm _] _ IH]; cbn [map]; [done|]. by rewrite IH, project_select.
Qed.

(** The view of a view is the view of the composed selection. *)
Lemma rollup_groups nm d n1 n2 sel1 sel2 rows l : Forall (shaped nm d) rows -> Forall (shaped nm n1) l ->
  groups l = groups (map (project sel1 nm n1) rows) -> 0 <= n1 <= zlen sel1 ->
  Forall (fun i => 1 <= i <= n1) (take (Z.to_nat n2) sel2) ->
  groups (map (project sel2 nm n2) l) = groups (map (project (compose sel1 sel2) nm n2) rows).
Proof.
  intros Hr Hl Hg Hn Hs. rewrite (map_project _ _ _ _ _ Hl), groups_map, Hg, <- groups_map, map_map.
  rewrite (map_project _ _ _ _ _ Hr). f_equal. apply map_ext_in. intros x Hx.
  rewrite List.Forall_forall in Hr. destruct (Hr x Hx) as [Hm _].
  rewrite project_select by done. cbn [measures dims]. f_equal. symmetry. by apply select_compose.
Qed.

(** ** The property *)

(** C25: Computing a view from a parent view that was written before gives the
    same records as computing it from the rows of the parent, whatever the
    memory of the three computations and whether they sort in the tree or by
    chunks: the view of the attributes [sel2] of the view of the attributes
    [sel1] of the rows is the view of the composed selection. *)
Theorem view_from_parent a b c a' b' c' n1 n2 sel1 sel2 from1 from3 rows :
  computes a n1 sel1 from1 rows a' ->
  avp_nm b = avp_nm a -> smallestParentLevel b = n1 -> computes b n2 sel2 true (added_records a a') b' ->
  avp_nm c = avp_nm a -> computes c n2 (compose sel1 sel2) from3 rows c' ->
  added_records b b' = added_records c c' /\ nViewRows b' = nViewRows c'.
Proof.
  intros Ha Emb Elb Hb Emc Hc.
  pose proof (computes_view _ _ _ _ _ _ Ha) as Va. pose proof (computes_view _ _ _ _ _ _ Hb) as Vb.
  pose proof (computes_view _ _ _ _ _ _ Hc) as Vc.
  assert (E : added_records b b' = added_records c c').
  { pose proof Ha as [[Rm _ _ _ _ _ _] Ra _ (_ & _ & _ & _ & [_ _ Sa _ _ _] & _)].
    pose proof Hb as [_ _ _ (_ & _ & _ & _ & [_ _ [_ Sb] _ _ _] & _)]. unfold parent_nd in Sb. rewrite Elb in Sb.
    apply (sorted_unique); [apply Vb | apply Vc |]. rewrite (iv_groups _ _ _ _ _ _ Vb), (iv_groups _ _ _ _ _ _ Vc).
    rewrite Emb, Emc. pose proof (view_shaped _ _ _ _ _ _ _ (proj1 Rm) Sa Ra Va) as Hl.
    apply (rollup_groups _ _ _ _ _ _ _ _ (ro_shaped _ _ _ _ Ra) Hl (iv_groups _ _ _ _ _ _ Va)); [apply Sa | done]. }
  split; [done|]. by rewrite (iv_rows _ _ _ _ _ _ Vb), (iv_rows _ _ _ _ _ _ Vc), E.
Qed.

(** *** The view of attribute 1, from the view of the attributes 3 and 1 and
    from the rows *)

Definition ex_buffer (n : Z) : list data := replicate (Z.to_nat (16384 / GetRecSize n 1)) no_record.

Lemma ex_computes r l n sel fromParent rows : 1 <= n <= 2 -> n <= zlen sel ->
  Forall (fun i => 1 <= i <= parent_nd (ex_control r l) fromParent) sel ->
  Forall (shaped 1 (parent_nd (ex_control r l) fromParent)) rows -> zlen rows <= 6 -> mag 0 rows <= 100 ->
  zlen rows = parent_rows (ex_control r l) fromParent ->
  exists a', computes (ex_control r l) n sel fromParent rows a'.
Proof.
  intros Hn Hs Hf Hr Hl Hm He. apply (computes_exists _ _ _ _ _ (ex_buffer n)); [apply ex_ready | | | done].
  - by apply ex_view.
  - by apply ex_rows_ok.
Qed.

(** The view of the attributes 3 and 1 *)
Definition ex_parent : list data := [Data [6] [1; 1]; Data [9] [1; 3]; Data [13] [2; 1]; Data [7] [2; 2]; Data [10] [2; 3]].

Example view_from_parent_witness : exists a' b' c',
  computes (ex_control 0 0) 2 [3; 1] false ex_rows a' /\
  computes (ex_control 5 2) 1 [2] true (added_records (ex_control 0 0) a') b' /\
  computes (ex_control 0 0) 1 (compose [3; 1] [2]) false ex_rows c' /\
  added_records (ex_control 5 2) b' = added_records (ex_control 0 0) c'.
Proof.
  destruct (ex_computes 0 0 2 [3; 1] false ex_rows) as [a' Ha];
    [lia | cbn [length]; lia | repeat constructor; cbn; lia | exact ex_rows_shaped | cbn [ex_rows length]; lia |
     by apply Z.leb_le | reflexivity |].
  destruct (ex_computes 0 0 1 [1] false ex_rows) as [c' Hc];
    [lia | cbn [length]; lia | repeat constructor; cbn; lia | exact ex_rows_shaped | cbn [ex_rows length]; lia |
     by apply Z.leb_le | reflexivity |].
  assert (E : added_records (ex_control 0 0) a' = ex_parent).
  { pose proof (computes_view _ _ _ _ _ _ Ha) as V. apply sorted_unique; [apply V | by repeat constructor |].
    rewrite (iv_groups _ _ _ _ _ _ V). by vm_compute. }
  destruct (ex_computes 5 2 1 [2] true ex_parent) as [b' Hb];
    [lia | cbn [length]; lia | repeat constructor; cbn; lia | by repeat constructor | cbn [ex_parent length]; lia |
     by apply Z.leb_le | reflexivity |].
  rewrite <- E in Hb. exists a', b', c'. split; [exact Ha|]. split; [exact Hb|]. split; [exact Hc|].
  exact (proj1 (view_from_parent (ex_control 0 0) (ex_control 5 2) (ex_control 0 0) a' b' c' 2 1 [3; 1] [2] false false ex_rows
    Ha eq_refl eq_refl Hb eq_refl Hc)).
Defined.
