(* ===== verification/JobPool.v ===== *)
(** * Bit tuples and the pool of views

    [NPB/SERIAL/DC/jobcntl.c]: a view of the data cube is named by a tuple of
    bits, one for each attribute of the input, the most significant bit first;
    the pool [jpp] has an entry for every view that was computed, in layers of
    equally many attributes ([lpp]), and [GetParent] finds in it the view from
    which another one is computed.

    Of [adc.c], [swap8]; of [extbuild.c], the set-up of the layers. *)

From stdpp Require Import gmap.
From S2P Require Import Prelude Rbt DataCube.

(** ** Bit tuples *)

Definition MLB := 0x8000000000000000.
Definition MLB32 := 0x80000000.

(** The exchange of bytes [i] and [j] of an object *)
Definition swap_bytes (i j : nat) (p : list Z) : list Z :=
  match p !! i, p !! j with Some a, Some b => <[j := a]> (<[i := b]> p) | _, _ => p end.

Fixpoint bytes_of (n : nat) (x : Z) : list Z :=
  match n with O => [] | S n => x mod 256 :: bytes_of n (x / 256) end.
Definition of_bytes (l : list Z) : Z := foldr (fun b x => b + 256 * x) 0 l.

Definition swap8 (x : Z) : Z :=
  of_bytes (swap_bytes 3 4 (swap_bytes 2 5 (swap_bytes 1 6 (swap_bytes 0 7 (bytes_of 8 x))))).

Definition SetOneBit (s pos : Z) : res Z := ob ← shr 64 MLB pos; Ok (Z.lor s ob).
Definition SetOneBit32 (s pos : Z) : res Z := ob ← shr 32 MLB32 pos; Ok (Z.lor s ob).

(** The number of zeros to the left of the first one of 32 bits, and 32 less
    the number of zeros to the right of the last one; the flag tells that the
    loop was left. *)
Definition Mlo32 (x : Z) : res Z :=
  '(k, _, _) ← for_range 0 32 (fun _ '(k, om, stop) =>
    if (stop : bool) then Ok (k, om, stop)
    else if negb (Z.land om x =? 0) then Ok (k, om, true)
    else Ok (k + 1, Z.shiftr om 1, false)) (0, 0x80000000, false);
  Ok k.

Definition mro32 (x : Z) : res Z :=
  '(k, _, _) ← for_range 0 32 (fun _ '(k, om, stop) =>
    if (stop : bool) then Ok (k, om, stop)
    else if negb (Z.land om x =? 0) then Ok (k, om, true)
    else Ok (k - 1, u32 (Z.shiftl om 1), false)) (32, 1, false);
  Ok k.

(** [om] is an [int]: it is shifted with its sign. *)
Definition setLeadingOnes32 (n : Z) : res Z :=
  '(x, _) ← for_range 0 n (fun _ '(x, om) => Ok (u32 (Z.lor x om), Z.shiftr om 1)) (0, i32 0x80000000);
  Ok x.

Definition NumOfCombsFromNbyK (n k : Z) : res Z :=
  if n <? k then Ok 0
  else for_range 1 (k + 1) (fun l c => Ok (u32 (c * u32 (n - l + 1)) / l)) 1.

Definition NumberOfOnes (s : Z) : res Z :=
  '(nOnes, _) ← for_range 0 64
    (fun _ '(nOnes, ob) => Ok (if negb (Z.land s ob =? 0) then nOnes + 1 else nOnes, Z.shiftr ob 1)) (0, MLB);
  Ok nOnes.

(** The attributes of the tuple, counted from 1, and their number *)
Definition get_reg_tuple (oc binRepTuple : Z) (selTuple : list Z) (numDims : Z) : res (list Z * Z) :=
  '(selTuple, _, numOfUnits, _) ← for_range 0 numDims (fun i '(sel, j, units, oc) =>
    if negb (Z.land binRepTuple oc =? 0) then
      sel ← sel.[j <- i + 1]; Ok (sel, j + 1, units + 1, Z.shiftr oc 1)
    else Ok (sel, j, units, Z.shiftr oc 1)) (selTuple, 0, 0, oc);
  Ok (selTuple, numOfUnits).

Definition GetRegTupleFromBin64 : Z -> list Z -> Z -> res (list Z * Z) := get_reg_tuple MLB.
Definition getRegTupleFromBin32 : Z -> list Z -> Z -> res (list Z * Z) := get_reg_tuple MLB32.

(** The attributes of a tuple, counted among those of its parent *)
Definition GetRegTupleFromParent (bin64RepTuple bin32RepTuple : Z) (selTuple : list Z) (nd : Z) : res (list Z) :=
  ut32 ← shr 64 bin64RepTuple (64 - nd);
  ut32 ← shl 32 (u32 ut32) (32 - nd);
  '(selTuple, _, _, _) ← for_range 0 nd (fun _ '(sel, j, k, oc) =>
    let k := if negb (Z.land bin32RepTuple oc =? 0) then k + 1 else k in
    if negb (Z.land bin32RepTuple oc =? 0) && negb (Z.land ut32 oc =? 0) then
      sel ← sel.[j <- k]; Ok (sel, j + 1, k, Z.shiftr oc 1)
    else Ok (sel, j, k, Z.shiftr oc 1)) (selTuple, 0, 0, MLB32);
  Ok selTuple.

Definition CreateBinTuple (selTuple : list Z) (numDims : Z) : res Z :=
  for_range 0 numDims (fun i t => x ← selTuple.[i]; SetOneBit t (x - 1)) 0.

(** ** The pool of views *)

Record JOB_POOL := Job { grpb : Z; job_nv : Z; nRows : Z; job_viewOffset : Z }.
Record LAYER := Layer { layerIndex : Z; layerQuantityLimit : Z; layerCurrentPopulation : Z }.

(** The rest of [ADC_VIEW_CNTL] that computing all views uses, without the
    log file; [avp] is the part that computing one view uses. *)
Record cube := Cube {
  avp : cntl;
  jpp : list JOB_POOL;
  lpp : list LAYER;
  groupby : Z;
  parBinRepTuple : Z;
  viewOffset : Z;
  accViewFileOffset : Z;
  totchs : list Z;
  viewSizesFile : list (Z * Z);
  totalViewFileSize : Z;
  numberOfMadeViews : Z;
  numberOfViewsMadeFromInput : Z
}.

Definition with_avp c a := Cube a (jpp c) (lpp c) (groupby c) (parBinRepTuple c) (viewOffset c) (accViewFileOffset c)
  (totchs c) (viewSizesFile c) (totalViewFileSize c) (numberOfMadeViews c) (numberOfViewsMadeFromInput c).
Definition with_jobs c j l := Cube (avp c) j l (groupby c) (parBinRepTuple c) (viewOffset c) (accViewFileOffset c)
  (totchs c) (viewSizesFile c) (totalViewFileSize c) (numberOfMadeViews c) (numberOfViewsMadeFromInput c).
Definition with_groupby c g := Cube (avp c) (jpp c) (lpp c) g (parBinRepTuple c) (viewOffset c) (accViewFileOffset c)
  (totchs c) (viewSizesFile c) (totalViewFileSize c) (numberOfMadeViews c) (numberOfViewsMadeFromInput c).

Definition JobPoolInit (jpp : list JOB_POOL) (n : Z) : res (list JOB_POOL) :=
  for_range 0 n (fun i j => j.[i <- Job 0 0 0 0]) jpp.

(** [NewAdcViewCntl] lays the layers out one after the other. *)
Definition init_layers (lpp : list LAYER) (nd : Z) : res (list LAYER) :=
  '(_, lpp) ← for_range 1 (nd + 1) (fun i '(j, l) =>
    k ← NumOfCombsFromNbyK nd i;
    l ← l.[i <- Layer j k 0];
    Ok (u32 (j + k), l)) (1, lpp);
  Ok lpp.

Definition JobPoolUpdate (c : cube) : res cube :=
  let l := nv (avp c) in
  lay ← (lpp c).[l];
  let k := u32 (layerIndex lay + layerCurrentPopulation lay) in
  j ← (jpp c).[k <- Job (groupby c) l (nViewRows (avp c)) (accViewFileOffset c)];
  ls ← (lpp c).[l <- Layer (layerIndex lay) (layerQuantityLimit lay) (u32 (layerCurrentPopulation lay + 1))];
  Ok (with_jobs c j ls).

(** *** Parents *)

Definition smallestParent := 0.
Definition prefixedParent := 1.
Definition sharedSortParent := 2.
Definition noneParent := 3.

(** [found], the flag that no view of the layer was considered yet, and the
    least number of rows with the place of its view *)
Record search := Search { found : bool; ft : bool; best : option (Z * Z) }.

Definition consider (s : search) (rows ig : Z) : res search :=
  if ft s then Ok (Search true false (Some (rows, ig)))
  else
    match best s with
    | None => Err OutOfBounds
    | Some (m, _) => Ok (Search true false (if rows <? m then Some (rows, ig) else best s))
    end.

(** A view of the pool as smallest, prefixed and shared-sort parent *)
Definition parent_view (c : cube) (binRepTuple pfm mlo lom ig : Z) (s : search * search * search) :
    res (search * search * search) :=
  let '(sp, pf, ss) := s in
  j ← (jpp c).[ig];
  let tgrpb := grpb j in
  if Z.land (groupby c) tgrpb =? groupby c then
    sp ← consider sp (nRows j) ig;
    pf ← (if Z.land tgrpb pfm =? binRepTuple then consider pf (nRows j) ig else Ok pf);
    ss ← (if negb (Z.land tgrpb mlo =? 0) && (Z.land tgrpb lom =? 0) then consider ss (nRows j) ig else Ok ss);
    Ok (sp, pf, ss)
  else Ok (sp, pf, ss).

Definition parent_layer (c : cube) (binRepTuple pfm mlo lom level : Z) (s : search * search * search) :
    res (search * search * search) :=
  let '(sp, pf, ss) := s in
  lay ← (lpp c).[level];
  for_range 0 (layerCurrentPopulation lay)
    (fun i => parent_view c binRepTuple pfm mlo lom (u32 (layerIndex lay + i)))
    (Search (found sp) true (best sp), Search (found pf) true (best pf), Search (found ss) true (best ss)).

(** The fields that describe the parent *)
Definition with_parent (c : cube) (level : Z) (j : JOB_POOL) : cube :=
  let a := avp c in
  let a := Cntl (avp_view a) (avp_nd a) (nv a) (nTopDims a) (nInputRecs a) (nRows j)
    level (nRowsToRead a) (nViewRows a) (totalOfViewRows a) (inpRecSize a) (outRecSize a)
    (avp_memoryLimit a) (avp_tree a) (selection a) (numberOfChunks a) (chunksParams a) (fileOfChunks a) in
  Cube a (jpp c) (lpp c) (groupby c) (grpb j) (job_viewOffset j) (accViewFileOffset c)
    (totchs c) (viewSizesFile c) (totalViewFileSize c) (numberOfMadeViews c) (numberOfViewsMadeFromInput c).

Definition set_parent (c : cube) (level : Z) (s : search) : res cube :=
  '(_, ig) ← (match best s with Some p => Ok p | None => Err OutOfBounds end);
  j ← (jpp c).[ig];
  Ok (with_parent c level j).

(** The loop over the [n] layers from [level] *)
Fixpoint parent_layers (n : nat) (c : cube) (binRepTuple pfm mlo lom level : Z) (s : search * search * search) :
    res (cube * Z) :=
  match n with
  | O => Ok (c, noneParent)
  | S n =>
      '(sp, pf, ss) ← parent_layer c binRepTuple pfm mlo lom level s;
      if found pf then c ← set_parent c level pf; Ok (c, prefixedParent)
      else if found ss then c ← set_parent c level ss; Ok (c, sharedSortParent)
      else if found sp then c ← set_parent c level sp; Ok (c, smallestParent)
      else parent_layers n c binRepTuple pfm mlo lom (level + 1) (sp, pf, ss)
  end.

Definition no_search : search := Search false false None.

Definition GetParent (c : cube) (binRepTuple : Z) : res (cube * Z) :=
  l ← NumberOfOnes binRepTuple;
  m ← mro32 (groupby c);
  pfm ← setLeadingOnes32 m;
  o ← Mlo32 (groupby c);
  mlo ← SetOneBit32 0 o;
  lom ← setLeadingOnes32 o;
  parent_layers (Z.to_nat (nTopDims (avp c) + 1 - l)) c binRepTuple pfm mlo lom l (no_search, no_search, no_search).

(** The earlier versions of [GetParent] look for one kind of parent: [test] is
    what they ask of the tuple of a view that has the attributes. *)
Definition one_view (c : cube) (test : Z -> bool) (ig : Z) (s : search) : res search :=
  j ← (jpp c).[ig];
  if (Z.land (groupby c) (grpb j) =? groupby c) && test (grpb j) then consider s (nRows j) ig else Ok s.

Definition one_layer (c : cube) (test : Z -> bool) (level : Z) (s : search) : res search :=
  lay ← (lpp c).[level];
  for_range 0 (layerCurrentPopulation lay) (fun i => one_view c test (u32 (layerIndex lay + i)))
    (Search (found s) true (best s)).

Fixpoint one_layers (n : nat) (c : cube) (test : Z -> bool) (level : Z) (s : search) : res (cube * Z) :=
  match n with
  | O => Ok (c, 0)
  | S n =>
      s ← one_layer c test level s;
      if found s then c ← set_parent c level s; Ok (c, 1) else one_layers n c test (level + 1) s
  end.

Definition GetSmallestParent (c : cube) (binRepTuple : Z) : res (cube * Z) :=
  l ← NumberOfOnes binRepTuple;
  one_layers (Z.to_nat (nTopDims (avp c) + 1 - l)) c (fun _ => true) l no_search.

Definition GetPrefixedParent (c : cube) (binRepTuple : Z) : res (cube * Z) :=
  l ← NumberOfOnes binRepTuple;
  m ← mro32 (groupby c);
  tm ← setLeadingOnes32 m;
  one_layers (Z.to_nat (nTopDims (avp c) + 1 - l)) c (fun tgrpb => Z.land tgrpb tm =? binRepTuple) l no_search.

(** A tuple of four attributes, the first, the third and the fourth *)
Example ex_NumberOfOnes : NumberOfOnes 0xB000000000000000 = Ok 3.
Proof. vm_compute. reflexivity. Qed.
Example ex_tuple : GetRegTupleFromBin64 0xB000000000000000 [0; 0; 0; 0] 4 = Ok ([1; 3; 4; 0], 3).
Proof. vm_compute. reflexivity. Qed.
Example ex_parent : GetRegTupleFromParent 0x9000000000000000 0xB0000000 [0; 0; 0; 0] 4 = Ok [1; 3; 0; 0].
Proof. vm_compute. reflexivity. Qed.
Example ex_leading : (m ← mro32 0xB0000000; setLeadingOnes32 m) = Ok 0xF0000000.
Proof. vm_compute. reflexivity. Qed.
Example ex_swap : swap8 0x0123456789ABCDEF = 0xEFCDAB8967452301.
Proof. vm_compute. reflexivity. Qed.
Example ex_layers : init_layers (replicate 6 (Layer 0 0 0)) 5 =
  Ok [Layer 0 0 0; Layer 1 5 0; Layer 6 10 0; Layer 16 10 0; Layer 26 5 0; Layer 31 1 0].
Proof. vm_compute. reflexivity. Qed.
