(* ===== verification/JobBits.v ===== *)
(** * Bit tuples as lists of attributes

    A tuple stands for the increasing list of the attributes whose bits are
    set.  What the loops over the bits of [jobcntl.c] compute, in terms of
    these lists. *)

From stdpp Require Import gmap.
From S2P Require Import Prelude Rbt DataCube JobPool DataRollup.

(** ** The attributes of a tuple *)

(** [bit i] tells whether attribute [i] belongs to the tuple; attributes count
    from 1. *)
Fixpoint attrs (bit : Z -> bool) (n : nat) : list Z :=
  match n with O => [] | S k => attrs bit k ++ (if bit (Z.of_nat n) then [Z.of_nat n] else []) end.

(** The attributes of [bit], counted among those of [bitp] *)
Fixpoint ranks (bitp bit : Z -> bool) (n : nat) : list Z :=
  match n with
  | O => []
  | S k => ranks bitp bit k ++ (if bitp (Z.of_nat n) && bit (Z.of_nat n) then [zlen (attrs bitp n)] else [])
  end.

Definition bits64 (t : Z) (i : Z) : bool := Z.testbit t (64 - i).
Definition bits32 (g : Z) (i : Z) : bool := Z.testbit g (32 - i).

Lemma attrs_ext bit bit' n : (forall i, 1 <= i <= Z.of_nat n -> bit i = bit' i) -> attrs bit n = attrs bit' n.
Proof.
  induction n as [|n IH]; intros H; cbn [attrs]; [done|]. rewrite IH by (intros; apply H; lia). by rewrite H by lia.
Qed.

Lemma ranks_ext bitp bit bit' n : (forall i, 1 <= i <= Z.of_nat n -> bit i = bit' i) -> ranks bitp bit n = ranks bitp bit' n.
Proof.
  induction n as [|n IH]; intros H; cbn [ranks]; [done|]. rewrite IH by (intros; apply H; lia). by rewrite H by lia.
Qed.

Lemma attrs_range bit n : Forall (fun i => 1 <= i <= Z.of_nat n) (attrs bit n).
Proof.
  induction n as [|n IH]; cbn [attrs]; [done|]. apply Forall_app. split; [eapply Forall_impl; [|exact IH]; cbn; lia|].
  destruct (bit _); [apply list.Forall_singleton; lia | done].
Qed.

Lemma attrs_length bit n : (length (attrs bit n) <= n)%nat.
Proof.
  induction n as [|n IH]; cbn [attrs]; [done|]. rewrite length_app. destruct (bit _); cbn [length]; lia.
Qed.

Lemma attrs_none bit n : (forall i, 1 <= i <= Z.of_nat n -> bit i = false) -> attrs bit n = [].
Proof.
  induction n as [|n IH]; intros H; cbn [attrs]; [done|]. rewrite IH by (intros; apply H; lia). by rewrite H by lia.
Qed.

Lemma attrs_skip bit n m : (n <= m)%nat -> (forall i, Z.of_nat n < i <= Z.of_nat m -> bit i = false) -> attrs bit m = attrs bit n.
Proof.
  induction 1 as [|m Hm IH]; intros H; [done|]. cbn [attrs]. rewrite IH by (intros; apply H; lia).
  rewrite H by lia. apply app_nil_r.
Qed.

Lemma attrs_inj bit bit' n : attrs bit n = attrs bit' n -> forall i, 1 <= i <= Z.of_nat n -> bit i = bit' i.
Proof.
  induction n as [|n IH]; cbn [attrs]; [lia|]. intros E i Hi.
  assert (Hlast : forall b, Forall (fun i => 1 <= i <= Z.of_nat n) (attrs b n)) by (intros; apply attrs_range).
  assert (Hb : bit (Z.of_nat (S n)) = bit' (Z.of_nat (S n)) /\ attrs bit n = attrs bit' n).
  { destruct (bit (Z.of_nat (S n))), (bit' (Z.of_nat (S n))); rewrite ?app_nil_r in E.
    - by apply app_inj_tail in E as [E _].
    - exfalso. pose proof (Hlast bit') as H. rewrite <- E, Forall_app in H. destruct H as [_ H]. inversion H. lia.
    - exfalso. pose proof (Hlast bit) as H. rewrite E, Forall_app in H. destruct H as [_ H]. inversion H. lia.
    - done. }
  destruct (decide (i = Z.of_nat (S n))) as [->|]; [apply Hb|]. apply IH; [apply Hb | lia].
Qed.

Lemma attrs_elem bit n i : i ∈ attrs bit n <-> 1 <= i <= Z.of_nat n /\ bit i = true.
Proof.
  induction n as [|n IH]; cbn [attrs]; [split; [by intros H; inversion H | lia]|].
  rewrite list.elem_of_app, IH. destruct (bit (Z.of_nat (S n))) eqn:E; [rewrite list.list_elem_of_singleton|];
    (split; [intros [H | H] | intros [H1 H2]]); try (by inversion H).
  - split; [lia | apply H].
  - subst. split; [lia | done].
  - destruct (decide (i = Z.of_nat (S n))); [by right | left; split; [lia | done]].
  - split; [lia | apply H].
  - left. split; [|done]. destruct (decide (i = Z.of_nat (S n))) as [->|]; [congruence | lia].
Qed.

Lemma attrs_mono bitp bit n : (forall i, 1 <= i <= Z.of_nat n -> bit i = true -> bitp i = true) ->
  (length (attrs bit n) <= length (attrs bitp n))%nat.
Proof.
  induction n as [|n IH]; intros H; cbn [attrs]; [done|]. rewrite !length_app. specialize (IH ltac:(intros; apply H; [lia | done])).
  specialize (H (Z.of_nat (S n)) ltac:(lia)). destruct (bit _); [rewrite H by done; cbn [length]; lia | cbn [length]; lia].
Qed.

(** *** Ranks *)

Section Ranks.
Context (bitp bit : Z -> bool).

Lemma ranks_range n : Forall (fun i => 1 <= i <= zlen (attrs bitp n)) (ranks bitp bit n).
Proof.
  induction n as [|n IH]; cbn [ranks]; [done|]. apply Forall_app. split.
  - eapply Forall_impl; [|exact IH]. cbn [attrs]. intros. rewrite length_app. lia.
  - destruct (bitp (Z.of_nat (S n))) eqn:E; cbn [andb]; [|done]. destruct (bit _); [|done].
    apply list.Forall_singleton. cbn [attrs]. rewrite E, length_app. cbn [length]. lia.
Qed.

Lemma ranks_bound n : (length (ranks bitp bit n) <= n)%nat.
Proof.
  induction n as [|n IH]; cbn [ranks]; [done|]. rewrite length_app. destruct (_ && _); cbn [length]; lia.
Qed.

(** What the ranks of the attributes select from the attributes of the parent *)
Lemma compose_ranks n : (forall i, 1 <= i <= Z.of_nat n -> bit i = true -> bitp i = true) ->
  compose (attrs bitp n) (ranks bitp bit n) = attrs bit n.
Proof.
  induction n as [|n IH]; intros H; [done|]. specialize (IH ltac:(intros; apply H; [lia | done])).
  specialize (H (Z.of_nat (S n)) ltac:(lia)). cbn [ranks attrs]. unfold compose in *. rewrite map_app. f_equal.
  - rewrite <- IH. apply map_ext_in. intros i Hi. pose proof (ranks_range n) as Hr.
    rewrite List.Forall_forall in Hr. specialize (Hr i Hi). apply (zth_app_l 0). lia.
  - destruct (bitp (Z.of_nat (S n))); cbn [andb]; [|by destruct (bit _); [discriminate H|]].
    destruct (bit _); [|done]. cbn [map]. f_equal. rewrite length_app. cbn [length].
    rewrite (zth_app_r 0) by lia. replace (_ - _) with 0 by lia. done.
Qed.

Lemma ranks_length n : (forall i, 1 <= i <= Z.of_nat n -> bit i = true -> bitp i = true) ->
  length (ranks bitp bit n) = length (attrs bit n).
Proof.
  intros H. rewrite <- (compose_ranks n H). unfold compose. by rewrite length_map.
Qed.
End Ranks.

(** ** Masks *)

Section Mask.
Context (w : Z).
Hypothesis Hw : 0 < w.

(** The mask of attribute [i + 1] *)
Lemma mask_shift i : 0 <= i < w -> Z.shiftr (2 ^ (w - 1)) i = 2 ^ (w - (i + 1)).
Proof.
  intros Hi. rewrite Z.shiftr_div_pow2 by lia. replace (w - 1) with (w - (i + 1) + i) at 1 by lia.
  rewrite Z.pow_add_r by lia. apply Z.div_mul. lia.
Qed.

Lemma mask_next i : 0 <= i -> Z.shiftr (Z.shiftr (2 ^ (w - 1)) i) 1 = Z.shiftr (2 ^ (w - 1)) (i + 1).
Proof. intros. rewrite Z.shiftr_shiftr by lia. done. Qed.
End Mask.

Lemma land_pow2 s k : 0 <= k -> negb (Z.land s (2 ^ k) =? 0) = Z.testbit s k.
Proof.
  intros Hk. assert (E : Z.land s (2 ^ k) = if Z.testbit s k then 2 ^ k else 0).
  { apply Z.bits_inj'. intros i Hi. rewrite Z.land_spec. destruct (decide (i = k)) as [->|].
    - rewrite Z.pow2_bits_true by lia. destruct (Z.testbit s k); [by rewrite Z.pow2_bits_true by lia | by rewrite Z.bits_0].
    - rewrite Z.pow2_bits_false, andb_false_r by lia.
      destruct (Z.testbit s k); [by rewrite Z.pow2_bits_false by lia | by rewrite Z.bits_0]. }
  rewrite E. destruct (Z.testbit s k); [|done]. destruct (Z.eqb_spec (2 ^ k) 0) as [E0|]; [|done].
  pose proof (Z.pow_pos_nonneg 2 k). lia.
Qed.

Lemma mask_testbit w s i : 0 <= i < w -> negb (Z.land s (Z.shiftr (2 ^ (w - 1)) i) =? 0) = Z.testbit s (w - (i + 1)).
Proof. intros. rewrite mask_shift by lia. apply land_pow2. lia. Qed.

Lemma land_bits a b i : 0 <= i -> Z.testbit (Z.land a b) i = Z.testbit a i && Z.testbit b i.
Proof. intros. apply Z.land_spec. Qed.

(** ** The loops over the bits *)

Lemma NumberOfOnes_ok s : NumberOfOnes s = Ok (zlen (attrs (bits64 s) 64)).
Proof.
  unfold NumberOfOnes. destruct (for_range_inv
    (fun i '(n, ob) => n = zlen (attrs (bits64 s) (Z.to_nat i)) /\ ob = Z.shiftr MLB i)
    (fun _ '(nOnes, ob) => Ok (if negb (Z.land s ob =? 0) then nOnes + 1 else nOnes, Z.shiftr ob 1)) 0 64 (0, MLB))
    as ([n ob] & -> & -> & _); [lia | done | |done].
  intros i [n ob] Hi [-> ->]. eexists. split; [reflexivity|]. change MLB with (2 ^ (64 - 1)).
  rewrite mask_testbit, mask_next by lia. replace (Z.to_nat (i + 1)) with (S (Z.to_nat i)) by lia. cbn [attrs].
  replace (Z.of_nat (S (Z.to_nat i))) with (i + 1) by lia. change (bits64 s (i + 1)) with (Z.testbit s (64 - (i + 1))). rewrite length_app.
  split; [|done]. destruct (Z.testbit _ _); cbn [length]; lia.
Qed.

Lemma get_reg_tuple_ok w t sel n : 0 <= n <= w -> n <= zlen sel -> 0 < w ->
  let l := attrs (fun i => Z.testbit t (w - i)) (Z.to_nat n) in
  get_reg_tuple (2 ^ (w - 1)) t sel n = Ok (l ++ drop (length l) sel, zlen l).
Proof.
  intros Hn Hs Hw l. unfold get_reg_tuple. destruct (for_range_inv
    (fun i '(s, j, u, oc) => let l := attrs (fun i => Z.testbit t (w - i)) (Z.to_nat i) in
      s = l ++ drop (length l) sel /\ j = zlen l /\ u = zlen l /\ oc = Z.shiftr (2 ^ (w - 1)) i)
    (fun i '(sel, j, units, oc) =>
      if negb (Z.land t oc =? 0) then
        sel ← sel.[j <- i + 1]; Ok (sel, j + 1, units + 1, Z.shiftr oc 1)
      else Ok (sel, j, units, Z.shiftr oc 1)) 0 n (sel, 0, 0, 2 ^ (w - 1)))
    as ([[[s j] u] oc] & -> & -> & _ & -> & _); [lia | done | |done].
  intros i [[[s j] u] oc] Hi (-> & -> & -> & ->). rewrite mask_testbit, mask_next by lia.
  replace (Z.to_nat (i + 1)) with (S (Z.to_nat i)) by lia. cbn zeta. cbn [attrs].
  replace (Z.of_nat (S (Z.to_nat i))) with (i + 1) by lia.
  destruct (Z.testbit t (w - (i + 1))).
  - rewrite fill_next by (pose proof (attrs_length (fun i => Z.testbit t (w - i)) (Z.to_nat i)); lia).
    cbn [mbind res_bind]. eexists. split; [reflexivity|]. rewrite length_app. cbn [length]. repeat split; lia.
  - eexists. split; [reflexivity|]. by rewrite app_nil_r.
Qed.

(** The 32-bit tuple that [ComputeGivenGroupbys] makes of the 64-bit one *)
Definition tuple32 (t nd : Z) : Z := u32 (Z.shiftl (u32 (Z.shiftr t (64 - nd))) (32 - nd)).

Lemma tuple32_bits t nd i : 1 <= nd <= 32 -> 1 <= i <= 32 ->
  bits32 (tuple32 t nd) i = (i <=? nd) && bits64 t i.
Proof.
  intros Hn Hi. unfold bits32, bits64, tuple32. rewrite unsigned_testbit by lia.
  destruct (Z.ltb_spec (32 - i) 32); [|lia]. cbn [andb]. rewrite Z.shiftl_spec by lia.
  destruct (Z.leb_spec i nd); cbn [andb]; [|by rewrite Z.testbit_neg_r by lia].
  rewrite unsigned_testbit by lia. destruct (Z.ltb_spec (32 - i - (32 - nd)) 32); [|lia]. cbn [andb].
  rewrite Z.shiftr_spec by lia. f_equal. lia.
Qed.

Lemma tuple32_range t nd : 0 <= tuple32 t nd < 2 ^ 32.
Proof. apply unsigned_range. lia. Qed.

Lemma GetRegTupleFromParent_ok t p sel nd : 1 <= nd <= 32 -> nd <= zlen sel ->
  let l := ranks (bits32 p) (bits64 t) (Z.to_nat nd) in
  GetRegTupleFromParent t p sel nd = Ok (l ++ drop (length l) sel).
Proof.
  intros Hn Hs l. unfold GetRegTupleFromParent. rewrite shr_ok, bind_Ok, shl_ok, bind_Ok by lia. fold (tuple32 t nd). destruct (for_range_inv
    (fun i '(s, j, k, oc) => let l := ranks (bits32 p) (bits64 t) (Z.to_nat i) in
      s = l ++ drop (length l) sel /\ j = zlen l /\ k = zlen (attrs (bits32 p) (Z.to_nat i)) /\
      oc = Z.shiftr MLB32 i /\ zlen l <= i)
    (fun _ '(sel, j, k, oc) =>
      if negb (Z.land p oc =? 0) && negb (Z.land (tuple32 t nd) oc =? 0) then
        sel ← sel.[j <- if negb (Z.land p oc =? 0) then k + 1 else k];
        Ok (sel, j + 1, if negb (Z.land p oc =? 0) then k + 1 else k, Z.shiftr oc 1)
      else Ok (sel, j, if negb (Z.land p oc =? 0) then k + 1 else k, Z.shiftr oc 1)) 0 nd (sel, 0, 0, MLB32))
    as ([[[s j] k] oc] & -> & -> & _); [lia | done | |done].
  intros i [[[s j] k] oc] Hi (-> & -> & -> & -> & Hl). change MLB32 with (2 ^ (32 - 1)).
  rewrite !mask_testbit, mask_next by lia. fold (bits32 p (i + 1)). fold (bits32 (tuple32 t nd) (i + 1)).
  rewrite tuple32_bits by lia. destruct (Z.leb_spec (i + 1) nd); [|lia]. cbn [andb].
  replace (Z.to_nat (i + 1)) with (S (Z.to_nat i)) by lia. cbn zeta. cbn [ranks attrs].
  replace (Z.of_nat (S (Z.to_nat i))) with (i + 1) by lia.
  destruct (bits32 p (i + 1)); cbn [andb]; [destruct (bits64 t (i + 1))|].
  - rewrite fill_next by lia. cbn [mbind res_bind]. eexists. split; [reflexivity|].
    rewrite !length_app. cbn [length]. replace (zlen (attrs (bits32 p) (Z.to_nat i)) + 1)
      with (Z.of_nat (length (attrs (bits32 p) (Z.to_nat i)) + 1)) by lia. repeat split; lia.
  - eexists. split; [reflexivity|]. rewrite !app_nil_r, length_app. cbn [length]. repeat split; lia.
  - eexists. split; [reflexivity|]. rewrite !app_nil_r. repeat split; lia.
Qed.

(** ** Tuples of 32 bits *)

(** A tuple of [nd] attributes, left-aligned *)
Definition is_tuple (nd g : Z) : Prop := 0 <= g < 2 ^ 32 /\ forall i, nd < i <= 32 -> bits32 g i = false.

Definition ones (nd g : Z) : Z := zlen (attrs (bits32 g) (Z.to_nat nd)).

Lemma tuple32_is_tuple t nd : 1 <= nd <= 32 -> is_tuple nd (tuple32 t nd).
Proof.
  intros Hn. split; [apply tuple32_range|]. intros i Hi. rewrite tuple32_bits by lia. destruct (Z.leb_spec i nd); [lia | done].
Qed.

Lemma tuple32_attrs t nd : 1 <= nd <= 32 -> attrs (bits32 (tuple32 t nd)) (Z.to_nat nd) = attrs (bits64 t) (Z.to_nat nd).
Proof.
  intros Hn. apply attrs_ext. intros i Hi. rewrite tuple32_bits by lia. by destruct (Z.leb_spec i nd); [|lia].
Qed.

Lemma bits32_eq g g' : 0 <= g < 2 ^ 32 -> 0 <= g' < 2 ^ 32 -> (forall i, 1 <= i <= 32 -> bits32 g i = bits32 g' i) -> g = g'.
Proof.
  intros Hg Hg' H. apply Z.bits_inj'. intros i Hi. destruct (decide (i < 32)) as [Hl|Hl].
  - specialize (H (32 - i) ltac:(lia)). unfold bits32 in H. by replace (32 - (32 - i)) with i in H by lia.
  - by rewrite !(testbit_above 32) by lia.
Qed.

Lemma tuple_inj nd g g' : 0 <= nd <= 32 -> is_tuple nd g -> is_tuple nd g' ->
  attrs (bits32 g) (Z.to_nat nd) = attrs (bits32 g') (Z.to_nat nd) -> g = g'.
Proof.
  intros Hn [Hg H] [Hg' H'] E. apply bits32_eq; [done | done |]. intros i Hi.
  destruct (decide (i <= nd)); [|rewrite H, H' by lia; done]. by apply (attrs_inj _ _ _ E); lia.
Qed.

(** [(g & p) == g] *)
Lemma land_subset g p : 0 <= g < 2 ^ 32 ->
  Z.land g p = g <-> forall i, 1 <= i <= 32 -> bits32 g i = true -> bits32 p i = true.
Proof.
  intros Hg. split.
  - intros E i Hi Hb. unfold bits32 in *. rewrite <- E, Z.land_spec in Hb. by apply andb_true_iff in Hb as [_ Hb].
  - intros H. apply Z.bits_inj'. intros i Hi. rewrite Z.land_spec. destruct (decide (i < 32)) as [Hl|Hl].
    + specialize (H (32 - i) ltac:(lia)). unfold bits32 in H. replace (32 - (32 - i)) with i in H by lia.
      destruct (Z.testbit g i); [by rewrite H | done].
    + by rewrite (testbit_above 32 g) by lia.
Qed.

Lemma attrs_shift bit m n : (forall i, 1 <= i <= Z.of_nat m -> bit i = false) ->
  length (attrs bit (m + n)) = length (attrs (fun i => bit (Z.of_nat m + i)) n).
Proof.
  intros H. induction n as [|n IH]; [by rewrite Nat.add_0_r, attrs_none|]. rewrite Nat.add_succ_r. cbn [attrs].
  rewrite !length_app, IH. replace (Z.of_nat m + Z.of_nat (S n)) with (Z.of_nat (S (m + n))) by lia. by destruct (bit _).
Qed.

Lemma NumberOfOnes_tuple nd g : 0 <= nd <= 32 -> is_tuple nd g -> NumberOfOnes g = Ok (ones nd g).
Proof.
  intros Hn [Hg Ha]. rewrite NumberOfOnes_ok. unfold ones. f_equal. f_equal.
  rewrite <- (attrs_skip (bits32 g) (Z.to_nat nd) 32); [|lia | intros; apply Ha; lia].
  change 64%nat with (32 + 32)%nat. rewrite attrs_shift.
  - reflexivity.
  - intros i Hi. unfold bits64. apply (testbit_above 32); lia.
Qed.

Lemma tuple_nonzero nd g : 0 <= nd <= 32 -> is_tuple nd g -> g <> 0 -> 1 <= ones nd g <= nd.
Proof.
  intros Hn Ht H0. unfold ones. pose proof (attrs_length (bits32 g) (Z.to_nat nd)).
  destruct (attrs (bits32 g) (Z.to_nat nd)) as [|x l] eqn:E; [|cbn [length] in *; lia].
  exfalso. apply H0. apply (tuple_inj nd); [done | done | |].
  - split; [lia|]. intros. unfold bits32. apply Z.bits_0.
  - rewrite E, attrs_none; [done|]. intros. apply Z.bits_0.
Qed.

(** *** The first and the last attribute *)

Section Ends.
Context (x : Z).
Hypothesis Hx : 0 <= x < 2 ^ 32.
Hypothesis Hne : x <> 0.

Lemma some_bit : exists i, 1 <= i <= 32 /\ bits32 x i = true.
Proof.
  destruct (decide (attrs (bits32 x) 32 = [])) as [E|E].
  - exfalso. apply Hne. apply (bits32_eq x 0); [done | lia |].
    intros i Hi. rewrite (attrs_inj (bits32 x) (bits32 0) 32); [done | | lia].
    rewrite E, attrs_none; [done|]. intros. apply Z.bits_0.
  - destruct (attrs (bits32 x) 32) as [|i l] eqn:El; [done|].
    assert (Hi : i ∈ attrs (bits32 x) 32) by (rewrite El; left). apply attrs_elem in Hi as [Hi Hb]. exists i. split; [lia | done].
Qed.

Lemma Mlo32_ok : exists k, Mlo32 x = Ok k /\ 0 <= k < 32 /\ bits32 x (k + 1) = true /\
  forall i, 1 <= i <= k -> bits32 x i = false.
Proof.
  unfold Mlo32. destruct (for_range_inv
    (fun i '(k, om, stop) => (forall j, 1 <= j <= k -> bits32 x j = false) /\ 0 <= k <= i /\
       if (stop : bool) then k < 32 /\ bits32 x (k + 1) = true else k = i /\ om = Z.shiftr (2 ^ (32 - 1)) i)
    (fun _ '(k, om, stop) =>
      if (stop : bool) then Ok (k, om, stop)
      else if negb (Z.land om x =? 0) then Ok (k, om, true)
      else Ok (k + 1, Z.shiftr om 1, false)) 0 32 (0, 0x80000000, false))
    as ([[k om] stop] & -> & Hk & Hr & Hs); [lia | split; [lia|]; split; [lia | done] | |].
  - intros i [[k om] stop] Hi (Hk & Hr & Hs). destruct stop; [exists (k, om, true); split; [done|]; split; [done|]; split; [lia | done]|].
    destruct Hs as [-> ->]. rewrite Z.land_comm, mask_testbit, mask_next by lia. fold (bits32 x (i + 1)).
    destruct (bits32 x (i + 1)) eqn:E; eexists; (split; [reflexivity|]).
    + split; [done|]. split; [lia|]. by split; [lia|].
    + split; [|split; [lia | done]]. intros j Hj. destruct (decide (j = i + 1)) as [->|]; [done | apply Hk; lia].
  - cbn [mbind res_bind]. exists k. split; [done|]. destruct stop; [destruct Hs; repeat split; done || lia|].
    destruct Hs as [-> _]. destruct some_bit as (i & Hi & Hb). rewrite Hk in Hb by lia. done.
Qed.

Lemma mro32_ok : exists k, mro32 x = Ok k /\ 1 <= k <= 32 /\ bits32 x k = true /\
  forall i, k < i <= 32 -> bits32 x i = false.
Proof.
  unfold mro32. destruct (for_range_inv
    (fun i '(k, om, stop) => (forall j, k < j <= 32 -> bits32 x j = false) /\ 32 - i <= k <= 32 /\
       if (stop : bool) then 1 <= k /\ bits32 x k = true else k = 32 - i /\ (i < 32 -> om = 2 ^ i))
    (fun _ '(k, om, stop) =>
      if (stop : bool) then Ok (k, om, stop)
      else if negb (Z.land om x =? 0) then Ok (k, om, true)
      else Ok (k - 1, u32 (Z.shiftl om 1), false)) 0 32 (32, 1, false))
    as ([[k om] stop] & -> & Hk & Hr & Hs); [lia | split; [lia|]; split; [lia | done] | |].
  - intros i [[k om] stop] Hi (Hk & Hr & Hs). destruct stop; [exists (k, om, true); split; [done|]; split; [done|]; split; [lia | done]|].
    destruct Hs as [-> ->]; [|lia]. rewrite Z.land_comm, land_pow2 by lia.
    assert (E : bits32 x (32 - i) = Z.testbit x i) by (unfold bits32; f_equal; lia). rewrite <- E.
    destruct (bits32 x (32 - i)) eqn:Eb; eexists; (split; [reflexivity|]).
    + split; [done|]. split; [lia|]. by split; [lia|].
    + split; [|split; [lia|]; split; [lia|]].
      * intros j Hj. destruct (decide (j = 32 - i)) as [->|]; [done | apply Hk; lia].
      * intros Hi'. rewrite Z.shiftl_mul_pow2, <- Z.pow_add_r by lia. apply unsigned_small.
        split; [lia|]. apply Z.pow_lt_mono_r; lia.
  - cbn [mbind res_bind]. exists k. split; [done|]. destruct stop; [destruct Hs; repeat split; done || lia|].
    destruct Hs as [-> _]. destruct some_bit as (i & Hi & Hb). rewrite Hk in Hb by lia. done.
Qed.
End Ends.

Lemma setLeadingOnes32_ok n : 0 <= n <= 32 -> setLeadingOnes32 n = Ok (2 ^ 32 - 2 ^ (32 - n)).
Proof.
  intros Hn. assert (H : all_below 33 (fun n => bool_decide (setLeadingOnes32 n = Ok (2 ^ 32 - 2 ^ (32 - n)))) = true)
    by (vm_compute; reflexivity).
  apply (all_below_spec _ _ n) in H; [|lia]. by apply bool_decide_eq_true in H.
Qed.

Lemma SetOneBit32_ok s k : 0 <= k < 32 -> SetOneBit32 s k = Ok (Z.lor s (2 ^ (31 - k))).
Proof.
  intros Hk. unfold SetOneBit32. rewrite shr_ok by lia. cbn [mbind res_bind]. do 2 f_equal.
  change MLB32 with (2 ^ (32 - 1)). rewrite mask_shift by lia. f_equal. lia.
Qed.

(** ** Byte order *)

Lemma bytes_of_range n x : Forall (fun b => 0 <= b < 256) (bytes_of n x).
Proof. revert x. induction n as [|n IH]; intros x; cbn [bytes_of]; constructor; [apply Z.mod_pos_bound; lia | done]. Qed.

Lemma of_bytes_of n x : of_bytes (bytes_of n x) = x mod 256 ^ Z.of_nat n.
Proof.
  revert x. induction n as [|n IH]; intros x; [by rewrite Z.mod_1_r|]. cbn [bytes_of]. unfold of_bytes in *. cbn [foldr].
  rewrite IH. replace (Z.of_nat (S n)) with (1 + Z.of_nat n) by lia. rewrite Z.pow_add_r, Z.pow_1_r by lia.
  rewrite Z.rem_mul_r by lia. done.
Qed.

Lemma bytes_of_of_bytes l : Forall (fun b => 0 <= b < 256) l -> bytes_of (length l) (of_bytes l) = l.
Proof.
  induction 1 as [|b l Hb _ IH]; [done|]. unfold of_bytes in *. cbn [foldr length bytes_of].
  assert (E : (b + 256 * foldr (fun b x => b + 256 * x) 0 l) / 256 = foldr (fun b x => b + 256 * x) 0 l)
    by (rewrite Z.mul_comm, Z.div_add by lia; rewrite Z.div_small by lia; lia).
  rewrite E, IH. f_equal. rewrite Z.mul_comm, Z.mod_add by lia. apply Z.mod_small. lia.
Qed.

Lemma swap8_rev x : swap8 x = of_bytes (reverse (bytes_of 8 x)).
Proof. reflexivity. Qed.

Lemma swap8_involutive x : 0 <= x < 2 ^ 64 -> swap8 (swap8 x) = x.
Proof.
  intros Hx. rewrite !swap8_rev.
  assert (E : bytes_of 8 (of_bytes (reverse (bytes_of 8 x))) = reverse (bytes_of 8 x)).
  { apply (bytes_of_of_bytes (reverse (bytes_of 8 x))). apply list.Forall_reverse. apply bytes_of_range. }
  rewrite E, reverse_involutive, of_bytes_of. by apply Z.mod_small.
Qed.

Lemma of_bytes_range l : Forall (fun b => 0 <= b < 256) l -> 0 <= of_bytes l < 256 ^ zlen l.
Proof.
  induction 1 as [|b l Hb _ IH]; [done|]. unfold of_bytes in *. cbn [foldr length].
  replace (Z.of_nat (S (length l))) with (1 + zlen l) by lia. rewrite Z.pow_add_r by lia. lia.
Qed.

Lemma swap8_range x : 0 <= swap8 x < 2 ^ 64.
Proof.
  rewrite swap8_rev. pose proof (of_bytes_range (reverse (bytes_of 8 x))) as H. rewrite length_reverse in H.
  change (2 ^ 64) with (256 ^ zlen (bytes_of 8 x)). apply H. apply list.Forall_reverse. apply bytes_of_range.
Qed.

(** ** Counting from the other end *)

Lemma attrs_cons bit n : length (attrs bit (S n)) =
  ((if bit 1%Z then 1 else 0) + length (attrs (fun i => bit (i + 1)%Z) n))%nat.
Proof.
  induction n as [|n IH]; [cbn [attrs app length]; change (Z.of_nat 1) with 1; by destruct (bit 1)|]. cbn [attrs] in IH |- *. rewrite length_app in IH. rewrite !length_app.
  replace (Z.of_nat (S n) + 1) with (Z.of_nat (S (S n))) by lia.
  destruct (bit 1), (bit (Z.of_nat (S (S n)))); cbn [length]; lia.
Qed.

Lemma attrs_mirror bit n : length (attrs (fun i => bit (Z.of_nat n + 1 - i)) n) = length (attrs bit n).
Proof.
  revert bit. induction n as [|n IH]; intros bit; [done|]. rewrite attrs_cons. cbn [attrs]. rewrite length_app.
  replace (Z.of_nat (S n) + 1 - 1) with (Z.of_nat (S n)) by lia. rewrite <- (IH bit), Nat.add_comm. f_equal.
  - f_equal. apply attrs_ext. intros i Hi. f_equal. lia.
  - by destruct (bit (Z.of_nat (S n))).
Qed.
