(* ===== verification/Prefixed.v ===== *)
(** * Views from a prefix

    [PrefixedAggregate] of [extbuild.c], compiled with OPTIMIZATION: the rows
    of a parent view of which the attributes are a prefix come in the order of
    the view, so that its records are made one after the other, without the
    tree. *)

From Stdlib Require Import Sorted Permutation.
From stdpp Require Import gmap.
From S2P Require Import Prelude Rbt RbtTree Groups RbtHeap RbtInsert RbtGroup RbtWrite DataCube DataRuns DataBuffer DataMerge DataView DataRollup JobPool JobBits.

Section Aggregate.
Context (can_write : nat -> bool).

(** [fwrite] of the records of [memPool] as one item; an item of no bytes
    counts as not written. *)
Definition write_pool (v : view) (pool : list data) : view * Z :=
  if negb (zlen pool =? 0) && can_write (length (file v))
  then (View (vnm v) (mSums v) (checksums v) (file v ++ pool), ADC_OK) else (v, ADC_WRITE_FAILED).

(** [aggrBuf], [prevBuf], the [nOut] records of [memPool] and [nViewRows] *)
Record aggregation := Aggr { g_view : view; g_aggr : data; g_prev : data; g_pool : list data; g_rows : Z }.

(** The record in [aggrBuf] is complete. *)
Definition put_aggregate (nm limit : Z) (g : aggregation) : res aggregation :=
  if limit <=? zlen (g_pool g) then Err OutOfBounds
  else
    let v := g_view g in
    let pool := g_pool g ++ [g_aggr g] in
    '(s, c) ← add_row nm (u32 (zlen pool)) (g_aggr g) (mSums v, checksums v);
    Ok (Aggr (View (vnm v) s c (file v)) (g_aggr g) (g_prev g) pool (g_rows g)).

(** A row after the first *)
Definition aggregate_row (nm nv limit : Z) (currBuf : data) (g : aggregation) : res (aggregation * Z) :=
  compRes ← KeyComp (dims currBuf) (dims (g_prev g)) nv;
  g ← (if compRes =? 1 then
         g ← put_aggregate nm limit g;
         Ok (Aggr (g_view g) currBuf (g_prev g) (g_pool g) (g_rows g))
       else if compRes =? 0 then
         m ← add_measures nm (measures currBuf) (measures (g_aggr g));
         Ok (Aggr (g_view g) (Data m (dims (g_aggr g))) (g_prev g) (g_pool g) (g_rows g))
       else Err Aborted);
  if zlen (g_pool g) =? limit then
    let '(v, e) := write_pool (g_view g) (g_pool g) in
    if negb (e =? 0) then Ok (g, e)
    else Ok (Aggr v (g_aggr g) currBuf [] (u32 (g_rows g + zlen (g_pool g))), ADC_OK)
  else Ok (Aggr (g_view g) (g_aggr g) currBuf (g_pool g) (g_rows g), ADC_OK).

(** The loop over the rows *)
Fixpoint aggregate_rows (n : nat) (first : bool) (a : cntl) (limit : Z) (iof : list data) (attrs : data) (g : aggregation) :
    res (aggregation * Z) :=
  match n with
  | O => Ok (g, ADC_OK)
  | S n =>
      let '(attrs, iof) := fread_record attrs iof in
      currBuf ← SelectToView attrs (selection a) (avp_nm a) (nv a);
      '(g, e) ← (if first then Ok (Aggr (g_view g) currBuf currBuf (g_pool g) (g_rows g), ADC_OK)
                 else aggregate_row (avp_nm a) (nv a) limit currBuf g);
      if negb (e =? 0) then Ok (g, e) else aggregate_rows n false a limit iof attrs g
  end.

Definition PrefixedAggregate (a : cntl) (iof : list data) : res (cntl * Z) :=
  let zero := Data (replicate (Z.to_nat (avp_nm a)) 0) (replicate (Z.to_nat (nv a)) 0) in
  if outRecSize a =? 0 then Err Aborted
  else
    let nOutBufRecs := avp_memoryLimit a / outRecSize a in
    '(g, e) ← aggregate_rows (Z.to_nat (nRowsToRead a)) true a nOutBufRecs iof (Data [] []) (Aggr (avp_view a) zero zero [] 0);
    if negb (e =? 0) then Ok (with_view a (g_view g), e)
    else
      g ← put_aggregate (avp_nm a) nOutBufRecs g;
      let '(v, e) := write_pool (g_view g) (g_pool g) in
      if negb (e =? 0) then Ok (with_view a v, e)
      else
        let n := u32 (g_rows g + zlen (g_pool g)) in
        Ok (with_rows (with_view a v) n (u32 (totalOfViewRows a + n)), ADC_OK).

(** ** Correctness *)

(** The term of record [k]: the count starts again with every buffer. *)
Definition pool_term (limit i k m : Z) : Z := ms_term i (k mod limit) m.

(** The keys do not decrease. *)
Fixpoint ascending_from (y : data) (l : list data) : Prop :=
  match l with [] => True | x :: l => key_le y x /\ ascending_from x l end.

Definition ascending (l : list data) : Prop :=
  match l with [] => True | x :: l => ascending_from x l end.

Lemma ascending_dims y y' l : dims y' = dims y -> ascending_from y l -> ascending_from y' l.
Proof. intros E. destruct l as [|x l]; cbn [ascending_from]; [done|]. unfold key_le. by rewrite E. Qed.

Lemma write_pool_ok v pool : pool <> [] -> exists v' e, write_pool v pool = (v', e) /\
  outcome can_write e (v' = View (vnm v) (mSums v) (checksums v) (file v ++ pool)).
Proof.
  intros Hp. unfold write_pool. destruct (Z.eqb_spec (zlen pool) 0); [destruct pool; [done | cbn [length] in *; lia]|].
  cbn [negb andb]. destruct (can_write _) eqn:E; do 2 eexists; (split; [reflexivity|]); [by left | right; eauto].
Qed.

Section Steps.
Context (nm nd limit : Z) (v0 : view) (src : list data).
Hypothesis Hlimit : 1 <= limit < 2 ^ 32.
Hypothesis Hzero : forall i, 0 <= i < nm -> zth 0 (mSums v0) i = 0.
Hypothesis Hzeroc : forall i, 0 <= i < nm -> zth 0 (checksums v0) i = 0.
Hypothesis Hnumber : zlen src < 2 ^ 32.
Hypothesis Hsmall : forall i, 0 <= i < nm -> zlen src * mag i src < 2 ^ 63.

(** The records [done] are in the sums. *)
Record collected (done : list data) (v : view) : Prop := {
  co_room : room nm v;
  co_sums : summed nm v0 v done;
  co_checks : checked nm (pool_term limit) v0 v 0 done
}.

(** The rows [rest] are still to come; [F] are the records in the file. *)
Record aggregated (rest : list data) (g : aggregation) (F : list data) : Prop := {
  ag_sorted : sorted ((F ++ g_pool g) ++ [g_aggr g]);
  ag_regroups : regroups nm ((F ++ g_pool g) ++ g_aggr g :: rest) src;
  ag_shaped : Forall (shaped nm nd) ((F ++ g_pool g) ++ g_aggr g :: rest);
  ag_next : ascending_from (g_aggr g) rest;
  ag_collected : collected (F ++ g_pool g) (g_view g);
  ag_file : file (g_view g) = file v0 ++ F;
  ag_rows : g_rows g = zlen F;
  ag_pool : zlen (g_pool g) < limit;
  ag_blocks : zlen F mod limit = 0;
  ag_prev : dims (g_prev g) = dims (g_aggr g)
}.

Lemma small_mag i : 0 <= i < nm -> mag i src < 2 ^ 63.
Proof.
  intros Hi. specialize (Hsmall i Hi). destruct src as [|x l]; [done|]. cbn [length] in Hsmall. pose proof (mag_nonneg i (x :: l)). nia.
Qed.

Lemma pool_term_abs i k l : Z.abs (weighted (pool_term limit i) i k l) <= zlen l * measbound.
Proof. apply weighted_bound. intros k' m. unfold pool_term. pose proof (ms_term_range i (k' mod limit) m). lia. Qed.

(** The complete record goes to the pool. *)
Lemma put_aggregate_ok rest g F : aggregated rest g F ->
  exists v, put_aggregate nm limit g = Ok (Aggr v (g_aggr g) (g_prev g) (g_pool g ++ [g_aggr g]) (g_rows g)) /\
    collected (F ++ g_pool g ++ [g_aggr g]) v /\ file v = file v0 ++ F.
Proof.
  intros [S1 S2 S3 _ [(En & Hn & Rs & Rc) [Ls Hs] [Lc Hc]] S5 S6 S7 S8 S9]. unfold put_aggregate.
  destruct (Z.leb_spec limit (zlen (g_pool g))); [lia|]. rewrite length_app. cbn [length].
  replace (u32 (Z.of_nat (length (g_pool g) + 1))) with (zlen (g_pool g) + 1) by (rewrite unsigned_small by lia; lia).
  destruct S2 as (_ & Hmag & Hlen). rewrite !app_assoc. rewrite length_app in Hlen. cbn [length] in Hlen.
  assert (Hb : forall i, 0 <= i < nm -> mag i (F ++ g_pool g) + Z.abs (meas i (g_aggr g)) <= mag i src).
  { intros i Hi. destruct (Hmag i Hi) as [H0 _]. rewrite mag_app in H0. cbn [mag foldr] in H0. pose proof (mag_nonneg i rest). unfold mag in *. lia. }
  assert (Hx : shaped nm nd (g_aggr g)) by (apply Forall_app in S3 as [_ S3]; by apply Forall_cons_1 in S3 as [? _]).
  destruct (add_row_ok nm nd (zlen (g_pool g)) (g_aggr g) (mSums (g_view g)) (checksums (g_view g))) as (s & c & E & Ls' & Lc' & Hs' & Hc');
    [done | lia | lia | done | | | | lia |].
  - intros i Hi. rewrite Hs, Hzero by done. pose proof (total_mag i (F ++ g_pool g)). specialize (Hb i Hi). pose proof (small_mag i Hi). lia.
  - intros i Hi. rewrite Hc, Hzeroc by done. pose proof (pool_term_abs i 0 (F ++ g_pool g)). unfold measbound in *. lia.
  - intros i Hi. specialize (Hb i Hi). specialize (Hsmall i Hi). pose proof (mag_nonneg i (F ++ g_pool g)). rewrite length_app in Hlen. nia.
  - rewrite E. cbn [mbind res_bind]. eexists. split; [done|]. split; [|done]. constructor.
    + repeat split; cbn [mSums checksums vnm]; lia || done.
    + split; [by cbn [mSums]; rewrite Ls'|]. intros i Hi. cbn [mSums]. rewrite Hs', Hs, (total_app i _ [_]) by done. cbn [total foldr]. lia.
    + split; [by cbn [checksums]; rewrite Lc'|]. intros i Hi. cbn [checksums]. rewrite Hc', Hc, (weighted_app _ _ _ _ [_]) by done. cbn [weighted].
      unfold pool_term at 3. rewrite Z.add_0_l, length_app, Nat2Z.inj_add, <- Zplus_mod_idemp_l, S8, Z.add_0_l, Z.mod_small by lia. lia.
Qed.

(** A row with a greater key begins a record, and one with the same key is
    added to the last. *)
Record extended (x : data) (rest : list data) (g : aggregation) (F : list data) : Prop := {
  ex_pool : zlen (g_pool g) <= limit;
  ex_sorted : sorted ((F ++ g_pool g) ++ [g_aggr g]);
  ex_regroups : regroups nm ((F ++ g_pool g) ++ g_aggr g :: rest) src;
  ex_shaped : Forall (shaped nm nd) ((F ++ g_pool g) ++ g_aggr g :: rest);
  ex_collected : collected (F ++ g_pool g) (g_view g);
  ex_file : file (g_view g) = file v0 ++ F;
  ex_rows : g_rows g = zlen F;
  ex_dims : dims (g_aggr g) = dims x
}.

Lemma begin_record x rest g F : aggregated (x :: rest) g F -> key_lt (g_aggr g) x ->
  exists v, put_aggregate nm limit g = Ok (Aggr v (g_aggr g) (g_prev g) (g_pool g ++ [g_aggr g]) (g_rows g)) /\
    extended x rest (Aggr v x (g_prev g) (g_pool g ++ [g_aggr g]) (g_rows g)) F.
Proof.
  intros A Hlt. destruct (put_aggregate_ok _ _ _ A) as (v & E & Hc & Hf). exists v. split; [done|].
  destruct A as [S1 S2 S3 _ _ _ S6 S7 _ _].
  constructor; cbn [g_pool g_aggr g_view g_rows]; rewrite ?app_assoc; try done.
  - rewrite length_app. cbn [length]. lia.
  - apply (sorted_snoc nm nd); [|done | done]. apply Forall_app in S3 as [S3 S4]. apply Forall_app. split; [done|].
    apply Forall_cons_1 in S4 as [S4 S5]. apply Forall_cons_1 in S5 as [S5 _].
    constructor; [done|]. constructor; [done | constructor].
  - by rewrite <- (app_assoc (F ++ g_pool g)).
  - by rewrite <- (app_assoc (F ++ g_pool g)).
  - by rewrite <- app_assoc.
Qed.

Lemma add_to_record x rest g F : aggregated (x :: rest) g F -> dims x = dims (g_aggr g) ->
  exists m, add_measures nm (measures x) (measures (g_aggr g)) = Ok m /\
    extended x rest (Aggr (g_view g) (Data m (dims (g_aggr g))) (g_prev g) (g_pool g) (g_rows g)) F.
Proof.
  intros [S1 S2 S3 _ S4 S5 S6 S7 _ _] Ed.
  assert (Hs : shaped nm nd (g_aggr g) /\ shaped nm nd x /\ Forall (shaped nm nd) rest).
  { apply Forall_app in S3 as [_ S3]. apply Forall_cons_1 in S3 as [? S3]. by apply Forall_cons_1 in S3 as [? ?]. }
  destruct Hs as (Hg & Hx & Hr). exists (zip_with Z.add (measures (g_aggr g)) (measures x)). split.
  - apply add_measures_ok; [apply Hg | apply Hx |].
    apply (fits_sums nm nd x [g_aggr g] Hx); [by constructor; [|constructor] | | by apply list.elem_of_cons; left | done].
    intros i Hi. pose proof (small_mag i Hi). destruct S2 as (_ & Hm & _). destruct (Hm i Hi) as [Hmi _]. rewrite mag_app in Hmi.
    cbn [mag foldr] in *. pose proof (mag_nonneg i (F ++ g_pool g)). pose proof (mag_nonneg i rest). unfold mag in *. lia.
  - change (Data (zip_with Z.add (measures (g_aggr g)) (measures x)) (dims (g_aggr g))) with (merge (g_aggr g) x).
    constructor; cbn [g_pool g_aggr g_view g_rows]; try done.
    + lia.
    + by apply (sorted_replace _ (g_aggr g)).
    + by apply (regroups_merge nm nd).
    + apply Forall_app in S3 as [S3 _]. apply Forall_app. split; [done|]. constructor; [by apply merge_shaped | done].
Qed.

Lemma collected_file L v f : collected L v -> collected L (View (vnm v) (mSums v) (checksums v) f).
Proof. intros [(R1 & R2 & R3 & R4) S C]. by repeat split; try apply S; try apply C. Qed.

Lemma aggregate_row_ok x rest g F : aggregated (x :: rest) g F ->
  exists g' e, aggregate_row nm nd limit x g = Ok (g', e) /\ outcome can_write e (exists F', aggregated rest g' F').
Proof.
  intros A. pose proof A as [S1 S2 S3 [Hle Hnext] _ _ _ S7 S8 S9].
  assert (Hs : shaped nm nd (g_aggr g) /\ shaped nm nd x).
  { apply Forall_app in S3 as [_ S3]. apply Forall_cons_1 in S3 as [? S3]. by apply Forall_cons_1 in S3 as [? ?]. }
  destruct Hs as [Hg Hx]. unfold aggregate_row. rewrite S9, KeyComp_ok by (apply Hg || apply Hx). rewrite bind_Ok.
  set (r := if cmp_int _ =? 1 then _ else _).
  assert (Hr : exists g1, r = Ok g1 /\ extended x rest g1 F).
  { unfold r. unfold key_le in Hle. rewrite key_cmp_opp in Hle. destruct (key_cmp (dims x) (dims (g_aggr g))) eqn:Ec; cbn [cmp_int Z.eqb Pos.eqb].
    - apply key_cmp_eq in Ec; [|destruct Hg, Hx; lia]. destruct (add_to_record _ _ _ _ A Ec) as (m & -> & H). eauto.
    - done.
    - assert (Hlt : key_lt (g_aggr g) x) by (unfold key_lt; by rewrite key_cmp_opp, Ec).
      destruct (begin_record _ _ _ _ A Hlt) as (v & -> & H). eauto. }
  destruct Hr as (g1 & -> & [E1 E2 E3 E4 E5 E6 E7 E8]). rewrite bind_Ok.
  destruct (Z.eqb_spec (zlen (g_pool g1)) limit) as [Hfull|].
  - destruct (write_pool_ok (g_view g1) (g_pool g1)) as (v & e & -> & Ho); [intros E; rewrite E in Hfull; cbn in Hfull; lia|].
    destruct Ho as [(-> & ->) | (-> & Hw)]; cbn [Z.eqb negb ADC_OK ADC_WRITE_FAILED]; do 2 eexists; (split; [reflexivity|]);
      [left | by right].
    split; [done|]. exists (F ++ g_pool g1). pose proof (proj2 (proj2 E3)) as G3. rewrite !length_app in G3. cbn [length] in G3.
    constructor; cbn [g_pool g_aggr g_view g_rows g_prev file]; rewrite ?app_nil_r; try done.
    + by apply (ascending_dims x).
    + by apply collected_file.
    + by rewrite E6, app_assoc.
    + rewrite E7, unsigned_small, length_app by lia. lia.
    + cbn [length]. lia.
    + rewrite length_app, Nat2Z.inj_add, Hfull, <- Zplus_mod_idemp_l, S8, Z.add_0_l. by apply Z_mod_same_full.
  - do 2 eexists. split; [reflexivity|]. left. split; [done|]. exists F. constructor; cbn [g_pool g_aggr g_view g_rows g_prev]; try done.
    + by apply (ascending_dims x).
    + lia.
Qed.
Lemma aggregate_rows_ok a rows tail : avp_nm a = nm -> nv a = nd -> selects (selection a) (avp_nd a) (nv a) -> 0 <= nm ->
  Forall (shaped nm (avp_nd a)) rows -> forall g F attrs, aggregated (map (project (selection a) nm nd) rows) g F ->
  exists g' e, aggregate_rows (length rows) false a limit (rows ++ tail) attrs g = Ok (g', e) /\
    outcome can_write e (exists F', aggregated [] g' F').
Proof.
  intros Em Ev Hsel Hm. induction 1 as [|x rows Hx Hr IH]; intros g F attrs A; cbn [length aggregate_rows map app] in *.
  - exists g, ADC_OK. split; [done|]. left. eauto.
  - cbn [fread_record]. rewrite Em. destruct (SelectToView_ok x (selection a) nm (avp_nd a) (nv a) Hm Hx Hsel) as [-> _].
    rewrite bind_Ok, Ev. destruct (aggregate_row_ok _ _ _ _ A) as (g1 & e & -> & Ho). rewrite bind_Ok.
    destruct Ho as [(-> & F1 & A1) | (-> & Hw)]; cbn [Z.eqb negb ADC_OK ADC_WRITE_FAILED]; [by apply (IH g1 F1)|].
    do 2 eexists. split; [reflexivity|]. by right.
Qed.
End Steps.

(** *** The view *)

(** What the aggregation needs of the control block *)
Record prefix_ok (a : cntl) (rows : list data) : Prop := {
  px_record : 0 < outRecSize a <= avp_memoryLimit a;
  px_memory : avp_memoryLimit a < 2 ^ 32;
  px_sel : selects (selection a) (avp_nd a) (nv a);
  px_room : room (avp_nm a) (avp_view a);
  px_sums i : 0 <= i < avp_nm a -> zth 0 (mSums (avp_view a)) i = 0;
  px_checks i : 0 <= i < avp_nm a -> zth 0 (checksums (avp_view a)) i = 0;
  px_read : nRowsToRead a = zlen rows;
  px_some : rows <> [];
  px_number : zlen rows < 2 ^ 32;
  px_shaped : Forall (shaped (avp_nm a) (avp_nd a)) rows;
  px_small i : 0 <= i < avp_nm a -> zlen rows * mag i rows < 2 ^ 63;
  px_order : ascending (map (project (selection a) (avp_nm a) (nv a)) rows)
}.

(** The view [l] is in the file. *)
Record prefix_view (a a' : cntl) (rows l : list data) : Prop := {
  pv_sorted : sorted l;
  pv_groups : groups l = groups (map (project (selection a) (avp_nm a) (nv a)) rows);
  pv_file : file (avp_view a') = file (avp_view a) ++ l;
  pv_rows : nViewRows a' = zlen l;
  pv_total : totalOfViewRows a' = u32 (totalOfViewRows a + zlen l);
  pv_sums i : 0 <= i < avp_nm a -> zth 0 (mSums (avp_view a')) i = total i rows;
  pv_checks i : 0 <= i < avp_nm a -> zth 0 (checksums (avp_view a')) i =
    weighted (pool_term (avp_memoryLimit a / outRecSize a) i) i 0 l
}.

Lemma total_project ix nm n i l : 0 <= i < nm -> total i (map (project ix nm n) l) = total i l.
Proof.
  intros Hi. induction l as [|x l IH]; cbn [map total foldr]; [done|]. unfold total in *. by rewrite IH, meas_project.
Qed.

Lemma PrefixedAggregate_ok a rows rest : prefix_ok a rows ->
  exists a' e, PrefixedAggregate a (rows ++ rest) = Ok (a', e) /\ outcome can_write e (exists l, prefix_view a a' rows l).
Proof.
  intros [[P2 P2'] P3 P4 P5 P6 P7 P8 P9 P10 P11 P12 P13].
  set (nm := avp_nm a) in *. set (proj := project (selection a) nm (nv a)) in *. set (limit := avp_memoryLimit a / outRecSize a).
  assert (Hlimit : 1 <= limit < 2 ^ 32).
  { split; [by apply Z.div_le_lower_bound; lia|]. apply Z.div_lt_upper_bound; nia. }
  assert (Hnm : 0 <= nm) by apply P5.
  assert (Hn : zlen (map proj rows) < 2 ^ 32) by (by rewrite length_map).
  assert (Hs : forall i, 0 <= i < nm -> zlen (map proj rows) * mag i (map proj rows) < 2 ^ 63).
  { intros i Hi. unfold proj. rewrite length_map, mag_project by done. by apply P12. }
  unfold PrefixedAggregate. destruct (Z.eqb_spec (outRecSize a) 0); [lia|]. fold limit nm. rewrite P8, Nat2Z.id.
  destruct rows as [|x rows]; [done|]. cbn [length app aggregate_rows fread_record].
  apply Forall_cons_1 in P11 as [Hx Hr]. fold nm. destruct (SelectToView_ok x (selection a) nm (avp_nd a) (nv a) Hnm Hx P4) as [-> Hpx].
  rewrite !bind_Ok. cbn [Z.eqb negb ADC_OK g_view g_pool g_rows]. fold proj in Hpx |- *.
  destruct (aggregate_rows_ok nm (nv a) limit (avp_view a) (map proj (x :: rows)) Hlimit P6 P7 Hn Hs a rows rest eq_refl eq_refl P4 Hnm Hr
    (Aggr (avp_view a) (proj x) (proj x) [] 0) [] x) as (g & e & -> & Ho).
  { fold proj. constructor; cbn [g_pool g_aggr g_view g_rows g_prev app length]; try done.
    - by repeat constructor.
    - change (Forall (shaped nm (nv a)) (map proj (x :: rows))). apply Forall_map. constructor; [done|].
      eapply list.Forall_impl; [exact Hr|]. intros y Hy. by apply (SelectToView_ok y (selection a) nm (avp_nd a) (nv a)).
    - split; [done | split; [done|]; intros; cbn; lia | split; [done|]; intros; cbn; lia].
    - by rewrite app_nil_r.
    - lia. }
  rewrite bind_Ok. destruct Ho as [(-> & F & A) | (-> & Hw)]; cbn [Z.eqb negb ADC_OK ADC_WRITE_FAILED].
  2: { do 2 eexists. split; [reflexivity|]. by right. }
  destruct (put_aggregate_ok nm (nv a) limit (avp_view a) (map proj (x :: rows)) Hlimit P6 P7 Hn Hs [] g F A) as (v & -> & Hc & Hf).
  rewrite bind_Ok. cbn [g_view g_pool g_rows].
  destruct (write_pool_ok v (g_pool g ++ [g_aggr g])) as (v' & e & -> & Ho); [by destruct (g_pool g)|].
  destruct Ho as [(-> & ->) | (-> & Hw)]; cbn [Z.eqb negb ADC_OK ADC_WRITE_FAILED]; do 2 eexists; (split; [reflexivity|]); [left | by right].
  split; [done|]. destruct A as [A1 (G1 & G2 & G3) A3 _ _ _ A7 _ _ _], Hc as [_ [_ C1] [_ C2]]. exists (F ++ g_pool g ++ [g_aggr g]).
  assert (El : zlen (F ++ g_pool g ++ [g_aggr g]) < 2 ^ 32) by (rewrite app_assoc; lia).
  assert (En : u32 (g_rows g + zlen (g_pool g ++ [g_aggr g])) = zlen (F ++ g_pool g ++ [g_aggr g])).
  { rewrite A7. rewrite (length_app F), Nat2Z.inj_add in El |- *. by rewrite unsigned_small by lia. }
  constructor; cbn [avp_view file mSums checksums nViewRows totalOfViewRows with_rows with_view]; rewrite ?En; try done.
  - by rewrite app_assoc.
  - by rewrite app_assoc.
  - by rewrite Hf, <- app_assoc.
  - intros i Hi. rewrite C1, P6, Z.add_0_l by done. rewrite app_assoc. destruct (G2 i Hi) as [_ ->]. by apply total_project.
  - intros i Hi. by rewrite C2, P7, Z.add_0_l by done.
Qed.
End Aggregate.

(** ** The order of a prefix *)

Lemma key_cmp_take n a b : key_cmp a b <> Gt -> key_cmp (take n a) (take n b) <> Gt.
Proof.
  revert a b. induction n as [|n IH]; intros [|x a] [|y b]; cbn [take key_cmp]; try done.
  destruct (x <? y); [done|]. destruct (y <? x); [done|]. apply IH.
Qed.

(** The selection of the first attributes *)
Lemma project_first ix nm n d x : take (Z.to_nat n) ix = seqZ 1 n -> n <= d -> shaped nm d x ->
  dims (project ix nm n x) = take (Z.to_nat n) (dims x).
Proof.
  intros Hix Hn [_ Hd]. unfold project. cbn [dims]. rewrite Hix. destruct (Z.le_gt_cases n 0) as [H0|H0].
  { rewrite seqZ_nil by lia. by replace (Z.to_nat n) with O by lia. }
  apply (zth_ext 0); [rewrite length_map, length_seqZ, length_take; lia|].
  rewrite length_map, length_seqZ. intros i Hi. assert (Hin : 0 <= i < n) by lia. unfold zth at 1.
  rewrite (nth_indep _ 0 (zth 0 (dims x) (0 - 1))) by (rewrite length_map, length_seqZ; lia).
  rewrite (map_nth (fun i => zth 0 (dims x) (i - 1)) (seqZ 1 n) 0). rewrite (nth_lookup_Some (seqZ 1 n) (Z.to_nat i) 0 (i + 1)).
  - unfold zth. rewrite !nth_lookup, lookup_take_lt by lia. do 2 f_equal. lia.
  - apply lookup_seqZ. lia.
Qed.

Lemma ascending_prefix ix nm n d rows : take (Z.to_nat n) ix = seqZ 1 n -> n <= d -> Forall (shaped nm d) rows -> sorted rows ->
  ascending (map (project ix nm n) rows).
Proof.
  intros Hix Hn Hr Hs. destruct rows as [|x rows]; [done|]. cbn [map ascending]. revert x Hr Hs.
  induction rows as [|y rows IH]; intros x Hr Hs; cbn [map ascending_from]; [done|].
  apply Forall_cons_1 in Hr as [Hx Hr]. inversion Hs as [|? ? Hs' Hlt]; subst. split; [|by apply IH].
  apply Forall_cons_1 in Hlt as [Hlt _]. apply Forall_cons_1 in Hr as [Hy _]. unfold key_le.
  rewrite !(project_first ix nm n d) by done. apply key_cmp_take. unfold key_lt in Hlt. by rewrite Hlt.
Qed.

(** A prefixed parent: the attributes of the view are counted 1, 2, ... among
    those of the parent. *)
Lemma ranks_prefix bitp bit n : (forall i, 1 <= i <= Z.of_nat n -> bitp i = bit i) -> ranks bitp bit n = seqZ 1 (zlen (attrs bit n)).
Proof.
  induction n as [|n IH]; intros H; [done|]. cbn [ranks attrs]. rewrite IH by (intros; apply H; lia).
  rewrite (attrs_ext bitp bit) by (intros; apply H; lia). rewrite H by lia.
  destruct (bit (Z.of_nat (S n))); cbn [andb]; [|by rewrite !app_nil_r]. rewrite length_app. cbn [length].
  rewrite Nat2Z.inj_add, seqZ_app by lia. f_equal. change (Z.of_nat 1) with 1. rewrite (seqZ_cons _ 1), seqZ_nil by lia. f_equal. lia.
Qed.

Lemma ranks_rest bitp bit n m : (m <= n)%nat -> (forall i, Z.of_nat m < i <= Z.of_nat n -> bit i = false) ->
  ranks bitp bit n = ranks bitp bit m /\ attrs bit n = attrs bit m.
Proof.
  intros Hm. induction Hm as [|n Hm IH]; intros H; [done|]. destruct IH as [E1 E2]; [intros; apply H; lia|].
  cbn [ranks attrs]. rewrite H, andb_false_r, !app_nil_r by lia. done.
Qed.

Lemma leading_ones_bits n i : 0 <= n <= 32 -> 1 <= i <= 32 -> Z.testbit (2 ^ 32 - 2 ^ (32 - n)) (32 - i) = (i <=? n).
Proof.
  intros Hn Hi. assert (H : all_below 33 (fun n => all_below 33 (fun i =>
    (i =? 0) || eqb (Z.testbit (2 ^ 32 - 2 ^ (32 - n)) (32 - i)) (i <=? n))) = true) by (vm_compute; reflexivity).
  apply (all_below_spec _ _ n) in H; [|lia]. cbv beta in H. apply (all_below_spec _ _ i) in H; [|lia]. cbv beta in H.
  destruct (Z.eqb_spec i 0); [lia|]. by apply eqb_prop in H.
Qed.

Lemma prefixed_selection nd t p sel m tm : 1 <= nd <= 32 -> tuple32 t nd <> 0 -> mro32 (tuple32 t nd) = Ok m ->
  setLeadingOnes32 m = Ok tm -> Z.land p tm = tuple32 t nd -> nd <= zlen sel ->
  exists sel', GetRegTupleFromParent t p sel nd = Ok sel' /\
    take (Z.to_nat (ones nd (tuple32 t nd))) sel' = seqZ 1 (ones nd (tuple32 t nd)).
Proof.
  intros Hn H0 Em Et Hp Hs. destruct (mro32_ok (tuple32 t nd) (tuple32_range t nd) H0) as (m' & Em' & Hm & Hb & Hz).
  rewrite Em in Em'. injection Em' as <-. rewrite setLeadingOnes32_ok in Et by lia. injection Et as <-.
  assert (Hmn : m <= nd).
  { destruct (Z.le_gt_cases m nd); [done|]. rewrite (proj2 (tuple32_is_tuple t nd Hn)) in Hb by lia. done. }
  assert (Hbits : forall i, 1 <= i <= m -> bits32 p i = bits64 t i).
  { intros i Hi. transitivity (bits32 (tuple32 t nd) i).
    - unfold bits32. rewrite <- Hp, Z.land_spec, leading_ones_bits by lia. destruct (Z.leb_spec i m); [by rewrite andb_true_r | lia].
    - rewrite tuple32_bits by lia. destruct (Z.leb_spec i nd); [done | lia]. }
  assert (Hrest : forall i, m < i <= nd -> bits64 t i = false).
  { intros i Hi. specialize (Hz i ltac:(lia)). rewrite tuple32_bits in Hz by lia. by destruct (Z.leb_spec i nd); [|lia]. }
  rewrite GetRegTupleFromParent_ok by lia. eexists. split; [reflexivity|]. unfold ones. rewrite tuple32_attrs by lia.
  destruct (ranks_rest (bits32 p) (bits64 t) (Z.to_nat nd) (Z.to_nat m)) as [-> ->]; [lia | intros i Hi; apply Hrest; lia |].
  rewrite ranks_prefix by (intros i Hi; apply Hbits; lia). rewrite take_app_le by (rewrite length_seqZ; lia).
  apply take_ge. rewrite length_seqZ. lia.
Qed.

(** ** The property *)

(** A control block that [InitAdcViewCntl] has set up for a view of [rows] *)
Record prepared (a : cntl) (rows buffer : list data) : Prop := {
  pp_sizes : sizes_ok a;
  pp_chunks : chunked a [];
  pp_sel : selects (selection a) (avp_nd a) (nv a);
  pp_room : room (avp_nm a) (avp_view a);
  pp_sums i : 0 <= i < avp_nm a -> zth 0 (mSums (avp_view a)) i = 0;
  pp_checks i : 0 <= i < avp_nm a -> zth 0 (checksums (avp_view a)) i = 0;
  pp_memory : MAX_NUM_OF_CHUNKS * outRecSize a <= avp_memoryLimit a < 2 ^ 32;
  pp_buffer : zlen buffer = avp_memoryLimit a / outRecSize a;
  pp_read : nRowsToRead a = zlen rows;
  pp_rows : rows_ok a (avp_nd a) (nv a) rows
}.

Lemma prepared_prefix a rows buffer : prepared a rows buffer -> rows <> [] -> sorted rows ->
  take (Z.to_nat (nv a)) (selection a) = seqZ 1 (nv a) -> prefix_ok a rows.
Proof.
  intros [[S1 S2 S3 _ _] _ P3 P4 P5 P6 P7 _ P9 [R1 R2 R3 _]] Hne Hs Hix.
  assert (Hnd : nv a <= avp_nd a).
  { destruct P3 as [_ Hf]. rewrite Hix, list.Forall_forall in Hf. apply (Hf (nv a)). apply elem_of_seqZ. lia. }
  unfold MAX_NUM_OF_CHUNKS, DIM_FSZ, MSR_FSZ in *. constructor; try done; try lia.
  apply (ascending_prefix _ _ _ (avp_nd a)); done.
Qed.

(** C29: aggregating a prefixed parent in one pass is correct.  When [GetParent]
    reports a prefixed parent - [Z.land p tm] is the tuple of the view - and
    the rows are sorted, as those of a view are, [PrefixedAggregate] returns
    without undefined behaviour, never stops for a wrong order, and if no write
    fails it adds to the file the very records that the default computation by
    the tree and sorted chunks adds, with the same number of rows and sums. *)
Theorem prefixed_agrees write_chunks write_views can_write a rows rest buffer nd t p sel m tm sel' :
  prepared a rows buffer -> rows <> [] -> sorted rows ->
  1 <= nd <= 32 -> tuple32 t nd <> 0 -> mro32 (tuple32 t nd) = Ok m -> setLeadingOnes32 m = Ok tm ->
  Z.land p tm = tuple32 t nd -> nd <= zlen sel -> GetRegTupleFromParent t p sel nd = Ok sel' ->
  nv a = ones nd (tuple32 t nd) -> take (Z.to_nat (nv a)) (selection a) = take (Z.to_nat (nv a)) sel' ->
  exists a1 e, PrefixedAggregate can_write a (rows ++ rest) = Ok (a1, e) /\
    ((e = ADC_OK /\ forall a2, compute_view write_chunks write_views a (rows ++ rest) buffer = Ok (a2, ADC_OK) ->
        file (avp_view a1) = file (avp_view a2) /\ nViewRows a1 = nViewRows a2 /\ totalOfViewRows a1 = totalOfViewRows a2 /\
        forall i, 0 <= i < avp_nm a -> zth 0 (mSums (avp_view a1)) i = zth 0 (mSums (avp_view a2)) i) \/
     (e = ADC_WRITE_FAILED /\ exists k, can_write k = false)).
Proof.
  intros P Hne Hs Hn H0 Em Et Hp Hsel E Ev Hix.
  destruct (prefixed_selection nd t p sel m tm Hn H0 Em Et Hp Hsel) as (s & E' & Hseq). rewrite E in E'. injection E' as <-.
  rewrite <- Ev, <- Hix in Hseq.
  destruct (PrefixedAggregate_ok can_write a rows rest (prepared_prefix a rows buffer P Hne Hs Hseq)) as (a1 & e & E1 & Ho).
  exists a1, e. split; [done|]. destruct Ho as [(-> & l & [L1 L2 L3 L4 L5 L6 _]) | Ho]; [left | by right].
  split; [done|]. intros a2 E2. destruct P as [P1 P2 P3 P4 P5 P6 P7 P8 P9 P10].
  destruct (compute_view_ok write_chunks write_views a rows buffer P1 P2 P3 P4 P5 P6 P7 P8 P9 P10 rest) as (a3 & e & E3 & Ho).
  rewrite E2 in E3. injection E3 as <- <-. destruct Ho as [(_ & _ & l' & Q1 & Q2 & _ & Q3 & Q4 & Q5 & Q6 & _) | [? _]]; [|done].
  assert (l' = l) as -> by (apply sorted_unique; [done | done | by rewrite Q2, L2]).
  split; [by rewrite L3, Q3|]. split; [by rewrite L4, Q4|]. split; [by rewrite L5, Q5|]. intros i Hi. by rewrite L6, Q6.
Qed.

(** The view of attribute 1 from the view of the attributes 1 and 3 *)
Definition ex_prefix : cntl :=
  Cntl (View 1 [0] [0] []) 2 1 3 6 5 2 5 0 0 12 12 16384
    (Tree (TreeNode NULL NULL BLACK no_record) NULL 0 0 0 144 0 0 0 0 0 0 (replicate 64 0) (replicate 64 NULL) ∅)
    ([1] ++ replicate 19 0) 0 (replicate 1024 no_chunk) [].

Lemma ex_prepared : prepared ex_prefix DataRollup.ex_parent (replicate 1365 no_record).
Proof.
  constructor; try done.
  - split; [done|]. by repeat constructor.
  - intros i Hi. cbn in Hi. by replace i with 0 by lia.
  - intros i Hi. cbn in Hi. by replace i with 0 by lia.
  - pose proof (ex_rows_ok 5 2 2 1 DataRollup.ex_parent ltac:(lia)) as [R1 R2 R3 R4]; [by repeat constructor | done | by apply Z.leb_le |].
    by constructor.
Qed.

Example prefixed_agrees_witness : exists a1, PrefixedAggregate (fun _ => true) ex_prefix DataRollup.ex_parent = Ok (a1, ADC_OK) /\
  forall a2, compute_view (fun _ => true) (fun _ => true) ex_prefix DataRollup.ex_parent (replicate 1365 no_record) = Ok (a2, ADC_OK) ->
    file (avp_view a1) = file (avp_view a2).
Proof.
  destruct (prefixed_agrees (fun _ => true) (fun _ => true) (fun _ => true) ex_prefix DataRollup.ex_parent [] (replicate 1365 no_record)
    3 0x8000000000000000 0xA0000000 [1; 0; 0] 1 0x80000000 [1; 0; 0]) as (a1 & e & E & [(-> & H) | (_ & k & Hk)]).
  - exact ex_prepared.
  - discriminate.
  - repeat constructor.
  - lia.
  - vm_compute. discriminate.
  - reflexivity.
  - reflexivity.
  - reflexivity.
  - cbn. lia.
  - reflexivity.
  - reflexivity.
  - reflexivity.
  - exists a1. split; [exact E|]. intros a2 E2. exact (proj1 (H a2 E2)).
  - discriminate Hk.
Defined.
