(* ===== verification/JobParent.v ===== *)
(** * The pool of views and the parent of a view

    The invariant of the pool: the views that were computed are in layers by
    their number of attributes, every layer has room for all views with that
    many attributes.  [JobPoolUpdate] keeps it; [GetParent] finds a view with
    all the attributes that are asked for whenever the pool has one. *)

From stdpp Require Import gmap.
From S2P Require Import Prelude Rbt DataCube JobPool JobBits.

(** ** Combinations *)

Fixpoint choose (n k : nat) : Z :=
  match n with
  | O => match k with O => 1 | S _ => 0 end
  | S n => choose n k + match k with O => 0 | S k => choose n k end
  end.

(** The increasing lists of [k] of the attributes 1 to [n] *)
Fixpoint combs (n k : nat) : list (list Z) :=
  match n with
  | O => match k with O => [[]] | S _ => [] end
  | S n' => combs n' k ++ match k with O => [] | S k => map (fun l => l ++ [Z.of_nat n]) (combs n' k) end
  end.

Lemma combs_length n k : zlen (combs n k) = choose n k.
Proof.
  revert k. induction n as [|n IH]; intros k; cbn [combs choose]; [by destruct k|].
  rewrite length_app, Nat2Z.inj_add, IH. destruct k; [done|]. by rewrite length_map, IH.
Qed.

Lemma combs_nil n : [] ∈ combs n 0.
Proof. induction n as [|n IH]; cbn [combs]; [left|]. rewrite app_nil_r. exact IH. Qed.

Lemma attrs_combs bit n : attrs bit n ∈ combs n (length (attrs bit n)).
Proof.
  induction n as [|n IH]; cbn [attrs combs]; [left|]. rewrite list.elem_of_app. destruct (bit (Z.of_nat (S n))).
  - right. rewrite length_app, Nat.add_comm. cbn [length Nat.add]. apply list.list_elem_of_fmap. by eexists.
  - left. by rewrite app_nil_r.
Qed.

Lemma choose_nonneg n k : 0 <= choose n k.
Proof. rewrite <- combs_length. lia. Qed.

Lemma NumOfCombsFromNbyK_ok n k : 0 <= n <= MAX_NUM_OF_DIMS -> 0 <= k <= n ->
  NumOfCombsFromNbyK n k = Ok (choose (Z.to_nat n) (Z.to_nat k)).
Proof.
  intros Hn Hk. unfold MAX_NUM_OF_DIMS in Hn. assert (H : all_below 21 (fun n => all_below (S (Z.to_nat n)) (fun k =>
    bool_decide (NumOfCombsFromNbyK n k = Ok (choose (Z.to_nat n) (Z.to_nat k))))) = true) by (vm_compute; reflexivity).
  apply (all_below_spec _ _ n) in H; [|lia]. apply (all_below_spec _ _ k) in H; [|lia].
  by apply bool_decide_eq_true in H.
Qed.

(** ** Layers *)

Definition layer_size (nd l : Z) : Z := choose (Z.to_nat nd) (Z.to_nat l).

(** The place of the first view with [l] attributes *)
Definition first (nd l : Z) : Z := 1 + msum 1 l (layer_size nd).

Lemma layer_first_succ nd l : 1 <= l -> first nd (l + 1) = first nd l + layer_size nd l.
Proof. intros Hl. unfold first. rewrite msum_right by lia. cbn. lia. Qed.

Lemma layer_first_mono nd l l' : 1 <= l <= l' -> 1 <= first nd l <= first nd l'.
Proof.
  intros Hl. unfold first. pose proof (msum_Z_nonneg 1 l (layer_size nd)) as H.
  pose proof (msum_Z_prefix 1 l l' (layer_size nd) ltac:(lia)) as H'.
  assert (Hc : forall i, 0 <= layer_size nd i) by (intros; apply choose_nonneg).
  specialize (H ltac:(intros; apply Hc)). specialize (H' ltac:(intros; apply Hc)). lia.
Qed.

(** The layers fill the pool. *)
Lemma first_last nd : 1 <= nd <= MAX_NUM_OF_DIMS -> first nd (nd + 1) = 2 ^ nd.
Proof.
  intros Hn. unfold MAX_NUM_OF_DIMS in Hn.
  assert (H : all_below 21 (fun nd => (nd =? 0) || (first nd (nd + 1) =? 2 ^ nd)) = true) by (vm_compute; reflexivity).
  apply (all_below_spec _ _ nd) in H; [|lia]. cbn beta in H.
  destruct (Z.eqb_spec nd 0); [lia|]. by apply Z.eqb_eq in H.
Qed.

Lemma in_layer nd l i : 1 <= nd <= MAX_NUM_OF_DIMS -> 1 <= l <= nd -> 0 <= i < layer_size nd l ->
  1 <= first nd l + i < 2 ^ nd /\ u32 (first nd l + i) = first nd l + i.
Proof.
  intros Hn Hl Hi. pose proof (layer_first_mono nd l l ltac:(lia)). pose proof (layer_first_mono nd (l + 1) (nd + 1) ltac:(lia)) as H'.
  rewrite first_last, layer_first_succ in H' by lia. split; [lia|]. apply unsigned_small.
  assert (2 ^ nd <= 2 ^ 32) by (apply Z.pow_le_mono_r; unfold MAX_NUM_OF_DIMS in Hn; lia). lia.
Qed.

Lemma layers_disjoint nd l l' i i' : 1 <= l -> 1 <= l' -> 0 <= i < layer_size nd l -> 0 <= i' < layer_size nd l' ->
  first nd l + i = first nd l' + i' -> l = l'.
Proof.
  intros Hl Hl' Hi Hi' E. destruct (Z.lt_trichotomy l l') as [H | [H | H]]; [|done|].
  - pose proof (layer_first_mono nd (l + 1) l' ltac:(lia)) as F. rewrite layer_first_succ in F by lia. lia.
  - pose proof (layer_first_mono nd (l' + 1) l ltac:(lia)) as F. rewrite layer_first_succ in F by lia. lia.
Qed.

Definition no_layer : LAYER := Layer 0 0 0.
Definition no_job : JOB_POOL := Job 0 0 0 0.

Lemma init_layers_ok lpp nd : 1 <= nd <= MAX_NUM_OF_DIMS -> zlen lpp = nd + 1 ->
  exists lpp', init_layers lpp nd = Ok lpp' /\ zlen lpp' = nd + 1 /\
    forall l, 1 <= l <= nd -> zth no_layer lpp' l = Layer (first nd l) (layer_size nd l) 0.
Proof.
  intros Hn Hl. unfold init_layers. destruct (for_range_inv
    (fun i '(j, ls) => j = first nd i /\ zlen ls = nd + 1 /\
      forall l, 1 <= l < i -> zth no_layer ls l = Layer (first nd l) (layer_size nd l) 0)
    (fun i '(j, l) =>
      k ← NumOfCombsFromNbyK nd i;
      l ← l.[i <- Layer j k 0];
      Ok (u32 (j + k), l)) 1 (nd + 1) (1, lpp)) as ([j ls] & -> & -> & Hls & H); [lia | by repeat split; try lia | |].
  - intros i [j ls] Hi (-> & Hls & H). rewrite NumOfCombsFromNbyK_ok by lia. cbn [mbind res_bind].
    fold (layer_size nd i). rewrite aset_ok by lia. cbn [mbind res_bind]. eexists. split; [reflexivity|].
    rewrite layer_first_succ, zlen_insert by lia. split; [|split; [done|]].
    + apply unsigned_small. rewrite <- layer_first_succ by lia. pose proof (layer_first_mono nd (i + 1) (nd + 1) ltac:(lia)) as F.
      rewrite first_last in F by lia. assert (2 ^ nd < 2 ^ 32) by (apply Z.pow_lt_mono_r; unfold MAX_NUM_OF_DIMS in Hn; lia).
      lia.
    + intros l Hl'. rewrite zth_insert by lia. destruct (Z.eqb_spec l i) as [->|]; [done|]. apply H. lia.
  - exists ls. split; [done|]. split; [done|]. intros l Hl'. apply H. lia.
Qed.

(** ** The pool *)

Definition layer (l : Z) (js : list JOB_POOL) : list JOB_POOL := filter (fun j => job_nv j = l) js.

(** [js] are the views that were computed, in order. *)
Record pool_ok (nd : Z) (jobs : list JOB_POOL) (layers : list LAYER) (js : list JOB_POOL) : Prop := {
  po_jobs : zlen jobs = 2 ^ nd;
  po_layers : zlen layers = nd + 1;
  po_layer : forall l, 1 <= l <= nd -> zth no_layer layers l = Layer (first nd l) (layer_size nd l) (zlen (layer l js));
  po_at : forall l i, 1 <= l <= nd -> 0 <= i < zlen (layer l js) ->
    zth no_job jobs (first nd l + i) = zth no_job (layer l js) i;
  po_job : Forall (fun j => is_tuple nd (grpb j) /\ grpb j <> 0 /\ job_nv j = ones nd (grpb j)) js;
  po_distinct : NoDup (map grpb js)
}.

Lemma layer_app l js js' : layer l (js ++ js') = layer l js ++ layer l js'.
Proof. apply list.filter_app. Qed.

Lemma layer_single l j : layer l [j] = if decide (job_nv j = l) then [j] else [].
Proof. unfold layer. by rewrite list.filter_cons, list.filter_nil. Qed.

Lemma layer_elem l js j : j ∈ layer l js <-> job_nv j = l /\ j ∈ js.
Proof. apply (list.list_elem_of_filter (fun j => job_nv j = l)). Qed.

(** A layer has room for its views. *)
Lemma layer_bound nd l js : 1 <= nd <= 32 ->
  Forall (fun j => is_tuple nd (grpb j) /\ grpb j <> 0 /\ job_nv j = ones nd (grpb j)) js -> NoDup (map grpb js) ->
  zlen (layer l js) <= layer_size nd l.
Proof.
  intros Hn Hj Hd. destruct (layer l js) as [|j0 r] eqn:E0.
  { pose proof (choose_nonneg (Z.to_nat nd) (Z.to_nat l)). unfold layer_size. cbn. lia. }
  assert (H0 : j0 ∈ layer l js) by (rewrite E0; left). apply layer_elem in H0 as [H0 _].
  rewrite <- E0. clear r E0. rewrite list.Forall_forall in Hj.
  set (f := fun j => attrs (bits32 (grpb j)) (Z.to_nat nd)).
  assert (N : NoDup (map f (layer l js))).
  { assert (Hsub : map grpb (layer l js) `sublist_of` map grpb js) by (apply fmap_sublist, sublist_filter).
    pose proof (sublist_NoDup _ _ Hd Hsub) as Hg. clear Hsub.
    assert (Hl : forall j, j ∈ layer l js -> is_tuple nd (grpb j))
      by (intros j Hx; apply layer_elem in Hx as [_ Hx]; by apply Hj).
    revert Hg Hl. induction (layer l js) as [|j r IH]; cbn [map]; intros Hg Hl; [constructor|].
    apply list.NoDup_cons in Hg as [Hn1 Hg]. apply list.NoDup_cons. split; [|apply IH; [done|]; intros; apply Hl; by right].
    intros Hin. apply list.list_elem_of_fmap in Hin as (j' & E & Hin). apply Hn1. apply list.list_elem_of_fmap.
    exists j'. split; [|done]. apply (tuple_inj nd); [lia | apply Hl; left | apply Hl; by right | done]. }
  assert (I : incl (map f (layer l js)) (combs (Z.to_nat nd) (Z.to_nat l))).
  { intros x Hx. apply base.list_elem_of_In. apply base.list_elem_of_In, list.list_elem_of_fmap in Hx as (j & -> & Hx).
    apply layer_elem in Hx as [Hx Hin]. destruct (Hj j Hin) as (_ & _ & Ho). unfold f.
    replace (Z.to_nat l) with (length (attrs (bits32 (grpb j)) (Z.to_nat nd))) by (unfold ones in Ho; lia).
    apply attrs_combs. }
  pose proof (NoDup_incl_length (proj1 (NoDup_ListNoDup _) N) I) as HL. rewrite length_map in HL.
  unfold layer_size. rewrite <- combs_length. lia.
Qed.

Lemma pool_init nd jobs layers : 1 <= nd <= MAX_NUM_OF_DIMS -> zlen jobs = 2 ^ nd -> zlen layers = nd + 1 ->
  (forall l, 1 <= l <= nd -> zth no_layer layers l = Layer (first nd l) (layer_size nd l) 0) -> pool_ok nd jobs layers [].
Proof. intros Hn Hj Hl H. split; try done. intros l i _ Hi. cbn in Hi. lia. constructor. Qed.

(** *** Recording a view *)

Definition new_job (c : cube) : JOB_POOL := Job (groupby c) (nv (avp c)) (nViewRows (avp c)) (accViewFileOffset c).

Lemma JobPoolUpdate_ok nd c js : 1 <= nd <= MAX_NUM_OF_DIMS -> pool_ok nd (jpp c) (lpp c) js ->
  is_tuple nd (groupby c) -> groupby c <> 0 -> nv (avp c) = ones nd (groupby c) -> groupby c ∉ map grpb js ->
  exists j l, JobPoolUpdate c = Ok (with_jobs c j l) /\ pool_ok nd j l (js ++ [new_job c]).
Proof.
  intros Hn [P1 P2 P3 P4 P5 P6] Ht H0 Hv Hnew. assert (Hnd : 1 <= nd <= 32) by (unfold MAX_NUM_OF_DIMS in Hn; lia).
  pose proof (tuple_nonzero nd (groupby c) ltac:(lia) Ht H0) as Hl. rewrite <- Hv in Hl.
  set (l := nv (avp c)) in *.
  assert (J : Forall (fun j => is_tuple nd (grpb j) /\ grpb j <> 0 /\ job_nv j = ones nd (grpb j)) (js ++ [new_job c]))
    by (apply Forall_app; split; [done|]; by apply list.Forall_singleton).
  assert (D : NoDup (map grpb (js ++ [new_job c]))).
  { rewrite map_app. apply list.NoDup_app. split; [done|]. split; [|apply list.NoDup_singleton].
    intros x Hx Hx'. apply list.list_elem_of_singleton in Hx'. by subst. }
  assert (L : forall l', layer l' (js ++ [new_job c]) = layer l' js ++ if decide (l = l') then [new_job c] else [])
    by (intros; rewrite layer_app, layer_single; done).
  assert (B : zlen (layer l js) < layer_size nd l).
  { pose proof (layer_bound nd l _ Hnd J D) as B. rewrite L, decide_True, length_app in B by done. cbn [length] in B. lia. }
  destruct (in_layer nd l (zlen (layer l js))) as [Hk Eu]; [done | done | lia |].
  unfold JobPoolUpdate. fold l. rewrite (aget_ok no_layer) by lia. rewrite bind_Ok, (P3 l) by lia.
  cbn [layerIndex layerCurrentPopulation layerQuantityLimit]. rewrite Eu, aset_ok by lia. cbn [mbind res_bind].
  rewrite aset_ok by lia. cbn [mbind res_bind]. do 2 eexists. split; [reflexivity|].
  split; rewrite ?zlen_insert; try done.
  - intros l' Hl'. rewrite zth_insert, L by lia. destruct (Z.eqb_spec l' l) as [->|].
    + rewrite decide_True, length_app by done. cbn [length]. f_equal. rewrite unsigned_small; [lia|].
      assert (2 ^ nd <= 2 ^ 32) by (apply Z.pow_le_mono_r; lia). pose proof (layer_first_mono nd l l). lia.
    + rewrite decide_False, app_nil_r by done. by apply P3.
  - intros l' i Hl' Hi. rewrite L in Hi |- *.
    assert (Hi' : 0 <= i < layer_size nd l').
    { pose proof (layer_bound nd l' _ Hnd J D) as B'. rewrite L in B'. lia. }
    rewrite zth_insert by (rewrite ?P1; destruct (in_layer nd l' i); lia || done).
    destruct (Z.eqb_spec (first nd l' + i) (first nd l + zlen (layer l js))) as [E|E].
    + assert (l' = l) as -> by (eapply layers_disjoint; [| | | |exact E]; lia). assert (i = zlen (layer l js)) as -> by lia.
      rewrite decide_True, zth_app_r, Z.sub_diag by done || lia. done.
    + assert (Hi2 : i < zlen (layer l' js)).
      { destruct (decide (l = l')) as [<-|]; rewrite length_app in Hi; cbn [length] in Hi; [|lia].
        destruct (decide (i = zlen (layer l js))) as [->|]; [done | lia]. }
      rewrite zth_app_l by lia. apply P4; lia.
Qed.

(** ** Parents *)

(** The view [j] has all attributes of the tuple [g]. *)
Definition covers (g : Z) (j : JOB_POOL) : Prop := Z.land g (grpb j) = g.
#[export] Instance covers_dec g j : Decision (covers g j).
Proof. unfold covers. solve_decision. Defined.

Lemma covers_ones nd g j : 0 <= nd <= 32 -> is_tuple nd g -> covers g j -> ones nd g <= ones nd (grpb j).
Proof.
  intros Hn [Hg _] Hc. unfold ones. apply Nat2Z.inj_le. apply attrs_mono. intros i Hi Hb.
  by apply (proj1 (land_subset g (grpb j) Hg) Hc i); [lia|].
Qed.

(** What a search over the first [i] views of a layer that begins at [f] knows:
    one with the fewest rows among those with the property. *)
Definition search_ok (P : JOB_POOL -> Prop) (f : Z) (L : list JOB_POOL) (i : Z) (s : search) : Prop :=
  if found s then
    ft s = false /\ exists k, 0 <= k < i /\ best s = Some (nRows (zth no_job L k), f + k) /\ P (zth no_job L k) /\
      forall k', 0 <= k' < i -> P (zth no_job L k') -> nRows (zth no_job L k) <= nRows (zth no_job L k')
  else ft s = true /\ forall k, 0 <= k < i -> ~ P (zth no_job L k).

Section Search.
Context (P : JOB_POOL -> Prop) (f : Z) (L : list JOB_POOL).

Lemma search_restart b : search_ok P f L 0 (Search false true b).
Proof. split; [done | lia]. Qed.

Lemma search_skip i s : search_ok P f L i s -> ~ P (zth no_job L i) -> search_ok P f L (i + 1) s.
Proof.
  unfold search_ok. intros H Hn. destruct (found s).
  - destruct H as (H1 & k & Hk & Hb & Hp & Hm). split; [done|]. exists k. repeat split; try done; try lia.
    intros k' Hk' Hp'. destruct (decide (k' = i)) as [->|]; [done | apply Hm; [lia | done]].
  - destruct H as [H1 H]. split; [done|]. intros k Hk. destruct (decide (k = i)) as [->|]; [done | apply H; lia].
Qed.

Lemma consider_ok i s : 0 <= i -> search_ok P f L i s -> P (zth no_job L i) ->
  exists s', consider s (nRows (zth no_job L i)) (f + i) = Ok s' /\ search_ok P f L (i + 1) s'.
Proof.
  unfold search_ok at 1, consider. intros Hi H Hp. destruct (found s).
  - destruct H as (-> & k & Hk & -> & Hpk & Hm). eexists. split; [reflexivity|]. unfold search_ok. cbn [found ft best].
    split; [done|]. destruct (Z.ltb_spec (nRows (zth no_job L i)) (nRows (zth no_job L k))); [exists i | exists k];
      (split; [lia|]; split; [done|]; split; [done|]; intros k' Hk' Hp';
       destruct (decide (k' = i)) as [->|]; [lia | specialize (Hm k' ltac:(lia) Hp'); lia]).
  - destruct H as [-> H]. eexists. split; [reflexivity|]. unfold search_ok. cbn [found ft best]. split; [done|].
    exists i. split; [lia|]. split; [done|]. split; [done|]. intros k' Hk' Hp'.
    destruct (decide (k' = i)) as [->|]; [lia | by apply H in Hp'; lia || (exfalso; apply (H k'); [lia | done])].
Qed.

(** Both cases at once *)
Lemma consider_if i s (b : bool) : 0 <= i -> search_ok P f L i s -> (b = true <-> P (zth no_job L i)) ->
  exists s', (if b then consider s (nRows (zth no_job L i)) (f + i) else Ok s) = Ok s' /\ search_ok P f L (i + 1) s'.
Proof.
  intros Hi H Hb. destruct b; [apply consider_ok; [done | done | by apply Hb]|]. exists s. split; [done|].
  apply search_skip; [done|]. intros Hp. by apply Hb in Hp.
Qed.
End Search.

Section Parent.
Context (nd : Z) (c : cube) (js : list JOB_POOL) (pfm mlo lom : Z).
Hypothesis Hnd : 1 <= nd <= MAX_NUM_OF_DIMS.
Hypothesis Htop : nTopDims (avp c) = nd.
Hypothesis Hpool : pool_ok nd (jpp c) (lpp c) js.
Let g := groupby c.
Hypothesis Hg : is_tuple nd g.
Hypothesis Hg0 : g <> 0.

Let prefixed (j : JOB_POOL) : Prop := covers g j /\ Z.land (grpb j) pfm = g.
Let shared (j : JOB_POOL) : Prop := covers g j /\ Z.land (grpb j) mlo <> 0 /\ Z.land (grpb j) lom = 0.

Definition searches_ok (l i : Z) (s : search * search * search) : Prop :=
  let '(sp, pf, ss) := s in
  search_ok (covers g) (first nd l) (layer l js) i sp /\ search_ok prefixed (first nd l) (layer l js) i pf /\
  search_ok shared (first nd l) (layer l js) i ss.

Lemma job_at l i : 1 <= l <= nd -> 0 <= i < zlen (layer l js) ->
  (jpp c).[u32 (first nd l + i)] = Ok (zth no_job (layer l js) i).
Proof.
  destruct Hpool as [P1 P2 P3 P4 P5 P6]. intros Hl Hi.
  pose proof (layer_bound nd l js ltac:(unfold MAX_NUM_OF_DIMS in Hnd; lia) P5 P6).
  destruct (in_layer nd l i) as [Hk ->]; [done | done | lia |].
  rewrite (aget_ok no_job) by (rewrite P1; lia). by rewrite P4.
Qed.

Lemma parent_view_ok l i s : 1 <= l <= nd -> 0 <= i < zlen (layer l js) -> searches_ok l i s ->
  exists s', parent_view c g pfm mlo lom (u32 (first nd l + i)) s = Ok s' /\ searches_ok l (i + 1) s'.
Proof.
  intros Hl Hi Hs. destruct s as [[sp pf] ss], Hs as (H1 & H2 & H3). unfold parent_view.
  rewrite job_at by done. cbn [mbind res_bind]. fold g.
  assert (E : u32 (first nd l + i) = first nd l + i).
  { apply in_layer; [done | done |]. destruct Hpool as [_ _ _ _ P5 P6].
    pose proof (layer_bound nd l js ltac:(unfold MAX_NUM_OF_DIMS in Hnd; lia) P5 P6). lia. }
  rewrite E. destruct (Z.eqb_spec (Z.land g (grpb (zth no_job (layer l js) i))) g) as [Hc|Hc].
  - destruct (consider_ok _ _ _ i sp ltac:(lia) H1 Hc) as (sp' & -> & H1'). cbn [mbind res_bind].
    destruct (consider_if _ _ _ i pf (Z.land (grpb (zth no_job (layer l js) i)) pfm =? g) ltac:(lia) H2) as (pf' & -> & H2').
    { unfold prefixed. rewrite Z.eqb_eq. tauto. }
    cbn [mbind res_bind]. destruct (consider_if _ _ _ i ss (negb (Z.land (grpb (zth no_job (layer l js) i)) mlo =? 0) &&
      (Z.land (grpb (zth no_job (layer l js) i)) lom =? 0)) ltac:(lia) H3) as (ss' & -> & H3').
    { unfold shared. rewrite andb_true_iff, negb_true_iff, Z.eqb_neq, Z.eqb_eq. tauto. }
    cbn [mbind res_bind]. by exists (sp', pf', ss').
  - exists (sp, pf, ss). split; [done|]. split; [by apply search_skip|].
    split; (apply search_skip; [done|]; intros [Hc' _]; done).
Qed.

Lemma parent_layer_ok l s : 1 <= l <= nd ->
  (found (fst (fst s)) = false /\ found (snd (fst s)) = false /\ found (snd s) = false) ->
  exists s', parent_layer c g pfm mlo lom l s = Ok s' /\ searches_ok l (zlen (layer l js)) s'.
Proof.
  intros Hl Hf. destruct s as [[sp pf] ss]. cbn [fst snd] in Hf. destruct Hf as (F1 & F2 & F3).
  pose proof Hpool as [P1 P2 P3 P4 P5 P6]. unfold parent_layer. rewrite (aget_ok no_layer) by lia.
  cbn [mbind res_bind]. rewrite P3 by done. cbn [layerCurrentPopulation layerIndex].
  destruct (for_range_inv (searches_ok l) (fun i => parent_view c g pfm mlo lom (u32 (first nd l + i))) 0
    (zlen (layer l js)) (Search (found sp) true (best sp), Search (found pf) true (best pf), Search (found ss) true (best ss)))
    as (s' & E & H); [lia | | by intros; apply parent_view_ok | by exists s'].
  rewrite F1, F2, F3. repeat split; try done; lia.
Qed.
(** A parent was found: it is a view of the layer, [l], with the property, and
    has the fewest rows of those. *)
Definition parent_in (P : JOB_POOL -> Prop) (l : Z) (j : JOB_POOL) : Prop :=
  j ∈ js /\ job_nv j = l /\ P j /\ forall j', j' ∈ js -> job_nv j' = l -> P j' -> nRows j <= nRows j'.

Lemma set_parent_ok P l s : 1 <= l <= nd -> found s = true ->
  search_ok P (first nd l) (layer l js) (zlen (layer l js)) s ->
  exists j, set_parent c l s = Ok (with_parent c l j) /\ parent_in P l j.
Proof.
  intros Hl Hf Hs. unfold search_ok in Hs. rewrite Hf in Hs. destruct Hs as (_ & k & Hk & Hb & Hp & Hm).
  assert (E : u32 (first nd l + k) = first nd l + k).
  { apply in_layer; [done | done |]. destruct Hpool as [_ _ _ _ P5 P6].
    pose proof (layer_bound nd l js ltac:(unfold MAX_NUM_OF_DIMS in Hnd; lia) P5 P6). lia. }
  exists (zth no_job (layer l js) k). unfold set_parent. rewrite Hb. cbn [mbind res_bind]. rewrite <- E, job_at by done.
  split; [done|]. pose proof (zth_In no_job (layer l js) k Hk) as Hin. apply layer_elem in Hin as [H1 H2].
  split; [done|]. split; [done|]. split; [done|]. intros j' Hj' Hl' Hp'.
  destruct (In_zth no_job (layer l js) j') as (k' & Hk' & <-); [by apply layer_elem|]. by apply Hm.
Qed.

(** *** One kind of parent *)

Section One.
Context (test : Z -> bool).
Let wanted (j : JOB_POOL) : Prop := covers g j /\ test (grpb j) = true.

Lemma one_view_ok l i s : 1 <= l <= nd -> 0 <= i < zlen (layer l js) -> search_ok wanted (first nd l) (layer l js) i s ->
  exists s', one_view c test (u32 (first nd l + i)) s = Ok s' /\ search_ok wanted (first nd l) (layer l js) (i + 1) s'.
Proof.
  intros Hl Hi Hs. unfold one_view. rewrite job_at by done. cbn [mbind res_bind]. fold g.
  assert (E : u32 (first nd l + i) = first nd l + i).
  { apply in_layer; [done | done |]. destruct Hpool as [_ _ _ _ P5 P6].
    pose proof (layer_bound nd l js ltac:(unfold MAX_NUM_OF_DIMS in Hnd; lia) P5 P6). lia. }
  rewrite E. apply consider_if; [lia | done |]. unfold wanted, covers. by rewrite andb_true_iff, Z.eqb_eq.
Qed.

Lemma one_layer_ok l s : 1 <= l <= nd -> found s = false ->
  exists s', one_layer c test l s = Ok s' /\ search_ok wanted (first nd l) (layer l js) (zlen (layer l js)) s'.
Proof.
  intros Hl Hf. pose proof Hpool as [P1 P2 P3 P4 P5 P6]. unfold one_layer. rewrite (aget_ok no_layer) by lia.
  cbn [mbind res_bind]. rewrite P3 by done. cbn [layerCurrentPopulation layerIndex]. rewrite Hf.
  apply (for_range_inv (search_ok wanted (first nd l) (layer l js))); [lia | apply search_restart | by intros; apply one_view_ok].
Qed.

Lemma one_layers_ok n l s : Z.of_nat n = nd + 1 - l -> 1 <= l -> found s = false ->
  (one_layers n c test l s = Ok (c, 0) /\ forall j, j ∈ js -> l <= job_nv j <= nd -> ~ wanted j) \/
  exists l' j, one_layers n c test l s = Ok (with_parent c l' j, 1) /\ l <= l' <= nd /\ parent_in wanted l' j /\
    forall j', j' ∈ js -> l <= job_nv j' < l' -> ~ wanted j'.
Proof.
  revert l s. induction n as [|n IH]; intros l s Hn Hl Hf; [left; split; [done | lia]|].
  cbn [one_layers]. destruct (one_layer_ok l s) as (s' & -> & Hs'); [lia | done |]. cbn [mbind res_bind].
  destruct (found s') eqn:F.
  - destruct (set_parent_ok wanted l s') as (j & -> & Hj); [lia | done | done |]. cbn [mbind res_bind].
    right. exists l, j. split; [done|]. split; [lia|]. split; [done | lia].
  - assert (Hnone : forall j, j ∈ js -> job_nv j = l -> ~ wanted j).
    { unfold search_ok in Hs'. rewrite F in Hs'. destruct Hs' as [_ H1]. intros j Hj Hl'.
      destruct (In_zth no_job (layer l js) j) as (k & Hk & <-); [by apply layer_elem|]. by apply H1. }
    destruct (IH (l + 1) s') as [[-> Ho] | (l' & j & -> & Hl' & Hp & Ho)]; [lia | lia | done | left | right].
    + split; [done|]. intros j Hj Hl'. destruct (decide (job_nv j = l)); [by apply Hnone | apply Ho; [done | lia]].
    + exists l', j. split; [done|]. split; [lia|]. split; [done|]. intros j' Hj' Hl2.
      destruct (decide (job_nv j' = l)); [by apply Hnone | apply Ho; [done | lia]].
Qed.
End One.

(** The parent that [GetParent] returns, or that there is none *)
Inductive parent_found (l : Z) : cube -> Z -> Prop :=
| FoundPrefixed j : parent_in prefixed l j -> parent_found l (with_parent c l j) prefixedParent
| FoundShared j : parent_in shared l j -> parent_found l (with_parent c l j) sharedSortParent
| FoundSmallest j : parent_in (covers g) l j -> parent_found l (with_parent c l j) smallestParent.

Lemma parent_layers_ok n l s : Z.of_nat n = nd + 1 - l -> 1 <= l ->
  (found (fst (fst s)) = false /\ found (snd (fst s)) = false /\ found (snd s) = false) ->
  exists c' k, parent_layers n c g pfm mlo lom l s = Ok (c', k) /\
    ((c' = c /\ k = noneParent /\ forall j, j ∈ js -> l <= job_nv j <= nd -> ~ covers g j) \/
     (exists l', l <= l' <= nd /\ parent_found l' c' k /\
       forall j, j ∈ js -> l <= job_nv j < l' -> ~ covers g j)).
Proof.
  revert l s. induction n as [|n IH]; intros l s Hn Hl Hf.
  { exists c, noneParent. split; [done|]. left. repeat split; intros; lia. }
  cbn [parent_layers]. destruct (parent_layer_ok l s) as (s' & -> & Hs'); [lia | done |]. cbn [mbind res_bind].
  destruct s' as [[sp pf] ss], Hs' as (H1 & H2 & H3).
  destruct (found pf) eqn:F2; [|destruct (found ss) eqn:F3; [|destruct (found sp) eqn:F1]].
  - destruct (set_parent_ok prefixed l pf) as (j & -> & Hj); [lia | done | done |]. cbn [mbind res_bind].
    do 2 eexists. split; [reflexivity|]. right. exists l. split; [lia|]. split; [by constructor | lia].
  - destruct (set_parent_ok shared l ss) as (j & -> & Hj); [lia | done | done |]. cbn [mbind res_bind].
    do 2 eexists. split; [reflexivity|]. right. exists l. split; [lia|]. split; [by constructor | lia].
  - destruct (set_parent_ok (covers g) l sp) as (j & -> & Hj); [lia | done | done |]. cbn [mbind res_bind].
    do 2 eexists. split; [reflexivity|]. right. exists l. split; [lia|]. split; [by constructor | lia].
  - assert (Hnone : forall j, j ∈ js -> job_nv j = l -> ~ covers g j).
    { unfold search_ok in H1. rewrite F1 in H1. destruct H1 as [_ H1]. intros j Hj Hl'.
      destruct (In_zth no_job (layer l js) j) as (k & Hk & <-); [by apply layer_elem|]. by apply H1. }
    destruct (IH (l + 1) (sp, pf, ss)) as (c' & k & -> & Ho); [lia | lia | done |]. exists c', k. split; [done|].
    destruct Ho as [(-> & -> & Ho) | (l' & Hl' & Hp & Ho)]; [left | right].
    + repeat split; try done. intros j Hj Hl'. destruct (decide (job_nv j = l)); [by apply Hnone | apply Ho; [done | lia]].
    + exists l'. split; [lia|]. split; [done|]. intros j Hj Hl2.
      destruct (decide (job_nv j = l)); [by apply Hnone | apply Ho; [done | lia]].
Qed.
End Parent.

(** [GetParent] finds a view of the pool with all the attributes, with as few
    attributes as possible; it reports [noneParent] only if there is none. *)
Lemma GetParent_ok nd c js : 1 <= nd <= MAX_NUM_OF_DIMS -> nTopDims (avp c) = nd -> pool_ok nd (jpp c) (lpp c) js ->
  is_tuple nd (groupby c) -> groupby c <> 0 ->
  exists pfm mlo lom c' k, GetParent c (groupby c) = Ok (c', k) /\
    (m ← mro32 (groupby c); setLeadingOnes32 m) = Ok pfm /\
    ((c' = c /\ k = noneParent /\ forall j, j ∈ js -> ~ covers (groupby c) j) \/
     (exists l, 1 <= l <= nd /\ parent_found c js pfm mlo lom l c' k /\
       forall j, j ∈ js -> covers (groupby c) j -> l <= job_nv j)).
Proof.
  intros Hn Ht Hp Hg H0. pose proof Hn as Hn'. unfold MAX_NUM_OF_DIMS in Hn'. unfold GetParent.
  rewrite (NumberOfOnes_tuple nd) by (done || lia). cbn [mbind res_bind].
  destruct (mro32_ok (groupby c) (proj1 Hg) H0) as (m & -> & Hm & _). cbn [mbind res_bind].
  rewrite setLeadingOnes32_ok by lia. cbn [mbind res_bind].
  destruct (Mlo32_ok (groupby c) (proj1 Hg) H0) as (o & -> & Ho & _). cbn [mbind res_bind].
  rewrite SetOneBit32_ok, bind_Ok, setLeadingOnes32_ok, bind_Ok by lia.
  pose proof (tuple_nonzero nd (groupby c) ltac:(lia) Hg H0) as Hl.
  destruct (parent_layers_ok nd c js (2 ^ 32 - 2 ^ (32 - m)) (Z.lor 0 (2 ^ (31 - o))) (2 ^ 32 - 2 ^ (32 - o)) Hn Hp
    (Z.to_nat (nTopDims (avp c) + 1 - ones nd (groupby c))) (ones nd (groupby c)) (no_search, no_search, no_search))
    as (c' & k & E & Hc); [lia | lia | done |].
  do 5 eexists. split; [exact E|]. split; [reflexivity|].
  assert (Hcov : forall j, j ∈ js -> covers (groupby c) j -> ones nd (groupby c) <= job_nv j <= nd).
  { intros j Hj Hcv. pose proof (po_job _ _ _ _ Hp) as HJ. rewrite list.Forall_forall in HJ.
    destruct (HJ j Hj) as (Hjt & Hj0 & ->). split; [apply covers_ones | apply tuple_nonzero]; done || lia. }
  destruct Hc as [(-> & -> & Hc) | (l' & Hl' & Hp' & Hc)]; [left | right].
  - repeat split. intros j Hj Hcv. by apply (Hc j Hj); [apply Hcov|].
  - exists l'. split; [lia|]. split; [done|]. intros j Hj Hcv. specialize (Hcov j Hj Hcv).
    destruct (decide (l' <= job_nv j)); [done|]. exfalso. apply (Hc j Hj); [lia | done].
Qed.

Lemma parent_found_job c js pfm mlo lom l c' k : parent_found c js pfm mlo lom l c' k ->
  exists j, j ∈ js /\ job_nv j = l /\ covers (groupby c) j /\ c' = with_parent c l j /\ k <> noneParent.
Proof.
  intros [j (H1 & H2 & [H3 _] & _) | j (H1 & H2 & [H3 _] & _) | j (H1 & H2 & H3 & _)]; by exists j.
Qed.

(** The earlier versions: [GetSmallestParent] finds a view with all attributes
    whenever [GetParent] does, [GetPrefixedParent] one that begins with them. *)
Section Earlier.
Context (nd : Z) (c : cube) (js : list JOB_POOL).
Hypothesis Hn : 1 <= nd <= MAX_NUM_OF_DIMS.
Hypothesis Ht : nTopDims (avp c) = nd.
Hypothesis Hp : pool_ok nd (jpp c) (lpp c) js.
Hypothesis Hg : is_tuple nd (groupby c).
Hypothesis H0 : groupby c <> 0.

Lemma one_parent_ok test :
  let wanted j := covers (groupby c) j /\ test (grpb j) = true in
  exists c' k, one_layers (Z.to_nat (nTopDims (avp c) + 1 - ones nd (groupby c))) c test (ones nd (groupby c)) no_search = Ok (c', k) /\
    ((c' = c /\ k = 0 /\ forall j, j ∈ js -> ~ wanted j) \/
     exists l j, c' = with_parent c l j /\ k = 1 /\ parent_in js wanted l j /\ forall j', j' ∈ js -> wanted j' -> l <= job_nv j').
Proof.
  intros wanted. pose proof Hn as Hn'. unfold MAX_NUM_OF_DIMS in Hn'.
  pose proof (tuple_nonzero nd (groupby c) ltac:(lia) Hg H0) as Hl.
  assert (Hcov : forall j, j ∈ js -> wanted j -> ones nd (groupby c) <= job_nv j <= nd).
  { intros j Hj [Hcv _]. pose proof (po_job _ _ _ _ Hp) as HJ. rewrite list.Forall_forall in HJ.
    destruct (HJ j Hj) as (Hjt & Hj0 & ->). split; [apply covers_ones | apply tuple_nonzero]; done || lia. }
  destruct (one_layers_ok nd c js Hn Hp test (Z.to_nat (nTopDims (avp c) + 1 - ones nd (groupby c))) (ones nd (groupby c)) no_search)
    as [[-> Ho] | (l' & j & -> & Hl' & Hj & Ho)]; [lia | lia | done | |]; do 2 eexists; (split; [reflexivity|]).
  - left. split; [done|]. split; [done|]. intros j Hj Hw. by apply (Ho j Hj (Hcov j Hj Hw)).
  - right. exists l', j. split; [done|]. split; [done|]. split; [done|]. intros j' Hj' Hw. pose proof (Hcov j' Hj' Hw).
    destruct (decide (l' <= job_nv j')); [done|]. exfalso. apply (Ho j' Hj'); [lia | done].
Qed.

Lemma GetSmallestParent_ok : exists c' k, GetSmallestParent c (groupby c) = Ok (c', k) /\
  ((c' = c /\ k = 0 /\ forall j, j ∈ js -> ~ covers (groupby c) j) \/
   exists l j, c' = with_parent c l j /\ k = 1 /\ parent_in js (covers (groupby c)) l j /\
     forall j', j' ∈ js -> covers (groupby c) j' -> l <= job_nv j').
Proof.
  unfold GetSmallestParent. rewrite (NumberOfOnes_tuple nd), bind_Ok by (done || unfold MAX_NUM_OF_DIMS in Hn; lia).
  destruct (one_parent_ok (fun _ => true)) as (c' & k & -> & H). exists c', k. split; [done|].
  destruct H as [(-> & -> & H) | (l & j & -> & -> & (H1 & H2 & [H3 _] & H4) & H)]; [left | right].
  - split; [done|]. split; [done|]. intros j Hj Hc. by apply (H j Hj).
  - exists l, j. repeat split; auto.
Qed.

Lemma GetPrefixedParent_ok : exists m tm c' k, mro32 (groupby c) = Ok m /\ setLeadingOnes32 m = Ok tm /\
  GetPrefixedParent c (groupby c) = Ok (c', k) /\
  let prefixed j := covers (groupby c) j /\ Z.land (grpb j) tm = groupby c in
  ((c' = c /\ k = 0 /\ forall j, j ∈ js -> ~ prefixed j) \/
   exists l j, c' = with_parent c l j /\ k = 1 /\ parent_in js prefixed l j /\ forall j', j' ∈ js -> prefixed j' -> l <= job_nv j').
Proof.
  pose proof Hn as Hn'. unfold MAX_NUM_OF_DIMS in Hn'. unfold GetPrefixedParent. rewrite (NumberOfOnes_tuple nd), bind_Ok by (done || lia).
  destruct (mro32_ok (groupby c) (proj1 Hg) H0) as (m & -> & Hm & _). rewrite bind_Ok, setLeadingOnes32_ok, bind_Ok by lia.
  destruct (one_parent_ok (fun t => Z.land t (2 ^ 32 - 2 ^ (32 - m)) =? groupby c)) as (c' & k & -> & H).
  exists m, (2 ^ 32 - 2 ^ (32 - m)), c', k. split; [done|]. split; [by apply setLeadingOnes32_ok; lia|]. split; [done|]. cbv zeta.
  destruct H as [(-> & -> & H) | (l & j & -> & -> & (H1 & H2 & [H3 H3'%Z.eqb_eq] & H4) & H)]; [left | right].
  - split; [done|]. split; [done|]. intros j Hj [Hc E%Z.eqb_eq]. by apply (H j Hj).
  - exists l, j. split; [done|]. split; [done|]. split.
    + split; [done|]. split; [done|]. split; [done|]. intros j' Hj' Hl [Hc E%Z.eqb_eq]. by apply H4.
    + intros j' Hj' [Hc E%Z.eqb_eq]. by apply H.
Qed.
End Earlier.
