(* ===== verification/CubeLoop.v ===== *)
(** * The loop over the views

    [ComputeGivenGroupbys] of [NPB/SERIAL/DC/extbuild.c]: for every tuple of
    the file of group-bys the smallest parent is looked up among the views
    that were computed before, the view is computed from it, or from the
    input, and recorded for the views to come.

    The file of views has records of different sizes; a record is read where
    it was written, and a read that would not meet the records of a view is a
    fault.  The outcome of writing to the file of view sizes is not looked at:
    an entry that can not be written is missing from the file, which is
    otherwise as it was.  The log file is left out, and so is the verification
    of the sizes of the views at the end, see [ViewSizes.v]. *)

From Stdlib Require Import Sorted Permutation.
From stdpp Require Import gmap.
From S2P Require Import Prelude Rbt RbtTree Groups RbtHeap RbtGroup RbtWrite DataCube DataRuns DataMerge DataView DataRollup JobPool JobBits JobParent.

(** ** The file of views *)

Definition record_size (x : data) : Z := DIM_FSZ * zlen (dims x) + MSR_FSZ * zlen (measures x).

(** [fseek] to an offset in bytes *)
Fixpoint seek (f : list data) (offset : Z) : res (list data) :=
  if offset =? 0 then Ok f
  else
    match f with
    | [] => Err OutOfBounds
    | x :: f => if offset <? record_size x then Err OutOfBounds else seek f (offset - record_size x)
    end.

(** The file from the parent on: its rows have the size that is read. *)
Definition parent_file (c : cube) : res (list data) :=
  let a := avp c in
  f ← seek (file (avp_view a)) (viewOffset c);
  if forallb (fun x => record_size x =? GetRecSize (smallestParentLevel a) (avp_nm a))
       (take (Z.to_nat (nParentViewRows a)) f)
  then Ok f else Err OutOfBounds.

(** ** A turn *)

Definition with_selection (a : cntl) s := Cntl (avp_view a) (avp_nd a) (nv a) (nTopDims a) (nInputRecs a)
  (nParentViewRows a) (smallestParentLevel a) (nRowsToRead a) (nViewRows a) (totalOfViewRows a) (inpRecSize a)
  (outRecSize a) (avp_memoryLimit a) (avp_tree a) s (numberOfChunks a) (chunksParams a) (fileOfChunks a).

(** The parent, the selection in terms of its attributes, and its rows *)
Definition choose_source (c : cube) (inpf : list data) (binRepTuple ut32 : Z) (sel : list Z) :
    res (cube * bool * list Z * list data) :=
  '(c, smp) ← GetParent c ut32;
  if smp =? noneParent then Ok (c, false, sel, inpf)
  else
    sel ← GetRegTupleFromParent binRepTuple (parBinRepTuple c) sel (nTopDims (avp c));
    f ← parent_file c;
    Ok (c, true, sel, f).

(** What is recorded after a view, with the entry of the file of view sizes;
    [written] is the outcome of its [fwrite], which the code ignores. *)
Definition finish_view (written : bool) (c : cube) (selection_viewsize : Z) : res cube :=
  let a := avp c in
  acc ← chk 64 (accViewFileOffset c + u32 (nViewRows a * outRecSize a));
  tot ← for_range 0 (avp_nm a)
    (fun i t => x ← t.[i]; y ← (checksums (avp_view a)).[i]; s ← chk 64 (x + y); t.[i <- s]) (totchs c);
  Ok (Cube a (jpp c) (lpp c) (groupby c) (parBinRepTuple c) (viewOffset c) acc tot
    (if written then viewSizesFile c ++ [(selection_viewsize, nViewRows a)] else viewSizesFile c)
    (u64 (totalViewFileSize c + u32 (outRecSize a * nViewRows a))) (numberOfMadeViews c) (numberOfViewsMadeFromInput c)).

Definition count_input (c : cube) (fromParent : bool) : cube :=
  Cube (avp c) (jpp c) (lpp c) (groupby c) (parBinRepTuple c) (viewOffset c) (accViewFileOffset c)
    (totchs c) (viewSizesFile c) (totalViewFileSize c) (numberOfMadeViews c)
    (if fromParent then numberOfViewsMadeFromInput c else u32 (numberOfViewsMadeFromInput c + 1)).
Definition with_made (c : cube) (n : Z) : cube :=
  Cube (avp c) (jpp c) (lpp c) (groupby c) (parBinRepTuple c) (viewOffset c) (accViewFileOffset c)
    (totchs c) (viewSizesFile c) (totalViewFileSize c) n (numberOfViewsMadeFromInput c).

(** The outcomes of [fwrite] for the chunks of each view, for the file of
    views and for the file of view sizes, and what the memory pool holds, as records of [n] attributes, when
    the chunks of a view are merged *)
Section Loop.
Context (write_chunks : nat -> nat -> bool) (write_views write_sizes : nat -> bool) (pool : nat -> Z -> list data).

Definition cube_turn (k : nat) (c : cube) (inpf : list data) (tuple : Z) : res (cube * Z) :=
  let nd := nTopDims (avp c) in
  let binRepTuple := swap8 tuple in
  '(sel, n) ← GetRegTupleFromBin64 binRepTuple (selection (avp c)) nd;
  ut32 ← shr 64 binRepTuple (64 - nd);
  g ← shl 32 (u32 ut32) (32 - nd);
  '(c, fromParent, sel, f) ← choose_source (with_groupby c g) inpf binRepTuple g sel;
  '(a, e) ← compute_groupby (write_chunks k) write_views (with_selection (avp c) sel) n sel fromParent f (pool k n);
  if negb (e =? 0) then Ok (with_avp c a, e)
  else
    c ← JobPoolUpdate (count_input (with_avp c a) fromParent);
    c ← finish_view (write_sizes k) c (u32 ut32);
    Ok (c, ADC_OK).

(** The rest of the file of group-bys, after [k] of them *)
Fixpoint groupbys (k : nat) (c : cube) (inpf : list data) (groupbyFile : list Z) : res (cube * Z) :=
  match groupbyFile with
  | [] => Ok (with_made c (u32 (Z.of_nat k)), ADC_OK)
  | t :: groupbyFile =>
      '(c, e) ← cube_turn k c inpf t;
      if negb (e =? 0) then Ok (c, e) else groupbys (S k) c inpf groupbyFile
  end.

Definition ComputeGivenGroupbys : cube -> list data -> list Z -> res (cube * Z) := groupbys 0.
End Loop.

(** The entries, numbered from [k], that were written *)
Fixpoint kept {A} (written : nat -> bool) (k : nat) (l : list A) : list A :=
  match l with
  | [] => []
  | x :: l => if written k then x :: kept written (S k) l else kept written (S k) l
  end.

Lemma kept_snoc {A} written k (l : list A) x :
  kept written k (l ++ [x]) = if written (k + length l)%nat then kept written k l ++ [x] else kept written k l.
Proof.
  revert k. induction l as [|y l IH]; intros k; cbn [kept app length].
  - by rewrite Nat.add_0_r.
  - rewrite IH, <- Nat.add_succ_comm. by destruct (written k), (written (S k + length l)%nat).
Qed.

Lemma kept_sublist {A} written k (l : list A) : kept written k l `sublist_of` l.
Proof. revert k. induction l as [|x l IH]; intros k; cbn [kept]; [constructor|]. by destruct (written k); constructor. Qed.

Lemma kept_all {A} written k (l : list A) : (forall i, (i < k + length l)%nat -> written i = true) -> kept written k l = l.
Proof.
  revert k. induction l as [|x l IH]; intros k H; cbn [kept length] in *; [done|].
  rewrite H by lia. f_equal. apply IH. intros i Hi. apply H. lia.
Qed.

(** ** Positions in the file *)

Definition bytes (l : list data) : Z := foldr (fun x s => record_size x + s) 0 l.

Lemma bytes_app l1 l2 : bytes (l1 ++ l2) = bytes l1 + bytes l2.
Proof. induction l1 as [|x l1 IH]; cbn [app bytes foldr]; [done|]. unfold bytes in *. lia. Qed.

Lemma record_size_nonneg x : 0 <= record_size x.
Proof. unfold record_size, DIM_FSZ, MSR_FSZ. lia. Qed.

Lemma bytes_nonneg l : 0 <= bytes l.
Proof. induction l as [|x l IH]; [done|]. cbn [bytes foldr]. pose proof (record_size_nonneg x). unfold bytes in IH. lia. Qed.

Lemma seek_app l1 l2 : Forall (fun x => 0 < record_size x) l1 -> seek (l1 ++ l2) (bytes l1) = Ok l2.
Proof.
  induction 1 as [|x l1 Hx _ IH]; [by destruct l2|]. cbn [app bytes foldr seek]. fold (bytes l1).
  pose proof (bytes_nonneg l1). destruct (Z.eqb_spec (record_size x + bytes l1) 0); [lia|].
  destruct (Z.ltb_spec (record_size x + bytes l1) (record_size x)); [lia|].
  by replace (record_size x + bytes l1 - record_size x) with (bytes l1) by lia.
Qed.

Section Sizes.
Context (nm n : Z).
Hypothesis Hn : 1 <= n <= MAX_NUM_OF_DIMS.
Hypothesis Hm : 0 <= nm <= MAX_NUM_OF_MEAS.

Lemma shaped_size x : shaped nm n x -> record_size x = GetRecSize n nm.
Proof. intros [E1 E2]. unfold record_size. by rewrite GetRecSize_ok, E1, E2. Qed.

Lemma record_size_pos : 0 < GetRecSize n nm.
Proof. rewrite GetRecSize_ok by done. unfold DIM_FSZ, MSR_FSZ. lia. Qed.

Lemma shaped_bytes l : Forall (shaped nm n) l -> bytes l = zlen l * GetRecSize n nm.
Proof.
  induction 1 as [|x l Hx _ IH]; [done|]. cbn [bytes foldr length]. fold (bytes l). rewrite shaped_size, IH by done. lia.
Qed.

Lemma shaped_pos l : Forall (shaped nm n) l -> Forall (fun x => 0 < record_size x) l.
Proof. intros H. eapply list.Forall_impl; [exact H|]. intros x Hx. rewrite shaped_size by done. apply record_size_pos. Qed.

(** Fewer attributes take no more memory. *)
Lemma GetRecSize_mono n' : n <= n' <= MAX_NUM_OF_DIMS -> GetRecSize n nm <= GetRecSize n' nm.
Proof. intros H. rewrite !GetRecSize_ok by lia. unfold DIM_FSZ. lia. Qed.

Lemma node_size_mono n' : n <= n' <= MAX_NUM_OF_DIMS -> node_size n nm <= node_size n' nm.
Proof.
  intros H. assert (E : all_below 21 (fun n => all_below 21 (fun n' => all_below 5 (fun m =>
    (n =? 0) || negb (n <=? n') || (node_size n m <=? node_size n' m)))) = true) by (vm_compute; reflexivity).
  unfold MAX_NUM_OF_DIMS, MAX_NUM_OF_MEAS in *. apply (all_below_spec _ _ n) in E; [|lia].
  apply (all_below_spec _ _ n') in E; [|lia]. apply (all_below_spec _ _ nm) in E; [|lia]. cbn beta in E.
  apply Z.leb_le. destruct (Z.eqb_spec n 0), (Z.leb_spec n n'); done || lia.
Qed.
End Sizes.

(** The 32-bit tuple as the index that is written to the file of view sizes *)
Lemma tuple32_index t nd : 0 <= t < 2 ^ 64 -> 1 <= nd <= 32 ->
  u32 (Z.shiftr t (64 - nd)) = Z.shiftr (tuple32 t nd) (32 - nd).
Proof.
  intros Ht Hn. assert (Hu : 0 <= Z.shiftr t (64 - nd) < 2 ^ nd).
  { rewrite Z.shiftr_div_pow2 by lia. split; [apply Z.div_pos; lia|]. apply Z.div_lt_upper_bound; [lia|].
    rewrite <- Z.pow_add_r by lia. replace (64 - nd + nd) with 64 by lia. lia. }
  assert (2 ^ nd <= 2 ^ 32) by (apply Z.pow_le_mono_r; lia).
  unfold tuple32. rewrite (unsigned_small 32 (Z.shiftr t (64 - nd))) by lia.
  rewrite unsigned_small; [by rewrite Z.shiftr_shiftl_l, Z.sub_diag, Z.shiftl_0_r by lia|].
  rewrite Z.shiftl_mul_pow2 by lia. assert (E : 2 ^ 32 = 2 ^ nd * 2 ^ (32 - nd)) by (rewrite <- Z.pow_add_r by lia; f_equal; lia).
  rewrite E. assert (0 < 2 ^ (32 - nd)) by (apply Z.pow_pos_nonneg; lia). nia.
Qed.

(** ** The views *)

(** What the loop needs of the control block: the memory is enough for the
    views with all attributes. *)
Record cube_ok (c : cube) : Prop := {
  co_ready : ready (avp c);
  co_dims : 1 <= nTopDims (avp c) <= MAX_NUM_OF_DIMS;
  co_room : nTopDims (avp c) <= zlen (selection (avp c));
  co_node : node_size (nTopDims (avp c)) (avp_nm (avp c)) <= memoryLimit (avp_tree (avp c));
  co_merge : MAX_NUM_OF_CHUNKS * GetRecSize (nTopDims (avp c)) (avp_nm (avp c)) <= avp_memoryLimit (avp c);
  co_totals : avp_nm (avp c) <= zlen (totchs c)
}.

(** The input: its rows fit in 32 bits of bytes, its sums in 64 bits and its
    chunks in the array. *)
Record input_ok (c : cube) (rows : list data) : Prop := {
  in_shaped : Forall (shaped (avp_nm (avp c)) (nTopDims (avp c))) rows;
  in_number : zlen rows = nInputRecs (avp c);
  in_bytes : zlen rows * GetRecSize (nTopDims (avp c)) (avp_nm (avp c)) < 2 ^ 32;
  in_sums : forall i, 0 <= i < avp_nm (avp c) -> zlen rows * mag i rows < 2 ^ 63;
  in_chunks : zlen rows < (MAX_NUM_OF_CHUNKS - 1) *
    (memoryLimit (avp_tree (avp c)) / node_size (nTopDims (avp c)) (avp_nm (avp c)))
}.

(** The view of the tuple [g]: the rows of the input, projected to its
    attributes, grouped and sorted. *)
Record cube_view (nd nm : Z) (rows : list data) (g : Z) (v : list data) : Prop := {
  cv_sorted : sorted v;
  cv_groups : groups v = groups (map (project (attrs (bits32 g) (Z.to_nat nd)) nm (ones nd g)) rows);
  cv_shaped : Forall (shaped nm (ones nd g)) v;
  cv_size : zlen v <= zlen rows;
  cv_mag : forall i, 0 <= i < nm -> mag i v <= mag i rows
}.

(** The checksums of measure [i] of the views, added up; the flag tells that
    the view was computed by chunks. *)
Definition checks (nm i : Z) (vs : list (list data)) (bs : list bool) : Z :=
  foldr Z.add 0 (zip_with (fun v (b : bool) => weighted (if b then ms_term i else cs_term nm i) i 0 v) vs bs).

(** The entries of the pool for the views, the file holding [prev] before *)
Fixpoint jobs_of (nd : Z) (prev : list data) (gs : list Z) (vs : list (list data)) : list JOB_POOL :=
  match gs, vs with
  | g :: gs, v :: vs => Job g (ones nd g) (zlen v) (bytes prev) :: jobs_of nd (prev ++ v) gs vs
  | _, _ => []
  end.

Lemma jobs_of_snoc nd prev gs vs g v : length gs = length vs ->
  jobs_of nd prev (gs ++ [g]) (vs ++ [v]) = jobs_of nd prev gs vs ++ [Job g (ones nd g) (zlen v) (bytes (prev ++ concat vs))].
Proof.
  revert prev vs. induction gs as [|g' gs IH]; intros prev [|v' vs] Hl; cbn in Hl; try done.
  - cbn. by rewrite app_nil_r.
  - cbn [app jobs_of concat]. rewrite IH by lia. by rewrite <- app_assoc.
Qed.

Lemma jobs_of_grpb nd prev gs vs : length gs = length vs -> map grpb (jobs_of nd prev gs vs) = gs.
Proof.
  revert prev vs. induction gs as [|g gs IH]; intros prev [|v vs] Hl; cbn in Hl; try done.
  cbn [jobs_of map]. by rewrite IH by lia.
Qed.

(** An entry of the pool is about a view, at its place in the file. *)
Lemma jobs_of_elem nd prev gs vs j P : j ∈ jobs_of nd prev gs vs -> Forall2 P gs vs ->
  exists vs1 v vs2, vs = vs1 ++ v :: vs2 /\ P (grpb j) v /\ grpb j ∈ gs /\
    j = Job (grpb j) (ones nd (grpb j)) (zlen v) (bytes (prev ++ concat vs1)).
Proof.
  intros Hj H. revert prev Hj. induction H as [|g v gs vs Hg H IH]; intros prev Hj; cbn [jobs_of] in Hj; [inversion Hj|].
  apply list.elem_of_cons in Hj as [-> | Hj].
  - exists [], v, vs. cbn. rewrite app_nil_r. split; [done|]. split; [done|]. split; [left | done].
  - destruct (IH _ Hj) as (vs1 & v' & vs2 & -> & Hp & Hin & E). exists (v :: vs1), v', vs2. split; [done|]. split; [done|].
    split; [by right|]. rewrite E. cbn [grpb concat]. by rewrite <- app_assoc.
Qed.

Lemma checks_snoc nm i vs bs v b : length vs = length bs ->
  checks nm i (vs ++ [v]) (bs ++ [b]) = checks nm i vs bs + weighted (if b then ms_term i else cs_term nm i) i 0 v.
Proof.
  intros Hl. unfold checks. rewrite zip_with_app by done. rewrite foldr_app. cbn.
  generalize (weighted (if b then ms_term i else cs_term nm i) i 0 v). intros w.
  induction (zip_with _ vs bs) as [|x l IH]; cbn [foldr]; lia.
Qed.

Lemma checks_bound nm i vs bs : Z.abs (checks nm i vs bs) <= zlen (concat vs) * measbound.
Proof.
  revert bs. induction vs as [|v vs IH]; intros [|b bs]; cbn [checks concat]; try (rewrite ?length_app; unfold checks, measbound; cbn; lia).
  unfold checks in *. cbn [zip_with foldr]. specialize (IH bs). rewrite length_app.
  pose proof (weighted_bound (if b then ms_term i else cs_term nm i) i 0 v) as H.
  assert (Z.abs (weighted (if b then ms_term i else cs_term nm i) i 0 v) <= zlen v * measbound).
  { apply H. intros k m. destruct b; [pose proof (ms_term_range i k m); lia|].
    pose proof (cs_term_range nm i k m). lia. }
  unfold measbound in *. lia.
Qed.

(** ** The invariant *)

Definition frame (c : cube) : Z * Z * Z * Z * Z * Z * Z :=
  (nTopDims (avp c), nInputRecs (avp c), avp_nm (avp c), avp_memoryLimit (avp c), memoryLimit (avp_tree (avp c)),
   zlen (selection (avp c)), zlen (totchs c)).

Section Cube.
Context (write_chunks : nat -> nat -> bool) (write_views write_sizes : nat -> bool) (pool : nat -> Z -> list data).
Context (c0 : cube) (rows rest : list data).
Hypothesis Hc0 : cube_ok c0.
Hypothesis Hrows : input_ok c0 rows.
Let nd := nTopDims (avp c0).
Let nm := avp_nm (avp c0).
Hypothesis Hpool : forall k n, 1 <= n <= nd -> zlen (pool k n) = avp_memoryLimit (avp c0) / GetRecSize n nm.

(** The views [vs] of the tuples [gs] were computed. *)
Record cube_inv (c : cube) (gs : list Z) (vs : list (list data)) (bs : list bool) : Prop := {
  ii_ready : ready (avp c);
  ii_frame : frame c = frame c0;
  ii_jobs : pool_ok nd (jpp c) (lpp c) (jobs_of nd [] gs vs);
  ii_views : Forall2 (cube_view nd nm rows) gs vs;
  ii_file : file (avp_view (avp c)) = concat vs;
  ii_offset : accViewFileOffset c = bytes (concat vs);
  ii_flags : length bs = length vs;
  ii_totchs : forall i, 0 <= i < nm -> zth 0 (totchs c) i = checks nm i vs bs;
  ii_rows : totalOfViewRows (avp c) = u32 (zlen (concat vs));
  ii_sizes : viewSizesFile c = kept write_sizes 0 (zip_with (fun g v => (Z.shiftr g (32 - nd), zlen v)) gs vs);
  ii_bytes : totalViewFileSize c = bytes (concat vs)
}.

Lemma nd_range : 1 <= nd <= MAX_NUM_OF_DIMS.
Proof. apply Hc0. Qed.
Lemma nm_range : 0 <= nm <= MAX_NUM_OF_MEAS.
Proof. apply (co_ready _ Hc0). Qed.

Lemma frame_eq c : frame c = frame c0 -> nTopDims (avp c) = nd /\ nInputRecs (avp c) = zlen rows /\ avp_nm (avp c) = nm /\
  avp_memoryLimit (avp c) = avp_memoryLimit (avp c0) /\ memoryLimit (avp_tree (avp c)) = memoryLimit (avp_tree (avp c0)) /\
  zlen (selection (avp c)) = zlen (selection (avp c0)) /\ zlen (totchs c) = zlen (totchs c0).
Proof. unfold frame. intros [= E1 E2 E3 E4 E5 E6 E7]. rewrite (in_number _ _ Hrows). done. Qed.

(** *** The source of a view *)

(** The rows [l] of [d] attributes from which the view of [g] is computed by
    the selection [sel] *)
Record source_ok (g : Z) (sel : list Z) (d : Z) (l : list data) : Prop := {
  so_dims : 1 <= d <= nd;
  so_selects : selects sel d (ones nd g);
  so_shaped : Forall (shaped nm d) l;
  so_size : zlen l <= zlen rows;
  so_mag : forall i, 0 <= i < nm -> mag i l <= mag i rows;
  so_groups : groups (map (project sel nm (ones nd g)) l) =
    groups (map (project (attrs (bits32 g) (Z.to_nat nd)) nm (ones nd g)) rows)
}.

Lemma project_prefix l tail n x : n = zlen l -> project (l ++ tail) nm n x = project l nm n x.
Proof. intros ->. unfold project. by rewrite Nat2Z.id, take_app_length, firstn_all. Qed.

Lemma view_dims g : is_tuple nd g -> g <> 0 -> 1 <= ones nd g <= nd.
Proof.
  intros Hg H0. pose proof nd_range as Hn. apply (tuple_nonzero nd g); [unfold MAX_NUM_OF_DIMS in Hn; lia | done | done].
Qed.

Lemma source_input g tail : is_tuple nd g -> g <> 0 ->
  source_ok g (attrs (bits32 g) (Z.to_nat nd) ++ tail) nd rows.
Proof.
  intros Hg H0. pose proof nd_range. split; try done; try lia.
  - unfold selects, ones. rewrite length_app. split; [lia|]. rewrite Nat2Z.id, take_app_length.
    pose proof (attrs_range (bits32 g) (Z.to_nat nd)) as H'. by rewrite Z2Nat.id in H' by lia.
  - apply Hrows.
  - f_equal. apply map_ext. intros x. by apply project_prefix.
Qed.

(** From the view of a tuple with all the attributes *)
Lemma source_parent g p v t tail : is_tuple nd g -> g <> 0 -> is_tuple nd p -> p <> 0 -> g = tuple32 t nd ->
  Z.land g p = g -> cube_view nd nm rows p v ->
  source_ok g (ranks (bits32 p) (bits64 t) (Z.to_nat nd) ++ tail) (ones nd p) v.
Proof.
  intros Hg H0 Hp Hp0 Et Hc [V1 V2 V3 V4 V5]. pose proof nd_range as Hn.
  assert (Hn' : 1 <= nd <= 32) by (unfold MAX_NUM_OF_DIMS in Hn; lia).
  assert (Hb : forall i, 1 <= i <= Z.of_nat (Z.to_nat nd) -> bits64 t i = bits32 g i).
  { intros i Hi. rewrite Et, tuple32_bits by lia. by destruct (Z.leb_spec i nd); [|lia]. }
  rewrite (ranks_ext _ (bits64 t) (bits32 g) _ Hb).
  assert (Hs : forall i, 1 <= i <= Z.of_nat (Z.to_nat nd) -> bits32 g i = true -> bits32 p i = true).
  { intros i Hi. apply (proj1 (land_subset g p (proj1 Hg)) Hc). lia. }
  pose proof (ranks_length (bits32 p) (bits32 g) _ Hs) as Hl. pose proof (compose_ranks (bits32 p) (bits32 g) _ Hs) as Hcomp.
  set (l := ranks _ _ _) in *. assert (El : ones nd g = zlen l) by (unfold ones; lia).
  assert (Hr : Forall (fun i => 1 <= i <= ones nd p) l) by (apply ranks_range).
  split; [by apply view_dims | | done | done | done |].
  - unfold selects. rewrite El, length_app, Nat2Z.id, take_app_length. split; [lia | done].
  - rewrite (map_ext _ (project l nm (ones nd g))) by (intros; by apply project_prefix).
    rewrite <- Hcomp. apply (rollup_groups nm nd (ones nd p) (ones nd g) (attrs (bits32 p) (Z.to_nat nd)) l rows v);
      [apply Hrows | done | done | unfold ones; lia|].
    by rewrite El, Nat2Z.id, firstn_all.
Qed.

(** What [GetParent] changes: the tuple and the fields about the parent *)
Definition moved (c : cube) (g : Z) (c' : cube) : Prop :=
  c' = with_groupby c g \/ exists l j, c' = with_parent (with_groupby c g) l j.

Lemma views_positive gs vs : Forall2 (cube_view nd nm rows) gs vs -> Forall (fun g => is_tuple nd g /\ g <> 0) gs ->
  Forall (fun x => 0 < record_size x) (concat vs).
Proof.
  induction 1 as [|g v gs vs Hv _ IH]; intros Hg; cbn [concat]; [constructor|].
  apply list.Forall_cons in Hg as [[Hg Hg0] Hgs]. apply Forall_app. split; [|by apply IH].
  pose proof nd_range. pose proof (view_dims g Hg Hg0).
  apply (shaped_pos nm (ones nd g)); [lia | apply nm_range | apply Hv].
Qed.

(** The parent's part of the file *)
Lemma parent_file_ok c gs vs bs g j : cube_inv c gs vs bs -> length gs = length vs ->
  j ∈ jobs_of nd [] gs vs ->
  exists v rest', parent_file (with_parent (with_groupby c g) (job_nv j) j) = Ok (v ++ rest') /\
    cube_view nd nm rows (grpb j) v /\ nRows j = zlen v /\ job_nv j = ones nd (grpb j) /\ is_tuple nd (grpb j) /\ grpb j <> 0.
Proof.
  intros I Hl Hj. pose proof (po_job _ _ _ _ (ii_jobs _ _ _ _ I)) as HJ.
  assert (Hgs : Forall (fun g => is_tuple nd g /\ g <> 0) gs).
  { rewrite <- (jobs_of_grpb nd [] gs vs Hl). apply Forall_map. eapply list.Forall_impl; [exact HJ|]. cbn. tauto. }
  pose proof HJ as HJ'. rewrite list.Forall_forall in HJ'. destruct (HJ' j Hj) as (Ht & H0 & Hn). clear HJ'.
  destruct (jobs_of_elem _ _ _ _ _ _ Hj (ii_views _ _ _ _ I)) as (vs1 & v & vs2 & Ev & Hv & _ & Ej).
  exists v, (concat vs2). destruct (frame_eq c (ii_frame _ _ _ _ I)) as (F1 & F2 & F3 & _).
  assert (Ef : file (avp_view (avp c)) = concat vs1 ++ v ++ concat vs2)
    by (rewrite (ii_file _ _ _ _ I), Ev, concat_app; done).
  pose proof (views_positive gs vs (ii_views _ _ _ _ I) Hgs) as Hp. rewrite Ev, concat_app, Forall_app in Hp.
  unfold parent_file. cbn [avp with_parent with_groupby avp_view viewOffset smallestParentLevel nParentViewRows].
  rewrite Ef. assert (Eo : job_viewOffset j = bytes (concat vs1)) by (by rewrite Ej). rewrite Eo, seek_app by apply Hp.
  cbn [mbind res_bind]. assert (En : nRows j = zlen v) by (by rewrite Ej). rewrite En, Nat2Z.id, take_app_length.
  assert (E : forallb (fun x => record_size x =? GetRecSize (job_nv j) nm) v = true).
  { apply forallb_forall. intros x Hx. apply Z.eqb_eq. rewrite Hn. pose proof nd_range. pose proof (view_dims _ Ht H0).
    apply shaped_size; [lia | apply nm_range |]. pose proof (cv_shaped _ _ _ _ _ Hv) as Hs.
    rewrite List.Forall_forall in Hs. by apply Hs. }
  change (avp_nm _) with (avp_nm (avp c)). rewrite F3, E. done.
Qed.

Lemma choose_source_ok c gs vs bs t g tail : cube_inv c gs vs bs -> length gs = length vs ->
  g = tuple32 t nd -> g <> 0 ->
  let sel := attrs (bits32 g) (Z.to_nat nd) ++ tail in nd <= zlen sel ->
  exists c' fp sel' l rest', choose_source (with_groupby c g) (rows ++ rest) t g sel = Ok (c', fp, sel', l ++ rest') /\
    moved c g c' /\ source_ok g sel' (parent_nd (avp c') fp) l /\ zlen l = parent_rows (avp c') fp /\ zlen sel' = zlen sel.
Proof.
  intros I Hl Eg H0 sel Hsel. pose proof nd_range as Hn. assert (Hn' : 1 <= nd <= 32) by (unfold MAX_NUM_OF_DIMS in Hn; lia).
  assert (Ht : is_tuple nd g) by (rewrite Eg; by apply tuple32_is_tuple).
  destruct (frame_eq c (ii_frame _ _ _ _ I)) as (F1 & F2 & _). unfold choose_source.
  destruct (GetParent_ok nd (with_groupby c g) (jobs_of nd [] gs vs) Hn F1 (ii_jobs _ _ _ _ I) Ht H0)
    as (pfm & mlo & lom & c' & k & E & _ & Hc). cbn [groupby with_groupby] in E. rewrite E. cbn [mbind res_bind].
  destruct Hc as [(-> & -> & _) | (l & _ & Hp & _)].
  - exists (with_groupby c g), false, sel, rows, rest. split; [done|]. split; [by left|]. unfold parent_nd, parent_rows.
    cbn [avp with_groupby]. rewrite F1, F2. split; [exact (source_input g tail Ht H0) | split; reflexivity].
  - destruct (parent_found_job _ _ _ _ _ _ _ _ Hp) as (j & Hj & <- & Hcov & -> & Hk).
    destruct (Z.eqb_spec k noneParent); [contradiction|].
    destruct (parent_file_ok c gs vs bs g j I Hl Hj) as (v & rest' & Ef & Hv & Er & En & Hpt & Hp0).
    change (parBinRepTuple (with_parent _ _ j)) with (grpb j).
    change (nTopDims (avp (with_parent (with_groupby c g) (job_nv j) j))) with (nTopDims (avp c)). rewrite F1.
    rewrite GetRegTupleFromParent_ok by lia. cbn [mbind res_bind]. rewrite Ef. cbn [mbind res_bind].
    do 5 eexists. split; [reflexivity|]. split; [right; by eexists _, j|]. unfold parent_nd, parent_rows.
    cbn [avp with_parent smallestParentLevel nParentViewRows].
    split; [rewrite En; exact (source_parent g (grpb j) v t _ Ht H0 Hpt Hp0 Eg Hcov Hv)|]. split; [symmetry; exact Er|].
    rewrite length_app, length_drop. pose proof (ranks_bound (bits32 (grpb j)) (bits64 t) (Z.to_nat nd)). lia.
Qed.

Lemma moved_same c g c' : moved c g c' -> frame c' = frame c /\ (ready (avp c) -> ready (avp c')) /\
  avp_view (avp c') = avp_view (avp c) /\ totalOfViewRows (avp c') = totalOfViewRows (avp c) /\ groupby c' = g /\
  jpp c' = jpp c /\ lpp c' = lpp c /\ accViewFileOffset c' = accViewFileOffset c /\ totchs c' = totchs c /\
  viewSizesFile c' = viewSizesFile c /\ totalViewFileSize c' = totalViewFileSize c.
Proof. intros [-> | (l & j & ->)]; repeat (split; [done|]); try done; split; [by intros []; split | done]. Qed.

(** *** After a view *)

Lemma finish_view_ok w c s : avp_nm (avp c) <= zlen (totchs c) -> ready (avp c) ->
  0 <= accViewFileOffset c + u32 (nViewRows (avp c) * outRecSize (avp c)) < 2 ^ 63 ->
  (forall i, 0 <= i < avp_nm (avp c) ->
    Z.abs (zth 0 (totchs c) i + zth 0 (checksums (avp_view (avp c))) i) < 2 ^ 63) ->
  exists tot, finish_view w c s = Ok (Cube (avp c) (jpp c) (lpp c) (groupby c) (parBinRepTuple c) (viewOffset c)
      (accViewFileOffset c + u32 (nViewRows (avp c) * outRecSize (avp c))) tot
      (if w then viewSizesFile c ++ [(s, nViewRows (avp c))] else viewSizesFile c)
      (u64 (totalViewFileSize c + u32 (outRecSize (avp c) * nViewRows (avp c)))) (numberOfMadeViews c)
      (numberOfViewsMadeFromInput c)) /\
    zlen tot = zlen (totchs c) /\
    forall i, 0 <= i < avp_nm (avp c) -> zth 0 tot i = zth 0 (totchs c) i + zth 0 (checksums (avp_view (avp c))) i.
Proof.
  intros Hn R Ha Ht. unfold finish_view. rewrite chk_ok by lia. cbn [mbind res_bind].
  destruct (for_range_map 0 (fun i => zth 0 (totchs c) i + zth 0 (checksums (avp_view (avp c))) i)
    (fun i t => x ← t.[i]; y ← (checksums (avp_view (avp c))).[i]; s ← chk 64 (x + y); t.[i <- s])
    (avp_nm (avp c)) (totchs c)) as (tot & -> & Hl & Hz); [destruct R as [[R _]]; lia | |].
  - intros i t Hi Hl Hz. destruct R as [R1 R2 R3 _ _ _ _].
    rewrite (aget_ok 0 t), (aget_ok 0 (checksums (avp_view (avp c)))), Hz by lia. cbn [mbind res_bind].
    specialize (Ht i Hi). by rewrite chk_ok by lia.
  - cbn [mbind res_bind]. exists tot. split; [done|]. split; [done|]. intros i Hi. rewrite Hz by lia.
    by destruct (Z.ltb_spec i (avp_nm (avp c))); [|lia].
Qed.

Lemma view_bytes g v : is_tuple nd g -> g <> 0 -> cube_view nd nm rows g v ->
  bytes v = zlen v * GetRecSize (ones nd g) nm /\ 0 <= bytes v < 2 ^ 32 /\ bytes v <= zlen v * measbound.
Proof.
  intros Hg H0 Hv. pose proof nd_range as Hn. pose proof nm_range as Hm. pose proof (view_dims g Hg H0) as Hd.
  assert (E : bytes v = zlen v * GetRecSize (ones nd g) nm)
    by (apply shaped_bytes; [lia | done | apply Hv]).
  pose proof (GetRecSize_mono nm (ones nd g) ltac:(lia) Hm nd ltac:(lia)) as Hmono.
  pose proof (cv_size _ _ _ _ _ Hv) as Hs. pose proof (in_bytes _ _ Hrows) as Hb. fold nd nm in Hb.
  pose proof (record_size_pos nm (ones nd g) ltac:(lia) Hm). split; [done|]. rewrite E. split; [nia|].
  assert (GetRecSize nd nm <= measbound).
  { rewrite GetRecSize_ok by lia. unfold DIM_FSZ, MSR_FSZ, measbound, MAX_NUM_OF_DIMS, MAX_NUM_OF_MEAS in *. lia. }
  nia.
Qed.

Lemma views_bounds gs vs : Forall2 (cube_view nd nm rows) gs vs -> Forall (fun g => is_tuple nd g /\ g <> 0) gs ->
  zlen (concat vs) <= zlen gs * zlen rows /\ bytes (concat vs) <= zlen (concat vs) * measbound.
Proof.
  induction 1 as [|g v gs vs Hv _ IH]; intros Hg; cbn [concat length]; [done|].
  apply list.Forall_cons in Hg as [[Hg Hg0] Hgs]. specialize (IH Hgs). rewrite length_app, bytes_app.
  pose proof (cv_size _ _ _ _ _ Hv). destruct (view_bytes g v Hg Hg0 Hv) as (_ & _ & Hb). unfold measbound in *. nia.
Qed.

(** *** A view that was computed *)

Section Success.
Context (c c2 : cube) (gs : list Z) (vs : list (list data)) (bs : list bool) (g : Z) (fp : bool).
Context (a a' : cntl) (sel : list Z) (l v : list data).
Hypothesis I : cube_inv c gs vs bs.
Hypothesis Hl : length gs = length vs.
Hypothesis Hg : is_tuple nd g.
Hypothesis Hg0 : g <> 0.
Hypothesis Hnew : g ∉ gs.
Hypothesis Hm : moved c g c2.
Hypothesis Ha : avp_view a = avp_view (avp c2) /\ totalOfViewRows a = totalOfViewRows (avp c2) /\ avp_nm a = nm.
Hypothesis Hready : ready a'.
Hypothesis Hframe : frame (with_avp c2 a') = frame c2.
Hypothesis Hview : is_view a a' (ones nd g) sel l v.
Hypothesis Hcube : cube_view nd nm rows g v.
Hypothesis Hcount : (zlen gs + 1) * zlen rows * measbound < 2 ^ 63.

Lemma tuples_ok : Forall (fun g => is_tuple nd g /\ g <> 0) gs.
Proof.
  rewrite <- (jobs_of_grpb nd [] gs vs Hl). apply Forall_map.
  eapply list.Forall_impl; [exact (po_job _ _ _ _ (ii_jobs _ _ _ _ I))|]. cbn. tauto.
Qed.

Lemma view_recorded : exists c',
  (c ← JobPoolUpdate (count_input (with_avp c2 a') fp); c ← finish_view (write_sizes (length gs)) c (Z.shiftr g (32 - nd)); Ok (c, ADC_OK)) = Ok (c', ADC_OK) /\
  exists b, cube_inv c' (gs ++ [g]) (vs ++ [v]) (bs ++ [b]).
Proof.
  destruct Ha as (Ha1 & Ha2 & Ha3). pose proof nd_range as Hn.
  destruct (moved_same c g c2 Hm) as (M1 & _ & M2 & M3 & M4 & M5 & M6 & M7 & M8 & M9 & M10).
  assert (Fr : frame (with_avp c2 a') = frame c0) by (rewrite Hframe, M1; apply I).
  destruct (frame_eq _ Fr) as (F1 & F2 & F3 & F4 & F5 & F6 & F7). cbn [avp totchs with_avp] in F1, F2, F3, F4, F5, F6, F7.
  destruct (view_bytes g v Hg Hg0 Hcube) as (B1 & B2 & B3). destruct (views_bounds gs vs (ii_views _ _ _ _ I) tuples_ok) as (B4 & B5).
  pose proof (cv_size _ _ _ _ _ Hcube) as Hs. pose proof (bytes_nonneg (concat vs)) as B6.
  assert (Eb : u32 (nViewRows a' * outRecSize a') = bytes v).
  { rewrite (iv_rows _ _ _ _ _ _ Hview), (iv_record _ _ _ _ _ _ Hview), Ha3, <- B1. by apply unsigned_small. }
  destruct (JobPoolUpdate_ok nd (count_input (with_avp c2 a') fp) (jobs_of nd [] gs vs)) as (j & ls & EJ & PJ);
    cbn [jpp lpp groupby avp count_input with_avp]; rewrite ?M4; try done.
  { rewrite M5, M6. apply I. }
  { apply Hview. }
  { by rewrite jobs_of_grpb. }
  rewrite EJ, bind_Ok. clear EJ.
  set (b := negb (numberOfChunks a' =? 0)).
  assert (Ec : forall i, 0 <= i < nm -> zth 0 (checksums (avp_view a')) i =
    weighted (if b then ms_term i else cs_term nm i) i 0 v).
  { intros i Hi. rewrite (iv_checks _ _ _ _ _ _ Hview), Ha3 by lia. unfold b. by destruct (_ =? 0). }
  destruct (finish_view_ok (write_sizes (length gs)) (with_jobs (count_input (with_avp c2 a') fp) j ls) (Z.shiftr g (32 - nd))) as (tot & EF & Lt & Ht);
    cbn [avp totchs accViewFileOffset with_jobs count_input with_avp]; rewrite ?Eb, ?F3, ?M7, ?M8, ?(ii_offset _ _ _ _ I).
  - rewrite <- M8, F7. apply Hc0.
  - done.
  - unfold measbound in *. nia.
  - intros i Hi. rewrite (ii_totchs _ _ _ _ I), Ec by done. pose proof (checks_bound nm i (vs ++ [v]) (bs ++ [b])) as HB.
    rewrite checks_snoc, concat_app, length_app in HB by (symmetry; apply I). cbn [concat] in HB. rewrite app_nil_r in HB.
    unfold measbound in *. nia.
  - rewrite EF. cbn [mbind res_bind]. eexists. split; [reflexivity|]. exists b. clear EF.
    cbn [avp totchs accViewFileOffset with_jobs count_input with_avp nViewRows] in Lt, Ht |- *.
    split; cbn [avp jpp lpp totchs accViewFileOffset viewSizesFile totalViewFileSize];
      rewrite ?concat_app, ?bytes_app; cbn [concat]; rewrite ?app_nil_r.
    + done.
    + unfold frame in *. cbn [avp totchs with_avp] in *. rewrite Lt. exact Fr.
    + rewrite jobs_of_snoc by done. unfold new_job in PJ. cbn [app groupby avp count_input with_avp accViewFileOffset] in PJ |- *.
      rewrite M4, M7, (ii_offset _ _ _ _ I), (iv_nv _ _ _ _ _ _ Hview), (iv_rows _ _ _ _ _ _ Hview) in PJ. exact PJ.
    + apply Forall2_app; [apply I | by constructor].
    + rewrite (iv_file _ _ _ _ _ _ Hview), Ha1, M2, (ii_file _ _ _ _ I). done.
    + rewrite Eb, M7, (ii_offset _ _ _ _ I). done.
    + rewrite !length_app, (ii_flags _ _ _ _ I). done.
    + intros i Hi. rewrite checks_snoc by (symmetry; apply I). rewrite Ht, M8, (ii_totchs _ _ _ _ I), Ec by lia. done.
    + rewrite (iv_total _ _ _ _ _ _ Hview), Ha2, M3, (ii_rows _ _ _ _ I), length_app. unfold unsigned.
      rewrite Zplus_mod_idemp_l, Nat2Z.inj_add. done.
    + change (viewSizesFile (with_jobs _ _ _)) with (viewSizesFile c2). rewrite M9, (ii_sizes _ _ _ _ I), zip_with_app, (iv_rows _ _ _ _ _ _ Hview) by done. cbn [zip_with].
      rewrite kept_snoc, length_zip_with, <- Hl, Nat.min_id. done.
    + change (totalViewFileSize (with_jobs _ _ _)) with (totalViewFileSize c2). rewrite M10, (ii_bytes _ _ _ _ I), (Z.mul_comm (outRecSize a')), Eb. apply unsigned_small. unfold measbound in *. nia.
Qed.
End Success.

(** *** A turn *)

(** The control block meets the hypotheses for the view of a source. *)
Lemma source_view g a fp sel l k : is_tuple nd g -> g <> 0 -> ready a ->
  avp_nm a = nm -> avp_memoryLimit a = avp_memoryLimit (avp c0) ->
  memoryLimit (avp_tree a) = memoryLimit (avp_tree (avp c0)) -> zlen (selection a) = zlen (selection (avp c0)) ->
  source_ok g sel (parent_nd a fp) l ->
  view_ok a (parent_nd a fp) (ones nd g) sel (pool k (ones nd g)) /\ rows_ok a (parent_nd a fp) (ones nd g) l.
Proof.
  intros Hg H0 R E1 E2 E3 E4 [S1 S2 S3 S4 S5 S6]. pose proof nd_range as Hn. pose proof nm_range as Hm.
  pose proof (view_dims g Hg H0) as Hd. pose proof Hc0 as [C1 C2 C3 C4 C5 C6]. fold nd nm in C3, C4, C5.
  pose proof (node_size_mono nm (ones nd g) ltac:(lia) Hm nd ltac:(lia)) as Hnode.
  pose proof (GetRecSize_mono nm (ones nd g) ltac:(lia) Hm nd ltac:(lia)) as Hrec.
  pose proof Hrows as [Q1 Q2 Q3 Q4 Q5]. fold nd nm in Q1, Q3, Q4, Q5.
  assert (0 < node_size (ones nd g) nm).
  { destruct (node_size_ok (ones nd g) nm) as [? _]; unfold MAX_NUM_OF_DIMS, MAX_NUM_OF_MEAS in *; lia. }
  assert (0 < GetRecSize nd nm) by (by apply record_size_pos).
  split; split; rewrite ?E1, ?E2, ?E3, ?E4; try done.
  - lia.
  - lia.
  - lia.
  - unfold MAX_NUM_OF_CHUNKS in *. lia.
  - by apply Hpool.
  - nia.
  - intros i Hi. specialize (S5 i Hi). specialize (Q4 i Hi). pose proof (mag_nonneg i l). nia.
  - assert (memoryLimit (avp_tree (avp c0)) / node_size nd nm <= memoryLimit (avp_tree (avp c0)) / node_size (ones nd g) nm)
      by (apply Z.div_le_compat_l; lia).
    unfold MAX_NUM_OF_CHUNKS in *. lia.
Qed.

Lemma cube_turn_ok k c gs vs bs tuple : cube_inv c gs vs bs -> length gs = length vs -> k = length gs ->
  let g := tuple32 (swap8 tuple) nd in g <> 0 -> g ∉ gs -> (zlen gs + 1) * zlen rows * measbound < 2 ^ 63 ->
  exists c' e, cube_turn write_chunks write_views write_sizes pool k c (rows ++ rest) tuple = Ok (c', e) /\
    ((e = ADC_OK /\ exists v b, cube_inv c' (gs ++ [g]) (vs ++ [v]) (bs ++ [b])) \/
     (e = ADC_WRITE_FAILED /\ exists i j, write_chunks i j = false \/ write_views j = false)).
Proof.
  intros I Hl Hk g H0 Hnew Hcount. pose proof nd_range as Hn. pose proof Hc0 as [C1 C2 C3 C4 C5 C6].
  assert (Hn' : 1 <= nd <= 32) by (unfold MAX_NUM_OF_DIMS in Hn; lia).
  assert (Hg : is_tuple nd g) by (by apply tuple32_is_tuple).
  destruct (frame_eq c (ii_frame _ _ _ _ I)) as (F1 & F2 & F3 & F4 & F5 & F6 & F7).
  unfold cube_turn. rewrite F1. unfold GetRegTupleFromBin64. change MLB with (2 ^ (64 - 1)).
  rewrite (get_reg_tuple_ok 64) by (rewrite ?F6; unfold nd in *; lia). rewrite bind_Ok.
  change (fun i : Z => Z.testbit (swap8 tuple) (64 - i)) with (bits64 (swap8 tuple)).
  rewrite <- tuple32_attrs by done. fold g. fold (ones nd g).
  rewrite shr_ok, bind_Ok, shl_ok, bind_Ok by lia. fold (tuple32 (swap8 tuple) nd). fold g.
  rewrite tuple32_index by (done || apply swap8_range). fold g.
  set (tail := drop _ (selection (avp c))).
  assert (Hsel : zlen (attrs (bits32 g) (Z.to_nat nd) ++ tail) = zlen (selection (avp c0))).
  { unfold tail. pose proof (attrs_length (bits32 g) (Z.to_nat nd)). rewrite length_app, length_drop, <- F6.
    rewrite F6 in *. unfold nd in *. lia. }
  destruct (choose_source_ok c gs vs bs (swap8 tuple) g tail I Hl eq_refl H0) as (c2 & fp & sel & l & rest' & -> & Hm & Hs & Hr & Ls).
  { rewrite Hsel. exact C3. }
  rewrite bind_Ok. destruct (moved_same c g c2 Hm) as (M1 & M2 & M3 & M4 & _).
  specialize (M2 (ii_ready _ _ _ _ I)). destruct (frame_eq c2 (eq_trans M1 (ii_frame _ _ _ _ I))) as (G1 & G2 & G3 & G4 & G5 & G6 & G7).
  set (a := with_selection (avp c2) sel). assert (Ra : ready a) by (destruct M2; by split).
  destruct (source_view g a fp sel l k Hg H0 Ra G3 G4 G5 (eq_trans Ls Hsel) Hs) as [V R].
  destruct (compute_groupby_ok (write_chunks k) write_views a (ones nd g) sel fp l rest' (pool k (ones nd g)) Ra V R Hr)
    as (a' & e & E & Ho). rewrite E, bind_Ok. clear E.
  destruct Ho as [(-> & R' & Es & Em & Et & Ex & v & Hv) | (-> & j & Hw)].
  2: { exists (with_avp c2 a'), ADC_WRITE_FAILED. split; [reflexivity|]. right. split; [done|]. by exists k, j. }
  cbn [Z.eqb negb ADC_OK].
  destruct (view_recorded c c2 gs vs bs g fp a a' sel l v I Hl Hg H0 Hnew Hm) as (c' & E & b & I');
    [by split; [|split] | done | | done | | done |].
  - unfold frame. cbn [avp totchs with_avp]. unfold settings in Es. injection Es as E1 E2 _ _.
    rewrite E1, E2, Em, Et, Ex, (iv_nm _ _ _ _ _ _ Hv). cbn [selection a with_selection]. by rewrite Ls, Hsel, <- G6.
  - split; [apply Hv | rewrite (iv_groups _ _ _ _ _ _ Hv); change (avp_nm a) with (avp_nm (avp c2)); rewrite G3; apply Hs | | |].
    + pose proof (view_shaped a a' (ones nd g) sel fp l v) as H. change (avp_nm a) with (avp_nm (avp c2)) in H.
      rewrite G3 in H. apply H; [apply nm_range | apply Hs | done | done].
    + pose proof (iv_size _ _ _ _ _ _ Hv). pose proof (so_size _ _ _ _ Hs). lia.
    + intros i Hi. pose proof (iv_mag _ _ _ _ _ _ Hv i) as H. change (avp_nm a) with (avp_nm (avp c2)) in H. rewrite G3 in H.
      specialize (H Hi). pose proof (so_mag _ _ _ _ Hs i Hi). lia.
  - rewrite Hk, E. exists c', ADC_OK. split; [done|]. left. split; [done|]. by exists v, b.
Qed.

(** *** All views *)

Definition tuples (groupbyFile : list Z) : list Z := map (fun t => tuple32 (swap8 t) nd) groupbyFile.

Lemma groupbys_ok groupbyFile : forall k c gs vs bs, cube_inv c gs vs bs -> length gs = length vs -> k = length gs ->
  NoDup (gs ++ tuples groupbyFile) -> 0 ∉ tuples groupbyFile ->
  (zlen gs + zlen groupbyFile) * zlen rows * measbound < 2 ^ 63 ->
  exists c' e, groupbys write_chunks write_views write_sizes pool k c (rows ++ rest) groupbyFile = Ok (c', e) /\
    ((e = ADC_OK /\ numberOfMadeViews c' = u32 (Z.of_nat k + zlen groupbyFile) /\
      exists vs bs, cube_inv c' (gs ++ tuples groupbyFile) vs bs) \/
     (e = ADC_WRITE_FAILED /\ exists i j, write_chunks i j = false \/ write_views j = false)).
Proof.
  induction groupbyFile as [|t r IH]; intros k c gs vs bs I Hl Hk Hd H0 Hc; cbn [groupbys tuples map].
  - eexists _, ADC_OK. split; [reflexivity|]. left. split; [done|]. cbn. rewrite Z.add_0_r. split; [done|].
    exists vs, bs. rewrite app_nil_r. by destruct I; split.
  - cbn [tuples map] in Hd, H0. apply list.not_elem_of_cons in H0 as [H0 H0']. fold (tuples r) in *.
    assert (Hnew : tuple32 (swap8 t) nd ∉ gs).
    { apply list.NoDup_app in Hd as (_ & Hd & _). intros Hin. apply (Hd _ Hin). left. }
    destruct (cube_turn_ok k c gs vs bs t I Hl Hk ltac:(congruence) Hnew) as (c1 & e & -> & Ho);
      [cbn [length] in Hc; pose proof (Nat2Z.is_nonneg (length r)); unfold measbound in *; nia|].
    rewrite bind_Ok. destruct Ho as [(-> & v & b & I') | (-> & Hw)]; cbn [Z.eqb negb ADC_OK ADC_WRITE_FAILED].
    2: { eexists _, ADC_WRITE_FAILED. split; [reflexivity|]. by right. }
    destruct (IH (S k) c1 (gs ++ [tuple32 (swap8 t) nd]) (vs ++ [v]) (bs ++ [b]) I') as (c' & e & E & Ho).
    + rewrite !length_app, Hl. done.
    + rewrite length_app, Hk. cbn [length]. lia.
    + by rewrite <- app_assoc.
    + done.
    + rewrite length_app. cbn [length] in Hc |- *.
      replace (Z.of_nat (length gs + 1) + zlen r) with (zlen gs + Z.of_nat (S (length r))) by lia. exact Hc.
    + exists c', e. split; [done|]. destruct Ho as [(-> & Hn & Hv) | Ho]; [left | by right]. split; [done|]. split.
      * rewrite Hn. f_equal. cbn [length]. lia.
      * rewrite <- app_assoc in Hv. exact Hv.
Qed.
End Cube.

(** ** The property *)

(** Nothing was computed yet. *)
Record new_cube (c : cube) : Prop := {
  nc_jobs : pool_ok (nTopDims (avp c)) (jpp c) (lpp c) [];
  nc_file : file (avp_view (avp c)) = [];
  nc_offset : accViewFileOffset c = 0;
  nc_totchs : forall i, 0 <= i < avp_nm (avp c) -> zth 0 (totchs c) i = 0;
  nc_rows : totalOfViewRows (avp c) = 0;
  nc_sizes : viewSizesFile c = [];
  nc_bytes : totalViewFileSize c = 0
}.

(** The views [vs] of the tuples [gs] are in the file, one after the other;
    their bytes and checksums are recorded, and so are the sizes of those
    whose entry was written: of all views, in order, when no [fwrite] for the
    file of view sizes failed (see [kept_all]). *)
Record cube_done (write_sizes : nat -> bool) (c c' : cube) (rows : list data) (gs : list Z) (vs : list (list data)) : Prop := {
  cd_frame : frame c' = frame c;
  cd_views : Forall2 (cube_view (nTopDims (avp c)) (avp_nm (avp c)) rows) gs vs;
  cd_file : file (avp_view (avp c')) = concat vs;
  cd_sizes : viewSizesFile c' = kept write_sizes 0 (zip_with (fun g v => (Z.shiftr g (32 - nTopDims (avp c)), zlen v)) gs vs);
  cd_rows : totalOfViewRows (avp c') = u32 (zlen (concat vs));
  cd_bytes : totalViewFileSize c' = bytes (concat vs);
  cd_made : numberOfMadeViews c' = u32 (zlen gs);
  cd_totchs : exists bs, length bs = length vs /\
    forall i, 0 <= i < avp_nm (avp c) -> zth 0 (totchs c') i = checks (avp_nm (avp c)) i vs bs
}.

Section Property.
Context (write_chunks : nat -> nat -> bool) (write_views write_sizes : nat -> bool) (pool : nat -> Z -> list data).

(** The pool is read in records of the size of the view. *)
Definition pool_records (c : cube) : Prop := forall k n, 1 <= n <= nTopDims (avp c) ->
  zlen (pool k n) = avp_memoryLimit (avp c) / GetRecSize n (avp_nm (avp c)).

Lemma ComputeGivenGroupbys_ok c rows rest groupbyFile : cube_ok c -> input_ok c rows -> new_cube c ->
  pool_records c ->
  let gs := map (fun t => tuple32 (swap8 t) (nTopDims (avp c))) groupbyFile in
  NoDup gs -> 0 ∉ gs -> zlen groupbyFile * zlen rows * measbound < 2 ^ 63 ->
  exists c' e, ComputeGivenGroupbys write_chunks write_views write_sizes pool c (rows ++ rest) groupbyFile = Ok (c', e) /\
    ((e = ADC_OK /\ exists vs, cube_done write_sizes c c' rows gs vs) \/
     (e = ADC_WRITE_FAILED /\ exists i j, write_chunks i j = false \/ write_views j = false)).
Proof.
  intros Hc Hr [N1 N2 N3 N4 N5 N6 N7] Hp gs Hd H0 Hb.
  destruct (groupbys_ok write_chunks write_views write_sizes pool c rows rest Hc Hr Hp groupbyFile 0 c [] [] [])
    as (c' & e & E & Ho); try done.
  - split; try done. apply Hc.
  - exists c', e. split; [exact E|]. destruct Ho as [(-> & Hm & vs & bs & I) | Ho]; [left | by right].
    split; [done|]. exists vs. destruct I. cbn [app] in *. split; try done.
    + unfold gs. by rewrite length_map.
    + by exists bs.
Qed.
End Property.

(** C19: [ComputeGivenGroupbys] on a file of distinct, non-empty tuples always
    returns, without undefined behaviour, whatever the outcomes of [fwrite].
    If it returns [ADC_OK], the file of views has the views one after the
    other: for every tuple the rows of the input projected to its attributes,
    each combination once, sorted and with the measures added up - whichever
    of the views computed before [GetParent] chose as parent, and whether the
    view went through chunks or not; the bytes and the checksums that are
    recorded are those of the views.  The file of view sizes has the sizes of
    the views, in order, but for those whose [fwrite], which is not checked,
    failed.  Otherwise it returns [ADC_WRITE_FAILED], and a write of a chunk or
    of a view failed. *)
Theorem cube_computed write_chunks write_views write_sizes pool c rows rest groupbyFile : cube_ok c -> input_ok c rows -> new_cube c ->
  pool_records pool c ->
  let gs := map (fun t => tuple32 (swap8 t) (nTopDims (avp c))) groupbyFile in
  NoDup gs -> 0 ∉ gs -> zlen groupbyFile * zlen rows * measbound < 2 ^ 63 ->
  exists c' e, ComputeGivenGroupbys write_chunks write_views write_sizes pool c (rows ++ rest) groupbyFile = Ok (c', e) /\
    ((e = ADC_OK /\ exists vs, cube_done write_sizes c c' rows gs vs) \/
     (e = ADC_WRITE_FAILED /\ exists i j, write_chunks i j = false \/ write_views j = false)).
Proof. apply ComputeGivenGroupbys_ok. Qed.

(** *** Six rows of three attributes and one measure: all attributes, the
    first and the third, the third, the second *)

Definition ex_cube : res cube :=
  lpp ← init_layers (replicate 4 no_layer) 3;
  Ok (Cube
    (Cntl (View 1 [0] [0] []) 0 0 3 6 0 0 0 0 0 0 0 32768
      (Tree (TreeNode NULL NULL BLACK (Data [] [])) NULL 0 0 0 144 0 0 0 0 0 0 (replicate 64 0) (replicate 64 NULL) ∅)
      (replicate 20 0) 0 (replicate 1024 (Chunk 0 0 0 0)) [])
    (replicate 8 no_job) lpp 0 0 0 0 [0] [] 0 0 0).

Definition ex_tuples : list Z := [0xE0; 0xA0; 0x20; 0x40].

Definition ex_pool (k : nat) (n : Z) : list data := replicate (Z.to_nat (32768 / GetRecSize n 1)) (Data [] []).

Definition ex_run : res (cube * Z) :=
  c ← ex_cube; ComputeGivenGroupbys (fun _ _ => true) (fun _ => true) (fun _ => true) ex_pool c ex_rows ex_tuples.

Example ex_views : ('(c, e) ← ex_run; Ok (viewSizesFile c, file (avp_view (avp c)), e)) = Ok (
  [(7, 6); (5, 5); (1, 2); (2, 3)],
  [Data [5] [1; 7; 2]; Data [6] [1; 8; 1]; Data [8] [1; 9; 2]; Data [7] [2; 7; 2]; Data [9] [3; 7; 1]; Data [10] [3; 7; 2];
   Data [6] [1; 1]; Data [13] [1; 2]; Data [7] [2; 2]; Data [9] [3; 1]; Data [10] [3; 2];
   Data [15] [1]; Data [30] [2]; Data [31] [7]; Data [6] [8]; Data [8] [9]], ADC_OK).
Proof. vm_compute. reflexivity. Qed.

(** An entry that is not written is missing; nothing else changes. *)
Example ex_lost_size :
  (c ← ex_cube; '(c, e) ← ComputeGivenGroupbys (fun _ _ => true) (fun _ => true) (fun k => negb (Nat.eqb k 1)) ex_pool c ex_rows ex_tuples;
   Ok (viewSizesFile c, zlen (file (avp_view (avp c))), e)) = Ok ([(7, 6); (1, 2); (2, 3)], 16, ADC_OK).
Proof. vm_compute. reflexivity. Qed.

Example cube_computed_witness : exists c c' vs, ex_cube = Ok c /\ ex_run = Ok (c', ADC_OK) /\
  cube_done (fun _ => true) c c' ex_rows [0xE0000000; 0xA0000000; 0x20000000; 0x40000000] vs.
Proof.
  destruct (init_layers_ok (replicate 4 no_layer) 3) as (l & El & Ll & Hl); [done | done |].
  unfold ex_run, ex_cube. rewrite El. cbn [mbind res_bind].
  match goal with |- context [Ok (Cube ?a ?j l ?g ?p ?o ?f ?t ?v ?b ?m ?i) = Ok _] => set (c := Cube a j l g p o f t v b m i) end.
  destruct (cube_computed (fun _ _ => true) (fun _ => true) (fun _ => true) ex_pool c ex_rows [] ex_tuples)
    as (c' & e & E & [(He & vs & Hv) | (_ & i & j & [H | H])]); [| | | | | | | | discriminate H | discriminate H].
  - split; [by repeat split | done..].
  - split; try done.
    + by repeat constructor.
    + intros i Hi. change (avp_nm (avp c)) with 1 in Hi. by replace i with 0 by lia.
  - split; try done; [by apply pool_init|]. intros i Hi. change (avp_nm (avp c)) with 1 in Hi. by replace i with 0 by lia.
  - intros k n Hn. change (nTopDims (avp c)) with 3 in Hn. unfold ex_pool. rewrite length_replicate.
    change (avp_nm (avp c)) with 1. change (avp_memoryLimit (avp c)) with 32768.
    assert (n = 1 \/ n = 2 \/ n = 3) as [-> | [-> | ->]] by lia; done.
  - apply (bool_decide_unpack _). vm_compute. exact I.
  - apply (bool_decide_unpack _). vm_compute. exact I.
  - reflexivity.
  - subst e. exists c, c', vs. split; [done|]. split; [exact E | exact Hv].
Defined.
