(* ===== verification/JobSplit.v ===== *)
(** * The partition of the views

    [NPB/SERIAL/DC/jobcntl.c]: the views are sorted by their size and dealt to
    the tasks, forwards and backwards in turn; the views of a task go to its
    file of group-bys, those with many attributes first, so that parents come
    before the views that can be computed from them. *)

From Stdlib Require Import Permutation.
From S2P Require Import Prelude Rbt DataCube JobPool.

Definition MAX_NUMBER_OF_TASKS := 256.

(** ** Heap sort *)

(** [TUPLE_VIEWSIZE], of which [key] is the size of the view, and [TUPLE_ONES],
    of which it is the number of ones *)
Record item := Item { key : Z; tuple : Z }.

(** The exchange of two elements, field by field *)
Definition swap_items (x : list item) (i j : Z) : res (list item) :=
  a ← x.[i]; b ← x.[j]; x ← x.[i <- b]; x.[j <- a].

(** Positions count from 1. *)
Definition restore_step (l : Z) (s : list item * Z) : res (list item * Z) :=
  let '(x, j) := s in
  let tj := u32 (j * 2) in
  m ← (if tj <? l then a ← x.[tj - 1]; b ← x.[tj]; Ok (if key a <? key b then tj + 1 else tj) else Ok tj);
  a ← x.[m - 1];
  b ← x.[j - 1];
  if key b <? key a then x ← swap_items x (m - 1) (j - 1); Ok (x, m) else Ok (x, l).

Definition restore (x : list item) (f l : Z) : res (list item) :=
  '(x, _) ← while (S (Z.to_nat l)) (fun '(_, j) => Ok (j <=? Z.shiftr l 1)) (restore_step l) (x, f);
  Ok x.

Definition vszsort (x : list item) (n : Z) : res (list item) :=
  let h := Z.shiftr n 1 in
  x ← for_range 0 h (fun k x => restore x (h - k) n) x;
  for_range 0 (n - 1) (fun k x => let i := n - k in x ← swap_items x 0 (i - 1); restore x 1 (i - 1)) x.

(** The same code for [TUPLE_ONES] *)
Definition restoreo : list item -> Z -> Z -> res (list item) := restore.
Definition onessort : list item -> Z -> res (list item) := vszsort.

Definition countTupleOnes (binRepTuple numDims : Z) : res Z :=
  '(cnt, _) ← for_range 0 numDims
    (fun _ '(cnt, ob) => Ok (if negb (Z.land binRepTuple ob =? 0) then cnt + 1 else cnt, u64 (Z.shiftl ob 1))) (0, 1);
  Ok cnt.

(** ** Dealing *)

Record deal := Deal {
  pn : Z;
  direction : bool;
  gbuf : list Z;
  gbi : Z;
  nGroupbys : list Z;
  vszs : list Z
}.

(** The next task *)
Definition next_task (nTasks pn : Z) (direction : bool) : Z * bool :=
  let '(direction, dChange) := if negb direction && (pn =? u32 (nTasks - 1)) then (true, true) else (direction, false) in
  let '(direction, dChange) := if direction && (pn =? 0) then (false, true) else (direction, dChange) in
  (if dChange then pn else if direction then u32 (pn - 1) else u32 (pn + 1), direction).

Definition deal_item (nTasks taskNumber : Z) (x : item) (s : deal) : res deal :=
  '(g, k) ← (if pn s =? taskNumber then g ← (gbuf s).[gbi s <- tuple x]; Ok (g, u32 (gbi s + 1)) else Ok (gbuf s, gbi s));
  n ← (nGroupbys s).[pn s];
  ns ← (nGroupbys s).[pn s <- u32 (n + 1)];
  v ← (vszs s).[pn s];
  vs ← (vszs s).[pn s <- u64 (v + key x)];
  let '(p, d) := next_task nTasks (pn s) (direction s) in
  Ok (Deal p d g k ns vs).

Definition deal_items (nTasks taskNumber nViews : Z) (x : list item) (s : deal) : res deal :=
  for_range 0 nViews (fun k s => y ← x.[nViews - 1 - k]; deal_item nTasks taskNumber y s) s.

(** The greatest number of views of a task *)
Definition max_views (nTasks : Z) (n : list Z) : res Z :=
  for_range 0 nTasks (fun i m => x ← n.[i]; Ok (if m <? x then x else m)) 0.

(** The arrays on the stack hold anything before they are cleared. *)
Definition clear_counts (nTasks : Z) (n : list Z) : res (list Z) := for_range 0 nTasks (fun i n => n.[i <- 0]) n.

Section Split.
Context (malloc : Z -> option (list item)) (can_write : nat -> bool).

(** [fwrite], whose result is not looked at *)
Definition write_tuple (f : list Z) (t : Z) : list Z := if can_write (length f) then f ++ [t] else f.

(** The views of the task, sorted and written; [qsort] only moves what is left
    in [gbuf]. *)
Definition write_task (nTopDims taskNumber : Z) (s : deal) (toptr : list item) : res (list Z) :=
  n ← (nGroupbys s).[taskNumber];
  t ← for_range 0 n (fun j t => x ← (gbuf s).[j]; o ← countTupleOnes x nTopDims; t.[j <- Item o x]) toptr;
  t ← onessort t n;
  for_range 0 n (fun j f => x ← t.[n - 1 - j]; y ← shl 64 (tuple x) (64 - nTopDims); Ok (write_tuple f (swap8 y))) [].

(** The file of group-bys, or [None] when [malloc] fails; [memory] is the
    memory pool as an array of 64-bit numbers. *)
Definition MultiFileProcJobs (nTopDims nTasks taskNumber : Z) (tuplesAndSizes : list item) (nViews : Z)
    (memory counts sizes : list Z) : res (option (list Z)) :=
  ns ← clear_counts nTasks counts;
  vs ← clear_counts nTasks sizes;
  s ← deal_items nTasks taskNumber nViews tuplesAndSizes (Deal 0 false memory 0 ns vs);
  maxn ← max_views nTasks (nGroupbys s);
  match malloc maxn with
  | None => Ok None
  | Some toptr =>
      f ← for_range 0 nTasks (fun i f => if i =? taskNumber then write_task nTopDims taskNumber s toptr else Ok f) [];
      Ok (Some f)
  end.
End Split.

(** Three tasks get seven views, the largest first. *)
Example ex_turns : (fix go n p d := match n with O => [] | S n => p :: let '(p, d) := next_task 3 p d in go n p d end)
  8%nat 0 false = [0; 1; 2; 2; 1; 0; 0; 1].
Proof. reflexivity. Qed.

Example ex_split : MultiFileProcJobs (fun n => Some (replicate (Z.to_nat n) (Item 0 0))) (fun _ => true) 3 2 0
  [Item 2 0x1; Item 5 0x4; Item 8 0x3; Item 9 0x7] 4 (replicate 9 0) (replicate 256 7) (replicate 256 7) =
  Ok (Some [swap8 0xE000000000000000; swap8 0x2000000000000000]).
Proof. vm_compute. reflexivity. Qed.
