(* ===== verification/JobSort.v ===== *)
(** * The heap sort of the data cube benchmark

    [restore] moves an element down until the elements from [f] on are a heap;
    [vszsort] and [onessort] build a heap and take its greatest element off
    again and again.  The result is sorted and has the same elements. *)

From Stdlib Require Import Permutation.
From S2P Require Import Prelude Rbt DataCube JobPool JobSplit.

Definition no_item : item := Item 0 0.

(** The element at a position, from 1 on, and its key *)
Definition at_pos (x : list item) (i : Z) : item := zth no_item x (i - 1).
Definition key_at (x : list item) (i : Z) : Z := key (at_pos x i).

Definition child_of (i c : Z) : Prop := c = 2 * i \/ c = 2 * i + 1.

(** The positions from [f] to [l] are a heap. *)
Definition heap (x : list item) (f l : Z) : Prop :=
  forall i c, f <= i -> child_of i c -> c <= l -> key_at x c <= key_at x i.

(** The same but for the children of [j], which are not above its parent *)
Definition holed (x : list item) (f l j : Z) : Prop :=
  (forall i c, f <= i -> i <> j -> child_of i c -> c <= l -> key_at x c <= key_at x i) /\
  (j = f \/ exists p, f <= p /\ child_of p j /\ forall c, child_of j c -> c <= l -> key_at x c <= key_at x p).

(** The elements of the positions up to [l] were moved among each other. *)
Definition same_upto (l : Z) (x x' : list item) : Prop :=
  x' ≡ₚ x /\ (forall i, l < i -> at_pos x' i = at_pos x i) /\
  forall P : item -> Prop, (forall i, 1 <= i <= l -> P (at_pos x i)) -> forall i, 1 <= i <= l -> P (at_pos x' i).

Lemma same_refl l x : same_upto l x x.
Proof. by repeat split. Qed.

Lemma same_trans l x x1 x2 : same_upto l x x1 -> same_upto l x1 x2 -> same_upto l x x2.
Proof.
  intros (P1 & O1 & A1) (P2 & O2 & A2). split; [by rewrite P2|]. split; [intros i Hi; rewrite O2, O1; done|].
  intros P HP. apply A2. by apply A1.
Qed.

Lemma same_weaken l l' x x' : l <= l' -> same_upto l x x' -> same_upto l' x x'.
Proof.
  intros Hl (P1 & O1 & A1). split; [done|]. split; [intros; apply O1; lia|]. intros P HP i Hi.
  destruct (decide (i <= l)); [apply A1; [intros; apply HP|]; lia|]. rewrite O1 by lia. by apply HP.
Qed.

Lemma swap_items_ok x i j l : 1 <= i <= l -> 1 <= j <= l -> l <= zlen x ->
  exists x', swap_items x (i - 1) (j - 1) = Ok x' /\ same_upto l x x' /\
    forall k, 1 <= k -> at_pos x' k = if k =? j then at_pos x i else if k =? i then at_pos x j else at_pos x k.
Proof.
  intros Hi Hj Hl. unfold swap_items. rewrite !(aget_ok no_item), !bind_Ok, aset_ok, bind_Ok by lia.
  rewrite aset_ok by (rewrite zlen_insert; lia). eexists. split; [reflexivity|].
  assert (E : forall k, 1 <= k -> at_pos (<[Z.to_nat (j - 1) := zth no_item x (i - 1)]>
      (<[Z.to_nat (i - 1) := zth no_item x (j - 1)]> x)) k =
      if k =? j then at_pos x i else if k =? i then at_pos x j else at_pos x k).
  { intros k Hk. unfold at_pos. rewrite zth_insert by (rewrite ?zlen_insert; lia).
    rewrite zth_insert by lia. destruct (Z.eqb_spec (k - 1) (j - 1)), (Z.eqb_spec k j); try lia; [done|].
    destruct (Z.eqb_spec (k - 1) (i - 1)), (Z.eqb_spec k i); try lia; done. }
  split; [|exact E]. split; [|split].
  - apply Permutation_insert_swap; unfold zth; rewrite nth_lookup;
      [destruct (lookup_lt_is_Some_2 x (Z.to_nat (i - 1))) as [v ->]; [lia | done]
      |destruct (lookup_lt_is_Some_2 x (Z.to_nat (j - 1))) as [v ->]; [lia | done]].
  - intros k Hk. rewrite E by lia. destruct (Z.eqb_spec k j), (Z.eqb_spec k i); lia || done.
  - intros P HP k Hk. rewrite E by lia. destruct (k =? j); [by apply HP|]. destruct (k =? i); by apply HP.
Qed.

(** ** [restore] *)

(** The greater child of [j] *)
Definition top_child (x : list item) (l j m : Z) : Prop :=
  child_of j m /\ m <= l /\ forall c, child_of j c -> c <= l -> key_at x c <= key_at x m.

Lemma restore_step_ok x f l j : 1 <= f <= j -> 2 * j <= l -> l <= zlen x -> l < 2 ^ 32 -> holed x f l j ->
  exists x' j', restore_step l (x, j) = Ok (x', j') /\ same_upto l x x' /\ j < j' <= l /\
    (holed x' f l j' \/ (j' = l /\ heap x' f l)).
Proof.
  intros Hj Hl Hx Hw [H1 H2]. unfold restore_step. rewrite unsigned_small by lia.
  assert (Hm : exists m, (if j * 2 <? l then a ← x.[j * 2 - 1]; b ← x.[j * 2]; Ok (if key a <? key b then j * 2 + 1 else j * 2)
    else Ok (j * 2)) = Ok m /\ top_child x l j m).
  { destruct (Z.ltb_spec (j * 2) l).
    - rewrite !(aget_ok no_item), !bind_Ok by lia. eexists. split; [reflexivity|].
      assert (E1 : key (zth no_item x (j * 2 - 1)) = key_at x (2 * j)) by (unfold key_at, at_pos; do 2 f_equal; lia).
      assert (E2 : key (zth no_item x (j * 2)) = key_at x (2 * j + 1)) by (unfold key_at, at_pos; do 2 f_equal; lia).
      rewrite E1, E2. unfold top_child, child_of.
      destruct (Z.ltb_spec (key_at x (2 * j)) (key_at x (2 * j + 1))); (split; [lia|]; split; [lia|]);
        intros c [-> | ->] Hc; replace (j * 2) with (2 * j) by lia; lia.
    - exists (j * 2). split; [done|]. unfold top_child, child_of. split; [lia|]. split; [lia|].
      intros c [-> | ->] Hc; [replace (j * 2) with (2 * j) by lia; lia | lia]. }
  destruct Hm as (m & -> & Cm & Lm & Mm). unfold child_of in Cm.
  rewrite bind_Ok, (aget_ok no_item x (m - 1)), bind_Ok, (aget_ok no_item x (j - 1)), bind_Ok by lia.
  change (key (zth no_item x (j - 1))) with (key_at x j). change (key (zth no_item x (m - 1))) with (key_at x m).
  destruct (Z.ltb_spec (key_at x j) (key_at x m)) as [Hlt|Hge].
  - destruct (swap_items_ok x m j l) as (x' & -> & Hs & E); [lia | lia | done |]. rewrite bind_Ok.
    exists x', m. split; [done|]. split; [done|]. split; [lia|]. left.
    assert (K : forall k, 1 <= k -> key_at x' k = if k =? j then key_at x m else if k =? m then key_at x j else key_at x k)
      by (intros k Hk; unfold key_at; rewrite E by done; destruct (k =? j); [done|]; by destruct (k =? m)).
    split.
    + intros i c Hi Hne Hc Hcl. unfold child_of in Hc. rewrite !K by lia. destruct (Z.eqb_spec i j) as [->|Hij].
      * destruct (Z.eqb_spec c j); [lia|]. destruct (Z.eqb_spec c m); [lia|]. by apply Mm.
      * destruct (Z.eqb_spec i m); [done|]. destruct (Z.eqb_spec c m); [exfalso; lia|].
        destruct (Z.eqb_spec c j) as [->|]; [|by apply H1].
        destruct H2 as [-> | (p & Hp & Hpj & Hpc)]; [lia|]. unfold child_of in Hpj.
        assert (p = i) as -> by lia. by apply Hpc.
    + right. exists j. split; [lia|]. split; [done|]. intros c Hc Hcl. unfold child_of in Hc. rewrite !K by lia.
      destruct (Z.eqb_spec j j); [|lia]. destruct (Z.eqb_spec c j); [lia|]. destruct (Z.eqb_spec c m); [lia|].
      by apply H1; [lia | lia | |].
  - exists x, l. split; [done|]. split; [apply same_refl|]. split; [lia|]. right. split; [done|].
    intros i c Hi Hc Hcl. destruct (decide (i = j)) as [->|]; [|by apply H1]. specialize (Mm c Hc Hcl). lia.
Qed.

Lemma restore_ok x f l : 1 <= f -> 0 <= l <= zlen x -> l < 2 ^ 32 -> heap x (f + 1) l ->
  exists x', restore x f l = Ok x' /\ same_upto l x x' /\ heap x' f l.
Proof.
  intros Hf Hl Hw Hh. unfold restore.
  destruct (while_inv (fun '(y, j) => same_upto l x y /\ f <= j /\ (holed y f l j \/ (j = l /\ heap y f l)))
    (fun '(_, j) => Z.to_nat (l - j)) (fun '(_, j) => Ok (j <=? Z.shiftr l 1)) (restore_step l)) with
    (fuel := S (Z.to_nat l)) (s := (x, f)) as ([y j] & -> & (Hs & Hj & H) & E).
  - intros [y j] _. by eexists.
  - intros [y j] (Hs & Hj & H) E. injection E as E. apply Z.leb_le in E. rewrite Z.shiftr_div_pow2 in E by lia.
    change (2 ^ 1) with 2 in E. assert (Hjl : 2 * j <= l) by (pose proof (Z.mul_div_le l 2); lia).
    destruct H as [H | [-> _]]; [|lia].
    destruct (restore_step_ok y f l j) as (y' & j' & Es & Hs' & Hj' & H'); try done; try lia.
    { destruct Hs as [Hp _]. rewrite (Permutation_length Hp). lia. }
    exists (y', j'). split; [done|]. split; [|lia]. split; [by eapply same_trans|]. split; [lia | done].
  - lia.
  - split; [apply same_refl|]. split; [lia|]. left. split; [|by left]. intros i c Hi Hne. apply Hh. lia.
  - rewrite bind_Ok. exists y. split; [done|]. split; [done|]. injection E as E. apply Z.leb_gt in E.
    rewrite Z.shiftr_div_pow2 in E by lia. change (2 ^ 1) with 2 in E.
    destruct H as [[H1 _] | [_ H]]; [|done]. intros i c Hi Hc Hcl. apply H1; try done. intros ->.
    unfold child_of in Hc. pose proof (Z.mul_succ_div_gt l 2). lia.
Qed.

(** The root of a heap is its greatest element. *)
Lemma heap_root x l i : heap x 1 l -> 1 <= i <= l -> key_at x i <= key_at x 1.
Proof.
  intros Hh Hi. assert (H : forall n i, 1 <= i <= Z.of_nat n -> i <= l -> key_at x i <= key_at x 1).
  { clear i Hi. induction n as [|n IH]; intros i Hi Hl; [lia|]. destruct (decide (i = 1)) as [->|]; [lia|].
    pose proof (Z.div_mod i 2 ltac:(lia)). pose proof (Z.mod_pos_bound i 2 ltac:(lia)).
    specialize (IH (i / 2) ltac:(lia) ltac:(lia)). specialize (Hh (i / 2) i ltac:(lia)). unfold child_of in Hh.
    specialize (Hh ltac:(lia) ltac:(lia)). lia. }
  apply (H (Z.to_nat i)); lia.
Qed.

(** ** The sort *)

(** The positions after [l] are sorted, and above those before. *)
Definition sorted_after (x : list item) (l n : Z) : Prop :=
  forall i j, 1 <= i < j -> l < j <= n -> key_at x i <= key_at x j.

Lemma vszsort_ok x n : 0 <= n <= zlen x -> n < 2 ^ 32 ->
  exists x', vszsort x n = Ok x' /\ same_upto n x x' /\ forall i j, 1 <= i <= j -> j <= n -> key_at x' i <= key_at x' j.
Proof.
  intros Hn Hw. unfold vszsort. rewrite Z.shiftr_div_pow2 by lia. change (2 ^ 1) with 2.
  pose proof (Z.mul_div_le n 2 ltac:(lia)). pose proof (Z.mul_succ_div_gt n 2 ltac:(lia)).
  destruct (for_range_inv (fun k y => same_upto n x y /\ heap y (n / 2 - k + 1) n) (fun k x => restore x (n / 2 - k) n) 0 (n / 2) x)
    as (y & -> & Hs & Hh); [apply Z.div_pos; lia | | |].
  - split; [apply same_refl|]. intros i c Hi Hc. unfold child_of in Hc. lia.
  - intros k y Hk [Hs Hh]. destruct (restore_ok y (n / 2 - k) n) as (y' & E & Hs' & Hh'); try done; [lia | |].
    + destruct Hs as [Hp _]. rewrite (Permutation_length Hp). lia.
    + exists y'. split; [done|]. split; [by eapply same_trans|]. by replace (n / 2 - (k + 1) + 1) with (n / 2 - k) by lia.
  - rewrite bind_Ok. replace (n / 2 - n / 2 + 1) with 1 in Hh by lia.
    destruct (decide (n <= 1)) as [Hsmall|Hbig].
    { rewrite for_range_empty by lia. exists y. split; [done|]. split; [done|]. intros i j Hi Hj. replace i with j by lia. lia. }
    destruct (for_range_inv (fun k z => same_upto n x z /\ heap z 1 (n - k) /\ sorted_after z (n - k) n)
      (fun k x => x ← swap_items x 0 (n - k - 1); restore x 1 (n - k - 1)) 0 (n - 1) y)
      as (z & -> & Hs' & _ & Ho); [lia | | |].
    + rewrite Z.sub_0_r. split; [done|]. split; [done|]. intros i j Hi Hj. lia.
    + intros k z Hk (Hs' & Hh' & Ho). cbn zeta. set (l := n - k) in *.
      destruct Hs' as [Hp Hs']. assert (Hzl : zlen z = zlen x) by (by rewrite (Permutation_length Hp)).
      destruct (swap_items_ok z 1 l l) as (z1 & E1 & Hs1 & K1); [lia | lia | lia |].
      change (1 - 1) with 0 in E1. rewrite E1, bind_Ok. clear E1.
      assert (Kk : forall i, 1 <= i -> key_at z1 i = if i =? l then key_at z 1 else if i =? 1 then key_at z l else key_at z i)
        by (intros i Hi; unfold key_at; rewrite K1 by done; destruct (i =? l); [done|]; by destruct (i =? 1)).
      assert (Hz1 : zlen z1 = zlen z) by (destruct Hs1 as [Hp1 _]; by rewrite (Permutation_length Hp1)).
      destruct (restore_ok z1 1 (l - 1)) as (z2 & E2 & Hs2 & Hh2); [lia | lia | lia | |].
      { intros i c Hi Hc Hcl. unfold child_of in Hc. rewrite !Kk by lia.
        destruct (Z.eqb_spec c l); [lia|]. destruct (Z.eqb_spec c 1); [lia|]. destruct (Z.eqb_spec i l); [lia|].
        destruct (Z.eqb_spec i 1); [lia|]. by apply Hh'; [lia | | lia]. }
      exists z2. split; [done|]. replace (n - (k + 1)) with (l - 1) by lia. split; [|split; [done|]].
      * eapply same_trans; [by split|]. eapply same_trans; (eapply same_weaken; [|eassumption]); lia.
      * destruct Hs2 as (_ & O2 & A2). assert (Ko : forall j, l - 1 < j -> key_at z2 j = key_at z1 j)
          by (intros j Hj; unfold key_at; by rewrite O2).
        intros i j Hi Hj. rewrite (Ko j) by lia.
        assert (Hroot : forall i, 1 <= i <= l -> key_at z i <= key_at z 1) by (intros; by apply (heap_root z l)).
        destruct (decide (i <= l - 1)) as [Hil|Hil].
        -- apply (A2 (fun a => key a <= key_at z1 j)); [|lia]. intros i' Hi'. change (key (at_pos z1 i')) with (key_at z1 i').
           rewrite !Kk by lia. destruct (Z.eqb_spec i' l); [lia|]. destruct (Z.eqb_spec j l) as [->|Hjl].
           ++ destruct (Z.eqb_spec i' 1); apply Hroot; lia.
           ++ destruct (Z.eqb_spec j 1); [lia|]. destruct (Z.eqb_spec i' 1); apply Ho; lia.
        -- rewrite Ko by lia. rewrite !Kk by lia. destruct (Z.eqb_spec j l); [lia|]. destruct (Z.eqb_spec j 1); [lia|].
           destruct (Z.eqb_spec i l); [apply Ho; lia|]. destruct (Z.eqb_spec i 1); [lia|]. apply Ho; lia.
    + exists z. split; [done|]. split; [done|]. intros i j Hi Hj. destruct (decide (i = j)) as [->|]; [lia|].
      apply Ho; lia.
Qed.
