(* ===== verification/JobDeal.v ===== *)
(** * The views of a task

    What [MultiFileProcJobs] writes for a task: the views that were dealt to
    it, those with many attributes first.  Together the tasks get every view
    once. *)

From Stdlib Require Import Permutation.
From S2P Require Import Prelude Rbt DataCube JobPool JobBits JobSplit JobSort.

(** ** The order of dealing *)

(** The task that gets the [k]-th view: forwards and backwards in turn *)
Definition snake (n k : Z) : Z := let r := k mod (2 * n) in if r <? n then r else 2 * n - 1 - r.

Lemma snake_range n k : 0 < n -> 0 <= snake n k < n.
Proof. intros Hn. unfold snake. pose proof (Z.mod_pos_bound k (2 * n)). destruct (Z.ltb_spec (k mod (2 * n)) n); lia. Qed.

(** The state of the dealer: with one task the direction does not matter. *)
Definition at_turn (n k p : Z) (d : bool) : Prop :=
  p = snake n k /\ (1 < n -> d = negb (k mod (2 * n) <? n)) /\ (n = 1 -> d = false).

Lemma next_task_ok n k p d : 0 < n <= MAX_NUMBER_OF_TASKS -> 0 <= k -> at_turn n k p d ->
  exists p' d', next_task n p d = (p', d') /\ at_turn n (k + 1) p' d'.
Proof.
  unfold MAX_NUMBER_OF_TASKS. intros Hn Hk (-> & Hd & H1). unfold next_task. rewrite (unsigned_small 32 (n - 1)) by lia.
  destruct (decide (n = 1)) as [->|].
  - rewrite H1 by done. assert (E : forall j, snake 1 j = 0) by (intros j; pose proof (snake_range 1 j); lia).
    rewrite E. cbn. do 2 eexists. split; [reflexivity|]. split; [by rewrite E|]. split; [lia | done].
  - rewrite Hd by lia. unfold at_turn, snake. pose proof (Z.mod_pos_bound k (2 * n) ltac:(lia)) as Hr.
    set (r := k mod (2 * n)) in *.
    assert (E : (k + 1) mod (2 * n) = if r =? 2 * n - 1 then 0 else r + 1).
    { rewrite <- Z.add_mod_idemp_l by lia. fold r. destruct (Z.eqb_spec r (2 * n - 1)) as [->|].
      - replace (2 * n - 1 + 1) with (1 * (2 * n)) by lia. by rewrite Z.mod_mul by lia.
      - apply Z.mod_small. lia. }
    rewrite E. destruct (Z.ltb_spec r n); cbn [negb andb].
    + destruct (Z.eqb_spec r (n - 1)); cbn [andb].
      * destruct (Z.eqb_spec r 0); [lia|]. do 2 eexists. split; [reflexivity|].
        destruct (Z.eqb_spec r (2 * n - 1)); [lia|]. destruct (Z.ltb_spec (r + 1) n); [lia|]. repeat split; (lia || done).
      * rewrite unsigned_small by lia. do 2 eexists. split; [reflexivity|].
        destruct (Z.eqb_spec r (2 * n - 1)); [lia|]. destruct (Z.ltb_spec (r + 1) n); [|lia]. repeat split; (lia || done).
    + destruct (Z.eqb_spec (2 * n - 1 - r) 0); cbn [andb].
      * do 2 eexists. split; [reflexivity|]. destruct (Z.eqb_spec r (2 * n - 1)); [|lia].
        destruct (Z.ltb_spec 0 n); [|lia]. repeat split; (lia || done).
      * rewrite unsigned_small by lia. do 2 eexists. split; [reflexivity|]. destruct (Z.eqb_spec r (2 * n - 1)); [lia|].
        destruct (Z.ltb_spec (r + 1) n); [lia|]. repeat split; (lia || done).
Qed.

(** The views of a task, the list beginning with the [k]-th *)
Fixpoint dealt (n t k : Z) (l : list item) : list item :=
  match l with [] => [] | x :: l => (if snake n k =? t then [x] else []) ++ dealt n t (k + 1) l end.

Lemma dealt_snoc n t k l x : dealt n t k (l ++ [x]) = dealt n t k l ++ (if snake n (k + zlen l) =? t then [x] else []).
Proof.
  revert k. induction l as [|y l IH]; intros k; cbn [app dealt length].
  - rewrite Z.add_0_r. by rewrite app_nil_r.
  - rewrite IH, <- app_assoc. by replace (k + 1 + zlen l) with (k + Z.of_nat (S (length l))) by lia.
Qed.

Lemma dealt_length n t k l : (length (dealt n t k l) <= length l)%nat.
Proof.
  revert k. induction l as [|x l IH]; intros k; cbn [dealt]; [done|]. rewrite length_app. specialize (IH (k + 1)).
  destruct (_ =? _); cbn [length]; lia.
Qed.

(** The tasks get every view once. *)
Lemma dealt_all n k l : 0 < n -> concat (map (fun t => dealt n t k l) (seqZ 0 n)) ≡ₚ l.
Proof.
  intros Hn. revert k. induction l as [|x l IH]; intros k.
  - cbn [dealt]. induction (seqZ 0 n); [done|]. cbn. done.
  - etransitivity; [|apply perm_skip, (IH (k + 1))]. cbn [dealt]. pose proof (snake_range n k Hn) as Hs. set (s := snake n k) in *. clearbody s.
    assert (Hseq : seqZ 0 n = seqZ 0 s ++ s :: seqZ (s + 1) (n - s - 1)).
    { replace n with (s + (1 + (n - s - 1))) at 1 by lia. rewrite seqZ_app by lia. f_equal.
      rewrite Z.add_0_l, seqZ_cons by lia. f_equal. f_equal; lia. }
    assert (Hne : forall a m, (forall t, a <= t < a + m -> t <> s) ->
      map (fun t => (if s =? t then [x] else []) ++ dealt n t (k + 1) l) (seqZ a m) = map (fun t => dealt n t (k + 1) l) (seqZ a m)).
    { intros a m H. apply map_ext_in. intros t Ht. apply base.list_elem_of_In, elem_of_seqZ in Ht.
      destruct (Z.eqb_spec s t); [|done]. exfalso. apply (H t); [lia | done]. }
    rewrite Hseq, !map_app, !concat_app. cbn [map concat]. rewrite !Hne by lia. rewrite Z.eqb_refl. cbn [app].
    symmetry. apply Permutation_middle.
Qed.

(** ** Counting ones *)

(** The tuple as it is written, and the 32-bit tuple that becomes of it *)
Definition aligned (nd x : Z) : Z := u64 (Z.shiftl x (64 - nd)).

Lemma aligned_bits nd x i : 1 <= nd <= 32 -> 1 <= i <= nd -> bits32 (tuple32 (aligned nd x) nd) i = Z.testbit x (nd - i).
Proof.
  intros Hn Hi. rewrite tuple32_bits by lia. destruct (Z.leb_spec i nd); [|lia]. cbn [andb]. unfold bits64, aligned.
  rewrite unsigned_testbit by lia. destruct (Z.ltb_spec (64 - i) 64); [|lia]. cbn [andb]. rewrite Z.shiftl_spec by lia.
  f_equal. lia.
Qed.

Lemma countTupleOnes_ok x nd : 1 <= nd <= 32 -> countTupleOnes x nd = Ok (ones nd (tuple32 (aligned nd x) nd)).
Proof.
  intros Hn. unfold countTupleOnes. destruct (for_range_inv
    (fun i '(cnt, ob) => cnt = zlen (attrs (fun i => Z.testbit x (i - 1)) (Z.to_nat i)) /\ ob = 2 ^ i)
    (fun _ '(cnt, ob) => Ok (if negb (Z.land x ob =? 0) then cnt + 1 else cnt, u64 (Z.shiftl ob 1))) 0 nd (0, 1))
    as ([cnt ob] & -> & -> & _); [lia | done | |].
  - intros i [cnt ob] Hi [-> ->]. eexists. split; [reflexivity|]. rewrite land_pow2 by lia.
    replace (Z.to_nat (i + 1)) with (S (Z.to_nat i)) by lia. cbn [attrs]. rewrite length_app.
    replace (Z.of_nat (S (Z.to_nat i)) - 1) with i by lia. split; [destruct (Z.testbit x i); cbn [length]; lia|].
    rewrite Z.shiftl_mul_pow2, <- Z.pow_add_r by lia. apply unsigned_small.
    split; [apply Z.pow_nonneg; lia | apply Z.pow_lt_mono_r; lia].
  - cbn [mbind res_bind]. f_equal. unfold ones. f_equal. rewrite <- attrs_mirror. f_equal. apply attrs_ext. intros i Hi.
    rewrite aligned_bits by lia. f_equal. lia.
Qed.

(** ** Dealing *)

Section Deal.
Context (nTasks t : Z) (x : list item) (n : Z) (memory : list Z).
Hypothesis Htasks : 0 < nTasks <= MAX_NUMBER_OF_TASKS.
Hypothesis Hn : 0 <= n <= zlen x.
Hypothesis Hsmall : n < 2 ^ 32.
Hypothesis Hmem : n <= zlen memory.

(** The first [k] views, the last element of [x] first *)
Definition taken (k : Z) : list item := take (Z.to_nat k) (reverse (take (Z.to_nat n) x)).

Lemma taken_succ k : 0 <= k < n -> taken (k + 1) = taken k ++ [zth no_item x (n - 1 - k)].
Proof.
  intros Hk. unfold taken. replace (Z.to_nat (k + 1)) with (S (Z.to_nat k)) by lia.
  apply take_S_r. rewrite reverse_lookup by (rewrite length_take; lia). rewrite length_take, lookup_take_lt by lia.
  destruct (lookup_lt_is_Some_2 x (Z.to_nat n `min` length x - S (Z.to_nat k))%nat) as [v Hv]; [lia|].
  rewrite Hv. f_equal. unfold zth. symmetry. apply nth_lookup_Some. rewrite <- Hv. f_equal. lia.
Qed.

Lemma taken_length k : 0 <= k <= n -> zlen (taken k) = k.
Proof. intros Hk. unfold taken. rewrite length_take, length_reverse, length_take. lia. Qed.

Definition dealt_ok (k : Z) (s : deal) : Prop :=
  at_turn nTasks k (pn s) (direction s) /\
  (let l := map tuple (dealt nTasks t 0 (taken k)) in gbuf s = l ++ drop (length l) memory /\ gbi s = zlen l) /\
  (zlen (nGroupbys s) = MAX_NUMBER_OF_TASKS /\
   forall i, 0 <= i < nTasks -> zth 0 (nGroupbys s) i = zlen (dealt nTasks i 0 (taken k))) /\
  zlen (vszs s) = MAX_NUMBER_OF_TASKS.

Lemma deal_items_ok ns vs : zlen ns = MAX_NUMBER_OF_TASKS -> zlen vs = MAX_NUMBER_OF_TASKS ->
  (forall i, 0 <= i < nTasks -> zth 0 ns i = 0) ->
  exists s, deal_items nTasks t n x (Deal 0 false memory 0 ns vs) = Ok s /\ dealt_ok n s.
Proof.
  intros Hns Hvs Hz. unfold deal_items.
  destruct (for_range_inv dealt_ok (fun k s => y ← x.[n - 1 - k]; deal_item nTasks t y s) 0 n (Deal 0 false memory 0 ns vs))
    as (s & E & H); [lia | | | by exists s].
  - split; [|split; [|split]]; cbn [pn direction gbuf gbi nGroupbys vszs]; try done.
    unfold at_turn, snake. rewrite Z.mod_0_l by lia. destruct (Z.ltb_spec 0 nTasks); [|lia]. done.
  - intros k s Hk (Hturn & (Hg & Hi) & (Hnl & Hns') & Hvl). rewrite (aget_ok no_item x (n - 1 - k)), bind_Ok by lia.
    set (y := zth no_item x (n - 1 - k)) in *.
    destruct (next_task_ok nTasks k _ _ Htasks ltac:(lia) Hturn) as (p' & d' & En & Hturn').
    pose proof Hturn as (Ep & _). pose proof (snake_range nTasks k ltac:(lia)) as Hp. rewrite <- Ep in Hp.
    assert (Ed : forall i, dealt nTasks i 0 (taken (k + 1)) = dealt nTasks i 0 (taken k) ++ (if pn s =? i then [y] else [])).
    { intros i. rewrite taken_succ, dealt_snoc, taken_length, Ep by lia. done. }
    set (l := map tuple (dealt nTasks t 0 (taken k))) in *.
    assert (Hl : zlen l <= k /\ (length l < length memory)%nat).
    { unfold l. rewrite length_map. pose proof (dealt_length nTasks t 0 (taken k)). pose proof (taken_length k ltac:(lia)). lia. }
    destruct Hl as [Hlk Hl]. unfold deal_item.
    assert (Eg : exists g k', (if pn s =? t then g ← (gbuf s).[gbi s <- tuple y]; Ok (g, u32 (gbi s + 1)) else Ok (gbuf s, gbi s))
      = Ok (g, k') /\ (let l := map tuple (dealt nTasks t 0 (taken (k + 1))) in g = l ++ drop (length l) memory /\ k' = zlen l)).
    { rewrite Ed, map_app. fold l. destruct (pn s =? t).
      - rewrite Hi, Hg, fill_next by done. rewrite bind_Ok. do 2 eexists. split; [reflexivity|]. split; [done|].
        cbn [map]. rewrite length_app. cbn [length]. rewrite unsigned_small; lia.
      - do 2 eexists. split; [reflexivity|]. cbn [map]. by rewrite app_nil_r. }
    destruct Eg as (g & k' & -> & Hgk). cbn [mbind res_bind].
    unfold MAX_NUMBER_OF_TASKS in *.
    rewrite (aget_ok 0 (nGroupbys s)), bind_Ok, aset_ok, bind_Ok, (aget_ok 0 (vszs s)), bind_Ok, aset_ok, bind_Ok, En by lia.
    eexists. split; [reflexivity|]. split; [exact Hturn'|]. split; [exact Hgk|].
    cbn [nGroupbys vszs]. rewrite !zlen_insert. split; [split; [done|] | done]. intros i Hi'. rewrite zth_insert, Ed, length_app by lia.
    rewrite !Hns' by lia. destruct (Z.eqb_spec i (pn s)) as [->|].
    + rewrite Z.eqb_refl. cbn [length].
      pose proof (dealt_length nTasks (pn s) 0 (taken k)). pose proof (taken_length k ltac:(lia)).
      rewrite unsigned_small by lia. lia.
    + destruct (Z.eqb_spec (pn s) i); [lia|]. cbn [length]. lia.
Qed.
End Deal.

(** ** Writing *)

Lemma same_take l x x' : 0 <= l <= zlen x -> same_upto l x x' -> take (Z.to_nat l) x' ≡ₚ take (Z.to_nat l) x.
Proof.
  intros Hl (Hp & Ho & _). assert (E : drop (Z.to_nat l) x' = drop (Z.to_nat l) x).
  { pose proof (Permutation_length Hp). apply (zth_ext no_item); [rewrite !length_drop; lia|]. rewrite length_drop. intros i Hi.
    specialize (Ho (l + i + 1) ltac:(lia)). unfold at_pos in Ho. unfold zth in *. rewrite !nth_lookup in *.
    rewrite !lookup_drop. replace (Z.to_nat (l + i + 1 - 1)) with (Z.to_nat l + Z.to_nat i)%nat in Ho by lia. done. }
  apply (Permutation_app_inv_r (drop (Z.to_nat l) x)). rewrite take_drop, <- E, take_drop. done.
Qed.

(** Those with many attributes come first. *)
Definition parents_first (nd : Z) (zs : list Z) : Prop :=
  forall i j, 0 <= i <= j -> j < zlen zs ->
    ones nd (tuple32 (aligned nd (zth 0 zs j)) nd) <= ones nd (tuple32 (aligned nd (zth 0 zs i)) nd).

Section Write.
Context (can_write : nat -> bool) (nd : Z).
Hypothesis Hnd : 1 <= nd <= 32.
Hypothesis Hwrite : forall i, can_write i = true.

(** The array [toptr] is sorted and written from the end. *)
Lemma write_sorted_ok toptr ts : zlen ts <= zlen toptr -> zlen ts < 2 ^ 32 ->
  (forall j, 0 <= j < zlen ts -> zth no_item toptr j = Item (ones nd (tuple32 (aligned nd (zth 0 ts j)) nd)) (zth 0 ts j)) ->
  exists zs, (t ← vszsort toptr (zlen ts);
      for_range 0 (zlen ts) (fun j f => x ← t.[zlen ts - 1 - j]; y ← shl 64 (tuple x) (64 - nd);
        Ok (write_tuple can_write f (swap8 y))) []) = Ok (map (fun z => swap8 (aligned nd z)) zs) /\
    zs ≡ₚ ts /\ parents_first nd zs.
Proof.
  intros Hl Hs Ht. destruct (vszsort_ok toptr (zlen ts) ltac:(lia) Hs) as (x & -> & Hx & Hsort). rewrite bind_Ok.
  pose proof Hx as (Hp & _ & Ha). pose proof (Permutation_length Hp) as Hlen.
  pose proof (same_take (zlen ts) toptr x ltac:(lia) Hx) as Htake. rewrite Nat2Z.id in Htake.
  set (zs := map tuple (reverse (take (length ts) x))).
  assert (Hz : forall j, 0 <= j < zlen ts -> zth 0 zs j = tuple (at_pos x (zlen ts - j))).
  { intros j Hj. unfold zs, zth at 1. rewrite nth_lookup, list_lookup_fmap, reverse_lookup by (rewrite length_take; lia).
    rewrite length_take, lookup_take_lt by lia. unfold at_pos, zth. rewrite nth_lookup.
    replace (length ts `min` length x - S (Z.to_nat j))%nat with (Z.to_nat (zlen ts - j - 1)) by lia.
    destruct (lookup_lt_is_Some_2 x (Z.to_nat (zlen ts - j - 1))) as [v ->]; [lia | done]. }
  assert (Hzl : zlen zs = zlen ts) by (unfold zs; rewrite length_map, length_reverse, length_take; lia).
  exists zs. split; [|split].
  - destruct (for_range_inv (fun j f => f = map (fun z => swap8 (aligned nd z)) (take (Z.to_nat j) zs))
      (fun j f => y ← x.[zlen ts - 1 - j]; z ← shl 64 (tuple y) (64 - nd); Ok (write_tuple can_write f (swap8 z)))
      0 (zlen ts) []) as (f & -> & ->); [lia | done | |].
    + intros j f Hj ->. rewrite (aget_ok no_item), bind_Ok, shl_ok, bind_Ok by lia. eexists. split; [reflexivity|].
      unfold write_tuple. rewrite Hwrite. replace (Z.to_nat (j + 1)) with (S (Z.to_nat j)) by lia.
      rewrite (take_S_r zs _ (zth 0 zs j)), map_app.
      * cbn [map]. rewrite Hz by lia. unfold at_pos, aligned. by replace (zlen ts - 1 - j) with (zlen ts - j - 1) by lia.
      * destruct (lookup_lt_is_Some_2 zs (Z.to_nat j)) as [v Hv]; [lia|]. rewrite Hv. f_equal. symmetry.
        unfold zth. by apply nth_lookup_Some.
    + rewrite take_ge by lia. done.
  - unfold zs. rewrite (reverse_Permutation (take (length ts) x)), Htake.
    replace (map tuple (take (length ts) toptr)) with ts; [done|].
    apply (zth_ext 0); [rewrite length_map, length_take; lia|]. intros j Hj. specialize (Ht j Hj).
    unfold zth at 2. rewrite nth_lookup, list_lookup_fmap, lookup_take_lt by lia. unfold zth at 1 in Ht. rewrite nth_lookup in Ht.
    destruct (lookup_lt_is_Some_2 toptr (Z.to_nat j)) as [v Hv]; [lia|]. rewrite Hv in Ht |- *. cbn in Ht |- *. by rewrite Ht.
  - intros i j Hi Hj. rewrite Hzl in Hj. rewrite !Hz by lia.
    assert (Hk : forall k, 1 <= k <= zlen ts -> key (at_pos x k) = ones nd (tuple32 (aligned nd (tuple (at_pos x k))) nd)).
    { apply (Ha (fun a => key a = ones nd (tuple32 (aligned nd (tuple a)) nd))). intros k Hk. unfold at_pos. by rewrite Ht by lia. }
    rewrite <- !Hk by lia. apply Hsort; lia.
Qed.
End Write.

(** ** A task *)

Section Task.
Context (malloc : Z -> option (list item)) (can_write : nat -> bool).
Context (nd nTasks t : Z) (x : list item) (n : Z) (memory counts sizes : list Z).
Hypothesis Hmalloc : forall n l, malloc n = Some l -> zlen l = n.
Hypothesis Hwrite : forall i, can_write i = true.
Hypothesis Hnd : 1 <= nd <= 32.
Hypothesis Htasks : 0 < nTasks <= MAX_NUMBER_OF_TASKS.
Hypothesis Htask : 0 <= t < nTasks.
Hypothesis Hn : 0 <= n <= zlen x.
Hypothesis Hsmall : n < 2 ^ 32.
Hypothesis Hmem : n <= zlen memory.
Hypothesis Hcounts : zlen counts = MAX_NUMBER_OF_TASKS.
Hypothesis Hsizes : zlen sizes = MAX_NUMBER_OF_TASKS.

(** The views that are dealt to the task, the last one first *)
Definition task_views : list Z := map tuple (dealt nTasks t 0 (reverse (take (Z.to_nat n) x))).

Lemma clear_counts_ok c : zlen c = MAX_NUMBER_OF_TASKS ->
  exists c', clear_counts nTasks c = Ok c' /\ zlen c' = MAX_NUMBER_OF_TASKS /\ forall i, 0 <= i < nTasks -> zth 0 c' i = 0.
Proof.
  intros Hc. unfold clear_counts. destruct (for_range_map 0 (fun _ => 0) (fun i n => n.[i <- 0]) nTasks c) as (c' & E & L & H);
    [lia | done |].
  exists c'. split; [done|]. split; [lia|]. intros i Hi. rewrite H by lia. by destruct (Z.ltb_spec i nTasks); [|lia].
Qed.

Lemma max_views_ok c : zlen c = MAX_NUMBER_OF_TASKS ->
  exists m, max_views nTasks c = Ok m /\ 0 <= m /\ forall i, 0 <= i < nTasks -> zth 0 c i <= m.
Proof.
  intros Hc. unfold max_views.
  destruct (for_range_inv (fun k m => 0 <= m /\ forall i, 0 <= i < k -> zth 0 c i <= m)
    (fun i m => x ← c.[i]; Ok (if m <? x then x else m)) 0 nTasks 0) as (m & E & H); [lia | split; lia | | by exists m].
  intros i m Hi [Hm H]. rewrite (aget_ok 0), bind_Ok by lia. eexists. split; [reflexivity|].
  split; [destruct (Z.ltb_spec m (zth 0 c i)); lia|]. intros j Hj.
  destruct (decide (j = i)) as [->|]; [destruct (Z.ltb_spec m (zth 0 c i)); lia|].
  specialize (H j ltac:(lia)). destruct (Z.ltb_spec m (zth 0 c i)); lia.
Qed.

Lemma MultiFileProcJobs_ok : exists r, MultiFileProcJobs malloc can_write nd nTasks t x n memory counts sizes = Ok r /\
  ((r = None /\ exists n, 0 <= n /\ malloc n = None) \/ exists zs, r = Some (map (fun z => swap8 (aligned nd z)) zs) /\ zs ≡ₚ task_views /\ parents_first nd zs).
Proof.
  unfold MultiFileProcJobs. destruct (clear_counts_ok counts Hcounts) as (ns & -> & Ln & Zn). rewrite bind_Ok.
  destruct (clear_counts_ok sizes Hsizes) as (vs & -> & Lv & _). rewrite bind_Ok.
  destruct (deal_items_ok nTasks t x n memory Htasks Hn Hsmall Hmem ns vs Ln Lv Zn)
    as (s & -> & _ & (Hg & _) & (Lg & Hns) & _). rewrite bind_Ok.
  assert (Et : taken x n n = reverse (take (Z.to_nat n) x))
    by (unfold taken; apply take_ge; rewrite length_reverse, length_take; lia).
  rewrite Et in Hg, Hns. fold task_views in Hg.
  destruct (max_views_ok (nGroupbys s) Lg) as (maxn & -> & Hmax0 & Hmax). rewrite bind_Ok.
  destruct (malloc maxn) as [toptr|] eqn:Em; [|exists None; split; [done | left; split; [done | by exists maxn]]].
  apply Hmalloc in Em. specialize (Hmax t Htask). rewrite Hns in Hmax by lia.
  assert (El : zlen (dealt nTasks t 0 (reverse (take (Z.to_nat n) x))) = zlen task_views) by (unfold task_views; by rewrite length_map).
  rewrite El in Hmax. pose proof (dealt_length nTasks t 0 (reverse (take (Z.to_nat n) x))) as Hd. rewrite length_reverse, length_take in Hd.
  assert (Ew : exists zs, write_task can_write nd t s toptr = Ok (map (fun z => swap8 (aligned nd z)) zs) /\
    zs ≡ₚ task_views /\ parents_first nd zs).
  { unfold write_task, onessort. rewrite (aget_ok 0), bind_Ok by (rewrite Lg; lia). rewrite Hns, El by lia.
    destruct (for_range_inv (fun k y => zlen y = zlen toptr /\ forall j, 0 <= j < k ->
        zth no_item y j = Item (ones nd (tuple32 (aligned nd (zth 0 task_views j)) nd)) (zth 0 task_views j))
      (fun j y => x ← (gbuf s).[j]; o ← countTupleOnes x nd; y.[j <- Item o x]) 0 (zlen task_views) toptr)
      as (y & -> & Ly & Hy); [lia | split; [done | lia] | |].
    - intros j y Hj [Ly Hy]. rewrite Hg, aget_app_l, (aget_ok 0), bind_Ok by lia.
      rewrite countTupleOnes_ok, bind_Ok, aset_ok by lia. eexists. split; [reflexivity|]. rewrite zlen_insert. split; [done|].
      intros i Hi. rewrite zth_insert by lia. destruct (Z.eqb_spec i j) as [->|]; [done|]. apply Hy. lia.
    - rewrite bind_Ok. apply write_sorted_ok; try done; lia. }
  destruct Ew as (zs & Ew & Hzs). eexists. split; [|right; exists zs; split; [reflexivity | exact Hzs]].
  rewrite (for_range_app 0 t nTasks) by lia.
  assert (E1 : forall a b (f : list Z), (forall i, a <= i < b -> i <> t) ->
    for_range a b (fun i f => if i =? t then write_task can_write nd t s toptr else Ok f) f = Ok f).
  { intros a b f Hi. destruct (decide (a <= b)) as [Hab|]; [|by apply for_range_empty; lia].
    destruct (for_range_inv (fun _ g => g = f) (fun i f => if i =? t then write_task can_write nd t s toptr else Ok f) a b f)
      as (g & -> & ->); [done | done | | done].
    intros i g Hi' ->. exists f. destruct (Z.eqb_spec i t); [exfalso; by apply (Hi i)|]. done. }
  rewrite Ew in E1. rewrite Ew, E1, bind_Ok, for_range_step, Z.eqb_refl, bind_Ok, E1, bind_Ok by lia. done.
Qed.
End Task.
