(* ===== verification/ViewSizes.v ===== *)
(** * The file of view sizes

    The list of views that the data cube benchmark computes is a text: for
    each view the words "Selection:", its attributes, "View", "Size:" and the
    number of its rows.  [PartitionCube] (jobcntl.c) and
    [ViewSizesVerification] (extbuild.c) read it in the same way; here are
    the loop they share, and the two functions.

    The text is the list of its words, as [fscanf] with ["%s"] reads them. *)

From Stdlib Require Import Permutation Ascii.
From stdpp Require Import strings gmap.
From S2P Require Import Prelude Rbt DataCube JobPool JobBits JobSplit JobSort JobDeal.

(** ** Reading *)

Definition digit (c : Ascii.ascii) : option Z :=
  let d := Z.of_N (Ascii.N_of_ascii c) - 48 in if (0 <=? d) && (d <=? 9) then Some d else None.

Fixpoint atoi_digits (sign : Z) (s : string) (acc : Z) : res Z :=
  match s with
  | String.EmptyString => Ok acc
  | String.String c s => match digit c with Some d => acc ← chk 32 (10 * acc + sign * d); atoi_digits sign s acc | None => Ok acc end
  end.

(** [atoi] of a word, without white space *)
Definition atoi (s : string) : res Z :=
  match s with
  | String.EmptyString => Ok 0
  | String.String c r =>
      if decide (c = "-"%char) then atoi_digits (-1) r 0
      else if decide (c = "+"%char) then atoi_digits 1 r 0 else atoi_digits 1 s 0
  end.

(** The inner loop: it does not stop at the end of the text, but goes on
    storing the last word until the array is full and beyond. *)
Fixpoint read_selection (words : list string) (sel : list Z) (k : Z) : res (list string * list Z * Z) :=
  match words with
  | [] => Err OutOfBounds
  | w :: words =>
      if decide (w = "View"%string) then Ok (words, sel, k)
      else x ← atoi w; sel ← sel.[k <- u32 x]; read_selection words sel (k + 1)
  end.

Section Read.
Context {S : Type} (body : Z -> Z -> S -> res (S * bool)).

(** [body] gets the tuple and the size of a view; [true] leaves the loop.  At
    the end of the text the size is the [atoi] of "Size:". *)
Fixpoint read_views (fuel : nat) (words : list string) (sel : list Z) (k : Z) (s : S) : res S :=
  match fuel with
  | O => Err OutOfFuel
  | Datatypes.S fuel =>
      match words with
      | [] => Ok s
      | w :: words =>
          if decide (w = "Selection:"%string) then
            '(words, sel, k) ← read_selection words sel k; read_views fuel words sel k s
          else if decide (w = "Size:"%string) then
            let '(w, words) := match words with [] => (w, []) | w :: words => (w, words) end in
            sz ← atoi w;
            tx ← CreateBinTuple sel k;
            '(s, stop) ← body tx sz s;
            if (stop : bool) then Ok s else read_views fuel words sel 0 s
          else read_views fuel words sel k s
      end
  end.
End Read.

(** ** [PartitionCube] *)

Section Partition.
Context (malloc : Z -> option (list item)) (can_write : nat -> bool).

Definition store_view (nInputRecs : Z) (tx sz : Z) (s : list item * Z) : res (list item * Z * bool) :=
  let '(tuplesAndSizes, it) := s in
  let sz := u64 sz in
  let sz := if nInputRecs <? sz then nInputRecs else sz in
  t ← tuplesAndSizes.[it <- Item sz tx];
  Ok (t, u32 (it + 1), false).

(** [None] stands for the return codes other than zero; [sel] is the array on
    the stack. *)
Definition PartitionCube (nTopDims nInputRecs nViewLimit nTasks taskNumber : Z) (words : list string)
    (sel memory counts sizes : list Z) : res (option (list Z)) :=
  match malloc nViewLimit with
  | None => Ok None
  | Some t =>
      '(t, it) ← read_views (store_view nInputRecs) (S (length words)) words sel 0 (t, 0);
      t ← vszsort t it;
      t ← for_range 0 it (fun i t => x ← t.[i]; y ← shr 64 (tuple x) (64 - nTopDims); t.[i <- Item (key x) y]) t;
      MultiFileProcJobs malloc can_write nTopDims nTasks taskNumber t it memory counts sizes
  end.
End Partition.

(** ** [ViewSizesVerification] *)

Definition ADC_VERIFICATION_FAILED := 7.

(** The state is [verificationFailed] and the return code. *)
Definition check_view (nTopDims nInputRecs numberOfMadeViews : Z) (viewCounts : list Z) (tx sz : Z) (s : Z * Z) :
    res (Z * Z * bool) :=
  t ← shr 64 tx (64 - nTopDims);
  let failed := if numberOfMadeViews =? 0 then 1 else 0 in
  c ← viewCounts.[i32 t];
  if negb (c =? 0) && negb (c =? u32 sz) && negb (c =? nInputRecs) then Ok (1, ADC_VERIFICATION_FAILED, true)
  else Ok (failed, ADC_OK, false).

(** [viewCounts] is the memory pool as an array of 32-bit numbers. *)
Definition ViewSizesVerification (c : cube) (nViewLimit : Z) (words : list string) (sel viewCounts : list Z)
    (verificationFailed : Z) : res (Z * Z) :=
  let a := avp c in
  v ← for_range 0 (nViewLimit + 1) (fun i v => v.[i <- 0]) viewCounts;
  v ← for_range 0 (zlen (viewSizesFile c)) (fun i v => '(g, n) ← (viewSizesFile c).[i]; v.[g <- n]) v;
  read_views (check_view (nTopDims a) (nInputRecs a) (numberOfMadeViews c) v) (S (length words)) words sel 0
    (verificationFailed, ADC_OK).

(** Two views of three attributes *)
Definition ex_words : list string := ["Selection:"; "1"; "3"; "View"; "Size:"; "12"; "Selection:"; "2"; "View"; "Size:"; "5";
  "Total"; "in"; "bytes:"; "300"]%string.

Example ex_read : read_views (fun tx sz l => Ok (l ++ [(tx, sz)], false)) 20 ex_words (replicate 64 0) 0 [] =
  Ok [(0xA000000000000000, 12); (0x4000000000000000, 5)].
Proof. vm_compute. reflexivity. Qed.

Example ex_partition : PartitionCube (fun n => Some (replicate (Z.to_nat n) no_item)) (fun _ => true) 3 10 7 1 0 ex_words
  (replicate 64 0) (replicate 9 0) (replicate 256 0) (replicate 256 0) = Ok (Some [0xA0; 0x40]).
Proof. vm_compute. reflexivity. Qed.

(** ** The text *)

(** The words of a view: its attributes and its size *)
Definition entry_words (ws : list string) (e : list Z * Z) : Prop :=
  exists sw szw, ws = "Selection:"%string :: sw ++ ["View"%string; "Size:"%string; szw] /\
    Forall2 (fun w i => w <> "View"%string /\ atoi w = Ok i) sw (fst e) /\ atoi szw = Ok (snd e).

(** The words of a list of views, and others *)
Definition text_of (words : list string) (es : list (list Z * Z)) : Prop :=
  exists wss tail, words = concat wss ++ tail /\ Forall2 entry_words wss es /\
    Forall (fun w => w <> "Selection:"%string /\ w <> "Size:"%string) tail.

(** The attributes of a view, in increasing order *)
Definition selection_ok (nd : Z) (sel : list Z) : Prop :=
  sel <> [] /\ sel = attrs (fun i => bool_decide (i ∈ sel)) (Z.to_nat nd).

Definition bin_tuple (sel : list Z) : Z := foldl (fun t x => Z.lor t (2 ^ (64 - x))) 0 sel.

Lemma selection_range nd sel : 0 <= nd -> selection_ok nd sel -> Forall (fun i => 1 <= i <= nd) sel /\ zlen sel <= nd.
Proof.
  intros Hn [_ ->]. split.
  - eapply list.Forall_impl; [apply attrs_range|]. cbn. lia.
  - pose proof (attrs_length (fun i => bool_decide (i ∈ sel)) (Z.to_nat nd)). lia.
Qed.

Lemma bin_tuple_bits sel i : Forall (fun i => 1 <= i <= 64) sel -> 1 <= i <= 64 ->
  bits64 (bin_tuple sel) i = bool_decide (i ∈ sel).
Proof.
  intros Hs Hi. unfold bin_tuple.
  assert (H : forall t, bits64 (foldl (fun t x => Z.lor t (2 ^ (64 - x))) t sel) i = bits64 t i || bool_decide (i ∈ sel)).
  { induction Hs as [|x sel Hx Hs IH]; intros t; cbn [foldl].
    - by rewrite orb_false_r.
    - rewrite IH. unfold bits64. rewrite Z.lor_spec, Z.pow2_bits_eqb by lia. rewrite <- orb_assoc. f_equal.
      destruct (Z.eqb_spec (64 - x) (64 - i)); cbn [orb].
      + symmetry. apply bool_decide_eq_true. assert (i = x) as -> by lia. left.
      + apply bool_decide_ext. rewrite list.elem_of_cons. split; [by right | intros [->|]; [lia | done]]. }
  rewrite H. unfold bits64. by rewrite Z.testbit_0_l.
Qed.

Lemma bin_tuple_range sel : Forall (fun i => 1 <= i <= 64) sel -> 0 <= bin_tuple sel < 2 ^ 64.
Proof.
  intros Hs. unfold bin_tuple. assert (H : forall t, 0 <= t < 2 ^ 64 -> 0 <= foldl (fun t x => Z.lor t (2 ^ (64 - x))) t sel < 2 ^ 64).
  { induction Hs as [|x sel Hx Hs IH]; intros t Ht; cbn [foldl]; [done|]. apply IH.
    assert (0 <= 2 ^ (64 - x) < 2 ^ 64) by (split; [apply Z.pow_nonneg; lia | apply Z.pow_lt_mono_r; lia]).
    assert (Hpos : 0 <= Z.lor t (2 ^ (64 - x))) by (apply Z.lor_nonneg; lia). split; [done|].
    apply bits_bound; [lia | done |]. intros i Hi. rewrite Z.lor_spec, !(testbit_above 64) by lia. done. }
  by apply H.
Qed.

(** The attributes come back from the tuple. *)
Lemma bin_tuple_attrs nd sel : 1 <= nd <= 64 -> selection_ok nd sel -> attrs (bits64 (bin_tuple sel)) (Z.to_nat nd) = sel.
Proof.
  intros Hn Hs. destruct (selection_range nd sel ltac:(lia) Hs) as [Hr _]. destruct Hs as [_ Hs]. rewrite Hs at 2.
  apply attrs_ext. intros i Hi. apply bin_tuple_bits; [|lia]. eapply list.Forall_impl; [exact Hr|]. cbn. lia.
Qed.

Lemma CreateBinTuple_ok sel rest : Forall (fun i => 1 <= i <= 64) sel -> CreateBinTuple (sel ++ rest) (zlen sel) = Ok (bin_tuple sel).
Proof.
  intros Hs. unfold CreateBinTuple. destruct (for_range_inv (fun k t => t = bin_tuple (take (Z.to_nat k) sel))
    (fun i t => x ← (sel ++ rest).[i]; SetOneBit t (x - 1)) 0 (zlen sel) 0) as (t & -> & ->); [lia | done | |].
  - intros k t Hk ->. rewrite aget_app_l, (aget_ok 0), bind_Ok by lia. pose proof (zth_In 0 sel k Hk) as Hin.
    rewrite list.Forall_forall in Hs. specialize (Hs _ Hin). unfold SetOneBit. rewrite shr_ok, bind_Ok by lia.
    eexists. split; [reflexivity|]. change MLB with (2 ^ (64 - 1)). rewrite mask_shift by lia.
    replace (Z.to_nat (k + 1)) with (S (Z.to_nat k)) by lia. rewrite (take_S_r sel _ (zth 0 sel k)).
    + unfold bin_tuple. rewrite foldl_app. cbn [foldl]. do 2 f_equal. lia.
    + destruct (lookup_lt_is_Some_2 sel (Z.to_nat k)) as [v Hv]; [lia|]. rewrite Hv. f_equal. symmetry.
      by apply nth_lookup_Some.
  - by rewrite Nat2Z.id, firstn_all.
Qed.

(** ** Reading *)

Lemma read_selection_ok sw sel arr rest : Forall2 (fun w i => w <> "View"%string /\ atoi w = Ok i) sw sel ->
  Forall (fun i => 1 <= i <= 64) sel -> forall pre, (length pre + length sel <= length arr)%nat ->
  read_selection (sw ++ "View"%string :: rest) (pre ++ drop (length pre) arr) (zlen pre) =
    Ok (rest, (pre ++ sel) ++ drop (length (pre ++ sel)) arr, zlen (pre ++ sel)).
Proof.
  induction 1 as [|w i sw sel [Hw Ha] H IH]; intros Hs pre Hl; cbn [app read_selection].
  - by rewrite decide_True, app_nil_r by done.
  - apply list.Forall_cons in Hs as [Hi Hs]. cbn [length] in Hl. rewrite decide_False, Ha, bind_Ok by done.
    rewrite unsigned_small by lia. rewrite fill_next, bind_Ok by lia.
    replace (zlen pre + 1) with (zlen (pre ++ [i])) by (rewrite length_app; cbn [length]; lia).
    rewrite IH by (done || rewrite length_app; cbn [length]; lia). by rewrite <- !app_assoc.
Qed.

Section Fold.
Context {S : Type} (body : Z -> Z -> S -> res (S * bool)).

Fixpoint fold_views (es : list (list Z * Z)) (s : S) : res S :=
  match es with
  | [] => Ok s
  | (sel, sz) :: es => '(s, stop) ← body (bin_tuple sel) sz s; if (stop : bool) then Ok s else fold_views es s
  end.

Lemma read_tail tail : Forall (fun w => w <> "Selection:"%string /\ w <> "Size:"%string) tail ->
  forall fuel arr k s, (length tail < fuel)%nat -> read_views body fuel tail arr k s = Ok s.
Proof.
  induction 1 as [|w tail [H1 H2] _ IH]; intros [|fuel] arr k s Hf; cbn [length] in Hf; try lia; cbn [read_views]; [done|].
  rewrite !decide_False by done. apply IH. lia.
Qed.

Lemma read_views_ok nd words es arr s : 0 <= nd <= 64 -> nd <= zlen arr -> text_of words es ->
  Forall (fun e => selection_ok nd (fst e)) es ->
  read_views body (Datatypes.S (length words)) words arr 0 s = fold_views es s.
Proof.
  intros Hn Ha (wss & tail & -> & Hw & Ht) Hes.
  assert (H : forall fuel arr s, nd <= zlen arr -> (length (concat wss ++ tail) < fuel)%nat ->
    read_views body fuel (concat wss ++ tail) arr 0 s = fold_views es s); [|by apply H; [|lia]].
  clear arr s Ha. induction Hw as [|ws [sel sz] wss es (sw & szw & -> & Hsw & Hsz) _ IH]; intros fuel arr s Ha Hf.
  - by apply read_tail.
  - apply list.Forall_cons in Hes as [Hsel Hes]. cbn [fst snd] in Hsel, Hsw, Hsz.
    destruct (selection_range nd sel ltac:(lia) Hsel) as [Hr Hl].
    assert (Hr' : Forall (fun i => 1 <= i <= 64) sel) by (eapply list.Forall_impl; [exact Hr|]; cbn; lia).
    cbn [concat] in Hf |- *. rewrite !length_app in Hf. cbn [length] in Hf. rewrite length_app in Hf. cbn [length] in Hf.
    destruct fuel as [|[|fuel]]; [lia | lia |]. cbn [app read_views fold_views]. rewrite decide_True by done.
    rewrite <- !app_assoc. cbn [app].
    pose proof (read_selection_ok sw sel arr (["Size:"%string; szw] ++ concat wss ++ tail) Hsw Hr' []
      ltac:(cbn [length]; lia)) as E. rewrite drop_0 in E. cbn [app length] in E. change (Z.of_nat 0) with 0 in E. rewrite E. clear E. cbn [mbind res_bind]. rewrite decide_False, decide_True, Hsz, bind_Ok, CreateBinTuple_ok, bind_Ok by done.
    destruct (body (bin_tuple sel) sz s) as [[s' stop]|e]; cbn [mbind res_bind]; [|done].
    destruct stop; [done|]. apply IH; [done | |].
    + rewrite length_app, length_drop. lia.
    + rewrite length_app. lia.
Qed.
End Fold.

(** ** The partition *)

(** The 32-bit tuple of the views of a file of group-bys, and of a selection *)
Definition file_tuple (nd t : Z) : Z := tuple32 (swap8 t) nd.
Definition selection_tuple (nd : Z) (sel : list Z) : Z := tuple32 (bin_tuple sel) nd.

Lemma aligned_shift nd t : 1 <= nd <= 32 -> tuple32 (aligned nd (Z.shiftr t (64 - nd))) nd = tuple32 t nd.
Proof.
  intros Hn. apply bits32_eq; [apply tuple32_range | apply tuple32_range |]. intros i Hi.
  destruct (decide (i <= nd)) as [Hle|Hgt].
  - rewrite aligned_bits, tuple32_bits by lia. destruct (Z.leb_spec i nd); [|lia]. cbn [andb]. unfold bits64.
    rewrite Z.shiftr_spec by lia. f_equal. lia.
  - by rewrite !tuple32_bits by lia; destruct (Z.leb_spec i nd); [lia|].
Qed.

Lemma aligned_range nd x : 0 <= aligned nd x < 2 ^ 64.
Proof. apply unsigned_range. lia. Qed.

Lemma file_tuple_aligned nd x : file_tuple nd (swap8 (aligned nd x)) = tuple32 (aligned nd x) nd.
Proof. unfold file_tuple. by rewrite swap8_involutive by apply aligned_range. Qed.

Section PartitionOk.
Context (malloc : Z -> option (list item)) (can_write : nat -> bool).
Context (nd nInputRecs nTasks : Z) (words : list string) (es : list (list Z * Z)).
Hypothesis Hmalloc : forall n l, malloc n = Some l -> zlen l = n.
Hypothesis Hwrite : forall i, can_write i = true.
Hypothesis Hnd : 1 <= nd <= MAX_NUM_OF_DIMS.
Hypothesis Htasks : 0 < nTasks <= MAX_NUMBER_OF_TASKS.
Hypothesis Htext : text_of words es.
Hypothesis Hsel : Forall (fun e => selection_ok nd (fst e)) es.
Hypothesis Hlimit : zlen es <= 2 ^ nd - 1.

(** The views of the text, as they are stored, and after the shift *)
Definition stored (e : list Z * Z) : item :=
  Item (if nInputRecs <? u64 (snd e) then nInputRecs else u64 (snd e)) (bin_tuple (fst e)).
Definition shifted (x : item) : item := Item (key x) (Z.shiftr (tuple x) (64 - nd)).

Lemma limit_small : zlen es < 2 ^ 32.
Proof.
  assert (2 ^ nd <= 2 ^ 32) by (apply Z.pow_le_mono_r; unfold MAX_NUM_OF_DIMS in Hnd; lia). lia.
Qed.

Lemma store_views_ok arr : zlen es <= zlen arr ->
  fold_views (store_view nInputRecs) es (arr, 0) = Ok (map stored es ++ drop (length es) arr, zlen es).
Proof.
  intros Ha. pose proof limit_small as Hs. assert (H : forall l (pre : list item), (length pre + length l = length es)%nat ->
    fold_views (store_view nInputRecs) l (pre ++ drop (length pre) arr, zlen pre) =
      Ok ((pre ++ map stored l) ++ drop (length es) arr, zlen es)).
  { induction l as [|[sel sz] l IH]; intros pre Hl; cbn [length] in Hl; cbn [fold_views map].
    - rewrite app_nil_r. by replace (length pre) with (length es) by lia.
    - unfold store_view. change (Item _ (bin_tuple sel)) with (stored (sel, sz)).
      rewrite fill_next, bind_Ok by lia. cbn [mbind res_bind]. rewrite unsigned_small by lia.
      replace (zlen pre + 1) with (zlen (pre ++ [stored (sel, sz)])) by (rewrite length_app; cbn [length]; lia).
      rewrite IH by (rewrite length_app; cbn [length]; lia). by rewrite <- (app_assoc pre). }
  specialize (H es [] eq_refl). rewrite drop_0 in H. exact H.
Qed.

(** The views in the order of their size *)
Definition in_order (l : list item) : Prop :=
  l ≡ₚ map shifted (map stored es) /\ forall i j, 1 <= i <= j -> j <= zlen l -> key_at l i <= key_at l j.

Lemma sort_views_ok arr : zlen es <= zlen arr ->
  exists y t, vszsort (map stored es ++ drop (length es) arr) (zlen es) = Ok y /\
    for_range 0 (zlen es) (fun i t => x ← t.[i]; y ← shr 64 (tuple x) (64 - nd); t.[i <- Item (key x) y]) y = Ok t /\
    zlen t = zlen arr /\ in_order (take (length es) t).
Proof.
  intros Ha. pose proof limit_small as Hs. unfold MAX_NUM_OF_DIMS in Hnd. set (x := map stored es ++ drop (length es) arr).
  assert (Lx : zlen x = zlen arr) by (unfold x; rewrite length_app, length_map, length_drop; lia).
  destruct (vszsort_ok x (zlen es)) as (y & Ey & Hy & Hk); [lia | done|].
  pose proof (Permutation_length (proj1 Hy)) as Ly.
  pose proof (same_take (zlen es) x y ltac:(lia) Hy) as Ht. rewrite Nat2Z.id in Ht.
  assert (Ex : take (length es) x = map stored es) by (apply take_app_length'; by rewrite length_map). rewrite Ex in Ht.
  destruct (for_range_map no_item (fun i => shifted (zth no_item y i))
    (fun i t => x ← t.[i]; y ← shr 64 (tuple x) (64 - nd); t.[i <- Item (key x) y]) (zlen es) y) as (t & Eloop & Lt & Hz); [lia | |].
  { intros i s Hi Hl Hz. rewrite (aget_ok no_item), bind_Ok, shr_ok, bind_Ok, Hz by lia. done. }
  exists y, t. split; [done|]. split; [done|]. split; [lia|].
  assert (Et : take (length es) t = map shifted (take (length es) y)).
  { apply (zth_ext no_item); [rewrite length_map, !length_take; lia|]. rewrite length_take. intros i Hi.
    specialize (Hz i ltac:(lia)). destruct (Z.ltb_spec i (zlen es)); [|lia]. unfold zth in *. rewrite !nth_lookup in *.
    rewrite list_lookup_fmap, !lookup_take_lt, Hz by lia.
    destruct (lookup_lt_is_Some_2 y (Z.to_nat i)) as [v ->]; [lia | done]. }
  split; [by rewrite Et, Ht|]. rewrite length_take. intros i j Hi Hj.
  assert (K : forall k, 1 <= k <= zlen es -> key_at (take (length es) t) k = key_at y k).
  { intros k Hk'. unfold key_at, at_pos. specialize (Hz (k - 1) ltac:(lia)). destruct (Z.ltb_spec (k - 1) (zlen es)); [|lia].
    unfold zth in *. rewrite !nth_lookup in *. rewrite lookup_take_lt, Hz by lia. done. }
  rewrite !K by lia. apply Hk; lia.
Qed.

Lemma PartitionCube_ok : exists l, in_order l /\
  forall task sel memory counts sizes, 0 <= task < nTasks -> zlen sel = 64 -> zlen es <= zlen memory ->
    zlen counts = MAX_NUMBER_OF_TASKS -> zlen sizes = MAX_NUMBER_OF_TASKS ->
    exists r, PartitionCube malloc can_write nd nInputRecs (2 ^ nd - 1) nTasks task words sel memory counts sizes = Ok r /\
      ((r = None /\ exists n, 0 <= n /\ malloc n = None) \/
       exists zs, r = Some (map (fun z => swap8 (aligned nd z)) zs) /\
         zs ≡ₚ map tuple (dealt nTasks task 0 (reverse l)) /\ parents_first nd zs).
Proof.
  pose proof limit_small as Hs. unfold MAX_NUM_OF_DIMS in Hnd.
  destruct (malloc (2 ^ nd - 1)) as [arr|] eqn:Em.
  - pose proof (Hmalloc _ _ Em) as La. destruct (sort_views_ok arr ltac:(lia)) as (y & t & Ey & Et & Lt & Ht).
    exists (take (length es) t). split; [done|]. intros task sel memory counts sizes Htask Lsel Lm Lc Lz.
    unfold PartitionCube. rewrite Em, (read_views_ok _ nd words es), store_views_ok, bind_Ok by (done || lia).
    rewrite Ey, bind_Ok, Et, bind_Ok.
    destruct (MultiFileProcJobs_ok malloc can_write nd nTasks task t (zlen es) memory counts sizes) as (r & Er & Ho);
      try done; try lia.
    exists r. split; [exact Er|]. unfold task_views in Ho. rewrite Nat2Z.id in Ho. exact Ho.
  - destruct (sort_views_ok (map stored es)) as (y & t & _ & _ & _ & Ht); [by rewrite length_map|].
    exists (take (length es) t). split; [done|]. intros. exists None. unfold PartitionCube. rewrite Em. split; [done|].
    left. split; [done|]. exists (2 ^ nd - 1). split; [lia | done].
Qed.

(** The tuples of the views that a task gets *)
Lemma ordered_tuples l : in_order l ->
  map (fun x => tuple32 (aligned nd (tuple x)) nd) l ≡ₚ map (fun e => selection_tuple nd (fst e)) es.
Proof.
  intros [Hp _]. rewrite Hp, !map_map. apply (eq_ind_r (fun l => l ≡ₚ _) (Permutation_refl _)). apply map_ext. intros e.
  unfold shifted. cbn [tuple]. rewrite aligned_shift by (unfold MAX_NUM_OF_DIMS in Hnd; lia). done.
Qed.
End PartitionOk.

(** ** The property *)

Lemma choose_list {A} (d : A) (P : Z -> A -> Prop) n : 0 <= n -> (forall i, 0 <= i < n -> exists a, P i a) ->
  exists l, zlen l = n /\ forall i, 0 <= i < n -> P i (zth d l i).
Proof.
  intros Hn. rewrite <- (Z2Nat.id n Hn). generalize (Z.to_nat n). clear n Hn. induction n as [|n IH]; intros H.
  - exists []. split; [done | lia].
  - destruct IH as (l & Hl & Hi); [intros; apply H; lia|]. destruct (H (Z.of_nat n) ltac:(lia)) as [a Ha].
    exists (l ++ [a]). split; [rewrite length_app; cbn [length]; lia|]. intros i Hi'.
    destruct (decide (i = Z.of_nat n)) as [->|]; [by rewrite (zth_app_r d), Hl, Z.sub_diag by lia|].
    rewrite (zth_app_l d) by lia. apply Hi. lia.
Qed.

Lemma zth_map {A B} (da : A) (db : B) (f : A -> B) l i : 0 <= i < zlen l -> zth db (map f l) i = f (zth da l i).
Proof.
  intros Hi. unfold zth. rewrite (nth_indep _ db (f da)) by (rewrite length_map; lia). apply map_nth.
Qed.

Lemma concat_map_perm {A B} (f g : A -> list B) l : (forall a, a ∈ l -> f a ≡ₚ g a) -> concat (map f l) ≡ₚ concat (map g l).
Proof.
  induction l as [|a l IH]; intros H; cbn [map concat]; [done|].
  rewrite IH by (intros; apply H; by right). rewrite (H a); [done | left].
Qed.

(** C28: [PartitionCube] on a text that lists views, in any order and with any
    other words after them, divides them among the tasks: when [malloc] and
    [fwrite] do not fail, every task gets a file of group-bys, together they
    have every view exactly once, and in each of them views with more
    attributes come before views with fewer - so that a view comes after its
    parents. *)
Theorem partition_covers_views malloc can_write nd nInputRecs nTasks words es sel memory counts sizes :
  (forall n, 0 <= n -> exists l, malloc n = Some l) -> (forall n l, malloc n = Some l -> zlen l = n) ->
  (forall i, can_write i = true) ->
  1 <= nd <= MAX_NUM_OF_DIMS -> 0 < nTasks <= MAX_NUMBER_OF_TASKS ->
  text_of words es -> Forall (fun e => selection_ok nd (fst e)) es -> zlen es <= 2 ^ nd - 1 ->
  zlen sel = 64 -> zlen es <= zlen memory -> zlen counts = MAX_NUMBER_OF_TASKS -> zlen sizes = MAX_NUMBER_OF_TASKS ->
  exists fs, zlen fs = nTasks /\
    (forall task, 0 <= task < nTasks ->
      PartitionCube malloc can_write nd nInputRecs (2 ^ nd - 1) nTasks task words sel memory counts sizes =
        Ok (Some (zth [] fs task)) /\
      forall i j, 0 <= i <= j -> j < zlen (zth [] fs task) ->
        ones nd (file_tuple nd (zth 0 (zth [] fs task) j)) <= ones nd (file_tuple nd (zth 0 (zth [] fs task) i))) /\
    concat (map (fun task => map (file_tuple nd) (zth [] fs task)) (seqZ 0 nTasks)) ≡ₚ
      map (fun e => selection_tuple nd (fst e)) es.
Proof.
  intros Hm Hml Hw Hnd Ht Htext Hes Hlim Hsel Hmem Hc Hs. pose proof Hnd as Hnd'. unfold MAX_NUM_OF_DIMS in Hnd'.
  destruct (PartitionCube_ok malloc can_write nd nInputRecs nTasks words es Hml Hw Hnd Ht Htext Hes Hlim) as (l & Hl & H).
  destruct (choose_list [] (fun task f =>
      PartitionCube malloc can_write nd nInputRecs (2 ^ nd - 1) nTasks task words sel memory counts sizes = Ok (Some f) /\
      exists zs, f = map (fun z => swap8 (aligned nd z)) zs /\ zs ≡ₚ map tuple (dealt nTasks task 0 (reverse l)) /\
        parents_first nd zs) nTasks) as (fs & Lfs & Hfs); [lia | |].
  { intros task Htask. destruct (H task sel memory counts sizes Htask Hsel Hmem Hc Hs) as (r & E & [[_ (n & Hn & Em)]|(zs & -> & Hz)]).
    - destruct (Hm n Hn) as [? Em']. congruence.
    - eexists. split; [exact E|]. by exists zs. }
  exists fs. split; [done|]. split.
  - intros task Htask. destruct (Hfs task Htask) as (E & zs & Ef & _ & Hp). split; [exact E|]. rewrite Ef. intros i j Hi Hj.
    rewrite length_map in Hj. specialize (Hp i j Hi Hj). rewrite !(zth_map 0 0), !file_tuple_aligned by lia. exact Hp.
  - etransitivity; [|exact (ordered_tuples nd nInputRecs es Hnd l Hl)].
    etransitivity; [apply (concat_map_perm _ (fun t => map (fun x => tuple32 (aligned nd (tuple x)) nd) (dealt nTasks t 0 (reverse l))))|].
    + intros task Htask. apply elem_of_seqZ in Htask. destruct (Hfs task ltac:(lia)) as (_ & zs & -> & Hz & _).
      rewrite map_map, (map_ext _ (fun z => tuple32 (aligned nd z) nd)) by (intros; apply file_tuple_aligned).
      rewrite Hz, map_map. done.
    + rewrite <- (map_map (fun t => dealt nTasks t 0 (reverse l)) (map _)), <- concat_map, dealt_all by lia.
      by rewrite reverse_Permutation.
Qed.

Definition ex_malloc (n : Z) : option (list item) := if 0 <=? n then Some (replicate (Z.to_nat n) no_item) else None.

Lemma ex_text : text_of ex_words [([1; 3], 12); ([2], 5)].
Proof.
  exists [["Selection:"; "1"; "3"; "View"; "Size:"; "12"]; ["Selection:"; "2"; "View"; "Size:"; "5"]]%string,
    ["Total"; "in"; "bytes:"; "300"]%string.
  split; [reflexivity|]. split; [|repeat constructor; discriminate].
  constructor; [|constructor; [|constructor]].
  - exists ["1"; "3"]%string, "12"%string. repeat constructor; discriminate.
  - exists ["2"]%string, "5"%string. repeat constructor; discriminate.
Qed.

Lemma partition_covers_views_witness :
  exists fs, zlen fs = 2 /\
    (forall task, 0 <= task < 2 ->
      PartitionCube ex_malloc (fun _ => true) 3 10 (2 ^ 3 - 1) 2 task ex_words
        (replicate 64 0) (replicate 9 0) (replicate 256 0) (replicate 256 0) = Ok (Some (zth [] fs task)) /\
      forall i j, 0 <= i <= j -> j < zlen (zth [] fs task) ->
        ones 3 (file_tuple 3 (zth 0 (zth [] fs task) j)) <= ones 3 (file_tuple 3 (zth 0 (zth [] fs task) i))) /\
    concat (map (fun task => map (file_tuple 3) (zth [] fs task)) (seqZ 0 2)) ≡ₚ
      map (fun e => selection_tuple 3 (fst e)) [([1; 3], 12); ([2], 5)].
Proof.
  apply (partition_covers_views ex_malloc (fun _ => true) 3 10 2 ex_words [([1; 3], 12); ([2], 5)]); try reflexivity.
  - intros n Hn. unfold ex_malloc. destruct (Z.leb_spec 0 n); [|lia]. eexists. reflexivity.
  - intros n l. unfold ex_malloc. destruct (Z.leb_spec 0 n); [|discriminate]. intros [= <-]. rewrite length_replicate. lia.
  - unfold MAX_NUM_OF_DIMS. lia.
  - unfold MAX_NUMBER_OF_TASKS. lia.
  - exact ex_text.
  - repeat constructor; discriminate.
  - discriminate.
  - rewrite length_replicate. cbn. lia.
Defined.
