(* ===== verification/AdcFactor.v ===== *)
(** * Prime factors

    [NPB/SERIAL/DC/adc.c]: the list of primes by trial division, and the table
    of the prime factorizations of the numbers below the last of them, each
    computed from that of the number divided by its least factor.

    Allocation succeeds, as the code does not look at its outcome; a
    factorization of the table is a value, as no two entries share one. *)

From Stdlib Require Import Sorted.
From S2P Require Import Prelude.

(** ** The program *)

Record Factorization := Fct { mlt : list Z; exp : list Z; dim : Z }.

(** The least prime of the list that divides [nmb], among those whose square
    is at most [nmb].  The list ends with zeros, by which nothing can be
    divided. *)
Fixpoint first_divisor (fuel : nat) (prlist : list Z) (nmb j : Z) : res (option Z) :=
  match fuel with
  | O => Err OutOfFuel
  | S fuel =>
      p ← prlist.[j];
      pp ← chk 64 (p * p);
      if nmb <? pp then Ok None
      else if p =? 0 then Err Overflow
      else if nmb - p * Z.quot nmb p =? 0 then Ok (Some p)
      else first_divisor fuel prlist nmb (j + 1)
  end.

Definition ListFirstPrimes (mpr : Z) (prlist : list Z) : res (Z * list Z) :=
  l ← prlist.[0 <- 2];
  l ← l.[1 <- 3];
  l ← l.[2 <- 5];
  l ← l.[3 <- 7];
  for_range 8 mpr (fun nmb '(prnum, l) =>
    d ← first_divisor (S (length l)) l nmb 0;
    match d with
    | Some _ => Ok (prnum, l)
    | None => l ← l.[prnum <- nmb]; Ok (prnum + 1, l)
    end) (4, l).

Definition set_factor (f : Factorization) (i p e : Z) : res Factorization :=
  m ← (mlt f).[i <- p]; x ← (exp f).[i <- e]; Ok (Fct m x (dim f)).

(** A turn of the loop over the factors of [nmb / firstdiv]; the last flag
    tells that the loop was left. *)
Definition extend_turn (firstdiv : Z) (divfct : Factorization) (i : Z) (s : Factorization * bool * Z * bool) :
    res (Factorization * bool * Z * bool) :=
  let '(nmbfct, fdivused, multnum, stop) := s in
  if (stop : bool) then Ok s
  else
    p ← (mlt divfct).[i];
    if p =? 1 then
      f ← (if (fdivused : bool) then Ok nmbfct else set_factor nmbfct multnum firstdiv 1);
      Ok (f, fdivused, multnum, true)
    else
      e ← (exp divfct).[i];
      if p <? firstdiv then f ← set_factor nmbfct i p e; Ok (f, fdivused, multnum + 1, false)
      else if p =? firstdiv then f ← set_factor nmbfct i p (e + 1); Ok (f, true, multnum, false)
      else f ← set_factor nmbfct (if fdivused then i else i + 1) p e; Ok (f, fdivused, multnum, false).

Definition ExtendFactors (nmb firstdiv : Z) (nmbfct : Factorization) (fctlist : list (option Factorization)) :
    res Factorization :=
  divfct ← fctlist.[Z.quot nmb firstdiv];
  match divfct with
  | None => Err OutOfBounds
  | Some divfct =>
      '(f, _, _, _) ← for_range 0 (dim divfct) (extend_turn firstdiv divfct) (nmbfct, false, 0, false);
      Ok f
  end.

Definition bit_length (i : Z) : res Z :=
  '(len, _) ← while 64 (fun '(_, isft) => Ok (0 <? isft)) (fun '(len, isft) => Ok (len + 1, Z.shiftr isft 1)) (0, i);
  Ok len.

(** The entry of zero, of dimension zero, has room for a number that is
    stored before it is read. *)
Definition new_fct (len : Z) : Factorization :=
  let n := Z.to_nat (if len =? 0 then 1 else len) in Fct (replicate n 1) (replicate n 0) len.

Definition factor_turn (prlist : list Z) (i : Z) (fctlist : list (option Factorization)) : res (list (option Factorization)) :=
  len ← bit_length i;
  let fct := new_fct len in
  d ← first_divisor (S (length prlist)) prlist i 0;
  fct ← (match d with
         | Some firstdiv =>
             if firstdiv * firstdiv =? i then set_factor fct 0 firstdiv 2 else ExtendFactors i firstdiv fct fctlist
         | None => set_factor fct 0 i 1
         end);
  fctlist.[i <- Some fct].

Definition GetFactorization (prnum : Z) (prlist : list Z) (fctlist : list (option Factorization)) :
    res (list (option Factorization)) :=
  l ← fctlist.[2 <- Some (Fct [2; 1] [1; 0] 2)];
  l ← l.[3 <- Some (Fct [3; 1] [1; 0] 2)];
  last ← prlist.[prnum - 1];
  for_range 0 last (factor_turn prlist) l.

Example ex_primes : ListFirstPrimes 30 (replicate 12 0) = Ok (10, [2; 3; 5; 7; 11; 13; 17; 19; 23; 29; 0; 0]).
Proof. vm_compute. reflexivity. Qed.

Example ex_factors : (l ← GetFactorization 10 [2; 3; 5; 7; 11; 13; 17; 19; 23; 29] (replicate 30 None);
    a ← l.[12]; b ← l.[28]; c ← l.[27]; Ok (a, b, c)) =
  Ok (Some (Fct [2; 3; 1; 1] [2; 1; 0; 0] 4), Some (Fct [2; 7; 1; 1; 1] [2; 1; 0; 0; 0] 5), Some (Fct [3; 1; 1; 1; 1] [3; 0; 0; 0; 0] 5)).
Proof. vm_compute. reflexivity. Qed.

(** ** Primes *)

Lemma prime_dec (n : Z) : Decision (Z.prime n).
Proof.
  destruct (Znumtheory.prime_dec n) as [H|H]; [left | right; intros Hp; apply H]; by apply Znumtheory.prime_alt.
Defined.

Lemma prime_divisor n : 1 < n -> exists q, Z.prime q /\ (q | n).
Proof.
  intros Hn. pose proof (Zlt_0_ind (fun n => 1 < n -> exists q, Z.prime q /\ (q | n))) as H. apply H; [|lia | done].
  clear n Hn H. intros n IH _ Hn. destruct (prime_dec n) as [Hp|Hp]; [by exists n; split; [|exists 1; lia]|].
  rewrite Znumtheory.prime_alt in Hp. destruct (Znumtheory.not_prime_divide n Hn Hp) as (d & Hd & Hdn).
  destruct (IH d) as (q & Hq & Hqd); [lia..|]. exists q. split; [done|]. by transitivity d.
Qed.

(** [q] is the least prime divisor of [n]. *)
Definition least_factor (q n : Z) : Prop := Z.prime q /\ (q | n) /\ forall r, Z.prime r -> (r | n) -> q <= r.

Lemma least_prime_divisor n : 1 < n -> exists q, least_factor q n.
Proof.
  intros Hn.
  assert (Hk : forall k : nat, (exists q, least_factor q n) \/ forall r, Z.prime r -> (r | n) -> Z.of_nat k <= r).
  { induction k as [|k [IH|IH]].
    - right. intros r Hr _. apply Z.prime_ge_2 in Hr. lia.
    - by left.
    - destruct (prime_dec (Z.of_nat k)) as [Hp|Hp]; [pose proof (Z.prime_ge_2 _ Hp);
        destruct (decide (n mod Z.of_nat k = 0)) as [Hd|Hd]; rewrite Z.mod_divide in Hd by lia|].
      + left. by exists (Z.of_nat k).
      + right. intros r Hr Hrn. specialize (IH r Hr Hrn). assert (r <> Z.of_nat k) by (intros ->; done). lia.
      + right. intros r Hr Hrn. specialize (IH r Hr Hrn). assert (r <> Z.of_nat k) by (intros ->; done). lia. }
  destruct (Hk (Z.to_nat (n + 1))) as [H|H]; [done|]. exfalso. destruct (prime_divisor n Hn) as (r & Hr & Hrn).
  specialize (H r Hr Hrn). apply Z.divide_pos_le in Hrn; lia.
Qed.

(** It is at most the square root, unless the number is prime. *)
Lemma least_factor_root q n : 1 < n -> least_factor q n -> Z.prime n \/ (1 < Z.quot n q < n /\ n = q * Z.quot n q /\ q <= Z.quot n q).
Proof.
  intros Hn (Hq & [m Hm] & Hl). pose proof (Z.prime_ge_2 _ Hq). rewrite Hm, Z.quot_mul by lia.
  destruct (decide (m = 1)) as [->|]; [left; by rewrite Z.mul_1_l|]. right. assert (1 < m) by nia. split; [nia|]. split; [lia|].
  destruct (prime_divisor m) as (r & Hr & Hrm); [done|]. assert (Hrn : (r | n)) by (rewrite Hm; by apply Z.divide_mul_l).
  specialize (Hl r Hr Hrn). apply Z.divide_pos_le in Hrm; lia.
Qed.

(** A number without divisors up to its square root is prime. *)
Lemma prime_check n k : 1 < n -> n < Z.of_nat k * Z.of_nat k -> all_below k (fun d => (d <? 2) || negb (n mod d =? 0)) = true ->
  Z.prime n.
Proof.
  intros Hn Hk H. destruct (least_prime_divisor n Hn) as (q & Hq). destruct (least_factor_root q n Hn Hq) as [|Hroot]; [done|].
  destruct Hq as (Hq & Hd & _). apply Z.prime_ge_2 in Hq. apply (all_below_spec _ _ q) in H; [|nia]. cbn beta in H.
  destruct (Z.ltb_spec q 2); [lia|]. apply Z.mod_divide in Hd; [|lia]. rewrite Hd in H. discriminate.
Qed.

(** The primes below [n], in order *)
Definition primes_below (n : Z) (l : list Z) : Prop := StronglySorted Z.lt l /\ forall p, p ∈ l <-> Z.prime p /\ p < n.

Lemma primes_below_7 : primes_below 8 [2; 3; 5; 7].
Proof.
  split; [repeat constructor; lia|]. intros p. rewrite !list.elem_of_cons, list.elem_of_nil. split.
  - intros [->|[->|[->|[->|[]]]]]; (split; [|lia]);
      [apply Z.prime_2 | apply Z.prime_3 | by apply (prime_check _ 3) | by apply (prime_check _ 3)].
  - intros [Hp Hlt]. pose proof (Z.prime_ge_2 _ Hp). assert (~ Z.prime 4) by apply (Z.not_prime_square 2).
    assert (~ Z.prime 6) by (intros [_ H6]; apply (H6 2); [lia | by exists 3]).
    assert (p <> 4) by congruence. assert (p <> 6) by congruence. lia.
Qed.

(** There is a prime below [n] whose square is above it. *)
Lemma prime_between n : 8 <= n <= 4000000 -> exists p, Z.prime p /\ p < n /\ n < p * p.
Proof.
  intros Hn. destruct (decide (n < 49)).
  - exists 7. split; [by apply (prime_check _ 3)|]. lia.
  - destruct (decide (n < 2209)).
    + exists 47. split; [by apply (prime_check _ 7)|]. lia.
    + exists 2203. split; [by apply (prime_check _ 47)|]. lia.
Qed.

Lemma StronglySorted_app_inv {A} (R : A -> A -> Prop) l1 l2 : StronglySorted R (l1 ++ l2) ->
  forall x y, x ∈ l1 -> y ∈ l2 -> R x y.
Proof.
  induction l1 as [|a l1 IH]; intros H x y Hx Hy; [inversion Hx|]. inversion H as [|? ? Hs Hf]; subst.
  apply list.elem_of_cons in Hx as [->|Hx]; [|by apply IH]. rewrite list.Forall_forall in Hf. apply Hf, list.elem_of_app. by right.
Qed.

Section Primes.
Context (bound : Z) (l rest : list Z) (n : Z).
Hypothesis Hl : primes_below bound l.
Hypothesis Hbound : bound <= 4000000.
Hypothesis Hn : 0 <= n.
Hypothesis Hroot : exists p, p ∈ l /\ n < p * p.

Lemma primes_member q : Z.prime q -> q * q <= n -> q ∈ l.
Proof.
  intros Hq Hle. destruct Hroot as (p & Hp & Hlt). apply Hl in Hp as [Hp Hpb]. apply Hl. split; [done|].
  apply Z.prime_ge_2 in Hq, Hp. nia.
Qed.

(** The result of the search: nothing when no prime up to the root divides *)
Definition divisor_ok (d : option Z) : Prop :=
  match d with
  | Some q => least_factor q n /\ q * q <= n
  | None => forall q, Z.prime q -> q * q <= n -> ~ (q | n)
  end.

Lemma first_divisor_from l2 : forall fuel l1, l = l1 ++ l2 -> (length l2 < fuel)%nat ->
  (forall p, p ∈ l1 -> ~ (p | n)) -> (exists p, p ∈ l2 /\ n < p * p) ->
  exists d, first_divisor fuel (l ++ rest) n (zlen l1) = Ok d /\ divisor_ok d.
Proof.
  destruct Hl as [Hsort Hmem]. induction l2 as [|p l2 IH]; intros [|fuel] l1 El Hf H1 (r & Hr & Hrn); cbn [length] in Hf;
    try lia; [inversion Hr|].
  assert (Hp : p ∈ l) by (rewrite El, list.elem_of_app; right; left). apply Hmem in Hp as [Hp Hpb].
  pose proof (Z.prime_ge_2 _ Hp) as Hp2. cbn [first_divisor].
  assert (E : aget (l ++ rest) (zlen l1) = Ok p).
  { rewrite El, <- app_assoc, (aget_ok 0) by (rewrite length_app; cbn [app length]; lia).
    rewrite (zth_app_r 0), Z.sub_diag by lia. done. }
  rewrite E, bind_Ok, chk_ok, bind_Ok by nia.
  assert (Hbefore : forall q, Z.prime q -> q < p -> ~ (q | n)).
  { intros q Hq Hlt. apply H1. assert (Hin : q ∈ l) by (apply Hmem; split; [done | lia]).
    rewrite El, list.elem_of_app in Hin. destruct Hin as [|Hin]; [done|]. exfalso. apply list.elem_of_cons in Hin as [->|Hin]; [lia|].
    assert (Hlt' : p < q); [|lia]. apply (StronglySorted_app_inv Z.lt (l1 ++ [p]) l2);
      [rewrite <- app_assoc; cbn [app]; rewrite <- El; exact Hsort | rewrite list.elem_of_app; right; left | done]. }
  destruct (Z.ltb_spec n (p * p)) as [Hlt|Hge].
  - eexists. split; [reflexivity|]. intros q Hq Hqq. apply Hbefore; [done|]. apply Z.prime_ge_2 in Hq. nia.
  - destruct (Z.eqb_spec p 0); [lia|]. rewrite Z.quot_div_nonneg by lia. pose proof (Z.div_mod n p ltac:(lia)) as Hdm.
    destruct (Z.eqb_spec (n - p * (n / p)) 0) as [E0|E0].
    + exists (Some p). split; [done|]. split; [|done]. split; [done|]. split; [exists (n / p); lia|].
      intros q Hq Hqn. destruct (decide (q < p)) as [Hlt|]; [|lia]. exfalso. by apply (Hbefore q).
    + replace (zlen l1 + 1) with (zlen (l1 ++ [p])) by (rewrite length_app; cbn [length]; lia).
      apply IH; [by rewrite <- app_assoc | lia | |].
      * intros q Hq Hqn. apply list.elem_of_app in Hq as [Hq|Hq]; [by apply (H1 q)|].
        apply base.list_elem_of_In in Hq. destruct Hq as [<-|[]]. apply Z.mod_divide in Hqn; lia.
      * apply list.elem_of_cons in Hr as [->|Hr]; [lia|]. by exists r.
Qed.

Lemma first_divisor_ok : exists d, first_divisor (S (length (l ++ rest))) (l ++ rest) n 0 = Ok d /\ divisor_ok d.
Proof.
  apply (first_divisor_from l _ []); [done | rewrite length_app; lia | intros p Hp; inversion Hp | done].
Qed.

(** [None] means a prime number. *)
Lemma divisor_none : 1 < n -> divisor_ok None -> Z.prime n.
Proof.
  intros H1 H. destruct (least_prime_divisor n H1) as (q & Hq). destruct (least_factor_root q n H1 Hq) as [|(Hm & Hn' & Hqm)]; [done|].
  exfalso. destruct Hq as (Hq & Hd & _). apply (H q Hq); [|done]. apply Z.prime_ge_2 in Hq. nia.
Qed.
End Primes.

(** ** The list of primes *)

Lemma primes_below_succ n l : primes_below n l -> ~ Z.prime n -> primes_below (n + 1) l.
Proof. intros [Hs Hm] Hn. split; [done|]. intros p. rewrite Hm. split; [intros [? ?]; split; (done || lia)|].
  intros [Hp Hlt]. split; [done|]. assert (p <> n) by (intros ->; done). lia. Qed.

Lemma primes_below_snoc n l : primes_below n l -> Z.prime n -> primes_below (n + 1) (l ++ [n]).
Proof.
  intros [Hs Hm] Hn. split.
  - assert (H : Forall (fun p => p < n) l) by (apply list.Forall_forall; intros p Hp; by apply Hm in Hp as []).
    clear Hm. induction Hs as [|p l Hs IH Hf]; cbn [app]; [repeat constructor|]. apply list.Forall_cons in H as [Hp H].
    constructor; [by apply IH|]. apply list.Forall_app. split; [done|]. by repeat constructor.
  - intros p. rewrite list.elem_of_app, Hm. setoid_rewrite list.list_elem_of_singleton. split; [intros [[? ?]| ->]; split; (done || lia)|].
    intros [Hp Hlt]. destruct (decide (p = n)) as [->|]; [by right|]. left. split; [done | lia].
Qed.

(** There are at most [n] of them. *)
Lemma primes_below_length n l : 0 <= n -> primes_below n l -> zlen l <= n.
Proof.
  intros Hn [Hs Hm]. assert (Hsub : l ⊆+ seqZ 0 n).
  { apply NoDup_submseteq.
    - clear Hm. induction Hs as [|p l Hs IH Hf]; [constructor|]. constructor; [|done]. intros Hp.
      rewrite list.Forall_forall in Hf. specialize (Hf p Hp). lia.
    - intros p Hp. apply Hm in Hp as [Hp Hlt]. apply Z.prime_ge_2 in Hp. apply elem_of_seqZ. lia. }
  apply submseteq_length in Hsub. rewrite length_seqZ in Hsub. lia.
Qed.

Lemma ListFirstPrimes_ok mpr prlist : 8 <= mpr <= 4000000 -> zlen prlist = mpr ->
  exists l, ListFirstPrimes mpr prlist = Ok (zlen l, l ++ drop (length l) prlist) /\ primes_below mpr l.
Proof.
  intros Hmpr Hlen. unfold ListFirstPrimes.
  do 4 (rewrite aset_ok, bind_Ok by (rewrite ?zlen_insert; lia)).
  match goal with |- context [for_range 8 mpr _ (4, ?x)] => replace x with ([2; 3; 5; 7] ++ drop 4 prlist) end.
  2: { destruct prlist as [|a [|b [|c [|d prlist]]]]; cbn [length] in Hlen; (lia || reflexivity). }
  destruct (for_range_inv (fun n '(prnum, l) => exists l', prnum = zlen l' /\ l = l' ++ drop (length l') prlist /\ primes_below n l')
    (fun nmb '(prnum, l) => d ← first_divisor (S (length l)) l nmb 0;
      match d with Some _ => Ok (prnum, l) | None => l ← l.[prnum <- nmb]; Ok (prnum + 1, l) end)
    8 mpr (4, [2; 3; 5; 7] ++ drop 4 prlist)) as ([prnum l] & -> & l' & -> & -> & Hl); [lia | | | by exists l'].
  - exists [2; 3; 5; 7]. split; [done|]. split; [done | apply primes_below_7].
  - intros n [prnum l] Hn (l' & -> & -> & Hl). destruct (prime_between n ltac:(lia)) as (p & Hp & Hpn & Hpp).
    destruct (first_divisor_ok n l' (drop (length l') prlist) n Hl ltac:(lia) ltac:(lia)) as (d & -> & Hd).
    { exists p. split; [|done]. by apply Hl. }
    rewrite bind_Ok. destruct d as [q|].
    + eexists. split; [reflexivity|]. exists l'. split; [done|]. split; [done|]. apply primes_below_succ; [done|].
      destruct Hd as [(Hq & Hqn & _) Hqq]. intros [_ Hprime]. apply Z.prime_ge_2 in Hq. apply (Hprime q); [nia | done].
    + pose proof (primes_below_length n l' ltac:(lia) Hl). rewrite fill_next, bind_Ok by lia.
      eexists. split; [reflexivity|]. exists (l' ++ [n]). split; [rewrite length_app; cbn [length]; lia|].
      split; [done|]. apply primes_below_snoc; [done|]. apply divisor_none; [lia | lia | exact Hd].
Qed.

(** ** Factorizations *)

Definition value (l : list (Z * Z)) : Z := foldr (fun '(p, e) n => p ^ e * n) 1 l.

(** The factorization of [n]: distinct primes in order, positive exponents *)
Record factors (n : Z) (l : list (Z * Z)) : Prop := {
  fa_sorted : StronglySorted Z.lt (map fst l);
  fa_primes : Forall (fun x => Z.prime (fst x) /\ 0 < snd x) l;
  fa_value : value l = n
}.

(** An object with the factors [x] and ones after them *)
Definition filled (n : nat) (x : list (Z * Z)) : Factorization :=
  Fct (map fst x ++ replicate (n - length x) 1) (map snd x ++ replicate (n - length x) 0) (Z.of_nat n).

Definition fct_ok (n : Z) (f : Factorization) : Prop :=
  exists l k, factors n l /\ (length l < k)%nat /\ f = filled k l.

Lemma value_pos l : Forall (fun x => Z.prime (fst x) /\ 0 < snd x) l -> 2 ^ zlen l <= value l.
Proof.
  induction 1 as [|[p e] l [Hp He] _ IH]; [done|]. cbn [value foldr fst snd] in *. fold (value l). apply Z.prime_ge_2 in Hp.
  cbn [length]. replace (Z.of_nat (S (length l))) with (zlen l + 1) by lia. rewrite Z.pow_add_r by lia.
  assert (2 <= p ^ e) by (replace e with (e - 1 + 1) by lia; rewrite Z.pow_add_r by lia;
    assert (0 < p ^ (e - 1)) by (apply Z.pow_pos_nonneg; lia); nia).
  assert (0 < 2 ^ zlen l) by (apply Z.pow_pos_nonneg; lia). nia.
Qed.

Lemma factors_length n l : factors n l -> zlen l <= Z.log2 n.
Proof.
  intros [_ Hp <-]. pose proof (value_pos l Hp). pose proof (Z.pow_pos_nonneg 2 (zlen l) ltac:(lia) ltac:(lia)).
  rewrite <- (Z.log2_pow2 (zlen l)) by lia. by apply Z.log2_le_mono.
Qed.

Lemma factor_divides n l p e : factors n l -> (p, e) ∈ l -> (p ^ e | n).
Proof.
  intros [_ _ <-] H. induction l as [|[q d] l IH]; [inversion H|]. cbn [value foldr]. fold (value l).
  apply list.elem_of_cons in H as [[= -> ->]|H]; [apply Z.divide_factor_l|]. apply Z.divide_mul_r. by apply IH.
Qed.

(** One more factor, which is not above the others *)
Definition extend (q : Z) (l : list (Z * Z)) : list (Z * Z) :=
  match l with
  | (p, e) :: l' => if p =? q then (q, e + 1) :: l' else (q, 1) :: l
  | [] => [(q, 1)]
  end.

Lemma factors_extend q m l : Z.prime q -> factors m l -> (forall r, Z.prime r -> (r | m) -> q <= r) ->
  factors (q * m) (extend q l).
Proof.
  intros Hq Hl Hr. assert (Hle : Forall (fun p => q <= p) (map fst l)).
  { apply list.Forall_forall. intros p Hp. apply base.list_elem_of_In, in_map_iff in Hp as ([p' e] & <- & Hp). cbn [fst].
    apply base.list_elem_of_In in Hp. pose proof (factor_divides m l p' e Hl Hp) as Hd. destruct Hl as [_ Hf _].
    rewrite list.Forall_forall in Hf. destruct (Hf _ Hp) as [Hprime He]. cbn [fst snd] in *. apply Hr; [done|].
    etransitivity; [|exact Hd]. apply Z.divide_pow_same_r. lia. }
  destruct Hl as [Hs Hf Hv]. destruct l as [|[p e] l]; cbn [extend].
  - cbn in Hv. subst m. split; [by do 2 constructor | by do 2 constructor | cbn; lia].
  - cbn [map fst] in Hs, Hle. inversion Hs as [|? ? Hs' Hlt]; subst. apply list.Forall_cons in Hle as [Hpq _].
    apply list.Forall_cons in Hf as [[Hp He] Hf]. cbn [fst snd] in *. cbn [value foldr]. fold (value l).
    destruct (Z.eqb_spec p q) as [->|Hne].
    + split; [done | constructor; [cbn; split; (done || lia) | done] |]. cbn [value foldr]. fold (value l).
      rewrite Z.pow_add_r by lia. lia.
    + split; [|constructor; [cbn; split; (done || lia)|]; by constructor |].
      * cbn [map fst]. constructor; [done|]. constructor; [lia|]. eapply list.Forall_impl; [exact Hlt|]. cbn. lia.
      * cbn [value foldr]. fold (value l). lia.
Qed.

Lemma set_factor_filled n x i p e : i = zlen x -> (length x < n)%nat -> set_factor (filled n x) i p e = Ok (filled n (x ++ [(p, e)])).
Proof.
  intros -> Hn. assert (E : forall {A} (f : Z * Z -> A) v a, aset (map f x ++ replicate (n - length x) v) (zlen x) (f a) =
    Ok (map f (x ++ [a]) ++ replicate (n - length (x ++ [a])) v)).
  { intros A f v a. rewrite aset_ok by (rewrite length_app, length_map, length_replicate; lia).
    rewrite Nat2Z.id, insert_app_r_alt, length_map, Nat.sub_diag by (rewrite length_map; lia).
    rewrite map_app, <- app_assoc, length_app. cbn [map length app]. replace (n - length x)%nat with (S (n - (length x + 1))) by lia. done. }
  pose proof (E _ fst 1 (p, e)) as E1. pose proof (E _ snd 0 (p, e)) as E2. cbn [fst snd] in E1, E2.
  unfold set_factor, filled. cbn [mlt exp dim]. by rewrite E1, bind_Ok, E2, bind_Ok.
Qed.

Lemma filled_zero n : (0 < n)%nat -> filled n [] = filled n [(1, 0)].
Proof. intros Hn. unfold filled. cbn [map length app]. destruct n as [|n]; [lia|]. by rewrite Nat.sub_0_r, Nat.sub_succ, Nat.sub_0_r. Qed.

(** The first factor is replaced. *)
Lemma set_factor_first n y x p e : (length x < n)%nat -> set_factor (filled n (y :: x)) 0 p e = Ok (filled n ((p, e) :: x)).
Proof.
  intros Hn. unfold set_factor, filled. cbn [mlt exp dim map length].
  rewrite !aset_ok by (cbn [app length]; lia). reflexivity.
Qed.

Lemma take_succ_zth {A} (d : A) l i : 0 <= i < zlen l -> take (Z.to_nat (i + 1)) l = take (Z.to_nat i) l ++ [zth d l i].
Proof.
  intros Hi. replace (Z.to_nat (i + 1)) with (S (Z.to_nat i)) by lia. apply take_S_r.
  destruct (lookup_lt_is_Some_2 l (Z.to_nat i)) as [v Hv]; [lia|]. rewrite Hv. f_equal. symmetry. by apply nth_lookup_Some.
Qed.

Section Extend.
Context (q : Z) (l : list (Z * Z)) (k n : nat).
Hypothesis Hl : Forall (fun x => Z.prime (fst x) /\ 0 < snd x) l.
Hypothesis Hs : StronglySorted Z.lt (map fst l).
Hypothesis Hk : (length l < k)%nat.

Lemma filled_nth i : 0 <= i < zlen l ->
  aget (mlt (filled k l)) i = Ok (fst (zth (1, 0) l i)) /\ aget (exp (filled k l)) i = Ok (snd (zth (1, 0) l i)).
Proof.
  intros Hi. unfold filled. cbn [mlt exp]. rewrite !aget_app_l by (rewrite length_map; lia). unfold zth. split.
  - rewrite (aget_ok 1) by (rewrite length_map; lia). unfold zth. f_equal. exact (map_nth fst l (1, 0) _).
  - rewrite (aget_ok 0) by (rewrite length_map; lia). unfold zth. f_equal. exact (map_nth snd l (1, 0) _).
Qed.

Lemma filled_end : aget (mlt (filled k l)) (zlen l) = Ok 1.
Proof.
  unfold filled. cbn [mlt]. rewrite (aget_ok 0) by (rewrite length_app, length_map, length_replicate; lia).
  rewrite zth_app_r by (rewrite length_map; lia). rewrite length_map, Z.sub_diag. apply (f_equal Ok), zth_replicate. lia.
Qed.

Lemma factor_ge_2 i : 0 <= i < zlen l -> 2 <= fst (zth (1, 0) l i).
Proof.
  intros Hi. pose proof Hl as Hl'. rewrite list.Forall_forall in Hl'.
  destruct (Hl' (zth (1, 0) l i)) as [Hp _]; [by apply zth_In|]. by apply Z.prime_ge_2.
Qed.

(** A factor above [q] is copied. *)
Lemma extend_turn_copy i f (used : bool) x : 0 <= i < zlen l -> q < fst (zth (1, 0) l i) ->
  zlen x = (if used then i else i + 1) -> (length x < n)%nat -> f = filled n x ->
  extend_turn q (filled k l) i (f, used, 0, false) = Ok (filled n (x ++ [zth (1, 0) l i]), used, 0, false).
Proof.
  intros Hi Hp Hx Hn ->. destruct (filled_nth i Hi) as [E1 E2]. pose proof (factor_ge_2 i Hi).
  unfold extend_turn. rewrite E1, bind_Ok. destruct (Z.eqb_spec (fst (zth (1, 0) l i)) 1); [lia|]. rewrite E2, bind_Ok.
  destruct (Z.ltb_spec (fst (zth (1, 0) l i)) q); [lia|]. destruct (Z.eqb_spec (fst (zth (1, 0) l i)) q); [lia|].
  rewrite set_factor_filled, bind_Ok by done. by destruct (zth (1, 0) l i).
Qed.

(** The factor [q] counts once more. *)
Lemma extend_turn_same : 0 < zlen l -> fst (zth (1, 0) l 0) = q -> (0 < n)%nat ->
  extend_turn q (filled k l) 0 (filled n [], false, 0, false) = Ok (filled n [(q, snd (zth (1, 0) l 0) + 1)], true, 0, false).
Proof.
  intros H0 E0 Hn. destruct (filled_nth 0 ltac:(lia)) as [E1 E2]. unfold extend_turn. rewrite E1, bind_Ok, E0.
  pose proof (factor_ge_2 0 ltac:(lia)). destruct (Z.eqb_spec q 1); [lia|].
  rewrite E2, bind_Ok, Z.ltb_irrefl, Z.eqb_refl, set_factor_filled, bind_Ok by (done || cbn [length]; lia). done.
Qed.

(** The end of the factors: [q] is stored, if it is not one of them. *)
Lemma extend_turn_end f (used : bool) : extend_turn q (filled k l) (zlen l) (f, used, 0, false) =
  (f ← (if used then Ok f else set_factor f 0 q 1); Ok (f, used, 0, true)).
Proof. unfold extend_turn. rewrite filled_end, bind_Ok. done. Qed.

Lemma extend_stopped lo hi f used m : for_range lo hi (extend_turn q (filled k l)) (f, used, m, true) = Ok (f, used, m, true).
Proof.
  destruct (decide (lo <= hi)); [|by apply for_range_empty; lia].
  destruct (for_range_inv (fun _ s => s = (f, used, m, true)) (extend_turn q (filled k l)) lo hi (f, used, m, true))
    as (s & -> & ->); [done | done | | done]. intros i s _ ->. by eexists.
Qed.

Lemma copy_loop lo (used : bool) x : 0 <= lo <= zlen l -> (forall i, lo <= i < zlen l -> q < fst (zth (1, 0) l i)) ->
  zlen x = (if used then lo else lo + 1) -> zlen x + (zlen l - lo) <= Z.of_nat n ->
  for_range lo (zlen l) (extend_turn q (filled k l)) (filled n x, used, 0, false) =
    Ok (filled n (x ++ drop (Z.to_nat lo) l), used, 0, false).
Proof.
  intros Hlo Hgt Hx Hn.
  destruct (for_range_inv (fun i s => s = (filled n (x ++ take (Z.to_nat (i - lo)) (drop (Z.to_nat lo) l)), used, 0, false))
    (extend_turn q (filled k l)) lo (zlen l) (filled n x, used, 0, false)) as (s & -> & ->); [lia | | |].
  - by rewrite Z.sub_diag, take_0, app_nil_r.
  - intros i s Hi ->. eexists. split; [|reflexivity].
    assert (Hd : zlen (drop (Z.to_nat lo) l) = zlen l - lo) by (rewrite length_drop; lia).
    assert (Ez : zth (1, 0) (drop (Z.to_nat lo) l) (i - lo) = zth (1, 0) l i).
    { unfold zth. rewrite !nth_lookup, lookup_drop. do 3 f_equal. lia. }
    replace (i + 1 - lo) with (i - lo + 1) by lia. rewrite (take_succ_zth (1, 0)), Ez, app_assoc by lia.
    apply extend_turn_copy; [lia | by apply Hgt | | | done]; rewrite length_app, length_take; destruct used; lia.
  - rewrite (take_ge (drop _ _)) by (rewrite length_drop; lia). done.
Qed.

(** The factors after the first are above it. *)
Lemma later_factors i : 1 <= i < zlen l -> fst (zth (1, 0) l 0) < fst (zth (1, 0) l i).
Proof.
  intros Hi. destruct l as [|y l'] eqn:El; cbn [length] in Hi; [lia|]. cbn [map] in Hs. inversion Hs as [|? ? _ Hlt]; subst.
  rewrite list.Forall_forall in Hlt. apply Hlt. apply base.list_elem_of_In, in_map, base.list_elem_of_In.
  unfold zth. replace (Z.to_nat i) with (S (Z.to_nat (i - 1))) by lia. cbn [nth]. apply zth_In. lia.
Qed.

Lemma extend_loop_ok : Forall (fun x => q <= fst x) l -> (length (extend q l) < n)%nat ->
  exists used, for_range 0 (Z.of_nat k) (extend_turn q (filled k l)) (filled n [], false, 0, false) =
    Ok (filled n (extend q l), used, 0, true).
Proof.
  intros Hle Hn.
  assert (H : exists (used : bool) x, for_range 0 (zlen l) (extend_turn q (filled k l)) (filled n [], false, 0, false) =
      Ok (filled n x, used, 0, false) /\
      (if used then x = extend q l else x = (1, 0) :: l /\ extend q l = (q, 1) :: l)).
  { destruct (decide (0 < zlen l /\ fst (zth (1, 0) l 0) = q)) as [[H0 E0]|Hno].
    - exists true, (extend q l). split; [|done].
      assert (Hex : extend q l = (q, snd (zth (1, 0) l 0) + 1) :: drop 1 l).
      { destruct l as [|[p e] l']; cbn [length] in H0; [lia|]. change (zth (1, 0) ((p, e) :: l') 0) with (p, e) in *. cbn [fst snd extend] in *. by rewrite E0, Z.eqb_refl. }
      rewrite Hex in Hn |- *. cbn [length] in Hn. rewrite length_drop in Hn.
      rewrite for_range_step, extend_turn_same, bind_Ok by (done || lia).
      rewrite copy_loop; [done | lia | | done |].
      + intros i Hi. rewrite <- E0. apply later_factors. lia.
      + cbn [app length]. lia.
    - exists false, ((1, 0) :: l).
      assert (Hgt : forall i, 0 <= i < zlen l -> q < fst (zth (1, 0) l i)).
      { intros i Hi. assert (H0 : fst (zth (1, 0) l 0) <> q) by (intros E; apply Hno; split; [lia | done]).
        pose proof Hle as Hle'. rewrite list.Forall_forall in Hle'. assert (H0' := Hle' _ (zth_In (1, 0) l 0 ltac:(lia))).
        cbn beta in H0'. destruct (decide (i = 0)) as [->|]; [lia|]. pose proof (later_factors i ltac:(lia)). lia. }
      assert (Hex : extend q l = (q, 1) :: l).
      { destruct l as [|[p e] l']; [done|]. cbn [extend]. specialize (Hgt 0 ltac:(cbn [length]; lia)). change (q < p) in Hgt.
        destruct (Z.eqb_spec p q); [lia | done]. }
      rewrite Hex in Hn. cbn [length] in Hn. rewrite filled_zero by lia. rewrite copy_loop; [by rewrite drop_0 | lia | done | done |].
      cbn [length]. lia. }
  destruct H as (used & x & E & Hx). exists used. rewrite (for_range_app 0 (zlen l)), E, bind_Ok by lia.
  rewrite for_range_step, extend_turn_end by lia. destruct used.
  - subst x. rewrite !bind_Ok. apply extend_stopped.
  - destruct Hx as [-> Hx]. rewrite set_factor_first, !bind_Ok, <- Hx by (rewrite Hx in Hn; cbn [length] in Hn; lia).
    apply extend_stopped.
Qed.
End Extend.

(** ** The table *)

Definition bits (i : Z) : Z := if i =? 0 then 0 else Z.log2 i + 1.

Lemma bits_half i : 0 < i -> bits (Z.shiftr i 1) = bits i - 1.
Proof.
  intros Hi. unfold bits. rewrite Z.shiftr_div_pow2 by lia. change (2 ^ 1) with 2.
  destruct (Z.eqb_spec i 0); [lia|]. destruct (Z.eqb_spec (i / 2) 0) as [E|E].
  - assert (i = 1) as -> by (apply Z.div_small_iff in E; lia). done.
  - assert (2 <= i) by (destruct (decide (i = 1)) as [->|]; [done | lia]).
    pose proof (Z.log2_shiftr i 1 ltac:(lia)) as Hs. rewrite Z.shiftr_div_pow2 in Hs by lia. change (2 ^ 1) with 2 in Hs.
    pose proof (Z.log2_le_mono 2 i ltac:(lia)). change (Z.log2 2) with 1 in *. lia.
Qed.

Lemma bit_length_ok i : 0 <= i < 2 ^ 63 -> bit_length i = Ok (bits i).
Proof.
  intros Hi. unfold bit_length.
  assert (Hb : bits i <= 63).
  { unfold bits. destruct (Z.eqb_spec i 0); [lia|]. assert (Z.log2 i < 63) by (apply Z.log2_lt_pow2; lia). lia. }
  assert (Hnn : forall j, 0 <= bits j) by (intros j; unfold bits; pose proof (Z.log2_nonneg j); destruct (j =? 0); lia).
  destruct (while_inv (fun '(len, j) => 0 <= j /\ len + bits j = bits i) (fun '(_, j) => Z.to_nat (bits j))
    (fun '(_, isft) => Ok (0 <? isft)) (fun '(len, isft) => Ok (len + 1, Z.shiftr isft 1))) with (fuel := 64%nat) (s := (0, i))
    as ([len j] & -> & [Hj Hl] & Hc).
  - intros [len j] _. by eexists.
  - intros [len j] [Hj Hl] [= Hc]. apply Z.ltb_lt in Hc. pose proof (bits_half j Hc) as Hh. specialize (Hnn (Z.shiftr j 1)).
    eexists. split; [reflexivity|]. split; [split; [by apply Z.shiftr_nonneg | lia] | lia].
  - cbn beta. lia.
  - lia.
  - injection Hc as Hc. apply Z.ltb_ge in Hc. assert (j = 0) as -> by lia. cbn [mbind res_bind]. f_equal. unfold bits at 1 in Hl. cbn in Hl. lia.
Qed.

Lemma new_fct_filled i : 0 < i -> exists n, new_fct (bits i) = filled n [] /\ Z.of_nat n = Z.log2 i + 1.
Proof.
  intros Hi. exists (Z.to_nat (bits i)). unfold new_fct, filled, bits. cbn [map app length]. rewrite Nat.sub_0_r.
  pose proof (Z.log2_nonneg i). destruct (Z.eqb_spec i 0); [lia|]. destruct (Z.eqb_spec (Z.log2 i + 1) 0); [lia|].
  rewrite Z2Nat.id by lia. done.
Qed.

Lemma ExtendFactors_ok nmb q m n fctlist f : 1 < m -> nmb = q * m -> least_factor q nmb -> nmb < zlen fctlist ->
  zth None fctlist m = Some f -> fct_ok m f -> Z.log2 nmb < Z.of_nat n ->
  exists l, ExtendFactors nmb q (filled n []) fctlist = Ok (filled n l) /\ factors nmb l /\ (length l < n)%nat.
Proof.
  intros Hm En (Hq & _ & Hleast) Hl Hf (l & k & Hfl & Hk & ->) Hn. pose proof (Z.prime_ge_2 _ Hq).
  assert (Hext : factors nmb (extend q l)).
  { rewrite En. apply factors_extend; [done | done |]. intros r Hr Hrm. apply Hleast; [done|]. rewrite En. by apply Z.divide_mul_r. }
  exists (extend q l). pose proof (factors_length _ _ Hext). split; [|split; [done | lia]].
  unfold ExtendFactors. assert (Eq : Z.quot nmb q = m) by (rewrite En, Z.mul_comm, Z.quot_mul by lia; done).
  rewrite Eq, (aget_ok None), bind_Ok, Hf by nia. change (dim (filled k l)) with (Z.of_nat k).
  destruct (extend_loop_ok q l k n (fa_primes _ _ Hfl) (fa_sorted _ _ Hfl) Hk) as (used & E); [|lia|].
  - apply list.Forall_forall. intros [p e] Hp. cbn [fst]. pose proof (factor_divides m l p e Hfl Hp) as Hd.
    pose proof (fa_primes _ _ Hfl) as Hpr. rewrite list.Forall_forall in Hpr. destruct (Hpr _ Hp) as [Hprime He]. cbn [fst snd] in *.
    apply Hleast; [done|]. etransitivity; [apply (Z.divide_pow_same_r p e); lia|]. rewrite En. by apply Z.divide_mul_r.
  - by rewrite E.
Qed.

Lemma factors_prime n : Z.prime n -> factors n [(n, 1)].
Proof. intros Hn. split; [by do 2 constructor | by do 2 constructor | cbn; lia]. Qed.

Lemma factors_square q : Z.prime q -> factors (q * q) [(q, 2)].
Proof. intros Hq. split; [by do 2 constructor | by do 2 constructor | cbn; lia]. Qed.

Section Table.
Context (bound : Z) (l rest : list Z).
Hypothesis Hl : primes_below bound l.
Hypothesis Hbound : 8 <= bound <= 4000000.

(** The entries below [i] *)
Definition table_ok (i : Z) (t : list (option Factorization)) : Prop :=
  forall n, 2 <= n < i -> exists f, zth None t n = Some f /\ fct_ok n f.

Lemma factor_turn_ok last i t : last ∈ l -> 0 <= i < last -> last <= zlen t -> table_ok i t ->
  exists t', factor_turn (l ++ rest) i t = Ok t' /\ zlen t' = zlen t /\ table_ok (i + 1) t'.
Proof.
  intros Hlast Hi Ht Hok. pose proof Hlast as Hlast'. apply Hl in Hlast' as [Hp Hlt]. apply Z.prime_ge_2 in Hp.
  unfold factor_turn. rewrite bit_length_ok, bind_Ok by lia.
  destruct (first_divisor_ok bound l rest i Hl ltac:(lia) ltac:(lia)) as (d & -> & Hd); [exists last; split; [done | nia]|].
  rewrite bind_Ok.
  assert (Hfct : exists f, (match d with
      | Some firstdiv => if firstdiv * firstdiv =? i then set_factor (new_fct (bits i)) 0 firstdiv 2
                         else ExtendFactors i firstdiv (new_fct (bits i)) t
      | None => set_factor (new_fct (bits i)) 0 i 1
      end) = Ok f /\ (2 <= i -> fct_ok i f)).
  { destruct (decide (i = 0)) as [->|Hi0].
    { destruct d as [q|]; [destruct Hd as [(Hq & _) Hqq]; apply Z.prime_ge_2 in Hq; nia|]. by eexists. }
    destruct (new_fct_filled i ltac:(lia)) as (n & -> & Hn). pose proof (Z.log2_nonneg i).
    destruct d as [q|].
    - destruct Hd as [Hq Hqq]. pose proof Hq as (Hprime & _). pose proof (Z.prime_ge_2 _ Hprime).
      destruct (least_factor_root q i ltac:(nia) Hq) as [Hip|(Hm & Em & _)].
      { exfalso. destruct Hip as [_ Hip], Hq as (_ & Hqi & _). apply (Hip q); [nia | done]. }
      assert (1 <= Z.log2 i) by (change 1 with (Z.log2 2); apply Z.log2_le_mono; nia).
      destruct (Z.eqb_spec (q * q) i) as [E|E].
      + rewrite set_factor_filled by (cbn [length]; lia). eexists. split; [reflexivity|]. intros _.
        exists [(q, 2)], n. split; [rewrite <- E; by apply factors_square|]. split; [cbn [length]; lia | done].
      + destruct (Hok (Z.quot i q) ltac:(lia)) as (f & Hf & Hfo).
        destruct (ExtendFactors_ok i q (Z.quot i q) n t f) as (l' & Ex & Hl' & Hn'); try done; try lia.
        eexists. split; [exact Ex|]. intros _. by exists l', n.
    - rewrite set_factor_filled by (cbn [length]; lia). eexists. split; [reflexivity|]. intros H2.
      assert (1 <= Z.log2 i) by (change 1 with (Z.log2 2); apply Z.log2_le_mono; lia).
      exists [(i, 1)], n. split; [apply factors_prime; apply divisor_none; (lia || exact Hd)|]. split; [cbn [length]; lia | done]. }
  destruct Hfct as (f & -> & Hf). rewrite bind_Ok, aset_ok by lia. eexists. split; [reflexivity|]. rewrite zlen_insert.
  split; [done|]. intros n Hn. rewrite zth_insert by lia. destruct (Z.eqb_spec n i) as [->|].
  - exists f. split; [done|]. apply Hf. lia.
  - apply Hok. lia.
Qed.

Lemma GetFactorization_ok t : bound <= zlen t -> exists t' last, GetFactorization (zlen l) (l ++ rest) t = Ok t' /\
  last ∈ l /\ (forall p, Z.prime p -> p < bound -> p <= last) /\ zlen t' = zlen t /\ table_ok last t'.
Proof.
  intros Ht. assert (Hne : 0 < zlen l).
  { assert (H : 7 ∈ l) by (apply Hl; split; [by apply (prime_check _ 3) | lia]). destruct l; [inversion H | cbn [length]; lia]. }
  unfold GetFactorization. rewrite aset_ok, bind_Ok, aset_ok, bind_Ok by (rewrite ?zlen_insert; lia).
  rewrite (aget_ok 0), bind_Ok, (zth_app_l 0) by (rewrite ?length_app; lia). set (last := zth 0 l (zlen l - 1)).
  assert (Hlast : last ∈ l) by (apply zth_In; lia). pose proof Hlast as Hlast'. apply Hl in Hlast' as [Hp Hlt].
  apply Z.prime_ge_2 in Hp.
  set (t0 := <[_ := _]> (<[_ := _]> t)).
  assert (Ht0 : zlen t0 = zlen t) by (unfold t0; by rewrite !zlen_insert).
  destruct (for_range_inv (fun i t' => zlen t' = zlen t /\ table_ok i t') (factor_turn (l ++ rest)) 0 last t0)
    as (t' & E & Hz & Hok); [lia | split; [done|]; intros n Hn; lia | |].
  - intros i t' Hi [Hz Hok]. destruct (factor_turn_ok last i t' Hlast Hi ltac:(lia) Hok) as (t'' & E & Hz' & Hok').
    exists t''. split; [done|]. split; [lia | done].
  - exists t', last. split; [exact E|]. split; [done|]. split; [|done]. intros p Hpp Hpb.
    assert (Hin : p ∈ l) by by apply Hl. unfold last.
    destruct l as [|x l0 _] eqn:El using rev_ind; [inversion Hin|].
    rewrite length_app, (zth_app_r 0) by (cbn [length]; lia). cbn [length].
    replace (Z.of_nat (length l0 + 1) - 1 - zlen l0) with 0 by lia. change (p <= x).
    apply list.elem_of_app in Hin as [Hin|Hin]; [|apply base.list_elem_of_In in Hin as [->|[]]; lia].
    destruct Hl as [Hs _]. pose proof (StronglySorted_app_inv Z.lt l0 [x] Hs p x Hin ltac:(left)). lia.
Qed.
End Table.

(** With room for [mpr] numbers, [ListFirstPrimes] lists exactly the
    primes below [mpr] in increasing order, and [GetFactorization] fills the
    table without undefined behaviour: the entry of every number from two to
    the last of these primes has its prime factors in increasing order with
    their exponents, filled up with ones. *)
Theorem factorizations_listed mpr : 8 <= mpr <= 4000000 ->
  exists l last t,
    ListFirstPrimes mpr (replicate (Z.to_nat mpr) 0) = Ok (zlen l, l ++ drop (length l) (replicate (Z.to_nat mpr) 0)) /\
    primes_below mpr l /\ last ∈ l /\ (forall p, Z.prime p -> p < mpr -> p <= last) /\
    GetFactorization (zlen l) (l ++ drop (length l) (replicate (Z.to_nat mpr) 0)) (replicate (Z.to_nat mpr) None) = Ok t /\
    forall n, 2 <= n < last -> exists f, zth None t n = Some f /\ fct_ok n f.
Proof.
  intros Hm. destruct (ListFirstPrimes_ok mpr (replicate (Z.to_nat mpr) 0) Hm) as (l & E & Hl); [rewrite length_replicate; lia|].
  destruct (GetFactorization_ok mpr l (drop (length l) (replicate (Z.to_nat mpr) 0)) Hl Hm (replicate (Z.to_nat mpr) None))
    as (t & last & Et & Hlast & Hmax & _ & Ht); [rewrite length_replicate; lia|].
  exists l, last, t. done.
Qed.

Lemma factorizations_listed_witness : exists l last t,
    ListFirstPrimes 30 (replicate 30 0) = Ok (zlen l, l ++ drop (length l) (replicate 30 0)) /\
    primes_below 30 l /\ last ∈ l /\ (forall p, Z.prime p -> p < 30 -> p <= last) /\
    GetFactorization (zlen l) (l ++ drop (length l) (replicate 30 0)) (replicate 30 None) = Ok t /\
    forall n, 2 <= n < last -> exists f, zth None t n = Some f /\ fct_ok n f.
Proof. apply (factorizations_listed 30). lia. Defined.
