(* ===== verification/AdcSizes.v ===== *)
(** * Input and view sizes

    [NPB/SERIAL/DC/adc.c]: the rows of the input of the data cube benchmark,
    whose attributes are powers of elements modulo primes, and the text that
    tells the size of each view in advance: the least common multiple of the
    orders of these elements, or the number of rows.

    Files are lists of what is written to them, a text being the list of its
    words.  Allocation succeeds, as the code does not look at its outcome, and
    so does writing.  Messages are left out. *)

From Stdlib Require Import Ascii.
From stdpp Require Import strings pretty sorting.
From S2P Require Import Prelude Rbt JobPool AdcFactor.

(** ** Parameters *)

(** The file name is left out. *)
Record ADC_PAR := Par { ndid : Z; par_dim : Z; mnum : Z; tuplenum : Z; inverse_endian : Z; clss : ascii }.

Definition initADCpar : ADC_PAR := Par 0 5 1 100 0 "U".

(** [ParseParFile] on the class, after the lines of the file *)
Definition class_parameters (p : ADC_PAR) : ADC_PAR :=
  let set d t := Par (ndid p) d 1 t (inverse_endian p) (clss p) in
  if decide (clss p = "S"%char) then set 5 1000
  else if decide (clss p = "W"%char) then set 10 100000
  else if decide (clss p = "A"%char) then set 15 1000000
  else if decide (clss p = "B"%char) then set 20 10000000
  else p.

Definition adcprime : list Z :=
  [421; 601; 631; 701; 883;
   419; 443; 647; 21737; 31769;
   1427; 18353; 22817; 34337; 98717;
   3527; 8693; 9677; 11093; 18233].

Definition adcexp : list Z :=
  [11; 13; 17; 19; 23;
   23; 29; 31; 37; 41;
   41; 43; 47; 53; 59;
   3; 5; 7; 11; 13].
Definition adcexpS : list Z := [11; 13; 17; 19; 23].
Definition adcexpW : list Z :=
  [2*2; 2*2*2*5; 2*3; 2*2*5; 2*3*7;
   23; 29; 31; 2*2; 2*2*19].
Definition adcexpA : list Z :=
  [2*2; 2*2*2*5; 2*3; 2*2*5; 2*3*7;
   2*19; 2*13; 2*19; 2*2*2*13*19; 2*2*2*19*19;
   2*23; 2*2*2*2; 2*2*2*2*2*23; 2*2*2*2*2; 2*2*23].
Definition adcexpB : list Z :=
  [2*2*7; 2*2*2*5; 2*3*7; 2*2*5*7; 2*3*7*7;
   2*19; 2*13; 2*19; 2*2*2*13*19; 2*2*2*19*19;
   2*31; 2*2*2*2*31; 2*2*2*2*2*31; 2*2*2*2*2*29; 2*2*29;
   2*43; 2*2; 2*2; 2*2*47; 2*2*2*43].
Definition adcgen : list Z :=
  [2; 7; 3; 2; 2;
   2; 2; 5; 31; 7;
   2; 3; 3; 3; 2;
   5; 2; 2; 2; 3].
Definition UpPrimeLim := 100000.

(** ** The least common multiple *)

Definition LARGE_NUM := 0x4FFFFFFFFFFFFFFF.
Definition maxprmfctr := 59.

Definition factorization (fctlist : list (option Factorization)) (n : Z) : res Factorization :=
  f ← fctlist.[n];
  match f with Some f => Ok f | None => Err OutOfBounds end.

(** The exponent of [fct], less its exponent in [genexp]; the flag tells that
    the loop was left. *)
Definition reduce_turn (fe : Factorization) (fct : Z) (k : Z) (s : Z * bool) : res (Z * bool) :=
  let '(lexp, stop) := s in
  if (stop : bool) then Ok (lexp, stop)
  else
    m ← (mlt fe).[k];
    if m =? 1 then Ok (lexp, true)
    else if negb (fct =? m) then Ok (lexp, false)
    else e ← (exp fe).[k]; lexp ← chk 32 (lexp - e); Ok (lexp, true).

Definition reduce_exp (fe : Factorization) (fct lexp : Z) : res Z :=
  '(lexp, _) ← for_range 0 (dim fe) (reduce_turn fe fct) (lexp, false);
  Ok lexp.

(** The loop over the factors of [pr - 1] *)
Definition raise_turn (fctlist : list (option Factorization)) (genexp : Z) (fp : Factorization) (j : Z) (expons : list Z) :
    res (list Z) :=
  fct ← (mlt fp).[j];
  lexp ← (exp fp).[j];
  fe ← factorization fctlist genexp;
  lexp ← reduce_exp fe (i32 fct) (i32 lexp);
  x ← expons.[i32 fct];
  if x <? lexp then expons.[i32 fct <- lexp] else Ok expons.

Definition raise_exps (fctlist : list (option Factorization)) (pr genexp : Z) (expons : list Z) : res (list Z) :=
  fp ← factorization fctlist (pr - 1);
  for_range 0 (dim fp) (raise_turn fctlist genexp fp) expons.

Definition lcm_exps (mask : Z) (fctlist : list (option Factorization)) (adcexpons : list Z) : res (list Z) :=
  '(_, _, expons) ← while 64 (fun '(mask, _, _) => Ok (0 <? mask)) (fun '(mask, i, expons) =>
    if mask =? 2 * Z.quot mask 2 then Ok (Z.shiftr mask 1, i + 1, expons)
    else
      pr ← adcprime.[i];
      genexp ← adcexpons.[i];
      expons ← raise_exps fctlist pr (i32 genexp) expons;
      Ok (Z.shiftr mask 1, i + 1, expons)) (mask, 0, replicate (Z.to_nat (maxprmfctr + 1)) 0);
  Ok expons.

(** The product, unless it becomes too large; [expons] is not needed any
    more, so that only the entry that is counted down is kept. *)
Definition multiply_out (expons : list Z) : res Z :=
  '(LCM, _) ← for_range 0 (maxprmfctr + 1) (fun i '(LCM, stop) =>
    if (stop : bool) then Ok (LCM, stop)
    else
      x ← expons.[i];
      '(LCM, _, stop) ← while (S (Z.to_nat x)) (fun '(_, x, stop) => Ok (negb stop && (0 <? x)))
        (fun '(LCM, x, _) =>
          LCM ← chk 64 (LCM * i);
          if Z.quot LARGE_NUM maxprmfctr <? LCM then Ok (LCM, x, true) else Ok (LCM, x - 1, false)) (LCM, x, false);
      Ok (LCM, stop)) (1, false);
  Ok LCM.

Definition GetLCM (mask : Z) (fctlist : list (option Factorization)) (adcexpons : list Z) : res Z :=
  expons ← lcm_exps mask fctlist adcexpons;
  multiply_out expons.

(** ** The text *)

Record DC_view := Dcview { vsize : Z; vidx : Z }.

Definition CompareViewsBySize (v w : DC_view) : Z :=
  if vsize w <? vsize v then 1
  else if vsize v <? vsize w then -1
  else if vidx w <? vidx v then 1
  else if vidx v <? vidx w then -1
  else 0.

Definition view_le (v w : DC_view) : Prop := CompareViewsBySize v w <= 0.
#[export] Instance view_le_dec : RelDecision view_le := fun v w => Z_le_dec (CompareViewsBySize v w) 0.

(** The exponents of a class, where there are sizes for it *)
Definition class_exps (c : ascii) : option (list Z) :=
  if decide (c = "U"%char) then Some adcexp
  else if decide (c = "S"%char) then Some adcexpS
  else if decide (c = "W"%char) then Some adcexpW
  else if decide (c = "A"%char) then Some adcexpA
  else if decide (c = "B"%char) then Some adcexpB
  else None.

(** The step from one view of the text to the next *)
Definition class_step (c : ascii) : Z :=
  if decide (c = "U"%char) then 8
  else if decide (c = "A"%char) then 64
  else if decide (c = "B"%char) then 16384
  else 1.

Definition view_size (par : ADC_PAR) (fctlist : list (option Factorization)) (i : Z) : res Z :=
  LCM ← (match class_exps (clss par) with Some e => GetLCM i fctlist e | None => Ok 1 end);
  Ok (if tuplenum par <? LCM then tuplenum par else LCM).

Definition print_view (dcdim : Z) (v : DC_view) : list string :=
  "Selection:"%string :: concat (map (fun j => if Z.testbit (vidx v) j then [pretty (j + 1)] else []) (seqZ 0 dcdim)) ++
  ["View"%string; "Size:"%string; pretty (vsize v)].

Definition count_dims (dcdim idx : Z) : Z := zlen (filter (fun j => Z.testbit idx j = true) (seqZ 0 dcdim)).

(** A turn of the loop that writes the views: the place of the view, the text,
    and the totals *)
Definition print_turn (par : ADC_PAR) (dcview : list DC_view) (s : Z * list string * Z * Z) : res (Z * list string * Z * Z) :=
  let '(i, view, totalInBytes, nCubeTuples) := s in
  v ← dcview.[i];
  Ok (i + class_step (clss par), view ++ print_view (par_dim par) v,
      u64 (totalInBytes + (8 + 4 * count_dims (par_dim par) (vidx v)) * vsize v), u64 (nCubeTuples + vsize v)).

(** [None] when the file can not be opened *)
Definition CalculateVeiwSizes (can_open : bool) (par : ADC_PAR) : res (option (list string)) :=
  '(prnum, prlist) ← ListFirstPrimes UpPrimeLim (replicate (Z.to_nat UpPrimeLim) 0);
  fctlist ← GetFactorization prnum prlist (replicate (Z.to_nat UpPrimeLim) None);
  n ← sshl 32 1 (par_dim par);
  dcview ← for_range 1 n (fun i d => z ← view_size par fctlist i; d.[i <- Dcview z i]) (replicate (Z.to_nat n) (Dcview 0 0));
  if can_open then
    '(_, view, totalInBytes, nCubeTuples) ←
      while (S (Z.to_nat n)) (fun '(i, _, _, _) => Ok (i <? n)) (print_turn par (merge_sort view_le dcview)) (1, [], 0, 0);
    Ok (Some (view ++ ["Total"; "in"; "bytes:"; pretty (i64 totalInBytes); "Number"; "of"; "tuples:"; pretty (i64 nCubeTuples)]%string))
  else Ok None.

(** ** The rows *)

Definition swap4 (x : Z) : Z := of_bytes (swap_bytes 1 2 (swap_bytes 0 3 (bytes_of 4 x))).

(** The static variables of [GetNextTuple] *)
Record generator := Gen { drawn : Z; seed : list Z; gens : list Z }.

Definition new_generator : generator := Gen 0 (replicate 20 0) adcgen.

Definition tuple_exps (c : ascii) : list Z := match class_exps c with Some e => e | None => adcexp end.

(** The power of a generator, by repeated multiplication *)
Definition generator_power (gens locexp : list Z) (i : Z) : res Z :=
  tmpgen ← gens.[i];
  n ← locexp.[i];
  for_range 0 (n - 1) (fun _ t => x ← gens.[i]; p ← adcprime.[i]; y ← chk 64 (t * x); Ok (i32 (Z.rem (i32 y) p))) (i32 tmpgen).

(** The elements that generate the attributes, and where they start *)
Definition start_tuples (dcdim : Z) (locexp : list Z) (g : generator) : res generator :=
  gens ← for_range 0 dcdim (fun i gens => tmpgen ← generator_power gens locexp i; gens.[i <- tmpgen]) (gens g);
  seed ← for_range 0 dcdim (fun i seed => p ← adcprime.[i]; seed.[i <- Z.quot (p + 1) 2]) (seed g);
  Ok (Gen (drawn g) seed gens).

Definition next_attributes (dcdim : Z) (g : generator) (attr : list Z) : res (list Z * list Z * Z) :=
  for_range 0 dcdim (fun i '(attr, seed, maxattr) =>
    s ← seed.[i];
    x ← (gens g).[i];
    p ← adcprime.[i];
    a ← chk 64 (s * x);
    a ← chk 64 (a - p * Z.quot a p);
    attr ← attr.[i <- a];
    seed ← seed.[i <- a];
    Ok (attr, seed, if maxattr <? a then i32 a else maxattr)) (attr, seed g, 0).

Definition next_measures (measnum : Z) (seed : list Z) (maxattr : Z) (meas : list Z) : res (list Z) :=
  for_range 0 measnum (fun i meas =>
    s ← seed.[i];
    m ← chk 64 (s * maxattr);
    m ← chk 64 (m - measbound * Z.quot m measbound);
    meas.[i <- m]) meas.

(** [None] when the result is zero *)
Definition GetNextTuple (dcdim measnum : Z) (c : ascii) (attr meas : list Z) (g : generator) :
    res (option (list Z * list Z * generator)) :=
  if 20 <? dcdim then Ok None
  else if measbound <? measnum then Ok None
  else
    g ← (if drawn g =? 0 then start_tuples dcdim (tuple_exps c) g else Ok g);
    n ← chk 32 (drawn g + 1);
    '(attr, seed, maxattr) ← next_attributes dcdim g attr;
    meas ← next_measures measnum seed maxattr meas;
    Ok (Some (attr, meas, Gen n seed (gens g))).

(** A row of the file: the measures and the attributes, in the order of bytes
    that was asked for *)
Definition write_row (inverse dcdim mesnum : Z) (attr mes : list Z) : res data :=
  m ← for_range 0 mesnum (fun j l => mv ← mes.[j]; Ok (l ++ [if inverse =? 1 then i64 (swap8 (u64 mv)) else mv])) [];
  d ← for_range 0 dcdim (fun j l => av ← attr.[j];
    let av := u32 (i32 av) in Ok (l ++ [if inverse =? 1 then swap4 av else av])) [];
  Ok (Data m d).

(** A turn of the loop over the rows; [None] leaves it. *)
Definition row_turn (par : ADC_PAR) (_ : Z) (s : option (list data * list Z * list Z * generator)) :
    res (option (list data * list Z * list Z * generator)) :=
  match s with
  | None => Ok None
  | Some (rows, attr, mes, g) =>
      t ← GetNextTuple (par_dim par) (mnum par) (clss par) attr mes g;
      match t with
      | None => Ok None
      | Some (attr, mes, g) =>
          x ← write_row (inverse_endian par) (par_dim par) (mnum par) attr mes;
          Ok (Some (rows ++ [x], attr, mes, g))
      end
  end.

(** The file of rows and the text of view sizes; [None] stands for the result
    zero.  The result of [CalculateVeiwSizes] is not looked at. *)
Definition GenerateADC (can_open_rows can_open_sizes : bool) (par : ADC_PAR) : res (option (list data * option (list string))) :=
  if can_open_rows then
    r ← for_range 0 (i32 (tuplenum par)) (row_turn par)
      (Some ([], replicate (Z.to_nat (par_dim par)) 0, replicate (Z.to_nat (mnum par)) 0, new_generator));
    match r with
    | None => Ok None
    | Some (rows, _, _, _) => text ← CalculateVeiwSizes can_open_sizes par; Ok (Some (rows, text))
    end
  else Ok None.
