(* ===== verification/AdcLcm.v ===== *)
(** * The least common multiple

    [GetLCM] of [NPB/SERIAL/DC/adc.c] multiplies out the greatest exponents of
    the primes up to 59 in the orders of the selected elements; these
    exponents are differences of exponents in factorizations of the table. *)

From Stdlib Require Import Sorted.
From stdpp Require Import strings.
From S2P Require Import Prelude JobBits AdcFactor AdcSizes.

(** ** Exponents *)

Fixpoint exponent_from (fuel : nat) (q n : Z) : Z :=
  match fuel with
  | O => 0
  | S fuel => if n mod q =? 0 then 1 + exponent_from fuel q (n / q) else 0
  end.

(** The exponent of [q] in [n] *)
Definition exponent (q n : Z) : Z := exponent_from 64 q n.

Lemma exponent_from_ok fuel q n : 1 < q -> 1 <= n < 2 ^ Z.of_nat fuel ->
  let a := exponent_from fuel q n in 0 <= a /\ (q ^ a | n) /\ ~ (q ^ (a + 1) | n).
Proof.
  intros Hq. revert n. induction fuel as [|fuel IH]; intros n Hn; [change (2 ^ Z.of_nat 0) with 1 in Hn; lia|].
  cbn [exponent_from]. destruct (Z.eqb_spec (n mod q) 0) as [E|E].
  - apply Z.mod_divide in E as [m Hm]; [|lia]. assert (Ed : n / q = m) by (rewrite Hm; apply Z.div_mul; lia). rewrite Ed.
    assert (1 <= m) by nia. assert (2 ^ Z.of_nat (S fuel) = 2 * 2 ^ Z.of_nat fuel) as E2
      by (rewrite Nat2Z.inj_succ, Z.pow_succ_r; lia).
    destruct (IH m ltac:(nia)) as (Ha & Hd & Hnd). set (a := exponent_from fuel q m) in *. split; [lia|].
    rewrite Hm, !(Z.add_comm 1 a), !Z.pow_add_r, Z.pow_1_r by lia. split.
    + by apply Z.mul_divide_mono_r.
    + intros Hx. apply Hnd. apply Z.mul_divide_cancel_r in Hx; [|lia]. by rewrite Z.pow_add_r, Z.pow_1_r by lia.
  - split; [lia|]. rewrite Z.pow_0_r, Z.pow_1_r. split; [apply Z.divide_1_l|]. intros H. apply E. apply Z.mod_divide; [lia | done].
Qed.

Lemma exponent_spec q n a : 1 < q -> 1 <= n < 2 ^ 64 -> 0 <= a -> (q ^ a | n) -> ~ (q ^ (a + 1) | n) -> exponent q n = a.
Proof.
  intros Hq Hn Ha Hd Hnd. destruct (exponent_from_ok 64 q n Hq Hn) as (Hb & Hd' & Hnd'). fold (exponent q n) in *.
  set (b := exponent q n) in *.
  assert (Hmono : forall x y, 0 <= x <= y -> (q ^ y | n) -> (q ^ x | n)).
  { intros x y Hxy H. etransitivity; [|exact H]. exists (q ^ (y - x)). rewrite <- Z.pow_add_r by lia. f_equal. lia. }
  destruct (Z.lt_trichotomy a b) as [Hlt|[|Hlt]]; [| done |]; exfalso.
  - apply Hnd. apply (Hmono _ b); [lia | done].
  - apply Hnd'. apply (Hmono _ a); [lia | done].
Qed.

Lemma exponent_nonneg q n : 0 <= exponent q n.
Proof.
  unfold exponent. generalize 64%nat. intros fuel. revert n. induction fuel as [|fuel IH]; intros n; cbn [exponent_from]; [lia|].
  destruct (_ =? _); [specialize (IH (n / q))|]; lia.
Qed.

Lemma prime_not_value q l : Z.prime q -> Forall (fun x => Z.prime (fst x) /\ 0 < snd x) l -> q ∉ map fst l -> ~ (q | value l).
Proof.
  intros Hq. induction 1 as [|[p e] l [Hp He] _ IH]; intros Hin Hd.
  - cbn in Hd. apply Z.divide_1_r_nonneg in Hd; apply Z.prime_ge_2 in Hq; lia.
  - cbn [map fst] in Hin. apply list.not_elem_of_cons in Hin as [Hne Hin]. cbn [value foldr fst snd] in *. fold (value l) in Hd.
    apply Z.divide_prime_mul in Hd as [Hd|Hd]; [|by apply IH | done]. apply (Z.divide_prime_pp q p e) in Hd; (done || lia).
Qed.

(** The exponents of a factorization *)
Lemma factor_exponent n l q a : factors n l -> n < 2 ^ 64 -> (q, a) ∈ l -> exponent q n = a.
Proof.
  intros [Hs Hp Hv] Hn Hin. pose proof (value_pos l Hp) as Hpos. pose proof (Z.pow_pos_nonneg 2 (zlen l) ltac:(lia) ltac:(lia)).
  apply list.list_elem_of_split in Hin as (l1 & l2 & ->). apply list.Forall_app in Hp as [Hp1 Hp2].
  apply list.Forall_cons in Hp2 as [[Hq Ha] Hp2]. cbn [fst snd] in Hq, Ha. pose proof (Z.prime_ge_2 _ Hq).
  assert (Ev : n = q ^ a * value (l1 ++ l2)).
  { rewrite <- Hv. clear. induction l1 as [|[p e] l1 IH]; [done|]. cbn [app value foldr]. fold (value (l1 ++ (q, a) :: l2)).
    fold (value (l1 ++ l2)). rewrite IH. lia. }
  assert (Hnot : ~ (q | value (l1 ++ l2))).
  { apply prime_not_value; [done | by apply list.Forall_app |]. rewrite map_app in Hs |- *. cbn [map fst] in Hs.
    intros Hin. apply list.elem_of_app in Hin as [Hin|Hin].
    - pose proof (StronglySorted_app_inv _ _ _ Hs q q Hin ltac:(left)). lia.
    - assert (Hs' : StronglySorted Z.lt ([q] ++ map fst l2)).
      { clear - Hs. induction (map fst l1) as [|x l IH]; [done|]. inversion Hs; subst. by apply IH. }
      pose proof (StronglySorted_app_inv _ [q] _ Hs' q q ltac:(left) Hin). lia. }
  apply exponent_spec; [lia | lia | lia | exists (value (l1 ++ l2)); lia |].
  rewrite Ev, Z.pow_add_r, Z.pow_1_r by lia. intros Hd. apply Hnot. apply Z.mul_divide_cancel_l in Hd; [done|].
  apply Z.pow_nonzero; lia.
Qed.

Lemma other_exponent n l q : factors n l -> n < 2 ^ 64 -> Z.prime q -> q ∉ map fst l -> exponent q n = 0.
Proof.
  intros [_ Hp Hv] Hn Hq Hin. pose proof (value_pos l Hp) as Hpos. pose proof (Z.pow_pos_nonneg 2 (zlen l) ltac:(lia) ltac:(lia)).
  apply exponent_spec; [apply Z.prime_ge_2 in Hq; lia | lia | lia | apply Z.divide_1_l |]. rewrite Z.pow_1_r, <- Hv.
  by apply prime_not_value.
Qed.

(** ** The loops over factors *)

Lemma filled_padding k l i : (length l <= i < k)%nat ->
  aget (mlt (filled k l)) (Z.of_nat i) = Ok 1 /\ aget (exp (filled k l)) (Z.of_nat i) = Ok 0.
Proof.
  intros Hi. unfold filled. cbn [mlt exp].
  rewrite !(aget_ok 0) by (rewrite length_app, length_map, length_replicate; lia).
  rewrite !(zth_app_r 0), !length_map by (rewrite length_map; lia). by rewrite !(zth_replicate 0) by lia.
Qed.

Lemma zth_map_fst (l : list (Z * Z)) i : (i < length l)%nat -> fst (zth (1, 0) l (Z.of_nat i)) ∈ map fst l.
Proof. intros Hi. apply base.list_elem_of_In, in_map, base.list_elem_of_In, zth_In. lia. Qed.

Lemma log2_exponent q n l a : factors n l -> n < 2 ^ 64 -> (q, a) ∈ l -> 0 < a < 64.
Proof.
  intros Hl Hn Hin. pose proof (factor_divides n l q a Hl Hin) as Hd. destruct Hl as [_ Hp <-].
  pose proof (value_pos l Hp). pose proof (Z.pow_pos_nonneg 2 (zlen l) ltac:(lia) ltac:(lia)).
  rewrite list.Forall_forall in Hp. destruct (Hp _ Hin) as [Hq Ha]. cbn [fst snd] in *. apply Z.prime_ge_2 in Hq.
  split; [done|]. apply Z.divide_pos_le in Hd; [|lia]. apply (Z.pow_lt_mono_r_iff 2); [lia..|].
  assert (2 ^ a <= q ^ a) by (apply Z.pow_le_mono_l; lia). lia.
Qed.

Lemma reduce_exp_ok e fe q a : fct_ok e fe -> e < 2 ^ 64 -> Z.prime q -> 0 <= a < 64 ->
  reduce_exp fe q a = Ok (a - exponent q e).
Proof.
  intros (l & k & Hl & Hk & ->) He Hq Ha.
  unfold reduce_exp. change (dim (filled k l)) with (Z.of_nat k).
  pose proof (Z.prime_ge_2 _ Hq). pose proof (fa_primes _ _ Hl) as Hp.
  destruct (for_range_inv (fun i '(x, stop) => if (stop : bool) then x = a - exponent q e
      else x = a /\ i <= zlen l /\ forall j, (j < Z.to_nat i)%nat -> fst (zth (1, 0) l (Z.of_nat j)) <> q)
    (reduce_turn (filled k l) q) 0 (Z.of_nat k) (a, false)) as ([x stop] & -> & Hx); [lia | | |].
  - split; [done|]. split; lia.
  - intros i [x stop] Hi Hx. destruct stop; [by eexists|]. destruct Hx as (-> & Hil & Hne). unfold reduce_turn.
    destruct (decide (i < zlen l)) as [Hlt|Hge].
    + destruct (filled_nth l k Hk i ltac:(lia)) as [E1 E2]. rewrite E1, bind_Ok.
      pose proof (factor_ge_2 l Hp i ltac:(lia)). destruct (Z.eqb_spec (fst (zth (1, 0) l i)) 1); [lia|].
      destruct (Z.eqb_spec q (fst (zth (1, 0) l i))) as [E|E]; cbn [negb].
      * assert (Hin : (q, snd (zth (1, 0) l i)) ∈ l).
        { rewrite E, <- surjective_pairing. apply zth_In. lia. }
        rewrite E2, bind_Ok. pose proof (log2_exponent _ _ _ _ Hl He Hin). rewrite chk_ok, bind_Ok by lia.
        eexists. split; [reflexivity|]. by rewrite (factor_exponent e l q _ Hl He Hin).
      * eexists. split; [reflexivity|]. split; [done|]. split; [lia|]. intros j Hj.
        destruct (decide (Z.of_nat j = i)) as [->|]; [congruence|]. apply Hne. lia.
    + assert (i = zlen l) as -> by lia. rewrite (filled_end l k Hk), bind_Ok. eexists. split; [reflexivity|].
      rewrite (other_exponent e l q Hl He Hq); [lia|]. intros Hin.
      apply base.list_elem_of_In, in_map_iff in Hin as ([p b] & <- & Hin). apply base.list_elem_of_In, (In_zth (1, 0)) in Hin as (j & Hj & E).
      apply (Hne (Z.to_nat j)); [lia|]. by rewrite Z2Nat.id, E by lia.
  - cbn [mbind res_bind]. destruct stop; [by rewrite Hx|]. lia.
Qed.

(** A one is not in a factorization. *)
Lemma reduce_one_ok e fe : fct_ok e fe -> reduce_exp fe 1 0 = Ok 0.
Proof.
  intros (l & k & Hl & Hk & ->). pose proof (fa_primes _ _ Hl) as Hp.
  unfold reduce_exp. change (dim (filled k l)) with (Z.of_nat k).
  destruct (for_range_inv (fun i '(x, stop) => x = 0 /\ ((stop : bool) = false -> i <= zlen l))
    (reduce_turn (filled k l) 1) 0 (Z.of_nat k) (0, false)) as ([x stop] & -> & -> & _); [lia | split; lia | | done].
  intros i [x stop] Hi [-> Hil]. destruct stop; [by eexists|]. specialize (Hil eq_refl). unfold reduce_turn.
  destruct (decide (i < zlen l)) as [Hlt|Hge].
  - destruct (filled_nth l k Hk i ltac:(lia)) as [E1 E2]. rewrite E1, bind_Ok.
    pose proof (factor_ge_2 l Hp i ltac:(lia)). destruct (Z.eqb_spec (fst (zth (1, 0) l i)) 1); [lia|].
    destruct (Z.eqb_spec 1 (fst (zth (1, 0) l i))) as [E|E]; cbn [negb]; [lia|]. eexists. split; [reflexivity|]. split; [done | lia].
  - assert (i = zlen l) as -> by lia. rewrite (filled_end l k Hk), bind_Ok. by eexists.
Qed.

(** The primes up to [maxprmfctr] *)
Definition small_primes : list Z := [2; 3; 5; 7; 11; 13; 17; 19; 23; 29; 31; 37; 41; 43; 47; 53; 59].

Lemma small_primes_spec q : q ∈ small_primes <-> Z.prime q /\ q <= maxprmfctr.
Proof.
  unfold maxprmfctr. split.
  - intros Hq. assert (H : Forall (fun q => Z.prime q /\ q <= 59) small_primes).
    { unfold small_primes. repeat constructor; try lia; try apply Z.prime_2; try apply Z.prime_3;
        first [by apply (prime_check _ 3) | by apply (prime_check _ 4) | by apply (prime_check _ 5) | by apply (prime_check _ 6) | by apply (prime_check _ 8)]. }
    rewrite list.Forall_forall in H. by apply H.
  - intros [Hq Hle]. pose proof (Z.prime_ge_2 _ Hq).
    assert (Hc : all_below 60 (fun n => (n <? 2) || bool_decide (n ∈ small_primes) ||
      existsb (fun d => (d <? n) && (n mod d =? 0)) [2; 3; 5; 7]) = true) by (vm_compute; reflexivity).
    apply (all_below_spec _ _ q) in Hc; [|lia]. cbn beta in Hc. destruct (Z.ltb_spec q 2); [lia|]. cbn [orb] in Hc.
    apply orb_prop in Hc as [Hc|Hc]; [by apply bool_decide_eq_true in Hc|]. exfalso.
    apply existsb_exists in Hc as (d & Hd & Hc). apply andb_prop in Hc as [H1 H2]. apply Z.ltb_lt in H1. apply Z.eqb_eq in H2.
    destruct Hq as [_ Hq]. apply (Hq d); [|apply Z.mod_divide in H2; [done | ]];
      destruct Hd as [<-|[<-|[<-|[<-|[]]]]]; lia.
Qed.

(** The exponent of [q] in the order of the power of a generator modulo [pr]
    to [e] *)
Definition order_exp (pr e q : Z) : Z := Z.max 0 (exponent q (pr - 1) - exponent q e).

Section Raise.
Context (fctlist : list (option Factorization)) (last pr e : Z).
Hypothesis Htable : table_ok last fctlist.
Hypothesis Hlast : last <= 4000000.
Hypothesis Hlen : last <= zlen fctlist.
Hypothesis Hpr : 3 <= pr <= last.
Hypothesis He : 2 <= e < last.
Hypothesis Hsmooth : forall q, Z.prime q -> (q | pr - 1) -> q <= maxprmfctr.

Lemma factorization_ok n : 2 <= n < last -> exists f, factorization fctlist n = Ok f /\ fct_ok n f.
Proof.
  intros Hn. destruct (Htable n Hn) as (f & E & Hf). exists f. split; [|done].
  unfold factorization. by rewrite (aget_ok None), bind_Ok, E by lia.
Qed.

(** The exponents after the factors [l] *)
Definition raised (l : list (Z * Z)) (expons x : list Z) : Prop :=
  zlen x = maxprmfctr + 1 /\ forall q, 0 <= q <= maxprmfctr ->
    zth 0 x q = if bool_decide (q ∈ map fst l) then Z.max (zth 0 expons q) (order_exp pr e q) else zth 0 expons q.

Lemma raise_turn_ok l k j expons x : factors (pr - 1) l -> (length l < k)%nat -> 0 <= j < Z.of_nat k ->
  (forall q, 0 <= q <= maxprmfctr -> 0 <= zth 0 expons q) -> raised (take (Z.to_nat j) l) expons x ->
  exists x', raise_turn fctlist e (filled k l) j x = Ok x' /\ raised (take (Z.to_nat (j + 1)) l) expons x'.
Proof.
  intros Hl Hk Hj Hnn [Hx Hz]. destruct (factorization_ok e He) as (fe & Efe & Hfe). unfold raise_turn, maxprmfctr in *.
  destruct (decide (j < zlen l)) as [Hlt|Hge].
  - destruct (filled_nth l k Hk j ltac:(lia)) as [-> ->]. rewrite !bind_Ok, Efe, bind_Ok.
    assert (Hin : zth (1, 0) l j ∈ l) by (apply zth_In; lia). rewrite (take_succ_zth (1, 0)) by lia.
    destruct (zth (1, 0) l j) as [q a] eqn:Ez. cbn [fst snd].
    pose proof (fa_primes _ _ Hl) as Hp. rewrite list.Forall_forall in Hp. destruct (Hp _ Hin) as [Hq _]. cbn [fst] in Hq.
    pose proof (Z.prime_ge_2 _ Hq). pose proof (log2_exponent _ _ _ _ Hl ltac:(lia) Hin) as Ha.
    assert (Hq59 : q <= 59).
    { apply Hsmooth; [done|]. etransitivity; [apply (Z.divide_pow_same_r q a); lia | by apply (factor_divides _ l)]. }
    rewrite !signed_small by lia. rewrite (reduce_exp_ok e fe q a Hfe ltac:(lia) Hq), bind_Ok, (aget_ok 0), bind_Ok by lia.
    assert (Hoe : order_exp pr e q = Z.max 0 (a - exponent q e))
      by (unfold order_exp; by rewrite (factor_exponent (pr - 1) l q a Hl ltac:(lia) Hin)).
    set (b := a - exponent q e) in *. pose proof (Hz q ltac:(lia)) as Hzq. specialize (Hnn q ltac:(lia)).
    assert (Hset : exists x', (if zth 0 x q <? b then x.[q <- b] else Ok x) = Ok x' /\ zlen x' = 60 /\
      forall r, 0 <= r <= 59 -> zth 0 x' r = if decide (r = q) then Z.max (zth 0 x q) b else zth 0 x r).
    { destruct (Z.ltb_spec (zth 0 x q) b).
      - rewrite aset_ok by lia. eexists. split; [reflexivity|]. rewrite zlen_insert. split; [lia|]. intros r Hr.
        rewrite zth_insert by lia. destruct (Z.eqb_spec r q), (decide (r = q)); lia.
      - exists x. split; [done|]. split; [lia|]. intros r Hr. destruct (decide (r = q)) as [->|]; lia. }
    destruct Hset as (x' & -> & Hx' & Hz'). exists x'. split; [done|]. split; [done|]. intros r Hr.
    rewrite Hz', map_app by done. destruct (decide (r = q)) as [->|Hne].
    + rewrite bool_decide_eq_true_2 by (rewrite list.elem_of_app; right; left). rewrite Hzq, Hoe. case_bool_decide; lia.
    + rewrite Hz by done. rewrite (bool_decide_ext (r ∈ _ ++ _) (r ∈ map fst (take (Z.to_nat j) l))); [done|].
      rewrite list.elem_of_app. split; [|by left]. intros [|Hin']; [done|]. apply base.list_elem_of_In in Hin' as [<-|[]]. done.
  - destruct (filled_padding k l (Z.to_nat j) ltac:(lia)) as [E1 E2]. rewrite Z2Nat.id in E1, E2 by lia.
    rewrite E1, bind_Ok, E2, bind_Ok, Efe, bind_Ok, !signed_small, (reduce_one_ok e) by (done || lia).
    rewrite bind_Ok, (aget_ok 0), bind_Ok by lia. specialize (Hz 1 ltac:(lia)) as Hz1. specialize (Hnn 1 ltac:(lia)).
    destruct (Z.ltb_spec (zth 0 x 1) 0) as [Hneg|]; [exfalso; case_bool_decide; lia|].
    exists x. split; [done|]. split; [done|]. by rewrite !take_ge in * by lia.
Qed.

Lemma raise_exps_ok expons : zlen expons = maxprmfctr + 1 -> (forall q, 0 <= q <= maxprmfctr -> 0 <= zth 0 expons q) ->
  exists x, raise_exps fctlist pr e expons = Ok x /\ zlen x = maxprmfctr + 1 /\ forall q, 0 <= q <= maxprmfctr ->
    zth 0 x q = if bool_decide (q ∈ small_primes) then Z.max (zth 0 expons q) (order_exp pr e q) else zth 0 expons q.
Proof.
  intros Hx Hnn. unfold raise_exps. destruct (factorization_ok (pr - 1) ltac:(lia)) as (fp & -> & l & k & Hl & Hk & ->).
  rewrite bind_Ok. change (dim (filled k l)) with (Z.of_nat k).
  destruct (for_range_inv (fun j x => raised (take (Z.to_nat j) l) expons x) (raise_turn fctlist e (filled k l)) 0 (Z.of_nat k) expons)
    as (x & -> & Hx' & Hz); [lia | split; [done|]; by intros | |].
  - intros j x Hj Hr. by apply raise_turn_ok.
  - exists x. split; [done|]. split; [done|]. intros q Hq. rewrite Hz by done. rewrite take_ge by lia. specialize (Hnn q Hq).
    destruct (decide (q ∈ map fst l)) as [Hin|Hin].
    + rewrite (bool_decide_eq_true_2 (q ∈ map fst l)) by done. rewrite bool_decide_eq_true_2; [done|]. apply small_primes_spec.
      apply base.list_elem_of_In, in_map_iff in Hin as ([p a] & <- & Hin). apply base.list_elem_of_In in Hin. cbn [fst] in *.
      pose proof (fa_primes _ _ Hl) as Hp. rewrite list.Forall_forall in Hp. destruct (Hp _ Hin) as [Hpp Ha]. cbn [fst snd] in *.
      split; [done|]. lia.
    + rewrite (bool_decide_eq_false_2 (q ∈ map fst l)) by done. case_bool_decide as Hs; [|done]. apply small_primes_spec in Hs as [Hs _].
      unfold order_exp. rewrite (other_exponent _ l q Hl) by (done || lia). pose proof (exponent_nonneg q e). lia.
Qed.
End Raise.

(** ** The product *)

Definition product (f : Z -> Z) (l : list Z) : Z := foldr (fun q n => q ^ f q * n) 1 l.

Lemma product_pos f l : (forall q, q ∈ l -> 0 <= f q /\ (f q = 0 \/ 0 < q)) -> 0 < product f l.
Proof.
  induction l as [|q l IH]; intros H; cbn [product foldr]; [lia|]. fold (product f l).
  assert (0 < q ^ f q) by (destruct (H q ltac:(left)) as [H1 [-> | H2]]; [by rewrite Z.pow_0_r | by apply Z.pow_pos_nonneg]).
  specialize (IH (fun q Hq => H q ltac:(by right))). nia.
Qed.

Lemma product_app f l1 l2 : product f (l1 ++ l2) = product f l1 * product f l2.
Proof. induction l1 as [|q l1 IH]; cbn [app product foldr]; [symmetry; apply Z.mul_1_l|]. fold (product f (l1 ++ l2)) (product f l1). rewrite IH. ring. Qed.

Lemma product_ext f g l : (forall q, q ∈ l -> f q = g q) -> product f l = product g l.
Proof.
  induction l as [|q l IH]; intros H; cbn [product foldr]; [done|]. fold (product f l) (product g l).
  rewrite (H q ltac:(left)), IH; [done|]. intros r Hr. apply H. by right.
Qed.

(** Factors with exponent zero do not count. *)
Lemma product_filter f (P : Z -> Prop) `{!forall q, Decision (P q)} l : (forall q, q ∈ l -> ~ P q -> f q = 0) ->
  product f l = product f (filter P l).
Proof.
  induction l as [|q l IH]; intros Hf; [done|]. cbn [product foldr]. fold (product f l).
  rewrite IH by (intros r Hr; apply Hf; by right). rewrite filter_cons. destruct (decide (P q)) as [Hq|Hq]; [done|].
  rewrite (Hf q ltac:(left) Hq), Z.pow_0_r. lia.
Qed.

Section Multiply.
Context (x : list Z) (f : Z -> Z).
Hypothesis Hx : zlen x = maxprmfctr + 1.
Hypothesis Hnn : forall q, 0 <= f q.
Hypothesis Hf : forall q, 0 <= q <= maxprmfctr -> zth 0 x q = if bool_decide (q ∈ small_primes) then f q else 0.

Let limit := Z.quot LARGE_NUM maxprmfctr.
Let g (q : Z) : Z := zth 0 x q.

Lemma multiply_factor i L : 0 <= i <= maxprmfctr -> 0 < L <= limit ->
  exists L' x' stop, while (S (Z.to_nat (g i))) (fun '(_, x, stop) => Ok (negb stop && (0 <? x)))
    (fun '(L, x, _) => L ← chk 64 (L * i); if limit <? L then Ok (L, x, true) else Ok (L, x - 1, false)) (L, g i, false) = Ok (L', x', stop) /\
    if (stop : bool) then limit < L' /\ exists t, 0 <= t <= g i /\ L' = L * i ^ t else L' = L * i ^ g i /\ 0 < L' <= limit.
Proof.
  intros Hi HL. assert (Hg : 0 <= g i /\ (g i = 0 \/ 2 <= i)).
  { unfold g. rewrite Hf by done. case_bool_decide as Hs; [|lia]. apply small_primes_spec in Hs as [Hs _]. apply Z.prime_ge_2 in Hs.
    split; [done | by right]. }
  destruct (while_inv (fun '(L', y, stop) => 0 <= y <= g i /\
      if (stop : bool) then limit < L' /\ exists t, 0 <= t <= g i /\ L' = L * i ^ t else L' = L * i ^ (g i - y) /\ 0 < L' <= limit)
    (fun '(_, y, stop) => if (stop : bool) then O else Z.to_nat y)
    (fun '(_, x, stop) => Ok (negb stop && (0 <? x)))
    (fun '(L, x, _) => L ← chk 64 (L * i); if limit <? L then Ok (L, x, true) else Ok (L, x - 1, false)))
    with (fuel := S (Z.to_nat (g i))) (s := (L, g i, false)) as ([[L' y] stop] & E & [Hy Hs] & Hc).
  - intros [[L' y] stop] _. by eexists.
  - intros [[L' y] stop] [Hy Hs] [= Hc]. apply andb_prop in Hc as [Hstop Hy0]. destruct stop; [done|]. apply Z.ltb_lt in Hy0.
    destruct Hs as [EL HL']. assert (Hmax : L' * i < 2 ^ 63).
    { assert (limit * 59 < 2 ^ 63) by reflexivity. unfold maxprmfctr in Hi. nia. }
    assert (0 < L' * i) by nia.
    rewrite chk_ok, bind_Ok by lia. assert (EL' : L' * i = L * i ^ (g i - (y - 1))).
    { rewrite EL. replace (g i - (y - 1)) with (g i - y + 1) by lia. rewrite Z.pow_add_r by lia. lia. }
    destruct (Z.ltb_spec limit (L' * i)); eexists; (split; [reflexivity|]); (split; [|lia]); (split; [lia|]).
    + split; [done|]. exists (g i - (y - 1)). split; [lia | done].
    + split; [done | lia].
  - lia.
  - split; [lia|]. rewrite Z.sub_diag, Z.pow_0_r. lia.
  - exists L', y, stop. split; [exact E|]. destruct stop; [done|]. injection Hc as Hc. cbn [negb andb] in Hc. apply Z.ltb_ge in Hc.
    assert (y = 0) as -> by lia. by rewrite Z.sub_0_r in Hs.
Qed.

(** The product, or a part of it that is above the limit *)
Lemma multiply_out_ok : exists L, multiply_out x = Ok L /\
  (L = product f small_primes \/ limit < L <= product f small_primes).
Proof.
  assert (Hpos : forall lo hi, 0 <= lo -> hi <= maxprmfctr + 1 -> 0 < product g (seqZ lo (hi - lo))).
  { intros lo hi Hlo Hhi. apply product_pos. intros q Hq. apply elem_of_seqZ in Hq. unfold g. rewrite Hf by lia.
    case_bool_decide as Hs; [|lia]. apply small_primes_spec in Hs as [Hs _]. apply Z.prime_ge_2 in Hs. split; [done | right; lia]. }
  assert (Hall : product g (seqZ 0 (maxprmfctr + 1)) = product f small_primes).
  { rewrite (product_filter g (fun q => q ∈ small_primes)).
    - replace (filter _ _) with small_primes by (vm_compute; reflexivity). apply product_ext. intros q Hq. unfold g.
      pose proof Hq as Hq'. apply small_primes_spec in Hq' as [Hp Hle]. apply Z.prime_ge_2 in Hp. rewrite Hf by lia.
      by rewrite bool_decide_eq_true_2.
    - intros q Hq Hn. apply elem_of_seqZ in Hq. unfold g. rewrite Hf by lia. by rewrite bool_decide_eq_false_2. }
  unfold multiply_out. fold limit.
  destruct (for_range_inv (fun i '(L, stop) => if (stop : bool) then limit < L <= product g (seqZ 0 (maxprmfctr + 1))
      else L = product g (seqZ 0 i) /\ 0 < L <= limit)
    (fun i '(L, stop) => if (stop : bool) then Ok (L, stop) else y ← x.[i];
      '(L, _, stop) ← while (S (Z.to_nat y)) (fun '(_, x, stop) => Ok (negb stop && (0 <? x)))
        (fun '(L, x, _) => L ← chk 64 (L * i); if limit <? L then Ok (L, x, true) else Ok (L, x - 1, false)) (L, y, false);
      Ok (L, stop)) 0 (maxprmfctr + 1) (1, false)) as ([L stop] & -> & HL); [done | by cbn | |].
  - intros i [L stop] Hi HL. destruct stop; [by eexists|]. destruct HL as [EL HL].
    rewrite (aget_ok 0), bind_Ok by lia. fold (g i). destruct (multiply_factor i L ltac:(lia) HL) as (L' & y & stop & -> & Hs).
    rewrite bind_Ok. eexists. split; [reflexivity|].
    assert (Hsplit : forall n, 0 <= n <= maxprmfctr -> product g (seqZ 0 (n + 1)) = product g (seqZ 0 n) * n ^ g n).
    { intros n Hn. rewrite seqZ_app, product_app, Z.add_0_l, (seqZ_cons n 1) by lia.
      rewrite (seqZ_nil _ (Z.pred 1)) by lia. cbn [product foldr]. by rewrite Z.mul_1_r. }
    destruct stop; [|rewrite Hsplit by lia; by rewrite <- EL].
    destruct Hs as [Hlim (t & Ht & E)]. split; [done|].
    replace (maxprmfctr + 1) with (i + 1 + (maxprmfctr + 1 - (i + 1))) by lia.
    rewrite seqZ_app, product_app, Hsplit, <- EL, Z.add_0_l by lia. specialize (Hpos (i + 1) (maxprmfctr + 1) ltac:(lia) ltac:(lia)).
    assert (Hpow : i ^ t <= i ^ g i).
    { destruct (decide (i = 0)) as [->|]; [|by apply Z.pow_le_mono_r; lia].
      assert (g 0 = 0) as E0 by (unfold g; rewrite Hf by done; rewrite bool_decide_eq_false_2; [done|];
        intros [H0 _]%small_primes_spec; apply Z.prime_ge_2 in H0; lia).
      by replace t with 0 by lia; rewrite E0. }
    rewrite E. transitivity (L * i ^ g i); [by apply Z.mul_le_mono_nonneg_l; [lia|]|].
    rewrite <- (Z.mul_1_r (L * i ^ g i)) at 1. apply Z.mul_le_mono_nonneg_l; [|lia]. assert (0 <= i ^ g i) by (apply Z.pow_nonneg; lia). nia.
  - cbn [mbind res_bind]. exists L. split; [done|]. rewrite <- Hall. destruct stop; [by right | left; apply HL].
Qed.
End Multiply.

(** ** [GetLCM] *)

(** The greatest exponent of [q] in the orders of the attributes [sel] *)
Definition max_order (es : list Z) (sel : list Z) (q : Z) : Z :=
  foldr (fun a m => Z.max (order_exp (zth 0 adcprime (a - 1)) (zth 0 es (a - 1)) q) m) 0 sel.

Definition lcm_orders (es : list Z) (sel : list Z) : Z := product (max_order es sel) small_primes.

Lemma max_order_nonneg es sel q : 0 <= max_order es sel q.
Proof. unfold max_order. induction sel as [|a sel IH]; cbn [foldr]; lia. Qed.

Lemma max_order_snoc es sel a q :
  max_order es (sel ++ [a]) q = Z.max (max_order es sel q) (order_exp (zth 0 adcprime (a - 1)) (zth 0 es (a - 1)) q).
Proof.
  unfold max_order. rewrite foldr_app. cbn [foldr]. generalize (order_exp (zth 0 adcprime (a - 1)) (zth 0 es (a - 1)) q). intros o.
  pose proof (max_order_nonneg es sel q) as Hn. revert Hn. unfold max_order. induction sel as [|b sel IH]; cbn [foldr]; [lia|].
  intros _. pose proof (max_order_nonneg es sel q) as Hn. specialize (IH Hn). unfold max_order in Hn. lia.
Qed.

(** The numbers of attribute [i] are in the table, and the factors of its
    prime less one are small. *)
Definition entry_check (es : list Z) (i : Z) : bool :=
  let p := zth 0 adcprime i in
  let e := zth 0 es i in
  (3 <=? p) && (p <=? 99990) && (2 <=? e) && (e <? 99990) && (product (fun q => exponent q (p - 1)) small_primes =? p - 1).

Lemma entry_bounds es i : entry_check es i = true -> 3 <= zth 0 adcprime i <= 99990 /\ 2 <= zth 0 es i < 99990.
Proof.
  unfold entry_check. cbn zeta. rewrite !andb_true_iff, !Z.leb_le, Z.ltb_lt. lia.
Qed.

Lemma product_divisor f l q : Z.prime q -> (forall r, r ∈ l -> Z.prime r /\ 0 <= f r) -> (q | product f l) -> q ∈ l.
Proof.
  intros Hq. induction l as [|r l IH]; intros Hl Hd.
  - cbn in Hd. apply Z.divide_1_r_nonneg in Hd; apply Z.prime_ge_2 in Hq; lia.
  - cbn [product foldr] in Hd. fold (product f l) in Hd. apply Z.divide_prime_mul in Hd as [Hd|Hd]; [| |done].
    + destruct (Hl r ltac:(left)) as [Hr Hf]. apply (Z.divide_prime_pp q r (f r)) in Hd as ->; try done. left.
    + right. apply IH; [|done]. intros s Hs. apply Hl. by right.
Qed.

Lemma entry_smooth es i q : entry_check es i = true -> Z.prime q -> (q | zth 0 adcprime i - 1) -> q <= maxprmfctr.
Proof.
  intros He Hq Hd. apply andb_prop in He as [_ He]. apply Z.eqb_eq in He. rewrite <- He in Hd.
  apply (product_divisor _ _ q Hq) in Hd; [by apply small_primes_spec in Hd as []|]. intros r Hr.
  split; [by apply small_primes_spec in Hr as [] | apply exponent_nonneg].
Qed.

(** The selection of a mask *)
Definition mask_attrs (mask : Z) (n : nat) : list Z := attrs (fun j => Z.testbit mask (j - 1)) n.

Section Lcm.
Context (fctlist : list (option Factorization)) (last : Z) (es : list Z) (nd : Z).
Hypothesis Htable : table_ok last fctlist.
Hypothesis Hlast : 99990 <= last <= 4000000.
Hypothesis Hlen : last <= zlen fctlist.
Hypothesis Hnd : 0 <= nd <= 20.
Hypothesis Hes : nd <= zlen es.
Hypothesis Hentries : forall i, 0 <= i < nd -> entry_check es i = true.

Lemma lcm_exps_ok mask : 0 <= mask < 2 ^ nd -> exists x, lcm_exps mask fctlist es = Ok x /\ zlen x = maxprmfctr + 1 /\
  forall q, 0 <= q <= maxprmfctr ->
    zth 0 x q = if bool_decide (q ∈ small_primes) then max_order es (mask_attrs mask (Z.to_nat nd)) q else 0.
Proof.
  intros Hmask. unfold lcm_exps.
  assert (Hbit : forall i, nd <= i -> Z.testbit mask i = false) by (intros i Hi; apply (testbit_above nd); lia).
  destruct (while_inv (fun '(m, i, x) => 0 <= i <= nd /\ m = Z.shiftr mask i /\ zlen x = maxprmfctr + 1 /\
      forall q, 0 <= q <= maxprmfctr -> zth 0 x q = if bool_decide (q ∈ small_primes) then max_order es (mask_attrs mask (Z.to_nat i)) q else 0)
    (fun '(_, i, _) => Z.to_nat (nd - i))
    (fun '(mask, _, _) => Ok (0 <? mask)) (fun '(mask, i, expons) =>
      if mask =? 2 * Z.quot mask 2 then Ok (Z.shiftr mask 1, i + 1, expons)
      else pr ← adcprime.[i]; genexp ← es.[i]; expons ← raise_exps fctlist pr (i32 genexp) expons;
        Ok (Z.shiftr mask 1, i + 1, expons)))
    with (fuel := 64%nat) (s := (mask, 0, replicate (Z.to_nat (maxprmfctr + 1)) 0)) as ([[m i] x] & -> & (Hi & Em & Hx & Hz) & Hc).
  - intros [[m i] x] _. by eexists.
  - intros [[m i] x] (Hi & Em & Hx & Hz) [= Hc]. apply Z.ltb_lt in Hc.
    assert (Hlt : i < nd).
    { destruct (decide (i = nd)) as [->|]; [|lia]. exfalso. rewrite Em, Z.shiftr_div_pow2, Z.div_small in Hc by lia. lia. }
    assert (Hs : Z.shiftr m 1 = Z.shiftr mask (i + 1)) by (rewrite Em, Z.shiftr_shiftr by lia; done).
    assert (Hodd : (m =? 2 * Z.quot m 2) = negb (Z.testbit mask i)).
    { assert (Em' : Z.testbit mask i = Z.odd m) by (rewrite Em, <- Z.bit0_odd, Z.shiftr_spec by lia; f_equal; lia).
      rewrite Em', Z.quot_div_nonneg by lia. pose proof (Z.div_mod m 2 ltac:(lia)) as Hdm. rewrite Zmod_odd in Hdm.
      destruct (Z.odd m), (Z.eqb_spec m (2 * (m / 2))); (done || lia). }
    assert (Ha : mask_attrs mask (Z.to_nat (i + 1)) = mask_attrs mask (Z.to_nat i) ++ (if Z.testbit mask i then [i + 1] else [])).
    { replace (Z.to_nat (i + 1)) with (S (Z.to_nat i)) by lia. unfold mask_attrs. cbn [attrs].
      replace (Z.of_nat (S (Z.to_nat i))) with (i + 1) by lia. by replace (i + 1 - 1) with i by lia. }
    rewrite Hodd. destruct (Z.testbit mask i) eqn:Eb; cbn [negb].
    + pose proof (Hentries i ltac:(lia)) as He. pose proof (entry_smooth es i) as Hsm.
      pose proof (entry_bounds es i He) as (Hp & He2).
      rewrite (aget_ok 0 adcprime i), bind_Ok, (aget_ok 0 es i), bind_Ok, signed_small by (lia || (change (zlen adcprime) with 20; lia)).
      destruct (raise_exps_ok fctlist last (zth 0 adcprime i) (zth 0 es i)) with (expons := x) as (x' & -> & Hx' & Hz'); try done; try lia.
      * intros q. by apply Hsm.
      * intros q Hq. rewrite Hz by done. case_bool_decide; [apply max_order_nonneg | lia].
      * rewrite bind_Ok. eexists. split; [reflexivity|]. split; [|lia]. split; [lia|]. split; [done|]. split; [done|].
        intros q Hq. rewrite Hz' by done. rewrite Hz by done. case_bool_decide; [|done].
        rewrite Ha, max_order_snoc. by replace (i + 1 - 1) with i by lia.
    + eexists. split; [reflexivity|]. split; [|lia]. split; [lia|]. split; [done|]. split; [done|]. by rewrite Ha, app_nil_r.
  - cbn beta. lia.
  - split; [lia|]. split; [by rewrite Z.shiftr_0_r|]. split; [done|]. intros q Hq.
    rewrite (zth_replicate 0) by (unfold maxprmfctr in *; lia). by case_bool_decide.
  - injection Hc as Hc. cbn [mbind res_bind]. exists x. split; [done|]. split; [done|]. intros q Hq. rewrite Hz by done.
    apply Z.ltb_ge in Hc. replace (mask_attrs mask (Z.to_nat nd)) with (mask_attrs mask (Z.to_nat i)); [done|].
    symmetry. apply attrs_skip; [lia|]. intros j Hj. assert (Hm : Z.shiftr mask i = 0) by (pose proof (Z.shiftr_nonneg mask i); lia).
    replace (j - 1) with (j - 1 - i + i) by lia. rewrite <- Z.shiftr_spec, Hm by lia. apply Z.testbit_0_l.
Qed.

Lemma GetLCM_ok mask : 0 <= mask < 2 ^ nd -> exists L, GetLCM mask fctlist es = Ok L /\
  let m := lcm_orders es (mask_attrs mask (Z.to_nat nd)) in L = m \/ Z.quot LARGE_NUM maxprmfctr < L <= m.
Proof.
  intros Hmask. unfold GetLCM. destruct (lcm_exps_ok mask Hmask) as (x & -> & Hx & Hz). rewrite bind_Ok.
  apply multiply_out_ok; [done | intros q; apply max_order_nonneg | exact Hz].
Qed.
End Lcm.
