(* ===== verification/AdcOrder.v ===== *)
(** * Orders and distinct rows

    The attributes of the input of the data cube benchmark run through the
    powers of elements modulo primes.  So the rows projected to some
    attributes repeat with the least common multiple of the orders of their
    elements, and no sooner: their number is what [GetLCM] predicts. *)

From Stdlib Require Import Zpow_facts.
From stdpp Require Import strings gmap.
From S2P Require Import Prelude JobBits AdcFactor AdcSizes AdcLcm.

(** ** Orders *)

Section Order.
Context (p h : Z).
Hypothesis Hp : 1 < p.

Lemma pow_one_mul a b : 0 <= a -> 0 <= b -> h ^ a mod p = 1 -> h ^ (a * b) mod p = 1.
Proof. intros Ha Hb E. rewrite Z.pow_mul_r, Zpower_mod, E, Z.pow_1_l by lia. by apply Z.mod_small. Qed.

Lemma pow_one_add a b : 0 <= a -> 0 <= b -> h ^ a mod p = 1 -> h ^ (a + b) mod p = h ^ b mod p.
Proof. intros Ha Hb E. by rewrite Z.pow_add_r, <- Z.mul_mod_idemp_l, E, Z.mul_1_l by lia. Qed.

Lemma pow_one_gcd a b : 0 <= a -> 0 <= b -> h ^ a mod p = 1 -> h ^ b mod p = 1 -> h ^ Z.gcd a b mod p = 1.
Proof.
  intros Ha Hb. revert a Ha. apply (Zlt_0_ind (fun b => forall a, 0 <= a -> h ^ a mod p = 1 -> h ^ b mod p = 1 -> h ^ Z.gcd a b mod p = 1));
    [|done]. clear b Hb. intros b IH Hb a Ha Ea Eb. destruct (decide (b = 0)) as [->|Hb0].
  - rewrite Z.gcd_0_r, Z.abs_eq by lia. done.
  - rewrite (Z.gcd_comm a b), <- (Z.gcd_mod a b), (Z.gcd_comm _ b) by lia. pose proof (Z.mod_pos_bound a b ltac:(lia)). apply IH; [lia | lia | done |].
    rewrite (Z.div_mod a b Hb0), pow_one_add in Ea; [done | | lia |].
    + apply Z.mul_nonneg_nonneg; [lia|]. apply Z.div_pos; lia.
    + apply pow_one_mul; [lia | apply Z.div_pos; lia | done].
Qed.

(** [n] is the order of [h]. *)
Definition is_order (n : Z) : Prop := 0 < n /\ forall d, 0 <= d -> h ^ d mod p = 1 <-> (n | d).

Lemma order_spec n : 0 < n -> h ^ n mod p = 1 -> (forall q, Z.prime q -> (q | n) -> h ^ (n / q) mod p <> 1) -> is_order n.
Proof.
  intros Hn E Hq. split; [done|]. intros d Hd. split; [|intros [m ->]; rewrite Z.mul_comm; apply pow_one_mul; (lia || done || nia)].
  intros Ed. pose proof (pow_one_gcd n d ltac:(lia) Hd E Ed) as Eg. set (g := Z.gcd n d) in *.
  destruct (Z.gcd_divide_l n d) as [m Hm]. fold g in Hm. pose proof (Z.gcd_nonneg n d) as Hg. fold g in Hg.
  assert (Hg0 : g <> 0) by (intros E0; rewrite E0, Z.mul_0_r in Hm; lia). assert (Hm0 : 0 < m) by nia. destruct (decide (m = 1)) as [->|Hm1].
  - replace n with g by lia. apply Z.gcd_divide_r.
  - exfalso. destruct (prime_divisor m ltac:(lia)) as (q & Hqp & [r Hr]). pose proof (Z.prime_ge_2 _ Hqp).
    apply (Hq q Hqp); [exists (r * g); lia|]. replace (n / q) with (g * r).
    + apply pow_one_mul; [lia | nia | done].
    + rewrite Hm, Hr. replace (r * q * g) with (g * r * q) by lia. by rewrite Z.div_mul by lia.
Qed.

(** Terms of a geometric sequence *)
Lemma same_term n s t k d : is_order n -> (t * s) mod p = 1 -> 0 <= k -> 0 <= d ->
  (s * h ^ k) mod p = (s * h ^ (k + d)) mod p <-> (n | d).
Proof.
  intros [Hn Ho] Hs Hk Hd. rewrite <- (Ho d Hd).
  assert (Hinv : (h ^ ((n - 1) * k) * h ^ k) mod p = 1).
  { rewrite <- Z.pow_add_r by nia. replace ((n - 1) * k + k) with (n * k) by lia. apply pow_one_mul; [lia | lia |].
    apply Ho; [lia | done]. }
  split.
  - intros E. apply (f_equal (fun x => (t * h ^ ((n - 1) * k) * x) mod p)) in E.
    rewrite !Z.mul_mod_idemp_r in E by lia. rewrite Z.pow_add_r in E by lia.
    assert (E1 : forall x, (t * h ^ ((n - 1) * k) * (s * (h ^ k * x))) mod p = x mod p).
    { intros x. replace (t * h ^ ((n - 1) * k) * (s * (h ^ k * x))) with ((t * s) * ((h ^ ((n - 1) * k) * h ^ k) * x)) by ring.
      rewrite <- Z.mul_mod_idemp_l, Hs, Z.mul_1_l, <- Z.mul_mod_idemp_l, Hinv, Z.mul_1_l by lia. done. }
    rewrite E1 in E. rewrite <- (Z.mul_1_r (h ^ k)), E1 in E. by rewrite <- E, Z.mod_small by lia.
  - intros E. rewrite Z.pow_add_r by lia. rewrite Z.mul_assoc, <- (Z.mul_mod_idemp_r (s * h ^ k)), E, Z.mul_1_r by lia. done.
Qed.
End Order.

(** ** Common multiples *)

Lemma product_divides f l d : base.NoDup l -> (forall q, q ∈ l -> Z.prime q /\ 0 <= f q) ->
  (product f l | d) <-> forall q, q ∈ l -> (q ^ f q | d).
Proof.
  intros Hnd Hl. induction Hnd as [|q l Hq Hnd IH]; cbn [product foldr].
  - split; [intros _ q Hq; inversion Hq | intros _; apply Z.divide_1_l].
  - fold (product f l). assert (Hl' : forall r, r ∈ l -> Z.prime r /\ 0 <= f r) by (intros r Hr; apply Hl; by right).
    specialize (IH Hl'). destruct (Hl q ltac:(left)) as [Hqp Hqf]. split.
    + intros Hd r Hr. apply list.elem_of_cons in Hr as [->|Hr].
      * etransitivity; [apply Z.divide_factor_l | exact Hd].
      * apply IH; [|done]. etransitivity; [apply Z.divide_factor_r | exact Hd].
    + intros Hd. assert (Hd1 : (product f l | d)) by (apply IH; intros r Hr; apply Hd; by right).
      destruct (Hd q ltac:(left)) as [m Hm].
      assert (Hcop : Z.coprime (q ^ f q) (product f l)).
      { apply Z.coprime_pow_l; [done|]. apply Z.coprime_prime_l; [done|]. intros Hdiv. apply Hq.
        by apply (product_divisor f l q Hqp Hl'). }
      rewrite Hm, Z.mul_comm in Hd1. apply Z.gauss in Hd1; [|rewrite Z.gcd_comm; exact Hcop].
      destruct Hd1 as [r Hr]. exists r. rewrite Hm, Hr. ring.
Qed.

(** ** The elements of the tables *)

Definition element (es : list Z) (i : Z) : Z := Zpow_mod (zth 0 adcgen i) (zth 0 es i) (zth 0 adcprime i).
Definition start (i : Z) : Z := Z.quot (zth 0 adcprime i + 1) 2.

(** The order of the element, as a product of primes *)
Definition order (es : list Z) (i : Z) : Z := product (order_exp (zth 0 adcprime i) (zth 0 es i)) small_primes.

Definition order_check (es : list Z) (i : Z) : bool :=
  let p := zth 0 adcprime i in
  let h := element es i in
  let n := order es i in
  (Zpow_mod h n p =? 1) && ((2 * start i) mod p =? 1) &&
  forallb (fun q => negb (n mod q =? 0) || negb (Zpow_mod h (n / q) p =? 1)) small_primes.

(** The tables of all classes, with their entries *)
Definition tables : list (list Z) := [adcexp; adcexpS; adcexpW; adcexpA; adcexpB].

Lemma tables_checked : forallb (fun es => all_below (length es) (fun i => entry_check es i && order_check es i)) tables = true.
Proof. vm_compute. reflexivity. Qed.

Lemma table_entry es i : es ∈ tables -> 0 <= i < zlen es -> entry_check es i = true /\ order_check es i = true.
Proof.
  intros He Hi. pose proof tables_checked as H. rewrite forallb_forall in H. apply base.list_elem_of_In in He.
  specialize (H es He). apply (all_below_spec _ _ i) in H; [|done]. by apply andb_prop.
Qed.

Lemma order_exp_nonneg p e q : 0 <= order_exp p e q.
Proof. unfold order_exp. lia. Qed.

Lemma order_ok es i : es ∈ tables -> 0 <= i < zlen es ->
  is_order (zth 0 adcprime i) (element es i) (order es i) /\ (2 * start i) mod zth 0 adcprime i = 1.
Proof.
  intros He Hi. destruct (table_entry es i He Hi) as [Hen Hor]. destruct (entry_bounds es i Hen) as [Hp _].
  unfold order_check in Hor. cbn zeta in Hor. apply andb_prop in Hor as [Hor Hq]. apply andb_prop in Hor as [Hone Hs].
  apply Z.eqb_eq in Hone, Hs. split; [|done].
  rewrite Zpow_mod_correct in Hone by lia. rewrite forallb_forall in Hq.
  assert (Hpos : 0 < order es i).
  { apply product_pos. intros q Hin. apply small_primes_spec in Hin as [Hin _]. apply Z.prime_ge_2 in Hin.
    split; [apply order_exp_nonneg | right; lia]. }
  apply order_spec; [lia | done | done |]. intros q Hqp Hd.
  assert (Hin : q ∈ small_primes).
  { apply (product_divisor (order_exp (zth 0 adcprime i) (zth 0 es i)) small_primes q Hqp); [|done]. intros r Hr.
    apply small_primes_spec in Hr as [Hr _]. split; [done | apply order_exp_nonneg]. }
  apply base.list_elem_of_In in Hin. specialize (Hq q Hin). apply Z.mod_divide in Hd; [|apply Z.prime_ge_2 in Hqp; lia].
  rewrite Hd in Hq. cbn [Z.eqb negb orb] in Hq. rewrite Zpow_mod_correct in Hq by lia. intros E. by rewrite E in Hq.
Qed.

(** ** Distinct rows *)

(** Attribute [a] of row [k], and the attributes [sel] *)
Definition attribute (es : list Z) (k a : Z) : Z :=
  (start (a - 1) * element es (a - 1) ^ (k + 1)) mod zth 0 adcprime (a - 1).
Definition selected (es sel : list Z) (k : Z) : list Z := map (attribute es k) sel.

Lemma small_primes_NoDup : base.NoDup small_primes.
Proof. apply (bool_decide_unpack _). vm_compute. exact I. Qed.

Lemma order_divides es i d : (order es i | d) <-> forall q, q ∈ small_primes -> (q ^ order_exp (zth 0 adcprime i) (zth 0 es i) q | d).
Proof.
  apply product_divides; [apply small_primes_NoDup|]. intros q Hq. apply small_primes_spec in Hq as [Hq _].
  split; [done | apply order_exp_nonneg].
Qed.

Lemma lcm_divides es sel d : (lcm_orders es sel | d) <-> forall a, a ∈ sel -> (order es (a - 1) | d).
Proof.
  unfold lcm_orders. rewrite product_divides; [| apply small_primes_NoDup |].
  2: { intros q Hq. apply small_primes_spec in Hq as [Hq _]. split; [done | apply max_order_nonneg]. }
  setoid_rewrite order_divides. split.
  - intros H a Ha q Hq. specialize (H q Hq). etransitivity; [|exact H].
    assert (Hle : order_exp (zth 0 adcprime (a - 1)) (zth 0 es (a - 1)) q <= max_order es sel q).
    { clear - Ha. unfold max_order. induction sel as [|b sel IH]; [inversion Ha|]. cbn [foldr].
      apply list.elem_of_cons in Ha as [->|Ha]; [lia|]. specialize (IH Ha). lia. }
    pose proof (order_exp_nonneg (zth 0 adcprime (a - 1)) (zth 0 es (a - 1)) q).
    exists (q ^ (max_order es sel q - order_exp (zth 0 adcprime (a - 1)) (zth 0 es (a - 1)) q)).
    rewrite <- Z.pow_add_r by lia. f_equal. lia.
  - intros H q Hq. unfold max_order. induction sel as [|b sel IH]; cbn [foldr]; [rewrite Z.pow_0_r; apply Z.divide_1_l|].
    apply Z.max_case_strong; intros _; [apply H; [left | done]|]. apply IH. intros a Ha. apply H. by right.
Qed.

Lemma selected_repeats es sel k d : es ∈ tables -> Forall (fun a => 1 <= a <= zlen es) sel -> 0 <= k -> 0 <= d ->
  selected es sel k = selected es sel (k + d) <-> (lcm_orders es sel | d).
Proof.
  intros He Hsel Hk Hd. rewrite lcm_divides.
  assert (Ha : forall a, a ∈ sel -> attribute es k a = attribute es (k + d) a <-> (order es (a - 1) | d)).
  { intros a Ha. rewrite list.Forall_forall in Hsel. specialize (Hsel a Ha).
    destruct (order_ok es (a - 1) He ltac:(lia)) as [Ho Hs]. destruct (table_entry es (a - 1) He ltac:(lia)) as [Hen _].
    destruct (entry_bounds es _ Hen) as [Hp _]. unfold attribute. replace (k + d + 1) with (k + 1 + d) by lia.
    
    assert (Hp1 : 1 < zth 0 adcprime (a - 1)) by lia.
    apply (same_term _ (element es (a - 1)) Hp1 (order es (a - 1)) (start (a - 1)) 2); (lia || done). }
  unfold selected. split.
  - intros E a Hin. apply Ha; [done|]. apply base.list_elem_of_In in Hin.
    exact (proj1 map_ext_in_iff E a Hin).
  - intros H. apply map_ext_in. intros a Hin. apply base.list_elem_of_In in Hin. apply Ha; [done|]. by apply H.
Qed.

(** A sequence that repeats with period [n], and no sooner, has [n] terms. *)
Lemma distinct_terms {A} `{Countable A} (f : Z -> A) n t : 0 < n -> 0 <= t ->
  (forall k d, 0 <= k -> 0 <= d -> f k = f (k + d) <-> (n | d)) ->
  Z.of_nat (size (list_to_set (map f (seqZ 0 t)) : gset A)) = Z.min n t.
Proof.
  intros Hn Ht Hf. set (m := Z.min n t).
  assert (E : (list_to_set (map f (seqZ 0 t)) : gset A) = list_to_set (map f (seqZ 0 m))).
  { apply set_eq. intros x. rewrite !elem_of_list_to_set. setoid_rewrite list_elem_of_fmap. split.
    - intros (k & -> & Hk). apply elem_of_seqZ in Hk. exists (k mod m).
      destruct (decide (t <= n)) as [Hle|Hgt].
      + assert (m = t) by lia. rewrite Z.mod_small by lia. split; [done|]. apply elem_of_seqZ. lia.
      + assert (Em : m = n) by lia. rewrite Em. pose proof (Z.mod_pos_bound k n Hn) as Hm. split; [|apply elem_of_seqZ; lia].
        symmetry. rewrite (Z.div_mod k n) at 2 by lia. rewrite Z.add_comm. apply Hf; [lia | | exists (k / n); lia].
        apply Z.mul_nonneg_nonneg; [lia | apply Z.div_pos; lia].
    - intros (k & -> & Hk). apply elem_of_seqZ in Hk. exists k. split; [done|]. apply elem_of_seqZ. lia. }
  rewrite E, size_list_to_set; [rewrite length_map, length_seqZ; lia|].
  apply list.NoDup_fmap_2_strong; [|apply NoDup_seqZ]. intros x y Hx Hy Exy. apply elem_of_seqZ in Hx, Hy.
  assert (Hw : forall x y, 0 <= x <= y -> y < m -> f x = f y -> x = y).
  { clear x y Hx Hy Exy. intros x y Hx Hy Exy. replace y with (x + (y - x)) in Exy by lia. apply Hf in Exy; [|lia..].
    destruct (decide (x = y)) as [|Hne]; [done|]. apply Z.divide_pos_le in Exy; lia. }
  destruct (decide (x <= y)); [apply Hw; (lia || done) | symmetry; apply Hw; (lia || done)].
Qed.

Lemma lcm_pos es sel : 0 < lcm_orders es sel.
Proof.
  apply product_pos. intros q Hq. apply small_primes_spec in Hq as [Hq _]. apply Z.prime_ge_2 in Hq.
  split; [apply max_order_nonneg | right; lia].
Qed.

(** The number of distinct rows among the first [t] *)
Lemma distinct_rows es sel t : es ∈ tables -> Forall (fun a => 1 <= a <= zlen es) sel -> 0 <= t ->
  Z.of_nat (size (list_to_set (map (selected es sel) (seqZ 0 t)) : gset (list Z))) = Z.min (lcm_orders es sel) t.
Proof.
  intros He Hsel Ht. apply distinct_terms; [apply lcm_pos | done |]. intros k d Hk Hd. by apply selected_repeats.
Qed.
