(* ===== verification/AdcRows.v ===== *)
(** * The rows of the input

    What [GenerateADC] of [NPB/SERIAL/DC/adc.c] writes: row [k] has the
    attributes [start * element ^ (k + 1)] modulo the primes of the table, and
    the measures are products of attributes modulo [measbound]. *)

From Stdlib Require Import Zpow_facts Ascii.
From stdpp Require Import strings gmap.
From S2P Require Import Prelude Rbt JobBits AdcFactor AdcSizes AdcLcm AdcOrder.

(** ** The rows *)

Definition row_attributes (es : list Z) (dim k : Z) : list Z := map (attribute es k) (seqZ 1 dim).
Definition max_attribute (es : list Z) (dim k : Z) : Z := foldr Z.max 0 (row_attributes es dim k).
Definition measure (es : list Z) (dim k i : Z) : Z :=
  (zth 0 (row_attributes es dim k) i * max_attribute es dim k) mod measbound.
Definition row (es : list Z) (dim nm k : Z) : data :=
  Data (map (measure es dim k) (seqZ 0 nm)) (row_attributes es dim k).

(** ** The elements *)

Lemma generators_small : all_below 20 (fun i => (1 <=? zth 0 adcgen i) && (zth 0 adcgen i <=? 31) &&
  (zth 0 adcgen i <? zth 0 adcprime i) && (zth 0 adcprime i <=? 98717) && (start i <? zth 0 adcprime i) && (0 <=? start i)) = true.
Proof. vm_compute. reflexivity. Qed.

Lemma generator_bounds i : 0 <= i < 20 -> 1 <= zth 0 adcgen i <= 31 /\ zth 0 adcgen i < zth 0 adcprime i <= 98717 /\
  0 <= start i < zth 0 adcprime i.
Proof.
  intros Hi. pose proof (all_below_spec _ _ i generators_small Hi) as H. cbn beta in H.
  rewrite !andb_true_iff, !Z.leb_le, !Z.ltb_lt in H. lia.
Qed.

Lemma attribute_range es k a : 1 <= a <= 20 -> 0 <= attribute es k a < zth 0 adcprime (a - 1) /\ zth 0 adcprime (a - 1) <= 98717.
Proof.
  intros Ha. destruct (generator_bounds (a - 1) ltac:(lia)) as (Hg & Hp & _). unfold attribute.
  pose proof (Z.mod_pos_bound (start (a - 1) * element es (a - 1) ^ (k + 1)) (zth 0 adcprime (a - 1)) ltac:(lia)). lia.
Qed.

Lemma quot_rem_mod x p : 0 <= x -> 0 < p -> x - p * Z.quot x p = x mod p.
Proof. intros Hx Hp. rewrite Z.quot_div_nonneg by lia. pose proof (Z.div_mod x p ltac:(lia)). lia. Qed.

Section Rows.
Context (es : list Z) (dim nm : Z).
Hypothesis Hes : es ∈ tables.
Hypothesis Hdim : 0 <= dim <= 20.
Hypothesis Hlen : dim <= zlen es.
Hypothesis Hnm : 0 <= nm <= 20.

(** After [k] rows, or before the first when the elements were set up *)
Definition started (k : Z) (g : generator) : Prop :=
  drawn g = k /\ zlen (seed g) = 20 /\ zlen (gens g) = 20 /\
  (forall i, 0 <= i < 20 -> zth 0 (seed g) i = if i <? dim then attribute es (k - 1) (i + 1) else 0) /\
  (forall i, 0 <= i < dim -> zth 0 (gens g) i = element es i).

Lemma generator_power_ok gs i : 0 <= i < dim -> zlen gs = 20 -> zth 0 gs i = zth 0 adcgen i ->
  generator_power gs es i = Ok (element es i).
Proof.
  intros Hi Hgs E. destruct (generator_bounds i ltac:(lia)) as (Hg & Hp & _). destruct (table_entry es i Hes ltac:(lia)) as [Hen _].
  destruct (entry_bounds es i Hen) as [_ He]. unfold generator_power.
  rewrite (aget_ok 0 gs i), E, bind_Ok, (aget_ok 0 es i), bind_Ok by lia.
  destruct (for_range_inv (fun j t => t = zth 0 adcgen i ^ (j + 1) mod zth 0 adcprime i)
    (fun _ t => x ← Ok (zth 0 adcgen i); p ← adcprime.[i]; y ← chk 64 (t * x); Ok (i32 (Z.rem (i32 y) p))) 0 (zth 0 es i - 1)
    (i32 (zth 0 adcgen i))) as (t & -> & ->); [lia | | |].
  - rewrite signed_small, Z.pow_1_r, Z.mod_small by lia. done.
  - intros j t Hj ->. pose proof (Z.mod_pos_bound (zth 0 adcgen i ^ (j + 1)) (zth 0 adcprime i) ltac:(lia)) as Hb.
    set (t := zth 0 adcgen i ^ (j + 1) mod zth 0 adcprime i) in *. assert (Ht : 0 <= t * zth 0 adcgen i < 98717 * 32) by nia.
    rewrite bind_Ok, (aget_ok 0 adcprime i), bind_Ok, chk_ok, bind_Ok by (change (zlen adcprime) with 20; lia).
    rewrite (signed_small 32 (t * _)), Z.rem_mod_nonneg by lia. pose proof (Z.mod_pos_bound (t * zth 0 adcgen i) (zth 0 adcprime i) ltac:(lia)).
    rewrite signed_small by lia. eexists. split; [reflexivity|]. unfold t.
    rewrite Z.mul_mod_idemp_l, (Z.pow_add_r _ (j + 1) 1), Z.pow_1_r by lia. done.
  - unfold element. rewrite Zpow_mod_correct by lia. by replace (zth 0 es i - 1 + 1) with (zth 0 es i) by lia.
Qed.

Lemma start_tuples_ok : exists g, start_tuples dim es new_generator = Ok g /\ started 0 g.
Proof.
  unfold start_tuples, new_generator. cbn [gens seed drawn].
  destruct (for_range_inv (fun i gs => zlen gs = 20 /\ forall j, 0 <= j < 20 -> zth 0 gs j = if j <? i then element es j else zth 0 adcgen j)
    (fun i gens => tmpgen ← generator_power gens es i; gens.[i <- tmpgen]) 0 dim adcgen) as (gs & -> & Lg & Hg); [lia | split; [done|] | |].
  - intros j Hj. by destruct (Z.ltb_spec j 0); [lia|].
  - intros i gs Hi [Lg Hg]. rewrite generator_power_ok, bind_Ok, aset_ok by (lia || (rewrite Hg by lia; by rewrite Z.ltb_irrefl)).
    eexists. split; [reflexivity|]. rewrite zlen_insert. split; [done|]. intros j Hj. rewrite zth_insert, Hg by lia.
    destruct (Z.eqb_spec j i) as [->|]; [destruct (Z.ltb_spec i (i + 1)); (done || lia)|].
    destruct (Z.ltb_spec j i), (Z.ltb_spec j (i + 1)); (done || lia).
  - rewrite bind_Ok.
    destruct (for_range_inv (fun i s => zlen s = 20 /\ forall j, 0 <= j < 20 -> zth 0 s j = if j <? i then start j else 0)
      (fun i seed => p ← adcprime.[i]; seed.[i <- Z.quot (p + 1) 2]) 0 dim (replicate 20 0)) as (s & -> & Ls & Hs); [lia | split; [done|] | |].
    + intros j Hj. rewrite (zth_replicate 0) by lia. by destruct (Z.ltb_spec j 0); [lia|].
    + intros i s Hi [Ls Hs]. rewrite (aget_ok 0), bind_Ok, aset_ok by (change (zlen adcprime) with 20; lia). eexists. split; [reflexivity|].
      rewrite zlen_insert. split; [done|]. intros j Hj. rewrite zth_insert, Hs by lia.
      destruct (Z.eqb_spec j i) as [->|]; [destruct (Z.ltb_spec i (i + 1)); (done || lia)|].
      destruct (Z.ltb_spec j i), (Z.ltb_spec j (i + 1)); (done || lia).
    + rewrite bind_Ok. eexists. split; [reflexivity|]. split; [done|]. cbn [seed gens]. split; [done|]. split; [done|].
      split; [|intros i Hi; rewrite Hg by lia; by destruct (Z.ltb_spec i dim); [|lia]].
      intros i Hi. rewrite Hs by done. destruct (Z.ltb_spec i dim); [|done]. unfold attribute. replace (i + 1 - 1) with i by lia.
      change (0 - 1 + 1) with 0. rewrite Z.pow_0_r, Z.mul_1_r. destruct (generator_bounds i Hi) as (_ & _ & Hst).
      by rewrite Z.mod_small.
Qed.

(** *** A row *)

Lemma max_attribute_range n k : 0 <= n <= 20 -> 0 <= max_attribute es n k < 98717.
Proof.
  intros Hn. unfold max_attribute, row_attributes. assert (H : Forall (fun a => 1 <= a <= 20) (seqZ 1 n)).
  { apply list.Forall_forall. intros a Ha. apply elem_of_seqZ in Ha. lia. }
  induction H as [|a l Ha _ IH]; cbn [map foldr]; [lia|]. pose proof (attribute_range es k a Ha). lia.
Qed.

Lemma max_attribute_succ n k : 0 <= n < 20 -> max_attribute es (n + 1) k = Z.max (max_attribute es n k) (attribute es k (n + 1)).
Proof.
  intros Hn. destruct (attribute_range es k (n + 1) ltac:(lia)) as [Ha _]. unfold max_attribute, row_attributes.
  rewrite seqZ_app, map_app, foldr_app, (seqZ_cons _ 1) by lia. rewrite (seqZ_nil _ (Z.pred 1)) by lia.
  cbn [map foldr]. rewrite (Z.add_comm 1 n), Z.max_l by lia.
  generalize (map (attribute es k) (seqZ 1 n)). intros l. induction l as [|a l IH]; cbn [foldr]; lia.
Qed.

Lemma next_attributes_ok k g attr : 0 <= k -> started k g -> dim <= zlen attr ->
  exists attr' seed', next_attributes dim g attr = Ok (attr', seed', max_attribute es dim k) /\ zlen attr' = zlen attr /\
    (forall i, 0 <= i < dim -> zth 0 attr' i = attribute es k (i + 1)) /\ started (k + 1) (Gen (k + 1) seed' (gens g)).
Proof.
  intros Hk (_ & Ls & Lg & Hs & Hg) La. unfold next_attributes.
  destruct (for_range_inv (fun i '(a, s, m) => zlen a = zlen attr /\ zlen s = 20 /\ m = max_attribute es i k /\
      (forall j, 0 <= j < i -> zth 0 a j = attribute es k (j + 1)) /\
      forall j, 0 <= j < 20 -> zth 0 s j = if j <? i then attribute es k (j + 1) else zth 0 (seed g) j)
    (fun i '(attr, seed, maxattr) => s ← seed.[i]; x ← (gens g).[i]; p ← adcprime.[i]; a ← chk 64 (s * x);
      a ← chk 64 (a - p * Z.quot a p); attr ← attr.[i <- a]; seed ← seed.[i <- a];
      Ok (attr, seed, if maxattr <? a then i32 a else maxattr)) 0 dim (attr, seed g, 0))
    as ([[a s] m] & -> & La' & Ls' & -> & Ha & Hs'); [lia | | |].
  - split; [done|]. split; [done|]. split; [done|]. split; [lia|]. intros j Hj. by destruct (Z.ltb_spec j 0); [lia|].
  - intros i [[a s] m] Hi (La' & Ls' & -> & Ha & Hs'). destruct (generator_bounds i ltac:(lia)) as (Hgen & Hp & Hst).
    destruct (attribute_range es (k - 1) (i + 1) ltac:(lia)) as [Hold _]. destruct (attribute_range es k (i + 1) ltac:(lia)) as [Hnew _].
    replace (i + 1 - 1) with i in Hold, Hnew by lia.
    assert (He : 0 <= element es i < zth 0 adcprime i).
    { unfold element. rewrite Zpow_mod_correct by lia. apply Z.mod_pos_bound. lia. }
    rewrite (aget_ok 0 s i), bind_Ok, Hs', Z.ltb_irrefl, Hs by lia. destruct (Z.ltb_spec i dim); [|lia].
    rewrite (aget_ok 0 (gens g) i), bind_Ok, Hg, (aget_ok 0 adcprime i), bind_Ok by (change (zlen adcprime) with 20; lia).
    rewrite chk_ok, bind_Ok by nia. rewrite quot_rem_mod by nia.
    assert (Eattr : (attribute es (k - 1) (i + 1) * element es i) mod zth 0 adcprime i = attribute es k (i + 1)).
    { unfold attribute. replace (i + 1 - 1) with i by lia. rewrite Z.mul_mod_idemp_l by lia. replace (k - 1 + 1) with k by lia.
      rewrite (Z.pow_add_r _ k 1), Z.pow_1_r by lia. f_equal. ring. }
    rewrite Eattr, chk_ok, bind_Ok, (aset_ok a i), bind_Ok, (aset_ok s i), bind_Ok by lia. eexists. split; [reflexivity|].
    cbn beta iota. rewrite !zlen_insert. split; [done|]. split; [done|]. split; [|split].
    + pose proof (max_attribute_range i k ltac:(lia)). rewrite signed_small by lia.
      rewrite max_attribute_succ by lia. destruct (Z.ltb_spec (max_attribute es i k) (attribute es k (i + 1))); lia.
    + intros j Hj. rewrite zth_insert by lia. destruct (Z.eqb_spec j i) as [->|]; [done|]. apply Ha. lia.
    + intros j Hj. rewrite zth_insert by lia. destruct (Z.eqb_spec j i) as [->|]; [by destruct (Z.ltb_spec i (i + 1)); [|lia]|].
      rewrite Hs' by lia. destruct (Z.ltb_spec j i), (Z.ltb_spec j (i + 1)); (done || lia).
  - exists a, s. split; [done|]. split; [done|]. split; [done|]. split; [done|]. cbn [seed gens]. split; [done|]. split; [done|].
    split; [|done]. intros i Hi. rewrite Hs' by done. replace (k + 1 - 1) with k by lia.
    destruct (Z.ltb_spec i dim); [done|]. rewrite Hs by done. by destruct (Z.ltb_spec i dim); [lia|].
Qed.

Lemma zth_row_attributes k i : 0 <= i < dim -> zth 0 (row_attributes es dim k) i = attribute es k (i + 1).
Proof.
  intros Hi. unfold row_attributes, zth. rewrite nth_lookup, list_lookup_fmap, lookup_seqZ_lt by lia. cbn. f_equal. lia.
Qed.

Lemma next_measures_ok k g mes : started (k + 1) g -> nm <= zlen mes ->
  exists mes', next_measures nm (seed g) (max_attribute es dim k) mes = Ok mes' /\ zlen mes' = zlen mes /\
    forall i, 0 <= i < nm -> zth 0 mes' i = measure es dim k i.
Proof.
  intros (_ & Ls & _ & Hs & _) Lm. unfold next_measures.
  destruct (for_range_map 0 (measure es dim k) (fun i meas => s ← (seed g).[i]; m ← chk 64 (s * max_attribute es dim k);
    m ← chk 64 (m - measbound * Z.quot m measbound); meas.[i <- m]) nm mes) as (m & E & Lm' & Hm); [lia | |].
  - intros i s Hi Hl _. rewrite (aget_ok 0 (seed g) i), bind_Ok by lia. pose proof (max_attribute_range dim k Hdim) as Hmax.
    assert (Hseed : zth 0 (seed g) i = zth 0 (row_attributes es dim k) i /\ 0 <= zth 0 (seed g) i < 98717).
    { rewrite Hs by lia. replace (k + 1 - 1) with k by lia. destruct (Z.ltb_spec i dim).
      - rewrite zth_row_attributes by lia. destruct (attribute_range es k (i + 1) ltac:(lia)). split; [done | lia].
      - split; [|lia]. unfold zth. rewrite nth_overflow; [done|]. unfold row_attributes. rewrite length_map, length_seqZ. lia. }
    destruct Hseed as [E Hb]. rewrite chk_ok, bind_Ok by nia. unfold measbound. rewrite quot_rem_mod by nia.
    pose proof (Z.mod_pos_bound (zth 0 (seed g) i * max_attribute es dim k) 31415 ltac:(lia)).
    rewrite chk_ok, bind_Ok by lia. unfold measure, measbound. by rewrite E.
  - exists m. split; [done|]. split; [done|]. intros i Hi. rewrite Hm by lia. by destruct (Z.ltb_spec i nm); [|lia].
Qed.

(** The state before row [k] *)
Definition before (k : Z) (g : generator) : Prop := if k =? 0 then g = new_generator else started k g.

Lemma GetNextTuple_ok c k g attr mes : tuple_exps c = es -> 0 <= k < 2 ^ 31 - 1 -> before k g -> dim <= zlen attr -> nm <= zlen mes ->
  exists attr' mes' g', GetNextTuple dim nm c attr mes g = Ok (Some (attr', mes', g')) /\
    zlen attr' = zlen attr /\ zlen mes' = zlen mes /\ before (k + 1) g' /\
    (forall i, 0 <= i < dim -> zth 0 attr' i = attribute es k (i + 1)) /\
    (forall i, 0 <= i < nm -> zth 0 mes' i = measure es dim k i).
Proof.
  intros Hc Hk Hg La Lm. unfold GetNextTuple. destruct (Z.ltb_spec 20 dim); [lia|].
  destruct (Z.ltb_spec measbound nm); [unfold measbound in *; lia|].
  assert (Hstart : exists g1, (if drawn g =? 0 then start_tuples dim (tuple_exps c) g else Ok g) = Ok g1 /\ started k g1).
  { unfold before in Hg. destruct (Z.eqb_spec k 0) as [->|Hk0].
    - subst g. rewrite Hc. apply start_tuples_ok.
    - pose proof Hg as (Ed & _). rewrite Ed. destruct (Z.eqb_spec k 0); [done|]. by exists g. }
  destruct Hstart as (g1 & -> & Hg1). rewrite bind_Ok. pose proof Hg1 as (-> & _). rewrite chk_ok, bind_Ok by lia.
  destruct (next_attributes_ok k g1 attr ltac:(lia) Hg1 La) as (attr' & seed' & -> & La' & Ha & Hg2). rewrite bind_Ok.
  destruct (next_measures_ok k (Gen (k + 1) seed' (gens g1)) mes Hg2 Lm) as (mes' & Em & Lm' & Hm). cbn [seed] in Em.
  rewrite Em, bind_Ok. exists attr', mes', (Gen (k + 1) seed' (gens g1)). repeat split; try done.
  unfold before. destruct (Z.eqb_spec (k + 1) 0); [lia | done].
Qed.

(** ** The file *)

Lemma collect_ok {A} (f : Z -> res A) (g : Z -> A) n : 0 <= n -> (forall j, 0 <= j < n -> f j = Ok (g j)) ->
  for_range 0 n (fun j l => x ← f j; Ok (l ++ [x])) [] = Ok (map g (seqZ 0 n)).
Proof.
  intros Hn Hf. destruct (for_range_inv (fun j l => l = map g (seqZ 0 j)) (fun j l => x ← f j; Ok (l ++ [x])) 0 n [])
    as (l & -> & ->); [done | done | | done].
  intros j l Hj ->. rewrite Hf, bind_Ok by lia. eexists. split; [reflexivity|].
  rewrite seqZ_app, map_app, (seqZ_cons _ 1) by lia. rewrite (seqZ_nil _ (Z.pred 1)) by lia. by rewrite Z.add_0_l.
Qed.

Lemma write_row_ok inverse k attr mes : inverse <> 1 -> dim <= zlen attr -> nm <= zlen mes ->
  (forall i, 0 <= i < dim -> zth 0 attr i = attribute es k (i + 1)) ->
  (forall i, 0 <= i < nm -> zth 0 mes i = measure es dim k i) ->
  write_row inverse dim nm attr mes = Ok (row es dim nm k).
Proof.
  intros Hinv La Lm Ha Hm. unfold write_row, row. destruct (Z.eqb_spec inverse 1); [done|].
  assert (E1 : for_range 0 nm (fun j l => mv ← mes.[j]; Ok (l ++ [mv])) [] = Ok (map (measure es dim k) (seqZ 0 nm))).
  { apply (collect_ok (aget mes)); [lia|]. intros j Hj. by rewrite (aget_ok 0), Hm by lia. }
  rewrite E1, bind_Ok.
  assert (E2 : for_range 0 dim (fun j l => av ← attr.[j]; Ok (l ++ [u32 (i32 av)])) [] = Ok (row_attributes es dim k)).
  { transitivity (for_range 0 dim (fun j l => x ← (av ← attr.[j]; Ok (u32 (i32 av))); Ok (l ++ [x])) ([] : list Z)).
    - apply for_range_ext. intros j l Hj. by rewrite (aget_ok 0) by lia.
    - rewrite (collect_ok _ (fun j => attribute es k (j + 1))); [|lia|].
      + unfold row_attributes. f_equal. apply (list_eq_same_length _ _ (Z.to_nat dim)); [by rewrite length_map, length_seqZ.. |].
        intros j x y Hj Hx Hy. rewrite list_lookup_fmap, lookup_seqZ_lt in Hx, Hy by lia. cbn in Hx, Hy. injection Hx as <-.
        injection Hy as <-. f_equal. lia.
      + intros j Hj. rewrite (aget_ok 0), bind_Ok, Ha by lia. destruct (attribute_range es k (j + 1) ltac:(lia)).
        by rewrite signed_small, unsigned_small by lia. }
  by rewrite E2.
Qed.

Definition rows_upto (t : Z) : list data := map (row es dim nm) (seqZ 0 t).

Lemma rows_loop_ok par : par_dim par = dim -> mnum par = nm -> tuple_exps (clss par) = es -> inverse_endian par <> 1 ->
  0 <= tuplenum par < 2 ^ 31 ->
  exists attr mes g, for_range 0 (i32 (tuplenum par)) (row_turn par)
    (Some ([], replicate (Z.to_nat dim) 0, replicate (Z.to_nat nm) 0, new_generator)) =
      Ok (Some (rows_upto (tuplenum par), attr, mes, g)).
Proof.
  intros Ed En Ec Hinv Ht. rewrite signed_small by lia.
  destruct (for_range_inv (fun k s => exists attr mes g, s = Some (rows_upto k, attr, mes, g) /\ zlen attr = dim /\ zlen mes = nm /\ before k g)
    (row_turn par) 0 (tuplenum par) (Some ([], replicate (Z.to_nat dim) 0, replicate (Z.to_nat nm) 0, new_generator)))
    as (s & E & attr & mes & g & -> & _); [lia | | | by exists attr, mes, g].
  - do 3 eexists. split; [reflexivity|]. rewrite !length_replicate. split; [lia|]. split; [lia|]. done.
  - intros k s Hk (attr & mes & g & -> & La & Lm & Hg). unfold row_turn. rewrite Ed, En.
    destruct (GetNextTuple_ok (clss par) k g attr mes Ec ltac:(lia) Hg) as (attr' & mes' & g' & -> & La' & Lm' & Hg' & Ha & Hm); [lia..|].
    rewrite bind_Ok, (write_row_ok _ k) by (done || lia). rewrite bind_Ok. eexists. split; [reflexivity|].
    exists attr', mes', g'. split; [|split; [lia | split; [lia | done]]]. do 4 f_equal. unfold rows_upto.
    rewrite seqZ_app, map_app, (seqZ_cons _ 1) by lia. rewrite (seqZ_nil _ (Z.pred 1)) by lia. by rewrite Z.add_0_l.
Qed.
End Rows.
