(* ===== verification/AdcText.v ===== *)
(** * The text of view sizes

    [CalculateVeiwSizes] of [NPB/SERIAL/DC/adc.c] writes a text that
    [PartitionCube] and [ViewSizesVerification] can read ([text_of] of
    [ViewSizes.v]): numbers are printed and read back, and the views that are
    written are distinct, with the sizes that their masks predict. *)

From Stdlib Require Import Ascii Sorted Permutation.
From stdpp Require Import strings pretty sorting.
From S2P Require Import Prelude JobBits JobParent JobSplit ViewSizes AdcFactor AdcSizes AdcLcm AdcOrder.

(** ** Numbers *)

Lemma digit_char d : (d < 10)%N -> digit (pretty_N_char d) = Some (Z.of_N d).
Proof.
  intros Hd. assert (H : all_below 10 (fun d => bool_decide (digit (pretty_N_char (Z.to_N d)) = Some d)) = true)
    by (vm_compute; reflexivity).
  apply (all_below_spec _ _ (Z.of_N d)) in H; [|lia]. cbn beta in H. apply bool_decide_eq_true in H. by rewrite N2Z.id in H.
Qed.

Lemma atoi_digits_print n : forall s, Z.of_N n < 2 ^ 31 -> atoi_digits 1 (pretty_N_go n s) 0 = atoi_digits 1 s (Z.of_N n).
Proof.
  induction (N.lt_wf_0 n) as [n _ IH]; intros s Hn. destruct (decide (n = 0%N)) as [->|Hn0]; [by rewrite pretty_N_go_0|].
  rewrite pretty_N_go_step by lia. pose proof (N.div_lt n 10 ltac:(lia) eq_refl) as Hlt.
  rewrite IH by lia. cbn [atoi_digits]. pose proof (N.mod_lt n 10 ltac:(lia)) as Hm. rewrite digit_char by done.
  pose proof (N.div_mod n 10 ltac:(lia)) as Hdm.
  replace (10 * Z.of_N (n / 10) + 1 * Z.of_N (n mod 10)) with (Z.of_N n) by lia. by rewrite chk_ok, bind_Ok by lia.
Qed.

(** A printed number begins with a digit. *)
Lemma print_first n : forall s, (0 < n)%N -> exists c r, pretty_N_go n s = String.String c r /\ digit c <> None.
Proof.
  induction (N.lt_wf_0 n) as [n _ IH]; intros s Hn. rewrite pretty_N_go_step by lia.
  pose proof (N.mod_lt n 10 ltac:(lia)) as Hm. destruct (decide (n / 10 = 0)%N) as [E|E].
  - rewrite E, pretty_N_go_0. do 2 eexists. split; [reflexivity|]. by rewrite digit_char.
  - apply IH; [apply N.div_lt; lia | by apply N.neq_0_lt_0].
Qed.

Lemma pretty_first z : 0 <= z -> exists c r, pretty z = String.String c r /\ digit c <> None.
Proof.
  intros Hz. destruct z as [|p|p]; [by exists "0"%char, ""%string | | lia].
  change (pretty (Z.pos p)) with (pretty (N.pos p)). unfold pretty, pretty_N. rewrite decide_False by done. by apply print_first.
Qed.

Lemma atoi_pretty z : 0 <= z < 2 ^ 31 -> atoi (pretty z) = Ok z.
Proof.
  intros Hz. destruct (pretty_first z ltac:(lia)) as (c & r & E & Hc). unfold atoi. rewrite E.
  rewrite !decide_False by (intros ->; by apply Hc). rewrite <- E. destruct z as [|p|p]; [done | | lia].
  change (pretty (Z.pos p)) with (pretty (N.pos p)). unfold pretty, pretty_N. rewrite decide_False by done.
  rewrite atoi_digits_print by lia. done.
Qed.

(** It is no word of the text, nor is that of a negative number. *)
Lemma pretty_not_word (z : Z) w c r : w = String.String c r -> digit c = None -> c <> "-"%char -> pretty z <> w.
Proof.
  intros -> Hc Hm E. destruct (decide (0 <= z)) as [Hz|Hz].
  - destruct (pretty_first z Hz) as (c' & r' & E' & Hc'). rewrite E in E'. injection E' as -> ->. done.
  - destruct z as [|p|p]; [lia | lia |]. change (String.String "-"%char (pretty (N.pos p)) = String.String c r) in E. congruence.
Qed.

(** ** A view *)

Lemma mask_attrs_words mask n : Forall2 (fun w i => w <> "View"%string /\ atoi w = Ok i)
  (concat (map (fun j => if Z.testbit mask j then [pretty (j + 1)] else []) (seqZ 0 (Z.of_nat n)))) (mask_attrs mask n) \/ 2 ^ 31 <= Z.of_nat n.
Proof.
  destruct (decide (2 ^ 31 <= Z.of_nat n)) as [|Hn]; [by right|]. left.
  induction n as [|n IH]; [constructor|]. unfold mask_attrs. cbn [attrs]. replace (Z.of_nat (S n)) with (Z.of_nat n + 1) by lia.
  rewrite seqZ_app, map_app, concat_app, (seqZ_cons _ 1) by lia. rewrite (seqZ_nil _ (Z.pred 1)) by lia. cbn [map concat].
  rewrite app_nil_r, Z.add_0_l. apply Forall2_app; [apply IH; lia|]. replace (Z.of_nat n + 1 - 1) with (Z.of_nat n) by lia.
  destruct (Z.testbit mask (Z.of_nat n)); [|constructor]. constructor; [|constructor].
  split; [by eapply pretty_not_word | apply atoi_pretty; lia].
Qed.

Definition view_entry (nd : Z) (v : DC_view) : list Z * Z := (mask_attrs (vidx v) (Z.to_nat nd), vsize v).

Lemma print_view_ok nd v : 0 <= nd <= 20 -> 0 <= vsize v < 2 ^ 31 -> entry_words (print_view nd v) (view_entry nd v).
Proof.
  intros Hn Hv. eexists _, (pretty (vsize v)). split; [reflexivity|]. cbn [view_entry fst snd].
  split; [|by apply atoi_pretty]. destruct (mask_attrs_words (vidx v) (Z.to_nat nd)) as [H|H]; [|lia].
  by rewrite Z2Nat.id in H by lia.
Qed.

Lemma mask_selection nd mask : 0 <= nd <= 20 -> 0 < mask < 2 ^ nd -> selection_ok nd (mask_attrs mask (Z.to_nat nd)).
Proof.
  intros Hn Hm. split.
  - intros E. assert (H : mask = 0); [|lia]. apply Z.bits_inj_0. intros i. destruct (decide (i < 0)); [by apply Z.testbit_neg_r|].
    destruct (decide (nd <= i)); [by apply (testbit_above nd); lia|].
    destruct (Z.testbit mask i) eqn:Eb; [|done]. exfalso.
    assert (Hin : i + 1 ∈ mask_attrs mask (Z.to_nat nd)); [|rewrite E in Hin; inversion Hin].
    apply attrs_elem. split; [lia|]. by replace (i + 1 - 1) with i by lia.
  - unfold mask_attrs at 1. apply attrs_ext. intros i Hi.
    destruct (Z.testbit mask (i - 1)) eqn:Eb; symmetry; [apply bool_decide_eq_true_2 | apply bool_decide_eq_false_2]; unfold mask_attrs; rewrite attrs_elem;
      [done | intros [_ ?]; congruence].
Qed.

(** ** Sorting *)

Lemma view_le_spec v w : view_le v w <-> vsize v < vsize w \/ (vsize v = vsize w /\ vidx v <= vidx w).
Proof.
  unfold view_le, CompareViewsBySize. destruct (Z.ltb_spec (vsize w) (vsize v)); [lia|].
  destruct (Z.ltb_spec (vsize v) (vsize w)); [lia|]. destruct (Z.ltb_spec (vidx w) (vidx v)); [lia|].
  destruct (Z.ltb_spec (vidx v) (vidx w)); lia.
Qed.

#[export] Instance view_le_trans : Transitive view_le.
Proof. intros u v w. rewrite !view_le_spec. lia. Qed.
#[export] Instance view_le_total : Total view_le.
Proof. intros v w. rewrite !view_le_spec. lia. Qed.

Definition no_view : DC_view := Dcview 0 0.

(** The view without attributes, of size zero, comes first. *)
Lemma sorted_views l : Forall (fun v => 0 <= vsize v /\ 0 < vidx v) l ->
  exists l', merge_sort view_le (no_view :: l) = no_view :: l' /\ l' ≡ₚ l.
Proof.
  intros Hl. pose proof (merge_sort_Permutation view_le (no_view :: l)) as Hp.
  pose proof (StronglySorted_merge_sort view_le (no_view :: l)) as Hs.
  destruct (merge_sort view_le (no_view :: l)) as [|v l'] eqn:E; [by apply Permutation_nil_cons in Hp|].
  assert (v = no_view) as ->; [|exists l'; split; [done | by apply Permutation_cons_inv in Hp]].
  assert (Hv : v ∈ no_view :: l) by (rewrite <- Hp; left). apply list.elem_of_cons in Hv as [|Hv]; [done|].
  rewrite list.Forall_forall in Hl. destruct (Hl v Hv) as [Hv1 Hv2].
  assert (Hn : no_view ∈ v :: l') by (rewrite Hp; left). apply list.elem_of_cons in Hn as [|Hn]; [done|].
  inversion Hs as [|? ? _ Hle]; subst. rewrite list.Forall_forall in Hle. specialize (Hle _ Hn). apply view_le_spec in Hle. cbn in Hle. lia.
Qed.

(** ** The views that are written *)

Lemma step_pos c : 1 <= class_step c.
Proof. unfold class_step. repeat case_decide; lia. Qed.

Section Listing.
Context (par : ADC_PAR) (es : list Z).
Hypothesis Ht : 0 <= tuplenum par < 2 ^ 31.
Let nd := par_dim par.

(** The size of a view *)
Definition predicted (i : Z) : Z := Z.min (lcm_orders es (mask_attrs i (Z.to_nat nd))) (tuplenum par).

Lemma predicted_range i : 0 <= predicted i < 2 ^ 31.
Proof. unfold predicted. pose proof (lcm_pos es (mask_attrs i (Z.to_nat nd))). lia. Qed.

Definition listed_entry (i : Z) : DC_view := Dcview (predicted i) i.

(** The views at [step], [2 * step], ... *)
Definition picks (step : Z) (l : list DC_view) (n : Z) : list DC_view := map (fun j => zth no_view l (j * step)) (seqZ 0 n).

Lemma write_loop_ok l n : 1 <= n -> zlen l = n - 1 -> exists cnt b t,
  while (S (Z.to_nat n)) (fun '(i, _, _, _) => Ok (i <? n)) (print_turn par (no_view :: l)) (1, [], 0, 0) =
    Ok (1 + cnt * class_step (clss par), concat (map (print_view nd) (picks (class_step (clss par)) l cnt)), b, t) /\
  0 <= cnt /\ (cnt = 0 \/ 1 + (cnt - 1) * class_step (clss par) < n) /\ n <= 1 + cnt * class_step (clss par).
Proof.
  intros Hn Hl. pose proof (step_pos (clss par)) as Hs. set (st := class_step (clss par)) in *.
  destruct (while_inv (fun '(i, view, _, _) => exists j, 0 <= j /\ i = 1 + j * st /\ view = concat (map (print_view nd) (picks st l j)) /\
      (j = 0 \/ 1 + (j - 1) * st < n))
    (fun '(i, _, _, _) => Z.to_nat (n - i)) (fun '(i, _, _, _) => Ok (i <? n)) (print_turn par (no_view :: l)))
    with (fuel := S (Z.to_nat n)) (s := (1, @nil string, 0, 0)) as ([[[i view] b] t] & -> & (j & Hj & -> & -> & Hjn) & Hc).
  - intros [[[i view] b] t] _. by eexists.
  - intros [[[i view] b] t] (j & Hj & -> & -> & Hjn) [= Hc]. apply Z.ltb_lt in Hc. unfold print_turn.
    rewrite (aget_ok no_view), bind_Ok by (cbn [length]; nia). eexists. split; [reflexivity|]. fold st. split; [|nia].
    exists (j + 1). split; [lia|]. split; [lia|]. split; [|right; replace (j + 1 - 1) with j by lia; done].
    unfold picks. rewrite seqZ_app, !map_app, concat_app, (seqZ_cons _ 1) by lia. rewrite (seqZ_nil _ (Z.pred 1)) by lia.
    cbn [map concat]. rewrite app_nil_r, Z.add_0_l. do 2 f_equal. unfold zth.
    replace (Z.to_nat (1 + j * st)) with (S (Z.to_nat (j * st))) by nia. done.
  - cbn beta. lia.
  - exists 0. split; [done|]. split; [lia|]. split; [done | by left].
  - injection Hc as Hc. apply Z.ltb_ge in Hc. exists j, b, t. done.
Qed.

Lemma listed_pos i : 1 <= i -> 0 <= vsize (listed_entry i) /\ 0 < vidx (listed_entry i).
Proof. intros Hi. cbn. pose proof (predicted_range i). lia. Qed.

(** A view of the list: its mask and its size *)
Definition view_listed (v : DC_view) : Prop := 0 < vidx v < 2 ^ nd /\ vsize v = predicted (vidx v).

Lemma picks_ok l n cnt : l ≡ₚ map listed_entry (seqZ 1 (n - 1)) -> n = 2 ^ nd -> 0 <= cnt ->
  (cnt = 0 \/ 1 + (cnt - 1) * class_step (clss par) < n) ->
  Forall view_listed (picks (class_step (clss par)) l cnt) /\ base.NoDup (map vidx (picks (class_step (clss par)) l cnt)).
Proof.
  intros Hl En Hcnt Hend. pose proof (step_pos (clss par)) as Hs. set (st := class_step (clss par)) in *.
  assert (Hn : 0 <= 2 ^ nd) by (apply Z.pow_nonneg; lia).
  pose proof (Permutation_length Hl) as Hlen'. rewrite length_map, length_seqZ in Hlen'.
  assert (Hpos : forall j, 0 <= j < cnt -> 0 <= j * st < zlen l) by (intros j Hj; nia).
  split.
  - apply list.Forall_forall. intros v Hv. apply base.list_elem_of_In, in_map_iff in Hv as (j & <- & Hj).
    apply base.list_elem_of_In, elem_of_seqZ in Hj. pose proof (zth_In no_view l (j * st) ltac:(apply Hpos; lia)) as Hin.
    set (v := zth no_view l (j * st)) in *. clearbody v. rewrite Hl in Hin. apply base.list_elem_of_In, in_map_iff in Hin as (i & <- & Hi). apply base.list_elem_of_In, elem_of_seqZ in Hi.
    split; [cbn; lia | done].
  - unfold picks. rewrite map_map. apply list.NoDup_fmap_2_strong; [|apply NoDup_seqZ].
    intros j j' Hj Hj' E. apply elem_of_seqZ in Hj, Hj'.
    assert (Hnd : base.NoDup (map vidx l)).
    { assert (Hp : map vidx l ≡ₚ seqZ 1 (n - 1)); [|rewrite Hp; apply NoDup_seqZ].
      rewrite Hl, map_map. unfold listed_entry. cbn [vidx]. by rewrite map_id. }
    assert (Hz : forall j, 0 <= j < cnt -> map vidx l !! Z.to_nat (j * st) = Some (vidx (zth no_view l (j * st)))).
    { intros k Hk. specialize (Hpos k Hk). rewrite list_lookup_fmap. unfold zth. rewrite nth_lookup.
      destruct (lookup_lt_is_Some_2 l (Z.to_nat (k * st))) as [v ->]; [lia | done]. }
    pose proof (Hz j ltac:(lia)) as H1. pose proof (Hz j' ltac:(lia)) as H2. rewrite E in H1.
    pose proof (NoDup_lookup _ _ _ _ Hnd H1 H2) as Ei. pose proof (Hpos j ltac:(lia)). pose proof (Hpos j' ltac:(lia)). nia.
Qed.
End Listing.

(** ** All sizes *)

Lemma class_table c es : class_exps c = Some es -> es ∈ tables.
Proof.
  intros Hc. unfold class_exps in Hc. unfold tables. rewrite !list.elem_of_cons.
  repeat case_decide; simplify_eq; tauto.
Qed.

Section Sizes.
Context (par : ADC_PAR) (es : list Z) (fctlist : list (option Factorization)) (last : Z).
Hypothesis Hclass : class_exps (clss par) = Some es.
Hypothesis Hdim : 0 <= par_dim par <= 20.
Hypothesis Hlen : par_dim par <= zlen es.
Hypothesis Ht : 0 <= tuplenum par < 2 ^ 31.
Hypothesis Htable : table_ok last fctlist.
Hypothesis Hlast : 99990 <= last <= 4000000.
Hypothesis Hfct : last <= zlen fctlist.
Let nd := par_dim par.

Lemma view_size_ok i : 0 <= i < 2 ^ nd -> view_size par fctlist i = Ok (predicted par es i).
Proof.
  intros Hi. unfold view_size. rewrite Hclass.
  destruct (GetLCM_ok fctlist last es nd Htable Hlast Hfct Hdim Hlen) with (mask := i) as (L & -> & HL); [|done|].
  - intros j Hj. apply table_entry; [by eapply class_table | lia].
  - rewrite bind_Ok. f_equal. unfold predicted. fold nd. cbn zeta in HL. assert (Z.quot LARGE_NUM maxprmfctr > 2 ^ 31) by reflexivity.
    destruct (Z.ltb_spec (tuplenum par) L); lia.
Qed.

Lemma views_ok : for_range 1 (2 ^ nd) (fun i d => z ← view_size par fctlist i; d.[i <- Dcview z i])
    (replicate (Z.to_nat (2 ^ nd)) no_view) =
  Ok (no_view :: map (fun i => Dcview (predicted par es i) i) (seqZ 1 (2 ^ nd - 1))).
Proof.
  pose proof (Z.pow_pos_nonneg 2 nd ltac:(lia) ltac:(lia)) as Hn.
  destruct (for_range_inv (fun i d => zlen d = 2 ^ nd /\ forall j, 0 <= j < 2 ^ nd ->
      zth no_view d j = if (1 <=? j) && (j <? i) then Dcview (predicted par es j) j else no_view)
    (fun i d => z ← view_size par fctlist i; d.[i <- Dcview z i]) 1 (2 ^ nd) (replicate (Z.to_nat (2 ^ nd)) no_view))
    as (d & -> & Ld & Hd); [lia | | |].
  - rewrite length_replicate. split; [lia|]. intros j Hj. rewrite (zth_replicate no_view) by lia.
    destruct (Z.leb_spec 1 j), (Z.ltb_spec j 1); (done || lia).
  - intros i d Hi [Ld Hd]. rewrite view_size_ok, bind_Ok, aset_ok by lia. eexists. split; [reflexivity|].
    rewrite zlen_insert. split; [done|]. intros j Hj. rewrite zth_insert, Hd by lia.
    destruct (Z.eqb_spec j i) as [->|]; [destruct (Z.leb_spec 1 i), (Z.ltb_spec i (i + 1)); (done || lia)|].
    destruct (Z.ltb_spec j i), (Z.ltb_spec j (i + 1)); (done || lia).
  - f_equal. apply (zth_ext no_view); [cbn [length]; rewrite length_map, length_seqZ; lia|]. intros j Hj. rewrite Hd by lia.
    destruct (Z.leb_spec 1 j), (Z.ltb_spec j (2 ^ nd)); try lia; cbn [andb].
    + unfold zth. replace (Z.to_nat j) with (S (Z.to_nat (j - 1))) by lia. cbn [nth]. rewrite nth_lookup, list_lookup_fmap, lookup_seqZ_lt by lia.
      cbn. by replace (1 + Z.of_nat (Z.to_nat (j - 1))) with j by lia.
    + by replace j with 0 by lia.
Qed.

End Sizes.

(** ** [CalculateVeiwSizes] *)

Lemma tables_ready : exists l t last, ListFirstPrimes UpPrimeLim (replicate (Z.to_nat UpPrimeLim) 0) = Ok l /\
  GetFactorization (fst l) (snd l) (replicate (Z.to_nat UpPrimeLim) None) = Ok t /\
  table_ok last t /\ 99990 <= last <= 4000000 /\ last <= zlen t.
Proof.
  assert (Hlim : 8 <= UpPrimeLim <= 4000000) by (unfold UpPrimeLim; lia).
  destruct (ListFirstPrimes_ok UpPrimeLim (replicate (Z.to_nat UpPrimeLim) 0) Hlim) as (l & E & Hl);
    [rewrite length_replicate; lia|].
  destruct (GetFactorization_ok UpPrimeLim l (drop (length l) (replicate (Z.to_nat UpPrimeLim) 0)) Hl Hlim
    (replicate (Z.to_nat UpPrimeLim) None)) as (t & last & Et & Hlast & Hmax & Lt & Ht); [rewrite length_replicate; lia|].
  exists (zlen l, l ++ drop (length l) (replicate (Z.to_nat UpPrimeLim) 0)), t, last. split; [exact E|]. split; [exact Et|].
  split; [done|]. apply Hl in Hlast as [_ Hlast]. specialize (Hmax 99991).
  rewrite length_replicate in Lt. unfold UpPrimeLim in *. rewrite Z2Nat.id in Lt by lia.
  assert (H : 99991 <= last); [|lia]. apply Hmax; [|lia]. apply (prime_check _ 317); [lia.. | vm_compute; reflexivity].
Qed.

(** The text: distinct views with their predicted sizes *)
Record sizes_text (par : ADC_PAR) (es : list Z) (words : list string) (vs : list DC_view) : Prop := {
  st_words : text_of words (map (view_entry (par_dim par)) vs);
  st_views : Forall (view_listed par es) vs;
  st_distinct : base.NoDup (map vidx vs);
  st_number : zlen vs = (2 ^ par_dim par - 2) / class_step (clss par) + 1
}.

Lemma CalculateVeiwSizes_ok can_open par es : class_exps (clss par) = Some es -> 1 <= par_dim par <= 20 ->
  par_dim par <= zlen es -> 0 <= tuplenum par < 2 ^ 31 ->
  exists r, CalculateVeiwSizes can_open par = Ok r /\
    if can_open then exists words vs, r = Some words /\ sizes_text par es words vs else r = None.
Proof.
  intros Hc Hd Hl Ht. destruct tables_ready as ((prnum & prlist) & t & last & E1 & E2 & Htable & Hlast & Hfct).
  unfold CalculateVeiwSizes. cbn [fst snd] in E2. rewrite E1, bind_Ok, E2, bind_Ok. clear E1 E2 prnum prlist.
  assert (2 ^ 1 <= 2 ^ par_dim par) as H1 by (apply Z.pow_le_mono_r; lia). change (2 ^ 1) with 2 in H1.
  assert (2 ^ par_dim par <= 2 ^ 20) as H20 by (apply Z.pow_le_mono_r; lia).
  assert (Hd0 : 0 <= par_dim par <= 20) by lia.
  rewrite sshl_ok, bind_Ok, Z.mul_1_l by lia. change (Dcview 0 0) with no_view.
  rewrite (views_ok par es t last), bind_Ok by done.
  destruct can_open; [|exists None; split; reflexivity].
  destruct (sorted_views (map (listed_entry par es) (seqZ 1 (2 ^ par_dim par - 1)))) as (l & El & Hp).
  { apply list.Forall_forall. intros v Hv. apply base.list_elem_of_In, in_map_iff in Hv as (i & <- & Hi).
    apply base.list_elem_of_In, elem_of_seqZ in Hi. apply listed_pos; (done || lia). }
  unfold listed_entry in El. rewrite El. pose proof (Permutation_length Hp) as Hlen'. rewrite length_map, length_seqZ in Hlen'.
  destruct (write_loop_ok par l (2 ^ par_dim par)) as (cnt & b & tu & -> & Hcnt & Hend & Hall); [lia | lia |].
  rewrite bind_Ok. eexists. split; [reflexivity|].
  destruct (picks_ok par es l (2 ^ par_dim par) cnt Hp eq_refl Hcnt Hend) as [Hviews Hnd].
  do 2 eexists. split; [reflexivity|]. split; [| exact Hviews | exact Hnd |].
  - eexists _, _. split; [reflexivity|]. split.
    + revert Hviews. generalize (picks (class_step (clss par)) l cnt). intros vs Hvs.
      induction Hvs as [|v vs [_ Hv] _ IH]; cbn [map]; constructor; [|done]. apply print_view_ok; [done|].
      rewrite Hv. by apply predicted_range.
    + repeat constructor; try discriminate; by eapply pretty_not_word.
  - unfold picks. rewrite length_map, length_seqZ. pose proof (step_pos (clss par)) as Hs.
    set (st := class_step (clss par)) in *. rewrite Z2Nat.id by lia.
    assert (Hcnt1 : 1 <= cnt) by (destruct (decide (cnt = 0)) as [->|]; lia).
    enough ((2 ^ par_dim par - 2) / st = cnt - 1) by lia. symmetry. apply (Z.div_unique _ _ _ (2 ^ par_dim par - 2 - st * (cnt - 1))); nia.
Qed.
