(* ===== verification/AdcPredict.v ===== *)
(** * The sizes that are predicted

    The text that [CalculateVeiwSizes] writes tells for each view the number of
    groups of the rows that [GenerateADC] writes. *)

From Stdlib Require Import Ascii.
From stdpp Require Import strings gmap.
From S2P Require Import Prelude Rbt RbtTree Groups DataRuns DataRollup JobBits ViewSizes AdcFactor AdcSizes AdcLcm AdcOrder AdcRows AdcText.

(** ** The number of groups *)

Lemma groups_dom l : dom (groups l) = (list_to_set (map dims l) : gset (list Z)).
Proof.
  induction l as [|x l IH]; cbn [groups foldr map list_to_set]; [apply dom_empty_L|]. fold (groups l).
  unfold add_group. by rewrite dom_insert_L, IH.
Qed.

Lemma sorted_number v : sorted v -> zlen v = Z.of_nat (base.size (groups v)).
Proof.
  intros Hs. rewrite <- size_dom, groups_dom, size_list_to_set; [by rewrite length_map|].
  induction Hs as [|x v Hs IH Hx]; cbn [map]; constructor; [|done].
  intros Hin. apply base.list_elem_of_In, in_map_iff in Hin as (y & Ey & Hy). apply base.list_elem_of_In in Hy.
  by apply (sorted_keys x v y Hx Hy).
Qed.

Section Predict.
Context (par : ADC_PAR) (es : list Z).
Hypothesis Hes : es ∈ tables.
Hypothesis Hdim : 0 <= par_dim par <= 20.
Hypothesis Hlen : par_dim par <= zlen es.
Hypothesis Hm : 0 <= mnum par <= 20.
Hypothesis Ht : 0 <= tuplenum par.

Let nd := par_dim par.
Let rows := rows_upto es nd (mnum par) (tuplenum par).

Lemma rows_shaped : Forall (shaped (mnum par) nd) rows.
Proof.
  apply list.Forall_forall. intros x Hx. apply base.list_elem_of_In, in_map_iff in Hx as (k & <- & _).
  unfold shaped, row, row_attributes. cbn [measures dims]. rewrite !length_map, !length_seqZ. lia.
Qed.

Lemma rows_number : zlen rows = tuplenum par.
Proof. unfold rows, rows_upto. rewrite length_map, length_seqZ. lia. Qed.

(** A row, projected to the attributes of a mask *)
Lemma project_row mask k : let sel := mask_attrs mask (Z.to_nat nd) in
  dims (project sel (mnum par) (zlen sel) (row es nd (mnum par) k)) = selected es sel k.
Proof.
  cbn zeta. unfold project, selected. cbn [dims row]. rewrite Nat2Z.id, firstn_all. apply map_ext_in. intros a Ha.
  apply base.list_elem_of_In, attrs_elem in Ha as [Ha _]. rewrite (zth_row_attributes es nd) by lia. f_equal. lia.
Qed.

Lemma groups_predicted mask : let sel := mask_attrs mask (Z.to_nat nd) in
  Z.of_nat (base.size (groups (map (project sel (mnum par) (zlen sel)) rows))) = predicted par es mask.
Proof.
  cbn zeta. rewrite <- size_dom, groups_dom, map_map. unfold rows, rows_upto. rewrite map_map.
  rewrite (map_ext _ _ (fun k => project_row mask k)). apply distinct_rows; [done | | done].
  eapply list.Forall_impl; [apply attrs_range|]. cbn. lia.
Qed.
End Predict.

Lemma table_length es : es ∈ tables -> zlen es <= 20.
Proof.
  intros H. assert (Hc : forallb (fun es : list Z => zlen es <=? 20) tables = true) by reflexivity.
  rewrite forallb_forall in Hc. apply base.list_elem_of_In in H. specialize (Hc es H). lia.
Qed.

(** [GenerateADC] gives the rows, and the text of the views with their sizes. *)
Lemma GenerateADC_ok par es : class_exps (clss par) = Some es -> 1 <= par_dim par <= zlen es -> 0 <= mnum par <= 20 ->
  0 <= tuplenum par < 2 ^ 31 -> inverse_endian par <> 1 ->
  exists words vs, GenerateADC true true par = Ok (Some (rows_upto es (par_dim par) (mnum par) (tuplenum par), Some words)) /\
    sizes_text par es words vs.
Proof.
  intros Hc Hd Hm Ht Hi. pose proof (class_table _ es Hc) as Hes. pose proof (table_length es Hes).
  destruct (rows_loop_ok es (par_dim par) (mnum par) Hes ltac:(lia) ltac:(lia) Hm par) as (attr & mes & g & E); try done.
  { unfold tuple_exps. by rewrite Hc. }
  destruct (CalculateVeiwSizes_ok true par es Hc ltac:(lia) ltac:(lia) Ht) as (r & Er & words & vs & -> & Hw).
  exists words, vs. unfold GenerateADC. rewrite E, bind_Ok, Er, bind_Ok. clear E Er. split; [reflexivity | exact Hw].
Qed.

(** C22: for each class of the benchmark, [GenerateADC] writes the rows and the
    text of view sizes without undefined behaviour; the text can be read, its
    views are distinct, and the size that it tells for a view - the least
    common multiple that [GetLCM] computes, or the number of rows - is exactly
    the number of groups of the rows, projected to the attributes of the
    view. *)
Theorem sizes_predicted par es : class_exps (clss par) = Some es -> 1 <= par_dim par <= zlen es -> 0 <= mnum par <= 20 ->
  0 <= tuplenum par < 2 ^ 31 -> inverse_endian par <> 1 ->
  exists rows words vs, GenerateADC true true par = Ok (Some (rows, Some words)) /\
    Forall (shaped (mnum par) (par_dim par)) rows /\ zlen rows = tuplenum par /\
    text_of words (map (view_entry (par_dim par)) vs) /\ base.NoDup (map vidx vs) /\
    zlen vs = (2 ^ par_dim par - 2) / class_step (clss par) + 1 /\
    Forall (fun v => 0 < vidx v < 2 ^ par_dim par /\
      let sel := mask_attrs (vidx v) (Z.to_nat (par_dim par)) in
      vsize v = Z.of_nat (base.size (groups (map (project sel (mnum par) (zlen sel)) rows)))) vs.
Proof.
  intros Hc Hd Hm Ht Hi. pose proof (class_table _ es Hc) as Hes. pose proof (table_length es Hes).
  destruct (GenerateADC_ok par es Hc Hd Hm Ht Hi) as (words & vs & E & [Hw Hv Hn Hnum]).
  exists (rows_upto es (par_dim par) (mnum par) (tuplenum par)), words, vs.
  split; [exact E|]. clear E.
  split; [apply rows_shaped; lia|]. split; [apply rows_number; lia|]. split; [done|]. split; [done|]. split; [done|].
  eapply list.Forall_impl; [exact Hv|]. intros v [Hv1 Hv2]. split; [done|]. cbn zeta. rewrite Hv2. symmetry.
  apply groups_predicted; (done || lia).
Qed.

Lemma sizes_predicted_witness : exists rows words vs,
    GenerateADC true true (class_parameters (Par 0 5 1 100 0 "S")) = Ok (Some (rows, Some words)) /\
    Forall (shaped 1 5) rows /\ zlen rows = 1000 /\
    text_of words (map (view_entry 5) vs) /\ base.NoDup (map vidx vs) /\
    zlen vs = (2 ^ 5 - 2) / 1 + 1 /\
    Forall (fun v => 0 < vidx v < 2 ^ 5 /\
      let sel := mask_attrs (vidx v) (Z.to_nat 5) in
      vsize v = Z.of_nat (base.size (groups (map (project sel 1 (zlen sel)) rows)))) vs.
Proof.
  apply (sizes_predicted (Par 0 5 1 1000 0 "S") adcexpS); cbn [clss par_dim mnum tuplenum inverse_endian];
    [reflexivity | cbn; lia | lia | lia | lia].
Defined.
