(* ===== verification/CubeCheck.v ===== *)
(** * The verification of the view sizes

    When [ViewSizesVerification] of [NPB/SERIAL/DC/extbuild.c] accepts the
    sizes of the views that were made. *)

From stdpp Require Import strings gmap.
From S2P Require Import Prelude Rbt DataCube JobPool JobBits CubeLoop JobSplit JobDeal ViewSizes.

(** ** Counts *)

(** What the array holds for an index after the file of view sizes was read *)
Definition count_of (file : list (Z * Z)) (g : Z) : Z := foldl (fun n '(h, m) => if h =? g then m else n) 0 file.

Lemma count_of_snoc file h m g : count_of (file ++ [(h, m)]) g = if h =? g then m else count_of file g.
Proof. unfold count_of. by rewrite foldl_app. Qed.

Lemma count_of_absent file g : g ∉ map fst file -> count_of file g = 0.
Proof.
  induction file as [|[h m] file IH] using rev_ind; intros Hg; [done|]. rewrite count_of_snoc. rewrite map_app in Hg.
  destruct (Z.eqb_spec h g) as [->|]; [exfalso; apply Hg, list.elem_of_app; right; left|]. apply IH. intros Hin. apply Hg, list.elem_of_app. by left.
Qed.

Lemma count_of_present file g m : base.NoDup (map fst file) -> (g, m) ∈ file -> count_of file g = m.
Proof.
  induction file as [|[h n] file IH] using rev_ind; intros Hnd Hin; [inversion Hin|]. rewrite count_of_snoc.
  rewrite map_app in Hnd. apply list.NoDup_app in Hnd as (Hnd & Hd & _). apply list.elem_of_app in Hin as [Hin|Hin].
  - destruct (Z.eqb_spec h g) as [->|]; [|by apply IH]. exfalso. apply (Hd g); [|left].
    apply base.list_elem_of_In, in_map_iff. exists (g, m). split; [done|]. by apply base.list_elem_of_In.
  - apply base.list_elem_of_In in Hin as [[= -> ->]|[]]. by rewrite Z.eqb_refl.
Qed.

(** An entry of which the writing failed counts as none. *)
Lemma count_of_kept written k file g m : base.NoDup (map fst file) -> (g, m) ∈ file ->
  count_of (kept written k file) g = m \/ count_of (kept written k file) g = 0.
Proof.
  intros Hnd Hin. pose proof (kept_sublist written k file) as Hs.
  destruct (decide (g ∈ map fst (kept written k file))) as [Hg|Hg]; [left | right; by apply count_of_absent].
  apply base.list_elem_of_In, in_map_iff in Hg as ([h n] & Eh & Hg). cbn in Eh. subst h. apply base.list_elem_of_In in Hg.
  assert (n = m) as ->.
  { pose proof (elem_of_sublist _ _ _ Hg Hs) as Hf. rewrite <- (count_of_present file g n Hnd Hf). by apply count_of_present. }
  apply count_of_present; [|done]. eapply sublist_NoDup; [exact Hnd|]. by apply (fmap_sublist fst).
Qed.

Lemma Forall_kept {A} (P : A -> Prop) written k (l : list A) : Forall P l -> Forall P (kept written k l).
Proof.
  revert k. intros k H. revert k. induction H as [|x l Hx _ IH]; intros k; cbn [kept]; [constructor|].
  destruct (written k); [by constructor | done].
Qed.

(** The index of a view in the array *)
Definition view_index (nd : Z) (sel : list Z) : Z := Z.shiftr (bin_tuple sel) (64 - nd).

Lemma view_index_range nd sel : 1 <= nd <= MAX_NUM_OF_DIMS -> selection_ok nd sel -> 0 <= view_index nd sel < 2 ^ nd.
Proof.
  unfold MAX_NUM_OF_DIMS. intros Hn Hs. destruct (selection_range nd sel ltac:(lia) Hs) as [Hr _].
  assert (Hb : 0 <= bin_tuple sel < 2 ^ 64) by (apply bin_tuple_range; eapply list.Forall_impl; [exact Hr|]; cbn; lia).
  unfold view_index. rewrite Z.shiftr_div_pow2 by lia. split; [apply Z.div_pos; lia|]. apply Z.div_lt_upper_bound; [lia|].
  rewrite <- Z.pow_add_r by lia. replace (64 - nd + nd) with 64 by lia. lia.
Qed.

(** ** The verification *)

(** A size of the text is accepted: the view was not made, or it has this many
    rows, or as many as the input. *)
Definition size_ok (c : cube) (e : list Z * Z) : bool :=
  let n := count_of (viewSizesFile c) (view_index (nTopDims (avp c)) (fst e)) in
  (n =? 0) || (n =? u32 (snd e)) || (n =? nInputRecs (avp c)).

Section Check.
Context (c : cube) (v : list Z).
Let nd := nTopDims (avp c).
Hypothesis Hn : 1 <= nd <= MAX_NUM_OF_DIMS.
Hypothesis Hv : 2 ^ nd <= zlen v.
Hypothesis Hc : forall g, 0 <= g < 2 ^ nd -> zth 0 v g = count_of (viewSizesFile c) g.

Lemma check_view_ok sel sz s : selection_ok nd sel ->
  check_view nd (nInputRecs (avp c)) (numberOfMadeViews c) v (bin_tuple sel) sz s =
  Ok (if size_ok c (sel, sz) then (if numberOfMadeViews c =? 0 then 1 else 0, ADC_OK, false) else (1, ADC_VERIFICATION_FAILED, true)).
Proof.
  intros Hsel. unfold check_view. pose proof (view_index_range _ sel Hn Hsel) as Hi.
  unfold MAX_NUM_OF_DIMS in Hn. rewrite shr_ok, bind_Ok by lia. fold (view_index nd sel).
  assert (2 ^ nd <= 2 ^ 20) by (apply Z.pow_le_mono_r; lia).
  rewrite signed_small, (aget_ok 0), bind_Ok, Hc by lia. unfold size_ok. cbn [fst snd]. fold nd.
  destruct (_ =? 0), (_ =? u32 sz), (_ =? nInputRecs (avp c)); done.
Qed.

Lemma fold_check es vf : Forall (fun e => selection_ok nd (fst e)) es ->
  fold_views (check_view nd (nInputRecs (avp c)) (numberOfMadeViews c) v) es (vf, ADC_OK) =
  Ok (match es with
      | [] => (vf, ADC_OK)
      | _ => if forallb (size_ok c) es then (if numberOfMadeViews c =? 0 then 1 else 0, ADC_OK) else (1, ADC_VERIFICATION_FAILED)
      end).
Proof.
  intros Hes. revert vf. induction Hes as [|[sel sz] es Hsel _ IH]; intros vf; [done|]. cbn [fst] in Hsel.
  cbn [fold_views forallb]. rewrite check_view_ok, bind_Ok by done.
  destruct (size_ok c (sel, sz)); cbn [andb]; [|done]. rewrite IH. by destruct es.
Qed.
End Check.

Lemma ViewSizesVerification_ok c words es sel viewCounts vf :
  1 <= nTopDims (avp c) <= MAX_NUM_OF_DIMS -> zlen sel = 64 -> 2 ^ nTopDims (avp c) <= zlen viewCounts ->
  Forall (fun x => 0 <= fst x < zlen viewCounts) (viewSizesFile c) ->
  text_of words es -> Forall (fun e => selection_ok (nTopDims (avp c)) (fst e)) es ->
  ViewSizesVerification c (2 ^ nTopDims (avp c) - 1) words sel viewCounts vf =
  Ok (match es with
      | [] => (vf, ADC_OK)
      | _ => if forallb (size_ok c) es then (if numberOfMadeViews c =? 0 then 1 else 0, ADC_OK) else (1, ADC_VERIFICATION_FAILED)
      end).
Proof.
  intros Hn Hsel Hlen Hfile Ht Hes. unfold ViewSizesVerification. cbn zeta. replace (2 ^ nTopDims (avp c) - 1 + 1) with (2 ^ nTopDims (avp c)) by lia.
  assert (Hp : 0 <= 2 ^ nTopDims (avp c)) by (apply Z.pow_nonneg; lia).
  destruct (for_range_map 0 (fun _ => 0) (fun i v => v.[i <- 0]) (2 ^ nTopDims (avp c)) viewCounts) as (v & -> & Lv & Hv); [lia | done |].
  rewrite bind_Ok.
  destruct (for_range_inv (fun k v => zlen v = zlen viewCounts /\ forall g, 0 <= g < 2 ^ nTopDims (avp c) ->
      zth 0 v g = count_of (take (Z.to_nat k) (viewSizesFile c)) g)
    (fun i v => '(g, n) ← (viewSizesFile c).[i]; v.[g <- n]) 0 (zlen (viewSizesFile c)) v) as (v' & -> & Lv' & Hv'); [lia | | |].
  - split; [done|]. intros g Hg. rewrite Hv by lia. by destruct (Z.ltb_spec g (2 ^ nTopDims (avp c))); [|lia].
  - intros k w Hk [Lw Hw]. rewrite (aget_ok (0, 0)), bind_Ok by lia. pose proof (zth_In (0, 0) (viewSizesFile c) k Hk) as Hin.
    rewrite list.Forall_forall in Hfile. specialize (Hfile _ Hin). destruct (zth (0, 0) (viewSizesFile c) k) as [h m] eqn:Ek.
    cbn [fst] in Hfile. rewrite aset_ok by lia. eexists. split; [reflexivity|]. rewrite zlen_insert. split; [done|]. intros g Hg.
    replace (Z.to_nat (k + 1)) with (S (Z.to_nat k)) by lia. rewrite (take_S_r _ _ (h, m)).
    + rewrite count_of_snoc, zth_insert, Hw by lia. rewrite (Z.eqb_sym h g). done.
    + destruct (lookup_lt_is_Some_2 (viewSizesFile c) (Z.to_nat k)) as [x Hx]; [lia|]. rewrite Hx. f_equal. rewrite <- Ek.
      symmetry. by apply nth_lookup_Some.
  - rewrite bind_Ok, (read_views_ok _ (nTopDims (avp c)) words es) by (done || unfold MAX_NUM_OF_DIMS in Hn; lia).
    apply fold_check; [done | lia | | done]. intros g Hg. rewrite Hv' by done. by rewrite take_ge by lia.
Qed.
