(* ===== verification/Dc.v ===== *)
(** * The data cube benchmark

    [NPB/SERIAL/DC/dc.c]: the parameters of a run, [DC], which sets up the
    control block, divides the views, computes them and compares the checksum
    with the one of the class, and [main]; and [NewAdcViewCntl] of
    [extbuild.c].

    What the allocator, the files and the memory give is in an
    [environment].  The files that are only written to can be opened; the log
    file, the timing and the printing are left out, and so is [CloseAdcView],
    which only releases what was allocated: when it fails the block is not
    looked at any more. *)

From Stdlib Require Import Ascii.
From stdpp Require Import strings gmap.
From S2P Require Import Prelude Rbt DataCube JobPool CubeLoop JobSplit ViewSizes AdcFactor AdcSizes.

Definition ADC_FILE_OPEN_FAILURE := 4.
Definition ADC_MEMORY_ALLOCATION_FAILURE := 5.

(** The names of files are left out. *)
Record ADC_VIEW_PARS := Pars { p_ndid : Z; p_clss : ascii; p_nd : Z; p_nm : Z; p_nInputRecs : Z; p_memoryLimit : Z; p_nTasks : Z }.

(** Memory that was not initialised has arbitrary contents; [None] stands for
    an allocation, or for opening a file, that fails. *)
Record environment := Env {
  create_rows : bool;
  create_sizes : bool;
  open_rows : list data -> option (list data);
  open_sizes : option (list string) -> option (list string);
  block_memory : option cube;
  chunk_memory : option (list CHUNKS);
  pool_memory : Z -> option (gmap Z treeNode);
  tree_block : option RBTree;
  node_stack : option (list ptr);
  drct_stack : option (list Z);
  job_memory : Z -> option (list JOB_POOL);
  layer_memory : Z -> option (list LAYER);
  item_memory : Z -> option (list item);
  stack_sel : list Z;
  stack_counts : list Z;
  stack_sizes : list Z;
  pool_tuples : list Z;
  pool_counts : list Z;
  pool_rows : nat -> Z -> list data;
  write_groupby : nat -> bool;
  write_chunks : nat -> nat -> bool;
  write_views : nat -> bool;
  write_sizes : nat -> bool
}.

(** ** The control block *)

Record control := Control {
  ctl_cube : cube;
  ctl_nTasks : Z;
  taskNumber : Z;
  nViewLimit : Z;
  verificationFailed : Z;
  inpf : list data;
  adcViewSizesFile : list string
}.

Inductive opened := NoBlock | Incomplete (retCode : Z) | Complete (c : control).

(** The measures' sums and checksums are cleared. *)
Definition clear_sums (nm : Z) (mSums checksums totchs : list Z) : res (list Z * list Z * list Z) :=
  for_range 0 nm (fun i '(m, c, t) => m ← m.[i <- 0]; c ← c.[i <- 0]; t ← t.[i <- 0]; Ok (m, c, t)) (mSums, checksums, totchs).

Definition NewAdcViewCntl (env : environment) (rows : list data) (text : option (list string)) (p : ADC_VIEW_PARS) (pnum : Z) :
    res opened :=
  match block_memory env with
  | None => Ok NoBlock
  | Some c =>
  match open_rows env rows with
  | None => Ok (Incomplete ADC_FILE_OPEN_FAILURE)
  | Some inpf =>
  match open_sizes env text with
  | None => Ok (Incomplete ADC_FILE_OPEN_FAILURE)
  | Some words =>
  match chunk_memory env, pool_memory env (p_memoryLimit p) with
  | Some chunksParams, Some memPool =>
      let a := avp c in
      let v := avp_view a in
      '(mSums, checksums, totchs) ← clear_sums (p_nm p) (mSums v) (checksums v) (totchs c);
      tree ← CreateEmptyTree (tree_block env) (node_stack env) (drct_stack env) (p_nd p) (p_nm p) (p_memoryLimit p) memPool;
      match tree with
      | None => Ok (Incomplete ADC_MEMORY_ALLOCATION_FAILURE)
      | Some tree =>
          sel ← for_range 0 (p_nd p) (fun i s => s.[i <- i + 1]) (selection a);
          n ← sshl 32 1 (p_nd p);
          let nViewLimit := u32 (n - 1) in
          match job_memory env (u32 (nViewLimit + 1)), layer_memory env (u32 (p_nd p + 1)) with
          | Some jpp, Some lpp =>
              lpp ← init_layers lpp (p_nd p);
              jpp ← JobPoolInit jpp (u32 (nViewLimit + 1));
              Ok (Complete (Control
                (Cube (Cntl (View (p_nm p) mSums checksums []) (p_nd p) (p_nd p) (p_nd p) (p_nInputRecs p)
                         (nParentViewRows a) (smallestParentLevel a) (nRowsToRead a) (nViewRows a) 0
                         (GetRecSize (p_nd p) (p_nm p)) (GetRecSize (nv a) (p_nm p)) (p_memoryLimit p) tree sel 0 chunksParams [])
                  jpp lpp (groupby c) (parBinRepTuple c) (viewOffset c) 0 totchs [] 0 0 0)
                (p_nTasks p) pnum nViewLimit 1 inpf words))
          | _, _ => Ok (Incomplete ADC_MEMORY_ALLOCATION_FAILURE)
          end
      end
  | _, _ => Ok (Incomplete ADC_MEMORY_ALLOCATION_FAILURE)
  end
  end
  end
  end.

(** ** The checksum *)

Definition checksumS := 464620213.
Definition checksumWlo := 434318.
Definition checksumWhi := 1401796.
Definition checksumAlo := 178042.
Definition checksumAhi := 7141688.
Definition checksumBlo := 700453.
Definition checksumBhi := 9348365.

Definition Verify (checksum : Z) (p : ADC_VIEW_PARS) : Z :=
  let compare x := if checksum =? x then 0 else 1 in
  if decide (p_clss p = "S"%char) then compare checksumS
  else if decide (p_clss p = "W"%char) then compare (checksumWlo + 1000000 * checksumWhi)
  else if decide (p_clss p = "A"%char) then compare (checksumAlo + 1000000 * checksumAhi)
  else if decide (p_clss p = "B"%char) then compare (checksumBlo + 1000000 * checksumBhi)
  else -1.

(** ** A run *)

(** The views of a task; nothing when the partition fails *)
Definition partition (env : environment) (c : control) : res (list Z) :=
  let a := avp (ctl_cube c) in
  r ← PartitionCube (item_memory env) (write_groupby env) (nTopDims a) (nInputRecs a) (nViewLimit c) (ctl_nTasks c) (taskNumber c)
        (adcViewSizesFile c) (stack_sel env) (pool_tuples env) (stack_counts env) (stack_sizes env);
  Ok (match r with Some f => f | None => [] end).

(** [ComputeGivenGroupbys] with the verification at its end *)
Definition compute_views (env : environment) (c : control) (groupbyFile : list Z) : res (control * Z) :=
  '(q, e) ← ComputeGivenGroupbys (write_chunks env) (write_views env) (write_sizes env) (pool_rows env) (ctl_cube c) (inpf c) groupbyFile;
  let with_failed failed := Control q (ctl_nTasks c) (taskNumber c) (nViewLimit c) failed (inpf c) (adcViewSizesFile c) in
  if negb (e =? 0) then Ok (with_failed (verificationFailed c), e)
  else
    '(failed, e) ← ViewSizesVerification q (nViewLimit c) (adcViewSizesFile c) (stack_sel env) (pool_counts env) (verificationFailed c);
    Ok (with_failed failed, if e =? 0 then ADC_OK else ADC_VERIFICATION_FAILED).

(** [PAR_VIEW_ST], without the time *)
Record report := Report {
  rep_failed : Z;
  totalViewTuples : Z;
  totalViewSizesInBytes : Z;
  totalNumberOfMadeViews : Z;
  checksum : Z
}.

Definition verified (r : report) : Z := if rep_failed r =? -1 then -1 else if rep_failed r =? 0 then 1 else 0.

(** A block that is not complete is a fault: its files or arrays are used. *)
Definition DC (env : environment) (rows : list data) (text : option (list string)) (p : ADC_VIEW_PARS) : res (Z * option report) :=
  o ← NewAdcViewCntl env rows text p 0;
  match o with
  | NoBlock => Ok (ADC_INTERNAL_ERROR, None)
  | Incomplete _ => Err OutOfBounds
  | Complete c =>
      groupbyFile ← partition env c;
      '(c, _) ← compute_views env c groupbyFile;
      let q := ctl_cube c in
      '(tuples, size, made, sum) ←
        (if verificationFailed c =? 0 then
           x ← (totchs q).[0];
           Ok (totalOfViewRows (avp q), totalViewFileSize q, numberOfMadeViews q, u64 x)
         else Ok (0, 0, 0, 0));
      Ok (ADC_OK, Some (Report (Verify (i64 sum) p) tuples size made sum))
  end.

(** ** [main] *)

(** What [write_dc_info] of [setparams.c] defines for a class *)
Definition dc_info (c : ascii) : option (Z * Z) :=
  if decide (c = "S"%char) then Some (1000, 5)
  else if decide (c = "W"%char) then Some (100000, 10)
  else if decide (c = "A"%char) then Some (1000000, 15)
  else if decide (c = "B"%char) then Some (10000000, 20)
  else None.

Definition isdigit (c : ascii) : bool := match digit c with Some _ => true | None => false end.

(** The parameters for the compiled class, without a parameter file *)
Definition default_parameters (c : ascii) : option ADC_PAR :=
  match dc_info c with
  | Some (input_tuples, attrnum) => Some (Par (ndid initADCpar) attrnum (mnum initADCpar) input_tuples (inverse_endian initADCpar) c)
  | None => None
  end.

Definition view_parameters (par : ADC_PAR) (limit : Z) : res ADC_VIEW_PARS :=
  let limit := u32 limit in
  limit ← (if limit <=? 0 then n ← chk 32 (50 + 5 * par_dim par); x ← chk 64 (tuplenum par * n); Ok (u32 x) else Ok limit);
  Ok (Pars (ndid par) (clss par) (u32 (par_dim par)) (u32 (mnum par)) (u32 (tuplenum par)) limit 1).

(** The rows and the text are written, and then read by [DC]; [None] stands
    for [exit (1)]. *)
Definition run (env : environment) (par : ADC_PAR) (limit : Z) : res (option report) :=
  g ← GenerateADC (create_rows env) (create_sizes env) par;
  match g with
  | None => Ok None
  | Some (rows, text) =>
      p ← view_parameters par limit;
      '(retCode, r) ← DC env rows text p;
      Ok (if retCode =? 0 then r else None)
  end.

(** [main] with at most one argument *)
Definition main (env : environment) (c : ascii) (arg : option string) : res (option report) :=
  match default_parameters c, arg with
  | None, _ => Ok None
  | Some par, None => run env par 0
  | Some par, Some EmptyString => Ok None
  | Some par, Some (String d s) =>
      if isdigit d then limit ← atoi (String d s); run env par limit else Ok None
  end.
