(* ===== verification/DcSetup.v ===== *)
(** * Setting up a run

    [NewAdcViewCntl] of [NPB/SERIAL/DC/extbuild.c] makes a control block with
    which the views can be computed, when nothing fails. *)

From stdpp Require Import strings gmap.
From S2P Require Import Prelude Rbt RbtTree Groups RbtHeap RbtGroup RbtWrite DataCube DataRuns DataView JobPool JobBits JobParent CubeLoop JobSplit ViewSizes AdcFactor AdcSizes Dc.

(** ** What the environment gives *)

(** Allocation and files do not fail - but for the files of chunks and of
    views, that may be short of space - and arrays have the lengths that were
    asked for; their contents are arbitrary. *)
Record well_behaved (env : environment) (nd nm limit : Z) : Prop := {
  wb_rows : forall l, open_rows env l = Some l;
  wb_text : forall w, open_sizes env (Some w) = Some w;
  wb_block : exists c, block_memory env = Some c /\ zlen (mSums (avp_view (avp c))) = MAX_NUM_OF_MEAS /\
    zlen (checksums (avp_view (avp c))) = MAX_NUM_OF_MEAS /\ zlen (totchs c) = MAX_NUM_OF_MEAS /\
    zlen (selection (avp c)) = MAX_NUM_OF_DIMS;
  wb_chunks : exists l, chunk_memory env = Some l /\ zlen l = MAX_NUM_OF_CHUNKS;
  wb_pool : exists m, pool_memory env limit = Some m;
  wb_tree : exists t, tree_block env = Some t;
  wb_nodes : exists l, node_stack env = Some l /\ length l = 64%nat;
  wb_drcts : exists l, drct_stack env = Some l /\ length l = 64%nat;
  wb_jobs : forall n, 0 <= n -> exists l, job_memory env n = Some l /\ zlen l = n;
  wb_layers : forall n, 0 <= n -> exists l, layer_memory env n = Some l /\ zlen l = n;
  wb_items : forall n, 0 <= n -> exists l, item_memory env n = Some l;
  wb_items_length : forall n l, item_memory env n = Some l -> zlen l = n;
  wb_sel : zlen (stack_sel env) = 64;
  wb_counts : zlen (stack_counts env) = MAX_NUMBER_OF_TASKS;
  wb_sizes : zlen (stack_sizes env) = MAX_NUMBER_OF_TASKS;
  wb_tuples : zlen (pool_tuples env) = limit / 8;
  wb_views : zlen (pool_counts env) = limit / 4;
  wb_records : forall k n, 1 <= n <= nd -> zlen (pool_rows env k n) = limit / GetRecSize n nm;
  wb_groupby : forall i, write_groupby env i = true
}.

(** The memory pool is enough for [views] views of [n] rows. *)
Record enough_memory (nd nm n limit views : Z) : Prop := {
  em_limit : limit < 2 ^ 32;
  em_node : node_size nd nm <= limit;
  em_merge : MAX_NUM_OF_CHUNKS * GetRecSize nd nm <= limit;
  em_bytes : n * GetRecSize nd nm < 2 ^ 32;
  em_sums : n * (n * measbound) < 2 ^ 63;
  em_chunks : n < (MAX_NUM_OF_CHUNKS - 1) * (limit / node_size nd nm);
  em_tuples : 8 * views <= limit;
  em_counts : 4 * 2 ^ nd <= limit;
  em_views : views * n * measbound < 2 ^ 63
}.

(** ** The block *)

Lemma clear_sums_ok nm m c t : 0 <= nm <= zlen m -> nm <= zlen c -> nm <= zlen t -> exists m' c' t',
  clear_sums nm m c t = Ok (m', c', t') /\ zlen m' = zlen m /\ zlen c' = zlen c /\ zlen t' = zlen t /\
  forall i, 0 <= i < nm -> zth 0 t' i = 0.
Proof.
  intros Hm Hc Ht. unfold clear_sums. destruct (for_range_inv
    (fun i '(m', c', t') => zlen m' = zlen m /\ zlen c' = zlen c /\ zlen t' = zlen t /\ forall j, 0 <= j < i -> zth 0 t' j = 0)
    (fun i '(m, c, t) => m ← m.[i <- 0]; c ← c.[i <- 0]; t ← t.[i <- 0]; Ok (m, c, t)) 0 nm (m, c, t))
    as ([[m' c'] t'] & -> & H); [lia | repeat split; lia | | by exists m', c', t'].
  intros i [[m' c'] t'] Hi (Lm & Lc & Lt & Hz). rewrite !aset_ok by lia. rewrite !bind_Ok.
  eexists. split; [reflexivity|]. cbn beta iota. rewrite !zlen_insert. repeat split; [done..|].
  intros j Hj. rewrite zth_insert by lia. destruct (Z.eqb_spec j i); [done|]. apply Hz. lia.
Qed.

Lemma JobPoolInit_ok j : exists j', JobPoolInit j (zlen j) = Ok j' /\ zlen j' = zlen j.
Proof.
  unfold JobPoolInit. destruct (for_range_inv (fun _ j' => zlen j' = zlen j) (fun i j => j.[i <- Job 0 0 0 0]) 0 (zlen j) j)
    as (j' & E & L); [lia | done | | by exists j'].
  intros i j' Hi L. rewrite aset_ok by lia. eexists. split; [reflexivity|]. by rewrite zlen_insert.
Qed.

Section Setup.
Context (env : environment) (rows : list data) (words : list string) (p : ADC_VIEW_PARS) (views : Z).
Let nd := p_nd p.
Let nm := p_nm p.
Hypothesis Henv : well_behaved env nd nm (p_memoryLimit p).
Hypothesis Hmem : enough_memory nd nm (p_nInputRecs p) (p_memoryLimit p) views.
Hypothesis Hd : 1 <= nd <= MAX_NUM_OF_DIMS.
Hypothesis Hm : 0 <= nm <= MAX_NUM_OF_MEAS.

(** The block is fit for the views, and none was computed. *)
Record new_control (c : control) : Prop := {
  nw_cube : cube_ok (ctl_cube c);
  nw_new : new_cube (ctl_cube c);
  nw_dims : nTopDims (avp (ctl_cube c)) = nd;
  nw_nm : avp_nm (avp (ctl_cube c)) = nm;
  nw_rows : nInputRecs (avp (ctl_cube c)) = p_nInputRecs p;
  nw_limit : avp_memoryLimit (avp (ctl_cube c)) = p_memoryLimit p;
  nw_tree : memoryLimit (avp_tree (avp (ctl_cube c))) = p_memoryLimit p;
  nw_views : nViewLimit c = 2 ^ nd - 1;
  nw_failed : verificationFailed c = 1;
  nw_input : inpf c = rows;
  nw_text : adcViewSizesFile c = words;
  nw_tasks : ctl_nTasks c = p_nTasks p;
  nw_task : taskNumber c = 0
}.

Lemma NewAdcViewCntl_ok : exists c, NewAdcViewCntl env rows (Some words) p 0 = Ok (Complete c) /\ new_control c.
Proof.
  destruct Henv as [E1 E2 (b & Eb & B1 & B2 & B3 & B4) (ch & Ec & Lc) (pool & Ep) (t & Et) (ns & En & Ln) (ds & Ed & Ld) Hj Hl _ _ _ _ _ _ _ _ _].
  unfold NewAdcViewCntl. rewrite Eb, E1, E2, Ec, Ep. fold nd nm. unfold MAX_NUM_OF_DIMS, MAX_NUM_OF_MEAS in *.
  destruct (clear_sums_ok nm (mSums (avp_view (avp b))) (checksums (avp_view (avp b))) (totchs b)) as (m & c & s & -> & Lm & Lcs & Ls & Hz); [lia.. |].
  rewrite bind_Ok. rewrite Et, En, Ed. unfold CreateEmptyTree. destruct (node_size_ok nd nm ltac:(lia) ltac:(lia)) as [Hns _].
  destruct (Z.eqb_spec (node_size nd nm) 0); [lia|]. rewrite bind_Ok.
  destruct (for_range_inv (fun _ s => zlen s = 20) (fun i s => s.[i <- i + 1]) 0 nd (selection (avp b))) as (sel & -> & Lsel); [lia | lia | |].
  { intros i s' Hi L. rewrite aset_ok by lia. eexists. split; [reflexivity|]. by rewrite zlen_insert. }
  assert (H2 : 2 ^ nd <= 2 ^ 20) by (apply Z.pow_le_mono_r; lia). assert (H1 : 0 < 2 ^ nd) by (apply Z.pow_pos_nonneg; lia).
  rewrite bind_Ok, sshl_ok, bind_Ok, Z.mul_1_l by lia. rewrite (unsigned_small 32 (2 ^ nd - 1)), !unsigned_small by lia.
  destruct (Hj (2 ^ nd - 1 + 1)) as (jobs & -> & Lj); [lia|]. destruct (Hl (nd + 1)) as (lay & -> & Ll); [lia|].
  destruct (init_layers_ok lay nd Hd Ll) as (lay' & -> & Ll' & Hlay). rewrite bind_Ok, <- Lj.
  destruct (JobPoolInit_ok jobs) as (jobs' & -> & Lj'). rewrite bind_Ok. eexists. split; [reflexivity|].
  destruct Hmem as [M1 M2 M3 _ _ _ _ _ _].
  split; cbn [ctl_cube ctl_nTasks taskNumber nViewLimit verificationFailed inpf adcViewSizesFile avp]; try done.
  - split; try done; cbn; unfold MAX_NUM_OF_MEAS, MAX_NUM_OF_DIMS, MAX_NUM_OF_CHUNKS in *; try lia.
    split; cbn; unfold MAX_NUM_OF_MEAS, MAX_NUM_OF_DIMS, MAX_NUM_OF_CHUNKS in *; try done; lia.
  - split; try done. cbn. apply pool_init; [done | lia | done | done].
Qed.
End Setup.
