(* ===== verification/DcViews.v ===== *)
(** * The views of a run

    What a run of the benchmark has to compute, by itself: a view of a list of
    rows by inserting them one after the other into a sorted list, and the
    checksum of a list of views.  A view that was computed is this one. *)

From Stdlib Require Import Permutation.
From stdpp Require Import strings gmap.
From S2P Require Import Prelude Rbt RbtTree Groups RbtWrite DataCube DataRuns DataMerge JobPool JobBits CubeLoop JobDeal ViewSizes AdcFactor AdcSizes AdcLcm AdcRows AdcText AdcPredict CubeCheck.

(** ** The selection of a tuple *)

Section Selection.
Context (nd : Z) (sel : list Z).
Hypothesis Hnd : 1 <= nd <= MAX_NUM_OF_DIMS.
Hypothesis Hsel : selection_ok nd sel.
Let g := selection_tuple nd sel.

Lemma selection_attrs : attrs (bits32 g) (Z.to_nat nd) = sel.
Proof.
  unfold MAX_NUM_OF_DIMS in Hnd. unfold g, selection_tuple. rewrite tuple32_attrs by lia. apply bin_tuple_attrs; [lia | done].
Qed.

Lemma selection_ones : ones nd g = zlen sel.
Proof. unfold ones. by rewrite selection_attrs. Qed.

Lemma selection_is_tuple : is_tuple nd g.
Proof. apply tuple32_is_tuple. unfold MAX_NUM_OF_DIMS in Hnd. lia. Qed.

Lemma selection_nonzero : g <> 0.
Proof.
  intros E. pose proof selection_attrs as H. rewrite E in H. destruct Hsel as [H0 _]. apply H0. rewrite <- H.
  generalize (Z.to_nat nd). induction n as [|n IH]; [done|]. cbn [attrs]. rewrite IH. unfold bits32. by rewrite Z.testbit_0_l.
Qed.

Lemma selection_index : view_index nd sel = Z.shiftr g (32 - nd).
Proof.
  pose proof (view_index_range nd sel Hnd Hsel) as Hi. unfold MAX_NUM_OF_DIMS in Hnd.
  destruct (selection_range nd sel ltac:(lia) Hsel) as [Hr _]. unfold g, selection_tuple. rewrite <- tuple32_index.
  - fold (view_index nd sel). assert (2 ^ nd <= 2 ^ 20) by (apply Z.pow_le_mono_r; lia). by rewrite unsigned_small by lia.
  - apply bin_tuple_range. eapply list.Forall_impl; [exact Hr|]. cbn. lia.
  - lia.
Qed.
End Selection.

Lemma selection_inj nd s s' : 1 <= nd <= MAX_NUM_OF_DIMS -> selection_ok nd s -> selection_ok nd s' ->
  view_index nd s = view_index nd s' -> s = s'.
Proof.
  intros Hnd Hs Hs' E. rewrite !selection_index in E by done.
  pose proof (selection_is_tuple nd s Hnd) as [R T]. pose proof (selection_is_tuple nd s' Hnd) as [R' T'].
  rewrite <- (selection_attrs nd s Hnd Hs), <- (selection_attrs nd s' Hnd Hs'). apply attrs_ext. intros i Hi.
  unfold MAX_NUM_OF_DIMS in Hnd. unfold bits32 in *. apply (f_equal (fun x => Z.testbit x (nd - i))) in E.
  rewrite !Z.shiftr_spec in E by lia. by replace (nd - i + (32 - nd)) with (32 - i) in E by lia.
Qed.

(** ** The view *)

Definition reference (nm : Z) (rows : list data) (sel : list Z) : list data :=
  foldr upsert [] (map (project sel nm (zlen sel)) rows).

Section Reference.
Context (nd nm : Z) (rows : list data) (sel : list Z).
Hypothesis Hnd : 1 <= nd <= MAX_NUM_OF_DIMS.
Hypothesis Hm : 0 <= nm.
Hypothesis Hsel : selection_ok nd sel.
Hypothesis Hrows : Forall (shaped nm nd) rows.

Lemma project_shaped x : shaped nm nd x -> shaped nm (zlen sel) (project sel nm (zlen sel) x).
Proof.
  intros Hx. unfold MAX_NUM_OF_DIMS in Hnd. destruct (selection_range nd sel ltac:(lia) Hsel) as [Hr _].
  apply (SelectToView_ok x sel nm nd (zlen sel) Hm Hx). split; [lia|]. by rewrite Nat2Z.id, firstn_all.
Qed.

Lemma upserted_ok l : Forall (shaped nm (zlen sel)) l ->
  sorted (foldr upsert [] l) /\ groups (foldr upsert [] l) = groups l /\ Forall (shaped nm (zlen sel)) (foldr upsert [] l).
Proof.
  induction 1 as [|x l Hx _ (IH1 & IH2 & IH3)]; cbn [foldr]; [by repeat constructor|].
  split; [by apply (upsert_sorted nm (zlen sel))|]. split; [|by apply upsert_shaped].
  rewrite (groups_upsert nm (zlen sel)) by done. cbn [groups foldr]. fold (groups l) (groups (foldr upsert [] l)). by rewrite IH2.
Qed.

Lemma projected_shaped : Forall (shaped nm (zlen sel)) (map (project sel nm (zlen sel)) rows).
Proof. apply Forall_map. eapply list.Forall_impl; [exact Hrows|]. apply project_shaped. Qed.

(** The view with this tuple is the reference. *)
Lemma view_is_reference v : cube_view nd nm rows (selection_tuple nd sel) v -> v = reference nm rows sel.
Proof.
  intros [V1 V2 _ _ _]. destruct (upserted_ok _ projected_shaped) as (R1 & R2 & _).
  apply sorted_unique; [done | done |]. unfold reference. rewrite R2, V2, selection_attrs, selection_ones by done. done.
Qed.

Lemma reference_length : zlen (reference nm rows sel) = Z.of_nat (base.size (groups (map (project sel nm (zlen sel)) rows))).
Proof.
  destruct (upserted_ok _ projected_shaped) as (R1 & R2 & _). unfold reference. by rewrite sorted_number, R2 by done.
Qed.

Lemma reference_bytes : 0 <= nm <= MAX_NUM_OF_MEAS ->
  bytes (reference nm rows sel) = zlen (reference nm rows sel) * GetRecSize (zlen sel) nm.
Proof.
  intros Hm'. unfold MAX_NUM_OF_DIMS in Hnd. destruct (selection_range nd sel ltac:(lia) Hsel) as [_ Hl].
  destruct Hsel as [H0 _]. apply shaped_bytes; [|done | apply (upserted_ok _ projected_shaped)].
  unfold MAX_NUM_OF_DIMS. destruct sel; [done|]. cbn [length] in *. lia.
Qed.
End Reference.

Lemma reference_le nm rows sel : zlen (reference nm rows sel) <= zlen rows.
Proof.
  unfold reference. induction rows as [|x rows IH]; [done|]. cbn [map foldr length].
  pose proof (upsert_length (project sel nm (zlen sel) x) (foldr upsert [] (map (project sel nm (zlen sel)) rows))). lia.
Qed.

(** ** The checksum *)

Definition views_checksum (vs : list (list data)) : Z := foldr (fun v s => weighted (ms_term 0) 0 0 v + s) 0 vs.

#[export] Instance views_checksum_perm : Proper (Permutation ==> eq) views_checksum.
Proof. induction 1; cbn [views_checksum foldr] in *; unfold views_checksum in *; lia. Qed.

Definition measures_nonneg (l : list data) : Prop := Forall (fun x => 0 <= meas 0 x) l.

Lemma upsert_nonneg d x l : shaped 1 d x -> Forall (shaped 1 d) l -> 0 <= meas 0 x -> measures_nonneg l -> measures_nonneg (upsert x l).
Proof.
  intros Sx Hs Hx. unfold measures_nonneg. induction Hs as [|y l Hy Hs IH]; intros Hl; cbn [upsert]; [by constructor|].
  apply list.Forall_cons in Hl as [H0 Hl]. destruct (key_cmp (dims x) (dims y)); constructor; try done.
  - rewrite (meas_merge 1 d) by (done || lia). lia.
  - by constructor.
  - by apply IH.
Qed.

Lemma reference_nonneg nd rows sel : 1 <= nd <= MAX_NUM_OF_DIMS -> selection_ok nd sel -> Forall (shaped 1 nd) rows ->
  measures_nonneg rows -> measures_nonneg (reference 1 rows sel).
Proof.
  intros Hnd Hsel Hs Hm. unfold reference. induction Hs as [|x rows Hx Hs IH]; [constructor|]. cbn [map foldr].
  apply list.Forall_cons in Hm as [H0 Hm]. specialize (IH Hm). pose proof (project_shaped nd 1 sel Hnd ltac:(lia) Hsel x Hx) as Hp.
  apply (upsert_nonneg (zlen sel)); [done | | | done].
  - apply (upserted_ok 1 sel). by apply (projected_shaped nd).
  - unfold project, meas in *. cbn [measures]. destruct Hx as [Hx _]. change (Z.to_nat 1) with 1%nat. destruct (measures x); [done | exact H0].
Qed.

(** With one measure, that is not negative, the two ways in which a checksum
    is computed agree. *)
Lemma terms_agree v : forall k, 0 <= k -> measures_nonneg v -> (k + zlen v) * mag 0 v < 2 ^ 63 -> k + zlen v < 2 ^ 63 ->
  weighted (cs_term 1 0) 0 k v = weighted (ms_term 0) 0 k v.
Proof.
  induction v as [|x v IH]; intros k Hk Hm Hb Hl; [done|]. apply list.Forall_cons in Hm as [H0 Hm]. cbn [weighted length] in *.
  cbn [mag foldr] in Hb. fold (mag 0 v) in Hb. pose proof (mag_nonneg 0 v). f_equal; [|apply IH; try done; nia].
  unfold cs_term, ms_term. assert (0 <= (k + 1) * meas 0 x < 2 ^ 63) by nia.
  rewrite (unsigned_small 64 (k * 1 + 0 + 1)), Z.mul_1_r, Z.add_0_r, unsigned_small by lia.
  by rewrite Z.rem_mod_nonneg by (unfold measbound; lia).
Qed.

Lemma checks_views vs bs : length bs = length vs ->
  Forall (fun v => measures_nonneg v /\ zlen v * mag 0 v < 2 ^ 63 /\ zlen v < 2 ^ 63) vs -> checks 1 0 vs bs = views_checksum vs.
Proof.
  intros Hl H. revert bs Hl. induction H as [|v vs (H1 & H2 & H3) _ IH]; intros [|b bs] Hl; cbn [length] in Hl; try done.
  unfold checks, views_checksum in *. cbn [zip_with foldr]. rewrite IH by lia. f_equal. destruct b; [done|]. by apply terms_agree.
Qed.

Lemma views_checksum_nonneg vs : Forall measures_nonneg vs -> 0 <= views_checksum vs.
Proof.
  assert (Hw : forall v k, 0 <= k -> measures_nonneg v -> 0 <= weighted (ms_term 0) 0 k v).
  { induction v as [|x v IH]; intros k Hk Hm; cbn [weighted]; [done|]. apply list.Forall_cons in Hm as [H0 Hm].
    specialize (IH (k + 1) ltac:(lia) Hm). unfold ms_term at 1. assert (0 <= (k + 1) * meas 0 x) by nia.
    pose proof (Z.rem_nonneg ((k + 1) * meas 0 x) measbound ltac:(done) ltac:(done)). lia. }
  induction 1 as [|v vs Hv _ IH]; cbn [views_checksum foldr]; [done|]. unfold views_checksum in IH. specialize (Hw v 0 ltac:(lia) Hv). lia.
Qed.
