(* ===== verification/DcRun.v ===== *)
(** * A run of the benchmark

    [DC] of [NPB/SERIAL/DC/dc.c] on rows and a text that tells the sizes of
    their views: the views are computed, their sizes are accepted, and the
    report is about the views of the text. *)

From Stdlib Require Import Permutation.
From stdpp Require Import strings gmap.
From S2P Require Import Prelude Rbt RbtTree Groups RbtWrite DataCube DataRuns DataMerge JobPool JobBits JobParent CubeLoop JobSplit JobSort JobDeal ViewSizes AdcFactor AdcSizes AdcPredict CubeCheck Dc DcSetup DcViews.

Lemma sum_perm (l l' : list Z) : l ≡ₚ l' -> foldr Z.add 0 l = foldr Z.add 0 l'.
Proof. induction 1; cbn [foldr]; lia. Qed.

Lemma zlen_concat {A} (vs : list (list A)) : zlen (concat vs) = foldr Z.add 0 (map (fun v => zlen v) vs).
Proof. induction vs as [|v vs IH]; [done|]. cbn [concat map foldr]. rewrite length_app. lia. Qed.

#[export] Instance bytes_perm : Proper (Permutation ==> eq) bytes.
Proof. induction 1; cbn [bytes foldr] in *; unfold bytes in *; lia. Qed.

Section Run.
Context (env : environment) (rows : list data) (words : list string) (p : ADC_VIEW_PARS) (es : list (list Z * Z)).
Let nd := p_nd p.
Let nm := p_nm p.
Hypothesis Henv : well_behaved env nd nm (p_memoryLimit p).
Hypothesis Hmem : enough_memory nd nm (p_nInputRecs p) (p_memoryLimit p) (zlen es).
Hypothesis Hd : 1 <= nd <= MAX_NUM_OF_DIMS.
Hypothesis Hm : 1 <= nm <= MAX_NUM_OF_MEAS.
Hypothesis Htasks : p_nTasks p = 1.
Hypothesis Hrows : Forall (shaped nm nd) rows.
Hypothesis Hnumber : zlen rows = p_nInputRecs p.
Hypothesis Hmag : forall i, 0 <= i < nm -> mag i rows <= zlen rows * measbound.
Hypothesis Htext : text_of words es.
Hypothesis Hsel : Forall (fun e => selection_ok nd (fst e)) es.
Hypothesis Hdistinct : base.NoDup (map fst es).
Hypothesis Hsome : es <> [].
Hypothesis Hnum : zlen es <= 2 ^ nd - 1.
Hypothesis Hsizes : Forall (fun e => snd e = zlen (reference nm rows (fst e))) es.

Let tuples := map (fun e => selection_tuple nd (fst e)) es.

Lemma selection_in e : e ∈ es -> selection_ok nd (fst e).
Proof. intros He. by eapply (proj1 (list.Forall_forall _ _) Hsel). Qed.

Lemma tuples_distinct : base.NoDup tuples.
Proof.
  unfold tuples. rewrite <- (map_map fst (selection_tuple nd)).
  assert (H : Forall (selection_ok nd) (map fst es)) by (by apply Forall_map).
  revert H. pose proof Hdistinct as Hn. revert Hn. generalize (map fst es) as l.
  induction 1 as [|s l Hs _ IH]; intros H; cbn [map]; [constructor|]. apply list.Forall_cons in H as [H0 H]. constructor; [|by apply IH].
  intros Hin. apply base.list_elem_of_In, in_map_iff in Hin as (s' & E & Hs'). apply base.list_elem_of_In in Hs'. apply Hs.
  assert (H' : selection_ok nd s') by (by eapply (proj1 (list.Forall_forall _ _) H)).
  enough (s = s') as -> by done. rewrite <- (selection_attrs nd s Hd H0), <- (selection_attrs nd s' Hd H'). by rewrite E.
Qed.

Lemma tuples_nonzero : 0 ∉ tuples.
Proof.
  intros Hin. apply base.list_elem_of_In, in_map_iff in Hin as (e & E & He). apply base.list_elem_of_In in He.
  by apply (selection_nonzero nd (fst e) Hd (selection_in e He)).
Qed.

(** *** The partition *)

Lemma partition_ok c : new_control rows words p c ->
  exists f, partition env c = Ok f /\ map (file_tuple nd) f ≡ₚ tuples.
Proof.
  intros [_ _ W1 _ W3 _ _ W6 _ _ W9 W10 W11]. destruct Henv. destruct Hmem. unfold partition. rewrite W1, W3, W6, W9, W10, W11, Htasks.
  fold nd. destruct (PartitionCube_ok (item_memory env) (write_groupby env) nd (p_nInputRecs p) 1 words es)
    as (l & Hl & H); try done; try lia.
  assert (zlen es <= zlen (pool_tuples env)) by (rewrite wb_tuples; apply Z.div_le_lower_bound; lia).
  destruct (H 0 (stack_sel env) (pool_tuples env) (stack_counts env) (stack_sizes env)) as (r & -> & [(_ & n & Hn & E)|(zs & -> & Hz & _)]);
    try done; try lia.
  { destruct (wb_items n Hn) as [l' E']. congruence. }
  rewrite bind_Ok. eexists. split; [reflexivity|]. rewrite map_map, (map_ext _ (fun z => tuple32 (aligned nd z) nd)) by (intros; apply file_tuple_aligned).
  rewrite Hz, map_map. pose proof (dealt_all 1 0 (reverse l) ltac:(lia)) as Hdeal. cbn [seqZ Z.to_nat] in Hdeal.
  change (seqZ 0 1) with [0] in Hdeal. cbn [map concat] in Hdeal. rewrite app_nil_r in Hdeal. rewrite Hdeal, reverse_Permutation.
  by apply (ordered_tuples nd (p_nInputRecs p)).
Qed.

(** *** The views *)

Definition size_entry (sel : list Z) : Z * Z := (view_index nd sel, zlen (reference nm rows sel)).

Lemma views_are_references gs vs : Forall2 (cube_view nd nm rows) gs vs -> gs ≡ₚ tuples ->
  exists sels, sels ≡ₚ map fst es /\ vs = map (reference nm rows) sels /\
    zip_with (fun g v => (Z.shiftr g (32 - nd), zlen v)) gs vs = map size_entry sels /\
    Forall (fun sel => cube_view nd nm rows (selection_tuple nd sel) (reference nm rows sel)) sels.
Proof.
  intros Hv Hp. unfold tuples in Hp. rewrite <- (map_map fst (selection_tuple nd)) in Hp.
  apply Permutation_map_inv in Hp as (sels & -> & Hp). exists sels. split; [by symmetry|].
  assert (Hs : Forall (selection_ok nd) sels).
  { apply list.Forall_forall. intros s Hin. rewrite <- Hp in Hin. apply base.list_elem_of_In, in_map_iff in Hin as (e & <- & He).
    apply selection_in. by apply base.list_elem_of_In. }
  clear Hp. revert vs Hv. induction Hs as [|s sels Hs Hss IH]; intros vs Hv; inversion Hv as [|? v ? vs' H1 H2]; subst; [by repeat split|].
  destruct (IH vs' H2) as (-> & Ez & Hc). pose proof (view_is_reference nd nm rows s Hd ltac:(lia) Hs Hrows v H1) as ->.
  cbn [map zip_with]. split; [done|]. rewrite Ez. split; [|by constructor]. unfold size_entry at 2. by rewrite selection_index.
Qed.

(** Totals over the views do not depend on their order. *)
Lemma references_concat sels : sels ≡ₚ map fst es ->
  concat (map (reference nm rows) sels) ≡ₚ concat (map (fun e => reference nm rows (fst e)) es).
Proof. intros ->. by rewrite map_map. Qed.

Lemma references_total : zlen (concat (map (fun e => reference nm rows (fst e)) es)) = foldr Z.add 0 (map snd es).
Proof.
  rewrite zlen_concat, map_map. f_equal. apply map_ext_in. intros e He. symmetry.
  by eapply (proj1 (List.Forall_forall _ _) Hsizes).
Qed.

Lemma total_bound : foldr Z.add 0 (map snd es) <= zlen es * zlen rows.
Proof.
  clear - Hsizes. pose proof Hsizes as H. revert H. generalize es. induction 1 as [|e l He _ IH]; cbn [map foldr length]; [done|].
  pose proof (reference_le nm rows (fst e)). rewrite Nat2Z.inj_succ, Z.mul_succ_l. lia.
Qed.

(** *** The sizes *)

Lemma sizes_accepted q q' gs vs : nTopDims (avp q) = nd -> avp_nm (avp q) = nm -> nInputRecs (avp q) = zlen rows -> zlen rows < 2 ^ 32 ->
  cube_done (write_sizes env) q q' rows gs vs -> gs ≡ₚ tuples -> forallb (size_ok q') es = true /\
    Forall (fun x => 0 <= fst x < 2 ^ nd) (viewSizesFile q').
Proof.
  intros E1 E2 E3 Hb [Df Dv _ Ds _ _ _ _] Hp. rewrite E1, E2 in Dv. rewrite E1 in Ds.
  destruct (views_are_references gs vs Dv Hp) as (sels & Hs & _ & Ez & Hc). rewrite Ez in Ds. clear Ez.
  assert (E : nTopDims (avp q') = nd /\ nInputRecs (avp q') = zlen rows) by (unfold frame in Df; split; congruence).
  destruct E as [E4 E5]. assert (Hall : forall s, s ∈ sels -> selection_ok nd s).
  { intros s Hin. rewrite Hs in Hin. apply base.list_elem_of_In, in_map_iff in Hin as (e & <- & He).
    apply selection_in. by apply base.list_elem_of_In. }
  split.
  - apply forallb_forall. intros e He. assert (Hin : fst e ∈ sels) by (rewrite Hs; by apply base.list_elem_of_In, in_map).
    unfold size_ok. rewrite E4, Ds.
    destruct (count_of_kept (write_sizes env) 0 (map size_entry sels) (view_index nd (fst e)) (zlen (reference nm rows (fst e)))) as [-> | ->].
    + rewrite map_map. assert (Hn : base.NoDup sels) by (by rewrite Hs). clear - Hn Hall Hd.
      induction Hn as [|s l Hs Hn IH]; cbn [map]; constructor.
      * intros Hin. apply base.list_elem_of_In, in_map_iff in Hin as (s' & E & Hs'). apply base.list_elem_of_In in Hs'.
        apply Hs. enough (s = s') as -> by done. apply (selection_inj nd); [done | apply Hall; left | apply Hall; by right | by symmetry].
      * apply IH. intros s' H'. apply Hall. by right.
    + apply base.list_elem_of_In, in_map_iff. exists (fst e). split; [done|]. by apply base.list_elem_of_In.
    + rewrite (proj1 (List.Forall_forall _ _) Hsizes e He). rewrite list.Forall_forall in Hc. pose proof (cv_size _ _ _ _ _ (Hc _ Hin)).
      rewrite unsigned_small, Z.eqb_refl by lia. by rewrite orb_true_r.
    + done.
  - rewrite Ds. apply Forall_kept, Forall_map, list.Forall_forall. intros s Hin. by apply view_index_range; [|apply Hall].
Qed.

(** *** The report *)

Let views := map (fun e => reference nm rows (fst e)) es.

(** The report is about the views of the text; with one measure its checksum
    is a function of the views alone. *)
Record reported (r : report) : Prop := {
  rp_tuples : totalViewTuples r = u32 (foldr Z.add 0 (map snd es));
  rp_bytes : totalViewSizesInBytes r = bytes (concat views);
  rp_made : totalNumberOfMadeViews r = zlen es;
  rp_verify : rep_failed r = Verify (i64 (checksum r)) p;
  rp_checksum : nm = 1 -> measures_nonneg rows -> checksum r = views_checksum views /\ 0 <= checksum r < 2 ^ 63
}.

Lemma mag_sums i : 0 <= i < nm -> zlen rows * mag i rows < 2 ^ 63.
Proof. intros Hi. pose proof (Hmag i Hi). pose proof (em_sums _ _ _ _ _ Hmem). rewrite Hnumber in *. unfold measbound in *. nia. Qed.

Lemma number_small : zlen rows < 2 ^ 32.
Proof.
  pose proof (em_bytes _ _ _ _ _ Hmem) as H. pose proof (record_size_pos nm nd Hd ltac:(lia)). rewrite Hnumber. nia.
Qed.

Lemma views_checked gs vs bs : Forall2 (cube_view nd nm rows) gs vs -> gs ≡ₚ tuples -> length bs = length vs -> nm = 1 ->
  measures_nonneg rows -> checks nm 0 vs bs = views_checksum views /\ 0 <= checks nm 0 vs bs.
Proof.
  intros Hv Hp Hl E1 Hn. destruct (views_are_references gs vs Hv Hp) as (sels & Hs & -> & _ & Hc).
  assert (Hperm : map (reference nm rows) sels ≡ₚ views) by (rewrite Hs, map_map; done).
  assert (Hrn : Forall measures_nonneg (map (reference nm rows) sels)).
  { apply Forall_map, list.Forall_forall. intros s Hin. rewrite E1. apply (reference_nonneg nd); try done; [|by rewrite <- E1].
    rewrite Hs in Hin. apply base.list_elem_of_In, in_map_iff in Hin as (e & <- & He). apply selection_in. by apply base.list_elem_of_In. }
  assert (E : checks nm 0 (map (reference nm rows) sels) bs = views_checksum (map (reference nm rows) sels)).
  { rewrite E1 at 1. apply checks_views; [done|]. apply Forall_map, list.Forall_forall. intros s Hin.
    rewrite Forall_map, list.Forall_forall in Hrn. specialize (Hrn s Hin).
    rewrite list.Forall_forall in Hc. pose proof (Hc s Hin) as [_ _ _ V4 V5].
    specialize (V5 0 ltac:(lia)). pose proof (mag_sums 0 ltac:(lia)). pose proof number_small. pose proof (mag_nonneg 0 (reference nm rows s)).
    split; [done|]. split; [nia | lia]. }
  rewrite E. split; [by rewrite Hperm | by apply views_checksum_nonneg].
Qed.

Lemma compute_views_ok c f : new_control rows words p c -> map (file_tuple nd) f ≡ₚ tuples ->
  exists c' e, compute_views env c f = Ok (c', e) /\
    ((verificationFailed c' = 0 /\ exists vs, cube_done (write_sizes env) (ctl_cube c) (ctl_cube c') rows (map (file_tuple nd) f) vs) \/
     (verificationFailed c' = 1 /\ exists i j, write_chunks env i j = false \/ write_views env j = false)).
Proof.
  intros [W1 W2 W3 W4 W5 W6 W7 W8 W9 W10 W11 W12 W13] Hp. unfold compute_views. rewrite W10.
  assert (Hf : length f = length es) by (apply Permutation_length in Hp; unfold tuples in Hp; by rewrite !length_map in Hp).
  destruct (ComputeGivenGroupbys_ok (write_chunks env) (write_views env) (write_sizes env) (pool_rows env) (ctl_cube c) rows [] f W1) as (q & e & E & Ho).
  - split; rewrite ?W3, ?W4, ?W5, ?W7; try done.
    + rewrite Hnumber. apply Hmem.
    + apply mag_sums.
    + rewrite Hnumber. apply Hmem.
  - done.
  - intros k n Hn. rewrite W4, W6. rewrite W3 in Hn. by apply Henv.
  - rewrite W3. change (fun t => tuple32 (swap8 t) (p_nd p)) with (file_tuple nd). rewrite Hp. apply tuples_distinct.
  - rewrite W3. change (fun t => tuple32 (swap8 t) (p_nd p)) with (file_tuple nd). rewrite Hp. apply tuples_nonzero.
  - rewrite Hf, Hnumber. apply Hmem.
  - rewrite W3 in Ho. change (fun t => tuple32 (swap8 t) (p_nd p)) with (file_tuple nd) in Ho. rewrite app_nil_r in E. rewrite E, bind_Ok. clear E.
    destruct Ho as [(-> & vs & Hdone)|(-> & Hw)]; cbn [Z.eqb negb ADC_OK ADC_WRITE_FAILED].
    2: { do 2 eexists. split; [reflexivity|]. right. cbn. split; [done | exact Hw]. }
    destruct (sizes_accepted (ctl_cube c) q _ vs W3 W4 ltac:(by rewrite W5, Hnumber) number_small Hdone Hp) as [Hok Hrange].
    assert (Ed : nTopDims (avp q) = nd) by (pose proof (cd_frame _ _ _ _ _ _ Hdone) as F; unfold frame in F; transitivity (nTopDims (avp (ctl_cube c))); [congruence | exact W3]).
    replace (nViewLimit c) with (2 ^ nTopDims (avp q) - 1) by (rewrite Ed; symmetry; exact W8). rewrite (ViewSizesVerification_ok q _ es).
    + rewrite Hok, bind_Ok. assert (Hne : numberOfMadeViews q <> 0).
      { rewrite (cd_made _ _ _ _ _ _ Hdone), length_map, Hf. destruct es; [done|]. cbn [length].
        assert (2 ^ nd <= 2 ^ 20) by (apply Z.pow_le_mono_r; unfold MAX_NUM_OF_DIMS in Hd; lia). cbn [length] in Hnum.
        rewrite unsigned_small by lia. lia. }
      destruct es; [done|]. destruct (Z.eqb_spec (numberOfMadeViews q) 0); [done|]. do 2 eexists. split; [reflexivity|].
      left. split; [done|]. by exists vs.
    + by rewrite Ed.
    + apply Henv.
    + rewrite Ed, (wb_views _ _ _ _ Henv). pose proof (em_counts _ _ _ _ _ Hmem). apply Z.div_le_lower_bound; lia.
    + eapply list.Forall_impl; [exact Hrange|]. cbn beta. intros x Hx. rewrite (wb_views _ _ _ _ Henv).
      pose proof (em_counts _ _ _ _ _ Hmem). assert (2 ^ nd <= p_memoryLimit p / 4) by (apply Z.div_le_lower_bound; lia). lia.
    + by rewrite W11.
    + rewrite Ed. done.
Qed.
(** When a write fails nothing is reported. *)
Definition no_report : report := Report (Verify 0 p) 0 0 0 0.

Lemma report_views c q f vs : new_control rows words p c -> map (file_tuple nd) f ≡ₚ tuples ->
  cube_done (write_sizes env) (ctl_cube c) q rows (map (file_tuple nd) f) vs ->
  exists x, (totchs q).[0] = Ok x /\
    reported (Report (Verify (i64 (u64 x)) p) (totalOfViewRows (avp q)) (totalViewFileSize q) (numberOfMadeViews q) (u64 x)).
Proof.
  intros [W1 W2 W3 W4 W5 _ _ _ _ _ _ _ _] Hp [D1 D2 _ _ D5 D6 D7 (bs & Hbs & D8)].
  assert (L : zlen (totchs q) = zlen (totchs (ctl_cube c))) by (unfold frame in D1; congruence).
  pose proof (co_totals _ W1) as Ht. rewrite W4 in Ht. fold nm in Ht. rewrite (aget_ok 0) by lia. exists (zth 0 (totchs q) 0). split; [done|].
  rewrite W3, W4 in D2. fold nd nm in D2. rewrite W4 in D8. fold nm in D8. rewrite (D8 0) by lia.
  destruct (views_are_references _ vs D2 Hp) as (sels & Hs & Ev & _ & _).
  assert (Hlen : length vs = length es) by (rewrite Ev, length_map, (Permutation_length Hs), length_map; done).
  assert (Hc : concat vs ≡ₚ concat views) by (rewrite Ev; by apply references_concat).
  split; cbn [totalViewTuples totalViewSizesInBytes totalNumberOfMadeViews rep_failed checksum].
  - rewrite D5, Hc. unfold views. by rewrite references_total.
  - by rewrite D6, Hc.
  - rewrite D7, length_map. apply Permutation_length in Hp. unfold tuples in Hp. rewrite !length_map in Hp. rewrite Hp.
    assert (2 ^ nd <= 2 ^ 20) by (apply Z.pow_le_mono_r; unfold MAX_NUM_OF_DIMS in Hd; lia). rewrite unsigned_small by lia. done.
  - done.
  - intros E1 Hn. destruct (views_checked _ vs bs D2 Hp Hbs E1 Hn) as [E H0].
    pose proof (checks_bound nm 0 vs bs) as Hb. rewrite Hc in Hb. unfold views at 1 in Hb. rewrite references_total in Hb.
    pose proof total_bound. pose proof (em_views _ _ _ _ _ Hmem). rewrite Hnumber in *.
    rewrite unsigned_small by (unfold measbound in *; nia). rewrite <- E. split; [done|]. unfold measbound in *. nia.
Qed.

Lemma DC_ok : exists r, DC env rows (Some words) p = Ok (ADC_OK, Some r) /\
  (reported r \/ (r = no_report /\ exists i j, write_chunks env i j = false \/ write_views env j = false)).
Proof.
  destruct (NewAdcViewCntl_ok env rows words p (zlen es) Henv Hmem Hd ltac:(fold nm; lia)) as (c & E & Hc).
  unfold DC. rewrite E, bind_Ok. clear E. destruct (partition_ok c Hc) as (f & -> & Hf). rewrite bind_Ok.
  destruct (compute_views_ok c f Hc Hf) as (c' & e & -> & [(Ev & vs & Hv)|(Ev & Hw)]); rewrite bind_Ok, Ev.
  - destruct (report_views c (ctl_cube c') f vs Hc Hf Hv) as (x & Ex & Hr). cbn [Z.eqb]. rewrite Ex, bind_Ok.
    eexists. split; [reflexivity|]. left. exact Hr.
  - eexists. split; [reflexivity|]. right. by split.
Qed.
End Run.
