(* ===== verification/DcMain.v ===== *)
(** * The whole benchmark

    [main] of [NPB/SERIAL/DC/dc.c] for the classes: what [GenerateADC] writes
    is what [DC] needs. *)

From Stdlib Require Import Permutation Ascii.
From stdpp Require Import strings gmap.
From S2P Require Import Prelude Rbt RbtTree Groups RbtGroup RbtWrite DataCube DataRuns DataMerge DataView JobPool JobBits JobParent CubeLoop JobSplit JobSort JobDeal ViewSizes AdcFactor AdcSizes AdcLcm AdcOrder AdcRows AdcText AdcPredict CubeCheck Dc DcSetup DcViews DcRun.

(** ** The rows *)

Section Rows.
Context (es : list Z) (nd nm n : Z).
Hypothesis Hes : es ∈ tables.
Let rows := rows_upto es nd nm n.

Lemma row_measure k i : 0 <= i < nm -> meas i (row es nd nm k) = measure es nd k i.
Proof.
  intros Hi. unfold meas, row. cbn [measures]. unfold zth. rewrite nth_lookup, list_lookup_fmap, lookup_seqZ_lt by lia. cbn.
  f_equal. lia.
Qed.

Lemma measure_range k i : 0 <= measure es nd k i < measbound.
Proof. apply Z.mod_pos_bound. done. Qed.

Lemma rows_mag i : 0 <= i < nm -> mag i rows <= zlen rows * measbound.
Proof.
  intros Hi. unfold rows, rows_upto. generalize (seqZ 0 n) as ks. induction ks as [|k ks IH]; [done|].
  cbn [map mag foldr length]. fold (mag i (map (row es nd nm) ks)). rewrite row_measure by done. pose proof (measure_range k i).
  rewrite Nat2Z.inj_succ, Z.mul_succ_l. lia.
Qed.

Lemma rows_nonneg : 1 <= nm -> measures_nonneg rows.
Proof.
  intros Hn. apply Forall_map, list.Forall_forall. intros k _. rewrite row_measure by lia. apply measure_range.
Qed.
End Rows.

(** ** A run *)

(** The parameters of [DC] that come of those of [GenerateADC] *)
Lemma view_parameters_ok par limit : 1 <= par_dim par <= 20 -> 0 <= mnum par <= 20 -> 0 <= tuplenum par < 2 ^ 31 ->
  exists m, view_parameters par limit = Ok (Pars (ndid par) (clss par) (par_dim par) (mnum par) (tuplenum par) m 1) /\
    m = if u32 limit =? 0 then u32 (tuplenum par * (50 + 5 * par_dim par)) else u32 limit.
Proof.
  intros Hd Hm Ht. unfold view_parameters. pose proof (unsigned_range 32 limit ltac:(lia)) as Hr.
  rewrite (unsigned_small 32 (par_dim par)), (unsigned_small 32 (mnum par)), (unsigned_small 32 (tuplenum par)) by lia.
  destruct (Z.leb_spec (u32 limit) 0), (Z.eqb_spec (u32 limit) 0); try lia.
  - rewrite chk_ok, bind_Ok, chk_ok, bind_Ok by nia. rewrite bind_Ok. by eexists.
  - rewrite bind_Ok. by eexists.
Qed.

(** The memory pool that [main] asks [DC] for *)
Definition memory_of (par : ADC_PAR) (limit : Z) : Z :=
  match view_parameters par limit with Ok p => p_memoryLimit p | Err _ => 0 end.

(** The views of a class: their number *)
Definition number_of_views (par : ADC_PAR) : Z := (2 ^ par_dim par - 2) / class_step (clss par) + 1.

Lemma number_of_views_bound par : 1 <= par_dim par -> 1 <= number_of_views par < 2 ^ par_dim par.
Proof.
  intros Hd. unfold number_of_views. pose proof (step_pos (clss par)).
  assert (2 <= 2 ^ par_dim par) by (change 2 with (2 ^ 1) at 1; apply Z.pow_le_mono_r; lia).
  pose proof (Z.div_pos (2 ^ par_dim par - 2) (class_step (clss par)) ltac:(lia) ltac:(lia)).
  pose proof (Z.div_le_upper_bound (2 ^ par_dim par - 2) (class_step (clss par)) (2 ^ par_dim par - 2) ltac:(lia) ltac:(nia)). lia.
Qed.

(** Distinct views have distinct attributes. *)
Lemma mask_inj nd a b : 0 <= nd -> 0 <= a < 2 ^ nd -> 0 <= b < 2 ^ nd ->
  mask_attrs a (Z.to_nat nd) = mask_attrs b (Z.to_nat nd) -> a = b.
Proof.
  intros Hn Ha Hb E. apply Z.bits_inj. intros i. destruct (decide (i < 0)); [by rewrite !Z.testbit_neg_r|].
  destruct (decide (nd <= i)); [by rewrite !(testbit_above nd) by lia|].
  pose proof (attrs_inj _ _ _ E (i + 1) ltac:(lia)) as H. cbn beta in H. by replace (i + 1 - 1) with i in H by lia.
Qed.

Lemma masks_distinct nd (vs : list DC_view) : 0 <= nd -> Forall (fun v => 0 < vidx v < 2 ^ nd) vs -> base.NoDup (map vidx vs) ->
  base.NoDup (map (fun v => mask_attrs (vidx v) (Z.to_nat nd)) vs).
Proof.
  intros Hn. induction 1 as [|v vs Hv Hvs IH]; cbn [map]; intros Hd; [constructor|].
  apply list.NoDup_cons in Hd as [Hv' Hd]. constructor; [|by apply IH]. intros Hin. apply Hv'.
  apply base.list_elem_of_In, in_map_iff in Hin as (w & E & Hw). apply base.list_elem_of_In, in_map_iff. exists w. split; [|done].
  apply base.list_elem_of_In in Hw. rewrite list.Forall_forall in Hvs. specialize (Hvs w Hw). apply (mask_inj nd); (done || lia).
Qed.

Section Main.
Context (env : environment) (par : ADC_PAR) (limit : Z) (es : list Z).
Hypothesis Hclass : class_exps (clss par) = Some es.
Hypothesis Hdim : 1 <= par_dim par <= zlen es.
Hypothesis Hnm : 1 <= mnum par <= MAX_NUM_OF_MEAS.
Hypothesis Hnum : 0 <= tuplenum par < 2 ^ 31.
Hypothesis Hendian : inverse_endian par <> 1.
Hypothesis Hcreate : create_rows env = true /\ create_sizes env = true.

Lemma listed_sizes rows vs : rows = rows_upto es (par_dim par) (mnum par) (tuplenum par) -> Forall (view_listed par es) vs ->
  Forall (fun e => selection_ok (par_dim par) (fst e)) (map (view_entry (par_dim par)) vs) /\
  Forall (fun e => snd e = zlen (reference (mnum par) rows (fst e))) (map (view_entry (par_dim par)) vs).
Proof.
  intros -> Hv. pose proof (class_table _ es Hclass) as Hes. pose proof (table_length es Hes). unfold MAX_NUM_OF_MEAS in Hnm.
  split; apply Forall_map; (eapply list.Forall_impl; [exact Hv|]); intros v [Hi Hs]; cbn [view_entry fst snd].
  - apply mask_selection; lia.
  - rewrite (reference_length (par_dim par)); [| unfold MAX_NUM_OF_DIMS; lia | lia | apply mask_selection; lia | apply rows_shaped; lia].
    rewrite Hs. symmetry. apply groups_predicted; (done || lia).
Qed.

Lemma run_ok : well_behaved env (par_dim par) (mnum par) (memory_of par limit) ->
  enough_memory (par_dim par) (mnum par) (tuplenum par) (memory_of par limit) (number_of_views par) ->
  exists rows words vs p r, GenerateADC true true par = Ok (Some (rows, Some words)) /\ sizes_text par es words vs /\
    p_clss p = clss par /\ p_nm p = mnum par /\ measures_nonneg rows /\
    run env par limit = Ok (Some r) /\
    (reported rows p (map (view_entry (par_dim par)) vs) r \/
     (r = no_report p /\ exists i j, write_chunks env i j = false \/ write_views env j = false)).
Proof.
  intros Hw He. pose proof (class_table _ es Hclass) as Hes. pose proof (table_length es Hes) as Hl. unfold MAX_NUM_OF_MEAS in Hnm.
  destruct (GenerateADC_ok par es Hclass Hdim ltac:(lia) Hnum Hendian) as (words & vs & E & Hs).
  destruct (view_parameters_ok par limit ltac:(lia) ltac:(lia) Hnum) as (m & Ep & _). unfold memory_of in Hw, He. rewrite Ep in Hw, He. cbn [p_memoryLimit] in Hw, He.
  set (p := Pars _ _ _ _ _ _ _) in Ep. set (rows := rows_upto _ _ _ _) in E.
  destruct (listed_sizes rows vs eq_refl (st_views _ _ _ _ Hs)) as [Hsel Hsz].
  assert (Hlen : zlen (map (view_entry (par_dim par)) vs) = number_of_views par) by (rewrite length_map; apply Hs).
  pose proof (number_of_views_bound par ltac:(lia)) as Hnv.
  destruct (DC_ok env rows words p (map (view_entry (par_dim par)) vs)) as (r & Er & Hr); try done.
  - cbn. rewrite Hlen. exact He.
  - cbn. unfold MAX_NUM_OF_DIMS. lia.
  - apply rows_shaped; lia.
  - apply rows_number; lia.
  - cbn. intros i Hi. apply rows_mag. lia.
  - apply Hs.
  - rewrite map_map. cbn [view_entry fst]. apply masks_distinct; [cbn; lia | | apply Hs].
    eapply list.Forall_impl; [apply Hs|]. intros v [Hv _]. exact Hv.
  - intros E0. rewrite E0 in Hlen. cbn in Hlen. lia.
  - cbn. lia.
  - exists rows, words, vs, p, r. split; [exact E|]. split; [exact Hs|]. split; [done|]. split; [done|].
    split; [apply rows_nonneg; lia|]. split; [|exact Hr]. unfold run. destruct Hcreate as [-> ->]. rewrite E, bind_Ok, Ep, bind_Ok, Er. done.
Qed.
End Main.

(** ** The classes *)

(** What [main] gets: no argument, or a word that starts with a digit *)
Definition argument (arg : option string) (limit : Z) : Prop :=
  match arg with
  | None => limit = 0
  | Some EmptyString => False
  | Some (String d s) => isdigit d = true /\ atoi (String d s) = Ok limit
  end.

Lemma main_run env c arg limit par : default_parameters c = Some par -> argument arg limit -> main env c arg = run env par limit.
Proof.
  intros Hp. unfold main, argument. rewrite Hp. destruct arg as [[|d s]|]; [done | | by intros ->]. intros [-> ->]. done.
Qed.

Lemma class_cases c par : default_parameters c = Some par ->
  clss par = c /\ mnum par = 1 /\ inverse_endian par = 0 /\
  ((c = "S"%char /\ par_dim par = 5 /\ tuplenum par = 1000) \/ (c = "W"%char /\ par_dim par = 10 /\ tuplenum par = 100000) \/
   (c = "A"%char /\ par_dim par = 15 /\ tuplenum par = 1000000) \/ (c = "B"%char /\ par_dim par = 20 /\ tuplenum par = 10000000)).
Proof.
  unfold default_parameters, dc_info.
  destruct (decide (c = "S"%char)) as [->|]; [intros [= <-]; cbn; tauto|].
  destruct (decide (c = "W"%char)) as [->|]; [intros [= <-]; cbn; tauto|].
  destruct (decide (c = "A"%char)) as [->|]; [intros [= <-]; cbn; tauto|].
  destruct (decide (c = "B"%char)) as [->|]; [intros [= <-]; cbn; tauto | done].
Qed.

(** Parameters for which the default memory is enough: there are no fewer rows
    than combinations of attributes *)
Record moderate (par : ADC_PAR) : Prop := {
  md_dim : 1 <= par_dim par <= MAX_NUM_OF_DIMS;
  md_nm : 1 <= mnum par <= MAX_NUM_OF_MEAS;
  md_rows : 1000 <= tuplenum par <= 10000000;
  md_views : 2 ^ par_dim par <= tuplenum par
}.

Lemma class_moderate c par : default_parameters c = Some par -> moderate par.
Proof.
  intros H. destruct (class_cases c par H) as (_ & Em & _ & Hc). unfold MAX_NUM_OF_DIMS, MAX_NUM_OF_MEAS.
  destruct Hc as [(_ & Ed & Et)|[(_ & Ed & Et)|[(_ & Ed & Et)|(_ & Ed & Et)]]]; split; rewrite ?Ed, ?Et, ?Em;
    unfold MAX_NUM_OF_DIMS, MAX_NUM_OF_MEAS; lia.
Qed.

Lemma moderate_enough par : moderate par ->
  enough_memory (par_dim par) (mnum par) (tuplenum par) (tuplenum par * (50 + 5 * par_dim par)) (number_of_views par).
Proof.
  intros [Hd Hm Hr Hv]. pose proof (number_of_views_bound par ltac:(lia)) as Hn. set (vs := number_of_views par) in *. clearbody vs.
  unfold MAX_NUM_OF_DIMS, MAX_NUM_OF_MEAS in *. destruct (node_size_ok (par_dim par) (mnum par)) as [Hns _]; [lia.. |].
  set (d := par_dim par) in *. set (t := tuplenum par) in *. set (m := mnum par) in *.
  assert (Hrec : GetRecSize d m = 4 * d + 8 * m) by (apply GetRecSize_ok; unfold MAX_NUM_OF_DIMS, MAX_NUM_OF_MEAS; lia).
  assert (Hlow : t * 55 <= t * (50 + 5 * d)) by nia.
  unfold measbound. split; rewrite ?Hrec; unfold MAX_NUM_OF_CHUNKS, measbound; try nia.
  assert (t * 55 / 144 <= t * (50 + 5 * d) / node_size d m).
  { transitivity (t * (50 + 5 * d) / 144); [apply Z.div_le_mono; lia | apply Z.div_le_compat_l; lia]. }
  assert (t * 55 < 144 * (t * 55 / 144 + 1)) by (apply Z.mul_succ_div_gt; lia). lia.
Qed.

Lemma default_memory par : moderate par -> exists p, view_parameters par 0 = Ok p /\
  p_memoryLimit p = tuplenum par * (50 + 5 * par_dim par) /\
  p_nd p = par_dim par /\ p_nm p = mnum par /\ p_nInputRecs p = tuplenum par.
Proof.
  intros [Hd Hm Hr Hv]. unfold MAX_NUM_OF_DIMS, MAX_NUM_OF_MEAS in *.
  destruct (view_parameters_ok par 0) as (m & E & Em); [lia.. |]. eexists. split; [exact E|].
  cbn [p_memoryLimit p_nd p_nm p_nInputRecs]. rewrite Em. change (u32 0 =? 0) with true. cbv iota.
  rewrite unsigned_small by nia. done.
Qed.

(** C39: without a memory argument [main] gives [DC], for every number of
    attributes, measures and rows in the range that the classes span, the
    memory [tuplenum * (50 + 5 * dim)], of which the computation neither
    overflows nor wraps around, and it is enough: a node of the tree, a record of every
    chunk, the tuples of the views and a counter for every combination of
    attributes fit in the pool, the sums and checksums in 64 bits, and the
    rows in the chunks.  The parameters of every class are in the range. *)
Theorem default_memory_enough :
  (forall c par, default_parameters c = Some par -> moderate par) /\
  forall par, moderate par -> exists p, view_parameters par 0 = Ok p /\
    p_memoryLimit p = tuplenum par * (50 + 5 * par_dim par) /\
    p_nd p = par_dim par /\ p_nm p = mnum par /\ p_nInputRecs p = tuplenum par /\
    enough_memory (p_nd p) (p_nm p) (p_nInputRecs p) (p_memoryLimit p) (number_of_views par).
Proof.
  split; [exact class_moderate|]. intros par Hp. destruct (default_memory par Hp) as (p & E & E1 & E2 & E3 & E4).
  exists p. split; [exact E|]. rewrite E1, E2, E3, E4. repeat split; try done; by apply moderate_enough.
Qed.

Lemma default_memory_enough_witness : default_parameters "B" = Some (Par 0 20 1 10000000 0 "B") /\
  exists p, view_parameters (Par 0 20 1 10000000 0 "B") 0 = Ok p /\ p_memoryLimit p = 1500000000.
Proof.
  split; [reflexivity|]. destruct default_memory_enough as [H1 H2].
  destruct (H2 (Par 0 20 1 10000000 0 "B") (H1 "B"%char (Par 0 20 1 10000000 0 "B") eq_refl)) as (p & E & E1 & _).
  exists p. split; [exact E | exact E1].
Defined.

(** What a run reports of the views [vs] of the rows *)
Record report_of (par : ADC_PAR) (p : ADC_VIEW_PARS) (rows : list data) (vs : list DC_view) (r : report) : Prop := {
  ro_made : totalNumberOfMadeViews r = number_of_views par;
  ro_tuples : totalViewTuples r = u32 (foldr Z.add 0 (map vsize vs));
  ro_bytes : totalViewSizesInBytes r = bytes (concat (map (fun v => reference 1 rows (mask_attrs (vidx v) (Z.to_nat (par_dim par)))) vs));
  ro_checksum : checksum r = views_checksum (map (fun v => reference 1 rows (mask_attrs (vidx v) (Z.to_nat (par_dim par)))) vs);
  ro_verify : rep_failed r = Verify (checksum r) p
}.

Lemma main_reports env c arg limit par : default_parameters c = Some par -> argument arg limit ->
  create_rows env = true /\ create_sizes env = true ->
  well_behaved env (par_dim par) (mnum par) (memory_of par limit) ->
  enough_memory (par_dim par) (mnum par) (tuplenum par) (memory_of par limit) (number_of_views par) ->
  exists es rows words vs p r, class_exps c = Some es /\ GenerateADC true true par = Ok (Some (rows, Some words)) /\
    sizes_text par es words vs /\ p_clss p = c /\ main env c arg = Ok (Some r) /\
    (report_of par p rows vs r \/ (r = no_report p /\ exists i j, write_chunks env i j = false \/ write_views env j = false)).
Proof.
  intros Hp Ha Hcreate Hw He. destruct (class_cases c par Hp) as (Ec & Em & Ei & Hc).
  assert (Hes : exists es, class_exps (clss par) = Some es /\ 1 <= par_dim par <= zlen es /\ 0 <= tuplenum par < 2 ^ 31).
  { rewrite Ec. destruct Hc as [(-> & -> & ->)|[(-> & -> & ->)|[(-> & -> & ->)|(-> & -> & ->)]]]; (eexists; split; [reflexivity|]);
      vm_compute; split; split; (discriminate || reflexivity). }
  destruct Hes as (es & Hes & Hd & Ht).
  destruct (run_ok env par limit es Hes Hd ltac:(rewrite Em; unfold MAX_NUM_OF_MEAS; lia) Ht ltac:(rewrite Ei; done) Hcreate Hw He)
    as (rows & words & vs & p & r & Eg & Hs & Epc & Epm & Hn & Er & Hr).
  exists es, rows, words, vs, p, r. rewrite Ec in Hes, Epc. split; [done|]. split; [done|]. split; [done|]. split; [done|].
  split; [by rewrite (main_run env c arg limit par)|]. destruct Hr as [[R1 R2 R3 R4 R5]|Hr]; [left | by right].
  rewrite Epm, Em in *. destruct (R5 eq_refl Hn) as [R6 R7]. rewrite map_map in *. split.
  - rewrite R3, length_map. apply Hs.
  - exact R1.
  - exact R2.
  - exact R6.
  - rewrite R4, signed_small by lia. done.
Qed.

(** C12: [main] with the parameters of a class, and with enough memory: the
    rows and the text of sizes are written and read, every view that the text
    lists is computed, each of their sizes is as predicted, and the report is
    about them; its checksum does not depend on the memory, on the parents
    from which the views were computed, or on their order - or a write to the
    file of chunks or of views failed, and nothing is reported. *)
Theorem benchmark_reports env c arg limit par : default_parameters c = Some par -> argument arg limit ->
  create_rows env = true /\ create_sizes env = true ->
  well_behaved env (par_dim par) (mnum par) (memory_of par limit) ->
  enough_memory (par_dim par) (mnum par) (tuplenum par) (memory_of par limit) (number_of_views par) ->
  exists es rows words vs p r, class_exps c = Some es /\ GenerateADC true true par = Ok (Some (rows, Some words)) /\
    sizes_text par es words vs /\ p_clss p = c /\ main env c arg = Ok (Some r) /\
    (report_of par p rows vs r \/ (r = no_report p /\ exists i j, write_chunks env i j = false \/ write_views env j = false)).
Proof. apply main_reports. Qed.

(** Without an argument the memory is enough. *)
Corollary default_benchmark_reports env c par : default_parameters c = Some par ->
  create_rows env = true /\ create_sizes env = true ->
  well_behaved env (par_dim par) (mnum par) (memory_of par 0) ->
  exists es rows words vs p r, class_exps c = Some es /\ GenerateADC true true par = Ok (Some (rows, Some words)) /\
    sizes_text par es words vs /\ p_clss p = c /\ main env c None = Ok (Some r) /\
    (report_of par p rows vs r \/ (r = no_report p /\ exists i j, write_chunks env i j = false \/ write_views env j = false)).
Proof.
  intros Hp Hc Hw. apply (main_reports env c None 0 par); try done.
  pose proof (class_moderate c par Hp) as Hm. destruct (default_memory par Hm) as (p & E & E1 & _).
  unfold memory_of. rewrite E, E1. by apply moderate_enough.
Qed.

(** *** An environment *)

Definition blank_tree : RBTree := Tree (TreeNode NULL NULL BLACK (Data [] [])) NULL 0 0 0 0 0 0 0 0 0 0 [] [] ∅.
Definition blank_cube : cube :=
  Cube (Cntl (View 0 (replicate 4 0) (replicate 4 0) []) 0 0 0 0 0 0 0 0 0 0 0 0 blank_tree (replicate 20 0) 0 [] [])
    [] [] 0 0 0 0 (replicate 4 0) [] 0 0 0.
Definition array {A} (x : A) (n : Z) : list A := replicate (Z.to_nat n) x.

(** Nothing fails, and memory is zero. *)
Definition ex_env (m : Z) : environment :=
  Env true true Some (fun t => t) (Some blank_cube) (Some (array (Chunk 0 0 0 0) MAX_NUM_OF_CHUNKS)) (fun _ => Some ∅)
    (Some blank_tree) (Some (replicate 64 NULL)) (Some (replicate 64 0)) (fun n => Some (array no_job n)) (fun n => Some (array no_layer n))
    (fun n => if 0 <=? n then Some (array no_item n) else None) (array 0 64) (array 0 MAX_NUMBER_OF_TASKS) (array 0 MAX_NUMBER_OF_TASKS)
    (array 0 (m / 8)) (array 0 (m / 4)) (fun _ n => array (Data [] []) (m / GetRecSize n 1)) (fun _ => true) (fun _ _ => true) (fun _ => true) (fun _ => true).

Lemma array_length {A} (x : A) n : 0 <= n -> zlen (array x n) = n.
Proof. intros Hn. unfold array. rewrite length_replicate. lia. Qed.

Lemma ex_env_ok nd m : 1 <= nd <= MAX_NUM_OF_DIMS -> 0 <= m -> well_behaved (ex_env m) nd 1 m.
Proof.
  intros Hn Hm. split; cbn [ex_env open_rows open_sizes block_memory chunk_memory pool_memory tree_block node_stack drct_stack job_memory
    layer_memory item_memory stack_sel stack_counts stack_sizes pool_tuples pool_counts pool_rows write_groupby]; try done; try (by eexists).
  - intros n Hn'. eexists. split; [reflexivity|]. by apply array_length.
  - intros n Hn'. eexists. split; [reflexivity|]. by apply array_length.
  - intros n Hn'. destruct (Z.leb_spec 0 n); [by eexists | lia].
  - intros n l. destruct (Z.leb_spec 0 n); [|done]. intros [= <-]. by apply array_length.
  - apply array_length, Z.div_pos; lia.
  - apply array_length, Z.div_pos; lia.
  - intros _ n Hn'. apply array_length, Z.div_pos; [done|]. apply record_size_pos; unfold MAX_NUM_OF_DIMS, MAX_NUM_OF_MEAS in *; lia.
Qed.

Lemma benchmark_reports_witness : let par := Par 0 10 1 100000 0 "W"%char in
  default_parameters "W" = Some par /\
  exists es rows words vs p r, class_exps "W" = Some es /\ GenerateADC true true par = Ok (Some (rows, Some words)) /\
    sizes_text par es words vs /\ p_clss p = "W"%char /\ main (ex_env 10000000) "W" None = Ok (Some r) /\
    (report_of par p rows vs r \/ (r = no_report p /\ exists i j, write_chunks (ex_env 10000000) i j = false \/ write_views (ex_env 10000000) j = false)).
Proof.
  split; [reflexivity|]. apply (benchmark_reports (ex_env 10000000) "W" None 0 (Par 0 10 1 100000 0 "W"%char)); [reflexivity | reflexivity | by split | |].
  - apply (ex_env_ok 10 10000000); [unfold MAX_NUM_OF_DIMS; lia | lia].
  - split; try reflexivity; apply Z.leb_le; reflexivity.
Defined.
