(* ===== verification/DcClassS.v ===== *)
(** * Class S

    The smallest class of the benchmark: the checksum of its 31 views is the
    one that [Verify] of [NPB/SERIAL/DC/dc.c] expects. *)

From Stdlib Require Import Permutation Ascii.
From stdpp Require Import strings gmap.
From S2P Require Import Prelude Rbt RbtTree Groups DataCube DataRuns JobBits CubeLoop AdcFactor AdcSizes AdcLcm AdcRows AdcText AdcPredict Dc DcSetup DcViews DcRun DcMain.

Definition parS : ADC_PAR := Par 0 5 1 1000 0 "S".

(** The rows, as [GenerateADC] computes them *)
Definition rows_of (r : res (option (list data * list Z * list Z * generator))) : list data :=
  match r with Ok (Some (rows, _, _, _)) => rows | _ => [] end.
Definition rowsS : list data := rows_of (for_range 0 1000 (row_turn parS) (Some ([], replicate 5 0, replicate 1 0, new_generator))).

Definition viewsS : list (list data) := map (fun i => reference 1 rowsS (mask_attrs i 5)) (seqZ 1 31).

Definition totals_ok (vs : list (list data)) : bool :=
  (views_checksum vs =? checksumS) && (zlen (concat vs) =? 29232) && (bytes (concat vs) =? 546784).

Lemma viewsS_totals : totals_ok viewsS = true.
Proof. vm_compute. reflexivity. Qed.

Lemma rowsS_ok : rowsS = rows_upto adcexpS 5 1 1000.
Proof.
  destruct (rows_loop_ok adcexpS 5 1 (class_table "S" adcexpS eq_refl) ltac:(lia) ltac:(cbn; lia) ltac:(lia) parS)
    as (attr & mes & g & E); [reflexivity | reflexivity | reflexivity | discriminate | cbn; lia |].
  change (i32 (tuplenum parS)) with 1000 in E. change (Z.to_nat 5) with 5%nat in E. change (Z.to_nat 1) with 1%nat in E.
  change (tuplenum parS) with 1000 in E. unfold rowsS. rewrite E. reflexivity.
Qed.

(** The text lists every combination of attributes. *)
Lemma masksS words vs : sizes_text parS adcexpS words vs -> map vidx vs ≡ₚ seqZ 1 31.
Proof.
  intros [_ Hv Hd Hn]. apply submseteq_length_Permutation.
  - apply NoDup_submseteq; [done|]. intros i Hi. apply base.list_elem_of_In, in_map_iff in Hi as (v & <- & Hin).
    rewrite list.Forall_forall in Hv. apply base.list_elem_of_In in Hin. destruct (Hv v Hin) as [Hr _].
    change (2 ^ par_dim parS) with 32 in Hr. apply elem_of_seqZ. lia.
  - rewrite length_map, length_seqZ. change ((2 ^ par_dim parS - 2) / class_step (clss parS) + 1) with 31 in Hn. lia.
Qed.

Lemma viewsS_perm vs : map vidx vs ≡ₚ seqZ 1 31 ->
  map (fun v => reference 1 rowsS (mask_attrs (vidx v) (Z.to_nat (par_dim parS)))) vs ≡ₚ viewsS.
Proof. intros Hm. unfold viewsS. rewrite <- Hm, map_map. apply Permutation_refl. Qed.

Lemma totals_spec vs : totals_ok vs = true -> views_checksum vs = checksumS /\ zlen (concat vs) = 29232 /\ bytes (concat vs) = 546784.
Proof. unfold totals_ok. rewrite !andb_true_iff, !Z.eqb_eq. tauto. Qed.

Lemma sum_sizes rows vs : Forall (fun e => snd e = zlen (reference (mnum parS) rows (fst e))) (map (view_entry (par_dim parS)) vs) ->
  foldr Z.add 0 (map vsize vs) = zlen (concat (map (fun v => reference 1 rows (mask_attrs (vidx v) (Z.to_nat (par_dim parS)))) vs)).
Proof.
  intros H. rewrite zlen_concat, map_map. f_equal. rewrite Forall_map in H.
  induction H as [|v vs Hv _ IH]; [done|]. cbn [map]. rewrite IH. f_equal. exact Hv.
Qed.

Lemma rows_inj (rows rows' : list data) (words words' : list string) :
  Ok (Some (rows, Some words)) = Ok (Some (rows', Some words')) -> rows = rows'.
Proof. congruence. Qed.

#[local] Opaque rowsS rows_upto viewsS reference GenerateADC.

(** C9: [main] of class S, with any memory that is enough, reports 31 views
    with 29232 tuples in 546784 bytes and exactly the checksum that [Verify]
    expects, so that the run is verified; unless a write failed, in which case
    it is not. *)
Theorem class_S_verified env arg limit : argument arg limit -> create_rows env = true /\ create_sizes env = true ->
  well_behaved env 5 1 (memory_of parS limit) -> enough_memory 5 1 1000 (memory_of parS limit) 31 ->
  exists r, main env "S" arg = Ok (Some r) /\
    ((verified r = 1 /\ r = Report 0 29232 546784 31 464620213) \/
     (verified r = 0 /\ exists i j, write_chunks env i j = false \/ write_views env j = false)).
Proof.
  intros Ha Hc Hw He.
  destruct (main_reports env "S" arg limit parS eq_refl Ha Hc Hw He) as (es & rows & words & vs & p & r & Ees & Eg & Hs & Ep & Er & Hr).
  exists r. split; [exact Er|]. clear Er. injection Ees as <-.
  destruct Hr as [[R1 R2 R3 R4 R5]|(-> & Hf)].
  2: { right. split; [|exact Hf]. unfold no_report, verified, Verify. cbn [rep_failed]. rewrite Ep. reflexivity. }
  left. destruct (GenerateADC_ok parS adcexpS eq_refl ltac:(cbn; lia) ltac:(cbn; lia) ltac:(cbn; lia) ltac:(discriminate))
    as (words' & vs' & Eg' & Hs').
  assert (Erows : rows = rowsS).
  { etransitivity; [exact (rows_inj _ _ _ _ (eq_trans (eq_sym Eg) Eg')) | symmetry; exact rowsS_ok]. }
  clear Eg Eg' Hs' words' vs'. subst rows.
  pose proof (masksS words vs Hs) as Hm. pose proof (st_views _ _ _ _ Hs) as Hv.
  assert (Hperm : map (fun v => reference 1 rowsS (mask_attrs (vidx v) (Z.to_nat (par_dim parS)))) vs ≡ₚ viewsS).
  { by apply viewsS_perm. }
  destruct (totals_spec _ viewsS_totals) as (T1 & T2 & T3).
  rewrite Hperm, T1 in R4. rewrite Hperm, T3 in R3.
  destruct (listed_sizes parS adcexpS eq_refl ltac:(cbn; lia) ltac:(cbn; unfold MAX_NUM_OF_MEAS; lia) ltac:(cbn; lia) rowsS vs rowsS_ok Hv) as [_ Hsz].
  assert (Hsum : foldr Z.add 0 (map vsize vs) = 29232) by (rewrite (sum_sizes rowsS vs Hsz), Hperm; exact T2).
  rewrite Hsum in R2. rewrite R4 in R5. destruct r as [f t b n k]. cbn [rep_failed totalViewTuples totalViewSizesInBytes totalNumberOfMadeViews checksum] in *.
  assert (Ef : f = 0) by (rewrite R5; unfold Verify; rewrite Ep; reflexivity).
  rewrite Ef, R1, R2, R3, R4. split; reflexivity.
Qed.

Lemma class_S_verified_witness : exists r, main (ex_env 75000) "S" None = Ok (Some r) /\
    ((verified r = 1 /\ r = Report 0 29232 546784 31 464620213) \/
     (verified r = 0 /\ exists i j, write_chunks (ex_env 75000) i j = false \/ write_views (ex_env 75000) j = false)).
Proof.
  apply (class_S_verified (ex_env 75000) None 0); [reflexivity | by split | |].
  - apply (ex_env_ok 5 75000); [unfold MAX_NUM_OF_DIMS; lia | lia].
  - split; try reflexivity; apply Z.leb_le; reflexivity.
Defined.
