(* ===== verification/Uts.v ===== *)
(** * The trees of the Unbalanced Tree Search benchmark

    [uts.c]: a node is a small record, and its children are computed from it
    and from the state of a splittable random number generator.  The class
    [Rng] is what [uts.c] uses of the generator; [SearchTree] is what a search
    (file StealStack) uses of [uts.c].  [tree_stats] is the reference: the
    size, the number of leaves and the largest height of the tree below a
    node, by recursion on the tree. *)

From S2P Require Import Prelude Double.

(** ** Nodes and the two interfaces *)

(** [struct node_t] without the [id], which only the searches of other
    programs use, and without the fields of [UTS_METRIC]. *)
Record node (St : Type) := Node {
  type : Z;          (* distribution governing number of children *)
  height : Z;        (* depth of this node in the tree *)
  numChildren : Z;   (* number of children, -1 => not yet determined *)
  state : St         (* RNG state associated with this node *)
}.
Arguments Node {St} _ _ _ _.
Arguments type {St} _.
Arguments height {St} _.
Arguments numChildren {St} _.
Arguments state {St} _.

(** [rng.h]: one of the generators. *)
Class Rng (St : Type) := {
  rng_init : Z -> St;
  rng_spawn : St -> Z -> St;
  rng_rand : St -> Z
}.

(** What a generator promises. *)
Class RngLaws (St : Type) `{Rng St} := {
  rng_rand_range s : 0 <= rng_rand s < 2 ^ 31
}.

Class SearchTree (St : Type) := {
  spawn : St -> Z -> St;
  children_count : node St -> res Z;
  children_type : node St -> res Z
}.

(** ** Sizes of trees *)

Record stats := Stats { nodes : N; leaves : N; depth : N }.

Definition stats_add (s t : stats) : stats :=
  Stats (nodes s + nodes t) (leaves s + leaves t) (N.max (depth s) (depth t)).

#[export] Instance stats_monoid : Monoid stats.
Proof.
  refine {| munit := Stats 0 0 0; madd := stats_add |}; unfold stats_add.
  - intros [] []; simpl; f_equal; lia.
  - intros [] [] []; simpl; f_equal; lia.
  - intros []; simpl; f_equal; lia.
Defined.

#[export] Instance stats_eq_dec : EqDecision stats.
Proof. solve_decision. Defined.

Definition one_leaf : stats := Stats 0 1 0.

Section Reference.
Context `{SearchTree St}.
Implicit Types (p : node St).

Definition visit p : stats := Stats 1 0 (Z.to_N (height p)).

(** Child [i] of [p], of type [t]. *)
Definition child_of p (t i : Z) : node St := Node t (height p + 1) (-1) (spawn (state p) i).

(** What the descendants of [p] contribute, a leaf counted for itself. *)
Definition below (rec : node St -> res stats) p : res stats :=
  n ← children_count p;
  t ← children_type p;
  c_assert (0 <=? n);;
  if n =? 0 then Ok one_leaf
  else for_range 0 n (fun i acc => s ← rec (child_of p t i); Ok (acc ⊕ s)) munit.

(** Fuel: one more than the height of the tree. *)
Fixpoint tree_stats (fuel : nat) p : res stats :=
  match fuel with
  | O => Err OutOfFuel
  | S fuel => r ← below (tree_stats fuel) p; Ok (visit p ⊕ r)
  end.

(** More fuel does not change a result. *)
Lemma below_mono (rec rec' : node St -> res stats) p r :
  (forall q s, rec q = Ok s -> rec' q = Ok s) -> below rec p = Ok r -> below rec' p = Ok r.
Proof.
  intros Hrec. unfold below. intros E.
  destruct (children_count p) as [n|]; [|done]. cbn [mbind res_bind] in *.
  destruct (children_type p) as [t|]; [|done]. cbn [mbind res_bind] in *.
  destruct (c_assert (0 <=? n)) as [[]|]; [|done]. cbn [mbind res_bind] in *.
  destruct (n =? 0); [done|].
  revert E. generalize (munit : stats). generalize 0. intros lo.
  revert lo n. apply (range_ind (fun lo n => forall a,
    for_range lo n (fun i acc => s ← rec (child_of p t i); Ok (acc ⊕ s)) a = Ok r ->
    for_range lo n (fun i acc => s ← rec' (child_of p t i); Ok (acc ⊕ s)) a = Ok r)).
  - intros lo hi Hle a. by rewrite !for_range_empty.
  - intros lo hi Hlt IH a. rewrite !(for_range_step lo hi) by done. intros E.
    apply bind_Ok_inv in E as (a' & E1 & E2). apply bind_Ok_inv in E1 as (s & E1 & E3).
    injection E3 as <-. rewrite (Hrec _ _ E1). cbn [mbind res_bind]. by apply IH.
Qed.

Lemma tree_stats_mono fuel fuel' p s :
  (fuel <= fuel')%nat -> tree_stats fuel p = Ok s -> tree_stats fuel' p = Ok s.
Proof.
  revert fuel' p s. induction fuel as [|fuel IH]; intros fuel' p s Hle E; [done|].
  destruct fuel' as [|fuel']; [lia|]. cbn [tree_stats] in *.
  apply bind_Ok_inv in E as (r & Er & E).
  rewrite (below_mono (tree_stats fuel) (tree_stats fuel') p r); [done | | done].
  intros q t. apply IH. lia.
Qed.

(** The nodes whose tree is finite, and what their descendants contribute. *)
Definition grows (fuel : nat) p : Prop := exists r, below (tree_stats fuel) p = Ok r.
Definition weight (fuel : nat) p : stats :=
  match below (tree_stats fuel) p with Ok r => r | Err _ => munit end.

Lemma tree_stats_grows fuel p s : tree_stats fuel p = Ok s ->
  grows fuel p /\ s = visit p ⊕ weight fuel p.
Proof.
  destruct fuel as [|fuel]; [done|]. cbn [tree_stats]. intros E.
  apply bind_Ok_inv in E as (r & Er & E). injection E as <-.
  apply (below_mono _ (tree_stats (S fuel))) in Er.
  - unfold grows, weight. rewrite Er. eauto.
  - intros q t. apply tree_stats_mono. lia.
Qed.

Lemma grows_children fuel p : grows fuel p ->
  exists n t, children_count p = Ok n /\ children_type p = Ok t /\ 0 <= n /\
    (forall i, 0 <= i < n -> grows fuel (child_of p t i)) /\
    weight fuel p = if n =? 0 then one_leaf
      else msum 0 n (fun i => visit (child_of p t i) ⊕ weight fuel (child_of p t i)).
Proof.
  intros [r Er]. unfold weight at 1. rewrite Er. unfold below in Er.
  destruct (children_count p) as [n|]; [|done]. cbn [mbind res_bind] in Er.
  destruct (children_type p) as [t|]; [|done]. cbn [mbind res_bind] in Er.
  destruct (Z.leb_spec 0 n); [|done]. cbn [mbind res_bind c_assert] in Er.
  exists n, t. split; [done|]. split; [done|]. split; [done|].
  destruct (Z.eqb_spec n 0) as [->|].
  { split; [lia|]. by injection Er. }
  assert (Hc : forall i, 0 <= i < n -> exists s, tree_stats fuel (child_of p t i) = Ok s).
  { apply (for_range_sum_inv 0 n _ _ _ Er). }
  split.
  - intros i Hi. destruct (Hc i Hi) as [s Es]. by apply tree_stats_grows in Es as [? _].
  - rewrite (for_range_sum 0 n _ (fun i => visit (child_of p t i) ⊕ weight fuel (child_of p t i))) in Er.
    + rewrite madd_unit in Er. by injection Er.
    + intros i Hi. destruct (Hc i Hi) as [s Es]. rewrite Es.
      by apply tree_stats_grows in Es as [_ ->].
Qed.
End Reference.

(** ** [uts.c] *)

Definition MAXNUMCHILDREN := 100.

(* tree_t *)
Definition BIN := 0.
Definition GEO := 1.
Definition HYBRID := 2.
Definition BALANCED := 3.

(* geoshape_t *)
Definition LINEAR := 0.
Definition EXPDEC := 1.
Definition CYCLIC := 2.
Definition FIXED := 3.

(** The parameters of the command line. *)
Record params := Params {
  tree_type : Z;              (* type *)
  b_0 : spec_float;
  rootId : Z;
  nonLeafBF : Z;
  nonLeafProb : spec_float;
  gen_mx : Z;
  shape_fn : Z;
  shiftDepth : spec_float
}.

(** The default values. *)
Definition default_params : params :=
  Params GEO (double 4) 0 4 (ddiv (double 15) (double 64)) 6 LINEAR (ddiv (double 1) (double 2)).

(** The functions of the mathematical library whose results it does not fix
    to the last bit. *)
Record libm := Libm {
  pow : spec_float -> spec_float -> spec_float;
  log : spec_float -> spec_float;
  sin : spec_float -> spec_float
}.

(** Interpret 32 bit positive integer as value on [0,1) *)
Definition rng_toProb (n : Z) : spec_float :=
  if n <? 0 then double 0 else ddiv (double n) (double 2147483648).

Section Program.
Context `{Rng St} (P : params) (M : libm).
Implicit Types (parent : node St).

Definition uts_initRoot (type : Z) : node St := Node type 0 (-1) (rng_init (rootId P)).

(** Distribution is identical everywhere below root. *)
Definition uts_numChildren_bin parent : Z :=
  let v := rng_rand (state parent) in
  let d := rng_toProb v in
  if dlt d (nonLeafProb P) then nonLeafBF P else 0.

(** The shape function: the expected number of children at a depth. *)
Definition target_branching (depth : Z) : res spec_float :=
  if 0 <? depth then
    if shape_fn P =? EXPDEC then
      Ok (dmul (b_0 P) (pow M (double depth)
            (ddiv (SFopp (log M (b_0 P))) (log M (double (gen_mx P))))))
    else if shape_fn P =? CYCLIC then
      m ← chk 32 (5 * gen_mx P);
      if m <? depth then Ok (double 0)
      else
        let pi := S754_finite false 7074237752028440 (-51) in
        Ok (pow M (b_0 P)
             (sin M (ddiv (dmul (dmul (double 2) pi) (double depth)) (double (gen_mx P)))))
    else if shape_fn P =? FIXED then
      Ok (if depth <? gen_mx P then b_0 P else double 0)
    else
      Ok (dmul (b_0 P) (dsub (double 1) (ddiv (double depth) (double (gen_mx P)))))
  else Ok (b_0 P).

(** From the inverse of the geometric cumulative density function. *)
Definition uts_numChildren_geo parent : res Z :=
  b_i ← target_branching (height parent);
  let p := ddiv (double 1) (dadd (double 1) b_i) in
  let h := rng_rand (state parent) in
  let u := rng_toProb h in
  to_int (floor_Z (ddiv (log M (dsub (double 1) u)) (log M (dsub (double 1) p)))).

(** [parent->height < shiftDepth * gen_mx] *)
Definition above_shift parent : bool :=
  dlt (double (height parent)) (dmul (shiftDepth P) (double (gen_mx P))).

(** The number of children before the limits. *)
Definition raw_numChildren parent : res Z :=
  let type := tree_type P in
  if type =? BIN then
    if height parent =? 0 then to_int (floor_Z (b_0 P)) else Ok (uts_numChildren_bin parent)
  else if type =? GEO then uts_numChildren_geo parent
  else if type =? HYBRID then
    if above_shift parent then uts_numChildren_geo parent else Ok (uts_numChildren_bin parent)
  else if type =? BALANCED then
    if height parent <? gen_mx P then to_int (trunc_Z (b_0 P)) else Ok 0
  else Err Aborted.

(** Only a BIN root can have more than MAXNUMCHILDREN. *)
Definition uts_numChildren parent : res Z :=
  numChildren ← raw_numChildren parent;
  if (height parent =? 0) && (type parent =? BIN) then
    rootBF ← to_int (ceil_Z (b_0 P));
    Ok (if rootBF <? numChildren then rootBF else numChildren)
  else if negb (tree_type P =? BALANCED) then
    Ok (if MAXNUMCHILDREN <? numChildren then MAXNUMCHILDREN else numChildren)
  else Ok numChildren.

Definition uts_childType parent : res Z :=
  let type := tree_type P in
  if type =? BIN then Ok BIN
  else if type =? GEO then Ok GEO
  else if type =? HYBRID then if above_shift parent then Ok GEO else Ok BIN
  else if type =? BALANCED then Ok BALANCED
  else Err Aborted.

#[local] Instance uts_tree : SearchTree St :=
  {| spawn := rng_spawn; children_count := uts_numChildren; children_type := uts_childType |}.


(** The limits at the end of [uts_numChildren]. *)
Lemma numChildren_limit p n : tree_type P <> BALANCED -> uts_numChildren p = Ok n ->
  (height p = 0 /\ type p = BIN /\ exists m, to_int (ceil_Z (b_0 P)) = Ok m /\ n <= m) \/
  n <= MAXNUMCHILDREN.
Proof.
  intros Ht E. unfold uts_numChildren in E. apply bind_Ok_inv in E as (r & _ & E).
  destruct (Z.eqb_spec (height p) 0) as [Hh|], (Z.eqb_spec (type p) BIN) as [Hb|]; cbn [andb] in E.
  1: { left. apply bind_Ok_inv in E as (m & Em & E). injection E as <-.
       split; [done|]. split; [done|]. exists m. split; [done|].
       destruct (Z.ltb_spec m r); lia. }
  all: right; destruct (Z.eqb_spec (tree_type P) BALANCED); [done|]; cbn [negb] in E;
    injection E as <-; destruct (Z.ltb_spec MAXNUMCHILDREN r); lia.
Qed.

(** *** Balanced trees *)

(** All nodes of a balanced tree have the same number of children, but for
    those at depth [gen_mx], which are leaves. *)
Lemma balanced_children p b :
  tree_type P = BALANCED -> type p = BALANCED -> to_int (trunc_Z (b_0 P)) = Ok b ->
  children_count p = Ok (if height p <? gen_mx P then b else 0) /\
  children_type p = Ok BALANCED.
Proof.
  intros Ht Hp Hb. simpl. unfold uts_numChildren, raw_numChildren, uts_childType.
  rewrite Ht, Hp, andb_false_r. cbn. by destruct (height p <? gen_mx P); [rewrite Hb|].
Qed.

(** The number of nodes of a balanced tree with [k] levels below its root. *)
Definition balanced_size (b k : Z) : Z := msum 0 (k + 1) (fun i => b ^ i).

Lemma balanced_size_step b k : 0 <= k -> balanced_size b (k + 1) = 1 + b * balanced_size b k.
Proof.
  intros Hk. unfold balanced_size. rewrite msum_left by lia. simpl madd at 1. f_equal.
  rewrite (msum_shift 0 (k + 1) 1). generalize (k + 1). clear k Hk. intros hi.
  assert (W : forall lo hi, 0 <= lo -> msum lo hi (fun i => b ^ (i + 1)) = b * msum lo hi (fun i => b ^ i)).
  { apply (range_ind (fun lo hi => _ -> msum lo hi (fun i => b ^ (i + 1)) = b * msum lo hi (fun i => b ^ i))).
    - intros. rewrite !msum_empty by done. simpl. lia.
    - intros lo h Hlt IH Hlo. rewrite !(msum_left lo h) by done. rewrite IH by lia.
      simpl madd. rewrite Z.pow_add_r by lia. lia. }
  by apply W.
Qed.

Lemma balanced_size_nonneg b k : 0 <= b -> 0 <= balanced_size b k.
Proof.
  intros Hb. unfold balanced_size. etransitivity; [|apply (msum_Z_le _ _ (fun _ => 0))].
  - by rewrite msum_unit.
  - intros. by apply Z.pow_nonneg.
Qed.

(** The geometric series. *)
Lemma balanced_size_closed b k : 0 <= k -> balanced_size b k * (b - 1) = b ^ (k + 1) - 1.
Proof.
  revert k. apply natlike_ind.
  - unfold balanced_size. rewrite msum_left, msum_empty by lia. cbn. lia.
  - intros k Hk IH. replace (Z.succ k) with (k + 1) by lia.
    rewrite balanced_size_step by done. rewrite (Z.pow_add_r b (k + 1) 1) by lia. nia.
Qed.

Lemma msum_stats_const (n : Z) (s : stats) : 0 < n ->
  msum 0 n (fun _ => s) = Stats (Z.to_N n * nodes s) (Z.to_N n * leaves s) (depth s).
Proof.
  intros Hn. replace n with (Z.of_nat (Z.to_nat n)) by lia.
  assert (Hpos : (0 < Z.to_nat n)%nat) by lia. generalize dependent (Z.to_nat n). clear n Hn.
  intros n Hn. induction n as [|[|n] IH]; [lia| |].
  - rewrite msum_left, msum_empty by lia. destruct s as [a l h]. simpl. unfold stats_add. simpl.
    f_equal; lia.
  - replace (Z.of_nat (S (S n))) with (Z.of_nat (S n) + 1) by lia.
    rewrite msum_right, IH by lia. destruct s as [a l h]. simpl madd. unfold stats_add. cbn [nodes leaves depth].
    f_equal; lia.
Qed.

Lemma balanced_below (k : nat) b p :
  tree_type P = BALANCED -> to_int (trunc_Z (b_0 P)) = Ok b -> 1 <= b -> 0 <= height p ->
  type p = BALANCED -> height p + Z.of_nat k = gen_mx P ->
  tree_stats (S k) p =
  Ok (Stats (Z.to_N (balanced_size b (Z.of_nat k))) (Z.to_N (b ^ Z.of_nat k)) (Z.to_N (gen_mx P))).
Proof.
  intros Ht Hb Hb1. revert p. induction k as [|k IH]; intros p Hh Hp Hk;
    cbn [tree_stats]; unfold below;
    destruct (balanced_children p b Ht Hp Hb) as [-> ->]; cbn [mbind res_bind].
  - replace (height p <? gen_mx P) with false by (symmetry; apply Z.ltb_ge; lia).
    cbn. unfold visit, stats_add. simpl. repeat f_equal; lia.
  - replace (height p <? gen_mx P) with true by (symmetry; apply Z.ltb_lt; lia).
    rewrite (c_assert_true (0 <=? b)) by (apply Z.leb_le; lia). cbn [mbind res_bind].
    replace (b =? 0) with false by (symmetry; apply Z.eqb_neq; lia).
    rewrite (for_range_sum 0 b _ (fun _ => Stats (Z.to_N (balanced_size b (Z.of_nat k)))
      (Z.to_N (b ^ Z.of_nat k)) (Z.to_N (gen_mx P)))).
    2: { intros i _. change (tree_stats (S k) (child_of p BALANCED i) = Ok (Stats (Z.to_N (balanced_size b (Z.of_nat k)))
          (Z.to_N (b ^ Z.of_nat k)) (Z.to_N (gen_mx P)))). apply IH; simpl; lia || done. }
    rewrite madd_unit, msum_stats_const by lia. cbn [mbind res_bind nodes leaves depth].
    unfold visit. simpl madd. unfold stats_add. cbn [nodes leaves depth].
    pose proof (balanced_size_nonneg b (Z.of_nat k) ltac:(lia)).
    replace (Z.of_nat (S k)) with (Z.of_nat k + 1) by lia.
    rewrite balanced_size_step, Z.pow_add_r by lia.
    repeat f_equal; nia.
Qed.
End Program.

(** A balanced tree with branching factor [b] and depth [gen_mx] has
    [1 + b + ... + b^gen_mx] nodes, the [(b^(gen_mx+1) - 1)/(b - 1)] that
    [uts_paramsToStr] announces, and [b^gen_mx] leaves, whatever the random
    number generator. *)
Theorem balanced_tree_size `{Rng St} (P : params) (M : libm) b :
  tree_type P = BALANCED -> to_int (trunc_Z (b_0 P)) = Ok b -> 1 <= b -> 0 <= gen_mx P ->
  exists s,
    tree_stats (H := uts_tree P M) (S (Z.to_nat (gen_mx P))) (uts_initRoot P BALANCED) = Ok s /\
    Z.of_N (nodes s) = msum 0 (gen_mx P + 1) (fun i => b ^ i) /\
    Z.of_N (nodes s) * (b - 1) = b ^ (gen_mx P + 1) - 1 /\
    Z.of_N (leaves s) = b ^ gen_mx P /\
    Z.of_N (depth s) = gen_mx P.
Proof.
  intros Ht Hb Hb1 Hd. eexists. split.
  { eapply balanced_below; try done. simpl. lia. }
  cbn [nodes leaves depth]. rewrite !Z2Nat.id by done.
  rewrite !Z2N.id; try lia.
  2: { apply balanced_size_nonneg. lia. }
  split; [done|]. split; [|lia]. by apply balanced_size_closed.
Qed.

(** Three generations of three children. *)
Lemma balanced_tree_size_witness : exists s,
  tree_stats (H := uts_tree (H := Build_Rng Z (fun s => s) (fun s i => 3 * s + i) (fun _ => 0))
      (Params BALANCED (double 3) 0 4 (double 0) 3 LINEAR (double 0))
      (Libm (fun x _ => x) (fun x => x) (fun x => x))) 4
    (uts_initRoot (H := Build_Rng Z (fun s => s) (fun s i => 3 * s + i) (fun _ => 0))
      (Params BALANCED (double 3) 0 4 (double 0) 3 LINEAR (double 0)) BALANCED) = Ok s /\
  nodes s = 40%N.
Proof.
  destruct (balanced_tree_size (H := Build_Rng Z (fun s => s) (fun s i => 3 * s + i) (fun _ => 0))
    (Params BALANCED (double 3) 0 4 (double 0) 3 LINEAR (double 0))
    (Libm (fun x _ => x) (fun x => x) (fun x => x)) 3)
    as (s & E & Hs & _); [done | done | lia | done |].
  exists s. split; [exact E|]. change (Z.of_N (nodes s) = 40) in Hs. lia.
Defined.
