(* ===== verification/UtsDfs.v ===== *)
(** * The recursive search

    [uts_dfs.c], the sequential search of the Unbalanced Tree Search benchmark:
    a node's children are searched one after the other by recursion. *)

From S2P Require Import Prelude Double Uts.

Section Search.
Context `{SearchTree St}.
Context (computeGranularity : Z) (uninitialised : St).

(** [counter_t] is an unsigned 64-bit integer. *)
Record Result := Res { maxdepth : Z; size : Z; leaves_found : Z }.

Definition make_child (parent : node St) (childType i : Z) : res (node St) :=
  st ← for_range 0 computeGranularity (fun _ _ => Ok (spawn (state parent) i)) uninitialised;
  Ok (Node childType (i32 (u64 (u64 (height parent) + 1))) (-1) st).

(** What the result of a child adds *)
Definition add_child (r c : Result) : Result :=
  Res (if maxdepth r <? maxdepth c then maxdepth c else maxdepth r) (u64 (size r + size c)) (u64 (leaves_found r + leaves_found c)).

Fixpoint parTreeSearch (fuel : nat) (depth : Z) (parent : node St) : res Result :=
  match fuel with
  | O => Err OutOfFuel
  | S fuel =>
      numChildren ← children_count parent;
      childType ← children_type parent;
      let r := Res (u64 depth) 1 0 in
      if 0 <? numChildren then
        for_range 0 numChildren (fun i r =>
          child ← make_child parent childType i;
          d ← chk 32 (depth + 1);
          c ← parTreeSearch fuel d child;
          Ok (add_child r c)) r
      else Ok (Res (maxdepth r) (size r) 1)
  end.

(** What [main] hands to [uts_showStats] *)
Definition search_main (fuel : nat) (root : node St) : res (Z * Z * Z) :=
  r ← parTreeSearch fuel 0 root;
  Ok (size r, leaves_found r, maxdepth r).

(** ** Correctness *)

Definition result_of (s : stats) : Result := Res (Z.of_N (depth s)) (u64 (Z.of_N (nodes s))) (u64 (Z.of_N (leaves s))).

Lemma add_child_ok s t : add_child (result_of s) (result_of t) = result_of (s ⊕ t).
Proof.
  unfold add_child, result_of. cbn [maxdepth size leaves_found nodes leaves depth madd stats_monoid stats_add].
  f_equal.
  - destruct (Z.ltb_spec (Z.of_N (depth s)) (Z.of_N (depth t))); lia.
  - unfold u64, unsigned. rewrite <- Z.add_mod by done. f_equal. lia.
  - unfold u64, unsigned. rewrite <- Z.add_mod by done. f_equal. lia.
Qed.

Lemma make_child_ok p t i : 1 <= computeGranularity -> 0 <= height p < 2 ^ 31 - 1 -> make_child p t i = Ok (child_of p t i).
Proof.
  intros Hg Hh. unfold make_child, child_of. rewrite for_range_step by lia. rewrite bind_Ok.
  destruct (for_range_inv (fun _ st => st = spawn (state p) i) (fun _ _ => Ok (spawn (state p) i)) (0 + 1) computeGranularity
    (spawn (state p) i)) as (st & -> & ->); [lia | done | by intros; eexists |].
  rewrite bind_Ok, (unsigned_small 64 (height p)), unsigned_small, signed_small by lia. done.
Qed.

Lemma sum_depth (f : Z -> res stats) lo hi acc r :
  for_range lo hi (fun i acc => s ← f i; Ok (acc ⊕ s)) acc = Ok r -> (depth acc <= depth r)%N.
Proof.
  revert acc. revert lo hi. apply (range_ind (fun lo hi => forall acc,
    for_range lo hi (fun i acc => s ← f i; Ok (acc ⊕ s)) acc = Ok r -> (depth acc <= depth r)%N)).
  - intros lo hi Hle acc. rewrite for_range_empty by done. by intros [= ->].
  - intros lo hi Hlt IH acc. rewrite for_range_step by done. intros E. apply bind_Ok_inv in E as (a & E1 & E2).
    apply bind_Ok_inv in E1 as (s & _ & [= <-]). apply IH in E2. cbn in E2. lia.
Qed.

(** The loop over the children, next to the sum of the reference *)
Lemma children_ok (f : Z -> res stats) (g : Z -> Result -> res Result) base r :
  (forall i acc c, f i = Ok c -> (depth c <= depth r)%N -> g i (result_of acc) = Ok (result_of (acc ⊕ c))) ->
  forall lo hi acc, for_range lo hi (fun i acc => s ← f i; Ok (acc ⊕ s)) acc = Ok r ->
    for_range lo hi g (result_of (base ⊕ acc)) = Ok (result_of (base ⊕ r)).
Proof.
  intros Hg. apply (range_ind (fun lo hi => forall acc, for_range lo hi (fun i acc => s ← f i; Ok (acc ⊕ s)) acc = Ok r ->
    for_range lo hi g (result_of (base ⊕ acc)) = Ok (result_of (base ⊕ r)))).
  - intros lo hi Hle acc. rewrite !for_range_empty by done. by intros [= ->].
  - intros lo hi Hlt IH acc E. rewrite for_range_step in E by done. apply bind_Ok_inv in E as (a & E1 & E2).
    apply bind_Ok_inv in E1 as (c & Ec & [= <-]). pose proof (sum_depth _ _ _ _ _ E2) as Hs. cbn in Hs.
    rewrite for_range_step, (Hg lo _ c Ec), bind_Ok, <- madd_assoc by (done || lia). by apply IH.
Qed.

Lemma parTreeSearch_ok fuel : 1 <= computeGranularity -> forall p s, 0 <= height p -> tree_stats fuel p = Ok s ->
  Z.of_N (depth s) < 2 ^ 31 -> parTreeSearch fuel (height p) p = Ok (result_of s).
Proof.
  intros Hg. induction fuel as [|fuel IH]; intros p s Hh E Hd; [done|]. cbn [tree_stats parTreeSearch] in *.
  apply bind_Ok_inv in E as (r & Er & [= <-]). unfold below in Er.
  apply bind_Ok_inv in Er as (n & -> & Er). apply bind_Ok_inv in Er as (t & -> & Er). apply bind_Ok_inv in Er as ([] & Ea & Er).
  rewrite !bind_Ok. destruct (Z.leb_spec 0 n) as [Hn|]; [|discriminate Ea].
  assert (Hp : u64 (height p) = height p).
  { apply unsigned_small. cbn in Hd. lia. }
  destruct (Z.eqb_spec n 0) as [->|Hn0].
  - injection Er as <-. cbn. rewrite Hp. unfold result_of, visit, one_leaf. cbn. f_equal. f_equal. lia.
  - destruct (Z.ltb_spec 0 n); [|lia].
    assert (Hr0 : Res (u64 (height p)) 1 0 = result_of (visit p ⊕ munit)).
    { unfold result_of, visit. cbn. rewrite Hp. f_equal. lia. }
    rewrite Hr0. eapply (children_ok (fun i => tree_stats fuel (child_of p t i))); [|exact Er].
    intros i acc c Ec Hc. cbn in Hd.
    assert (Hch : (Z.to_N (height p + 1) <= depth c)%N) by (apply tree_stats_grows in Ec as [_ ->]; cbn; lia).
    rewrite make_child_ok, bind_Ok, chk_ok, bind_Ok by lia. change (height p + 1) with (height (child_of p t i)) at 1.
    rewrite (IH _ c), bind_Ok; [by rewrite add_child_ok | cbn; lia | done | lia].
Qed.

(** A tree has at most as many leaves as nodes. *)
Lemma leaves_bound fuel p s : tree_stats fuel p = Ok s -> (leaves s <= nodes s)%N.
Proof.
  revert p s. induction fuel as [|fuel IH]; intros p s E; [done|]. cbn [tree_stats] in E.
  apply bind_Ok_inv in E as (r & Er & [= <-]). unfold below in Er. apply bind_Ok_inv in Er as (n & _ & Er).
  apply bind_Ok_inv in Er as (t & _ & Er). apply bind_Ok_inv in Er as ([] & _ & Er).
  destruct (n =? 0); [injection Er as <-; done|].
  enough (Hr : (leaves r <= nodes r)%N) by (cbn; lia). revert Er.
  assert (H0 : (leaves (munit : stats) <= nodes (munit : stats))%N) by done. revert H0. generalize (munit : stats) as acc.
  generalize 0 at 1 as lo. intros lo. revert lo n. apply (range_ind (fun lo n => forall acc, (leaves acc <= nodes acc)%N ->
    for_range lo n (fun i acc => s ← tree_stats fuel (child_of p t i); Ok (acc ⊕ s)) acc = Ok r -> (leaves r <= nodes r)%N)).
  - intros lo hi Hle acc H0. rewrite for_range_empty by done. by intros [= <-].
  - intros lo hi Hlt IHr acc H0. rewrite for_range_step by done. intros E. apply bind_Ok_inv in E as (a & E1 & E2).
    apply bind_Ok_inv in E1 as (c & Ec & [= <-]). apply IHr in E2; [done|]. apply IH in Ec. cbn. lia.
Qed.

(** C34: the recursive search of a tree gives [uts_showStats] the number of its
    nodes, of its leaves and its height, as the recursive definition has them -
    what the parallel search prints when its threads have finished. *)
Theorem dfs_counts_tree fuel root s : 1 <= computeGranularity -> height root = 0 -> tree_stats fuel root = Ok s ->
  Z.of_N (nodes s) < 2 ^ 64 -> Z.of_N (depth s) < 2 ^ 31 ->
  search_main fuel root = Ok (Z.of_N (nodes s), Z.of_N (leaves s), Z.of_N (depth s)).
Proof.
  intros Hg Hr E Hn Hd. unfold search_main. rewrite <- Hr at 1. rewrite (parTreeSearch_ok fuel Hg root s), bind_Ok by (done || lia).
  pose proof (leaves_bound fuel root s E). unfold result_of. cbn [size leaves_found maxdepth].
  by rewrite !unsigned_small by lia.
Qed.
End Search.

(** Three generations of three children *)
Lemma dfs_counts_tree_witness :
  let rng := Build_Rng Z (fun s => s) (fun s i => 3 * s + i) (fun _ => 0) in
  let P := Params BALANCED (double 3) 0 4 (double 0) 3 LINEAR (double 0) in
  let M := Libm (fun x _ => x) (fun x => x) (fun x => x) in
  search_main (H := uts_tree (H := rng) P M) 2 0 4 (uts_initRoot (H := rng) P BALANCED) = Ok (40, 27, 3).
Proof.
  intros rng P M. apply (dfs_counts_tree (H := uts_tree (H := rng) P M) 2 0 4 (uts_initRoot (H := rng) P BALANCED) (Stats 40 27 3));
    [lia | reflexivity | vm_compute; reflexivity | cbn; lia | cbn; lia].
Defined.
