(* ===== verification/Deque.v ===== *)
(** * Double-ended queues

    [dlist.c] and [dequeue.c] of the Unbalanced Tree Search benchmark: doubly
    linked cells between two sentinels, in memory.  [shared_dlist.c] and
    [shared_dequeue.c] are the same in UPC, where popping from an empty queue
    gives [NULL].

    A pointer is a number, [NULL] zero; an access to memory that is not
    allocated is a fault.  [malloc] is a parameter. *)

From stdpp Require Import gmap.
From S2P Require Import Prelude.

(** ** Memory *)

Record dcell := Cell { element : Z; next : Z; prev : Z }.
Record dequeue := Dequeue { head : Z; tail : Z }.
Abbreviation heap := (gmap Z dcell).

Definition null : Z := 0.

Definition load (h : heap) (p : Z) : res dcell :=
  match h !! p with Some c => Ok c | None => Err OutOfBounds end.

Definition set_next (h : heap) (p n : Z) : res heap :=
  c ← load h p; Ok (<[p := Cell (element c) n (prev c)]> h).
Definition set_prev (h : heap) (p q : Z) : res heap :=
  c ← load h p; Ok (<[p := Cell (element c) (next c) q]> h).

(** ** The operations *)

Section Operations.
Context (malloc : heap -> Z).

(** The block of [malloc] is written without a look at [NULL]. *)
Definition dcons (h : heap) (element prev next : Z) : res (heap * Z) :=
  let temp := malloc h in
  if temp =? null then Err OutOfBounds else Ok (<[temp := Cell element next prev]> h, temp).

Definition create_and_link (h : heap) (element prev next : Z) : res (heap * Z) :=
  '(h, temp) ← dcons h element prev next;
  h ← set_next h prev temp;
  h ← set_prev h next temp;
  Ok (h, temp).

Definition unlink_and_free (h : heap) (l : Z) : res (heap * Z) :=
  c ← load h l;
  h ← set_prev h (next c) (prev c);
  c' ← load h l;
  h ← set_next h (prev c') (next c');
  Ok (delete l h, element c).

Definition deq_create (h : heap) : res (heap * dequeue) :=
  '(h, hd) ← dcons h null null null;
  '(h, tl) ← dcons h null null null;
  h ← set_next h hd tl;
  h ← set_prev h tl hd;
  Ok (h, Dequeue hd tl).

Definition deq_isEmpty (h : heap) (q : dequeue) : res bool :=
  c ← load h (head q); Ok (next c =? tail q).

Definition deq_pushFront (h : heap) (q : dequeue) (e : Z) : res heap :=
  c ← load h (head q); '(h, _) ← create_and_link h e (head q) (next c); Ok h.
Definition deq_pushBack (h : heap) (q : dequeue) (e : Z) : res heap :=
  c ← load h (tail q); '(h, _) ← create_and_link h e (prev c) (tail q); Ok h.

Definition deq_popFront (h : heap) (q : dequeue) : res (heap * Z) :=
  c ← load h (head q); unlink_and_free h (next c).
Definition deq_popBack (h : heap) (q : dequeue) : res (heap * Z) :=
  c ← load h (tail q); unlink_and_free h (prev c).

Definition deq_peekFront (h : heap) (q : dequeue) : res Z :=
  c ← load h (head q); c ← load h (next c); Ok (element c).
Definition deq_peekBack (h : heap) (q : dequeue) : res Z :=
  c ← load h (tail q); c ← load h (prev c); Ok (element c).

(** The queue has fewer cells than the memory. *)
Definition deq_mkEmpty (h : heap) (q : dequeue) : res heap :=
  while (S (base.size h)) (fun h => b ← deq_isEmpty h q; Ok (negb b)) (fun h => '(h, _) ← deq_popFront h q; Ok h) h.

Definition deq_length (h : heap) (q : dequeue) : res Z :=
  c ← load h (head q);
  '(_, count) ← while (S (base.size h)) (fun '(e, _) => Ok (negb (e =? tail q)))
    (fun '(e, count) => c ← load h e; count ← chk 32 (count + 1); Ok (next c, count)) (next c, 0);
  Ok count.
End Operations.

(** ** Linked cells *)

(** Cells with their elements *)
Abbreviation cells := (list (Z * Z)).

Definition first (xs : cells) (n : Z) : Z := match xs with [] => n | (x, _) :: _ => x end.
Definition final (xs : cells) (p : Z) : Z := foldl (fun _ x => fst x) p xs.

(** [xs] are linked to each other, to [p] before them and to [n] after. *)
Fixpoint linked (h : heap) (p : Z) (xs : cells) (n : Z) : Prop :=
  match xs with
  | [] => True
  | (x, e) :: xs => h !! x = Some (Cell e (first xs n) p) /\ linked h x xs n
  end.

Lemma first_app xs ys n : first (xs ++ ys) n = first xs (first ys n).
Proof. by destruct xs as [|[x e] xs]. Qed.

Lemma final_app xs ys p : final (xs ++ ys) p = final ys (final xs p).
Proof. apply foldl_app. Qed.

Lemma linked_app h xs : forall p ys n, linked h p (xs ++ ys) n <-> linked h p xs (first ys n) /\ linked h (final xs p) ys n.
Proof.
  induction xs as [|[x e] xs IH]; intros p ys n; cbn [app linked]; [tauto|].
  rewrite IH, first_app. unfold final at 2. cbn [foldl fst]. fold (final xs x). tauto.
Qed.

(** Other cells may change. *)
Lemma linked_frame h h' xs : forall p n, (forall x, x ∈ map fst xs -> h' !! x = h !! x) -> linked h p xs n -> linked h' p xs n.
Proof.
  induction xs as [|[x e] xs IH]; intros p n Hf; cbn [linked map fst]; [done|]. intros [E H]. split.
  - rewrite Hf; [done | left].
  - apply IH; [|done]. intros y Hy. apply Hf. by right.
Qed.

Lemma linked_put h x c xs p n : x ∉ map fst xs -> linked h p xs n -> linked (<[x := c]> h) p xs n.
Proof. intros Hx. apply linked_frame. intros y Hy. rewrite lookup_insert_ne; [done | by intros ->]. Qed.
Lemma linked_delete h x xs p n : x ∉ map fst xs -> linked h p xs n -> linked (delete x h) p xs n.
Proof. intros Hx. apply linked_frame. intros y Hy. rewrite lookup_delete_ne; [done | by intros ->]. Qed.

Lemma linked_lookup h xs : forall p n x, linked h p xs n -> x ∈ map fst xs -> is_Some (h !! x).
Proof.
  induction xs as [|[y e] xs IH]; intros p n x; cbn [linked map fst]; [intros _ H; inversion H|]. intros [E H] Hx.
  apply list.elem_of_cons in Hx as [->|Hx]; [by rewrite E | by apply (IH y n)].
Qed.

(** Two neighbours in a list of cells *)
Section Neighbours.
Context (h : heap) (p n : Z) (xs ys : cells) (a ea b eb : Z).
Hypothesis Hl : linked h p (xs ++ (a, ea) :: (b, eb) :: ys) n.
Hypothesis Hd : NoDup (map fst (xs ++ (a, ea) :: (b, eb) :: ys)).

Lemma neighbours : h !! a = Some (Cell ea b (final xs p)) /\ h !! b = Some (Cell eb (first ys n) a) /\
  linked h p xs a /\ linked h b ys n /\ a <> b /\
  a ∉ map fst xs /\ a ∉ map fst ys /\ b ∉ map fst xs /\ b ∉ map fst ys.
Proof.
  apply linked_app in Hl as [H1 (H2 & H3 & H4)]. cbn [first] in *. rewrite map_app in Hd. cbn [map fst] in Hd.
  apply list.NoDup_app in Hd as (D1 & D2 & D3). apply list.NoDup_cons in D3 as [D3 D4]. apply list.NoDup_cons in D4 as [D4 _].
  rewrite list.not_elem_of_cons in D3. repeat split; try done; try tauto; intros Hin; apply (D2 _ Hin).
  - left.
  - right. left.
Qed.

Lemma link_ok malloc e : malloc h <> null -> h !! malloc h = None ->
  exists h', create_and_link malloc h e a b = Ok (h', malloc h) /\
    linked h' p (xs ++ (a, ea) :: (malloc h, e) :: (b, eb) :: ys) n /\
    forall x, x <> a -> x <> b -> x <> malloc h -> h' !! x = h !! x.
Proof.
  intros Hn Ht. set (t := malloc h) in *. destruct neighbours as (Ea & Eb & Hx & Hy & Hab & A1 & A2 & B1 & B2).
  assert (T : forall q zs m, linked h q zs m -> t ∉ map fst zs).
  { intros q zs m H Hin. destruct (linked_lookup h zs q m t H Hin) as [c Hc]. congruence. }
  assert (Ta : t <> a) by congruence. assert (Tb : t <> b) by congruence.
  unfold create_and_link, dcons. fold t. destruct (Z.eqb_spec t null); [done|]. rewrite bind_Ok.
  unfold set_next, load. rewrite lookup_insert_ne, Ea by done. rewrite bind_Ok. cbn [element prev next mbind res_bind].
  unfold set_prev, load. rewrite !lookup_insert_ne, Eb by done. rewrite bind_Ok. cbn [element prev next mbind res_bind].
  eexists. split; [reflexivity|]. split.
  - apply linked_app. cbn [first linked]. split; [|split; [|split; [|split]]].
    + do 3 (apply linked_put; [by eauto|]). done.
    + rewrite lookup_insert_ne, lookup_insert_eq by done. done.
    + rewrite !lookup_insert_ne, lookup_insert_eq by done. done.
    + by rewrite lookup_insert_eq.
    + do 3 (apply linked_put; [by eauto|]). done.
  - intros x H1 H2 H3. by rewrite !lookup_insert_ne by done.
Qed.
End Neighbours.

(** A cell between two others *)
Lemma unlink_ok h p n xs ys a ea x e b eb : linked h p (xs ++ (a, ea) :: (x, e) :: (b, eb) :: ys) n ->
  NoDup (map fst (xs ++ (a, ea) :: (x, e) :: (b, eb) :: ys)) ->
  exists h', unlink_and_free h x = Ok (h', e) /\ linked h' p (xs ++ (a, ea) :: (b, eb) :: ys) n /\ h' !! x = None /\
    forall y, y <> a -> y <> b -> y <> x -> h' !! y = h !! y.
Proof.
  intros Hl Hd. destruct (neighbours h p n xs ((b, eb) :: ys) a ea x e Hl Hd) as (Ea & Ex & Hxs & Hys & Hax & A1 & A2 & X1 & X2).
  destruct Hys as [Eb Hys]. cbn [first map fst] in *. apply list.not_elem_of_cons in A2 as [Hab A2]. apply list.not_elem_of_cons in X2 as [Hxb X2].
  assert (B : b ∉ map fst xs /\ b ∉ map fst ys).
  { rewrite map_app in Hd. cbn [map fst] in Hd. apply list.NoDup_app in Hd as (_ & D2 & D3).
    split; [intros Hin; apply (D2 _ Hin); do 2 right; left|].
    do 2 apply list.NoDup_cons in D3 as [_ D3]. by apply list.NoDup_cons in D3 as [D3 _]. }
  destruct B as [B1 B2]. unfold unlink_and_free, load. rewrite Ex, bind_Ok. cbn [next prev element].
  unfold set_prev, load. rewrite Eb, bind_Ok. cbn [element prev next mbind res_bind]. rewrite lookup_insert_ne, Ex by done. rewrite bind_Ok.
  cbn [next prev]. unfold set_next, load. rewrite lookup_insert_ne, Ea by done. rewrite bind_Ok. cbn [element prev next mbind res_bind].
  eexists. split; [reflexivity|]. split; [|split].
  - apply linked_app. cbn [first linked]. split; [|split; [|split]].
    + apply linked_delete; [done|]. do 2 (apply linked_put; [done|]). done.
    + rewrite lookup_delete_ne, lookup_insert_eq by done. done.
    + rewrite lookup_delete_ne, lookup_insert_ne, lookup_insert_eq by done. done.
    + apply linked_delete; [done|]. do 2 (apply linked_put; [done|]). done.
  - apply lookup_delete_eq.
  - intros y H1 H2 H3. rewrite lookup_delete_ne, !lookup_insert_ne by done. done.
Qed.

Lemma between_Permutation {A} (xs : list A) a x b ys : xs ++ a :: x :: b :: ys ≡ₚ x :: (xs ++ a :: b :: ys).
Proof.
  change (a :: x :: b :: ys) with ([a] ++ x :: b :: ys). change (a :: b :: ys) with ([a] ++ b :: ys).
  rewrite !app_assoc. symmetry. apply Permutation_middle.
Qed.

(** ** The queue *)

(** The queue [q] is in the memory with the elements [l], at the cells [cs]. *)
Record holds (h : heap) (q : dequeue) (cs : cells) (l : list Z) : Prop := {
  ho_linked : linked h null ((head q, null) :: cs ++ [(tail q, null)]) null;
  ho_distinct : NoDup (map fst ((head q, null) :: cs ++ [(tail q, null)]));
  ho_elements : map snd cs = l;
  ho_null : h !! null = None
}.

(** The cells of a queue *)
Definition cells_of (q : dequeue) (cs : cells) : list Z := head q :: map fst cs ++ [tail q].

Lemma cells_of_all q cs : map fst ((head q, null) :: cs ++ [(tail q, null)]) = cells_of q cs.
Proof. cbn [map fst]. by rewrite map_app. Qed.

(** The neighbours at the ends *)
Lemma front_neighbour q (cs : cells) : exists b eb ys, cs ++ [(tail q, null)] = (b, eb) :: ys /\ b = first cs (tail q).
Proof. destruct cs as [|[x y] r]; cbn [app first]; eauto 6. Qed.

Lemma back_neighbour q (r : cells) : exists xs ea, (head q, null) :: r = xs ++ [(final r (head q), ea)].
Proof.
  destruct r as [|[x e] r' _] using rev_ind; [by exists [], null|]. exists ((head q, null) :: r'), e. by rewrite final_app.
Qed.

Section Queue.
Context (malloc : heap -> Z).
Hypothesis Hmalloc : forall h, malloc h <> null /\ h !! malloc h = None.

Lemma create_ok h : h !! null = None -> exists h' q, deq_create malloc h = Ok (h', q) /\ holds h' q [] [] /\
  (forall x, x ∉ cells_of q [] -> h' !! x = h !! x) /\ (forall x, x ∈ cells_of q [] -> h !! x = None).
Proof.
  intros H0. unfold deq_create, dcons. destruct (Hmalloc h) as [H1 H2]. set (hd := malloc h) in *.
  destruct (Z.eqb_spec hd null); [done|]. rewrite bind_Ok.
  destruct (Hmalloc (<[hd := Cell null null null]> h)) as [H3 H4]. set (tl := malloc (<[hd := Cell null null null]> h)) in *.
  destruct (Z.eqb_spec tl null); [done|]. rewrite bind_Ok.
  apply lookup_insert_None in H4 as [H4 Hne].
  unfold set_next, load. rewrite lookup_insert_ne, lookup_insert_eq by done. rewrite bind_Ok. cbn [element prev next mbind res_bind].
  unfold set_prev, load. rewrite lookup_insert_ne, lookup_insert_eq by done. rewrite bind_Ok. cbn [element prev next mbind res_bind].
  eexists _, _. split; [reflexivity|]. unfold cells_of. cbn [head tail map fst app]. split; [split; cbn; try done|split].
  - rewrite lookup_insert_ne, lookup_insert_eq, lookup_insert_eq by done. done.
  - constructor; [|apply list.NoDup_singleton]. intros Hin. by apply list.list_elem_of_singleton in Hin.
  - by rewrite !lookup_insert_ne by done.
  - intros x Hx. rewrite !list.not_elem_of_cons in Hx. destruct Hx as (X1 & X2 & _). by rewrite !lookup_insert_ne by done.
  - intros x Hx. rewrite !list.elem_of_cons in Hx. destruct Hx as [->|[->|Hx]]; [done | done | inversion Hx].
Qed.

Section Holds.
Context (h : heap) (q : dequeue) (cs : cells) (l : list Z).
Hypothesis Hq : holds h q cs l.

Lemma head_cell : load h (head q) = Ok (Cell null (first cs (tail q)) null).
Proof. destruct Hq as [[E _] _ _]. unfold load. by rewrite E, first_app. Qed.

Lemma tail_cell : load h (tail q) = Ok (Cell null null (final cs (head q))).
Proof.
  destruct Hq as [H _ _]. cbn [linked] in H. destruct H as [_ H]. apply linked_app in H as [_ [E _]]. unfold load. by rewrite E.
Qed.

Lemma isEmpty_ok : deq_isEmpty h q = Ok (match l with [] => true | _ => false end).
Proof.
  unfold deq_isEmpty. rewrite head_cell, bind_Ok. cbn [next]. destruct Hq as [_ Hd <-]. destruct cs as [|[x e] r]; cbn [first map].
  - by rewrite Z.eqb_refl.
  - destruct (Z.eqb_spec x (tail q)) as [->|]; [|done]. exfalso. rewrite cells_of_all in Hd. unfold cells_of in Hd. cbn [map fst app] in Hd.
    apply list.NoDup_cons in Hd as [_ Hd]. apply list.NoDup_cons in Hd as [Hd _]. apply Hd, list.elem_of_app. right. left.
Qed.

(** Memory that is not of the queue stays as it is, and is not taken. *)
Definition evolves (h' : heap) (cs' : cells) : Prop :=
  forall x c, h !! x = Some c -> x ∉ cells_of q cs -> h' !! x = Some c /\ x ∉ cells_of q cs'.

Lemma new_cell : malloc h ∉ cells_of q cs.
Proof.
  rewrite <- cells_of_all. intros Hin. destruct (linked_lookup h _ null null _ (ho_linked _ _ _ _ Hq) Hin) as [c Hc].
  destruct (Hmalloc h) as [_ H]. congruence.
Qed.

(** Linking or unlinking a cell between two of the queue *)
Lemma null_kept (h' : heap) a b t : (forall x, x <> a -> x <> b -> x <> t -> h' !! x = h !! x) -> is_Some (h !! a) -> is_Some (h !! b) ->
  t <> null -> h' !! null = None.
Proof.
  intros Hf [ca Ha] [cb Hb] Ht. pose proof (ho_null _ _ _ _ Hq) as H0. rewrite Hf; congruence.
Qed.

Lemma insert_cell xs a ea b eb ys e : (head q, null) :: cs ++ [(tail q, null)] = xs ++ (a, ea) :: (b, eb) :: ys ->
  exists h', create_and_link malloc h e a b = Ok (h', malloc h) /\
    forall cs', (head q, null) :: cs' ++ [(tail q, null)] = xs ++ (a, ea) :: (malloc h, e) :: (b, eb) :: ys ->
      holds h' q cs' (map snd cs') /\ evolves h' cs'.
Proof.
  intros E. destruct (Hmalloc h) as [M1 M2]. pose proof new_cell as Hnew. pose proof Hq as [Hl Hd _ _]. rewrite E in Hl, Hd.
  destruct (link_ok h null null xs ys a ea b eb Hl Hd malloc e M1 M2) as (h' & E' & Hl' & Hf).
  destruct (neighbours h null null xs ys a ea b eb Hl Hd) as (Ea & Eb & _).
  exists h'. split; [done|]. intros cs' Ecs'. rewrite <- cells_of_all, E in Hnew. split.
  - split; [by rewrite Ecs' | | done |].
    + rewrite Ecs', between_Permutation. cbn [map fst]. by constructor.
    + apply (null_kept h' a b (malloc h)); eauto.
  - intros x c Hx X1. rewrite <- cells_of_all, E, map_app in X1. rewrite <- cells_of_all, Ecs', map_app. cbn [map fst] in *.
    rewrite list.not_elem_of_app, !list.not_elem_of_cons in *. assert (x <> malloc h) by congruence.
    rewrite Hf by tauto. tauto.
Qed.

Lemma remove_cell xs a ea x e b eb ys : (head q, null) :: cs ++ [(tail q, null)] = xs ++ (a, ea) :: (x, e) :: (b, eb) :: ys ->
  exists h', unlink_and_free h x = Ok (h', e) /\
    forall cs', (head q, null) :: cs' ++ [(tail q, null)] = xs ++ (a, ea) :: (b, eb) :: ys ->
      holds h' q cs' (map snd cs') /\ evolves h' cs'.
Proof.
  intros E. pose proof Hq as [Hl Hd _ H0]. rewrite E in Hl, Hd.
  destruct (unlink_ok h null null xs ys a ea x e b eb Hl Hd) as (h' & E' & Hl' & Hx & Hf).
  exists h'. split; [done|]. intros cs' Ecs'. split.
  - split; [by rewrite Ecs' | | done |].
    + rewrite between_Permutation in Hd. cbn [map fst] in Hd. rewrite Ecs'. by apply list.NoDup_cons in Hd as [_ Hd].
    + destruct (decide (x = null)) as [->|]; [done|].
      assert (Hs : forall y, y ∈ map fst (xs ++ (a, ea) :: (x, e) :: (b, eb) :: ys) -> y <> null).
      { intros y Hy ->. destruct (linked_lookup _ _ _ _ _ Hl Hy). congruence. }
      rewrite map_app in Hs. cbn [map fst] in Hs. rewrite Hf; [done | | |]; try congruence; intros En; symmetry in En; revert En; apply Hs;
        rewrite list.elem_of_app, !list.elem_of_cons; tauto.
  - intros y c Hy X1. rewrite <- cells_of_all, E, map_app in X1. rewrite <- cells_of_all, Ecs', map_app. cbn [map fst] in *.
    rewrite list.not_elem_of_app, !list.not_elem_of_cons in *. rewrite Hf by tauto. tauto.
Qed.
Lemma pushFront_ok e : exists h' cs', deq_pushFront malloc h q e = Ok h' /\ holds h' q cs' (e :: l) /\ evolves h' cs'.
Proof.
  unfold deq_pushFront. rewrite head_cell, bind_Ok. cbn [next]. destruct (front_neighbour q cs) as (b & eb & ys & Ecs & <-).
  destruct (insert_cell [] (head q) null b eb ys e) as (h' & -> & H); [cbn [app]; by rewrite Ecs|]. rewrite bind_Ok.
  exists h', ((malloc h, e) :: cs). split; [done|]. rewrite <- (ho_elements _ _ _ _ Hq). apply (H ((malloc h, e) :: cs)). cbn [app]. by rewrite Ecs.
Qed.

Lemma pushBack_ok e : exists h' cs', deq_pushBack malloc h q e = Ok h' /\ holds h' q cs' (l ++ [e]) /\ evolves h' cs'.
Proof.
  unfold deq_pushBack. rewrite tail_cell, bind_Ok. cbn [prev]. destruct (back_neighbour q cs) as (xs & ea & Ecs).
  destruct (insert_cell xs (final cs (head q)) ea (tail q) null [] e) as (h' & -> & H).
  { change ((head q, null) :: cs ++ [(tail q, null)]) with (((head q, null) :: cs) ++ [(tail q, null)]). by rewrite Ecs, <- app_assoc. }
  rewrite bind_Ok. exists h', (cs ++ [(malloc h, e)]). split; [done|]. destruct (H (cs ++ [(malloc h, e)])) as [H1 H2].
  { change ((head q, null) :: (cs ++ [(malloc h, e)]) ++ [(tail q, null)]) with ((((head q, null) :: cs) ++ [(malloc h, e)]) ++ [(tail q, null)]).
    by rewrite Ecs, <- !app_assoc. }
  split; [|done]. by rewrite map_app, (ho_elements _ _ _ _ Hq) in H1.
Qed.

Lemma null_free : load h null = Err OutOfBounds.
Proof. unfold load. by rewrite (ho_null _ _ _ _ Hq). Qed.

End Holds.

Section Ends.
Context (h : heap) (q : dequeue) (x e : Z) (r : cells).

Lemma popFront_empty l : holds h q [] l -> deq_popFront h q = Err OutOfBounds.
Proof.
  intros Hq. unfold deq_popFront, unlink_and_free. rewrite (head_cell h q [] l Hq), bind_Ok. cbn [next first].
  rewrite (tail_cell h q [] l Hq), bind_Ok. cbn [next prev]. unfold set_prev. by rewrite (null_free h q [] l Hq).
Qed.

Lemma popBack_empty l : holds h q [] l -> deq_popBack h q = Err OutOfBounds.
Proof.
  intros Hq. unfold deq_popBack, unlink_and_free. rewrite (tail_cell h q [] l Hq), bind_Ok. cbn [prev final foldl].
  rewrite (head_cell h q [] l Hq), bind_Ok. cbn [next prev first]. unfold set_prev. rewrite (tail_cell h q [] l Hq), bind_Ok. cbn [element prev next mbind res_bind].
  pose proof (ho_distinct _ _ _ _ Hq) as Hd. cbn in Hd. apply list.NoDup_cons in Hd as [Hd _]. rewrite list.list_elem_of_singleton in Hd.
  pose proof (head_cell h q [] l Hq) as Hh. unfold load in Hh |- *. rewrite lookup_insert_ne by done.
  destruct (h !! head q) as [c|]; [|done]. injection Hh as ->. cbn [mbind res_bind prev next first]. unfold set_next, load.
  pose proof (ho_null _ _ _ _ Hq) as H0. pose proof (tail_cell h q [] l Hq) as Ht. unfold load in Ht.
  rewrite lookup_insert_ne by (intros E; rewrite E, H0 in Ht; done). by rewrite H0.
Qed.

Lemma popFront_ok l : holds h q ((x, e) :: r) l ->
  exists h', deq_popFront h q = Ok (h', e) /\ holds h' q r (map snd r) /\ evolves h q ((x, e) :: r) h' r.
Proof.
  intros Hq. unfold deq_popFront. rewrite (head_cell h q _ l Hq), bind_Ok. cbn [next first].
  destruct (front_neighbour q r) as (b & eb & ys & E & _).
  destruct (remove_cell h q _ l Hq [] (head q) null x e b eb ys) as (h' & E' & H); [cbn [app]; by rewrite E|].
  exists h'. split; [done|]. apply H. cbn [app]. by rewrite E.
Qed.

Lemma popBack_ok l : holds h q (r ++ [(x, e)]) l ->
  exists h', deq_popBack h q = Ok (h', e) /\ holds h' q r (map snd r) /\ evolves h q (r ++ [(x, e)]) h' r.
Proof.
  intros Hq. unfold deq_popBack. rewrite (tail_cell h q _ l Hq), bind_Ok, final_app. cbn [prev final foldl fst].
  destruct (back_neighbour q r) as (xs & ea & E).
  destruct (remove_cell h q _ l Hq xs (final r (head q)) ea x e (tail q) null []) as (h' & E' & H).
  { change ((head q, null) :: (r ++ [(x, e)]) ++ [(tail q, null)]) with ((((head q, null) :: r) ++ [(x, e)]) ++ [(tail q, null)]).
    by rewrite E, <- !app_assoc. }
  exists h'. split; [done|]. apply H. change ((head q, null) :: r ++ [(tail q, null)]) with (((head q, null) :: r) ++ [(tail q, null)]).
  by rewrite E, <- !app_assoc.
Qed.

(** Looking at the ends: the sentinels hold [NULL]. *)
Lemma peekFront_ok cs l : holds h q cs l -> deq_peekFront h q = Ok (hd null l).
Proof.
  intros Hq. unfold deq_peekFront. rewrite (head_cell h q _ l Hq), bind_Ok. cbn [next].
  destruct Hq as [[_ Hl] _ <- _]. unfold load. destruct cs as [|[y f] cs]; cbn [first app linked map hd snd] in *; destruct Hl as [-> _]; done.
Qed.

Lemma peekBack_ok cs l : holds h q cs l -> deq_peekBack h q = Ok (List.last l null).
Proof.
  intros Hq. unfold deq_peekBack. rewrite (tail_cell h q _ l Hq), bind_Ok. cbn [prev].
  destruct Hq as [Hl _ <- _]. unfold load. destruct cs as [|[y f] cs _] using rev_ind.
  - cbn [final foldl]. destruct Hl as [-> _]. done.
  - rewrite final_app. cbn [final foldl fst]. destruct Hl as [_ Hl]. rewrite <- app_assoc in Hl. apply linked_app in Hl as [_ [-> _]].
    rewrite map_app. cbn [map snd mbind res_bind element]. by rewrite last_last.
Qed.
End Ends.

(** *** The loops *)

Lemma cells_number h q cs l : holds h q cs l -> (length cs + 2 <= base.size h)%nat.
Proof.
  intros Hq. pose proof (ho_distinct _ _ _ _ Hq) as Hd. rewrite cells_of_all in Hd.
  assert (Hsub : (list_to_set (cells_of q cs) : gset Z) ⊆ dom h).
  { intros x Hx. apply elem_of_list_to_set in Hx. apply elem_of_dom. rewrite <- cells_of_all in Hx.
    by apply (linked_lookup h _ null null x (ho_linked _ _ _ _ Hq)). }
  apply subseteq_size in Hsub. rewrite size_list_to_set, size_dom in Hsub by done. unfold cells_of in Hsub.
  cbn [length] in Hsub. rewrite length_app, length_map in Hsub. cbn [length] in Hsub. lia.
Qed.

Lemma length_loop h tl cs : forall p fuel count, linked h p (cs ++ [(tl, null)]) null -> tl ∉ map fst cs -> (length cs < fuel)%nat ->
  0 <= count < 2 ^ 31 ->
  while fuel (fun '(e, _) => Ok (negb (e =? tl))) (fun '(e, count) => c ← load h e; count ← chk 32 (count + 1); Ok (next c, count))
    (first cs tl, count) = if count + zlen cs <? 2 ^ 31 then Ok (tl, count + zlen cs) else Err Overflow.
Proof.
  induction cs as [|[x e] cs IH]; intros p [|fuel] count Hl Hd Hf Hc; cbn [length] in *; try lia; cbn [while first app linked map fst] in *.
  - rewrite Z.eqb_refl. cbn [negb mbind res_bind]. change (Z.of_nat 0) with 0. rewrite Z.add_0_r. destruct (Z.ltb_spec count (2 ^ 31)); [done | lia].
  - apply list.not_elem_of_cons in Hd as [Hne Hd]. destruct (Z.eqb_spec x tl); [done|]. cbn [negb mbind res_bind].
    destruct Hl as [E Hl].
    assert (Ex : load h x = Ok (Cell e (first cs tl) p)) by (unfold load; rewrite E, first_app; done). rewrite Ex, bind_Ok. cbn [next].
    destruct (decide (count + 1 < 2 ^ 31)).
    + rewrite chk_ok, !bind_Ok by lia. rewrite (IH x fuel (count + 1) Hl Hd) by lia.
      by replace (count + 1 + zlen cs) with (count + Z.of_nat (S (length cs))) by lia.
    + unfold chk. destruct (Z.leb_spec (- 2 ^ (32 - 1)) (count + 1)), (Z.ltb_spec (count + 1) (2 ^ (32 - 1))); try lia. cbn [andb mbind res_bind].
      destruct (Z.ltb_spec (count + Z.of_nat (S (length cs))) (2 ^ 31)); [lia | done].
Qed.

Lemma length_ok h q cs l : holds h q cs l ->
  deq_length h q = if zlen l <? 2 ^ 31 then Ok (zlen l) else Err Overflow.
Proof.
  intros Hq. unfold deq_length. rewrite (head_cell h q _ l Hq), bind_Ok. cbn [next].
  pose proof (cells_number h q cs l Hq) as Hn. pose proof Hq as [[_ Hl] Hd He _]. rewrite (length_loop h (tail q) cs (head q)); try done; try lia.
  - rewrite <- He, length_map, Z.add_0_l. by destruct (zlen cs <? 2 ^ 31).
  - rewrite cells_of_all in Hd. unfold cells_of in Hd. apply list.NoDup_cons in Hd as [_ Hd]. apply list.NoDup_app in Hd as (_ & Hd & _).
    intros Hin. apply (Hd _ Hin). left.
Qed.

Lemma mkEmpty_loop q cs : forall h l fuel, holds h q cs l -> (length cs < fuel)%nat ->
  exists h', while fuel (fun h => b ← deq_isEmpty h q; Ok (negb b)) (fun h => '(h, _) ← deq_popFront h q; Ok h) h = Ok h' /\
    holds h' q [] [] /\ evolves h q cs h' [].
Proof.
  induction cs as [|[x e] cs IH]; intros h l [|fuel] Hq Hf; cbn [length] in Hf; try lia; cbn [while];
    rewrite (isEmpty_ok h q _ l Hq), bind_Ok; pose proof (ho_elements _ _ _ _ Hq) as El; cbn [map snd] in El; subst l; cbn [negb mbind res_bind].
  - exists h. split; [done|]. split; [done|]. by intros y c.
  - destruct (popFront_ok h q x e cs _ Hq) as (h1 & -> & Hq1 & Hev1). cbn [mbind res_bind].
    destruct (IH h1 (map snd cs) fuel Hq1 ltac:(lia)) as (h2 & E & Hq2 & Hev2). exists h2. split; [exact E|]. split; [done|].
    intros y c Hy Hc. destruct (Hev1 y c Hy Hc) as [Hy1 Hc1]. by apply Hev2.
Qed.

Lemma mkEmpty_ok h q cs l : holds h q cs l -> exists h', deq_mkEmpty h q = Ok h' /\ holds h' q [] [] /\ evolves h q cs h' [].
Proof. intros Hq. apply (mkEmpty_loop q cs h l); [done|]. pose proof (cells_number h q cs l Hq). lia. Qed.
End Queue.

(** ** The specification: lists *)

Inductive operation :=
| PushFront (e : Z) | PushBack (e : Z) | PopFront | PopBack | PeekFront | PeekBack | IsEmpty | MkEmpty | Length.

(** The list after an operation and what it returns, zero for [void]; [None]
    for undefined behaviour: taking from an empty queue, and more elements
    than an [int] can count. *)
Definition spec (o : operation) (l : list Z) : option (list Z * Z) :=
  match o with
  | PushFront e => Some (e :: l, 0)
  | PushBack e => Some (l ++ [e], 0)
  | PopFront => match l with [] => None | e :: l => Some (l, e) end
  | PopBack => match l with [] => None | _ => Some (removelast l, List.last l null) end
  | PeekFront => Some (l, hd null l)
  | PeekBack => Some (l, List.last l null)
  | IsEmpty => Some (l, match l with [] => 1 | _ => 0 end)
  | MkEmpty => Some ([], 0)
  | Length => if zlen l <? 2 ^ 31 then Some (l, zlen l) else None
  end.

Section Refinement.
Context (malloc : heap -> Z).

Definition perform (o : operation) (h : heap) (q : dequeue) : res (heap * Z) :=
  match o with
  | PushFront e => h ← deq_pushFront malloc h q e; Ok (h, 0)
  | PushBack e => h ← deq_pushBack malloc h q e; Ok (h, 0)
  | PopFront => deq_popFront h q
  | PopBack => deq_popBack h q
  | PeekFront => e ← deq_peekFront h q; Ok (h, e)
  | PeekBack => e ← deq_peekBack h q; Ok (h, e)
  | IsEmpty => b ← deq_isEmpty h q; Ok (h, if (b : bool) then 1 else 0)
  | MkEmpty => h ← deq_mkEmpty h q; Ok (h, 0)
  | Length => n ← deq_length h q; Ok (h, n)
  end.

(** A sequence of operations, with what they return *)
Fixpoint perform_all (os : list operation) (h : heap) (q : dequeue) : res (heap * list Z) :=
  match os with
  | [] => Ok (h, [])
  | o :: os => '(h, r) ← perform o h q; '(h, rs) ← perform_all os h q; Ok (h, r :: rs)
  end.

Fixpoint spec_all (os : list operation) (l : list Z) : option (list Z * list Z) :=
  match os with
  | [] => Some (l, [])
  | o :: os => '(l, r) ← spec o l; '(l, rs) ← spec_all os l; Some (l, r :: rs)
  end.

Hypothesis Hmalloc : forall h, malloc h <> null /\ h !! malloc h = None.

Lemma evolves_refl h q cs : evolves h q cs h cs.
Proof. by intros x c. Qed.

Lemma perform_ok o h q cs l : holds h q cs l ->
  match spec o l with
  | Some (l', r) => exists h' cs', perform o h q = Ok (h', r) /\ holds h' q cs' l' /\ evolves h q cs h' cs'
  | None => exists f, perform o h q = Err f
  end.
Proof.
  intros Hq. pose proof (ho_elements _ _ _ _ Hq) as El. destruct o as [e|e| | | | | | |]; cbn [spec perform].
  - destruct (pushFront_ok malloc Hmalloc h q cs l Hq e) as (h' & cs' & -> & H). exists h', cs'. done.
  - destruct (pushBack_ok malloc Hmalloc h q cs l Hq e) as (h' & cs' & -> & H). exists h', cs'. done.
  - destruct cs as [|[x e] r]; subst l; cbn [map snd].
    + rewrite (popFront_empty h q _ Hq). by eexists.
    + destruct (popFront_ok h q x e r _ Hq) as (h' & E & H). by exists h', r.
  - destruct cs as [|[x e] r _] using rev_ind; subst l.
    + rewrite (popBack_empty h q _ Hq). by eexists.
    + destruct (popBack_ok h q x e r _ Hq) as (h' & E & H). rewrite map_app. cbn [map snd].
      rewrite removelast_last, last_last. destruct (map snd r ++ [e]) eqn:En; [by destruct r|]. by exists h', r.
  - rewrite (peekFront_ok h q cs l Hq). exists h, cs. split; [done|]. split; [done | apply evolves_refl].
  - rewrite (peekBack_ok h q cs l Hq). exists h, cs. split; [done|]. split; [done | apply evolves_refl].
  - rewrite (isEmpty_ok h q cs l Hq). exists h, cs. split; [by destruct l|]. split; [done | apply evolves_refl].
  - destruct (mkEmpty_ok h q cs l Hq) as (h' & -> & H). by exists h', [].
  - rewrite (length_ok h q cs l Hq). destruct (zlen l <? 2 ^ 31); [|by eexists].
    exists h, cs. split; [done|]. split; [done | apply evolves_refl].
Qed.

Lemma perform_all_ok os : forall h q cs l, holds h q cs l ->
  match spec_all os l with
  | Some (l', rs) => exists h' cs', perform_all os h q = Ok (h', rs) /\ holds h' q cs' l' /\ evolves h q cs h' cs'
  | None => exists f, perform_all os h q = Err f
  end.
Proof.
  induction os as [|o os IH]; intros h q cs l Hq; cbn [spec_all perform_all].
  - exists h, cs. split; [done|]. split; [done | apply evolves_refl].
  - pose proof (perform_ok o h q cs l Hq) as Ho. destruct (spec o l) as [[l1 r]|]; cbn [mbind option_bind].
    + destruct Ho as (h1 & cs1 & -> & Hq1 & Hev1). rewrite bind_Ok. specialize (IH h1 q cs1 l1 Hq1).
      destruct (spec_all os l1) as [[l2 rs]|]; cbn [mbind option_bind].
      * destruct IH as (h2 & cs2 & -> & Hq2 & Hev2). rewrite bind_Ok. exists h2, cs2. split; [done|]. split; [done|].
        intros x c Hx Hc. destruct (Hev1 x c Hx Hc). by apply Hev2.
      * destruct IH as [f ->]. by exists f.
    + destruct Ho as [f ->]. by exists f.
Qed.

(** C17: a new queue behaves as a list under every sequence of operations: each
    returns what the operation on the list returns, and stops with a fault
    exactly where that is undefined; the rest of the memory is left as it
    was, and no cell of it is ever used. *)
Theorem deque_implements_list os h : h !! null = None ->
  exists h1 q, deq_create malloc h = Ok (h1, q) /\
    match spec_all os [] with
    | Some (l, rs) => exists h2 cs, perform_all os h1 q = Ok (h2, rs) /\ holds h2 q cs l /\
        forall x c, h !! x = Some c -> h2 !! x = Some c /\ x ∉ cells_of q cs
    | None => exists f, perform_all os h1 q = Err f
    end.
Proof.
  intros H0. destruct (create_ok malloc Hmalloc h H0) as (h1 & q & E & Hq & Hf & Hn). exists h1, q. split; [done|].
  pose proof (perform_all_ok os h1 q [] [] Hq) as Ho. destruct (spec_all os []) as [[l rs]|]; [|done].
  destruct Ho as (h2 & cs & E2 & Hq2 & Hev). exists h2, cs. split; [done|]. split; [done|]. intros x c Hx.
  assert (Hc : x ∉ cells_of q []) by (intros Hin; specialize (Hn x Hin); congruence).
  apply Hev; [by rewrite Hf | done].
Qed.
End Refinement.

(** The address after the largest one *)
Definition ex_malloc (h : heap) : Z := 1 + foldr Z.max 0 (map fst (map_to_list h)).

Lemma ex_malloc_ok h : ex_malloc h <> null /\ h !! ex_malloc h = None.
Proof.
  assert (Hmax : forall l : list Z, 0 <= foldr Z.max 0 l /\ forall x, x ∈ l -> x <= foldr Z.max 0 l).
  { induction l as [|y l [IH1 IH2]]; cbn [foldr]; [split; [lia | intros x Hx; inversion Hx]|]. split; [lia|].
    intros x Hx. apply list.elem_of_cons in Hx as [->|Hx]; [lia|]. specialize (IH2 x Hx). lia. }
  destruct (Hmax (map fst (map_to_list h))) as [H0 H1]. unfold ex_malloc, null. split; [lia|].
  destruct (h !! _) as [c|] eqn:E; [|done]. apply elem_of_map_to_list in E. apply (list.list_elem_of_fmap_2 fst) in E. cbn [fst] in E.
  apply H1 in E. unfold fmap in E. change (list.list_fmap _ _ fst) with (map (@fst Z dcell)) in E. lia.
Qed.

Lemma deque_implements_list_witness : exists h1 q, deq_create ex_malloc (<[7 := Cell 1 2 3]> ∅) = Ok (h1, q) /\
  exists h2 cs, perform_all ex_malloc [PushBack 5; PushFront 6; PushBack 4; PopBack; PeekBack; Length; PopFront] h1 q =
      Ok (h2, [0; 0; 0; 4; 5; 2; 6]) /\ holds h2 q cs [5] /\
    forall x c, (<[7 := Cell 1 2 3]> ∅ : heap) !! x = Some c -> h2 !! x = Some c /\ x ∉ cells_of q cs.
Proof.
  exact (deque_implements_list ex_malloc ex_malloc_ok
    [PushBack 5; PushFront 6; PushBack 4; PopBack; PeekBack; Length; PopFront] (<[7 := Cell 1 2 3]> ∅) eq_refl).
Defined.
