(* ===== verification/Alfg.v ===== *)
(** * The additive lagged Fibonacci generator of the tree search

    [rng/alfg.c] of UTS, a splittable generator that can be compiled in place
    of SHA-1.  A state is a flat array of int: scalars, the number of a node in
    the binary tree of all sequences, and a shift register. *)

From S2P Require Import Prelude.

(** ** Arithmetic on int

    The registers rely on sums that wrap around, which the standard leaves
    undefined.  [int_ops] is what the compiler makes of them. *)
Class int_ops := { iadd : Z -> Z -> res Z; ishl : Z -> res Z }.

(** ISO C: overflow is undefined, and so is a shift of a negative value. *)
Definition iso_int : int_ops :=
  {| iadd x y := chk 32 (x + y); ishl x := if x <? 0 then Err Overflow else sshl 32 x 1 |}.

(** Two's complement, as with the compiler's option -fwrapv *)
Definition wrapping_int : int_ops :=
  {| iadd x y := Ok (i32 (x + y)); ishl x := Ok (i32 (2 * x)) |}.

(** ** The state *)

Definition J_STATE_SIZE := 0.
Definition J_L := 1.
Definition J_SEED := 2.
Definition J_K := 3.
Definition J_CBIT := 4.
Definition J_RUNUP := 5.
Definition J_LP := 6.
Definition J_KP := 7.
Definition J_ZP := 8.
Definition N_SCALARS := 9.
Definition NODE0 := N_SCALARS.
Definition REG0 (l : Z) := NODE0 + l - 1.

Definition POS_MASK := 0x7fffffff.
Definition HIGH_BIT := 0x80000000.

(** The lags: [k], [cbit] and [runup] for [l] *)
Definition lags (l : Z) : option (Z * Z * Z) :=
  if l =? 7 then Some (4, 1, 4 * 71) else
  if l =? 17 then Some (12, 5, 12 * 65) else
  if l =? 55 then Some (31, 18, 31 * 93) else
  if l =? 159 then Some (128, 63, 128 * 179) else
  if l =? 607 then Some (334, 166, 334 * 628) else
  if l =? 1279 then Some (861, 233, 861 * 1291) else None.

Section Generator.
Context `{int_ops}.
Context (UTS_ALFG_L : Z).

(** One turn of the run-up: the register moves on by [k] places. *)
Definition shift_register (l k : Z) (st : list Z * list Z) : res (list Z * list Z) :=
  let reg := REG0 l in
  let '(s, tmp) := st in
  tmp ← for_range 0 k (fun i tmp => v ← s.[reg + (i + l - k)]; tmp.[i <- v]) tmp;
  s ← for_range k l (fun i s => v ← s.[reg + (i - k)]; s.[reg + i <- v]) s;
  s ← for_range 0 k (fun i s => a ← s.[reg + i]; b ← tmp.[i]; c ← iadd a b; s.[reg + i <- c]) s;
  Ok (s, tmp).

(** [for (j = 0; j < mystate[J_RUNUP]; j += k)].  The fuel covers the turns of
    every choice of [l]. *)
Definition run_up (l k : Z) (s tmp : list Z) : res (list Z) :=
  r ← while 1292 (fun '(j, (s, tmp)) => n ← s.[J_RUNUP]; Ok (j <? n))
    (fun '(j, st) => st ← shift_register l k st; j ← chk 32 (j + k); Ok (j, st)) (0, (s, tmp));
  Ok (fst (snd r)).

(** The node array and the register of the root *)
Definition init_arrays (l cbit : Z) (s : list Z) : res (list Z) :=
  s ← for_range 0 (l - 1) (fun i s => s.[NODE0 + i <- 0]) s;
  s ← s.[NODE0 + 0 <- 2];
  s ← for_range 0 l (fun i s => s.[REG0 l + i <- 0]) s;
  v ← s.[REG0 l + cbit];
  v ← iadd v 1;
  s ← s.[REG0 l + cbit <- v];
  v ← s.[J_SEED];
  v ← ishl v;
  s ← s.[J_SEED <- Z.land v POS_MASK];
  v ← s.[J_SEED];
  s.[REG0 l + 0 <- Z.lxor 2 v].

(** [tmp] is the contents of a local array of 861 elements. *)
Definition rng_init (tmp mystate : list Z) (seed : Z) : res (list Z) :=
  let l := UTS_ALFG_L in
  let state_size := 2 * UTS_ALFG_L - 1 + N_SCALARS in
  match lags l with
  | None => Err Aborted
  | Some (k, cbit, runup) =>
    s ← mystate.[J_STATE_SIZE <- state_size];
    s ← s.[J_L <- l];
    s ← s.[J_SEED <- seed];
    s ← s.[J_K <- k];
    s ← s.[J_CBIT <- cbit];
    s ← s.[J_RUNUP <- runup];
    s ← s.[J_LP <- l - 1];
    s ← s.[J_KP <- k - 1];
    s ← s.[J_ZP <- 0];
    s ← init_arrays l cbit s;
    k ← s.[J_K];
    run_up l k s tmp
  end.

(** The first half of [rng_spawn]: the parent moves to its next node. *)
Definition next_node (mystate : list Z) : res (list Z * Z) :=
  l ← mystate.[J_L];
  zp ← mystate.[J_ZP];
  zp ← chk 32 (zp - 1);
  zp ← (if zp <? 0 then chk 32 (zp + (l - 1)) else Ok zp);
  v ← mystate.[NODE0 + zp];
  if negb (Z.land (u32 v) HIGH_BIT =? 0) then Err Aborted else
  v ← ishl v;
  my ← mystate.[NODE0 + zp <- v];
  my ← my.[J_ZP <- zp];
  Ok (my, zp).

(** The second half: the register of the new state *)
Definition child_register (tmp new : list Z) (l zp : Z) : res (list Z) :=
  let reg := REG0 l in
  r ← for_range 0 (l - 1) (fun i '(new, j) =>
      v ← new.[NODE0 + j]; new ← new.[reg + i <- v]; Ok (new, if j + 1 =? l - 1 then 0 else j + 1)) (new, zp);
  let new := fst r in
  cbit ← new.[J_CBIT];
  v ← new.[reg + cbit];
  v ← iadd v 1;
  new ← new.[reg + cbit <- v];
  v ← new.[reg + 0];
  seed ← new.[J_SEED];
  new ← new.[reg + 0 <- Z.lxor v seed];
  new ← new.[reg + (l - 1) <- 0];
  v ← new.[J_L];
  new ← new.[J_LP <- v - 1];
  v ← new.[J_K];
  new ← new.[J_KP <- v - 1];
  k ← new.[J_K];
  run_up l k new tmp.

(** The parent and the new state *)
Definition rng_spawn (tmp mystate newstate : list Z) (spawnNumber : Z) : res (list Z * list Z) :=
  state_size ← mystate.[J_STATE_SIZE];
  l ← mystate.[J_L];
  r ← next_node mystate;
  let '(my, zp) := r in
  new ← for_range 0 (state_size - l) (fun i new => v ← my.[i]; new.[i <- v]) newstate;
  v ← my.[NODE0 + zp];
  v ← iadd v 2;
  my ← my.[NODE0 + zp <- v];
  new ← child_register tmp new l zp;
  Ok (my, new).

Definition rng_rand (mystate : list Z) : res Z :=
  l ← mystate.[J_L];
  lp ← mystate.[J_LP];
  v ← mystate.[REG0 l + lp];
  Ok (Z.land (Z.shiftr v 1) POS_MASK).

(** The state and the value *)
Definition rng_nextrand (mystate : list Z) : res (list Z * Z) :=
  l ← mystate.[J_L];
  lp ← mystate.[J_LP];
  kp ← mystate.[J_KP];
  a ← mystate.[REG0 l + lp];
  b ← mystate.[REG0 l + kp];
  v ← iadd a b;
  s ← mystate.[REG0 l + lp <- v];
  let n := Z.land (Z.shiftr v 1) POS_MASK in
  let lp := if lp - 1 <? 0 then l - 1 else lp - 1 in
  let kp := if kp - 1 <? 0 then l - 1 else kp - 1 in
  s ← s.[J_LP <- lp];
  s ← s.[J_KP <- kp];
  Ok (s, n).
End Generator.


(** ** Specification

    A node [m] of the tree of sequences has the children [2 m], a new
    sequence, and [2 m + 1], where its own sequence continues.  An entry of the
    node array gathers every [l - 1]-th bit of the number of the node. *)

Fixpoint gather (l : Z) (n : nat) (m i : Z) : Z :=
  match n with
  | O => 0
  | S n => 2 * (Z.b2z (Z.testbit m i) + gather l n m (i + (l - 1)))
  end.

Definition node_word (l m i : Z) : Z := gather l 31 m i.

(** The register of a new sequence before its run-up *)
Definition seeded (l cbit seed m : Z) : list Z :=
  map (fun i => if i =? l - 1 then 0 else if i =? 0 then Z.lxor (i32 (node_word l m i)) seed
    else if i =? cbit then i32 (node_word l m i + 1) else i32 (node_word l m i)) (seqZ 0 l).

(** The sequence of a lagged Fibonacci generator, the last element first *)
Definition lag_step (l k : Z) (h : list Z) : list Z := i32 (zth 0 h (k - 1) + zth 0 h (l - 1)) :: h.
Definition history (l k n : Z) (h : list Z) : list Z := Nat.iter (Z.to_nat n) (lag_step l k) h.

(** The path to a node: from a state to a new one, or on with the state *)
Definition node_of (path : list bool) : Z := foldl (fun m (b : bool) => if b then 2 * m else 2 * m + 1) 1 path.

(** The elements of the register of a state *)
Definition register (l : Z) (s : list Z) : list Z := map (fun i => zth 0 s (REG0 l + i)) (seqZ 0 l).

(** ** Loops over a part of an array *)

Ltac zcases :=
  repeat match goal with
  | |- context [?a <=? ?b] => destruct (Z.leb_spec a b); cbn [andb orb negb]; try lia
  | |- context [?a <? ?b] => destruct (Z.ltb_spec a b); cbn [andb orb negb]; try lia
  | |- context [?a =? ?b] => destruct (Z.eqb_spec a b); cbn [andb orb negb]; try lia
  end.

Lemma for_range_write (base : Z) (g : Z -> Z) (f : Z -> list Z -> res (list Z)) lo hi s :
  lo <= hi -> 0 <= base + lo -> base + hi <= zlen s ->
  (forall i s', lo <= i < hi -> zlen s' = zlen s ->
    (forall p, 0 <= p < zlen s -> p < base + lo \/ base + i <= p -> zth 0 s' p = zth 0 s p) ->
    f i s' = aset s' (base + i) (g i)) ->
  exists s', for_range lo hi f s = Ok s' /\ zlen s' = zlen s /\
    (forall i, lo <= i < hi -> zth 0 s' (base + i) = g i) /\
    forall p, 0 <= p < zlen s -> p < base + lo \/ base + hi <= p -> zth 0 s' p = zth 0 s p.
Proof.
  intros Hle Hlo Hhi Hf.
  destruct (for_range_inv (fun i s' => zlen s' = zlen s /\ (forall j, lo <= j < i -> zth 0 s' (base + j) = g j) /\
    forall p, 0 <= p < zlen s -> p < base + lo \/ base + i <= p -> zth 0 s' p = zth 0 s p) f lo hi s) as (s' & E & I).
  - done.
  - split; [done|]. split; [intros; lia | done].
  - intros i s' Hi (Hl & Hg & Hs). rewrite Hf, aset_ok by (done || lia). eexists. split; [done|].
    rewrite zlen_insert. split; [done|]. split.
    + intros j Hj. rewrite zth_insert by lia. destruct (Z.eqb_spec (base + j) (base + i)); [f_equal; lia | apply Hg; lia].
    + intros p Hp Hout. rewrite zth_insert_ne by lia. apply Hs; lia.
  - by exists s'.
Qed.

Lemma zth_seqZ (g : Z -> Z) l i : 0 <= i < l -> zth 0 (map g (seqZ 0 l)) i = g i.
Proof.
  intros Hi. unfold zth. rewrite (nth_indep _ 0 (g 0)) by (rewrite length_map, length_seqZ; lia).
  rewrite map_nth. f_equal. apply nth_lookup_Some. rewrite lookup_seqZ_lt by lia. f_equal. lia.
Qed.

Lemma register_length l s : 0 <= l -> zlen (register l s) = l.
Proof. intros. unfold register. rewrite length_map, length_seqZ. lia. Qed.

(** ** The sequence *)

Lemma zth_cons_0 x (h : list Z) : zth 0 (x :: h) 0 = x.
Proof. done. Qed.

Lemma zth_cons_pos x (h : list Z) i : 0 < i -> zth 0 (x :: h) i = zth 0 h (i - 1).
Proof. intros. unfold zth. by replace (Z.to_nat i) with (S (Z.to_nat (i - 1))) by lia. Qed.

Lemma history_succ l k n h : 0 <= n -> history l k (n + 1) h = lag_step l k (history l k n h).
Proof. intros. unfold history. by replace (Z.to_nat (n + 1)) with (S (Z.to_nat n)) by lia. Qed.

Lemma history_add l k n m h : 0 <= n -> 0 <= m -> history l k (n + m) h = history l k n (history l k m h).
Proof. intros. unfold history. by rewrite Z2Nat.inj_add, Nat.iter_add by lia. Qed.

Lemma history_length l k n h : 0 <= n -> zlen (history l k n h) = n + zlen h.
Proof.
  revert n. apply (natlike_ind (fun n => zlen (history l k n h) = n + zlen h)); [done|].
  intros n Hn IH. unfold Z.succ. rewrite history_succ by done. unfold lag_step. rewrite length_cons. lia.
Qed.

Lemma history_old l k n h : 0 <= n -> forall i, n <= i -> zth 0 (history l k n h) i = zth 0 h (i - n).
Proof.
  revert n. apply (natlike_ind (fun n => forall i, n <= i -> zth 0 (history l k n h) i = zth 0 h (i - n))).
  - intros i _. by rewrite Z.sub_0_r.
  - intros n Hn IH i Hi. unfold Z.succ in *. rewrite history_succ by done. unfold lag_step.
    rewrite zth_cons_pos, IH by lia. f_equal. lia.
Qed.

Lemma history_new l k n h : 0 < k -> 0 < l -> 0 <= n -> forall i, 0 <= i < n ->
  zth 0 (history l k n h) i = i32 (zth 0 (history l k n h) (i + k) + zth 0 (history l k n h) (i + l)).
Proof.
  intros Hk Hl. revert n. apply (natlike_ind (fun n => forall i, 0 <= i < n -> zth 0 (history l k n h) i =
    i32 (zth 0 (history l k n h) (i + k) + zth 0 (history l k n h) (i + l)))).
  - intros; lia.
  - intros n Hn IH i Hi. unfold Z.succ in *. rewrite history_succ by done. unfold lag_step.
    rewrite (zth_cons_pos _ _ (i + k)), (zth_cons_pos _ _ (i + l)) by lia.
    destruct (Z.eq_dec i 0) as [->|].
    + rewrite zth_cons_0. do 3 f_equal; lia.
    + rewrite zth_cons_pos, IH by lia. do 3 f_equal; lia.
Qed.

(** Elements that only depend on the first [l] ones *)
Lemma history_ext l k n h h' : 0 < k <= l -> 0 <= n -> (forall i, 0 <= i < l -> zth 0 h i = zth 0 h' i) ->
  forall i, 0 <= i < n + l -> zth 0 (history l k n h) i = zth 0 (history l k n h') i.
Proof.
  intros Hk Hn E. revert n Hn. apply (natlike_ind (fun n => forall i, 0 <= i < n + l ->
    zth 0 (history l k n h) i = zth 0 (history l k n h') i)); [intros; apply E; lia|].
  intros n Hn IH i Hi. unfold Z.succ in *. rewrite !history_succ by done. unfold lag_step.
  destruct (Z.eq_dec i 0) as [->|]; [rewrite !zth_cons_0, !IH by lia; done|].
  rewrite !zth_cons_pos by lia. apply IH. lia.
Qed.

(** ** The words of a node *)

Lemma pow2_succ n : 0 <= n -> 2 ^ (n + 1) = 2 * 2 ^ n.
Proof. apply Z.pow_succ_r. Qed.

Lemma gather_S l n m i : gather l (S n) m i = 2 * (Z.b2z (Z.testbit m i) + gather l n m (i + (l - 1))).
Proof. done. Qed.

Lemma gather_range l n m i : 0 <= gather l n m i < 2 ^ (Z.of_nat n + 1) - 1.
Proof.
  revert i. induction n as [|n IH]; intros i; [cbn; lia|]. cbn [gather].
  specialize (IH (i + (l - 1))). rewrite Nat2Z.inj_succ. unfold Z.succ.
  rewrite (pow2_succ (Z.of_nat n + 1)) by lia. destruct (Z.testbit m i); cbn [Z.b2z]; lia.
Qed.

Lemma gather_succ l n m i : 1 <= l -> 0 <= i ->
  gather l (S n) m i = gather l n m i + 2 ^ (Z.of_nat n + 1) * Z.b2z (Z.testbit m (i + (l - 1) * Z.of_nat n)).
Proof.
  intros Hl. revert i. induction n as [|n IH]; intros i Hi.
  - cbn [gather]. change (Z.of_nat 0) with 0. rewrite Z.mul_0_r, !Z.add_0_r. change (2 ^ (0 + 1)) with 2. lia.
  - cbn [gather] in *. rewrite IH by lia. rewrite !Nat2Z.inj_succ. unfold Z.succ.
    rewrite (pow2_succ (Z.of_nat n + 1)) by lia.
    replace (i + (l - 1) + (l - 1) * Z.of_nat n) with (i + (l - 1) * (Z.of_nat n + 1)) by ring. lia.
Qed.

(** The bits of [2 m] and [2 m + 1] are those of [m] one place further. *)
Lemma gather_shift l n m (b : bool) i : 1 <= l -> 0 <= i ->
  gather l n (if b then 2 * m else 2 * m + 1) (i + 1) = gather l n m i.
Proof.
  intros Hl. revert i. induction n as [|n IH]; intros i Hi; [done|]. cbn [gather].
  replace (i + 1 + (l - 1)) with (i + (l - 1) + 1) by lia. rewrite IH by lia. do 3 f_equal.
  change (i + 1) with (Z.succ i). destruct b; [by rewrite Z.testbit_even_succ | by rewrite Z.testbit_odd_succ].
Qed.

Lemma gather_0 l n i : gather l n 0 i = 0.
Proof. revert i. induction n as [|n IH]; intros i; [done|]. cbn [gather]. by rewrite IH, Z.bits_0. Qed.

Lemma node_word_range l m i : 0 <= node_word l m i < 2 ^ 32 - 1.
Proof. apply (gather_range l 31). Qed.

Lemma node_word_root l i : 1 < l -> 0 <= i -> node_word l 1 i = if i =? 0 then 2 else 0.
Proof.
  intros Hl Hi. pose proof (fun n j => gather_shift l n 0 false j ltac:(lia)) as Hg.
  change (if false then 2 * 0 else 2 * 0 + 1) with 1 in Hg. unfold node_word. destruct (Z.eqb_spec i 0) as [->|].
  - change 31%nat with (S 30). rewrite gather_S. replace (0 + (l - 1)) with (l - 2 + 1) by lia.
    by rewrite Hg, gather_0 by lia.
  - replace i with (i - 1 + 1) by lia. by rewrite Hg, gather_0 by lia.
Qed.

Lemma node_word_next l m (b : bool) i : 1 <= l -> 0 <= i ->
  node_word l (if b then 2 * m else 2 * m + 1) (i + 1) = node_word l m i.
Proof. apply gather_shift. Qed.

Lemma node_word_next' l m (b : bool) i : 1 <= l -> 0 < i ->
  node_word l (if b then 2 * m else 2 * m + 1) i = node_word l m (i - 1).
Proof. intros. replace i with (i - 1 + 1) at 1 by lia. apply node_word_next; lia. Qed.

(** The bit that leaves the word when the node moves on *)
Definition top_bit (l m : Z) : bool := Z.testbit m (31 * (l - 1) - 1).

Lemma node_word_top l m : 2 <= l ->
  node_word l m (l - 2) = gather l 30 m (l - 2) + 2 ^ 31 * Z.b2z (top_bit l m).
Proof.
  intros Hl. unfold node_word. rewrite (gather_succ l 30) by lia. unfold top_bit.
  replace (l - 2 + (l - 1) * Z.of_nat 30) with (31 * (l - 1) - 1) by lia. done.
Qed.

Lemma node_word_first l m (b : bool) : 2 <= l -> top_bit l m = false ->
  node_word l (if b then 2 * m else 2 * m + 1) 0 = 2 * node_word l m (l - 2) + if b then 0 else 2.
Proof.
  intros Hl Htop. rewrite node_word_top, Htop by done. unfold node_word.
  change 31%nat with (S 30). rewrite gather_S. replace (0 + (l - 1)) with (l - 2 + 1) by lia.
  rewrite gather_shift by lia. destruct b; [rewrite Z.testbit_even_0 | rewrite Z.testbit_odd_0]; cbn [Z.b2z]; lia.
Qed.

Lemma gather_bits l n m m' i : gather l n m i = gather l n m' i ->
  forall t, 0 <= t < Z.of_nat n -> Z.testbit m (i + (l - 1) * t) = Z.testbit m' (i + (l - 1) * t).
Proof.
  revert i. induction n as [|n IH]; intros i E t Ht; [lia|]. cbn [gather] in E.
  assert (Hev : forall m j, exists x, gather l n m j = 2 * x) by (intros; destruct n; cbn [gather]; eexists; [by rewrite Z.mul_0_r | done]).
  destruct (Hev m (i + (l - 1))) as [x Hx], (Hev m' (i + (l - 1))) as [y Hy].
  assert (Hb : Z.testbit m i = Z.testbit m' i) by (destruct (Z.testbit m i), (Z.testbit m' i); cbn [Z.b2z] in E; lia || done).
  destruct (Z.eq_dec t 0) as [->|]; [by rewrite Z.mul_0_r, Z.add_0_r|].
  replace (i + (l - 1) * t) with (i + (l - 1) + (l - 1) * (t - 1)) by ring.
  apply IH; [rewrite Hb in E; lia | lia].
Qed.

(** The words of a node determine it. *)
Lemma node_words_inj l m m' : 2 <= l -> 0 <= m < 2 ^ (31 * (l - 1)) -> 0 <= m' < 2 ^ (31 * (l - 1)) ->
  (forall i, 0 <= i < l - 1 -> node_word l m i = node_word l m' i) -> m = m'.
Proof.
  intros Hl Hm Hm' E. apply Z.bits_inj'. intros n Hn. destruct (Z.lt_ge_cases n (31 * (l - 1))).
  - pose proof (Z.div_mod n (l - 1) ltac:(lia)). pose proof (Z.mod_pos_bound n (l - 1) ltac:(lia)).
    assert (0 <= n / (l - 1) < 31) by (split; [apply Z.div_pos; lia | apply Z.div_lt_upper_bound; lia]).
    replace n with (n mod (l - 1) + (l - 1) * (n / (l - 1))) by lia.
    apply (gather_bits l 31); [apply E; lia | lia].
  - by rewrite (testbit_above (31 * (l - 1)) m), (testbit_above (31 * (l - 1)) m') by lia.
Qed.

(** ** Machine integers *)

Lemma signed_add_l w x y : 0 < w -> signed w (signed w x + y) = signed w (x + y).
Proof.
  intros Hw. pose proof (unsigned_signed w x Hw) as E. unfold unsigned in E.
  by rewrite <- signed_unsigned, <- Z.add_mod_idemp_l, E, Z.add_mod_idemp_l, signed_unsigned by lia.
Qed.

Lemma signed_double w x : 0 < w -> signed w (2 * signed w x) = signed w (2 * x).
Proof. intros. by rewrite <- !Z.add_diag, signed_add_l, (Z.add_comm x), signed_add_l by done. Qed.

Lemma i32_inj x y : 0 <= x < 2 ^ 32 -> 0 <= y < 2 ^ 32 -> i32 x = i32 y -> x = y.
Proof.
  intros Hx Hy E. rewrite <- (unsigned_small 32 x), <- (unsigned_small 32 y) by done.
  by rewrite <- (unsigned_signed 32 x), <- (unsigned_signed 32 y), E by done.
Qed.

(** The test for the high bit *)
Lemma high_bit_test x : 0 <= x < 2 ^ 32 -> (Z.land (u32 (i32 x)) HIGH_BIT =? 0) = (x <? 2 ^ 31).
Proof.
  intros Hx. rewrite unsigned_signed, unsigned_small by lia.
  assert (Hl : Z.land x HIGH_BIT = 2 ^ 31 * Z.b2z (Z.testbit x 31)).
  { apply Z.bits_inj'. intros n Hn. rewrite Z.land_spec. unfold HIGH_BIT. change 0x80000000 with (2 ^ 31).
    rewrite Z.pow2_bits_eqb, (Z.mul_comm (2 ^ 31)), Z.mul_pow2_bits by lia.
    destruct (Z.eqb_spec 31 n) as [<-|]; [by rewrite Z.sub_diag, Z.b2z_bit0, andb_true_r|].
    rewrite andb_false_r. destruct (Z.testbit x 31); cbn [Z.b2z]; [|by rewrite Z.bits_0].
    destruct (Z.lt_ge_cases n 31); [by rewrite Z.testbit_neg_r by lia|].
    change 1 with (2 ^ 0). by rewrite Z.pow2_bits_eqb by lia; destruct (Z.eqb_spec 0 (n - 31)); [lia|]. }
  rewrite Hl. destruct (Z.testbit x 31) eqn:E; cbn [Z.b2z].
  - destruct (Z.ltb_spec x (2 ^ 31)); [|done]. by rewrite (testbit_above 31 x) in E by lia.
  - destruct (Z.ltb_spec x (2 ^ 31)); [done|]. enough (x < 2 ^ 31) by lia. apply bits_bound; [lia | lia |].
    intros i Hi. destruct (Z.eq_dec i 31) as [->|]; [done|]. by apply (testbit_above 32 x); lia.
Qed.

Section Correctness.
#[local] Existing Instance wrapping_int.
Context (l k cbit runup : Z) (Hlags : lags l = Some (k, cbit, runup)).

Lemma lags_ok : 7 <= l /\ 0 < k < l /\ k <= 861 /\ l <= 2 * k /\ 0 < cbit < l - 1 /\ l - 1 <= 1278 /\
  exists n, runup = k * n /\ 0 <= n < 1292.
Proof.
  revert Hlags. unfold lags. zcases; intros E; [injection E as <- <- <- ..| discriminate E];
    (repeat split; try lia; eexists; split; [reflexivity | lia]).
Qed.

Abbreviation reg := (REG0 l).
Abbreviation state_size := (2 * l - 1 + N_SCALARS).

(** What a loop on the register leaves as it was *)
Definition keeps (s s' : list Z) : Prop := zlen s' = zlen s /\ forall p, 0 <= p < reg -> zth 0 s' p = zth 0 s p.

Lemma shift_register_ok s tmp h : zlen s = state_size -> zlen tmp = 861 ->
  (forall i, 0 <= i < l -> zth 0 s (reg + i) = zth 0 h i) ->
  exists s' tmp', shift_register l k (s, tmp) = Ok (s', tmp') /\ zlen tmp' = 861 /\ keeps s s' /\
    forall i, 0 <= i < l -> zth 0 s' (reg + i) = zth 0 (history l k k h) i.
Proof.
  intros Hs Ht Hh. destruct lags_ok as (? & ? & ? & ? & _). unfold REG0, NODE0, N_SCALARS in *.
  unfold shift_register, keeps, REG0, NODE0, N_SCALARS.
  destruct (for_range_write 0 (fun i => zth 0 h (i + l - k)) (fun i tmp => v ← s.[9 + l - 1 + (i + l - k)]; tmp.[i <- v]) 0 k tmp)
    as (t1 & -> & Hl1 & Hg1 & _); [lia | lia | lia | |].
  { intros i s' Hi _ _. rewrite (aget_ok 0), bind_Ok, Hh by lia. done. }
  rewrite bind_Ok.
  destruct (for_range_write (9 + l - 1) (fun i => zth 0 h (i - k)) (fun i s => v ← s.[9 + l - 1 + (i - k)]; s.[9 + l - 1 + i <- v]) k l s)
    as (s2 & -> & Hl2 & Hg2 & Hs2); [lia | lia | lia | |].
  { intros i s' Hi Hl' Hs'. rewrite (aget_ok 0), bind_Ok, Hs', Hh by lia. done. }
  rewrite bind_Ok.
  destruct (for_range_write (9 + l - 1) (fun i => i32 (zth 0 h i + zth 0 h (i + l - k)))
    (fun i s => a ← s.[9 + l - 1 + i]; b ← t1.[i]; c ← iadd a b; s.[9 + l - 1 + i <- c]) 0 k s2)
    as (s3 & -> & Hl3 & Hg3 & Hs3); [lia | lia | lia | |].
  { intros i s' Hi Hl' Hs'. rewrite !(aget_ok 0), !bind_Ok, Hs', Hs2, Hh by lia.
    specialize (Hg1 i Hi). rewrite Z.add_0_l in Hg1. by rewrite Hg1. }
  rewrite bind_Ok. exists s3, t1. split; [done|]. split; [lia|]. split.
  - split; [lia|]. intros p Hp. by rewrite Hs3, Hs2 by lia.
  - intros i Hi. destruct (Z.lt_ge_cases i k).
    + rewrite Hg3, history_new, !history_old by lia. do 3 f_equal; lia.
    + rewrite Hs3, Hg2, history_old by lia. done.
Qed.

Lemma run_up_ok s tmp h : zlen s = state_size -> zlen tmp = 861 -> zth 0 s J_RUNUP = runup ->
  (forall i, 0 <= i < l -> zth 0 s (reg + i) = zth 0 h i) ->
  exists s', run_up l k s tmp = Ok s' /\ keeps s s' /\
    forall i, 0 <= i < l -> zth 0 s' (reg + i) = zth 0 (history l k runup h) i.
Proof.
  intros Hs Ht Hr Hh. destruct lags_ok as (? & ? & ? & ? & ? & ? & n & En & Hn).
  unfold run_up.
  edestruct (while_ghost (fun (m : nat) '((j, (s', tmp')) : Z * (list Z * list Z)) => exists t, j = k * t /\ Z.of_nat m = n - t /\ 0 <= t <= n /\
      zlen tmp' = 861 /\ keeps s s' /\ forall i, 0 <= i < l -> zth 0 s' (reg + i) = zth 0 (history l k (k * t) h) i))
    with (fuel := 1292%nat) (n := Z.to_nat n) (s := (0, (s, tmp)))
         (c := fun '((j, (s, tmp)) : Z * (list Z * list Z)) => n ← s.[J_RUNUP]; Ok (j <? n))
         (b := fun '((j, st) : Z * (list Z * list Z)) => st ← shift_register l k st; j ← chk 32 (j + k); Ok (j, st))
    as (m & [j [s' tmp']] & E & (t & -> & Hm & Ht' & _ & Hk & Hg) & Ec).
  - intros m [j [s' tmp']] (t & -> & Hm & Ht' & Htmp & [Hl Hk] & Hg).
    rewrite (aget_ok 0) by (unfold J_RUNUP, N_SCALARS in *; lia). rewrite bind_Ok, Hk, Hr by (unfold J_RUNUP, REG0, NODE0, N_SCALARS; lia).
    destruct (Z.ltb_spec (k * t) runup); [right | by left]. split; [done|].
    destruct (shift_register_ok s' tmp' (history l k (k * t) h)) as (s2 & t2 & -> & Ht2 & [Hl2 Hk2] & Hg2); [lia | done | done |].
    rewrite bind_Ok, chk_ok, bind_Ok by nia. eexists _, (m - 1)%nat. split; [done|]. split; [|nia].
    exists (t + 1). repeat split; try lia; try nia.
    + intros p Hp. rewrite Hk2, Hk by done. done.
    + intros i Hi. rewrite Hg2 by done. rewrite <- history_add by nia. do 2 f_equal. nia.
  - lia.
  - exists 0. repeat split; try lia; try done. intros i Hi. rewrite Z.mul_0_r. by apply Hh.
  - exists s'. setoid_rewrite E. split; [done|]. split; [done|]. intros i Hi. rewrite Hg by done.
    destruct Hk as [Hl Hk]. rewrite (aget_ok 0) in Ec by (unfold J_RUNUP, N_SCALARS in *; lia).
    rewrite bind_Ok, Hk, Hr in Ec by (unfold J_RUNUP, REG0, NODE0, N_SCALARS; lia). injection Ec as Ec. apply Z.ltb_ge in Ec.
    do 2 f_equal. nia.
Qed.

(** ** States at a node *)

(** The index in the circular node array *)
Definition place (x : Z) : Z := if x <? l - 1 then x else x - (l - 1).

Record at_node (seed m : Z) (s : list Z) : Prop := {
  an_size : zlen s = state_size;
  an_state_size : zth 0 s J_STATE_SIZE = state_size;
  an_l : zth 0 s J_L = l;
  an_seed : zth 0 s J_SEED = seed;
  an_k : zth 0 s J_K = k;
  an_cbit : zth 0 s J_CBIT = cbit;
  an_runup : zth 0 s J_RUNUP = runup;
  an_zp : 0 <= zth 0 s J_ZP < l - 1;
  an_words i : 0 <= i < l - 1 -> zth 0 s (NODE0 + place (zth 0 s J_ZP + i)) = i32 (node_word l m i)
}.

Ltac offsets := unfold REG0, NODE0, N_SCALARS, J_STATE_SIZE, J_L, J_SEED, J_K, J_CBIT, J_RUNUP, J_LP, J_KP, J_ZP in *.
Ltac bounds := offsets; rewrite ?zlen_insert; lia.
Ltac step := first [rewrite bind_Ok | rewrite (aget_ok 0) by bounds | rewrite aset_ok by bounds].

(** An entry of an array that is written to, by [H] *)
Ltac entry H := rewrite H by bounds; offsets; zcases; done.

(** Nothing but the positions in the register and the register *)
Definition agree (s s' : list Z) : Prop :=
  zlen s' = zlen s /\ forall p, 0 <= p < reg -> p <> J_LP -> p <> J_KP -> zth 0 s' p = zth 0 s p.

Lemma place_range x : 0 <= x < 2 * (l - 1) -> 0 <= place x < l - 1.
Proof. unfold place. zcases. Qed.

Lemma zp_next z : 0 <= z < l - 1 ->
  (if z - 1 <? 0 then chk 32 (z - 1 + (l - 1)) else Ok (z - 1)) = Ok (place (z + (l - 2))).
Proof.
  intros Hz. destruct lags_ok as (? & ? & _ & _ & _ & ? & _). unfold place.
  destruct (Z.ltb_spec (z - 1) 0), (Z.ltb_spec (z + (l - 2)) (l - 1)); try lia; rewrite ?chk_ok by lia; f_equal; lia.
Qed.

Lemma at_node_agree seed m s s' : agree s s' -> at_node seed m s -> at_node seed m s'.
Proof.
  intros [Hl Ha] [? ? ? ? ? ? ? Hz Hw]. destruct lags_ok as (? & _).
  assert (Hzp : zth 0 s' J_ZP = zth 0 s J_ZP) by (apply Ha; bounds).
  constructor; rewrite ?Hzp; try (done || lia || (rewrite Ha by bounds; done)).
  intros i Hi. pose proof (place_range (zth 0 s J_ZP + i) ltac:(lia)). rewrite Ha by bounds. by apply Hw.
Qed.

(** Everything else *)
Definition same_register (s s' : list Z) : Prop :=
  zlen s' = zlen s /\ forall p, 0 <= p < zlen s -> p = J_LP \/ p = J_KP \/ reg <= p -> zth 0 s' p = zth 0 s p.

Lemma next_node_top seed m s : at_node seed m s -> top_bit l m = true -> next_node s = Err Aborted.
Proof.
  intros Hn Ht. destruct lags_ok as (? & ? & _ & _ & _ & ? & _). pose proof Hn as [Hs _ Hl _ _ _ _ Hz Hw].
  unfold next_node. do 2 (step; step). rewrite Hl, chk_ok, bind_Ok by lia.
  pose proof (place_range (zth 0 s J_ZP + (l - 2)) ltac:(lia)).
  rewrite zp_next by done. do 3 step. rewrite Hw, high_bit_test by (pose proof (node_word_range l m (l - 2)); lia).
  rewrite node_word_top, Ht by lia. pose proof (gather_range l 30 m (l - 2)). cbn [Z.b2z]. zcases. done.
Qed.

Lemma next_node_ok seed m s : at_node seed m s -> top_bit l m = false ->
  exists my, next_node s = Ok (my, zth 0 my J_ZP) /\ at_node seed (2 * m) my /\ same_register s my.
Proof.
  intros Hn Ht. destruct lags_ok as (? & ? & _ & _ & _ & ? & _). pose proof Hn as [Hs ? Hl ? ? ? ? Hz Hw].
  unfold next_node. do 2 (step; step). rewrite Hl, chk_ok, bind_Ok by lia.
  rewrite zp_next by done. set (zp := place (zth 0 s J_ZP + (l - 2))).
  assert (Hzp : 0 <= zp < l - 1) by (apply place_range; lia).
  assert (Hzw : zth 0 s (NODE0 + zp) = i32 (node_word l m (l - 2))) by (apply Hw; lia).
  do 3 step. rewrite Hzw, high_bit_test by (pose proof (node_word_range l m (l - 2)); lia).
  pose proof (node_word_top l m ltac:(lia)) as Hw0. rewrite Ht in Hw0. pose proof (gather_range l 30 m (l - 2)) as Hg. cbn [Z.b2z] in Hw0.
  destruct (Z.ltb_spec (node_word l m (l - 2)) (2 ^ 31)); [|lia]. cbn [negb ishl wrapping_int].
  rewrite signed_double by lia. do 4 step.
  set (v := i32 (2 * node_word l m (l - 2))).
  set (my := <[Z.to_nat J_ZP := zp]> (<[Z.to_nat (NODE0 + zp) := v]> s)).
  assert (Hmy : forall p, 0 <= p < state_size -> zth 0 my p = if p =? J_ZP then zp else if p =? NODE0 + zp then v else zth 0 s p).
  { intros p Hp. unfold my. rewrite !zth_insert by bounds. done. }
  assert (Hzy : zth 0 my J_ZP = zp) by (rewrite Hmy by bounds; done).
  exists my. rewrite Hzy. split; [done|]. split; [constructor|].
  - unfold my. by rewrite !zlen_insert.
  - entry Hmy.
  - entry Hmy.
  - entry Hmy.
  - entry Hmy.
  - entry Hmy.
  - entry Hmy.
  - by rewrite Hzy.
  - intros i Hi. rewrite Hzy, Hmy by (pose proof (place_range (zp + i) ltac:(lia)); bounds).
    destruct (Z.eq_dec i 0) as [->|Hi0].
    + rewrite (node_word_first l m true), Z.add_0_r by (done || lia). unfold place at 1 2. offsets; zcases. unfold v. f_equal. lia.
    + rewrite (node_word_next' l m true), <- Hw by lia.
      assert (Ep : place (zp + i) = place (zth 0 s J_ZP + (i - 1)) /\ place (zp + i) <> zp) by (unfold zp, place; zcases).
      destruct Ep as [<- Hne]. pose proof (place_range (zp + i) ltac:(lia)). by offsets; zcases.
  - split; [unfold my; by rewrite !zlen_insert|]. intros p Hp Hr. entry Hmy.
Qed.

Lemma other_node_ok seed m my : at_node seed (2 * m) my -> top_bit l m = false ->
  let my' := <[Z.to_nat (NODE0 + zth 0 my J_ZP) := i32 (zth 0 my (NODE0 + zth 0 my J_ZP) + 2)]> my in
  at_node seed (2 * m + 1) my' /\ same_register my my'.
Proof.
  intros [Hs ? ? ? ? ? ? Hz Hw] Ht my'. destruct lags_ok as (? & ? & _).
  assert (Hmy : forall p, 0 <= p < state_size -> zth 0 my' p = if p =? NODE0 + zth 0 my J_ZP then i32 (node_word l (2 * m + 1) 0) else zth 0 my p).
  { intros p Hp. unfold my'. rewrite zth_insert by bounds. destruct (p =? _); [|done].
    pose proof (Hw 0 ltac:(lia)) as Hw0. rewrite Z.add_0_r in Hw0. unfold place in Hw0.
    destruct (Z.ltb_spec (zth 0 my J_ZP) (l - 1)); [|lia]. rewrite Hw0, signed_add_l by lia.
    rewrite (node_word_first l m true), (node_word_first l m false) by (done || lia). f_equal. lia. }
  assert (Hzy : zth 0 my' J_ZP = zth 0 my J_ZP) by (entry Hmy).
  split; [constructor|].
  - unfold my'. by rewrite zlen_insert.
  - entry Hmy.
  - entry Hmy.
  - entry Hmy.
  - entry Hmy.
  - entry Hmy.
  - entry Hmy.
  - by rewrite Hzy.
  - intros i Hi. rewrite Hzy, Hmy by (pose proof (place_range (zth 0 my J_ZP + i) ltac:(lia)); bounds).
    destruct (Z.eq_dec i 0) as [->|Hi0].
    + rewrite Z.add_0_r. by unfold place; zcases.
    + assert (place (zth 0 my J_ZP + i) <> zth 0 my J_ZP) by (unfold place; zcases).
      destruct (Z.eqb_spec (NODE0 + place (zth 0 my J_ZP + i)) (NODE0 + zth 0 my J_ZP)); [lia|]. rewrite Hw by done.
      by rewrite (node_word_next' l m true), (node_word_next' l m false) by lia.
  - split; [unfold my'; by rewrite zlen_insert|]. intros p Hp Hr. entry Hmy.
Qed.

(** The loop that fills the register from the node array *)
Lemma fill_register seed m s : at_node seed m s ->
  exists s' j, for_range 0 (l - 1) (fun i '(new, j) =>
      v ← new.[NODE0 + j]; new ← new.[reg + i <- v]; Ok (new, if j + 1 =? l - 1 then 0 else j + 1)) (s, zth 0 s J_ZP) = Ok (s', j) /\
    keeps s s' /\ forall i, 0 <= i < l - 1 -> zth 0 s' (reg + i) = i32 (node_word l m i).
Proof.
  intros Hn. destruct lags_ok as (? & ? & _). pose proof Hn as [Hs _ _ _ _ _ _ Hz Hw].
  destruct (for_range_inv (fun i '((s', j) : list Z * Z) => j = place (zth 0 s J_ZP + i) /\ keeps s s' /\
      forall i', 0 <= i' < i -> zth 0 s' (reg + i') = i32 (node_word l m i'))
    (fun i '(new, j) => v ← new.[NODE0 + j]; new ← new.[reg + i <- v]; Ok (new, if j + 1 =? l - 1 then 0 else j + 1))
    0 (l - 1) (s, zth 0 s J_ZP)) as ([s' j] & E & _ & Hk & Hg).
  - lia.
  - split; [unfold place; zcases|]. split; [done|]. intros; lia.
  - intros i [s' j] Hi (-> & [Hl Hk] & Hg). pose proof (place_range (zth 0 s J_ZP + i) ltac:(lia)).
    do 4 step. rewrite Hk, Hw by bounds. eexists. split; [done|]. split; [unfold place; zcases|]. split.
    + split; [by rewrite zlen_insert|]. intros p Hp. rewrite zth_insert by bounds. destruct (Z.eqb_spec p (reg + i)); [lia | by apply Hk].
    + intros i' Hi'. rewrite zth_insert by bounds. destruct (Z.eqb_spec (reg + i') (reg + i)); [do 2 f_equal; lia | apply Hg; lia].
  - by exists s', j.
Qed.

(** A state at the start of its sequence *)
Record new_sequence (seed m : Z) (s : list Z) : Prop := {
  ns_lp : zth 0 s J_LP = l - 1;
  ns_kp : zth 0 s J_KP = k - 1;
  ns_register i : 0 <= i < l -> zth 0 s (reg + i) = zth 0 (history l k runup (seeded l cbit seed m)) i
}.

Lemma child_register_ok seed m s tmp : at_node seed m s -> zlen tmp = 861 ->
  exists s', child_register tmp s l (zth 0 s J_ZP) = Ok s' /\ at_node seed m s' /\ new_sequence seed m s'.
Proof.
  intros Hn Ht. destruct lags_ok as (? & ? & ? & ? & ? & _). pose proof (an_size _ _ _ Hn) as Hs. unfold child_register.
  destruct (fill_register seed m s Hn) as (s1 & j & -> & [Hl1 Hk1] & Hg1). rewrite bind_Ok. cbn [fst].
  assert (Hn1 : at_node seed m s1) by (apply (at_node_agree _ _ s); [split; [done|]; intros; by apply Hk1 | done]).
  destruct Hn1 as [_ _ Hl' Hseed Hk' Hcbit Hrunup _ _].
  cbn [iadd wrapping_int]. do 2 step. rewrite Hcbit. do 5 step.
  set (s2 := <[Z.to_nat (reg + cbit) := i32 (zth 0 s1 (reg + cbit) + 1)]> s1).
  assert (Hl2 : zlen s2 = state_size) by (unfold s2; rewrite zlen_insert; lia).
  assert (Hs2 : forall p, 0 <= p < state_size -> zth 0 s2 p = if p =? reg + cbit then i32 (zth 0 s1 (reg + cbit) + 1) else zth 0 s1 p)
    by (intros; unfold s2; rewrite zth_insert by bounds; done).
  do 4 step. replace (zth 0 s2 J_SEED) with seed by (entry Hs2). do 2 step.
  set (s3 := <[Z.to_nat (reg + 0) := Z.lxor (zth 0 s2 (reg + 0)) seed]> s2).
  assert (Hl3 : zlen s3 = state_size) by (unfold s3; rewrite zlen_insert; lia).
  do 2 step.
  set (s4 := <[Z.to_nat (reg + (l - 1)) := 0]> s3).
  assert (Hl4 : zlen s4 = state_size) by (unfold s4; rewrite zlen_insert; lia).
  assert (Hs4 : forall p, 0 <= p < state_size -> zth 0 s4 p =
    if p =? reg + (l - 1) then 0 else if p =? reg + 0 then Z.lxor (zth 0 s2 (reg + 0)) seed else zth 0 s2 p)
    by (intros; unfold s4, s3; rewrite !zth_insert by bounds; done).
  assert (Hk4 : forall p, 0 <= p < reg -> zth 0 s4 p = zth 0 s1 p) by (intros p Hp; rewrite Hs4 by bounds; zcases; rewrite Hs2 by bounds; zcases; done).
  do 2 step. rewrite Hk4, Hl' by bounds. do 4 step.
  set (s5 := <[Z.to_nat J_LP := l - 1]> s4).
  assert (Hl5 : zlen s5 = state_size) by (unfold s5; rewrite zlen_insert; lia).
  replace (zth 0 s5 J_K) with k by (unfold s5; rewrite zth_insert_ne, Hk4 by bounds; done). do 2 step.
  set (s6 := <[Z.to_nat J_KP := k - 1]> s5).
  assert (Hl6 : zlen s6 = state_size) by (unfold s6; rewrite zlen_insert; lia). do 2 step.
  assert (H6 : forall p, 0 <= p < state_size -> zth 0 s6 p = if p =? J_KP then k - 1 else if p =? J_LP then l - 1 else zth 0 s4 p)
    by (intros; unfold s6, s5; rewrite !zth_insert by bounds; done).
  assert (Ha : agree s1 s6).
  { split; [unfold s6, s5; rewrite !zlen_insert; lia|]. intros p Hp ? ?. rewrite H6, Hk4 by bounds. by offsets; zcases. }
  assert (Hr : forall i, 0 <= i < l -> zth 0 s6 (reg + i) = zth 0 (seeded l cbit seed m) i).
  { intros i Hi. unfold seeded. rewrite zth_seqZ, H6, Hs4 by bounds. replace (zth 0 s2 (reg + 0)) with (i32 (node_word l m 0)).
    2: { rewrite Hs2, !Hg1 by bounds. zcases; done. }
    destruct (Z.eqb_spec i (l - 1)); [offsets; zcases; done|]. rewrite Hs2, !Hg1 by bounds.
    destruct (Z.eqb_spec i 0) as [->|]; [offsets; zcases; done|]. rewrite signed_add_l by lia.
    destruct (Z.eqb_spec i cbit) as [->|]; offsets; zcases; done. }
  destruct (run_up_ok s6 tmp (seeded l cbit seed m)) as (s' & E & [Hl7 Hk7] & Hg7).
  - unfold s6, s5. rewrite !zlen_insert. lia.
  - done.
  - rewrite H6, Hk4 by bounds. offsets; zcases; done.
  - done.
  - exists s'. replace (zth 0 s6 J_K) with k by (rewrite H6, Hk4 by bounds; offsets; zcases; done).
    split; [done|]. split.
    + apply (at_node_agree _ _ s); [|done]. destruct Ha as [Hla Ha]. split; [lia|]. intros p Hp ? ?. by rewrite Hk7, Ha, Hk1 by done.
    + constructor; [| |done]; rewrite Hk7, H6 by bounds; by offsets; zcases.
Qed.

Lemma spawn_top seed m s tmp new n : at_node seed m s -> top_bit l m = true -> rng_spawn tmp s new n = Err Aborted.
Proof.
  intros Hn Ht. destruct lags_ok as (? & _). pose proof (an_size _ _ _ Hn). unfold rng_spawn.
  do 4 step. by rewrite (next_node_top seed m) by done.
Qed.

Lemma spawn_ok seed m s tmp new n : at_node seed m s -> top_bit l m = false -> zlen tmp = 861 -> zlen new = state_size ->
  exists my child, rng_spawn tmp s new n = Ok (my, child) /\ at_node seed (2 * m + 1) my /\ same_register s my /\
    at_node seed (2 * m) child /\ new_sequence seed (2 * m) child.
Proof.
  intros Hn Htop Ht Hnew. destruct lags_ok as (? & ? & _). pose proof Hn as [Hs Hsize Hl _ _ _ _ _ _]. unfold rng_spawn.
  do 4 step. rewrite Hsize, Hl. destruct (next_node_ok seed m s Hn Htop) as (my & -> & Hmy & Hr). rewrite bind_Ok.
  pose proof Hmy as [Hsy _ _ _ _ _ _ Hzy _].
  destruct (for_range_write 0 (fun i => zth 0 my i) (fun i new => v ← my.[i]; new.[i <- v]) 0 (state_size - l) new)
    as (new1 & -> & Hl1 & Hg1 & _); [bounds | bounds | bounds | |].
  { intros i s' Hi _ _. by do 2 step. }
  rewrite bind_Ok. do 2 step. cbn [iadd wrapping_int]. do 3 step.
  assert (Ha : agree my new1).
  { split; [lia|]. intros p Hp _ _. specialize (Hg1 p ltac:(bounds)). by rewrite Z.add_0_l in Hg1. }
  assert (Hn1 : at_node seed (2 * m) new1) by (by apply (at_node_agree _ _ my)).
  replace (zth 0 my J_ZP) with (zth 0 new1 J_ZP) by (apply Ha; bounds).
  destruct (child_register_ok seed (2 * m) new1 tmp Hn1 Ht) as (child & -> & Hc & Hns). rewrite bind_Ok.
  replace (zth 0 new1 J_ZP) with (zth 0 my J_ZP) by (symmetry; apply Ha; bounds).
  destruct (other_node_ok seed m my Hmy Htop) as [Hmy' Hr']. eexists _, child. split; [done|]. split; [done|].
  split; [|done]. destruct Hr as [Hlr Hr], Hr' as [Hlr' Hr']. split; [lia|]. intros p Hp Hc'. by rewrite Hr', Hr by (done || lia).
Qed.

(** What [rng_init] makes of the seed *)
Definition seed_bits (seed : Z) : Z := Z.land (i32 (2 * seed)) POS_MASK.

Lemma seed_bits_range seed : 0 <= seed_bits seed < 2 ^ 31.
Proof. unfold seed_bits, POS_MASK. change 0x7fffffff with (Z.ones 31). rewrite Z.land_ones by lia. apply Z.mod_pos_bound. lia. Qed.

Lemma seeded_root seed i : 0 <= i < l -> zth 0 (seeded l cbit seed 1) i =
  if i =? 0 then Z.lxor 2 seed else if i =? cbit then 1 else 0.
Proof.
  intros Hi. destruct lags_ok as (? & ? & ? & ? & ? & _). unfold seeded. rewrite zth_seqZ by done.
  rewrite !node_word_root by lia. zcases; done.
Qed.

Lemma init_arrays_ok seed s1 : zlen s1 = state_size -> zth 0 s1 J_SEED = seed ->
  exists s7, init_arrays l cbit s1 = Ok s7 /\ zlen s7 = state_size /\
  forall p, 0 <= p < state_size -> zth 0 s7 p = if p =? reg + 0 then Z.lxor 2 (seed_bits seed) else
    if p =? J_SEED then seed_bits seed else if p =? reg + cbit then 1 else if reg <=? p then 0 else
    if p =? NODE0 then 2 else if NODE0 <=? p then 0 else zth 0 s1 p.
Proof.
  intros Hl1 Hseed. destruct lags_ok as (? & ? & ? & ? & ? & _). unfold init_arrays.
  destruct (for_range_write NODE0 (fun _ => 0) (fun i s => s.[NODE0 + i <- 0]) 0 (l - 1) s1)
    as (s2 & -> & Hl2 & Hg2 & Hs2); [lia | bounds | bounds | done |]. do 3 step.
  set (s3 := <[Z.to_nat (NODE0 + 0) := 2]> s2). assert (Hl3 : zlen s3 = state_size) by (unfold s3; rewrite zlen_insert; lia).
  destruct (for_range_write reg (fun _ => 0) (fun i s => s.[reg + i <- 0]) 0 l s3)
    as (s4 & -> & Hl4 & Hg4 & Hs4); [lia | bounds | bounds | done |]. rewrite bind_Ok. cbn [iadd ishl wrapping_int]. do 5 step.
  rewrite Hg4 by lia. set (s5 := <[Z.to_nat (reg + cbit) := i32 (0 + 1)]> s4).
  assert (Hl5 : zlen s5 = state_size) by (unfold s5; rewrite zlen_insert; lia).
  assert (Hk5 : forall p, 0 <= p < NODE0 -> zth 0 s5 p = zth 0 s1 p).
  { intros p Hp. unfold s5, s3 in *. rewrite zth_insert_ne, Hs4, zth_insert_ne, Hs2 by bounds. done. }
  do 5 step. replace (zth 0 s5 J_SEED) with seed by (symmetry; rewrite Hk5; [done | bounds]). fold (seed_bits seed).
  set (s6 := <[Z.to_nat J_SEED := seed_bits seed]> s5).
  assert (Hl6 : zlen s6 = state_size) by (unfold s6; rewrite zlen_insert; lia). do 3 step.
  replace (zth 0 s6 J_SEED) with (seed_bits seed) by (unfold s6; rewrite zth_insert_eq by bounds; done).
  set (s7 := <[Z.to_nat (reg + 0) := Z.lxor 2 (seed_bits seed)]> s6).
  assert (Hl7 : zlen s7 = state_size) by (unfold s7; rewrite zlen_insert; lia).
  exists s7. split; [done|]. split; [done|].
  intros p Hp. unfold s7, s6. rewrite !zth_insert by bounds. destruct (p =? reg + 0); [done|]. destruct (p =? J_SEED); [done|].
  unfold s5. rewrite zth_insert by bounds. destruct (p =? reg + cbit); [done|]. destruct (Z.leb_spec reg p).
  - replace p with (reg + (p - reg)) by lia. by rewrite Hg4 by bounds.
  - rewrite Hs4 by lia. unfold s3. rewrite zth_insert, Z.add_0_r by bounds. destruct (Z.eqb_spec p NODE0); [done|].
    destruct (Z.leb_spec NODE0 p); [|by rewrite Hs2 by bounds].
    replace p with (NODE0 + (p - NODE0)) by lia. by rewrite Hg2 by bounds.
Qed.

Lemma init_ok seed tmp s : zlen s = state_size -> zlen tmp = 861 ->
  exists s', rng_init l tmp s seed = Ok s' /\ at_node (seed_bits seed) 1 s' /\ new_sequence (seed_bits seed) 1 s'.
Proof.
  intros Hs Ht. destruct lags_ok as (? & ? & ? & ? & ? & _). unfold rng_init. rewrite Hlags.
  do 18 step.
  match goal with |- context [init_arrays _ _ ?x] => set (s1 := x) end.
  assert (Hl1 : zlen s1 = state_size) by (unfold s1; rewrite !zlen_insert; lia).
  assert (Hj : zth 0 s1 J_STATE_SIZE = state_size /\ zth 0 s1 J_L = l /\ zth 0 s1 J_SEED = seed /\ zth 0 s1 J_K = k /\
    zth 0 s1 J_CBIT = cbit /\ zth 0 s1 J_RUNUP = runup /\ zth 0 s1 J_LP = l - 1 /\ zth 0 s1 J_KP = k - 1 /\ zth 0 s1 J_ZP = 0)
    by (unfold s1; repeat split; rewrite !zth_insert by bounds; by offsets; zcases).
  destruct (init_arrays_ok seed s1 Hl1) as (s7 & -> & Hl7 & H7); [apply Hj|]. do 3 step.
  replace (zth 0 s7 J_K) with k by (rewrite H7 by bounds; offsets; zcases; symmetry; apply Hj).
  destruct (run_up_ok s7 tmp (seeded l cbit (seed_bits seed) 1)) as (s' & -> & [Hl8 Hk8] & Hg8).
  - done.
  - done.
  - rewrite H7 by bounds. offsets; zcases; apply Hj.
  - intros i Hi. rewrite seeded_root, H7 by bounds. offsets; zcases; done.
  - exists s'. split; [done|]. destruct Hj as (J1 & J2 & J3 & J4 & J5 & J6 & J7 & J8 & J9).
    assert (Hz : zth 0 s' J_ZP = 0) by (rewrite Hk8, H7 by bounds; offsets; zcases; done).
    split; [constructor|constructor]; rewrite ?Hz; try lia; try (rewrite Hk8, H7 by bounds; offsets; zcases; done); [|done].
    intros i Hi. rewrite Z.add_0_l. unfold place. zcases.
    rewrite Hk8, H7, node_word_root by bounds. offsets; zcases; done.
Qed.

(** ** Paths *)

(** The state at the end of a path *)
Fixpoint descend (tmp junk s : list Z) (path : list bool) : res (list Z) :=
  match path with
  | [] => Ok s
  | b :: path => r ← rng_spawn tmp s junk 0; descend tmp junk (if b then snd r else fst r) path
  end.

Definition sequence_at (tmp junk : list Z) (seed : Z) (path : list bool) : res (list Z) :=
  s ← rng_init l tmp junk seed; descend tmp junk s path.

(** The paths at whose end a sequence starts *)
Definition starts_sequence (path : list bool) : bool := List.last path true.

(** As many numbers as fit into the node array *)
Definition spawn_limit : Z := 31 * (l - 1) - 1.

Lemma top_bit_small m : 0 <= m < 2 ^ spawn_limit -> top_bit l m = false.
Proof. intros. destruct lags_ok as (? & _). apply (testbit_above spawn_limit); [done | unfold spawn_limit; lia]. Qed.

Lemma top_bit_large m : 2 ^ spawn_limit <= m < 2 ^ (spawn_limit + 1) -> top_bit l m = true.
Proof.
  intros Hm. destruct lags_ok as (? & _). destruct (top_bit l m) eqn:E; [done|].
  enough (m < 2 ^ spawn_limit) by lia. unfold spawn_limit in *.
  apply bits_bound; [lia | lia |]. intros i Hi. destruct (Z.eq_dec i (31 * (l - 1) - 1)) as [->|]; [done|].
  apply (testbit_above (31 * (l - 1) - 1 + 1)); lia.
Qed.

Lemma descend_app tmp junk s p q : descend tmp junk s (p ++ q) = (s' ← descend tmp junk s p; descend tmp junk s' q).
Proof.
  revert s. induction p as [|b p IH]; intros s; [done|]. cbn [app descend].
  destruct (rng_spawn tmp s junk 0) as [r|]; cbn [mbind res_bind]; [apply IH | done].
Qed.

Lemma sequence_at_snoc tmp junk seed p b : sequence_at tmp junk seed (p ++ [b]) =
  (s ← sequence_at tmp junk seed p; r ← rng_spawn tmp s junk 0; Ok (if b then snd r else fst r)).
Proof.
  unfold sequence_at. rewrite bind_assoc. destruct (rng_init l tmp junk seed) as [s|]; [|done]. cbn [mbind res_bind].
  by rewrite descend_app.
Qed.

Lemma node_of_snoc p b : node_of (p ++ [b]) = if b then 2 * node_of p else 2 * node_of p + 1.
Proof. unfold node_of. by rewrite foldl_app. Qed.

Lemma node_of_range p : 2 ^ zlen p <= node_of p < 2 ^ (zlen p + 1).
Proof.
  induction p as [|b p IH] using rev_ind; [done|]. rewrite node_of_snoc, length_app. cbn [length].
  rewrite Nat2Z.inj_add. change (Z.of_nat 1) with 1. rewrite (pow2_succ (zlen p + 1)), (pow2_succ (zlen p)) by lia.
  rewrite pow2_succ in IH by lia. destruct b; lia.
Qed.

Lemma node_of_inj p q : node_of p = node_of q -> p = q.
Proof.
  revert q. induction p as [|b p IH] using rev_ind; intros q E; destruct q as [|c q _] using rev_ind; [done | | |].
  - rewrite node_of_snoc in E. change (node_of []) with 1 in E. pose proof (node_of_range q).
    assert (0 < 2 ^ zlen q) by lia. destruct c; lia.
  - rewrite node_of_snoc in E. change (node_of []) with 1 in E. pose proof (node_of_range p).
    assert (0 < 2 ^ zlen p) by lia. destruct b; lia.
  - rewrite !node_of_snoc in E. assert (b = c) as <- by (destruct b, c; (done || lia)).
    by rewrite (IH q) by (destruct b; lia).
Qed.

Lemma node_of_small p n : zlen p <= n -> 0 <= node_of p < 2 ^ (n + 1).
Proof.
  intros Hp. pose proof (node_of_range p). pose proof (Z.pow_le_mono_r 2 (zlen p + 1) (n + 1) ltac:(lia) ltac:(lia)). lia.
Qed.

Lemma sequence_ok tmp junk seed p : zlen tmp = 861 -> zlen junk = state_size -> zlen p <= spawn_limit ->
  exists s, sequence_at tmp junk seed p = Ok s /\ at_node (seed_bits seed) (node_of p) s /\
    (starts_sequence p = true -> new_sequence (seed_bits seed) (node_of p) s).
Proof.
  intros Ht Hj. induction p as [|b p IH] using rev_ind; intros Hp.
  - destruct (init_ok seed tmp junk Hj Ht) as (s & E & Hn & Hs). exists s. unfold sequence_at. by rewrite E.
  - rewrite length_app in Hp. cbn [length] in Hp. destruct (IH ltac:(lia)) as (s & E & Hn & _).
    destruct (spawn_ok (seed_bits seed) (node_of p) s tmp junk 0) as (my & child & Es & H1 & _ & H2 & H3); [done | | done | done |].
    { apply top_bit_small. pose proof (node_of_small p (spawn_limit - 1) ltac:(lia)).
      by replace spawn_limit with (spawn_limit - 1 + 1) by lia. }
    exists (if b then child else my). rewrite sequence_at_snoc, E, bind_Ok, Es, bind_Ok, node_of_snoc.
    split; [by destruct b|]. unfold starts_sequence. rewrite List.last_last. by destruct b.
Qed.

Lemma sequence_aborts tmp junk seed p : zlen tmp = 861 -> zlen junk = state_size -> spawn_limit < zlen p ->
  sequence_at tmp junk seed p = Err Aborted.
Proof.
  intros Ht Hj. induction p as [|b p IH] using rev_ind; intros Hp; [unfold spawn_limit in Hp; destruct lags_ok as (? & _); cbn in Hp; lia|].
  rewrite length_app in Hp. cbn [length] in Hp. rewrite sequence_at_snoc.
  destruct (Z.lt_ge_cases spawn_limit (zlen p)) as [Hl|Hl]; [by rewrite IH|].
  destruct (sequence_ok tmp junk seed p Ht Hj Hl) as (s & -> & Hn & _). rewrite bind_Ok.
  rewrite (spawn_top (seed_bits seed) (node_of p)); [done | done |]. apply top_bit_large.
  replace spawn_limit with (zlen p) by lia. apply node_of_range.
Qed.

(** ** The registers determine the nodes *)

Definition is_int (x : Z) : Prop := - 2 ^ 31 <= x < 2 ^ 31.

Lemma i32_int x : is_int (i32 x).
Proof. by apply (signed_range 32). Qed.

Lemma lxor_int x y : is_int x -> 0 <= y < 2 ^ 31 -> is_int (Z.lxor x y).
Proof.
  unfold is_int. intros Hx Hy.
  assert (Hp : forall a, 0 <= a < 2 ^ 31 -> 0 <= Z.lxor a y < 2 ^ 31).
  { intros a Ha. assert (0 <= Z.lxor a y) by (by apply Z.lxor_nonneg; lia). split; [done|].
    apply bits_bound; [lia | done |]. intros i Hi. by rewrite Z.lxor_spec, !(testbit_above 31) by lia. }
  destruct (Z.lt_ge_cases x 0); [|specialize (Hp x ltac:(lia)); lia].
  specialize (Hp (Z.lnot x) ltac:(unfold Z.lnot; lia)). rewrite <- Z.lnot_lxor_l in Hp. unfold Z.lnot in Hp. lia.
Qed.

Lemma seeded_int seed m i : 0 <= seed < 2 ^ 31 -> 0 <= i < l -> is_int (zth 0 (seeded l cbit seed m) i).
Proof.
  intros Hs Hi. unfold seeded. rewrite zth_seqZ by done. destruct (i =? l - 1); [done|].
  destruct (i =? 0); [by apply lxor_int, Hs; apply i32_int|]. destruct (i =? cbit); apply i32_int.
Qed.

Lemma history_int n h : 0 <= n -> (forall i, 0 <= i < l -> is_int (zth 0 h i)) ->
  forall i, 0 <= i < n + l -> is_int (zth 0 (history l k n h) i).
Proof.
  intros Hn Hh i Hi. destruct lags_ok as (? & ? & _). destruct (Z.lt_ge_cases i n).
  - rewrite history_new by lia. apply i32_int.
  - rewrite history_old by lia. apply Hh. lia.
Qed.

Lemma i32_add_inj x y a : is_int x -> is_int y -> i32 (x + a) = i32 (y + a) -> x = y.
Proof.
  intros Hx Hy E. apply (f_equal (fun z => i32 (z + - a))) in E.
  rewrite !signed_add_l, <- !Z.add_assoc, Z.add_opp_diag_r, !Z.add_0_r, !signed_small in E by (done || lia). done.
Qed.

(** The register can be run backwards. *)
Lemma history_inj h h' : (forall i, 0 <= i < l -> is_int (zth 0 h i)) -> (forall i, 0 <= i < l -> is_int (zth 0 h' i)) ->
  forall n, 0 <= n -> (forall i, 0 <= i < l -> zth 0 (history l k n h) i = zth 0 (history l k n h') i) ->
  forall i, 0 <= i < l -> zth 0 h i = zth 0 h' i.
Proof.
  intros Hh Hh'. destruct lags_ok as (? & ? & _).
  apply (natlike_ind (fun n => (forall i, 0 <= i < l -> zth 0 (history l k n h) i = zth 0 (history l k n h') i) ->
    forall i, 0 <= i < l -> zth 0 h i = zth 0 h' i)); [done|].
  intros n Hn IH E. apply IH. unfold Z.succ in E. rewrite !history_succ in E by done. unfold lag_step in E.
  assert (Ht : forall i, 0 <= i < l - 1 -> zth 0 (history l k n h) i = zth 0 (history l k n h') i).
  { intros i Hi. specialize (E (i + 1) ltac:(lia)). rewrite !zth_cons_pos in E by lia. by rewrite Z.add_simpl_r in E. }
  intros i Hi. destruct (Z.eq_dec i (l - 1)) as [->|]; [|apply Ht; lia].
  specialize (E 0 ltac:(lia)). rewrite !zth_cons_0, Ht in E by lia.
  pose proof (history_int n h Hn Hh (l - 1) ltac:(lia)) as R. pose proof (history_int n h' Hn Hh' (l - 1) ltac:(lia)) as R'.
  rewrite !(Z.add_comm (zth 0 _ (k - 1))) in E. by apply i32_add_inj in E.
Qed.

Lemma seeded_inj seed m m' : 0 <= m < 2 ^ (31 * (l - 1)) -> 0 <= m' < 2 ^ (31 * (l - 1)) ->
  (forall i, 0 <= i < l -> zth 0 (seeded l cbit seed m) i = zth 0 (seeded l cbit seed m') i) -> m = m'.
Proof.
  intros Hm Hm' E. destruct lags_ok as (? & _ & _ & _ & ? & _). apply (node_words_inj l); [lia | done | done |].
  intros i Hi. specialize (E i ltac:(lia)). unfold seeded in E. rewrite !zth_seqZ in E by lia.
  pose proof (node_word_range l m i). pose proof (node_word_range l m' i).
  destruct (Z.eqb_spec i (l - 1)); [lia|]. destruct (Z.eqb_spec i 0).
  - apply (f_equal (fun x => Z.lxor x seed)) in E. rewrite !Z.lxor_assoc, Z.lxor_nilpotent, !Z.lxor_0_r in E.
    apply i32_inj in E; lia.
  - destruct (i =? cbit); apply i32_inj in E; lia.
Qed.

Lemma new_sequences_differ seed m m' s s' : 0 <= seed < 2 ^ 31 ->
  0 <= m < 2 ^ (31 * (l - 1)) -> 0 <= m' < 2 ^ (31 * (l - 1)) -> new_sequence seed m s -> new_sequence seed m' s' ->
  register l s = register l s' -> m = m'.
Proof.
  intros Hseed Hm Hm' [_ _ Hr] [_ _ Hr'] E. destruct lags_ok as (? & ? & ? & ? & ? & ? & n & En & Hn).
  apply (seeded_inj seed); [done | done |].
  apply (history_inj _ _ (fun i => seeded_int seed m i Hseed) (fun i => seeded_int seed m' i Hseed) runup ltac:(nia)).
  intros i Hi. rewrite <- Hr, <- Hr' by done. apply (f_equal (fun r => zth 0 r i)) in E. unfold register in E.
  by rewrite !zth_seqZ in E by done.
Qed.

(** ** The values *)

Fixpoint rng_values (n : nat) (s : list Z) : res (list Z) :=
  match n with
  | O => Ok []
  | S n => r ← rng_nextrand s; vs ← rng_values n (fst r); Ok (snd r :: vs)
  end.

Definition value (x : Z) : Z := Z.land (Z.shiftr x 1) POS_MASK.

(** The register as a circular buffer, [h] being the elements so far *)
Definition wrap (x : Z) : Z := if x <? l then x else x - l.

Record circular (h s : list Z) : Prop := {
  ci_size : zlen s = state_size;
  ci_l : zth 0 s J_L = l;
  ci_lp : 0 <= zth 0 s J_LP < l;
  ci_kp : zth 0 s J_KP = wrap (zth 0 s J_LP + k);
  ci_register i : 0 <= i < l -> zth 0 s (reg + wrap (zth 0 s J_LP + 1 + i)) = zth 0 h i
}.

Lemma new_circular seed m s : at_node seed m s -> new_sequence seed m s ->
  circular (history l k runup (seeded l cbit seed m)) s.
Proof.
  intros [? _ ? _ _ _ _ _ _] [Hlp Hkp Hr]. destruct lags_ok as (? & ? & _). constructor; rewrite ?Hlp, ?Hkp; try done; try lia.
  - unfold wrap. zcases.
  - intros i Hi. rewrite <- Hr by done. do 2 f_equal. unfold wrap. zcases.
Qed.

Lemma alfg_rand_ok h s : circular h s -> rng_rand s = Ok (value (zth 0 h (l - 1))).
Proof.
  intros [Hs Hl Hlp _ Hr]. destruct lags_ok as (? & _). unfold rng_rand. do 4 step. rewrite Hl. do 2 step.
  rewrite <- Hr by lia. replace (wrap (zth 0 s J_LP + 1 + (l - 1))) with (zth 0 s J_LP) by (unfold wrap; zcases). done.
Qed.

Lemma alfg_nextrand_ok h s : circular h s ->
  exists s', rng_nextrand s = Ok (s', value (zth 0 (lag_step l k h) 0)) /\ circular (lag_step l k h) s'.
Proof.
  intros [Hs Hl Hlp Hkp Hr]. destruct lags_ok as (? & ? & _). unfold rng_nextrand. do 6 step.
  rewrite Hl. assert (0 <= zth 0 s J_KP < l) by (rewrite Hkp; unfold wrap; zcases). do 4 step. cbn [iadd wrapping_int].
  set (lp := zth 0 s J_LP) in *.
  assert (Hv : i32 (zth 0 s (reg + lp) + zth 0 s (reg + zth 0 s J_KP)) = zth 0 (lag_step l k h) 0).
  { unfold lag_step. rewrite zth_cons_0, Z.add_comm. f_equal. f_equal.
    - rewrite <- Hr, Hkp by lia. do 2 f_equal. unfold wrap. zcases.
    - rewrite <- Hr by lia. do 2 f_equal. unfold wrap. zcases. }
  rewrite Hv. do 7 step. set (v := zth 0 (lag_step l k h) 0).
  set (lp' := if lp - 1 <? 0 then l - 1 else lp - 1).
  set (kp' := if zth 0 s J_KP - 1 <? 0 then l - 1 else zth 0 s J_KP - 1).
  match goal with |- exists s', Ok (?x, _) = _ /\ _ => set (s1 := x) end.
  assert (H1' : forall p, 0 <= p < state_size -> zth 0 s1 p = if p =? J_KP then kp' else if p =? J_LP then lp' else
    if p =? reg + lp then v else zth 0 s p) by (intros; unfold s1; rewrite !zth_insert by bounds; done).
  exists s1. split; [done|].
  assert (Hlp1 : zth 0 s1 J_LP = lp') by (rewrite H1' by bounds; offsets; zcases; done).
  constructor; rewrite ?Hlp1.
  - unfold s1. by rewrite !zlen_insert.
  - rewrite H1' by bounds. offsets; zcases; done.
  - unfold lp'. zcases.
  - rewrite H1' by bounds. replace (J_KP =? J_KP) with true by done. unfold kp', lp'. rewrite Hkp. unfold wrap.
    destruct (Z.ltb_spec (lp + k) l); zcases.
  - intros i Hi. assert (Hw : 0 <= wrap (lp' + 1 + i) < l) by (unfold wrap, lp'; zcases). rewrite H1' by bounds.
    destruct (Z.eq_dec i 0) as [->|].
    + assert (wrap (lp' + 1 + 0) = lp) as -> by (unfold wrap, lp'; zcases). offsets; zcases; done.
    + assert (wrap (lp' + 1 + i) <> lp) by (unfold wrap, lp'; zcases).
      unfold lag_step. rewrite zth_cons_pos, <- Hr by lia. assert (wrap (lp' + 1 + i) = wrap (lp + 1 + (i - 1))) as <- by (unfold wrap, lp'; zcases).
      offsets; zcases; done.
Qed.

Lemma rng_values_ok n : forall h s, circular h s ->
  rng_values n s = Ok (map (fun i => value (zth 0 (history l k (i + 1) h) 0)) (seqZ 0 (Z.of_nat n))).
Proof.
  induction n as [|n IH]; intros h s Hc; [done|]. cbn [rng_values].
  destruct (alfg_nextrand_ok h s Hc) as (s' & -> & Hc'). rewrite bind_Ok. cbn [fst snd]. rewrite (IH _ _ Hc'), bind_Ok.
  rewrite (seqZ_cons 0 (Z.of_nat (S n))) by lia. cbn [map]. f_equal. f_equal.
  replace (Z.pred (Z.of_nat (S n))) with (Z.of_nat n) by lia. rewrite <- (fmap_add_seqZ 1 0). change (fmap (Z.add 1) (seqZ 0 (Z.of_nat n))) with (map (Z.add 1) (seqZ 0 (Z.of_nat n))).
  rewrite map_map. apply map_ext_in. intros i Hi. apply list_elem_of_In, elem_of_seqZ in Hi.
  replace (1 + i + 1) with (i + 1 + 1) by lia. by rewrite (history_add l k (i + 1) 1) by lia.
Qed.

(** C20: with sums that wrap around, the generator gives every node of the
    binary tree of sequences a sequence of its own.  From any seed, a path of at
    most [31 (l - 1) - 1] spawns leads to a state - and a longer one stops with
    the message that the limit is exceeded - and sequences that start at
    different places start with different registers. *)
Theorem alfg_sequences_distinct tmp junk seed : zlen tmp = 861 -> zlen junk = state_size ->
  (forall p, (exists s, sequence_at tmp junk seed p = Ok s) <-> zlen p <= spawn_limit) /\
  (forall p, spawn_limit < zlen p -> sequence_at tmp junk seed p = Err Aborted) /\
  forall p q s t, starts_sequence p = true -> starts_sequence q = true ->
    sequence_at tmp junk seed p = Ok s -> sequence_at tmp junk seed q = Ok t -> register l s = register l t -> p = q.
Proof.
  intros Ht Hj.
  assert (Hok : forall p s, sequence_at tmp junk seed p = Ok s -> zlen p <= spawn_limit).
  { intros p s E. destruct (Z.le_gt_cases (zlen p) spawn_limit); [done|]. by rewrite sequence_aborts in E by (done || lia). }
  split_and!.
  - intros p. split; [by intros [s E%Hok]|]. intros Hp. destruct (sequence_ok tmp junk seed p Ht Hj Hp) as (s & -> & _). eauto.
  - intros p. by apply sequence_aborts.
  - intros p q s t Hp Hq Es Et E. apply node_of_inj.
    destruct (sequence_ok tmp junk seed p Ht Hj (Hok _ _ Es)) as (s' & Es' & _ & Hs).
    destruct (sequence_ok tmp junk seed q Ht Hj (Hok _ _ Et)) as (t' & Et' & _ & Ht').
    rewrite Es' in Es. rewrite Et' in Et. injection Es as ->. injection Et as ->.
    pose proof (node_of_small p spawn_limit (Hok _ _ Es')) as Rp. pose proof (node_of_small q spawn_limit (Hok _ _ Et')) as Rq.
    unfold spawn_limit in Rp, Rq. rewrite Z.sub_add in Rp, Rq.
    apply (new_sequences_differ (seed_bits seed) _ _ s t); auto. apply seed_bits_range.
Qed.

(** C36: the run-up in blocks of [k] and the register as a circular buffer
    compute the lagged Fibonacci sequence [x(n) = x(n - k) + x(n - l)]: where a
    new sequence starts [rng_rand] gives the upper 31 bits of the oldest element
    in the register after the run-up from the words of its node, and the calls
    of [rng_nextrand] those of the elements that follow. *)
Theorem alfg_values tmp junk seed p n : zlen tmp = 861 -> zlen junk = state_size -> zlen p <= spawn_limit -> starts_sequence p = true ->
  let x := seeded l cbit (seed_bits seed) (node_of p) in
  (s ← sequence_at tmp junk seed p; rng_rand s) = Ok (value (zth 0 (history l k runup x) (l - 1))) /\
  (s ← sequence_at tmp junk seed p; rng_values n s) =
    Ok (map (fun i => value (zth 0 (history l k (runup + i + 1) x) 0)) (seqZ 0 (Z.of_nat n))).
Proof.
  intros Ht Hj Hp Hs x. destruct lags_ok as (_ & ? & _ & _ & _ & _ & N & En & HN).
  destruct (sequence_ok tmp junk seed p Ht Hj Hp) as (s & -> & Hn & Hns). rewrite !bind_Ok.
  pose proof (new_circular _ _ _ Hn (Hns Hs)) as Hc. rewrite (alfg_rand_ok _ _ Hc). split; [done|].
  rewrite (rng_values_ok n _ s Hc). f_equal. apply map_ext_in.
  intros i Hi. apply list_elem_of_In, elem_of_seqZ in Hi. rewrite <- history_add by nia. do 3 f_equal. lia.
Qed.
End Correctness.

(** A sequence of the lags 7 and 4 *)
Lemma alfg_sequences_distinct_witness :
  sequence_at 7 (replicate 861 0) (replicate 22 0) 5 (replicate 186 true) = Err Aborted /\
  exists s, sequence_at 7 (replicate 861 0) (replicate 22 0) 5 (replicate 185 true) = Ok s.
Proof.
  destruct (alfg_sequences_distinct 7 4 1 284 ltac:(reflexivity) (replicate 861 0) (replicate 22 0) 5 ltac:(reflexivity) ltac:(reflexivity))
    as (H1 & H2 & _). split; [apply H2; reflexivity | apply H1; vm_compute; discriminate].
Defined.

Lemma alfg_values_witness :
  (s ← sequence_at 55 (replicate 861 0) (replicate 118 0) 0 [false; true]; rng_values 3 s) = Ok [81974004; 76354420; 1514617875].
Proof.
  destruct (alfg_values 55 31 18 2883 ltac:(reflexivity) (replicate 861 0) (replicate 118 0) 0 [false; true] 3) as [_ ->];
    [reflexivity | reflexivity | vm_compute; discriminate | reflexivity |]. vm_compute. reflexivity.
Defined.

(** By the rules of ISO C the sums of the first run-up overflow. *)
Example init_overflows : rng_init (H := iso_int) 55 (replicate 861 0) (replicate 118 0) 0 = Err Overflow.
Proof. vm_compute. reflexivity. Qed.
