(* ===== verification/Sha1.v ===== *)
(** * SHA-1, the splittable generator of the tree search

    [brg_sha1.c]: the hash function as it is computed there - a context with
    a buffer of sixteen words that is filled with bytes, turned into words of
    the other byte order and compiled block by block - and the random number
    generator that hashes the state of a node with the number of a child.
    The reference is the definition of the standard (FIPS 180-4): padding,
    schedule, eighty rounds.

    The machine is little endian, as [SWAP_BYTES] assumes; shifts of an [int]
    into its sign bit ([0x00000080 << 24], [mystate[16] << 24]) give the bit
    pattern, as compilers do.  Words and bytes are numbers. *)

From Stdlib Require Import Btauto.
From S2P Require Import Prelude Uts.

(** ** Words and bytes *)

Definition rotl32 (x n : Z) : Z := Z.lor (u32 (Z.shiftl x n)) (Z.shiftr x (32 - n)).
Definition rotr32 (x n : Z) : Z := Z.lor (Z.shiftr x n) (u32 (Z.shiftl x (32 - n))).

Definition bswap_32 (x : Z) : Z :=
  Z.lor (Z.land (rotr32 x 24) 0x00ff00ff) (Z.land (rotr32 x 8) 0xff00ff00).

(** A word in memory: four bytes, the lowest first. *)
Definition word_of (b0 b1 b2 b3 : Z) : Z :=
  Z.lor b0 (Z.lor (Z.shiftl b1 8) (Z.lor (Z.shiftl b2 16) (Z.shiftl b3 24))).
Definition bytes_of_word (x : Z) : list Z :=
  [Z.land x 0xff; Z.land (Z.shiftr x 8) 0xff; Z.land (Z.shiftr x 16) 0xff; Z.land (Z.shiftr x 24) 0xff].

Definition bytes_of (w : list Z) : list Z := flat_map bytes_of_word w.
Fixpoint words_of (b : list Z) : list Z :=
  match b with
  | b0 :: b1 :: b2 :: b3 :: b => word_of b0 b1 b2 b3 :: words_of b
  | _ => []
  end.

(** ** The context *)

Definition SHA1_BLOCK_SIZE := 64.
Definition SHA1_DIGEST_SIZE := 20.
Definition SHA1_MASK := SHA1_BLOCK_SIZE - 1.

Record sha1_ctx := Sha1Ctx { count : Z * Z; hash : list Z; wbuf : list Z }.

(** [memcpy(((unsigned char* )ctx->wbuf) + pos, sp, n)], with the bytes at [sp]
    given. *)
Definition copy_in (w : list Z) (pos : Z) (src : list Z) : res (list Z) :=
  let b := bytes_of w in
  if (0 <=? pos) && (pos + zlen src <=? zlen b) then
    Ok (words_of (take (Z.to_nat pos) b ++ src ++ drop (Z.to_nat pos + length src) b))
  else Err OutOfBounds.

(** [bsw_32(p, n)] *)
Definition bsw_32 (w : list Z) (n : Z) : res (list Z) :=
  for_range 0 n (fun j w => let i := n - 1 - j in x ← w.[i]; w.[i <- bswap_32 x]) w.

(** ** Compiling a block *)

Definition ch (x y z : Z) : Z := Z.lxor z (Z.land x (Z.lxor y z)).
Definition parity (x y z : Z) : Z := Z.lxor x (Z.lxor y z).
Definition maj (x y z : Z) : Z := Z.lor (Z.land x y) (Z.land z (Z.lxor x y)).

(** The two meanings of [hf(i)]: a word of the block, or the next word of the
    schedule, which is also stored. *)
Definition hf_block (i : Z) (w : list Z) : res (Z * list Z) := h ← w.[i]; Ok (h, w).
Definition hf_next (i : Z) (w : list Z) : res (Z * list Z) :=
  a ← w.[Z.land (i + 13) 15];
  b ← w.[Z.land (i + 8) 15];
  c ← w.[Z.land (i + 2) 15];
  d ← w.[Z.land i 15];
  let h := rotl32 (Z.lxor (Z.lxor (Z.lxor a b) c) d) 1 in
  w ← w.[Z.land i 15 <- h];
  Ok (h, w).

(** The five variables and the block. *)
Abbreviation cstate := (list Z * list Z)%type.

Definition one_cycle (a b c d e : Z) (f : Z -> Z -> Z -> Z) (k : Z)
    (hf : list Z -> res (Z * list Z)) (s : cstate) : res cstate :=
  let '(v, w) := s in
  '(h, w) ← hf w;
  va ← v.[a]; vb ← v.[b]; vc ← v.[c]; vd ← v.[d]; ve ← v.[e];
  v ← v.[e <- u32 (ve + (rotr32 va 27 + f vb vc vd + k + h))];
  v ← v.[b <- rotr32 vb 2];
  Ok (v, w).

Definition five_cycle (f : Z -> Z -> Z -> Z) (k : Z) (hf : Z -> list Z -> res (Z * list Z)) (i : Z)
    (s : cstate) : res cstate :=
  s ← one_cycle 0 1 2 3 4 f k (hf i) s;
  s ← one_cycle 4 0 1 2 3 f k (hf (i + 1)) s;
  s ← one_cycle 3 4 0 1 2 f k (hf (i + 2)) s;
  s ← one_cycle 2 3 4 0 1 f k (hf (i + 3)) s;
  one_cycle 1 2 3 4 0 f k (hf (i + 4)) s.

Definition sha1_compile (ctx : sha1_ctx) : res sha1_ctx :=
  v0 ← (hash ctx).[0]; v1 ← (hash ctx).[1]; v2 ← (hash ctx).[2]; v3 ← (hash ctx).[3]; v4 ← (hash ctx).[4];
  let s := ([v0; v1; v2; v3; v4], wbuf ctx) in
  s ← five_cycle ch 0x5a827999 hf_block 0 s;
  s ← five_cycle ch 0x5a827999 hf_block 5 s;
  s ← five_cycle ch 0x5a827999 hf_block 10 s;
  s ← one_cycle 0 1 2 3 4 ch 0x5a827999 (hf_block 15) s;
  s ← one_cycle 4 0 1 2 3 ch 0x5a827999 (hf_next 16) s;
  s ← one_cycle 3 4 0 1 2 ch 0x5a827999 (hf_next 17) s;
  s ← one_cycle 2 3 4 0 1 ch 0x5a827999 (hf_next 18) s;
  s ← one_cycle 1 2 3 4 0 ch 0x5a827999 (hf_next 19) s;
  s ← five_cycle parity 0x6ed9eba1 hf_next 20 s;
  s ← five_cycle parity 0x6ed9eba1 hf_next 25 s;
  s ← five_cycle parity 0x6ed9eba1 hf_next 30 s;
  s ← five_cycle parity 0x6ed9eba1 hf_next 35 s;
  s ← five_cycle maj 0x8f1bbcdc hf_next 40 s;
  s ← five_cycle maj 0x8f1bbcdc hf_next 45 s;
  s ← five_cycle maj 0x8f1bbcdc hf_next 50 s;
  s ← five_cycle maj 0x8f1bbcdc hf_next 55 s;
  s ← five_cycle parity 0xca62c1d6 hf_next 60 s;
  s ← five_cycle parity 0xca62c1d6 hf_next 65 s;
  s ← five_cycle parity 0xca62c1d6 hf_next 70 s;
  '(v, w) ← five_cycle parity 0xca62c1d6 hf_next 75 s;
  hash ← for_range 0 5 (fun i h => hi ← h.[i]; vi ← v.[i]; h.[i <- u32 (hi + vi)]) (hash ctx);
  Ok (Sha1Ctx (count ctx) hash w).

(** ** Hashing *)

(** The buffer of a new context has any contents. *)
Definition sha1_begin (wbuf : list Z) : sha1_ctx :=
  Sha1Ctx (0, 0) [0x67452301; 0xefcdab89; 0x98badcfe; 0x10325476; 0xc3d2e1f0] wbuf.

Definition slice (data : list Z) (from n : Z) : list Z := take (Z.to_nat n) (drop (Z.to_nat from) data).

(** The loop over whole blocks; the state is [sp - data], [len], [space],
    [pos] and the context.  Each turn uses up some of [data]. *)
Definition hash_blocks (data : list Z) : Z * Z * Z * Z * sha1_ctx -> res (Z * Z * Z * Z * sha1_ctx) :=
  while (S (length data))
    (fun '(sp, len, space, pos, ctx) => Ok (space <=? len))
    (fun '(sp, len, space, pos, ctx) =>
       w ← copy_in (wbuf ctx) pos (slice data sp space);
       w ← bsw_32 w (Z.shiftr SHA1_BLOCK_SIZE 2);
       ctx ← sha1_compile (Sha1Ctx (count ctx) (hash ctx) w);
       Ok (sp + space, len - space, SHA1_BLOCK_SIZE, 0, ctx)).

(** [ctx->count[0] += len], the carry into [count[1]] *)
Definition add_count (count : Z * Z) (len : Z) : Z * Z :=
  let c0 := u32 (count.1 + len) in
  (c0, if c0 <? len then u32 (count.2 + 1) else count.2).

Definition sha1_hash (data : list Z) (ctx : sha1_ctx) : res sha1_ctx :=
  let len := zlen data in
  let pos := Z.land (count ctx).1 SHA1_MASK in
  let space := SHA1_BLOCK_SIZE - pos in
  let ctx := Sha1Ctx (add_count (count ctx) len) (hash ctx) (wbuf ctx) in
  '(sp, len, space, pos, ctx) ← hash_blocks data (0, len, space, pos, ctx);
  w ← copy_in (wbuf ctx) pos (slice data sp len);
  Ok (Sha1Ctx (count ctx) (hash ctx) w).

(** The buffer with the byte 0x80 behind the rest of the message. *)
Definition terminate (w : list Z) (i : Z) : res (list Z) :=
  w ← bsw_32 w (Z.shiftr (i + 3) 2);
  let sh := 8 * Z.land (Z.lnot i) 3 in
  x ← w.[Z.shiftr i 2];
  w.[Z.shiftr i 2 <- Z.lor (Z.land x (u32 (Z.shiftl 0xffffff80 sh))) (u32 (Z.shiftl 0x00000080 sh))].

(** SHA1 final padding and digest calculation *)
Definition sha1_end (ctx : sha1_ctx) : res (list Z) :=
  let i := Z.land (count ctx).1 SHA1_MASK in
  w ← terminate (wbuf ctx) i;
  '(i, ctx) ←
    (if SHA1_BLOCK_SIZE - 9 <? i then
       w ← (if i <? 60 then w.[15 <- 0] else Ok w);
       ctx ← sha1_compile (Sha1Ctx (count ctx) (hash ctx) w);
       Ok (0, ctx)
     else Ok (Z.shiftr i 2 + 1, Sha1Ctx (count ctx) (hash ctx) w));
  w ← for_range i 14 (fun i w => w.[i <- 0]) (wbuf ctx);
  let '(c0, c1) := count ctx in
  w ← w.[14 <- Z.lor (u32 (Z.shiftl c1 3)) (Z.shiftr c0 29)];
  w ← w.[15 <- u32 (Z.shiftl c0 3)];
  ctx ← sha1_compile (Sha1Ctx (count ctx) (hash ctx) w);
  for_range 0 SHA1_DIGEST_SIZE
    (fun i hval =>
       h ← (hash ctx).[Z.shiftr i 2];
       Ok (hval ++ [u8 (Z.shiftr h (8 * Z.land (Z.lnot i) 3))])) [].

Definition sha1 (wbuf data : list Z) : res (list Z) :=
  ctx ← sha1_hash data (sha1_begin wbuf); sha1_end ctx.

(** ** The generator *)

Definition POS_MASK := 0x7fffffff.

(** The bytes of an [int], the highest first. *)
Definition int_bytes (x : Z) : list Z :=
  [Z.land 0xFF (Z.shiftr x 24); Z.land 0xFF (Z.shiftr x 16); Z.land 0xFF (Z.shiftr x 8); Z.land 0xFF x].

(** [n] bytes from an array *)
Definition read_bytes (a : list Z) (n : Z) : res (list Z) :=
  if n <=? zlen a then Ok (take (Z.to_nat n) a) else Err OutOfBounds.

(** [wbuf] is what the stack holds where the context is. *)
Definition rng_init (wbuf : list Z) (seed : Z) : res (list Z) :=
  let gen := replicate 16 0 ++ int_bytes seed in
  data ← read_bytes gen 20;
  ctx ← sha1_hash data (sha1_begin wbuf);
  sha1_end ctx.

Definition rng_spawn (wbuf : list Z) (mystate : list Z) (spawnnumber : Z) : res (list Z) :=
  let bytes := int_bytes spawnnumber in
  data ← read_bytes mystate 20;
  ctx ← sha1_hash data (sha1_begin wbuf);
  ctx ← sha1_hash bytes ctx;
  sha1_end ctx.

Definition rng_rand (mystate : list Z) : res Z :=
  b16 ← mystate.[16]; b17 ← mystate.[17]; b18 ← mystate.[18]; b19 ← mystate.[19];
  let b := Z.lor (Z.lor (Z.lor (Z.shiftl b16 24) (Z.shiftl b17 16)) (Z.shiftl b18 8)) (Z.shiftl b19 0) in
  Ok (Z.land b POS_MASK).

(** The state is overwritten. *)
Definition rng_nextrand (wbuf : list Z) (mystate : list Z) : res (Z * list Z) :=
  data ← read_bytes mystate 20;
  ctx ← sha1_hash data (sha1_begin wbuf);
  mystate ← sha1_end ctx;
  r ← rng_rand mystate;
  Ok (r, mystate).

(** ** Bits of a word *)

Definition byte (b : Z) : Prop := 0 <= b < 256.
Definition word (x : Z) : Prop := 0 <= x < 2 ^ 32.

Lemma byte_bits b i : byte b -> 8 <= i -> Z.testbit b i = false.
Proof. intros Hb Hi. by apply (testbit_above 8). Qed.

Definition positions : list Z :=
  [0; 1; 2; 3; 4; 5; 6; 7; 8; 9; 10; 11; 12; 13; 14; 15; 16; 17; 18; 19; 20; 21; 22; 23; 24; 25; 26;
   27; 28; 29; 30; 31].

Lemma positions_ind (P : Z -> Prop) : Forall P positions -> forall i, 0 <= i < 32 -> P i.
Proof.
  intros H i Hi. rewrite list.Forall_forall in H. apply H.
  assert (i ∈ map Z.of_nat (seq 0 32)) as Hx; [|exact Hx].
  apply list_elem_of_In, in_map_iff. exists (Z.to_nat i). split; [lia|]. apply in_seq. lia.
Qed.

(** Reduces a bit of a word, at a given position, to bits of its bytes. *)
Ltac split_bits :=
  repeat first
  [ match goal with
    | |- context [Z.testbit ?b (?x + ?y)] => let k := eval vm_compute in (x + y) in change (x + y) with k
    | |- context [Z.testbit ?b (?x - ?y)] => let k := eval vm_compute in (x - y) in change (x - y) with k
    | |- context [Z.testbit ?b (Zneg ?x)] => rewrite (Z.testbit_neg_r b (Zneg x)) by lia
    | |- context [Z.testbit (Zpos ?b) ?x] =>
        let k := eval vm_compute in (Z.testbit (Zpos b) x) in change (Z.testbit (Zpos b) x) with k
    | |- context [Zpos ?x <? ?y] => let k := eval vm_compute in (Zpos x <? y) in change (Zpos x <? y) with k
    | |- context [0 <? ?y] => let k := eval vm_compute in (0 <? y) in change (0 <? y) with k
    end
  | rewrite Z.bits_0 | rewrite Z.lor_spec | rewrite Z.land_spec | rewrite Z.lxor_spec
  | rewrite unsigned_testbit by lia | rewrite Z.shiftr_spec by lia | rewrite Z.shiftl_spec by lia ].

(** Equality of the 32 bits of two words made of bytes. *)
Ltac bitwise32 :=
  let i := fresh "i" in let Hi := fresh "Hi" in
  intros i Hi; revert i Hi; apply positions_ind; unfold positions;
  repeat (apply Forall_cons_2; [|]); [..|apply Forall_nil_2]; split_bits;
  repeat match goal with
  | H : byte ?b |- context [Z.testbit ?b ?k] => rewrite (byte_bits b k) by (exact H || lia)
  end; btauto.

Lemma word_bound x : 0 <= x -> (forall i, 32 <= i -> Z.testbit x i = false) -> word x.
Proof. intros Hx H. split; [done|]. by apply bits_bound. Qed.

Lemma word_eq x y : word x -> word y -> (forall i, 0 <= i < 32 -> Z.testbit x i = Z.testbit y i) -> x = y.
Proof.
  intros Hx Hy H. rewrite <- (unsigned_small 32 x), <- (unsigned_small 32 y) by done.
  by apply mod_pow2_bits_inj.
Qed.

Lemma word_lor x y : word x -> word y -> word (Z.lor x y).
Proof.
  intros [] []. apply word_bound; [by apply Z.lor_nonneg|]. intros i Hi.
  by rewrite Z.lor_spec, !(testbit_above 32) by lia.
Qed.

Lemma word_land x y : word y -> word (Z.land x y).
Proof.
  intros []. apply word_bound; [apply Z.land_nonneg; lia|]. intros i Hi.
  by rewrite Z.land_spec, (testbit_above 32 y), andb_false_r by lia.
Qed.

Lemma byte_word b n : byte b -> 0 <= n <= 24 -> word (Z.shiftl b n).
Proof.
  intros Hb Hn. unfold word, byte in *. rewrite Z.shiftl_mul_pow2 by lia.
  assert (2 ^ n <= 2 ^ 24) by (apply Z.pow_le_mono_r; lia). nia.
Qed.

Lemma word_of_word b0 b1 b2 b3 : byte b0 -> byte b1 -> byte b2 -> byte b3 -> word (word_of b0 b1 b2 b3).
Proof.
  intros. unfold word_of. repeat apply word_lor; try (by apply byte_word).
  unfold word, byte in *. lia.
Qed.

#[local] Hint Resolve word_of_word word_lor word_land : core.

Lemma bswap_word b0 b1 b2 b3 : byte b0 -> byte b1 -> byte b2 -> byte b3 ->
  bswap_32 (word_of b0 b1 b2 b3) = word_of b3 b2 b1 b0.
Proof.
  intros H0 H1 H2 H3. apply word_eq; [|auto|].
  - apply word_lor; by apply word_land.
  - unfold bswap_32, rotr32, word_of. bitwise32.
Qed.

Lemma land_byte x : byte (Z.land x 0xff).
Proof. change 0xff with (Z.ones 8). rewrite Z.land_ones by lia. apply Z.mod_pos_bound. lia. Qed.

Lemma bytes_of_word_of b0 b1 b2 b3 : byte b0 -> byte b1 -> byte b2 -> byte b3 ->
  bytes_of_word (word_of b0 b1 b2 b3) = [b0; b1; b2; b3].
Proof.
  intros H0 H1 H2 H3.
  assert (W : forall x, byte x -> word x) by (unfold byte, word; lia).
  unfold bytes_of_word. repeat f_equal; apply word_eq; auto using land_byte;
    unfold word_of; bitwise32.
Qed.

Lemma word_of_bytes x : word x -> forall b0 b1 b2 b3, bytes_of_word x = [b0; b1; b2; b3] ->
  word_of b0 b1 b2 b3 = x /\ byte b0 /\ byte b1 /\ byte b2 /\ byte b3.
Proof.
  intros Hx b0 b1 b2 b3 [= <- <- <- <-]. split; [|by auto using land_byte].
  apply word_eq; [|done|]; [auto using land_byte|]. unfold word_of. bitwise32.
Qed.

(** The end of the message in the last word: [r] bytes of it, the byte 0x80
    and zeros.  The word's other bytes are whatever the buffer held. *)
Definition end_word (r : Z) (b0 b1 b2 : Z) : Z :=
  if r =? 0 then word_of 0 0 0 0x80
  else if r =? 1 then word_of 0 0 0x80 b0
  else if r =? 2 then word_of 0 0x80 b1 b0
  else word_of 0x80 b2 b1 b0.

Lemma mask_word r b0 b1 b2 b3 : 0 <= r < 4 -> byte b0 -> byte b1 -> byte b2 -> byte b3 ->
  let sh := 8 * (3 - r) in
  Z.lor (Z.land (word_of b3 b2 b1 b0) (u32 (Z.shiftl 0xffffff80 sh))) (u32 (Z.shiftl 0x00000080 sh)) =
  end_word r b0 b1 b2.
Proof.
  intros Hr H0 H1 H2 H3 sh.
  assert (Hz : byte 0 /\ byte 0x80) by (unfold byte; lia). destruct Hz as [Hz H80].
  apply word_eq.
  - apply word_lor; [apply word_land|]; by apply unsigned_range.
  - unfold end_word. repeat case_match; auto.
  - assert (Hc : r = 0 \/ r = 1 \/ r = 2 \/ r = 3) by lia.
    destruct Hc as [->|[->|[-> | ->]]]; unfold end_word, word_of; cbn [Z.eqb Pos.eqb];
    match goal with |- context [u32 (Z.shiftl ?c sh)] =>
      let m := eval vm_compute in (u32 (Z.shiftl 0xffffff80 sh)) in
      let o := eval vm_compute in (u32 (Z.shiftl 0x00000080 sh)) in
      change (u32 (Z.shiftl 0xffffff80 sh)) with m; change (u32 (Z.shiftl 0x00000080 sh)) with o end;
    bitwise32.
Qed.

(** ** The standard *)

(** FIPS 180-4, 4.1.1: the functions and constants of round [t]. *)
Definition f_spec (t x y z : Z) : Z :=
  if t <? 20 then Z.lxor (Z.land x y) (Z.land (Z.lnot x) z)
  else if t <? 40 then Z.lxor (Z.lxor x y) z
  else if t <? 60 then Z.lxor (Z.lxor (Z.land x y) (Z.land x z)) (Z.land y z)
  else Z.lxor (Z.lxor x y) z.
Definition k_spec (t : Z) : Z :=
  if t <? 20 then 0x5a827999 else if t <? 40 then 0x6ed9eba1
  else if t <? 60 then 0x8f1bbcdc else 0xca62c1d6.

(** 6.1.2, 1: the message schedule, [n] words beyond the block. *)
Fixpoint schedule (block : list Z) (n : nat) : list Z :=
  match n with
  | O => block
  | S n =>
      let W := schedule block n in
      let t := zlen W in
      W ++ [rotl32 (Z.lxor (Z.lxor (Z.lxor (zth 0 W (t - 3)) (zth 0 W (t - 8))) (zth 0 W (t - 14)))
              (zth 0 W (t - 16))) 1]
  end.

(** 6.1.2, 3: one round on [a, b, c, d, e]. *)
Definition round_spec (t W : Z) (s : list Z) : list Z :=
  let a := zth 0 s 0 in let b := zth 0 s 1 in let c := zth 0 s 2 in
  let d := zth 0 s 3 in let e := zth 0 s 4 in
  [u32 (rotl32 a 5 + f_spec t b c d + e + k_spec t + W); a; rotl32 b 30; c; d].

Fixpoint rounds_spec (W s : list Z) (n : nat) : list Z :=
  match n with
  | O => s
  | S n => round_spec (Z.of_nat n) (zth 0 W (Z.of_nat n)) (rounds_spec W s n)
  end.

(** 6.1.2, 4: the next intermediate hash value. *)
Definition compress (H block : list Z) : list Z :=
  zip_with (fun x y => u32 (x + y)) H (rounds_spec (schedule block 64) H 80).

(** 5.2.1: words of a block of bytes, the highest byte first. *)
Fixpoint be_words (b : list Z) : list Z :=
  match b with
  | b0 :: b1 :: b2 :: b3 :: b => word_of b3 b2 b1 b0 :: be_words b
  | _ => []
  end.
Definition be_bytes (x : Z) : list Z := rev (bytes_of_word x).

(** 5.3.1: the initial hash value. *)
Definition H0 : list Z := [0x67452301; 0xefcdab89; 0x98badcfe; 0x10325476; 0xc3d2e1f0].

(** The hash value after [n] blocks of a message. *)
Fixpoint absorb (n : nat) (M : list Z) : list Z :=
  match n with
  | O => H0
  | S n => compress (absorb n M) (be_words (take 64 (drop (64 * n) M)))
  end.

(** 5.1.1: padding, the last of it the length in bits. *)
Definition length_field (n : Z) : list Z := be_bytes (Z.shiftr (8 * n) 32) ++ be_bytes (u32 (8 * n)).
Definition padding (n : Z) : list Z :=
  [0x80] ++ replicate (Z.to_nat ((55 - n) mod 64)) 0 ++ length_field n.

Definition sha1_spec (M : list Z) : list Z :=
  let P := M ++ padding (zlen M) in
  flat_map be_bytes (absorb (length P / 64) P).

Example sha1_spec_abc : sha1_spec [97; 98; 99] =
  [0xa9; 0x99; 0x3e; 0x36; 0x47; 0x06; 0x81; 0x6a; 0xba; 0x3e; 0x25; 0x71; 0x78; 0x50; 0xc2; 0x6c;
   0x9c; 0xd0; 0xd8; 0x9d].
Proof. vm_compute. reflexivity. Qed.

(** ** [sha1_compile] computes [compress] *)

Lemma ch_eq x y z : ch x y z = Z.lxor (Z.land x y) (Z.land (Z.lnot x) z).
Proof.
  apply Z.bits_inj'. intros i Hi. unfold ch.
  rewrite !Z.lxor_spec, !Z.land_spec, !Z.lxor_spec, Z.lnot_spec by lia. btauto.
Qed.

Lemma maj_eq x y z : maj x y z = Z.lxor (Z.lxor (Z.land x y) (Z.land x z)) (Z.land y z).
Proof.
  apply Z.bits_inj'. intros i Hi. unfold maj.
  rewrite !Z.lor_spec, !Z.lxor_spec, !Z.land_spec, !Z.lxor_spec by lia. btauto.
Qed.

(** The round functions and constants of the source, by position. *)
Definition f_code (t : Z) : Z -> Z -> Z -> Z :=
  if t <? 20 then ch else if t <? 40 then parity else if t <? 60 then maj else parity.

Lemma f_code_eq t x y z : f_code t x y z = f_spec t x y z.
Proof.
  unfold f_code, f_spec, parity. repeat case_match; [apply ch_eq | | apply maj_eq |]; by rewrite Z.lxor_assoc.
Qed.

Section Compile.
Context (block h : list Z).
Hypotheses (Hblock : length block = 16%nat) (Hh : length h = 5%nat).

Let W : list Z := schedule block 64.

Lemma length_schedule n : length (schedule block n) = (16 + n)%nat.
Proof. induction n as [|n IH]; [done|]. cbn [schedule]. rewrite length_app, IH. simpl. lia. Qed.

Lemma schedule_prefix n m t : (n <= m)%nat -> 0 <= t < 16 + Z.of_nat n ->
  zth 0 (schedule block m) t = zth 0 (schedule block n) t.
Proof.
  intros Hle Ht. induction Hle as [|m Hle IH]; [done|]. cbn [schedule].
  rewrite zth_app_l; [done|]. rewrite length_schedule. lia.
Qed.

Lemma W_block t : 0 <= t < 16 -> zth 0 W t = zth 0 block t.
Proof. intros Ht. unfold W. by rewrite (schedule_prefix 0) by lia. Qed.

Lemma W_next t : 16 <= t < 80 ->
  zth 0 W t = rotl32 (Z.lxor (Z.lxor (Z.lxor (zth 0 W (t - 3)) (zth 0 W (t - 8))) (zth 0 W (t - 14)))
              (zth 0 W (t - 16))) 1.
Proof.
  intros Ht. unfold W. set (n := Z.to_nat (t - 16)).
  rewrite (schedule_prefix (S n) 64 t) by lia.
  rewrite !(schedule_prefix n 64) by lia. cbn [schedule]. rewrite length_schedule.
  rewrite zth_app_r by (rewrite length_schedule; lia). rewrite length_schedule.
  replace (Z.of_nat (16 + n)) with t by lia. by rewrite Z.sub_diag.
Qed.

(** Before round [t]: variable [x] of the standard is in place
    [(x - t) mod 5], and the block holds a window of the schedule. *)
Record cycle_inv (t : Z) (s : cstate) : Prop := {
  ci_v : length (fst s) = 5%nat;
  ci_w : length (snd s) = 16%nat;
  ci_vars x : 0 <= x < 5 -> zth 0 (fst s) ((x - t) mod 5) = zth 0 (rounds_spec W h (Z.to_nat t)) x;
  ci_window u : Z.max 0 (t - 16) <= u < Z.max 0 (t - 16) + 16 -> zth 0 (snd s) (u mod 16) = zth 0 W u
}.

(** What a meaning of [hf] must do. *)
Definition hf_ok (t : Z) (hf : list Z -> res (Z * list Z)) : Prop :=
  forall s, cycle_inv t s -> exists w, hf (snd s) = Ok (zth 0 W t, w) /\ length w = 16%nat /\
    forall u, Z.max 0 (t - 15) <= u < Z.max 0 (t - 15) + 16 -> zth 0 w (u mod 16) = zth 0 W u.

Lemma hf_block_ok t : 0 <= t < 16 -> hf_ok t (hf_block t).
Proof.
  intros Ht s [V1 V2 V3 V4]. unfold hf_block.
  rewrite (aget_ok 0) by lia. cbn [mbind res_bind]. eexists. split; [|split; [exact V2|]].
  - rewrite <- (V4 t) by lia. by rewrite Z.mod_small by lia.
  - intros u Hu. apply V4. lia.
Qed.

Lemma land15 x : 0 <= x -> Z.land x 15 = x mod 16.
Proof. intros. change 15 with (Z.ones 4). by rewrite Z.land_ones by lia. Qed.

Lemma hf_next_ok t : 16 <= t < 80 -> hf_ok t (hf_next t).
Proof.
  intros Ht s [V1 V2 V3 V4]. unfold hf_next. rewrite !land15 by lia.
  assert (Hm : forall x, 0 <= x mod 16 < 16) by (intros; apply Z.mod_pos_bound; lia).
  rewrite !(aget_ok 0) by (rewrite V2; apply Hm). cbn [mbind res_bind].
  replace ((t + 13) mod 16) with ((t - 3) mod 16)
    by (rewrite <- (Z.mod_add (t - 3) 1 16) by lia; f_equal; lia).
  replace ((t + 8) mod 16) with ((t - 8) mod 16)
    by (rewrite <- (Z.mod_add (t - 8) 1 16) by lia; f_equal; lia).
  replace ((t + 2) mod 16) with ((t - 14) mod 16)
    by (rewrite <- (Z.mod_add (t - 14) 1 16) by lia; f_equal; lia).
  replace (zth 0 s.2 (t mod 16)) with (zth 0 W (t - 16)).
  2: { rewrite <- V4 by lia. f_equal. rewrite <- (Z.mod_add (t - 16) 1 16) by lia. f_equal. lia. }
  rewrite !V4 by lia. rewrite <- W_next by lia.
  rewrite aset_ok by (rewrite V2; apply Hm). cbn [mbind res_bind]. eexists. split; [done|].
  split; [by rewrite length_insert|]. intros u Hu. rewrite zth_insert by (rewrite ?V2; apply Hm).
  destruct (Z.eqb_spec (u mod 16) (t mod 16)) as [E|E].
  - destruct (Z.eq_dec u t) as [->|]; [done|]. exfalso.
    pose proof (Z.div_mod u 16 ltac:(lia)). pose proof (Z.div_mod t 16 ltac:(lia)). lia.
  - apply V4. assert (u <> t) by congruence. lia.
Qed.

Lemma rotr_rotl x n : rotr32 x (32 - n) = rotl32 x n.
Proof. unfold rotr32, rotl32. rewrite Z.lor_comm. do 3 f_equal. lia. Qed.

Lemma one_cycle_ok t a b c d e f k hf s :
  0 <= t < 80 -> cycle_inv t s -> hf_ok t hf ->
  a = (0 - t) mod 5 -> b = (1 - t) mod 5 -> c = (2 - t) mod 5 -> d = (3 - t) mod 5 -> e = (4 - t) mod 5 ->
  f = f_code t -> k = k_spec t ->
  exists s', one_cycle a b c d e f k hf s = Ok s' /\ cycle_inv (t + 1) s'.
Proof.
  intros Ht I Hhf Ea Eb Ec Ed Ee -> ->. destruct (Hhf s I) as (w' & Ew & Hw' & Hwin).
  destruct I as [V1 V2 V3 V4]. destruct s as [v w]. cbn [fst snd] in *. unfold one_cycle.
  rewrite Ew. cbn [mbind res_bind].
  assert (Hm : forall x, 0 <= (x - t) mod 5 < 5) by (intros; apply Z.mod_pos_bound; lia).
  assert (Hdist : forall x y, 0 <= x < 5 -> 0 <= y < 5 -> (x - t) mod 5 = (y - t) mod 5 -> x = y).
  { intros x y Hx Hy E. pose proof (Z.div_mod (x - t) 5 ltac:(lia)). pose proof (Z.div_mod (y - t) 5 ltac:(lia)). lia. }
  rewrite !(aget_ok 0) by (rewrite V1; subst; apply Hm). cbn [mbind res_bind].
  rewrite aset_ok by (rewrite V1; subst; apply Hm). cbn [mbind res_bind].
  rewrite aset_ok by (rewrite zlen_insert, V1; subst; apply Hm). cbn [mbind res_bind].
  eexists. split; [done|]. subst a b c d e. rewrite !V3 by lia. set (r := rounds_spec W h (Z.to_nat t)).
  assert (Er : rounds_spec W h (Z.to_nat (t + 1)) = round_spec t (zth 0 W t) r).
  { replace (Z.to_nat (t + 1)) with (S (Z.to_nat t)) by lia. cbn [rounds_spec].
    by replace (Z.of_nat (Z.to_nat t)) with t by lia. }
  split; cbn [fst snd].
  - by rewrite !length_insert.
  - done.
  - intros x Hx. rewrite Er. replace (x - (t + 1)) with (x - 1 - t) by lia.
    assert (Hm5 : forall x, (x - 1 - t) mod 5 = ((if x =? 0 then 4 else x - 1) - t) mod 5).
    { intros y. destruct (Z.eqb_spec y 0) as [->|]; [|done].
      rewrite <- (Z.mod_add (0 - 1 - t) 1 5) by lia. f_equal. lia. }
    rewrite Hm5. rewrite zth_insert by (rewrite ?zlen_insert, ?V1; apply Hm).
    rewrite zth_insert by (rewrite ?V1; apply Hm).
    assert (Hc : x = 0 \/ x = 1 \/ x = 2 \/ x = 3 \/ x = 4) by lia.
    destruct Hc as [->|[->|[->|[-> | ->]]]]; cbn [Z.eqb];
      repeat match goal with |- context [Zpos ?a - 1] =>
        let z := eval vm_compute in (Zpos a - 1) in change (Zpos a - 1) with z end;
      repeat match goal with |- context [?y =? ?z] =>
        destruct (Z.eqb_spec y z) as [Ebad|]; [try (apply Hdist in Ebad; lia)|] end;
      rewrite ?V3 by lia; try reflexivity; try congruence.
    + cbn [round_spec zth nth Z.to_nat]. rewrite f_code_eq. f_equal.
      change (rotr32 (zth 0 r 0) 27) with (rotr32 (zth 0 r 0) (32 - 5)). rewrite rotr_rotl. lia.
    + exact (rotr_rotl _ 30).
  - intros u Hu. apply Hwin. lia.
Qed.

Lemma five_cycle_ok t f k hf s :
  0 <= t -> t + 5 <= 80 -> (5 | t) ->
  (forall j, t <= j < t + 5 -> f = f_code j /\ k = k_spec j /\ hf_ok j (hf j)) ->
  cycle_inv t s ->
  exists s', five_cycle f k hf t s = Ok s' /\ cycle_inv (t + 5) s'.
Proof.
  intros Ht Ht5 [m Hm] Hj I0.
  assert (Hmod : forall x j, (x - (t + j)) mod 5 = (x - j) mod 5).
  { intros x j. rewrite <- (Z.mod_add (x - j) (- m) 5) by lia. f_equal. lia. }
  unfold five_cycle.
  destruct (one_cycle_ok t 0 1 2 3 4 f k (hf t) s) as (s1 & -> & I1);
    try (rewrite <- (Z.add_0_r t), Hmod; reflexivity); try (by apply Hj; lia); [lia | done |].
  cbn [mbind res_bind].
  destruct (one_cycle_ok (t + 1) 4 0 1 2 3 f k (hf (t + 1)) s1) as (s2 & -> & I2);
    try (rewrite Hmod; reflexivity); try (by apply Hj; lia); [lia | done |].
  cbn [mbind res_bind]. rewrite <- Z.add_assoc in I2.
  destruct (one_cycle_ok (t + 2) 3 4 0 1 2 f k (hf (t + 2)) s2) as (s3 & -> & I3);
    try (rewrite Hmod; reflexivity); try (by apply Hj; lia); [lia | done |].
  cbn [mbind res_bind]. rewrite <- Z.add_assoc in I3.
  destruct (one_cycle_ok (t + 3) 2 3 4 0 1 f k (hf (t + 3)) s3) as (s4 & -> & I4);
    try (rewrite Hmod; reflexivity); try (by apply Hj; lia); [lia | done |].
  cbn [mbind res_bind]. rewrite <- Z.add_assoc in I4.
  destruct (one_cycle_ok (t + 4) 1 2 3 4 0 f k (hf (t + 4)) s4) as (s5 & -> & I5);
    try (rewrite Hmod; reflexivity); try (by apply Hj; lia); [lia | done |].
  exists s5. split; [done|]. by rewrite <- Z.add_assoc in I5.
Qed.

(** The side conditions of a round at a given position. *)
Ltac at_round :=
  intros; unfold f_code, k_spec;
  repeat (match goal with |- context [?x <? ?y] => destruct (Z.ltb_spec x y); try (exfalso; lia) end);
  repeat split; try done; first [apply hf_block_ok; lia | apply hf_next_ok; lia].

(** After [lem] has run the next cycle or five cycles from [I]. *)
Ltac advance I E I' :=
  rewrite E; clear E I; cbn [mbind res_bind];
  (match type of I' with cycle_inv ?x _ => let y := eval vm_compute in x in change x with y in I' end);
  rename I' into I.

Ltac cycles I :=
  let E := fresh "E" in let I' := fresh "I" in let s' := fresh "s" in
  match type of I with cycle_inv ?t ?s =>
    lazymatch goal with
    | |- context [mbind _ (five_cycle ?f ?k ?hf t s)] =>
        destruct (five_cycle_ok t f k hf s) as (s' & E & I');
        [lia | lia | by (exists (t / 5); reflexivity) | at_round | exact I | advance I E I']
    | |- context [mbind _ (one_cycle ?a ?b ?c ?d ?e ?f ?k ?hf s)] =>
        destruct (one_cycle_ok t a b c d e f k hf s) as (s' & E & I');
        [lia | exact I | first [apply (hf_block_ok t); lia | apply (hf_next_ok t); lia]
        | reflexivity | reflexivity | reflexivity | reflexivity | reflexivity
        | reflexivity | reflexivity | advance I E I']
    end
  end.

Lemma cycle_start : cycle_inv 0 (h, block).
Proof.
  split; try done; cbn [fst snd].
  - intros x Hx. rewrite Z.sub_0_r, Z.mod_small by lia. done.
  - intros u Hu. rewrite Z.mod_small by lia. rewrite W_block by lia. done.
Qed.

Lemma length_rounds n : length (rounds_spec W h n) = 5%nat.
Proof. by destruct n. Qed.

Lemma add_hash (a b : list Z) : length a = 5%nat -> length b = 5%nat ->
  for_range 0 5 (fun i h => hi ← h.[i]; vi ← b.[i]; h.[i <- u32 (hi + vi)]) a =
  Ok (zip_with (fun x y => u32 (x + y)) a b).
Proof.
  intros Ha Hb.
  destruct a as [|a0 [|a1 [|a2 [|a3 [|a4 [|]]]]]]; try discriminate Ha.
  destruct b as [|b0 [|b1 [|b2 [|b3 [|b4 [|]]]]]]; try discriminate Hb. reflexivity.
Qed.

Lemma sha1_compile_ok cnt : exists w,
  sha1_compile (Sha1Ctx cnt h block) = Ok (Sha1Ctx cnt (compress h block) w) /\ length w = 16%nat.
Proof.
  unfold sha1_compile. cbn [hash wbuf count].
  rewrite !(aget_ok 0) by lia. cbn [mbind res_bind].
  replace [zth 0 h 0; zth 0 h 1; zth 0 h 2; zth 0 h 3; zth 0 h 4] with h
    by (destruct h as [|a0 [|a1 [|a2 [|a3 [|a4 [|]]]]]]; try discriminate Hh; reflexivity).
  pose proof cycle_start as I. do 20 (cycles I).
  match type of I with cycle_inv _ ?s => destruct s as [v w] end.
  destruct I as [V1 V2 V3 V4]. cbn [fst snd] in *.
  assert (Ev : v = rounds_spec W h 80).
  { apply (zth_ext 0); [by rewrite V1, length_rounds|]. intros x Hx. rewrite V1 in Hx.
    change 80%nat with (Z.to_nat 80). rewrite <- V3 by lia. f_equal.
    rewrite <- (Z.mod_add (x - 80) 16 5) by lia. rewrite Z.mod_small; lia. }
  rewrite add_hash by done. cbn [mbind res_bind]. exists w. split; [|done].
  unfold compress. fold W. by rewrite Ev.
Qed.
End Compile.

(** ** The buffer as words and as bytes *)

(** Induction on lists whose length is a multiple of four. *)
Lemma list4_ind {A} (P : list A -> Prop) : P [] ->
  (forall a b c d l, P l -> P (a :: b :: c :: d :: l)) ->
  forall l n, length l = (4 * n)%nat -> P l.
Proof.
  intros P0 P4 l n. revert l. induction n as [|n IH]; intros l Hl.
  - by destruct l.
  - destruct l as [|a [|b [|c' [|d l]]]]; simpl in Hl; try lia. apply P4, IH. lia.
Qed.

Lemma length_bytes_of w : length (bytes_of w) = (4 * length w)%nat.
Proof. induction w as [|x w IH]; [done|]. cbn [bytes_of flat_map]. rewrite length_app. unfold bytes_of in IH. rewrite IH. simpl. lia. Qed.

Lemma bytes_of_bytes w : Forall byte (bytes_of w).
Proof.
  induction w as [|x w IH]; [constructor|]. cbn [bytes_of flat_map]. apply Forall_app. split; [|done].
  repeat constructor; apply land_byte.
Qed.

Lemma length_words_of b n : length b = (4 * n)%nat -> length (words_of b) = n.
Proof.
  revert b. induction n as [|n IH]; intros b Hb.
  - by destruct b.
  - destruct b as [|b0 [|b1 [|b2 [|b3 b]]]]; simpl in Hb; try lia. simpl. f_equal. apply IH. lia.
Qed.

Lemma length_be_words b n : length b = (4 * n)%nat -> length (be_words b) = n.
Proof.
  revert b. induction n as [|n IH]; intros b Hb.
  - by destruct b.
  - destruct b as [|b0 [|b1 [|b2 [|b3 b]]]]; simpl in Hb; try lia. simpl. f_equal. apply IH. lia.
Qed.

Lemma bytes_of_words b n : length b = (4 * n)%nat -> Forall byte b -> bytes_of (words_of b) = b.
Proof.
  intros Hl. revert Hl. apply (list4_ind (fun b => Forall byte b -> bytes_of (words_of b) = b)); [done|].
  intros b0 b1 b2 b3 l IH Hb. inv_forall. cbn [words_of bytes_of flat_map].
  rewrite bytes_of_word_of by done. simpl. do 4 f_equal. by apply IH.
Qed.

Lemma words_of_bytes w : Forall word w -> words_of (bytes_of w) = w.
Proof.
  induction w as [|x w IH]; intros Hw; [done|]. inv_forall. cbn [bytes_of flat_map].
  destruct (bytes_of_word x) as [|b0 [|b1 [|b2 [|b3 [|]]]]] eqn:E; try discriminate E.
  destruct (word_of_bytes x ltac:(done) b0 b1 b2 b3 E) as (Ex & _). simpl. rewrite Ex. f_equal. by apply IH.
Qed.

Lemma words_of_word b n : length b = (4 * n)%nat -> Forall byte b -> Forall word (words_of b).
Proof.
  intros Hl. revert Hl. apply (list4_ind (fun b => Forall byte b -> Forall word (words_of b))); [constructor|].
  intros b0 b1 b2 b3 l IH Hb. inv_forall. constructor; [by apply word_of_word | by apply IH].
Qed.

Lemma words_of_app a b n : length a = (4 * n)%nat -> words_of (a ++ b) = words_of a ++ words_of b.
Proof.
  apply (list4_ind (fun a => words_of (a ++ b) = words_of a ++ words_of b)); [done|].
  intros b0 b1 b2 b3 l IH. simpl. by rewrite IH.
Qed.

Lemma be_words_app a b n : length a = (4 * n)%nat -> be_words (a ++ b) = be_words a ++ be_words b.
Proof.
  apply (list4_ind (fun a => be_words (a ++ b) = be_words a ++ be_words b)); [done|].
  intros b0 b1 b2 b3 l IH. simpl. by rewrite IH.
Qed.

Lemma bswap_words b n : length b = (4 * n)%nat -> Forall byte b -> map bswap_32 (words_of b) = be_words b.
Proof.
  intros Hl. revert Hl. apply (list4_ind (fun b => Forall byte b -> map bswap_32 (words_of b) = be_words b)); [done|].
  intros b0 b1 b2 b3 l IH Hb. inv_forall. simpl. rewrite bswap_word by done. f_equal. by apply IH.
Qed.

Lemma be_words_zeros n : be_words (replicate (4 * n) 0) = replicate n 0.
Proof.
  induction n as [|n IH]; [done|]. replace (4 * S n)%nat with (4 + 4 * n)%nat by lia.
  rewrite replicate_add. cbn [replicate app be_words]. by rewrite IH.
Qed.

Lemma be_words_be_bytes x l : word x -> be_words (be_bytes x ++ l) = x :: be_words l.
Proof.
  intros Hx. unfold be_bytes.
  destruct (bytes_of_word x) as [|b0 [|b1 [|b2 [|b3 [|]]]]] eqn:E; try discriminate E.
  destruct (word_of_bytes x Hx b0 b1 b2 b3 E) as (Ex & _). simpl. by rewrite Ex.
Qed.

(** Splitting a list at an index. *)
Lemma aget_middle {A} (l1 l2 : list A) x i : i = zlen l1 -> (l1 ++ x :: l2).[i] = Ok x.
Proof.
  intros ->. rewrite (aget_ok x) by (rewrite length_app; simpl length; lia).
  by rewrite zth_app_r, Z.sub_diag by lia.
Qed.

Lemma aset_middle {A} (l1 l2 : list A) x y i : i = zlen l1 ->
  (l1 ++ x :: l2).[i <- y] = Ok (l1 ++ y :: l2).
Proof.
  intros ->. rewrite aset_ok by (rewrite length_app; simpl length; lia).
  by rewrite Nat2Z.id, insert_app_r_alt, Nat.sub_diag by lia.
Qed.

Lemma bsw_32_ok w1 w2 n : n = zlen w1 -> bsw_32 (w1 ++ w2) n = Ok (map bswap_32 w1 ++ w2).
Proof.
  intros ->. unfold bsw_32.
  set (rest := fun j => (length w1 - Z.to_nat j)%nat).
  edestruct (for_range_inv (fun j w => w = take (rest j) w1 ++ map bswap_32 (drop (rest j) w1) ++ w2))
    as (w & E & Ew); [| | | etransitivity; [exact E|] ].
  - lia.
  - unfold rest. rewrite Nat.sub_0_r, firstn_all, skipn_all. done.
  - intros j w Hj ->. cbv zeta. set (m := rest (j + 1)).
    assert (Em : rest j = S m) by (unfold m, rest; lia). rewrite Em.
    destruct (lookup_lt_is_Some_2 w1 m) as [x Hx]; [unfold m, rest; lia|].
    rewrite (take_S_r w1 m x Hx), <- app_assoc. cbn [app].
    rewrite aget_middle by (rewrite length_take; unfold m, rest; lia). cbn [mbind res_bind].
    rewrite aset_middle by (rewrite length_take; unfold m, rest; lia).
    eexists. split; [done|]. by rewrite (drop_S w1 x m Hx).
  - rewrite Ew. unfold rest. by rewrite Nat2Z.id, Nat.sub_diag.
Qed.

Lemma length_bsw w n w' : bsw_32 w n = Ok w' -> 0 <= n -> length w' = length w.
Proof.
  intros E Hn. unfold bsw_32 in E. revert E.
  assert (G : forall m lo w w', for_from m lo (fun j w => let i := n - 1 - j in x ← w.[i]; w.[i <- bswap_32 x]) w = Ok w' ->
    length w' = length w).
  { clear. induction m as [|m IH]; intros lo w w' E; cbn [for_from] in E; [by injection E as <-|].
    inv_ok. apply aset_Ok_inv in Ha as [_ ->]. apply IH in E. by rewrite length_insert in E. }
  apply G.
Qed.

(** ** The context after part of a message *)

(** The bytes of a message behind its last whole block. *)
Definition rest (M : list Z) : list Z := drop (64 * (length M / 64)) M.

Lemma length_rest M : length (rest M) = (length M mod 64)%nat.
Proof. unfold rest. rewrite length_drop. pose proof (Nat.div_mod_eq (length M) 64). lia. Qed.

Lemma rest_lt M : (length (rest M) < 64)%nat.
Proof. rewrite length_rest. apply Nat.mod_upper_bound. lia. Qed.

Lemma zlen_rest M : zlen (rest M) = zlen M mod 64.
Proof. by rewrite length_rest, Nat2Z.inj_mod. Qed.

(** What the count fields hold: the length in bytes, modulo 2^64. *)
Definition counts (n : Z) : Z * Z := (u32 n, u32 (n / 2 ^ 32)).

Record holds (ctx : sha1_ctx) (M : list Z) : Prop := {
  holds_count : count ctx = counts (zlen M);
  holds_hash : hash ctx = absorb (length M / 64) M;
  holds_buffer : exists g, wbuf ctx = words_of (rest M ++ g) /\ (length (rest M) + length g = 64)%nat /\
    Forall byte (rest M ++ g)
}.

Lemma length_absorb n M : length (absorb n M) = 5%nat.
Proof.
  induction n as [|n IH]; [done|]. cbn [absorb]. unfold compress.
  by rewrite length_zip_with, length_rounds, IH by done.
Qed.

Lemma absorb_app n M X : (64 * n <= length M)%nat -> absorb n (M ++ X) = absorb n M.
Proof.
  induction n as [|n IH]; intros Hn; [done|]. cbn [absorb]. rewrite IH by lia.
  rewrite drop_app_le, take_app_le by (rewrite ?length_drop; lia). reflexivity.
Qed.

(** One more block: the rest of [M] and what completes it. *)
Lemma absorb_block M X : (length (rest M) + length X = 64)%nat ->
  absorb (S (length M / 64)) (M ++ X) = compress (absorb (length M / 64) M) (be_words (rest M ++ X)).
Proof.
  intros Hl. pose proof (Nat.div_mod_eq (length M) 64). cbn [absorb].
  rewrite absorb_app, drop_app_le by lia. fold (rest M).
  rewrite take_ge by (rewrite length_app; lia). reflexivity.
Qed.

Lemma sha1_begin_holds w : length w = 16%nat -> Forall word w -> holds (sha1_begin w) [].
Proof.
  intros Hl Hw. split; [done | done |]. exists (bytes_of w). change (rest []) with (@nil Z). cbn [wbuf sha1_begin app].
  rewrite words_of_bytes, length_bytes_of, Hl by done. auto using bytes_of_bytes.
Qed.

Lemma copy_in_ok w p g src : bytes_of w = p ++ g -> (length src <= length g)%nat ->
  copy_in w (zlen p) src = Ok (words_of (p ++ src ++ drop (length src) g)).
Proof.
  intros E Hl. unfold copy_in. rewrite E, length_app.
  destruct (Z.leb_spec 0 (zlen p)); [|lia].
  destruct (Z.leb_spec (zlen p + zlen src) (Z.of_nat (length p + length g))); [|lia]. cbn [andb].
  rewrite Nat2Z.id, take_app_length, drop_app_add. done.
Qed.

(** The count after [len] more bytes; the carry is one at most. *)
Lemma add_count_ok n len : 0 <= n -> 0 <= len < 2 ^ 32 -> add_count (counts n) len = counts (n + len).
Proof.
  intros Hn Hl. unfold add_count, counts, unsigned. cbn [fst snd].
  rewrite Zplus_mod_idemp_l. f_equal.
  pose proof (Z.div_mod n (2 ^ 32) ltac:(lia)). pose proof (Z.mod_pos_bound n (2 ^ 32) ltac:(lia)).
  set (q := n / 2 ^ 32) in *. set (r := n mod 2 ^ 32) in *. rewrite H.
  replace (2 ^ 32 * q + r + len) with (r + len + q * 2 ^ 32) by lia.
  rewrite Z.div_add, Z.mod_add by lia.
  destruct (Z.lt_ge_cases (r + len) (2 ^ 32)).
  - rewrite Z.mod_small, Z.div_small by lia. destruct (Z.ltb_spec (r + len) len); [lia|]. done.
  - replace (r + len) with (r + len - 2 ^ 32 + 1 * 2 ^ 32) by lia.
    rewrite Z.mod_add, Z.div_add, Z.mod_small, Z.div_small by lia.
    destruct (Z.ltb_spec (r + len - 2 ^ 32) len); [|lia].
    rewrite Zplus_mod_idemp_l. f_equal. lia.
Qed.

Lemma rest_short M X : (length (rest M) + length X < 64)%nat ->
  rest (M ++ X) = rest M ++ X /\ (length (M ++ X) / 64 = length M / 64)%nat.
Proof.
  rewrite length_rest. intros Hl. pose proof (Nat.div_mod_eq (length M) 64).
  assert (E : (length (M ++ X) / 64 = length M / 64)%nat).
  { rewrite length_app. symmetry. apply (Nat.div_unique _ _ _ (length M mod 64 + length X)); lia. }
  unfold rest. rewrite E. split; [|done]. by rewrite drop_app_le by lia.
Qed.

Lemma rest_full M X : (length (rest M) + length X = 64)%nat ->
  rest (M ++ X) = [] /\ (length (M ++ X) / 64 = S (length M / 64))%nat.
Proof.
  rewrite length_rest. intros Hl. pose proof (Nat.div_mod_eq (length M) 64).
  assert (E : (length (M ++ X) / 64 = S (length M / 64))%nat).
  { rewrite length_app. symmetry. apply (Nat.div_unique _ _ _ 0); lia. }
  split; [|done]. unfold rest. rewrite E, drop_ge; [done|]. rewrite length_app. lia.
Qed.

Lemma slice_take data (a b : Z) : 0 <= a -> 0 <= b ->
  take (Z.to_nat (a + b)) data = take (Z.to_nat a) data ++ slice data a b.
Proof. intros. unfold slice. by rewrite take_take_drop, Z2Nat.inj_add by lia. Qed.

Lemma length_slice data a b : 0 <= a -> 0 <= b -> a + b <= zlen data -> zlen (slice data a b) = b.
Proof. intros. unfold slice. rewrite length_take, length_drop. lia. Qed.

Lemma slice_bytes data a b : Forall byte data -> Forall byte (slice data a b).
Proof. intros. by apply Forall_take, Forall_drop. Qed.

(** A full buffer is compiled. *)
Lemma full_block_ok cnt M X g w :
  (length (rest M) + length X = 64)%nat -> Forall byte (rest M ++ X) ->
  bytes_of w = rest M ++ g -> length g = length X ->
  exists w', (w ← copy_in w (zlen (rest M)) X; w ← bsw_32 w (Z.shiftr SHA1_BLOCK_SIZE 2);
              sha1_compile (Sha1Ctx cnt (absorb (length M / 64) M) w)) =
             Ok (Sha1Ctx cnt (absorb (length (M ++ X) / 64) (M ++ X)) w') /\ length w' = 16%nat.
Proof.
  intros Hl Hb Hw Hg. rewrite (copy_in_ok w (rest M) g) by (done || lia). cbn [mbind res_bind].
  rewrite drop_ge, app_nil_r by lia.
  assert (Hf : length (rest M ++ X) = (4 * 16)%nat) by (rewrite length_app; lia).
  rewrite <- (app_nil_r (words_of _)).
  rewrite bsw_32_ok by (rewrite (length_words_of _ 16) by done; reflexivity).
  cbn [mbind res_bind]. rewrite app_nil_r, (bswap_words _ 16) by done.
  destruct (sha1_compile_ok (be_words (rest M ++ X)) (absorb (length M / 64) M)
    (length_be_words _ _ Hf) (length_absorb _ _) cnt) as (w' & -> & Hw').
  exists w'. split; [|done]. do 2 f_equal. rewrite (proj2 (rest_full M X Hl)).
  by rewrite absorb_block.
Qed.

(** The message so far, [sp] bytes into [data]. *)
Definition sofar (M data : list Z) (sp : Z) : list Z := M ++ take (Z.to_nat sp) data.

(** The state of the loop: what is left, and the context so far, with the
    count of the whole message. *)
Record hashing (M data : list Z) (cnt : Z * Z) (s : Z * Z * Z * Z * sha1_ctx) : Prop := {
  hg_sp : 0 <= s.1.1.1.1 <= zlen data;
  hg_len : s.1.1.1.2 = zlen data - s.1.1.1.1;
  hg_pos : s.1.2 = zlen (rest (sofar M data s.1.1.1.1));
  hg_space : s.1.1.2 = 64 - s.1.2;
  hg_count : count s.2 = cnt;
  hg_hash : hash s.2 = absorb (length (sofar M data s.1.1.1.1) / 64) (sofar M data s.1.1.1.1);
  hg_bytes : Forall byte (rest (sofar M data s.1.1.1.1));
  hg_buffer : exists g, bytes_of (wbuf s.2) = rest (sofar M data s.1.1.1.1) ++ g /\ (length (rest (sofar M data s.1.1.1.1)) + length g = 64)%nat
}.

Lemma hash_blocks_ok M data cnt s : Forall byte data -> hashing M data cnt s ->
  s.1.1.1.1 = 0 ->
  exists s', hash_blocks data s = Ok s' /\ hashing M data cnt s' /\ (s'.1.1.1.2 < s'.1.1.2).
Proof.
  intros Hdata I0 H0.
  destruct (while_inv (hashing M data cnt) (fun s => Z.to_nat (s.1.1.1.2))
    (fun '(sp, len, space, pos, ctx) => Ok (space <=? len))
    (fun '(sp, len, space, pos, ctx) =>
       w ← copy_in (wbuf ctx) pos (slice data sp space);
       w ← bsw_32 w (Z.shiftr SHA1_BLOCK_SIZE 2);
       ctx ← sha1_compile (Sha1Ctx (count ctx) (hash ctx) w);
       Ok (sp + space, len - space, SHA1_BLOCK_SIZE, 0, ctx))) with (fuel := S (length data)) (s := s)
    as (s' & E & I & Hc); [| | | done |].
  - intros [[[[]]]] _. eauto.
  - intros [[[[sp len] space] pos] ctx] I Hc. destruct I as [Isp Ilen Ipos Isp' Icnt Ihash Ibytes (g & Eg & Hg)].
    cbn [fst snd] in *. injection Hc as Hc%Z.leb_le. subst len space pos cnt. set (E := sofar M data sp) in *.
    pose proof (rest_lt E) as Hlt. set (X := slice data sp (64 - zlen (rest E))).
    assert (HX : zlen X = 64 - zlen (rest E)) by (apply length_slice; lia).
    assert (EX : sofar M data (sp + (64 - zlen (rest E))) = E ++ X).
    { unfold sofar. rewrite slice_take, app_assoc by lia. reflexivity. }
    destruct (full_block_ok (count ctx) E X g (wbuf ctx)) as (w' & Ew & Hw');
      [lia | apply Forall_app; split; [done | by apply slice_bytes] | done | lia |].
    rewrite Ihash. inv_ok. rewrite Ha. cbn [mbind res_bind]. rewrite Ha0. cbn [mbind res_bind]. rewrite Ew.
    cbn [mbind res_bind]. eexists. split; [done|]. split; [|cbn [fst snd]; lia].
    destruct (rest_full E X ltac:(lia)) as [Er Ed].
    split; cbn [fst snd count hash wbuf]; rewrite ?EX, ?Er; try done; try lia.
    exists (bytes_of w'). by rewrite length_bytes_of, Hw'.
  - destruct I0. cbn in *. rewrite hg_len0, H0. lia.
  - exists s'. split; [exact E|]. split; [done|]. destruct s' as [[[[]]]]. injection Hc as Hc. cbn. lia.
Qed.

Lemma land63 n : 0 <= n -> Z.land (u32 n) SHA1_MASK = n mod 64.
Proof.
  intros Hn. change SHA1_MASK with (Z.ones 6). rewrite Z.land_ones by lia. unfold unsigned.
  change (2 ^ 32) with (2 ^ 6 * 2 ^ 26). by rewrite Z.rem_mul_r, Z.mul_comm, Z.mod_add, Z.mod_mod by lia.
Qed.

Lemma holds_pos ctx M : holds ctx M -> Z.land (count ctx).1 SHA1_MASK = zlen (rest M).
Proof. intros [-> _ _]. cbn [counts fst]. by rewrite land63, zlen_rest by lia. Qed.

Lemma sha1_hash_ok ctx M data : holds ctx M -> Forall byte data -> zlen data < 2 ^ 32 ->
  exists ctx', sha1_hash data ctx = Ok ctx' /\ holds ctx' (M ++ data).
Proof.
  intros I Hdata Hlen. unfold sha1_hash. rewrite (holds_pos ctx M) by done.
  destruct I as [Hc Hh (g & Eg & Hg & Hb)].
  rewrite Hc, add_count_ok, Hh by lia. set (cnt := counts (zlen M + zlen data)).
  pose proof (proj1 (proj1 (Forall_app _ _ _) Hb)) as Hbytes.
  destruct (hash_blocks_ok M data cnt (0, zlen data, SHA1_BLOCK_SIZE - zlen (rest M), zlen (rest M),
    Sha1Ctx cnt (absorb (length M / 64) M) (wbuf ctx))) as (s & -> & I & Hleft); [done | | done |].
  { assert (E : sofar M data 0 = M) by (unfold sofar; by rewrite take_0, app_nil_r).
    split; cbn [fst snd count hash wbuf]; rewrite ?E; try done; try lia.
    exists g. rewrite Eg. split; [|done]. apply (bytes_of_words _ 16); [rewrite length_app; lia | done]. }
  destruct s as [[[[sp len] space] pos] ctx1]. cbn [mbind res_bind].
  destruct I as [Isp Ilen Ipos Isp' Icnt Ihash Ibytes (g' & Eg' & Hg')]. cbn [fst snd] in *.
  subst len space pos. set (E := sofar M data sp) in *. set (X := slice data sp (zlen data - sp)).
  assert (HX : zlen X = zlen data - sp) by (apply length_slice; lia).
  assert (EX : M ++ data = E ++ X).
  { unfold E, X, sofar. rewrite <- app_assoc, <- slice_take by lia.
    by rewrite (take_ge data) by lia. }
  rewrite (copy_in_ok (wbuf ctx1) (rest E) g') by (done || lia). cbn [mbind res_bind].
  eexists. split; [done|]. rewrite EX. destruct (rest_short E X ltac:(lia)) as [Er Ed].
  split; cbn [count hash wbuf].
  - rewrite Icnt, <- EX, length_app, Nat2Z.inj_add. done.
  - by rewrite Ihash, Ed, absorb_app by (pose proof (Nat.div_mod_eq (length E) 64); lia).
  - exists (drop (length X) g'). rewrite Er, <- !app_assoc. split; [done|]. split.
    + rewrite length_app, length_drop. lia.
    + pose proof (bytes_of_bytes (wbuf ctx1)) as Hby. rewrite Eg' in Hby. apply Forall_app in Hby as [_ Hby].
      apply Forall_app. split; [done|]. apply Forall_app. split; [by apply slice_bytes|].
      by apply Forall_drop.
Qed.

(** ** The end of the message *)

(** Zeros up to the length, which is in the last two words. *)
Lemma zero_fill i w1 w2 x y : i = zlen w1 -> (length w1 + length w2 = 14)%nat ->
  for_range i 14 (fun i w => w.[i <- 0]) (w1 ++ w2 ++ [x; y]) =
  Ok (w1 ++ replicate (14 - length w1) 0 ++ [x; y]).
Proof.
  revert w1 i. induction w2 as [|z w2 IH]; intros w1 i -> Hl; cbn [app length] in *.
  - rewrite for_range_empty by lia. by replace (14 - length w1)%nat with O by lia.
  - rewrite for_range_step, aset_middle by (done || lia). cbn [mbind res_bind].
    replace (w1 ++ 0 :: w2 ++ [x; y]) with ((w1 ++ [0]) ++ w2 ++ [x; y]) by by rewrite <- app_assoc.
    rewrite IH by (rewrite length_app; simpl; lia).
    rewrite length_app, <- app_assoc. cbn [length app].
    by replace (14 - length w1)%nat with (S (14 - (length w1 + 1))) by lia.
Qed.

(** The last two words are the length in bits. *)
Lemma length_words n : 0 <= n < 2 ^ 61 ->
  Z.lor (u32 (Z.shiftl (counts n).2 3)) (Z.shiftr (counts n).1 29) = Z.shiftr (8 * n) 32 /\
  u32 (Z.shiftl (counts n).1 3) = u32 (8 * n) /\ word (Z.shiftr (8 * n) 32).
Proof.
  intros Hn. unfold counts, unsigned, word. cbn [fst snd].
  rewrite !Z.shiftl_mul_pow2, !Z.shiftr_div_pow2 by lia.
  assert (H1 : 0 <= n / 2 ^ 32 < 2 ^ 29).
  { split; [apply Z.div_pos; lia | apply Z.div_lt_upper_bound; lia]. }
  pose proof (Z.div_mod n (2 ^ 32) ltac:(lia)) as Ed. pose proof (Z.mod_pos_bound n (2 ^ 32) ltac:(lia)).
  set (q := n / 2 ^ 32) in *. set (r := n mod 2 ^ 32) in *.
  assert (E : 8 * n / 2 ^ 32 = q * 2 ^ 3 + r / 2 ^ 29).
  { rewrite Ed. replace (8 * (2 ^ 32 * q + r)) with (8 * r + (8 * q) * 2 ^ 32) by lia.
    rewrite Z.div_add by lia. change (2 ^ 32) with (8 * 2 ^ 29) at 1.
    rewrite Z.div_mul_cancel_l by lia. lia. }
  assert (Hr : 0 <= r / 2 ^ 29 < 2 ^ 3).
  { split; [apply Z.div_pos; lia | apply Z.div_lt_upper_bound; lia]. }
  rewrite E. split; [|split].
  - rewrite (Z.mod_small q), (Z.mod_small (q * 2 ^ 3)) by lia. rewrite Z.lor_comm, lor_shift by lia. lia.
  - unfold r. rewrite Z.mul_mod_idemp_l by lia. f_equal. lia.
  - lia.
Qed.

Lemma lnot3 i r : (r = i mod 4)%Z -> Z.land (Z.lnot i) 3 = 3 - r.
Proof.
  intros ->. change 3 with (Z.ones 2) at 1. rewrite Z.land_ones by lia. unfold Z.lnot.
  pose proof (Z.div_mod i 4 ltac:(lia)). pose proof (Z.mod_pos_bound i 4 ltac:(lia)).
  symmetry. apply (Z.mod_unique _ _ (- (i / 4) - 1)); lia.
Qed.

Lemma terminate_word A b0 b1 b2 b3 g (m : nat) r :
  length A = (4 * m)%nat -> 0 <= r < 4 -> Forall byte A -> byte b0 -> byte b1 -> byte b2 -> byte b3 ->
  terminate (words_of (A ++ b0 :: b1 :: b2 :: b3 :: g)) (4 * Z.of_nat m + r) =
  Ok (be_words A ++ end_word r b0 b1 b2 :: words_of g).
Proof.
  intros HA Hr HbA H0 H1 H2 H3. unfold terminate.
  rewrite (words_of_app _ _ m) by done. cbn [words_of].
  pose proof (length_words_of A m HA) as HwA. pose proof (length_be_words A m HA) as HlA.
  rewrite (lnot3 _ r) by (rewrite Z.add_comm, Z.mul_comm, Z.mod_add, Z.mod_small by lia; done).
  rewrite !Z.shiftr_div_pow2 by lia. change (2 ^ 2) with 4.
  replace ((4 * Z.of_nat m + r) / 4) with (Z.of_nat m)
    by (rewrite Z.add_comm, Z.mul_comm, Z.div_add, Z.div_small by lia; done).
  destruct (Z.eq_dec r 0) as [-> | Hr0].
  - replace ((4 * Z.of_nat m + 0 + 3) / 4) with (Z.of_nat m)
      by (replace (4 * Z.of_nat m + 0 + 3) with (3 + Z.of_nat m * 4) by lia;
          rewrite Z.div_add by lia; done).
    rewrite bsw_32_ok by lia. rewrite (bswap_words A m) by done. cbn [mbind res_bind].
    rewrite aget_middle by lia. cbn [mbind res_bind]. rewrite aset_middle by lia.
    by rewrite mask_word.
  - replace ((4 * Z.of_nat m + r + 3) / 4) with (Z.of_nat m + 1)
      by (replace (4 * Z.of_nat m + r + 3) with (r - 1 + (Z.of_nat m + 1) * 4) by lia;
          rewrite Z.div_add, Z.div_small by lia; done).
    replace (words_of A ++ word_of b0 b1 b2 b3 :: words_of g)
      with ((words_of A ++ [word_of b0 b1 b2 b3]) ++ words_of g) by by rewrite <- app_assoc.
    rewrite bsw_32_ok by (rewrite length_app; simpl; lia).
    rewrite map_app, (bswap_words A m), <- app_assoc by done. cbn [mbind res_bind map app].
    rewrite bswap_word by done.
    rewrite aget_middle by lia. cbn [mbind res_bind]. rewrite aset_middle by lia.
    by rewrite mask_word.
Qed.

Lemma terminate_ok R g : (length R + length g = 64)%nat -> (length R < 64)%nat -> Forall byte (R ++ g) ->
  exists w, terminate (words_of (R ++ g)) (zlen R) =
    Ok (be_words (R ++ 0x80 :: replicate (3 - length R mod 4) 0) ++ w) /\
    (length w = 15 - length R / 4)%nat.
Proof.
  intros Hl Hlt Hb. set (m := (length R / 4)%nat). set (r := (length R mod 4)%nat).
  pose proof (Nat.div_mod_eq (length R) 4) as Ed. pose proof (Nat.mod_upper_bound (length R) 4 ltac:(lia)) as Hr.
  fold m r in Ed, Hr. set (A := take (4 * m) R). set (t := drop (4 * m) R).
  assert (ER : R = A ++ t) by (symmetry; apply take_drop).
  assert (HA : length A = (4 * m)%nat) by (unfold A; rewrite length_take; lia).
  assert (Ht : length t = r) by (unfold t; rewrite length_drop; lia).
  assert (Hg : length g = (4 - r + 4 * (15 - m))%nat) by lia.
  clearbody m r A t. subst R.
  replace (zlen (A ++ t)) with (4 * Z.of_nat m + Z.of_nat r) by (rewrite length_app; lia).
  rewrite <- !app_assoc in *. apply Forall_app in Hb as [HbA Hb].
  rewrite (be_words_app A _ m) by done.
  assert (Hc : r = 0%nat \/ r = 1%nat \/ r = 2%nat \/ r = 3%nat) by lia.
  destruct Hc as [-> | [-> | [-> | ->]]]; simpl in Hg;
    repeat match goal with
    | H : length ?t = S _ |- _ => destruct t; cbn [length] in H; [lia | apply Nat.succ_inj in H]
    | H : length ?t = 0%nat |- _ => destruct t; cbn [length] in H; [clear H | lia]
    end; cbn [app] in Hb |- *; inv_forall; rewrite terminate_word by (done || lia);
    match goal with |- context [words_of ?g] => exists (words_of g); split; [|apply length_words_of; lia] end;
    by rewrite <- app_assoc.
Qed.

Lemma digest_ok h : length h = 5%nat ->
  for_range 0 SHA1_DIGEST_SIZE
    (fun i hval => x ← h.[Z.shiftr i 2]; Ok (hval ++ [u8 (Z.shiftr x (8 * Z.land (Z.lnot i) 3))])) [] =
  Ok (flat_map be_bytes h).
Proof.
  intros Hh. destruct h as [|h0 [|h1 [|h2 [|h3 [|h4 [|]]]]]]; try discriminate Hh.
  unfold be_bytes, bytes_of_word. change 0xff with (Z.ones 8).
  cbn [flat_map rev app]. rewrite !Z.land_ones by lia. reflexivity.
Qed.

(** The last block: [A] words are in place. *)
Lemma last_block_ok A w2 n h : (length A <= 14)%nat -> (length A + length w2 = 16)%nat ->
  0 <= n < 2 ^ 61 -> length h = 5%nat ->
  (w ← for_range (zlen A) 14 (fun i w => w.[i <- 0]) (A ++ w2);
   let '(c0, c1) := counts n in
   w ← w.[14 <- Z.lor (u32 (Z.shiftl c1 3)) (Z.shiftr c0 29)];
   w ← w.[15 <- u32 (Z.shiftl c0 3)];
   ctx ← sha1_compile (Sha1Ctx (counts n) h w);
   for_range 0 SHA1_DIGEST_SIZE
    (fun i hval => x ← (hash ctx).[Z.shiftr i 2]; Ok (hval ++ [u8 (Z.shiftr x (8 * Z.land (Z.lnot i) 3))])) []) =
  Ok (flat_map be_bytes (compress h (A ++ be_words
       (replicate (4 * (14 - length A)) 0 ++ length_field n)))).
Proof.
  intros HA Hw2 Hn Hh. set (k := (14 - length A)%nat).
  assert (exists w3 x y, w2 = w3 ++ [x; y]) as (w3 & x & y & ->).
  { destruct (rev w2) as [|y [|x l]] eqn:E; apply (f_equal (@rev Z)) in E; rewrite rev_involutive in E;
      subst w2; simpl in Hw2; try lia. exists (rev l), x, y. simpl. by rewrite <- app_assoc. }
  rewrite length_app in Hw2. simpl in Hw2.
  destruct (length_words n Hn) as (E14 & E15 & Hhi).
  rewrite zero_fill by lia. cbn [mbind res_bind]. fold k.
  destruct (counts n) as [c0 c1] eqn:Ec. cbn [fst snd] in E14, E15. rewrite E14, E15.
  rewrite !(app_assoc A). rewrite aset_middle by (rewrite length_app, length_replicate; lia).
  cbn [mbind res_bind].
  replace ((A ++ replicate k 0) ++ [Z.shiftr (8 * n) 32; y])
    with (((A ++ replicate k 0) ++ [Z.shiftr (8 * n) 32]) ++ y :: []) by by rewrite <- app_assoc.
  rewrite aset_middle by (rewrite !length_app, length_replicate; simpl; lia). cbn [mbind res_bind].
  rewrite <- !app_assoc. cbn [app].
  set (B := A ++ replicate k 0 ++ [Z.shiftr (8 * n) 32; u32 (8 * n)]).
  assert (HB : length B = 16%nat) by (unfold B; rewrite !length_app, length_replicate; simpl; lia).
  assert (EB : A ++ be_words (replicate (4 * k) 0 ++ length_field n) = B).
  { unfold B, length_field. f_equal. rewrite (be_words_app _ _ k), be_words_zeros by (by rewrite length_replicate).
    f_equal. rewrite be_words_be_bytes by done. rewrite <- (app_nil_r (be_bytes (u32 (8 * n)))).
    by rewrite be_words_be_bytes by by apply unsigned_range. }
  rewrite EB. destruct (sha1_compile_ok B h HB Hh (c0, c1)) as (w & -> & _). cbn [mbind res_bind hash].
  apply digest_ok. unfold compress. by rewrite length_zip_with, length_rounds, Hh.
Qed.

Lemma length_be_bytes x : length (be_bytes x) = 4%nat.
Proof. done. Qed.

(** The padding completes one block, or two. *)
Lemma padding_one M : (length (rest M) <= 55)%nat ->
  padding (zlen M) = (0x80 :: replicate (3 - length (rest M) mod 4) 0) ++
    replicate (4 * (14 - (length (rest M) / 4 + 1))) 0 ++ length_field (zlen M).
Proof.
  intros Hr. unfold padding. cbn [app]. rewrite app_assoc, <- replicate_add. do 3 f_equal.
  rewrite <- Zminus_mod_idemp_r, <- zlen_rest, Z.mod_small by lia.
  pose proof (Nat.div_mod_eq (length (rest M)) 4). pose proof (Nat.mod_upper_bound (length (rest M)) 4). lia.
Qed.

Lemma padding_two M : (55 < length (rest M))%nat ->
  padding (zlen M) = (0x80 :: replicate (63 - length (rest M)) 0) ++ replicate 56 0 ++ length_field (zlen M).
Proof.
  intros Hr. pose proof (rest_lt M). unfold padding. cbn [app]. rewrite (app_assoc (replicate _ 0)), <- replicate_add.
  do 3 f_equal. rewrite <- Zminus_mod_idemp_r, <- zlen_rest.
  rewrite <- (Z.mod_unique _ 64 (-1) (119 - zlen (rest M))) by lia. lia.
Qed.

Lemma sha1_spec_one M : (length (rest M) + length (padding (zlen M)) = 64)%nat ->
  sha1_spec M = flat_map be_bytes (compress (absorb (length M / 64) M) (be_words (rest M ++ padding (zlen M)))).
Proof. intros Hl. unfold sha1_spec. rewrite (proj2 (rest_full _ _ Hl)). by rewrite absorb_block. Qed.

Lemma sha1_spec_two M X Y : padding (zlen M) = X ++ Y -> (length (rest M) + length X = 64)%nat ->
  length Y = 64%nat ->
  sha1_spec M = flat_map be_bytes (compress (compress (absorb (length M / 64) M) (be_words (rest M ++ X))) (be_words Y)).
Proof.
  intros E HX HY. unfold sha1_spec. rewrite E, app_assoc. destruct (rest_full M X HX) as [Er Eq].
  assert (HY' : (length (rest (M ++ X)) + length Y = 64)%nat) by by rewrite Er.
  rewrite (proj2 (rest_full _ _ HY')), absorb_block by done. by rewrite Er, Eq, absorb_block.
Qed.

Lemma sha1_end_ok ctx M : holds ctx M -> zlen M < 2 ^ 61 -> sha1_end ctx = Ok (sha1_spec M).
Proof.
  intros I HM. unfold sha1_end. rewrite (holds_pos ctx M) by done.
  destruct I as [Hc Hh (g & Eg & Hg & Hb)]. rewrite Eg, Hc, Hh.
  pose proof (rest_lt M) as Hlt. pose proof (length_absorb (length M / 64) M) as HlH.
  destruct (terminate_ok (rest M) g) as (w & -> & Hw); [done | done | done |]. cbn [mbind res_bind].
  pose proof (padding_one M) as P1. pose proof (padding_two M) as P2.
  set (r := length (rest M)) in *. pose proof (Nat.div_mod_eq r 4) as Ed.
  pose proof (Nat.mod_upper_bound r 4 ltac:(lia)) as Hr4.
  set (T := 0x80 :: replicate (3 - r mod 4) 0) in *. set (X := 0x80 :: replicate (63 - r) 0) in *.
  assert (HT : length (rest M ++ T) = (4 * (r / 4 + 1))%nat)
    by (rewrite length_app; unfold T; cbn [length]; rewrite length_replicate; fold r; lia).
  pose proof (length_be_words _ _ HT) as HA.
  change (SHA1_BLOCK_SIZE - 9) with 55. destruct (Z.ltb_spec 55 (Z.of_nat r)) as [H55|H55].
  - assert (HX : (length (rest M) + length X = 64)%nat)
      by (unfold X; cbn [length]; rewrite length_replicate; fold r; lia).
    assert (Ew : (if Z.of_nat r <? 60 then (be_words (rest M ++ T) ++ w).[15 <- 0]
                  else Ok (be_words (rest M ++ T) ++ w)) = Ok (be_words (rest M ++ X))).
    { destruct (Z.ltb_spec (Z.of_nat r) 60).
      - assert (Ej : (r / 4 = 14)%nat) by lia. rewrite Ej in *. change (15 - 14)%nat with 1%nat in Hw.
        destruct w as [|x [|]]; simpl in Hw; try lia. rewrite aset_middle by lia. f_equal.
        assert (EX : X = T ++ replicate (4 * 1) 0).
        { unfold X, T. cbn [app]. rewrite <- replicate_add. do 2 f_equal. lia. }
        by rewrite EX, app_assoc, (be_words_app (rest M ++ T) _ 15), be_words_zeros by exact HT.
      - assert (Ej : (r / 4 = 15)%nat) by lia. rewrite Ej in *.
        destruct w; simpl in Hw; try lia. rewrite app_nil_r. unfold X, T. do 5 f_equal. lia. }
    rewrite Ew. cbn [mbind res_bind].
    assert (Hblk : length (rest M ++ X) = (4 * 16)%nat) by (rewrite length_app; lia).
    destruct (sha1_compile_ok (be_words (rest M ++ X)) _ (length_be_words _ _ Hblk) HlH (counts (zlen M)))
      as (w' & -> & Hw'). cbn [mbind res_bind count hash wbuf].
    rewrite (sha1_spec_two M X (replicate 56 0 ++ length_field (zlen M))) by (done || apply P2; lia).
    apply (last_block_ok [] w'); [cbn; lia | exact Hw' | lia |].
    unfold compress at 1. by rewrite length_zip_with, length_rounds, HlH.
  - assert (Ei : Z.shiftr (Z.of_nat r) 2 + 1 = zlen (be_words (rest M ++ T))).
    { rewrite HA, Z.shiftr_div_pow2 by lia. change (2 ^ 2) with (Z.of_nat 4). rewrite <- Nat2Z.inj_div. lia. }
    rewrite Ei. cbn [mbind res_bind count hash wbuf]. rewrite (last_block_ok _ w (zlen M)) by lia.
    rewrite HA, <- (be_words_app _ _ (r / 4 + 1)), <- app_assoc, <- P1 by (done || lia).
    rewrite sha1_spec_one; [done|]. rewrite P1 by lia. unfold T, length_field.
    rewrite !length_app, !length_be_bytes. cbn [length]. rewrite !length_replicate. fold r. lia.
Qed.

(** Hashing in pieces, as [rng_spawn] does. *)
Fixpoint sha1_pieces (ctx : sha1_ctx) (pieces : list (list Z)) : res sha1_ctx :=
  match pieces with
  | [] => Ok ctx
  | data :: pieces => ctx ← sha1_hash data ctx; sha1_pieces ctx pieces
  end.

Lemma sha1_pieces_ok pieces ctx M : holds ctx M ->
  Forall (fun data => Forall byte data /\ zlen data < 2 ^ 32) pieces ->
  exists ctx', sha1_pieces ctx pieces = Ok ctx' /\ holds ctx' (M ++ concat pieces).
Proof.
  revert ctx M. induction pieces as [|data pieces IH]; intros ctx M I Hp; cbn [sha1_pieces concat].
  - rewrite app_nil_r. eauto.
  - inv_forall. destruct (sha1_hash_ok ctx M data) as (ctx' & -> & I'); [done | naive_solver | naive_solver |].
    cbn [mbind res_bind]. rewrite app_assoc. by apply IH.
Qed.

(** C27: a message hashed in pieces - whatever their lengths, and whatever was
    on the stack where the context is - gives the SHA-1 of the message as the
    standard defines it: no access is out of bounds and the result does not
    depend on how the message was cut.  A piece is shorter than 2^32 bytes
    and the message shorter than 2^61. *)
Theorem sha1_streams wbuf pieces :
  length wbuf = 16%nat -> Forall word wbuf ->
  Forall (fun data => Forall byte data /\ zlen data < 2 ^ 32) pieces ->
  zlen (concat pieces) < 2 ^ 61 ->
  (ctx ← sha1_pieces (sha1_begin wbuf) pieces; sha1_end ctx) = Ok (sha1_spec (concat pieces)).
Proof.
  intros Hl Hw Hp Hlen. destruct (sha1_pieces_ok pieces (sha1_begin wbuf) []) as (ctx & -> & I);
    [by apply sha1_begin_holds | done |]. by apply sha1_end_ok.
Qed.

(** ** The generator behind the interface of [uts.c] *)

(** What the interface's functions are: they do not stop. *)
Definition from_ok {A} (d : A) (r : res A) : A := match r with Ok a => a | Err _ => d end.

#[export] Instance sha1_rng : Rng (list Z) := {|
  Uts.rng_init seed := sha1_spec (replicate 16 0 ++ int_bytes seed);
  Uts.rng_spawn s i := sha1_spec (s ++ int_bytes i);
  Uts.rng_rand s := zth 0 (be_words s) 4 mod 2 ^ 31
|}.

#[export] Instance sha1_rng_laws : RngLaws (list Z).
Proof. split. intros s. cbn. apply Z.mod_pos_bound. lia. Qed.

(** A state of the generator. *)
Record rng_state (s : list Z) : Prop := {
  rs_length : length s = 20%nat;
  rs_bytes : Forall byte s
}.

Lemma be_bytes_bytes x : Forall byte (be_bytes x).
Proof. unfold be_bytes. apply Forall_rev. repeat constructor; apply land_byte. Qed.

Lemma digest_state h : length h = 5%nat -> rng_state (flat_map be_bytes h).
Proof.
  intros Hh. destruct h as [|h0 [|h1 [|h2 [|h3 [|h4 [|]]]]]]; try discriminate Hh. split; [done|].
  cbn [flat_map]. repeat (apply Forall_app_2; [apply be_bytes_bytes|]). constructor.
Qed.

Lemma sha1_spec_state M : rng_state (sha1_spec M).
Proof. apply digest_state, length_absorb. Qed.

Lemma int_bytes_bytes x : Forall byte (int_bytes x).
Proof. repeat constructor; rewrite Z.land_comm; apply land_byte. Qed.

Lemma read_state s : rng_state s -> read_bytes s 20 = Ok s.
Proof.
  intros [Hl _]. unfold read_bytes. destruct (Z.leb_spec 20 (zlen s)); [|lia].
  by rewrite take_ge by lia.
Qed.

(** The hash of a short message, in one piece. *)
Lemma sha1_short wbuf data : length wbuf = 16%nat -> Forall word wbuf -> Forall byte data -> zlen data < 2 ^ 32 ->
  (ctx ← sha1_hash data (sha1_begin wbuf); sha1_end ctx) = Ok (sha1_spec data).
Proof.
  intros Hl Hw Hb Hn. destruct (sha1_hash_ok (sha1_begin wbuf) [] data) as (ctx & -> & I);
    [by apply sha1_begin_holds | done | done |]. apply sha1_end_ok; [done | lia].
Qed.

Lemma rng_rand_ok s : rng_state s -> rng_rand s = Ok (Uts.rng_rand s).
Proof.
  intros [Hl Hb]. unfold rng_rand. rewrite !(aget_ok 0) by (rewrite Hl; lia). cbn [mbind res_bind].
  do 20 (destruct s as [|? s]; [discriminate Hl|]). destruct s; [|discriminate Hl]. inv_forall.
  f_equal. cbn [Uts.rng_rand sha1_rng be_words]. unfold POS_MASK. change 0x7fffffff with (Z.ones 31).
  rewrite Z.land_ones by lia. apply mod_pow2_bits_inj; [lia|]. intros i Hi.
  unfold word_of. cbv [zth nth Z.to_nat Pos.to_nat Pos.iter_op Nat.add].
  rewrite !Z.shiftl_0_r, !Z.lor_spec. btauto.
Qed.

(** C32: the code of the generator implements the interface: on a state of
    twenty bytes each operation returns what the interface's function says -
    SHA-1 of the state and of the child's number, the low 31 bits of the last
    word - whatever the stack held, and a new state is twenty bytes again. *)
Theorem sha1_generator_refines wbuf :
  length wbuf = 16%nat -> Forall word wbuf ->
  (forall seed, rng_init wbuf seed = Ok (Uts.rng_init seed) /\ rng_state (Uts.rng_init seed)) /\
  (forall s i, rng_state s -> rng_spawn wbuf s i = Ok (Uts.rng_spawn s i) /\ rng_state (Uts.rng_spawn s i)) /\
  (forall s, rng_state s -> rng_rand s = Ok (Uts.rng_rand s) /\ 0 <= Uts.rng_rand s < 2 ^ 31) /\
  (forall s, rng_state s -> rng_nextrand wbuf s = Ok (Uts.rng_rand (sha1_spec s), sha1_spec s)).
Proof.
  intros Hl Hw. split; [|split; [|split]].
  - intros seed. split; [|apply sha1_spec_state]. unfold rng_init.
    rewrite read_state by (split; [done|]; apply Forall_app; split;
      [apply Forall_replicate; unfold byte; lia | apply int_bytes_bytes]).
    cbn [mbind res_bind]. apply sha1_short; [done | done | | done].
    apply Forall_app; split; [apply Forall_replicate; unfold byte; lia | apply int_bytes_bytes].
  - intros s i Hs. split; [|apply sha1_spec_state]. unfold rng_spawn. rewrite read_state by done.
    cbn [mbind res_bind]. destruct Hs as [Hs Hb].
    destruct (sha1_hash_ok (sha1_begin wbuf) [] s) as (ctx & -> & I);
      [by apply sha1_begin_holds | done | lia |]. cbn [mbind res_bind].
    destruct (sha1_hash_ok ctx s (int_bytes i)) as (ctx' & -> & I'); [done | apply int_bytes_bytes | done |].
    apply sha1_end_ok; [done|]. rewrite length_app, Hs. done.
  - intros s Hs. split; [by apply rng_rand_ok | apply rng_rand_range].
  - intros s Hs. unfold rng_nextrand. rewrite read_state by done. cbn [mbind res_bind].
    rewrite <- bind_assoc, sha1_short by (done || apply Hs || (destruct Hs; lia)). cbn [mbind res_bind].
    by rewrite rng_rand_ok by apply sha1_spec_state.
Qed.

(** ** Witnesses *)

Ltac bytes_now := repeat constructor; unfold byte, word; lia.

Lemma sha1_streams_witness :
  (ctx ← sha1_pieces (sha1_begin (replicate 16 0xdeadbeef)) [[97]; [98; 99]]; sha1_end ctx) =
  Ok (sha1_spec [97; 98; 99]).
Proof.
  apply (sha1_streams (replicate 16 0xdeadbeef) [[97]; [98; 99]]); [done | bytes_now | bytes_now | done].
Defined.

Lemma sha1_generator_refines_witness :
  rng_init (replicate 16 0xdeadbeef) 19 = Ok (Uts.rng_init 19).
Proof.
  destruct (sha1_generator_refines (replicate 16 0xdeadbeef)) as [H _]; [done | bytes_now | apply H].
Defined.
