(* ===== verification/StealStack.v ===== *)
(** * Work stealing in the Unbalanced Tree Search benchmark

    [uts_shm.c] with threads: every thread searches the tree from a stack of
    its own, releases the bottom of the stack in chunks, steals chunks when it
    has no work, and waits in a cancellable barrier that detects the end of
    the search.

    The threads are interleaved: [thread_step] is the next step of one thread.
    A section under a lock is one step, since nothing else that the lock
    protects happens in between; outside the locks every access to another
    thread's data is a step of its own (the scan of [findwork], each node of
    a stolen chunk, each test of the spinning barrier).  Memory is
    sequentially consistent.

    The timing of [ss_setState], the traces and the debugging output are left
    out; the fields of [UTS_METRIC] do not exist in a parallel program. *)

From S2P Require Import Prelude Uts.

Definition MAXSTACKDEPTH := 500000.

(** ** Data *)

(** [struct stealStack_t].  The two addresses of the stack are the same
    array; the lock is in the steps. *)
Record StealStack (St : Type) := MkStealStack {
  stackSize : Z;   (* total space avail (in number of elements) *)
  workAvail : Z;   (* elements available for stealing *)
  sharedStart : Z;   (* index of start of shared portion of stack *)
  local : Z;   (* index of start of local portion *)
  top : Z;   (* index of stack top *)
  maxStackDepth : Z;   (* stack stats *)
  nNodes : Z;   (* tree stats *)
  maxTreeDepth : Z;
  nLeaves : Z;
  nAcquire : Z;   (* steal stats *)
  nRelease : Z;
  nSteal : Z;
  nFail : Z;
  wakeups : Z;
  falseWakeups : Z;
  nNodes_last : Z;
  stack : list (node St)
}.
Arguments MkStealStack {St} _ _ _ _ _ _ _ _ _ _ _ _ _ _ _ _ _.
Arguments stackSize {St} _.
Arguments workAvail {St} _.
Arguments sharedStart {St} _.
Arguments local {St} _.
Arguments top {St} _.
Arguments maxStackDepth {St} _.
Arguments nNodes {St} _.
Arguments maxTreeDepth {St} _.
Arguments nLeaves {St} _.
Arguments nAcquire {St} _.
Arguments nRelease {St} _.
Arguments nSteal {St} _.
Arguments nFail {St} _.
Arguments wakeups {St} _.
Arguments falseWakeups {St} _.
Arguments nNodes_last {St} _.
Arguments stack {St} _.

Section Updates.
Context {St : Type}.
Implicit Types (s : StealStack St).

Definition set_workAvail s (v : Z) :=
  MkStealStack (stackSize s) v (sharedStart s) (local s) (top s) (maxStackDepth s) (nNodes s)
    (maxTreeDepth s) (nLeaves s) (nAcquire s) (nRelease s) (nSteal s) (nFail s) (wakeups s)
    (falseWakeups s) (nNodes_last s) (stack s).
Definition set_sharedStart s (v : Z) :=
  MkStealStack (stackSize s) (workAvail s) v (local s) (top s) (maxStackDepth s) (nNodes s)
    (maxTreeDepth s) (nLeaves s) (nAcquire s) (nRelease s) (nSteal s) (nFail s) (wakeups s)
    (falseWakeups s) (nNodes_last s) (stack s).
Definition set_local s (v : Z) :=
  MkStealStack (stackSize s) (workAvail s) (sharedStart s) v (top s) (maxStackDepth s) (nNodes
    s) (maxTreeDepth s) (nLeaves s) (nAcquire s) (nRelease s) (nSteal s) (nFail s) (wakeups s)
    (falseWakeups s) (nNodes_last s) (stack s).
Definition set_top s (v : Z) :=
  MkStealStack (stackSize s) (workAvail s) (sharedStart s) (local s) v (maxStackDepth s) (nNodes
    s) (maxTreeDepth s) (nLeaves s) (nAcquire s) (nRelease s) (nSteal s) (nFail s) (wakeups s)
    (falseWakeups s) (nNodes_last s) (stack s).
Definition set_maxStackDepth s (v : Z) :=
  MkStealStack (stackSize s) (workAvail s) (sharedStart s) (local s) (top s) v (nNodes s)
    (maxTreeDepth s) (nLeaves s) (nAcquire s) (nRelease s) (nSteal s) (nFail s) (wakeups s)
    (falseWakeups s) (nNodes_last s) (stack s).
Definition set_nNodes s (v : Z) :=
  MkStealStack (stackSize s) (workAvail s) (sharedStart s) (local s) (top s) (maxStackDepth s) v
    (maxTreeDepth s) (nLeaves s) (nAcquire s) (nRelease s) (nSteal s) (nFail s) (wakeups s)
    (falseWakeups s) (nNodes_last s) (stack s).
Definition set_maxTreeDepth s (v : Z) :=
  MkStealStack (stackSize s) (workAvail s) (sharedStart s) (local s) (top s) (maxStackDepth s)
    (nNodes s) v (nLeaves s) (nAcquire s) (nRelease s) (nSteal s) (nFail s) (wakeups s)
    (falseWakeups s) (nNodes_last s) (stack s).
Definition set_nLeaves s (v : Z) :=
  MkStealStack (stackSize s) (workAvail s) (sharedStart s) (local s) (top s) (maxStackDepth s)
    (nNodes s) (maxTreeDepth s) v (nAcquire s) (nRelease s) (nSteal s) (nFail s) (wakeups s)
    (falseWakeups s) (nNodes_last s) (stack s).
Definition set_nAcquire s (v : Z) :=
  MkStealStack (stackSize s) (workAvail s) (sharedStart s) (local s) (top s) (maxStackDepth s)
    (nNodes s) (maxTreeDepth s) (nLeaves s) v (nRelease s) (nSteal s) (nFail s) (wakeups s)
    (falseWakeups s) (nNodes_last s) (stack s).
Definition set_nRelease s (v : Z) :=
  MkStealStack (stackSize s) (workAvail s) (sharedStart s) (local s) (top s) (maxStackDepth s)
    (nNodes s) (maxTreeDepth s) (nLeaves s) (nAcquire s) v (nSteal s) (nFail s) (wakeups s)
    (falseWakeups s) (nNodes_last s) (stack s).
Definition set_nSteal s (v : Z) :=
  MkStealStack (stackSize s) (workAvail s) (sharedStart s) (local s) (top s) (maxStackDepth s)
    (nNodes s) (maxTreeDepth s) (nLeaves s) (nAcquire s) (nRelease s) v (nFail s) (wakeups s)
    (falseWakeups s) (nNodes_last s) (stack s).
Definition set_nFail s (v : Z) :=
  MkStealStack (stackSize s) (workAvail s) (sharedStart s) (local s) (top s) (maxStackDepth s)
    (nNodes s) (maxTreeDepth s) (nLeaves s) (nAcquire s) (nRelease s) (nSteal s) v (wakeups s)
    (falseWakeups s) (nNodes_last s) (stack s).
Definition set_wakeups s (v : Z) :=
  MkStealStack (stackSize s) (workAvail s) (sharedStart s) (local s) (top s) (maxStackDepth s)
    (nNodes s) (maxTreeDepth s) (nLeaves s) (nAcquire s) (nRelease s) (nSteal s) (nFail s) v
    (falseWakeups s) (nNodes_last s) (stack s).
Definition set_falseWakeups s (v : Z) :=
  MkStealStack (stackSize s) (workAvail s) (sharedStart s) (local s) (top s) (maxStackDepth s)
    (nNodes s) (maxTreeDepth s) (nLeaves s) (nAcquire s) (nRelease s) (nSteal s) (nFail s)
    (wakeups s) v (nNodes_last s) (stack s).
Definition set_nNodes_last s (v : Z) :=
  MkStealStack (stackSize s) (workAvail s) (sharedStart s) (local s) (top s) (maxStackDepth s)
    (nNodes s) (maxTreeDepth s) (nLeaves s) (nAcquire s) (nRelease s) (nSteal s) (nFail s)
    (wakeups s) (falseWakeups s) v (stack s).
Definition set_stack s (v : list (node St)) :=
  MkStealStack (stackSize s) (workAvail s) (sharedStart s) (local s) (top s) (maxStackDepth s)
    (nNodes s) (maxTreeDepth s) (nLeaves s) (nAcquire s) (nRelease s) (nSteal s) (nFail s)
    (wakeups s) (falseWakeups s) (nNodes_last s) v.
End Updates.

(** The parameters of the command line. *)
Record config := Config {
  num_threads : Z;
  doSteal : bool;            (* use work stealing *)
  chunkSize : Z;             (* number of nodes to move to/from shared area *)
  cbint : Z;                 (* cancellable barrier polling interval *)
  computeGranularity : Z     (* number of rng_spawn calls per node *)
}.

(** Where a thread is in [parTreeSearch]; [cont] is where [releaseNodes] was
    called from. *)
Inductive cont :=
| KWork                      (* the end of the inner loop *)
| KGen (posn i n : Z).       (* turn [i] of [n] of [genChildren] *)

Inductive pc :=
| Work                       (* test of the inner loop, and its body *)
| Gen (posn i n : Z)         (* before turn [i] of [n] of [genChildren] *)
| Release (k : cont)         (* releaseNodes: ss_release *)
| Cancel (k : cont)          (* releaseNodes: cbarrier_cancel *)
| Acquire                    (* ss_acquire *)
| Find (i : Z)               (* findwork: before turn [i] *)
| Steal (v : Z)              (* ss_steal: the tests *)
| Reserve (v : Z)            (* ss_steal: under the victim's lock *)
| Copy (v from j : Z)        (* ss_steal: [j] nodes are copied *)
| Enter                      (* cbarrier_wait: first locked section *)
| Spin                       (* read cb_cancel *)
| SpinDone (l_cancel : Z)    (* read cb_done, test *)
| Exit                       (* second locked section *)
| Return                     (* return cb_done *)
| Done.

(** A thread: its place and the local variable [child] of [parTreeSearch]. *)
Record thread (St : Type) := Thread { at_pc : pc; child : node St }.
Arguments Thread {St} _ _.
Arguments at_pc {St} _.
Arguments child {St} _.

Record world (St : Type) := World {
  stealStack : list (StealStack St);
  threads : list (thread St);
  cb_cancel : Z;
  cb_count : Z;
  cb_done : Z
}.
Arguments World {St} _ _ _ _ _.
Arguments stealStack {St} _.
Arguments threads {St} _.
Arguments cb_cancel {St} _.
Arguments cb_count {St} _.
Arguments cb_done {St} _.

Definition incr (x : Z) : res Z := chk 32 (x + 1).

Section Model.
Context `{SearchTree St} (c : config).
Implicit Types (ss : StealStack St) (p : node St) (w : world St).

(** ** Operations of the stack *)

(** restore stack to empty state *)
Definition ss_mkEmpty ss :=
  set_workAvail (set_top (set_local (set_sharedStart ss 0) 0) 0) 0.

(** initialize the stack; the array comes from [ALLOC] with any contents *)
Definition ss_init (ALLOC : Z -> option (list (node St))) (sizeof_Node nelts : Z)
    : res (StealStack St) :=
  nbytes ← chk 32 (nelts * sizeof_Node);
  match ALLOC nbytes with
  | None => Err Aborted
  | Some stack => Ok (ss_mkEmpty (MkStealStack nelts 0 0 0 0 0 0 0 0 0 0 0 0 0 0 0 stack))
  end.

(** local push *)
Definition ss_push ss p : res (StealStack St) :=
  if stackSize ss <=? top ss then Err Aborted
  else
    stack ← (stack ss).[top ss <- p];
    nNodes ← incr (nNodes ss);
    let ss := set_nNodes (set_top (set_stack ss stack) (top ss + 1)) nNodes in
    Ok (set_maxTreeDepth (set_maxStackDepth ss (Z.max (top ss) (maxStackDepth ss)))
          (Z.max (maxTreeDepth ss) (height p))).

(** local top: the index of the node at the top *)
Definition ss_top ss : res Z := if top ss <=? local ss then Err Aborted else Ok (top ss - 1).

(** local pop *)
Definition ss_pop ss : res (StealStack St) :=
  if top ss <=? local ss then Err Aborted else Ok (set_top ss (top ss - 1)).

(** local depth *)
Definition ss_localDepth ss : Z := top ss - local ss.

(** release k values from bottom of local stack *)
Definition ss_release ss (k : Z) : res (StealStack St) :=
  if k <=? top ss - local ss then
    nRelease ← incr (nRelease ss);
    Ok (set_nRelease (set_workAvail (set_local ss (local ss + k)) (workAvail ss + k)) nRelease)
  else Err Aborted.

(** move k values from top of shared stack into local stack; return false if
    k vals are not avail on shared stack *)
Definition ss_acquire ss (k : Z) : res (StealStack St * bool) :=
  let avail := local ss - sharedStart ss in
  if k <=? avail then
    nAcquire ← incr (nAcquire ss);
    Ok (set_nAcquire (set_workAvail (set_local ss (local ss - k)) (workAvail ss - k)) nAcquire, true)
  else Ok (ss, false).

(** The parts of [ss_steal]: the tests before the lock, *)
Definition steal_check ss (k : Z) : res unit :=
  if negb (sharedStart ss =? top ss) then Err Aborted
  else
    t ← chk 32 (top ss + k);
    if stackSize ss <=? t then Err Aborted else Ok tt.

(** the reservation on the victim's stack, with the start of the chunk, *)
Definition steal_reserve victim (k : Z) : res (option (StealStack St * Z)) :=
  let victimLocal := local victim in
  let victimShared := sharedStart victim in
  let victimWorkAvail := workAvail victim in
  if negb (victimLocal - victimShared =? victimWorkAvail) then Err Aborted
  else if k <=? victimWorkAvail then
    Ok (Some (set_workAvail (set_sharedStart victim (victimShared + k)) (victimWorkAvail - k),
              victimShared))
  else Ok None.

(** one turn of the copy, *)
Definition steal_copy victim ss (from j : Z) : res (StealStack St) :=
  p ← (stack victim).[from + j];
  stack ← (stack ss).[top ss + j <- p];
  Ok (set_stack ss stack).

(** the end of a successful attempt, *)
Definition steal_finish ss (k : Z) : res (StealStack St) :=
  nSteal ← incr (nSteal ss);
  Ok (set_top (set_nSteal ss nSteal) (top ss + k)).

(** and the end of a failed one. *)
Definition steal_fail ss : res (StealStack St) :=
  nFail ← incr (nFail ss);
  Ok (set_nFail ss nFail).

(** ** The search of one thread *)

Definition initNode (state : St) : node St := Node (-1) (-1) (-1) state.

Definition resume (k : cont) : pc :=
  match k with KWork => Work | KGen posn i n => Gen posn i n end.

(** [releaseNodes(ss)]: whether it releases. *)
Definition releaseNodes ss (k : cont) : res pc :=
  if doSteal c then
    limit ← chk 32 (2 * chunkSize c);
    Ok (if limit <? ss_localDepth ss then Release k else resume k)
  else Ok (resume k).

(** The release itself; the barrier is cancelled at every [cbint]-th node. *)
Definition release_step ss (k : cont) : res (StealStack St * pc) :=
  ss ← ss_release ss (chunkSize c);
  if cbint c =? 0 then Err Overflow
  else Ok (ss, if Z.rem (nNodes ss) (cbint c) =? 0 then Cancel k else resume k).

Definition set_numChildren p (n : Z) : node St := Node (type p) (height p) n (state p).

(** [genChildren(parent, child, ss)] before its loop, [parent] at [posn]. *)
Definition genChildren ss (posn : Z) (child : node St) : res (StealStack St * thread St) :=
  parent ← (stack ss).[posn];
  n ← children_count parent;
  childType ← children_type parent;
  stack ← (stack ss).[posn <- set_numChildren parent n];
  let ss := set_stack ss stack in
  if 0 <? n then
    h ← chk 32 (height parent + 1);
    Ok (ss, Thread (Gen posn 0 n) (Node childType h (numChildren child) (state child)))
  else
    nLeaves ← incr (nLeaves ss);
    let ss := set_nLeaves ss nLeaves in
    pc ← releaseNodes ss KWork;
    Ok (ss, Thread pc child).

(** Turn [i]: the state of the child, [computeGranularity] times; push it. *)
Definition gen_turn ss (posn i n : Z) (child : node St) : res (StealStack St * thread St) :=
  if i <? n then
    parent ← (stack ss).[posn];
    st ← for_range 0 (computeGranularity c) (fun j st => Ok (spawn (state parent) i)) (state child);
    let child := Node (type child) (height child) (numChildren child) st in
    ss ← ss_push ss child;
    pc ← releaseNodes ss (KGen posn (i + 1) n);
    Ok (ss, Thread pc child)
  else
    pc ← releaseNodes ss KWork;
    Ok (ss, Thread pc child).

(** One turn of the inner loop up to the call of [releaseNodes]. *)
Definition work ss (child : node St) : res (StealStack St * thread St) :=
  if 0 <? ss_localDepth ss then
    posn ← ss_top ss;
    parent ← (stack ss).[posn];
    if numChildren parent <? 0 then genChildren ss posn child
    else
      ss ← ss_pop ss;
      pc ← releaseNodes ss KWork;
      Ok (ss, Thread pc child)
  else Ok (ss, Thread Acquire child).

(** ** Steps *)

Definition put w (i : Z) (r : StealStack St * thread St) : res (world St) :=
  sss ← (stealStack w).[i <- r.1];
  ths ← (threads w).[i <- r.2];
  Ok (World sss ths (cb_cancel w) (cb_count w) (cb_done w)).

Definition set_cb w (cancel count done : Z) : world St :=
  World (stealStack w) (threads w) cancel count done.

(** What the thread does after [ss_acquire] has failed. *)
Definition no_local_work : pc := if doSteal c then Find 1 else Enter.

Definition thread_step (i : Z) w : res (world St) :=
  ss ← (stealStack w).[i];
  t ← (threads w).[i];
  let goto pc := Thread pc (child t) in
  match at_pc t with
  | Work => r ← work ss (child t); put w i r
  | Gen posn j n => r ← gen_turn ss posn j n (child t); put w i r
  | Release k => '(ss, pc) ← release_step ss k; put w i (ss, goto pc)
  | Cancel k => w ← put w i (ss, goto (resume k)); Ok (set_cb w 1 (cb_count w) (cb_done w))
  | Acquire =>
      '(ss, got) ← ss_acquire ss (chunkSize c);
      put w i (ss, goto (if (got : bool) then Work else no_local_work))
  | Find j =>
      if j <? num_threads c then
        let v := Z.rem (i + j) (num_threads c) in
        victim ← (stealStack w).[v];
        put w i (ss, goto (if chunkSize c <=? workAvail victim then Steal v else Find (j + 1)))
      else put w i (ss, goto Enter)
  | Steal v => steal_check ss (chunkSize c);; put w i (ss, goto (Reserve v))
  | Reserve v =>
      victim ← (stealStack w).[v];
      r ← steal_reserve victim (chunkSize c);
      match r with
      | Some (victim, from) =>
          w ← put w i (ss, goto (Copy v from 0));
          sss ← (stealStack w).[v <- victim];
          Ok (World sss (threads w) (cb_cancel w) (cb_count w) (cb_done w))
      | None => ss ← steal_fail ss; put w i (ss, goto (Find 1))
      end
  | Copy v from j =>
      if j <? chunkSize c then
        victim ← (stealStack w).[v];
        ss ← steal_copy victim ss from j;
        put w i (ss, goto (Copy v from (j + 1)))
      else ss ← steal_finish ss (chunkSize c); put w i (ss, goto Work)
  | Enter =>
      let count := cb_count w + 1 in
      let done := if count =? num_threads c then 1 else cb_done w in
      f ← (if nNodes_last ss =? nNodes ss then incr (falseWakeups ss) else Ok (falseWakeups ss));
      w ← put w i (set_nNodes_last (set_falseWakeups ss f) (nNodes ss), goto Spin);
      Ok (set_cb w (cb_cancel w) count done)
  | Spin => put w i (ss, goto (SpinDone (cb_cancel w)))
  | SpinDone l_cancel =>
      put w i (ss, goto (if (l_cancel =? 0) && (cb_done w =? 0) then Spin else Exit))
  | Exit =>
      wk ← incr (wakeups ss);
      w ← put w i (set_wakeups ss wk, goto Return);
      Ok (set_cb w 0 (cb_count w - 1) (cb_done w))
  | Return => put w i (ss, goto (if cb_done w =? 0 then Work else Done))
  | Done => Ok w
  end.

(** Some thread makes a step. *)
Definition step w w' : Prop :=
  exists i, 0 <= i < num_threads c /\ thread_step i w = Ok w'.

(** ** The program *)

(** [cb_init], the stacks, the root on the stack of thread 0. *)
Definition pthread_init (ALLOC : Z -> option (list (node St))) (sizeof_Node nelts : Z)
    (garbage : St) (root : node St) : res (world St) :=
  sss ← for_range 0 (num_threads c)
    (fun _ sss => ss ← ss_init ALLOC sizeof_Node nelts; Ok (sss ++ [ss])) [];
  s0 ← sss.[0];
  s0 ← ss_push s0 root;
  sss ← sss.[0 <- s0];
  let t := Thread Work (initNode garbage) in
  Ok (World sss (replicate (Z.to_nat (num_threads c)) t) 0 0 0).

(** [showStats]: the sums over the threads. *)
Record totals := Totals {
  tnodes : Z; tleaves : Z; trel : Z; tacq : Z; tsteal : Z; tfail : Z; mdepth : Z; mheight : Z
}.

Definition add_stats ss (t : totals) : res totals :=
  tnodes ← chk 32 (tnodes t + nNodes ss);
  tleaves ← chk 32 (tleaves t + nLeaves ss);
  trel ← chk 32 (trel t + nRelease ss);
  tacq ← chk 32 (tacq t + nAcquire ss);
  tsteal ← chk 32 (tsteal t + nSteal ss);
  tfail ← chk 32 (tfail t + nFail ss);
  Ok (Totals tnodes tleaves trel tacq tsteal tfail
        (Z.max (mdepth t) (maxStackDepth ss)) (Z.max (mheight t) (maxTreeDepth ss))).

Definition combine_stats w : res totals :=
  for_range 0 (num_threads c) (fun i t => ss ← (stealStack w).[i]; add_stats ss t)
    (Totals 0 0 0 0 0 0 0 0).

(** "error! total released != total acquired + total stolen" *)
Definition release_error (t : totals) : bool := negb (trel t =? tacq t + tsteal t).
End Model.

(** A run under a given schedule. *)
Fixpoint run `{SearchTree St} (c : config) (schedule : list Z) (w : world St) : res (world St) :=
  match schedule with
  | [] => Ok w
  | i :: schedule => w ← thread_step c i w; run c schedule w
  end.
