(* ===== verification/StealSearch.v ===== *)
(** * Correctness of the work-stealing search

    The invariant of the threads of file StealStack and what follows from
    it: the stacks keep their shape, no node is lost or counted twice on its
    way from stack to stack, the barrier ends the search only when no work is
    left, and the statistics printed at the end are those of the tree. *)

From stdpp Require Import relations.
From S2P Require Import Prelude Double Uts StealStack.

(** ** Sizes in order *)

Definition stats_le (s t : stats) : Prop :=
  (nodes s <= nodes t)%N /\ (leaves s <= leaves t)%N /\ (depth s <= depth t)%N.

Lemma stats_le_add s t : stats_le s (s ⊕ t).
Proof. destruct s, t. unfold stats_le. simpl. lia. Qed.

Lemma stats_le_trans s t u : stats_le s t -> stats_le t u -> stats_le s u.
Proof. unfold stats_le. lia. Qed.

Lemma stats_le_add_r s t : stats_le t (s ⊕ t).
Proof. rewrite madd_comm. apply stats_le_add. Qed.

Lemma stats_le_term lo hi i (f : Z -> stats) : lo <= i < hi -> stats_le (f i) (msum lo hi f).
Proof. intros. rewrite (msum_split lo hi i) by done. apply stats_le_add. Qed.

Lemma nodes_msum lo hi (f : Z -> stats) :
  Z.of_N (nodes (msum lo hi f)) = msum lo hi (fun i => Z.of_N (nodes (f i))).
Proof.
  revert lo hi. apply (range_ind (fun lo hi =>
    Z.of_N (nodes (msum lo hi f)) = msum lo hi (fun i => Z.of_N (nodes (f i))))).
  - intros. by rewrite !msum_empty.
  - intros lo hi Hlt IH. rewrite (msum_left lo hi f), (msum_left lo hi) by done. rewrite <- IH.
    cbn. lia.
Qed.

Lemma leaves_msum lo hi (f : Z -> stats) :
  Z.of_N (leaves (msum lo hi f)) = msum lo hi (fun i => Z.of_N (leaves (f i))).
Proof.
  revert lo hi. apply (range_ind (fun lo hi =>
    Z.of_N (leaves (msum lo hi f)) = msum lo hi (fun i => Z.of_N (leaves (f i))))).
  - intros. by rewrite !msum_empty.
  - intros lo hi Hlt IH. rewrite (msum_left lo hi f), (msum_left lo hi) by done. rewrite <- IH.
    cbn. lia.
Qed.

Section Search.
Context `{SearchTree St} (c : config) (fuel : nat) (size : Z) (total : stats) (dn : node St).
Implicit Types (ss victim : StealStack St) (p : node St) (w : world St) (i j v x : Z).

Let k := chunkSize c.
Let N := num_threads c.

(** The parameters the program is used with: at least one thread, chunks that
    are not empty, sizes within [int]. *)
Record config_ok : Prop := {
  co_threads : 1 <= N;
  co_chunk : 1 <= k;
  co_limit : 2 * k < 2 ^ 31;
  co_size : 1 <= size /\ size + k < 2 ^ 31;
  co_cbint : 0 < cbint c;
  co_gran : 1 <= computeGranularity c;
  co_total : (nodes total < 2 ^ 31)%N /\ (leaves total < 2 ^ 31)%N /\ (depth total < 2 ^ 31)%N
}.

(** ** The invariant *)

Definition node_at ss x : node St := zth dn (stack ss) x.

(** A node on a stack is expanded, or it is still to be expanded and its tree
    is finite. *)
Definition fresh p : Prop := numChildren p = -1 /\ grows fuel p /\ 0 <= height p.
Definition node_ok p : Prop := 0 <= numChildren p \/ fresh p.

(** What is still to come from a node. *)
Definition to_come p : stats := if numChildren p <? 0 then weight fuel p else munit.

Record stack_ok ss : Prop := {
  so_len : zlen (stack ss) = size;
  so_size : stackSize ss = size;
  so_order : 0 <= sharedStart ss <= local ss /\ local ss <= top ss <= size;
  so_avail : workAvail ss = local ss - sharedStart ss;
  so_chunks : (k | workAvail ss);
  so_nodes x : sharedStart ss <= x < top ss -> node_ok (node_at ss x);
  so_counts : 0 <= nNodes ss /\ 0 <= nLeaves ss /\ 0 <= maxTreeDepth ss;
  so_moves : 0 <= nRelease ss /\ 0 <= nAcquire ss /\ 0 <= nSteal ss;
  so_tries : 0 <= nFail ss < 2 ^ 31 /\ 0 <= wakeups ss < 2 ^ 31 /\ 0 <= falseWakeups ss < 2 ^ 31;
  (* every release needs [k] pushes *)
  so_release : k * nRelease ss + Z.max 0 (top ss - local ss - k) <= nNodes ss
}.

(** The children that [genChildren] has still to make. *)
Definition generating (pc : pc) : option (Z * Z * Z) :=
  match pc with
  | Gen posn i n | Release (KGen posn i n) | Cancel (KGen posn i n) => Some (posn, i, n)
  | _ => None
  end.

Definition gen_ok ss (ch : node St) (g : option (Z * Z * Z)) : Prop :=
  match g with
  | None => True
  | Some (posn, i, n) =>
      0 <= posn < top ss /\ (0 <= i <= n /\ 0 < n) /\ 0 <= height (node_at ss posn) /\
      height ch = height (node_at ss posn) + 1 /\
      forall x, i <= x < n -> grows fuel (child_of (node_at ss posn) (type ch) x)
  end.

Definition gen_to_come ss (ch : node St) (g : option (Z * Z * Z)) : stats :=
  match g with
  | None => munit
  | Some (posn, i, n) =>
      msum i n (fun x => let q := child_of (node_at ss posn) (type ch) x in visit q ⊕ weight fuel q)
  end.

(** A thread without work. *)
Definition empty ss : Prop := sharedStart ss = top ss.

Definition stack_of w i : StealStack St :=
  zth (MkStealStack 0 0 0 0 0 0 0 0 0 0 0 0 0 0 0 0 []) (stealStack w) i.
Definition thread_of w i : thread St := zth (Thread Work dn) (threads w) i.
Definition pc_of w i : pc := at_pc (thread_of w i).

Definition is_victim i v : Prop := 0 <= v < N /\ v <> i.

Definition pc_ok (stack_of : Z -> StealStack St) i ss (pc : pc) : Prop :=
  match pc with
  | Work | Gen _ _ _ | Cancel _ => True
  | Release _ => 2 * k < top ss - local ss
  | Acquire => local ss = top ss
  | Find j => 1 <= j /\ empty ss
  | Steal v => is_victim i v /\ empty ss
  | Reserve v => is_victim i v /\ empty ss /\ top ss + k < size
  | Copy v from j =>
      is_victim i v /\ empty ss /\ top ss + k < size /\
      0 <= from /\ from + k <= sharedStart (stack_of v) /\ 0 <= j <= k /\
      (forall x, 0 <= x < j -> node_at ss (top ss + x) = node_at (stack_of v) (from + x)) /\
      (forall x, 0 <= x < k -> node_ok (node_at (stack_of v) (from + x)))
  | Enter | Spin | SpinDone _ | Exit | Return | Done => empty ss
  end.

(** The nodes of a chunk on its way. *)
Definition in_flight (stack_of : Z -> StealStack St) (pc : pc) : stats :=
  match pc with
  | Copy v from j => msum 0 k (fun x => to_come (node_at (stack_of v) (from + x)))
  | _ => munit
  end.

Definition counted ss : stats :=
  Stats (Z.to_N (nNodes ss)) (Z.to_N (nLeaves ss)) (Z.to_N (maxTreeDepth ss)).
Definition on_stack ss : stats :=
  msum (sharedStart ss) (top ss) (fun x => to_come (node_at ss x)).

(** A thread's share of the tree. *)
Definition share (stack_of : Z -> StealStack St) ss (t : thread St) : stats :=
  counted ss ⊕ (on_stack ss ⊕
    (gen_to_come ss (child t) (generating (at_pc t)) ⊕ in_flight stack_of (at_pc t))).

(** The chunks a thread has released and not got back, in nodes. *)
Definition copying (pc : pc) : Z := match pc with Copy _ _ _ => k | _ => 0 end.
Definition balance ss (pc : pc) : Z :=
  k * nRelease ss - k * (nAcquire ss + nSteal ss) - workAvail ss - copying pc.

Definition waiting (pc : pc) : bool :=
  match pc with Spin | SpinDone _ | Exit => true | _ => false end.
Definition left_barrier (pc : pc) : bool :=
  match pc with Return | Done => true | _ => false end.

Record barrier_ok w : Prop := {
  bo_count : cb_count w = msum 0 N (fun i => Z.b2z (waiting (pc_of w i)));
  bo_done : cb_done w = 0 \/ cb_done w = 1;
  bo_all : cb_done w = 1 -> forall i, 0 <= i < N -> waiting (pc_of w i) || left_barrier (pc_of w i);
  bo_open : cb_done w = 0 -> cb_count w < N;
  bo_end : cb_done w = 0 -> forall i, 0 <= i < N -> pc_of w i <> Done
}.

Record thread_ok w i : Prop := {
  to_stack : stack_ok (stack_of w i);
  to_child : numChildren (child (thread_of w i)) = -1;
  to_gen : gen_ok (stack_of w i) (child (thread_of w i)) (generating (pc_of w i));
  to_pc : pc_ok (stack_of w) i (stack_of w i) (pc_of w i)
}.

Record inv w : Prop := {
  iv_stacks : zlen (stealStack w) = N;
  iv_threads : zlen (threads w) = N;
  iv_thread i : 0 <= i < N -> thread_ok w i;
  iv_total : msum 0 N (fun i => share (stack_of w) (stack_of w i) (thread_of w i)) = total;
  iv_balance : msum 0 N (fun i => balance (stack_of w i) (pc_of w i)) = 0;
  iv_barrier : barrier_ok w
}.

(** ** Frames *)

(** Stacks lose nodes at the bottom only, and nobody writes below. *)
Definition keeps (so so' : Z -> StealStack St) : Prop :=
  forall v, 0 <= v < N -> sharedStart (so v) <= sharedStart (so' v) /\
    forall x, 0 <= x < sharedStart (so v) -> node_at (so' v) x = node_at (so v) x.

Lemma pc_ok_keeps so so' i ss pc : keeps so so' -> pc_ok so i ss pc -> pc_ok so' i ss pc.
Proof.
  intros Hk. destruct pc; try done. simpl.
  intros ([Hv Hne] & He & Hs & Hf & Hfk & Hj & Hcopied & Hnodes).
  destruct (Hk v Hv) as [Hle Hsame]. do 4 (split; [done|]). split; [lia|]. split; [done|].
  split; intros x Hx; rewrite Hsame by lia; auto.
Qed.

Lemma in_flight_keeps so so' i ss pc : keeps so so' -> pc_ok so i ss pc ->
  in_flight so' pc = in_flight so pc.
Proof.
  intros Hk. destruct pc; try done. simpl.
  intros ([Hv Hne] & He & Hs & Hf & Hfk & Hj & Hcopied & Hnodes).
  destruct (Hk v Hv) as [Hle Hsame]. apply msum_ext. intros x Hx. by rewrite Hsame by lia.
Qed.

(** A step that changes the stack and the thread of [i], and the barrier. *)
Definition update w i ss t cancel count done : world St :=
  World (<[Z.to_nat i := ss]> (stealStack w)) (<[Z.to_nat i := t]> (threads w)) cancel count done.

Lemma put_update w i ss t : inv w -> 0 <= i < N ->
  put w i (ss, t) = Ok (update w i ss t (cb_cancel w) (cb_count w) (cb_done w)).
Proof.
  intros I Hi. unfold put. simpl. rewrite !aset_ok; [done | |].
  - rewrite (iv_stacks w I). lia.
  - rewrite (iv_threads w I). lia.
Qed.

Section Update.
Context (w : world St) (i : Z) (ss : StealStack St) (t : thread St) (ca co d : Z).
Hypotheses (I : inv w) (Hi : 0 <= i < N).

Lemma stack_of_update j : 0 <= j ->
  stack_of (update w i ss t ca co d) j = if j =? i then ss else stack_of w j.
Proof. intros. unfold stack_of, update. simpl. apply zth_insert; [|done]. by rewrite (iv_stacks w I). Qed.

Lemma thread_of_update j : 0 <= j ->
  thread_of (update w i ss t ca co d) j = if j =? i then t else thread_of w j.
Proof. intros. unfold thread_of, update. simpl. apply zth_insert; [|done]. by rewrite (iv_threads w I). Qed.

Lemma pc_of_update j : 0 <= j ->
  pc_of (update w i ss t ca co d) j = if j =? i then at_pc t else pc_of w j.
Proof. intros. unfold pc_of. rewrite thread_of_update by done. by destruct (j =? i). Qed.
End Update.

(** The barrier does not notice a step outside of it. *)
Lemma barrier_same w i ss t ca : inv w -> 0 <= i < N ->
  waiting (at_pc t) = waiting (pc_of w i) -> left_barrier (at_pc t) = left_barrier (pc_of w i) ->
  (at_pc t = Done -> cb_done w = 1) ->
  barrier_ok (update w i ss t ca (cb_count w) (cb_done w)).
Proof.
  intros I Hi Ew El Ed. destruct (iv_barrier w I) as [B1 B2 B3 B4 B5].
  split; simpl; try done.
  - rewrite B1. apply msum_ext. intros j Hj. rewrite pc_of_update by (done || lia).
    destruct (Z.eqb_spec j i) as [->|]; [by rewrite Ew | done].
  - intros E j Hj. rewrite pc_of_update by (done || lia).
    destruct (Z.eqb_spec j i) as [->|]; [rewrite Ew, El|]; auto.
  - intros E j Hj. rewrite pc_of_update by (done || lia).
    destruct (Z.eqb_spec j i) as [->|]; [|auto]. intros Et. apply Ed in Et. lia.
Qed.

Lemma own_step w i ss t ca co d : inv w -> 0 <= i < N ->
  sharedStart ss = sharedStart (stack_of w i) ->
  (forall x, 0 <= x < sharedStart ss -> node_at ss x = node_at (stack_of w i) x) ->
  stack_ok ss -> numChildren (child t) = -1 ->
  gen_ok ss (child t) (generating (at_pc t)) -> pc_ok (stack_of w) i ss (at_pc t) ->
  share (stack_of w) ss t = share (stack_of w) (stack_of w i) (thread_of w i) ->
  balance ss (at_pc t) = balance (stack_of w i) (pc_of w i) ->
  barrier_ok (update w i ss t ca co d) ->
  inv (update w i ss t ca co d).
Proof.
  intros I Hi Es Hsame Hok Hch Hgen Hpc Hshare Hbal Hbar.
  set (w' := update w i ss t ca co d) in *.
  assert (Hst : forall j, 0 <= j -> stack_of w' j = if j =? i then ss else stack_of w j).
  { intros. by apply stack_of_update. }
  assert (Hth : forall j, 0 <= j -> thread_of w' j = if j =? i then t else thread_of w j).
  { intros. by apply thread_of_update. }
  assert (Hpcs : forall j, 0 <= j -> pc_of w' j = if j =? i then at_pc t else pc_of w j).
  { intros. by apply pc_of_update. }
  assert (K : keeps (stack_of w) (stack_of w')).
  { intros v Hv. rewrite Hst by lia. destruct (Z.eqb_spec v i) as [->|]; [|split; [lia | done]].
    split; [lia|]. intros x Hx. apply Hsame. lia. }
  split.
  - simpl. rewrite zlen_insert. apply (iv_stacks w I).
  - simpl. rewrite zlen_insert. apply (iv_threads w I).
  - intros j Hj. destruct (iv_thread w I j Hj) as [T1 T2 T3 T4].
    split; rewrite ?Hst, ?Hth, ?Hpcs by lia; destruct (j =? i) eqn:E; try done.
    + apply Z.eqb_eq in E as ->. by apply (pc_ok_keeps (stack_of w)).
    + by apply (pc_ok_keeps (stack_of w)).
  - rewrite <- (iv_total w I). apply msum_ext. intros j Hj.
    rewrite Hst, Hth by lia. destruct (Z.eqb_spec j i) as [->|].
    + rewrite <- Hshare. unfold share. by rewrite (in_flight_keeps _ _ i ss _ K).
    + unfold share. f_equal. do 2 f_equal.
      exact (in_flight_keeps _ _ j _ _ K (to_pc w j (iv_thread w I j Hj))).
  - etransitivity; [|exact (iv_balance w I)]. apply msum_ext. intros j Hj.
    rewrite Hst, Hpcs by lia. by destruct (Z.eqb_spec j i) as [->|].
  - done.
Qed.

(** ** Threads that search *)

Definition busy (pc : pc) : bool :=
  match pc with
  | Copy _ _ _ | Spin | SpinDone _ | Exit | Return | Done => false
  | _ => true
  end.

Definition own_total ss (t : thread St) : stats :=
  counted ss ⊕ (on_stack ss ⊕ gen_to_come ss (child t) (generating (at_pc t))).

Lemma busy_share so ss t : busy (at_pc t) = true -> share so ss t = own_total ss t.
Proof.
  intros Hb. unfold share, own_total. do 2 f_equal.
  by destruct (at_pc t); try discriminate Hb; cbn [in_flight]; rewrite madd_unit_r.
Qed.

Lemma busy_step w i ss t ca : inv w -> 0 <= i < N ->
  busy (pc_of w i) = true -> busy (at_pc t) = true ->
  sharedStart ss = sharedStart (stack_of w i) ->
  (forall x, 0 <= x < sharedStart ss -> node_at ss x = node_at (stack_of w i) x) ->
  stack_ok ss -> numChildren (child t) = -1 ->
  gen_ok ss (child t) (generating (at_pc t)) -> pc_ok (stack_of w) i ss (at_pc t) ->
  own_total ss t = own_total (stack_of w i) (thread_of w i) ->
  balance ss Work = balance (stack_of w i) Work ->
  inv (update w i ss t ca (cb_count w) (cb_done w)).
Proof.
  intros I Hi Hb Hb' Es Hsame Hok Hch Hgen Hpc Hshare Hbal.
  apply own_step; try done.
  - rewrite !busy_share; done.
  - revert Hbal. unfold balance.
    by destruct (at_pc t), (pc_of w i); try discriminate Hb; try discriminate Hb'.
  - apply barrier_same; try done.
    + by destruct (at_pc t), (pc_of w i); try discriminate Hb; try discriminate Hb'.
    + by destruct (at_pc t), (pc_of w i); try discriminate Hb; try discriminate Hb'.
    + by intros E; rewrite E in Hb'.
Qed.

(** ** The operations of the stack *)

Hypothesis CO : config_ok.

Lemma k_range : 1 <= k /\ 2 * k < 2 ^ 31 /\ 1 <= size /\ size + k < 2 ^ 31.
Proof. destruct CO. lia. Qed.

Lemma incr_ok x : 0 <= x < 2 ^ 31 - 1 -> incr x = Ok (x + 1).
Proof. intros. apply chk_ok. lia. Qed.

Lemma incr_limit x : 0 <= x < 2 ^ 31 ->
  (incr x = Ok (x + 1) /\ x + 1 < 2 ^ 31) \/ (incr x = Err Overflow /\ x = 2 ^ 31 - 1).
Proof.
  intros. destruct (Z.eq_dec x (2 ^ 31 - 1)) as [->|]; [by right|].
  left. split; [apply incr_ok|]; lia.
Qed.

Lemma on_stack_ext ss ss' : sharedStart ss' = sharedStart ss -> top ss' = top ss ->
  (forall x, sharedStart ss <= x < top ss -> to_come (node_at ss' x) = to_come (node_at ss x)) ->
  on_stack ss' = on_stack ss.
Proof. unfold on_stack. intros -> -> E. by apply msum_ext. Qed.

Lemma node_at_insert ss ss' x y p : stack ss' = <[Z.to_nat y := p]> (stack ss) ->
  0 <= y < zlen (stack ss) -> 0 <= x -> node_at ss' x = if x =? y then p else node_at ss x.
Proof. intros E Hy Hx. unfold node_at. rewrite E. by apply zth_insert. Qed.

Lemma push_ok ss p : stack_ok ss -> node_ok p -> 0 <= height p ->
  nNodes ss < 2 ^ 31 - 1 -> top ss < size ->
  exists ss', ss_push ss p = Ok ss' /\ stack_ok ss' /\
    top ss' = top ss + 1 /\ local ss' = local ss /\ sharedStart ss' = sharedStart ss /\
    (forall x, 0 <= x < top ss -> node_at ss' x = node_at ss x) /\
    counted ss' = counted ss ⊕ visit p /\ on_stack ss' = on_stack ss ⊕ to_come p /\
    balance ss' Work = balance ss Work.
Proof.
  intros [S1 S2 S3 S4 S5 S6 S7 S8 S10 S9] Hp Hh Hn Ht. unfold ss_push.
  rewrite S2. replace (size <=? top ss) with false by (symmetry; apply Z.leb_gt; lia).
  rewrite aset_ok by lia. cbn [mbind res_bind]. rewrite incr_ok by lia. cbn [mbind res_bind].
  eexists. split; [done|].
  match goal with |- stack_ok ?s /\ _ => set (ss' := s) end.
  assert (Hat : forall x, 0 <= x -> node_at ss' x = if x =? top ss then p else node_at ss x).
  { intros x Hx. apply node_at_insert; [done | lia | done]. }
  split; [split; try (cbn; done || lia)|].
  - cbn. by rewrite zlen_insert.
  - intros x Hx. change (sharedStart ss <= x < top ss + 1) in Hx. rewrite Hat by lia. destruct (Z.eqb_spec x (top ss)); [done|]. apply S6. lia.
  - do 3 (split; [done|]). split.
    { intros x Hx. rewrite Hat by lia. by destruct (Z.eqb_spec x (top ss)); [lia|]. }
    split; [|split; [|done]].
    + unfold counted, visit. cbn. unfold stats_add. cbn. f_equal; lia.
    + unfold on_stack. change (top ss') with (top ss + 1). change (sharedStart ss') with (sharedStart ss).
      rewrite msum_right by lia. f_equal.
      * apply msum_ext. intros x Hx. rewrite Hat by lia. by destruct (Z.eqb_spec x (top ss)); [lia|].
      * by rewrite Hat, Z.eqb_refl by lia.
Qed.

Lemma expanded_to_come p : 0 <= numChildren p -> to_come p = munit.
Proof. intros. unfold to_come. by destruct (Z.ltb_spec (numChildren p) 0); [lia|]. Qed.

Lemma fresh_to_come p : fresh p -> to_come p = weight fuel p.
Proof. intros [Hn _]. unfold to_come. by rewrite Hn. Qed.

Lemma pop_ok ss : stack_ok ss -> local ss < top ss -> 0 <= numChildren (node_at ss (top ss - 1)) ->
  exists ss', ss_pop ss = Ok ss' /\ stack_ok ss' /\ sharedStart ss' = sharedStart ss /\
    stack ss' = stack ss /\ counted ss' = counted ss /\ on_stack ss' = on_stack ss /\
    balance ss' Work = balance ss Work.
Proof.
  intros [S1 S2 S3 S4 S5 S6 S7 S8 S10 S9] Ht Hn. unfold ss_pop.
  replace (top ss <=? local ss) with false by (symmetry; apply Z.leb_gt; lia).
  eexists. split; [done|]. split; [split; try (cbn; done || lia)|].
  - intros x Hx. change (sharedStart ss <= x < top ss - 1) in Hx. apply S6. lia.
  - do 3 (split; [done|]). split; [|done].
    unfold on_stack. cbn. replace (top ss) with (top ss - 1 + 1) at 2 by lia.
    rewrite msum_right by lia. by rewrite (expanded_to_come (node_at ss (top ss - 1))), madd_unit_r.
Qed.

Lemma release_ok ss : stack_ok ss -> 2 * k < top ss - local ss -> nNodes ss < 2 ^ 31 ->
  exists ss', ss_release ss k = Ok ss' /\ stack_ok ss' /\ sharedStart ss' = sharedStart ss /\
    top ss' = top ss /\ stack ss' = stack ss /\ counted ss' = counted ss /\
    on_stack ss' = on_stack ss /\ balance ss' Work = balance ss Work.
Proof.
  intros [S1 S2 S3 S4 S5 S6 S7 S8 S10 S9] Hd Hn. unfold ss_release.
  pose proof k_range.
  replace (k <=? top ss - local ss) with true by (symmetry; apply Z.leb_le; lia).
  rewrite incr_ok by nia. cbn [mbind res_bind].
  eexists. split; [done|]. split; [split; try (cbn; done || lia || nia)|].
  - cbn. apply Z.divide_add_r; [done | apply Z.divide_refl].
  - do 5 (split; [done|]). unfold balance. cbn. lia.
Qed.

Lemma releaseNodes_ok ss kc : stack_ok ss -> exists pc, releaseNodes c ss kc = Ok pc /\
  (pc = resume kc \/ (pc = Release kc /\ 2 * k < top ss - local ss)).
Proof.
  intros _. unfold releaseNodes. destruct (doSteal c); [|eauto].
  pose proof k_range. fold k.
  rewrite chk_ok by lia. cbn [mbind res_bind]. unfold ss_localDepth.
  destruct (Z.ltb_spec (2 * k) (top ss - local ss)); eauto.
Qed.

(** Expanding the node at the top. *)
Lemma expand_ok ss n : stack_ok ss -> local ss < top ss -> fresh (node_at ss (top ss - 1)) -> 0 <= n ->
  let p := node_at ss (top ss - 1) in
  let ss' := set_stack ss (<[Z.to_nat (top ss - 1) := set_numChildren p n]> (stack ss)) in
  stack_ok ss' /\ node_at ss' (top ss - 1) = set_numChildren p n /\
  (forall x, 0 <= x < top ss - 1 -> node_at ss' x = node_at ss x) /\
  on_stack ss = on_stack ss' ⊕ weight fuel p.
Proof.
  intros [S1 S2 S3 S4 S5 S6 S7 S8 S10 S9] Ht Hp Hn p ss'.
  assert (Hat : forall x, 0 <= x -> node_at ss' x = if x =? top ss - 1 then set_numChildren p n else node_at ss x).
  { intros x Hx. apply node_at_insert; [done | lia | done]. }
  split; [split; try (cbn; done || lia)|].
  - cbn. by rewrite zlen_insert.
  - intros x Hx. change (sharedStart ss <= x < top ss) in Hx. rewrite Hat by lia.
    destruct (Z.eqb_spec x (top ss - 1)); [by left | by apply S6].
  - split; [by rewrite Hat, Z.eqb_refl by lia|].
    split. { intros x Hx. rewrite Hat by lia. by destruct (Z.eqb_spec x (top ss - 1)); [lia|]. }
    unfold on_stack. change (top ss') with (top ss). change (sharedStart ss') with (sharedStart ss).
    replace (top ss) with (top ss - 1 + 1) by lia. rewrite !msum_right by lia.
    rewrite (expanded_to_come (node_at ss' _)) by (rewrite Hat, Z.eqb_refl by lia; done).
    rewrite madd_unit_r, (fresh_to_come (node_at ss _)) by done. f_equal.
    apply msum_ext. intros x Hx. rewrite Hat by lia. by destruct (Z.eqb_spec x (top ss - 1)); [lia|].
Qed.

(** ** The steps of a thread *)

(** The errors that are left: a stack that is full, or a counter of failed
    attempts or of wake-ups at its end. *)
Definition limit w i (f : fault) : Prop :=
  let ss := stack_of w i in
  (f = Aborted /\ size - k <= top ss) \/
  (f = Overflow /\ (nFail ss = 2 ^ 31 - 1 \/ wakeups ss = 2 ^ 31 - 1 \/ falseWakeups ss = 2 ^ 31 - 1)).

Definition good w i (r : res (world St)) : Prop :=
  match r with Ok w' => inv w' | Err f => limit w i f end.

Lemma share_le w i : inv w -> 0 <= i < N ->
  stats_le (share (stack_of w) (stack_of w i) (thread_of w i)) total.
Proof.
  intros I Hi. rewrite <- (iv_total w I).
  exact (stats_le_term 0 N i (fun i => share (stack_of w) (stack_of w i) (thread_of w i)) Hi).
Qed.

Lemma counted_bounds w i : inv w -> 0 <= i < N ->
  0 <= nNodes (stack_of w i) < 2 ^ 31 /\ 0 <= nLeaves (stack_of w i) < 2 ^ 31.
Proof.
  intros I Hi. pose proof (share_le w i I Hi) as Hle. unfold share in Hle.
  pose proof (so_counts _ (to_stack w i (iv_thread w I i Hi))) as Hc.
  pose proof (stats_le_trans _ _ _ (stats_le_add _ _) Hle) as (Hn & Hl & Hd).
  cbn in Hn, Hl. destruct (co_total CO) as (T1 & T2 & T3). lia.
Qed.

(** A chunk is moved only after it has been released. *)
Lemma moves_bound w : inv w ->
  msum 0 N (fun i => k * (nAcquire (stack_of w i) + nSteal (stack_of w i)) +
                     (workAvail (stack_of w i) + copying (pc_of w i))) <= Z.of_N (nodes total).
Proof.
  intros I. pose proof (iv_balance w I) as Hb.
  assert (Hn : msum 0 N (fun i => nNodes (stack_of w i)) <= Z.of_N (nodes total)).
  { rewrite <- (iv_total w I). rewrite nodes_msum. apply msum_Z_le. intros i Hi.
    pose proof (so_counts _ (to_stack w i (iv_thread w I i Hi))). cbn. lia. }
  assert (Hr : msum 0 N (fun i => k * nRelease (stack_of w i)) <= msum 0 N (fun i => nNodes (stack_of w i))).
  { apply msum_Z_le. intros i Hi. pose proof (so_release _ (to_stack w i (iv_thread w I i Hi))). lia. }
  unfold balance in Hb. rewrite (msum_ext _ _ _ (fun i => k * nRelease (stack_of w i) +
    - (k * (nAcquire (stack_of w i) + nSteal (stack_of w i)) + (workAvail (stack_of w i) + copying (pc_of w i)))))
    in Hb by (intros; lia).
  rewrite msum_Z_add, msum_Z_opp in Hb. lia.
Qed.

(** One thread's part of it. *)
Lemma move_bound w i : inv w -> 0 <= i < N ->
  k * (nAcquire (stack_of w i) + nSteal (stack_of w i)) +
    (workAvail (stack_of w i) + copying (pc_of w i)) < 2 ^ 31.
Proof.
  intros I Hi. pose proof (moves_bound w I). destruct (co_total CO) as (CT & _). pose proof k_range.
  pose proof (msum_Z_term 0 N i (fun i => k * (nAcquire (stack_of w i) + nSteal (stack_of w i)) +
    (workAvail (stack_of w i) + copying (pc_of w i)))) as Ht.
  cbv beta in Ht. enough (forall j, 0 <= j < N ->
    0 <= k * (nAcquire (stack_of w j) + nSteal (stack_of w j)) +
         (workAvail (stack_of w j) + copying (pc_of w j))) by (specialize (Ht ltac:(done) Hi); lia).
  intros j Hj. destruct (to_stack w j (iv_thread w I j Hj)) as [S1 S2 S3 S4 S5 S6 S7 S8 S10 S9].
  assert (0 <= copying (pc_of w j)) by (destruct (pc_of w j); simpl; lia). nia.
Qed.

Lemma thread_step_pc w i : inv w -> 0 <= i < N ->
  (stealStack w).[i] = Ok (stack_of w i) /\ (threads w).[i] = Ok (thread_of w i).
Proof.
  intros I Hi. split; apply aget_ok; [rewrite (iv_stacks w I) | rewrite (iv_threads w I)]; done.
Qed.

Lemma node_get ss x : stack_ok ss -> 0 <= x < size -> (stack ss).[x] = Ok (node_at ss x).
Proof. intros S Hx. apply aget_ok. by rewrite (so_len _ S). Qed.

Ltac enter I Hi E :=
  unfold thread_step;
  destruct (thread_step_pc _ _ I Hi) as [-> ->]; cbn [mbind res_bind];
  match type of E with pc_of ?w ?i = _ =>
    change (at_pc (thread_of w i)) with (pc_of w i); rewrite E end;
  cbn [mbind res_bind].

(** A release of nodes after the stack has changed. *)
Lemma after_releaseNodes w i ss ch kc : inv w -> 0 <= i < N -> busy (pc_of w i) = true ->
  sharedStart ss = sharedStart (stack_of w i) ->
  (forall x, 0 <= x < sharedStart ss -> node_at ss x = node_at (stack_of w i) x) ->
  stack_ok ss -> numChildren ch = -1 -> gen_ok ss ch (generating (resume kc)) ->
  counted ss ⊕ (on_stack ss ⊕ gen_to_come ss ch (generating (resume kc))) =
    own_total (stack_of w i) (thread_of w i) ->
  balance ss Work = balance (stack_of w i) Work ->
  good w i (pc ← releaseNodes c ss kc; put w i (ss, Thread pc ch)).
Proof.
  intros I Hi Hb Es Hsame Hok Hch Hgen Htot Hbal.
  destruct (releaseNodes_ok ss kc Hok) as (pc & -> & Hpc). cbn [mbind res_bind].
  rewrite (put_update w i) by done. unfold good.
  assert (Eg : generating pc = generating (resume kc)).
  { destruct Hpc as [->|[-> _]]; by destruct kc. }
  apply busy_step; try done; simpl.
  - destruct Hpc as [->|[-> _]]; by destruct kc.
  - by rewrite Eg.
  - destruct Hpc as [->|[-> Hd]]; by destruct kc.
  - unfold own_total. simpl. by rewrite Eg.
Qed.

(** [good] of a step whose last action is [put]. *)
Lemma good_bind {A} w i (m : res A) (f : A -> res (StealStack St * thread St)) :
  good w i (r ← m; r ← f r; put w i r) -> good w i (r ← (r ← m; f r); put w i r).
Proof. by rewrite bind_assoc. Qed.

Lemma own_total_none ss t : generating (at_pc t) = None -> own_total ss t = counted ss ⊕ on_stack ss.
Proof. intros E. unfold own_total. rewrite E. cbn [gen_to_come]. by rewrite madd_unit_r. Qed.

Lemma own_total_le w i : inv w -> 0 <= i < N -> busy (pc_of w i) = true ->
  stats_le (own_total (stack_of w i) (thread_of w i)) total.
Proof. intros I Hi Hb. rewrite <- (busy_share (stack_of w)) by done. by apply share_le. Qed.

(** What is to come from a node with children: at least its first child. *)
Lemma weight_first p n t : 0 < n ->
  weight fuel p = msum 0 n (fun x => visit (child_of p t x) ⊕ weight fuel (child_of p t x)) ->
  stats_le (visit (child_of p t 0)) (weight fuel p).
Proof.
  intros Hn ->. eapply stats_le_trans; [|apply (stats_le_term 0 n 0); lia]. apply stats_le_add.
Qed.

Lemma genChildren_step w i : inv w -> 0 <= i < N -> pc_of w i = Work ->
  let ss := stack_of w i in
  local ss < top ss -> fresh (node_at ss (top ss - 1)) ->
  good w i (r ← genChildren c ss (top ss - 1) (child (thread_of w i)); put w i r).
Proof.
  intros I Hi E ss Hd Hfresh.
  assert (Hb : busy (pc_of w i) = true) by by rewrite E.
  destruct (iv_thread w I i Hi) as [T1 T2 T3 T4]. fold ss in T1. set (t := thread_of w i) in *.
  pose proof (so_order _ T1) as Ho.
  assert (Et : own_total ss t = counted ss ⊕ on_stack ss).
  { apply own_total_none. change (at_pc t) with (pc_of w i). by rewrite E. }
  pose proof (own_total_le w i I Hi Hb) as Hle. fold ss t in Hle. rewrite Et in Hle.
  destruct Hfresh as (Hn1 & Hg & Hh).
  destruct (grows_children fuel _ Hg) as (n & ty & En & Ety & Hn & Hgc & Hw).
  destruct (expand_ok ss n T1 Hd (conj Hn1 (conj Hg Hh)) Hn) as (X1 & X2 & X3 & X4).
  set (ss' := set_stack ss _) in *. set (p := node_at ss (top ss - 1)) in *.
  rewrite X4 in Hle, Et.
  unfold genChildren. rewrite (node_get ss) by (done || lia). fold p. cbn [mbind res_bind].
  rewrite En, Ety. cbn [mbind res_bind]. rewrite aset_ok by (rewrite (so_len _ T1); lia).
  cbn [mbind res_bind]. change (set_stack ss _) with ss'. destruct (co_total CO) as (CT1 & CT2 & CT3).
  destruct (Z.ltb_spec 0 n) as [Hpos|Hz].
  - replace (n =? 0) with false in Hw by (symmetry; apply Z.eqb_neq; lia).
    assert (Hh' : height p + 1 < 2 ^ 31).
    { pose proof (stats_le_trans _ _ _ (stats_le_add_r _ _) Hle) as Hle1.
      pose proof (stats_le_trans _ _ _ (stats_le_add_r _ _) Hle1) as Hle2.
      destruct (stats_le_trans _ _ _ (weight_first p n ty Hpos Hw) Hle2) as (_ & _ & Hdepth).
      cbn in Hdepth. lia. }
    rewrite chk_ok by lia. cbn [mbind res_bind]. rewrite (put_update w i) by done.
    apply busy_step; try done.
    + intros x Hx. apply X3. cbn in Hx. lia.
    + cbn [at_pc child generating gen_ok height type]. change (set_stack ss _) with ss'. rewrite X2. change (top ss') with (top ss).
      do 3 (split; [cbn; lia || done|]). split; [done|]. intros x Hx. by apply Hgc.
    + fold ss t. rewrite Et. unfold own_total. cbn [at_pc child generating gen_to_come type].
      change (set_stack ss _) with ss'. rewrite X2, Hw. done.
  - assert (n = 0) as -> by lia. rewrite Z.eqb_refl in Hw. rewrite Hw in *.
    assert (Hl : nLeaves ss < 2 ^ 31 - 1).
    { pose proof (so_counts _ T1). revert Hle. generalize (on_stack ss').
      intros [a b d] (_ & Hle & _). cbn in Hle. lia. }
    pose proof (so_counts _ T1).
    change (nLeaves ss') with (nLeaves ss). rewrite incr_ok by lia. cbn [mbind res_bind].
    rewrite bind_assoc. cbn [mbind res_bind].
    apply after_releaseNodes; try done.
    + intros x Hx. apply X3. cbn in Hx. lia.
    + destruct X1; split; cbn; try done. lia.
    + fold ss t. rewrite Et. cbn [resume generating gen_to_come]. rewrite madd_unit_r.
      change (on_stack (set_nLeaves ss' (nLeaves ss + 1))) with (on_stack ss').
      rewrite (madd_comm (on_stack ss')), madd_assoc. f_equal.
      unfold counted. cbn. unfold stats_add. cbn. f_equal; lia.
Qed.

Lemma work_step w i : inv w -> 0 <= i < N -> pc_of w i = Work -> good w i (thread_step c i w).
Proof.
  intros I Hi E. enter I Hi E.
  destruct (iv_thread w I i Hi) as [T1 T2 T3 T4]. rewrite E in T3, T4.
  set (ss := stack_of w i) in *. set (t := thread_of w i) in *.
  pose proof (so_order _ T1) as Ho.
  assert (Et : own_total ss t = counted ss ⊕ on_stack ss).
  { apply own_total_none. change (at_pc t) with (pc_of w i). by rewrite E. }
  unfold work, ss_localDepth. destruct (Z.ltb_spec 0 (top ss - local ss)) as [Hd|Hd].
  2: { cbn [mbind res_bind]. rewrite (put_update w i) by done. apply busy_step; try done.
       - by rewrite E.
       - cbn. fold ss. lia.
       - fold ss t. rewrite Et. by apply own_total_none. }
  unfold ss_top. replace (top ss <=? local ss) with false by (symmetry; apply Z.leb_gt; lia).
  cbn [mbind res_bind]. rewrite (node_get ss) by (done || lia). cbn [mbind res_bind].
  destruct (so_nodes _ T1 (top ss - 1) ltac:(lia)) as [Hexp|Hfresh].
  - replace (numChildren _ <? 0) with false by (symmetry; apply Z.ltb_ge; lia).
    destruct (pop_ok ss T1 ltac:(lia) Hexp) as (ss' & -> & P1 & P2 & P3 & P4 & P5 & P6).
    cbn [mbind res_bind]. rewrite bind_assoc. cbn [mbind res_bind].
    apply after_releaseNodes; try done.
    + by rewrite E.
    + intros x Hx. unfold node_at. by rewrite P3.
    + fold ss t. rewrite Et, P4, P5. cbn [resume generating gen_to_come]. by rewrite madd_unit_r.
  - destruct Hfresh as (Hn1 & Hg & Hh).
    replace (numChildren _ <? 0) with true by (symmetry; apply Z.ltb_lt; lia).
    apply genChildren_step; try done. fold ss. lia.
Qed.

Lemma for_range_const {A} lo hi (a b : A) : lo < hi ->
  for_range lo hi (fun _ _ => Ok a) b = Ok a.
Proof.
  intros Hlt. destruct (for_range_inv (fun j s => j = lo \/ s = a) (fun _ _ => Ok a) lo hi b)
    as (s' & -> & [?| ->]); [lia | by left | | lia | done].
  intros. eexists. split; [done | by right].
Qed.

Lemma push_eq (C V S W G : stats) : C ⊕ V ⊕ (S ⊕ W ⊕ G) = C ⊕ (S ⊕ (V ⊕ W ⊕ G)).
Proof. rewrite <- !madd_assoc. f_equal. apply madd_swap. Qed.

Lemma gen_turn_step w i posn j n : inv w -> 0 <= i < N -> pc_of w i = Gen posn j n ->
  good w i (thread_step c i w).
Proof.
  intros I Hi E. assert (Hb : busy (pc_of w i) = true) by by rewrite E.
  enter I Hi E. destruct (iv_thread w I i Hi) as [T1 T2 T3 T4]. rewrite E in T3, T4.
  pose proof (own_total_le w i I Hi Hb) as Hle.
  assert (Et : own_total (stack_of w i) (thread_of w i) = counted (stack_of w i) ⊕ (on_stack (stack_of w i) ⊕
    gen_to_come (stack_of w i) (child (thread_of w i)) (Some (posn, j, n)))).
  { unfold own_total. change (at_pc _) with (pc_of w i). by rewrite E. }
  set (ss := stack_of w i) in *. set (t := thread_of w i) in *.
  destruct T3 as (G1 & G2 & G3 & G4 & G5). cbn [gen_to_come] in Et.
  pose proof (so_order _ T1) as Ho. rewrite Et in Hle.
  unfold gen_turn. destruct (Z.ltb_spec j n) as [Hj|Hj].
  2: { rewrite bind_assoc. cbn [mbind res_bind]. apply after_releaseNodes; try done.
       fold ss t. rewrite Et. cbn [resume generating gen_to_come]. by rewrite msum_empty by lia. }
  rewrite (node_get ss) by (done || lia). cbn [mbind res_bind].
  rewrite for_range_const by (pose proof (co_gran CO); lia). cbn [mbind res_bind].
  set (p := node_at ss posn) in *.
  assert (Ec : Node (type (child t)) (height (child t)) (numChildren (child t)) (spawn (state p) j) =
    child_of p (type (child t)) j) by (unfold child_of; by rewrite G4, T2).
  rewrite Ec. set (q := child_of p (type (child t)) j) in *.
  rewrite (msum_left j n) in Et, Hle by done. fold q in Et, Hle.
  destruct (Z.le_gt_cases size (top ss)) as [Hfull|Hroom].
  { unfold ss_push. rewrite (so_size _ T1).
    replace (size <=? top ss) with true by (symmetry; apply Z.leb_le; lia).
    left. split; [done|]. pose proof k_range. fold ss. lia. }
  assert (Hq : fresh q) by (split; [done|]; split; [apply G5; lia | cbn; lia]).
  assert (Hn : nNodes ss < 2 ^ 31 - 1).
  { pose proof (so_counts _ T1). destruct (co_total CO) as (CT & _).
    revert Hle. generalize (on_stack ss), (weight fuel q). intros [] [].
    match goal with |- context [msum ?a ?b ?f] => generalize (msum a b f) end.
    intros [] (Hle & _). cbn in Hle. lia. }
  destruct (push_ok ss q T1 (or_intror Hq) (proj2 (proj2 Hq)) Hn Hroom)
    as (ss' & -> & P1 & P2 & P3 & P4 & P5 & P6 & P7 & P8).
  cbn [mbind res_bind]. rewrite bind_assoc. cbn [mbind res_bind].
  assert (Ep : node_at ss' posn = p) by (apply P5; lia).
  apply after_releaseNodes; try done.
  - intros x Hx. apply P5. lia.
  - cbn [resume generating gen_ok]. rewrite Ep. do 2 (split; [lia|]). split; [done|].
    split; [cbn; lia|]. intros x Hx. apply G5. lia.
  - fold ss t. rewrite Et, P6, P7, (fresh_to_come q Hq). cbn [resume generating gen_to_come].
    rewrite Ep. apply push_eq.
Qed.

(** A step that changes neither the nodes nor the children to make. *)
Lemma quiet_step w i ss pc ca : inv w -> 0 <= i < N ->
  busy (pc_of w i) = true -> busy pc = true -> generating pc = generating (pc_of w i) ->
  stack_ok ss -> sharedStart ss = sharedStart (stack_of w i) -> top ss = top (stack_of w i) ->
  stack ss = stack (stack_of w i) -> counted ss = counted (stack_of w i) ->
  balance ss Work = balance (stack_of w i) Work -> pc_ok (stack_of w) i ss pc ->
  inv (update w i ss (Thread pc (child (thread_of w i))) ca (cb_count w) (cb_done w)).
Proof.
  intros I Hi Hb Hb' Eg Hok Es Etop Est Ec Hbal Hpc.
  destruct (iv_thread w I i Hi) as [T1 T2 T3 T4].
  assert (Hat : forall x, node_at ss x = node_at (stack_of w i) x).
  { intros x. unfold node_at. by rewrite Est. }
  apply busy_step; try done; cbn [at_pc child].
  - rewrite Eg. revert T3. unfold gen_ok. destruct (generating (pc_of w i)) as [[[posn j] n]|]; [|done].
    by rewrite Etop, Hat.
  - unfold own_total. cbn [at_pc child]. change (at_pc (thread_of w i)) with (pc_of w i). rewrite Eg, Ec.
    f_equal. f_equal.
    + apply on_stack_ext; [done | done |]. intros. by rewrite Hat.
    + unfold gen_to_come. destruct (generating (pc_of w i)) as [[[posn j] n]|]; [|done].
      by rewrite Hat.
Qed.

Lemma release_step_ok w i kc : inv w -> 0 <= i < N -> pc_of w i = Release kc ->
  good w i (thread_step c i w).
Proof.
  intros I Hi E. enter I Hi E. destruct (iv_thread w I i Hi) as [T1 T2 T3 T4]. rewrite E in T4.
  destruct (release_ok (stack_of w i) T1 T4 (proj2 (proj1 (counted_bounds w i I Hi))))
    as (ss' & E' & P1 & P2 & P3 & P4 & P5 & P6 & P7).
  unfold release_step. fold k. rewrite E'. cbn [mbind res_bind].
  pose proof (co_cbint CO) as Hc.
  replace (cbint c =? 0) with false by (symmetry; apply Z.eqb_neq; lia). cbn [mbind res_bind].
  rewrite (put_update w i) by done. unfold good.
  apply quiet_step; try done; rewrite ?E.
  - done.
  - by destruct (_ =? 0), kc.
  - by destruct (_ =? 0), kc.
  - by destruct (_ =? 0), kc.
Qed.

Lemma cancel_step_ok w i kc : inv w -> 0 <= i < N -> pc_of w i = Cancel kc ->
  good w i (thread_step c i w).
Proof.
  intros I Hi E. enter I Hi E. destruct (iv_thread w I i Hi) as [T1 T2 T3 T4].
  rewrite (put_update w i) by done. cbn [mbind res_bind]. unfold good.
  change (set_cb _ _ _ _) with (update w i (stack_of w i)
    (Thread (resume kc) (child (thread_of w i))) 1 (cb_count w) (cb_done w)).
  apply quiet_step; try done; rewrite ?E; by destruct kc.
Qed.

Lemma acquire_step_ok w i : inv w -> 0 <= i < N -> pc_of w i = Acquire ->
  good w i (thread_step c i w).
Proof.
  intros I Hi E. enter I Hi E. destruct (iv_thread w I i Hi) as [T1 T2 T3 T4]. rewrite E in T4.
  pose proof k_range. pose proof (move_bound w i I Hi) as Hacq.
  set (ss := stack_of w i) in *. cbn in T4.
  unfold ss_acquire. fold k. destruct (Z.leb_spec k (local ss - sharedStart ss)) as [Hge|Hlt].
  - destruct (T1) as [S1 S2 S3 S4 S5 S6 S7 S8 S10 S9].
    rewrite incr_ok by (rewrite E in Hacq; cbn in Hacq; nia). cbn [mbind res_bind].
    rewrite (put_update w i) by done. unfold good. apply quiet_step; try done; rewrite ?E; try done.
    + split; try (cbn; done || lia).
      cbn. by apply Z.divide_sub_r; [|apply Z.divide_refl].
    + unfold balance. cbn. fold ss. lia.
  - cbn [mbind res_bind]. rewrite (put_update w i) by done. unfold good.
    assert (He : empty ss).
    { destruct (so_chunks _ T1) as [z Hz]. pose proof (so_avail _ T1). pose proof (so_order _ T1).
      unfold empty. assert (z = 0) by nia. lia. }
    unfold no_local_work. by destruct (doSteal c); apply quiet_step; try done; rewrite ?E.
Qed.

Lemma find_step_ok w i j : inv w -> 0 <= i < N -> pc_of w i = Find j ->
  good w i (thread_step c i w).
Proof.
  intros I Hi E. enter I Hi E. destruct (iv_thread w I i Hi) as [T1 T2 T3 T4]. rewrite E in T4.
  destruct T4 as [Hj He]. fold N. destruct (Z.ltb_spec j N) as [Hlt|Hge].
  - assert (Hm : 0 <= Z.rem (i + j) N < N) by (apply Z.rem_bound_pos; lia).
    assert (Hne : Z.rem (i + j) N <> i).
    { rewrite Z.rem_mod_nonneg in * by lia. intros Em.
      pose proof (Z.div_mod (i + j) N ltac:(lia)) as Hdm. rewrite Em in Hdm.
      assert (Hq : j = N * ((i + j) / N)) by lia.
      destruct (Z.le_gt_cases ((i + j) / N) 0); nia. }
    destruct (thread_step_pc w _ I Hm) as [-> _]. cbn [mbind res_bind].
    rewrite (put_update w i) by done. unfold good. fold k.
    destruct (k <=? workAvail (stack_of w (Z.rem (i + j) N)));
      apply quiet_step; try done; rewrite ?E; try done; split; try done. lia.
  - rewrite (put_update w i) by done. apply quiet_step; try done; by rewrite ?E.
Qed.

Lemma steal_step_ok w i v : inv w -> 0 <= i < N -> pc_of w i = Steal v ->
  good w i (thread_step c i w).
Proof.
  intros I Hi E. enter I Hi E. destruct (iv_thread w I i Hi) as [T1 T2 T3 T4]. rewrite E in T4.
  destruct T4 as [Hv He]. unfold steal_check. fold k. rewrite He, Z.eqb_refl. cbn [negb].
  pose proof k_range. pose proof (so_order _ T1). rewrite chk_ok by lia. cbn [mbind res_bind].
  rewrite (so_size _ T1). destruct (Z.leb_spec size (top (stack_of w i) + k)).
  - left. split; [done|]. lia.
  - cbn [mbind res_bind]. rewrite (put_update w i) by done. apply quiet_step; try done; by rewrite ?E.
Qed.

(** What is in flight and on the victim's stack together. *)
Lemma reserve_eq (C S F C' S' R : stats) :
  C ⊕ (S ⊕ (munit ⊕ munit)) ⊕ (C' ⊕ (F ⊕ S' ⊕ R)) = C ⊕ (S ⊕ (munit ⊕ F)) ⊕ (C' ⊕ (S' ⊕ R)).
Proof.
  rewrite !madd_unit, !madd_unit_r, <- !madd_assoc. do 2 f_equal. apply madd_swap.
Qed.

Definition stolen victim : StealStack St :=
  set_workAvail (set_sharedStart victim (sharedStart victim + k)) (workAvail victim - k).

Lemma stolen_ok victim : stack_ok victim -> k <= workAvail victim ->
  stack_ok (stolen victim) /\ ~ empty victim /\
  on_stack victim = msum 0 k (fun x => to_come (node_at victim (sharedStart victim + x))) ⊕ on_stack (stolen victim).
Proof.
  intros [S1 S2 S3 S4 S5 S6 S7 S8 S10 S9] Hk. pose proof k_range. split; [|split].
  - split; try (cbn; done || lia).
    + cbn. by apply Z.divide_sub_r; [|apply Z.divide_refl].
    + intros x Hx. cbn in Hx. apply S6. lia.
  - unfold empty. lia.
  - unfold on_stack. rewrite (msum_app (sharedStart victim) (sharedStart victim + k)) by lia.
    f_equal. rewrite <- (Z.add_0_l (sharedStart victim)) at 1.
    rewrite (Z.add_comm _ k), msum_shift. apply msum_ext. intros x _. by rewrite Z.add_comm.
Qed.

(** The victim does not notice. *)
Lemma stolen_pc_ok so so' i victim pc : keeps so so' -> ~ empty victim ->
  pc_ok so i victim pc -> pc_ok so' i (stolen victim) pc.
Proof.
  intros Hk Hne Hpc. destruct pc; try exact Hpc; cbn in Hpc; tauto.
Qed.

Section Reserve.
Context (w : world St) (i v : Z).
Hypotheses (I : inv w) (Hi : 0 <= i < N) (E : pc_of w i = Reserve v)
  (Hk : k <= workAvail (stack_of w v)).

Let from := sharedStart (stack_of w v).
Let t := Thread (Copy v from 0) (child (thread_of w i)).
Let w' : world St :=
  World (<[Z.to_nat v := stolen (stack_of w v)]> (<[Z.to_nat i := stack_of w i]> (stealStack w)))
    (<[Z.to_nat i := t]> (threads w)) (cb_cancel w) (cb_count w) (cb_done w).

Lemma reserve_pc : is_victim i v /\ empty (stack_of w i) /\ top (stack_of w i) + k < size.
Proof. destruct (iv_thread w I i Hi) as [T1 T2 T3 T4]. by rewrite E in T4. Qed.

Lemma reserve_stack_of j : 0 <= j ->
  stack_of w' j = if j =? v then stolen (stack_of w v) else stack_of w j.
Proof.
  intros Hj. destruct reserve_pc as ([Hv Hne] & _ & _). unfold stack_of at 1, w'. cbn [stealStack].
  rewrite zth_insert by (rewrite ?zlen_insert, ?(iv_stacks w I); done).
  destruct (Z.eqb_spec j v); [done|].
  rewrite zth_insert by (rewrite ?(iv_stacks w I); done). by destruct (Z.eqb_spec j i) as [->|].
Qed.

Lemma reserve_thread_of j : 0 <= j -> thread_of w' j = if j =? i then t else thread_of w j.
Proof. apply (thread_of_update w i (stack_of w i) t (cb_cancel w) (cb_count w) (cb_done w) I Hi). Qed.

Lemma reserve_keeps : keeps (stack_of w) (stack_of w').
Proof.
  intros j Hj. rewrite reserve_stack_of by lia. pose proof k_range.
  destruct (Z.eqb_spec j v) as [->|]; [|split; [lia | done]]. split; [cbn; lia | done].
Qed.

Lemma reserve_thread_ok j : 0 <= j < N -> thread_ok w' j.
Proof.
  intros Hj. destruct reserve_pc as ([Hv Hne] & He & Hroom).
  pose proof (to_stack w v (iv_thread w I v Hv)) as Sv.
  destruct (stolen_ok _ Sv Hk) as (X1 & X2 & X3).
  destruct (iv_thread w I j Hj) as [T1 T2 T3 T4].
  split; unfold pc_of; rewrite ?reserve_stack_of, ?reserve_thread_of by lia;
    destruct (Z.eqb_spec j i) as [->|Hji].
  1, 2: by destruct (_ =? v).
  1, 2: done.
  1: by destruct (_ =? v).
  1: by destruct (Z.eqb_spec j v) as [->|].
  - replace (i =? v) with false by (symmetry; apply Z.eqb_neq; lia).
    pose proof k_range. pose proof (so_order _ Sv). pose proof (so_avail _ Sv).
    cbn [at_pc t pc_ok]. rewrite reserve_stack_of, Z.eqb_refl by lia. change (sharedStart (stolen (stack_of w v))) with (sharedStart (stack_of w v) + k).
    do 3 (split; [done|]). split; [unfold from; lia|]. split; [cbn; unfold from; lia|]. split; [lia|].
    split; [intros; lia|]. intros x Hx. apply (so_nodes _ Sv). unfold from. lia.
  - destruct (Z.eqb_spec j v) as [->|].
    + by apply (stolen_pc_ok (stack_of w)); [apply reserve_keeps | |].
    + by apply (pc_ok_keeps (stack_of w)); [apply reserve_keeps |].
Qed.

Lemma in_flight_copy : in_flight (stack_of w') (at_pc t) =
  msum 0 k (fun x => to_come (node_at (stack_of w v) (sharedStart (stack_of w v) + x))).
Proof.
  destruct reserve_pc as ([Hv _] & _). cbn [at_pc t in_flight].
  by rewrite reserve_stack_of, Z.eqb_refl by lia.
Qed.

Lemma reserve_inv : inv w'.
Proof.
  destruct reserve_pc as ([Hv Hne] & He & Hroom).
  pose proof (to_stack w v (iv_thread w I v Hv)) as Sv.
  destruct (stolen_ok _ Sv Hk) as (X1 & X2 & X3).
  assert (Ei : stack_of w' i = stack_of w i).
  { rewrite reserve_stack_of by lia. by replace (i =? v) with false by (symmetry; apply Z.eqb_neq; lia). }
  assert (Ev : stack_of w' v = stolen (stack_of w v)) by (rewrite reserve_stack_of, Z.eqb_refl by lia; done).
  assert (Ti : thread_of w' i = t) by (rewrite reserve_thread_of, Z.eqb_refl by lia; done).
  assert (Tv : thread_of w' v = thread_of w v).
  { rewrite reserve_thread_of by lia. by replace (v =? i) with false by (symmetry; apply Z.eqb_neq; lia). }
  assert (So : forall j, 0 <= j < N -> j <> i -> j <> v -> stack_of w j = stack_of w' j /\ thread_of w j = thread_of w' j).
  { intros j Hj Hji Hjv. rewrite reserve_stack_of, reserve_thread_of by lia.
    by rewrite (proj2 (Z.eqb_neq j v)), (proj2 (Z.eqb_neq j i)). }
  split.
  - cbn. rewrite !zlen_insert. apply (iv_stacks w I).
  - cbn. rewrite zlen_insert. apply (iv_threads w I).
  - apply reserve_thread_ok.
  - rewrite <- (iv_total w I). symmetry. apply (msum_exchange 0 N i v); try done.
    + intros j Hj Hji Hjv. destruct (So j Hj Hji Hjv) as [<- <-]. unfold share. do 3 f_equal.
      symmetry. exact (in_flight_keeps _ _ j _ _ reserve_keeps (to_pc w j (iv_thread w I j Hj))).
    + rewrite Ei, Ev, Ti, Tv. unfold share at 1 2 4. change (at_pc (thread_of w i)) with (pc_of w i). rewrite E.
      cbn [generating gen_to_come in_flight at_pc t child].
      unfold share. change (at_pc (thread_of w v)) with (pc_of w v).
      rewrite (in_flight_keeps _ _ v _ _ reserve_keeps (to_pc w v (iv_thread w I v Hv))).
      rewrite X3, (in_flight_copy : in_flight (stack_of w') (at_pc t) = _). apply reserve_eq.
  - etransitivity; [|exact (iv_balance w I)]. symmetry. apply (msum_exchange 0 N i v); try done.
    + intros j Hj Hji Hjv. destruct (So j Hj Hji Hjv) as [<- Et]. unfold pc_of. by rewrite <- Et.
    + unfold pc_of. rewrite Ei, Ev, Ti, Tv. change (at_pc (thread_of w i)) with (pc_of w i). rewrite E.
      unfold balance. cbn. lia.
  - destruct (barrier_same w i (stack_of w i) t (cb_cancel w)) as [B1 B2 B3 B4 B5]; try done; by rewrite ?E.
Qed.
End Reserve.

Lemma reserve_step_ok w i v : inv w -> 0 <= i < N -> pc_of w i = Reserve v ->
  good w i (thread_step c i w).
Proof.
  intros I Hi E. destruct (reserve_pc w i v I Hi E) as ([Hv Hne] & He & Hroom).
  enter I Hi E. destruct (thread_step_pc w v I Hv) as [-> _]. cbn [mbind res_bind].
  pose proof (to_stack w v (iv_thread w I v Hv)) as Sv. unfold steal_reserve. fold k.
  rewrite (so_avail _ Sv), Z.eqb_refl. cbn [negb].
  destruct (Z.leb_spec k (local (stack_of w v) - sharedStart (stack_of w v))) as [Hk|Hk];
    cbn [mbind res_bind].
  - rewrite (put_update w i) by done. cbn [mbind res_bind].
    unfold update. cbn [stealStack threads cb_cancel cb_count cb_done].
    rewrite aset_ok by (rewrite zlen_insert, (iv_stacks w I); done). cbn [mbind res_bind].
    rewrite <- (so_avail _ Sv) in *. exact (reserve_inv w i v I Hi E Hk).
  - destruct (iv_thread w I i Hi) as [T1 T2 T3 T4]. unfold steal_fail.
    pose proof (so_tries _ T1) as (Hf & _ & _).
    destruct (incr_limit (nFail (stack_of w i)) Hf) as [[-> Hlim]|[-> Hlim]].
    + cbn [mbind res_bind]. rewrite (put_update w i) by done. apply quiet_step; try done; rewrite ?E; try done.
      destruct T1; split; try done. cbn. lia.
    + right. split; [done|]. by left.
Qed.

Lemma copy_step_ok w i v from j : inv w -> 0 <= i < N -> pc_of w i = Copy v from j ->
  good w i (thread_step c i w).
Proof.
  intros I Hi E. enter I Hi E. destruct (iv_thread w I i Hi) as [T1 T2 T3 T4]. rewrite E in T4.
  pose proof (move_bound w i I Hi) as Hmove. rewrite E in Hmove. cbn in Hmove.
  destruct T4 as ([Hv Hne] & He & Hroom & Hf & Hfk & Hj & Hcopied & Hnodes).
  pose proof (to_stack w v (iv_thread w I v Hv)) as Sv. pose proof (so_order _ Sv) as Ov.
  set (ss := stack_of w i) in *. set (t := thread_of w i) in *. pose proof (so_order _ T1) as Ho.
  assert (Et : share (stack_of w) ss t = counted ss ⊕ in_flight (stack_of w) (Copy v from j)).
  { unfold share. change (at_pc t) with (pc_of w i). rewrite E. cbn [generating gen_to_come].
    unfold on_stack. rewrite msum_empty by (rewrite He; lia). by rewrite !madd_unit. }
  fold k. destruct (Z.ltb_spec j k) as [Hlt|Hge].
  - destruct (thread_step_pc w v I Hv) as [-> _]. cbn [mbind res_bind].
    unfold steal_copy. rewrite (node_get (stack_of w v)) by (done || lia). cbn [mbind res_bind].
    rewrite aset_ok by (rewrite (so_len _ T1); lia). cbn [mbind res_bind].
    rewrite (put_update w i) by done. set (ss' := set_stack ss _).
    assert (Hat : forall x, 0 <= x -> node_at ss' x =
      if x =? top ss + j then node_at (stack_of w v) (from + j) else node_at ss x).
    { intros x Hx. apply node_at_insert; [done | rewrite (so_len _ T1); lia | done]. }
    assert (Hn : forall x, 0 <= x -> x <> top ss + j -> node_at ss' x = node_at ss x).
    { intros x Hx Hne'. rewrite Hat by done. by rewrite (proj2 (Z.eqb_neq _ _)). }
    apply own_step; try done.
    + intros x Hx. apply Hn; cbn in Hx; lia.
    + destruct T1; split; try done; [cbn; by rewrite zlen_insert|].
      intros x Hx. cbn in Hx. unfold empty in He. lia.
    + cbn [at_pc pc_ok]. do 5 (split; [done|]). split; [lia|]. split; [|done].
      intros x Hx. change (top ss') with (top ss). rewrite Hat by lia.
      destruct (Z.eqb_spec (top ss + x) (top ss + j)); [f_equal; lia|]. apply Hcopied. lia.
    + fold ss t. rewrite Et. unfold share. cbn [at_pc generating gen_to_come in_flight].
      unfold on_stack. rewrite msum_empty by (cbn; unfold empty in He; lia). by rewrite !madd_unit.
    + rewrite E. done.
    + apply barrier_same; try done; by rewrite ?E.
  - assert (j = k) as -> by lia. unfold steal_finish. pose proof k_range.
    destruct (T1) as [S1 S2 S3 S4 S5 S6 S7 S8 S10 S9]. unfold empty in He.
    rewrite incr_ok by nia. cbn [mbind res_bind]. rewrite (put_update w i) by done.
    apply own_step; try done.
    + split; try (cbn; done || lia). intros x Hx. cbn in Hx.
      change (node_ok (node_at ss x)). replace x with (top ss + (x - top ss)) by lia.
      rewrite Hcopied by lia. apply Hnodes. lia.
    + fold ss t. rewrite Et. unfold share. cbn [at_pc generating gen_to_come in_flight].
      rewrite !madd_unit_r. f_equal. unfold on_stack. cbn [top sharedStart set_top set_nSteal].
      rewrite He. rewrite <- (Z.add_0_l (top ss)) at 1. rewrite (Z.add_comm (top ss) k), msum_shift.
      apply msum_ext. intros x Hx. rewrite (Z.add_comm x). by rewrite <- Hcopied by lia.
    + rewrite E. unfold balance. cbn. fold ss. lia.
    + apply barrier_same; try done; by rewrite ?E.
Qed.
(** *** The barrier *)

Lemma barrier_change w i ss t ca co d : inv w -> 0 <= i < N ->
  co = cb_count w - Z.b2z (waiting (pc_of w i)) + Z.b2z (waiting (at_pc t)) ->
  (d = 0 \/ d = 1) ->
  (d = 1 -> (waiting (at_pc t) || left_barrier (at_pc t)) = true /\
     forall j, 0 <= j < N -> j <> i -> waiting (pc_of w j) || left_barrier (pc_of w j)) ->
  (d = 0 -> co < N /\ at_pc t <> Done /\ cb_done w = 0) ->
  barrier_ok (update w i ss t ca co d).
Proof.
  intros I Hi Hco Hd Hall Hopen. destruct (iv_barrier w I) as [B1 B2 B3 B4 B5].
  assert (Hpc : forall j, 0 <= j -> pc_of (update w i ss t ca co d) j = if j =? i then at_pc t else pc_of w j).
  { intros. by apply pc_of_update. }
  split; cbn [cb_count cb_done update]; try done.
  - etransitivity; [exact Hco|]. rewrite B1. pose proof (msum_change 0 N i (fun j => Z.b2z (waiting (pc_of w j)))
      (fun j => Z.b2z (waiting (pc_of (update w i ss t ca co d) j))) Hi) as Hc.
    cbv beta in Hc. rewrite (Hpc i), Z.eqb_refl in Hc by lia. simpl madd in Hc.
    enough (forall j, 0 <= j < N -> j <> i ->
      Z.b2z (waiting (pc_of w j)) = Z.b2z (waiting (pc_of (update w i ss t ca co d) j))) as Hs
      by (specialize (Hc Hs); lia).
    intros j Hj Hne. rewrite Hpc by lia. by rewrite (proj2 (Z.eqb_neq j i)).
  - intros E j Hj. destruct (Hall E) as [Ht Ho]. rewrite Hpc by lia.
    destruct (Z.eqb_spec j i) as [->|]; [by rewrite Ht | by apply Ho].
  - intros E. by apply Hopen.
  - intros E j Hj. destruct (Hopen E) as (_ & Ht & E0). rewrite Hpc by lia.
    destruct (Z.eqb_spec j i) as [->|]; [done | by apply B5].
Qed.

Definition idle (pc : pc) : bool :=
  match pc with
  | Work | Acquire | Find _ | Enter | Spin | SpinDone _ | Exit | Return | Done => true
  | _ => false
  end.

Lemma idle_plain pc so ss : idle pc = true ->
  generating pc = None /\ in_flight so pc = munit /\ balance ss pc = balance ss Work.
Proof. intros Hp. by destruct pc. Qed.

Lemma idle_step w i ss pc ca co d : inv w -> 0 <= i < N ->
  idle (pc_of w i) = true -> idle pc = true ->
  stack_ok ss -> sharedStart ss = sharedStart (stack_of w i) -> top ss = top (stack_of w i) ->
  stack ss = stack (stack_of w i) -> counted ss = counted (stack_of w i) ->
  balance ss Work = balance (stack_of w i) Work -> pc_ok (stack_of w) i ss pc ->
  barrier_ok (update w i ss (Thread pc (child (thread_of w i))) ca co d) ->
  inv (update w i ss (Thread pc (child (thread_of w i))) ca co d).
Proof.
  intros I Hi Hb Hb' Hok Es Etop Est Ec Hbal Hpc Hbar.
  destruct (iv_thread w I i Hi) as [T1 T2 T3 T4].
  assert (Hat : forall x, node_at ss x = node_at (stack_of w i) x).
  { intros x. unfold node_at. by rewrite Est. }
  destruct (idle_plain pc (stack_of w) ss Hb') as (G1 & F1 & A1).
  destruct (idle_plain (pc_of w i) (stack_of w) (stack_of w i) Hb) as (G2 & F2 & A2).
  apply own_step; try done; cbn [at_pc child].
  - by rewrite G1.
  - unfold share. cbn [at_pc child]. change (at_pc (thread_of w i)) with (pc_of w i).
    rewrite G1, G2, F1, F2, Ec. do 2 f_equal. apply on_stack_ext; [done | done |].
    intros. by rewrite Hat.
  - by rewrite A1, A2.
Qed.

(** Everybody waits when the count is the number of threads. *)
Lemma count_all w : msum 0 N (fun i => Z.b2z (waiting (pc_of w i))) = N ->
  forall i, 0 <= i < N -> waiting (pc_of w i) = true.
Proof.
  intros Hs i Hi. destruct (waiting (pc_of w i)) eqn:E; [done|].
  rewrite (msum_split 0 N i), E in Hs by done. cbn in Hs.
  assert (Hle : forall lo hi, lo <= hi -> msum lo hi (fun i => Z.b2z (waiting (pc_of w i))) <= hi - lo).
  { intros lo hi Hl. etransitivity; [apply (msum_Z_le _ _ _ (fun _ => 1))|].
    - intros j _. by destruct (waiting (pc_of w j)).
    - by rewrite msum_Z_ones. }
  pose proof (Hle 0 i ltac:(lia)). pose proof (Hle (i + 1) N ltac:(lia)). lia.
Qed.

Lemma count_others w i : inv w -> 0 <= i < N -> forall j, 0 <= j < N -> j <> i ->
  waiting (pc_of w i) = false -> cb_count w = N - 1 -> waiting (pc_of w j) = true.
Proof.
  intros I Hi j Hj Hne Ew Hc. destruct (iv_barrier w I) as [B1 _ _ _ _].
  set (w' := update w i (stack_of w i) (Thread Spin dn) 0 0 0).
  assert (Hpc : forall j, 0 <= j -> pc_of w' j = if j =? i then Spin else pc_of w j).
  { intros. by apply pc_of_update. }
  assert (Hs : msum 0 N (fun i => Z.b2z (waiting (pc_of w' i))) = N).
  { pose proof (msum_change 0 N i (fun j => Z.b2z (waiting (pc_of w j)))
      (fun j => Z.b2z (waiting (pc_of w' j))) Hi) as Hm.
    cbv beta in Hm. rewrite (Hpc i), Z.eqb_refl, Ew in Hm by lia. simpl madd in Hm.
    cbn [waiting Z.b2z] in Hm.
    enough (forall j, 0 <= j < N -> j <> i -> Z.b2z (waiting (pc_of w j)) = Z.b2z (waiting (pc_of w' j))) as Hx
      by (specialize (Hm Hx); lia).
    intros x Hx Hxi. rewrite Hpc by lia. by rewrite (proj2 (Z.eqb_neq x i)). }
  pose proof (count_all w' Hs j Hj) as Hw. rewrite Hpc in Hw by lia.
  by rewrite (proj2 (Z.eqb_neq j i)) in Hw.
Qed.

(** A thread outside of the barrier: the search is not over. *)
Lemma not_done w i : inv w -> 0 <= i < N -> waiting (pc_of w i) = false ->
  left_barrier (pc_of w i) = false -> cb_done w = 0.
Proof.
  intros I Hi Ew El. destruct (iv_barrier w I) as [B1 B2 B3 B4 B5].
  destruct B2 as [|B2]; [done|]. specialize (B3 B2 i Hi). by rewrite Ew, El in B3.
Qed.

Lemma enter_step_ok w i : inv w -> 0 <= i < N -> pc_of w i = Enter ->
  good w i (thread_step c i w).
Proof.
  intros I Hi E. enter I Hi E. destruct (iv_thread w I i Hi) as [T1 T2 T3 T4]. rewrite E in T4.
  assert (D0 : cb_done w = 0) by (apply (not_done w i); by rewrite ?E).
  destruct (iv_barrier w I) as [B1 B2 B3 B4 B5]. fold N.
  pose proof (so_tries _ T1) as (_ & _ & Hf). pose proof (so_counts _ T1).
  assert (Hrun : forall f, 0 <= f < 2 ^ 31 -> inv (update w i
      (set_nNodes_last (set_falseWakeups (stack_of w i) f) (nNodes (stack_of w i)))
      (Thread Spin (child (thread_of w i))) (cb_cancel w) (cb_count w + 1)
      (if cb_count w + 1 =? N then 1 else cb_done w))).
  { intros f Hf'. apply idle_step; try done; rewrite ?E; try done.
    - destruct T1; split; try done. cbn. lia.
    - apply barrier_change; try done; rewrite ?E; cbn [waiting left_barrier at_pc Z.b2z].
      + lia.
      + destruct (_ =? _); [by right | by left].
      + destruct (Z.eqb_spec (cb_count w + 1) N) as [En|]; [|intros; lia]. intros _. split; [done|].
        intros j Hj Hne. by rewrite (count_others w i I Hi j Hj Hne) by (rewrite ?E; done || lia).
      + destruct (Z.eqb_spec (cb_count w + 1) N) as [En|]; [done|]. intros _.
        pose proof (B4 D0). repeat split; done || lia. }
  destruct (nNodes_last (stack_of w i) =? nNodes (stack_of w i)).
  - destruct (incr_limit (falseWakeups (stack_of w i)) Hf) as [[-> Hlim]|[-> Hlim]]; cbn [mbind res_bind].
    + rewrite (put_update w i) by done. apply Hrun. lia.
    + right. split; [done|]. by right; right.
  - cbn [mbind res_bind]. rewrite (put_update w i) by done. by apply Hrun.
Qed.

Lemma spin_step_ok w i : inv w -> 0 <= i < N -> pc_of w i = Spin ->
  good w i (thread_step c i w).
Proof.
  intros I Hi E. enter I Hi E. destruct (iv_thread w I i Hi) as [T1 T2 T3 T4]. rewrite E in T4.
  rewrite (put_update w i) by done. apply idle_step; try done; rewrite ?E; try done.
  apply barrier_same; try done; by rewrite ?E.
Qed.

Lemma spin_done_step_ok w i l : inv w -> 0 <= i < N -> pc_of w i = SpinDone l ->
  good w i (thread_step c i w).
Proof.
  intros I Hi E. enter I Hi E. destruct (iv_thread w I i Hi) as [T1 T2 T3 T4]. rewrite E in T4.
  rewrite (put_update w i) by done.
  apply idle_step; try done; rewrite ?E; try done; try by destruct (_ && _).
  apply barrier_same; try done; rewrite ?E; by destruct (_ && _).
Qed.

Lemma exit_step_ok w i : inv w -> 0 <= i < N -> pc_of w i = Exit ->
  good w i (thread_step c i w).
Proof.
  intros I Hi E. enter I Hi E. destruct (iv_thread w I i Hi) as [T1 T2 T3 T4]. rewrite E in T4.
  destruct (iv_barrier w I) as [B1 B2 B3 B4 B5]. pose proof (so_tries _ T1) as (_ & Hf & _).
  destruct (incr_limit (wakeups (stack_of w i)) Hf) as [[-> Hlim]|[-> Hlim]]; cbn [mbind res_bind].
  2: { right. split; [done|]. by right; left. }
  rewrite (put_update w i) by done. cbn [mbind res_bind]. unfold good.
  change (set_cb _ _ _ _) with (update w i (set_wakeups (stack_of w i) (wakeups (stack_of w i) + 1))
    (Thread Return (child (thread_of w i))) 0 (cb_count w - 1) (cb_done w)).
  apply idle_step; try done; rewrite ?E; try done.
  - destruct T1; split; try done. cbn. lia.
  - apply barrier_change; try done; rewrite ?E; cbn [waiting left_barrier at_pc Z.b2z].
    + lia.
    + intros D1. split; [done|]. intros j Hj _. by apply B3.
    + intros D0. pose proof (B4 D0). repeat split; done || lia.
Qed.

Lemma return_step_ok w i : inv w -> 0 <= i < N -> pc_of w i = Return ->
  good w i (thread_step c i w).
Proof.
  intros I Hi E. enter I Hi E. destruct (iv_thread w I i Hi) as [T1 T2 T3 T4]. rewrite E in T4.
  destruct (iv_barrier w I) as [B1 B2 B3 B4 B5]. rewrite (put_update w i) by done.
  apply idle_step; try done; rewrite ?E; try done; try by destruct (_ =? _).
  apply barrier_change; try done; rewrite ?E; cbn [waiting left_barrier at_pc Z.b2z].
  - destruct (_ =? _); cbn; lia.
  - intros D1. rewrite D1. split; [done|]. intros j Hj _. by apply B3.
  - intros D0. rewrite D0. pose proof (B4 D0). repeat split; done.
Qed.

(** Every step of a thread keeps the invariant or meets a limit. *)
Lemma thread_step_good w i : inv w -> 0 <= i < N -> good w i (thread_step c i w).
Proof.
  intros I Hi. destruct (pc_of w i) eqn:E.
  - by apply work_step.
  - by eapply gen_turn_step.
  - by eapply release_step_ok.
  - by eapply cancel_step_ok.
  - by apply acquire_step_ok.
  - by eapply find_step_ok.
  - by eapply steal_step_ok.
  - by eapply reserve_step_ok.
  - by eapply copy_step_ok.
  - by apply enter_step_ok.
  - by apply spin_step_ok.
  - by eapply spin_done_step_ok.
  - by apply exit_step_ok.
  - by apply return_step_ok.
  - by enter I Hi E.
Qed.

Lemma step_inv w w' : inv w -> step c w w' -> inv w'.
Proof.
  intros I (i & Hi & E). pose proof (thread_step_good w i I Hi) as G. by rewrite E in G.
Qed.

Lemma steps_inv w w' : inv w -> rtc (step c) w w' -> inv w'.
Proof. intros I Hs. revert I. induction Hs; [done|]. intros I. by eauto using step_inv. Qed.

(** ** The end of the search *)

(** When the barrier has opened for good, no work is left anywhere. *)
Lemma done_empty w i : inv w -> cb_done w = 1 -> 0 <= i < N ->
  empty (stack_of w i) /\ generating (pc_of w i) = None /\ idle (pc_of w i) = true /\
  workAvail (stack_of w i) = 0.
Proof.
  intros I D Hi. destruct (iv_thread w I i Hi) as [T1 T2 T3 T4].
  pose proof (bo_all w (iv_barrier w I) D i Hi) as Hp.
  assert (He : empty (stack_of w i)) by (revert Hp T4; by destruct (pc_of w i)).
  split; [done|]. split; [revert Hp; by destruct (pc_of w i)|].
  split; [revert Hp; by destruct (pc_of w i)|].
  pose proof (so_order _ T1). pose proof (so_avail _ T1). unfold empty in He. lia.
Qed.

Lemma done_total w : inv w -> cb_done w = 1 -> msum 0 N (fun i => counted (stack_of w i)) = total.
Proof.
  intros I D. rewrite <- (iv_total w I). apply msum_ext. intros i Hi.
  destruct (done_empty w i I D Hi) as (He & Hg & Hp & _). unfold share.
  change (at_pc (thread_of w i)) with (pc_of w i). rewrite Hg.
  destruct (idle_plain (pc_of w i) (stack_of w) (stack_of w i) Hp) as (_ & -> & _).
  unfold on_stack. rewrite He, msum_empty by lia. cbn [gen_to_come]. by rewrite !madd_unit_r.
Qed.

Lemma done_balance w : inv w -> cb_done w = 1 ->
  msum 0 N (fun i => nRelease (stack_of w i)) =
  msum 0 N (fun i => nAcquire (stack_of w i)) + msum 0 N (fun i => nSteal (stack_of w i)).
Proof.
  intros I D. pose proof (iv_balance w I) as Hb. pose proof k_range.
  rewrite (msum_ext _ _ _ (fun i => k * (nRelease (stack_of w i) +
    - (nAcquire (stack_of w i) + nSteal (stack_of w i))))) in Hb.
  - rewrite msum_Z_scale, msum_Z_add, msum_Z_opp, msum_Z_add in Hb. nia.
  - intros i Hi. destruct (done_empty w i I D Hi) as (He & Hg & Hp & Ha).
    destruct (idle_plain (pc_of w i) (stack_of w) (stack_of w i) Hp) as (_ & _ & ->).
    unfold balance. rewrite Ha. cbn [copying]. lia.
Qed.

(** The sums of [showStats]. *)
Definition sum_of w (f : StealStack St -> Z) (n : Z) : Z := msum 0 n (fun i => f (stack_of w i)).
Definition counted_sum w (n : Z) : stats := msum 0 n (fun i => counted (stack_of w i)).

Record partial_totals w (i : Z) (t : totals) : Prop := {
  pt_nodes : tnodes t = Z.of_N (nodes (counted_sum w i));
  pt_leaves : tleaves t = Z.of_N (leaves (counted_sum w i));
  pt_height : mheight t = Z.of_N (depth (counted_sum w i));
  pt_rel : trel t = sum_of w nRelease i;
  pt_acq : tacq t = sum_of w nAcquire i;
  pt_steal : tsteal t = sum_of w nSteal i;
  pt_fail : tfail t = sum_of w nFail i
}.

Lemma sum_bound w f i b : inv w -> (forall j, 0 <= j < N -> 0 <= f (stack_of w j)) ->
  sum_of w f N <= b -> 0 <= i < N -> 0 <= sum_of w f i /\ sum_of w f i + f (stack_of w i) <= b.
Proof.
  intros I Hf Hb Hi. unfold sum_of in *. split.
  - apply msum_Z_nonneg. intros j Hj. apply Hf. lia.
  - pose proof (msum_Z_prefix 0 (i + 1) N (fun j => f (stack_of w j)) ltac:(lia) ltac:(intros; apply Hf; lia)) as Hp.
    rewrite msum_right in Hp by lia. simpl madd in Hp. lia.
Qed.

Lemma add_stats_ok w i t : inv w -> cb_done w = 1 -> sum_of w nFail N < 2 ^ 31 -> 0 <= i < N ->
  partial_totals w i t ->
  exists t', add_stats (stack_of w i) t = Ok t' /\ partial_totals w (i + 1) t'.
Proof.
  intros I D Hfail Hi [P1 P2 P3 P4 P5 P6 P7].
  destruct (co_total CO) as (CT1 & CT2 & CT3). pose proof k_range.
  assert (Hst : forall j, 0 <= j < N -> stack_ok (stack_of w j)) by (intros; by apply iv_thread).
  destruct (Hst i Hi) as [S1 S2 S3 S4 S5 S6 S7 S8 S10 S9].
  assert (Hc : counted_sum w (i + 1) = counted_sum w i ⊕ counted (stack_of w i))
    by (unfold counted_sum; by rewrite msum_right by lia).
  assert (Hle : stats_le (counted_sum w (i + 1)) total).
  { rewrite <- (done_total w I D). unfold counted_sum.
    rewrite (msum_app 0 (i + 1) N) by lia. apply stats_le_add. }
  assert (Hr : sum_of w nRelease N <= Z.of_N (nodes total)).
  { rewrite <- (done_total w I D), nodes_msum. apply msum_Z_le. intros j Hj.
    destruct (Hst j Hj) as [_ _ _ _ _ _ ? ? _ ?]. cbn. nia. }
  assert (Ha : sum_of w nRelease N = sum_of w nAcquire N + sum_of w nSteal N) by (apply done_balance; done).
  assert (Hpos : forall f, (f = nRelease \/ f = nAcquire \/ f = nSteal \/ f = nFail) ->
    forall j, 0 <= j < N -> 0 <= f (stack_of w j)).
  { intros f Hf j Hj. destruct (Hst j Hj) as [_ _ _ _ _ _ _ ? ? _].
    destruct Hf as [->|[->|[->| ->]]]; lia. }
  assert (Ha' : 0 <= sum_of w nAcquire N /\ 0 <= sum_of w nSteal N).
  { split; apply msum_Z_nonneg; intros; apply Hpos; auto. }
  destruct (sum_bound w nRelease i (2 ^ 31 - 1) I ltac:(apply Hpos; auto) ltac:(lia) Hi).
  destruct (sum_bound w nAcquire i (2 ^ 31 - 1) I ltac:(apply Hpos; auto) ltac:(lia) Hi).
  destruct (sum_bound w nSteal i (2 ^ 31 - 1) I ltac:(apply Hpos; auto) ltac:(lia) Hi).
  destruct (sum_bound w nFail i (2 ^ 31 - 1) I ltac:(apply Hpos; auto 6) ltac:(lia) Hi).
  rewrite Hc in Hle. destruct Hle as (Hn & Hl & _). cbn in Hn, Hl.
  pose proof (Hpos nRelease ltac:(auto) i Hi). pose proof (Hpos nAcquire ltac:(auto) i Hi).
  pose proof (Hpos nSteal ltac:(auto) i Hi). pose proof (Hpos nFail ltac:(auto 6) i Hi).
  unfold add_stats. rewrite P1, P2, P3, P4, P5, P6, P7.
  do 6 (rewrite chk_ok by lia; cbn [mbind res_bind]).
  eexists. split; [done|].
  split; cbn [tnodes tleaves mheight trel tacq tsteal tfail]; rewrite ?Hc; try (cbn; lia);
    unfold sum_of; by rewrite msum_right by lia.
Qed.

Lemma combine_stats_ok w : inv w -> cb_done w = 1 -> sum_of w nFail N < 2 ^ 31 ->
  exists t, combine_stats c w = Ok t /\ tnodes t = Z.of_N (nodes total) /\
    tleaves t = Z.of_N (leaves total) /\ mheight t = Z.of_N (depth total) /\ release_error t = false.
Proof.
  intros I D Hfail. unfold combine_stats. fold N.
  destruct (for_range_inv (partial_totals w) (fun i t => ss ← (stealStack w).[i]; add_stats ss t)
    0 N (Totals 0 0 0 0 0 0 0 0)) as (t & -> & [P1 P2 P3 P4 P5 P6 P7]).
  - pose proof (co_threads CO). lia.
  - split; cbn; unfold sum_of, counted_sum; rewrite ?msum_empty by lia; done.
  - intros i t Hi Ht. destruct (thread_step_pc w i I Hi) as [-> _]. cbn [mbind res_bind].
    by apply add_stats_ok.
  - exists t. split; [done|]. unfold counted_sum in *. rewrite (done_total w I D) in *.
    do 3 (split; [done|]). unfold release_error.
    pose proof (done_balance w I D). unfold sum_of in *.
    by rewrite P4, P5, P6, (proj2 (Z.eqb_eq _ _)).
Qed.

(** ** The start *)

Section Init.
Context (ALLOC : Z -> option (list (node St))) (sizeof_Node : Z) (garbage : St) (root : node St).
Hypotheses (Hsizeof : 0 < sizeof_Node) (Hbytes : size * sizeof_Node < 2 ^ 31)
  (Halloc : forall n, 0 <= n -> exists l, ALLOC n = Some l /\ zlen l = n / sizeof_Node)
  (Hroot : numChildren root = -1 /\ 0 <= height root)
  (Hstats : tree_stats fuel root = Ok total).

Lemma root_fresh : fresh root /\ visit root ⊕ weight fuel root = total.
Proof.
  destruct (tree_stats_grows _ _ _ Hstats) as [Hg ->]. split; [|done].
  split; [tauto|]. split; [done|]. tauto.
Qed.

Lemma ss_init_ok : exists s0, ss_init ALLOC sizeof_Node size = Ok s0 /\ stack_ok s0 /\
  sharedStart s0 = 0 /\ local s0 = 0 /\ top s0 = 0 /\ workAvail s0 = 0 /\ nNodes s0 = 0 /\
  counted s0 = munit /\ balance s0 Work = 0.
Proof.
  pose proof k_range. unfold ss_init. rewrite chk_ok by nia. cbn [mbind res_bind].
  destruct (Halloc (size * sizeof_Node)) as (l & -> & Hl); [nia|].
  rewrite Z.div_mul in Hl by lia. eexists. split; [done|].
  split; [split; cbn; try done; try lia|].
  - apply Z.divide_0_r.
  - repeat split; try done. unfold balance. cbn. lia.
Qed.

Lemma pthread_init_ok : exists w, pthread_init c ALLOC sizeof_Node size garbage root = Ok w /\ inv w.
Proof.
  destruct ss_init_ok as (s0 & E0 & S0 & Es & El & Et & Ea & En & Ec & Eb).
  destruct root_fresh as [Hf Htot]. pose proof k_range. pose proof (co_threads CO).
  unfold pthread_init. fold N.
  destruct (for_range_inv (fun i sss => sss = replicate (Z.to_nat i) s0)
    (fun _ sss => ss ← ss_init ALLOC sizeof_Node size; Ok (sss ++ [ss])) 0 N [])
    as (sss & -> & ->); [lia | done | |].
  { intros i sss Hi ->. rewrite E0. cbn [mbind res_bind]. eexists. split; [done|].
    replace (Z.to_nat (i + 1)) with (S (Z.to_nat i)) by lia. symmetry. apply replicate_S_end. }
  cbn [mbind res_bind]. rewrite (aget_ok s0) by (rewrite length_replicate; lia).
  rewrite zth_replicate by lia. cbn [mbind res_bind].
  destruct (push_ok s0 root S0 (or_intror Hf) (proj2 (proj2 Hf)) ltac:(lia) ltac:(lia))
    as (s1 & -> & P1 & P2 & P3 & P4 & P5 & P6 & P7 & P8).
  cbn [mbind res_bind]. rewrite aset_ok by (rewrite length_replicate; lia). cbn [mbind res_bind].
  eexists. split; [done|]. set (w := World _ _ _ _ _).
  assert (Hst : forall i, 0 <= i < N -> stack_of w i = if i =? 0 then s1 else s0).
  { intros i Hi. unfold stack_of, w. cbn [stealStack].
    rewrite zth_insert by (rewrite ?length_replicate; lia).
    destruct (i =? 0); [done|]. apply zth_replicate. lia. }
  assert (Hth : forall i, 0 <= i < N -> thread_of w i = Thread Work (initNode garbage)).
  { intros i Hi. apply zth_replicate. lia. }
  assert (Hpc : forall i, 0 <= i < N -> pc_of w i = Work).
  { intros i Hi. unfold pc_of. by rewrite Hth. }
  split.
  - cbn. rewrite length_insert, length_replicate. lia.
  - cbn. rewrite length_replicate. lia.
  - intros i Hi. split; rewrite ?Hst, ?Hpc, ?Hth by done; try done. by destruct (i =? 0).
  - rewrite (msum_split 0 N 0), (msum_empty 0 0), (msum_unit 1 N) by (try lia; intros i Hi;
      rewrite Hst, Hth by lia; rewrite (proj2 (Z.eqb_neq i 0)) by lia;
      unfold share; cbn [at_pc generating gen_to_come in_flight];
      rewrite Ec; unfold on_stack; rewrite msum_empty by lia; by rewrite !madd_unit).
    rewrite Hst, Hth by lia. cbn [Z.eqb]. unfold share. cbn [at_pc generating gen_to_come in_flight].
    rewrite P6, P7, Ec, !madd_unit, !madd_unit_r, (fresh_to_come root Hf).
    unfold on_stack. rewrite msum_empty by lia. by rewrite madd_unit.
  - etransitivity; [apply msum_unit | done]. intros i Hi. rewrite Hst, Hpc by lia.
    destruct (i =? 0); [by rewrite P8 | done].
  - split; cbn [cb_count cb_done w]; try (by left); try done; try lia.
    + symmetry. etransitivity; [apply msum_unit | done]. intros i Hi. by rewrite Hpc by lia.
    + intros _ i Hi. by rewrite Hpc.
Qed.
End Init.
End Search.

(** ** Theorems *)

(** How the program is set up: the parameters are in range, [ALLOC] returns
    memory of the size asked for, and the tree of the root is finite, with
    size, leaves and height in [total]. *)
Record setup `{SearchTree St} (c : config) (fuel : nat) (size sizeof_Node : Z)
    (ALLOC : Z -> option (list (node St))) (root : node St) (total : stats) : Prop := {
  su_config : config_ok c size total;
  su_sizeof : 0 < sizeof_Node /\ size * sizeof_Node < 2 ^ 31;
  su_alloc n : 0 <= n -> exists l, ALLOC n = Some l /\ zlen l = n / sizeof_Node;
  su_root : numChildren root = -1 /\ 0 <= height root;
  su_tree : tree_stats fuel root = Ok total
}.

(** The states that the threads can reach from the start of the program. *)
Definition reachable `{SearchTree St} (c : config) (size sizeof_Node : Z)
    (ALLOC : Z -> option (list (node St))) (garbage : St) (root : node St) (w : world St) : Prop :=
  exists w0, pthread_init c ALLOC sizeof_Node size garbage root = Ok w0 /\ rtc (step c) w0 w.

Section Theorems.
Context `{SearchTree St} (c : config) (fuel : nat) (size sizeof_Node : Z)
  (ALLOC : Z -> option (list (node St))) (garbage : St) (root : node St) (total : stats).
Implicit Types (w : world St) (ss victim : StealStack St) (t : thread St).
Hypothesis SU : setup c fuel size sizeof_Node ALLOC root total.

Lemma reachable_inv w : reachable c size sizeof_Node ALLOC garbage root w ->
  inv c fuel size total root w.
Proof.
  destruct SU as [CO [Hs Hb] Ha Hr Ht]. intros (w0 & E0 & Hsteps).
  destruct (pthread_init_ok c fuel size total root CO ALLOC sizeof_Node garbage root Hs Hb Ha Hr Ht)
    as (w1 & E1 & I). rewrite E0 in E1. injection E1 as <-.
  by apply (steps_inv c fuel size total root CO w0).
Qed.

Lemma reachable_thread w i : reachable c size sizeof_Node ALLOC garbage root w ->
  0 <= i < num_threads c -> thread_ok c fuel size root w i.
Proof. intros R Hi. by apply (iv_thread _ _ _ _ _ _ (reachable_inv w R)). Qed.

Lemma stack_of_get w i ss : (stealStack w).[i] = Ok ss -> stack_of w i = ss.
Proof. intros E. symmetry. by apply (aget_Ok_inv _ _ _ _ E). Qed.

Lemma thread_of_get w i t : (threads w).[i] = Ok t -> thread_of root w i = t.
Proof. intros E. symmetry. by apply (aget_Ok_inv _ _ _ _ E). Qed.

Lemma get_range w i ss : reachable c size sizeof_Node ALLOC garbage root w ->
  (stealStack w).[i] = Ok ss -> 0 <= i < num_threads c.
Proof.
  intros R E. apply (aget_Ok_inv ss) in E as [Hi _].
  by rewrite (iv_stacks _ _ _ _ _ _ (reachable_inv w R)) in Hi.
Qed.

(** C11: the stacks keep their shape while the threads push, pop, release,
    acquire and steal: the shared part lies below the local part,
    [workAvail] is the size of the shared part and a whole number of chunks,
    and the nodes on the stack are expanded or are to be expanded. *)
Theorem stack_invariant w i ss :
  reachable c size sizeof_Node ALLOC garbage root w -> (stealStack w).[i] = Ok ss ->
  zlen (stack ss) = size /\ stackSize ss = size /\
  0 <= sharedStart ss <= local ss /\ local ss <= top ss <= size /\
  workAvail ss = local ss - sharedStart ss /\ (chunkSize c | workAvail ss) /\
  forall x p, sharedStart ss <= x < top ss -> (stack ss).[x] = Ok p ->
    0 <= numChildren p \/ (numChildren p = -1 /\ grows fuel p).
Proof.
  intros R E. destruct (reachable_thread w i R (get_range w i ss R E)) as [[S1 S2 S3 S4 S5 S6 _ _ _ _] _ _ _].
  rewrite (stack_of_get w i ss E) in *. do 2 (split; [done|]). destruct S3. repeat (split; [done|]).
  intros x p Hx Ep. apply (aget_Ok_inv root) in Ep as [_ ->].
  destruct (S6 x Hx) as [|(? & ? & _)]; [by left | by right].
Qed.

(** C8: a chunk is copied without the victim's lock, and still the thief gets
    the victim's nodes: while thread [i] copies from [v], the chunk lies
    below what is left of the victim's shared part, the nodes copied so far
    are those of the chunk, and the copy fits on the thief's stack. *)
Theorem steal_copies_chunk w i t ss v from j victim :
  reachable c size sizeof_Node ALLOC garbage root w ->
  (threads w).[i] = Ok t -> (stealStack w).[i] = Ok ss -> at_pc t = Copy v from j ->
  (stealStack w).[v] = Ok victim ->
  v <> i /\ 0 <= from /\ from + chunkSize c <= sharedStart victim /\ 0 <= j <= chunkSize c /\
  sharedStart ss = top ss /\ top ss + chunkSize c < size /\
  forall x, 0 <= x < j -> (stack ss).[top ss + x] = (stack victim).[from + x].
Proof.
  intros R Et E Epc Ev.
  pose proof (get_range w i ss R E) as Hi. pose proof (get_range w v victim R Ev) as Hv.
  destruct (reachable_thread w i R Hi) as [S _ _ P].
  destruct (reachable_thread w v R Hv) as [Sv _ _ _].
  unfold pc_of in P. rewrite (thread_of_get w i t Et), Epc in P.
  rewrite (stack_of_get w i ss E) in *. cbn in P. rewrite (stack_of_get w v victim Ev) in *.
  destruct P as ([_ Hne] & He & Hroom & Hf & Hfk & Hj & Hc & _).
  repeat (split; [done|]). intros x Hx. pose proof (so_order _ _ _ _ _ S). pose proof (so_order _ _ _ _ _ Sv).
  rewrite (node_get c fuel size root ss) by (done || lia).
  rewrite (node_get c fuel size root victim) by (done || lia). by rewrite Hc by lia.
Qed.

(** C13: no assertion of the stack operations can fail: a thread that stops
    with an error has a stack with no room for another chunk, or one of the
    counters of failed steals and of wake-ups has reached the largest
    [int]. *)
Theorem only_limits_stop w i ss f :
  reachable c size sizeof_Node ALLOC garbage root w -> (stealStack w).[i] = Ok ss ->
  thread_step c i w = Err f ->
  (f = Aborted /\ size - chunkSize c <= top ss) \/
  (f = Overflow /\ (nFail ss = 2 ^ 31 - 1 \/ wakeups ss = 2 ^ 31 - 1 \/ falseWakeups ss = 2 ^ 31 - 1)).
Proof.
  intros R E Ef. pose proof (get_range w i ss R E) as Hi.
  pose proof (thread_step_good c fuel size total root (su_config _ _ _ _ _ _ _ SU) w i (reachable_inv w R) Hi) as G.
  rewrite Ef in G. unfold good, limit in G. by rewrite (stack_of_get w i ss E) in G.
Qed.

(** C6: the cancellable barrier opens for good only when the search is over:
    once [cb_done] is set every thread is in the barrier or has left it, every
    stack is empty, no chunk is on its way, and all nodes of the tree have
    been counted. *)
Theorem barrier_detects_termination w :
  reachable c size sizeof_Node ALLOC garbage root w -> cb_done w = 1 ->
  (forall i t, (threads w).[i] = Ok t ->
     at_pc t = Spin \/ (exists l, at_pc t = SpinDone l) \/ at_pc t = Exit \/ at_pc t = Return \/ at_pc t = Done) /\
  (forall i ss, (stealStack w).[i] = Ok ss -> sharedStart ss = top ss /\ workAvail ss = 0) /\
  msum 0 (num_threads c) (fun i => match (stealStack w).[i] with Ok ss => nNodes ss | Err _ => 0 end) =
    Z.of_N (nodes total).
Proof.
  intros R D. pose proof (reachable_inv w R) as I. split; [|split].
  - intros i t Et. assert (Hi : 0 <= i < num_threads c).
    { apply (aget_Ok_inv t) in Et as [Hi _]. by rewrite (iv_threads _ _ _ _ _ _ I) in Hi. }
    pose proof (bo_all _ _ _ (iv_barrier _ _ _ _ _ _ I) D i Hi) as Hp.
    unfold pc_of in Hp. rewrite (thread_of_get w i t Et) in Hp.
    destruct (at_pc t); try done; eauto 6.
  - intros i ss E. destruct (done_empty c fuel size total root w i I D (get_range w i ss R E)) as (He & _ & _ & Ha).
    by rewrite (stack_of_get w i ss E) in *.
  - rewrite <- (done_total c fuel size total root w I D), nodes_msum. apply msum_ext. intros i Hi.
    destruct (thread_step_pc c fuel size total root w i I Hi) as [-> _].
    pose proof (so_counts _ _ _ _ _ (to_stack _ _ _ _ _ _ (iv_thread _ _ _ _ _ _ I i Hi))). cbn. lia.
Qed.

(** C2: when all threads have finished, the statistics that [showStats]
    prints are those of the tree: the number of nodes, of leaves and the
    height that the recursive definition gives, and every chunk released has
    been acquired again or stolen. *)
Theorem search_counts_tree w :
  reachable c size sizeof_Node ALLOC garbage root w -> Forall (fun t => at_pc t = Done) (threads w) ->
  msum 0 (num_threads c) (fun i => match (stealStack w).[i] with Ok ss => nFail ss | Err _ => 0 end) < 2 ^ 31 ->
  exists r, combine_stats c w = Ok r /\ tnodes r = Z.of_N (nodes total) /\
    tleaves r = Z.of_N (leaves total) /\ mheight r = Z.of_N (depth total) /\
    trel r = tacq r + tsteal r /\ release_error r = false.
Proof.
  intros R Hdone Hfail. pose proof (reachable_inv w R) as I.
  pose proof (co_threads _ _ _ (su_config _ _ _ _ _ _ _ SU)) as Hn.
  assert (D : cb_done w = 1).
  { destruct (bo_done _ _ _ (iv_barrier _ _ _ _ _ _ I)) as [D|]; [|done]. exfalso.
    apply (bo_end _ _ _ (iv_barrier _ _ _ _ _ _ I) D 0 ltac:(lia)). unfold pc_of.
    rewrite list.Forall_forall in Hdone. apply Hdone, zth_In.
    rewrite (iv_threads _ _ _ _ _ _ I). lia. }
  destruct (combine_stats_ok c fuel size total root (su_config _ _ _ _ _ _ _ SU) w I D)
    as (r & E & T1 & T2 & T3 & T4).
  { eapply Z.le_lt_trans; [|exact Hfail]. apply Z.eq_le_incl. apply msum_ext. intros i Hi.
    by destruct (thread_step_pc c fuel size total root w i I Hi) as [-> _]. }
  exists r. repeat (split; [done|]). split; [|done]. unfold release_error in T4.
  by apply negb_false_iff, Z.eqb_eq in T4.
Qed.
End Theorems.

Lemma run_steps `{SearchTree St} (c : config) schedule : forall (w w' : world St),
  Forall (fun i => 0 <= i < num_threads c) schedule -> run c schedule w = Ok w' -> rtc (step c) w w'.
Proof.
  induction schedule as [|i schedule IH]; intros w w' Hs E; simpl in E.
  - injection E as <-. done.
  - inv_forall. apply bind_Ok_inv in E as (w1 & E1 & E). eapply rtc_l; [|by apply IH]. by exists i.
Qed.

(** ** A small search *)

(** A tree of seven nodes and two threads that take turns; chunks of one
    node. *)
Module Small.

#[local] Instance tree : SearchTree Z :=
  {| spawn s i := 2 * s + i;
     children_count p := Ok (if height p <? 2 then 2 else 0);
     children_type _ := Ok 0 |}.

Definition cfg : config := Config 2 true 1 1 1.
Definition root : node Z := Node 0 0 (-1) 1.
Definition alloc (n : Z) : option (list (node Z)) := Some (replicate (Z.to_nat (n / 40)) (Node 0 0 0 0)).

Definition turns (n : nat) : list Z := map (fun i => Z.of_nat (i mod 2)) (seq 0 n).

(** The state after [n] turns, with stacks of [size] nodes. *)
Definition after (size : Z) (n : nat) : res (world Z) :=
  w ← pthread_init cfg alloc 40 size 0 root; run cfg (turns n) w.

Lemma is_setup size : 1 <= size <= 1000 -> setup cfg 3 size 40 alloc root (Stats 7 4 2).
Proof.
  intros Hs. split; try done.
  - split; cbn; lia.
  - lia.
  - intros n Hn. eexists. split; [done|]. rewrite length_replicate.
    assert (0 <= n / 40) by (apply Z.div_pos; lia). lia.
Qed.

Lemma turns_range n : Forall (fun i => 0 <= i < 2) (turns n).
Proof.
  apply list.Forall_forall. intros i Hi. apply list_elem_of_In, in_map_iff in Hi as (x & <- & _).
  pose proof (Nat.mod_upper_bound x 2 ltac:(lia)). lia.
Qed.

Lemma after_reachable size n w : after size n = Ok w -> reachable cfg size 40 alloc 0 root w.
Proof.
  intros E. apply bind_Ok_inv in E as (w0 & E0 & E). exists w0. split; [done|].
  apply (run_steps cfg (turns n)); [apply turns_range | done].
Qed.

(** The end of the search, a moment when a chunk is copied, and a stack of
    three nodes that is too small. *)
Definition at_end : world Z :=
  Eval vm_compute in match after 6 150 with Ok w => w | Err _ => World [] [] 0 0 0 end.
Definition in_copy : world Z :=
  Eval vm_compute in match after 6 30 with Ok w => w | Err _ => World [] [] 0 0 0 end.
Definition too_small : world Z :=
  Eval vm_compute in match after 2 4 with Ok w => w | Err _ => World [] [] 0 0 0 end.
Definition nth_stack (w : world Z) (i : nat) : StealStack Z :=
  nth i (stealStack w) (MkStealStack 0 0 0 0 0 0 0 0 0 0 0 0 0 0 0 0 []).
Definition nth_thread (w : world Z) (i : nat) : thread Z := nth i (threads w) (Thread Work root).

Lemma at_end_reachable : reachable cfg 6 40 alloc 0 root at_end.
Proof. apply (after_reachable 6 150). vm_compute. reflexivity. Qed.
Lemma in_copy_reachable : reachable cfg 6 40 alloc 0 root in_copy.
Proof. apply (after_reachable 6 30). vm_compute. reflexivity. Qed.
Lemma too_small_reachable : reachable cfg 2 40 alloc 0 root too_small.
Proof. apply (after_reachable 2 4). vm_compute. reflexivity. Qed.

Lemma stack_invariant_witness :
  workAvail (nth_stack in_copy 0) = local (nth_stack in_copy 0) - sharedStart (nth_stack in_copy 0).
Proof.
  exact (proj1 (proj2 (proj2 (proj2 (proj2
    (stack_invariant cfg 3 6 40 alloc 0 root _ (is_setup 6 ltac:(lia)) in_copy 0 (nth_stack in_copy 0)
      in_copy_reachable eq_refl)))))).
Defined.

(** Thread 1 copies the node that thread 0 has released. *)
Lemma steal_copies_chunk_witness :
  (stack (nth_stack in_copy 1)).[0] = (stack (nth_stack in_copy 0)).[0].
Proof.
  pose proof (steal_copies_chunk cfg 3 6 40 alloc 0 root _ (is_setup 6 ltac:(lia)) in_copy 1
    (nth_thread in_copy 1) (nth_stack in_copy 1) 0 0 1 (nth_stack in_copy 0)
    in_copy_reachable eq_refl eq_refl eq_refl eq_refl) as (_ & _ & _ & _ & _ & _ & Hc).
  apply (Hc 0). lia.
Defined.

Lemma only_limits_stop_witness :
  thread_step cfg 0 too_small = Err Aborted /\ 2 - 1 <= top (nth_stack too_small 0).
Proof.
  split; [vm_compute; reflexivity|].
  destruct (only_limits_stop cfg 3 2 40 alloc 0 root _ (is_setup 2 ltac:(lia)) too_small 0
    (nth_stack too_small 0) Aborted too_small_reachable eq_refl ltac:(vm_compute; reflexivity)) as [[_ Hl]|[Hl _]].
  - exact Hl.
  - discriminate Hl.
Defined.

Lemma barrier_detects_termination_witness :
  msum 0 2 (fun i => match (stealStack at_end).[i] with Ok ss => nNodes ss | Err _ => 0 end) = 7.
Proof.
  exact (proj2 (proj2 (barrier_detects_termination cfg 3 6 40 alloc 0 root _ (is_setup 6 ltac:(lia)) at_end
    at_end_reachable eq_refl))).
Defined.

Lemma search_counts_tree_witness : exists r, combine_stats cfg at_end = Ok r /\
  tnodes r = 7 /\ tleaves r = 4 /\ mheight r = 2 /\ trel r = tacq r + tsteal r.
Proof.
  destruct (search_counts_tree cfg 3 6 40 alloc 0 root _ (is_setup 6 ltac:(lia)) at_end at_end_reachable)
    as (r & E & R1 & R2 & R3 & R4 & _).
  - repeat constructor.
  - vm_compute. reflexivity.
  - exists r. repeat (split; [assumption|]). exact R4.
Defined.
End Small.

(** ** Balanced trees *)

(** A parallel search of a balanced tree prints the size that
    [uts_paramsToStr] announced for it: [(b^(gen_mx+1) - 1)/(b - 1)] nodes
    and [b^gen_mx] leaves, at every number of threads and in every order of
    their steps. *)
Theorem balanced_search_reports `{Rng St} (P : params) (M : libm) b (c : config) (fuel : nat)
    (size sizeof_Node : Z) ALLOC (garbage : St) total (w : world St) :
  tree_type P = BALANCED -> to_int (trunc_Z (b_0 P)) = Ok b -> 1 <= b -> 0 <= gen_mx P ->
  setup (H := uts_tree P M) c fuel size sizeof_Node ALLOC (uts_initRoot P BALANCED) total ->
  reachable (H := uts_tree P M) c size sizeof_Node ALLOC garbage (uts_initRoot P BALANCED) w ->
  Forall (fun t => at_pc t = Done) (threads w) ->
  msum 0 (num_threads c) (fun i => match (stealStack w).[i] with Ok ss => nFail ss | Err _ => 0 end) < 2 ^ 31 ->
  exists r, combine_stats c w = Ok r /\ tnodes r * (b - 1) = b ^ (gen_mx P + 1) - 1 /\
    tleaves r = b ^ gen_mx P /\ mheight r = gen_mx P.
Proof.
  intros Ht Hb Hb1 Hd SU R Hdone Hfail.
  destruct (search_counts_tree (H := uts_tree P M) _ _ _ _ _ _ _ _ SU w R Hdone Hfail) as (r & E & E1 & E2 & E3 & _).
  destruct (balanced_tree_size P M b Ht Hb Hb1 Hd) as (s & Es & _ & S2 & S3 & S4).
  assert (total = s) as ->.
  { apply (tree_stats_mono _ (fuel + S (Z.to_nat (gen_mx P)))) in Es; [|lia].
    pose proof (su_tree _ _ _ _ _ _ _ SU) as Et.
    apply (tree_stats_mono _ (fuel + S (Z.to_nat (gen_mx P)))) in Et; [|lia]. congruence. }
  exists r. by rewrite E1, E2, E3.
Qed.

Module SmallBalanced.

#[local] Instance rng : Rng Z := {| rng_init s := s; rng_spawn s i := 2 * s + i; rng_rand _ := 0 |}.
Definition P : params := Params BALANCED (double 2) 1 4 (double 0) 2 LINEAR (double 0).
Definition M : libm := Libm (fun x _ => x) (fun x => x) (fun x => x).
#[local] Instance tree : SearchTree Z := uts_tree P M.

Definition cfg : config := Config 2 true 1 1 1.
Definition alloc (n : Z) : option (list (node Z)) := Some (replicate (Z.to_nat (n / 40)) (Node 0 0 0 0)).
Definition schedule : list Z := map (fun i => Z.of_nat (i mod 2)) (seq 0 150).
Definition at_end : world Z :=
  Eval vm_compute in
    match (w ← pthread_init cfg alloc 40 6 0 (uts_initRoot P BALANCED); run cfg schedule w) with
    | Ok w => w | Err _ => World [] [] 0 0 0 end.

Lemma balanced_setup : setup cfg 3 6 40 alloc (uts_initRoot P BALANCED) (Stats 7 4 2).
Proof.
  split; [split; cbn; lia | done | | done | vm_compute; reflexivity].
  intros n Hn. eexists. split; [done|].
  rewrite length_replicate. assert (0 <= n / 40) by (apply Z.div_pos; lia). lia.
Qed.

Lemma balanced_end_reachable : reachable cfg 6 40 alloc 0 (uts_initRoot P BALANCED) at_end.
Proof.
  assert (E : (w ← pthread_init cfg alloc 40 6 0 (uts_initRoot P BALANCED); run cfg schedule w) = Ok at_end)
    by (vm_compute; reflexivity).
  apply bind_Ok_inv in E as (w0 & E0 & E). exists w0. split; [done|].
  apply (run_steps cfg schedule); [|done]. apply list.Forall_forall. intros i Hi.
  apply list_elem_of_In, in_map_iff in Hi as (x & <- & _).
  pose proof (Nat.mod_upper_bound x 2 ltac:(lia)). cbn. lia.
Qed.

Lemma balanced_search_reports_witness : exists r, combine_stats cfg at_end = Ok r /\
  tnodes r * (2 - 1) = 2 ^ 3 - 1 /\ tleaves r = 2 ^ 2 /\ mheight r = 2.
Proof.
  apply (balanced_search_reports P M 2 cfg 3 6 40 alloc 0 (Stats 7 4 2) at_end);
    [reflexivity | reflexivity | lia | cbn; lia | exact balanced_setup | exact balanced_end_reachable
    | repeat constructor | vm_compute; reflexivity].
Defined.
End SmallBalanced.
