(* ===== verification/StealLiveness.v ===== *)
(** * The work-stealing search ends

    Under a fair schedule every thread of file StealStack finishes: a measure
    drops with every step of a thread, except for a thread that spins in the
    barrier while nothing has happened, and not all threads can do that. *)

From stdpp Require Import relations.
From S2P Require Import Prelude Uts StealStack StealSearch.

Section Liveness.
Context `{SearchTree St} (c : config) (fuel : nat) (size : Z) (total : stats) (dn : node St).
Implicit Types (ss victim : StealStack St) (p : node St) (w : world St) (i j v x : Z) (t : thread St).
Hypothesis CO : config_ok c size total.

Let k := chunkSize c.
Let N := num_threads c.

Abbreviation inv := (inv c fuel size total dn).
Abbreviation pc_of := (pc_of dn).
Abbreviation thread_of := (thread_of dn).

(** ** The measure *)

(** What a place in the program still owes: a release, a cancellation, the
    rest of [genChildren] after a push. *)
Definition owed (pc : pc) : Z :=
  match pc with
  | Gen _ i _ => if 0 <? i then 3 else 0
  | Release KWork => 2
  | Cancel KWork => 1
  | Release (KGen _ _ _) => 5
  | Cancel (KGen _ _ _) => 4
  | _ => 0
  end.

(** The work that a thread has, less what it has done. *)
Definition work_of ss (pc : pc) : Z :=
  3 * (top ss - sharedStart ss) + 3 * copying c pc + Z.max 0 (top ss - local ss - k) +
  workAvail ss + owed pc - 10 * nNodes ss - 3 * nLeaves ss.

Definition work_left w : Z :=
  10 * Z.of_N (nodes total) + 3 * Z.of_N (leaves total) +
  msum 0 N (fun i => work_of (stack_of w i) (pc_of w i)).

(** The number of steps before the thread works or spins, when nobody else
    moves; a thread that is about to steal a chunk which is gone will look
    for work again, and one that is not in the barrier may be woken up once
    more when the barrier has been cancelled. *)
Definition steps_left w (pc : pc) : Z :=
  let bonus := if cb_cancel w =? 0 then 0 else 11 + N in
  let gone v := workAvail (stack_of w v) <? k in
  match pc with
  | Done => 0
  | Spin => if (cb_cancel w =? 0) && (cb_done w =? 0) then 0 else 9 + N
  | SpinDone l =>
      if negb (l =? 0) then 8 + N
      else if cb_done w =? 0 then if cb_cancel w =? 0 then 0 else 10 + N
      else 8 + N
  | Exit => 7 + N
  | Gen _ _ _ | Release _ | Cancel _ => bonus
  | Enter => bonus + 1
  | Reserve v => bonus + if gone v then 5 + N else 2
  | Steal v => bonus + if gone v then 6 + N else 3
  | Find j => bonus + 4 + Z.max 0 (N - j)
  | Acquire => bonus + 4 + N
  | Work => bonus + 5 + N
  | Copy _ _ j => bonus + 6 + N + Z.max 0 (k - j)
  | Return => bonus + 6 + N
  end.

Definition most_steps : Z := 20 + 2 * N + k.

Definition measure w : Z :=
  work_left w * (2 * N * most_steps + 1) + (1 - cb_done w) * (N * most_steps) +
  msum 0 N (fun i => steps_left w (pc_of w i)).

(** A thread that cannot do anything but spin, or has finished. *)
Definition blocked w (pc : pc) : bool :=
  match pc with
  | Spin => (cb_cancel w =? 0) && (cb_done w =? 0)
  | SpinDone l => (l =? 0) && (cb_cancel w =? 0) && (cb_done w =? 0)
  | Done => true
  | _ => false
  end.

Lemma k_pos : 1 <= k.
Proof. apply CO. Qed.

Lemma N_pos : 1 <= N.
Proof. apply CO. Qed.

Lemma steps_left_range w i : inv w -> 0 <= i < N -> 0 <= steps_left w (pc_of w i) <= most_steps.
Proof.
  intros I Hi. pose proof (to_pc _ _ _ _ _ _ (iv_thread _ _ _ _ _ _ I i Hi)) as P.
  pose proof k_pos. pose proof N_pos. unfold steps_left, most_steps.
  destruct (pc_of w i); cbn in P; repeat case_match; lia.
Qed.

Lemma steps_sum_range w : inv w ->
  0 <= msum 0 N (fun i => steps_left w (pc_of w i)) <= N * most_steps.
Proof.
  intros I. split.
  - apply msum_Z_nonneg. intros i Hi. by apply steps_left_range.
  - etransitivity; [apply (msum_Z_le _ _ _ (fun _ => most_steps * 1))|].
    + intros i Hi. pose proof (steps_left_range w i I Hi). lia.
    + rewrite msum_Z_scale, msum_Z_ones by (pose proof N_pos; lia). lia.
Qed.

Lemma work_left_nonneg w : inv w -> 0 <= work_left w.
Proof.
  intros I.
  assert (Hn : msum 0 N (fun i => nNodes (stack_of w i)) <= Z.of_N (nodes total)).
  { rewrite <- (iv_total _ _ _ _ _ _ I), nodes_msum. apply msum_Z_le. intros i Hi.
    pose proof (so_counts _ _ _ _ _ (to_stack _ _ _ _ _ _ (iv_thread _ _ _ _ _ _ I i Hi))). cbn. lia. }
  assert (Hl : msum 0 N (fun i => nLeaves (stack_of w i)) <= Z.of_N (leaves total)).
  { rewrite <- (iv_total _ _ _ _ _ _ I), leaves_msum. apply msum_Z_le. intros i Hi.
    pose proof (so_counts _ _ _ _ _ (to_stack _ _ _ _ _ _ (iv_thread _ _ _ _ _ _ I i Hi))). cbn. lia. }
  assert (Hs : forall i, 0 <= i < N -> stack_ok c fuel size dn (stack_of w i)).
  { intros i Hi. by apply (iv_thread _ _ _ _ _ _ I). }
  enough (msum 0 N (fun i => -10 * nNodes (stack_of w i) + -3 * nLeaves (stack_of w i)) <=
          msum 0 N (fun i => work_of (stack_of w i) (pc_of w i))) as Hw.
  { unfold work_left. rewrite msum_Z_add, !msum_Z_scale in Hw. lia. }
  apply msum_Z_le. intros i Hi. pose proof (so_order _ _ _ _ _ (Hs i Hi)).
  pose proof (so_avail _ _ _ _ _ (Hs i Hi)). pose proof k_pos.
  assert (0 <= copying c (pc_of w i)) by (destruct (pc_of w i); cbn; lia).
  assert (0 <= owed (pc_of w i)).
  { destruct (pc_of w i) as [|? ? ?|[]|[]| | | | | | | | | | |]; cbn; repeat case_match; lia. }
  unfold work_of. lia.
Qed.
(** ** What lowers the measure *)

Lemma measure_work w w' : inv w -> inv w' -> cb_done w <= cb_done w' ->
  work_left w' < work_left w -> measure w' < measure w.
Proof.
  intros I I' Hd Hw. pose proof (steps_sum_range w I). pose proof (steps_sum_range w' I').
  unfold measure. set (R := N * most_steps) in *. replace (2 * N * most_steps) with (2 * R) by (subst R; lia).
  set (s := msum 0 N _) in *. set (s' := msum 0 N _) in *. nia.
Qed.

Lemma work_left_update w i ss t ca co d : inv w -> 0 <= i < N ->
  work_left (update w i ss t ca co d) + work_of (stack_of w i) (pc_of w i) =
  work_left w + work_of ss (at_pc t).
Proof.
  intros I Hi. set (w' := update w i ss t ca co d).
  assert (Hst : forall j, 0 <= j -> stack_of w' j = if j =? i then ss else stack_of w j)
    by (intros; by eapply stack_of_update).
  assert (Hpc : forall j, 0 <= j -> pc_of w' j = if j =? i then at_pc t else pc_of w j)
    by (intros; by eapply pc_of_update).
  pose proof (msum_change 0 N i (fun j => work_of (stack_of w j) (pc_of w j))
    (fun j => work_of (stack_of w' j) (pc_of w' j)) Hi) as Hc.
  cbv beta in Hc. rewrite (Hst i), (Hpc i), Z.eqb_refl in Hc by lia. simpl madd in Hc.
  unfold work_left. enough (forall j, 0 <= j < N -> j <> i ->
    work_of (stack_of w j) (pc_of w j) = work_of (stack_of w' j) (pc_of w' j)) as Hx
    by (specialize (Hc Hx); lia).
  intros j Hj Hne. rewrite Hst, Hpc by lia. by rewrite (proj2 (Z.eqb_neq j i)).
Qed.

(** Nobody's remaining steps grow when the barrier is not cancelled, not
    opened and no chunk has gone. *)
Lemma steps_left_mono w w' pc :
  (cb_cancel w' = cb_cancel w \/ cb_cancel w' = 0) -> cb_done w' = cb_done w ->
  (forall v, 0 <= v < N -> workAvail (stack_of w' v) = workAvail (stack_of w v)) ->
  (forall v, pc = Steal v \/ pc = Reserve v -> 0 <= v < N) ->
  steps_left w' pc <= steps_left w pc.
Proof.
  intros Hca Hd Hav Hv. pose proof N_pos. unfold steps_left. rewrite Hd.
  assert (Hg : forall v, pc = Steal v \/ pc = Reserve v ->
    (workAvail (stack_of w' v) <? k) = (workAvail (stack_of w v) <? k)).
  { intros v E. by rewrite Hav by auto. }
  destruct Hca as [->| ->]; cbn [Z.eqb]; destruct pc; try rewrite Hg by auto;
    destruct (cb_cancel w =? 0), (cb_done w =? 0); cbn [andb negb];
    repeat case_match; lia.
Qed.

Lemma victim_range w i v : inv w -> 0 <= i < N -> pc_of w i = Steal v \/ pc_of w i = Reserve v ->
  0 <= v < N.
Proof.
  intros I Hi E. pose proof (to_pc _ _ _ _ _ _ (iv_thread _ _ _ _ _ _ I i Hi)) as P.
  destruct E as [E|E]; rewrite E in P; apply P.
Qed.

Lemma measure_quiet w i ss t ca co : inv w -> 0 <= i < N ->
  (ca = cb_cancel w \/ ca = 0) -> workAvail ss = workAvail (stack_of w i) ->
  work_of ss (at_pc t) = work_of (stack_of w i) (pc_of w i) ->
  steps_left (update w i ss t ca co (cb_done w)) (at_pc t) < steps_left w (pc_of w i) ->
  measure (update w i ss t ca co (cb_done w)) < measure w.
Proof.
  intros I Hi Hca Hav Hw Hlt. set (w' := update w i ss t ca co (cb_done w)) in *.
  pose proof (work_left_update w i ss t ca co (cb_done w) I Hi) as Hwl. fold w' in Hwl.
  assert (Hs : msum 0 N (fun i => steps_left w' (pc_of w' i)) < msum 0 N (fun i => steps_left w (pc_of w i))).
  { apply (msum_Z_lt 0 N i); [done | |].
    - intros j Hj. unfold w' at 2. erewrite pc_of_update by (done || lia).
      destruct (Z.eqb_spec j i) as [->|]; [lia|].
      apply steps_left_mono; [done | done | |].
      + intros v Hv. unfold w'. erewrite stack_of_update by (done || lia).
        by destruct (Z.eqb_spec v i) as [->|].
      + intros v. by apply victim_range.
    - unfold w' at 2. erewrite pc_of_update by (done || lia). by rewrite Z.eqb_refl. }
  unfold measure. change (cb_done w') with (cb_done w). replace (work_left w') with (work_left w) by lia. lia.
Qed.

Lemma put_inv w i r w' : inv w -> 0 <= i < N -> put w i r = Ok w' ->
  w' = update w i r.1 r.2 (cb_cancel w) (cb_count w) (cb_done w).
Proof.
  intros I Hi E. destruct r as [ss t]. rewrite (put_update c fuel size total dn w i ss t I Hi) in E.
  by injection E as <-.
Qed.

(** A step of thread [i] into [w']. *)
Definition drops w i : Prop :=
  forall w', thread_step c i w = Ok w' -> inv w' -> measure w' < measure w.

Ltac take_step I Hi E E' :=
  unfold thread_step in E';
  destruct (thread_step_pc _ _ _ _ _ _ _ I Hi) as [Eget1 Eget2]; rewrite Eget1, Eget2 in E'; cbn [mbind res_bind] in E';
  clear Eget1 Eget2;
  match type of E with pc_of ?w ?i = _ =>
    change (at_pc (StealSearch.thread_of dn w i)) with (pc_of w i) in E'; rewrite E in E' end;
  cbn [mbind res_bind] in E'.

(** A step of [i] alone that does some work. *)
Lemma work_drops w i r w' : inv w -> 0 <= i < N -> put w i r = Ok w' -> inv w' ->
  work_of r.1 (at_pc r.2) < work_of (stack_of w i) (pc_of w i) -> measure w' < measure w.
Proof.
  intros I Hi E I' Hlt. apply put_inv in E as ->; [|done|done].
  apply measure_work; try done.
  pose proof (work_left_update w i r.1 r.2 (cb_cancel w) (cb_count w) (cb_done w) I Hi). lia.
Qed.

(** A step of [i] alone that does not. *)
Lemma quiet_drops w i ss t w' : inv w -> 0 <= i < N -> put w i (ss, t) = Ok w' ->
  workAvail ss = workAvail (stack_of w i) ->
  work_of ss (at_pc t) = work_of (stack_of w i) (pc_of w i) ->
  (forall w', cb_cancel w' = cb_cancel w -> cb_done w' = cb_done w ->
     (forall v, 0 <= v < N -> v <> i -> stack_of w' v = stack_of w v) ->
     steps_left w' (at_pc t) < steps_left w (pc_of w i)) ->
  measure w' < measure w.
Proof.
  intros I Hi E Hav Hw Hlt. apply put_inv in E as ->; [|done|done].
  apply measure_quiet; try done; [by left|]. cbn [at_pc]. apply Hlt; try done.
  intros v Hv Hne. cbn [fst snd]. erewrite stack_of_update by (done || lia). by rewrite (proj2 (Z.eqb_neq v i)).
Qed.

Lemma releaseNodes_owed ss kc pc : releaseNodes c ss kc = Ok pc ->
  match kc with KWork => True | KGen _ i _ => 0 < i end ->
  owed pc <= owed (resume kc) + 2 /\ copying c pc = 0.
Proof.
  intros E Hkc. assert (Hp : pc = resume kc \/ pc = Release kc).
  { unfold releaseNodes in E. destruct (doSteal c); inv_ok; [|by left].
    destruct (_ <? _); auto. }
  destruct kc as [|posn i n]; destruct Hp as [->| ->]; cbn; try (split; [lia | done]);
    rewrite (proj2 (Z.ltb_lt 0 i)) by done; split; done || lia.
Qed.

(** ** The steps *)

Ltac unfold_steps E Eca Ed := unfold steps_left; rewrite ?Eca, ?Ed, E; cbn [at_pc].

Lemma genChildren_drops w i ss' t posn w' : inv w -> 0 <= i < N -> pc_of w i = Work ->
  genChildren c (stack_of w i) posn (child (thread_of w i)) = Ok (ss', t) ->
  put w i (ss', t) = Ok w' -> inv w' -> measure w' < measure w.
Proof.
  intros I Hi E Eg E' I'. unfold genChildren in Eg. inv_ok.
  destruct (Z.ltb_spec 0 a0) as [Hpos|Hz]; inv_ok.
  - apply (quiet_drops w i _ _ w' I Hi E'); try done.
    + rewrite E. unfold work_of. cbn. lia.
    + intros w1 Eca Ed _. unfold_steps E Eca Ed. pose proof N_pos. lia.
  - apply chk_Ok_inv in Ha3 as [-> _].
    destruct (releaseNodes_owed _ _ _ Ha4 Logic.I) as [Ho Hc]. cbn in Ho.
    apply (work_drops w i _ w' I Hi E' I'). rewrite E. unfold work_of. cbn [fst snd at_pc].
    rewrite Hc. cbn. lia.
Qed.

Lemma work_step_drops w i : inv w -> 0 <= i < N -> pc_of w i = Work -> drops w i.
Proof.
  intros I Hi E w' E' I'. take_step I Hi E E'. apply bind_Ok_inv in E' as ([ss' t] & Er & E').
  unfold work, ss_localDepth in Er.
  destruct (Z.ltb_spec 0 (top (stack_of w i) - local (stack_of w i))) as [Hd|Hd].
  - inv_ok. destruct (numChildren a0 <? 0) eqn:En; [by eapply genChildren_drops|].
    inv_ok. unfold ss_pop in Ha1.
    destruct (top (stack_of w i) <=? local (stack_of w i)); [done|]. injection Ha1 as <-.
    destruct (releaseNodes_owed _ _ _ Ha2 Logic.I) as [Ho Hc]. cbn in Ho.
    apply (work_drops w i _ w' I Hi E' I'). rewrite E. unfold work_of. cbn [fst snd at_pc].
    rewrite Hc. cbn. lia.
  - injection Er as <- <-. apply (quiet_drops w i _ _ w' I Hi E'); try done.
    + by rewrite E.
    + intros w1 Eca Ed _. unfold_steps E Eca Ed. lia.
Qed.

Lemma gen_turn_drops w i posn j n : inv w -> 0 <= i < N -> pc_of w i = Gen posn j n -> drops w i.
Proof.
  intros I Hi E w' E' I'. pose proof (to_gen _ _ _ _ _ _ (iv_thread _ _ _ _ _ _ I i Hi)) as G.
  rewrite E in G. destruct G as (_ & [Hj Hn] & _).
  take_step I Hi E E'. apply bind_Ok_inv in E' as ([ss' t] & Er & E').
  unfold gen_turn in Er. destruct (Z.ltb_spec j n) as [Hlt|Hge]; inv_ok.
  - unfold ss_push in Ha1. destruct (_ <=? _); [done|]. inv_ok. apply chk_Ok_inv in Ha4 as [-> _].
    destruct (releaseNodes_owed _ _ _ Ha2 ltac:(cbn; lia)) as [Ho Hc].
    cbn [resume owed] in Ho. rewrite (proj2 (Z.ltb_lt 0 (j + 1))) in Ho by lia.
    apply (work_drops w i _ w' I Hi E' I'). rewrite E. unfold work_of. cbn [fst snd at_pc].
    rewrite Hc. cbn. case_match; lia.
  - destruct (releaseNodes_owed _ _ _ Ha Logic.I) as [Ho Hc]. cbn in Ho.
    apply (work_drops w i _ w' I Hi E' I'). rewrite E. unfold work_of. cbn [fst snd at_pc].
    rewrite Hc. cbn. rewrite (proj2 (Z.ltb_lt 0 j)) by lia. lia.
Qed.

Lemma release_drops w i kc : inv w -> 0 <= i < N -> pc_of w i = Release kc -> drops w i.
Proof.
  intros I Hi E w' E' I'. pose proof (to_pc _ _ _ _ _ _ (iv_thread _ _ _ _ _ _ I i Hi)) as P.
  rewrite E in P. cbn in P. pose proof k_pos. unfold k in *.
  take_step I Hi E E'. apply bind_Ok_inv in E' as ([ss' pc] & Er & E').
  unfold release_step, ss_release in Er.
  destruct (chunkSize c <=? top (stack_of w i) - local (stack_of w i)); [|done]. inv_ok.
  destruct (cbint c =? 0); [done|]. injection Er as <- <-.
  apply (work_drops w i _ w' I Hi E' I'). rewrite E. unfold work_of, k. cbn [fst snd at_pc].
  set (q := if _ =? _ then _ else _).
  assert (Hq : owed q < owed (Release kc) /\ copying c q = 0).
  { subst q. destruct (_ =? 0), kc; cbn; split; try done; case_match; done. }
  destruct Hq as [Hq ->]. cbn [copying top sharedStart local workAvail nNodes nLeaves set_nRelease set_workAvail set_local].
  lia.
Qed.

Lemma cancel_drops w i kc : inv w -> 0 <= i < N -> pc_of w i = Cancel kc -> drops w i.
Proof.
  intros I Hi E w' E' I'. take_step I Hi E E'. apply bind_Ok_inv in E' as (w1 & E1 & E').
  apply put_inv in E1 as ->; [|done|done]. cbn [fst snd] in E'. injection E' as <-.
  apply measure_work; try done.
  pose proof (work_left_update w i (stack_of w i) (Thread (resume kc) (child (thread_of w i)))
    1 (cb_count w) (cb_done w) I Hi) as Hw.
  change (set_cb _ _ _ _) with (update w i (stack_of w i) (Thread (resume kc) (child (thread_of w i)))
    1 (cb_count w) (cb_done w)).
  enough (work_of (stack_of w i) (resume kc) < work_of (stack_of w i) (pc_of w i)) by (cbn [at_pc] in Hw; lia).
  rewrite E. unfold work_of. destruct kc; cbn; [lia|]. case_match; lia.
Qed.

Lemma acquire_drops w i : inv w -> 0 <= i < N -> pc_of w i = Acquire -> drops w i.
Proof.
  intros I Hi E w' E' I'. pose proof (to_pc _ _ _ _ _ _ (iv_thread _ _ _ _ _ _ I i Hi)) as P.
  rewrite E in P. cbn in P. pose proof k_pos. pose proof N_pos.
  take_step I Hi E E'. apply bind_Ok_inv in E' as ([ss' got] & Er & E').
  unfold ss_acquire in Er. fold k in Er.
  destruct (k <=? local (stack_of w i) - sharedStart (stack_of w i)); inv_ok.
  - apply (work_drops w i _ w' I Hi E' I'). rewrite E. unfold work_of. cbn. unfold k in *. lia.
  - apply (quiet_drops w i _ _ w' I Hi E'); try done; cbn [at_pc].
    + rewrite E. unfold no_local_work. by destruct (doSteal c).
    + intros w1 Eca Ed _. unfold_steps E Eca Ed. unfold no_local_work.
      destruct (doSteal c); lia.
Qed.

(** The victim that [put] has just written down. *)
Lemma put_victim w i ss t w' v : inv w -> 0 <= i < N -> put w i (ss, t) = Ok w' -> inv w' ->
  at_pc t = Steal v -> 0 <= v < N /\ v <> i.
Proof.
  intros I Hi E I' Ev. apply put_inv in E as ->; [|done|done]. cbn [fst snd] in I'.
  pose proof (to_pc _ _ _ _ _ _ (iv_thread _ _ _ _ _ _ I' i Hi)) as P.
  erewrite pc_of_update in P by (done || lia). rewrite Z.eqb_refl, Ev in P. apply P.
Qed.

Lemma find_drops w i j : inv w -> 0 <= i < N -> pc_of w i = Find j -> drops w i.
Proof.
  intros I Hi E w' E' I'. pose proof N_pos. take_step I Hi E E'. fold N in E'.
  destruct (Z.ltb_spec j N) as [Hj|Hj].
  - apply bind_Ok_inv in E' as (victim & Ev & E'). apply stack_of_get in Ev as <-. fold k in E'.
    set (v := Z.rem (i + j) N) in *.
    destruct (Z.leb_spec k (workAvail (stack_of w v))) as [Hk|Hk].
    + destruct (put_victim w i _ _ w' v I Hi E' I' eq_refl) as [Hv Hne].
      apply (quiet_drops w i _ _ w' I Hi E'); try done; cbn [at_pc]; [by rewrite E|].
      intros w1 Eca Ed Hst. unfold_steps E Eca Ed. rewrite Hst by done.
      rewrite (proj2 (Z.ltb_ge _ _) Hk). lia.
    + apply (quiet_drops w i _ _ w' I Hi E'); try done; cbn [at_pc]; [by rewrite E|].
      intros w1 Eca Ed Hst. unfold_steps E Eca Ed. lia.
  - apply (quiet_drops w i _ _ w' I Hi E'); try done; cbn [at_pc]; [by rewrite E|].
    intros w1 Eca Ed Hst. unfold_steps E Eca Ed. lia.
Qed.

Lemma steal_drops w i v : inv w -> 0 <= i < N -> pc_of w i = Steal v -> drops w i.
Proof.
  intros I Hi E w' E' I'. pose proof (to_pc _ _ _ _ _ _ (iv_thread _ _ _ _ _ _ I i Hi)) as P.
  rewrite E in P. destruct P as [[Hv Hne] _].
  take_step I Hi E E'. apply bind_Ok_inv in E' as (u & _ & E').
  apply (quiet_drops w i _ _ w' I Hi E'); try done; cbn [at_pc]; [by rewrite E|].
  intros w1 Eca Ed Hst. unfold_steps E Eca Ed. rewrite Hst by done. repeat case_match; lia.
Qed.

Lemma copy_drops w i v from j : inv w -> 0 <= i < N -> pc_of w i = Copy v from j -> drops w i.
Proof.
  intros I Hi E w' E' I'. pose proof (iv_thread _ _ _ _ _ _ I i Hi) as [S _ _ P].
  rewrite E in P. destruct P as (_ & He & _). unfold empty in He. pose proof (so_order _ _ _ _ _ S).
  pose proof k_pos. take_step I Hi E E'. fold k in E'. destruct (Z.ltb_spec j k) as [Hj|Hj]; inv_ok.
  - unfold steal_copy in Ha0. inv_ok. apply (quiet_drops w i _ _ w' I Hi E'); try done; cbn [at_pc].
    + by rewrite E.
    + intros w1 Eca Ed Hst. unfold_steps E Eca Ed. lia.
  - unfold steal_finish in Ha. inv_ok. apply (quiet_drops w i _ _ w' I Hi E'); try done; cbn [at_pc].
    + rewrite E. unfold work_of. cbn. fold k. lia.
    + intros w1 Eca Ed Hst. unfold_steps E Eca Ed. lia.
Qed.

(** The reservation changes two stacks. *)
Lemma work_left_reserve w w' i v : 0 <= i < N -> 0 <= v < N -> i <> v ->
  (forall j, 0 <= j < N -> j <> i -> j <> v -> stack_of w' j = stack_of w j /\ pc_of w' j = pc_of w j) ->
  work_of (stack_of w' i) (pc_of w' i) + work_of (stack_of w' v) (pc_of w' v) <
  work_of (stack_of w i) (pc_of w i) + work_of (stack_of w v) (pc_of w v) ->
  work_left w' < work_left w.
Proof.
  intros Hi Hv Hne Hsame Hlt. unfold work_left.
  set (f := fun j => work_of (stack_of w j) (pc_of w j)) in *.
  set (g := fun j => work_of (stack_of w' j) (pc_of w' j)) in *.
  set (h := fun j => if j =? v then f j else g j).
  pose proof (msum_change 0 N i f h Hi) as H1. pose proof (msum_change 0 N v h g Hv) as H2.
  assert (E1 : forall j, 0 <= j < N -> j <> i -> f j = h j).
  { intros j Hj Hji. unfold h. destruct (Z.eqb_spec j v); [done|].
    unfold f, g. by destruct (Hsame j Hj Hji n) as [-> ->]. }
  assert (E2 : forall j, 0 <= j < N -> j <> v -> h j = g j).
  { intros j Hj Hjv. unfold h. by rewrite (proj2 (Z.eqb_neq j v)). }
  specialize (H1 E1). specialize (H2 E2).
  assert (Eh : h i = g i /\ h v = f v).
  { unfold h. by rewrite Z.eqb_refl, (proj2 (Z.eqb_neq i v)). }
  destruct Eh as [Ei Ev]. rewrite Ei in H1. rewrite Ev in H2. simpl madd in *.
  change (work_of (stack_of w' i) (pc_of w' i)) with (g i) in Hlt.
  change (work_of (stack_of w' v) (pc_of w' v)) with (g v) in Hlt.
  change (work_of (stack_of w i) (pc_of w i)) with (f i) in Hlt.
  change (work_of (stack_of w v) (pc_of w v)) with (f v) in Hlt. lia.
Qed.

Lemma reserve_drops w i v : inv w -> 0 <= i < N -> pc_of w i = Reserve v -> drops w i.
Proof.
  intros I Hi E w' E' I'. pose proof k_pos. pose proof N_pos.
  destruct (reserve_pc c fuel size total dn w i v I Hi E) as ([Hv Hne] & He & Hroom).
  take_step I Hi E E'. apply bind_Ok_inv in E' as (victim & Ev & E'). apply stack_of_get in Ev as <-.
  apply bind_Ok_inv in E' as (r & Er & E'). unfold steal_reserve in Er. fold k in Er.
  destruct (negb _); [done|].
  destruct (Z.leb_spec k (workAvail (stack_of w v))) as [Hk|Hk]; injection Er as <-.
  - apply bind_Ok_inv in E' as (w1 & E1 & E'). apply put_inv in E1 as ->; [|done|done].
    cbn [fst snd] in E'. apply bind_Ok_inv in E' as (sss & Es & E'). injection E' as <-.
    apply aset_Ok_inv in Es as [_ ->].
    match goal with |- measure ?x < _ => set (w2 := x) in * end.
    assert (Hst : forall j, 0 <= j -> stack_of w2 j = if j =? v then stolen c (stack_of w v) else stack_of w j)
      by (intros j Hj; by eapply reserve_stack_of).
    assert (Hpc : forall j, 0 <= j -> pc_of w2 j =
        if j =? i then Copy v (sharedStart (stack_of w v)) 0 else pc_of w j).
    { intros j Hj. change (pc_of w2 j) with (at_pc (thread_of w2 j)).
      transitivity (at_pc (if j =? i then Thread (Copy v (sharedStart (stack_of w v)) 0) (child (thread_of w i))
        else thread_of w j)); [|by destruct (j =? i)]. f_equal. by eapply reserve_thread_of. }
    apply measure_work; try done. apply (work_left_reserve w _ i v); try done.
    + intros j Hj Hji Hjv. rewrite (Hst j), (Hpc j) by lia. by rewrite !(proj2 (Z.eqb_neq j _)).
    + rewrite (Hst i), (Hst v), (Hpc i), (Hpc v), !Z.eqb_refl by lia.
      rewrite (proj2 (Z.eqb_neq i v)), (proj2 (Z.eqb_neq v i)) by done.
      rewrite E. unfold work_of. cbn. unfold k in *. lia.
  - unfold steal_fail in E'. inv_ok. apply (quiet_drops w i _ _ w' I Hi E'); try done; cbn [at_pc].
    + by rewrite E.
    + intros w1 Eca Ed Hst. unfold_steps E Eca Ed. rewrite (proj2 (Z.ltb_lt _ _) Hk). lia.
Qed.

Lemma enter_drops w i : inv w -> 0 <= i < N -> pc_of w i = Enter -> drops w i.
Proof.
  intros I Hi E w' E' I'. pose proof N_pos.
  assert (D0 : cb_done w = 0).
  { apply (not_done c fuel size total dn w i); [done | done | by rewrite E | by rewrite E]. }
  take_step I Hi E E'. apply bind_Ok_inv in E' as (f & _ & E'). apply bind_Ok_inv in E' as (w1 & E1 & E').
  apply put_inv in E1 as ->; [|done|done]. cbn [fst snd] in E'. injection E' as <-.
  set (ss := set_nNodes_last _ _) in *. set (t := Thread Spin (child (thread_of w i))) in *.
  destruct (cb_count w + 1 =? num_threads c).
  - (* the last thread: the barrier opens *)
    change (set_cb _ _ _ _) with (update w i ss t (cb_cancel w) (cb_count w + 1) 1) in *.
    set (w' := update w i ss t (cb_cancel w) (cb_count w + 1) 1) in *.
    pose proof (work_left_update w i ss t (cb_cancel w) (cb_count w + 1) 1 I Hi) as Hw. fold w' in Hw.
    assert (work_of ss (at_pc t) = work_of (stack_of w i) (pc_of w i)) by (by rewrite E).
    pose proof (steps_sum_range w' I'). pose proof (steps_sum_range w I).
    assert (1 <= msum 0 N (fun i => steps_left w (pc_of w i))).
    { etransitivity; [|apply (msum_Z_term 0 N i)]; [|intros j Hj; by apply steps_left_range | done].
      rewrite E. unfold steps_left. case_match; lia. }
    unfold measure. rewrite D0. change (cb_done w') with 1.
    replace (work_left w') with (work_left w) by lia. nia.
  - change (set_cb _ _ _ _) with (update w i ss t (cb_cancel w) (cb_count w + 1) (cb_done w)).
    apply measure_quiet; try done; [by left | by rewrite E |].
    rewrite E. cbn [at_pc t]. unfold steps_left. cbn [cb_cancel cb_done update]. rewrite D0.
    destruct (cb_cancel w =? 0); cbn [andb Z.eqb]; lia.
Qed.

(** The barrier's other places. *)
Lemma barrier_drops w i : inv w -> 0 <= i < N -> blocked w (pc_of w i) = false ->
  (pc_of w i = Spin \/ (exists l, pc_of w i = SpinDone l) \/ pc_of w i = Exit \/ pc_of w i = Return) ->
  drops w i.
Proof.
  intros I Hi Hb Hpc w' E' I'. pose proof N_pos.
  destruct Hpc as [E|[[l E]|[E|E]]]; rewrite E in Hb; cbn in Hb; take_step I Hi E E'.
  - apply (quiet_drops w i _ _ w' I Hi E'); try done; cbn [at_pc]; [by rewrite E|].
    intros w1 Eca Ed Hst. unfold_steps E Eca Ed. rewrite Hb.
    destruct (cb_cancel w =? 0); cbn [andb negb] in *; [rewrite Hb|]; lia.
  - apply (quiet_drops w i _ _ w' I Hi E'); try done; cbn [at_pc].
    + rewrite E. by destruct ((l =? 0) && (cb_done w =? 0)).
    + intros w1 Eca Ed Hst. unfold_steps E Eca Ed.
      destruct (l =? 0), (cb_cancel w =? 0), (cb_done w =? 0); cbn in *; done || lia.
  - apply bind_Ok_inv in E' as (f & _ & E'). apply bind_Ok_inv in E' as (w1 & E1 & E').
    apply put_inv in E1 as ->; [|done|done]. cbn [fst snd] in E'. injection E' as <-.
    match goal with |- context [set_cb (update _ _ ?s ?t _ _ _) _ _ _] =>
      change (set_cb _ _ _ _) with (update w i s t 0 (cb_count w - 1) (cb_done w)) end.
    apply measure_quiet; try done; [by right | by rewrite E |].
    rewrite E. cbn. lia.
  - apply (quiet_drops w i _ _ w' I Hi E'); try done; cbn [at_pc].
    + rewrite E. by destruct (_ =? _).
    + intros w1 Eca Ed Hst. unfold_steps E Eca Ed. destruct (cb_done w =? 0), (cb_cancel w =? 0); lia.
Qed.

Lemma step_drops w i : inv w -> 0 <= i < N -> blocked w (pc_of w i) = false -> drops w i.
Proof.
  intros I Hi Hb. destruct (pc_of w i) eqn:E.
  - by apply work_step_drops.
  - by eapply gen_turn_drops.
  - by eapply release_drops.
  - by eapply cancel_drops.
  - by apply acquire_drops.
  - by eapply find_drops.
  - by eapply steal_drops.
  - by eapply reserve_drops.
  - by eapply copy_drops.
  - by apply enter_drops.
  - apply barrier_drops; [done | done | by rewrite E | by left].
  - apply barrier_drops; [done | done | by rewrite E | eauto].
  - apply barrier_drops; [done | done | by rewrite E | eauto].
  - apply barrier_drops; [done | done | by rewrite E | eauto].
  - done.
Qed.

(** ** Threads that spin *)

Lemma spin_update w i pc : inv w -> 0 <= i < N ->
  blocked w (pc_of w i) = true -> blocked w pc = true -> steps_left w pc = steps_left w (pc_of w i) ->
  work_of (stack_of w i) pc = work_of (stack_of w i) (pc_of w i) ->
  let w' := update w i (stack_of w i) (Thread pc (child (thread_of w i)))
              (cb_cancel w) (cb_count w) (cb_done w) in
  (forall j, 0 <= j < N -> blocked w' (pc_of w' j) = blocked w (pc_of w j)) /\ measure w' = measure w.
Proof.
  intros I Hi Hb Hb' Hs Hw w'.
  assert (Hpc : forall j, 0 <= j -> pc_of w' j = if j =? i then pc else pc_of w j).
  { intros j Hj. unfold w'. erewrite pc_of_update by (done || lia). done. }
  assert (Hst : forall j, 0 <= j -> stack_of w' j = stack_of w j).
  { intros j Hj. unfold w'. erewrite stack_of_update by (done || lia). by destruct (Z.eqb_spec j i) as [->|]. }
  split.
  - intros j Hj. rewrite Hpc by lia. destruct (Z.eqb_spec j i) as [->|]; [|done]. by rewrite Hb.
  - pose proof (work_left_update w i (stack_of w i) (Thread pc (child (thread_of w i)))
      (cb_cancel w) (cb_count w) (cb_done w) I Hi) as Hwl. fold w' in Hwl. cbn [at_pc] in Hwl.
    unfold measure. change (cb_done w') with (cb_done w). replace (work_left w') with (work_left w) by lia.
    f_equal. apply msum_ext. intros j Hj. rewrite Hpc by lia.
    assert (Hsl : forall q, (forall v, q = Steal v \/ q = Reserve v -> 0 <= v < N) -> steps_left w' q = steps_left w q).
    { intros q Hq. apply Z.le_antisymm; apply steps_left_mono; auto; intros v Hv; by rewrite Hst by lia. }
    rewrite Hsl; destruct (Z.eqb_spec j i) as [->|]; try done.
    + intros v [-> | ->]; discriminate Hb'.
    + intros v. by apply victim_range.
Qed.

Lemma blocked_step w i w' : inv w -> 0 <= i < N -> blocked w (pc_of w i) = true ->
  thread_step c i w = Ok w' ->
  (forall j, 0 <= j < N -> blocked w' (pc_of w' j) = blocked w (pc_of w j)) /\ measure w' = measure w.
Proof.
  intros I Hi Hb E'. destruct (pc_of w i) eqn:E; try discriminate Hb; cbn in Hb; take_step I Hi E E'.
  - apply put_inv in E' as ->; [|done|done]. cbn [fst snd].
    apply andb_true_iff in Hb as [Hc Hd].
    apply spin_update; rewrite ?E; try done; unfold steps_left; cbn; by rewrite ?Hc, ?Hd.
  - apply put_inv in E' as ->; [|done|done]. cbn [fst snd].
    apply andb_true_iff in Hb as [Hb Hd]. apply andb_true_iff in Hb as [Hl Hc].
    rewrite Hl, Hd. cbn [andb].
    apply spin_update; rewrite ?E; try done; unfold steps_left; cbn; by rewrite ?Hl, ?Hc, ?Hd.
  - injection E' as <-. done.
Qed.

(** Not everybody can spin: the last one to come opens the barrier. *)
Lemma all_blocked_done w : inv w -> (forall i, 0 <= i < N -> blocked w (pc_of w i) = true) ->
  forall i, 0 <= i < N -> pc_of w i = Done.
Proof.
  intros I Hb. destruct (iv_barrier _ _ _ _ _ _ I) as [B1 B2 B3 B4 B5]. destruct B2 as [D|D].
  - exfalso. pose proof (B4 D) as Hlt. pose proof N_pos. unfold N in *.
    rewrite (msum_ext _ _ _ (fun _ => 1)) in B1.
    + rewrite msum_Z_ones in B1 by lia. lia.
    + intros i Hi. specialize (Hb i Hi). specialize (B5 D i Hi). revert Hb B5.
      by destruct (pc_of w i).
  - intros i Hi. specialize (Hb i Hi). revert Hb. unfold blocked. rewrite D.
    by destruct (pc_of w i); cbn; rewrite ?andb_false_r.
Qed.

(** ** Fair executions *)

Section Fair.
Context (states : nat -> world St) (schedule : nat -> Z).
Hypotheses (Hinv : inv (states 0%nat))
  (Hstep : forall n, 0 <= schedule n < N /\ thread_step c (schedule n) (states n) = Ok (states (S n)))
  (Hfair : forall i n, 0 <= i < N -> exists m, (n <= m)%nat /\ schedule m = i).

Lemma states_inv n : inv (states n).
Proof.
  induction n as [|n IH]; [done|]. destruct (Hstep n) as [Hi E].
  eapply step_inv; [exact CO | exact IH |]. by exists (schedule n).
Qed.

(** Before the next step that matters only spinning happens. *)
Lemma next_progress n i d : 0 <= i < N -> blocked (states n) (pc_of (states n) i) = false ->
  schedule (n + d) = i -> exists m, (n <= m)%nat /\ measure (states (S m)) < measure (states n).
Proof.
  revert n. induction d as [|d IH]; intros n Hi Hb Hs.
  - rewrite Nat.add_0_r in Hs. destruct (Hstep n) as [_ E]. rewrite Hs in E. exists n.
    split; [done|]. by apply (step_drops (states n) i (states_inv n) Hi Hb _ E), states_inv.
  - destruct (Hstep n) as [Hj E]. destruct (blocked (states n) (pc_of (states n) (schedule n))) eqn:Hbj.
    + destruct (blocked_step _ _ _ (states_inv n) Hj Hbj E) as [Hsame Hm].
      destruct (IH (S n)) as (m & Hle & Hlt); [done | by rewrite Hsame | by rewrite Nat.add_succ_comm |].
      exists m. split; [lia|]. by rewrite <- Hm.
    + exists n. split; [done|]. by apply (step_drops _ _ (states_inv n) Hj Hbj _ E), states_inv.
Qed.

Lemma measure_nonneg w : inv w -> 0 <= measure w.
Proof.
  intros I. pose proof (steps_sum_range w I). pose proof (work_left_nonneg w I).
  pose proof (bo_done _ _ _ (iv_barrier _ _ _ _ _ _ I)). unfold measure, most_steps in *.
  pose proof k_pos. pose proof N_pos. nia.
Qed.

Lemma some_blocked w : (forall i, 0 <= i < N -> blocked w (pc_of w i) = true) \/
  exists i, 0 <= i < N /\ blocked w (pc_of w i) = false.
Proof.
  destruct (all_below (Z.to_nat N) (fun i => blocked w (pc_of w i))) eqn:E.
  - left. intros i Hi. apply (all_below_spec _ (fun i => blocked w (pc_of w i)) i E). lia.
  - right. unfold all_below in E.
    assert (Hx : existsb (fun a => negb (blocked w (pc_of w (Z.of_nat a)))) (seq 0 (Z.to_nat N)) = true).
    { revert E. generalize (seq 0 (Z.to_nat N)). induction l as [|a l IH]; [done|]. simpl.
      by destruct (blocked w (pc_of w (Z.of_nat a))). }
    apply existsb_exists in Hx as (x & Hx & Hb). apply in_seq in Hx.
    exists (Z.of_nat x). split; [lia|]. by apply negb_true_iff.
Qed.

Lemma all_done_eventually : exists n, forall i, 0 <= i < N -> pc_of (states n) i = Done.
Proof.
  enough (W : forall b n, measure (states n) < Z.of_nat b -> exists n, forall i, 0 <= i < N -> pc_of (states n) i = Done).
  { apply (W (S (Z.to_nat (measure (states 0%nat)))) 0%nat).
    pose proof (measure_nonneg _ (states_inv 0)). lia. }
  induction b as [|b IH]; intros n Hn; [pose proof (measure_nonneg _ (states_inv n)); lia|].
  destruct (some_blocked (states n)) as [Hb|(i & Hi & Hb)].
  - exists n. apply all_blocked_done; [apply states_inv | done].
  - destruct (Hfair i n Hi) as (m & Hle & Hs).
    destruct (next_progress n i (m - n) Hi Hb) as (m' & _ & Hlt).
    { by replace (n + (m - n))%nat with m by lia. }
    apply (IH (S m')). lia.
Qed.
End Fair.
End Liveness.

(** ** Theorems *)

(** An execution: the threads are scheduled one at a time, for ever, and none
    of them stops with an error. *)
Definition execution `{SearchTree St} (c : config) (states : nat -> world St) (schedule : nat -> Z) : Prop :=
  forall n, 0 <= schedule n < num_threads c /\ thread_step c (schedule n) (states n) = Ok (states (S n)).

Definition fair (c : config) (schedule : nat -> Z) : Prop :=
  forall i n, 0 <= i < num_threads c -> exists m, (n <= m)%nat /\ schedule m = i.

(** C4: the search ends, whatever the order in which the threads run: in
    every execution that gives each thread its turn again and again, all
    threads finish, and then the statistics are those of the tree.  So no
    wake-up of the barrier is lost, and no two threads steal the same nodes
    from each other for ever. *)
Theorem fair_search_terminates `{SearchTree St} (c : config) (fuel : nat) (size sizeof_Node : Z)
    (ALLOC : Z -> option (list (node St))) (garbage : St) (root : node St) (total : stats)
    (states : nat -> world St) (schedule : nat -> Z) :
  setup c fuel size sizeof_Node ALLOC root total ->
  pthread_init c ALLOC sizeof_Node size garbage root = Ok (states 0%nat) ->
  execution c states schedule -> fair c schedule ->
  exists n, Forall (fun t => at_pc t = Done) (threads (states n)) /\
    msum 0 (num_threads c) (fun i => match (stealStack (states n)).[i] with Ok ss => nNodes ss | Err _ => 0 end) =
      Z.of_N (nodes total).
Proof.
  intros SU E0 Hexec Hfair. pose proof (su_config _ _ _ _ _ _ _ SU) as CO.
  assert (I0 : inv c fuel size total root (states 0%nat)).
  { apply (reachable_inv c fuel size sizeof_Node ALLOC garbage root total SU). by exists (states 0%nat). }
  destruct (all_done_eventually c fuel size total root CO states schedule I0 Hexec Hfair) as [n Hn].
  pose proof (states_inv c fuel size total root CO states schedule I0 Hexec n) as I.
  exists n. split.
  - apply list.Forall_forall. intros t Ht. apply (In_zth (Thread Work root)) in Ht as (i & Hi & <-).
    rewrite (iv_threads _ _ _ _ _ _ I) in Hi. by apply Hn.
  - assert (D : cb_done (states n) = 1).
    { pose proof (iv_barrier _ _ _ _ _ _ I) as B. destruct (bo_done _ _ _ B) as [D|]; [|done].
      pose proof (co_threads _ _ _ CO). exfalso. apply (bo_end _ _ _ B D 0 ltac:(lia)), Hn. lia. }
    rewrite <- (done_total c fuel size total root _ I D), nodes_msum. apply msum_ext. intros i Hi.
    destruct (thread_step_pc c fuel size total root _ i I Hi) as [-> _].
    pose proof (so_counts _ _ _ _ _ (to_stack _ _ _ _ _ _ (iv_thread _ _ _ _ _ _ I i Hi))). cbn. lia.
Qed.

(** *** The small search, two threads in turn *)

Module SmallRun.
Import StealSearch.Small.
#[local] Existing Instance tree.

Lemma run_app s1 s2 w : run cfg (s1 ++ s2) w = (w ← run cfg s1 w; run cfg s2 w).
Proof.
  revert w. induction s1 as [|i s1 IH]; intros w; [done|]. cbn [run app].
  rewrite bind_assoc. destruct (thread_step cfg i w); [apply IH | done].
Qed.

Definition start : world Z :=
  Eval vm_compute in match after 6 0 with Ok w => w | Err _ => World [] [] 0 0 0 end.

Definition states (n : nat) : world Z :=
  match run cfg (turns n) start with Ok w => w | Err _ => at_end end.

Lemma turns_S n : turns (S n) = turns n ++ [Z.of_nat (n mod 2)].
Proof. unfold turns. rewrite seq_S, map_app. done. Qed.

Lemma turns_add n m : turns (n + m) = turns n ++ map (fun i => Z.of_nat (i mod 2)) (seq n m).
Proof. unfold turns. by rewrite seq_app, map_app. Qed.

Lemma end_stays m n : run cfg (map (fun i => Z.of_nat (i mod 2)) (seq n m)) at_end = Ok at_end.
Proof.
  revert n. induction m as [|m IH]; intros n; [done|]. cbn [seq map run].
  assert (E : (n mod 2 = 0 \/ n mod 2 = 1)%nat) by (pose proof (Nat.mod_upper_bound n 2 ltac:(lia)); lia).
  assert (Es : thread_step cfg (Z.of_nat (n mod 2)) at_end = Ok at_end)
    by (destruct E as [-> | ->]; vm_compute; reflexivity).
  rewrite Es. cbn [mbind res_bind]. apply IH.
Qed.

Lemma states_run n : run cfg (turns n) start = Ok (states n).
Proof.
  assert (E : run cfg (turns 150) start = Ok at_end) by (vm_compute; reflexivity).
  unfold states. destruct (run cfg (turns n) start) as [w|f] eqn:En; [done|]. exfalso.
  destruct (Nat.le_gt_cases 150 n) as [Hle|Hlt].
  - replace n with (150 + (n - 150))%nat in En by lia.
    rewrite turns_add, run_app, E in En. cbn [mbind res_bind] in En. by rewrite end_stays in En.
  - replace 150%nat with (n + (150 - n))%nat in E by lia. by rewrite turns_add, run_app, En in E.
Qed.

Lemma is_execution : execution cfg states (fun n => Z.of_nat (n mod 2)).
Proof.
  intros n. split.
  - pose proof (Nat.mod_upper_bound n 2 ltac:(lia)). cbn. lia.
  - pose proof (states_run (S n)) as E. rewrite turns_S, run_app, states_run in E.
    cbn [mbind res_bind run] in E. by destruct (thread_step cfg (Z.of_nat (n mod 2)) (states n)).
Qed.

Lemma is_fair : fair cfg (fun n => Z.of_nat (n mod 2)).
Proof.
  intros i n Hi. cbn in Hi. exists (2 * n + Z.to_nat i)%nat. split; [lia|].
  rewrite (Nat.mul_comm 2), Nat.add_comm, Nat.Div0.mod_add.
  assert (Hc : i = 0 \/ i = 1) by lia. destruct Hc as [-> | ->]; reflexivity.
Qed.

Lemma fair_search_terminates_witness : exists n,
  Forall (fun t => at_pc t = Done) (threads (states n)) /\
  msum 0 2 (fun i => match (stealStack (states n)).[i] with Ok ss => nNodes ss | Err _ => 0 end) = 7.
Proof.
  apply (fair_search_terminates cfg 3 6 40 alloc 0 root (Stats 7 4 2) states (fun n => Z.of_nat (n mod 2))).
  - apply is_setup. lia.
  - vm_compute. reflexivity.
  - apply is_execution.
  - apply is_fair.
Defined.
End SmallRun.
